(* ===== verification/_CoqProject ===== *)
-Q . S2P
Prelude.v
MpsFifo.v
MpsQueue.v
MpsPool.v
MpsSkb.v
Icu.v
MpsDevice.v
MpsRpc.v
MpsProc.v
MpsRemote.v
Port.v
Arith64.v
Cgu.v
Wdt.v
Gptu.v
Led.v
DmaCore.v
DmaRing.v
DmaTasklet.v
DmaSetup.v
MemCopy.v
Irq.v
SerialCore.v
SerialTx.v
SerialOpen.v
SerialIoctl.v
Asc.v
AscTx.v
AscRx.v
AscSetup.v
AscClose.v
AscOpen.v
AscIoctl.v
AscLife.v
AscDrain.v
AscInfo.v
