(* ===== verification/Prelude.v ===== *)
(** * Danube board-support package: a verification library

    The program is the board-support package of the Infineon Danube / TwinPass-E
    in [src/core1/source/kernel/ifx/danube_bsp/], as it is built for the second
    core of a router: the drivers by which the two cores exchange messages and
    buffers, and those of the interrupt, DMA, timer, clock, watchdog and port
    hardware.  Everything else in the repository is vendored (Linux 2.4.31, open
    source programs) or glue.

    ** Parts, files and how they interact

    - [Prelude]: C operators at their width, bit lemmas, ioctl numbers, the
      address macros of the kernel, list and bit automation ([bool_prop], the
      hint databases [bits] and [upd]).
    - [MpsFifo] ([mps_tpe_device.c], the [ifx_mpsdrv_fifo_*] functions): a mailbox
      FIFO in shared memory.  [MpsQueue] and [MpsPool] ([mps_tpe_buffer.c]): the
      rings of buffer pointers and the pools made of them.  [MpsDevice]
      ([mps_tpe_device.c]): the driver over the FIFOs, the queues of received
      messages and its own interrupts; it uses [MpsFifo], [MpsPool] and [Icu].
    - [MpsSkb] ([mps_tpe_buffer.c]): the socket buffers of the kernel over buffers
      of a pool: copying, expanding, trimming and freeing a packet.
    - [MpsRpc] ([mps_tpe_linux.c]): the service interface over [MpsDevice]: calls
      of a function on the other CPU and the replies to them, the callbacks of
      commands and data channels, the files, ioctls and start-up.  [MpsProc]: its
      ready file under /proc.  [MpsRemote]: two instances of [MpsRpc], one per
      CPU, with the commands each sends delivered to the other.
    - [Icu] ([basic/interrupt.c]): masking and enabling the 160 lines, and the
      dispatchers.  [MpsDevice], [Gptu] and [DmaCore] call its operations, so
      the theorems of these speak of the real enable registers.
    - [Port] ([port/port.c]): ownership of pins and access to their registers.
    - [Arith64]: the 64-bit arithmetic that [drivers/char/danube_cgu.c] and
      [danube_gptu.c] each have a copy of.  [Cgu] ([danube_cgu.c]): every clock,
      from the registers.  [Gptu] ([danube_gptu.c]) and [Wdt] ([danube_wdt.c])
      compute their reload values from the clocks of [Cgu].  [Led]
      ([drivers/char/danube_led.c]): the LED controller, a client of [Port] (its
      pins), [Gptu] (its update clock) and [Cgu].
    - [DmaCore] ([basic/dma-core.c]): data and operations of the central DMA
      driver; [DmaRing], [DmaTasklet], [DmaSetup]: its theorems on the rings, on
      interrupts and the tasklet, and on start-up, reservation and registration.
      [MemCopy] ([drivers/char/memcopy.c]): a client of the DMA driver, composed
      with it.
    - [Irq] (Linux, [arch/mips/kernel/irq.c]): the descriptors of the lines, with
      requesting, freeing, enabling, disabling and [do_IRQ], over the operations
      of [Icu].  [SerialCore] (Linux, [drivers/char/serial_core.c], and the flip
      buffer of [tty_io.c]): what lies between a terminal and the driver of a
      port, against the class [UartOps] of a driver's operations.  [SerialTx]: its
      way to send, as a refinement of a queue by any driver with three laws
      ([TxDriver]).  [Asc] ([drivers/char/ifx_asc.c]): the serial port driver, an
      instance of [UartOps] over [Irq] and the clocks of [basic/setup.c]; [AscTx]
      (sending; an instance of [TxDriver]), [AscRx] (receiving) and [AscSetup]
      (speed and console): its theorems.  [SerialOpen] (Linux, [serial_core.c],
      [tty_io.c], [tty_ioctl.c], [n_tty.c]): the life of a port, from the first open
      of its terminal to the last release, with hangups and the waits of a close;
      [SerialIoctl] (Linux, [tty_ioctl.c], [serial_core.c]): the ioctls of the terminal
      and of its port, against the class [PortOps] of what a driver says of its
      resources.  [AscClose], [AscOpen] and [AscIoctl]: that every call on this
      driver returns and keeps the port in order; [AscLife], [AscDrain] and [AscInfo]:
      the theorems on all runs of calls, on the last close, and on the settings.

    ** How the code is translated

    Words are [Z] with [w32] and [s32] where C wraps; registers are a memory
    from addresses to words; the state of a driver is a record with a setter per
    field, or a store for drivers that keep no data.  A C function is the
    [Definition] or [Fixpoint] of its name, from the state to the result and the
    new state; named parts of long functions follow the order of their bodies.
    An [option] is [None] where C has no meaning or does not return: a null or
    invalid pointer, an index outside its table, a division by zero, a panic, a
    value never set.  Each file says which of these it has.  Calls into the
    kernel, other drivers and the answers of hardware are arguments: section
    variables ([kmalloc], [request_irq], [settles], [client_alloc],
    [client_handler]), a record of operations ([kernel_ops]: the kernel's routines
    on socket buffers), oracle lists of results, or function arguments.  What a
    theorem asks of them is among its hypotheses, with a concrete instance in
    its witness.

    ** Concurrency

    Where two agents share state without a lock, the model goes down to the
    accesses: [MpsQueue] has the individual loads and stores of a producer and a
    consumer on the two CPUs, [MpsFifo] the order of the stores of one message,
    [DmaTasklet] a step relation of the tasklet, the interrupts of all enabled
    lines and the hardware, in which the executable tasklet is the run nothing
    interrupts.  Code that runs with interrupts disabled is one step.

    ** Theorems

    - Refinement of abstract queues: [fifo_refines_queue], [fifo_capacity],
      [mps_queue_refines_list], [tx_write_refines], [rx_read_in_order],
      [asc_tx_refines] (serial core, driver, kernel lines and interrupt unit
      together, interrupts included); of a local call by a call on the other CPU:
      [remote_calls_refine_local].
    - Conservation of buffers over all runs: [pool_conservation],
      [mps_queue_spsc], [tx_buffers_conserved], [rx_buffers_returned].
    - Delivery and liveness, composed over interrupt, tasklet and FIFO or ring:
      [cpu1_delivery], [cpu0_delivery], [tasklet_dispatches],
      [no_lost_interrupt], [tasklet_delivers], [tasklet_returns], [asc_tx_drains],
      [close_sends] (down to the last close).
    - Invariants of reachable states: [gptu_reachable_consistent],
      [led_reachable_consistent] (power, pins and flags, and every call returns),
      [port_ownership_stable], [data_callbacks_agree], [wdt_password_pairs],
      [irq_lines_agree] (enable registers and descriptors), [asc_rx_in_order] (the
      flip buffer stays in its bounds and in order), [port_life] (counts of files
      and the interrupt lines of the serial port over opens, closes, hangups and
      ioctls, and every call returns, with what is left out said there).
    - Outcomes of calls on every branch: [mbx_send_outcomes], [mbx_rcv_head],
      [mbx_read_copies], [request_timer_allocates], [reserve_outcomes],
      [port_reserve_exclusive], [wdt_enable_outcomes], [gptu_init_outcomes],
      [init_outcomes], [dma_init_rings], [led_set_data_outcomes],
      [led_config_registers].
    - Arithmetic against its specification: [set_timer_period] (from the clock
      unit's registers to the timer's reload value), [pll_outputs_nearest],
      [divider_arithmetic], [ls1bit32_lowest], [tx_descriptor_roundtrip],
      [change_speed_nearest], [console_rates] (from the clock unit's registers to the
      rate of the console), [wfq_select_spec], [request_free_roundtrip], [ready_file_roundtrip] (the text
      of the ready file read back as the words it shows), [settings_read_back] (of
      the serial port, by whoever may set them).
    - Packets: [skb_trim_spec], and where the data of a copy comes to lie,
      [skb_copy_displaced], [realloc_headroom_displaced].
    - Behaviour that is not what the code means to do, stated as it is:
      [undeliverable_never_ends], [rx_failed_packet_redelivered],
      [memcopy_never_succeeds], [fifo_write_publication], [skb_copy_displaced],
      [expand_head_frees_packet], [signalled_call_starves], [datalist_free_leaks],
      [reset_loses_callbacks], [long_word_overruns], [led_update_clock_lost],
      [asc_xchar_waits], and clauses of [console_rates], [asc_rx_in_order],
      [settings_read_back], [port_life], [set_timer_period], [change_speed_nearest],
      [ready_file_roundtrip], [reserve_outcomes], [dma_init_rings],
      [rx_buffers_returned], [map_dma_chan_mapped] and [wdt_enable_outcomes].

    ** Bounds and fuel

    Loops whose bound is data have fuel: [tasklet_fuel] is the budget's 101
    passes and the test that ends them; [reclaim_fuel] one turn per descriptor
    and one test; the mailbox readers and dispatchers one turn per message that
    fits the FIFO or is queued ([dispatch_fuel]); [transmit_loop] one turn per byte;
    [update_fuel] (of [Led]) the hundred polls and the test that ends them; the
    write loops of [SerialCore] one turn per byte and one to stop, the loop of
    [do_IRQ] one turn where no second interrupt comes while handlers run; the waits
    of [SerialOpen] one turn per sleep, so many that their time runs out
    ([machine_ok]).  For each a
    theorem says the result is there ([tasklet_returns], [tx_write_refines],
    [mbx_read_copies], [tasklet_dispatches], [memcopy_never_succeeds],
    [asc_tx_refines], [port_life], [close_sends]).  A wait for hardware ([poll],
    [wait_fstat]) ends exactly when the hardware parameter says so.

    ** Not modelled

    Cache maintenance and memory barriers have no effect on values; the calls
    with a buffer are recorded as events in [DmaCore].  Of the text under /proc
    only that of [Port] and [MpsProc] is modelled; printing is not, and of module
    and device registration only the answers matter.  Unloading the mailbox
    driver calls a function that only the configuration with kernel threads
    has.  Of the serial core, registration and /proc are not modelled, nor calls of
    two processes on one port that interleave while the first sleeps; of the ioctls
    of a terminal, the older forms ([termio], [sgttyb]) and those of the line
    discipline alone.  Of the interrupt lines, probing and /proc are left out.  The drivers for the SSC, its EEPROM and
    the power, reset and bus units are not enabled in this configuration.
    Parts the configuration compiles out: the second Ethernet driver in the
    DMA code; the mailbox driver's interrupt mitigation, kernel threads and
    back-log queue.  The modem interface, the Ethernet and encryption drivers work
    for firmware or hardware whose behaviour the repository does not hold. *)

From Stdlib Require Export ZArith Lia Bool List Btauto.
From stdpp Require Export base option list relations.

#[export] Set Default Goal Selector "!".
Open Scope Z_scope.

(** ** Notations for the C operators *)

Declare Scope c_scope.
Delimit Scope c_scope with c.
Infix ".|" := Z.lor (at level 50, left associativity) : c_scope.
Infix ".&" := Z.land (at level 40, left associativity) : c_scope.
Infix ".^" := Z.lxor (at level 45, left associativity) : c_scope.
Infix ".<<" := Z.shiftl (at level 37, left associativity) : c_scope.
Infix ".>>" := Z.shiftr (at level 37, left associativity) : c_scope.
Notation ".~ x" := (Z.lnot x) (at level 35, right associativity) : c_scope.
Open Scope c_scope.

(** ** Machine words *)

(** [w32 x]: the value a 32-bit unsigned object holds after [x] is assigned. *)
Definition w32 (x : Z) : Z := x mod 2 ^ 32.

(** [s32 x]: the value a 32-bit signed object holds after [x] is assigned
    (two's complement, the target's behaviour). *)
Definition s32 (x : Z) : Z := (x + 2 ^ 31) mod 2 ^ 32 - 2 ^ 31.

Definition is_u32 (x : Z) : Prop := 0 <= x < 2 ^ 32.

Lemma w32_range x : is_u32 (w32 x).
Proof. unfold is_u32, w32. apply Z.mod_pos_bound. lia. Qed.

Lemma w32_id x : is_u32 x -> w32 x = x.
Proof. intros H. apply Z.mod_small, H. Qed.

Lemma testbit_w32 x i : 0 <= i -> Z.testbit (w32 x) i = Z.testbit x i && bool_decide (i < 32).
Proof.
  intros Hi. unfold w32. case_bool_decide.
  - by rewrite Z.mod_pow2_bits_low, andb_true_r by lia.
  - by rewrite Z.mod_pow2_bits_high, andb_false_r by lia.
Qed.

Lemma s32_id x : - 2 ^ 31 <= x < 2 ^ 31 -> s32 x = x.
Proof. intros H. unfold s32. rewrite Z.mod_small; lia. Qed.

Lemma w32_s32 x : w32 (s32 x) = w32 x.
Proof.
  unfold w32, s32. rewrite Zminus_mod, Z.mod_mod by lia. rewrite <- Zminus_mod. f_equal. lia.
Qed.

Lemma is_u32_bits x :
  0 <= x -> (forall i, 32 <= i -> Z.testbit x i = false) -> is_u32 x.
Proof.
  intros Hx Hb. unfold is_u32. split; [done|].
  destruct (Z.eq_dec x 0) as [->|Hnz]; [lia|].
  apply Z.log2_lt_pow2; [lia|].
  destruct (Z.lt_ge_cases (Z.log2 x) 32) as [|Hge]; [done|].
  specialize (Hb _ Hge). rewrite Z.bit_log2 in Hb; [done|lia].
Qed.

Lemma testbit_u32_high x i : is_u32 x -> 32 <= i -> Z.testbit x i = false.
Proof.
  intros [H0 H1] Hi. destruct (Z.eq_dec x 0) as [->|Hnz]; [apply Z.bits_0|].
  apply Z.bits_above_log2; [done|].
  assert (Z.log2 x < 32) by (apply Z.log2_lt_pow2; lia). lia.
Qed.

Lemma u32_lor x y : is_u32 x -> is_u32 y -> is_u32 (x .| y).
Proof.
  intros Hx Hy. apply is_u32_bits.
  - apply Z.lor_nonneg. unfold is_u32 in *. lia.
  - intros i Hi. by rewrite Z.lor_spec, !testbit_u32_high.
Qed.

Lemma u32_land_l x y : is_u32 x -> is_u32 (x .& y).
Proof.
  intros Hx. apply is_u32_bits.
  - apply Z.land_nonneg. unfold is_u32 in *. lia.
  - intros i Hi. by rewrite Z.land_spec, testbit_u32_high.
Qed.

Lemma u32_bit n : 0 <= n < 32 -> is_u32 (1 .<< n).
Proof.
  intros Hn. unfold is_u32. rewrite Z.shiftl_1_l. split; [lia|].
  apply Z.pow_lt_mono_r; lia.
Qed.

Lemma u32_shiftr x n : 0 <= n -> is_u32 x -> is_u32 (x .>> n).
Proof.
  intros Hn [H0 H1]. unfold is_u32. rewrite Z.shiftr_div_pow2 by done.
  split; [apply Z.div_pos; lia|].
  apply Z.div_lt_upper_bound; [lia|]. nia.
Qed.

Create HintDb u32.
#[export] Hint Resolve w32_range u32_lor u32_land_l u32_bit u32_shiftr : u32.
#[export] Hint Extern 2 (is_u32 _) => (unfold is_u32; lia) : u32.
#[export] Hint Extern 3 (_ <= _) => lia : u32.
#[export] Hint Extern 3 (_ <= _ < _) => lia : u32.

(** ** Single-bit updates of a register: [reg |= 1 << n], [reg &= ~(1 << n)] *)

Definition bit_set (reg n : Z) : Z := reg .| 1 .<< n.
Definition bit_clr (reg n : Z) : Z := reg .& .~ (1 .<< n).

Lemma testbit_1_shiftl n i : 0 <= n -> 0 <= i -> Z.testbit (1 .<< n) i = bool_decide (i = n).
Proof.
  intros Hn Hi. rewrite Z.shiftl_spec by done. case_bool_decide as E.
  - subst. by rewrite Z.sub_diag.
  - destruct (Z.lt_ge_cases i n).
    + apply Z.testbit_neg_r. lia.
    + apply Z.bits_above_log2; [lia|]. change (Z.log2 1) with 0. lia.
Qed.

Lemma testbit_bit_set reg n i :
  0 <= n -> 0 <= i ->
  Z.testbit (bit_set reg n) i = Z.testbit reg i || bool_decide (i = n).
Proof. intros Hn Hi. unfold bit_set. by rewrite Z.lor_spec, testbit_1_shiftl. Qed.

Lemma testbit_bit_clr reg n i :
  0 <= n -> 0 <= i ->
  Z.testbit (bit_clr reg n) i = Z.testbit reg i && negb (bool_decide (i = n)).
Proof.
  intros Hn Hi. unfold bit_clr.
  by rewrite Z.land_spec, Z.lnot_spec, testbit_1_shiftl.
Qed.

Create Rewrite HintDb bits.
#[export] Hint Rewrite testbit_bit_set testbit_bit_clr using lia : bits.

Lemma u32_bit_set reg n : is_u32 reg -> 0 <= n < 32 -> is_u32 (bit_set reg n).
Proof. intros. unfold bit_set. auto with u32. Qed.

Lemma u32_bit_clr reg n : is_u32 reg -> is_u32 (bit_clr reg n).
Proof. intros. unfold bit_clr. auto with u32. Qed.

#[export] Hint Resolve u32_bit_set u32_bit_clr : u32.

(** [reg & (1 << n)] tests bit [n]. *)
Lemma land_bit_eqb0 reg n :
  0 <= n -> (reg .& 1 .<< n =? 0) = negb (Z.testbit reg n).
Proof.
  intros Hn. destruct (Z.testbit reg n) eqn:E; cbn.
  - apply Z.eqb_neq. intros H0.
    assert (Hb : Z.testbit (reg .& 1 .<< n) n = true)
      by (rewrite Z.land_spec, E, testbit_1_shiftl, bool_decide_true; done).
    rewrite H0, Z.bits_0 in Hb. done.
  - apply Z.eqb_eq, Z.bits_inj'. intros i Hi.
    rewrite Z.land_spec, testbit_1_shiftl, Z.bits_0 by done.
    case_bool_decide; [subst; by rewrite E|apply andb_false_r].
Qed.

(** A field set above a smaller one. *)
Lemma lor_shiftl_add a b k : 0 <= k -> 0 <= b < 2 ^ k -> (a .<< k) .| b = a * 2 ^ k + b.
Proof.
  intros Hk Hb. rewrite Z.shiftl_mul_pow2 by lia. symmetry. apply Z.add_nocarry_lor.
  apply Z.bits_inj'. intros i Hi. rewrite Z.land_spec, Z.bits_0.
  destruct (Z.lt_ge_cases i k).
  - by rewrite Z.mul_pow2_bits_low by done.
  - destruct (Z.eq_dec b 0) as [->|]; [by rewrite Z.bits_0, andb_false_r|].
    rewrite (Z.bits_above_log2 b); [apply andb_false_r|lia|].
    apply Z.lt_le_trans with k; [apply Z.log2_lt_pow2; lia|done].
Qed.

(** ** Counting up to a bound *)

(** The indices 0, 1, ... below [n]. *)
Definition below (n : Z) : list Z := map Z.of_nat (seq 0 (Z.to_nat n)).

Lemma in_below i n : In i (below n) <-> 0 <= i < n.
Proof.
  unfold below. rewrite in_map_iff. split.
  - intros (k & <- & Hk%in_seq). lia.
  - intros H. exists (Z.to_nat i). split; [lia|]. apply in_seq. lia.
Qed.

Lemma below_forall (P : Z -> bool) n : forallb P (below n) = true -> forall i, 0 <= i < n -> P i = true.
Proof. intros H i Hi. apply (proj1 (forallb_forall _ _) H). by apply in_below. Qed.

Lemma length_below n : length (below n) = Z.to_nat n.
Proof. unfold below. by rewrite length_map, length_seq. Qed.

Lemma below_add a b : 0 <= a -> 0 <= b -> below (a + b) = below a ++ map (Z.add a) (below b).
Proof.
  intros Ha Hb. unfold below. rewrite Z2Nat.inj_add, seq_app, map_app by lia. f_equal.
  rewrite map_map. apply list_eq. intros i. change (map ?f ?l) with (f <$> l).
  rewrite !list_lookup_fmap. destruct (decide (i < Z.to_nat b)%nat) as [Hi|Hi].
  - rewrite !lookup_seq_lt by done. cbn. f_equal. lia.
  - by rewrite !lookup_seq_ge by lia.
Qed.

(** ** Memory-mapped registers and word memories: total stores [Z -> Z] *)

Definition upd (m : Z -> Z) (a v : Z) : Z -> Z :=
  fun x => if x =? a then v else m x.

Arguments upd : simpl never.

Lemma upd_eq m a v : upd m a v a = v.
Proof. unfold upd. by rewrite Z.eqb_refl. Qed.

Lemma upd_ne m a b v : b <> a -> upd m a v b = m b.
Proof. intros H. unfold upd. by rewrite (proj2 (Z.eqb_neq b a)). Qed.

Create Rewrite HintDb upd.
#[export] Hint Rewrite upd_eq : upd.
#[export] Hint Rewrite upd_ne using (first [assumption | congruence | lia]) : upd.
Ltac upd_simpl := autorewrite with upd in *.

(** ** The kernel's address segments ([include/asm-mips/addrspace.h]) *)

(** The physical address, and the cached and uncached aliases, of an address. *)
Definition CPHYSADDR (a : Z) : Z := a .& 0x1fffffff.
Definition KSEG0ADDR (a : Z) : Z := CPHYSADDR a .| 0x80000000.
Definition KSEG1ADDR (a : Z) : Z := CPHYSADDR a .| 0xa0000000.

(** ** Linux error numbers used by the drivers *)

Definition OK : Z := 0.
Definition EIO : Z := 5.
Definition EAGAIN : Z := 11.
Definition ENOMEM : Z := 12.
Definition EFAULT : Z := 14.
Definition EBUSY : Z := 16.
Definition EEXIST : Z := 17.
Definition EINVAL : Z := 22.
Definition ENOTTY : Z := 25.
Definition ENOMSG : Z := 42.

(** [ret_simpl]: compute the tests of a constant return value. *)
Ltac ret_simpl :=
  repeat match goal with
  | |- context [- ?e =? 0] => change (- e =? 0) with false
  | |- context [OK =? 0] => change (OK =? 0) with true
  | _ => progress cbn [mbind option_bind]
  end.

(** ** ioctl numbers ([include/asm-mips/ioctl.h]): 8 bits of number, 8 of
    type, 13 of size, 3 of direction *)

Definition IOC_NONE : Z := 1.
Definition IOC_WRITE : Z := 4.
Definition IOC_READ : Z := 2.
Definition IOC_TYPE (cmd : Z) : Z := (cmd .>> 8) .& 0xff.
Definition IOC_NR (cmd : Z) : Z := cmd .& 0xff.
Definition IOC_DIR (cmd : Z) : Z := (cmd .>> 29) .& 7.
Definition IOC (dir type nr size : Z) : Z :=
  (dir .<< 29) .| (type .<< 8) .| nr .| (size .<< 16).

(** ** Case analysis on the drivers' guards *)

Ltac bool_prop :=
  repeat match goal with
  | H : (_ <? _) = true |- _ => apply Z.ltb_lt in H
  | H : (_ <? _) = false |- _ => apply Z.ltb_ge in H
  | H : (_ <=? _) = true |- _ => apply Z.leb_le in H
  | H : (_ <=? _) = false |- _ => apply Z.leb_gt in H
  | H : (_ >? _) = true |- _ => rewrite Z.gtb_ltb in H
  | H : (_ >? _) = false |- _ => rewrite Z.gtb_ltb in H
  | H : (_ =? _) = true |- _ => apply Z.eqb_eq in H
  | H : (_ =? _) = false |- _ => apply Z.eqb_neq in H
  | H : _ && _ = true |- _ => apply andb_true_iff in H as [??]
  | H : _ && _ = false |- _ => apply andb_false_iff in H
  | H : _ || _ = true |- _ => apply orb_true_iff in H
  | H : _ || _ = false |- _ => apply orb_false_iff in H as [??]
  | H : negb _ = true |- _ => apply negb_true_iff in H
  | H : negb _ = false |- _ => apply negb_false_iff in H
  end.

(** [split_if]: one case per outcome of the first guard of the goal. *)
Ltac split_if :=
  match goal with
  | |- context [if ?b then _ else _] => destruct b eqn:?; bool_prop
  end.
