(* ===== verification/MpsFifo.v ===== *)
(** * Mailbox FIFOs of the dual-core MPS driver ([mps_tpe_device.c])

    A FIFO is a block of 32-bit words in the on-chip SRAM shared by the two
    CPUs, with a read and a write index in words.  Messages are stored whole;
    a set [msg_next_wrapped] bit in a header position tells the reader that
    the next message starts at word 0, and [msg_ready] marks a message as
    readable.  An access outside the block yields [None].

    The file models the FIFO primitives, proves that they implement a queue of
    messages, and relates their word-by-word store order to what the other CPU
    can observe. *)

From S2P Require Import Prelude.
Open Scope Z_scope.

(** ** Message headers

    Word 0 holds type (8), sequence number (8) and command (16); word 1 holds
    priority (8), pad (1), reserved (7), [msg_ready], [msg_next_wrapped],
    reserved (6) and the payload length in bytes (8), from the top bit. *)

Definition msg_type (w0 : Z) : Z := (w0 .>> 24) .& 0xFF.
Definition msg_seqno (w0 : Z) : Z := (w0 .>> 16) .& 0xFF.
Definition msg_cmd (w0 : Z) : Z := w0 .& 0xFFFF.
Definition msg_ready (w1 : Z) : bool := Z.testbit w1 15.
Definition msg_next_wrapped (w1 : Z) : bool := Z.testbit w1 14.
Definition msg_len (w1 : Z) : Z := w1 .& 0xFF.
Definition MPS_MSGHDR_LEN : Z := 8.

Definition READY_BIT : Z := 0x8000.
Definition WRAP_MARK : Z := 0x4000.
Definition MPS_MIN_MARGIN : Z := 2.
Definition ERROR : Z := -1.

(** [(bytes + 3) >> 2]. *)
Definition bytes_to_words (bytes : Z) : Z := w32 (bytes + 3) .>> 2.
(** Words taken by the message whose header word 1 is [w1]. *)
Definition msg_4bytes (w1 : Z) : Z := bytes_to_words (MPS_MSGHDR_LEN + msg_len w1).

Arguments msg_ready : simpl never.
Arguments msg_next_wrapped : simpl never.
Arguments msg_len : simpl never.
Arguments msg_4bytes : simpl never.
Arguments bytes_to_words : simpl never.
Arguments w32 : simpl never.

(** ** State of a FIFO *)

Record mps_fifo := mk_fifo {
  f_mem : Z -> Z;        (* the words from pstart on *)
  pread_off : Z;
  pwrite_off : Z;
  f_size : Z;            (* in bytes *)
  min_space : Z
}.

Definition set_mem (m : Z -> Z) (f : mps_fifo) : mps_fifo :=
  mk_fifo m (pread_off f) (pwrite_off f) (f_size f) (min_space f).
Definition set_read (r : Z) (f : mps_fifo) : mps_fifo :=
  mk_fifo (f_mem f) r (pwrite_off f) (f_size f) (min_space f).
Definition set_write (w : Z) (f : mps_fifo) : mps_fifo :=
  mk_fifo (f_mem f) (pread_off f) w (f_size f) (min_space f).
Definition set_min_space (n : Z) (f : mps_fifo) : mps_fifo :=
  mk_fifo (f_mem f) (pread_off f) (pwrite_off f) (f_size f) n.

Definition f_words (f : mps_fifo) : Z := f_size f / 4.

Definition in_fifo (f : mps_fifo) (i : Z) : bool := (0 <=? i) && (i <? f_words f).
Definition ld (f : mps_fifo) (i : Z) : option Z :=
  if in_fifo f i then Some (f_mem f i) else None.
Definition st (f : mps_fifo) (i v : Z) : option mps_fifo :=
  if in_fifo f i then Some (set_mem (upd (f_mem f) i v) f) else None.

(** ** Operations *)

Definition ifx_mpsdrv_fifo_clear (f : mps_fifo) : mps_fifo := set_write 0 (set_read 0 f).

Definition ifx_mpsdrv_fifo_not_empty (f : mps_fifo) : option (bool * mps_fifo) :=
  h ← ld f (pread_off f + 1);
  let f := if msg_next_wrapped h then set_read 0 f else f in
  h ← ld f (pread_off f + 1);
  Some (msg_ready h, f).

Definition ifx_mpsdrv_fifo_mem_available (f : mps_fifo) : Z :=
  if pread_off f >? pwrite_off f
  then w32 ((pread_off f - pwrite_off f) .<< 2)
  else w32 (f_size f - w32 ((pwrite_off f - pread_off f) .<< 2)).

Definition ifx_mpsdrv_fifo_mem_request (f : mps_fifo) (bytes : Z) : bool :=
  ifx_mpsdrv_fifo_mem_available f >=? bytes.

Definition ifx_mpsdrv_fifo_read_ptr_inc (f : mps_fifo) (increment : Z) : option mps_fifo :=
  if increment >? f_size f then Some f else
  val1 ← ld f (pread_off f + 1);
  f ← st f (pread_off f + 1) (val1 .& .~ READY_BIT);
  Some (set_read (w32 (pread_off f + increment)) f).

(** The returned pointer is the word offset of the message, [None] for NULL. *)
Definition ifx_mpsdrv_fifo_read (f : mps_fifo) : option (option Z * mps_fifo) :=
  h ← ld f (pread_off f + 1);
  let f := if msg_next_wrapped h then set_read 0 f else f in
  h ← ld f (pread_off f + 1);
  if negb (msg_ready h) then Some (None, f) else Some (Some (pread_off f), f).

(** [for (i = 0; i < msg_4bytes; i++) *pNew++ = *pRead++]. *)
Fixpoint copy_words (f : mps_fifo) (pos : Z) (ws : list Z) : option mps_fifo :=
  match ws with
  | nil => Some f
  | x :: ws => f ← st f pos x; copy_words f (pos + 1) ws
  end.

(** The words the loop reads: [n] of them, [None] when [data] is shorter. *)
Definition source_words (data : list Z) (n : Z) : option (list Z) :=
  if Z.of_nat (length data) <? n then None else Some (take (Z.to_nat n) data).

(** The tail of [ifx_mpsdrv_fifo_write]: copy, mark ready, advance the write
    index, clear the next header. *)
Definition fifo_put (f : mps_fifo) (ws : list Z) : option mps_fifo :=
  let pWrt := pwrite_off f in
  f ← copy_words f pWrt ws;
  val1 ← ld f (pWrt + 1);
  f ← st f (pWrt + 1) (val1 .| READY_BIT);
  let next := w32 (pWrt + Z.of_nat (length ws)) in
  let f := set_write next f in
  f ← st f (next + 1) 0;
  st f next 0.

Definition ifx_mpsdrv_fifo_write (f : mps_fifo) (data : list Z) (len : Z)
  : option (Z * mps_fifo) :=
  if len >? f_size f then Some (ERROR, f) else
  h ← ld f (pwrite_off f + 1);
  if msg_ready h then Some (ERROR, f) else
  let n := bytes_to_words len in
  let put f := ws ← source_words data n; f ← fifo_put f ws; Some (OK, f) in
  if pwrite_off f <? pread_off f then
    if w32 (pwrite_off f + n + MPS_MIN_MARGIN) >? pread_off f then Some (ERROR, f)
    else put f
  else if w32 (pwrite_off f + n + MPS_MIN_MARGIN) >=? f_words f then
    f ← st f (pwrite_off f + 1) WRAP_MARK;
    let f := set_write 0 f in
    h ← ld f (pwrite_off f + 1);
    if msg_ready h then Some (ERROR, f) else
    if w32 (pwrite_off f + n + MPS_MIN_MARGIN) >? pread_off f then Some (ERROR, f)
    else put f
  else put f.

(** The receive sequence of [ifx_mpsdrv_mbx_rcv] on one FIFO: look at the
    head, copy it out and step over it. *)
Fixpoint read_words (f : mps_fifo) (pos : Z) (n : nat) : option (list Z) :=
  match n with
  | O => Some nil
  | S n => x ← ld f pos; xs ← read_words f (pos + 1) n; Some (x :: xs)
  end.

Definition fifo_receive (f : mps_fifo) : option (option (list Z) * mps_fifo) :=
  '(p, f) ← ifx_mpsdrv_fifo_read f;
  match p with
  | None => Some (None, f)
  | Some off =>
      w1 ← ld f (off + 1);
      if msg_ready w1 then
        msg ← read_words f off (Z.to_nat (msg_4bytes w1));
        f ← ifx_mpsdrv_fifo_read_ptr_inc f (msg_4bytes w1);
        Some (Some msg, f)
      else Some (None, f)
  end.

(** ** Abstract view: the queue of messages a FIFO holds *)

(** [seg mem pos ws]: the words [ws] stand at [pos]. *)
Definition seg (mem : Z -> Z) (pos : Z) (ws : list Z) : Prop :=
  forall k x, ws !! k = Some x -> mem (pos + Z.of_nat k) = x.

Fixpoint chain (mem : Z -> Z) (pos : Z) (ms : list (list Z)) (e : Z) : Prop :=
  match ms with
  | nil => pos = e
  | m :: ms => seg mem pos m /\ chain mem (pos + Z.of_nat (length m)) ms e
  end.

(** A message the driver may send: its length agrees with its header and the
    wrap bit, reserved to the FIFO, is clear. *)
Definition sendable (m : list Z) : Prop :=
  exists w1, m !! 1%nat = Some w1 /\ is_u32 w1 /\ msg_next_wrapped w1 = false /\
    Z.of_nat (length m) = msg_4bytes w1.

Definition mark_ready (m : list Z) : list Z := alter (fun w => w .| READY_BIT) 1%nat m.

Definition stored (m : list Z) : Prop :=
  sendable m /\ exists w1, m !! 1%nat = Some w1 /\ msg_ready w1 = true.

(** The reader follows the writer in the same lap. *)
Definition lap_same (f : mps_fifo) (ms : list (list Z)) : Prop :=
  let r := pread_off f in let w := pwrite_off f in
  0 <= r <= w /\ w + 2 <= f_words f /\ chain (f_mem f) r ms w /\
  msg_ready (f_mem f (w + 1)) = false /\
  (msg_next_wrapped (f_mem f (w + 1)) = true -> w = 0) /\
  (r = 0 \/ 2 <= r /\ msg_ready (f_mem f 1) = false).

(** The writer has wrapped at [e] and the reader has not yet. *)
Definition lap_ahead (f : mps_fifo) (ms : list (list Z)) : Prop :=
  let r := pread_off f in let w := pwrite_off f in
  exists ms1 ms2 e, ms = ms1 ++ ms2 /\ 0 <= r <= e /\ e + 2 <= f_words f /\
    chain (f_mem f) r ms1 e /\ f_mem f (e + 1) = WRAP_MARK /\
    0 <= w /\ chain (f_mem f) 0 ms2 w /\
    (r = 0 /\ w = 0 /\ ms1 <> [] \/
     w + 2 <= r /\ msg_ready (f_mem f (w + 1)) = false /\
     (0 < w -> msg_next_wrapped (f_mem f (w + 1)) = false)).

Definition fifo_inv (f : mps_fifo) (ms : list (list Z)) : Prop :=
  8 <= f_size f < 2 ^ 30 /\ Forall stored ms /\ (lap_same f ms \/ lap_ahead f ms).

(** ** Lemmas on headers *)

Lemma bytes_to_words_eq b : 0 <= b < 2 ^ 31 -> bytes_to_words b = (b + 3) / 4.
Proof.
  intros H. unfold bytes_to_words. rewrite w32_id by (unfold is_u32; lia).
  by rewrite Z.shiftr_div_pow2.
Qed.

Lemma msg_len_bounds w1 : 0 <= msg_len w1 < 256.
Proof.
  unfold msg_len. change 0xFF with (Z.ones 8). rewrite Z.land_ones by lia.
  apply Z.mod_pos_bound. lia.
Qed.

Lemma msg_4bytes_bounds w1 : 2 <= msg_4bytes w1 <= 66.
Proof.
  pose proof (msg_len_bounds w1). unfold msg_4bytes, MPS_MSGHDR_LEN.
  rewrite bytes_to_words_eq by lia.
  Z.to_euclidean_division_equations. lia.
Qed.

Lemma msg_ready_lor w : msg_ready (w .| READY_BIT) = true.
Proof. unfold msg_ready. rewrite Z.lor_spec. apply orb_true_r. Qed.

Lemma msg_wrapped_lor w : msg_next_wrapped (w .| READY_BIT) = msg_next_wrapped w.
Proof. unfold msg_next_wrapped. rewrite Z.lor_spec. apply orb_false_r. Qed.

Lemma msg_len_lor w : msg_len (w .| READY_BIT) = msg_len w.
Proof. unfold msg_len. rewrite Z.land_lor_distr_l. apply Z.lor_0_r. Qed.

Lemma msg_4bytes_lor w : msg_4bytes (w .| READY_BIT) = msg_4bytes w.
Proof. unfold msg_4bytes. by rewrite msg_len_lor. Qed.

Lemma msg_ready_clr w : msg_ready (w .& .~ READY_BIT) = false.
Proof. unfold msg_ready. rewrite Z.land_spec. apply andb_false_r. Qed.

Lemma sendable_length m : sendable m -> 2 <= Z.of_nat (length m) <= 66.
Proof. intros (w1 & _ & _ & _ & ->). apply msg_4bytes_bounds. Qed.

Lemma stored_length m : stored m -> 2 <= Z.of_nat (length m) <= 66.
Proof. intros [Hm _]. by apply sendable_length. Qed.

Lemma length_mark_ready m : length (mark_ready m) = length m.
Proof. apply length_alter. Qed.

Lemma mark_ready_stored m : sendable m -> stored (mark_ready m).
Proof.
  intros (w1 & Hw & Hu & Hn & Hl).
  assert (E : mark_ready m !! 1%nat = Some (w1 .| READY_BIT))
    by (unfold mark_ready; by rewrite list_lookup_alter_eq, Hw).
  split.
  - exists (w1 .| READY_BIT). rewrite length_mark_ready, msg_4bytes_lor, msg_wrapped_lor.
    split_and!; try done. apply u32_lor; [done|]. unfold is_u32, READY_BIT. lia.
  - eexists. split; [exact E|apply msg_ready_lor].
Qed.

(** ** Lemmas on segments and chains *)

Lemma seg_nil mem pos : seg mem pos [].
Proof. intros k x H. done. Qed.

Lemma seg_cons mem pos x ws : seg mem pos (x :: ws) <-> mem pos = x /\ seg mem (pos + 1) ws.
Proof.
  split.
  - intros H. split.
    + specialize (H O x eq_refl). by rewrite Z.add_0_r in H.
    + intros k y Hk. specialize (H (S k) y Hk). rewrite <- H. f_equal. lia.
  - intros [<- H] [|k] y Hk; cbn in Hk; simplify_eq.
    + f_equal. lia.
    + rewrite <- (H k y Hk). f_equal. lia.
Qed.

Lemma seg_frame mem mem' pos ws :
  seg mem pos ws ->
  (forall i, pos <= i < pos + Z.of_nat (length ws) -> mem' i = mem i) -> seg mem' pos ws.
Proof.
  intros H Hf k x Hk. rewrite Hf; [by apply H|].
  apply lookup_lt_Some in Hk. lia.
Qed.

Lemma chain_le mem ms : forall pos e, chain mem pos ms e -> pos <= e.
Proof.
  induction ms as [|m ms IH]; intros pos e; cbn; [lia|].
  intros [_ H%IH]. lia.
Qed.

Lemma chain_frame mem mem' ms : forall pos e,
  chain mem pos ms e -> (forall i, pos <= i < e -> mem' i = mem i) -> chain mem' pos ms e.
Proof.
  induction ms as [|m ms IH]; intros pos e; cbn; [done|].
  intros [Hs Hc] Hf. pose proof (chain_le _ _ _ _ Hc). split.
  - apply seg_frame with mem; [done|]. intros i Hi. apply Hf. lia.
  - apply IH; [done|]. intros i Hi. apply Hf. lia.
Qed.

Lemma chain_snoc mem m ms : forall pos e,
  chain mem pos ms e -> seg mem e m ->
  chain mem pos (ms ++ [m]) (e + Z.of_nat (length m)).
Proof.
  induction ms as [|m' ms IH]; intros pos e; cbn; [intros -> ?; done|].
  intros [Hs Hc] Hm. split; [done|]. by apply IH.
Qed.

Lemma chain_cons_stored mem pos m ms e :
  chain mem pos (m :: ms) e -> stored m ->
  pos + 2 <= pos + Z.of_nat (length m) <= e /\
  msg_ready (mem (pos + 1)) = true /\ msg_next_wrapped (mem (pos + 1)) = false /\
  msg_4bytes (mem (pos + 1)) = Z.of_nat (length m).
Proof.
  intros [Hs Hc] Hst. pose proof (stored_length _ Hst). pose proof (chain_le _ _ _ _ Hc).
  destruct Hst as [(w1 & Hw & _ & Hn & Hl) (w & Hw' & Hr)]. simplify_eq.
  pose proof (Hs 1%nat _ Hw) as E. change (Z.of_nat 1) with 1 in E. rewrite E.
  split_and!; try done; lia.
Qed.

(** ** Accesses inside the block *)

Lemma in_fifo_iff f i : in_fifo f i = true <-> 0 <= i < f_words f.
Proof. unfold in_fifo. rewrite andb_true_iff, Z.leb_le, Z.ltb_lt. done. Qed.

Lemma ld_in f i : 0 <= i < f_words f -> ld f i = Some (f_mem f i).
Proof. intros H. unfold ld. by rewrite (proj2 (in_fifo_iff f i) H). Qed.

Lemma st_in f i v : 0 <= i < f_words f -> st f i v = Some (set_mem (upd (f_mem f) i v) f).
Proof. intros H. unfold st. by rewrite (proj2 (in_fifo_iff f i) H). Qed.

Lemma f_words_bounds f : 8 <= f_size f < 2 ^ 30 -> 2 <= f_words f <= f_size f /\ f_words f < 2 ^ 28.
Proof.
  intros H. unfold f_words. split_and!.
  - apply Z.div_le_lower_bound; lia.
  - apply Z.div_le_upper_bound; lia.
  - apply Z.div_lt_upper_bound; lia.
Qed.

Lemma copy_words_spec ws : forall f pos,
  0 <= pos -> pos + Z.of_nat (length ws) <= f_words f ->
  exists m, copy_words f pos ws = Some (set_mem m f) /\ seg m pos ws /\
    forall i, (i < pos \/ pos + Z.of_nat (length ws) <= i) -> m i = f_mem f i.
Proof.
  induction ws as [|x ws IH]; intros f pos Hp Hl; cbn in *.
  - exists (f_mem f). split_and!; [by destruct f|apply seg_nil|done].
  - rewrite st_in by lia. cbn.
    destruct (IH (set_mem (upd (f_mem f) pos x) f) (pos + 1)) as (m & -> & Hs & Hf);
      [lia|unfold f_words in *; cbn; lia|]. cbn in Hf.
    exists m. split_and!; [done| |].
    + apply seg_cons. split; [|done]. rewrite Hf by lia. apply upd_eq.
    + intros i Hi. rewrite Hf by lia. apply upd_ne. lia.
Qed.

Lemma read_words_spec f n : forall pos ws,
  length ws = n -> 0 <= pos -> pos + Z.of_nat n <= f_words f -> seg (f_mem f) pos ws ->
  read_words f pos n = Some ws.
Proof.
  induction n as [|n IH]; intros pos [|x ws] Hlen Hp Hn Hs; try discriminate; cbn.
  { done. }
  apply seg_cons in Hs as [<- Hs]. rewrite ld_in by lia. cbn.
  cbn in Hlen. by rewrite (IH (pos + 1) ws) by (lia || done).
Qed.

Lemma seg_mark_ready mem mem' pos ws w1 :
  seg mem pos ws -> ws !! 1%nat = Some w1 ->
  mem' (pos + 1) = mem (pos + 1) .| READY_BIT ->
  (forall i, i <> pos + 1 -> mem' i = mem i) -> seg mem' pos (mark_ready ws).
Proof.
  intros Hs Hw E Hf k x Hk. unfold mark_ready in Hk.
  destruct (decide (k = 1%nat)) as [->|Hne].
  - rewrite list_lookup_alter_eq, Hw in Hk. simplify_eq/=.
    pose proof (Hs 1%nat _ Hw) as E1. change (Z.of_nat 1) with 1 in *. by rewrite E, E1.
  - rewrite list_lookup_alter_ne in Hk by done. rewrite Hf by lia. by apply Hs.
Qed.

Lemma fifo_put_spec f ws :
  8 <= f_size f < 2 ^ 30 -> sendable ws -> 0 <= pwrite_off f ->
  pwrite_off f + Z.of_nat (length ws) + 2 <= f_words f ->
  exists m, let w' := pwrite_off f + Z.of_nat (length ws) in
    fifo_put f ws = Some (set_write w' (set_mem m f)) /\
    seg m (pwrite_off f) (mark_ready ws) /\ m w' = 0 /\ m (w' + 1) = 0 /\
    forall i, (i < pwrite_off f \/ w' + 2 <= i) -> m i = f_mem f i.
Proof.
  intros Hsz Hm Hw Hfit. pose proof (sendable_length _ Hm) as Hlen.
  pose proof (f_words_bounds f Hsz) as HN.
  destruct (copy_words_spec ws f (pwrite_off f)) as (m & Hc & Hs & Hf); [lia..|].
  destruct Hm as (w1 & Hw1 & _).
  unfold fifo_put. rewrite Hc. cbn [mbind option_bind].
  rewrite ld_in by (unfold f_words in *; cbn; lia). cbn [mbind option_bind].
  rewrite st_in by (unfold f_words in *; cbn; lia). cbn [mbind option_bind].
  rewrite w32_id by (unfold is_u32; lia).
  rewrite st_in by (unfold f_words in *; cbn; lia). cbn [mbind option_bind].
  rewrite st_in by (unfold f_words in *; cbn; lia).
  set (w' := pwrite_off f + Z.of_nat (length ws)).
  exists (upd (upd (upd m (pwrite_off f + 1) (m (pwrite_off f + 1) .| READY_BIT))
            (w' + 1) 0) w' 0).
  split_and!; [done| | | |].
  - apply seg_frame with (upd m (pwrite_off f + 1) (m (pwrite_off f + 1) .| READY_BIT)).
    + apply (seg_mark_ready m _ _ _ w1); [done..|apply upd_eq|].
      intros i Hi. by apply upd_ne.
    + intros i Hi. rewrite length_mark_ready in Hi. by rewrite 2 upd_ne by lia.
  - apply upd_eq.
  - rewrite upd_ne by lia. apply upd_eq.
  - intros i Hi. rewrite 3 upd_ne by lia. apply Hf. lia.
Qed.

(** ** Reading preserves the representation *)

(** The state after the check of [msg_next_wrapped] both readers start with. *)
Definition rewound (f : mps_fifo) : mps_fifo :=
  if msg_next_wrapped (f_mem f (pread_off f + 1)) then set_read 0 f else f.

Lemma set_read_id f : pread_off f = 0 -> set_read 0 f = f.
Proof. destruct f. cbn. by intros ->. Qed.

(** What the reader finds at its position once it has rewound. *)
Definition head_at (f : mps_fifo) (ms : list (list Z)) : Prop :=
  0 <= pread_off f /\ pread_off f + 2 <= f_words f /\
  match ms with
  | nil => msg_ready (f_mem f (pread_off f + 1)) = false
  | m :: _ => seg (f_mem f) (pread_off f) m /\
      pread_off f + Z.of_nat (length m) <= f_words f /\
      msg_ready (f_mem f (pread_off f + 1)) = true /\
      msg_next_wrapped (f_mem f (pread_off f + 1)) = false /\
      msg_4bytes (f_mem f (pread_off f + 1)) = Z.of_nat (length m)
  end.

Lemma head_at_chain f m ms ms' e :
  0 <= pread_off f -> chain (f_mem f) (pread_off f) (m :: ms) e -> stored m ->
  e <= f_words f -> head_at f (m :: ms').
Proof.
  intros Hr Hc Hst He. destruct (chain_cons_stored _ _ _ _ _ Hc Hst) as (?&?&?&?).
  destruct Hc as [Hs _]. unfold head_at. split_and!; try done; lia.
Qed.

Lemma rewind_spec f ms :
  fifo_inv f ms ->
  0 <= pread_off f /\ pread_off f + 2 <= f_words f /\
  fifo_inv (rewound f) ms /\ head_at (rewound f) ms.
Proof.
  intros (Hsz & Hst & [Hl|Hl]).
  - pose proof Hl as Hl0. destruct Hl as ((Hr0 & Hrw) & HwN & Hc & Hnr & Hwr & H0).
    split_and!; [lia|lia| |].
    + assert (rewound f = f) as ->; [|exact (conj Hsz (conj Hst (or_introl Hl0)))].
      unfold rewound. destruct (msg_next_wrapped (f_mem f (pread_off f + 1))) eqn:E; [|done].
      destruct ms as [|m ms]; [cbn in Hc|].
      * rewrite Hc in E. apply set_read_id. rewrite Hc. by apply Hwr.
      * inversion_clear Hst as [|? ? Hm _].
        destruct (chain_cons_stored _ _ _ _ _ Hc Hm) as (_&_&E'&_). congruence.
    + unfold rewound. destruct ms as [|m ms].
      * cbn in Hc. destruct (msg_next_wrapped (f_mem f (pread_off f + 1))) eqn:E.
        -- rewrite Hc in E. specialize (Hwr E). rewrite set_read_id by lia.
           unfold head_at. rewrite Hc. split_and!; try done; lia.
        -- unfold head_at. rewrite Hc. split_and!; try done; lia.
      * inversion_clear Hst as [|? ? Hm _].
        destruct (chain_cons_stored _ _ _ _ _ Hc Hm) as (_&_&->&_).
        by apply (head_at_chain f m ms ms (pwrite_off f)); [lia|..|lia].
  - pose proof Hl as Hl0.
    destruct Hl as (ms1 & ms2 & e & -> & (Hr0 & Hre) & HeN & Hc1 & Hmk & Hw0 & Hc2 & Hd).
    split_and!; [lia|lia| |]; unfold rewound.
    + destruct ms1 as [|m ms1]; cbn in Hc1.
      * subst e. rewrite Hmk. change (msg_next_wrapped WRAP_MARK) with true. cbn. split; [exact Hsz|split; [exact Hst|left]].
        destruct Hd as [(_ & _ & ?)|(Hwr & Hnr & Hnw)]; [done|].
        unfold lap_same. cbn. change (f_words (set_read 0 f)) with (f_words f).
        split_and!; try done; try lia; try (by left).
        intros E. destruct (Z.eq_dec (pwrite_off f) 0); [done|].
        rewrite Hnw in E by lia. done.
      * inversion_clear Hst as [|? ? Hm Hst'].
        destruct (chain_cons_stored _ _ _ _ _ Hc1 Hm) as (_&_&->&_).
        split; [exact Hsz|split; [by constructor|by right]].
    + destruct ms1 as [|m ms1]; cbn in Hc1.
      * subst e. rewrite Hmk. change (msg_next_wrapped WRAP_MARK) with true. cbn.
        destruct Hd as [(_ & _ & ?)|(Hwr & Hnr & Hnw)]; [done|].
        assert (HN : f_words (set_read 0 f) = f_words f) by done.
        destruct ms2 as [|m ms2].
        -- cbn in Hc2. unfold head_at. rewrite HN. cbn. rewrite <- Hc2 in Hnr.
           split_and!; try done; lia.
        -- inversion_clear Hst as [|? ? Hm _].
           by apply (head_at_chain _ m ms2 ms2 (pwrite_off f)); [cbn; lia|..|cbn; lia].
      * inversion_clear Hst as [|? ? Hm _].
        destruct (chain_cons_stored _ _ _ _ _ Hc1 Hm) as (_&_&->&_).
        by apply (head_at_chain f m ms1 (ms1 ++ ms2) e); [lia|..|lia].
Qed.

Lemma ifx_mpsdrv_fifo_read_rewound f ms :
  fifo_inv f ms ->
  ifx_mpsdrv_fifo_read f =
    Some (match ms with nil => None | _ => Some (pread_off (rewound f)) end, rewound f).
Proof.
  intros Hi. destruct (rewind_spec _ _ Hi) as (Hr & HrN & _ & Hh0 & HhN & Hh).
  unfold ifx_mpsdrv_fifo_read. rewrite ld_in by lia. cbn [mbind option_bind].
  fold (rewound f). rewrite ld_in by lia. cbn [mbind option_bind].
  destruct ms as [|m ms]; [by rewrite Hh|]. by destruct Hh as (_&_&->&_).
Qed.

Lemma ifx_mpsdrv_fifo_not_empty_rewound f ms :
  fifo_inv f ms ->
  ifx_mpsdrv_fifo_not_empty f = Some (match ms with nil => false | _ => true end, rewound f).
Proof.
  intros Hi. destruct (rewind_spec _ _ Hi) as (Hr & HrN & _ & Hh0 & HhN & Hh).
  unfold ifx_mpsdrv_fifo_not_empty. rewrite ld_in by lia. cbn [mbind option_bind].
  fold (rewound f). rewrite ld_in by lia. cbn [mbind option_bind].
  destruct ms as [|m ms]; [by rewrite Hh|]. by destruct Hh as (_&_&->&_).
Qed.

Lemma chain_step mem r w v m ms :
  chain mem r (m :: ms) w -> stored m ->
  chain (upd mem (r + 1) v) (r + Z.of_nat (length m)) ms w.
Proof.
  intros [_ Hc] Hm. pose proof (stored_length _ Hm).
  apply chain_frame with mem; [done|]. intros i Hi. apply upd_ne. lia.
Qed.

Lemma read_ptr_inc_spec f m ms :
  fifo_inv f (m :: ms) -> msg_next_wrapped (f_mem f (pread_off f + 1)) = false ->
  exists f', ifx_mpsdrv_fifo_read_ptr_inc f (Z.of_nat (length m)) = Some f' /\
    fifo_inv f' ms /\ min_space f' = min_space f /\ f_size f' = f_size f.
Proof.
  intros Hi Hnw. destruct (rewind_spec _ _ Hi) as (Hr & HrN & _ & Hh).
  unfold rewound in Hh. rewrite Hnw in Hh. destruct Hh as (_ & _ & _ & HmN & _).
  destruct Hi as (Hsz & Hst & Hl). inversion_clear Hst as [|? ? Hm Hms].
  pose proof (stored_length _ Hm) as Hlen. pose proof (f_words_bounds f Hsz) as HN.
  unfold ifx_mpsdrv_fifo_read_ptr_inc.
  destruct (Z.of_nat (length m) >? f_size f) eqn:E; [bool_prop; lia|].
  rewrite ld_in by lia. cbn [mbind option_bind].
  rewrite st_in by lia. cbn [mbind option_bind pread_off set_mem].
  rewrite w32_id by (unfold is_u32; lia).
  eexists. split; [done|]. split; [|done]. split; [done|]. split; [done|].
  destruct Hl as [(Hrw & HwN & Hc & Hnr & Hwr & H0)|
    (ms1 & ms2 & e & Heq & Hre & HeN & Hc1 & Hmk & Hw0 & Hc2 & Hd)].
  - left. unfold lap_same; cbn.
    destruct (chain_cons_stored _ _ _ _ _ Hc Hm) as (?&_).
    split; [lia|]. split; [done|]. split; [by apply chain_step|].
    rewrite upd_ne by lia. split; [done|]. split; [done|]. right. split; [lia|].
    destruct (Z.eq_dec (pread_off f) 0) as [->|]; [rewrite upd_eq; apply msg_ready_clr|].
    rewrite upd_ne by lia. by destruct H0 as [|[_ ?]].
  - right. destruct ms1 as [|m1 ms1].
    { cbn in Hc1. rewrite <- Hc1 in Hmk. rewrite Hmk in Hnw. done. }
    cbn in Heq. injection Heq as <- ->.
    destruct (chain_cons_stored _ _ _ _ _ Hc1 Hm) as (?&_).
    exists ms1, ms2, e. cbn.
    split; [done|]. split; [lia|]. split; [done|]. split; [by apply chain_step|].
    rewrite upd_ne by lia. split; [done|]. split; [done|].
    split. { apply chain_frame with (f_mem f); [done|]. intros i Hi. apply upd_ne. lia. }
    right. destruct Hd as [(Hr0 & -> & _)|(Hwr & Hnr & Hnw')].
    + split; [lia|]. rewrite Hr0, upd_eq. split; [apply msg_ready_clr|lia].
    + rewrite upd_ne by lia. split; [lia|]. done.
Qed.

Lemma head_not_wrapped f m ms :
  head_at f (m :: ms) -> msg_next_wrapped (f_mem f (pread_off f + 1)) = false.
Proof. intros (_&_&_&_&_&H&_). exact H. Qed.

Lemma fifo_receive_inv f ms :
  fifo_inv f ms ->
  exists f', fifo_receive f = Some (head ms, f') /\ fifo_inv f' (tail ms) /\
    min_space f' = min_space f /\ f_size f' = f_size f.
Proof.
  intros Hi. unfold fifo_receive. rewrite (ifx_mpsdrv_fifo_read_rewound _ _ Hi).
  destruct (rewind_spec _ _ Hi) as (_ & _ & Hi' & Hh).
  assert (Hms : min_space (rewound f) = min_space f /\ f_size (rewound f) = f_size f)
    by (unfold rewound; by destruct (msg_next_wrapped _)).
  destruct ms as [|m ms]; cbn [mbind option_bind].
  { eexists. split; [done|]. by split. }
  destruct Hms as [<- <-]. generalize dependent (rewound f). clear Hi f. intros f Hi Hh.
  pose proof (head_not_wrapped _ _ _ Hh) as Hnw.
  destruct Hh as (Hr & HrN & Hs & HmN & Hrd & _ & Hlen).
  rewrite ld_in by lia. cbn [mbind option_bind]. rewrite Hrd, Hlen, Nat2Z.id.
  rewrite (read_words_spec f (length m) (pread_off f) m) by (done || lia).
  cbn [mbind option_bind].
  destruct (read_ptr_inc_spec f m ms Hi Hnw) as (f' & -> & ?). by exists f'.
Qed.

(** ** Writing appends one message or leaves the queue as it is *)

Lemma put_lap_same f ms m :
  8 <= f_size f < 2 ^ 30 -> lap_same f ms -> sendable m ->
  pwrite_off f + Z.of_nat (length m) + 2 <= f_words f ->
  exists f', fifo_put f m = Some f' /\ lap_same f' (ms ++ [mark_ready m]) /\
    min_space f' = min_space f /\ f_size f' = f_size f.
Proof.
  intros Hsz (Hrw & HwN & Hc & Hnr & Hwr & H0) Hm Hfit.
  pose proof (sendable_length _ Hm) as Hlen.
  destruct (fifo_put_spec f m) as (mem & -> & Hs & Hw0 & Hw1 & Hf); [done|done|lia|lia|].
  eexists. split; [done|]. split; [|done]. unfold lap_same; cbn.
  change (f_words (set_write _ _)) with (f_words f). rewrite Hw1.
  split; [lia|]. split; [lia|]. split.
  { rewrite <- (length_mark_ready m). apply chain_snoc; [|done].
    apply chain_frame with (f_mem f); [done|]. intros i Hi. apply Hf. lia. }
  split; [done|]. split; [done|].
  destruct H0 as [?|[? ?]]; [by left|right]. split; [done|]. rewrite Hf by lia. done.
Qed.

Definition lap_ahead_right (f : mps_fifo) (ms : list (list Z)) : Prop :=
  lap_ahead f ms /\ pwrite_off f + 2 <= pread_off f.

Lemma put_lap_ahead f ms m :
  8 <= f_size f < 2 ^ 30 -> lap_ahead_right f ms -> sendable m ->
  pwrite_off f + Z.of_nat (length m) + 2 <= pread_off f ->
  exists f', fifo_put f m = Some f' /\ lap_ahead f' (ms ++ [mark_ready m]) /\
    min_space f' = min_space f /\ f_size f' = f_size f.
Proof.
  intros Hsz [(ms1 & ms2 & e & -> & Hre & HeN & Hc1 & Hmk & Hw0 & Hc2 & Hd) Hwr] Hm Hfit.
  pose proof (sendable_length _ Hm) as Hlen.
  destruct (fifo_put_spec f m) as (mem & -> & Hs & _ & Hw1 & Hf); [done|done|lia|lia|].
  eexists. split; [done|]. split; [|done].
  exists ms1, (ms2 ++ [mark_ready m]), e. cbn.
  change (f_words (set_write _ _)) with (f_words f). rewrite Hw1.
  split; [by rewrite app_assoc|]. split; [lia|]. split; [lia|].
  split. { apply chain_frame with (f_mem f); [done|]. intros i Hi. apply Hf. lia. }
  split; [rewrite Hf by lia; done|]. split; [lia|]. split.
  { rewrite <- (length_mark_ready m). apply chain_snoc; [|done].
    apply chain_frame with (f_mem f); [done|]. intros i Hi. apply Hf. lia. }
  right. split; [lia|]. done.
Qed.

(** The wrap: the marker at the old write position, writing restarts at 0. *)
Definition wrapped (f : mps_fifo) : mps_fifo :=
  set_write 0 (set_mem (upd (f_mem f) (pwrite_off f + 1) WRAP_MARK) f).

Lemma wrap_inv f ms :
  8 <= f_size f < 2 ^ 30 -> Forall stored ms -> lap_same f ms ->
  (pread_off f = 0 /\ fifo_inv (wrapped f) ms) \/
  (msg_ready (f_mem (wrapped f) 1) = false /\ lap_ahead_right (wrapped f) ms).
Proof.
  intros Hsz Hst (Hrw & HwN & Hc & Hnr & Hwr & H0).
  assert (Hw : f_words (wrapped f) = f_words f) by done.
  assert (Hc' : chain (f_mem (wrapped f)) (pread_off f) ms (pwrite_off f)).
  { apply chain_frame with (f_mem f); [done|]. intros i Hi. cbn. apply upd_ne. lia. }
  assert (Hmk : f_mem (wrapped f) (pwrite_off f + 1) = WRAP_MARK) by (cbn; apply upd_eq).
  destruct H0 as [Hr0|[Hr2 H1]].
  - left. split; [done|]. split; [exact Hsz|]. split; [exact Hst|].
    destruct ms as [|m ms]; [left|right].
    + cbn in Hc. unfold lap_same. rewrite Hw. cbn. rewrite Hr0 in *. rewrite <- Hc in *.
      rewrite upd_eq. split_and!; try done; try lia; by left.
    + exists (m :: ms), [], (pwrite_off f). rewrite Hw.
      split; [by rewrite app_nil_r|]. cbn [pread_off pwrite_off wrapped set_write set_mem] in *.
      split; [lia|]. split; [lia|]. split; [done|]. split; [done|]. split; [lia|].
      split; [done|]. left. done.
  - right. split; [cbn; rewrite upd_ne by lia; done|]. split; [|cbn; lia].
    exists ms, [], (pwrite_off f). rewrite Hw.
    split; [by rewrite app_nil_r|]. cbn [pread_off pwrite_off wrapped set_write set_mem] in *.
    split; [lia|]. split; [lia|]. split; [done|]. split; [done|]. split; [lia|].
    split; [done|]. right. split; [lia|]. split; [cbn; rewrite upd_ne by lia; done|lia].
Qed.

Lemma source_words_exact m : source_words m (Z.of_nat (length m)) = Some m.
Proof.
  unfold source_words. rewrite Z.ltb_irrefl, Nat2Z.id. by rewrite firstn_all.
Qed.

(** The length argument the senders pass: header plus payload bytes. *)
Lemma sendable_words m w1 :
  sendable m -> m !! 1%nat = Some w1 ->
  bytes_to_words (MPS_MSGHDR_LEN + msg_len w1) = Z.of_nat (length m).
Proof. intros (w & Hw & _ & _ & ->) Hw1. by simplify_eq. Qed.

Ltac bind := cbn [mbind option_bind].

(** [ifx_mpsdrv_fifo_write] with its accesses resolved. *)
Definition put_ok (f : mps_fifo) (m : list Z) : option (Z * mps_fifo) :=
  f ← fifo_put f m; Some (OK, f).

Lemma write_resolved f ms m w1 :
  fifo_inv f ms -> sendable m -> m !! 1%nat = Some w1 ->
  let r := pread_off f in let w := pwrite_off f in let n := Z.of_nat (length m) in
  ifx_mpsdrv_fifo_write f m (MPS_MSGHDR_LEN + msg_len w1) =
  if MPS_MSGHDR_LEN + msg_len w1 >? f_size f then Some (ERROR, f) else
  if msg_ready (f_mem f (w + 1)) then Some (ERROR, f) else
  if w <? r then if w + n + 2 >? r then Some (ERROR, f) else put_ok f m
  else if w + n + 2 >=? f_words f then
    if msg_ready (f_mem (wrapped f) 1) then Some (ERROR, wrapped f) else
    if n + 2 >? r then Some (ERROR, wrapped f) else put_ok (wrapped f) m
  else put_ok f m.
Proof.
  intros (Hsz & _ & Hl) Hm Hw1. pose proof (sendable_length _ Hm) as Hlen.
  pose proof (f_words_bounds f Hsz) as HN. cbn zeta.
  assert (Hw : 0 <= pwrite_off f /\ pwrite_off f + 2 <= f_words f /\ 0 <= pread_off f).
  { destruct Hl as [(?&?&_)|(ms1 & ms2 & e & _ & ? & ? & _ & _ & ? & _ & Hd)]; lia. }
  unfold ifx_mpsdrv_fifo_write. rewrite (sendable_words _ _ Hm Hw1), source_words_exact.
  destruct (_ >? f_size f); [done|].
  rewrite ld_in by lia. bind. destruct (msg_ready _); [done|].
  rewrite w32_id by (unfold is_u32, MPS_MIN_MARGIN; lia).
  unfold MPS_MIN_MARGIN. destruct (pwrite_off f <? pread_off f); [done|].
  destruct (_ >=? f_words f); [|done].
  rewrite st_in by lia. bind. change (set_write 0 _) with (wrapped f).
  rewrite ld_in by (change (f_words (wrapped f)) with (f_words f); cbn; lia). bind.
  change (pwrite_off (wrapped f)) with 0. change (pread_off (wrapped f)) with (pread_off f).
  by rewrite w32_id by (unfold is_u32; lia).
Qed.

(** What a write may do to a queue [ms]. *)
Definition write_post (f : mps_fifo) ms m (res : option (Z * mps_fifo)) : Prop :=
  exists ret f', res = Some (ret, f') /\ min_space f' = min_space f /\ f_size f' = f_size f /\
    (ret = OK /\ fifo_inv f' (ms ++ [mark_ready m]) \/ ret = ERROR /\ fifo_inv f' ms).

Lemma post_error f f' ms m :
  min_space f' = min_space f -> f_size f' = f_size f -> fifo_inv f' ms ->
  write_post f ms m (Some (ERROR, f')).
Proof. intros. exists ERROR, f'. split_and!; try done. by right. Qed.

Lemma post_put f f0 ms m :
  min_space f0 = min_space f -> f_size f0 = f_size f ->
  8 <= f_size f < 2 ^ 30 -> Forall stored ms -> sendable m ->
  (exists f', fifo_put f0 m = Some f' /\
     (lap_same f' (ms ++ [mark_ready m]) \/ lap_ahead f' (ms ++ [mark_ready m])) /\
     min_space f' = min_space f0 /\ f_size f' = f_size f0) ->
  write_post f ms m (put_ok f0 m).
Proof.
  intros Hmin Hsz0 Hsz Hst Hm (f' & E & Hl & Hmin' & Hsz'). unfold put_ok. rewrite E. bind.
  exists OK, f'. split; [done|]. split; [congruence|]. split; [congruence|]. left.
  split; [done|]. split; [by rewrite Hsz', Hsz0|]. split; [|exact Hl].
  apply Forall_app. split; [done|]. constructor; [by apply mark_ready_stored|done].
Qed.

Lemma write_spec f ms m w1 :
  fifo_inv f ms -> sendable m -> m !! 1%nat = Some w1 ->
  write_post f ms m (ifx_mpsdrv_fifo_write f m (MPS_MSGHDR_LEN + msg_len w1)).
Proof.
  intros Hi Hm Hw1. rewrite (write_resolved f ms) by done. cbn zeta.
  assert (Hsame : write_post f ms m (Some (ERROR, f))) by by apply post_error.
  split_if; [exact Hsame|]. split_if; [exact Hsame|].
  destruct Hi as (Hsz & Hst & [Hl|Hl]).
  - pose proof Hl as (Hrw & HwN & _).
    split_if; [lia|]. rewrite Z.geb_leb. split_if.
    + destruct (wrap_inv f ms) as [[Hr0 Hi']|[Hnr' Hl']]; [done..| |].
      * pose proof (sendable_length _ Hm).
        split_if; [|split_if; [|lia]]; by apply post_error.
      * rewrite Hnr'. split_if.
        { apply post_error; [done..|]. split; [done|]. split; [done|]. right. by destruct Hl'. }
        apply post_put; try done.
        destruct (put_lap_ahead (wrapped f) ms m Hsz Hl' Hm) as (f' & ? & ? & ?);
          [cbn; lia|eauto 10].
    + apply post_put; try done.
      destruct (put_lap_same f ms m Hsz Hl Hm) as (f' & ? & ? & ?); [lia|eauto 10].
  - pose proof Hl as (ms1 & ms2 & e & -> & Hre & HeN & Hc1 & Hmk & Hw0 & Hc2 & Hd).
    destruct Hd as [(Hr0 & Hwz & Hne)|(Hwr & Hnr & _)].
    + destruct ms1 as [|m1 ms1]; [done|]. rewrite Hr0 in Hc1.
      inversion_clear Hst as [|? ? Hm1 _].
      destruct (chain_cons_stored _ _ _ _ _ Hc1 Hm1) as (_ & Hrd & _).
      rewrite Hwz in *. change (0 + 1) with 1 in *. congruence.
    + split_if; [|lia]. split_if; [exact Hsame|]. apply post_put; try done.
      destruct (put_lap_ahead f (ms1 ++ ms2) m Hsz (conj Hl Hwr) Hm) as (f' & ? & ? & ?);
        [lia|eauto 10].
Qed.

(** ** Runs of a FIFO and the queue they implement *)

Inductive fifo_op := Send (m : list Z) | Receive | Poll.
Inductive fifo_event :=
| Sent (m : list Z) | Refused (m : list Z) | Got (m : list Z) | NoMessage | Status (b : bool).

(** A send passes the message and its length in bytes, as
    [ifx_mpsdrv_mbx_send] does. *)
Definition fifo_step (f : mps_fifo) (op : fifo_op) : option (fifo_event * mps_fifo) :=
  match op with
  | Send m =>
      w1 ← m !! 1%nat;
      '(ret, f) ← ifx_mpsdrv_fifo_write f m (MPS_MSGHDR_LEN + msg_len w1);
      Some (if ret =? OK then Sent m else Refused m, f)
  | Receive =>
      '(r, f) ← fifo_receive f;
      Some (match r with Some m => Got m | None => NoMessage end, f)
  | Poll => '(b, f) ← ifx_mpsdrv_fifo_not_empty f; Some (Status b, f)
  end.

Fixpoint fifo_run (f : mps_fifo) (ops : list fifo_op) : option (list fifo_event * mps_fifo) :=
  match ops with
  | nil => Some (nil, f)
  | op :: ops =>
      '(e, f) ← fifo_step f op; '(es, f) ← fifo_run f ops; Some (e :: es, f)
  end.

(** The specification: an unbounded queue that may refuse a message. *)
Inductive queue_step : list (list Z) -> fifo_event -> list (list Z) -> Prop :=
| q_sent q m : queue_step q (Sent m) (q ++ [mark_ready m])
| q_refused q m : queue_step q (Refused m) q
| q_got q m : queue_step (m :: q) (Got m) q
| q_none : queue_step [] NoMessage []
| q_status q : queue_step q (Status (match q with nil => false | _ => true end)) q.

Inductive queue_trace : list (list Z) -> list fifo_event -> list (list Z) -> Prop :=
| qt_nil q : queue_trace q [] q
| qt_cons q e q' es q'' :
    queue_step q e q' -> queue_trace q' es q'' -> queue_trace q (e :: es) q''.

Definition op_ok (op : fifo_op) : Prop := match op with Send m => sendable m | _ => True end.

Lemma fifo_step_sim f ms op :
  fifo_inv f ms -> op_ok op ->
  exists e f' ms', fifo_step f op = Some (e, f') /\ queue_step ms e ms' /\ fifo_inv f' ms'.
Proof.
  intros Hi Hop. destruct op as [m| |]; cbn [fifo_step].
  - pose proof Hop as (w1 & Hw1 & _). rewrite Hw1. bind.
    destruct (write_spec f ms m w1 Hi Hop Hw1) as (ret & f' & -> & _ & _ & [[-> H]|[-> H]]); bind.
    + exists (Sent m), f', (ms ++ [mark_ready m]). split_and!; [done|constructor|done].
    + exists (Refused m), f', ms. split_and!; [done|constructor|done].
  - destruct (fifo_receive_inv _ _ Hi) as (f' & -> & H & _). bind.
    destruct ms as [|m ms]; cbn in *; do 3 eexists; (split; [done|split; [constructor|exact H]]).
  - rewrite (ifx_mpsdrv_fifo_not_empty_rewound _ _ Hi). bind.
    destruct (rewind_spec _ _ Hi) as (_ & _ & H & _).
    do 3 eexists. split; [done|split; [constructor|exact H]].
Qed.

(** A FIFO cleared by [ifx_mpsdrv_fifo_clear] over zeroed memory. *)
Definition fresh_fifo (size : Z) : mps_fifo :=
  ifx_mpsdrv_fifo_clear (mk_fifo (fun _ => 0) 0 0 size size).

Lemma fresh_inv size : 8 <= size < 2 ^ 30 -> fifo_inv (fresh_fifo size) [].
Proof.
  intros H. pose proof (f_words_bounds (fresh_fifo size) H).
  split; [done|]. split; [done|]. left.
  unfold lap_same; cbn. split_and!; try done; try lia; by left.
Qed.

(** C1: The mailbox FIFO implements a message queue.  Whatever sequence of
    sends, receives and polls runs on a cleared FIFO, no access leaves its
    block, every accepted message is delivered exactly once, unchanged except
    for its ready bit and in the order of acceptance, a refused message leaves
    no trace, a receive yields nothing only when the queue is empty, and a poll
    reports exactly whether it is. *)
Theorem fifo_refines_queue size ops :
  8 <= size < 2 ^ 30 -> Forall op_ok ops ->
  exists es f' q, fifo_run (fresh_fifo size) ops = Some (es, f') /\
    queue_trace [] es q /\ fifo_inv f' q.
Proof.
  intros Hs. pose proof (fresh_inv size Hs) as Hi. revert Hi.
  generalize (fresh_fifo size) (@nil (list Z)).
  induction ops as [|op ops IH]; intros f q Hi Hops; cbn [fifo_run].
  { do 3 eexists. split; [done|]. split; [constructor|done]. }
  inversion_clear Hops as [|? ? Hop Hops'].
  destruct (fifo_step_sim f q op Hi Hop) as (e & f1 & q1 & -> & Hq & Hi1). bind.
  destruct (IH f1 q1 Hi1 Hops') as (es & f2 & q2 & -> & Ht & Hi2). bind.
  do 3 eexists. split; [done|]. split; [by econstructor|done].
Qed.

Lemma sendable_bytes m w1 :
  sendable m -> m !! 1%nat = Some w1 ->
  MPS_MSGHDR_LEN + msg_len w1 <= 4 * Z.of_nat (length m).
Proof.
  intros Hm Hw. rewrite <- (sendable_words m w1) by done.
  pose proof (msg_len_bounds w1). unfold MPS_MSGHDR_LEN. rewrite bytes_to_words_eq by lia.
  Z.to_euclidean_division_equations. lia.
Qed.

Lemma f_words_size f : 4 * f_words f <= f_size f.
Proof. unfold f_words. Z.to_euclidean_division_equations. lia. Qed.

(** The guard on the length never refuses a message that fits. *)
Lemma length_guard f m w1 (A : Type) (x y : A) :
  sendable m -> m !! 1%nat = Some w1 -> Z.of_nat (length m) + 2 < f_words f ->
  (if MPS_MSGHDR_LEN + msg_len w1 >? f_size f then x else y) = y.
Proof.
  intros Hm Hw Hfit. pose proof (sendable_bytes m w1 Hm Hw). pose proof (f_words_size f).
  split_if; [lia|done].
Qed.

(** From a drained FIFO with both indices at 0 a message that fits is taken. *)
Lemma write_at_zero f m w1 :
  fifo_inv f [] -> pread_off f = 0 -> pwrite_off f = 0 -> sendable m -> m !! 1%nat = Some w1 ->
  Z.of_nat (length m) + 2 < f_words f ->
  exists f', ifx_mpsdrv_fifo_write f m (MPS_MSGHDR_LEN + msg_len w1) = Some (OK, f').
Proof.
  intros Hi Hr Hw Hm Hw1 Hfit.
  destruct (write_spec f [] m w1 Hi Hm Hw1) as (ret & f' & E & _).
  rewrite (write_resolved f [] m w1 Hi Hm Hw1), (length_guard f m w1) in E by done. cbn zeta in E.
  rewrite (write_resolved f [] m w1 Hi Hm Hw1), (length_guard f m w1) by done. cbn zeta.
  rewrite Hr, Hw in *. rewrite Z.geb_leb in *. change (0 <? 0) with false in *. cbn iota in *.
  replace (f_words f <=? 0 + Z.of_nat (length m) + 2) with false in *
    by (symmetry; apply Z.leb_gt; lia).
  assert (Hnr : msg_ready (f_mem f (0 + 1)) = false).
  { destruct Hi as (_ & _ & [Hl|(ms1 & ms2 & e & Hnil & Hl)]).
    - destruct Hl as (_ & _ & _ & Hnr & _). by rewrite Hw in Hnr.
    - symmetry in Hnil. apply app_eq_nil in Hnil as [-> ->].
      destruct Hl as (_ & _ & _ & _ & _ & _ & [(_ & _ & ?)|(? & _)]); [done|lia]. }
  rewrite Hnr in *. unfold put_ok in *. destruct (fifo_put f m) as [f1|]; [|done].
  by exists f1.
Qed.

(** A refusal on a drained FIFO leaves the marker in front of the reader. *)
Lemma drained_refusal f m w1 :
  fifo_inv f [] -> sendable m -> m !! 1%nat = Some w1 ->
  Z.of_nat (length m) + 2 < f_words f ->
  exists ret f1, ifx_mpsdrv_fifo_write f m (MPS_MSGHDR_LEN + msg_len w1) = Some (ret, f1) /\
    f_size f1 = f_size f /\
    (ret = OK \/ ret = ERROR /\ fifo_inv f1 [] /\ pwrite_off f1 = 0 /\
       msg_next_wrapped (f_mem f1 (pread_off f1 + 1)) = true).
Proof.
  intros Hi Hm Hw1 Hfit.
  destruct (write_spec f [] m w1 Hi Hm Hw1) as (ret & f1 & E & _ & Hsz & Hp).
  exists ret, f1. split; [done|]. split; [done|].
  destruct Hp as [[? _]|[-> Hi1]]; [by left|right]. split; [done|]. split; [done|].
  rewrite (write_resolved f [] m w1 Hi Hm Hw1), (length_guard f m w1) in E by done. cbn zeta in E.
  pose proof Hi as (_ & _ & [Hl|(ms1 & ms2 & e & Hnil & Hl)]).
  - destruct Hl as (Hrw & HwN & Hc & Hnr & Hwr & _). cbn in Hc.
    rewrite Hnr, Z.geb_leb in E. revert E. unfold put_ok.
    split_if; [lia|]. split_if; [|by destruct (fifo_put f m)].
    assert (Hmk : msg_next_wrapped (f_mem (wrapped f) (pread_off f + 1)) = true).
    { rewrite Hc. cbn. by rewrite upd_eq. }
    split_if; [by intros [= <-]|]. split_if; [by intros [= <-]|].
    by destruct (fifo_put (wrapped f) m).
  - symmetry in Hnil. apply app_eq_nil in Hnil as [-> ->].
    destruct Hl as (Hre & HeN & Hc1 & Hmk & Hw0 & Hc2 & Hd). cbn in Hc1, Hc2.
    destruct Hd as [(_ & _ & ?)|(Hwr & Hnr & _)]; [done|].
    revert E. rewrite Hnr. unfold put_ok. split_if; [|lia].
    split_if; [|by destruct (fifo_put f m)]. intros [= <-]. by rewrite Hc1, Hmk.
Qed.

(** The exact capacity of a FIFO of N words.  A message of n words with
    n + 2 < N is accepted by a drained FIFO at the latest on the second
    attempt, once the reader has polled; a message with n + 2 >= N is refused
    in every state. *)
Theorem fifo_capacity f ms m w1 :
  fifo_inv f ms -> sendable m -> m !! 1%nat = Some w1 ->
  let write f := ifx_mpsdrv_fifo_write f m (MPS_MSGHDR_LEN + msg_len w1) in
  (Z.of_nat (length m) + 2 < f_words f -> ms = [] ->
     exists ret f1 f2 f3, write f = Some (ret, f1) /\
       (ret = OK \/
        ifx_mpsdrv_fifo_not_empty f1 = Some (false, f2) /\ write f2 = Some (OK, f3))) /\
  (Z.of_nat (length m) + 2 >= f_words f -> exists f1, write f = Some (ERROR, f1)).
Proof.
  intros Hi Hm Hw1 write. split.
  - intros Hfit ->. unfold write.
    destruct (drained_refusal f m w1 Hi Hm Hw1 Hfit)
      as (ret & f1 & E & Hsz & [->|(-> & Hi1 & Hw0 & Hmk)]).
    { exists OK, f1, f1, f1. auto. }
    pose proof (ifx_mpsdrv_fifo_not_empty_rewound _ _ Hi1) as Hne.
    destruct (rewind_spec _ _ Hi1) as (_ & _ & Hi2 & _).
    unfold rewound in Hne, Hi2. rewrite Hmk in Hne, Hi2.
    destruct (write_at_zero (set_read 0 f1) m w1) as [f3 Hf3]; try done.
    { unfold f_words in *. cbn. by rewrite Hsz. }
    exists ERROR, f1, (set_read 0 f1), f3. auto.
  - intros Hbig. unfold write. rewrite (write_resolved f ms) by done. cbn zeta.
    assert (Hw : 0 <= pwrite_off f /\ pread_off f + 2 <= f_words f).
    { destruct Hi as (_ & _ & [(?&?&_)|(ms1 & ms2 & e & _ & ? & ? & _ & _ & ? & _ & _)]); lia. }
    repeat (split_if; try (by eexists)); rewrite ?Z.geb_leb in *; bool_prop; lia.
Qed.

Lemma words_bytes k : 0 <= k < 2 ^ 28 -> w32 (k .<< 2) = 4 * k.
Proof.
  intros H. rewrite Z.shiftl_mul_pow2 by lia. rewrite w32_id; [lia|unfold is_u32; lia].
Qed.

(** A message of [n] words is in place behind a reader at [r] = 0. *)
Lemma nonempty_at_zero f ms :
  fifo_inv f ms -> ms <> [] -> pread_off f = 0 -> pwrite_off f = 0 ->
  msg_ready (f_mem f 1) = true.
Proof.
  intros (Hsz & Hst & Hl) Hne Hr Hw. destruct ms as [|m ms]; [done|].
  inversion_clear Hst as [|? ? Hm _].
  destruct Hl as [(_ & _ & Hc & _)|(ms1 & ms2 & e & Heq & _ & _ & Hc & _ & _ & _ & Hd)].
  - destruct (chain_cons_stored _ _ _ _ _ Hc Hm). lia.
  - destruct Hd as [(_ & _ & Hne1)|(? & _)]; [|lia]. destruct ms1 as [|m1 ms1]; [done|].
    injection Heq as <- _. rewrite Hr in Hc.
    by destruct (chain_cons_stored _ _ _ _ _ Hc Hm) as (_ & ? & _).
Qed.

(** The free-space figure is at least 8 bytes and at most the FIFO's size,
    never the 0 its comment promises for a full FIFO.  After the writer has
    wrapped in front of a reader still at word 0 it is the whole size, so that
    every request up to the size is granted, while every write is refused. *)
Theorem fifo_mem_available_bounds f ms :
  fifo_inv f ms -> f_size f mod 4 = 0 ->
  8 <= ifx_mpsdrv_fifo_mem_available f <= f_size f /\
  (ms <> [] -> pread_off f = 0 -> pwrite_off f = 0 ->
   (forall bytes, bytes <= f_size f -> ifx_mpsdrv_fifo_mem_request f bytes = true) /\
   forall m w1, sendable m -> m !! 1%nat = Some w1 ->
     ifx_mpsdrv_fifo_write f m (MPS_MSGHDR_LEN + msg_len w1) = Some (ERROR, f)).
Proof.
  intros Hi Hmod. pose proof Hi as (Hsz & Hst & Hl).
  pose proof (f_words_bounds f Hsz) as HN.
  assert (H4 : f_size f = 4 * f_words f).
  { unfold f_words. Z.to_euclidean_division_equations. lia. }
  assert (Hav : ifx_mpsdrv_fifo_mem_available f =
    if pread_off f >? pwrite_off f then 4 * (pread_off f - pwrite_off f)
    else f_size f - 4 * (pwrite_off f - pread_off f)).
  { unfold ifx_mpsdrv_fifo_mem_available.
    destruct Hl as [(?&?&_)|(ms1 & ms2 & e & _ & ? & ? & _ & _ & ? & _ & Hd)];
      split_if; rewrite words_bytes by lia; [done| |done|];
      apply w32_id; unfold is_u32; lia. }
  split.
  - rewrite Hav. destruct Hl as [(?&?&_)|(ms1 & ms2 & e & _ & ? & ? & _ & _ & ? & _ & Hd)];
      split_if; lia.
  - intros Hne Hr Hw. split.
    + intros bytes Hb. unfold ifx_mpsdrv_fifo_mem_request. rewrite Hav, Z.geb_leb, Hr, Hw. cbn.
      apply Z.leb_le. lia.
    + intros m w1 Hm Hw1. rewrite (write_resolved f ms m w1 Hi Hm Hw1). cbn zeta.
      rewrite Hw. change (0 + 1) with 1. rewrite (nonempty_at_zero f ms Hi Hne Hr Hw).
      by split_if.
Qed.

(** ** Store order: what the other CPU can see during a write *)

(** The stores of [copy_words] and of the whole of [fifo_put], in order. *)
Fixpoint copy_stores (pos : Z) (ws : list Z) : list (Z * Z) :=
  match ws with nil => nil | x :: ws => (pos, x) :: copy_stores (pos + 1) ws end.

Definition apply_stores (mem : Z -> Z) (l : list (Z * Z)) : Z -> Z :=
  fold_left (fun mem '(a, v) => upd mem a v) l mem.

Definition put_stores (f : mps_fifo) (ws : list Z) : list (Z * Z) :=
  let w := pwrite_off f in
  let copied := apply_stores (f_mem f) (copy_stores w ws) in
  let next := w + Z.of_nat (length ws) in
  copy_stores w ws ++ [(w + 1, copied (w + 1) .| READY_BIT); (next + 1, 0); (next, 0)].

Lemma copy_words_stores ws : forall f pos,
  0 <= pos -> pos + Z.of_nat (length ws) <= f_words f ->
  copy_words f pos ws = Some (set_mem (apply_stores (f_mem f) (copy_stores pos ws)) f).
Proof.
  induction ws as [|x ws IH]; intros f pos Hp Hl; cbn in *.
  { by destruct f. }
  rewrite st_in by lia. bind. rewrite IH by (cbn; unfold f_words in *; cbn; lia). done.
Qed.

Lemma copy_stores_frame ws : forall pos mem i,
  i < pos -> apply_stores mem (copy_stores pos ws) i = mem i.
Proof.
  induction ws as [|x ws IH]; intros pos mem i Hi; cbn; [done|].
  change (apply_stores (upd mem pos x) (copy_stores (pos + 1) ws) i = mem i).
  rewrite IH by lia. apply upd_ne. lia.
Qed.

Lemma apply_stores_app mem l1 l2 :
  apply_stores mem (l1 ++ l2) = apply_stores (apply_stores mem l1) l2.
Proof. apply fold_left_app. Qed.

(** The stores of [fifo_put] executed to the end are [fifo_put]. *)
Lemma put_stores_complete f ws :
  8 <= f_size f < 2 ^ 30 -> sendable ws -> 0 <= pwrite_off f ->
  pwrite_off f + Z.of_nat (length ws) + 2 <= f_words f ->
  fifo_put f ws =
    Some (set_write (pwrite_off f + Z.of_nat (length ws))
            (set_mem (apply_stores (f_mem f) (put_stores f ws)) f)).
Proof.
  intros Hsz Hm Hw Hfit. pose proof (sendable_length _ Hm) as Hlen.
  pose proof (f_words_bounds f Hsz) as HN.
  unfold fifo_put, put_stores. rewrite copy_words_stores by lia. bind.
  rewrite ld_in by (unfold f_words in *; cbn; lia). bind.
  rewrite st_in by (unfold f_words in *; cbn; lia). bind.
  rewrite w32_id by (unfold is_u32; lia).
  rewrite st_in by (unfold f_words in *; cbn; lia). bind.
  rewrite st_in by (unfold f_words in *; cbn; lia).
  by rewrite apply_stores_app.
Qed.

(** What the reader sees when the first [j] stores of a write have reached the
    shared memory. *)
Definition mid_write (f : mps_fifo) (m : list Z) (j : nat) : mps_fifo :=
  set_mem (apply_stores (f_mem f) (take j (put_stores f m))) f.

Lemma take_copy_stores ws : forall pos j,
  take j (copy_stores pos ws) = copy_stores pos (take j ws).
Proof.
  induction ws as [|x ws IH]; intros pos [|j]; cbn; try done. by rewrite IH.
Qed.

Lemma length_copy_stores ws : forall pos, length (copy_stores pos ws) = length ws.
Proof. induction ws as [|x ws IH]; intros pos; cbn; [done|]. by rewrite IH. Qed.

Lemma take_put_stores f ws j :
  (j <= length ws)%nat -> take j (put_stores f ws) = copy_stores (pwrite_off f) (take j ws).
Proof.
  intros Hj. unfold put_stores. rewrite take_app_le by (rewrite length_copy_stores; lia).
  apply take_copy_stores.
Qed.

Lemma read_words_map f n : forall pos,
  0 <= pos -> pos + Z.of_nat n <= f_words f ->
  read_words f pos n = Some (map (fun k => f_mem f (pos + Z.of_nat k)) (seq 0 n)).
Proof.
  induction n as [|n IH]; intros pos Hp Hn; cbn [read_words]; [done|].
  rewrite ld_in by lia. bind. rewrite IH by lia. bind. cbn [seq map].
  rewrite Z.add_0_r, <- seq_shift, map_map. do 2 f_equal.
  apply map_ext. intros k. f_equal. lia.
Qed.

(** The reader's view when only the words [ws] of a message stand at the write
    position of an empty FIFO. *)
Lemma receive_partial f r w1 mem :
  0 <= r -> r + 2 <= f_words f -> pread_off f = r -> mem (r + 1) = w1 ->
  (msg_next_wrapped w1 = true -> r = 0) -> msg_ready w1 = false ->
  exists f', fifo_receive (set_mem mem f) = Some (None, f').
Proof.
  intros Hr HN Er Em Hw Hnr. unfold fifo_receive, ifx_mpsdrv_fifo_read.
  rewrite ld_in by (change (f_words (set_mem mem f)) with (f_words f); cbn; lia). bind.
  cbn [f_mem pread_off set_mem]. rewrite Er, Em.
  assert (E : (if msg_next_wrapped w1 then set_read 0 (set_mem mem f) else set_mem mem f)
              = set_mem mem f).
  { destruct (msg_next_wrapped w1); [|done]. apply set_read_id. cbn. rewrite Er. by apply Hw. }
  rewrite E, ld_in by (change (f_words (set_mem mem f)) with (f_words f); cbn; lia). bind.
  cbn [f_mem pread_off set_mem]. rewrite Er, Em, Hnr. cbn. by eexists.
Qed.

(** The store order does not protect a message whose ready bit is already
    set, which is how [ifx_mpsdrv_mbx_send] passes it.  As soon as the two
    header words are in the shared memory the reader takes the message, with
    whatever the block held before in place of its payload; a message whose
    ready bit is clear stays invisible until all its words are written. *)
Theorem fifo_write_publication f m w1 j :
  fifo_inv f [] -> lap_same f [] -> sendable m -> m !! 1%nat = Some w1 ->
  pwrite_off f + Z.of_nat (length m) + 2 < f_words f ->
  (msg_ready w1 = true ->
   exists f', fifo_receive (mid_write f m 2) =
     Some (Some (take 2 m ++
       map (fun k => f_mem f (pwrite_off f + 2 + Z.of_nat k)) (seq 0 (length m - 2))), f')) /\
  (msg_ready w1 = false -> (j <= length m)%nat ->
   exists f', fifo_receive (mid_write f m j) = Some (None, f')).
Proof.
  intros Hi (Hrw & HwN & Hc & Hnr & Hwr & _) Hm Hw1 Hfit. cbn in Hc.
  pose proof (sendable_length _ Hm) as Hlen. pose proof Hi as (Hsz & _).
  pose proof (f_words_bounds f Hsz) as HN. unfold mid_write. split.
  - intros Hrd. rewrite take_put_stores by lia.
    destruct m as [|x0 [|x1 rest]]; cbn in Hw1; try done. injection Hw1 as ->.
    pose proof Hm as (w & Hw & _ & Hnw & Hl). cbn in Hw. injection Hw as <-.
    change (apply_stores _ _) with (upd (upd (f_mem f) (pwrite_off f) x0) (pwrite_off f + 1) w1).
    set (g := set_mem _ f). assert (HNg : f_words g = f_words f) by done.
    assert (Eg : f_mem g (pread_off g + 1) = w1) by (cbn; rewrite Hc; apply upd_eq).
    assert (Hpg : pread_off g = pwrite_off f) by done.
    unfold fifo_receive, ifx_mpsdrv_fifo_read.
    rewrite ld_in by lia. bind. rewrite Eg, Hnw.
    rewrite ld_in by lia. bind. rewrite Eg, Hrd. cbn [negb]. bind.
    rewrite ld_in by lia. bind. rewrite Eg, Hrd, <- Hl, Nat2Z.id.
    rewrite read_words_map by lia. bind.
    unfold ifx_mpsdrv_fifo_read_ptr_inc.
    assert (Hle : (Z.of_nat (length (x0 :: w1 :: rest)) >? f_size g) = false).
    { rewrite Z.gtb_ltb. apply Z.ltb_ge. cbn in *. lia. }
    rewrite Hle, ld_in by lia. bind. rewrite st_in by lia. bind.
    eexists. do 2 f_equal. f_equal. cbn [length seq map take app Nat.sub].
    rewrite Hpg. change (Z.of_nat 0) with 0. change (Z.of_nat 1) with 1.
    rewrite Z.add_0_r. cbn [g f_mem set_mem].
    rewrite upd_ne, upd_eq, upd_eq by lia. do 2 f_equal.
    rewrite Nat.sub_0_r, <- (seq_shift _ 1), <- (seq_shift _ 0), !map_map.
    apply map_ext. intros k. rewrite 2 upd_ne by lia. f_equal. lia.
  - intros Hrd Hj. rewrite take_put_stores by lia.
    destruct m as [|x0 [|x1 rest]]; cbn in Hw1; try done. injection Hw1 as ->.
    pose proof Hm as (w & Hw & _ & Hnw & Hl). cbn in Hw. injection Hw as <-.
    destruct j as [|[|j]].
    + eapply (receive_partial f (pwrite_off f)); [lia|lia|done|reflexivity|done|done].
    + eapply (receive_partial f (pwrite_off f)); [lia|lia|done|reflexivity| |];
        cbn; rewrite upd_ne by lia; done.
    + eapply (receive_partial f (pwrite_off f)); [lia|lia|done|reflexivity| |];
        cbn [take copy_stores];
        change (apply_stores _ _) with (apply_stores
          (upd (upd (f_mem f) (pwrite_off f) x0) (pwrite_off f + 1) w1)
          (copy_stores (pwrite_off f + 1 + 1) (take j rest)));
        rewrite copy_stores_frame by lia; rewrite upd_eq; [congruence|done].
Qed.

(** ** The properties at concrete inputs *)

(** A command of four payload bytes, ready bit clear and set. *)
Definition sample_msg : list Z := [0x03000001; 0x00000004; 0xDEADBEEF].
Definition sample_ready : list Z := [0x03000001; 0x00008004; 0xDEADBEEF].
(** The command FIFO: 64 bytes. *)
Definition cmd_fifo : mps_fifo := fresh_fifo 64.

Lemma sample_sendable : sendable sample_msg.
Proof. exists 0x04. split_and!; try reflexivity. by unfold is_u32. Qed.

Lemma sample_ready_sendable : sendable sample_ready.
Proof. exists 0x8004. split_and!; try reflexivity. by unfold is_u32. Qed.

Lemma cmd_fifo_inv : fifo_inv cmd_fifo [].
Proof. apply fresh_inv. lia. Qed.

Lemma cmd_fifo_lap : lap_same cmd_fifo [].
Proof.
  unfold lap_same. split_and!; try reflexivity; try done; try (cbn; lia).
Qed.

(** Five sends fill the block up to its margin and wrap behind the reader. *)
Definition sample_ops : list fifo_op :=
  [Send sample_msg; Send sample_msg; Send sample_msg; Receive; Receive; Send sample_msg;
   Send sample_msg; Poll; Receive; Receive; Receive].

Lemma fifo_refines_queue_witness :
  Forall op_ok sample_ops /\
  exists es f' q, fifo_run cmd_fifo sample_ops = Some (es, f') /\
    queue_trace [] es q /\ fifo_inv f' q.
Proof.
  assert (H : Forall op_ok sample_ops).
  { repeat constructor; apply sample_sendable. }
  split; [exact H|]. apply (fifo_refines_queue 64 sample_ops); [lia|exact H].
Defined.

Lemma fifo_capacity_witness :
  exists ret f1 f2 f3,
    ifx_mpsdrv_fifo_write cmd_fifo sample_msg (MPS_MSGHDR_LEN + msg_len 4) = Some (ret, f1) /\
    (ret = OK \/ ifx_mpsdrv_fifo_not_empty f1 = Some (false, f2) /\
      ifx_mpsdrv_fifo_write f2 sample_msg (MPS_MSGHDR_LEN + msg_len 4) = Some (OK, f3)).
Proof.
  apply (fifo_capacity cmd_fifo [] sample_msg 4); try reflexivity.
  - apply cmd_fifo_inv.
  - apply sample_sendable.
Defined.

Lemma fifo_mem_available_bounds_witness :
  8 <= ifx_mpsdrv_fifo_mem_available cmd_fifo <= f_size cmd_fifo.
Proof.
  refine (proj1 (fifo_mem_available_bounds cmd_fifo [] cmd_fifo_inv _)). reflexivity.
Defined.

Lemma fifo_write_publication_witness :
  exists f', fifo_receive (mid_write cmd_fifo sample_ready 2) =
    Some (Some [0x03000001; 0x8004; 0], f').
Proof.
  apply (fifo_write_publication cmd_fifo sample_ready 0x8004 0); try reflexivity.
  - apply cmd_fifo_inv.
  - apply cmd_fifo_lap.
  - apply sample_ready_sendable.
Defined.
