(* ===== verification/MpsQueue.v ===== *)
(** * Circular buffer queues of the MPS buffer manager ([mps_tpe_buffer.c])

    A queue is a ring of [maxcount + 1] pointers.  The CPU0 side allocates
    queues and fills or drains them from its timer; the CPU1 side takes
    buffers out and puts them back.  Each queue has one producer and one
    consumer, which share nothing but the ring and its two indices.

    The file models the queue macros and functions, proves that they implement
    a bounded FIFO of pointers, and proves that the two CPUs may interleave
    their individual loads and stores without losing or duplicating a buffer.

    Buffers and memory blocks are addresses, 0 is NULL.  An access to a ring
    through an invalid pointer or outside its slots yields [None].  Cache
    maintenance, barriers and interrupt masking have no effect on the values
    and are not represented. *)

From S2P Require Import Prelude.
Open Scope Z_scope.

(** ** Memory management as the functions use it *)

(** The allocator: the results of the allocations to come (0 when there is no
    memory, and from the end of the list on) and the blocks given back. *)
Record env := mk_env { to_alloc : list Z; freed : list Z }.

Definition alloc_fn (e : env) : Z * env :=
  match to_alloc e with
  | nil => (0, e)
  | p :: ps => (p, mk_env ps (freed e))
  end.
Definition free_fn (p : Z) (e : env) : env := mk_env (to_alloc e) (freed e ++ [p]).

Definition mps_inv_alloc (e : env) : Z * env :=
  let '(p, e) := alloc_fn e in (KSEG1ADDR p, e).

(** [mps_list_book_keep_x] and the other counters used as locks. *)
Definition acquire_lock_nb (lock : Z) : bool * Z :=
  if lock - 1 =? 0 then (true, lock - 1) else (false, lock - 1 + 1).
Definition release_lock (lock : Z) : Z := lock + 1.

(** ** State of a queue

    [circular_buf] is the pointer, [cb_entries] the number of slots that are
    valid behind it: 0 before the ring is allocated, after it is freed, and
    when the allocation failed. *)
Record MPS_BUFF_HEAD := mk_q {
  circular_buf : Z;
  cb_entries : Z;
  cb_slots : Z -> Z;
  maxcount : Z;
  rpos : Z;
  wpos : Z
}.

Definition set_ring (p n : Z) (m : Z -> Z) (q : MPS_BUFF_HEAD) : MPS_BUFF_HEAD :=
  mk_q p n m (maxcount q) (rpos q) (wpos q).
Definition set_slots (m : Z -> Z) (q : MPS_BUFF_HEAD) : MPS_BUFF_HEAD :=
  set_ring (circular_buf q) (cb_entries q) m q.
Definition set_maxcount (n : Z) (q : MPS_BUFF_HEAD) : MPS_BUFF_HEAD :=
  mk_q (circular_buf q) (cb_entries q) (cb_slots q) n (rpos q) (wpos q).
Definition set_rpos (r : Z) (q : MPS_BUFF_HEAD) : MPS_BUFF_HEAD :=
  mk_q (circular_buf q) (cb_entries q) (cb_slots q) (maxcount q) r (wpos q).
Definition set_wpos (w : Z) (q : MPS_BUFF_HEAD) : MPS_BUFF_HEAD :=
  mk_q (circular_buf q) (cb_entries q) (cb_slots q) (maxcount q) (rpos q) w.

(** A zeroed head. *)
Definition zero_head : MPS_BUFF_HEAD := mk_q 0 0 (fun _ => 0) 0 0 0.

Definition get_slot (q : MPS_BUFF_HEAD) (i : Z) : option Z :=
  if (0 <=? i) && (i <? cb_entries q) then Some (cb_slots q i) else None.
Definition set_slot (q : MPS_BUFF_HEAD) (i v : Z) : option MPS_BUFF_HEAD :=
  if (0 <=? i) && (i <? cb_entries q) then Some (set_slots (upd (cb_slots q) i v) q) else None.

(** ** The queue macros *)

Definition MPS_NEXT_Q_POS (pos max : Z) : Z := if pos <? max then pos + 1 else 0.
Definition MPS_SET_Q_ITEM (q : MPS_BUFF_HEAD) (node : Z) : option MPS_BUFF_HEAD :=
  set_slot q (wpos q) node.
Definition MPS_GET_Q_ITEM (q : MPS_BUFF_HEAD) : option Z := get_slot q (rpos q).
Definition MPS_IS_Q_FULL (q : MPS_BUFF_HEAD) : bool :=
  MPS_NEXT_Q_POS (wpos q) (maxcount q) =? rpos q.
Definition MPS_IS_Q_EMPTY (q : option MPS_BUFF_HEAD) : bool :=
  match q with None => true | Some q => rpos q =? wpos q end.
Definition MPS_GET_Q_COUNT (q : MPS_BUFF_HEAD) : Z :=
  if rpos q <=? wpos q then wpos q - rpos q else wpos q + 1 + maxcount q - rpos q.

(** ** Operations *)

(** The loop of [mps_queue_free]; [fuel] bounds its iterations. *)
Fixpoint queue_free_loop (fuel : nat) (q : MPS_BUFF_HEAD) (rp wp count : Z) (e : env)
  : option (Z * Z * env) :=
  if rp =? wp then Some (rp, count, e) else
  match fuel with
  | O => None
  | S fuel =>
      skb ← get_slot q rp;
      queue_free_loop fuel q (MPS_NEXT_Q_POS rp (maxcount q)) wp (count + 1) (free_fn skb e)
  end.

Definition free_fuel (q : MPS_BUFF_HEAD) : nat := Z.to_nat (maxcount q + 1).

Definition mps_queue_free (q : option MPS_BUFF_HEAD) (free_circular_buf : bool) (e : env)
  : option (Z * option MPS_BUFF_HEAD * env) :=
  match q with
  | None => Some (0, None, e)
  | Some q =>
      '(rp, count, e) ←
        (if circular_buf q =? 0 then Some (rpos q, 0, e)
         else queue_free_loop (free_fuel q) q (rpos q) (wpos q) 0 e);
      let '(q, e) :=
        if free_circular_buf
        then (set_ring (circular_buf q) 0 (fun _ => 0) q, free_fn (circular_buf q) e)
        else (q, e) in
      Some (count, Some (set_rpos rp q), e)
  end.

(** The allocation loop of [mps_queue_init]: [i] buffers are in place, [n] are
    still to come.  The flag says whether it ran to its end. *)
Fixpoint queue_fill_loop (n : nat) (i : Z) (q : MPS_BUFF_HEAD) (e : env)
  : option (bool * Z * MPS_BUFF_HEAD * env) :=
  match n with
  | O => Some (true, i, q, e)
  | S n =>
      let '(buf, e) := alloc_fn e in
      q ← set_slot q i buf;
      if buf =? 0 then Some (false, i, q, e) else queue_fill_loop n (i + 1) q e
  end.

Definition mps_queue_init (q : MPS_BUFF_HEAD) (size num_entries : Z) (e : env)
  : option (Z * MPS_BUFF_HEAD * env) :=
  if negb (circular_buf q =? 0) then Some (- EEXIST, q, e) else
  let got := negb (hd 0 (to_alloc e) =? 0) in
  let '(p, e) := mps_inv_alloc e in
  let q := set_ring p (if got then num_entries + 1 else 0) (fun _ => 0) q in
  if circular_buf q =? 0 then Some (- ENOMEM, q, e) else
  if negb (size =? 0) then
    '(ok, i, q, e) ← queue_fill_loop (Z.to_nat num_entries) 0 (set_rpos 0 q) e;
    if (ok : bool) then Some (OK, set_maxcount num_entries (set_wpos num_entries q), e)
    else
      '(_, q', e) ← mps_queue_free (Some (set_wpos i (set_maxcount i q))) true e;
      Some (- ENOMEM, default q q', e)
  else
    (* the memset touches every slot *)
    _ ← get_slot q num_entries;
    Some (OK, set_maxcount num_entries (set_rpos 0 (set_wpos 0 (set_slots (fun _ => 0) q))), e).

Definition mps_queue_tail (buf : Z) (q : option MPS_BUFF_HEAD)
  : option (Z * option MPS_BUFF_HEAD) :=
  match q with
  | None => Some (- EINVAL, None)
  | Some q =>
      if MPS_IS_Q_FULL q then Some (- ENOMEM, Some q) else
      q ← MPS_SET_Q_ITEM q buf;
      Some (OK, Some (set_wpos (MPS_NEXT_Q_POS (wpos q) (maxcount q)) q))
  end.

(** What [mps_dequeue_head] leaves in the slot it empties. *)
Definition POISON : Z := 0xEEEEEEEE.

Definition mps_dequeue_head (q : option MPS_BUFF_HEAD) : option (Z * option MPS_BUFF_HEAD) :=
  if MPS_IS_Q_EMPTY q then Some (0, q) else
  q ← q;
  m_buf ← MPS_GET_Q_ITEM q;
  q ← set_slot q (rpos q) POISON;
  Some (m_buf, Some (set_rpos (MPS_NEXT_Q_POS (rpos q) (maxcount q)) q)).

(** The loop of [mps_topup_q_list]; the result is the new [count]. *)
Fixpoint topup_loop (fuel : nat) (count wp : Z) (q : MPS_BUFF_HEAD) (e : env)
  : option (Z * MPS_BUFF_HEAD * env) :=
  if negb (count <? maxcount q) then Some (count, q, e) else
  match fuel with
  | O => None
  | S fuel =>
      let '(mps_buf, e) := alloc_fn e in
      if mps_buf =? 0 then Some (count, set_wpos wp q, e) else
      q ← MPS_SET_Q_ITEM q mps_buf;
      let wp := MPS_NEXT_Q_POS wp (maxcount q) in
      topup_loop fuel (count + 1) wp (set_wpos wp q) e
  end.

Definition mps_topup_q_list (q : MPS_BUFF_HEAD) (e : env) : option (Z * MPS_BUFF_HEAD * env) :=
  let org_count := MPS_GET_Q_COUNT q in
  '(count, q, e) ← topup_loop (Z.to_nat (maxcount q)) org_count (wpos q) q e;
  Some (count - org_count, q, e).

Definition ifx_cpu0_release_q_list (q : option MPS_BUFF_HEAD) (e : env)
  : option (Z * option MPS_BUFF_HEAD * env) :=
  match q with None => Some (0, None, e) | Some _ => mps_queue_free q false e end.

(** ** The queue as a list of buffers *)

(** The position [k] places after [r] on the ring. *)
Definition pos_at (max r k : Z) : Z := if r + k <=? max then r + k else r + k - (max + 1).

Definition items (mem : Z -> Z) (max r : Z) (n : nat) : list Z :=
  map (fun k => mem (pos_at max r (Z.of_nat k))) (seq 0 n).

Definition q_count (q : MPS_BUFF_HEAD) : nat := Z.to_nat (MPS_GET_Q_COUNT q).
Definition contents (q : MPS_BUFF_HEAD) : list Z :=
  items (cb_slots q) (maxcount q) (rpos q) (q_count q).

(** A queue [mps_queue_init] has set up. *)
Definition q_wf (q : MPS_BUFF_HEAD) : Prop :=
  circular_buf q <> 0 /\ maxcount q + 1 <= cb_entries q /\ 0 <= maxcount q < 2 ^ 31 - 1 /\
  0 <= rpos q <= maxcount q /\ 0 <= wpos q <= maxcount q.

(** ** Lemmas on ring positions and contents *)

Arguments MPS_NEXT_Q_POS : simpl never.
Arguments MPS_GET_Q_COUNT : simpl never.
Arguments pos_at : simpl never.

Ltac ring_cases :=
  unfold pos_at, MPS_NEXT_Q_POS, MPS_GET_Q_COUNT, MPS_IS_Q_FULL in *; cbn in *;
  repeat (split_if || match goal with
    | H : context [if ?b then _ else _] |- _ => destruct b eqn:?; bool_prop
    end); bool_prop; try lia.

Lemma pos_at_0 max r : 0 <= r <= max -> pos_at max r 0 = r.
Proof. intros H. ring_cases. Qed.

Lemma pos_at_bounds max r k : 0 <= r <= max -> 0 <= k <= max -> 0 <= pos_at max r k <= max.
Proof. intros. ring_cases. Qed.

Lemma pos_at_next max r k :
  0 <= r <= max -> 0 <= k < max -> pos_at max (MPS_NEXT_Q_POS r max) k = pos_at max r (k + 1).
Proof. intros. ring_cases. Qed.

Lemma next_pos_at max r k :
  0 <= r <= max -> 0 <= k < max -> MPS_NEXT_Q_POS (pos_at max r k) max = pos_at max r (k + 1).
Proof. intros. ring_cases. Qed.

Lemma next_bounds max r : 0 <= r <= max -> 0 <= MPS_NEXT_Q_POS r max <= max.
Proof. intros. ring_cases. Qed.

Lemma pos_at_inj max r j k :
  0 <= r <= max -> 0 <= j <= max -> 0 <= k <= max -> pos_at max r j = pos_at max r k -> j = k.
Proof. intros. ring_cases. Qed.

Lemma items_S mem max r n :
  items mem max r (S n) = items mem max r n ++ [mem (pos_at max r (Z.of_nat n))].
Proof. unfold items. by rewrite seq_S, map_app. Qed.

Lemma items_cons mem max r n :
  0 <= r <= max -> Z.of_nat n <= max ->
  items mem max r (S n) = mem r :: items mem max (MPS_NEXT_Q_POS r max) n.
Proof.
  intros Hr Hn. unfold items. cbn [seq map]. rewrite pos_at_0 by done. f_equal.
  rewrite <- seq_shift, map_map. apply map_ext_in. intros k Hk.
  apply in_seq in Hk. f_equal. rewrite pos_at_next by lia. f_equal. lia.
Qed.

Lemma items_ext mem mem' max r n :
  (forall k, 0 <= k < Z.of_nat n -> mem' (pos_at max r k) = mem (pos_at max r k)) ->
  items mem' max r n = items mem max r n.
Proof.
  intros H. unfold items. apply map_ext_in. intros k Hk. apply in_seq in Hk. apply H. lia.
Qed.

Lemma length_items mem max r n : length (items mem max r n) = n.
Proof. unfold items. by rewrite length_map, length_seq. Qed.

Lemma lookup_items mem max r n k :
  (k < n)%nat -> items mem max r n !! k = Some (mem (pos_at max r (Z.of_nat k))).
Proof.
  intros H. unfold items. rewrite list_lookup_fmap, lookup_seq_lt by done. done.
Qed.

Section wf.
Context (q : MPS_BUFF_HEAD) (Hwf : q_wf q).

Lemma count_bounds : 0 <= MPS_GET_Q_COUNT q <= maxcount q.
Proof using Hwf. destruct Hwf as (_ & _ & ? & ? & ?). ring_cases. Qed.

Lemma q_count_eq : Z.of_nat (q_count q) = MPS_GET_Q_COUNT q.
Proof using Hwf. pose proof count_bounds. unfold q_count. lia. Qed.

Lemma wpos_at : pos_at (maxcount q) (rpos q) (MPS_GET_Q_COUNT q) = wpos q.
Proof using Hwf. destruct Hwf as (_ & _ & ? & ? & ?). ring_cases. Qed.

Lemma full_iff : MPS_IS_Q_FULL q = true <-> MPS_GET_Q_COUNT q = maxcount q.
Proof using Hwf.
  destruct Hwf as (_ & _ & ? & ? & ?). unfold MPS_IS_Q_FULL. rewrite Z.eqb_eq. ring_cases.
Qed.

Lemma empty_iff : (rpos q =? wpos q) = true <-> MPS_GET_Q_COUNT q = 0.
Proof using Hwf. destruct Hwf as (_ & _ & ? & ? & ?). rewrite Z.eqb_eq. ring_cases. Qed.

Lemma length_contents : Z.of_nat (length (contents q)) = MPS_GET_Q_COUNT q.
Proof using Hwf. unfold contents. rewrite length_items. apply q_count_eq. Qed.

Lemma get_slot_wf i : 0 <= i <= maxcount q -> get_slot q i = Some (cb_slots q i).
Proof using Hwf.
  destruct Hwf as (_ & He & _). intros Hi. unfold get_slot.
  by rewrite (proj2 (Z.leb_le _ _)), (proj2 (Z.ltb_lt _ _)) by lia.
Qed.

Lemma set_slot_wf i v :
  0 <= i <= maxcount q -> set_slot q i v = Some (set_slots (upd (cb_slots q) i v) q).
Proof using Hwf.
  destruct Hwf as (_ & He & _). intros Hi. unfold set_slot.
  by rewrite (proj2 (Z.leb_le _ _)), (proj2 (Z.ltb_lt _ _)) by lia.
Qed.
End wf.

(** ** The two ends of a queue *)

(** The queue with one more item at its tail. *)
Definition pushed (q : MPS_BUFF_HEAD) (b : Z) : MPS_BUFF_HEAD :=
  set_wpos (MPS_NEXT_Q_POS (wpos q) (maxcount q)) (set_slots (upd (cb_slots q) (wpos q) b) q).

(** The queue without its head item. *)
Definition popped (q : MPS_BUFF_HEAD) : MPS_BUFF_HEAD :=
  set_rpos (MPS_NEXT_Q_POS (rpos q) (maxcount q))
    (set_slots (upd (cb_slots q) (rpos q) POISON) q).

Lemma pushed_wf q b : q_wf q -> q_wf (pushed q b).
Proof.
  intros (?&?&?&?&?). unfold q_wf; cbn. split_and!; try done; try lia;
    apply next_bounds; lia.
Qed.

Lemma popped_wf q : q_wf q -> q_wf (popped q).
Proof.
  intros (?&?&?&?&?). unfold q_wf; cbn. split_and!; try done; try lia;
    apply next_bounds; lia.
Qed.

Lemma pushed_count q b :
  q_wf q -> MPS_GET_Q_COUNT q <> maxcount q ->
  MPS_GET_Q_COUNT (pushed q b) = MPS_GET_Q_COUNT q + 1.
Proof. intros (?&?&?&?&?) Hn. revert Hn. unfold pushed. ring_cases. Qed.

Lemma popped_count q :
  q_wf q -> MPS_GET_Q_COUNT q <> 0 -> MPS_GET_Q_COUNT (popped q) = MPS_GET_Q_COUNT q - 1.
Proof. intros (?&?&?&?&?) Hn. revert Hn. unfold popped. ring_cases. Qed.

Lemma pushed_contents q b :
  q_wf q -> MPS_GET_Q_COUNT q <> maxcount q -> contents (pushed q b) = contents q ++ [b].
Proof.
  intros Hwf Hn. pose proof (count_bounds q Hwf) as Hc. pose proof Hwf as (_ & _ & Hm & Hr & Hw).
  unfold contents, q_count. rewrite pushed_count by done.
  rewrite Z2Nat.inj_add, Nat.add_1_r by lia. rewrite items_S. cbn.
  rewrite Z2Nat.id, (wpos_at q Hwf), upd_eq by lia. f_equal.
  apply items_ext. intros k Hk. apply upd_ne. rewrite <- (wpos_at q Hwf).
  intros E. apply pos_at_inj in E; lia.
Qed.

Lemma popped_contents q :
  q_wf q -> MPS_GET_Q_COUNT q <> 0 ->
  contents q = cb_slots q (rpos q) :: contents (popped q).
Proof.
  intros Hwf Hn. pose proof (count_bounds q Hwf) as Hc. pose proof Hwf as (_ & _ & Hm & Hr & Hw).
  unfold contents, q_count. rewrite popped_count by done.
  replace (Z.to_nat (MPS_GET_Q_COUNT q)) with (S (Z.to_nat (MPS_GET_Q_COUNT q - 1))) by lia.
  rewrite items_cons by lia. f_equal. symmetry. apply items_ext. intros k Hk.
  apply upd_ne. cbn. rewrite pos_at_next by lia. rewrite <- (pos_at_0 (maxcount q) (rpos q)) at 2 by lia.
  intros E. apply pos_at_inj in E; lia.
Qed.

Lemma mps_queue_tail_spec b q :
  q_wf q ->
  mps_queue_tail b (Some q) =
    if MPS_GET_Q_COUNT q =? maxcount q then Some (- ENOMEM, Some q)
    else Some (OK, Some (pushed q b)).
Proof.
  intros Hwf. pose proof Hwf as (_ & _ & _ & _ & Hw). unfold mps_queue_tail.
  destruct (MPS_GET_Q_COUNT q =? maxcount q) eqn:E; bool_prop.
  - by rewrite (proj2 (full_iff q Hwf)).
  - destruct (MPS_IS_Q_FULL q) eqn:F; [by apply (full_iff q Hwf) in F|].
    unfold MPS_SET_Q_ITEM. by rewrite (set_slot_wf q Hwf) by lia.
Qed.

Lemma mps_dequeue_head_spec q :
  q_wf q ->
  mps_dequeue_head (Some q) =
    if MPS_GET_Q_COUNT q =? 0 then Some (0, Some q)
    else Some (cb_slots q (rpos q), Some (popped q)).
Proof.
  intros Hwf. pose proof Hwf as (_ & _ & _ & Hr & _). unfold mps_dequeue_head, MPS_IS_Q_EMPTY.
  destruct (MPS_GET_Q_COUNT q =? 0) eqn:E; bool_prop.
  - by rewrite (proj2 (empty_iff q Hwf)).
  - destruct (rpos q =? wpos q) eqn:F; [by apply (empty_iff q Hwf) in F|].
    cbn [mbind option_bind]. unfold MPS_GET_Q_ITEM.
    rewrite (get_slot_wf q Hwf) by lia. cbn [mbind option_bind].
    by rewrite (set_slot_wf q Hwf) by lia.
Qed.

(** ** Draining, filling and setting up a queue *)

Lemma queue_free_loop_spec q n : forall fuel rp wp count e,
  q_wf q -> 0 <= rp <= maxcount q -> Z.of_nat n <= maxcount q -> (n <= fuel)%nat ->
  wp = pos_at (maxcount q) rp (Z.of_nat n) ->
  queue_free_loop fuel q rp wp count e =
    Some (wp, count + Z.of_nat n,
          mk_env (to_alloc e) (freed e ++ items (cb_slots q) (maxcount q) rp n)).
Proof.
  induction n as [|n IH]; intros fuel rp wp count e Hwf Hr Hn Hf ->.
  - rewrite pos_at_0 by done. rewrite Z.add_0_r, app_nil_r.
    destruct fuel; cbn; rewrite Z.eqb_refl; by destruct e.
  - destruct fuel as [|fuel]; [lia|]. cbn [queue_free_loop].
    destruct (rp =? pos_at _ _ _) eqn:E; bool_prop.
    { rewrite <- (pos_at_0 (maxcount q) rp) in E at 1 by lia. apply pos_at_inj in E; lia. }
    rewrite (get_slot_wf q Hwf) by lia. cbn [mbind option_bind].
    rewrite IH; try done; try lia.
    + rewrite (items_cons _ _ rp) by lia. cbn [to_alloc freed free_fn].
      rewrite <- app_assoc. cbn. do 2 f_equal. f_equal. lia.
    + apply next_bounds. lia.
    + rewrite pos_at_next by lia. f_equal. lia.
Qed.

(** The drained queue. *)
Definition drained (q : MPS_BUFF_HEAD) : MPS_BUFF_HEAD := set_rpos (wpos q) q.

Lemma drained_wf q : q_wf q -> q_wf (drained q).
Proof. intros (?&?&?&?&?). unfold q_wf, drained; cbn. split_and!; done || lia. Qed.

Lemma drained_contents q : contents (drained q) = [].
Proof.
  unfold contents, q_count, drained, MPS_GET_Q_COUNT. cbn.
  by rewrite Z.leb_refl, Z.sub_diag.
Qed.

Lemma mps_queue_free_spec q e :
  q_wf q ->
  mps_queue_free (Some q) false e =
    Some (Z.of_nat (length (contents q)), Some (drained q),
          mk_env (to_alloc e) (freed e ++ contents q)).
Proof.
  intros Hwf. pose proof (count_bounds q Hwf). pose proof (q_count_eq q Hwf) as Hq.
  pose proof Hwf as (Hp & _ & Hm & Hr & Hw). unfold mps_queue_free.
  rewrite (proj2 (Z.eqb_neq _ _) Hp).
  rewrite (queue_free_loop_spec q (q_count q)) by
    (done || unfold free_fuel; rewrite ?Hq, ?(wpos_at q Hwf); lia).
  cbn. unfold contents at 1. rewrite length_items. done.
Qed.

(** The allocations an attempt to get [n] blocks is granted. *)
Fixpoint grants (n : nat) (ps : list Z) : list Z :=
  match n, ps with
  | S n, p :: ps => if p =? 0 then [] else p :: grants n ps
  | _, _ => []
  end.

Fixpoint after_grants (n : nat) (ps : list Z) : list Z :=
  match n, ps with
  | S n, p :: ps => if p =? 0 then ps else after_grants n ps
  | _, _ => ps
  end.

Lemma grants_le n : forall ps, (length (grants n ps) <= n)%nat.
Proof.
  induction n as [|n IH]; intros [|p ps]; cbn; try lia.
  destruct (p =? 0); cbn; [lia|]. specialize (IH ps). lia.
Qed.

Lemma topup_loop_spec fuel : forall q e,
  q_wf q -> Z.of_nat fuel >= maxcount q - MPS_GET_Q_COUNT q ->
  exists q' e', topup_loop fuel (MPS_GET_Q_COUNT q) (wpos q) q e =
      Some (MPS_GET_Q_COUNT q', q', e') /\ q_wf q' /\
    contents q' = contents q ++
      grants (Z.to_nat (maxcount q - MPS_GET_Q_COUNT q)) (to_alloc e) /\
    e' = mk_env (after_grants (Z.to_nat (maxcount q - MPS_GET_Q_COUNT q)) (to_alloc e)) (freed e) /\
    maxcount q' = maxcount q /\ rpos q' = rpos q.
Proof.
  induction fuel as [|fuel IH]; intros q e Hwf Hf; pose proof (count_bounds q Hwf) as Hc.
  - exists q, e. cbn [topup_loop]. rewrite (proj2 (Z.ltb_ge _ _)) by lia. cbn [negb].
    replace (maxcount q - _) with 0 by lia. cbn. rewrite app_nil_r. by destruct e.
  - cbn [topup_loop]. destruct (MPS_GET_Q_COUNT q <? maxcount q) eqn:E; bool_prop; cbn [negb].
    + replace (Z.to_nat (maxcount q - _))
        with (S (Z.to_nat (maxcount q - (MPS_GET_Q_COUNT q + 1)))) by lia.
      assert (Hstop : set_wpos (wpos q) q = q) by by destruct q.
      unfold alloc_fn. destruct e as [[|p ps] fr]; cbn [grants after_grants to_alloc freed].
      { rewrite Hstop. eexists q, _. by rewrite app_nil_r. }
      destruct (p =? 0); cbn [Z.eqb].
      { rewrite Hstop. eexists q, _. by rewrite app_nil_r. }
      unfold MPS_SET_Q_ITEM. destruct Hwf as (Hp & He & Hm & Hr & Hw) eqn:EHwf.
      rewrite (set_slot_wf q Hwf) by lia. cbn [mbind option_bind].
      change (set_wpos _ (set_slots _ q)) with (pushed q p).
      rewrite <- (pushed_count q p) by (done || lia).
      destruct (IH (pushed q p) (mk_env ps fr)) as (q' & e' & Hl & Hwf' & Hct & Hrest).
      { by apply pushed_wf. }
      { rewrite pushed_count by (done || lia). cbn. lia. }
      exists q', e'. split; [exact Hl|]. split; [done|]. split; [|exact Hrest].
      rewrite Hct, pushed_contents, <- app_assoc by (done || lia). done.
    + exists q, e. replace (maxcount q - _) with 0 by lia. cbn. rewrite app_nil_r. by destruct e.
Qed.

Lemma mps_topup_q_list_spec q e :
  q_wf q ->
  exists q' e', mps_topup_q_list q e =
      Some (Z.of_nat (length (contents q')) - Z.of_nat (length (contents q)), q', e') /\
    q_wf q' /\ maxcount q' = maxcount q /\
    e' = mk_env (after_grants (Z.to_nat (maxcount q) - length (contents q)) (to_alloc e)) (freed e) /\
    contents q' = contents q ++
      grants (Z.to_nat (maxcount q) - length (contents q)) (to_alloc e).
Proof.
  intros Hwf. pose proof (count_bounds q Hwf). pose proof (length_contents q Hwf) as Hl.
  destruct (topup_loop_spec (Z.to_nat (maxcount q)) q e Hwf) as (q' & e' & E & Hwf' & Hc & Hf & Hm & _);
    [lia|].
  unfold mps_topup_q_list. rewrite E. cbn [mbind option_bind].
  exists q', e'. rewrite (length_contents q' Hwf'), Hl.
  replace (Z.to_nat (maxcount q) - length (contents q))%nat
    with (Z.to_nat (maxcount q - MPS_GET_Q_COUNT q)) by lia.
  done.
Qed.

Lemma queue_fill_loop_spec n : forall i q e,
  0 <= i -> i + Z.of_nat n <= cb_entries q ->
  let g := grants n (to_alloc e) in
  exists m e', queue_fill_loop n i q e =
      Some (bool_decide (length g = n), i + Z.of_nat (length g), set_slots m q, e') /\
    freed e' = freed e /\
    (forall k x, g !! k = Some x -> m (i + Z.of_nat k) = x) /\
    (forall j, j < i -> m j = cb_slots q j).
Proof.
  induction n as [|n IH]; intros i q e Hi Hn; cbn [queue_fill_loop].
  - exists (cb_slots q), e. cbn. rewrite Z.add_0_r. split_and!; try done. by destruct q.
  - assert (Hslot : forall v, set_slot q i v = Some (set_slots (upd (cb_slots q) i v) q)).
    { intros v. unfold set_slot. by rewrite (proj2 (Z.leb_le _ _)), (proj2 (Z.ltb_lt _ _)) by lia. }
    unfold alloc_fn. destruct (to_alloc e) as [|p ps]; cbn [grants];
      [|destruct (p =? 0) eqn:Ep]; rewrite Hslot; cbn [mbind option_bind].
    + exists (upd (cb_slots q) i 0), e. cbn. rewrite Z.add_0_r. split_and!; try done.
      intros j Hj. apply upd_ne. lia.
    + exists (upd (cb_slots q) i p), (mk_env ps (freed e)). cbn.
      rewrite Z.add_0_r. split_and!; try done. intros j Hj. apply upd_ne. lia.
    + destruct (IH (i + 1) (set_slots (upd (cb_slots q) i p) q) (mk_env ps (freed e)))
        as (m & e' & -> & Hf & Hg & Hj); [lia|cbn; lia|]. cbn [to_alloc] in *.
      exists m, e'. cbn [length]. split; [|split; [done|split]].
      * do 2 f_equal. f_equal. f_equal; [apply bool_decide_ext; lia|lia].
      * intros [|k] x Hk; cbn in Hk; simplify_eq.
        -- rewrite Z.add_0_r, Hj by lia. cbn. apply upd_eq.
        -- rewrite <- (Hg k x Hk). f_equal. lia.
      * intros j Hlt. rewrite Hj by lia. cbn. apply upd_ne. lia.
Qed.

(** ** Refinement: a queue is a bounded list *)

Inductive q_op := Tail (b : Z) | Dequeue | FreeAll | Topup.

Definition q_step (op : q_op) (q : MPS_BUFF_HEAD) (e : env)
  : option (Z * MPS_BUFF_HEAD * env) :=
  match op with
  | Tail b => '(r, q') ← mps_queue_tail b (Some q); q' ← q'; Some (r, q', e)
  | Dequeue => '(r, q') ← mps_dequeue_head (Some q); q' ← q'; Some (r, q', e)
  | FreeAll => '(r, q', e) ← mps_queue_free (Some q) false e; q' ← q'; Some (r, q', e)
  | Topup => mps_topup_q_list q e
  end.

Fixpoint q_run (ops : list q_op) (q : MPS_BUFF_HEAD) (e : env)
  : option (list Z * MPS_BUFF_HEAD * env) :=
  match ops with
  | nil => Some (nil, q, e)
  | op :: ops =>
      '(r, q, e) ← q_step op q e; '(rs, q, e) ← q_run ops q e; Some (r :: rs, q, e)
  end.

(** The specification, on a list of at most [cap] buffers. *)
Definition spec_step (cap : nat) (op : q_op) (l : list Z) (e : env) : Z * list Z * env :=
  match op with
  | Tail b => if Nat.eqb (length l) cap then (- ENOMEM, l, e) else (OK, l ++ [b], e)
  | Dequeue => (hd 0 l, tl l, e)
  | FreeAll => (Z.of_nat (length l), [], mk_env (to_alloc e) (freed e ++ l))
  | Topup =>
      let n := (cap - length l)%nat in
      let g := grants n (to_alloc e) in
      (Z.of_nat (length g), l ++ g, mk_env (after_grants n (to_alloc e)) (freed e))
  end.

Fixpoint spec_run (cap : nat) (ops : list q_op) (l : list Z) (e : env) : list Z * list Z * env :=
  match ops with
  | nil => (nil, l, e)
  | op :: ops =>
      let '(r, l, e) := spec_step cap op l e in
      let '(rs, l, e) := spec_run cap ops l e in (r :: rs, l, e)
  end.

Lemma contents_nil q : q_wf q -> MPS_GET_Q_COUNT q = 0 -> contents q = [].
Proof. intros Hwf H. pose proof (length_contents q Hwf). destruct (contents q); [done|cbn in *; lia]. Qed.

Lemma q_step_refines op q e :
  q_wf q ->
  exists r q' e', q_step op q e = Some (r, q', e') /\ q_wf q' /\ maxcount q' = maxcount q /\
    spec_step (Z.to_nat (maxcount q)) op (contents q) e = (r, contents q', e').
Proof.
  intros Hwf. pose proof (length_contents q Hwf) as Hl. pose proof (count_bounds q Hwf).
  destruct op as [b| | |]; cbn [q_step spec_step].
  - rewrite mps_queue_tail_spec by done. destruct (_ =? maxcount q) eqn:E; bool_prop.
    + exists (- ENOMEM), q, e. rewrite (proj2 (Nat.eqb_eq _ _)) by lia. done.
    + exists OK, (pushed q b), e. rewrite (proj2 (Nat.eqb_neq _ _)) by lia.
      split; [done|]. split; [by apply pushed_wf|]. split; [done|]. by rewrite pushed_contents.
  - rewrite mps_dequeue_head_spec by done. destruct (_ =? 0) eqn:E; bool_prop.
    + exists 0, q, e. by rewrite (contents_nil q) by done.
    + exists (cb_slots q (rpos q)), (popped q), e. split; [done|].
      split; [by apply popped_wf|]. split; [done|]. by rewrite (popped_contents q) by done.
  - rewrite mps_queue_free_spec by done. cbn [mbind option_bind].
    do 3 eexists. split; [done|]. split; [by apply drained_wf|]. split; [done|].
    by rewrite drained_contents.
  - destruct (mps_topup_q_list_spec q e Hwf) as (q' & e' & -> & Hwf' & Hm & -> & Hc).
    do 3 eexists. split; [done|]. split; [done|]. split; [done|]. rewrite Hc.
    f_equal. f_equal. rewrite length_app. lia.
Qed.

(** A buffer queue implements a bounded list.  From any state set up by
    [mps_queue_init], any sequence of enqueue, dequeue, drain and top-up calls
    runs without leaving the ring, and returns what the same calls return on a
    list of at most [maxcount] buffers: enqueue refuses exactly when the list
    is full, dequeue takes its head or NULL, drain gives back every buffer in
    order, top-up fills it as far as the allocator serves. *)
Theorem mps_queue_refines_list ops q e :
  q_wf q ->
  exists rs q' e', q_run ops q e = Some (rs, q', e') /\ q_wf q' /\
    spec_run (Z.to_nat (maxcount q)) ops (contents q) e = (rs, contents q', e').
Proof.
  revert q e. induction ops as [|op ops IH]; intros q e Hwf; cbn [q_run spec_run].
  { by exists [], q, e. }
  destruct (q_step_refines op q e Hwf) as (r & q1 & e1 & -> & Hwf1 & Hm & ->).
  destruct (IH q1 e1 Hwf1) as (rs & q2 & e2 & E & Hwf2 & Hs). cbn [mbind option_bind].
  rewrite E. cbn [mbind option_bind]. rewrite Hm in Hs. rewrite Hs. by exists (r :: rs), q2, e2.
Qed.

(** ** Setting up a queue *)

Lemma KSEG1ADDR_nonzero a : KSEG1ADDR a <> 0.
Proof.
  intros H. assert (E : Z.testbit (KSEG1ADDR a) 31 = true).
  { unfold KSEG1ADDR. by rewrite Z.lor_spec, orb_true_r. }
  by rewrite H, Z.bits_0 in E.
Qed.

Lemma mps_queue_init_block q size n p ps fr :
  circular_buf q = 0 -> p <> 0 ->
  mps_queue_init q size n (mk_env (p :: ps) fr) =
    let q := set_ring (KSEG1ADDR p) (n + 1) (fun _ => 0) q in
    if negb (size =? 0) then
      '(ok, i, q, e) ← queue_fill_loop (Z.to_nat n) 0 (set_rpos 0 q) (mk_env ps fr);
      if (ok : bool) then Some (OK, set_maxcount n (set_wpos n q), e)
      else
        '(_, q', e) ← mps_queue_free (Some (set_wpos i (set_maxcount i q))) true e;
        Some (- ENOMEM, default q q', e)
    else
      _ ← get_slot q n;
      Some (OK, set_maxcount n (set_rpos 0 (set_wpos 0 (set_slots (fun _ => 0) q))), mk_env ps fr).
Proof.
  intros Hq Hp. unfold mps_queue_init. rewrite Hq. unfold mps_inv_alloc, alloc_fn.
  cbn [to_alloc freed hd negb Z.eqb].
  rewrite (proj2 (Z.eqb_neq p 0) Hp). cbn zeta. cbn [negb].
  cbn [circular_buf set_ring]. by rewrite (proj2 (Z.eqb_neq _ 0) (KSEG1ADDR_nonzero p)).
Qed.

(** Contents of a ring whose slots [0 .. length g - 1] hold [g]. *)
Lemma items_filled m max (g : list Z) :
  Z.of_nat (length g) <= max -> (forall k x, g !! k = Some x -> m (Z.of_nat k) = x) ->
  items m max 0 (length g) = g.
Proof.
  intros Hl Hg. apply list_eq. intros k. destruct (decide (k < length g)%nat) as [Hk|Hk].
  - rewrite lookup_items by done. destruct (lookup_lt_is_Some_2 g k Hk) as [x Hx].
    rewrite Hx, <- (Hg k x Hx). do 2 f_equal. ring_cases.
  - rewrite !lookup_ge_None_2; [done|lia|rewrite length_items; lia].
Qed.

(** The state a failed initialisation leaves: the ring is freed, its pointer
    is kept. *)
Definition dangling (q : MPS_BUFF_HEAD) (n : Z) : Prop :=
  circular_buf q <> 0 /\ cb_entries q = 0 /\ rpos q = n /\ wpos q = n /\ maxcount q = n.

Lemma dangling_tail q n b : dangling q n -> 0 < n -> mps_queue_tail b (Some q) = None.
Proof.
  intros (_ & He & Hr & Hw & Hm) Hn. unfold mps_queue_tail, MPS_IS_Q_FULL, MPS_NEXT_Q_POS.
  rewrite Hr, Hw, Hm, Z.ltb_irrefl, (proj2 (Z.eqb_neq 0 n)) by lia.
  unfold MPS_SET_Q_ITEM, set_slot. rewrite He, Hw.
  by rewrite (proj2 (Z.ltb_ge n 0)), andb_false_r by lia.
Qed.

Lemma init_fill_failure q m (g : list Z) e :
  circular_buf q <> 0 -> Z.of_nat (length g) + 1 <= cb_entries q ->
  Z.of_nat (length g) < 2 ^ 31 - 1 ->
  (forall k x, g !! k = Some x -> m (Z.of_nat k) = x) ->
  let i := Z.of_nat (length g) in
  exists q', mps_queue_free (Some (set_wpos i (set_maxcount i (set_slots m (set_rpos 0 q))))) true e =
    Some (i, Some q', mk_env (to_alloc e) (freed e ++ g ++ [circular_buf q])) /\ dangling q' i.
Proof.
  intros Hp He Hb Hg i. unfold mps_queue_free.
  set (q1 := set_wpos i _).
  assert (Hwf : q_wf q1) by (unfold q_wf, q1; cbn; split_and!; done || lia).
  rewrite (proj2 (Z.eqb_neq _ 0) Hp : (circular_buf q1 =? 0) = false).
  rewrite (queue_free_loop_spec q1 (length g)); try done; try (unfold q1, free_fuel; cbn; lia).
  2:{ unfold q1; cbn. ring_cases. }
  cbn [mbind option_bind]. eexists. split.
  - unfold q1 at 3. cbn. rewrite items_filled by (done || lia). unfold free_fn. cbn [to_alloc freed]. by rewrite <- app_assoc.
  - unfold dangling; cbn. done.
Qed.

(** Initialisation of a queue on every outcome of the allocator.  With a
    ring and all its buffers granted the queue holds exactly these buffers (none
    for a free queue) and is well formed.  When a buffer is refused everything
    obtained is given back and -ENOMEM returned, but the queue keeps the
    pointer to the freed ring: a new attempt is refused with -EEXIST and an
    enqueue may store into the freed block.  When the ring itself is refused
    the test for it never fires, because an uncached alias is never NULL, and
    the initialisation goes on to store through the invalid pointer. *)
Theorem mps_queue_init_outcomes q size n p ps fr :
  circular_buf q = 0 -> 0 <= n < 2 ^ 31 - 1 ->
  let g := if size =? 0 then [] else grants (Z.to_nat n) ps in
  let res := mps_queue_init q size n (mk_env (p :: ps) fr) in
  (p <> 0 -> (size = 0 \/ length g = Z.to_nat n) ->
     exists q' e', res = Some (OK, q', e') /\ q_wf q' /\ contents q' = g /\
       maxcount q' = n /\ freed e' = fr) /\
  (p <> 0 -> size <> 0 -> length g <> Z.to_nat n ->
     exists q' e', res = Some (- ENOMEM, q', e') /\ freed e' = fr ++ g ++ [KSEG1ADDR p] /\
       (forall size' n' e0, mps_queue_init q' size' n' e0 = Some (- EEXIST, q', e0)) /\
       (g <> [] -> forall b, mps_queue_tail b (Some q') = None)) /\
  (p = 0 -> (size = 0 \/ 0 < n) -> res = None).
Proof.
  intros Hq Hn g res. unfold res. split; [|split].
  - intros Hp Hg. rewrite mps_queue_init_block by done. cbn zeta. unfold g in *. clear g.
    destruct (size =? 0) eqn:Es; bool_prop; cbn [negb].
    + unfold get_slot; cbn. rewrite (proj2 (Z.leb_le _ _)), (proj2 (Z.ltb_lt _ _)) by lia. cbn.
      do 2 eexists. split; [done|]. split; [|done]. unfold q_wf; cbn.
      split; [apply KSEG1ADDR_nonzero|lia].
    + destruct Hg as [|Hg]; [done|].
      destruct (queue_fill_loop_spec (Z.to_nat n) 0
        (set_rpos 0 (set_ring (KSEG1ADDR p) (n + 1) (fun _ => 0) q)) (mk_env ps fr))
        as (m & e' & -> & Hf & Hm & _); [lia|cbn; lia|]. cbn [to_alloc] in *.
      rewrite bool_decide_true by done. cbn [mbind option_bind].
      do 2 eexists. split; [done|]. split; [|split].
      * unfold q_wf; cbn. split; [apply KSEG1ADDR_nonzero|lia].
      * unfold contents, q_count. cbn.
        replace (Z.to_nat (MPS_GET_Q_COUNT _)) with (length (grants (Z.to_nat n) ps))
          by (rewrite Hg; ring_cases).
        apply items_filled; [lia|exact Hm].
      * split; [done|exact Hf].
  - intros Hp Hs Hg. rewrite mps_queue_init_block by done. cbn zeta. unfold g in *. clear g.
    rewrite (proj2 (Z.eqb_neq size 0) Hs) in *. cbn [negb].
    pose proof (grants_le (Z.to_nat n) ps) as Hle.
    destruct (queue_fill_loop_spec (Z.to_nat n) 0
      (set_rpos 0 (set_ring (KSEG1ADDR p) (n + 1) (fun _ => 0) q)) (mk_env ps fr))
      as (m & e' & -> & Hf & Hm & _); [lia|cbn; lia|]. cbn [to_alloc freed] in *.
    rewrite bool_decide_false by done. cbn [mbind option_bind]. rewrite Z.add_0_l.
    destruct (init_fill_failure (set_ring (KSEG1ADDR p) (n + 1) (fun _ => 0) q) m
      (grants (Z.to_nat n) ps) e') as (q' & -> & Hd); cbn;
      [apply KSEG1ADDR_nonzero|lia|lia|exact Hm|].
    do 2 eexists. split; [done|]. split; [cbn; by rewrite Hf|]. split.
    + intros size' n' e0. unfold mps_queue_init.
      by rewrite (proj2 (Z.eqb_neq _ 0) (proj1 Hd)).
    + intros Hne b. apply (dangling_tail _ _ _ Hd). destruct (grants _ _); [done|cbn; lia].
  - intros -> Hd. unfold mps_queue_init. rewrite Hq. unfold mps_inv_alloc, alloc_fn.
    cbn [to_alloc freed hd negb Z.eqb circular_buf set_ring].
    rewrite (proj2 (Z.eqb_neq _ 0) (KSEG1ADDR_nonzero 0)).
    destruct (size =? 0) eqn:Es; bool_prop; cbn [negb].
    + unfold get_slot; cbn. by rewrite (proj2 (Z.ltb_ge n 0)), andb_false_r by lia.
    + destruct Hd as [|Hd]; [done|]. destruct (Z.to_nat n) eqn:En; [lia|].
      cbn [queue_fill_loop]. destruct (alloc_fn _). done.
Qed.

(** ** Two CPUs on one queue

    The producer runs [mps_queue_tail] or the top-up loop, the consumer runs
    [mps_dequeue_head] or the loop of [mps_queue_free].  A step is one access
    to the shared queue.  [PRoom n]: the producer has read the indices and may
    fill [n] more slots; [PSet n b]: it has stored [b] and not yet moved
    [wpos].  [CAvail]: the consumer has found the queue not empty; [CTaken]: it
    has read the head slot; [CPoisoned]: it has overwritten it; [CDrain lp wp]:
    it is freeing from [lp] up to the [wp] it read.  [put] and [taken] are the
    buffers handed over so far on either side. *)

Inductive producer := PIdle | PRoom (n : nat) | PSet (n : nat) (b : Z).
Inductive consumer := CIdle | CAvail | CTaken | CPoisoned | CDrain (lp wp : Z).

Record spsc := mk_spsc {
  sq : MPS_BUFF_HEAD; prod : producer; cons_ : consumer; put : list Z; taken : list Z
}.

Inductive spsc_step : spsc -> spsc -> Prop :=
| sp_tail q c p t :
    MPS_IS_Q_FULL q = false ->
    spsc_step (mk_spsc q PIdle c p t) (mk_spsc q (PRoom 1) c p t)
| sp_topup q c p t :
    spsc_step (mk_spsc q PIdle c p t)
      (mk_spsc q (PRoom (Z.to_nat (maxcount q - MPS_GET_Q_COUNT q))) c p t)
| sp_set q q' n b c p t :
    MPS_SET_Q_ITEM q b = Some q' ->
    spsc_step (mk_spsc q (PRoom (S n)) c p t) (mk_spsc q' (PSet n b) c p t)
| sp_publish q n b c p t :
    spsc_step (mk_spsc q (PSet n b) c p t)
      (mk_spsc (set_wpos (MPS_NEXT_Q_POS (wpos q) (maxcount q)) q) (PRoom n) c (p ++ [b]) t)
| sp_done q n c p t :
    spsc_step (mk_spsc q (PRoom n) c p t) (mk_spsc q PIdle c p t)
| sc_check q a p t :
    MPS_IS_Q_EMPTY (Some q) = false ->
    spsc_step (mk_spsc q a CIdle p t) (mk_spsc q a CAvail p t)
| sc_take q a b p t :
    MPS_GET_Q_ITEM q = Some b ->
    spsc_step (mk_spsc q a CAvail p t) (mk_spsc q a CTaken p (t ++ [b]))
| sc_poison q q' a p t :
    set_slot q (rpos q) POISON = Some q' ->
    spsc_step (mk_spsc q a CTaken p t) (mk_spsc q' a CPoisoned p t)
| sc_publish q a p t :
    spsc_step (mk_spsc q a CPoisoned p t)
      (mk_spsc (set_rpos (MPS_NEXT_Q_POS (rpos q) (maxcount q)) q) a CIdle p t)
| sc_drain q a p t :
    spsc_step (mk_spsc q a CIdle p t) (mk_spsc q a (CDrain (rpos q) (wpos q)) p t)
| sc_drain_take q a lp wp b p t :
    lp <> wp -> get_slot q lp = Some b ->
    spsc_step (mk_spsc q a (CDrain lp wp) p t)
      (mk_spsc q a (CDrain (MPS_NEXT_Q_POS lp (maxcount q)) wp) p (t ++ [b]))
| sc_drain_done q a wp p t :
    spsc_step (mk_spsc q a (CDrain wp wp) p t) (mk_spsc (set_rpos wp q) a CIdle p t).

(** Slots the producer may still fill, and items the consumer has already
    read but not yet released. *)
Definition room_inv (q : MPS_BUFF_HEAD) (a : producer) : Prop :=
  match a with
  | PIdle => True
  | PRoom n => MPS_GET_Q_COUNT q + Z.of_nat n <= maxcount q
  | PSet n b => MPS_GET_Q_COUNT q + Z.of_nat n + 1 <= maxcount q /\ cb_slots q (wpos q) = b
  end.

Definition held (q : MPS_BUFF_HEAD) (c : consumer) (i : Z) : Prop :=
  match c with
  | CIdle => i = 0
  | CAvail => i = 0 /\ 0 < MPS_GET_Q_COUNT q
  | CTaken | CPoisoned => i = 1 /\ 0 < MPS_GET_Q_COUNT q
  | CDrain lp wp => exists j, i <= j <= MPS_GET_Q_COUNT q /\ 0 <= i /\
      lp = pos_at (maxcount q) (rpos q) i /\ wp = pos_at (maxcount q) (rpos q) j
  end.

Definition spsc_inv (s : spsc) : Prop :=
  q_wf (sq s) /\ room_inv (sq s) (prod s) /\
  exists i, held (sq s) (cons_ s) i /\ put s = taken s ++ drop (Z.to_nat i) (contents (sq s)).

Lemma pos_at_add max r i j :
  0 <= r <= max -> 0 <= i -> 0 <= j -> i + j <= max -> pos_at max (pos_at max r i) j = pos_at max r (i + j).
Proof. intros. ring_cases. Qed.

Lemma count_set_rpos q i :
  q_wf q -> 0 <= i <= MPS_GET_Q_COUNT q ->
  MPS_GET_Q_COUNT (set_rpos (pos_at (maxcount q) (rpos q) i) q) = MPS_GET_Q_COUNT q - i.
Proof. intros (?&?&?&?&?). ring_cases. Qed.

Lemma set_rpos_wf q r : q_wf q -> 0 <= r <= maxcount q -> q_wf (set_rpos r q).
Proof. intros (?&?&?&?&?) Hr. unfold q_wf; cbn. split_and!; done || lia. Qed.

(** Releasing the first [i] items. *)
Lemma contents_set_rpos q i :
  q_wf q -> 0 <= i <= MPS_GET_Q_COUNT q ->
  contents (set_rpos (pos_at (maxcount q) (rpos q) i) q) = drop (Z.to_nat i) (contents q).
Proof.
  intros Hwf Hi. pose proof (count_bounds q Hwf) as Hc. pose proof Hwf as (_ & _ & Hm & Hr & _).
  assert (Hlen : q_count (set_rpos (pos_at (maxcount q) (rpos q) i) q)
                 = (q_count q - Z.to_nat i)%nat).
  { unfold q_count. rewrite count_set_rpos by done. lia. }
  unfold contents. rewrite Hlen. cbn. apply list_eq. intros k. rewrite lookup_drop.
  pose proof (q_count_eq q Hwf) as Hq.
  destruct (decide (k < q_count q - Z.to_nat i)%nat) as [Hk|Hk].
  - rewrite !lookup_items by lia. do 2 f_equal. rewrite pos_at_add by lia. f_equal. lia.
  - rewrite !lookup_ge_None_2; [done|..]; rewrite length_items; lia.
Qed.

Lemma contents_lookup q i :
  q_wf q -> 0 <= i < MPS_GET_Q_COUNT q ->
  drop (Z.to_nat i) (contents q) =
    cb_slots q (pos_at (maxcount q) (rpos q) i) :: drop (Z.to_nat (i + 1)) (contents q).
Proof.
  intros Hwf Hi. pose proof (q_count_eq q Hwf) as Hq.
  rewrite (drop_S _ (cb_slots q (pos_at (maxcount q) (rpos q) i)) (Z.to_nat i)).
  - do 2 f_equal. lia.
  - unfold contents. rewrite lookup_items by lia. do 2 f_equal. f_equal. lia.
Qed.

(** Overwriting a slot that holds no item but possibly the first. *)
Lemma contents_upd q p v :
  q_wf q ->
  (forall k, 1 <= k < MPS_GET_Q_COUNT q -> p <> pos_at (maxcount q) (rpos q) k) ->
  drop 1 (contents (set_slots (upd (cb_slots q) p v) q)) = drop 1 (contents q) /\
  (p <> rpos q -> contents (set_slots (upd (cb_slots q) p v) q) = contents q).
Proof.
  intros Hwf Hp. pose proof (q_count_eq q Hwf) as Hq. pose proof Hwf as (_ & _ & Hm & Hr & _).
  set (q' := set_slots _ q). assert (Hc : q_count q' = q_count q) by done. split.
  - apply list_eq. intros k. rewrite !lookup_drop. unfold contents. rewrite Hc.
    destruct (decide (1 + k < q_count q)%nat) as [Hk|Hk].
    + rewrite !lookup_items by done. f_equal. apply upd_ne. intros E. apply (Hp (Z.of_nat (1 + k))); [lia|].
      by rewrite <- E.
    + rewrite !lookup_ge_None_2; [done|..]; rewrite length_items; lia.
  - intros Hne. unfold contents. rewrite Hc. apply items_ext. intros k Hk. apply upd_ne.
    destruct (decide (k = 0)) as [->|]; [rewrite pos_at_0 by lia; congruence|].
    intros E. by apply (Hp k); [lia|].
Qed.

Lemma publish_contents q :
  q_wf q -> MPS_GET_Q_COUNT q < maxcount q ->
  let q' := set_wpos (MPS_NEXT_Q_POS (wpos q) (maxcount q)) q in
  q_wf q' /\ MPS_GET_Q_COUNT q' = MPS_GET_Q_COUNT q + 1 /\
  contents q' = contents q ++ [cb_slots q (wpos q)].
Proof.
  intros Hwf Hn q'. pose proof (count_bounds q Hwf) as Hc. pose proof (wpos_at q Hwf) as Hw'.
  pose proof Hwf as (Hp & He & Hm & Hr & Hw).
  assert (Hcount : MPS_GET_Q_COUNT q' = MPS_GET_Q_COUNT q + 1).
  { unfold q'. clear Hw' Hwf. revert Hn. ring_cases. }
  split_and!; [|exact Hcount|].
  - unfold q_wf, q'; cbn. split_and!; try done; try lia; apply next_bounds; lia.
  - unfold contents, q_count. rewrite Hcount, Z2Nat.inj_add, Nat.add_1_r by lia.
    rewrite items_S. cbn. by rewrite Z2Nat.id, Hw' by lia.
Qed.

(** The producer's slot is apart from the items. *)
Lemma wpos_not_item q k :
  q_wf q -> 0 <= k < MPS_GET_Q_COUNT q -> wpos q <> pos_at (maxcount q) (rpos q) k.
Proof.
  intros Hwf Hk. pose proof (count_bounds q Hwf). pose proof Hwf as (_ & _ & _ & Hr & _).
  rewrite <- (wpos_at q Hwf). intros E. apply pos_at_inj in E; lia.
Qed.

Lemma prod_step_inv q a q' a' c p t p' t' :
  spsc_inv (mk_spsc q a c p t) ->
  (q' = q /\ p' = p /\ t' = t /\ room_inv q a') \/
  (exists n b, a = PRoom (S n) /\ a' = PSet n b /\ MPS_SET_Q_ITEM q b = Some q' /\ p' = p /\ t' = t) \/
  (exists n b, a = PSet n b /\ a' = PRoom n /\ p' = p ++ [b] /\ t' = t /\
     q' = set_wpos (MPS_NEXT_Q_POS (wpos q) (maxcount q)) q) ->
  spsc_inv (mk_spsc q' a' c p' t').
Proof.
  intros (Hwf & Hroom & i & Hh & Hp) Hstep; cbn in *.
  pose proof Hwf as (_ & _ & _ & Hr & Hw). pose proof (count_bounds q Hwf) as Hc.
  assert (Hi : 0 <= i <= MPS_GET_Q_COUNT q).
  { destruct c; cbn in Hh; try lia. destruct Hh as (j & ? & ? & _). lia. }
  destruct Hstep as [(-> & -> & -> & Hr')|[(n & b & -> & -> & Hset & -> & ->)|
    (n & b & -> & -> & -> & -> & ->)]].
  - split; [done|]. split; [done|]. by exists i.
  - unfold MPS_SET_Q_ITEM in Hset. rewrite (set_slot_wf q Hwf) in Hset by lia. simplify_eq.
    split; [done|]. cbn in *. split.
    { change (MPS_GET_Q_COUNT (set_slots _ q)) with (MPS_GET_Q_COUNT q).
      split; [lia|]. cbn. apply upd_eq. }
    exists i. split; [exact Hh|].
    destruct (decide (MPS_GET_Q_COUNT q = 0)) as [Hz|Hnz].
    { rewrite !contents_nil in *; try done. }
    rewrite (proj2 (contents_upd q (wpos q) b Hwf (fun k Hk => wpos_not_item q k Hwf ltac:(lia)))); [done|].
    rewrite <- (pos_at_0 (maxcount q) (rpos q)) by lia. apply wpos_not_item; [done|lia].
  - cbn in Hroom. destruct Hroom as [Hroom Hb].
    destruct (publish_contents q Hwf) as (Hwf' & Hcount & Hct); [lia|].
    split; [done|]. cbn [sq prod cons_ put taken room_inv] in *. rewrite Hcount. split; [cbn; lia|].
    exists i. split.
    { destruct c; cbn in *; rewrite ?Hcount; try lia.
      destruct Hh as (j & ? & ? & ? & ?). exists j. split_and!; done || lia. }
    rewrite Hct, Hp, Hb. rewrite drop_app_le.
    + by rewrite app_assoc.
    + pose proof (length_contents q Hwf). lia.
Qed.

Lemma room_inv_release q a r :
  room_inv q a -> MPS_GET_Q_COUNT (set_rpos r q) <= MPS_GET_Q_COUNT q -> room_inv (set_rpos r q) a.
Proof. intros Ha Hc. destruct a as [|n|n b]; cbn in *; [done|lia|]. split; [lia|apply Ha]. Qed.

Lemma spsc_step_inv s s' : spsc_inv s -> spsc_step s s' -> spsc_inv s'.
Proof.
  intros Hinv Hstep.
  destruct Hstep.
  1-5: eapply prod_step_inv; [exact Hinv|]; cbn [room_inv sq] in *.
  - left. split_and!; try done. destruct Hinv as (Hwf & _). cbn in Hwf.
    pose proof (count_bounds q Hwf). change (Z.of_nat 1) with 1.
    destruct (decide (MPS_GET_Q_COUNT q = maxcount q)) as [E|]; [|lia].
    apply (full_iff q Hwf) in E. congruence.
  - left. split_and!; try done. destruct Hinv as (Hwf & _). cbn in Hwf.
    pose proof (count_bounds q Hwf). lia.
  - right; left. by exists n, b.
  - right; right. by exists n, b.
  - left. done.
  - destruct Hinv as (Hwf & Hroom & i & -> & Hp). cbn in *. split; [done|]. split; [done|].
    exists 0. split; [|exact Hp]. cbn. split; [done|]. pose proof (count_bounds q Hwf).
    destruct (decide (MPS_GET_Q_COUNT q = 0)) as [E|]; [|lia].
    apply (empty_iff q Hwf) in E. congruence.
  - destruct Hinv as (Hwf & Hroom & i & [-> Hc] & Hp). cbn in *. split; [done|]. split; [done|].
    exists 1. split; [done|]. pose proof Hwf as (_ & _ & _ & Hr & _). unfold MPS_GET_Q_ITEM in *.
    rewrite (get_slot_wf q Hwf) in H by lia. simplify_eq. cbn.
    change (contents q) with (drop (Z.to_nat 0) (contents q)) at 1.
    rewrite (contents_lookup q 0 Hwf), pos_at_0 by lia.
    by rewrite <- app_assoc.
  - destruct Hinv as (Hwf & Hroom & i & [-> Hc] & Hp). cbn in *.
    pose proof Hwf as (_ & _ & _ & Hr & Hw). pose proof (count_bounds q Hwf).
    rewrite (set_slot_wf q Hwf) in H by lia. simplify_eq. split; [done|]. split.
    + destruct a as [|n|n b]; cbn in *; [done..|]. split; [apply Hroom|].
      rewrite upd_ne; [apply Hroom|]. rewrite <- (pos_at_0 (maxcount q) (rpos q)) by lia.
      apply wpos_not_item; [done|lia].
    + exists 1. split; [done|]. cbn [sq put taken cons_]. change (Z.to_nat 1) with 1%nat in *.
      edestruct (contents_upd q (rpos q) POISON Hwf) as [E _]; [|by rewrite E].
      intros k Hk E. rewrite <- (pos_at_0 (maxcount q) (rpos q)) in E at 1 by lia.
      apply pos_at_inj in E; lia.
  - destruct Hinv as (Hwf & Hroom & i & [-> Hc] & Hp). cbn in *.
    pose proof (count_bounds q Hwf). pose proof Hwf as (_ & _ & _ & Hr & _).
    assert (E : MPS_NEXT_Q_POS (rpos q) (maxcount q) = pos_at (maxcount q) (rpos q) 1).
    { rewrite <- (pos_at_0 (maxcount q) (rpos q)) at 1 by lia. apply next_pos_at; lia. }
    rewrite E. split; [apply set_rpos_wf; [done|apply pos_at_bounds; lia]|]. split.
    + apply room_inv_release; [done|]. rewrite count_set_rpos by (done || lia). lia.
    + exists 0. split; [done|]. cbn. rewrite contents_set_rpos by (done || lia). done.
  - destruct Hinv as (Hwf & Hroom & i & -> & Hp). cbn in *. split; [done|]. split; [done|].
    pose proof (count_bounds q Hwf). pose proof Hwf as (_ & _ & _ & Hr & _).
    exists 0. split; [|done]. cbn [held sq cons_]. exists (MPS_GET_Q_COUNT q). rewrite pos_at_0, (wpos_at q Hwf) by lia.
    split_and!; done || lia.
  - destruct Hinv as (Hwf & Hroom & i & (j & Hij & Hi & Hlp & Hwp) & Hp). cbn in *.
    split; [done|]. split; [done|].
    pose proof (count_bounds q Hwf). pose proof Hwf as (_ & _ & _ & Hr & _).
    subst lp wp. assert (i <> j) by (intros ->; exact (H eq_refl)).
    rewrite (get_slot_wf q Hwf) in H0 by (apply pos_at_bounds; lia). simplify_eq.
    exists (i + 1). split.
    + exists j. cbn [sq maxcount rpos]. rewrite next_pos_at by lia. split_and!; done || lia.
    + cbn [put taken sq]. rewrite (contents_lookup q i Hwf) by lia. by rewrite <- app_assoc.
  - destruct Hinv as (Hwf & Hroom & i & (j & Hij & Hi & Hlp & Hwp) & Hp). cbn in *.
    pose proof (count_bounds q Hwf). pose proof Hwf as (_ & _ & _ & Hr & _).
    rewrite Hlp. split; [apply set_rpos_wf; [done|apply pos_at_bounds; lia]|]. split.
    + apply room_inv_release; [done|]. rewrite count_set_rpos by (done || lia). lia.
    + exists 0. split; [done|]. cbn. rewrite contents_set_rpos by (done || lia). done.
Qed.

(** The sequential functions are runs of these steps. *)
Lemma tail_is_steps q q' b c p t :
  mps_queue_tail b (Some q) = Some (OK, Some q') ->
  rtc spsc_step (mk_spsc q PIdle c p t) (mk_spsc q' PIdle c (p ++ [b]) t).
Proof.
  unfold mps_queue_tail. destruct (MPS_IS_Q_FULL q) eqn:F; [done|].
  destruct (MPS_SET_Q_ITEM q b) as [q1|] eqn:E; [|done]. cbn. intros [= <-].
  eapply rtc_l; [by apply sp_tail|]. eapply rtc_l; [by apply sp_set|].
  eapply rtc_l; [by apply sp_publish|]. eapply rtc_l; [by apply sp_done|]. constructor.
Qed.

Lemma dequeue_is_steps q q' b a p t :
  mps_dequeue_head (Some q) = Some (b, Some q') ->
  MPS_IS_Q_EMPTY (Some q) = false ->
  rtc spsc_step (mk_spsc q a CIdle p t) (mk_spsc q' a CIdle p (t ++ [b])).
Proof.
  intros H F. unfold mps_dequeue_head in H. rewrite F in H. cbn [mbind option_bind] in H.
  destruct (MPS_GET_Q_ITEM q) as [b'|] eqn:E; [|done]. cbn [mbind option_bind] in H.
  destruct (set_slot q (rpos q) POISON) as [q1|] eqn:Es; [|done]. cbn in H. simplify_eq.
  eapply rtc_l; [by apply sc_check|]. eapply rtc_l; [by apply sc_take|].
  eapply rtc_l; [by apply sc_poison|]. eapply rtc_l; [apply sc_publish|]. constructor.
Qed.

Lemma free_loop_is_steps fuel : forall q rp wp n e wp' n' e' a p t,
  queue_free_loop fuel q rp wp n e = Some (wp', n', e') ->
  exists l, freed e' = freed e ++ l /\ n' = n + Z.of_nat (length l) /\ wp' = wp /\
    rtc spsc_step (mk_spsc q a (CDrain rp wp) p t) (mk_spsc q a (CDrain wp wp) p (t ++ l)).
Proof.
  induction fuel as [|fuel IH]; intros q rp wp n e wp' n' e' a p t; cbn [queue_free_loop];
    (destruct (rp =? wp) eqn:E; bool_prop;
     [intros [= <- <- <-]; subst; exists []; rewrite !app_nil_r; cbn; split_and!; done || lia|]).
  - done.
  - destruct (get_slot q rp) as [b|] eqn:Es; [|done]. cbn [mbind option_bind]. intros H.
    destruct (IH _ _ _ _ _ _ _ _ a p (t ++ [b]) H) as (l & Hf & Hn & -> & Hr).
    exists (b :: l). cbn [freed free_fn length] in *. rewrite <- app_assoc in Hf, Hr.
    split; [done|]. split; [lia|]. split; [done|].
    eapply rtc_l; [by apply sc_drain_take|]. done.
Qed.

Lemma topup_loop_is_steps fuel : forall q e n k q' e' c p t,
  topup_loop fuel n (wpos q) q e = Some (k, q', e') -> 0 <= n ->
  exists l, k = n + Z.of_nat (length l) /\
    rtc spsc_step (mk_spsc q (PRoom (Z.to_nat (maxcount q - n))) c p t)
                  (mk_spsc q' PIdle c (p ++ l) t).
Proof.
  induction fuel as [|fuel IH]; intros q e n k q' e' c p t; cbn [topup_loop];
    (destruct (n <? maxcount q) eqn:E; bool_prop; cbn [negb];
     [|intros [= <- <- <-] ?; exists []; rewrite app_nil_r; cbn;
       split; [lia|by apply rtc_once, sp_done]]).
  - done.
  - destruct (alloc_fn e) as [b e1]. destruct (b =? 0).
    + intros [= <- <- <-] ?. exists []. rewrite app_nil_r. split; [cbn; lia|].
      replace (set_wpos (wpos q) q) with q by by destruct q. by apply rtc_once, sp_done.
    + destruct (MPS_SET_Q_ITEM q b) as [q1|] eqn:Es; [|done]. cbn [mbind option_bind]. intros H Hn.
      assert (Eq : wpos q1 = wpos q /\ maxcount q1 = maxcount q).
      { unfold MPS_SET_Q_ITEM, set_slot in Es. destruct (_ && _); [|done]. by simplify_eq. }
      destruct Eq as [Ew Em]. rewrite <- Ew in H.
      destruct (IH (set_wpos (MPS_NEXT_Q_POS (wpos q1) (maxcount q1)) q1) e1 (n + 1) k q' e' c
                  (p ++ [b]) t H) as (l & -> & Hr); [lia|].
      exists (b :: l). cbn [length]. split; [lia|].
      replace (Z.to_nat (maxcount q - n)) with (S (Z.to_nat (maxcount q - (n + 1)))) by lia.
      eapply rtc_l; [by apply sp_set|]. eapply rtc_l; [by apply sp_publish|].
      cbn in Hr. rewrite Em, <- app_assoc in Hr. rewrite Em. exact Hr.
Qed.

Definition spsc_start (q : MPS_BUFF_HEAD) : spsc := mk_spsc q PIdle CIdle (contents q) [].

Lemma spsc_start_inv q : q_wf q -> spsc_inv (spsc_start q).
Proof. intros H. split; [done|]. split; [done|]. by exists 0. Qed.

(** C5: One producer and one consumer on different CPUs may interleave their
    accesses to a queue in any order.  In every state they can reach, all
    indices are on the ring, the buffers the consumer has taken are an initial
    part of the buffers that were queued, in order, and the rest, nothing else
    and nothing twice, is still to be taken: it is the queue's contents less
    the item the consumer holds, and all of it when the consumer is idle. *)
Theorem mps_queue_spsc q s :
  q_wf q -> rtc spsc_step (spsc_start q) s ->
  q_wf (sq s) /\
  exists i, put s = taken s ++ drop i (contents (sq s)) /\ (cons_ s = CIdle -> i = 0%nat).
Proof.
  intros Hwf Hsteps.
  assert (Hinv : spsc_inv s).
  { pose proof (spsc_start_inv q Hwf) as H0. induction Hsteps as [|s1 s2 s3 H12 _ IH]; [done|].
    apply IH. by apply (spsc_step_inv s1). }
  destruct Hinv as (Hwf' & _ & i & Hh & Hp). split; [done|].
  exists (Z.to_nat i). split; [done|]. intros E. rewrite E in Hh. cbn in Hh. lia.
Qed.

(** ** The properties at concrete inputs *)

(** A queue of three buffers on a ring at 0x1000. *)
Definition sample_q : MPS_BUFF_HEAD := mk_q 0xa0001000 4 (fun i => 100 + i) 3 3 1.

Lemma sample_q_wf : q_wf sample_q.
Proof. unfold q_wf; cbn. lia. Qed.

Lemma mps_queue_refines_list_witness :
  let ops := [Tail 7; Tail 8; Dequeue; Topup; FreeAll; Dequeue] in
  let e := mk_env [201; 202; 0; 203] [] in
  exists rs q' e', q_run ops sample_q e = Some (rs, q', e') /\ q_wf q' /\
    spec_run 3 ops [103; 100] e = (rs, contents q', e').
Proof. intros ops e. exact (mps_queue_refines_list ops sample_q e sample_q_wf). Defined.

Lemma mps_queue_init_outcomes_witness :
  exists q' e', mps_queue_init zero_head 1600 2 (mk_env [0x1000; 11; 0] []) = Some (- ENOMEM, q', e')
    /\ freed e' = [11; 0xa0001000] /\
    (forall size' n' e0, mps_queue_init q' size' n' e0 = Some (- EEXIST, q', e0)) /\
    (forall b, mps_queue_tail b (Some q') = None).
Proof.
  destruct (mps_queue_init_outcomes zero_head 1600 2 0x1000 [11; 0] [] eq_refl) as (_ & H & _); [lia|].
  destruct H as (q' & e' & H1 & H2 & H3 & H4); [lia|lia|done|].
  exists q', e'. split; [exact H1|]. split; [exact H2|]. split; [exact H3|].
  apply H4. done.
Defined.

Lemma mps_queue_spsc_witness :
  exists s, rtc spsc_step (spsc_start sample_q) s /\ taken s = [103] /\ q_wf (sq s) /\
    exists i, put s = taken s ++ drop i (contents (sq s)) /\ (cons_ s = CIdle -> i = 0%nat).
Proof.
  assert (H : rtc spsc_step (spsc_start sample_q) (mk_spsc sample_q PIdle CTaken [103; 100] [103])).
  { eapply rtc_l; [by apply sc_check|]. eapply rtc_l; [by apply sc_take|]. constructor. }
  exists (mk_spsc sample_q PIdle CTaken [103; 100] [103]). split; [exact H|]. split; [done|].
  exact (mps_queue_spsc sample_q _ sample_q_wf H).
Defined.
