(* ===== verification/MpsPool.v ===== *)
(** * Buffer pools shared by the two CPUs ([mps_tpe_buffer.c])

    For each service sequence number CPU0 keeps a pool: an allocation queue it
    tops up with fresh buffers and free queues it drains, both from a timer.
    CPU1 takes buffers with [ifx_mps_fast_alloc_mps_buf] and gives them back
    with [ifx_mps_fast_free_mps_buf].  The file holds the pool's state, all its
    operations (the CPU0 functions as CPU0 is built, the CPU1 functions as CPU1
    is), and the proof that buffers are conserved.

    A call is a function from the shared state to [option (result * state)];
    [None] is an access through a NULL or invalid pointer.  Which CPU calls is
    an argument, the value of [ifx_mpsdrv_get_cpu_id]. *)

From stdpp Require Import gmultiset.
From S2P Require Import Prelude MpsQueue.
Open Scope Z_scope.

Definition MPS_CPU_0_ID : Z := 0.
Definition MPS_CPU_1_ID : Z := 1.
Definition MPS_BOOK_KEEPING_THRESH : Z := 5.
Definition MPS_MAX_SELECTORS : Z := 256.
(** [CONFIG_TWINPASS_64_MEG] is set. *)
Definition CPU1_RAM_PHYADDR_BEGIN : Z := 0x03400000.
Definition PHYSADDR (a : Z) : Z := a .& 0x1fffffff.

(** ** State *)

Record MPS_BUFF_SIZE_ENTRY := mk_entry {
  alloc_q : option MPS_BUFF_HEAD;
  free_q : option MPS_BUFF_HEAD;
  bsize : Z
}.

Record MPS_BUFF_POOL_HEAD := mk_pool {
  sizes_count : Z;
  free_hit_count : Z;
  alloc_hit_count : Z;
  buff_array : list MPS_BUFF_SIZE_ENTRY;
  default_free_list : option MPS_BUFF_HEAD;
  malloc_buf_alloc_list : option MPS_BUFF_HEAD;
  malloc_buf_free_list : option MPS_BUFF_HEAD;
  malloc_buf_size : Z;
  tot_free_count : Z
}.

(** The whole of the buffer manager.  [pool_array] says whether CPU1 has
    received the address of the pool array. *)
Record mps_mem := mk_mem {
  pool_array : bool;
  pools : Z -> option MPS_BUFF_POOL_HEAD;
  fast_allocs : Z; fast_frees : Z; fast_mallocs : Z; fast_malloc_frees : Z;
  mps_list_book_keep_x : Z;
  timer_started : bool;
  menv : env
}.

Definition set_pools (f : Z -> option MPS_BUFF_POOL_HEAD) (s : mps_mem) : mps_mem :=
  mk_mem (pool_array s) f (fast_allocs s) (fast_frees s) (fast_mallocs s)
    (fast_malloc_frees s) (mps_list_book_keep_x s) (timer_started s) (menv s).
Definition set_pool (seq : Z) (p : MPS_BUFF_POOL_HEAD) (s : mps_mem) : mps_mem :=
  set_pools (fun i => if i =? seq then Some p else pools s i) s.
Definition set_fast (a f ma mf : Z) (s : mps_mem) : mps_mem :=
  mk_mem (pool_array s) (pools s) a f ma mf (mps_list_book_keep_x s) (timer_started s) (menv s).
Definition set_lock (l : Z) (s : mps_mem) : mps_mem :=
  mk_mem (pool_array s) (pools s) (fast_allocs s) (fast_frees s) (fast_mallocs s)
    (fast_malloc_frees s) l (timer_started s) (menv s).
Definition set_timer_started (b : bool) (s : mps_mem) : mps_mem :=
  mk_mem (pool_array s) (pools s) (fast_allocs s) (fast_frees s) (fast_mallocs s)
    (fast_malloc_frees s) (mps_list_book_keep_x s) b (menv s).
Definition set_menv (e : env) (s : mps_mem) : mps_mem :=
  mk_mem (pool_array s) (pools s) (fast_allocs s) (fast_frees s) (fast_mallocs s)
    (fast_malloc_frees s) (mps_list_book_keep_x s) (timer_started s) e.

Definition set_hits (f a : Z) (p : MPS_BUFF_POOL_HEAD) : MPS_BUFF_POOL_HEAD :=
  mk_pool (sizes_count p) f a (buff_array p) (default_free_list p)
    (malloc_buf_alloc_list p) (malloc_buf_free_list p) (malloc_buf_size p) (tot_free_count p).
Definition set_buff_array (l : list MPS_BUFF_SIZE_ENTRY) (p : MPS_BUFF_POOL_HEAD)
  : MPS_BUFF_POOL_HEAD :=
  mk_pool (sizes_count p) (free_hit_count p) (alloc_hit_count p) l (default_free_list p)
    (malloc_buf_alloc_list p) (malloc_buf_free_list p) (malloc_buf_size p) (tot_free_count p).
Definition set_default (q : option MPS_BUFF_HEAD) (p : MPS_BUFF_POOL_HEAD) : MPS_BUFF_POOL_HEAD :=
  mk_pool (sizes_count p) (free_hit_count p) (alloc_hit_count p) (buff_array p) q
    (malloc_buf_alloc_list p) (malloc_buf_free_list p) (malloc_buf_size p) (tot_free_count p).
Definition set_malloc_lists (a f : option MPS_BUFF_HEAD) (p : MPS_BUFF_POOL_HEAD)
  : MPS_BUFF_POOL_HEAD :=
  mk_pool (sizes_count p) (free_hit_count p) (alloc_hit_count p) (buff_array p)
    (default_free_list p) a f (malloc_buf_size p) (tot_free_count p).
Definition set_tot_free (n : Z) (p : MPS_BUFF_POOL_HEAD) : MPS_BUFF_POOL_HEAD :=
  mk_pool (sizes_count p) (free_hit_count p) (alloc_hit_count p) (buff_array p)
    (default_free_list p) (malloc_buf_alloc_list p) (malloc_buf_free_list p)
    (malloc_buf_size p) n.
Definition set_alloc_q (q : option MPS_BUFF_HEAD) (x : MPS_BUFF_SIZE_ENTRY) : MPS_BUFF_SIZE_ENTRY :=
  mk_entry q (free_q x) (bsize x).
Definition set_free_q (q : option MPS_BUFF_HEAD) (x : MPS_BUFF_SIZE_ENTRY) : MPS_BUFF_SIZE_ENTRY :=
  mk_entry (alloc_q x) q (bsize x).
Definition set_bsize (n : Z) (x : MPS_BUFF_SIZE_ENTRY) : MPS_BUFF_SIZE_ENTRY :=
  mk_entry (alloc_q x) (free_q x) n.

(** [MPS_GET_BUF_POOL] as each CPU is built. *)
Definition MPS_GET_BUF_POOL_cpu0 (s : mps_mem) (seq : Z) : option MPS_BUFF_POOL_HEAD :=
  pools s seq.
Definition MPS_GET_BUF_POOL_cpu1 (s : mps_mem) (seq : Z) : option MPS_BUFF_POOL_HEAD :=
  if pool_array s then pools s seq else None.

(** [mps_inv_alloc] of a structure that is cleared at once: a refused
    allocation is used all the same and the [memset] faults. *)
Definition alloc_cleared (e : env) : option env :=
  let '(p, e) := alloc_fn e in if p =? 0 then None else Some e.

(** ** Set-up, on CPU0 *)

Definition zero_pool : MPS_BUFF_POOL_HEAD := mk_pool 0 0 0 [] None None None 0 0.
Definition zero_entry : MPS_BUFF_SIZE_ENTRY := mk_entry None None 0.

Definition ifx_mps_buff_pool_init (cpu_id seq sizes def_freeq_len : Z) (s : mps_mem)
  : option (Z * mps_mem) :=
  if negb (cpu_id =? MPS_CPU_0_ID) then Some (- EINVAL, s) else
  match MPS_GET_BUF_POOL_cpu0 s seq with
  | Some _ => Some (- EEXIST, s)
  | None =>
      e ← alloc_cleared (menv s);                       (* the pool head *)
      e ← alloc_cleared e;                              (* default_free_list *)
      '(_, dfl, e) ← mps_queue_init zero_head 0 def_freeq_len e;
      e ← alloc_cleared e;                              (* buff_array *)
      let p := mk_pool sizes 0 0 (replicate (Z.to_nat sizes) zero_entry) (Some dfl)
                 None None 0 0 in
      Some (0, set_timer_started true (set_pool seq p (set_menv e s)))
  end.

(** The entry for a size: always the first one. *)
Definition mps_get_buf_size_entry (p : MPS_BUFF_POOL_HEAD) (size : Z)
  : option (MPS_BUFF_SIZE_ENTRY * MPS_BUFF_POOL_HEAD) :=
  x ← buff_array p !! 0%nat;
  if negb (size =? 0) && (bsize x =? 0) then
    let x := set_bsize size x in
    Some (x, set_buff_array (<[0%nat := x]> (buff_array p)) p)
  else Some (x, p).

Definition set_entry0 (x : MPS_BUFF_SIZE_ENTRY) (p : MPS_BUFF_POOL_HEAD) : MPS_BUFF_POOL_HEAD :=
  set_buff_array (<[0%nat := x]> (buff_array p)) p.

Definition ifx_mps_queue_init (cpu_id seq size num_entries isfreeq : Z) (s : mps_mem)
  : option (Z * mps_mem) :=
  if negb (cpu_id =? MPS_CPU_0_ID) then Some (- EINVAL, s) else
  match MPS_GET_BUF_POOL_cpu0 s seq with
  | None => Some (- ENOMEM, s)
  | Some p =>
      '(x, p) ← mps_get_buf_size_entry p size;
      let is_free := negb (isfreeq =? 0) in
      '(q, e) ←
        match (if is_free then free_q x else alloc_q x) with
        | Some q => Some (q, menv s)
        | None => e ← alloc_cleared (menv s); Some (zero_head, e)
        end;
      '(ret, q, e) ← mps_queue_init q size num_entries e;
      let x := if is_free then set_free_q (Some q) x else set_alloc_q (Some q) x in
      Some (ret, set_pool seq (set_entry0 x p) (set_menv e s))
  end.

Definition ifx_mps_malloc_buff_pool_init (cpu_id seq alloc_size num_alloc_nodes num_free_nodes : Z)
    (s : mps_mem) : option (Z * mps_mem) :=
  if negb (cpu_id =? MPS_CPU_0_ID) then Some (- EINVAL, s) else
  match MPS_GET_BUF_POOL_cpu0 s seq with
  | None => Some (- ENOMEM, s)
  | Some p =>
      fq ← malloc_buf_free_list p;
      '(_, fq, e) ← mps_queue_init fq 0 num_free_nodes (menv s);
      aq ← malloc_buf_alloc_list p;
      '(_, aq, e) ← mps_queue_init aq alloc_size num_alloc_nodes e;
      Some (0, set_pool seq (set_malloc_lists (Some aq) (Some fq) p) (set_menv e s))
  end.

Definition mps_buff_pool_free (seq : Z) (s : mps_mem) : Z * mps_mem :=
  match MPS_GET_BUF_POOL_cpu0 s seq with Some _ => (- EEXIST, s) | None => (0, s) end.

(** ** Allocation and release, on CPU1 *)

Definition ifx_mps_fast_alloc_mps_buf (cpu_id size seq : Z) (s : mps_mem)
  : option (Z * mps_mem) :=
  if cpu_id =? MPS_CPU_0_ID then Some (0, s) else
  match MPS_GET_BUF_POOL_cpu1 s seq with
  | None => Some (0, s)
  | Some p =>
      '(x, p) ← mps_get_buf_size_entry p size;
      '(mps_buf, q) ← mps_dequeue_head (alloc_q x);
      let s := set_pool seq (set_entry0 (set_alloc_q q x) p) s in
      if mps_buf =? 0 then Some (0, s)
      else Some (mps_buf,
                 set_fast (w32 (fast_allocs s + 1)) (fast_frees s) (fast_mallocs s)
                   (fast_malloc_frees s) s)
  end.

Definition ifx_mps_is_mps_buffer (buf : Z) : Z :=
  if PHYSADDR buf <? CPU1_RAM_PHYADDR_BEGIN then 1 else 0.

(** [truesize] is the [truesize] member of the buffer. *)
Definition ifx_mps_fast_free_mps_buf (cpu_id buf truesize seq : Z) (s : mps_mem)
  : option (Z * mps_mem) :=
  if buf =? 0 then Some (- EINVAL, s) else
  if cpu_id =? MPS_CPU_0_ID then Some (-1, s) else
  if ifx_mps_is_mps_buffer buf =? 0 then Some (0, set_menv (free_fn buf (menv s)) s) else
  match MPS_GET_BUF_POOL_cpu1 s seq with
  | None => Some (- ENOMEM, s)
  | Some p =>
      '(x, p) ← mps_get_buf_size_entry p truesize;
      let use_default := match free_q x with None => true | Some _ => false end in
      let q := if use_default then default_free_list p else free_q x in
      '(ret, q) ← mps_queue_tail buf q;
      let p := if use_default then set_default q p else set_entry0 (set_free_q q x) p in
      let s := set_pool seq p s in
      if ret <? 0 then Some (-1, s)
      else Some (0, set_fast (fast_allocs s) (w32 (fast_frees s + 1)) (fast_mallocs s)
                      (fast_malloc_frees s) s)
  end.

Definition ifx_mps_fast_alloc_malloc_buf (cpu_id size seq : Z) (s : mps_mem)
  : option (Z * mps_mem) :=
  if cpu_id =? MPS_CPU_0_ID then Some (0, s) else
  match MPS_GET_BUF_POOL_cpu1 s seq with
  | None => Some (0, s)
  | Some p =>
      '(mps_buf, q) ← mps_dequeue_head (malloc_buf_alloc_list p);
      let s := set_pool seq (set_malloc_lists q (malloc_buf_free_list p) p) s in
      Some (mps_buf, set_fast (fast_allocs s) (fast_frees s) (w32 (fast_mallocs s + 1))
                       (fast_malloc_frees s) s)
  end.

Definition ifx_mps_fast_free_malloc_buf (cpu_id buf seq : Z) (s : mps_mem)
  : option (Z * mps_mem) :=
  if buf =? 0 then Some (- EINVAL, s) else
  if cpu_id =? MPS_CPU_0_ID then Some (-1, s) else
  match MPS_GET_BUF_POOL_cpu1 s seq with
  | None => Some (- ENOMEM, s)
  | Some p =>
      '(ret, q) ← mps_queue_tail buf (malloc_buf_free_list p);
      let s := set_pool seq (set_malloc_lists (malloc_buf_alloc_list p) q p) s in
      if ret <? 0 then Some (-1, s)
      else Some (0, set_fast (fast_allocs s) (fast_frees s) (fast_mallocs s)
                      (w32 (fast_malloc_frees s + 1)) s)
  end.

Definition ifx_mps_set_mps_buffer_identity (cpu_id : Z) : Z :=
  if cpu_id =? MPS_CPU_0_ID then -1 else 0.

(** ** Book-keeping, on CPU0 *)

Definition ifx_cpu0_topup_q_list (x : MPS_BUFF_SIZE_ENTRY) (e : env)
  : option (Z * MPS_BUFF_SIZE_ENTRY * env) :=
  q ← alloc_q x;
  if maxcount q =? 0 then Some (0, x, e) else
  '(count, q, e) ← mps_topup_q_list q e;
  Some (count, set_alloc_q (Some q) x, e).

(** The loops over the size entries, accumulating the positive counts. *)
Fixpoint topup_entries (xs : list MPS_BUFF_SIZE_ENTRY) (e : env)
  : option (Z * list MPS_BUFF_SIZE_ENTRY * env) :=
  match xs with
  | nil => Some (0, nil, e)
  | x :: xs =>
      '(count, x, e) ← ifx_cpu0_topup_q_list x e;
      '(tot, xs, e) ← topup_entries xs e;
      Some ((if count >? 0 then count else 0) + tot, x :: xs, e)
  end.

Fixpoint release_entries (xs : list MPS_BUFF_SIZE_ENTRY) (e : env)
  : option (Z * list MPS_BUFF_SIZE_ENTRY * env) :=
  match xs with
  | nil => Some (0, nil, e)
  | x :: xs =>
      '(count, q, e) ← ifx_cpu0_release_q_list (free_q x) e;
      '(tot, xs, e) ← release_entries xs e;
      Some ((if count >? 0 then count else 0) + tot, set_free_q q x :: xs, e)
  end.

(** The entries [0 .. sizes_count - 1] and the rest of the array. *)
Definition split_entries (p : MPS_BUFF_POOL_HEAD)
  : option (list MPS_BUFF_SIZE_ENTRY * list MPS_BUFF_SIZE_ENTRY) :=
  let n := Z.to_nat (sizes_count p) in
  if (length (buff_array p) <? n)%nat then None
  else Some (take n (buff_array p), drop n (buff_array p)).

Definition ifx_cpu0_topup_q_lists (cpu_id seq : Z) (s : mps_mem) : option (Z * mps_mem) :=
  if negb (cpu_id =? MPS_CPU_0_ID) then Some (-1, s) else
  match MPS_GET_BUF_POOL_cpu0 s seq with
  | None => Some (- ENOMEM, s)
  | Some p =>
      let p := set_hits (free_hit_count p) (w32 (alloc_hit_count p + 1)) p in
      if alloc_hit_count p >? MPS_BOOK_KEEPING_THRESH then
        let p := set_hits (free_hit_count p) 0 p in
        let '(got, lock) :=
          (mps_list_book_keep_x s - 1 =? 0, mps_list_book_keep_x s - 1) in
        if (got : bool) then
          '(xs, rest) ← split_entries p;
          '(tot_count, xs, e) ← topup_entries xs (menv s);
          Some (tot_count,
                set_lock (release_lock lock)
                  (set_menv e (set_pool seq (set_buff_array (xs ++ rest) p) s)))
        else Some (0, set_lock (release_lock lock) (set_pool seq p s))
      else Some (0, set_pool seq p s)
  end.

Definition ifx_cpu0_release_q_lists (cpu_id seq : Z) (s : mps_mem) : option (Z * mps_mem) :=
  if negb (cpu_id =? MPS_CPU_0_ID) then Some (-1, s) else
  match MPS_GET_BUF_POOL_cpu0 s seq with
  | None => Some (- ENOMEM, s)
  | Some p =>
      let p := set_hits (w32 (free_hit_count p + 1)) (alloc_hit_count p) p in
      if free_hit_count p >? MPS_BOOK_KEEPING_THRESH then
        let p := set_hits 0 (alloc_hit_count p) p in
        let '(got, lock) :=
          (mps_list_book_keep_x s - 1 =? 0, mps_list_book_keep_x s - 1) in
        if (got : bool) then
          '(xs, rest) ← split_entries p;
          '(tot, xs, e) ← release_entries xs (menv s);
          '(count, dfl, e) ← ifx_cpu0_release_q_list (default_free_list p) e;
          let tot := tot + (if count >? 0 then count else 0) in
          '(_, mfl, e) ← ifx_cpu0_release_q_list (malloc_buf_free_list p) e;
          let p := set_malloc_lists (malloc_buf_alloc_list p) mfl
                     (set_tot_free (w32 (tot_free_count p + tot))
                        (set_default dfl (set_buff_array (xs ++ rest) p))) in
          Some (tot, set_lock (release_lock lock) (set_menv e (set_pool seq p s)))
        else Some (0, set_lock (release_lock lock) (set_pool seq p s))
      else Some (0, set_pool seq p s)
  end.

(** One expiry of the timer: every pool is topped up and drained. *)
Fixpoint timer_pools (n : nat) (s : mps_mem) : option mps_mem :=
  match n with
  | O => Some s
  | S n =>
      s ← timer_pools n s;
      match pools s (Z.of_nat n) with
      | None => Some s
      | Some _ =>
          '(_, s) ← ifx_cpu0_topup_q_lists MPS_CPU_0_ID (Z.of_nat n) s;
          '(_, s) ← ifx_cpu0_release_q_lists MPS_CPU_0_ID (Z.of_nat n) s;
          Some s
      end
  end.
Definition mps_timer_handler (s : mps_mem) : option mps_mem :=
  timer_pools (Z.to_nat MPS_MAX_SELECTORS) s.

(** ** The buffers a pool holds *)

#[local] Arguments disj_union : simpl never.
#[local] Arguments empty : simpl never.
#[local] Arguments singletonMS : simpl never.

Definition bag (l : list Z) : gmultiset Z := list_to_set_disj l.

Definition held_bag (q : option MPS_BUFF_HEAD) : gmultiset Z :=
  match q with Some q => bag (contents q) | None => ∅ end.

Definition entry_bag (x : MPS_BUFF_SIZE_ENTRY) : gmultiset Z :=
  held_bag (alloc_q x) ⊎ held_bag (free_q x).

Fixpoint entries_bag (xs : list MPS_BUFF_SIZE_ENTRY) : gmultiset Z :=
  match xs with nil => ∅ | x :: xs => entry_bag x ⊎ entries_bag xs end.

Definition pool_bag (p : MPS_BUFF_POOL_HEAD) : gmultiset Z :=
  entries_bag (buff_array p) ⊎ held_bag (default_free_list p) ⊎
  held_bag (malloc_buf_free_list p).

(** Everything CPU0 has allocated for service [seq] and CPU1 does not own:
    the buffers in the pool and those given back to the kernel. *)
Definition total_bag (seq : Z) (s : mps_mem) : gmultiset Z :=
  match pools s seq with Some p => pool_bag p | None => ∅ end ⊎ bag (freed (menv s)).

Definition opt_wf (q : option MPS_BUFF_HEAD) : Prop :=
  match q with Some q => q_wf q | None => True end.

(** Queues hold buffers, never NULL. *)
Definition held_ok (q : option MPS_BUFF_HEAD) : Prop :=
  match q with Some q => q_wf q /\ 0 ∉ contents q | None => True end.

Definition entry_ok (x : MPS_BUFF_SIZE_ENTRY) : Prop :=
  is_Some (alloc_q x) /\ held_ok (alloc_q x) /\ held_ok (free_q x).

Definition pool_ok (p : MPS_BUFF_POOL_HEAD) : Prop :=
  sizes_count p = Z.of_nat (length (buff_array p)) /\ 0 < sizes_count p /\
  Forall entry_ok (buff_array p) /\ held_ok (default_free_list p) /\
  held_ok (malloc_buf_free_list p).

(** A service in operation. *)
Definition service_ok (seq : Z) (s : mps_mem) : Prop :=
  pool_array s = true /\ exists p, pools s seq = Some p /\ pool_ok p.

(** ** Lemmas *)

Lemma bag_app l1 l2 : bag (l1 ++ l2) = bag l1 ⊎ bag l2.
Proof. apply list_to_set_disj_app. Qed.

Lemma bag_cons x l : bag (x :: l) = {[+ x +]} ⊎ bag l.
Proof. done. Qed.

Lemma grants_split n : forall ps,
  exists used, ps = used ++ after_grants n ps /\ List.filter (fun b => negb (b =? 0)) used = grants n ps.
Proof.
  induction n as [|n IH]; intros [|p ps]; cbn; try (by exists []).
  destruct (p =? 0) eqn:E.
  - exists [p]. cbn. by rewrite E.
  - destruct (IH ps) as (used & Hp & Hf). exists (p :: used). cbn. rewrite E, Hf. cbn.
    by rewrite <- Hp.
Qed.

Lemma grants_nonzero n : forall ps, 0 ∉ grants n ps.
Proof.
  induction n as [|n IH]; intros [|p ps]; cbn; try (by apply not_elem_of_nil).
  destruct (p =? 0) eqn:E; bool_prop; [apply not_elem_of_nil|].
  apply not_elem_of_cons. split; [congruence|apply IH].
Qed.

(** The queue operations in terms of what is held. *)
Lemma dequeue_held q :
  held_ok q ->
  exists b q', mps_dequeue_head q = Some (b, q') /\ held_ok q' /\ (is_Some q -> is_Some q') /\
    held_bag q = (if b =? 0 then ∅ else {[+ b +]}) ⊎ held_bag q'.
Proof.
  destruct q as [q|]; cbn [held_ok].
  2:{ intros _. exists 0, None. split_and!; try done. }
  intros [Hwf H0]. rewrite mps_dequeue_head_spec by done.
  destruct (MPS_GET_Q_COUNT q =? 0) eqn:E; bool_prop.
  - exists 0, (Some q). split_and!; try done. cbn. multiset_solver.
  - rewrite popped_contents in H0 by done. apply not_elem_of_cons in H0 as [Hb H0].
    exists (cb_slots q (rpos q)), (Some (popped q)).
    split; [done|]. split; [split; [by apply popped_wf|done]|]. split; [done|].
    rewrite (proj2 (Z.eqb_neq _ 0)) by congruence. cbn. by rewrite popped_contents.
Qed.

Lemma tail_held b q :
  held_ok (Some q) -> b <> 0 ->
  exists r q', mps_queue_tail b (Some q) = Some (r, Some q') /\ held_ok (Some q') /\
    (r = OK /\ held_bag (Some q') = {[+ b +]} ⊎ held_bag (Some q) \/ r = - ENOMEM /\ q' = q).
Proof.
  intros [Hwf H0] Hb. rewrite mps_queue_tail_spec by done.
  destruct (_ =? maxcount q) eqn:E; bool_prop.
  - exists (- ENOMEM), q. split; [done|]. split; [done|]. by right.
  - exists OK, (pushed q b). split; [done|].
    assert (Hc : contents (pushed q b) = contents q ++ [b]) by by apply pushed_contents.
    split.
    + split; [by apply pushed_wf|]. rewrite Hc. intros [?|[= ?]%list_elem_of_singleton]%elem_of_app; [done|congruence].
    + left. split; [done|]. cbn. rewrite Hc, bag_app. cbn. multiset_solver.
Qed.

Lemma release_held q e :
  held_ok q ->
  exists c q' l, ifx_cpu0_release_q_list q e = Some (c, q', mk_env (to_alloc e) (freed e ++ l)) /\
    held_ok q' /\ held_bag q' = ∅ /\ held_bag q = bag l /\ c = Z.of_nat (length l).
Proof.
  destruct q as [q|]; cbn [held_ok ifx_cpu0_release_q_list].
  2:{ intros _. exists 0, None, []. rewrite app_nil_r. split_and!; try done. by destruct e. }
  intros [Hwf H0]. rewrite mps_queue_free_spec by done.
  exists (Z.of_nat (length (contents q))), (Some (drained q)), (contents q). split; [done|].
  split. { split; [by apply drained_wf|]. rewrite drained_contents. apply not_elem_of_nil. }
  cbn. rewrite drained_contents. done.
Qed.

Lemma topup_held x e :
  entry_ok x ->
  exists c x' used rest, ifx_cpu0_topup_q_list x e = Some (c, x', mk_env rest (freed e)) /\
    entry_ok x' /\ to_alloc e = used ++ rest /\ 0 <= c /\
    entry_bag x' = bag (List.filter (fun b => negb (b =? 0)) used) ⊎ entry_bag x.
Proof.
  intros ([q Hq] & Ha & Hf). unfold ifx_cpu0_topup_q_list. rewrite Hq in *. cbn [mbind option_bind].
  destruct (maxcount q =? 0).
  { exists 0, x, [], (to_alloc e). split; [by destruct e|]. split.
    - unfold entry_ok. by rewrite Hq.
    - cbn. split_and!; try done. multiset_solver. }
  destruct Ha as [Hwf H0].
  destruct (mps_topup_q_list_spec q e Hwf) as (q' & e' & -> & Hwf' & Hm & -> & Hc).
  cbn [mbind option_bind].
  destruct (grants_split (Z.to_nat (maxcount q) - length (contents q)) (to_alloc e))
    as (used & Hu & Hg).
  do 2 eexists. exists used. eexists. split; [done|]. split; [|split; [exact Hu|split]].
  - split; [by eexists|]. split; [|done]. split; [done|]. rewrite Hc, elem_of_app.
    intros [?|?]; [done|]. by eapply grants_nonzero.
  - rewrite Hc, length_app. lia.
  - unfold entry_bag. cbn. rewrite Hq, Hc, Hg, bag_app. cbn. multiset_solver.
Qed.

Lemma topup_entries_held xs : forall e,
  Forall entry_ok xs ->
  exists c xs' used rest, topup_entries xs e = Some (c, xs', mk_env rest (freed e)) /\
    Forall entry_ok xs' /\ length xs' = length xs /\ to_alloc e = used ++ rest /\
    entries_bag xs' = bag (List.filter (fun b => negb (b =? 0)) used) ⊎ entries_bag xs.
Proof.
  induction xs as [|x xs IH]; intros e Hok; cbn [topup_entries].
  - exists 0, [], [], (to_alloc e). split; [by destruct e|]. cbn. split_and!; try done.
  - inversion_clear Hok as [|? ? Hx Hxs].
    destruct (topup_held x e Hx) as (c & x' & u1 & r1 & -> & Hx' & Hu1 & _ & Hb1).
    cbn [mbind option_bind].
    destruct (IH (mk_env r1 (freed e)) Hxs) as (c2 & xs' & u2 & r2 & -> & Hxs' & Hl & Hu2 & Hb2).
    cbn [mbind option_bind to_alloc freed] in *.
    do 2 eexists. exists (u1 ++ u2), r2. split; [done|]. split; [by constructor|].
    split; [cbn; congruence|]. split; [by rewrite <- app_assoc, <- Hu2|].
    cbn. rewrite Hb1, Hb2, List.filter_app, bag_app. multiset_solver.
Qed.

Lemma release_entries_held xs : forall e,
  Forall entry_ok xs ->
  exists xs' l, release_entries xs e =
      Some (Z.of_nat (length l), xs', mk_env (to_alloc e) (freed e ++ l)) /\
    Forall entry_ok xs' /\ length xs' = length xs /\
    entries_bag xs = bag l ⊎ entries_bag xs' /\
    Forall (fun x => held_bag (free_q x) = ∅) xs'.
Proof.
  induction xs as [|x xs IH]; intros e Hok; cbn [release_entries].
  - exists [], []. rewrite app_nil_r. split; [by destruct e|]. cbn. split_and!; try done.
  - inversion_clear Hok as [|? ? Hx Hxs]. destruct Hx as (Ha & Haok & Hfok).
    destruct (release_held (free_q x) e Hfok) as (c & q & l1 & -> & Hq & Hq0 & Hb1 & Hc).
    cbn [mbind option_bind].
    destruct (IH (mk_env (to_alloc e) (freed e ++ l1)) Hxs) as (xs' & l2 & -> & Hxs' & Hl & Hb2 & Hf2).
    cbn [mbind option_bind to_alloc freed] in *.
    eexists. exists (l1 ++ l2). split.
    { rewrite <- app_assoc. do 3 f_equal. rewrite length_app. destruct (c >? 0) eqn:E; bool_prop; lia. }
    split; [by constructor|]. split; [cbn; congruence|]. split.
    + cbn. rewrite Hb2, bag_app. unfold entry_bag. rewrite Hb1. cbn. rewrite Hq0. multiset_solver.
    + by constructor.
Qed.

(** The first entry, which every operation uses. *)
Lemma get_entry_held p size :
  pool_ok p ->
  exists x rest p', mps_get_buf_size_entry p size = Some (x, p') /\
    pool_ok p' /\ entry_ok x /\ buff_array p' = x :: rest /\ pool_bag p' = pool_bag p /\
    default_free_list p' = default_free_list p.
Proof.
  intros (Hsz & Hpos & Hok & Hd & Hm). destruct (buff_array p) as [|x rest] eqn:Ea; [cbn in *; lia|].
  pose proof Hok as Hok'. inversion_clear Hok' as [|? ? Hx Hrest].
  unfold mps_get_buf_size_entry. rewrite Ea. cbn [lookup list_lookup mbind option_bind].
  destruct (_ && _).
  - exists (set_bsize size x), rest. eexists. split; [done|]. cbn [list_insert insert].
    split_and!; try done.
    + unfold pool_ok; cbn. split_and!; try done. by constructor.
    + unfold pool_bag; cbn. by rewrite Ea.
  - exists x, rest, p. unfold pool_ok. rewrite Ea. done.
Qed.

Lemma pool_set_entry0 p x x' rest :
  buff_array p = x :: rest -> pool_ok p -> entry_ok x' ->
  pool_ok (set_entry0 x' p) /\
  pool_bag (set_entry0 x' p) = entry_bag x' ⊎ (entries_bag rest ⊎ held_bag (default_free_list p)
    ⊎ held_bag (malloc_buf_free_list p)).
Proof.
  intros Ea (Hsz & Hpos & Hok & Hd & Hm) Hx'. unfold set_entry0. rewrite Ea in *. cbn in *.
  inversion_clear Hok as [|? ? _ Hrest]. split.
  - unfold pool_ok; cbn. split_and!; try done. by constructor.
  - unfold pool_bag; cbn. multiset_solver.
Qed.

(** ** Operation of a service *)

Inductive pool_op := PAlloc (size : Z) | PFree (buf truesize : Z) | PTopup | PRelease.

Definition pool_step (seq : Z) (op : pool_op) (s : mps_mem) : option (Z * mps_mem) :=
  match op with
  | PAlloc size => ifx_mps_fast_alloc_mps_buf MPS_CPU_1_ID size seq s
  | PFree buf truesize => ifx_mps_fast_free_mps_buf MPS_CPU_1_ID buf truesize seq s
  | PTopup => ifx_cpu0_topup_q_lists MPS_CPU_0_ID seq s
  | PRelease => ifx_cpu0_release_q_lists MPS_CPU_0_ID seq s
  end.

(** What the caller gave to, or took from, the pool. *)
Definition given (op : pool_op) (r : Z) : gmultiset Z :=
  match op with PFree buf _ => if r =? 0 then {[+ buf +]} else ∅ | _ => ∅ end.
Definition took (op : pool_op) (r : Z) : gmultiset Z :=
  match op with PAlloc _ => if r =? 0 then ∅ else {[+ r +]} | _ => ∅ end.

Fixpoint pool_run (seq : Z) (ops : list pool_op) (s : mps_mem)
  : option (gmultiset Z * gmultiset Z * mps_mem) :=
  match ops with
  | nil => Some (∅, ∅, s)
  | op :: ops =>
      '(r, s) ← pool_step seq op s;
      '(g, t, s) ← pool_run seq ops s;
      Some (given op r ⊎ g, took op r ⊎ t, s)
  end.

(** The effect of one call on the buffers of a service. *)
Definition step_post (seq : Z) (op : pool_op) (s : mps_mem) (res : option (Z * mps_mem)) : Prop :=
  exists r s' used, res = Some (r, s') /\ service_ok seq s' /\
    to_alloc (menv s) = used ++ to_alloc (menv s') /\
    mps_list_book_keep_x s' = mps_list_book_keep_x s /\
    bag (List.filter (fun b => negb (b =? 0)) used) ⊎ given op r ⊎ total_bag seq s
      = took op r ⊎ total_bag seq s'.

Lemma service_set_pool seq p s :
  pool_array s = true -> pool_ok p -> service_ok seq (set_pool seq p s).
Proof. intros Ha Hp. split; [done|]. exists p. cbn. by rewrite Z.eqb_refl. Qed.

Lemma total_set_pool seq p s :
  total_bag seq (set_pool seq p s) = pool_bag p ⊎ bag (freed (menv s)).
Proof. unfold total_bag. cbn. by rewrite Z.eqb_refl. Qed.

Lemma pool_alloc_post seq size s :
  service_ok seq s -> step_post seq (PAlloc size) s (pool_step seq (PAlloc size) s).
Proof.
  intros (Harr & p & Hp & Hok). cbn [pool_step]. unfold ifx_mps_fast_alloc_mps_buf.
  change (MPS_CPU_1_ID =? MPS_CPU_0_ID) with false. unfold MPS_GET_BUF_POOL_cpu1. rewrite Harr, Hp.
  destruct (get_entry_held p size Hok) as (x & rest & p' & -> & Hok' & Hx & Ea & Hbag & _).
  cbn [mbind option_bind]. pose proof Hx as (Ha & Haok & Hfok).
  destruct (dequeue_held (alloc_q x) Haok) as (b & q & -> & Hq & Hs & Hb).
  cbn [mbind option_bind].
  destruct (pool_set_entry0 p' x (set_alloc_q q x) rest Ea Hok') as [Hok2 Hbag2];
    [split_and!; auto|].
  assert (Htot : pool_bag p = (if b =? 0 then ∅ else {[+ b +]}) ⊎ pool_bag (set_entry0 (set_alloc_q q x) p')).
  { rewrite Hbag2, <- Hbag. unfold pool_bag. rewrite Ea. cbn. unfold entry_bag. rewrite Hb. cbn.
    multiset_solver. }
  unfold step_post. destruct (b =? 0) eqn:E.
  - exists 0. eexists. exists []. split; [done|]. split; [by apply service_set_pool|].
    split; [done|]. split; [done|]. rewrite total_set_pool. unfold total_bag. rewrite Hp, Htot.
    cbn. multiset_solver.
  - exists b. eexists. exists []. split; [done|]. split; [by apply service_set_pool|].
    split; [done|]. split; [done|]. cbn [took]. rewrite E.
    change (total_bag seq (set_fast _ _ _ _ ?t)) with (total_bag seq t).
    rewrite total_set_pool. unfold total_bag. rewrite Hp, Htot. cbn. multiset_solver.
Qed.

Lemma pool_free_post seq buf ts s :
  service_ok seq s ->
  step_post seq (PFree buf ts) s (pool_step seq (PFree buf ts) s).
Proof.
  intros Hs. pose proof Hs as (Harr & p & Hp & Hok). cbn [pool_step].
  unfold ifx_mps_fast_free_mps_buf, step_post. change (MPS_CPU_1_ID =? MPS_CPU_0_ID) with false.
  destruct (buf =? 0) eqn:Eb; bool_prop.
  { exists (- EINVAL), s, []. by split_and!. }
  destruct (_ =? 0) eqn:Em.
  { eexists 0, _, []. split; [done|]. split; [done|]. split; [done|]. split; [done|].
    unfold total_bag. cbn. rewrite bag_app. cbn. multiset_solver. }
  unfold MPS_GET_BUF_POOL_cpu1. rewrite Harr, Hp.
  destruct (get_entry_held p ts Hok) as (x & rest & p' & -> & Hok' & Hx & Ea & Hbag & Hdef).
  cbn [mbind option_bind]. pose proof Hx as (Ha & Haok & Hfok).
  assert (Hfin : forall r p2, pool_ok p2 ->
    (r = OK /\ pool_bag p2 = {[+ buf +]} ⊎ pool_bag p' \/ r < 0 /\ pool_bag p2 = pool_bag p') ->
    step_post seq (PFree buf ts) s
      (if r <? 0 then Some (-1, set_pool seq p2 s)
       else Some (0, set_fast (fast_allocs s) (w32 (fast_frees s + 1)) (fast_mallocs s)
                       (fast_malloc_frees s) (set_pool seq p2 s)))).
  { intros r p2 Hok2 [[-> Hb]|[Hr Hb]]; [|rewrite (proj2 (Z.ltb_lt _ _) Hr)].
    - eexists 0, _, []. split; [done|]. split; [by apply service_set_pool|].
      split; [done|]. split; [done|].
      change (total_bag seq (set_fast _ _ _ _ ?t)) with (total_bag seq t).
      rewrite total_set_pool. unfold total_bag. rewrite Hp, Hb, Hbag. cbn. multiset_solver.
    - eexists (-1), _, []. split; [done|]. split; [by apply service_set_pool|].
      split; [done|]. split; [done|].
      rewrite total_set_pool. unfold total_bag. rewrite Hp, Hb, Hbag. cbn. multiset_solver. }
  destruct (free_q x) as [fq|] eqn:Ef.
  - destruct (tail_held buf fq Hfok Eb) as (r & q' & -> & Hq' & Hb). cbn [mbind option_bind].
    destruct (pool_set_entry0 p' x (set_free_q (Some q') x) rest Ea Hok') as [Hok2 Hbag2];
      [by split_and!|].
    apply Hfin; [done|]. unfold pool_bag at 2 4. rewrite Hbag2, Ea. cbn. unfold entry_bag.
    rewrite Ef. cbn. destruct Hb as [[-> Hb]|[-> ->]]; [left|right]; (split; [done|]).
    + cbn in Hb. rewrite Hb. multiset_solver.
    + multiset_solver.
  - rewrite Hdef. destruct (default_free_list p) as [dq|] eqn:Ed.
    + pose proof Hok' as (Hsz & Hpos & Hen & Hdok & Hmok). rewrite Hdef in Hdok.
      destruct (tail_held buf dq Hdok Eb) as (r & q' & -> & Hq' & Hb). cbn [mbind option_bind].
      apply Hfin; [by split_and!|]. unfold pool_bag. cbn. rewrite Hdef.
      destruct Hb as [[-> Hb]|[-> ->]]; [left|right]; (split; [done|]).
      * cbn in Hb. rewrite Hb. cbn. multiset_solver.
      * done.
    + cbn [mps_queue_tail mbind option_bind]. apply Hfin; [|right].
      * by destruct Hok' as (?&?&?&_&?).
      * unfold pool_bag. cbn. by rewrite Hdef.
Qed.

#[local] Arguments bag : simpl never.

Lemma split_entries_all p :
  pool_ok p -> split_entries p = Some (buff_array p, []).
Proof.
  intros (Hsz & _). unfold split_entries. rewrite Hsz, Nat2Z.id, Nat.ltb_irrefl.
  by rewrite firstn_all, drop_all.
Qed.

(** A call that only counts, or finds the lock taken. *)
Lemma count_post seq op p p' l s :
  service_ok seq s -> pools s seq = Some p -> pool_ok p' -> pool_bag p' = pool_bag p ->
  took op 0 = ∅ -> given op 0 = ∅ -> l = mps_list_book_keep_x s ->
  step_post seq op s (Some (0, set_lock l (set_pool seq p' s))).
Proof.
  intros (Ha & _) Hp Hok Hb Ht Hg ->. eexists 0, _, []. split; [done|].
  split; [exact (service_set_pool seq p' s Ha Hok)|]. split; [done|]. split; [done|].
  change (total_bag seq (set_lock _ ?t)) with (total_bag seq t).
  rewrite Ht, Hg, total_set_pool. unfold total_bag. rewrite Hp, Hb. cbn. multiset_solver.
Qed.

Lemma set_lock_same s : set_lock (mps_list_book_keep_x s) s = s.
Proof. by destruct s. Qed.

Lemma pool_topup_post seq s :
  service_ok seq s -> step_post seq PTopup s (pool_step seq PTopup s).
Proof.
  intros Hs. pose proof Hs as (Harr & p & Hp & Hok). cbn [pool_step].
  unfold ifx_cpu0_topup_q_lists, MPS_GET_BUF_POOL_cpu0. cbn [negb Z.eqb]. rewrite Hp.
  change (negb (MPS_CPU_0_ID =? MPS_CPU_0_ID)) with false. cbn iota.
  set (p1 := set_hits _ (w32 _) p). destruct (_ >? _).
  2:{ rewrite <- (set_lock_same (set_pool seq p1 s)). by apply (count_post seq PTopup p). }
  unfold release_lock. destruct (_ =? 0).
  2:{ apply (count_post seq PTopup p); try done. lia. }
  rewrite split_entries_all by done. cbn [mbind option_bind].
  pose proof Hok as (Hsz & Hpos & Hen & Hd & Hm).
  destruct (topup_entries_held (buff_array p) (menv s) Hen)
    as (c & xs & used & rest & E & Hxs & Hl & Hu & Hb). cbn [buff_array set_hits p1] in *.
  rewrite E. cbn [mbind option_bind]. rewrite app_nil_r.
  eexists c, _, used. split; [done|]. split.
  { split; [done|]. eexists. cbn. rewrite Z.eqb_refl. split; [done|].
    unfold pool_ok; cbn. rewrite Hl. by split_and!. }
  split; [exact Hu|]. split; [cbn; lia|].
  unfold total_bag. cbn. rewrite Z.eqb_refl, Hp. unfold pool_bag. cbn. rewrite Hb. multiset_solver.
Qed.

Lemma pool_release_post seq s :
  service_ok seq s -> step_post seq PRelease s (pool_step seq PRelease s).
Proof.
  intros Hs. pose proof Hs as (Harr & p & Hp & Hok). cbn [pool_step].
  unfold ifx_cpu0_release_q_lists, MPS_GET_BUF_POOL_cpu0. rewrite Hp.
  change (negb (MPS_CPU_0_ID =? MPS_CPU_0_ID)) with false. cbn iota.
  set (p1 := set_hits (w32 _) _ p). destruct (_ >? _).
  2:{ rewrite <- (set_lock_same (set_pool seq p1 s)). by apply (count_post seq PRelease p). }
  unfold release_lock. destruct (_ =? 0).
  2:{ apply (count_post seq PRelease p); try done. lia. }
  rewrite split_entries_all by done. cbn [mbind option_bind].
  pose proof Hok as (Hsz & Hpos & Hen & Hd & Hm).
  destruct (release_entries_held (buff_array p) (menv s) Hen)
    as (xs & l1 & E & Hxs & Hl & Hb1 & _). cbn [buff_array set_hits p1 default_free_list] in *.
  rewrite E. cbn [mbind option_bind].
  edestruct (release_held (default_free_list p))  as (c & q & l2 & E2 & Hq & Hq0 & Hb2 & _); [exact Hd|]. rewrite E2.
  cbn [mbind option_bind malloc_buf_free_list set_hits].
  edestruct (release_held (malloc_buf_free_list p))
    as (c3 & q3 & l3 & E3 & Hq3 & Hq30 & Hb3 & _); [exact Hm|]. rewrite E3.
  cbn [mbind option_bind]. rewrite app_nil_r.
  eexists _, _, []. split; [done|]. split.
  { split; [done|]. eexists. cbn. rewrite Z.eqb_refl. split; [done|].
    unfold pool_ok; cbn. rewrite Hl. by split_and!. }
  split; [done|]. split; [cbn; lia|].
  unfold total_bag. cbn. rewrite Z.eqb_refl, Hp. unfold pool_bag. cbn.
  rewrite Hb1, Hb2, Hb3, Hq0, Hq30, !bag_app. multiset_solver.
Qed.

Lemma pool_step_post seq op s : service_ok seq s -> step_post seq op s (pool_step seq op s).
Proof.
  intros Hs. destruct op.
  - by apply pool_alloc_post.
  - by apply pool_free_post.
  - by apply pool_topup_post.
  - by apply pool_release_post.
Qed.

(** C3: Buffers are conserved.  Whatever sequence of allocations and releases
    by CPU1 and of top-ups and drains by CPU0 runs on a service, no call faults
    and no buffer appears, disappears or is handed out twice: the buffers the
    kernel granted during the run, those CPU1 gave back with success and those
    there at the start are, counted with multiplicity, those CPU1 took and
    those there at the end.  The book-keeping lock is as it was. *)
Theorem pool_conservation seq ops s :
  service_ok seq s ->
  exists gv tk s' used, pool_run seq ops s = Some (gv, tk, s') /\ service_ok seq s' /\
    to_alloc (menv s) = used ++ to_alloc (menv s') /\
    mps_list_book_keep_x s' = mps_list_book_keep_x s /\
    bag (List.filter (fun b => negb (b =? 0)) used) ⊎ gv ⊎ total_bag seq s
      = tk ⊎ total_bag seq s'.
Proof.
  revert s. induction ops as [|op ops IH]; intros s Hs; cbn [pool_run].
  { exists ∅, ∅, s, []. by split_and!. }
  destruct (pool_step_post seq op s Hs) as (r & s1 & u1 & -> & Hs1 & Hu1 & Hl1 & Hb1).
  cbn [mbind option_bind].
  destruct (IH s1 Hs1) as (gv & tk & s2 & u2 & -> & Hs2 & Hu2 & Hl2 & Hb2).
  cbn [mbind option_bind]. do 3 eexists. exists (u1 ++ u2).
  split; [done|]. split; [done|]. split; [by rewrite <- app_assoc, <- Hu2|].
  split; [congruence|]. rewrite List.filter_app, bag_app. multiset_solver.
Qed.

(** ** A pool as [ifx_mps_buff_pool_init] leaves it *)

Lemma pool_init_result seq sizes n s s1 :
  ifx_mps_buff_pool_init MPS_CPU_0_ID seq sizes n s = Some (0, s1) ->
  exists p dfl e, pools s1 seq = Some p /\
    s1 = set_timer_started true (set_pool seq p (set_menv e s)) /\
    p = mk_pool sizes 0 0 (replicate (Z.to_nat sizes) zero_entry) (Some dfl) None None 0 0.
Proof.
  unfold ifx_mps_buff_pool_init. change (negb (MPS_CPU_0_ID =? MPS_CPU_0_ID)) with false. cbn iota.
  destruct (MPS_GET_BUF_POOL_cpu0 s seq); [done|].
  destruct (alloc_cleared (menv s)) as [e1|]; [|done]. cbn [mbind option_bind].
  destruct (alloc_cleared e1) as [e2|]; [|done]. cbn [mbind option_bind].
  destruct (mps_queue_init zero_head 0 n e2) as [[[r dfl] e3]|]; [|done]. cbn [mbind option_bind].
  destruct (alloc_cleared e3) as [e4|]; [|done]. cbn [mbind option_bind].
  intros [= <-]. do 3 eexists. split; [|split; [reflexivity|reflexivity]].
  cbn. by rewrite Z.eqb_refl.
Qed.

(** [n] expiries of the timer, as far as the top-up of one service goes. *)
Fixpoint topups (n : nat) (seq : Z) (s : mps_mem) : option mps_mem :=
  match n with
  | O => Some s
  | S n => s ← topups n seq s; '(_, s) ← ifx_cpu0_topup_q_lists MPS_CPU_0_ID seq s; Some s
  end.

Lemma topups_below n : forall seq s p,
  pools s seq = Some p -> alloc_hit_count p = 0 -> (n <= 5)%nat ->
  exists s', topups n seq s = Some s' /\
    pools s' seq = Some (set_hits (free_hit_count p) (Z.of_nat n) p) /\
    mps_list_book_keep_x s' = mps_list_book_keep_x s.
Proof.
  induction n as [|n IH]; intros seq s p Hp Hh Hn; cbn [topups].
  - exists s. split; [done|]. split; [|done]. rewrite Hp. f_equal. destruct p. cbn in *. by subst.
  - destruct (IH seq s p Hp Hh) as (s' & -> & Hp' & Hl); [lia|]. cbn [mbind option_bind].
    unfold ifx_cpu0_topup_q_lists, MPS_GET_BUF_POOL_cpu0.
    change (negb (MPS_CPU_0_ID =? MPS_CPU_0_ID)) with false. cbn iota. rewrite Hp'.
    cbn [alloc_hit_count free_hit_count set_hits].
    assert (Ew : w32 (Z.of_nat n + 1) = Z.of_nat (S n)) by (rewrite w32_id; unfold is_u32; lia).
    rewrite Ew. unfold MPS_BOOK_KEEPING_THRESH. rewrite Z.gtb_ltb, (proj2 (Z.ltb_ge _ _)) by lia.
    cbn [mbind option_bind]. eexists. split; [done|]. cbn [pools set_pool set_pools].
    rewrite Z.eqb_refl. done.
Qed.

Lemma topup_entries_null xs : forall e,
  Exists (fun x => alloc_q x = None) xs -> topup_entries xs e = None.
Proof.
  induction xs as [|x xs IH]; intros e H; cbn [topup_entries]; [by inversion H|].
  inversion_clear H as [? ? Hx|? ? Hxs].
  - unfold ifx_cpu0_topup_q_list. by rewrite Hx.
  - destruct (ifx_cpu0_topup_q_list x e) as [[[c x'] e']|]; [|done].
    cbn [mbind option_bind]. by rewrite IH.
Qed.

Lemma topups_sixth_null seq s p :
  pools s seq = Some p -> alloc_hit_count p = 0 -> mps_list_book_keep_x s = 1 ->
  sizes_count p = Z.of_nat (length (buff_array p)) ->
  Exists (fun x => alloc_q x = None) (buff_array p) -> topups 6 seq s = None.
Proof.
  intros Hp Hh Hl Hsz Hex. change (topups 6 seq s) with
    (s ← topups 5 seq s; '(_, s) ← ifx_cpu0_topup_q_lists MPS_CPU_0_ID seq s; Some s).
  destruct (topups_below 5 seq s p Hp Hh) as (s' & -> & Hp' & Hl'); [lia|].
  cbn [mbind option_bind]. unfold ifx_cpu0_topup_q_lists, MPS_GET_BUF_POOL_cpu0.
  change (negb (MPS_CPU_0_ID =? MPS_CPU_0_ID)) with false. cbn iota. rewrite Hp'.
  cbn [alloc_hit_count set_hits]. change (w32 (Z.of_nat 5 + 1) >? MPS_BOOK_KEEPING_THRESH) with true.
  cbn iota. rewrite Hl', Hl. change (1 - 1 =? 0) with true. cbn iota.
  unfold split_entries. cbn [sizes_count buff_array set_hits].
  rewrite Hsz, Nat2Z.id, Nat.ltb_irrefl, firstn_all. cbn [mbind option_bind].
  by rewrite topup_entries_null.
Qed.

(** A fresh pool is not yet usable, and in part never will be.  If no
    allocation queue is set up before the timer has expired six times the
    top-up goes through its NULL pointer, and with more than one size it does so
    in any case, as queues are only ever attached to the first size.  The lists
    of the malloc variants are never allocated: setting them up faults,
    allocating from them yields NULL and releasing to them fails. *)
Theorem pool_fresh_faults seq sizes n s s1 :
  ifx_mps_buff_pool_init MPS_CPU_0_ID seq sizes n s = Some (0, s1) ->
  1 <= sizes -> mps_list_book_keep_x s = 1 -> pool_array s = true ->
  (exists s5, topups 5 seq s1 = Some s5) /\ topups 6 seq s1 = None /\
  (forall size len ret s2, 2 <= sizes ->
     ifx_mps_queue_init MPS_CPU_0_ID seq size len 0 s1 = Some (ret, s2) ->
     topups 6 seq s2 = None) /\
  (forall asize na nf, ifx_mps_malloc_buff_pool_init MPS_CPU_0_ID seq asize na nf s1 = None) /\
  (forall size, exists s2, ifx_mps_fast_alloc_malloc_buf MPS_CPU_1_ID size seq s1 = Some (0, s2)) /\
  (forall buf, buf <> 0 ->
     exists s2, ifx_mps_fast_free_malloc_buf MPS_CPU_1_ID buf seq s1 = Some (-1, s2)).
Proof.
  intros Hinit Hsz Hl Ha.
  destruct (pool_init_result _ _ _ _ _ Hinit) as (p & dfl & e & Hp & Es & Ep).
  assert (Hl1 : mps_list_book_keep_x s1 = 1) by by rewrite Es.
  assert (Ha1 : pool_array s1 = true) by by rewrite Es.
  assert (Harr : exists k, Z.to_nat sizes = S k) by (exists (Z.to_nat sizes - 1)%nat; lia).
  destruct Harr as [k Hk]. subst p.
  split_and!.
  - destruct (topups_below 5 seq s1 _ Hp eq_refl) as (s5 & -> & _); [lia|]. by eexists.
  - apply (topups_sixth_null seq s1 _ Hp); try done.
    + cbn. rewrite length_replicate. lia.
    + cbn. rewrite Hk. by left.
  - intros size len ret s2 H2. unfold ifx_mps_queue_init.
    change (negb (MPS_CPU_0_ID =? MPS_CPU_0_ID)) with false. cbn iota.
    unfold MPS_GET_BUF_POOL_cpu0. rewrite Hp. unfold mps_get_buf_size_entry.
    cbn [buff_array]. rewrite Hk. destruct k as [|k]; [lia|].
    cbn [replicate lookup list_lookup mbind option_bind bsize zero_entry].
    intros Hq. pose proof (topups_sixth_null seq s2) as H6.
    destruct (_ && _); cbn [mbind option_bind alloc_q set_bsize zero_entry negb Z.eqb] in Hq;
      (destruct (alloc_cleared _) as [e1|]; [|done]); cbn [mbind option_bind] in Hq;
      (destruct (mps_queue_init _ _ _ _) as [[[r q] e2]|]; [|done]);
      cbn [mbind option_bind] in Hq; injection Hq as _ <-;
      (eapply H6; [cbn; rewrite Z.eqb_refl; reflexivity|done|exact Hl1|
        cbn; rewrite length_replicate; lia|cbn; right; by left]).
  - intros asize na nf. unfold ifx_mps_malloc_buff_pool_init, MPS_GET_BUF_POOL_cpu0.
    by rewrite Hp.
  - intros size. unfold ifx_mps_fast_alloc_malloc_buf, MPS_GET_BUF_POOL_cpu1.
    rewrite Ha1, Hp. cbn. by eexists.
  - intros buf Hb. unfold ifx_mps_fast_free_malloc_buf, MPS_GET_BUF_POOL_cpu1.
    rewrite Ha1, Hp, (proj2 (Z.eqb_neq buf 0)) by done. cbn. by eexists.
Qed.

(** The buffers waiting on the free queues of a pool. *)
Definition free_bag (p : MPS_BUFF_POOL_HEAD) : gmultiset Z :=
  foldr (fun x b => held_bag (free_q x) ⊎ b) ∅ (buff_array p) ⊎ held_bag (default_free_list p).

Lemma free_bag_empty xs :
  Forall (fun x => held_bag (free_q x) = ∅) xs ->
  foldr (fun x b => held_bag (free_q x) ⊎ b) ∅ xs = ∅.
Proof. induction 1 as [|x xs Hx _ IH]; cbn; [done|]. rewrite Hx, IH. multiset_solver. Qed.

(** Draining the free queues of a service, on every path.  The first five
    calls only count; the sixth, when the book-keeping lock is held by someone
    else, starts the count again and does nothing; otherwise it returns every
    waiting buffer to the kernel, leaves all free queues empty, adds the number
    of socket buffers to the total and returns it.  The lock is restored. *)
Theorem pool_release_effect seq s p :
  service_ok seq s -> pools s seq = Some p -> 0 <= free_hit_count p < 2 ^ 32 - 1 ->
  let res := ifx_cpu0_release_q_lists MPS_CPU_0_ID seq s in
  (free_hit_count p < 5 ->
     res = Some (0, set_pool seq (set_hits (free_hit_count p + 1) (alloc_hit_count p) p) s)) /\
  (5 <= free_hit_count p -> mps_list_book_keep_x s <> 1 ->
     res = Some (0, set_pool seq (set_hits 0 (alloc_hit_count p) p) s)) /\
  (5 <= free_hit_count p -> mps_list_book_keep_x s = 1 ->
     exists c s' p', res = Some (c, s') /\ pools s' seq = Some p' /\
       mps_list_book_keep_x s' = 1 /\ free_hit_count p' = 0 /\
       free_bag p' = ∅ /\ held_bag (malloc_buf_free_list p') = ∅ /\
       tot_free_count p' = w32 (tot_free_count p + c) /\ 0 <= c).
Proof.
  intros (_ & p0 & Hp0 & Hok) Hp Hh res. rewrite Hp in Hp0. injection Hp0 as <-.
  unfold res, ifx_cpu0_release_q_lists, MPS_GET_BUF_POOL_cpu0. clear res.
  change (negb (MPS_CPU_0_ID =? MPS_CPU_0_ID)) with false. cbn iota. rewrite Hp.
  cbn [free_hit_count alloc_hit_count set_hits].
  rewrite w32_id by (unfold is_u32; lia). rewrite Z.gtb_ltb. unfold MPS_BOOK_KEEPING_THRESH.
  split_and!.
  - intros H. by rewrite (proj2 (Z.ltb_ge _ _)) by lia.
  - intros H Hl. rewrite (proj2 (Z.ltb_lt _ _)), (proj2 (Z.eqb_neq _ _)) by lia.
    unfold release_lock. rewrite Z.sub_add. do 2 f_equal.
  - intros H Hl. rewrite (proj2 (Z.ltb_lt _ _)), (proj2 (Z.eqb_eq _ _)) by lia.
    rewrite split_entries_all by done. cbn [mbind option_bind].
    pose proof Hok as (Hsz & Hpos & Hen & Hd & Hm).
    destruct (release_entries_held (buff_array p) (menv s) Hen)
      as (xs & l1 & E & Hxs & Hlen & Hb1 & Hf1). cbn [buff_array set_hits default_free_list].
    rewrite E. cbn [mbind option_bind].
    edestruct (release_held (default_free_list p))
      as (c & q & l2 & E2 & Hq & Hq0 & Hb2 & Hc); [exact Hd|]. rewrite E2.
    cbn [mbind option_bind malloc_buf_free_list set_hits].
    edestruct (release_held (malloc_buf_free_list p))
      as (c3 & q3 & l3 & E3 & Hq3 & Hq30 & Hb3 & _); [exact Hm|]. rewrite E3.
    cbn [mbind option_bind]. rewrite app_nil_r.
    do 3 eexists. split; [done|]. split; [cbn; by rewrite Z.eqb_refl|].
    split; [cbn; unfold release_lock; lia|]. split; [done|]. split.
    { unfold free_bag. cbn. rewrite free_bag_empty by done. by rewrite Hq0. }
    split; [done|]. split; [done|]. destruct (c >? 0) eqn:Ec; bool_prop; lia.
Qed.

(** ** The properties at concrete inputs *)

Definition sample_env : env := mk_env (seq 1 40 ≫= fun k => [0x80100000 + 256 * Z.of_nat k]) [].
Definition boot_mem : mps_mem := mk_mem true (fun _ => None) 0 0 0 0 1 false sample_env.

(** CPU0 sets up service 10: a pool of one size, eight free slots by default,
    four buffers of 1600 bytes. *)
Definition service10 : option mps_mem :=
  '(_, s) ← ifx_mps_buff_pool_init MPS_CPU_0_ID 10 1 8 boot_mem;
  '(_, s) ← ifx_mps_queue_init MPS_CPU_0_ID 10 1600 4 0 s;
  Some s.
Definition service10_state : mps_mem := default boot_mem service10.
Definition service10_pool : MPS_BUFF_POOL_HEAD := default zero_pool (pools service10_state 10).

(** Decides [held_ok] on a concrete queue. *)
Definition held_okb (q : option MPS_BUFF_HEAD) : bool :=
  match q with
  | None => true
  | Some q =>
      negb (circular_buf q =? 0) && (maxcount q + 1 <=? cb_entries q) && (0 <=? maxcount q) &&
      (maxcount q <? 2 ^ 31 - 1) && (0 <=? rpos q) && (rpos q <=? maxcount q) &&
      (0 <=? wpos q) && (wpos q <=? maxcount q) && forallb (fun b => negb (b =? 0)) (contents q)
  end.

Lemma held_okb_ok q : held_okb q = true -> held_ok q.
Proof.
  destruct q as [q|]; cbn; [|done]. intros H. bool_prop. split.
  - unfold q_wf. split_and!; done || lia.
  - intros Hin. match goal with H : forallb _ _ = true |- _ => rewrite forallb_forall in H;
      specialize (H 0) end. rewrite list_elem_of_In in Hin. naive_solver.
Qed.

Lemma service10_ok : service_ok 10 service10_state.
Proof.
  split; [by vm_compute|]. exists service10_pool. split; [by vm_compute|].
  split; [by vm_compute|]. split; [by vm_compute|]. split; [|split].
  - destruct (buff_array service10_pool) as [|x [|? ?]] eqn:E; vm_compute in E; [done| |done].
    injection E as <-. constructor; [|constructor].
    split; [by eexists|]. split; by apply held_okb_ok; vm_compute.
  - by apply held_okb_ok; vm_compute.
  - by apply held_okb_ok; vm_compute.
Qed.

Definition sample_pool_ops : list pool_op :=
  [PAlloc 1600; PAlloc 1600; PFree 0x80100400 1600; PRelease; PTopup; PFree 0x85000000 64].

Lemma pool_conservation_witness :
  exists gv tk s' used, pool_run 10 sample_pool_ops service10_state = Some (gv, tk, s') /\
    service_ok 10 s' /\
    to_alloc (menv service10_state) = used ++ to_alloc (menv s') /\
    mps_list_book_keep_x s' = mps_list_book_keep_x service10_state /\
    bag (List.filter (fun b => negb (b =? 0)) used) ⊎ gv ⊎ total_bag 10 service10_state
      = tk ⊎ total_bag 10 s'.
Proof. exact (pool_conservation 10 sample_pool_ops service10_state service10_ok). Defined.

Lemma pool_release_effect_witness :
  ifx_cpu0_release_q_lists MPS_CPU_0_ID 10 service10_state =
    Some (0, set_pool 10 (set_hits 1 0 service10_pool) service10_state).
Proof.
  refine (proj1 (pool_release_effect 10 service10_state service10_pool service10_ok _ _) _).
  - by vm_compute.
  - by vm_compute.
  - by vm_compute.
Defined.

Lemma pool_fresh_faults_witness :
  exists s1, ifx_mps_buff_pool_init MPS_CPU_0_ID 10 2 8 boot_mem = Some (0, s1) /\
    topups 6 10 s1 = None.
Proof.
  destruct (ifx_mps_buff_pool_init MPS_CPU_0_ID 10 2 8 boot_mem) as [[r s1]|] eqn:E;
    [|by vm_compute in E].
  assert (Hr : r = 0) by (vm_compute in E; congruence). subst r.
  exists s1. split; [done|].
  refine (proj1 (proj2 (pool_fresh_faults 10 2 8 boot_mem s1 E _ _ _))); by vm_compute.
Defined.
