(* ===== verification/MpsSkb.v ===== *)
(** * Socket buffers of the MPS service ([mps_tpe_linux.c], the CPU1 part)

    On CPU1 a packet lives in a buffer CPU0 has allocated, taken from the pool of
    its service ([MpsPool]).  The file models the driver's replacements for the
    kernel's operations on such buffers, copying, growing, trimming, and shows
    where the bytes of a packet are afterwards.

    A socket buffer is a record at its address; the packet bytes are a memory.
    [None] is a null pointer, a call of BUG or the panic of [skb_put].  The
    fragments a buffer may have are not followed by this code, which only prints a
    line when there are some, so they are not in the model; the kernel's own
    routines, used for buffers that are not of a pool, are parameters. *)

From S2P Require Import Prelude MpsQueue MpsPool.
Open Scope Z_scope.

(** ** State *)

Record sk_buff := mk_skb {
  skb_list : Z; sk : Z; dev : Z; real_dev : Z; priority : Z; protocol : Z; dst : Z;
  h : Z; nh : Z; mac : Z; cb : list Z; users : Z; pkt_type : Z; stamp : Z;
  destructor : Z; security : Z; nfmark : Z; nfcache : Z; nfct : Z;
  len : Z; data_len : Z; csum : Z; ip_summed : Z; cloned : Z; truesize : Z;
  head : Z; data : Z; tail : Z; end_ : Z
}.

(** The layout fields, and the rest. *)
Definition set_layout (l dl hd d t : Z) (b : sk_buff) : sk_buff :=
  mk_skb (skb_list b) (sk b) (dev b) (real_dev b) (priority b) (protocol b) (dst b) (h b) (nh b)
    (mac b) (cb b) (users b) (pkt_type b) (stamp b) (destructor b) (security b) (nfmark b)
    (nfcache b) (nfct b) l dl (csum b) (ip_summed b) (cloned b) (truesize b) hd d t (end_ b).
Definition set_sums (c i : Z) (b : sk_buff) : sk_buff :=
  mk_skb (skb_list b) (sk b) (dev b) (real_dev b) (priority b) (protocol b) (dst b) (h b) (nh b)
    (mac b) (cb b) (users b) (pkt_type b) (stamp b) (destructor b) (security b) (nfmark b)
    (nfcache b) (nfct b) (len b) (data_len b) c i (cloned b) (truesize b) (head b) (data b)
    (tail b) (end_ b).
Definition set_cloned (c : Z) (b : sk_buff) : sk_buff :=
  mk_skb (skb_list b) (sk b) (dev b) (real_dev b) (priority b) (protocol b) (dst b) (h b) (nh b)
    (mac b) (cb b) (users b) (pkt_type b) (stamp b) (destructor b) (security b) (nfmark b)
    (nfcache b) (nfct b) (len b) (data_len b) (csum b) (ip_summed b) c (truesize b) (head b)
    (data b) (tail b) (end_ b).
Definition set_head (hd : Z) (b : sk_buff) : sk_buff :=
  set_layout (len b) (data_len b) hd (data b) (tail b) b.

(** The pools, the buffers, the bytes, and how often routes and tracked
    connections are in use. *)
Record skb_state := mk_sst {
  bufs : mps_mem;
  skbs : Z -> sk_buff;
  bytes : Z -> Z;
  dst_refs : Z -> Z;
  nfct_refs : Z -> Z
}.
Definition set_bufs (m : mps_mem) (s : skb_state) : skb_state :=
  mk_sst m (skbs s) (bytes s) (dst_refs s) (nfct_refs s).
Definition set_skb (p : Z) (b : sk_buff) (s : skb_state) : skb_state :=
  mk_sst (bufs s) (fun a => if a =? p then b else skbs s a) (bytes s) (dst_refs s) (nfct_refs s).
Definition set_bytes (m : Z -> Z) (s : skb_state) : skb_state :=
  mk_sst (bufs s) (skbs s) m (dst_refs s) (nfct_refs s).
Definition set_refs (d n : Z -> Z) (s : skb_state) : skb_state :=
  mk_sst (bufs s) (skbs s) (bytes s) d n.

Definition get_skb (p : Z) (s : skb_state) : option sk_buff :=
  if p =? 0 then None else Some (skbs s p).
Definition on_skb (p : Z) (f : sk_buff -> sk_buff) (s : skb_state) : skb_state :=
  set_skb p (f (skbs s p)) s.

Definition memcpy (to from n : Z) (s : skb_state) : skb_state :=
  set_bytes (fun a => if (to <=? a) && (a <? to + n) then bytes s (from + (a - to)) else bytes s a) s.

(** ** The kernel's inline operations the code uses *)

Definition skb_headroom (b : sk_buff) : Z := s32 (data b - head b).
Definition dst_clone (d : Z) (s : skb_state) : skb_state :=
  if d =? 0 then s else set_refs (upd (dst_refs s) d (dst_refs s d + 1)) (nfct_refs s) s.
Definition nf_conntrack_get (n : Z) (s : skb_state) : skb_state :=
  if n =? 0 then s else set_refs (dst_refs s) (upd (nfct_refs s) n (nfct_refs s n + 1)) s.

(** The tail before; a buffer with fragments is a bug, running over the end a panic. *)
Definition skb_put (p n : Z) (s : skb_state) : option (Z * skb_state) :=
  b ← get_skb p s;
  if negb (data_len b =? 0) then None
  else
    let t := w32 (tail b + n) in
    if t >? end_ b then None
    else Some (tail b, set_skb p (set_layout (w32 (len b + n)) (data_len b) (head b) (data b) t b) s).

(** ** The driver's own *)

Definition copy_skb_header (new old : Z) (s : skb_state) : skb_state :=
  let b := skbs s new in
  let o := skbs s old in
  let offset := w32 (data b - data o) in
  let s := dst_clone (dst o) s in
  let s := set_skb new
    (mk_skb 0 0 (dev o) (real_dev o) (priority o) (protocol o) (dst o)
      (w32 (h o + offset)) (w32 (nh o + offset)) (w32 (mac o + offset)) (cb o) 1 (pkt_type o)
      (stamp o) 0 (security o) (nfmark o) (nfcache o) (nfct o) (len b) (data_len b) (csum b)
      (ip_summed b) (cloned b) (truesize b) (head b) (data b) (tail b) (end_ b)) s in
  nf_conntrack_get (nfct o) s.

Definition mps_skb_reserve (p n : Z) (s : skb_state) : skb_state :=
  on_skb p (fun b => set_layout (len b) (data_len b) (head b) (w32 (data b + n)) (w32 (tail b + n)) b) s.
Definition mps_skb_is_nonlinear (b : sk_buff) : Z := data_len b.
Definition mps_skb_put (p n : Z) (s : skb_state) : option (Z * skb_state) := skb_put p n s.
Definition mps_skb_headlen (b : sk_buff) : Z := w32 (len b - data_len b).

Definition mps_skb_copy_bits (skb offset to n : Z) (s : skb_state) : option (Z * skb_state) :=
  b ← get_skb skb s;
  let start := s32 (len b - data_len b) in
  if offset >? s32 (s32 (len b) - n) then Some (- EFAULT, s)
  else
    let copy := s32 (start - offset) in
    let '(n, s) :=
      if copy >? 0 then
        let copy := if copy >? n then n else copy in
        (s32 (n - copy), memcpy to (w32 (data b + offset)) copy s)
      else (n, s) in
    Some (if n =? 0 then 0 else - EFAULT, s).

(** The statements with which the copying routines fill the new buffer [n]:
    [reserve] bytes of headroom, the packet and [back] bytes before it. *)
Definition fill_copy (n skb reserve back : Z) (s : skb_state) : option skb_state :=
  let s := mps_skb_reserve n reserve s in
  '(_, s) ← skb_put n (len (skbs s skb)) s;
  let o := skbs s skb in
  let s := on_skb n (set_sums (csum o) (ip_summed o)) s in
  '(r, s) ← mps_skb_copy_bits skb (- back) (head (skbs s n)) (s32 (back + len o)) s;
  if negb (r =? 0) then None else Some (copy_skb_header n skb s).

Section Skb.

(** Which CPU runs; the kernel's routines. *)
Variable cpu_id : Z.
Variable kernel_skb_copy : Z -> skb_state -> option (Z * skb_state).
Variable kernel_pskb_expand_head : Z -> Z -> Z -> skb_state -> option (Z * skb_state).
Variable kernel_skb_realloc_headroom : Z -> Z -> skb_state -> option (Z * skb_state).
Variable kernel_skb_copy_expand : Z -> Z -> Z -> skb_state -> option (Z * skb_state).
Variable kernel_skb_copy_bits : Z -> Z -> Z -> Z -> skb_state -> option (Z * skb_state).

Definition fast_alloc (size seq : Z) (s : skb_state) : option (Z * skb_state) :=
  '(n, m) ← ifx_mps_fast_alloc_mps_buf cpu_id (w32 size) seq (bufs s); Some (n, set_bufs m s).
Definition fast_free (buf seq : Z) (s : skb_state) : option (Z * skb_state) :=
  '(r, m) ← ifx_mps_fast_free_mps_buf cpu_id buf (truesize (skbs s buf)) seq (bufs s);
  Some (r, set_bufs m s).

Definition ifx_mps_dev_kfree_skb (buf seq : Z) (s : skb_state) := fast_free buf seq s.
Definition ifx_mps_alloc_skb (size priority seq : Z) (s : skb_state) := fast_alloc size seq s.
Definition ifx_mps_dev_alloc_skb (length priority seq : Z) (s : skb_state) := fast_alloc length seq s.

Definition ifx_mps_skb_copy (skb seq : Z) (s : skb_state) : option (Z * skb_state) :=
  b ← get_skb skb s;
  let headerlen := s32 (data b - head b) in
  if ifx_mps_is_mps_buffer skb =? 0 then kernel_skb_copy skb s
  else
    '(n, s) ← fast_alloc (end_ b - head b + data_len b) seq s;
    if n =? 0 then Some (0, s)
    else s ← fill_copy n skb headerlen headerlen s; Some (n, s).

Definition ifx_mps_skb_clone (skb seq : Z) (s : skb_state) := ifx_mps_skb_copy skb seq s.

Definition ifx_mps_pskb_expand_head (skb nhead ntail seq : Z) (s : skb_state) : option (Z * skb_state) :=
  b ← get_skb skb s;
  let size := s32 (nhead + (end_ b - head b) + ntail) in
  let headerlen := s32 (data b - head b) in
  if ifx_mps_is_mps_buffer skb =? 0 then kernel_pskb_expand_head skb nhead ntail s
  else
    '(n, s) ← fast_alloc size seq s;
    if n =? 0 then Some (- ENOMEM, s)
    else
      s ← fill_copy n skb nhead headerlen s;
      let s := on_skb skb (set_cloned 1) (on_skb n (set_cloned 1) s) in
      let hd := head (skbs s n) in
      let s := on_skb n (set_head (head (skbs s skb))) s in
      let s := on_skb skb (set_head hd) s in
      '(_, s) ← fast_free n seq s;
      Some (0, s).

Definition ifx_mps_skb_realloc_headroom (skb headroom seq : Z) (s : skb_state) : option (Z * skb_state) :=
  b ← get_skb skb s;
  let delta := s32 (headroom - skb_headroom b) in
  let headerlen := s32 (data b - head b) in
  if ifx_mps_is_mps_buffer skb =? 0 then kernel_skb_realloc_headroom skb headroom s
  else
    let size := s32 ((if delta >? 0 then delta else 0) + (end_ b - head b)) in
    '(n, s) ← fast_alloc size seq s;
    if n =? 0 then Some (0, s)
    else
      s ← fill_copy n skb (if negb (delta =? 0) then headroom else skb_headroom b) headerlen s;
      Some (n, s).

Definition ifx_mps_skb_copy_expand (skb newheadroom newtailroom seq : Z) (s : skb_state)
  : option (Z * skb_state) :=
  b ← get_skb skb s;
  if ifx_mps_is_mps_buffer skb =? 0 then kernel_skb_copy_expand skb newheadroom newtailroom s
  else
    '(n, s) ← fast_alloc (newheadroom + newtailroom + end_ b - head b + data_len b) seq s;
    if n =? 0 then Some (0, s)
    else
      let s := mps_skb_reserve n newheadroom s in
      '(_, s) ← skb_put n (len (skbs s skb)) s;
      '(r, s) ← kernel_skb_copy_bits skb (- newheadroom) (head (skbs s n))
                  (s32 (newheadroom + len (skbs s skb))) s;
      if negb (r =? 0) then None else Some (n, copy_skb_header n skb s).

End Skb.

(** *** Trimming *)

Definition ___mps_pskb_trim (skb n realloc : Z) (s : skb_state) : option (Z * skb_state) :=
  b ← get_skb skb s;
  let offset := s32 (mps_skb_headlen b) in
  let shorten := set_layout n (w32 (data_len b - w32 (len b - n))) (head b) (data b) (tail b) b in
  Some (0,
    if w32 offset <? n then set_skb skb shorten s
    else if n <=? mps_skb_headlen b then
      set_skb skb (set_layout n 0 (head b) (data b) (w32 (data b + n)) b) s
    else set_skb skb shorten s).

Definition __mps_skb_trim (skb n : Z) (s : skb_state) : option skb_state :=
  b ← get_skb skb s;
  if data_len b =? 0 then
    Some (set_skb skb (set_layout n (data_len b) (head b) (data b) (w32 (data b + n)) b) s)
  else '(_, s) ← ___mps_pskb_trim skb n 0 s; Some s.

Definition ifx_mps_skb_trim (skb n : Z) (s : skb_state) : option skb_state :=
  b ← get_skb skb s;
  if len b >? n then __mps_skb_trim skb n s else Some s.

(** ** Well-formed buffers and their packets *)

(** A buffer without fragments, its pointers in order. *)
Record skb_ok (b : sk_buff) : Prop := {
  ok_head : 0 < head b <= data b;
  ok_tail : tail b = data b + len b;
  ok_end : tail b <= end_ b < 2 ^ 32;
  ok_size : end_ b - head b < 2 ^ 31;
  ok_len : 0 <= len b;
  ok_linear : data_len b = 0
}.

(** A buffer as [dev_alloc_skb] leaves it: empty, [r] bytes of headroom. *)
Record fresh (r : Z) (b : sk_buff) : Prop := {
  fr_ok : skb_ok b;
  fr_empty : len b = 0;
  fr_headroom : data b = head b + r
}.

Definition packet (s : skb_state) (p : Z) : list Z :=
  map (fun i => bytes s (data (skbs s p) + i)) (below (len (skbs s p))).

Ltac sproj :=
  cbn [bufs skbs bytes dst_refs nfct_refs set_bufs set_skb on_skb set_bytes set_refs memcpy
    skb_list sk dev real_dev priority protocol dst h nh mac cb users pkt_type stamp destructor
    security nfmark nfcache nfct len data_len csum ip_summed cloned truesize head data tail end_
    set_layout set_sums set_cloned set_head mbind option_bind].

Lemma set_skb_eq p b s : skbs (set_skb p b s) p = b.
Proof. sproj. by rewrite Z.eqb_refl. Qed.
Lemma set_skb_ne p q b s : q <> p -> skbs (set_skb p b s) q = skbs s q.
Proof. intros H. sproj. by rewrite (proj2 (Z.eqb_neq q p)). Qed.

Lemma copy_bits_all skb back to n s :
  skb <> 0 -> skb_ok (skbs s skb) -> 0 <= back <= data (skbs s skb) - head (skbs s skb) ->
  n = back + len (skbs s skb) ->
  mps_skb_copy_bits skb (- back) to n s = Some (0, memcpy to (data (skbs s skb) - back) n s) \/
  n = 0 /\ mps_skb_copy_bits skb (- back) to n s = Some (0, s).
Proof.
  intros H0 [Hh Ht He Hz Hl Hd] Hb ->. unfold mps_skb_copy_bits, get_skb.
  rewrite (proj2 (Z.eqb_neq _ _) H0). sproj. set (b := skbs s skb) in *. rewrite Hd, Z.sub_0_r.
  rewrite !s32_id by (rewrite ?s32_id by lia; lia). rewrite Z.gtb_ltb, (proj2 (Z.ltb_ge _ _)) by lia.
  replace (len b - - back) with (back + len b) by lia. rewrite !Z.gtb_ltb, Z.ltb_irrefl.
  destruct (0 <? back + len b) eqn:E; bool_prop.
  - left. rewrite Z.sub_diag. change (s32 0) with 0. change (0 =? 0) with true. cbv iota.
    do 3 f_equal. rewrite w32_id by (unfold is_u32; lia). lia.
  - right. assert (En : back + len b = 0) by lia. by rewrite En.
Qed.

(** What filling a fresh buffer yields. *)
Record filled (n skb r reserve back : Z) (s s' : skb_state) : Prop := {
  fl_bufs : bufs s' = bufs s;
  fl_others p : p <> n -> skbs s' p = skbs s p;
  fl_ok : skb_ok (skbs s' n);
  fl_head : head (skbs s' n) = head (skbs s n);
  fl_end : end_ (skbs s' n) = end_ (skbs s n);
  fl_truesize : truesize (skbs s' n) = truesize (skbs s n);
  fl_data : data (skbs s' n) = head (skbs s n) + r + reserve;
  fl_len : len (skbs s' n) = len (skbs s skb);
  fl_bytes a : bytes s' a =
    if (head (skbs s n) <=? a) && (a <? head (skbs s n) + (back + len (skbs s skb)))
    then bytes s (data (skbs s skb) - back + (a - head (skbs s n))) else bytes s a
}.

Lemma copy_skb_header_eq n skb s :
  bufs (copy_skb_header n skb s) = bufs s /\ bytes (copy_skb_header n skb s) = bytes s /\
  (forall p, p <> n -> skbs (copy_skb_header n skb s) p = skbs s p) /\
  let b := skbs (copy_skb_header n skb s) n in
  let o := skbs s n in
  len b = len o /\ data_len b = data_len o /\ truesize b = truesize o /\ head b = head o /\
  data b = data o /\ tail b = tail o /\ end_ b = end_ o.
Proof.
  unfold copy_skb_header, nf_conntrack_get, dst_clone.
  destruct (dst _ =? 0), (nfct _ =? 0); sproj; rewrite Z.eqb_refl; split_and!; try done;
    intros p Hp; by rewrite (proj2 (Z.eqb_neq p n)).
Qed.

Lemma fill_copy_spec n skb r reserve back s :
  n <> 0 -> skb <> 0 -> n <> skb -> skb_ok (skbs s skb) -> fresh r (skbs s n) ->
  0 <= reserve -> 0 <= back <= data (skbs s skb) - head (skbs s skb) ->
  head (skbs s n) + r + reserve + len (skbs s skb) <= end_ (skbs s n) ->
  exists s', fill_copy n skb reserve back s = Some s' /\ filled n skb r reserve back s s'.
Proof.
  intros Hn Hs Hne Hb [[Fh Ft Fe Fz _ Fd] Fl Fr] Hres Hback Hroom. pose proof Hb as [_ _ He _ Hl _].
  pose proof (ok_tail _ Hb) as Ht. pose proof (ok_size _ Hb) as Hz. pose proof (ok_head _ Hb) as Hh.
  unfold fill_copy. set (s1 := mps_skb_reserve n reserve s).
  assert (E1 : skbs s1 n = set_layout 0 0 (head (skbs s n)) (head (skbs s n) + r + reserve)
    (head (skbs s n) + r + reserve) (skbs s n)).
  { subst s1. unfold mps_skb_reserve, on_skb. rewrite set_skb_eq, Ft, Fl, Fd, Fr, Z.add_0_r.
    by rewrite w32_id by (unfold is_u32; lia). }
  assert (E1s : skbs s1 skb = skbs s skb) by (subst s1; unfold mps_skb_reserve, on_skb; by rewrite set_skb_ne).
  rewrite E1s. unfold skb_put, get_skb. rewrite (proj2 (Z.eqb_neq n 0)) by done. cbn [mbind option_bind].
  rewrite E1. cbn [len data_len tail end_ set_layout].
  change (negb (0 =? 0)) with false. cbv iota. rewrite Z.add_0_l, !w32_id by (unfold is_u32; lia).
  rewrite Z.gtb_ltb, (proj2 (Z.ltb_ge _ _)) by lia. cbn [mbind option_bind].
  set (s2 := set_skb n _ s1). set (s3 := on_skb n _ s2).
  assert (E3 : skbs s3 skb = skbs s skb) by (subst s3 s2; unfold on_skb; by rewrite !set_skb_ne).
  assert (H3 : head (skbs s3 n) = head (skbs s n)) by (subst s3 s2; unfold on_skb; by rewrite !set_skb_eq).
  assert (E2 : skbs s2 skb = skbs s skb) by (subst s2; by rewrite set_skb_ne).
  rewrite H3, E2, s32_id by lia.
  assert (E4 : exists s4, mps_skb_copy_bits skb (- back) (head (skbs s n)) (back + len (skbs s skb)) s3 = Some (0, s4) /\
    bufs s4 = bufs s3 /\ skbs s4 = skbs s3 /\ forall a, bytes s4 a =
      if (head (skbs s n) <=? a) && (a <? head (skbs s n) + (back + len (skbs s skb)))
      then bytes s (data (skbs s skb) - back + (a - head (skbs s n))) else bytes s a).
  { destruct (copy_bits_all skb back (head (skbs s n)) (back + len (skbs s skb)) s3) as [E|[E0 E]];
      rewrite ?E3 in *; try done; eexists; (split; [exact E|]); split_and!; try done.
    intros a. rewrite E0. destruct (_ <=? a) eqn:Ea, (a <? _) eqn:Eb; bool_prop; try done. lia. }
  destruct E4 as (s4 & -> & Q1 & Q2 & Q3). cbn [mbind option_bind]. change (negb (0 =? 0)) with false. cbv iota.
  eexists. split; [reflexivity|].
  destruct (copy_skb_header_eq n skb s4) as (P1 & P2 & P3 & P4 & P5 & P6 & P7 & P8 & P9 & P10).
  rewrite Q2 in P4, P5, P6, P7, P8, P9, P10. unfold s3, s2, on_skb in P4, P5, P6, P7, P8, P9, P10.
  rewrite !set_skb_eq in P4, P5, P6, P7, P8, P9, P10.
  cbn [len data_len truesize head data tail end_ set_layout set_sums] in P4, P5, P6, P7, P8, P9, P10.
  constructor; rewrite ?P1, ?P2, ?P4, ?P6, ?P7, ?P8, ?P10; try done.
  - intros p Hp. rewrite P3, Q2 by done. unfold s3, s2, s1, mps_skb_reserve, on_skb. by rewrite !set_skb_ne.
  - constructor; rewrite ?P4, ?P5, ?P7, ?P8, ?P9, ?P10; lia.
Qed.

(** ** Where the packet is after copying *)

Definition apart (a b : sk_buff) : Prop := end_ a <= head b \/ end_ b <= head a.

Lemma filled_packets n skb r reserve back s s' :
  filled n skb r reserve back s s' -> n <> skb -> skb_ok (skbs s skb) -> apart (skbs s n) (skbs s skb) ->
  0 <= r -> 0 <= reserve -> 0 <= back ->
  head (skbs s n) + back + len (skbs s skb) <= end_ (skbs s n) ->
  packet s' n = map (fun i => if i + (r + reserve - back) <? len (skbs s skb)
    then bytes s (data (skbs s skb) + (i + (r + reserve - back)))
    else bytes s (head (skbs s n) + r + reserve + i)) (below (len (skbs s skb))) /\
  packet s' skb = packet s skb.
Proof.
  intros F Hne Hb Hap Hr Hres Hback Hroom. pose proof F as [_ Fo _ _ _ _ Fd Fl Fb]. split.
  - unfold packet. rewrite Fd, Fl. apply map_ext_in. intros i Hi%in_below. rewrite Fb.
    rewrite (proj2 (Z.leb_le _ _)) by lia. cbn [andb].
    destruct (_ <? head _ + _) eqn:E1, (i + _ <? _) eqn:E2; bool_prop; try lia; f_equal; lia.
  - unfold packet. rewrite Fo by done. apply map_ext_in. intros i Hi%in_below. rewrite Fb.
    destruct Hb as [Hh Ht He _ _ _]. destruct (_ <=? _) eqn:E1, (_ <? _) eqn:E2; bool_prop; try done.
    exfalso. destruct Hap; lia.
Qed.

Section Copies.
Context (cpu_id seq skb n r : Z) (s : skb_state) (m : mps_mem).
Context (Hskb : skb <> 0) (Hn : n <> 0) (Hne : n <> skb) (Hmps : ifx_mps_is_mps_buffer skb <> 0).
Context (Hok : skb_ok (skbs s skb)) (Hfresh : fresh r (skbs s n)) (Hap : apart (skbs s n) (skbs s skb)).
Context (Hr : 0 <= r).
Let b := skbs s skb.

Lemma skb_copy_filled kernel :
  ifx_mps_fast_alloc_mps_buf cpu_id (w32 (end_ b - head b)) seq (bufs s) = Some (n, m) ->
  head (skbs s n) + r + (data b - head b) + len b <= end_ (skbs s n) ->
  exists s', ifx_mps_skb_copy cpu_id kernel skb seq s = Some (n, s') /\
    filled n skb r (data b - head b) (data b - head b) (set_bufs m s) s'.
Proof.
  intros Ha Hroom. pose proof Hok as [Hh Ht He Hz Hl Hd]. unfold ifx_mps_skb_copy, get_skb.
  rewrite (proj2 (Z.eqb_neq _ _) Hskb). cbn [mbind option_bind]. rewrite (proj2 (Z.eqb_neq _ _) Hmps).
  unfold fast_alloc. fold b. fold b in Hh, Ht, He, Hz, Hl, Hd. rewrite Hd, Z.add_0_r, Ha. cbn [mbind option_bind].
  rewrite (proj2 (Z.eqb_neq _ _) Hn), s32_id by lia.
  destruct (fill_copy_spec n skb r (data b - head b) (data b - head b) (set_bufs m s)) as (s' & E & F);
    try done; [cbn [skbs set_bufs]; fold b; lia..|].
  rewrite E. cbn [mbind option_bind]. by exists s'.
Qed.

Lemma realloc_filled kernel headroom :
  0 <= headroom < 2 ^ 31 ->
  let size := (if headroom - (data b - head b) >? 0 then headroom - (data b - head b) else 0) + (end_ b - head b) in
  size < 2 ^ 31 ->
  ifx_mps_fast_alloc_mps_buf cpu_id (w32 size) seq (bufs s) = Some (n, m) ->
  head (skbs s n) + r + headroom + len b <= end_ (skbs s n) ->
  exists s', ifx_mps_skb_realloc_headroom cpu_id kernel skb headroom seq s = Some (n, s') /\
    filled n skb r headroom (data b - head b) (set_bufs m s) s'.
Proof.
  intros Hhr size Hsz Ha Hroom. pose proof Hok as [Hh Ht He Hz Hl Hd]. unfold ifx_mps_skb_realloc_headroom, get_skb.
  rewrite (proj2 (Z.eqb_neq _ _) Hskb). cbn [mbind option_bind]. rewrite (proj2 (Z.eqb_neq _ _) Hmps).
  unfold skb_headroom. fold b. fold b in Hh, Ht, He, Hz, Hd, Hl. rewrite !(s32_id (data b - head b)), s32_id by lia.
  unfold fast_alloc. fold size. rewrite (s32_id size) by (subst size; destruct (_ >? 0) eqn:E; lia).
  rewrite Ha. cbn [mbind option_bind]. rewrite (proj2 (Z.eqb_neq _ _) Hn).
  assert (Er : (if negb (headroom - (data b - head b) =? 0) then headroom else data b - head b) = headroom)
    by (destruct (_ =? 0) eqn:E; bool_prop; cbn [negb]; lia).
  rewrite Er.
  destruct (fill_copy_spec n skb r headroom (data b - head b) (set_bufs m s)) as (s' & E & F);
    try done; [cbn [skbs set_bufs]; fold b; lia..|].
  rewrite E. cbn [mbind option_bind]. by exists s'.
Qed.
End Copies.

(** The last [r] bytes of a map over [below]. *)
Lemma map_displaced (f g : Z -> Z) l r : 0 <= r <= l ->
  map (fun i => if i + r <? l then f (i + r) else g i) (below l) =
    drop (Z.to_nat r) (map f (below l)) ++ map (fun i => g (l - r + i)) (below r).
Proof.
  intros H. replace (below l) with (below ((l - r) + r)) at 1 by (f_equal; lia).
  rewrite below_add, map_app, map_map by lia. f_equal.
  - replace (below l) with (below (r + (l - r))) by (f_equal; lia). rewrite below_add, map_app, map_map by lia.
    rewrite drop_app_length' by (rewrite length_map, length_below; done).
    apply map_ext_in. intros i Hi%in_below. rewrite (proj2 (Z.ltb_lt _ _)) by lia. f_equal. lia.
  - apply map_ext_in. intros i Hi%in_below. by rewrite (proj2 (Z.ltb_ge _ _)) by lia.
Qed.

(** [ifx_mps_skb_copy] of a pool buffer without fragments into the buffer [n] its pool
    yields, which [dev_alloc_skb] gave [r] bytes of headroom: the copy has the
    packet's length, but its data pointer lies [r] bytes further than where the bytes were
    put, so it lacks the packet's first [r] bytes and ends in [r] bytes that were in
    the memory before.  With [r = 0] it would be the packet; [dev_alloc_skb] has
    [r = 16].  The packet itself is unharmed. *)
Theorem skb_copy_displaced cpu_id kernel seq skb n r s m :
  let b := skbs s skb in
  skb <> 0 -> n <> 0 -> n <> skb -> ifx_mps_is_mps_buffer skb <> 0 ->
  skb_ok b -> fresh r (skbs s n) -> apart (skbs s n) b -> 0 <= r <= len b ->
  ifx_mps_fast_alloc_mps_buf cpu_id (w32 (end_ b - head b)) seq (bufs s) = Some (n, m) ->
  head (skbs s n) + r + (data b - head b) + len b <= end_ (skbs s n) ->
  exists s', ifx_mps_skb_copy cpu_id kernel skb seq s = Some (n, s') /\
    packet s' n = drop (Z.to_nat r) (packet s skb) ++
      map (fun i => bytes s (head (skbs s n) + (data b - head b) + len b + i)) (below r) /\
    packet s' skb = packet s skb /\ skb_ok (skbs s' n).
Proof.
  intros b Hskb Hn Hne Hmps Hok Hfr Hap Hr Ha Hroom.
  destruct (skb_copy_filled cpu_id seq skb n r s m Hskb Hn Hne Hmps Hok Hfr kernel Ha Hroom) as (s' & E & F).
  pose proof (ok_head _ Hok) as Hh. fold b in Hh.
  destruct (filled_packets _ _ _ _ _ _ _ F) as [P1 P2]; try done; [cbn [skbs set_bufs]; fold b; lia..|].
  exists s'. split; [done|]. split; [|split; [exact P2|apply F]].
  rewrite P1. cbn [skbs set_bufs bytes]. fold b. rewrite (Z.add_simpl_r r).
  rewrite (map_displaced (fun i => bytes s (data b + i))) by done. f_equal.
  apply map_ext. intros i. f_equal. lia.
Qed.

(** [ifx_mps_skb_realloc_headroom] of a pool buffer: the new buffer has [r] bytes of headroom
    more than asked for, and byte [i] of its data is byte [i + r + headroom - old headroom]
    of the old one, a byte of the old headroom when that is negative, a stale one
    when it is past the packet. *)
Theorem realloc_headroom_displaced cpu_id kernel seq skb n r headroom s m :
  let b := skbs s skb in
  let old := data b - head b in
  let shift := r + headroom - old in
  let size := (if headroom - old >? 0 then headroom - old else 0) + (end_ b - head b) in
  skb <> 0 -> n <> 0 -> n <> skb -> ifx_mps_is_mps_buffer skb <> 0 ->
  skb_ok b -> fresh r (skbs s n) -> apart (skbs s n) b -> 0 <= r ->
  0 <= headroom < 2 ^ 31 -> size < 2 ^ 31 ->
  ifx_mps_fast_alloc_mps_buf cpu_id (w32 size) seq (bufs s) = Some (n, m) ->
  head (skbs s n) + r + Z.max headroom old + len b <= end_ (skbs s n) ->
  exists s', ifx_mps_skb_realloc_headroom cpu_id kernel skb headroom seq s = Some (n, s') /\
    data (skbs s' n) - head (skbs s' n) = r + headroom /\ skb_ok (skbs s' n) /\
    packet s' n = map (fun i => if i + shift <? len b then bytes s (data b + (i + shift))
                               else bytes s (data (skbs s' n) + i)) (below (len b)).
Proof.
  intros b old shift size Hskb Hn Hne Hmps Hok Hfr Hap Hr Hhr Hsz Ha Hroom.
  destruct (realloc_filled cpu_id seq skb n r s m Hskb Hn Hne Hmps Hok Hfr kernel headroom Hhr Hsz Ha)
    as (s' & E & F); [unfold old, b in *; lia|].
  pose proof (ok_head _ Hok) as Hh. fold b in Hh.
  destruct (filled_packets _ _ _ _ _ _ _ F) as [P1 _]; try done;
    [cbn [skbs set_bufs]; fold b old; lia..|].
  pose proof (fl_data _ _ _ _ _ _ _ F) as Fd. pose proof (fl_head _ _ _ _ _ _ _ F) as Fh.
  exists s'. split; [done|]. split; [rewrite Fd, Fh; lia|]. split; [apply F|]. rewrite P1, Fd. done.
Qed.

(** ** Growing *)

(** C32: [ifx_mps_pskb_expand_head] of a pool buffer swaps only the two [head] pointers before it
    gives the new buffer back: the packet's length, data, tail and end pointers stay
    where they were, in the memory whose start is now [head] of the buffer handed
    to the free queue, while its own [head] points to the new memory.  The caller is
    told that all went well. *)
Theorem expand_head_frees_packet cpu_id kernel nhead ntail seq skb n r s m m' v :
  let b := skbs s skb in
  let size := nhead + (end_ b - head b) + ntail in
  skb <> 0 -> n <> 0 -> n <> skb -> ifx_mps_is_mps_buffer skb <> 0 ->
  skb_ok b -> fresh r (skbs s n) -> apart (skbs s n) b -> 0 <= r ->
  0 <= nhead -> 0 <= ntail -> size < 2 ^ 31 ->
  ifx_mps_fast_alloc_mps_buf cpu_id (w32 size) seq (bufs s) = Some (n, m) ->
  ifx_mps_fast_free_mps_buf cpu_id n (truesize (skbs s n)) seq m = Some (v, m') ->
  head (skbs s n) + r + Z.max nhead (data b - head b) + len b <= end_ (skbs s n) ->
  exists s', ifx_mps_pskb_expand_head cpu_id kernel skb nhead ntail seq s = Some (0, s') /\
    bufs s' = m' /\ head (skbs s' n) = head b /\ head (skbs s' skb) = head (skbs s n) /\
    len (skbs s' skb) = len b /\ data (skbs s' skb) = data b /\ tail (skbs s' skb) = tail b /\
    end_ (skbs s' skb) = end_ b /\ packet s' skb = packet s skb.
Proof.
  intros b size Hskb Hn Hne Hmps Hok Hfr Hap Hr Hnh Hnt Hsz Ha Hf Hroom.
  pose proof Hok as [Hh Ht He Hz Hl Hd]. fold b in Hh, Ht, He, Hz, Hl, Hd.
  unfold ifx_mps_pskb_expand_head, get_skb. rewrite (proj2 (Z.eqb_neq _ _) Hskb). cbn [mbind option_bind].
  rewrite (proj2 (Z.eqb_neq _ _) Hmps). fold b. unfold fast_alloc. fold size.
  rewrite (s32_id size), (s32_id (data b - head b)) by (subst size; lia). rewrite Ha. cbn [mbind option_bind].
  rewrite (proj2 (Z.eqb_neq _ _) Hn).
  destruct (fill_copy_spec n skb r nhead (data b - head b) (set_bufs m s)) as (t & -> & F);
    try done; [cbn [skbs set_bufs]; fold b; lia..|]. cbn [mbind option_bind].
  destruct (filled_packets _ _ _ _ _ _ _ F) as [_ P2]; try done; [cbn [skbs set_bufs]; fold b; lia..|].
  destruct F as [Fb Fo _ Fh _ Ft _ _ _]. cbn [skbs bufs set_bufs] in *.
  assert (Et : skbs t skb = b) by (apply Fo; congruence).
  unfold on_skb. set (t1 := set_skb n (set_cloned 1 (skbs t n)) t).
  set (t2 := set_skb skb (set_cloned 1 (skbs t1 skb)) t1).
  assert (E2 : skbs t2 n = set_cloned 1 (skbs t n) /\ skbs t2 skb = set_cloned 1 b).
  { subst t2 t1. by rewrite set_skb_ne, !set_skb_eq, set_skb_ne, Et by done. }
  destruct E2 as [E2n E2s]. rewrite E2n, E2s. set (t3 := set_skb n _ t2).
  assert (E3 : skbs t3 skb = set_cloned 1 b) by (subst t3; by rewrite set_skb_ne). rewrite E3.
  set (t4 := set_skb skb _ t3). unfold fast_free.
  assert (E4 : skbs t4 n = set_head (head b) (set_cloned 1 (skbs t n))) by (subst t4 t3; by rewrite set_skb_ne, set_skb_eq).
  rewrite E4. change (bufs t4) with (bufs t). rewrite Fb.
  change (truesize (set_head _ _)) with (truesize (skbs t n)). rewrite Ft, Hf. cbn [mbind option_bind].
  eexists. split; [reflexivity|]. cbn [bufs skbs set_bufs]. rewrite E4.
  assert (E5 : skbs t4 skb = set_head (head (skbs t n)) (set_cloned 1 b)) by (subst t4; by rewrite set_skb_eq).
  unfold packet. cbn [skbs set_bufs bytes]. rewrite E5. split_and!; try done.
  change (bytes t4) with (bytes t). unfold packet in P2. rewrite Et in P2. exact P2.
Qed.

(** ** Trimming *)

(** As [skb_ok], with [data_len] of the length in fragments. *)
Record buf_ok (b : sk_buff) : Prop := {
  bo_data : 0 <= head b <= data b;
  bo_tail : tail b = data b + (len b - data_len b);
  bo_end : tail b <= end_ b < 2 ^ 32;
  bo_len : 0 <= data_len b <= len b;
  bo_u32 : len b < 2 ^ 32
}.

(** [ifx_mps_skb_trim] shortens a buffer to at most [n] bytes and keeps it
    well-formed: bytes go from the fragments first, then from the linear part,
    whose first bytes stay; nothing else of the state changes. *)
Theorem skb_trim_spec skb n s :
  skb <> 0 -> buf_ok (skbs s skb) -> 0 <= n < 2 ^ 32 ->
  exists s', ifx_mps_skb_trim skb n s = Some s' /\ buf_ok (skbs s' skb) /\
    len (skbs s' skb) = Z.min (len (skbs s skb)) n /\
    len (skbs s' skb) - data_len (skbs s' skb) = Z.min (len (skbs s skb) - data_len (skbs s skb)) n /\
    data (skbs s' skb) = data (skbs s skb) /\ head (skbs s' skb) = head (skbs s skb) /\
    end_ (skbs s' skb) = end_ (skbs s skb) /\
    bytes s' = bytes s /\ bufs s' = bufs s /\ forall p, p <> skb -> skbs s' p = skbs s p.
Proof.
  intros H0 Hok Hn. pose proof Hok as [Hd Ht He Hl Hu].
  unfold ifx_mps_skb_trim, get_skb. rewrite (proj2 (Z.eqb_neq _ _) H0). cbn [mbind option_bind].
  destruct (len (skbs s skb) >? n) eqn:E; rewrite Z.gtb_ltb in E; bool_prop.
  2:{ exists s. split_and!; try done; lia. }
  unfold __mps_skb_trim, ___mps_pskb_trim, get_skb. rewrite (proj2 (Z.eqb_neq _ _) H0). cbn [mbind option_bind].
  set (b := skbs s skb) in *.
  destruct (data_len b =? 0) eqn:Edl; bool_prop; [|unfold mps_skb_headlen; rewrite (w32_id (len b - data_len b)) by (unfold is_u32; lia)].
  - eexists. split; [reflexivity|]. rewrite set_skb_eq. cbn [len data_len data head tail end_ set_layout].
    rewrite w32_id by (unfold is_u32; lia). split_and!; try done; try lia; [|intros p Hp; by apply set_skb_ne].
    constructor; cbn [len data_len data head tail end_ set_layout]; lia.
  - rewrite w32_s32, (w32_id (len b - data_len b)) by (unfold is_u32; lia).
    destruct (len b - data_len b <? n) eqn:E1; bool_prop; cbn [mbind option_bind];
      [|rewrite (proj2 (Z.leb_le n _)) by lia]; (eexists; split; [reflexivity|]);
      rewrite set_skb_eq; cbn [len data_len data head tail end_ set_layout].
    + rewrite !(w32_id (len b - n)), w32_id by (unfold is_u32; lia).
      split_and!; try done; try lia; [|intros p Hp; by apply set_skb_ne].
      constructor; cbn [len data_len data head tail end_ set_layout]; lia.
    + rewrite w32_id by (unfold is_u32; lia). split_and!; try done; try lia; [|intros p Hp; by apply set_skb_ne].
      constructor; cbn [len data_len data head tail end_ set_layout]; lia.
Qed.

(** ** The properties at concrete inputs *)

Definition plain (hd r l size : Z) : sk_buff :=
  mk_skb 0 0 0 0 0 0 0 0 0 0 [] 1 0 0 0 0 0 0 0 l 0 0 0 0 1600 hd (hd + r) (hd + r + l) (hd + size).

(** Service 10 with a packet of 40 bytes, and its four free buffers. *)
Definition sample_skb : Z := 0x80101000.
Definition sample_buf : Z :=
  match ifx_mps_fast_alloc_mps_buf MPS_CPU_1_ID 200 10 service10_state with Some (n, _) => n | None => 0 end.
Definition sample_after : mps_mem :=
  match ifx_mps_fast_alloc_mps_buf MPS_CPU_1_ID 200 10 service10_state with
  | Some (_, m) => m | None => service10_state end.
Definition sample_skbs : skb_state :=
  mk_sst service10_state
    (fun p => if p =? sample_skb then plain 0x80200000 20 40 200 else plain 0x80300000 16 0 1616)
    (fun a => (a - 0x80200000) mod 100) (fun _ => 0) (fun _ => 0).

Lemma plain_ok hd r l size : 0 < hd -> 0 <= r -> 0 <= l -> r + l <= size < 2 ^ 31 -> hd + size < 2 ^ 32 ->
  skb_ok (plain hd r l size).
Proof. intros. constructor; cbn [plain head data tail end_ len data_len]; lia. Qed.

Lemma sample_skb_ok : skb_ok (skbs sample_skbs sample_skb).
Proof. apply (plain_ok 0x80200000 20 40 200); lia. Qed.

Lemma sample_fresh : fresh 16 (skbs sample_skbs sample_buf).
Proof.
  assert (E : skbs sample_skbs sample_buf = plain 0x80300000 16 0 1616) by (vm_compute; reflexivity).
  rewrite E. constructor; [apply plain_ok; lia|done..].
Qed.

Lemma sample_apart : apart (skbs sample_skbs sample_buf) (skbs sample_skbs sample_skb).
Proof. right. vm_compute. discriminate. Qed.

Lemma skb_copy_displaced_witness :
  exists s', ifx_mps_skb_copy MPS_CPU_1_ID (fun _ _ => None) sample_skb 10 sample_skbs = Some (sample_buf, s') /\
    length (packet s' sample_buf) = 40%nat /\ nth 0 (packet sample_skbs sample_skb) 0 = 20 /\
    nth 0 (packet s' sample_buf) 0 = 36.
Proof.
  destruct (skb_copy_displaced MPS_CPU_1_ID (fun _ _ => None) 10 sample_skb sample_buf 16 sample_skbs sample_after)
    as (s' & E & P & _ & _).
  - discriminate.
  - vm_compute. discriminate.
  - vm_compute. discriminate.
  - vm_compute. discriminate.
  - exact sample_skb_ok.
  - exact sample_fresh.
  - exact sample_apart.
  - vm_compute. split; discriminate.
  - vm_compute. reflexivity.
  - vm_compute. discriminate.
  - exists s'. split; [exact E|]. rewrite P. split; [vm_compute; reflexivity|]. split; vm_compute; reflexivity.
Defined.

Lemma realloc_headroom_displaced_witness :
  exists s', ifx_mps_skb_realloc_headroom MPS_CPU_1_ID (fun _ _ _ => None) sample_skb 64 10 sample_skbs =
      Some (sample_buf, s') /\ data (skbs s' sample_buf) - head (skbs s' sample_buf) = 80.
Proof.
  destruct (realloc_headroom_displaced MPS_CPU_1_ID (fun _ _ _ => None) 10 sample_skb sample_buf 16 64
    sample_skbs sample_after) as (s' & E & P & _).
  - discriminate.
  - vm_compute. discriminate.
  - vm_compute. discriminate.
  - vm_compute. discriminate.
  - exact sample_skb_ok.
  - exact sample_fresh.
  - exact sample_apart.
  - discriminate.
  - split; [discriminate|reflexivity].
  - vm_compute. reflexivity.
  - vm_compute. reflexivity.
  - vm_compute. discriminate.
  - exists s'. split; [exact E|exact P].
Defined.

Lemma expand_head_frees_packet_witness :
  exists s', ifx_mps_pskb_expand_head MPS_CPU_1_ID (fun _ _ _ _ => None) sample_skb 32 0 10 sample_skbs = Some (0, s') /\
    head (skbs s' sample_buf) = 0x80200000 /\ data (skbs s' sample_skb) = 0x80200014.
Proof.
  destruct (expand_head_frees_packet MPS_CPU_1_ID (fun _ _ _ _ => None) 32 0 10 sample_skb sample_buf 16 sample_skbs
    sample_after
    (match ifx_mps_fast_free_mps_buf MPS_CPU_1_ID sample_buf 1600 10 sample_after with Some (_, m) => m | None => sample_after end)
    0) as (s' & E & _ & P1 & _ & _ & P2 & _).
  - discriminate.
  - vm_compute. discriminate.
  - vm_compute. discriminate.
  - vm_compute. discriminate.
  - exact sample_skb_ok.
  - exact sample_fresh.
  - exact sample_apart.
  - discriminate.
  - discriminate.
  - discriminate.
  - vm_compute. reflexivity.
  - vm_compute. reflexivity.
  - vm_compute. reflexivity.
  - vm_compute. discriminate.
  - exists s'. split; [exact E|]. split; [exact P1|exact P2].
Defined.

Lemma skb_trim_spec_witness :
  exists s', ifx_mps_skb_trim sample_skb 30 sample_skbs = Some s' /\ len (skbs s' sample_skb) = 30.
Proof.
  destruct (skb_trim_spec sample_skb 30 sample_skbs) as (s' & E & _ & P & _).
  - discriminate.
  - constructor; vm_compute; intuition discriminate.
  - split; [discriminate|reflexivity].
  - exists s'. split; [exact E|exact P].
Defined.
