(* ===== verification/Icu.v ===== *)
(** * Interrupt control unit ([arch/mips/infineon/danube/basic/interrupt.c])

    The 160 interrupt lines come in five modules of 32, each with an enable
    register (IER), a status register (ISR, write one to clear), and a register
    of the enabled pending lines (IOSR).  The file models masking, acknowledging
    and enabling a line, the search for the lowest pending line and the five
    cascade dispatchers.  Registers are a memory [Z -> Z]; a write to ISR is
    recorded as the value stored.  [do_IRQ], the kernel's generic entry, is the
    line number a dispatcher yields. *)

From S2P Require Import Prelude.
Open Scope Z_scope.

(** ** Registers *)

Definition DANUBE_ICU : Z := 0xBF880200.
Definition DANUBE_ICU_IM0_ISR : Z := DANUBE_ICU + 0x0000.
Definition DANUBE_ICU_IM0_IER : Z := DANUBE_ICU + 0x0008.
Definition DANUBE_ICU_IM0_IOSR : Z := DANUBE_ICU + 0x0010.
Definition DANUBE_ICU_IM1_ISR : Z := DANUBE_ICU + 0x0028.
Definition DANUBE_ICU_IM1_IER : Z := DANUBE_ICU + 0x0030.
Definition DANUBE_ICU_IM1_IOSR : Z := DANUBE_ICU + 0x0038.
Definition DANUBE_ICU_IM2_ISR : Z := DANUBE_ICU + 0x0050.
Definition DANUBE_ICU_IM2_IER : Z := DANUBE_ICU + 0x0058.
Definition DANUBE_ICU_IM2_IOSR : Z := DANUBE_ICU + 0x0060.
Definition DANUBE_ICU_IM3_ISR : Z := DANUBE_ICU + 0x0078.
Definition DANUBE_ICU_IM3_IER : Z := DANUBE_ICU + 0x0080.
Definition DANUBE_ICU_IM3_IOSR : Z := DANUBE_ICU + 0x0088.
Definition DANUBE_ICU_IM4_ISR : Z := DANUBE_ICU + 0x00A0.
Definition DANUBE_ICU_IM4_IER : Z := DANUBE_ICU + 0x00A8.
Definition DANUBE_ICU_IM4_IOSR : Z := DANUBE_ICU + 0x00B0.
Definition DANUBE_EBU_PCC_ISTAT : Z := 0xBE105300 + 0x00A0.

Definition INT_NUM_IM0_IRL0 : Z := 0.
Definition INT_NUM_IM0_IRL31 : Z := 31.
Definition INT_NUM_IM1_IRL0 : Z := 32.
Definition INT_NUM_IM1_IRL31 : Z := 32 + 31.
Definition INT_NUM_IM2_IRL0 : Z := 64.
Definition INT_NUM_IM2_IRL31 : Z := 64 + 31.
Definition INT_NUM_IM3_IRL0 : Z := 96.
Definition INT_NUM_IM3_IRL31 : Z := 96 + 31.
Definition INT_NUM_IM4_IRL0 : Z := 128.
Definition INT_NUM_IM4_IRL31 : Z := 128 + 31.

Definition IR_BIT (value : Z) : Z := 1 .<< value.

(** [*reg &= ~IER_IR(n)] and [*reg |= IER_IR(n)]. *)
Definition reg_clr (reg n : Z) (hw : Z -> Z) : Z -> Z := upd hw reg (hw reg .& .~ (IR_BIT n)).
Definition reg_set (reg n : Z) (hw : Z -> Z) : Z -> Z := upd hw reg (hw reg .| IR_BIT n).

Definition in_module (irq_nr first last : Z) : bool := (irq_nr <=? last) && (irq_nr >=? first).

(** ** Operations *)

Definition disable_danube_irq (irq_nr : Z) (hw : Z -> Z) : Z -> Z :=
  if in_module irq_nr INT_NUM_IM0_IRL0 INT_NUM_IM0_IRL31 then
    reg_clr DANUBE_ICU_IM0_IER irq_nr hw
  else if in_module irq_nr INT_NUM_IM1_IRL0 INT_NUM_IM1_IRL31 then
    reg_clr DANUBE_ICU_IM1_IER (irq_nr - 32) hw
  else if in_module irq_nr INT_NUM_IM2_IRL0 INT_NUM_IM2_IRL31 then
    reg_clr DANUBE_ICU_IM2_IER (irq_nr - 64) hw
  else if in_module irq_nr INT_NUM_IM3_IRL0 INT_NUM_IM3_IRL31 then
    reg_clr DANUBE_ICU_IM3_IER (irq_nr - 96) hw
  else if in_module irq_nr INT_NUM_IM4_IRL0 INT_NUM_IM4_IRL31 then
    reg_clr DANUBE_ICU_IM4_IER (irq_nr - 128) hw
  else hw.

Definition mask_and_ack_danube_irq (irq_nr : Z) (hw : Z -> Z) : Z -> Z :=
  if in_module irq_nr INT_NUM_IM0_IRL0 INT_NUM_IM0_IRL31 then
    upd (reg_clr DANUBE_ICU_IM0_IER irq_nr hw) DANUBE_ICU_IM0_ISR (IR_BIT irq_nr)
  else if in_module irq_nr INT_NUM_IM1_IRL0 INT_NUM_IM1_IRL31 then
    upd (reg_clr DANUBE_ICU_IM1_IER (irq_nr - 32) hw) DANUBE_ICU_IM1_ISR (IR_BIT (irq_nr - 32))
  else if in_module irq_nr INT_NUM_IM2_IRL0 INT_NUM_IM2_IRL31 then
    upd (reg_clr DANUBE_ICU_IM2_IER (irq_nr - 64) hw) DANUBE_ICU_IM2_ISR (IR_BIT (irq_nr - 64))
  else if in_module irq_nr INT_NUM_IM3_IRL0 INT_NUM_IM3_IRL31 then
    upd (reg_clr DANUBE_ICU_IM3_IER (irq_nr - 96) hw) DANUBE_ICU_IM3_ISR (IR_BIT (irq_nr - 96))
  else if in_module irq_nr INT_NUM_IM4_IRL0 INT_NUM_IM4_IRL31 then
    upd (reg_clr DANUBE_ICU_IM4_IER (irq_nr - 128) hw) DANUBE_ICU_IM4_ISR (IR_BIT (irq_nr - 128))
  else hw.

Definition enable_danube_irq (irq_nr : Z) (hw : Z -> Z) : Z -> Z :=
  if in_module irq_nr INT_NUM_IM0_IRL0 INT_NUM_IM0_IRL31 then
    reg_set DANUBE_ICU_IM0_IER irq_nr hw
  else if in_module irq_nr INT_NUM_IM1_IRL0 INT_NUM_IM1_IRL31 then
    reg_set DANUBE_ICU_IM1_IER (irq_nr - 32) hw
  else if in_module irq_nr INT_NUM_IM2_IRL0 INT_NUM_IM2_IRL31 then
    reg_set DANUBE_ICU_IM2_IER (irq_nr - 64) hw
  else if in_module irq_nr INT_NUM_IM3_IRL0 INT_NUM_IM3_IRL31 then
    reg_set DANUBE_ICU_IM3_IER (irq_nr - 96) hw
  else if in_module irq_nr INT_NUM_IM4_IRL0 INT_NUM_IM4_IRL31 then
    reg_set DANUBE_ICU_IM4_IER (irq_nr - 128) hw
  else hw.

Definition startup_danube_irq (irq : Z) (hw : Z -> Z) : Z * (Z -> Z) :=
  (0, enable_danube_irq irq hw).

(** [irq_desc[irq].status & (IRQ_DISABLED | IRQ_INPROGRESS)] is the kernel's. *)
Definition end_danube_irq (disabled_or_in_progress : bool) (irq : Z) (hw : Z -> Z) : Z -> Z :=
  if negb disabled_or_in_progress then enable_danube_irq irq hw else hw.

(** One step of the binary search: [s = n; if (x << n == 0) s = 0; b -= s;
    x <<= s]. *)
Definition ls1_step (n : Z) (xb : Z * Z) : Z * Z :=
  let '(x, b) := xb in
  let s := if w32 (x .<< n) =? 0 then 0 else n in
  (w32 (x .<< s), b - s).

Definition ls1bit32 (x : Z) : Z :=
  snd (ls1_step 1 (ls1_step 2 (ls1_step 4 (ls1_step 8 (ls1_step 16 (x, 31)))))).

(** A dispatcher yields the line it hands to [do_IRQ], if any.  The line whose
    interrupt clears the EBU is 26 on CPU1 and 22 on CPU0. *)
Definition ebu_line (core1 : bool) : Z := if core1 then 26 else 22.

Definition danube_hw0_irqdispatch (core1 : bool) (hw : Z -> Z) : option Z * (Z -> Z) :=
  let irq := hw DANUBE_ICU_IM0_IOSR in
  if irq =? 0 then (None, hw) else
  let irq := ls1bit32 irq in
  let hw := if irq =? ebu_line core1
            then upd hw DANUBE_EBU_PCC_ISTAT (hw DANUBE_EBU_PCC_ISTAT .| 0x10) else hw in
  (Some irq, hw).

Definition danube_hw1_irqdispatch (hw : Z -> Z) : option Z :=
  let irq := hw DANUBE_ICU_IM1_IOSR in
  if irq =? 0 then None else Some (ls1bit32 irq + 32).
Definition danube_hw2_irqdispatch (hw : Z -> Z) : option Z :=
  let irq := hw DANUBE_ICU_IM2_IOSR in
  if irq =? 0 then None else Some (ls1bit32 irq + 64).
Definition danube_hw3_irqdispatch (hw : Z -> Z) : option Z :=
  let irq := hw DANUBE_ICU_IM3_IOSR in
  if irq =? 0 then None else Some (ls1bit32 irq + 96).
Definition danube_hw4_irqdispatch (hw : Z -> Z) : option Z :=
  let irq := hw DANUBE_ICU_IM4_IOSR in
  if irq =? 0 then None else Some (ls1bit32 irq + 128).

(** Every source masked; the generic line table is the kernel's. *)
Definition init_IRQ (hw : Z -> Z) : Z -> Z :=
  upd (upd (upd (upd (upd hw DANUBE_ICU_IM0_IER 0) DANUBE_ICU_IM1_IER 0)
    DANUBE_ICU_IM2_IER 0) DANUBE_ICU_IM3_IER 0) DANUBE_ICU_IM4_IER 0.

(** ** Lines and registers *)

(** The enable, status and pending registers of module [k]. *)
Definition ier (k : Z) : Z := DANUBE_ICU + 0x28 * k + 0x8.
Definition isr (k : Z) : Z := DANUBE_ICU + 0x28 * k.
Definition iosr (k : Z) : Z := DANUBE_ICU + 0x28 * k + 0x10.

(** A line is enabled when its bit is set in its module's enable register. *)
Definition line_enabled (hw : Z -> Z) (irq : Z) : bool :=
  Z.testbit (hw (ier (irq / 32))) (irq mod 32).

Definition is_line (irq : Z) : Prop := 0 <= irq <= INT_NUM_IM4_IRL31.

Lemma line_split irq :
  is_line irq -> irq = 32 * (irq / 32) + irq mod 32 /\ 0 <= irq / 32 < 5 /\ 0 <= irq mod 32 < 32.
Proof.
  unfold is_line, INT_NUM_IM4_IRL31. intros H. split_and!; try (apply Z.mod_pos_bound; lia);
    Z.to_euclidean_division_equations; lia.
Qed.

Ltac module_cases irq :=
  let k := fresh "k" in let n := fresh "n" in
  pose proof (line_split irq) as Hsplit; unfold is_line, INT_NUM_IM4_IRL31 in *;
  destruct Hsplit as (Hirq & Hk & Hn); [lia|];
  revert Hirq Hk Hn; generalize (irq / 32) (irq mod 32); intros k n -> Hk Hn;
  assert (k = 0 \/ k = 1 \/ k = 2 \/ k = 3 \/ k = 4) as [->|[->|[->|[->| ->]]]] by lia;
  unfold in_module, INT_NUM_IM0_IRL0, INT_NUM_IM0_IRL31, INT_NUM_IM1_IRL0, INT_NUM_IM1_IRL31,
    INT_NUM_IM2_IRL0, INT_NUM_IM2_IRL31, INT_NUM_IM3_IRL0, INT_NUM_IM3_IRL31,
    INT_NUM_IM4_IRL0, INT_NUM_IM4_IRL31;
  rewrite ?Z.geb_leb;
  repeat (split_if; try lia).

Lemma disable_eq irq hw :
  is_line irq -> disable_danube_irq irq hw = reg_clr (ier (irq / 32)) (irq mod 32) hw.
Proof.
  intros H. unfold disable_danube_irq. module_cases irq;
    (f_equal; first [reflexivity | lia]).
Qed.

Lemma enable_eq irq hw :
  is_line irq -> enable_danube_irq irq hw = reg_set (ier (irq / 32)) (irq mod 32) hw.
Proof.
  intros H. unfold enable_danube_irq. module_cases irq;
    (f_equal; first [reflexivity | lia]).
Qed.

Lemma mask_ack_eq irq hw :
  is_line irq ->
  mask_and_ack_danube_irq irq hw =
    upd (reg_clr (ier (irq / 32)) (irq mod 32) hw) (isr (irq / 32)) (IR_BIT (irq mod 32)).
Proof.
  intros H. unfold mask_and_ack_danube_irq. module_cases irq;
    (f_equal; first [reflexivity | f_equal; first [reflexivity | lia]]).
Qed.

Lemma ier_inj k k' : ier k = ier k' -> k = k'.
Proof. unfold ier. lia. Qed.

Lemma line_eq i j : is_line i -> is_line j -> i / 32 = j / 32 -> i mod 32 = j mod 32 -> i = j.
Proof. intros Hi Hj E1 E2. rewrite (proj1 (line_split i Hi)), (proj1 (line_split j Hj)). congruence. Qed.

Lemma reg_set_line i j hw :
  is_line i -> is_line j ->
  line_enabled (reg_set (ier (i / 32)) (i mod 32) hw) j = line_enabled hw j || bool_decide (j = i).
Proof.
  intros Hi Hj. destruct (line_split i Hi) as (_ & _ & Hn). destruct (line_split j Hj) as (_ & _ & Hn').
  unfold line_enabled, reg_set. destruct (decide (i / 32 = j / 32)) as [E|E].
  - rewrite E, upd_eq. unfold IR_BIT. rewrite Z.lor_spec, testbit_1_shiftl by lia. f_equal.
    apply bool_decide_ext. split; [|by intros ->]. intros E2. by apply line_eq.
  - rewrite upd_ne by (intros H%ier_inj; congruence).
    rewrite (bool_decide_false (j = i)); [by rewrite orb_false_r|congruence].
Qed.

Lemma reg_clr_line i j hw :
  is_line i -> is_line j ->
  line_enabled (reg_clr (ier (i / 32)) (i mod 32) hw) j =
    line_enabled hw j && negb (bool_decide (j = i)).
Proof.
  intros Hi Hj. destruct (line_split i Hi) as (_ & _ & Hn). destruct (line_split j Hj) as (_ & _ & Hn').
  unfold line_enabled, reg_clr. destruct (decide (i / 32 = j / 32)) as [E|E].
  - rewrite E, upd_eq. unfold IR_BIT. rewrite Z.land_spec, Z.lnot_spec, testbit_1_shiftl by lia.
    do 2 f_equal. apply bool_decide_ext. split; [|by intros ->]. intros E2. by apply line_eq.
  - rewrite upd_ne by (intros H%ier_inj; congruence).
    rewrite (bool_decide_false (j = i)); [by rewrite andb_true_r|congruence].
Qed.

Lemma isr_line k v hw j : line_enabled (upd hw (isr k) v) j = line_enabled hw j.
Proof. unfold line_enabled. rewrite upd_ne; [done|]. unfold ier, isr. lia. Qed.

(** Enabling, disabling and masking with acknowledge act on one line.  For
    each of the 160 lines, enabling sets and the other two clear the enable bit
    of exactly that line, masking writes the line's bit, and no other, to its
    module's status register, and no other register is written; for any other
    number nothing is written at all. *)
Theorem icu_line_isolated i hw :
  (is_line i ->
     (forall j, is_line j ->
        line_enabled (enable_danube_irq i hw) j = line_enabled hw j || bool_decide (j = i) /\
        line_enabled (disable_danube_irq i hw) j = line_enabled hw j && negb (bool_decide (j = i)) /\
        line_enabled (mask_and_ack_danube_irq i hw) j =
          line_enabled hw j && negb (bool_decide (j = i))) /\
     mask_and_ack_danube_irq i hw (isr (i / 32)) = 2 ^ (i mod 32) /\
     forall a, a <> ier (i / 32) ->
       enable_danube_irq i hw a = hw a /\ disable_danube_irq i hw a = hw a /\
       (a <> isr (i / 32) -> mask_and_ack_danube_irq i hw a = hw a)) /\
  (~ is_line i ->
     enable_danube_irq i hw = hw /\ disable_danube_irq i hw = hw /\
     mask_and_ack_danube_irq i hw = hw).
Proof.
  split.
  - intros Hi. rewrite enable_eq, disable_eq, mask_ack_eq by done. split; [|split].
    + intros j Hj. rewrite isr_line, reg_set_line, reg_clr_line by done. done.
    + rewrite upd_eq. unfold IR_BIT. rewrite Z.shiftl_1_l. done.
    + intros a Ha. unfold reg_set, reg_clr. split_and!; [by apply upd_ne..|].
      intros Ha'. by rewrite 2 upd_ne by done.
  - unfold is_line, enable_danube_irq, disable_danube_irq, mask_and_ack_danube_irq, in_module,
      INT_NUM_IM0_IRL0, INT_NUM_IM0_IRL31, INT_NUM_IM1_IRL0, INT_NUM_IM1_IRL31,
      INT_NUM_IM2_IRL0, INT_NUM_IM2_IRL31, INT_NUM_IM3_IRL0, INT_NUM_IM3_IRL31,
      INT_NUM_IM4_IRL0, INT_NUM_IM4_IRL31.
    intros Hi. rewrite !Z.geb_leb. split_and!; repeat (split_if; try lia); done.
Qed.

(** ** The lowest set bit *)

Definition lsb (x L : Z) : Prop :=
  0 <= L /\ Z.testbit x L = true /\ forall i, 0 <= i < L -> Z.testbit x i = false.

Lemma shifted_zero x L n :
  is_u32 x -> lsb x L -> 0 <= n <= 31 -> (w32 (x .<< n) =? 0) = bool_decide (32 <= L + n).
Proof.
  intros Hx (HL & Hb & Hlow) Hn. case_bool_decide.
  - apply Z.eqb_eq, Z.bits_inj'. intros i Hi. rewrite testbit_w32, Z.shiftl_spec, Z.bits_0 by lia.
    case_bool_decide; [|apply andb_false_r]. rewrite andb_true_r.
    destruct (Z.lt_ge_cases (i - n) 0); [by apply Z.testbit_neg_r|]. apply Hlow. lia.
  - apply Z.eqb_neq. intros E.
    assert (Ht : Z.testbit (w32 (x .<< n)) (L + n) = true).
    { rewrite testbit_w32, Z.shiftl_spec by lia. rewrite bool_decide_true by lia.
      rewrite andb_true_r. by replace (L + n - n) with L by lia. }
    by rewrite E, Z.bits_0 in Ht.
Qed.

Lemma lsb_shift x L n : lsb x L -> 0 <= n -> L + n < 32 -> lsb (w32 (x .<< n)) (L + n).
Proof.
  intros (HL & Hb & Hlow) Hn Hlt. split; [lia|]. split.
  - rewrite testbit_w32, Z.shiftl_spec, bool_decide_true, andb_true_r by lia.
    by replace (L + n - n) with L by lia.
  - intros i Hi. rewrite testbit_w32, Z.shiftl_spec by lia.
    destruct (Z.lt_ge_cases (i - n) 0); [by rewrite Z.testbit_neg_r by lia|].
    by rewrite Hlow by lia.
Qed.

(** A step of the search moves the lowest bit up by [n] if it can, and keeps
    its distance to [b]. *)
Lemma ls1_step_spec x b L n :
  is_u32 x -> lsb x L -> L <= 31 -> 0 <= n <= 31 ->
  exists x' b' L', ls1_step n (x, b) = (x', b') /\ is_u32 x' /\ lsb x' L' /\ L' <= 31 /\
    L' + b' = L + b /\ L <= L' /\ (32 - n <= L \/ L' = L + n).
Proof.
  intros Hx HL HL31 Hn. unfold ls1_step. rewrite (shifted_zero x L n) by done.
  case_bool_decide.
  - exists x, b, L. rewrite Z.shiftl_0_r, w32_id, Z.sub_0_r by done. split_and!; try done; lia.
  - exists (w32 (x .<< n)), (b - n), (L + n).
    split_and!; [done|apply w32_range|apply lsb_shift; done || lia|lia..].
Qed.

Lemma lsb_search x (n : nat) :
  (forall i, 0 <= i < Z.of_nat n -> Z.testbit x i = false) \/ exists L, lsb x L /\ L < Z.of_nat n.
Proof.
  induction n as [|n [IH|(L & HL & Hn)]].
  - left. intros i Hi. lia.
  - destruct (Z.testbit x (Z.of_nat n)) eqn:E.
    + right. exists (Z.of_nat n). split; [|lia]. split_and!; [lia|done|done].
    + left. intros i Hi. destruct (decide (i = Z.of_nat n)) as [->|]; [done|]. apply IH. lia.
  - right. exists L. split; [done|lia].
Qed.

Lemma lsb_exists x : is_u32 x -> x <> 0 -> exists L, lsb x L /\ L <= 31.
Proof.
  intros Hx Hnz. destruct (lsb_search x 32) as [H|(L & HL & Hn)]; [|exists L; split; [done|lia]].
  exfalso. apply Hnz, Z.bits_inj'. intros i Hi. rewrite Z.bits_0.
  destruct (Z.lt_ge_cases i 32); [by apply H|]. by apply testbit_u32_high.
Qed.

Lemma ls1bit32_pos x :
  is_u32 x -> x <> 0 ->
  0 <= ls1bit32 x <= 31 /\ Z.testbit x (ls1bit32 x) = true /\
  forall i, 0 <= i < ls1bit32 x -> Z.testbit x i = false.
Proof.
  intros Hx Hnz. destruct (lsb_exists x Hx Hnz) as (L & HL & HL31).
  enough (ls1bit32 x = L) as -> by (destruct HL as (? & ? & ?); split_and!; done || lia).
  unfold ls1bit32.
  destruct (ls1_step_spec x 31 L 16) as (x1 & b1 & L1 & -> & ? & ? & ? & ? & ? & ?); try done; try lia.
  destruct (ls1_step_spec x1 b1 L1 8) as (x2 & b2 & L2 & -> & ? & ? & ? & ? & ? & ?); try done; try lia.
  destruct (ls1_step_spec x2 b2 L2 4) as (x3 & b3 & L3 & -> & ? & ? & ? & ? & ? & ?); try done; try lia.
  destruct (ls1_step_spec x3 b3 L3 2) as (x4 & b4 & L4 & -> & ? & ? & ? & ? & ? & ?); try done; try lia.
  destruct (ls1_step_spec x4 b4 L4 1) as (x5 & b5 & L5 & -> & ? & ? & ? & ? & ? & ?); try done; try lia.
  pose proof (proj1 HL). cbn. lia.
Qed.

(** The bit search of the dispatchers is right: for every non-zero word it
    yields the position of the lowest set bit. *)
Theorem ls1bit32_lowest x :
  is_u32 x -> x <> 0 ->
  0 <= ls1bit32 x <= 31 /\ Z.testbit x (ls1bit32 x) = true /\
  forall i, 0 <= i < ls1bit32 x -> Z.testbit x i = false.
Proof. apply ls1bit32_pos. Qed.

(** A dispatcher hands over nothing when no enabled line is pending, and
    otherwise the lowest pending line of its module; only the first one writes
    a register, the EBU status, and only for the EBU's line. *)
Theorem dispatch_lowest core1 hw :
  (forall k, 0 <= k < 5 -> is_u32 (hw (iosr k))) ->
  let dispatched (r : option Z) k :=
    match r with
    | None => hw (iosr k) = 0
    | Some irq => is_line irq /\ irq / 32 = k /\ Z.testbit (hw (iosr k)) (irq mod 32) = true /\
        forall i, 0 <= i < irq mod 32 -> Z.testbit (hw (iosr k)) i = false
    end in
  dispatched (fst (danube_hw0_irqdispatch core1 hw)) 0 /\
  dispatched (danube_hw1_irqdispatch hw) 1 /\ dispatched (danube_hw2_irqdispatch hw) 2 /\
  dispatched (danube_hw3_irqdispatch hw) 3 /\ dispatched (danube_hw4_irqdispatch hw) 4 /\
  (fst (danube_hw0_irqdispatch core1 hw) <> Some (ebu_line core1) ->
     snd (danube_hw0_irqdispatch core1 hw) = hw).
Proof.
  intros Hu dispatched.
  assert (Hgen : forall k, 0 <= k < 5 ->
    dispatched (if hw (iosr k) =? 0 then None else Some (ls1bit32 (hw (iosr k)) + 32 * k)) k).
  { intros k Hk. unfold dispatched. destruct (_ =? 0) eqn:E; bool_prop; [done|].
    destruct (ls1bit32_pos (hw (iosr k)) (Hu k Hk) E) as (Hb & Ht & Hlow).
    assert (Hm : (ls1bit32 (hw (iosr k)) + 32 * k) mod 32 = ls1bit32 (hw (iosr k))).
    { rewrite Z.mul_comm, Z.mod_add by lia. apply Z.mod_small. lia. }
    assert (Hd : (ls1bit32 (hw (iosr k)) + 32 * k) / 32 = k).
    { rewrite Z.mul_comm, Z.div_add, Z.div_small by lia. lia. }
    rewrite Hm, Hd. unfold is_line, INT_NUM_IM4_IRL31. split_and!; done || lia. }
  split_and!.
  - specialize (Hgen 0 ltac:(lia)). unfold danube_hw0_irqdispatch.
    change DANUBE_ICU_IM0_IOSR with (iosr 0). rewrite Z.add_0_r in Hgen.
    destruct (hw (iosr 0) =? 0); exact Hgen.
  - exact (Hgen 1 ltac:(lia)).
  - exact (Hgen 2 ltac:(lia)).
  - exact (Hgen 3 ltac:(lia)).
  - exact (Hgen 4 ltac:(lia)).
  - unfold danube_hw0_irqdispatch. destruct (_ =? 0); [done|]. cbn [fst snd].
    destruct (_ =? ebu_line core1) eqn:E; bool_prop; [|done]. intros H. congruence.
Qed.

(** ** The properties at concrete inputs *)

Lemma icu_line_isolated_witness :
  line_enabled (enable_danube_irq 70 (fun _ => 0)) 70 = true /\
  line_enabled (enable_danube_irq 70 (fun _ => 0)) 6 = false.
Proof.
  destruct (icu_line_isolated 70 (fun _ => 0)) as [H _].
  destruct H as [H _]; [unfold is_line, INT_NUM_IM4_IRL31; lia|].
  split.
  - rewrite (proj1 (H 70 ltac:(unfold is_line, INT_NUM_IM4_IRL31; lia))). reflexivity.
  - rewrite (proj1 (H 6 ltac:(unfold is_line, INT_NUM_IM4_IRL31; lia))). reflexivity.
Defined.

Lemma ls1bit32_lowest_witness : ls1bit32 0x00a30400 = 10 /\ Z.testbit 0x00a30400 10 = true.
Proof.
  split; [reflexivity|].
  apply (ls1bit32_lowest 0x00a30400); [unfold is_u32; lia|lia].
Defined.

Definition sample_hw : Z -> Z := upd (fun _ => 0) DANUBE_ICU_IM4_IOSR 0x00740000.

Lemma dispatch_lowest_witness :
  danube_hw4_irqdispatch sample_hw = Some 146 /\
  snd (danube_hw0_irqdispatch true sample_hw) = sample_hw.
Proof.
  split; [reflexivity|].
  apply (dispatch_lowest true sample_hw); [|done].
  intros k Hk. unfold sample_hw, upd. destruct (_ =? _); unfold is_u32; lia.
Defined.

