(* ===== verification/MpsDevice.v ===== *)
(** * The dual-core mailbox driver ([mps_tpe_device.c])

    Each CPU runs this driver; they share four FIFOs in on-chip SRAM, command
    and data in either direction, a few boot configuration words and interrupt
    registers.  The file holds the driver state, sending and receiving, the
    queues of received messages, the interrupt handlers and tasklets, the
    callback table, start-up and reset.  The FIFOs are those of [MpsFifo], the
    buffer manager is that of [MpsPool], interrupt masking that of [Icu].

    [wifi_mbx[0]] and [wifi_mbx[1]] name the same data FIFOs; the driver goes
    through [wifi_mbx[0].upstrm_fifo] and [wifi_mbx[1].dwstrm_fifo], whose
    [min_space] is the one of the FIFO records here.

    The code is built per CPU; [cpu_id], computed as [ifx_mpsdrv_get_cpu_id]
    does, selects the CPU0 or CPU1 variant.  A callback is external code: its
    invocation is recorded with the message it gets.  [None] is an access
    through an invalid pointer or outside a FIFO. *)

From S2P Require Import Prelude MpsFifo MpsQueue MpsPool Icu.
Open Scope Z_scope.

(** ** Constants *)

Definition MPS_TYPE_UPSTREAM_DATA : Z := 0x01.
Definition MPS_TYPE_DOWNSTREAM_DATA : Z := 0x02.
Definition MPS_TYPE_UPSTREAM_CMD : Z := 0x03.
Definition MPS_TYPE_DOWNSTREAM_CMD : Z := 0x04.
Definition MPS_TYPE_UPSTREAM_RESPONSE : Z := 0x05.
Definition MPS_TYPE_DOWNSTREAM_RESPONSE : Z := 0x06.
Definition MPS_TYPE_UPSTREAM_APP_CMD : Z := 0x07.
Definition MPS_TYPE_DOWNSTREAM_APP_CMD : Z := 0x08.
Definition MPS_TYPE_UPSTREAM_APP_RESPONSE : Z := 0x09.
Definition MPS_TYPE_DOWNSTREAM_APP_RESPONSE : Z := 0x0A.

Definition MPS_DATA_MSG_TYPE : Z := 0.
Definition MPS_CMD_MSG_TYPE : Z := 1.

Definition MBX_CMD_FIFO_SIZE : Z := 64.
Definition MBX_DATA_FIFO_SIZE : Z := 128.
Definition MPSDRV_TOTAL_SEQ_NUMBERS : Z := 256.
Definition MAX_MPS_DATAMSG_QLEN : Z := 1024.
(** [sizeof(mps_data_message) / 4]: the header and the largest of the command
    parameters, four words. *)
Definition DATAMSG_WORDS : nat := 6.

Definition DANUBE_MPS : Z := 0xBF107000.
Definition DANUBE_MPS_RAD0SR : Z := DANUBE_MPS + 0x0040.
Definition DANUBE_MPS_SAD0SR : Z := DANUBE_MPS + 0x0048.
Definition DANUBE_MPS_CAD0SR : Z := DANUBE_MPS + 0x0050.
Definition DANUBE_MPS_AD0ENR : Z := DANUBE_MPS + 0x0058.
Definition DANUBE_MPS_CPU0_2_CPU1_IRR : Z := DANUBE_MPS + 0x0070.
Definition DANUBE_MPS_CPU0_2_CPU1_IER : Z := DANUBE_MPS + 0x0074.
Definition DANUBE_MPS_CPU0_2_CPU1_ICR : Z := DANUBE_MPS + 0x0080.
Definition DANUBE_MPS_CPU0_2_CPU1_IRDR : Z := DANUBE_MPS + 0x0084.
Definition DANUBE_RCU_RST_REQ : Z := 0xBF203000 + 0x0010.
Definition DANUBE_RCU_RST_REQ_CPU1 : Z := 1 .<< 3.

(** The boot configuration of either CPU lies behind the 16 words of the
    definition area and the 96 words of FIFO data. *)
Definition DANUBE_MPS_SRAM : Z := 0xBF200000.
Definition MBX_CPU0_BOOT_CFG : Z := DANUBE_MPS_SRAM + 4 * (16 + 96).
Definition MBX_CPU1_BOOT_CFG : Z := MBX_CPU0_BOOT_CFG + 32.
Definition MPS_BOOT_RVEC : Z := 0.
Definition MPS_CP0_STATUS : Z := 12.
Definition MPS_BOOT_SIZE : Z := 24.
Definition MPS_CFG_STAT : Z := 28.

Definition MPS_MPS1_APPS_READY_FP : Z := 0x4F6B0000.
Definition MPS_MPS1_APPS_READY_FP_MASK : Z := 0xFFFF0000.
Definition MPS_MPS1_APPS_READY_BITMASK : Z := 0x0000FFFF.
Definition VNET_WIFI0_MAGIC_NUM : Z := 0x510708.

(** ** State *)

(** The queue of received messages: pointers to copies of them. *)
Record MPS_DATAMSG_LIST := mk_dq {
  dq_buf : Z -> Z;     (* MAX_MPS_DATAMSG_QLEN + 1 slots *)
  dq_rpos : Z;
  dq_wpos : Z
}.

(** The rest of a mailbox: counters, whether it is open, its semaphore. *)
Record mbx_info := mk_mbx {
  RxnumIRQs : Z; TxnumIRQs : Z; RxnumBytes : Z; TxnumBytes : Z;
  Installed : bool; mbx_wakeup : Z
}.

Record mps_comm_dev := mk_dev {
  ebase_cpu_num : Z;   (* current_cpu_data.ebase_cpu_num *)
  up_cmd : mps_fifo;   (* upstream command, CPU1 to CPU0 *)
  dn_cmd : mps_fifo;   (* downstream command *)
  up_data : mps_fifo;   (* upstream data, through wifi_mbx[0] *)
  dn_data : mps_fifo;   (* downstream data, through wifi_mbx[1] *)
  wifi0_dn_min : Z;   (* min_space of the two aliases not used *)
  wifi1_up_min : Z;
  wifi0 : mbx_info;
  wifi1 : mbx_info;
  command_mbx : mbx_info;
  wakeup_pending : Z;   (* count of the device semaphore *)
  callback_function : Z -> Z;   (* by sequence number; 0 is NULL *)
  event_mask : Z;
  event_Ad0 : Z;
  mps_rcvDataMsgQ : MPS_DATAMSG_LIST;
  mps_rcvCmdMsgQ : MPS_DATAMSG_LIST;
  kmsgs : Z -> list Z;   (* contents of the kmalloc'ed messages *)
  bufmem : mps_mem;   (* buffer manager and allocator *)
  regs : Z -> Z;   (* registers and boot configuration words *)
  data_tasklet : bool;   (* tasklets scheduled *)
  cmd_tasklet : bool;
  calls : list (Z * list Z);   (* callbacks invoked, with their message *)
  loads : list (Z * list Z)   (* firmware images copied: address, bytes *)
}.

Definition set_regs (r : Z -> Z) (d : mps_comm_dev) : mps_comm_dev :=
  mk_dev (ebase_cpu_num d) (up_cmd d) (dn_cmd d) (up_data d) (dn_data d) (wifi0_dn_min
    d) (wifi1_up_min d) (wifi0 d) (wifi1 d) (command_mbx d) (wakeup_pending d)
    (callback_function d) (event_mask d) (event_Ad0 d) (mps_rcvDataMsgQ d)
    (mps_rcvCmdMsgQ d) (kmsgs d) (bufmem d) r (data_tasklet d) (cmd_tasklet d) (calls d)
    (loads d).
Definition set_bufmem (m : mps_mem) (d : mps_comm_dev) : mps_comm_dev :=
  mk_dev (ebase_cpu_num d) (up_cmd d) (dn_cmd d) (up_data d) (dn_data d) (wifi0_dn_min
    d) (wifi1_up_min d) (wifi0 d) (wifi1 d) (command_mbx d) (wakeup_pending d)
    (callback_function d) (event_mask d) (event_Ad0 d) (mps_rcvDataMsgQ d)
    (mps_rcvCmdMsgQ d) (kmsgs d) m (regs d) (data_tasklet d) (cmd_tasklet d) (calls d)
    (loads d).
Definition set_kmsgs (m : Z -> list Z) (d : mps_comm_dev) : mps_comm_dev :=
  mk_dev (ebase_cpu_num d) (up_cmd d) (dn_cmd d) (up_data d) (dn_data d) (wifi0_dn_min
    d) (wifi1_up_min d) (wifi0 d) (wifi1 d) (command_mbx d) (wakeup_pending d)
    (callback_function d) (event_mask d) (event_Ad0 d) (mps_rcvDataMsgQ d)
    (mps_rcvCmdMsgQ d) m (bufmem d) (regs d) (data_tasklet d) (cmd_tasklet d) (calls d)
    (loads d).
Definition set_callbacks (c : Z -> Z) (d : mps_comm_dev) : mps_comm_dev :=
  mk_dev (ebase_cpu_num d) (up_cmd d) (dn_cmd d) (up_data d) (dn_data d) (wifi0_dn_min
    d) (wifi1_up_min d) (wifi0 d) (wifi1 d) (command_mbx d) (wakeup_pending d) c
    (event_mask d) (event_Ad0 d) (mps_rcvDataMsgQ d) (mps_rcvCmdMsgQ d) (kmsgs d)
    (bufmem d) (regs d) (data_tasklet d) (cmd_tasklet d) (calls d) (loads d).
Definition set_calls (c : list (Z * list Z)) (d : mps_comm_dev) : mps_comm_dev :=
  mk_dev (ebase_cpu_num d) (up_cmd d) (dn_cmd d) (up_data d) (dn_data d) (wifi0_dn_min
    d) (wifi1_up_min d) (wifi0 d) (wifi1 d) (command_mbx d) (wakeup_pending d)
    (callback_function d) (event_mask d) (event_Ad0 d) (mps_rcvDataMsgQ d)
    (mps_rcvCmdMsgQ d) (kmsgs d) (bufmem d) (regs d) (data_tasklet d) (cmd_tasklet d) c
    (loads d).
Definition set_loads (c : list (Z * list Z)) (d : mps_comm_dev) : mps_comm_dev :=
  mk_dev (ebase_cpu_num d) (up_cmd d) (dn_cmd d) (up_data d) (dn_data d) (wifi0_dn_min
    d) (wifi1_up_min d) (wifi0 d) (wifi1 d) (command_mbx d) (wakeup_pending d)
    (callback_function d) (event_mask d) (event_Ad0 d) (mps_rcvDataMsgQ d)
    (mps_rcvCmdMsgQ d) (kmsgs d) (bufmem d) (regs d) (data_tasklet d) (cmd_tasklet d)
    (calls d) c.
Definition set_event (v : Z) (d : mps_comm_dev) : mps_comm_dev :=
  mk_dev (ebase_cpu_num d) (up_cmd d) (dn_cmd d) (up_data d) (dn_data d) (wifi0_dn_min
    d) (wifi1_up_min d) (wifi0 d) (wifi1 d) (command_mbx d) (wakeup_pending d)
    (callback_function d) (event_mask d) v (mps_rcvDataMsgQ d) (mps_rcvCmdMsgQ d) (kmsgs
    d) (bufmem d) (regs d) (data_tasklet d) (cmd_tasklet d) (calls d) (loads d).
Definition set_wifi0 (m : mbx_info) (d : mps_comm_dev) : mps_comm_dev :=
  mk_dev (ebase_cpu_num d) (up_cmd d) (dn_cmd d) (up_data d) (dn_data d) (wifi0_dn_min
    d) (wifi1_up_min d) m (wifi1 d) (command_mbx d) (wakeup_pending d)
    (callback_function d) (event_mask d) (event_Ad0 d) (mps_rcvDataMsgQ d)
    (mps_rcvCmdMsgQ d) (kmsgs d) (bufmem d) (regs d) (data_tasklet d) (cmd_tasklet d)
    (calls d) (loads d).
Definition set_wifi1 (m : mbx_info) (d : mps_comm_dev) : mps_comm_dev :=
  mk_dev (ebase_cpu_num d) (up_cmd d) (dn_cmd d) (up_data d) (dn_data d) (wifi0_dn_min
    d) (wifi1_up_min d) (wifi0 d) m (command_mbx d) (wakeup_pending d)
    (callback_function d) (event_mask d) (event_Ad0 d) (mps_rcvDataMsgQ d)
    (mps_rcvCmdMsgQ d) (kmsgs d) (bufmem d) (regs d) (data_tasklet d) (cmd_tasklet d)
    (calls d) (loads d).
Definition set_command (m : mbx_info) (d : mps_comm_dev) : mps_comm_dev :=
  mk_dev (ebase_cpu_num d) (up_cmd d) (dn_cmd d) (up_data d) (dn_data d) (wifi0_dn_min
    d) (wifi1_up_min d) (wifi0 d) (wifi1 d) m (wakeup_pending d) (callback_function d)
    (event_mask d) (event_Ad0 d) (mps_rcvDataMsgQ d) (mps_rcvCmdMsgQ d) (kmsgs d)
    (bufmem d) (regs d) (data_tasklet d) (cmd_tasklet d) (calls d) (loads d).
Definition set_dataq (q : MPS_DATAMSG_LIST) (d : mps_comm_dev) : mps_comm_dev :=
  mk_dev (ebase_cpu_num d) (up_cmd d) (dn_cmd d) (up_data d) (dn_data d) (wifi0_dn_min
    d) (wifi1_up_min d) (wifi0 d) (wifi1 d) (command_mbx d) (wakeup_pending d)
    (callback_function d) (event_mask d) (event_Ad0 d) q (mps_rcvCmdMsgQ d) (kmsgs d)
    (bufmem d) (regs d) (data_tasklet d) (cmd_tasklet d) (calls d) (loads d).
Definition set_cmdq (q : MPS_DATAMSG_LIST) (d : mps_comm_dev) : mps_comm_dev :=
  mk_dev (ebase_cpu_num d) (up_cmd d) (dn_cmd d) (up_data d) (dn_data d) (wifi0_dn_min
    d) (wifi1_up_min d) (wifi0 d) (wifi1 d) (command_mbx d) (wakeup_pending d)
    (callback_function d) (event_mask d) (event_Ad0 d) (mps_rcvDataMsgQ d) q (kmsgs d)
    (bufmem d) (regs d) (data_tasklet d) (cmd_tasklet d) (calls d) (loads d).
Definition set_up_cmd (f : mps_fifo) (d : mps_comm_dev) : mps_comm_dev :=
  mk_dev (ebase_cpu_num d) f (dn_cmd d) (up_data d) (dn_data d) (wifi0_dn_min d)
    (wifi1_up_min d) (wifi0 d) (wifi1 d) (command_mbx d) (wakeup_pending d)
    (callback_function d) (event_mask d) (event_Ad0 d) (mps_rcvDataMsgQ d)
    (mps_rcvCmdMsgQ d) (kmsgs d) (bufmem d) (regs d) (data_tasklet d) (cmd_tasklet d)
    (calls d) (loads d).
Definition set_dn_cmd (f : mps_fifo) (d : mps_comm_dev) : mps_comm_dev :=
  mk_dev (ebase_cpu_num d) (up_cmd d) f (up_data d) (dn_data d) (wifi0_dn_min d)
    (wifi1_up_min d) (wifi0 d) (wifi1 d) (command_mbx d) (wakeup_pending d)
    (callback_function d) (event_mask d) (event_Ad0 d) (mps_rcvDataMsgQ d)
    (mps_rcvCmdMsgQ d) (kmsgs d) (bufmem d) (regs d) (data_tasklet d) (cmd_tasklet d)
    (calls d) (loads d).
Definition set_up_data (f : mps_fifo) (d : mps_comm_dev) : mps_comm_dev :=
  mk_dev (ebase_cpu_num d) (up_cmd d) (dn_cmd d) f (dn_data d) (wifi0_dn_min d)
    (wifi1_up_min d) (wifi0 d) (wifi1 d) (command_mbx d) (wakeup_pending d)
    (callback_function d) (event_mask d) (event_Ad0 d) (mps_rcvDataMsgQ d)
    (mps_rcvCmdMsgQ d) (kmsgs d) (bufmem d) (regs d) (data_tasklet d) (cmd_tasklet d)
    (calls d) (loads d).
Definition set_dn_data (f : mps_fifo) (d : mps_comm_dev) : mps_comm_dev :=
  mk_dev (ebase_cpu_num d) (up_cmd d) (dn_cmd d) (up_data d) f (wifi0_dn_min d)
    (wifi1_up_min d) (wifi0 d) (wifi1 d) (command_mbx d) (wakeup_pending d)
    (callback_function d) (event_mask d) (event_Ad0 d) (mps_rcvDataMsgQ d)
    (mps_rcvCmdMsgQ d) (kmsgs d) (bufmem d) (regs d) (data_tasklet d) (cmd_tasklet d)
    (calls d) (loads d).
Definition set_tasklets (dt ct : bool) (d : mps_comm_dev) : mps_comm_dev :=
  mk_dev (ebase_cpu_num d) (up_cmd d) (dn_cmd d) (up_data d) (dn_data d) (wifi0_dn_min
    d) (wifi1_up_min d) (wifi0 d) (wifi1 d) (command_mbx d) (wakeup_pending d)
    (callback_function d) (event_mask d) (event_Ad0 d) (mps_rcvDataMsgQ d)
    (mps_rcvCmdMsgQ d) (kmsgs d) (bufmem d) (regs d) dt ct (calls d) (loads d).
Definition set_alias_mins (a b : Z) (d : mps_comm_dev) : mps_comm_dev :=
  mk_dev (ebase_cpu_num d) (up_cmd d) (dn_cmd d) (up_data d) (dn_data d) a b (wifi0 d)
    (wifi1 d) (command_mbx d) (wakeup_pending d) (callback_function d) (event_mask d)
    (event_Ad0 d) (mps_rcvDataMsgQ d) (mps_rcvCmdMsgQ d) (kmsgs d) (bufmem d) (regs d)
    (data_tasklet d) (cmd_tasklet d) (calls d) (loads d).
Definition set_wakeup (n : Z) (d : mps_comm_dev) : mps_comm_dev :=
  mk_dev (ebase_cpu_num d) (up_cmd d) (dn_cmd d) (up_data d) (dn_data d) (wifi0_dn_min
    d) (wifi1_up_min d) (wifi0 d) (wifi1 d) (command_mbx d) n (callback_function d)
    (event_mask d) (event_Ad0 d) (mps_rcvDataMsgQ d) (mps_rcvCmdMsgQ d) (kmsgs d)
    (bufmem d) (regs d) (data_tasklet d) (cmd_tasklet d) (calls d) (loads d).

Definition add_rx_bytes (n : Z) (m : mbx_info) : mbx_info :=
  mk_mbx (RxnumIRQs m) (TxnumIRQs m) (w32 (RxnumBytes m + n)) (TxnumBytes m)
    (Installed m) (mbx_wakeup m).
Definition add_rx_irq (m : mbx_info) : mbx_info :=
  mk_mbx (w32 (RxnumIRQs m + 1)) (TxnumIRQs m) (RxnumBytes m) (TxnumBytes m)
    (Installed m) (mbx_wakeup m).
Definition set_installed (b : bool) (m : mbx_info) : mbx_info :=
  mk_mbx (RxnumIRQs m) (TxnumIRQs m) (RxnumBytes m) (TxnumBytes m) b (mbx_wakeup m).

Definition reg (d : mps_comm_dev) (a : Z) : Z := regs d a.
Definition wr (a v : Z) (d : mps_comm_dev) : mps_comm_dev := set_regs (upd (regs d) a v) d.

Inductive mbx := UpCmd | DnCmd | UpData | DnData.
Definition get_fifo (x : mbx) (d : mps_comm_dev) : mps_fifo :=
  match x with UpCmd => up_cmd d | DnCmd => dn_cmd d | UpData => up_data d | DnData => dn_data d end.
Definition set_fifo (x : mbx) (f : mps_fifo) : mps_comm_dev -> mps_comm_dev :=
  match x with
  | UpCmd => set_up_cmd f | DnCmd => set_dn_cmd f | UpData => set_up_data f | DnData => set_dn_data f
  end.

Definition ifx_mpsdrv_get_cpu_id (d : mps_comm_dev) : Z :=
  if ebase_cpu_num d .& 0x03FF =? 0 then MPS_CPU_0_ID else MPS_CPU_1_ID.
Definition on_cpu0 (d : mps_comm_dev) : bool := ifx_mpsdrv_get_cpu_id d =? MPS_CPU_0_ID.

(** ** Ready bits of the applications on CPU1 *)

Definition apps_ready_word : Z := MBX_CPU1_BOOT_CFG + MPS_BOOT_SIZE.

Definition ifx_mpsdrv_ctrl_mps1_apps_ready_bit (clr_set bitn : Z) (d : mps_comm_dev)
  : mps_comm_dev :=
  let mps1_ready := reg d apps_ready_word in
  let mps1_ready :=
    if MPS_MPS1_APPS_READY_FP =? (mps1_ready .& MPS_MPS1_APPS_READY_FP_MASK) then
      if negb (clr_set =? 0) then mps1_ready .| w32 (1 .<< bitn)
      else mps1_ready .& w32 (.~ (1 .<< bitn))
    else if negb (clr_set =? 0) then MPS_MPS1_APPS_READY_FP .| w32 (1 .<< bitn)
    else MPS_MPS1_APPS_READY_FP in
  wr apps_ready_word mps1_ready d.

Definition ifx_mpsdrv_get_mps1_apps_ready_bits (d : mps_comm_dev) : Z :=
  let mps1_ready := reg d apps_ready_word in
  if MPS_MPS1_APPS_READY_FP =? (mps1_ready .& MPS_MPS1_APPS_READY_FP_MASK)
  then mps1_ready .& MPS_MPS1_APPS_READY_BITMASK else 0.

(** ** Callbacks *)

Definition ifx_mpsdrv_register_callback (seq_num callback : Z) (d : mps_comm_dev)
  : Z * mps_comm_dev :=
  if negb (callback_function d seq_num =? 0) then (ERROR, d)
  else (OK, set_callbacks (upd (callback_function d) seq_num callback) d).

Definition ifx_mpsdrv_unregister_callback (seq_num : Z) (d : mps_comm_dev) : Z * mps_comm_dev :=
  if callback_function d seq_num =? 0 then (ERROR, d)
  else (OK, set_callbacks (upd (callback_function d) seq_num 0) d).

(** ** Queues of received messages *)

(** The loop clears the slots [0 .. MAX_MPS_DATAMSG_QLEN - 1]. *)
Definition mps_datamsg_queue_init (q : MPS_DATAMSG_LIST) : MPS_DATAMSG_LIST :=
  mk_dq (fun i => if (0 <=? i) && (i <? MAX_MPS_DATAMSG_QLEN) then 0 else dq_buf q i) 0 0.

Definition MPS_DATAMSG_NEXT_Q_POS (pos : Z) : Z :=
  if pos <? MAX_MPS_DATAMSG_QLEN then pos + 1 else 0.
Definition MPS_DATAMSG_IS_Q_FULL (q : MPS_DATAMSG_LIST) : bool :=
  MPS_DATAMSG_NEXT_Q_POS (dq_wpos q) =? dq_rpos q.
Definition MPS_DATAMSG_IS_Q_EMPTY (q : MPS_DATAMSG_LIST) : bool := dq_rpos q =? dq_wpos q.

Definition dq_index (i : Z) : bool := (0 <=? i) && (i <=? MAX_MPS_DATAMSG_QLEN).
Definition MPS_DATAMSG_SET_Q_ITEM (q : MPS_DATAMSG_LIST) (node : Z) : option MPS_DATAMSG_LIST :=
  if dq_index (dq_wpos q)
  then Some (mk_dq (upd (dq_buf q) (dq_wpos q) node) (dq_rpos q) (dq_wpos q)) else None.
Definition MPS_DATAMSG_GET_Q_ITEM (q : MPS_DATAMSG_LIST) : option Z :=
  if dq_index (dq_rpos q) then Some (dq_buf q (dq_rpos q)) else None.

Inductive rxq := DataQ | CmdQ.
Definition get_rxq (k : rxq) (d : mps_comm_dev) : MPS_DATAMSG_LIST :=
  match k with DataQ => mps_rcvDataMsgQ d | CmdQ => mps_rcvCmdMsgQ d end.
Definition set_rxq (k : rxq) (q : MPS_DATAMSG_LIST) : mps_comm_dev -> mps_comm_dev :=
  match k with DataQ => set_dataq q | CmdQ => set_cmdq q end.

Definition set_env (e : env) (d : mps_comm_dev) : mps_comm_dev :=
  set_bufmem (set_menv e (bufmem d)) d.

Section driver.
(** [truesize] of a socket buffer, and the statistics blocks of the wireless
    devices on CPU1 ([wifi_stats wireless i], [wifi0_stats]; 0 when there is
    none): members of kernel objects. *)
Context (truesize : Z -> Z) (wifi_stats : bool -> Z -> Z) (wifi0_stats : Z).

Definition mps_dev_kfree_skb_any (buf service_seq_num : Z) (d : mps_comm_dev)
  : option (Z * mps_comm_dev) :=
  if on_cpu0 d then Some (0, set_env (free_fn buf (menv (bufmem d))) d) else
  '(r, m) ← ifx_mps_fast_free_mps_buf (ifx_mpsdrv_get_cpu_id d) buf (truesize buf)
              service_seq_num (bufmem d);
  Some (r, set_bufmem m d).

(** [buf] points to a copied message: word 2 is the address of its buffer. *)
Definition mps_datamsg_enqueue_tail (buf : Z) (k : rxq) (d : mps_comm_dev)
  : option (Z * mps_comm_dev) :=
  let q := get_rxq k d in
  if MPS_DATAMSG_IS_Q_FULL q then
    w0 ← kmsgs d buf !! 0%nat;
    w2 ← kmsgs d buf !! 2%nat;
    '(_, d) ← mps_dev_kfree_skb_any w2 (msg_seqno w0) d;
    Some (- ENOMEM, d)
  else
    q ← MPS_DATAMSG_SET_Q_ITEM q buf;
    Some (0, set_rxq k (mk_dq (dq_buf q) (dq_rpos q) (MPS_DATAMSG_NEXT_Q_POS (dq_wpos q))) d).

Definition mps_datamsg_dequeue_head (k : rxq) (d : mps_comm_dev) : option (Z * mps_comm_dev) :=
  let q := get_rxq k d in
  if MPS_DATAMSG_IS_Q_EMPTY q then Some (0, d) else
  m_buf ← MPS_DATAMSG_GET_Q_ITEM q;
  Some (m_buf, set_rxq k (mk_dq (dq_buf q) (MPS_DATAMSG_NEXT_Q_POS (dq_rpos q)) (dq_wpos q)) d).

(** ** Sending and receiving *)

(** One case of [ifx_mpsdrv_mbx_rcv]: take the head of a FIFO, count its bytes,
    copy it out and step over it. *)
Definition rcv_from (x : mbx) (count : Z -> mps_comm_dev -> mps_comm_dev) (d : mps_comm_dev)
  : option (Z * list Z * mps_comm_dev) :=
  '(pRcvMsg, f) ← ifx_mpsdrv_fifo_read (get_fifo x d);
  let d := set_fifo x f d in
  match pRcvMsg with
  | None => Some (ERROR, [], d)
  | Some off =>
      w1 ← ld f (off + 1);
      if msg_ready w1 then
        let bytes := MPS_MSGHDR_LEN + msg_len w1 in
        let d := count bytes d in
        msg ← read_words f off (Z.to_nat (bytes_to_words bytes));
        f ← ifx_mpsdrv_fifo_read_ptr_inc f (bytes_to_words bytes);
        Some (OK, msg, set_fifo x f d)
      else Some (ERROR, [], d)
  end.

Definition count_wifi0 (n : Z) (d : mps_comm_dev) := set_wifi0 (add_rx_bytes n (wifi0 d)) d.
Definition count_wifi1 (n : Z) (d : mps_comm_dev) := set_wifi1 (add_rx_bytes n (wifi1 d)) d.
Definition count_command (n : Z) (d : mps_comm_dev) :=
  set_command (add_rx_bytes n (command_mbx d)) d.

Definition ifx_mpsdrv_mbx_rcv (type : Z) (d : mps_comm_dev)
  : option (Z * list Z * mps_comm_dev) :=
  if on_cpu0 d then
    if type =? MPS_DATA_MSG_TYPE then rcv_from UpData count_wifi0 d
    else if type =? MPS_CMD_MSG_TYPE then rcv_from UpCmd count_command d
    else Some (ERROR, [], d)
  else
    if type =? MPS_DATA_MSG_TYPE then rcv_from DnData count_wifi1 d
    else if type =? MPS_CMD_MSG_TYPE then rcv_from DnCmd count_command d
    else Some (ERROR, [], d).

(** The mailbox a message type goes through and the interrupt it raises. *)
Definition is_data_type (t : Z) : bool :=
  (t =? MPS_TYPE_UPSTREAM_DATA) || (t =? MPS_TYPE_DOWNSTREAM_DATA) ||
  (t =? MPS_TYPE_UPSTREAM_APP_CMD) || (t =? MPS_TYPE_DOWNSTREAM_APP_CMD).
Definition is_cmd_type (t : Z) : bool :=
  (t =? MPS_TYPE_UPSTREAM_CMD) || (t =? MPS_TYPE_DOWNSTREAM_CMD) ||
  (t =? MPS_TYPE_UPSTREAM_RESPONSE) || (t =? MPS_TYPE_DOWNSTREAM_RESPONSE) ||
  (t =? MPS_TYPE_UPSTREAM_APP_RESPONSE) || (t =? MPS_TYPE_DOWNSTREAM_APP_RESPONSE).

Definition send_route (cpu0 : bool) (t : Z) : option (mbx * Z * Z) :=
  if is_data_type t then
    Some (if cpu0 then (DnData, DANUBE_MPS_CPU0_2_CPU1_IRR, 0x20)
          else (UpData, DANUBE_MPS_SAD0SR, 0x2))
  else if is_cmd_type t then
    Some (if cpu0 then (DnCmd, DANUBE_MPS_CPU0_2_CPU1_IRR, 0x10)
          else (UpCmd, DANUBE_MPS_SAD0SR, 0x1))
  else None.

(** The second component is the caller's message afterwards: the driver sets
    the ready bit in it. *)
Definition ifx_mpsdrv_mbx_send (pMsg : list Z) (d : mps_comm_dev)
  : option (Z * list Z * mps_comm_dev) :=
  w0 ← pMsg !! 0%nat;
  w1 ← pMsg !! 1%nat;
  let msg_bytes := MPS_MSGHDR_LEN + msg_len w1 in
  match send_route (on_cpu0 d) (msg_type w0) with
  | None => Some (- ENOMSG, pMsg, d)
  | Some (x, irq_reg, irq_val) =>
      if negb (ifx_mpsdrv_fifo_mem_request (get_fifo x d) msg_bytes)
      then Some (- EAGAIN, pMsg, d) else
      let pMsg := mark_ready pMsg in
      '(ret, f) ← ifx_mpsdrv_fifo_write (get_fifo x d) pMsg msg_bytes;
      let d := set_fifo x f d in
      if negb (ret =? OK) then Some (- ENOMEM, pMsg, d) else
      let d := wr irq_reg irq_val d in
      let avail := ifx_mpsdrv_fifo_mem_available f in
      let d := if min_space f <? avail then set_fifo x (set_min_space avail f) d else d in
      Some (OK, pMsg, d)
  end.

(** ** From the FIFO to the queue, in the interrupt handler *)

(** [_ifx_mpsdrv_mbx_read_usdMsg] and its three siblings; [fuel] bounds the
    iterations, [num] counts the messages. *)
Fixpoint read_msgs (fuel : nat) (x : mbx) (k : rxq) (num : Z) (d : mps_comm_dev)
  : option (Z * mps_comm_dev) :=
  '(some, f) ← ifx_mpsdrv_fifo_not_empty (get_fifo x d);
  let d := set_fifo x f d in
  if negb some then Some (num, d) else
  match fuel with
  | O => None
  | S fuel =>
      '(pMsg, f) ← ifx_mpsdrv_fifo_read f;
      let d := set_fifo x f d in
      off ← pMsg;
      w1 ← ld f (off + 1);
      let msg_4bytes := bytes_to_words (MPS_MSGHDR_LEN + msg_len w1) in
      let '(pDataMsg, e) := alloc_fn (menv (bufmem d)) in
      let d := set_env e d in
      if pDataMsg =? 0 then Some (num, d) else
      (* the copy has a fixed size and may run past the block *)
      let copy := map (fun i => f_mem f (off + Z.of_nat i)) (seq 0 DATAMSG_WORDS) in
      let d := set_kmsgs (fun p => if p =? pDataMsg then copy else kmsgs d p) d in
      '(_, d) ← mps_datamsg_enqueue_tail pDataMsg k d;
      f ← ifx_mpsdrv_fifo_read_ptr_inc (get_fifo x d) msg_4bytes;
      read_msgs fuel x k (num + 1) (set_fifo x f d)
  end.

(** A message takes at least two words of a FIFO. *)
Definition read_fuel (f : mps_fifo) : nat := Z.to_nat (f_words f).

Definition _ifx_mpsdrv_mbx_read_dsdMsg (d : mps_comm_dev) : option (Z * mps_comm_dev) :=
  read_msgs (read_fuel (dn_data d)) DnData DataQ 0 d.
Definition _ifx_mpsdrv_mbx_read_dscMsg (d : mps_comm_dev) : option (Z * mps_comm_dev) :=
  read_msgs (read_fuel (dn_cmd d)) DnCmd CmdQ 0 d.
Definition _ifx_mpsdrv_mbx_read_usdMsg (d : mps_comm_dev) : option (Z * mps_comm_dev) :=
  read_msgs (read_fuel (up_data d)) UpData DataQ 0 d.
Definition _ifx_mpsdrv_mbx_read_uscMsg (d : mps_comm_dev) : option (Z * mps_comm_dev) :=
  read_msgs (read_fuel (up_cmd d)) UpCmd CmdQ 0 d.

(** ** From the queue to the callbacks, in the tasklets *)

Fixpoint dispatch_msgs (fuel : nat) (k : rxq) (d : mps_comm_dev) : option mps_comm_dev :=
  '(pMsg, d) ← mps_datamsg_dequeue_head k d;
  if pMsg =? 0 then Some d else
  match fuel with
  | O => None
  | S fuel =>
      w0 ← kmsgs d pMsg !! 0%nat;
      let cb := callback_function d (msg_seqno w0) in
      let d := if negb (cb =? 0) then set_calls (calls d ++ [(cb, kmsgs d pMsg)]) d else d in
      dispatch_msgs fuel k (set_env (free_fn pMsg (menv (bufmem d))) d)
  end.

Definition dispatch_fuel : nat := Z.to_nat (MAX_MPS_DATAMSG_QLEN + 1).
Definition ifx_mpsdrv_mbx_data_downstream := dispatch_msgs dispatch_fuel DataQ.
Definition ifx_mpsdrv_mbx_cmd_downstream := dispatch_msgs dispatch_fuel CmdQ.
Definition ifx_mpsdrv_mbx_data_upstream := dispatch_msgs dispatch_fuel DataQ.
Definition ifx_mpsdrv_mbx_cmd_upstream := dispatch_msgs dispatch_fuel CmdQ.

(** A scheduled tasklet runs once. *)
Definition ifx_mps_cpu1_do_DnData_tasklet (d : mps_comm_dev) : option mps_comm_dev :=
  ifx_mpsdrv_mbx_data_downstream (set_tasklets false (cmd_tasklet d) d).
Definition ifx_mps_cpu1_do_DnCmd_tasklet (d : mps_comm_dev) : option mps_comm_dev :=
  ifx_mpsdrv_mbx_cmd_downstream (set_tasklets (data_tasklet d) false d).
Definition ifx_mps_cpu0_do_UpData_tasklet (d : mps_comm_dev) : option mps_comm_dev :=
  ifx_mpsdrv_mbx_data_upstream (set_tasklets false (cmd_tasklet d) d).
Definition ifx_mps_cpu0_do_UpCmd_tasklet (d : mps_comm_dev) : option mps_comm_dev :=
  ifx_mpsdrv_mbx_cmd_upstream (set_tasklets (data_tasklet d) false d).

(** ** Interrupt handlers *)

Definition schedule (k : rxq) (d : mps_comm_dev) : mps_comm_dev :=
  match k with
  | DataQ => set_tasklets true (cmd_tasklet d) d
  | CmdQ => set_tasklets (data_tasklet d) true d
  end.

(** [if (read()) tasklet_schedule()]. *)
Definition read_and_schedule (read : mps_comm_dev -> option (Z * mps_comm_dev)) (k : rxq)
    (d : mps_comm_dev) : option mps_comm_dev :=
  '(n, d) ← read d; Some (if negb (n =? 0) then schedule k d else d).

Definition mask_and_ack (irq : Z) (d : mps_comm_dev) : mps_comm_dev :=
  set_regs (mask_and_ack_danube_irq irq (regs d)) d.
Definition count_irq (d : mps_comm_dev) : mps_comm_dev :=
  set_command (add_rx_irq (command_mbx d)) d.

(** The statistics request of CPU0: which device, which block. *)
Definition stats_word : Z := MBX_CPU0_BOOT_CFG + MPS_CP0_STATUS.
Fixpoint first_bit (n : nat) (i mask : Z) : Z :=
  match n with
  | O => i
  | S n => if negb (mask .& (1 .<< i) =? 0) then i else first_bit n (i + 1) mask
  end.
Definition stats_lookup (mask : Z) : Z :=
  let i := first_bit 4 0 mask in
  if negb (i =? 4) then wifi_stats (negb (mask .& 0x80000000 =? 0)) i
  else if negb (mask .& 0x40000000 =? 0) then wifi0_stats else 0.
Definition serve_stats (d : mps_comm_dev) : mps_comm_dev :=
  if negb (reg d stats_word =? 0) then
    let d := wr apps_ready_word 0 d in
    let stats := stats_lookup (reg d stats_word) in
    wr stats_word 0 (wr apps_ready_word stats d)
  else d.

Definition ifx_mpsdrv_cmd1_irq (irq : Z) (d : mps_comm_dev) : option mps_comm_dev :=
  let status := reg d DANUBE_MPS_CPU0_2_CPU1_IRDR in
  let d := mask_and_ack irq (wr DANUBE_MPS_CPU0_2_CPU1_ICR 0x10 d) in
  d ← (if negb (status .& 0x10 =? 0)
       then read_and_schedule _ifx_mpsdrv_mbx_read_dscMsg CmdQ (serve_stats d) else Some d);
  Some (count_irq d).

Definition ifx_mpsdrv_data1_irq (irq : Z) (d : mps_comm_dev) : option mps_comm_dev :=
  let status := reg d DANUBE_MPS_CPU0_2_CPU1_IRDR in
  let d := mask_and_ack irq (wr DANUBE_MPS_CPU0_2_CPU1_ICR 0x20 d) in
  d ← (if negb (status .& 0x20 =? 0)
       then read_and_schedule _ifx_mpsdrv_mbx_read_dsdMsg DataQ d else Some d);
  Some (count_irq d).

Definition ifx_mpsdrv_cmd0_irq (irq : Z) (d : mps_comm_dev) : option mps_comm_dev :=
  let status := reg d DANUBE_MPS_RAD0SR in
  let d := mask_and_ack irq (wr DANUBE_MPS_CAD0SR status d) in
  let d := set_event (status .& event_mask d) d in
  d ← (if Z.testbit status 1
       then read_and_schedule _ifx_mpsdrv_mbx_read_usdMsg DataQ d else Some d);
  d ← (if Z.testbit status 0
       then read_and_schedule _ifx_mpsdrv_mbx_read_uscMsg CmdQ d else Some d);
  Some (count_irq d).

(** CPU0's side of the statistics request; the caller then polls. *)
Definition wifi_mask (devid : Z) : Z :=
  if devid =? VNET_WIFI0_MAGIC_NUM then 0x40000000 else w32 (1 .<< devid).
Definition core1_wifi_stats_request (devid : Z) (d : mps_comm_dev) : mps_comm_dev :=
  wr DANUBE_MPS_CPU0_2_CPU1_IRR 0x10 (wr stats_word (wifi_mask devid) d).
Definition core1_wireless_stats_request (devid : Z) (d : mps_comm_dev) : mps_comm_dev :=
  wr DANUBE_MPS_CPU0_2_CPU1_IRR 0x10 (wr stats_word (0x80000000 .| w32 (1 .<< devid)) d).
(** One turn of the polling loop: the reply once it is there. *)
Definition core1_stats_poll (d : mps_comm_dev) : option Z :=
  if reg d stats_word =? 0 then Some (reg d apps_ready_word) else None.
End driver.

(** ** Opening and closing a mailbox *)

Inductive channel := Command | Wifi0 | Wifi1.
Definition get_chan (c : channel) (d : mps_comm_dev) : mbx_info :=
  match c with Command => command_mbx d | Wifi0 => wifi0 d | Wifi1 => wifi1 d end.
Definition set_chan (c : channel) (m : mbx_info) : mps_comm_dev -> mps_comm_dev :=
  match c with Command => set_command m | Wifi0 => set_wifi0 m | Wifi1 => set_wifi1 m end.

Definition ifx_mpsdrv_common_open (c : channel) (flagCmnd : bool) (d : mps_comm_dev)
  : Z * mps_comm_dev :=
  if Installed (get_chan c d) then (ERROR, d) else
  let d := set_chan c (set_installed true (get_chan c d)) d in
  let ad0 := reg d DANUBE_MPS_AD0ENR in
  (OK, wr DANUBE_MPS_AD0ENR (bit_set ad0 (if flagCmnd then 0 else 1)) d).

Definition set_min (x : mbx) (n : Z) (d : mps_comm_dev) : mps_comm_dev :=
  set_fifo x (set_min_space n (get_fifo x d)) d.

Definition ifx_mpsdrv_common_close (c : channel) (d : mps_comm_dev) : Z * mps_comm_dev :=
  let d := set_chan c (set_installed false (get_chan c d)) d in
  let disable n d := wr DANUBE_MPS_AD0ENR (bit_clr (reg d DANUBE_MPS_AD0ENR) n) d in
  let closed := negb (Installed (wifi0 d)) && negb (Installed (wifi1 d)) in
  match c with
  | Command => (OK, set_min DnCmd MBX_CMD_FIFO_SIZE (set_min UpCmd MBX_CMD_FIFO_SIZE (disable 0 d)))
  | Wifi0 =>
      let d := if closed then disable 1 d else d in
      (OK, set_alias_mins MBX_DATA_FIFO_SIZE (wifi1_up_min d) (set_min UpData MBX_DATA_FIFO_SIZE d))
  | Wifi1 =>
      let d := if closed then disable 1 d else d in
      (OK, set_min DnData MBX_DATA_FIFO_SIZE (set_alias_mins (wifi0_dn_min d) MBX_DATA_FIFO_SIZE d))
  end.

(** ** Reset and start-up *)

Definition reset_fifo (f : mps_fifo) : mps_fifo :=
  set_min_space (f_size f) (ifx_mpsdrv_fifo_clear f).

(** The semaphore is raised when its count is 0; the counters start again. *)
Definition up_if_zero (n : Z) : Z := if n =? 0 then n + 1 else n.
Definition reset_wifi (m : mbx_info) : mbx_info :=
  mk_mbx 0 0 0 0 (Installed m) (up_if_zero (mbx_wakeup m)).
Definition reset_command (m : mbx_info) : mbx_info :=
  mk_mbx 0 0 0 0 (Installed m) (mbx_wakeup m).

Definition ifx_mpsdrv_reset_structures (d : mps_comm_dev) : Z * mps_comm_dev :=
  let d := set_dn_data (reset_fifo (dn_data d)) (set_up_data (reset_fifo (up_data d)) d) in
  let d := set_alias_mins (f_size (dn_data d)) (f_size (up_data d)) d in
  let d := set_wifi1 (reset_wifi (wifi1 d)) (set_wifi0 (reset_wifi (wifi0 d)) d) in
  let d := set_dn_cmd (reset_fifo (dn_cmd d)) (set_up_cmd (reset_fifo (up_cmd d)) d) in
  let d := set_command (reset_command (command_mbx d)) d in
  let d := set_wakeup (up_if_zero (wakeup_pending d)) d in
  (OK, set_callbacks (fun i => if (0 <=? i) && (i <? MPSDRV_TOTAL_SEQ_NUMBERS) then 0
                               else callback_function d i) d).

Definition rst_req_or (v : Z) (d : mps_comm_dev) : mps_comm_dev :=
  wr DANUBE_RCU_RST_REQ (reg d DANUBE_RCU_RST_REQ .| v) d.
Definition rst_req_and (v : Z) (d : mps_comm_dev) : mps_comm_dev :=
  wr DANUBE_RCU_RST_REQ (reg d DANUBE_RCU_RST_REQ .& v) d.

Definition ifx_mpsdrv_reset (d : mps_comm_dev) : Z * mps_comm_dev :=
  if negb (ebase_cpu_num d .& 0x03FF =? 0) then (ERROR, d) else
  let d := rst_req_or DANUBE_RCU_RST_REQ_CPU1 d in
  (OK, snd (ifx_mpsdrv_reset_structures d)).

Definition ifx_mpsdrv_release (d : mps_comm_dev) : Z * mps_comm_dev :=
  if negb (ebase_cpu_num d .& 0x03FF =? 0) then (ERROR, d) else
  (OK, rst_req_and (.~ 8) (rst_req_or 0x20000000 d)).

Definition ifx_mpsdrv_restart (d : mps_comm_dev) : Z * mps_comm_dev :=
  (OK, snd (ifx_mpsdrv_release (snd (ifx_mpsdrv_reset d)))).

Definition ifx_mpsdrv_download_firmware (load_entry exec_entry : Z) (fw : list Z)
    (d : mps_comm_dev) : Z * mps_comm_dev :=
  let d := snd (ifx_mpsdrv_reset d) in
  let d := set_loads (loads d ++ [(load_entry, fw)]) d in
  let d := wr (MBX_CPU1_BOOT_CFG + MPS_BOOT_SIZE) (Z.of_nat (length fw)) d in
  let d := wr (MBX_CPU1_BOOT_CFG + MPS_BOOT_RVEC) exec_entry d in
  let d := wr (MBX_CPU1_BOOT_CFG + MPS_CFG_STAT)
             (reg d (MBX_CPU1_BOOT_CFG + MPS_CFG_STAT) .| 0x00700000) d in
  (OK, snd (ifx_mpsdrv_release d)).


(** The semaphores of a device; a pointer to each, 0 for NULL. *)
Record mps_sems := mk_sems {
  cmd_sem_dev : Z; cmd_sem_read : Z;
  wifi_sems : list (Z * Z * Z);   (* sem_dev, sem_read_fifo, wakeup_pending *)
  sem_wakeup_pending : Z
}.
Definition no_sems : mps_sems := mk_sems 0 0 [] 0.

(** [kmalloc] of a semaphore followed by [sema_init], which writes to it: an
    unchecked refusal faults. *)
Definition sem_alloc (e : env) : option (Z * env) :=
  let '(p, e) := alloc_fn e in if p =? 0 then None else Some (p, e).

(** One turn of the loop over the wifi channels; [None] inside is the return
    with ERROR, for the one allocation that is checked. *)
Definition wifi_sem_init (e : env) : option (option (Z * Z * Z) * env) :=
  let '(sem_dev, e) := alloc_fn e in
  if sem_dev =? 0 then Some (None, e) else
  '(sem_read, e) ← sem_alloc e;
  '(wakeup, e) ← sem_alloc e;
  Some (Some (sem_dev, sem_read, wakeup), e).

(** A FIFO after CPU0 has cleared the shared area and set its size. *)
Definition init_fifo (size : Z) (f : mps_fifo) : mps_fifo :=
  mk_fifo (fun i => if (0 <=? i) && (i <? size / 4) then 0 else f_mem f i) 0 0 size (min_space f).

(** [memset(pDev, 0)], as far as it is visible here. *)
Definition fresh_mbx : mbx_info := mk_mbx 0 0 0 0 false 0.
Definition zero_dev (d : mps_comm_dev) : mps_comm_dev :=
  mk_dev (ebase_cpu_num d) (set_min_space 0 (up_cmd d)) (set_min_space 0 (dn_cmd d))
    (set_min_space 0 (up_data d)) (set_min_space 0 (dn_data d)) 0 0
    fresh_mbx fresh_mbx fresh_mbx 0 (fun _ => 0) 0 0 (mps_rcvDataMsgQ d) (mps_rcvCmdMsgQ d)
    (kmsgs d) (bufmem d) (regs d) (data_tasklet d) (cmd_tasklet d) (calls d) (loads d).

(** CPU0: clear the FIFOs, publish the pool array, start CPU1. *)
Definition init_shared_cpu0 (pool_head entry : Z) (d : mps_comm_dev) : mps_comm_dev :=
  let d := set_up_cmd (init_fifo MBX_CMD_FIFO_SIZE (up_cmd d)) d in
  let d := set_dn_cmd (init_fifo MBX_CMD_FIFO_SIZE (dn_cmd d)) d in
  let d := set_up_data (init_fifo MBX_DATA_FIFO_SIZE (up_data d)) d in
  let d := set_dn_data (init_fifo MBX_DATA_FIFO_SIZE (dn_data d)) d in
  let d := wr (MBX_CPU0_BOOT_CFG + MPS_BOOT_SIZE) (w32 (.~ pool_head)) d in
  let d := wr (MBX_CPU0_BOOT_CFG + MPS_CFG_STAT) pool_head d in
  let d := wr (MBX_CPU1_BOOT_CFG + MPS_CFG_STAT) 0 d in
  let d := wr (MBX_CPU0_BOOT_CFG + MPS_CP0_STATUS) 0 d in
  if negb (entry =? 0) then
    let d := rst_req_or DANUBE_RCU_RST_REQ_CPU1 d in
    let d := wr (MBX_CPU1_BOOT_CFG + MPS_BOOT_SIZE) 0 d in
    let d := wr (MBX_CPU1_BOOT_CFG + MPS_BOOT_RVEC) entry d in
    rst_req_and (.~ 8) (rst_req_or 0x20000000 d)
  else d.

Definition set_pool_array (b : bool) (s : mps_mem) : mps_mem :=
  mk_mem b (pools s) (fast_allocs s) (fast_frees s) (fast_mallocs s)
    (fast_malloc_frees s) (mps_list_book_keep_x s) (timer_started s) (menv s).

(** CPU1: take the address of the pool array over; it can be used when it is
    the one of CPU0's array. *)
Definition init_shared_cpu1 (pool_head : Z) (d : mps_comm_dev) : mps_comm_dev :=
  set_bufmem (set_pool_array (reg d (MBX_CPU0_BOOT_CFG + MPS_CFG_STAT) =? pool_head) (bufmem d)) d.

Definition full_space (f : mps_fifo) : mps_fifo := set_min_space (f_size f) f.

(** Up to the command mailbox. *)
Definition init_prefix (pool_head entry : Z) (d : mps_comm_dev) : mps_comm_dev :=
  let d := zero_dev d in
  let d := if on_cpu0 d then init_shared_cpu0 pool_head entry d else init_shared_cpu1 pool_head d in
  set_dn_cmd (full_space (dn_cmd d)) (set_up_cmd (full_space (up_cmd d)) d).

Definition ifx_mpsdrv_initial_structures (pool_head entry : Z) (d : mps_comm_dev)
  : option (Z * mps_sems * mps_comm_dev) :=
  let d := init_prefix pool_head entry d in
  '(sem_dev, e) ← sem_alloc (menv (bufmem d));
  '(sem_read, e) ← sem_alloc e;
  let s := mk_sems sem_dev sem_read [] 0 in
  let d := set_up_data (full_space (up_data d)) d in
  let usize := f_size (up_data d) in
  let d := set_alias_mins usize (wifi1_up_min d) d in
  '(w0, e) ← wifi_sem_init e;
  match w0 with
  | None => Some (ERROR, s, set_env e d)
  | Some w0 =>
      let s := mk_sems sem_dev sem_read [w0] 0 in
      let d := set_wifi0 (mk_mbx 0 0 0 0 false 1) d in
      let d := set_alias_mins (wifi0_dn_min d) usize d in
      let d := set_dn_data (set_min_space usize (dn_data d)) d in
      '(w1, e) ← wifi_sem_init e;
      match w1 with
      | None => Some (ERROR, s, set_env e d)
      | Some w1 =>
          let d := set_wifi1 (mk_mbx 0 0 0 0 false 1) d in
          '(wp, e) ← sem_alloc e;
          let d := set_wakeup 1 (set_env e d) in
          let d := set_dataq (mps_datamsg_queue_init (mps_rcvDataMsgQ d)) d in
          let d := set_cmdq (mps_datamsg_queue_init (mps_rcvCmdMsgQ d)) d in
          Some (OK, mk_sems sem_dev sem_read [w0; w1] wp, d)
      end
  end.

Definition free_list (ps : list Z) (e : env) : env := fold_left (fun e p => free_fn p e) ps e.

Definition ifx_mpsdrv_release_structures (s : mps_sems) (d : mps_comm_dev) : mps_comm_dev :=
  let e := free_fn (cmd_sem_dev s) (menv (bufmem d)) in
  let e := free_list (concat (map (fun '(a, b, c) => [a; b; c]) (wifi_sems s))) e in
  set_env (free_fn (sem_wakeup_pending s) e) d.

(** ** Interrupt lines

    [request_irq irq] is the kernel's answer for a line, 0 when it is free;
    [MPS_INTERRUPTS_ENABLE] sets bits in an enable register of the ICU. *)
Definition mps_irq_enable (ier_reg bits : Z) (d : mps_comm_dev) : mps_comm_dev :=
  wr ier_reg (reg d ier_reg .| bits) d.

Definition ifx_mpsdrv_init_IRQs (request_irq : Z -> Z) (d : mps_comm_dev) : Z * mps_comm_dev :=
  if on_cpu0 d then
    let result := request_irq (INT_NUM_IM4_IRL0 + 18) in
    if negb (result =? 0) then (result, d) else
    (OK, mps_irq_enable DANUBE_ICU_IM4_IER 0x00740000 (wr DANUBE_MPS_AD0ENR 0x3 d))
  else
    let result := request_irq (INT_NUM_IM0_IRL0 + 4) in
    if negb (result =? 0) then (result, d) else
    let result := request_irq (INT_NUM_IM0_IRL0 + 5) in
    if negb (result =? 0) then (result, d) else
    (OK, mps_irq_enable DANUBE_ICU_IM0_IER 0x30 (wr DANUBE_MPS_CPU0_2_CPU1_IER 0x30 d)).

(** The housekeeping timer of CPU0. *)
Definition MPS_SRV_DS_DATA_ID : Z := 10.
Definition MPS_SRV_US_DATA_ID : Z := 20.
Definition mps_timer_handler (d : mps_comm_dev) : option mps_comm_dev :=
  let id := ifx_mpsdrv_get_cpu_id d in
  '(_, m) ← ifx_cpu0_topup_q_lists id MPS_SRV_DS_DATA_ID (bufmem d);
  '(_, m) ← ifx_cpu0_release_q_lists id MPS_SRV_DS_DATA_ID m;
  '(_, m) ← ifx_cpu0_topup_q_lists id MPS_SRV_US_DATA_ID m;
  '(_, m) ← ifx_cpu0_release_q_lists id MPS_SRV_US_DATA_ID m;
  Some (set_bufmem m d).

(** ** Lemmas on the state *)

Lemma get_set_fifo x f d : get_fifo x (set_fifo x f d) = f.
Proof. by destruct x. Qed.

Lemma get_set_fifo_ne x y f d : x <> y -> get_fifo y (set_fifo x f d) = get_fifo y d.
Proof. by destruct x, y. Qed.

Lemma set_set_fifo x f g d : set_fifo x f (set_fifo x g d) = set_fifo x f d.
Proof. by destruct x. Qed.

Lemma set_fifo_wr x f a v d : set_fifo x f (wr a v d) = wr a v (set_fifo x f d).
Proof. by destruct x. Qed.

Lemma set_fifo_id x d : set_fifo x (get_fifo x d) d = d.
Proof. by destruct x, d. Qed.

Lemma get_fifo_wr x a v d : get_fifo x (wr a v d) = get_fifo x d.
Proof. by destruct x. Qed.

Lemma get_set_rxq k q d : get_rxq k (set_rxq k q d) = q.
Proof. by destruct k. Qed.

Lemma get_rxq_fifo k x f d : get_rxq k (set_fifo x f d) = get_rxq k d.
Proof. by destruct x, k. Qed.

Lemma get_fifo_rxq k x q d : get_fifo x (set_rxq k q d) = get_fifo x d.
Proof. by destruct x, k. Qed.

Lemma bufmem_fifo x f d : bufmem (set_fifo x f d) = bufmem d.
Proof. by destruct x. Qed.

Lemma bufmem_rxq k q d : bufmem (set_rxq k q d) = bufmem d.
Proof. by destruct k. Qed.

Lemma kmsgs_fifo x f d : kmsgs (set_fifo x f d) = kmsgs d.
Proof. by destruct x. Qed.

Lemma kmsgs_rxq k q d : kmsgs (set_rxq k q d) = kmsgs d.
Proof. by destruct k. Qed.

Lemma callbacks_fifo x f d : callback_function (set_fifo x f d) = callback_function d.
Proof. by destruct x. Qed.

Lemma callbacks_rxq k q d : callback_function (set_rxq k q d) = callback_function d.
Proof. by destruct k. Qed.

Lemma on_cpu0_fifo x f d : on_cpu0 (set_fifo x f d) = on_cpu0 d.
Proof. by destruct x. Qed.

Lemma regs_wr a v d : regs (wr a v d) = upd (regs d) a v.
Proof. done. Qed.

#[local] Create Rewrite HintDb dev.
#[local] Hint Rewrite get_set_fifo set_set_fifo set_fifo_wr set_fifo_id get_fifo_wr get_set_rxq
  get_rxq_fifo get_fifo_rxq bufmem_fifo bufmem_rxq kmsgs_fifo kmsgs_rxq callbacks_fifo
  callbacks_rxq on_cpu0_fifo : dev.
Ltac dev_simpl := autorewrite with dev in *.

(** What the four FIFOs hold. *)
Definition dev_inv (d : mps_comm_dev) (ls : mbx -> list (list Z)) : Prop :=
  forall x, fifo_inv (get_fifo x d) (ls x).

(** The FIFO a CPU receives from, and the one it sends to: the one the other
    CPU receives from. *)
Definition rx_mbx (cpu0 data : bool) : mbx :=
  match cpu0, data with
  | true, true => UpData | true, false => UpCmd | false, true => DnData | false, false => DnCmd
  end.
Definition doorbell (cpu0 data : bool) (d : mps_comm_dev) : mps_comm_dev :=
  if cpu0 then wr DANUBE_MPS_CPU0_2_CPU1_IRR (if data then 0x20 else 0x10) d
  else wr DANUBE_MPS_SAD0SR (if data then 0x2 else 0x1) d.

Lemma mark_ready_idem m : mark_ready (mark_ready m) = mark_ready m.
Proof.
  unfold mark_ready. apply list_eq. intros i. destruct (decide (i = 1%nat)) as [->|Hi].
  - rewrite !list_lookup_alter_eq. destruct (m !! 1%nat); [|done]. cbn.
    by rewrite <- Z.lor_assoc, Z.lor_diag.
  - by rewrite !list_lookup_alter_ne.
Qed.

Lemma set_min_space_inv n f ms : fifo_inv f ms -> fifo_inv (set_min_space n f) ms.
Proof. intros H. exact H. Qed.

Lemma lookup_mark_ready m w1 :
  m !! 1%nat = Some w1 -> mark_ready m !! 1%nat = Some (w1 .| READY_BIT).
Proof. intros H. unfold mark_ready. by rewrite list_lookup_alter_eq, H. Qed.

(** Sending through a given FIFO. *)
Lemma send_write_spec f ms m w1 :
  fifo_inv f ms -> sendable m -> m !! 1%nat = Some w1 ->
  write_post f ms m (ifx_mpsdrv_fifo_write f (mark_ready m) (MPS_MSGHDR_LEN + msg_len w1)).
Proof.
  intros Hi Hm Hw1. destruct (mark_ready_stored m Hm) as [Hs _].
  pose proof (write_spec f ms (mark_ready m) _ Hi Hs (lookup_mark_ready _ _ Hw1)) as H.
  rewrite msg_len_lor in H. unfold write_post in *. by rewrite mark_ready_idem in H.
Qed.

(** The class of a message type: data ([Some true]), command or none. *)
Definition msg_class (t : Z) : option bool :=
  match t with
  | 1 | 2 | 7 | 8 => Some true
  | 3 | 4 | 5 | 6 | 9 | 10 => Some false
  | _ => None
  end.

Lemma send_route_class cpu0 t :
  match msg_class t with
  | None => send_route cpu0 t = None
  | Some data => exists r v, send_route cpu0 t = Some (rx_mbx (negb cpu0) data, r, v) /\
      forall d, on_cpu0 d = cpu0 -> wr r v d = doorbell cpu0 data d
  end.
Proof.
  destruct (decide (1 <= t <= 10)) as [H|H].
  - assert (t = 1 \/ t = 2 \/ t = 3 \/ t = 4 \/ t = 5 \/ t = 6 \/ t = 7 \/ t = 8 \/ t = 9 \/ t = 10)
      as Ht by lia.
    destruct_or! Ht; subst; destruct cpu0; by do 2 eexists.
  - replace (msg_class t) with (@None bool).
    + assert (Hne : forall n, 1 <= n <= 10 -> (t =? n) = false)
        by (intros n Hn; apply Z.eqb_neq; lia).
      unfold send_route, is_data_type, is_cmd_type. by rewrite !Hne by (split; done).
    + destruct t as [|p|p]; try done.
      repeat (destruct p as [p|p|]; try done; try (exfalso; apply H; lia)).
Qed.

Lemma mem_request_false f b :
  ifx_mpsdrv_fifo_mem_request f b = false <-> ifx_mpsdrv_fifo_mem_available f < b.
Proof.
  unfold ifx_mpsdrv_fifo_mem_request. rewrite Z.geb_leb, Z.leb_gt. lia.
Qed.

(** C21: [ifx_mpsdrv_mbx_send] never faults on a well-formed message and ends in
    one of four ways.  An unknown type gives -ENOMSG and changes nothing; too
    little space gives -EAGAIN and changes nothing; a write that does not fit
    before the end of the ring gives -ENOMEM, with the FIFO's messages intact;
    otherwise the message, marked ready, is appended to the FIFO the other CPU
    receives this class of messages from, and exactly that CPU's interrupt for
    the class is raised.  Nothing else changes. *)
Theorem mbx_send_outcomes d ls m w0 w1 :
  dev_inv d ls -> sendable m -> m !! 0%nat = Some w0 -> m !! 1%nat = Some w1 ->
  match msg_class (msg_type w0) with
  | None => ifx_mpsdrv_mbx_send m d = Some (- ENOMSG, m, d)
  | Some data =>
      let x := rx_mbx (negb (on_cpu0 d)) data in
      (ifx_mpsdrv_mbx_send m d = Some (- EAGAIN, m, d) /\
         ifx_mpsdrv_fifo_mem_available (get_fifo x d) < MPS_MSGHDR_LEN + msg_len w1) \/
      (exists f, ifx_mpsdrv_mbx_send m d = Some (- ENOMEM, mark_ready m, set_fifo x f d) /\
         fifo_inv f (ls x)) \/
      (exists f, ifx_mpsdrv_mbx_send m d =
           Some (OK, mark_ready m, doorbell (on_cpu0 d) data (set_fifo x f d)) /\
         fifo_inv f (ls x ++ [mark_ready m]))
  end.
Proof.
  intros Hi Hm H0 H1. unfold ifx_mpsdrv_mbx_send. rewrite H0, H1. bind.
  pose proof (send_route_class (on_cpu0 d) (msg_type w0)) as Hc.
  destruct (msg_class _) as [data|]; [|by rewrite Hc].
  destruct Hc as (r & v & -> & Hbell). cbn zeta. set (x := rx_mbx _ _).
  destruct (ifx_mpsdrv_fifo_mem_request _ _) eqn:Hreq; cbn [negb];
    [right|left; by apply mem_request_false in Hreq].
  destruct (send_write_spec _ _ _ _ (Hi x) Hm H1) as (ret & f & -> & _ & _ & [[-> Hf]|[-> Hf]]); bind;
    [right|left; by exists f].
  change (negb (OK =? 0)) with false. cbn iota.
  set (f' := if min_space f <? ifx_mpsdrv_fifo_mem_available f
             then set_min_space (ifx_mpsdrv_fifo_mem_available f) f else f).
  exists f'. split.
  - rewrite <- Hbell by (by dev_simpl). unfold f'. destruct (_ <? _); by dev_simpl.
  - unfold f'. by destruct (_ <? _).
Qed.

(** ** Receiving from a mailbox *)

Definition count_rx (cpu0 data : bool) : Z -> mps_comm_dev -> mps_comm_dev :=
  if data then if cpu0 then count_wifi0 else count_wifi1 else count_command.
Definition type_of_class (data : bool) : Z :=
  if data then MPS_DATA_MSG_TYPE else MPS_CMD_MSG_TYPE.
Definition msg_bytes (m : list Z) : Z := MPS_MSGHDR_LEN + msg_len (nth 1 m 0).

Lemma stored_header m mem pos :
  stored m -> seg mem pos m -> mem (pos + 1) = nth 1 m 0.
Proof.
  intros (_ & w1 & Hw & _) Hs. rewrite (nth_lookup_Some _ _ _ _ Hw). exact (Hs 1%nat w1 Hw).
Qed.

Lemma rcv_from_spec x count d ls :
  dev_inv d ls ->
  (forall n f, count n (set_fifo x f d) = set_fifo x f (count n d)) ->
  exists f, fifo_inv f (tail (ls x)) /\
    rcv_from x count d = Some (match ls x with
      | [] => (ERROR, [], set_fifo x f d)
      | m :: _ => (OK, m, set_fifo x f (count (msg_bytes m) d))
      end).
Proof.
  intros Hinv Hc. pose proof (Hinv x) as Hi. unfold rcv_from.
  rewrite (ifx_mpsdrv_fifo_read_rewound _ _ Hi).
  destruct (rewind_spec _ _ Hi) as (_ & _ & Hi' & Hh). destruct (ls x) as [|m ms]; bind.
  { by exists (rewound (get_fifo x d)). }
  generalize dependent (rewound (get_fifo x d)). intros f Hf Hh.
  pose proof (head_not_wrapped _ _ _ Hh) as Hnw. destruct Hh as (Hr & HrN & Hs & HmN & Hrd & _ & Hlen).
  assert (Hst : stored m) by (destruct Hf as (_ & Hst & _); by inversion Hst).
  rewrite ld_in by lia. bind. rewrite Hrd. cbn zeta.
  fold (msg_4bytes (f_mem f (pread_off f + 1))). rewrite Hlen, Nat2Z.id.
  rewrite (read_words_spec f (length m) (pread_off f) m) by (done || lia). bind.
  destruct (read_ptr_inc_spec f m ms Hf Hnw) as (f' & -> & Hf' & _). bind.
  exists f'. split; [done|]. unfold msg_bytes.
  rewrite (stored_header m (f_mem f) (pread_off f)) by done. rewrite Hc. by dev_simpl.
Qed.

(** [ifx_mpsdrv_mbx_rcv] takes the oldest message of the FIFO its CPU and
    the requested class select, the very message the sender appended to it,
    hands it over unchanged, adds its size to the byte counter of that mailbox
    and removes it; on an empty FIFO it answers ERROR and removes nothing.  Any
    other class is refused. *)
Theorem mbx_rcv_head d ls type :
  dev_inv d ls ->
  match (if type =? 0 then Some true else if type =? 1 then Some false else None) with
  | None => ifx_mpsdrv_mbx_rcv type d = Some (ERROR, [], d)
  | Some data =>
      let x := rx_mbx (on_cpu0 d) data in
      exists f, fifo_inv f (tail (ls x)) /\
        ifx_mpsdrv_mbx_rcv type d = Some (match ls x with
          | [] => (ERROR, [], set_fifo x f d)
          | m :: _ => (OK, m, set_fifo x f (count_rx (on_cpu0 d) data (msg_bytes m) d))
          end)
  end.
Proof.
  intros Hi. unfold ifx_mpsdrv_mbx_rcv, MPS_DATA_MSG_TYPE, MPS_CMD_MSG_TYPE.
  destruct (on_cpu0 d), (type =? 0) eqn:E0, (type =? 1) eqn:E1; bool_prop; try lia; try done.
  all: cbn zeta iota; unfold rx_mbx, count_rx; by apply rcv_from_spec.
Qed.

(** ** Reading a FIFO into a queue *)

Lemma rewound_idem f m ms : head_at (rewound f) (m :: ms) -> rewound (rewound f) = rewound f.
Proof. intros H%head_not_wrapped. unfold rewound at 1. by rewrite H. Qed.

Lemma chain_words mem ms : forall pos e,
  chain mem pos ms e -> Forall stored ms -> pos + 2 * Z.of_nat (length ms) <= e.
Proof.
  induction ms as [|m ms IH]; intros pos e; cbn [chain length]; [lia|].
  intros [_ Hc] Hst. inversion_clear Hst as [|?? Hm Hms].
  specialize (IH _ _ Hc Hms). pose proof (stored_length m Hm). lia.
Qed.

(** A message takes at least two words, so [read_fuel] suffices. *)
Lemma read_fuel_enough f ms : fifo_inv f ms -> (length ms <= read_fuel f)%nat.
Proof.
  intros (Hsz & Hst & [Hl|Hl]); unfold read_fuel.
  - destruct Hl as (? & ? & Hc & _). pose proof (chain_words _ _ _ _ Hc Hst). lia.
  - destruct Hl as (ms1 & ms2 & e & -> & ? & ? & Hc1 & _ & ? & Hc2 & Hd).
    apply Forall_app in Hst as [Hs1 Hs2]. rewrite length_app.
    pose proof (chain_words _ _ _ _ Hc1 Hs1). pose proof (chain_words _ _ _ _ Hc2 Hs2). lia.
Qed.

(** The queue of received messages as a ring of [MpsQueue]. *)
Definition as_ring (q : MPS_DATAMSG_LIST) : MPS_BUFF_HEAD :=
  mk_q 1 (MAX_MPS_DATAMSG_QLEN + 1) (dq_buf q) MAX_MPS_DATAMSG_QLEN (dq_rpos q) (dq_wpos q).
Definition dq_wf (q : MPS_DATAMSG_LIST) : Prop :=
  0 <= dq_rpos q <= MAX_MPS_DATAMSG_QLEN /\ 0 <= dq_wpos q <= MAX_MPS_DATAMSG_QLEN.
Definition dq_items (q : MPS_DATAMSG_LIST) : list Z := contents (as_ring q).

Lemma as_ring_wf q : dq_wf q -> q_wf (as_ring q).
Proof.
  intros [??]. unfold q_wf, as_ring; cbn [circular_buf cb_entries maxcount rpos wpos].
  unfold MAX_MPS_DATAMSG_QLEN in *. lia.
Qed.

Lemma dq_full q :
  dq_wf q -> MPS_DATAMSG_IS_Q_FULL q = (Z.of_nat (length (dq_items q)) =? MAX_MPS_DATAMSG_QLEN).
Proof.
  intros Hq%as_ring_wf. pose proof (full_iff _ Hq) as Hf.
  unfold dq_items. rewrite (length_contents _ Hq). change (MPS_DATAMSG_IS_Q_FULL q) with (MPS_IS_Q_FULL (as_ring q)).
  apply eq_true_iff_eq. by rewrite Hf, Z.eqb_eq.
Qed.

Lemma dq_empty q :
  dq_wf q -> MPS_DATAMSG_IS_Q_EMPTY q = match dq_items q with [] => true | _ => false end.
Proof.
  intros Hq%as_ring_wf. pose proof (empty_iff _ Hq) as He. pose proof (length_contents _ Hq) as Hl.
  unfold MPS_DATAMSG_IS_Q_EMPTY, dq_items. cbn [as_ring rpos wpos] in He.
  destruct (contents (as_ring q)); cbn in Hl.
  - by apply He.
  - apply not_true_iff_false. rewrite He. lia.
Qed.

(** The queue with one more item. *)
Definition dq_push (q : MPS_DATAMSG_LIST) (p : Z) : MPS_DATAMSG_LIST :=
  mk_dq (upd (dq_buf q) (dq_wpos q) p) (dq_rpos q) (MPS_DATAMSG_NEXT_Q_POS (dq_wpos q)).
Definition dq_pop (q : MPS_DATAMSG_LIST) : MPS_DATAMSG_LIST :=
  mk_dq (dq_buf q) (MPS_DATAMSG_NEXT_Q_POS (dq_rpos q)) (dq_wpos q).

Lemma dq_next_bounds p :
  0 <= p <= MAX_MPS_DATAMSG_QLEN -> 0 <= MPS_DATAMSG_NEXT_Q_POS p <= MAX_MPS_DATAMSG_QLEN.
Proof. unfold MPS_DATAMSG_NEXT_Q_POS. split_if; lia. Qed.

Lemma dq_push_spec q p :
  dq_wf q -> Z.of_nat (length (dq_items q)) < MAX_MPS_DATAMSG_QLEN ->
  dq_wf (dq_push q p) /\ dq_items (dq_push q p) = dq_items q ++ [p].
Proof.
  intros Hq Hl. pose proof (as_ring_wf q Hq) as Hw. split.
  - destruct Hq. split; cbn; [lia|by apply dq_next_bounds].
  - unfold dq_items in *. rewrite (length_contents _ Hw) in Hl.
    rewrite <- pushed_contents; [done|done|cbn; lia].
Qed.

Lemma dq_pop_spec q p ps :
  dq_wf q -> dq_items q = p :: ps ->
  dq_wf (dq_pop q) /\ dq_items (dq_pop q) = ps /\ dq_buf q (dq_rpos q) = p.
Proof.
  intros Hq Hps. pose proof (as_ring_wf q Hq) as Hw. unfold dq_items in *.
  pose proof (length_contents _ Hw) as Hl. rewrite Hps in Hl. cbn in Hl.
  pose proof (popped_count (as_ring q) Hw ltac:(lia)) as Hcount.
  pose proof (count_bounds _ Hw) as Hb. cbn [as_ring maxcount] in Hb.
  rewrite (popped_contents _ Hw) in Hps by lia. injection Hps as Hp Hps. split_and!; [|rewrite <- Hps|done].
  - destruct Hq. split; cbn; [by apply dq_next_bounds|lia].
  - unfold contents, q_count.
    change (MPS_GET_Q_COUNT (as_ring (dq_pop q))) with (MPS_GET_Q_COUNT (popped (as_ring q))).
    apply items_ext. intros k Hk. symmetry. apply upd_ne. destruct Hq as [??].
    cbn [as_ring rpos maxcount popped set_rpos set_slots set_ring].
    rewrite pos_at_next by lia.
    rewrite <- (pos_at_0 MAX_MPS_DATAMSG_QLEN (dq_rpos q)) at 2 by done.
    intros E. apply pos_at_inj in E; lia.
Qed.

(** The copy of a message: six words from where it stands. *)
Definition is_copy (m copy : list Z) : Prop :=
  length copy = DATAMSG_WORDS /\ take (length m) copy = take DATAMSG_WORDS m.
Definition fifo_copy (f : mps_fifo) (off : Z) : list Z :=
  map (fun i => f_mem f (off + Z.of_nat i)) (seq 0 DATAMSG_WORDS).

Lemma fifo_copy_ok f off m : seg (f_mem f) off m -> is_copy m (fifo_copy f off).
Proof.
  intros Hs. split; [unfold fifo_copy; by rewrite length_map, length_seq|].
  apply list_eq. intros i.
  destruct (decide (i < length m)%nat) as [Hi|Hi]; [destruct (decide (i < DATAMSG_WORDS)%nat) as [Hd|Hd]|].
  - rewrite !lookup_take_lt by done. unfold fifo_copy.
    rewrite list_lookup_fmap, lookup_seq_lt by done. cbn.
    apply lookup_lt_is_Some_2 in Hi as [w Hw]. rewrite Hw. f_equal. by apply Hs.
  - rewrite lookup_take_lt by done. rewrite (lookup_take_ge m) by lia.
    apply lookup_ge_None. unfold fifo_copy. rewrite length_map, length_seq. lia.
  - rewrite lookup_take_ge by lia. symmetry. apply lookup_ge_None. rewrite length_take. lia.
Qed.

Definition store_msg (p : Z) (copy : list Z) (d : mps_comm_dev) : mps_comm_dev :=
  set_kmsgs (fun q => if q =? p then copy else kmsgs d q) d.

Section reading.
Context (truesize : Z -> Z) (x : mbx) (k : rxq).

(** One turn of the loop, up to the queue. *)
Lemma read_step fuel num d m ms p e :
  fifo_inv (get_fifo x d) (m :: ms) -> alloc_fn (menv (bufmem d)) = (p, e) -> p <> 0 ->
  exists copy f f', is_copy m copy /\ fifo_inv f' ms /\
    ifx_mpsdrv_fifo_read_ptr_inc f (Z.of_nat (length m)) = Some f' /\
    read_msgs truesize (S fuel) x k num d =
      ('(_, d) ← mps_datamsg_enqueue_tail truesize p k (store_msg p copy (set_env e (set_fifo x f d)));
       f ← ifx_mpsdrv_fifo_read_ptr_inc (get_fifo x d) (Z.of_nat (length m));
       read_msgs truesize fuel x k (num + 1) (set_fifo x f d)).
Proof.
  intros Hi Ha Hp. destruct (rewind_spec _ _ Hi) as (_ & _ & Hi' & Hh).
  pose proof (rewound_idem _ _ _ Hh) as Hid.
  cbn [read_msgs]. rewrite (ifx_mpsdrv_fifo_not_empty_rewound _ _ Hi). bind. cbn [negb].
  rewrite (ifx_mpsdrv_fifo_read_rewound _ _ Hi'), Hid. bind. rewrite set_set_fifo.
  clear Hid. generalize dependent (rewound (get_fifo x d)). intros f Hf Hh.
  pose proof (head_not_wrapped _ _ _ Hh) as Hnw. destruct Hh as (Hr & HrN & Hs & HmN & Hrd & _ & Hlen).
  rewrite ld_in by lia. bind. rewrite bufmem_fifo, Ha. apply Z.eqb_neq in Hp. rewrite Hp.
  fold (msg_4bytes (f_mem f (pread_off f + 1))). rewrite Hlen.
  destruct (read_ptr_inc_spec f m ms Hf Hnw) as (f' & Hinc & Hf' & _).
  exists (fifo_copy f (pread_off f)), f, f'. split_and!; try done. by apply fifo_copy_ok.
Qed.

(** What reading never touches. *)
Definition untouched (d d' : mps_comm_dev) : Prop :=
  (ebase_cpu_num d', regs d', callback_function d', calls d', data_tasklet d', cmd_tasklet d',
   command_mbx d') =
  (ebase_cpu_num d, regs d, callback_function d, calls d, data_tasklet d, cmd_tasklet d,
   command_mbx d) /\
  (forall y, y <> x -> get_fifo y d' = get_fifo y d) /\
  (forall k', k' <> k -> get_rxq k' d' = get_rxq k' d).

Lemma untouched_refl d : untouched d d.
Proof. done. Qed.

Lemma untouched_trans d d1 d2 : untouched d d1 -> untouched d1 d2 -> untouched d d2.
Proof.
  intros (E1 & F1 & K1) (E2 & F2 & K2). split_and!; [congruence| |].
  - intros y Hy. by rewrite F2, F1.
  - intros k' Hk. by rewrite K2, K1.
Qed.

Lemma untouched_set_fifo f d : untouched d (set_fifo x f d).
Proof. split_and!; [by destruct x|by destruct x; intros []|by destruct x; intros []]. Qed.

Lemma untouched_set_env e d : untouched d (set_env e d).
Proof. split_and!; [done|by intros []|by intros []]. Qed.

Lemma untouched_store p copy d : untouched d (store_msg p copy d).
Proof. split_and!; [done|by intros []|by intros []]. Qed.

Lemma untouched_set_rxq q d : untouched d (set_rxq k q d).
Proof. split_and!; [by destruct k|by destruct k; intros []|by destruct k; intros []]. Qed.

Lemma enqueue_room p d :
  dq_wf (get_rxq k d) -> Z.of_nat (length (dq_items (get_rxq k d))) < MAX_MPS_DATAMSG_QLEN ->
  mps_datamsg_enqueue_tail truesize p k d =
    Some (0, set_rxq k (dq_push (get_rxq k d) p) d).
Proof.
  intros Hq Hl. unfold mps_datamsg_enqueue_tail. rewrite dq_full by done.
  rewrite (proj2 (Z.eqb_neq _ _)) by lia. unfold MPS_DATAMSG_SET_Q_ITEM, dq_index.
  destruct Hq as [_ ?]. rewrite !(proj2 (Z.leb_le _ _)) by lia. done.
Qed.

Lemma enqueue_full p d w0 w2 :
  dq_wf (get_rxq k d) -> Z.of_nat (length (dq_items (get_rxq k d))) = MAX_MPS_DATAMSG_QLEN ->
  on_cpu0 d = true -> kmsgs d p !! 0%nat = Some w0 -> kmsgs d p !! 2%nat = Some w2 ->
  mps_datamsg_enqueue_tail truesize p k d =
    Some (- ENOMEM, set_env (free_fn w2 (menv (bufmem d))) d).
Proof.
  intros Hq Hl H0 E0 E2. unfold mps_datamsg_enqueue_tail. rewrite dq_full by done.
  rewrite (proj2 (Z.eqb_eq _ _)) by done. rewrite E0, E2. bind.
  unfold mps_dev_kfree_skb_any. by rewrite H0.
Qed.

(** The read loop on an empty FIFO, and when there is no memory. *)
Lemma read_empty fuel num d :
  fifo_inv (get_fifo x d) [] ->
  exists f, fifo_inv f [] /\ read_msgs truesize fuel x k num d = Some (num, set_fifo x f d).
Proof.
  intros Hi. exists (rewound (get_fifo x d)). split; [apply (rewind_spec _ _ Hi)|].
  destruct fuel; cbn [read_msgs]; by rewrite (ifx_mpsdrv_fifo_not_empty_rewound _ _ Hi).
Qed.

Lemma read_no_memory fuel num d m ms e :
  fifo_inv (get_fifo x d) (m :: ms) -> alloc_fn (menv (bufmem d)) = (0, e) ->
  exists f, fifo_inv f (m :: ms) /\
    read_msgs truesize (S fuel) x k num d = Some (num, set_env e (set_fifo x f d)).
Proof.
  intros Hi Ha. destruct (rewind_spec _ _ Hi) as (_ & _ & Hi' & Hh).
  pose proof (rewound_idem _ _ _ Hh) as Hid. exists (rewound (get_fifo x d)). split; [done|].
  cbn [read_msgs]. rewrite (ifx_mpsdrv_fifo_not_empty_rewound _ _ Hi). bind. cbn [negb].
  rewrite (ifx_mpsdrv_fifo_read_rewound _ _ Hi'), Hid. bind. rewrite set_set_fifo.
  destruct Hh as (Hr & HrN & _). rewrite ld_in by lia. bind. by rewrite bufmem_fifo, Ha.
Qed.
End reading.

(** The state after a message has been copied and queued. *)
Definition queued (x : mbx) (k : rxq) (p : Z) (copy : list Z) (f : mps_fifo) (e : env)
    (d : mps_comm_dev) : mps_comm_dev :=
  set_fifo x f (set_rxq k (dq_push (get_rxq k d) p) (store_msg p copy (set_env e d))).

Lemma get_rxq_store k p copy e d : get_rxq k (store_msg p copy (set_env e d)) = get_rxq k d.
Proof. by destruct k. Qed.

Lemma queued_untouched x k p copy f e d : untouched x k d (queued x k p copy f e d).
Proof.
  unfold queued. eapply untouched_trans; [|apply untouched_set_fifo].
  eapply untouched_trans; [|apply untouched_set_rxq].
  eapply untouched_trans; [apply untouched_set_env|apply untouched_store].
Qed.

Lemma queued_fields x k p copy f e d :
  get_fifo x (queued x k p copy f e d) = f /\
  get_rxq k (queued x k p copy f e d) = dq_push (get_rxq k d) p /\
  menv (bufmem (queued x k p copy f e d)) = e /\
  kmsgs (queued x k p copy f e d) p = copy /\
  forall q, q <> p -> kmsgs (queued x k p copy f e d) q = kmsgs d q.
Proof.
  unfold queued. dev_simpl. split_and!; try done; cbn.
  - by rewrite Z.eqb_refl.
  - intros q Hq. by rewrite (proj2 (Z.eqb_neq q p)).
Qed.

Lemma read_step_room ts x k fuel num d m ms p e :
  fifo_inv (get_fifo x d) (m :: ms) -> alloc_fn (menv (bufmem d)) = (p, e) -> p <> 0 ->
  dq_wf (get_rxq k d) -> Z.of_nat (length (dq_items (get_rxq k d))) < MAX_MPS_DATAMSG_QLEN ->
  exists copy f, is_copy m copy /\ fifo_inv f ms /\
    read_msgs ts (S fuel) x k num d =
      read_msgs ts fuel x k (num + 1) (queued x k p copy f e d).
Proof.
  intros Hi Ha Hp Hq Hl.
  destruct (read_step ts x k fuel num d m ms p e Hi Ha Hp) as (copy & f & f' & Hc & Hf' & Hinc & ->).
  exists copy, f'. split; [done|]. split; [done|].
  rewrite enqueue_room; rewrite get_rxq_store; dev_simpl; try done. bind.
  replace (get_fifo x _) with f by (by destruct x, k). rewrite Hinc. bind. f_equal.
  by destruct x, k.
Qed.

Lemma alloc_cons e p ps : to_alloc e = p :: ps -> alloc_fn e = (p, mk_env ps (freed e)).
Proof. intros H. unfold alloc_fn. by rewrite H. Qed.

Lemma alloc_refused e : hd 0 (to_alloc e) = 0 ->
  exists l, alloc_fn e = (0, mk_env l (freed e)).
Proof.
  unfold alloc_fn. destruct e as [[|p ps] fr]; cbn; [by exists []|intros ->; by exists ps].
Qed.

Lemma read_msgs_room ts x k : forall ms ps fuel num d rest,
  fifo_inv (get_fifo x d) ms -> dq_wf (get_rxq k d) -> (length ms <= fuel)%nat ->
  Z.of_nat (length (dq_items (get_rxq k d))) + Z.of_nat (length ms) <= MAX_MPS_DATAMSG_QLEN ->
  to_alloc (menv (bufmem d)) = ps ++ rest -> Forall (fun p => p <> 0) ps -> NoDup ps ->
  length ps = length ms \/ (length ps < length ms)%nat /\ hd 0 rest = 0 ->
  exists d', read_msgs ts fuel x k num d = Some (num + Z.of_nat (length ps), d') /\
    fifo_inv (get_fifo x d') (drop (length ps) ms) /\ dq_wf (get_rxq k d') /\
    dq_items (get_rxq k d') = dq_items (get_rxq k d) ++ ps /\
    Forall2 (fun p m => is_copy m (kmsgs d' p)) ps (take (length ps) ms) /\
    (forall p, p ∉ ps -> kmsgs d' p = kmsgs d p) /\
    freed (menv (bufmem d')) = freed (menv (bufmem d)) /\
    (length ps = length ms -> to_alloc (menv (bufmem d')) = rest) /\
    untouched x k d d'.
Proof.
  induction ms as [|m ms IH]; intros ps fuel num d rest Hi Hq Hfuel Hl Ha Hnz Hnd Hn.
  { assert (ps = []) as -> by (apply nil_length_inv; cbn in Hn; lia). cbn in Ha.
    destruct (read_empty ts x k fuel num d Hi) as (f & Hf & ->). exists (set_fifo x f d).
    rewrite Z.add_0_r, app_nil_r, drop_nil. dev_simpl. split_and!; try done.
    apply untouched_set_fifo. }
  cbn [length] in Hfuel, Hl, Hn. destruct fuel as [|fuel]; [lia|]. destruct ps as [|p ps].
  { destruct Hn as [Hn|[_ Hn]]; [done|]. cbn in Ha.
    destruct (alloc_refused (menv (bufmem d))) as (l & Hal); [by rewrite Ha|].
    destruct (read_no_memory ts x k fuel num d m ms _ Hi Hal) as (f & Hf & ->).
    exists (set_env (mk_env l (freed (menv (bufmem d)))) (set_fifo x f d)).
    rewrite Z.add_0_r, app_nil_r, drop_0. split; [done|].
    replace (get_fifo x _) with f by (by destruct x).
    replace (get_rxq k _) with (get_rxq k d) by (by destruct x, k).
    split_and!; try done; [intros; cbn; by rewrite kmsgs_fifo|].
    eapply untouched_trans; [apply untouched_set_fifo|apply untouched_set_env]. }
  inversion_clear Hnz as [|?? Hp Hps]. apply NoDup_cons in Hnd as [Hnp Hnd].
  cbn [length app] in Ha, Hn.
  destruct (read_step_room ts x k fuel num d m ms p _ Hi (alloc_cons _ _ _ Ha) Hp Hq ltac:(lia))
    as (copy & f & Hc & Hf & ->).
  destruct (dq_push_spec (get_rxq k d) p Hq ltac:(lia)) as [Hq' Hit].
  set (d1 := queued x k p copy f (mk_env (ps ++ rest) (freed (menv (bufmem d)))) d).
  destruct (queued_fields x k p copy f (mk_env (ps ++ rest) (freed (menv (bufmem d)))) d)
    as (F1 & F2 & F3 & F4 & F5). fold d1 in F1, F2, F3, F4, F5.
  destruct (IH ps fuel (num + 1) d1 rest) as (d' & Hr & Hf' & Hqw & Hqi & Hcp & Hk & Hfr & Hal & Hun);
    rewrite ?F1, ?F2, ?F3; try done; try lia.
  { rewrite Hit, length_app. cbn. lia. }
  exists d'. rewrite F2, F3 in *. cbn [length]. cbn [drop take]. split_and!; try done.
  - rewrite Hr. do 2 f_equal. lia.
  - by rewrite Hqi, Hit, <- app_assoc.
  - constructor; [|done]. rewrite Hk by done. by rewrite F4.
  - intros q [Hqp Hqs]%not_elem_of_cons. rewrite Hk by done. by apply F5.
  - intros E. apply Hal. lia.
  - eapply untouched_trans; [apply queued_untouched|apply Hun].
Qed.

(** The reader of each mailbox and the queue it fills. *)
Definition read_mbx (truesize : Z -> Z) (x : mbx) : mps_comm_dev -> option (Z * mps_comm_dev) :=
  match x with
  | UpCmd => _ifx_mpsdrv_mbx_read_uscMsg truesize | DnCmd => _ifx_mpsdrv_mbx_read_dscMsg truesize
  | UpData => _ifx_mpsdrv_mbx_read_usdMsg truesize | DnData => _ifx_mpsdrv_mbx_read_dsdMsg truesize
  end.
Definition queue_of (x : mbx) : rxq :=
  match x with UpCmd | DnCmd => CmdQ | UpData | DnData => DataQ end.

Lemma read_mbx_eq ts x d :
  read_mbx ts x d = read_msgs ts (read_fuel (get_fifo x d)) x (queue_of x) 0 d.
Proof. by destruct x. Qed.

(** C33: The four mailbox readers terminate and lose nothing as long as there is
    room in the queue of received messages.  With [ps] the allocations that
    succeed (either one per message, or fewer and then a refusal), the first
    [length ps] messages leave the FIFO in order, each is copied into its block
    and the block appended to the queue; the rest stays in the FIFO, for the
    next interrupt.  The number returned is the number queued; nothing is freed
    and no other block, FIFO or queue is touched.  A copy holds the message as
    far as six words go. *)
Theorem mbx_read_copies ts x d ms ps rest :
  let k := queue_of x in
  fifo_inv (get_fifo x d) ms -> dq_wf (get_rxq k d) ->
  Z.of_nat (length (dq_items (get_rxq k d))) + Z.of_nat (length ms) <= MAX_MPS_DATAMSG_QLEN ->
  to_alloc (menv (bufmem d)) = ps ++ rest -> Forall (fun p => p <> 0) ps -> NoDup ps ->
  length ps = length ms \/ (length ps < length ms)%nat /\ hd 0 rest = 0 ->
  exists d', read_mbx ts x d = Some (Z.of_nat (length ps), d') /\
    fifo_inv (get_fifo x d') (drop (length ps) ms) /\
    dq_wf (get_rxq k d') /\ dq_items (get_rxq k d') = dq_items (get_rxq k d) ++ ps /\
    Forall2 (fun p m => is_copy m (kmsgs d' p)) ps (take (length ps) ms) /\
    (forall p, p ∉ ps -> kmsgs d' p = kmsgs d p) /\
    freed (menv (bufmem d')) = freed (menv (bufmem d)) /\ untouched x k d d'.
Proof.
  cbn zeta. intros Hi Hq Hl Ha Hnz Hnd Hn. rewrite read_mbx_eq.
  destruct (read_msgs_room ts x (queue_of x) ms ps (read_fuel (get_fifo x d)) 0 d rest)
    as (d' & Hr & ? & ? & ? & ? & ? & ? & _ & ?); try done.
  { by apply read_fuel_enough. }
  by exists d'.
Qed.

Lemma is_copy_word m copy k :
  is_copy m copy -> (k < length m)%nat -> (k < DATAMSG_WORDS)%nat -> copy !! k = m !! k.
Proof.
  intros [_ E] Hm Hk. rewrite <- (lookup_take_lt copy (length m)) by done.
  by rewrite E, lookup_take_lt.
Qed.

Lemma msg_word m k : (k < length m)%nat -> m !! k = Some (nth k m 0).
Proof. intros H. apply lookup_lt_is_Some_2 in H as [w Hw]. by rewrite Hw, (nth_lookup_Some _ _ _ _ Hw). Qed.

Lemma read_msgs_full ts x k : forall ms ps fuel num d rest,
  on_cpu0 d = true -> dq_wf (get_rxq k d) ->
  Z.of_nat (length (dq_items (get_rxq k d))) = MAX_MPS_DATAMSG_QLEN ->
  fifo_inv (get_fifo x d) ms -> (length ms <= fuel)%nat -> Forall (fun m => (3 <= length m)%nat) ms ->
  to_alloc (menv (bufmem d)) = ps ++ rest -> Forall (fun p => p <> 0) ps -> length ps = length ms ->
  exists d', read_msgs ts fuel x k num d = Some (num + Z.of_nat (length ms), d') /\
    fifo_inv (get_fifo x d') [] /\ get_rxq k d' = get_rxq k d /\
    menv (bufmem d') = mk_env rest (freed (menv (bufmem d)) ++ map (fun m => nth 2 m 0) ms).
Proof.
  induction ms as [|m ms IH]; intros ps fuel num d rest H0 Hq Hful Hi Hfuel Hlen Ha Hnz Hn.
  { apply nil_length_inv in Hn as ->. destruct (read_empty ts x k fuel num d Hi) as (f & Hf & ->).
    exists (set_fifo x f d). rewrite Z.add_0_r, app_nil_r. dev_simpl. split_and!; try done.
    cbn in Ha. rewrite <- Ha. by destruct (menv (bufmem d)). }
  destruct fuel as [|fuel]; [cbn in Hfuel; lia|]. destruct ps as [|p ps]; [done|].
  inversion_clear Hnz as [|?? Hp Hps]. inversion_clear Hlen as [|?? Hm Hms].
  cbn [length app] in *.
  destruct (read_step ts x k fuel num d m ms p _ Hi (alloc_cons _ _ _ Ha) Hp)
    as (copy & f & f' & Hc & Hf' & Hinc & ->).
  set (e := mk_env (ps ++ rest) (freed (menv (bufmem d)))).
  assert (Ec : forall j, (j < 3)%nat -> copy !! j = Some (nth j m 0)).
  { intros j Hj. rewrite (is_copy_word m copy) by first [done | lia | unfold DATAMSG_WORDS; lia].
    apply msg_word. lia. }
  rewrite (enqueue_full ts k p _ (nth 0 m 0) (nth 2 m 0)); rewrite ?get_rxq_store; dev_simpl; try done;
    [|by destruct x|cbn; rewrite Z.eqb_refl; apply Ec; lia|cbn; rewrite Z.eqb_refl; apply Ec; lia].
  bind. replace (get_fifo x _) with f by (by destruct x). rewrite Hinc. bind.
  destruct (IH ps fuel (num + 1)
    (set_fifo x f' (set_env (free_fn (nth 2 m 0) e) (store_msg p copy (set_env e (set_fifo x f d))))) rest)
    as (d' & Hr & Hfd & Hqd & Hed); dev_simpl; try (done || lia); try (by destruct x, k); try (by destruct x).
  exists d'. split_and!; try done.
  - etrans; [exact Hr|]. cbn [length]. do 2 f_equal. lia.
  - rewrite Hqd. by destruct x, k.
  - rewrite Hed. cbn. by rewrite <- app_assoc.
Qed.

(** When the queue of received messages is full the reader drains the FIFO
    all the same, and CPU0 leaks: for each message it frees the buffer named by
    the message's third word, whatever the message is, and neither queues nor
    frees the block it allocated for the copy. *)
Theorem mbx_read_full_leaks ts x d ms ps rest :
  let k := queue_of x in
  on_cpu0 d = true -> dq_wf (get_rxq k d) ->
  Z.of_nat (length (dq_items (get_rxq k d))) = MAX_MPS_DATAMSG_QLEN ->
  fifo_inv (get_fifo x d) ms -> Forall (fun m => (3 <= length m)%nat) ms ->
  to_alloc (menv (bufmem d)) = ps ++ rest -> Forall (fun p => p <> 0) ps -> length ps = length ms ->
  exists d', read_mbx ts x d = Some (Z.of_nat (length ms), d') /\
    fifo_inv (get_fifo x d') [] /\ get_rxq k d' = get_rxq k d /\
    to_alloc (menv (bufmem d')) = rest /\
    freed (menv (bufmem d')) = freed (menv (bufmem d)) ++ map (fun m => nth 2 m 0) ms.
Proof.
  cbn zeta. intros H0 Hq Hful Hi Hlen Ha Hnz Hn. rewrite read_mbx_eq.
  destruct (read_msgs_full ts x (queue_of x) ms ps (read_fuel (get_fifo x d)) 0 d rest)
    as (d' & Hr & Hf & Hqd & He); try done.
  { by apply read_fuel_enough. }
  exists d'. rewrite He. done.
Qed.

(** ** From the queue to the callbacks *)

(** The callback a message goes to, with the copy it gets. *)
Definition deliver (cbs : Z -> Z) (copy : list Z) : option (Z * list Z) :=
  let cb := cbs (msg_seqno (nth 0 copy 0)) in if cb =? 0 then None else Some (cb, copy).

(** What dispatching never touches. *)
Definition dispatched (k : rxq) (d d' : mps_comm_dev) : Prop :=
  (forall x, get_fifo x d' = get_fifo x d) /\
  (forall k', k' <> k -> get_rxq k' d' = get_rxq k' d) /\
  kmsgs d' = kmsgs d /\ callback_function d' = callback_function d /\ regs d' = regs d /\
  to_alloc (menv (bufmem d')) = to_alloc (menv (bufmem d)).

Lemma dispatched_refl k d : dispatched k d d.
Proof. done. Qed.

Lemma dispatched_trans k d d1 d2 : dispatched k d d1 -> dispatched k d1 d2 -> dispatched k d d2.
Proof.
  intros (F1 & Q1 & K1 & C1 & R1 & A1) (F2 & Q2 & K2 & C2 & R2 & A2).
  split_and!; try congruence; intros; first [by rewrite F2, F1|by rewrite Q2, Q1].
Qed.

Lemma dequeue_spec k d :
  dq_wf (get_rxq k d) ->
  mps_datamsg_dequeue_head k d =
    Some (match dq_items (get_rxq k d) with
          | [] => (0, d)
          | p :: _ => (p, set_rxq k (dq_pop (get_rxq k d)) d)
          end).
Proof.
  intros Hq. unfold mps_datamsg_dequeue_head. rewrite dq_empty by done.
  destruct (dq_items (get_rxq k d)) as [|p ps] eqn:E; [done|].
  destruct (dq_pop_spec _ _ _ Hq E) as (_ & _ & Hp).
  unfold MPS_DATAMSG_GET_Q_ITEM, dq_index. destruct Hq as [? _].
  rewrite !(proj2 (Z.leb_le _ _)) by lia. bind. by rewrite Hp.
Qed.

Lemma dispatch_step fuel k d p ps w0 :
  dq_wf (get_rxq k d) -> dq_items (get_rxq k d) = p :: ps -> p <> 0 ->
  kmsgs d p !! 0%nat = Some w0 ->
  exists d', dispatch_msgs (S fuel) k d = dispatch_msgs fuel k d' /\
    dq_wf (get_rxq k d') /\ dq_items (get_rxq k d') = ps /\
    calls d' = calls d ++ option_list (deliver (callback_function d) (kmsgs d p)) /\
    freed (menv (bufmem d')) = freed (menv (bufmem d)) ++ [p] /\ dispatched k d d'.
Proof.
  intros Hq Hps Hp Hw. cbn [dispatch_msgs]. rewrite dequeue_spec, Hps by done. bind.
  apply Z.eqb_neq in Hp. rewrite Hp. dev_simpl. rewrite Hw. bind.
  destruct (dq_pop_spec _ _ _ Hq Hps) as (Hq' & Hps' & _).
  unfold deliver. rewrite (nth_lookup_Some _ _ _ _ Hw).
  destruct (callback_function d (msg_seqno w0) =? 0); cbn [negb option_list].
  - eexists. split; [done|]. rewrite app_nil_r. split_and!; try (by destruct k).
    split_and!; first [by destruct k | intros []; by destruct k | intros [] ?; by destruct k].
  - eexists. split; [done|]. split_and!; try (by destruct k).
    split_and!; first [by destruct k | intros []; by destruct k | intros [] ?; by destruct k].
Qed.

Lemma dispatch_spec k : forall ps fuel d,
  dq_wf (get_rxq k d) -> dq_items (get_rxq k d) = ps -> (length ps <= fuel)%nat ->
  Forall (fun p => p <> 0 /\ is_Some (kmsgs d p !! 0%nat)) ps ->
  exists d', dispatch_msgs fuel k d = Some d' /\
    dq_wf (get_rxq k d') /\ dq_items (get_rxq k d') = [] /\
    calls d' = calls d ++ omap (fun p => deliver (callback_function d) (kmsgs d p)) ps /\
    freed (menv (bufmem d')) = freed (menv (bufmem d)) ++ ps /\ dispatched k d d'.
Proof.
  induction ps as [|p ps IH]; intros fuel d Hq Hps Hfuel Hall.
  { exists d. rewrite !app_nil_r. split_and!; try done.
    destruct fuel; cbn [dispatch_msgs]; by rewrite dequeue_spec, Hps by done. }
  cbn [length] in Hfuel. destruct fuel as [|fuel]; [lia|].
  inversion_clear Hall as [|?? [Hp [w0 Hw]] Hall'].
  destruct (dispatch_step fuel k d p ps w0 Hq Hps Hp Hw) as (d1 & -> & Hq1 & Hps1 & Hc1 & Hf1 & Hd1).
  pose proof Hd1 as (_ & _ & Hk1 & Hcb1 & _).
  destruct (IH fuel d1 Hq1 Hps1 ltac:(lia)) as (d' & Hd' & Hq' & Hi' & Hc' & Hf' & Hdd').
  { by rewrite Hk1. }
  exists d'. split_and!; try done.
  - rewrite Hc', Hc1, Hk1, Hcb1, <- app_assoc. f_equal. cbn.
    by destruct (deliver _ (kmsgs d p)).
  - by rewrite Hf', Hf1, <- app_assoc.
  - by apply (dispatched_trans k d d1).
Qed.

Definition dispatch_mbx (x : mbx) : mps_comm_dev -> option mps_comm_dev :=
  match x with
  | UpCmd => ifx_mps_cpu0_do_UpCmd_tasklet | DnCmd => ifx_mps_cpu1_do_DnCmd_tasklet
  | UpData => ifx_mps_cpu0_do_UpData_tasklet | DnData => ifx_mps_cpu1_do_DnData_tasklet
  end.

Lemma length_dq_items q : dq_wf q -> (length (dq_items q) <= dispatch_fuel)%nat.
Proof.
  intros Hq%as_ring_wf. pose proof (length_contents _ Hq) as Hl. pose proof (count_bounds _ Hq) as Hc.
  cbn [as_ring maxcount] in Hc. unfold dq_items, dispatch_fuel, MAX_MPS_DATAMSG_QLEN in *. lia.
Qed.

Lemma dispatch_mbx_spec x d :
  let k := queue_of x in let ps := dq_items (get_rxq k d) in
  dq_wf (get_rxq k d) -> Forall (fun p => p <> 0 /\ is_Some (kmsgs d p !! 0%nat)) ps ->
  exists d', dispatch_mbx x d = Some d' /\
    dq_wf (get_rxq k d') /\ dq_items (get_rxq k d') = [] /\
    calls d' = calls d ++ omap (fun p => deliver (callback_function d) (kmsgs d p)) ps /\
    freed (menv (bufmem d')) = freed (menv (bufmem d)) ++ ps /\ dispatched k d d'.
Proof.
  cbn zeta. intros Hq Hall. pose proof (length_dq_items _ Hq) as Hl.
  assert (Hd : exists dt ct, dispatch_mbx x d = dispatch_msgs dispatch_fuel (queue_of x) (set_tasklets dt ct d))
    by (destruct x; by do 2 eexists).
  destruct Hd as (dt & ct & ->).
  destruct (dispatch_spec (queue_of x) (dq_items (get_rxq (queue_of x) d)) dispatch_fuel (set_tasklets dt ct d))
    as (d' & Hd' & Hrest); try done; try (by destruct x).
  exists d'. split; [done|]. destruct Hrest as (? & ? & ? & ? & (HF & HQ & ?)). by split_and!.
Qed.

(** A tasklet terminates; it empties its queue of received messages and
    hands every message, in the order of arrival, to the callback registered
    for the message's sequence number (a message without one is dropped), and
    frees every block exactly once, in that order.  FIFOs, registers, callbacks
    and the other queue stay as they are. *)
Theorem tasklet_dispatches x d :
  let k := queue_of x in let ps := dq_items (get_rxq k d) in
  dq_wf (get_rxq k d) -> Forall (fun p => p <> 0 /\ is_Some (kmsgs d p !! 0%nat)) ps ->
  exists d', dispatch_mbx x d = Some d' /\
    dq_wf (get_rxq k d') /\ dq_items (get_rxq k d') = [] /\
    calls d' = calls d ++ omap (fun p => deliver (callback_function d) (kmsgs d p)) ps /\
    freed (menv (bufmem d')) = freed (menv (bufmem d)) ++ ps /\ dispatched k d d'.
Proof. apply dispatch_mbx_spec. Qed.

(** ** From the interrupt to the callbacks *)

Definition scheduled (k : rxq) (d : mps_comm_dev) : bool :=
  match k with DataQ => data_tasklet d | CmdQ => cmd_tasklet d end.

(** The allocations [ps] serve the messages [ms], one block each. *)
Definition blocks_for (ms : list (list Z)) (ps : list Z) : Prop :=
  length ps = length ms /\ Forall (fun p => p <> 0) ps /\ NoDup ps /\
  Z.of_nat (length ms) <= MAX_MPS_DATAMSG_QLEN.

(** [d'] is [d] after the messages [ms] of mailbox [x] went into the queue. *)
Definition moved (x : mbx) (ms : list (list Z)) (ps rest : list Z) (d d' : mps_comm_dev) : Prop :=
  let k := queue_of x in
  fifo_inv (get_fifo x d') [] /\ dq_wf (get_rxq k d') /\ dq_items (get_rxq k d') = ps /\
  Forall2 (fun p m => is_copy m (kmsgs d' p)) ps ms /\
  (forall p, p ∉ ps -> kmsgs d' p = kmsgs d p) /\
  menv (bufmem d') = mk_env rest (freed (menv (bufmem d))) /\
  callback_function d' = callback_function d /\ calls d' = calls d /\
  (forall y, y <> x -> get_fifo y d' = get_fifo y d) /\
  (forall k', k' <> k -> get_rxq k' d' = get_rxq k' d /\ scheduled k' d' = scheduled k' d) /\
  (ms <> [] -> scheduled k d' = true).

Lemma env_eta e : e = mk_env (to_alloc e) (freed e).
Proof. by destruct e. Qed.

Lemma read_schedule_moves ts x d ms ps rest :
  let k := queue_of x in
  fifo_inv (get_fifo x d) ms -> dq_wf (get_rxq k d) -> dq_items (get_rxq k d) = [] ->
  blocks_for ms ps -> to_alloc (menv (bufmem d)) = ps ++ rest ->
  exists d', read_and_schedule (read_mbx ts x) k d = Some d' /\ moved x ms ps rest d d'.
Proof.
  cbn zeta. intros Hi Hq He (Hn & Hnz & Hnd & Hl) Ha. unfold read_and_schedule. rewrite read_mbx_eq.
  destruct (read_msgs_room ts x (queue_of x) ms ps (read_fuel (get_fifo x d)) 0 d rest)
    as (d' & -> & Hf & Hqw & Hqi & Hcp & Hk & Hfr & Hal & Hun); try done.
  { by apply read_fuel_enough. } { by rewrite He. } { by left. }
  bind. rewrite Hn in *. rewrite drop_all in Hf. rewrite firstn_all in Hcp. rewrite He in Hqi.
  destruct Hun as (Hu & HF & HQ). injection Hu as Hu1 Hu2 Hu3 Hu4 Hu5 Hu6.
  assert (Hm : menv (bufmem d') = mk_env rest (freed (menv (bufmem d))))
    by (rewrite (env_eta (menv (bufmem d'))), Hal, Hfr; done).
  eexists. split; [done|].
  destruct (0 + Z.of_nat (length ms) =? 0) eqn:E; bool_prop; cbn [negb].
  - split_and!; try done.
    + intros k' Hk'. rewrite (HQ k' Hk'). by destruct k'.
    + intros Hms. destruct ms; [done|cbn in E; lia].
  - destruct x; cbn [queue_of schedule] in *; split_and!; try done.
    all: first [intros y Hy; rewrite <- (HF y Hy); by destruct y
               |intros k' Hk'; rewrite <- (HQ k' Hk'); by destruct k'].
Qed.

Lemma moved_count_irq x ms ps rest d d1 :
  moved x ms ps rest d d1 -> moved x ms ps rest d (count_irq d1).
Proof.
  intros (?&?&?&?&?&?&?&?&HF&HQ&?). destruct x; split_and!; try done.
  all: first [intros y Hy; rewrite <- (HF y Hy); by destruct y
             |intros k' Hk'; destruct (HQ k' Hk'); by destruct k'].
Qed.

Lemma moved_set_regs x ms ps rest r d d1 :
  moved x ms ps rest (set_regs r d) d1 -> moved x ms ps rest d d1.
Proof.
  intros (?&?&?&?&?&?&?&?&?&?&?). by split_and!.
Qed.

(** The part of it that is about the mailbox itself. *)
Definition arrived (x : mbx) (ms : list (list Z)) (ps rest : list Z) (d d' : mps_comm_dev) : Prop :=
  let k := queue_of x in
  dq_wf (get_rxq k d') /\ dq_items (get_rxq k d') = ps /\
  Forall2 (fun p m => is_copy m (kmsgs d' p)) ps ms /\
  menv (bufmem d') = mk_env rest (freed (menv (bufmem d))) /\
  callback_function d' = callback_function d /\ calls d' = calls d.

Lemma moved_arrived x ms ps rest d d1 : moved x ms ps rest d d1 -> arrived x ms ps rest d d1.
Proof. intros (?&?&?&?&?&?&?&?&_). by split_and!. Qed.

Lemma arrived_dispatch x ms ps rest d d1 :
  Forall (fun p => p <> 0) ps -> arrived x ms ps rest d d1 ->
  exists d2, dispatch_mbx x d1 = Some d2 /\
    dq_wf (get_rxq (queue_of x) d2) /\ dq_items (get_rxq (queue_of x) d2) = [] /\
    calls d2 = calls d ++ omap (fun p => deliver (callback_function d) (kmsgs d1 p)) ps /\
    freed (menv (bufmem d2)) = freed (menv (bufmem d)) ++ ps /\ dispatched (queue_of x) d1 d2.
Proof.
  intros Hnz (Hq & Hit & Hcp & He & Hcb & Hca).
  destruct (dispatch_mbx_spec x d1) as (d2 & Hd2 & Hq2 & Hi2 & Hc2 & Hf2 & Hdd); try done.
  { rewrite Hit. apply Forall_forall. intros p Hp. split; [by apply (proj1 (Forall_forall _ _) Hnz)|].
    apply list_elem_of_lookup in Hp as [i Hp].
    destruct (Forall2_lookup_l _ _ _ _ _ Hcp Hp) as (m & _ & [Hlen _]).
    apply lookup_lt_is_Some_2. rewrite Hlen. unfold DATAMSG_WORDS. lia. }
  exists d2. rewrite Hit, Hcb, Hca, He in *. by split_and!.
Qed.

(** The handler of each mailbox of CPU1, and its bit in the status register. *)
Definition cpu1_irq (ts : Z -> Z) (ws : bool -> Z -> Z) (w0 : Z) (data : bool) (irq : Z)
  : mps_comm_dev -> option mps_comm_dev :=
  if data then ifx_mpsdrv_data1_irq ts irq else ifx_mpsdrv_cmd1_irq ts ws w0 irq.

Lemma cpu1_irq_moves ts ws w0 data irq d ms ps rest :
  let x := rx_mbx false data in
  Z.testbit (reg d DANUBE_MPS_CPU0_2_CPU1_IRDR) (if data then 5 else 4) = true ->
  fifo_inv (get_fifo x d) ms -> dq_wf (get_rxq (queue_of x) d) ->
  dq_items (get_rxq (queue_of x) d) = [] -> blocks_for ms ps ->
  to_alloc (menv (bufmem d)) = ps ++ rest ->
  exists d1, cpu1_irq ts ws w0 data irq d = Some d1 /\ moved x ms ps rest d d1.
Proof.
  cbn zeta. intros Hs Hi Hq He Hb Ha. unfold cpu1_irq. destruct data; cbn [rx_mbx queue_of] in *.
  - unfold ifx_mpsdrv_data1_irq. change 0x20 with (1 .<< 5).
    rewrite (land_bit_eqb0 _ 5), Hs by lia. cbn [negb].
    set (d0 := mask_and_ack irq _).
    destruct (read_schedule_moves ts DnData d0 ms ps rest) as (d1 & Hr & Hm); try done.
    cbn [read_mbx queue_of] in Hr. rewrite Hr. bind.
    exists (count_irq d1). split; [done|]. by apply moved_count_irq, moved_set_regs, moved_set_regs in Hm.
  - unfold ifx_mpsdrv_cmd1_irq. change 0x10 with (1 .<< 4).
    rewrite (land_bit_eqb0 _ 4), Hs by lia. cbn [negb].
    set (d0 := mask_and_ack irq _).
    assert (Hd0 : exists r, serve_stats ws w0 d0 = set_regs r d).
    { unfold serve_stats. destruct (negb _); by eexists. }
    destruct Hd0 as [r ->].
    destruct (read_schedule_moves ts DnCmd (set_regs r d) ms ps rest) as (d1 & Hr & Hm); try done.
    cbn [read_mbx queue_of] in Hr. rewrite Hr. bind.
    exists (count_irq d1). split; [done|]. by apply moved_count_irq, moved_set_regs in Hm.
Qed.

Lemma copies_of (km : Z -> list Z) ps ms :
  Forall2 (fun p m => is_copy m (km p)) ps ms -> Forall2 is_copy ms (map km ps).
Proof. intros H. induction H; by constructor. Qed.

Lemma copies_frame (km km' : Z -> list Z) ps ms :
  Forall2 (fun p m => is_copy m (km p)) ps ms -> (forall p, p ∈ ps -> km' p = km p) ->
  Forall2 (fun p m => is_copy m (km' p)) ps ms.
Proof.
  intros H. induction H as [|p m ps ms Hc H IH]; intros Hk; constructor.
  - rewrite Hk; [done|]. by left.
  - apply IH. intros q Hq. apply Hk. by right.
Qed.

Lemma omap_deliver cbs (km : Z -> list Z) ps :
  omap (fun p => deliver cbs (km p)) ps = omap (deliver cbs) (map km ps).
Proof. induction ps as [|p ps IH]; cbn; [done|]. destruct (deliver _ _); by rewrite IH. Qed.

(** C2: End to end on CPU1.  When the interrupt of a downstream mailbox is
    raised, with the queue of received messages empty and a block to be had for
    every message, the handler empties the FIFO into the queue and schedules
    the tasklet if there was anything; the tasklet then passes every message to
    the callback of its sequence number, in the order of sending, and every
    block is freed.  Nothing is left in FIFO or queue. *)
Theorem cpu1_delivery ts ws w0 data irq d ms ps rest :
  let x := rx_mbx false data in
  Z.testbit (reg d DANUBE_MPS_CPU0_2_CPU1_IRDR) (if data then 5 else 4) = true ->
  fifo_inv (get_fifo x d) ms -> dq_wf (get_rxq (queue_of x) d) ->
  dq_items (get_rxq (queue_of x) d) = [] -> blocks_for ms ps ->
  to_alloc (menv (bufmem d)) = ps ++ rest ->
  exists d1 d2 copies,
    cpu1_irq ts ws w0 data irq d = Some d1 /\ (ms <> [] -> scheduled (queue_of x) d1 = true) /\
    dispatch_mbx x d1 = Some d2 /\
    fifo_inv (get_fifo x d2) [] /\ dq_items (get_rxq (queue_of x) d2) = [] /\
    Forall2 is_copy ms copies /\
    calls d2 = calls d ++ omap (deliver (callback_function d)) copies /\
    menv (bufmem d2) = mk_env rest (freed (menv (bufmem d)) ++ ps).
Proof.
  cbn zeta. intros Hs Hi Hq He Hb Ha.
  destruct (cpu1_irq_moves ts ws w0 data irq d ms ps rest) as (d1 & Hd1 & Hm); try done.
  destruct (arrived_dispatch _ _ _ _ _ _ (proj1 (proj2 Hb)) (moved_arrived _ _ _ _ _ _ Hm))
    as (d2 & Hd2 & Hq2 & Hi2 & Hc2 & Hf2 & (HF & _ & _ & _ & _ & HA)).
  destruct Hm as (Hf & _ & _ & Hcp & _ & Hme & _ & _ & _ & _ & Hsch).
  exists d1, d2, (map (kmsgs d1) ps). split_and!; try done.
  - by rewrite HF.
  - by apply copies_of.
  - by rewrite Hc2, omap_deliver.
  - rewrite (env_eta (menv _)), HA, Hf2, Hme. done.
Qed.

Lemma cmd0_irq_moves ts irq d msd msc psd psc rest :
  Z.testbit (reg d DANUBE_MPS_RAD0SR) 1 = true -> Z.testbit (reg d DANUBE_MPS_RAD0SR) 0 = true ->
  fifo_inv (up_data d) msd -> fifo_inv (up_cmd d) msc ->
  dq_wf (mps_rcvDataMsgQ d) -> dq_items (mps_rcvDataMsgQ d) = [] ->
  dq_wf (mps_rcvCmdMsgQ d) -> dq_items (mps_rcvCmdMsgQ d) = [] ->
  blocks_for msd psd -> blocks_for msc psc -> NoDup (psd ++ psc) ->
  to_alloc (menv (bufmem d)) = psd ++ psc ++ rest ->
  exists d1, ifx_mpsdrv_cmd0_irq ts irq d = Some d1 /\
    fifo_inv (up_data d1) [] /\ fifo_inv (up_cmd d1) [] /\
    arrived UpData msd psd rest d d1 /\ arrived UpCmd msc psc rest d d1 /\
    (msd <> [] -> data_tasklet d1 = true) /\ (msc <> [] -> cmd_tasklet d1 = true).
Proof.
  intros H1 H0 Hid Hic Hqd Hed Hqc Hec Hbd Hbc Hnd Ha.
  unfold ifx_mpsdrv_cmd0_irq. rewrite H1, H0. set (d0 := set_event _ _).
  destruct (read_schedule_moves ts UpData d0 msd psd (psc ++ rest)) as (d1 & Hr1 & Hm1); try done.
  cbn [read_mbx queue_of] in Hr1. rewrite Hr1. bind.
  destruct Hm1 as (Hf1 & Hq1 & Hi1 & Hcp1 & _ & He1 & Hcb1 & Hca1 & HF1 & HQ1 & Hs1).
  destruct (HQ1 CmdQ ltac:(done)) as [Hcmd Hct].
  destruct (read_schedule_moves ts UpCmd d1 msc psc rest) as (d2 & Hr2 & Hm2);
    cbn [queue_of]; rewrite ?Hcmd, ?(HF1 UpCmd), ?He1 by done; try done.
  cbn [read_mbx queue_of] in Hr2. rewrite Hr2. bind.
  destruct Hm2 as (Hf2 & Hq2 & Hi2 & Hcp2 & Hk2 & He2 & Hcb2 & Hca2 & HF2 & HQ2 & Hs2).
  destruct (HQ2 DataQ ltac:(done)) as [Hdat Hdt]. cbn [get_rxq scheduled get_fifo queue_of] in *.
  exists (count_irq d2). split; [done|]. rewrite He1 in He2. cbn [freed] in He2.
  assert (Hud : up_data d2 = up_data d1) by by apply (HF2 UpData).
  unfold arrived. cbn [queue_of get_rxq count_irq set_command kmsgs bufmem callback_function calls
    up_data up_cmd mps_rcvDataMsgQ mps_rcvCmdMsgQ data_tasklet cmd_tasklet].
  rewrite Hud, Hdat, Hdt, Hcb2, Hcb1, Hca2, Hca1. split_and!; try done.
  apply (copies_frame (kmsgs d1)); [done|]. intros p Hp. apply Hk2.
  apply NoDup_app in Hnd as (_ & Hnd & _). by apply Hnd.
Qed.

(** C24: End to end on CPU0, whose single handler serves both upstream
    mailboxes.  With data and command signalled, both queues empty and distinct
    blocks to be had, the handler empties both FIFOs into their queues and
    schedules the tasklets that have work; the data tasklet and then the command
    tasklet pass every message to its callback, each mailbox in the order of
    sending, and every block is freed. *)
Theorem cpu0_delivery ts irq d msd msc psd psc rest :
  Z.testbit (reg d DANUBE_MPS_RAD0SR) 1 = true -> Z.testbit (reg d DANUBE_MPS_RAD0SR) 0 = true ->
  fifo_inv (up_data d) msd -> fifo_inv (up_cmd d) msc ->
  dq_wf (mps_rcvDataMsgQ d) -> dq_items (mps_rcvDataMsgQ d) = [] ->
  dq_wf (mps_rcvCmdMsgQ d) -> dq_items (mps_rcvCmdMsgQ d) = [] ->
  blocks_for msd psd -> blocks_for msc psc -> NoDup (psd ++ psc) ->
  to_alloc (menv (bufmem d)) = psd ++ psc ++ rest ->
  exists d1 d2 d3 cd cc,
    ifx_mpsdrv_cmd0_irq ts irq d = Some d1 /\
    (msd <> [] -> data_tasklet d1 = true) /\ (msc <> [] -> cmd_tasklet d1 = true) /\
    ifx_mps_cpu0_do_UpData_tasklet d1 = Some d2 /\ ifx_mps_cpu0_do_UpCmd_tasklet d2 = Some d3 /\
    fifo_inv (up_data d3) [] /\ fifo_inv (up_cmd d3) [] /\
    dq_items (mps_rcvDataMsgQ d3) = [] /\ dq_items (mps_rcvCmdMsgQ d3) = [] /\
    Forall2 is_copy msd cd /\ Forall2 is_copy msc cc /\
    calls d3 = calls d ++ omap (deliver (callback_function d)) cd
                       ++ omap (deliver (callback_function d)) cc /\
    freed (menv (bufmem d3)) = freed (menv (bufmem d)) ++ psd ++ psc.
Proof.
  intros H1 H0 Hid Hic Hqd Hed Hqc Hec Hbd Hbc Hnd Ha.
  destruct (cmd0_irq_moves ts irq d msd msc psd psc rest)
    as (d1 & Hd1 & Hfd & Hfc & Had & Hac & Hsd & Hsc); try done.
  destruct (arrived_dispatch UpData _ _ _ _ _ (proj1 (proj2 Hbd)) Had)
    as (d2 & Hd2 & Hq2 & Hi2 & Hc2 & Hf2 & (HF2 & HQ2 & HK2 & HC2 & _ & HA2)).
  assert (HQ : mps_rcvCmdMsgQ d2 = mps_rcvCmdMsgQ d1) by by apply (HQ2 CmdQ).
  pose proof Had as (_ & _ & Hcpd & Hed1 & _).
  destruct Hac as (Hqc1 & Hic1 & Hcpc & He1 & Hcb1 & Hca1). cbn [queue_of get_rxq] in *.
  destruct (arrived_dispatch UpCmd msc psc rest d2 d2 (proj1 (proj2 Hbc)))
    as (d3 & Hd3 & Hq3 & Hi3 & Hc3 & Hf3 & (HF3 & HQ3 & HK3 & HC3 & _ & HA3)).
  { unfold arrived. cbn [queue_of get_rxq]. rewrite HQ, HK2. split_and!; try done.
    rewrite (env_eta (menv (bufmem d2))), HA2, He1. done. }
  exists d1, d2, d3, (map (kmsgs d1) psd), (map (kmsgs d1) psc). cbn [queue_of get_rxq] in *.
  split_and!; try done.
  - change (fifo_inv (get_fifo UpData d3) []). by rewrite HF3, HF2.
  - change (fifo_inv (get_fifo UpCmd d3) []). by rewrite HF3, HF2.
  - change (dq_items (get_rxq DataQ d3) = []). by rewrite HQ3.
  - by apply copies_of.
  - by apply copies_of.
  - by rewrite Hc3, Hc2, HC2, HK2, Hcb1, !omap_deliver, <- app_assoc.
  - by rewrite Hf3, Hf2, <- app_assoc.
Qed.

(** ** Ready bits and statistics requests *)

Lemma testbit_mask16 i : 0 <= i -> Z.testbit MPS_MPS1_APPS_READY_BITMASK i = (i <? 16).
Proof.
  intros Hi. change MPS_MPS1_APPS_READY_BITMASK with (Z.ones 16).
  destruct (i <? 16) eqn:E; bool_prop; [apply Z.ones_spec_low|apply Z.ones_spec_high]; lia.
Qed.

Lemma low_bit_fp n : 0 <= n < 16 ->
  w32 (1 .<< n) .& MPS_MPS1_APPS_READY_FP_MASK = 0 /\
  w32 (.~ (1 .<< n)) .& MPS_MPS1_APPS_READY_FP_MASK = MPS_MPS1_APPS_READY_FP_MASK.
Proof.
  intros H. assert (Hall : Forall (fun n => w32 (1 .<< n) .& MPS_MPS1_APPS_READY_FP_MASK = 0 /\
    w32 (.~ (1 .<< n)) .& MPS_MPS1_APPS_READY_FP_MASK = MPS_MPS1_APPS_READY_FP_MASK)
    (map Z.of_nat (seq 0 16))) by (repeat constructor).
  apply (proj1 (Forall_forall _ _) Hall), list_elem_of_In, in_map_iff.
  exists (Z.to_nat n). rewrite in_seq. lia.
Qed.

(** A word with the fingerprint, and its ready bits. *)
Lemma get_bits_fp d w :
  MPS_MPS1_APPS_READY_FP = w .& MPS_MPS1_APPS_READY_FP_MASK ->
  ifx_mpsdrv_get_mps1_apps_ready_bits (wr apps_ready_word w d) = w .& MPS_MPS1_APPS_READY_BITMASK.
Proof.
  intros H. unfold ifx_mpsdrv_get_mps1_apps_ready_bits, reg, wr. cbn [regs set_regs].
  rewrite upd_eq. by rewrite (proj2 (Z.eqb_eq _ _) H).
Qed.

(** The ready bits of the applications on CPU1 are sixteen independent
    flags: after a call for bit [n] the reader sees bit [n] as requested and
    every other bit as before, whether the word carried the fingerprint (was in
    use) or not. *)
Theorem apps_ready_bit_update clr_set n d i :
  0 <= n < 16 -> 0 <= i ->
  Z.testbit (ifx_mpsdrv_get_mps1_apps_ready_bits
               (ifx_mpsdrv_ctrl_mps1_apps_ready_bit clr_set n d)) i =
  if i =? n then negb (clr_set =? 0) else Z.testbit (ifx_mpsdrv_get_mps1_apps_ready_bits d) i.
Proof.
  intros Hn Hi. destruct (low_bit_fp n Hn) as [Hset Hclr].
  unfold ifx_mpsdrv_ctrl_mps1_apps_ready_bit.
  set (w := reg d apps_ready_word). rewrite get_bits_fp.
  - unfold ifx_mpsdrv_get_mps1_apps_ready_bits. fold w. rewrite Z.land_spec, testbit_mask16 by done.
    destruct (MPS_MPS1_APPS_READY_FP =? _) eqn:E; bool_prop; rewrite ?Z.bits_0, ?Z.land_spec, ?testbit_mask16 by done.
    all: destruct (negb (clr_set =? 0)); rewrite ?Z.lor_spec, ?Z.land_spec.
    all: destruct (i <? 16) eqn:E16; bool_prop; rewrite ?andb_true_r, ?andb_false_r;
      [|rewrite (proj2 (Z.eqb_neq i n)) by lia; done].
    all: rewrite ?testbit_w32, ?Z.lnot_spec, ?testbit_1_shiftl by lia;
      rewrite ?(bool_decide_true (i < 32)), ?andb_true_r by lia.
    all: try (replace (Z.testbit MPS_MPS1_APPS_READY_FP i) with false
      by (assert (Hb : (i <? 16) && Z.testbit MPS_MPS1_APPS_READY_FP i = false)
            by (rewrite <- testbit_mask16, <- Z.land_spec by done; apply Z.bits_0);
          rewrite (proj2 (Z.ltb_lt i 16)) in Hb by done; by destruct (Z.testbit _ i))).
    all: destruct (i =? n) eqn:Ein; bool_prop; [rewrite ?bool_decide_true by done|rewrite ?bool_decide_false by done].
    all: by destruct (Z.testbit w i).
  - destruct (MPS_MPS1_APPS_READY_FP =? _) eqn:E, (negb (clr_set =? 0)); bool_prop.
    + by rewrite Z.land_lor_distr_l, Hset, Z.lor_0_r.
    + by rewrite <- Z.land_assoc, Hclr.
    + by rewrite Z.land_lor_distr_l, Hset, Z.lor_0_r.
    + done.
Qed.

Lemma stats_lookup_device ws w0 dev (wireless : bool) :
  0 <= dev < 4 ->
  stats_lookup ws w0 ((if wireless then 0x80000000 else 0) .| w32 (1 .<< dev)) = ws wireless dev.
Proof.
  intros H. assert (dev = 0 \/ dev = 1 \/ dev = 2 \/ dev = 3) as Hd by lia.
  destruct_or! Hd; subst; by destruct wireless.
Qed.

(** The stats word before and after the request is served. *)
Lemma serve_stats_answer ws w0 mask d :
  mask <> 0 ->
  let d1 := wr DANUBE_MPS_CPU0_2_CPU1_IRR 0x10 (wr stats_word mask d) in
  core1_stats_poll d1 = None /\
  core1_stats_poll (serve_stats ws w0 d1) = Some (stats_lookup ws w0 mask) /\
  reg (serve_stats ws w0 d1) apps_ready_word = stats_lookup ws w0 mask.
Proof.
  intros Hm. cbn zeta. apply Z.eqb_neq in Hm.
  assert (Hs : reg (wr DANUBE_MPS_CPU0_2_CPU1_IRR 0x10 (wr stats_word mask d)) stats_word = mask)
    by done.
  unfold core1_stats_poll, serve_stats. rewrite Hs, Hm. cbn [negb].
  unfold reg, wr. cbn [regs set_regs]. by split_and!.
Qed.

(** The statistics request of CPU0 is answered: before CPU1 has served it
    the poll does not end, afterwards it yields the statistics block CPU1 keeps
    for the device asked for (one of the four wireless devices, for either kind
    of statistics, or the special first device).  But the answer travels in the
    word that holds the ready bits, so that, whatever bits were set before, none
    is afterwards (an address does not carry the fingerprint). *)
Theorem stats_request_protocol ws w0 d dev (wireless : bool) :
  0 <= dev < 4 \/ dev = VNET_WIFI0_MAGIC_NUM /\ wireless = false ->
  let d1 := if wireless then core1_wireless_stats_request dev d else core1_wifi_stats_request dev d in
  let d2 := serve_stats ws w0 d1 in
  let stats := if dev =? VNET_WIFI0_MAGIC_NUM then w0 else ws wireless dev in
  core1_stats_poll d1 = None /\ core1_stats_poll d2 = Some stats /\
  reg d1 DANUBE_MPS_CPU0_2_CPU1_IRR = 0x10 /\
  (stats .& MPS_MPS1_APPS_READY_FP_MASK <> MPS_MPS1_APPS_READY_FP ->
   ifx_mpsdrv_get_mps1_apps_ready_bits d2 = 0).
Proof.
  intros Hdev. cbn zeta.
  set (mask := if wireless then 0x80000000 .| w32 (1 .<< dev) else wifi_mask dev).
  set (stats := if dev =? _ then w0 else _).
  assert (Hmask : mask <> 0 /\ stats_lookup ws w0 mask = stats).
  { unfold mask, stats, wifi_mask. destruct Hdev as [Hdev|[-> ->]]; [|done].
    assert ((dev =? VNET_WIFI0_MAGIC_NUM) = false) as -> by (apply Z.eqb_neq; unfold VNET_WIFI0_MAGIC_NUM; lia).
    pose proof (stats_lookup_device ws w0 dev wireless Hdev) as Hl.
    assert (dev = 0 \/ dev = 1 \/ dev = 2 \/ dev = 3) as Hd by lia.
    destruct_or! Hd; subst; by destruct wireless. }
  destruct Hmask as [Hm Hl].
  destruct (serve_stats_answer ws w0 mask d Hm) as (H1 & H2 & H3). rewrite Hl in *.
  assert (Hd1 : (if wireless then core1_wireless_stats_request dev d
    else core1_wifi_stats_request dev d) =
    wr DANUBE_MPS_CPU0_2_CPU1_IRR 0x10 (wr stats_word mask d)) by (unfold mask; by destruct wireless).
  rewrite Hd1. split_and!; try done. intros Hfp.
  unfold ifx_mpsdrv_get_mps1_apps_ready_bits. rewrite H3.
  by rewrite (proj2 (Z.eqb_neq _ _)) by congruence.
Qed.

(** ** Registration, opening and closing *)

(** The callback table: a free sequence number takes a callback, a taken one
    refuses another (and nothing changes), and unregistering gives the number
    back, leaving the table as it was; an unregistration of a free number is
    refused. *)
Theorem callback_registration d s cb cb' :
  cb <> 0 ->
  let (ret, d1) := ifx_mpsdrv_register_callback s cb d in
  if callback_function d s =? 0 then
    ret = OK /\ callback_function d1 s = cb /\
    (forall i, i <> s -> callback_function d1 i = callback_function d i) /\
    ifx_mpsdrv_register_callback s cb' d1 = (ERROR, d1) /\
    ifx_mpsdrv_unregister_callback s d = (ERROR, d) /\
    (let (ret2, d2) := ifx_mpsdrv_unregister_callback s d1 in
     ret2 = OK /\ forall i, callback_function d2 i = callback_function d i)
  else ret = ERROR /\ d1 = d.
Proof.
  intros Hcb. unfold ifx_mpsdrv_register_callback, ifx_mpsdrv_unregister_callback.
  destruct (callback_function d s =? 0) eqn:E; bool_prop; cbn [negb]; [|done].
  cbn [callback_function set_callbacks]. rewrite upd_eq, (proj2 (Z.eqb_neq cb 0)) by done. cbn [negb].
  split_and!; try done.
  - intros i Hi. by apply upd_ne.
  - intros i. cbn [callback_function set_callbacks]. unfold upd.
    destruct (i =? s) eqn:Ei; bool_prop; [by subst; rewrite E|done].
Qed.

(** The calls of the open and close functions: the command channel passes
    [flagCmnd], the others do not. *)
Inductive chan_op := Open (c : channel) | Close (c : channel).
Definition is_command (c : channel) : bool := match c with Command => true | _ => false end.
Definition chan_step (op : chan_op) (d : mps_comm_dev) : mps_comm_dev :=
  match op with
  | Open c => snd (ifx_mpsdrv_common_open c (is_command c) d)
  | Close c => snd (ifx_mpsdrv_common_close c d)
  end.

(** The enable register: command interrupts as long as the command channel is
    open, data interrupts as long as one of the others is. *)
Definition enable_inv (d : mps_comm_dev) : Prop :=
  Z.testbit (reg d DANUBE_MPS_AD0ENR) 0 = Installed (command_mbx d) /\
  Z.testbit (reg d DANUBE_MPS_AD0ENR) 1 = Installed (wifi0 d) || Installed (wifi1 d).

(** The two conditions after an update of the register. *)
Ltac enable_simpl :=
  rewrite ?upd_eq, ?testbit_bit_set, ?testbit_bit_clr by lia;
  repeat match goal with
  | |- context [bool_decide (?a = ?b)] =>
      first [rewrite (bool_decide_true (a = b)) by lia | rewrite (bool_decide_false (a = b)) by lia]
  end;
  repeat match goal with H : Z.testbit _ _ = _ |- _ => rewrite H end;
  repeat match goal with H : Installed _ = _ |- _ => rewrite H end;
  split; btauto.

Lemma chan_step_inv op d : enable_inv d -> enable_inv (chan_step op d).
Proof.
  intros [H0 H1]. unfold reg in *. destruct op as [c|c]; cbn [chan_step].
  - unfold ifx_mpsdrv_common_open. destruct (Installed (get_chan c d)) eqn:E; [done|].
    destruct c; unfold enable_inv, reg, wr;
      cbn -[upd bit_set Z.testbit DANUBE_MPS_AD0ENR] in *; enable_simpl.
  - unfold ifx_mpsdrv_common_close.
    destruct c; unfold enable_inv, reg, wr; cbn -[upd bit_clr Z.testbit DANUBE_MPS_AD0ENR] in *.
    + enable_simpl.
    + destruct (Installed (wifi1 d)) eqn:E;
        cbn -[upd bit_clr Z.testbit DANUBE_MPS_AD0ENR] in *; enable_simpl.
    + destruct (Installed (wifi0 d)) eqn:E;
        cbn -[upd bit_clr Z.testbit DANUBE_MPS_AD0ENR] in *; enable_simpl.
Qed.

(** Over any sequence of opens and closes, refused ones included, the
    mailbox interrupt enables follow the open channels: command interrupts are
    enabled exactly while the command channel is open, data interrupts exactly
    while one of the data channels is.  A channel that is open is refused. *)
Theorem open_close_enables ops d :
  enable_inv d ->
  enable_inv (fold_left (fun d op => chan_step op d) ops d) /\
  forall c, Installed (get_chan c d) = true -> ifx_mpsdrv_common_open c (is_command c) d = (ERROR, d).
Proof.
  intros Hi. split.
  - revert d Hi. induction ops as [|op ops IH]; intros d Hi; [done|]. by apply IH, chan_step_inv.
  - intros c Hc. unfold ifx_mpsdrv_common_open. by rewrite Hc.
Qed.

(** ** Reset *)

Lemma clear_drained f : fifo_inv f [] -> fifo_inv (ifx_mpsdrv_fifo_clear f) [].
Proof.
  intros Hi. pose proof Hi as (Hsz & _ & Hl). pose proof (f_words_bounds f Hsz).
  assert (H1 : msg_ready (f_mem f 1) = false).
  { destruct Hl as [(Hrw & _ & Hc & Hnr & _ & H0)|(ms1 & ms2 & e & Hnil & Hl)].
    - destruct H0 as [Hr|[_ ?]]; [|done]. cbn in Hc. by rewrite <- Hc, Hr in Hnr.
    - symmetry in Hnil. apply app_eq_nil in Hnil as [-> ->].
      destruct Hl as (_ & _ & _ & _ & _ & Hc2 & [(_ & _ & ?)|(_ & Hnr & _)]); [done|].
      cbn in Hc2. by rewrite <- Hc2 in Hnr. }
  split; [done|]. split; [done|]. left. unfold lap_same; cbn. change (f_words _) with (f_words f).
  split_and!; try done; try lia.
Qed.

Lemma get_fifo_reset x d :
  get_fifo x (snd (ifx_mpsdrv_reset_structures d)) = reset_fifo (get_fifo x d).
Proof. by destruct x. Qed.

(** Resetting the structures of a device whose mailboxes are drained leaves
    four empty FIFOs, cleared counters and an empty callback table; the
    semaphore is available. *)
Theorem reset_drained d d' :
  dev_inv d (fun _ => []) -> 0 <= wakeup_pending d -> ifx_mpsdrv_reset_structures d = (OK, d') ->
  dev_inv d' (fun _ => []) /\
  (forall i, 0 <= i < MPSDRV_TOTAL_SEQ_NUMBERS -> callback_function d' i = 0) /\
  (forall c, RxnumBytes (get_chan c d') = 0 /\ RxnumIRQs (get_chan c d') = 0 /\
             Installed (get_chan c d') = Installed (get_chan c d)) /\
  (forall x, min_space (get_fifo x d') = f_size (get_fifo x d)) /\
  1 <= wakeup_pending d'.
Proof.
  intros Hi Hw E. assert (d' = snd (ifx_mpsdrv_reset_structures d)) as -> by by rewrite E. clear E.
  split_and!.
  - intros x. rewrite get_fifo_reset. apply set_min_space_inv, clear_drained, Hi.
  - intros i Hr. cbn. by rewrite (proj2 (Z.leb_le _ _)), (proj2 (Z.ltb_lt _ _)) by lia.
  - intros c. by destruct c.
  - intros x. by rewrite get_fifo_reset.
  - cbn. unfold up_if_zero. split_if; lia.
Qed.

(** Resetting does not discard messages.  It moves the two indices of a
    FIFO but leaves the ready marks in place: a message that stands unread at
    the start of its FIFO is still reported, is received after the reset, and
    until it has been every send through that FIFO is refused. *)
Theorem reset_keeps_unread d x m ms m' w1 :
  fifo_inv (get_fifo x d) (m :: ms) -> pread_off (rewound (get_fifo x d)) = 0 ->
  sendable m' -> m' !! 1%nat = Some w1 ->
  let f := get_fifo x (snd (ifx_mpsdrv_reset_structures d)) in
  (exists f', ifx_mpsdrv_fifo_not_empty f = Some (true, f')) /\
  (exists f', fifo_receive f = Some (Some m, f')) /\
  ifx_mpsdrv_fifo_write f m' (MPS_MSGHDR_LEN + msg_len w1) = Some (ERROR, f).
Proof.
  intros Hi Hr0 Hm' Hw1. cbn zeta. rewrite get_fifo_reset. pose proof Hi as (Hsz & Hst & _).
  inversion_clear Hst as [|?? Hm _].
  destruct (rewind_spec _ _ Hi) as (_ & _ & _ & Hh).
  assert (Hmem : f_mem (rewound (get_fifo x d)) = f_mem (get_fifo x d) /\
    f_words (rewound (get_fifo x d)) = f_words (get_fifo x d))
    by (unfold rewound; by destruct (msg_next_wrapped _)).
  destruct Hmem as [Hmem Hwd]. unfold head_at in Hh. rewrite Hr0, Hmem, Hwd in Hh. clear Hr0 Hmem Hwd.
  revert Hsz Hh. generalize (get_fifo x d). clear - Hm. intros f0 Hsz (_ & HrN & Hs & HmN & Hrd & Hnw & Hlen).
  set (f := reset_fifo f0).
  assert (Hld : ld f 1 = Some (f_mem f0 1)) by (apply (ld_in f 1); change (f_words f) with (f_words f0); lia).
  change (0 + 1) with 1 in *. split_and!.
  - unfold ifx_mpsdrv_fifo_not_empty. change (pread_off f + 1) with 1. rewrite Hld. bind.
    rewrite Hnw. change (pread_off f + 1) with 1. rewrite Hld. bind. rewrite Hrd. by eexists.
  - unfold fifo_receive, ifx_mpsdrv_fifo_read. change (pread_off f + 1) with 1. rewrite Hld. bind.
    rewrite Hnw. change (pread_off f + 1) with 1. rewrite Hld. bind. rewrite Hrd. bind. cbn [negb].
    bind. change (pread_off f + 1) with 1. rewrite Hld. bind. rewrite Hrd, Hlen, Nat2Z.id.
    rewrite (read_words_spec f (length m) (pread_off f) m) by (try done; apply HmN || lia). bind.
    unfold ifx_mpsdrv_fifo_read_ptr_inc. split_if; [by eexists|].
    change (pread_off f + 1) with 1. rewrite Hld. bind. rewrite st_in; [bind; by eexists|].
    change (f_words f) with (f_words f0). lia.
  - unfold ifx_mpsdrv_fifo_write. split_if; [done|]. change (pwrite_off f + 1) with 1.
    rewrite Hld. bind. by rewrite Hrd.
Qed.

(** ** Start-up *)

Lemma init_fifo_inv size f :
  8 <= size < 2 ^ 30 -> fifo_inv (set_min_space (f_size (init_fifo size f)) (init_fifo size f)) [].
Proof.
  intros Hsz. apply set_min_space_inv.
  pose proof (f_words_bounds (init_fifo size f) Hsz) as Hw. unfold f_words in Hw. cbn in Hw.
  assert (H1 : f_mem (init_fifo size f) (0 + 1) = 0).
  { cbn. by rewrite (proj2 (Z.ltb_lt 1 _)) by lia. }
  split; [done|]. split; [done|]. left. unfold lap_same.
  change (pread_off (init_fifo size f)) with 0. change (pwrite_off (init_fifo size f)) with 0.
  rewrite H1. unfold f_words. cbn [f_size init_fifo]. split_and!; try done; lia || by left.
Qed.

Lemma datamsg_init_empty q : dq_wf (mps_datamsg_queue_init q) /\ dq_items (mps_datamsg_queue_init q) = [].
Proof. split; [unfold dq_wf, MAX_MPS_DATAMSG_QLEN; cbn; lia|done]. Qed.

(** The semaphores of a start-up that gets the blocks [ps]. *)
Definition sems_of (ps : list Z) : mps_sems :=
  let g i := nth i ps 0 in
  mk_sems (g 0%nat) (g 1%nat) [(g 2%nat, g 3%nat, g 4%nat); (g 5%nat, g 6%nat, g 7%nat)] (g 8%nat).

(** A device as start-up leaves it. *)
Definition started (pool_head : Z) (rest : list Z) (d d' : mps_comm_dev) : Prop :=
  (forall i, callback_function d' i = 0) /\
  (forall c, Installed (get_chan c d') = false) /\
  (forall x, min_space (get_fifo x d') =
     f_size (get_fifo (match x with DnData => UpData | _ => x end) d')) /\
  (forall k, dq_wf (get_rxq k d') /\ dq_items (get_rxq k d') = []) /\
  wakeup_pending d' = 1 /\ menv (bufmem d') = mk_env rest (freed (menv (bufmem d))) /\
  (if on_cpu0 d
   then dev_inv d' (fun _ => []) /\ reg d' (MBX_CPU0_BOOT_CFG + MPS_CFG_STAT) = pool_head
   else (forall ls, dev_inv d ls -> dev_inv d' ls) /\
        pool_array (bufmem d') = (reg d (MBX_CPU0_BOOT_CFG + MPS_CFG_STAT) =? pool_head)).

Lemma init_prefix_env pool_head entry d : menv (bufmem (init_prefix pool_head entry d)) = menv (bufmem d).
Proof.
  unfold init_prefix. change (on_cpu0 (zero_dev d)) with (on_cpu0 d). destruct (on_cpu0 d); [|done].
  unfold init_shared_cpu0. by destruct (negb (entry =? 0)).
Qed.

Lemma sem_alloc_cons e p ps : to_alloc e = p :: ps -> p <> 0 -> sem_alloc e = Some (p, mk_env ps (freed e)).
Proof. intros H Hp. unfold sem_alloc. rewrite (alloc_cons _ _ _ H). by rewrite (proj2 (Z.eqb_neq p 0)). Qed.

Lemma sem_alloc_refused e : hd 0 (to_alloc e) = 0 -> sem_alloc e = None.
Proof. intros H. destruct (alloc_refused e H) as [l Hl]. unfold sem_alloc. by rewrite Hl. Qed.

Lemma wifi_sem_refused e :
  hd 0 (to_alloc e) = 0 -> exists e', wifi_sem_init e = Some (None, e').
Proof. intros H. destruct (alloc_refused e H) as [l Hl]. unfold wifi_sem_init. rewrite Hl. by eexists. Qed.

Lemma wifi_sem_cons e p ps :
  to_alloc e = p :: ps -> p <> 0 ->
  wifi_sem_init e =
    ('(sem_read, e) ← sem_alloc (mk_env ps (freed e));
     '(wakeup, e) ← sem_alloc e; Some (Some (p, sem_read, wakeup), e)).
Proof.
  intros H Hp. unfold wifi_sem_init. rewrite (alloc_cons _ _ _ H). by rewrite (proj2 (Z.eqb_neq p 0)).
Qed.

Lemma init_shared_cpu0_fifo pool_head entry d x :
  get_fifo x (init_shared_cpu0 pool_head entry d) =
    init_fifo (match x with UpCmd | DnCmd => MBX_CMD_FIFO_SIZE | _ => MBX_DATA_FIFO_SIZE end)
      (get_fifo x d).
Proof. unfold init_shared_cpu0. destruct (negb (entry =? 0)); by destruct x. Qed.

Lemma init_shared_cpu0_word pool_head entry d :
  reg (init_shared_cpu0 pool_head entry d) (MBX_CPU0_BOOT_CFG + MPS_CFG_STAT) = pool_head.
Proof. unfold init_shared_cpu0. by destruct (negb (entry =? 0)). Qed.

(** What the prefix leaves for the rest of the start-up. *)
Definition prefix_ok (pool_head : Z) (d d1 : mps_comm_dev) : Prop :=
  (forall i, callback_function d1 i = 0) /\ Installed (command_mbx d1) = false /\
  min_space (up_cmd d1) = f_size (up_cmd d1) /\ min_space (dn_cmd d1) = f_size (dn_cmd d1) /\
  menv (bufmem d1) = menv (bufmem d) /\
  (if on_cpu0 d
   then (forall x, fifo_inv (get_fifo x d1) []) /\
        reg d1 (MBX_CPU0_BOOT_CFG + MPS_CFG_STAT) = pool_head
   else (forall x ms, fifo_inv (get_fifo x d) ms -> fifo_inv (get_fifo x d1) ms) /\
        pool_array (bufmem d1) = (reg d (MBX_CPU0_BOOT_CFG + MPS_CFG_STAT) =? pool_head)).

Lemma init_prefix_ok pool_head entry d : prefix_ok pool_head d (init_prefix pool_head entry d).
Proof.
  unfold prefix_ok. rewrite init_prefix_env. unfold init_prefix.
  change (on_cpu0 (zero_dev d)) with (on_cpu0 d). destruct (on_cpu0 d).
  - set (d1 := init_shared_cpu0 pool_head entry (zero_dev d)).
    assert (Hf : forall x, exists size f, 8 <= size < 2 ^ 30 /\ get_fifo x d1 = init_fifo size f).
    { intros x. do 2 eexists. split; [|apply init_shared_cpu0_fifo].
      destruct x; unfold MBX_CMD_FIFO_SIZE, MBX_DATA_FIFO_SIZE; lia. }
    assert (Hc : forall i, callback_function d1 i = 0)
      by (intros i; unfold d1, init_shared_cpu0; by destruct (negb (entry =? 0))).
    assert (Hi : Installed (command_mbx d1) = false)
      by (unfold d1, init_shared_cpu0; by destruct (negb (entry =? 0))).
    split_and!; try done; [|apply init_shared_cpu0_word].
    intros x. destruct (Hf x) as (size & f & Hs & E).
    destruct x; cbn [get_fifo set_dn_cmd set_up_cmd up_cmd dn_cmd up_data dn_data] in *;
      rewrite E; exact (init_fifo_inv size f Hs).
  - split_and!; try done. intros x ms Hi. destruct x; exact Hi.
Qed.

(** One allocation of the start-up, granted or refused. *)
Ltac init_alloc :=
  match goal with
  | H : to_alloc ?e = _ :: _ |- context [sem_alloc ?e] =>
      rewrite (sem_alloc_cons e _ _ H) by done; bind; clear H
  | H : to_alloc ?e = _ :: _ |- context [wifi_sem_init ?e] =>
      rewrite (wifi_sem_cons e _ _ H) by done; clear H
  | |- context [sem_alloc (mk_env (?p :: ?ps) ?f)] =>
      rewrite (sem_alloc_cons (mk_env (p :: ps) f) p ps eq_refl) by done; bind; cbn [freed]
  | |- context [wifi_sem_init (mk_env (?p :: ?ps) ?f)] =>
      rewrite (wifi_sem_cons (mk_env (p :: ps) f) p ps eq_refl) by done; cbn [freed]
  | H : hd 0 (to_alloc ?e) = 0 |- context [sem_alloc ?e] =>
      rewrite (sem_alloc_refused e H); bind; clear H
  | H : hd 0 ?l = 0 |- context [sem_alloc (mk_env ?l ?f)] =>
      rewrite (sem_alloc_refused (mk_env l f) H); bind; clear H
  | H : hd 0 ?l = 0 |- context [wifi_sem_init (mk_env ?l ?f)] =>
      let e := fresh in destruct (wifi_sem_refused (mk_env l f) H) as [e ->]; bind; clear H
  end.

Lemma init_cases pool_head entry d ps rest :
  to_alloc (menv (bufmem d)) = ps ++ rest -> Forall (fun p => p <> 0) ps ->
  length ps = 9%nat \/ (length ps < 9)%nat /\ hd 0 rest = 0 ->
  match length ps with
  | 9%nat => exists d', ifx_mpsdrv_initial_structures pool_head entry d = Some (OK, sems_of ps, d') /\
      started pool_head rest d d'
  | 2%nat | 5%nat => exists s d', ifx_mpsdrv_initial_structures pool_head entry d = Some (ERROR, s, d')
  | _ => ifx_mpsdrv_initial_structures pool_head entry d = None
  end.
Proof.
  intros Ha Hnz Hlen. pose proof (init_prefix_ok pool_head entry d) as Hp.
  unfold ifx_mpsdrv_initial_structures. set (d1 := init_prefix pool_head entry d) in *. clearbody d1.
  destruct Hp as (Hcb & Hin & Hm1 & Hm2 & He & Hcpu).
  rewrite He. set (e0 := menv (bufmem d)) in *.
  (* fewer than nine *)
  do 9 (destruct ps as [|? ps];
    [cbn [length app] in *; destruct Hlen as [Hlen|[_ Hhd]]; [done|];
     repeat (inversion_clear Hnz as [|?? ? Hnz']; rename Hnz' into Hnz);
     try rewrite <- Ha in Hhd; repeat init_alloc; first [done | by do 2 eexists]
    |]).
  destruct ps; cbn [length app] in *; [|destruct Hlen; lia]. clear Hlen.
  repeat (inversion_clear Hnz as [|?? ? Hnz']; rename Hnz' into Hnz).
  repeat init_alloc. eexists. split; [reflexivity|].
  unfold started. split_and!; try done; try (intros []; try done; apply datamsg_init_empty).
  destruct (on_cpu0 d); destruct Hcpu as [Hf Hr]; (split; [|done]).
  - intros x. destruct x; [apply (Hf UpCmd)|apply (Hf DnCmd)|apply (Hf UpData)|apply (Hf DnData)].
  - intros ls Hls x. pose proof (Hf x _ (Hls x)) as H'. destruct x; exact H'.
Qed.

(** The outcome of the start-up for every number of semaphores the
    allocator grants.  With all nine it succeeds: the callback table is empty,
    no channel open, the queues of received messages empty, and on CPU0 the
    four FIFOs are empty and the address of the pool array is published, while
    on CPU1 the FIFOs keep the messages CPU0 has already sent and the pools are
    usable exactly if the published address is CPU0's.  A refusal of the
    semaphore of a wifi channel is reported; any other refusal is not noticed
    and initialises a semaphore at address 0. *)
Theorem init_outcomes pool_head entry d ps rest :
  to_alloc (menv (bufmem d)) = ps ++ rest -> Forall (fun p => p <> 0) ps ->
  length ps = 9%nat \/ (length ps < 9)%nat /\ hd 0 rest = 0 ->
  match length ps with
  | 9%nat => exists d', ifx_mpsdrv_initial_structures pool_head entry d = Some (OK, sems_of ps, d') /\
      started pool_head rest d d'
  | 2%nat | 5%nat => exists s d', ifx_mpsdrv_initial_structures pool_head entry d = Some (ERROR, s, d')
  | _ => ifx_mpsdrv_initial_structures pool_head entry d = None
  end.
Proof. apply init_cases. Qed.

(** Releasing the structures after a successful start-up frees every
    semaphore but one: the read semaphore of the command mailbox, the second
    allocation, is never given back. *)
Theorem release_leaks_one pool_head entry d ps rest :
  to_alloc (menv (bufmem d)) = ps ++ rest -> Forall (fun p => p <> 0) ps -> length ps = 9%nat ->
  exists d', ifx_mpsdrv_initial_structures pool_head entry d = Some (OK, sems_of ps, d') /\
    freed (menv (bufmem (ifx_mpsdrv_release_structures (sems_of ps) d'))) =
      freed (menv (bufmem d)) ++ delete 1%nat ps.
Proof.
  intros Ha Hnz Hlen. pose proof (init_cases pool_head entry d ps rest Ha Hnz (or_introl Hlen)) as H.
  rewrite Hlen in H. destruct H as (d' & Hd' & (_ & _ & _ & _ & _ & He & _)).
  exists d'. split; [done|]. unfold ifx_mpsdrv_release_structures. cbn. rewrite He. cbn [freed].
  do 9 (destruct ps as [|? ps]; [done|]). destruct ps; [|done]. cbn. by rewrite <- !app_assoc.
Qed.

(** Downloading firmware to CPU1.  On CPU0 the image is copied to its load
    address while CPU1 is held in reset, size and entry point are published in
    its boot configuration, the mailboxes are reset, and CPU1's reset line is
    released at the end.  On CPU1 neither reset nor release happens, yet the
    image is copied and success reported all the same. *)
Theorem firmware_download load exec fw d :
  let (ret, d') := ifx_mpsdrv_download_firmware load exec fw d in
  ret = OK /\ loads d' = loads d ++ [(load, fw)] /\
  reg d' (MBX_CPU1_BOOT_CFG + MPS_BOOT_SIZE) = Z.of_nat (length fw) /\
  reg d' (MBX_CPU1_BOOT_CFG + MPS_BOOT_RVEC) = exec /\
  if on_cpu0 d
  then Z.testbit (reg (snd (ifx_mpsdrv_reset d)) DANUBE_RCU_RST_REQ) 3 = true /\
       Z.testbit (reg d' DANUBE_RCU_RST_REQ) 3 = false /\
       (forall x, get_fifo x d' = reset_fifo (get_fifo x d)) /\
       (forall i, 0 <= i < MPSDRV_TOTAL_SEQ_NUMBERS -> callback_function d' i = 0)
  else reg d' DANUBE_RCU_RST_REQ = reg d DANUBE_RCU_RST_REQ /\
       forall x, get_fifo x d' = get_fifo x d.
Proof.
  unfold ifx_mpsdrv_download_firmware, ifx_mpsdrv_release, ifx_mpsdrv_reset.
  assert (Hcpu : on_cpu0 d = (ebase_cpu_num d .& 0x03FF =? 0)).
  { unfold on_cpu0, ifx_mpsdrv_get_cpu_id. by destruct (_ =? 0). }
  rewrite Hcpu. destruct (ebase_cpu_num d .& 0x03FF =? 0) eqn:E.
  - cbn -[Z.testbit Z.land Z.lor Z.lnot upd]. rewrite E. cbn -[Z.testbit Z.land Z.lor Z.lnot upd].
    split_and!; try done.
    + unfold reg, wr, rst_req_or. cbn -[Z.testbit Z.land Z.lor Z.lnot upd].
      rewrite upd_eq, Z.lor_spec. apply orb_true_r.
    + unfold reg, wr, rst_req_or, rst_req_and. cbn -[Z.testbit Z.land Z.lor Z.lnot upd].
      rewrite upd_eq, Z.land_spec. apply andb_false_r.
    + intros x. by destruct x.
    + intros i Hi. cbn. by rewrite (proj2 (Z.leb_le _ _)), (proj2 (Z.ltb_lt _ _)) by lia.
  - cbn -[Z.testbit Z.land Z.lor Z.lnot upd]. rewrite E. cbn -[Z.testbit Z.land Z.lor Z.lnot upd].
    split_and!; try done. 
Qed.

Lemma mbx_eq_dec (x y : mbx) : x = y \/ x <> y.
Proof. destruct x, y; first [left; reflexivity|right; discriminate]. Qed.

Lemma min_space_set_fifo x y g d :
  min_space (get_fifo y d) <= min_space g ->
  min_space (get_fifo x d) <= min_space (get_fifo x (set_fifo y g d)).
Proof.
  intros H. destruct (mbx_eq_dec y x) as [->|Hne].
  - by rewrite get_set_fifo.
  - by rewrite get_set_fifo_ne.
Qed.

(** The statistic meant to record the least free space of a FIFO never goes
    down: whatever a send does, the value afterwards is at least the value
    before, for every FIFO. *)
Theorem send_min_space_grows d ls m w0 w1 ret m' d' x :
  dev_inv d ls -> sendable m -> m !! 0%nat = Some w0 -> m !! 1%nat = Some w1 ->
  ifx_mpsdrv_mbx_send m d = Some (ret, m', d') ->
  min_space (get_fifo x d) <= min_space (get_fifo x d').
Proof.
  intros Hi Hm H0 H1. unfold ifx_mpsdrv_mbx_send. rewrite H0, H1. bind.
  destruct (send_route _ _) as [[[y r] v]|]; [|by intros ?; simplify_eq].
  destruct (negb (ifx_mpsdrv_fifo_mem_request _ _)); [by intros ?; simplify_eq|].
  destruct (send_write_spec _ _ _ _ (Hi y) Hm H1) as (rt & f & -> & Hmin & _). bind.
  destruct (negb _); [intros ?; simplify_eq|].
  { apply min_space_set_fifo. lia. }
  split_if; intros ?; simplify_eq; dev_simpl; rewrite ?get_fifo_wr; apply min_space_set_fifo; cbn; lia.
Qed.

(** ** Concrete instances *)

(** A data message for sequence number 7, as sent and as it stands in a FIFO. *)
Definition sample_msg : list Z := [0x02070000; 0x4; 0x1000].
Definition sample_fifo : mps_fifo :=
  mk_fifo (fun i => if i =? 0 then 0x02070000 else if i =? 1 then 0x8004
                    else if i =? 2 then 0x1000 else 0) 0 3 64 64.
Definition sample_queue : MPS_DATAMSG_LIST := mps_datamsg_queue_init (mk_dq (fun _ => 0) 5 5).
Definition full_queue : MPS_DATAMSG_LIST := mk_dq (fun i => i + 1) 0 1024.
Definition sample_pool (allocs : list Z) : mps_mem :=
  mk_mem true (fun _ => None) 0 0 0 0 1 true (mk_env allocs []).
Definition sample_dev (cpu : Z) (f : mps_fifo) (q : MPS_DATAMSG_LIST) (allocs : list Z)
    (r : Z -> Z) : mps_comm_dev :=
  mk_dev cpu f f f f 64 64 fresh_mbx fresh_mbx fresh_mbx 1 (fun s => if s =? 7 then 0x500 else 0) 3 0
    q q (fun _ => []) (sample_pool allocs) r false false [] [].

Lemma sample_msg_sendable : sendable sample_msg.
Proof. by exists 0x4. Qed.

Lemma sample_stored : stored (mark_ready sample_msg).
Proof. apply mark_ready_stored, sample_msg_sendable. Qed.

Lemma sample_inv : fifo_inv sample_fifo [mark_ready sample_msg].
Proof.
  split; [done|]. split; [repeat constructor; apply sample_stored|]. left.
  split_and!; try done; [|by left]. split; [|done]. by do 3 (apply seg_cons; split; [done|]).
Qed.

Lemma sample_dev_inv cpu q allocs r :
  dev_inv (sample_dev cpu sample_fifo q allocs r) (fun _ => [mark_ready sample_msg]).
Proof. intros x. destruct x; exact sample_inv. Qed.

Lemma fresh_dev_inv cpu q allocs r :
  dev_inv (sample_dev cpu (fresh_fifo 64) q allocs r) (fun _ => []).
Proof. intros x. destruct x; by apply (fresh_inv 64). Qed.

Lemma mbx_send_outcomes_witness :
  let d := sample_dev 0 sample_fifo sample_queue [] (fun _ => 0) in
  (ifx_mpsdrv_mbx_send sample_msg d = Some (- EAGAIN, sample_msg, d) /\
     ifx_mpsdrv_fifo_mem_available sample_fifo < MPS_MSGHDR_LEN + msg_len 0x4) \/
  (exists f, ifx_mpsdrv_mbx_send sample_msg d = Some (- ENOMEM, mark_ready sample_msg, set_fifo DnData f d) /\
     fifo_inv f [mark_ready sample_msg]) \/
  (exists f, ifx_mpsdrv_mbx_send sample_msg d =
     Some (OK, mark_ready sample_msg, doorbell true true (set_fifo DnData f d)) /\
     fifo_inv f ([mark_ready sample_msg] ++ [mark_ready sample_msg])).
Proof.
  exact (mbx_send_outcomes (sample_dev 0 sample_fifo sample_queue [] (fun _ => 0))
    (fun _ => [mark_ready sample_msg]) sample_msg 0x02070000 0x4
    (sample_dev_inv _ _ _ _) sample_msg_sendable eq_refl eq_refl).
Defined.

Lemma mbx_rcv_head_witness :
  let d := sample_dev 1 sample_fifo sample_queue [] (fun _ => 0) in
  exists f, fifo_inv f [] /\
    ifx_mpsdrv_mbx_rcv 0 d = Some (OK, mark_ready sample_msg, set_dn_data f (count_wifi1 12 d)).
Proof.
  exact (mbx_rcv_head (sample_dev 1 sample_fifo sample_queue [] (fun _ => 0))
    (fun _ => [mark_ready sample_msg]) 0 (sample_dev_inv _ _ _ _)).
Defined.

Lemma sample_queue_wf : dq_wf sample_queue.
Proof. apply datamsg_init_empty. Qed.

Lemma full_queue_wf : dq_wf full_queue.
Proof. unfold dq_wf, MAX_MPS_DATAMSG_QLEN; cbn; lia. Qed.

Lemma full_queue_full : Z.of_nat (length (dq_items full_queue)) = MAX_MPS_DATAMSG_QLEN.
Proof. unfold dq_items. rewrite (length_contents _ (as_ring_wf _ full_queue_wf)). reflexivity. Qed.

Lemma mbx_read_copies_witness :
  let d := sample_dev 1 sample_fifo sample_queue [0x900] (fun _ => 0) in
  exists d', read_mbx (fun _ => 0) DnData d = Some (1, d') /\ fifo_inv (dn_data d') [] /\
    dq_items (mps_rcvDataMsgQ d') = [0x900].
Proof.
  destruct (mbx_read_copies (fun _ => 0) DnData (sample_dev 1 sample_fifo sample_queue [0x900] (fun _ => 0))
    [mark_ready sample_msg] [0x900] [] sample_inv sample_queue_wf) as (d' & H1 & H2 & H3 & H4 & _).
  - vm_compute. discriminate.
  - reflexivity.
  - repeat constructor; discriminate.
  - repeat constructor. apply not_elem_of_nil.
  - by left.
  - exists d'. by split_and!.
Defined.

Lemma mbx_read_full_leaks_witness :
  let d := sample_dev 0 sample_fifo full_queue [0x900] (fun _ => 0) in
  exists d', read_mbx (fun _ => 0) UpCmd d = Some (1, d') /\ get_rxq CmdQ d' = full_queue /\
    to_alloc (menv (bufmem d')) = [] /\ freed (menv (bufmem d')) = [0x1000].
Proof.
  destruct (mbx_read_full_leaks (fun _ => 0) UpCmd (sample_dev 0 sample_fifo full_queue [0x900] (fun _ => 0))
    [mark_ready sample_msg] [0x900] [] eq_refl full_queue_wf full_queue_full sample_inv)
    as (d' & H1 & _ & H2 & H3 & H4).
  - repeat constructor.
  - reflexivity.
  - repeat constructor; discriminate.
  - reflexivity.
  - exists d'. by split_and!.
Defined.

Lemma tasklet_dispatches_witness :
  let d := set_kmsgs (fun p => if p =? 0x900 then mark_ready sample_msg else [])
    (sample_dev 0 sample_fifo (dq_push sample_queue 0x900) [] (fun _ => 0)) in
  exists d', dispatch_mbx UpData d = Some d' /\ calls d' = [(0x500, mark_ready sample_msg)] /\
    freed (menv (bufmem d')) = [0x900].
Proof.
  destruct (tasklet_dispatches UpData (set_kmsgs (fun p => if p =? 0x900 then mark_ready sample_msg else [])
    (sample_dev 0 sample_fifo (dq_push sample_queue 0x900) [] (fun _ => 0)))) as (d' & H1 & _ & _ & H4 & H5 & _).
  - unfold dq_wf, MAX_MPS_DATAMSG_QLEN; cbn; lia.
  - repeat constructor; [discriminate|by eexists].
  - exists d'. by split_and!.
Defined.

Definition sample_irdr : Z -> Z := upd (fun _ => 0) DANUBE_MPS_CPU0_2_CPU1_IRDR 0x20.
Definition sample_rad0 : Z -> Z := upd (fun _ => 0) DANUBE_MPS_RAD0SR 0x3.

Lemma sample_blocks p : p <> 0 -> blocks_for [mark_ready sample_msg] [p].
Proof.
  intros Hp. split_and!; [done|by repeat constructor|repeat constructor; apply not_elem_of_nil|done].
Qed.

Lemma cpu1_delivery_witness :
  let d := sample_dev 1 sample_fifo sample_queue [0x900] sample_irdr in
  exists d1 d2 copies,
    cpu1_irq (fun _ => 0) (fun _ _ => 0) 0 true 5 d = Some d1 /\
    dispatch_mbx (rx_mbx false true) d1 = Some d2 /\
    Forall2 is_copy [mark_ready sample_msg] copies /\
    calls d2 = omap (deliver (callback_function d)) copies /\
    freed (menv (bufmem d2)) = [0x900].
Proof.
  destruct (cpu1_delivery (fun _ => 0) (fun _ _ => 0) 0 true 5
    (sample_dev 1 sample_fifo sample_queue [0x900] sample_irdr) [mark_ready sample_msg] [0x900] []
    eq_refl sample_inv sample_queue_wf eq_refl (sample_blocks 0x900 ltac:(discriminate)) eq_refl)
    as (d1 & d2 & copies & H1 & _ & H2 & _ & _ & H3 & H4 & H5).
  exists d1, d2, copies. split; [exact H1|]. split; [exact H2|]. split; [exact H3|].
  split; [exact H4|]. rewrite H5. reflexivity.
Defined.

Lemma cpu0_delivery_witness :
  let d := sample_dev 0 sample_fifo sample_queue [0x900; 0xA00] sample_rad0 in
  exists d1 d2 d3,
    ifx_mpsdrv_cmd0_irq (fun _ => 0) 146 d = Some d1 /\
    ifx_mps_cpu0_do_UpData_tasklet d1 = Some d2 /\ ifx_mps_cpu0_do_UpCmd_tasklet d2 = Some d3 /\
    freed (menv (bufmem d3)) = [0x900; 0xA00].
Proof.
  destruct (cpu0_delivery (fun _ => 0) 146
    (sample_dev 0 sample_fifo sample_queue [0x900; 0xA00] sample_rad0)
    [mark_ready sample_msg] [mark_ready sample_msg] [0x900] [0xA00] [] eq_refl eq_refl
    sample_inv sample_inv sample_queue_wf eq_refl sample_queue_wf eq_refl
    (sample_blocks 0x900 ltac:(discriminate)) (sample_blocks 0xA00 ltac:(discriminate)))
    as (d1 & d2 & d3 & cd & cc & H1 & _ & _ & H2 & H3 & _ & _ & _ & _ & _ & _ & _ & H4).
  - by apply (bool_decide_unpack (NoDup [0x900; 0xA00])).
  - reflexivity.
  - exists d1, d2, d3. split; [exact H1|]. split; [exact H2|]. split; [exact H3|exact H4].
Defined.

Lemma apps_ready_bit_update_witness :
  let d := sample_dev 1 sample_fifo sample_queue [] (fun _ => 0) in
  Z.testbit (ifx_mpsdrv_get_mps1_apps_ready_bits (ifx_mpsdrv_ctrl_mps1_apps_ready_bit 1 5 d)) 5 = true.
Proof.
  exact (apps_ready_bit_update 1 5 (sample_dev 1 sample_fifo sample_queue [] (fun _ => 0)) 5
    ltac:(lia) ltac:(lia)).
Defined.

Lemma stats_request_protocol_witness :
  let d := sample_dev 1 sample_fifo sample_queue [] (fun _ => 0) in
  let ws := fun (b : bool) i => 0x80002000 + i in
  core1_stats_poll (serve_stats ws 0 (core1_wireless_stats_request 2 d)) = Some 0x80002002.
Proof.
  apply (stats_request_protocol (fun (b : bool) i => 0x80002000 + i) 0
    (sample_dev 1 sample_fifo sample_queue [] (fun _ => 0)) 2 true). left. lia.
Defined.

Lemma callback_registration_witness :
  let d := sample_dev 1 sample_fifo sample_queue [] (fun _ => 0) in
  callback_function (snd (ifx_mpsdrv_register_callback 3 0x600 d)) 3 = 0x600.
Proof.
  apply (callback_registration (sample_dev 1 sample_fifo sample_queue [] (fun _ => 0)) 3 0x600 0).
  discriminate.
Defined.

Lemma open_close_enables_witness :
  let d := sample_dev 0 sample_fifo sample_queue [] (fun _ => 0) in
  enable_inv (fold_left (fun d op => chan_step op d) [Open Wifi0; Open Wifi1; Close Wifi0] d).
Proof.
  apply (open_close_enables [Open Wifi0; Open Wifi1; Close Wifi0]
    (sample_dev 0 sample_fifo sample_queue [] (fun _ => 0))). split; reflexivity.
Defined.

Lemma reset_drained_witness :
  let d := sample_dev 0 (fresh_fifo 64) sample_queue [] (fun _ => 0) in
  callback_function (snd (ifx_mpsdrv_reset_structures d)) 7 = 0.
Proof.
  apply (reset_drained (sample_dev 0 (fresh_fifo 64) sample_queue [] (fun _ => 0))
    (snd (ifx_mpsdrv_reset_structures (sample_dev 0 (fresh_fifo 64) sample_queue [] (fun _ => 0))))
    (fresh_dev_inv _ _ _ _)); [cbn; lia|reflexivity|unfold MPSDRV_TOTAL_SEQ_NUMBERS; lia].
Defined.

Lemma reset_keeps_unread_witness :
  let d := sample_dev 0 sample_fifo sample_queue [] (fun _ => 0) in
  let f := up_data (snd (ifx_mpsdrv_reset_structures d)) in
  ifx_mpsdrv_fifo_write f sample_msg 12 = Some (ERROR, f).
Proof.
  exact (proj2 (proj2 (reset_keeps_unread (sample_dev 0 sample_fifo sample_queue [] (fun _ => 0)) UpData
    (mark_ready sample_msg) [] sample_msg 0x4 sample_inv eq_refl sample_msg_sendable eq_refl))).
Defined.

Lemma init_outcomes_witness :
  let d := sample_dev 0 sample_fifo sample_queue [1; 2; 3; 4; 5; 6; 7; 8; 9] (fun _ => 0) in
  exists d', ifx_mpsdrv_initial_structures 0x1000 0 d =
      Some (OK, sems_of [1; 2; 3; 4; 5; 6; 7; 8; 9], d') /\ started 0x1000 [] d d'.
Proof.
  apply (init_outcomes 0x1000 0
    (sample_dev 0 sample_fifo sample_queue [1; 2; 3; 4; 5; 6; 7; 8; 9] (fun _ => 0))
    [1; 2; 3; 4; 5; 6; 7; 8; 9] [] eq_refl); [|by left].
  repeat constructor; discriminate.
Defined.

Lemma release_leaks_one_witness :
  let d := sample_dev 0 sample_fifo sample_queue [1; 2; 3; 4; 5; 6; 7; 8; 9] (fun _ => 0) in
  exists d', ifx_mpsdrv_initial_structures 0x1000 0 d =
      Some (OK, sems_of [1; 2; 3; 4; 5; 6; 7; 8; 9], d') /\
    freed (menv (bufmem (ifx_mpsdrv_release_structures (sems_of [1; 2; 3; 4; 5; 6; 7; 8; 9]) d'))) =
      [1; 3; 4; 5; 6; 7; 8; 9].
Proof.
  apply (release_leaks_one 0x1000 0
    (sample_dev 0 sample_fifo sample_queue [1; 2; 3; 4; 5; 6; 7; 8; 9] (fun _ => 0))
    [1; 2; 3; 4; 5; 6; 7; 8; 9] [] eq_refl); [|reflexivity].
  repeat constructor; discriminate.
Defined.

Lemma send_min_space_grows_witness :
  let d := sample_dev 0 (fresh_fifo 64) sample_queue [] (fun _ => 0) in
  exists ret m' d', ifx_mpsdrv_mbx_send sample_msg d = Some (ret, m', d') /\
    min_space (dn_data d) <= min_space (dn_data d').
Proof.
  do 3 eexists. split; [reflexivity|].
  eapply (send_min_space_grows (sample_dev 0 (fresh_fifo 64) sample_queue [] (fun _ => 0)) (fun _ => [])
    sample_msg 0x02070000 0x4 _ _ _ DnData (fresh_dev_inv _ _ _ _) sample_msg_sendable eq_refl eq_refl).
  reflexivity.
Defined.
