(* ===== verification/MpsRpc.v ===== *)
(** * The service interface of the mailbox driver ([mps_tpe_linux.c])

    What the applications and the network drivers of either CPU call: sending
    data, callbacks by service, and commands that CPU1 has CPU0 carry out, such
    as allocating a buffer.  A caller of such a command sends a request message
    and sleeps; CPU0's command callback does the work and sends the response;
    CPU1's command callback stores the response in the one [mps_cmd_control] all
    callers share, raises its flag and wakes the sleeper.

    The file also holds the lists of data buffers, the device operations
    ([open], [close], [ioctl]), the ready-bit file under [/proc] and the start of
    the module.  The mailboxes under it are those of [MpsDevice].

    A call that sleeps is two definitions: one up to [wait_event_interruptible],
    one from its return on.  The kernel's socket-buffer routines, which CPU0
    calls, work on a heap that is a parameter.  [None] is an access through an
    invalid pointer or outside an object. *)

From S2P Require Import Prelude MpsFifo MpsQueue MpsPool Icu MpsDevice.
Open Scope Z_scope.

(** ** Constants *)

Definition MPS_CMD_CPU0_DATAMSG : Z := 0x0101.
Definition MPS_CMD_CPU0_DATALISTMSG : Z := 0x0102.
Definition MPS_CMD_CPU0_APPMSG : Z := 0x0103.
Definition MPS_CMD_CPU0_GET_REMOTE_VER : Z := 0x0116.
Definition MPS_CMD_CPU1_DATAMSG : Z := 0x0201.
Definition MPS_CMD_CPU1_DATALISTMSG : Z := 0x0202.
Definition MPS_CMD_CPU1_APPMSG : Z := 0x0203.
Definition MPS_CMD_CPU1_DATA_ALLOC : Z := 0x0204.
Definition MPS_CMD_CPU1_DATA_FREE : Z := 0x0205.
Definition MPS_CMD_CPU1_SKB_ALLOC : Z := 0x0206.
Definition MPS_CMD_CPU1_SKB_FREE : Z := 0x0207.
Definition MPS_CMD_CPU1_DATALIST_ALLOC : Z := 0x0208.
Definition MPS_CMD_CPU1_DATALIST_FREE : Z := 0x0209.
Definition MPS_CMD_CPU1_GET_REMOTE_VER : Z := 0x0216.
Definition MPS_CMD_CPU1_IFX_ALLOC_SKB : Z := 0x0217.
Definition MPS_CMD_CPU1_IFX_SKB_CLONE : Z := 0x0218.
Definition MPS_CMD_CPU1_IFX_SKB_COPY : Z := 0x0219.
Definition MPS_CMD_CPU1_IFX_PSKB_EXPAND_HEAD : Z := 0x021A.
Definition MPS_CMD_CPU1_IFX_SKB_REALLOC_HEADROOM : Z := 0x021B.
Definition MPS_CMD_CPU1_IFX_SKB_COPY_EXPAND : Z := 0x021C.
Definition MPS_CMD_CPU1_IFX_SKB_TRIM : Z := 0x021D.
Definition MPS_CMD_CPU1_IFX_DEV_ALLOC_SKB : Z := 0x021E.
Definition MPSDRV_VERSION_NUM : Z := 10005.
Definition GFP_ATOMIC : Z := 0x20.
Definition ENODEV : Z := 19.
Definition EMFILE : Z := 24.
Definition ENOIOCTLCMD : Z := 515.

(** ** State *)

(** [struct data_list] and [mps_datalist]. *)
Record data_list := mk_dl { dl_data : Z; dl_len : Z; dl_next : Z }.
Record mps_datalist := mk_mdl { no : Z; datalist : Z }.

(** One CPU: the driver below, the tables and the command control of this file,
    the lists by address, the data callbacks run with their arguments, and the
    kernel's socket-buffer heap. *)
Record mps_state {K : Type} := mk_ms {
  dv : mps_comm_dev;
  data_callback_funct : Z -> Z;
  msg_data : list Z;               (* mps_cmd_control.msg_data, as words *)
  cmd_callback_flag : Z;
  cmd_wakeuplist_balance : Z;
  nodes : Z -> data_list;
  lists : Z -> mps_datalist;
  data_calls : list (Z * Z * Z);
  heap : K
}.
Arguments mps_state : clear implicits.

(** The kernel's socket-buffer routines. *)
Record kernel_ops {K : Type} := mk_ops {
  alloc_skb : Z -> Z -> K -> Z * K;
  kfree_skb : Z -> K -> K;
  skb_clone : Z -> Z -> K -> Z * K;
  skb_copy : Z -> Z -> K -> Z * K;
  pskb_expand_head : Z -> Z -> Z -> Z -> K -> Z * K;
  skb_realloc_headroom : Z -> Z -> K -> Z * K;
  skb_copy_expand : Z -> Z -> Z -> Z -> K -> Z * K;
  skb_reserve : Z -> Z -> K -> K;
  __skb_trim : Z -> Z -> K -> K
}.
Arguments kernel_ops : clear implicits.

Section Rpc.
Context {K : Type} (ops : kernel_ops K).
(** The addresses of the two callbacks of this file. *)
Context (cmd_cb data_cb : Z).
#[local] Abbreviation state := (mps_state K).

Definition set_dv (d : mps_comm_dev) (s : state) : state :=
  mk_ms K d (data_callback_funct s) (msg_data s) (cmd_callback_flag s) (cmd_wakeuplist_balance s)
    (nodes s) (lists s) (data_calls s) (heap s).
Definition set_data_callbacks (f : Z -> Z) (s : state) : state :=
  mk_ms K (dv s) f (msg_data s) (cmd_callback_flag s) (cmd_wakeuplist_balance s) (nodes s) (lists s)
    (data_calls s) (heap s).
Definition set_control (m : list Z) (flag bal : Z) (s : state) : state :=
  mk_ms K (dv s) (data_callback_funct s) m flag bal (nodes s) (lists s) (data_calls s) (heap s).
Definition set_lists (n : Z -> data_list) (l : Z -> mps_datalist) (s : state) : state :=
  mk_ms K (dv s) (data_callback_funct s) (msg_data s) (cmd_callback_flag s)
    (cmd_wakeuplist_balance s) n l (data_calls s) (heap s).
Definition add_data_call (c : Z * Z * Z) (s : state) : state :=
  mk_ms K (dv s) (data_callback_funct s) (msg_data s) (cmd_callback_flag s)
    (cmd_wakeuplist_balance s) (nodes s) (lists s) (data_calls s ++ [c]) (heap s).
Definition set_heap (h : K) (s : state) : state :=
  mk_ms K (dv s) (data_callback_funct s) (msg_data s) (cmd_callback_flag s)
    (cmd_wakeuplist_balance s) (nodes s) (lists s) (data_calls s) h.

Definition ifx_cpu_id (s : state) : Z := ifx_mpsdrv_get_cpu_id (dv s).
Definition kenv (s : state) : env := menv (bufmem (dv s)).
Definition kmalloc (s : state) : Z * state :=
  let '(p, e) := alloc_fn (kenv s) in (p, set_dv (set_env e (dv s)) s).
Definition kfree (p : Z) (s : state) : state :=
  if p =? 0 then s else set_dv (set_env (free_fn p (kenv s)) (dv s)) s.

(** ** Messages *)

(** An [mps_data_message], cleared and then filled in: the header, and the
    content up to four words. *)
Definition data_message (type seqno cmd len : Z) (content : list Z) : list Z :=
  [(type .<< 24) .| (seqno .<< 16) .| cmd; len] ++ take 4 (content ++ [0; 0; 0; 0]).
Definition word (m : list Z) (i : nat) : Z := nth i m 0.
Definition payload (m : list Z) : Z := word m 2.
Definition send (m : list Z) (s : state) : option (Z * state) :=
  '(r, _, d) ← ifx_mpsdrv_mbx_send m (dv s); Some (r, set_dv d s).

(** ** Lists of data buffers, on CPU0 *)

Definition set_node (p : Z) (n : data_list) (s : state) : state :=
  set_lists (fun a => if a =? p then n else nodes s a) (lists s) s.
Definition set_list (p : Z) (l : mps_datalist) (s : state) : state :=
  set_lists (nodes s) (fun a => if a =? p then l else lists s a) s.

(** The loop of [ifx_mps_cpu0_datalist_alloc]; [r] is the last node so far. *)
Fixpoint datalist_nodes (n : nat) (r : Z) (s : state) : option (Z * state) :=
  match n with
  | O => Some (r, s)
  | S n =>
      let '(list_ptr, s) := kmalloc s in
      let '(buf, s) := kmalloc s in
      if list_ptr =? 0 then None else
      let s := set_node list_ptr (mk_dl buf 0 (dl_next (nodes s list_ptr))) s in
      let s := set_node r (mk_dl (dl_data (nodes s r)) (dl_len (nodes s r)) list_ptr) s in
      datalist_nodes n list_ptr s
  end.

Definition ifx_mps_cpu0_datalist_alloc (n : Z) (s : state) : option (Z * state) :=
  let '(l, s) := kmalloc s in
  let '(first, s) := kmalloc s in
  if l =? 0 then None else
  let s := set_list l (mk_mdl (no (lists s l)) first) s in
  let '(buf, s) := kmalloc s in
  if first =? 0 then None else
  let s := set_node first (mk_dl buf (dl_len (nodes s first)) (dl_next (nodes s first))) s in
  '(r, s) ← datalist_nodes (Z.to_nat n) first s;
  let s := set_node r (mk_dl (dl_data (nodes s r)) (dl_len (nodes s r)) 0) s in
  Some (l, set_list l (mk_mdl n (datalist (lists s l))) s).

(** The loop of [ifx_mps_cpu0_datalist_free] on the list at [l]. *)
Fixpoint datalist_free_nodes (n : nat) (l : Z) (s : state) : option state :=
  match n with
  | O => Some s
  | S n =>
      let p := datalist (lists s l) in
      if p =? 0 then None else
      let s := kfree (dl_data (nodes s p)) s in
      let s := set_node p (mk_dl (dl_data (nodes s p)) 0 (dl_next (nodes s p))) s in
      datalist_free_nodes n l (set_list l (mk_mdl (no (lists s l)) (dl_next (nodes s p))) s)
  end.

Definition ifx_mps_cpu0_datalist_free (l : Z) (s : state) : option state :=
  if l =? 0 then None else
  s ← datalist_free_nodes (Z.to_nat (no (lists s l))) l s;
  let s := set_list l (mk_mdl 0 (datalist (lists s l))) s in
  Some (kfree l s).

(** ** CPU0's own allocations *)

Definition ifx_mps_cpu0_skbuff_alloc (bufsize : Z) (s : state) : Z * state :=
  let '(p, h) := alloc_skb ops bufsize GFP_ATOMIC (heap s) in (p, set_heap h s).
Definition ifx_mps_cpu0_skbuff_free (p : Z) (s : state) : state :=
  set_heap (kfree_skb ops p (heap s)) s.
Definition ifx_mps_cpu0_buff_alloc (bufsize : Z) (s : state) : Z * state := kmalloc s.
Definition ifx_mps_cpu0_buff_free (p : Z) (s : state) : state := kfree p s.

(** ** Requests: the message of [ifx_cmd_process]

    [param] is the parameter block [optParam] points to, as words. *)

Definition one_of (cmd : Z) (cmds : list Z) : bool := existsb (Z.eqb cmd) cmds.

Definition ifx_cmd_message (cpu_id cmd optParam : Z) (param : Z -> option (list Z))
  : option (option (list Z)) :=
  let params n := m ← param optParam;
    Some (Some (data_message MPS_TYPE_UPSTREAM_CMD 0 cmd (4 * Z.of_nat n) (take n m))) in
  if one_of cmd [MPS_CMD_CPU1_DATALIST_ALLOC; MPS_CMD_CPU1_DATALIST_FREE; MPS_CMD_CPU1_SKB_ALLOC;
       MPS_CMD_CPU1_SKB_FREE; MPS_CMD_CPU1_DATA_ALLOC; MPS_CMD_CPU1_DATA_FREE]
  then Some (Some (data_message MPS_TYPE_DOWNSTREAM_CMD 0 cmd 4 [optParam]))
  else if one_of cmd [MPS_CMD_CPU0_GET_REMOTE_VER; MPS_CMD_CPU1_GET_REMOTE_VER]
  then Some (Some (data_message (if cpu_id =? MPS_CPU_0_ID then MPS_TYPE_DOWNSTREAM_CMD
                           else MPS_TYPE_UPSTREAM_CMD) 0 cmd 0 []))
  else if one_of cmd [MPS_CMD_CPU1_IFX_ALLOC_SKB; MPS_CMD_CPU1_IFX_SKB_CLONE;
       MPS_CMD_CPU1_IFX_SKB_COPY; MPS_CMD_CPU1_IFX_SKB_REALLOC_HEADROOM; MPS_CMD_CPU1_IFX_SKB_TRIM;
       MPS_CMD_CPU1_IFX_DEV_ALLOC_SKB]
  then params 2%nat
  else if one_of cmd [MPS_CMD_CPU1_IFX_PSKB_EXPAND_HEAD; MPS_CMD_CPU1_IFX_SKB_COPY_EXPAND]
  then params 4%nat
  else Some None.

Definition ifx_cmd_process (dir cmd optParam : Z) (param : Z -> option (list Z)) (s : state)
  : option (Z * state) :=
  if dir =? 0 then
    m ← ifx_cmd_message (ifx_cpu_id s) cmd optParam param;
    match m with None => Some (-1, s) | Some m => send m s end
  else Some (0, s).
Definition no_params (_ : Z) : option (list Z) := None.

(** ** The command callback *)

Definition response_cmds : list Z :=
  [MPS_CMD_CPU1_DATALIST_ALLOC; MPS_CMD_CPU1_SKB_ALLOC; MPS_CMD_CPU1_DATA_ALLOC;
   MPS_CMD_CPU0_GET_REMOTE_VER; MPS_CMD_CPU1_GET_REMOTE_VER; MPS_CMD_CPU1_IFX_ALLOC_SKB;
   MPS_CMD_CPU1_IFX_SKB_CLONE; MPS_CMD_CPU1_IFX_SKB_COPY; MPS_CMD_CPU1_IFX_PSKB_EXPAND_HEAD;
   MPS_CMD_CPU1_IFX_SKB_REALLOC_HEADROOM; MPS_CMD_CPU1_IFX_SKB_COPY_EXPAND;
   MPS_CMD_CPU1_IFX_SKB_TRIM; MPS_CMD_CPU1_IFX_DEV_ALLOC_SKB].

Definition accept_response (pmsg : list Z) (s : state) : state :=
  if one_of (msg_cmd (word pmsg 0) - 0x1000) response_cmds
  then set_control pmsg 1 (w32 (cmd_wakeuplist_balance s - 1)) s else s.

(** The type, length and content of [rw_response] a request leaves; [None] when
    [get_valid_response] is cleared. *)
Definition on_heap (f : K -> Z * K) (s : state) : Z * state :=
  let '(p, h) := f (heap s) in (p, set_heap h s).
Definition DOWN : Z := MPS_TYPE_DOWNSTREAM_CMD.

Definition serve_basic (cmd arg : Z) (s : state) : option (option (Z * Z * list Z) * state) :=
  if cmd =? MPS_CMD_CPU1_DATALIST_ALLOC then
    '(p, s) ← ifx_mps_cpu0_datalist_alloc (s32 arg) s; Some (Some (DOWN, 8, [p]), s)
  else if cmd =? MPS_CMD_CPU1_DATALIST_FREE then
    s ← ifx_mps_cpu0_datalist_free arg s; Some (Some (0, 0, []), s)
  else if cmd =? MPS_CMD_CPU1_SKB_ALLOC then
    let '(p, s) := ifx_mps_cpu0_skbuff_alloc arg s in Some (Some (DOWN, 8, [p; arg]), s)
  else if cmd =? MPS_CMD_CPU1_SKB_FREE then
    Some (Some (0, 0, []), ifx_mps_cpu0_skbuff_free arg s)
  else if cmd =? MPS_CMD_CPU1_DATA_ALLOC then
    let '(p, s) := ifx_mps_cpu0_buff_alloc arg s in Some (Some (DOWN, 8, [p; arg]), s)
  else if cmd =? MPS_CMD_CPU1_DATA_FREE then
    Some (Some (0, 0, []), ifx_mps_cpu0_buff_free arg s)
  else if one_of cmd [MPS_CMD_CPU0_GET_REMOTE_VER; MPS_CMD_CPU1_GET_REMOTE_VER] then
    Some (Some (if cmd =? MPS_CMD_CPU0_GET_REMOTE_VER then DOWN else MPS_TYPE_UPSTREAM_CMD, 4,
                [MPSDRV_VERSION_NUM]), s)
  else Some (None, s).

Definition serve_skb (cmd : Z) (a : nat -> Z) (s : state) : option (Z * Z * list Z) * state :=
  let reply len (x : Z * state) := (Some (DOWN, len, [w32 (fst x)]), snd x) in
  if cmd =? MPS_CMD_CPU1_IFX_ALLOC_SKB then
    reply 4 (on_heap (alloc_skb ops (a 2%nat) (a 3%nat)) s)
  else if cmd =? MPS_CMD_CPU1_IFX_SKB_CLONE then
    reply 4 (on_heap (skb_clone ops (a 2%nat) (a 3%nat)) s)
  else if cmd =? MPS_CMD_CPU1_IFX_SKB_COPY then
    reply 4 (on_heap (skb_copy ops (a 2%nat) (a 3%nat)) s)
  else if cmd =? MPS_CMD_CPU1_IFX_PSKB_EXPAND_HEAD then
    reply 4 (on_heap (pskb_expand_head ops (a 2%nat) (a 3%nat) (a 4%nat) (a 5%nat)) s)
  else if cmd =? MPS_CMD_CPU1_IFX_SKB_REALLOC_HEADROOM then
    reply 4 (on_heap (skb_realloc_headroom ops (a 2%nat) (a 3%nat)) s)
  else if cmd =? MPS_CMD_CPU1_IFX_SKB_COPY_EXPAND then
    reply 4 (on_heap (skb_copy_expand ops (a 2%nat) (a 3%nat) (a 4%nat) (a 5%nat)) s)
  else if cmd =? MPS_CMD_CPU1_IFX_DEV_ALLOC_SKB then
    let '(p, s) := on_heap (alloc_skb ops (w32 (a 2%nat + 16)) (a 3%nat)) s in
    reply 4 (p, if p =? 0 then s else set_heap (skb_reserve ops p 16 (heap s)) s)
  else if cmd =? MPS_CMD_CPU1_IFX_SKB_TRIM then
    (Some (DOWN, 0, []), set_heap (__skb_trim ops (a 2%nat) (a 3%nat) (heap s)) s)
  else (None, s).

(** The switch of the request case: the two halves have no command in common. *)
Definition serve_request (pmsg : list Z) (s : state) : option (option (Z * Z * list Z) * state) :=
  let cmd := msg_cmd (word pmsg 0) in
  '(r, s) ← serve_basic cmd (payload pmsg) s;
  match r with Some _ => Some (r, s) | None => Some (serve_skb cmd (word pmsg) s) end.

Definition ifx_mps_cmd_rcv_callback (pmsg : list Z) (s : state) : option state :=
  let cmd := msg_cmd (word pmsg 0) in
  if cmd >? 0x1000 then Some (accept_response pmsg s)
  else
    '(r, s) ← serve_request pmsg s;
    match r with
    | None => Some s
    | Some (type, len, content) =>
        '(_, s) ← send (data_message type (msg_seqno (word pmsg 0)) (cmd + 0x1000) len content) s;
        Some s
    end.

(** ** The data callback *)

Definition call_data (pmsg : list Z) (s : state) : option state :=
  let f := data_callback_funct s (msg_seqno (word pmsg 0)) in
  if f =? 0 then None else Some (add_data_call (f, word pmsg 2, word pmsg 3) s).

Definition book_keep (seq : Z) (s : state) : option state :=
  if ifx_cpu_id s =? MPS_CPU_0_ID then
    '(_, m) ← ifx_cpu0_release_q_lists (ifx_cpu_id s) seq (bufmem (dv s));
    '(_, m) ← ifx_cpu0_topup_q_lists (ifx_cpu_id s) seq m;
    Some (set_dv (set_bufmem m (dv s)) s)
  else Some s.

Definition ifx_mbx_data_rcv_callback (pmsg : list Z) (s : state) : option state :=
  let cmd := msg_cmd (word pmsg 0) in
  if one_of cmd [MPS_CMD_CPU0_DATAMSG; MPS_CMD_CPU1_DATAMSG] then
    s ← call_data pmsg s; book_keep (msg_seqno (word pmsg 0)) s
  else if one_of cmd [MPS_CMD_CPU0_APPMSG; MPS_CMD_CPU1_APPMSG; MPS_CMD_CPU0_DATALISTMSG;
                      MPS_CMD_CPU1_DATALISTMSG] then call_data pmsg s
  else Some s.

(** The tasklets of [MpsDevice] with the two callbacks run where they are called;
    another callback is only recorded. *)
Definition run_callback (cb : Z) (pmsg : list Z) (s : state) : option state :=
  if cb =? 0 then Some s
  else if cb =? cmd_cb then ifx_mps_cmd_rcv_callback pmsg s
  else if cb =? data_cb then ifx_mbx_data_rcv_callback pmsg s
  else Some (set_dv (set_calls (calls (dv s) ++ [(cb, pmsg)]) (dv s)) s).

Fixpoint tasklet_msgs (fuel : nat) (k : rxq) (s : state) : option state :=
  '(pMsg, d) ← mps_datamsg_dequeue_head k (dv s);
  let s := set_dv d s in
  if pMsg =? 0 then Some s else
  match fuel with
  | O => None
  | S fuel =>
      w0 ← kmsgs d pMsg !! 0%nat;
      s ← run_callback (callback_function d (msg_seqno w0)) (kmsgs d pMsg) s;
      tasklet_msgs fuel k (kfree pMsg s)
  end.
Definition unschedule (k : rxq) (d : mps_comm_dev) : mps_comm_dev :=
  match k with
  | DataQ => set_tasklets false (cmd_tasklet d) d
  | CmdQ => set_tasklets (data_tasklet d) false d
  end.
Definition run_cmd_tasklet (k : rxq) (s : state) : option state :=
  tasklet_msgs dispatch_fuel k (set_dv (unschedule k (dv s)) s).

(** ** Commands of CPU1: up to the wait, and from it on *)

Inductive call_status := Returns (r : Z) | Sleeps.

(** Clear the shared message, send, count the sleeper. *)
Definition remote_call (cmd optParam : Z) (s : state) : option (call_status * state) :=
  let s := set_control (repeat 0 DATAMSG_WORDS) (cmd_callback_flag s) (cmd_wakeuplist_balance s) s in
  '(_, s) ← ifx_cmd_process 0 cmd optParam no_params s;
  Some (Sleeps, set_control (msg_data s) (cmd_callback_flag s)
                  (w32 (cmd_wakeuplist_balance s + 1)) s).

(** [wait_event_interruptible] goes on when the flag is set or, [signalled],
    because of a signal; the caller clears the flag and reads the message. *)
Definition wait_done (signalled : bool) (s : state) : option (Z * state) :=
  if negb signalled && (cmd_callback_flag s =? 0) then None
  else Some (payload (msg_data s), set_control (msg_data s) 0 (cmd_wakeuplist_balance s) s).

Definition here (x : Z * state) : option (call_status * state) := Some (Returns (fst x), snd x).

Definition ifx_mps_get_version (cpu_id : Z) (s : state) : option (call_status * state) :=
  if ifx_cpu_id s =? cpu_id then here (MPSDRV_VERSION_NUM, s)
  else remote_call (if ifx_cpu_id s =? 0 then MPS_CMD_CPU0_GET_REMOTE_VER
                    else MPS_CMD_CPU1_GET_REMOTE_VER) 0 s.
Definition ifx_mps_datalist_alloc (n : Z) (s : state) : option (call_status * state) :=
  if ifx_cpu_id s =? 0 then x ← ifx_mps_cpu0_datalist_alloc n s; here x
  else remote_call MPS_CMD_CPU1_DATALIST_ALLOC (w32 n) s.
Definition ifx_mps_skbuff_alloc (bufsize : Z) (s : state) : option (call_status * state) :=
  if ifx_cpu_id s =? 0 then here (ifx_mps_cpu0_skbuff_alloc bufsize s)
  else remote_call MPS_CMD_CPU1_SKB_ALLOC bufsize s.
Definition ifx_mps_app_buff_kmalloc (bufsize : Z) (s : state) : option (call_status * state) :=
  if ifx_cpu_id s =? 0 then here (ifx_mps_cpu0_buff_alloc bufsize s)
  else remote_call MPS_CMD_CPU1_DATA_ALLOC bufsize s.

Definition ifx_mps_datalist_free (l : Z) (s : state) : option state :=
  if ifx_cpu_id s =? 0 then ifx_mps_cpu0_datalist_free l s
  else '(_, s) ← ifx_cmd_process 0 MPS_CMD_CPU1_DATALIST_FREE l no_params s; Some s.
Definition ifx_mps_skbuff_free (p : Z) (s : state) : option state :=
  if ifx_cpu_id s =? 0 then Some (ifx_mps_cpu0_skbuff_free p s)
  else '(_, s) ← ifx_cmd_process 0 MPS_CMD_CPU1_SKB_FREE p no_params s; Some s.
Definition ifx_mps_app_buff_kfree (p : Z) (s : state) : option state :=
  if ifx_cpu_id s =? 0 then Some (ifx_mps_cpu0_buff_free p s)
  else '(_, s) ← ifx_cmd_process 0 MPS_CMD_CPU1_DATA_FREE p no_params s; Some s.

(** ** Data *)

Definition data_header (cpu_id cmd0 cmd1 seq addr len : Z) : list Z :=
  if cpu_id =? MPS_CPU_0_ID
  then data_message MPS_TYPE_DOWNSTREAM_DATA seq cmd0 8 [addr; len]
  else data_message MPS_TYPE_UPSTREAM_DATA seq cmd1 8 [addr; len].

Definition ifx_mps_data_send (seq addr len : Z) (s : state) : option (Z * state) :=
  '(r, s) ← send (data_header (ifx_cpu_id s) MPS_CMD_CPU0_DATAMSG MPS_CMD_CPU1_DATAMSG seq addr len) s;
  s ← book_keep seq s;
  Some (if negb (r =? OK) then -1 else 0, s).

(** [sizeof(datapointer_list.datalist)] is the size of a pointer. *)
Definition ifx_mps_datalist_send (seq : Z) (l : mps_datalist) (s : state) : option (Z * state) :=
  send (data_header (ifx_cpu_id s) MPS_CMD_CPU0_DATALISTMSG MPS_CMD_CPU1_DATALISTMSG seq (datalist l)
          (w32 (4 * no l))) s.

Definition ifx_mps_app_message_send (seq addr len : Z) (s : state) : option (Z * state) :=
  let cmd := if ifx_cpu_id s =? 0 then MPS_CMD_CPU0_APPMSG else MPS_CMD_CPU1_APPMSG in
  '(_, s) ← send (data_message MPS_TYPE_DOWNSTREAM_APP_CMD seq cmd 8 [addr; len]) s;
  Some (0, s).

(** The clearing takes the address of the pointer [rw], not of what it points
    to: afterwards [rw] is NULL and the next store goes through it. *)
Definition ifx_mps_data_rcv (seq datapointer : Z) (s : state) : option (Z * state) :=
  let rw := 0 in
  if rw =? 0 then None
  else '(r, _, d) ← ifx_mpsdrv_mbx_rcv MPS_DATA_MSG_TYPE (dv s); Some (r, set_dv d s).

(** The words the caller's object has afterwards: cleared and the sequence number
    set, then the message received, if there was one. *)
Definition ifx_mps_datalist_rcv (seq : Z) (s : state) : option (Z * list Z * state) :=
  let rw := data_message 0 seq 0 0 [] in
  '(r, m, d) ← ifx_mpsdrv_mbx_rcv MPS_DATA_MSG_TYPE (dv s);
  Some (r, m ++ drop (length m) rw, set_dv d s).
Definition ifx_mps_app_message_rcv (seq : Z) (s : state) : option (Z * list Z * state) :=
  '(_, m, d) ← ifx_mpsdrv_mbx_rcv MPS_DATA_MSG_TYPE (dv s);
  Some (0, m, set_dv d s).

(** ** Callbacks by service *)

Definition ifx_mps_register_callback (seq callback : Z) (s : state) : Z * state :=
  if seq =? 0 then (ERROR, s)
  else if negb (data_callback_funct s seq =? 0) then (ERROR, s)
  else
    let s := set_data_callbacks (upd (data_callback_funct s) seq callback) s in
    (0, set_dv (snd (ifx_mpsdrv_register_callback seq data_cb (dv s))) s).

Definition ifx_mps_unregister_callback (seq : Z) (s : state) : Z * state :=
  if seq =? 0 then (ERROR, s)
  else if data_callback_funct s seq =? 0 then (ERROR, s)
  else
    let s := set_data_callbacks (upd (data_callback_funct s) seq 0) s in
    (OK, set_dv (snd (ifx_mpsdrv_unregister_callback seq (dv s))) s).

(** ** Device operations

    A caller in the kernel passes the minor number as the inode; a file has its
    mailbox in [private_data].  [wifi_mbx] has two elements: the mailboxes [wifi2]
    and [wifi3] lie behind it. *)

Definition FIO_MPS_RESET : Z := IOC IOC_NONE 0x4F 6 0.
Definition FIO_MPS_GETVERSION : Z := IOC IOC_READ 0x4F 8 4.

(** [None]: no such minor; [Some None]: outside [wifi_mbx]. *)
Definition minor_mbx (num : Z) : option (option channel) :=
  if num =? 1 then Some (Some Command)
  else if num =? 2 then Some (Some Wifi0)
  else if num =? 3 then Some (Some Wifi1)
  else if (num =? 4) || (num =? 5) then Some None
  else None.

Definition ifx_mps_open (num : Z) (s : state) : option (Z * state) :=
  match minor_mbx num with
  | None => Some (- EINVAL, s)
  | Some c =>
      c ← c;
      let '(r, d) := ifx_mpsdrv_common_open c (num =? 1) (dv s) in
      Some (if r =? OK then 0 else - EMFILE, set_dv d s)
  end.

(** [inl num]: from the kernel; [inr]: the [private_data] of a file. *)
Definition caller_mbx (caller : Z + option channel) : option (option channel) :=
  match caller with
  | inl num => c ← minor_mbx num; c ← c; Some (Some c)
  | inr c => Some c
  end.

Definition ifx_mps_close (caller : Z + option channel) (s : state) : option (Z * state) :=
  c ← caller_mbx caller;
  match c with
  | Some c => Some (0, set_dv (snd (ifx_mpsdrv_common_close c (dv s))) s)
  | None => Some (- ENODEV, s)
  end.

(** The bytes of the version string without its end. *)
Definition ifx_mps_device_version : list Z := [49; 46; 53; 46; 48].

Definition ifx_mps_ioctl (nCmd : Z) (s : state) : Z * list Z * state :=
  if nCmd =? FIO_MPS_GETVERSION then (OK, ifx_mps_device_version, s)
  else if nCmd =? FIO_MPS_RESET then
    let '(r, d) := ifx_mpsdrv_reset (dv s) in (r, [], set_dv d s)
  else (- ENOIOCTLCMD, [], s).

(** ** Start *)

(** [chrdev]: the answer of [register_chrdev]. *)
Definition ifx_mps_init_module (chrdev pool_head entry : Z) (request_irq : Z -> Z) (s : state)
  : option (Z * state) :=
  if chrdev <? 0 then Some (chrdev, s) else
  let s := set_control (repeat 0 DATAMSG_WORDS) 0 0 s in
  '(r, _, d) ← ifx_mpsdrv_initial_structures pool_head entry (dv s);
  let s := set_dv d s in
  if negb (r =? 0) then Some (- ENOMEM, s) else
  let '(r, d) := ifx_mpsdrv_init_IRQs request_irq (dv s) in
  let s := set_dv d s in
  if negb (r =? 0) then Some (r, s) else
  Some (0, set_dv (snd (ifx_mpsdrv_register_callback 0 cmd_cb (dv s))) s).

(** ** The lists of data buffers *)

(** The nodes and buffers of the list that starts at [p]. *)
Fixpoint linked (nd : Z -> data_list) (p : Z) (ps : list (Z * Z)) : Prop :=
  match ps with
  | [] => p = 0
  | (q, b) :: ps => p = q /\ q <> 0 /\ dl_data (nd q) = b /\ linked nd (dl_next (nd q)) ps
  end.

Lemma linked_ext nd nd' ps : forall p,
  (forall q, q ∈ map fst ps -> dl_data (nd' q) = dl_data (nd q) /\ dl_next (nd' q) = dl_next (nd q)) ->
  linked nd p ps -> linked nd' p ps.
Proof.
  induction ps as [|[q b] ps IH]; cbn [linked map fst]; intros p He; [done|].
  intros (-> & Hq & Hb & Hl). destruct (He q) as [Hd Hn]; [by left|].
  split_and!; try done; [congruence|]. rewrite Hn. apply IH; [|done].
  intros a Ha. apply He. by right.
Qed.

(** The blocks a list of nodes and buffers takes, in the order of allocation. *)
Definition blocks (ps : list (Z * Z)) : list Z := concat (map (fun '(q, b) => [q; b]) ps).

Lemma kmalloc_cons s p l : to_alloc (kenv s) = p :: l ->
  kmalloc s = (p, set_dv (set_env (mk_env l (freed (kenv s))) (dv s)) s).
Proof. intros H. unfold kmalloc. by rewrite (alloc_cons _ _ _ H). Qed.

(** The last node's end mark. *)
Definition end_list (r : Z) (s : state) : state :=
  set_node r (mk_dl (dl_data (nodes s r)) (dl_len (nodes s r)) 0) s.

Lemma node_eq p n s : nodes (set_node p n s) p = n.
Proof. cbn. by rewrite Z.eqb_refl. Qed.
Lemma node_ne p q n s : q <> p -> nodes (set_node p n s) q = nodes s q.
Proof. intros H. cbn. by rewrite (proj2 (Z.eqb_neq q p)). Qed.

Lemma datalist_nodes_spec : forall ps r s rest,
  to_alloc (kenv s) = blocks ps ++ rest -> NoDup (r :: map fst ps) -> r <> 0 ->
  Forall (fun p => p <> 0) (map fst ps) ->
  exists r' s', datalist_nodes (length ps) r s = Some (r', s') /\
    kenv s' = mk_env rest (freed (kenv s)) /\ lists s' = lists s /\ r' ∈ r :: map fst ps /\
    linked (nodes (end_list r' s')) r ((r, dl_data (nodes s r)) :: ps) /\
    (forall q, q ∉ r :: map fst ps -> nodes s' q = nodes s q) /\
    dl_data (nodes s' r) = dl_data (nodes s r).
Proof.
  induction ps as [|[lp b] ps IH]; intros r s rest Ha Hnd Hr Hnz.
  { exists r, s. cbn in Ha. split_and!; try done; [by rewrite <- Ha; destruct (kenv s)|by left|].
    cbn [linked]. unfold end_list. rewrite node_eq. done. }
  cbn [datalist_nodes length map fst] in *. cbn in Ha.
  apply NoDup_cons in Hnd as [Hnr Hnd]. inversion_clear Hnz as [|?? Hlp Hps].
  rewrite (kmalloc_cons _ _ _ Ha). set (s1 := set_dv _ s).
  rewrite (kmalloc_cons s1 b (blocks ps ++ rest)) by done. set (s2 := set_dv _ s1).
  rewrite (proj2 (Z.eqb_neq lp 0)) by done.
  set (s3 := set_node lp _ s2). set (s4 := set_node r _ s3).
  assert (Hne : r <> lp) by (intros ->; apply Hnr; by left).
  destruct (IH lp s4 rest) as (r' & s' & Hrun & He & Hl & Hin & Hlk & Hfr & Hd); try done.
  exists r', s'. split_and!; try done; [by right| | |].
  - cbn [linked] in *. destruct Hlk as (_ & _ & Hdata & Hlk).
    assert (Hr' : r' <> r) by (intros ->; done).
    assert (Hn4 : nodes s' r = mk_dl (dl_data (nodes s r)) (dl_len (nodes s r)) lp).
    { rewrite Hfr by done. subst s4. rewrite node_eq. subst s3. by rewrite !node_ne. }
    assert (Hend : nodes (end_list r' s') r = nodes s' r) by (unfold end_list; by rewrite node_ne).
    assert (Hb : dl_data (nodes s4 lp) = b).
    { subst s4 s3. by rewrite node_ne, node_eq. }
    rewrite Hend, Hn4. cbn [dl_data dl_next]. rewrite Hb in Hdata. by split_and!.
  - intros q [Hq1 Hq2]%not_elem_of_cons. rewrite Hfr by done. subst s4 s3.
    apply not_elem_of_cons in Hq2 as [Hq2 _]. by rewrite !node_ne.
  - rewrite Hfr by done. subst s4 s3. by rewrite node_eq, !node_ne.
Qed.

Lemma kfree_fields p s : p <> 0 ->
  nodes (kfree p s) = nodes s /\ lists (kfree p s) = lists s /\
  kenv (kfree p s) = mk_env (to_alloc (kenv s)) (freed (kenv s) ++ [p]).
Proof. intros H. unfold kfree. by rewrite (proj2 (Z.eqb_neq p 0)). Qed.

Lemma datalist_free_spec l ps2 : forall ps1 s,
  l <> 0 -> linked (nodes s) (datalist (lists s l)) (ps1 ++ ps2) ->
  Forall (fun b => b <> 0) (map snd ps1) ->
  exists s', datalist_free_nodes (length ps1) l s = Some s' /\
    kenv s' = mk_env (to_alloc (kenv s)) (freed (kenv s) ++ map snd ps1).
Proof.
  induction ps1 as [|[q b] ps1 IH]; intros s Hl Hlk Hnz; cbn [length map snd] in *.
  { exists s. rewrite app_nil_r. split; [done|]. by destruct (kenv s). }
  cbn [app linked datalist_free_nodes] in *. destruct Hlk as (-> & Hq & Hb & Hlk).
  inversion_clear Hnz as [|?? Hb0 Hnz']. rewrite (proj2 (Z.eqb_neq q 0)), Hb by done.
  destruct (kfree_fields b s) as (Kn & Kl & Ke); [done|].
  set (s1 := kfree b s) in *.
  match goal with |- context [datalist_free_nodes (length ps1) l ?t] => set (s3 := t) end.
  destruct (IH s3) as (s' & Hrun & He); try done.
  { subst s3. cbn [set_list set_lists lists datalist nodes]. rewrite Z.eqb_refl. cbn [datalist].
    rewrite node_eq. cbn [dl_next]. rewrite Kn.
    apply (linked_ext (nodes s)); [|done]. intros a _. cbn. rewrite Kn.
    destruct (Z.eqb_spec a q) as [->|]; done. }
  exists s'. split; [done|]. rewrite He. change (kenv s3) with (kenv s1). rewrite Ke. cbn.
  by rewrite <- app_assoc.
Qed.

Lemma blocks_forall (P : Z -> Prop) ps :
  Forall P (blocks ps) -> Forall P (map fst ps) /\ Forall P (map snd ps).
Proof.
  induction ps as [|[q b] ps IH]; [by constructor|]. unfold blocks in *. cbn.
  intros H. inversion_clear H as [|?? Hq H1]. inversion_clear H1 as [|?? Hb H2].
  destruct (IH H2). split; by constructor.
Qed.

Lemma length_blocks ps : length (blocks ps) = (2 * length ps)%nat.
Proof. unfold blocks. induction ps as [|[q b] ps IH]; [done|]. cbn in *. lia. Qed.

Lemma datalist_alloc_spec s l ps rest :
  to_alloc (kenv s) = l :: blocks ps ++ rest -> l <> 0 -> ps <> [] ->
  Forall (fun p => p <> 0) (blocks ps) -> NoDup (map fst ps) ->
  let n := Z.of_nat (length ps) - 1 in
  exists s', ifx_mps_cpu0_datalist_alloc n s = Some (l, s') /\
    kenv s' = mk_env rest (freed (kenv s)) /\
    linked (nodes s') (datalist (lists s' l)) ps /\ no (lists s' l) = n.
Proof.
  intros Ha Hl Hps Hnz Hnd n. destruct ps as [|[q b] ps]; [done|].
  apply blocks_forall in Hnz as [Hnz _]. cbn in Ha, Hnz. inversion_clear Hnz as [|?? Hq Hnz'].
  unfold ifx_mps_cpu0_datalist_alloc. rewrite (kmalloc_cons _ _ _ Ha). set (s1 := set_dv _ s).
  rewrite (kmalloc_cons s1 q (b :: blocks ps ++ rest)) by done. set (s2 := set_dv _ s1).
  rewrite (proj2 (Z.eqb_neq l 0)) by done. set (s3 := set_list l _ s2).
  rewrite (kmalloc_cons s3 b (blocks ps ++ rest)) by done. set (s4 := set_dv _ s3).
  rewrite (proj2 (Z.eqb_neq q 0)) by done. set (s5 := set_node q _ s4).
  replace (Z.to_nat n) with (length ps) by (subst n; cbn; lia).
  destruct (datalist_nodes_spec ps q s5 rest) as (r & s' & -> & He & Hls & _ & Hlk & _); try done.
  bind. eexists. split; [done|]. split_and!; try done; cbn [set_list set_lists lists no datalist nodes].
  - rewrite Z.eqb_refl. cbn [datalist]. change (lists (set_node r _ s')) with (lists s').
    rewrite Hls. subst s5 s4 s3. cbn [set_list set_lists lists set_node set_dv].
    rewrite Z.eqb_refl. cbn [datalist]. unfold end_list in Hlk. rewrite node_eq in Hlk. done.
  - by rewrite Z.eqb_refl.
Qed.

(** Freeing a list of data buffers loses most of it.  Allocating a list for
    [n] buffers takes 2n + 3 blocks: the head, and n + 1 nodes with a buffer each.
    Freeing it again gives back only the buffers of the first n nodes and the
    head; the n + 1 nodes and the last buffer stay allocated and nothing refers to
    them. *)
Theorem datalist_free_leaks s l ps q b rest :
  to_alloc (kenv s) = l :: blocks (ps ++ [(q, b)]) ++ rest ->
  Forall (fun p => p <> 0) (l :: blocks (ps ++ [(q, b)])) ->
  NoDup (map fst (ps ++ [(q, b)])) ->
  exists s1 s2, ifx_mps_cpu0_datalist_alloc (Z.of_nat (length ps)) s = Some (l, s1) /\
    linked (nodes s1) (datalist (lists s1 l)) (ps ++ [(q, b)]) /\
    ifx_mps_cpu0_datalist_free l s1 = Some s2 /\
    kenv s2 = mk_env rest (freed (kenv s) ++ map snd ps ++ [l]) /\
    (length (to_alloc (kenv s)) - length rest = 2 * length ps + 3)%nat.
Proof.
  intros Ha Hnz Hnd. inversion_clear Hnz as [|?? Hl Hnz'].
  destruct (datalist_alloc_spec s l (ps ++ [(q, b)]) rest) as (s1 & Hrun & He & Hlk & Hno); try done.
  { by destruct ps. }
  replace (Z.of_nat (length (ps ++ [(q, b)])) - 1) with (Z.of_nat (length ps)) in * by
    (rewrite length_app; cbn; lia).
  destruct (datalist_free_spec l [(q, b)] ps s1) as (s2 & Hfree & Hf); try done.
  { apply blocks_forall in Hnz' as [_ Hs]. rewrite map_app in Hs. by apply Forall_app in Hs as [Hs _]. }
  exists s1, (kfree l (set_list l (mk_mdl 0 (datalist (lists s2 l))) s2)).
  split; [done|]. split; [done|]. split_and!.
  - unfold ifx_mps_cpu0_datalist_free. rewrite (proj2 (Z.eqb_neq l 0)), Hno, Nat2Z.id, Hfree by done. done.
  - destruct (kfree_fields l (set_list l (mk_mdl 0 (datalist (lists s2 l))) s2) Hl) as (_ & _ & ->).
    change (kenv (set_list _ _ s2)) with (kenv s2). rewrite Hf, He. cbn. by rewrite <- app_assoc.
  - rewrite Ha. cbn [length]. rewrite length_app, length_blocks, length_app. cbn. lia.
Qed.

(** ** The two tables of callbacks *)

Inductive cb_op := Reg (seq callback : Z) | Unreg (seq : Z).
Definition cb_step (op : cb_op) (s : state) : Z * state :=
  match op with
  | Reg seq callback => ifx_mps_register_callback seq callback s
  | Unreg seq => ifx_mps_unregister_callback seq s
  end.
Definition cb_run (l : list cb_op) (s : state) : state := fold_left (fun s op => snd (cb_step op s)) l s.








(** ** Reset *)

Lemma reset_callbacks d : on_cpu0 d = true ->
  fst (ifx_mpsdrv_reset d) = OK /\
  forall seq, 0 <= seq < 256 -> callback_function (snd (ifx_mpsdrv_reset d)) seq = 0.
Proof.
  intros H0. unfold on_cpu0, ifx_mpsdrv_get_cpu_id in H0. unfold ifx_mpsdrv_reset.
  destruct (_ =? 0); [|done]. cbn [negb]. split; [done|]. intros seq [Hs1 Hs2].
  cbn. apply Z.leb_le in Hs1. apply Z.ltb_lt in Hs2. unfold MPSDRV_TOTAL_SEQ_NUMBERS.
  by rewrite Hs1, Hs2.
Qed.

Lemma command_callback_fixed op s :
  callback_function (dv (snd (cb_step op s))) 0 = callback_function (dv s) 0.
Proof.
  destruct op as [seq cb|seq]; cbn [cb_step];
    unfold ifx_mps_register_callback, ifx_mps_unregister_callback, ifx_mpsdrv_register_callback,
      ifx_mpsdrv_unregister_callback; destruct (Z.eqb_spec seq 0); try done.
  all: destruct (data_callback_funct s seq =? 0); cbn [negb]; try done.
  all: cbn [dv set_data_callbacks]; destruct (callback_function (dv s) seq =? 0); try done.
  all: cbn; by rewrite upd_ne.
Qed.

(** A service that is registered here but not in the driver below stays so until it
    is removed. *)
Lemma lost_service seq l : forall s, seq <> 0 -> Forall (fun op => op <> Unreg seq) l ->
  data_callback_funct s seq <> 0 -> callback_function (dv s) seq = 0 ->
  data_callback_funct (cb_run l s) seq <> 0 /\ callback_function (dv (cb_run l s)) seq = 0.
Proof.
  induction l as [|op l IH]; intros s Hs Hl Hf Hd; [done|]. inversion_clear Hl as [|?? Ho Hl'].
  cbn [cb_run fold_left]. apply IH; [done|done|..];
    destruct op as [q cb|q]; cbn [cb_step]; unfold ifx_mps_register_callback, ifx_mps_unregister_callback,
      ifx_mpsdrv_register_callback, ifx_mpsdrv_unregister_callback; destruct (Z.eqb_spec q 0); try done;
    assert (q = seq -> data_callback_funct s q <> 0) by (by intros ->);
    destruct (Z.eqb_spec (data_callback_funct s q) 0); cbn [negb]; try done;
    assert (seq <> q) by (intros ->; congruence);
    cbn [dv set_dv set_data_callbacks snd]; destruct (callback_function (dv s) q =? 0); cbn; by rewrite ?upd_ne.
Qed.

(** C30: The reset of the device loses the callbacks.  On CPU0 it succeeds and empties
    the driver's table but not this file's.  Whatever is registered and removed
    later, the command callback does not come back, so every request CPU1 sends
    from then on is dropped.  A service that was registered gets nothing any more, and
    cannot register again, as long as it is not removed; removing it succeeds, and
    then registering it does too, and the driver has its callback again. *)
Theorem reset_loses_callbacks s out s' seq cb l m :
  on_cpu0 (dv s) = true -> ifx_mps_ioctl FIO_MPS_RESET s = (out, [], s') ->
  0 < seq < 256 -> data_callback_funct s seq <> 0 ->
  let s1 := cb_run l s' in
  out = OK /\
  run_callback (callback_function (dv s1) 0) m s1 = Some s1 /\
  (Forall (fun op => op <> Unreg seq) l ->
     run_callback (callback_function (dv s1) seq) m s1 = Some s1 /\
     ifx_mps_register_callback seq cb s1 = (ERROR, s1) /\
     exists s2 s3, ifx_mps_unregister_callback seq s1 = (OK, s2) /\
       ifx_mps_register_callback seq cb s2 = (0, s3) /\ callback_function (dv s3) seq = data_cb).
Proof.
  intros H0 Hr Hs Hf s1. unfold ifx_mps_ioctl in Hr.
  change (FIO_MPS_RESET =? FIO_MPS_GETVERSION) with false in Hr. rewrite Z.eqb_refl in Hr.
  destruct (reset_callbacks _ H0) as [Ho Hc].
  destruct (ifx_mpsdrv_reset (dv s)) as [r d]. cbn [fst snd] in *. injection Hr as <- Es.
  assert (E0 : callback_function (dv s') 0 = 0) by (rewrite <- Es; apply Hc; lia).
  assert (Eq : callback_function (dv s') seq = 0) by (rewrite <- Es; apply Hc; lia).
  assert (Ef : data_callback_funct s' seq <> 0) by (by rewrite <- Es). clear Es Hc Hf H0.
  split; [done|]. split.
  - enough (E : callback_function (dv s1) 0 = 0) by (unfold run_callback; by rewrite E).
    subst s1. clear Eq Ef. revert s' E0. induction l as [|op l IH]; intros s1 E1; [done|].
    cbn [cb_run fold_left]. apply IH. by rewrite command_callback_fixed.
  - intros Hl. destruct (lost_service seq l s' ltac:(lia) Hl Ef Eq) as [Hf Hd]. fold s1 in Hf, Hd. clearbody s1.
    split; [unfold run_callback; by rewrite Hd|]. apply Z.eqb_neq in Hf.
    unfold ifx_mps_register_callback, ifx_mps_unregister_callback. rewrite Hf, (proj2 (Z.eqb_neq seq 0)) by lia.
    split; [done|]. eexists _, _. split; [done|].
    unfold ifx_mpsdrv_unregister_callback. cbn [dv set_dv set_data_callbacks data_callback_funct negb].
    rewrite upd_eq, Hd. cbn [Z.eqb negb snd fst]. unfold ifx_mpsdrv_register_callback.
    cbn [dv set_dv set_data_callbacks]. rewrite Hd. cbn [Z.eqb negb]. split; [done|]. cbn. by rewrite upd_eq.
Qed.

End Rpc.

(** ** The theorems apply *)

(** A heap that hands out addresses from a counter. *)
Definition counter_ops : kernel_ops Z :=
  mk_ops Z (fun _ _ h => (h, h + 0x100)) (fun _ h => h) (fun _ _ h => (h, h + 0x100))
    (fun _ _ h => (h, h + 0x100)) (fun _ _ _ _ h => (0, h)) (fun _ _ h => (h, h + 0x100))
    (fun _ _ _ _ h => (h, h + 0x100)) (fun _ _ h => h) (fun _ _ h => h).
(** A CPU before anything has been registered but the command callback. *)
Definition sample_state (cpu : Z) (allocs : list Z) (r : Z -> Z) : mps_state Z :=
  mk_ms Z (set_callbacks (fun s => if s =? 0 then 0x700 else 0)
             (sample_dev cpu (fresh_fifo 64) sample_queue allocs r))
    (fun _ => 0) (repeat 0 DATAMSG_WORDS) 0 0 (fun _ => mk_dl 0 0 0) (fun _ => mk_mdl 0 0) [] 0x9000.

Lemma datalist_free_leaks_witness :
  exists s1 s2,
    ifx_mps_cpu0_datalist_alloc 1 (sample_state 0 [0x10; 0x20; 0x30; 0x40; 0x50] (fun _ => 0)) = Some (0x10, s1) /\
    ifx_mps_cpu0_datalist_free 0x10 s1 = Some s2 /\ freed (kenv s2) = [0x30; 0x10].
Proof.
  destruct (datalist_free_leaks (sample_state 0 [0x10; 0x20; 0x30; 0x40; 0x50] (fun _ => 0))
    0x10 [(0x20, 0x30)] 0x40 0x50 []) as (s1 & s2 & H1 & _ & H2 & H3 & _).
  - reflexivity.
  - repeat constructor; discriminate.
  - apply (bool_decide_unpack (NoDup [0x20; 0x40])). exact I.
  - exists s1, s2. split; [exact H1|]. split; [exact H2|]. rewrite H3. reflexivity.
Defined.


Lemma reset_loses_callbacks_witness :
  let s := cb_run 0x710 [Reg 7 0x500] (sample_state 0 [] (fun _ => 0)) in
  let s' := snd (ifx_mps_ioctl FIO_MPS_RESET s) in
  fst (fst (ifx_mps_ioctl FIO_MPS_RESET s)) = OK /\
  ifx_mps_register_callback 0x710 7 0x500 s' = (ERROR, s').
Proof.
  intros s s'.
  destruct (reset_loses_callbacks counter_ops 0x700 0x710 s OK s' 7 0x500 [] []) as (_ & _ & H).
  - reflexivity.
  - reflexivity.
  - split; reflexivity.
  - discriminate.
  - split; [reflexivity|]. destruct (H (List.Forall_nil _)) as (_ & E & _). exact E.
Defined.
