(* ===== verification/MpsProc.v ===== *)
(** * The ready bits under [/proc] ([mps_tpe_linux.c])

    The applications on CPU1 write [SET_BIT n] or [CLR_BIT n] to the file
    [mps1_apps_ready]; either CPU reads the sixteen bits from it.  The file holds
    the parser of the text in user memory, the writer and the reader, and shows
    that what is written is what is read.

    Bytes are numbers; user memory is a function, [None] where it cannot be read.
    The result [None] of an operation is a write outside the buffer. *)

From S2P Require Import Prelude MpsFifo MpsDevice.
From Stdlib Require Import String Ascii List.
Open Scope Z_scope.

(** ** Bytes and strings *)

Definition text (s : string) : list Z := map (fun c => Z.of_N (N_of_ascii c)) (list_ascii_of_string s).

(** [lib/string.c] and [lib/vsprintf.c] of the kernel, on a string without its
    end; the base is 10, so a letter ends the number. *)
Fixpoint starts_with (pat s : list Z) : bool :=
  match pat, s with
  | [], _ => true
  | p :: pat, c :: s => (p =? c) && starts_with pat s
  | _, [] => false
  end.
Fixpoint strstr (s pat : list Z) : bool :=
  starts_with pat s || match s with [] => false | _ :: s => strstr s pat end.
Definition isdigit (c : Z) : bool := (48 <=? c) && (c <=? 57).
Fixpoint strtoul_from (result : Z) (s : list Z) : Z :=
  match s with
  | c :: s => if isdigit c then strtoul_from (w32 (result * 10 + (c - 48))) s else result
  | [] => result
  end.
Definition simple_strtoul (s : list Z) : Z := strtoul_from 0 s.

(** Up to the first zero byte. *)
Fixpoint c_string (l : list Z) : list Z :=
  match l with [] => [] | c :: l => if c =? 0 then [] else c :: c_string l end.

(** ** Reading the text *)

Definition BUF_SIZE : Z := 80.
Definition is_sep (c : Z) : bool := existsb (Z.eqb c) [34; 10; 13; 9; 32; 44].
Definition is_trail (c : Z) : bool := existsb (Z.eqb c) [34; 10; 13; 9; 32; 61; 44].

(** The loops of the two functions below: the number of bytes before the first
    that stops. *)
Fixpoint scan (stop : Z -> bool) (user : Z -> option Z) (off : Z) (n : nat) (i : Z) : Z :=
  match n with
  | O => i
  | S n =>
      match user (off + i) with
      | None => - EFAULT
      | Some c => if stop c then i else scan stop user off n (i + 1)
      end
  end.
Definition strn_len (user : Z -> option Z) (off maxlen : Z) : Z :=
  scan is_sep user off (Z.to_nat maxlen) 0.
Definition count_trail_chars (user : Z -> option Z) (off maxlen : Z) : Z :=
  scan (fun c => negb (is_trail c)) user off (Z.to_nat maxlen) 0.

Definition copy_from_user (user : Z -> option Z) (off n : Z) : option (list Z) :=
  mapM (fun i => user (off + i)) (below n).

(** [buf[len] = 0], in a buffer of 80 bytes; then [buf] as a string. *)
Definition terminate (l : list Z) : option (list Z) :=
  if Z.of_nat (length l) <? BUF_SIZE then Some (c_string l) else None.

(** A word of the text at [off]: an error number, or its length and the string
    in [buf]. *)
Definition read_word (user : Z -> option Z) (off : Z) : option (Z + Z * list Z) :=
  let len := strn_len user off BUF_SIZE in
  if len <? 0 then Some (inl len) else
  match copy_from_user user off len with
  | None => Some (inl (- EFAULT))
  | Some l => buf ← terminate l; Some (inr (len, buf))
  end.

Definition ifx_mps_set_mps1rdy_proc (user : Z -> option Z) (count : Z) (d : mps_comm_dev)
  : option (Z * mps_comm_dev) :=
  x ← read_word user 0;
  match x with
  | inl e => Some (e, d)
  | inr (len, buf) =>
      let i := len in
      let proc_cmd := if strstr buf (text "SET_BIT") then 1
                      else if strstr buf (text "CLR_BIT") then 2 else 0 in
      if proc_cmd =? 0 then Some (- EFAULT, d) else
      let len := count_trail_chars user i BUF_SIZE in
      if len <? 0 then Some (len, d) else
      let i := i + len in
      x ← read_word user i;
      match x with
      | inl e => Some (e, d)
      | inr (len, buf) =>
          let bitn := simple_strtoul buf mod 65536 in
          if bitn >=? 16 then Some (- EFAULT, d)
          else Some (count, ifx_mpsdrv_ctrl_mps1_apps_ready_bit (if proc_cmd =? 1 then 1 else 0) bitn d)
      end
  end.

(** ** Showing the bits *)

Definition bit_text (mps1_ready i : Z) : list Z :=
  text (if negb (mps1_ready .& (1 .<< i) =? 0) then " 1" else " 0").

Definition ifx_mps_get_mps1rdy_proc (d : mps_comm_dev) : list Z :=
  let mps1_ready := ifx_mpsdrv_get_mps1_apps_ready_bits d mod 65536 in
  text "-----<MPS1_APPS_READY_BITS>-----" ++ [10] ++
  text "-F-E-D-C-B-A-9-8-7-6-5-4-3-2-1-0" ++ [10] ++
  concat (map (bit_text mps1_ready) (rev (below 16))) ++ [10].

(** What a reader of [count] bytes from [off] is told, for a file of [len] bytes:
    how many there are, and whether they are the last. *)
Definition ifx_mps_read_proc (len off count : Z) : Z * bool :=
  let eof := len <=? off + count in
  let len := len - off in
  let len := if len >? count then count else len in
  (if len <? 0 then 0 else len, eof).

(** ** Theorems *)

(** The text [l] is at [off]. *)
Definition at_user (user : Z -> option Z) (off : Z) (l : list Z) : Prop :=
  forall i c, l !! i = Some c -> user (off + Z.of_nat i) = Some c.

Lemma at_user_app user off l l' :
  at_user user off (l ++ l') -> at_user user off l /\ at_user user (off + Z.of_nat (length l)) l'.
Proof.
  intros H. split; intros i c Hi.
  - apply H. by apply lookup_app_l_Some.
  - rewrite <- Z.add_assoc, <- Nat2Z.inj_add. apply H.
    rewrite lookup_app_r by lia. by rewrite Nat.add_comm, Nat.add_sub.
Qed.

Lemma scan_spec stop user : forall l off n i,
  at_user user (off + i) l -> Forall (fun c => stop c = false) l -> (length l < n)%nat ->
  (exists c, user (off + i + Z.of_nat (length l)) = Some c /\ stop c = true) ->
  scan stop user off n i = i + Z.of_nat (length l).
Proof.
  induction l as [|c l IH]; intros off n i Ha Hs Hn (e & He & Hst).
  - destruct n as [|n]; [cbn in Hn; lia|]. cbn [scan length] in *. rewrite !Z.add_0_r in He.
    rewrite He, Hst. cbn. lia.
  - destruct n as [|n]; [cbn in Hn; lia|]. cbn [scan length] in *.
    pose proof (Ha O c eq_refl) as Hc. rewrite Z.add_0_r in Hc. rewrite Hc.
    inversion_clear Hs as [|?? Hf Hs']. rewrite Hf. rewrite IH; try done; try lia.
    + intros k x Hk. rewrite <- (Ha (S k) x Hk). f_equal. lia.
    + exists e. split; [|done]. rewrite <- He. f_equal. lia.
Qed.

Lemma copy_spec user : forall l off, at_user user off l ->
  copy_from_user user off (Z.of_nat (length l)) = Some l.
Proof.
  intros l off Ha. unfold copy_from_user. apply mapM_Some. apply Forall2_same_length_lookup_2.
  - by rewrite length_below, Nat2Z.id.
  - intros i x y Hx Hy. unfold below in Hx. rewrite Nat2Z.id in Hx.
    change (map ?f ?s) with (f <$> s) in Hx. rewrite list_lookup_fmap in Hx.
    pose proof (lookup_lt_Some _ _ _ Hy) as Hlt. rewrite lookup_seq_lt in Hx by done.
    cbn in Hx. injection Hx as <-. by apply Ha.
Qed.

Lemma c_string_id l : Forall (fun c => c <> 0) l -> c_string l = l.
Proof.
  induction 1 as [|c l Hc _ IH]; [done|]. cbn [c_string]. by rewrite (proj2 (Z.eqb_neq c 0)), IH.
Qed.

(** A word and the separator behind it. *)
Lemma read_word_spec user off w c :
  at_user user off (w ++ [c]) -> Forall (fun c => is_sep c = false /\ c <> 0) w -> is_sep c = true ->
  Z.of_nat (length w) < BUF_SIZE ->
  read_word user off = Some (inr (Z.of_nat (length w), w)).
Proof.
  intros Ha Hw Hc Hl. pose proof Ha as [Ha1 Ha2]%at_user_app.
  assert (Hs : strn_len user off BUF_SIZE = Z.of_nat (length w)).
  { unfold strn_len. rewrite (scan_spec _ _ w).
    - done.
    - by rewrite Z.add_0_r.
    - eapply List.Forall_impl; [|exact Hw]. by intros ? [? _].
    - unfold BUF_SIZE in *. lia.
    - exists c. split; [|done]. rewrite Z.add_0_r. specialize (Ha2 O c eq_refl). by rewrite Z.add_0_r in Ha2. }
  unfold read_word. rewrite Hs, (proj2 (Z.ltb_ge _ _)) by lia. rewrite copy_spec by done.
  unfold terminate. rewrite (proj2 (Z.ltb_lt _ _)) by done. cbn [mbind option_bind].
  rewrite c_string_id; [done|]. eapply List.Forall_impl; [|exact Hw]. by intros ? [_ ?].
Qed.

(** The digit shown for bit [i]. *)
Lemma shown_bit d i : 0 <= i < 16 ->
  nth (66 + 2 * Z.to_nat (15 - i) + 1) (ifx_mps_get_mps1rdy_proc d) 0 =
  if Z.testbit (ifx_mpsdrv_get_mps1_apps_ready_bits d) i then 49 else 48.
Proof.
  intros Hi. unfold ifx_mps_get_mps1rdy_proc. set (r := _ mod 65536).
  assert (Hr : Z.testbit (ifx_mpsdrv_get_mps1_apps_ready_bits d) i = Z.testbit r i).
  { unfold r. change 65536 with (2 ^ 16). by rewrite Z.mod_pow2_bits_low by lia. }
  rewrite Hr. clear Hr. clearbody r.
  assert (Hb : forall j, bit_text r j = [32; if negb (r .& (1 .<< j) =? 0) then 49 else 48]).
  { intros j. unfold bit_text. by destruct (negb _). }
  change (rev (below 16)) with [15; 14; 13; 12; 11; 10; 9; 8; 7; 6; 5; 4; 3; 2; 1; 0].
  cbn [map concat app]. rewrite !Hb.
  assert (Hl : Z.testbit r i = negb (r .& (1 .<< i) =? 0)) by (rewrite land_bit_eqb0 by lia; by rewrite negb_involutive).
  rewrite Hl. clear Hl Hb.
  assert (Hi' : i = 0 \/ i = 1 \/ i = 2 \/ i = 3 \/ i = 4 \/ i = 5 \/ i = 6 \/ i = 7 \/ i = 8 \/
    i = 9 \/ i = 10 \/ i = 11 \/ i = 12 \/ i = 13 \/ i = 14 \/ i = 15) by lia.
  destruct_or! Hi'; subst i; reflexivity.
Qed.

(** The number that the leading digits of a word write, 0 without digits. *)
Fixpoint number_from (v : Z) (s : list Z) : Z :=
  match s with
  | c :: s => if isdigit c then number_from (v * 10 + (c - 48)) s else v
  | [] => v
  end.
Definition number (s : list Z) : Z := number_from 0 s.

(** The kernel's number is this one in 32 bits, of which the file takes 16. *)
Lemma strtoul_from_number s : forall r v, r mod 65536 = v mod 65536 ->
  strtoul_from r s mod 65536 = number_from v s mod 65536.
Proof.
  induction s as [|c s IH]; intros r v E; [done|]. cbn [strtoul_from number_from]. destruct (isdigit c); [|done].
  apply IH. unfold w32. change (2 ^ 32) with (65536 * 65536). rewrite Z.mod_mod_divide by (exists 65536; done).
  by rewrite Z.add_mod, Z.mul_mod, E, <- Z.mul_mod, <- Z.add_mod by done.
Qed.
Lemma strtoul_number s : simple_strtoul s mod 65536 = number s mod 65536.
Proof. by apply strtoul_from_number. Qed.

(** What a text of a command word, separators, another word and a separator does. *)
Lemma set_proc_spec user w seps ds c count d :
  at_user user 0 (w ++ seps ++ ds ++ [c]) ->
  Forall (fun c => is_sep c = false /\ c <> 0) w -> Z.of_nat (length w) < BUF_SIZE ->
  (exists s seps', seps = s :: seps' /\ is_sep s = true) -> Forall (fun c => is_trail c = true) seps ->
  Z.of_nat (length seps) < BUF_SIZE ->
  Forall (fun c => is_sep c = false /\ c <> 0) ds -> (exists e ds', ds = e :: ds' /\ is_trail e = false) ->
  Z.of_nat (length ds) < BUF_SIZE ->
  is_sep c = true ->
  let n := number ds mod 65536 in
  ifx_mps_set_mps1rdy_proc user count d = Some
    (if strstr w (text "SET_BIT") then
       if n >=? 16 then (- EFAULT, d) else (count, ifx_mpsdrv_ctrl_mps1_apps_ready_bit 1 n d)
     else if strstr w (text "CLR_BIT") then
       if n >=? 16 then (- EFAULT, d) else (count, ifx_mpsdrv_ctrl_mps1_apps_ready_bit 0 n d)
     else (- EFAULT, d)).
Proof.
  intros Ha Hw Hlw (s0 & seps' & -> & Hs0) Hseps Hls Hds Hne Hld Hc n.
  set (seps := s0 :: seps') in *.
  assert (Hword : read_word user 0 = Some (inr (Z.of_nat (length w), w))).
  { apply (read_word_spec _ _ _ s0); try done.
    replace (w ++ seps ++ ds ++ [c]) with ((w ++ [s0]) ++ seps' ++ ds ++ [c]) in Ha by
      (subst seps; by rewrite <- app_assoc).
    by apply at_user_app in Ha as [Ha _]. }
  apply at_user_app in Ha as [_ Ha]. rewrite Z.add_0_l in Ha. pose proof Ha as [Has Had]%at_user_app.
  assert (Hsep : count_trail_chars user (Z.of_nat (length w)) BUF_SIZE = Z.of_nat (length seps)).
  { unfold count_trail_chars. rewrite (scan_spec _ _ seps).
    - done.
    - by rewrite Z.add_0_r.
    - eapply List.Forall_impl; [|exact Hseps]. intros x Hx. cbv beta in Hx |- *. by rewrite Hx.
    - unfold BUF_SIZE in *. lia.
    - destruct Hne as (e & ds' & -> & He). exists e. rewrite Z.add_0_r. split; [|by rewrite He].
      specialize (Had O e eq_refl). by rewrite Z.add_0_r in Had. }
  assert (Hnum : read_word user (Z.of_nat (length w) + Z.of_nat (length seps)) =
      Some (inr (Z.of_nat (length ds), ds))) by (apply (read_word_spec _ _ _ c); done).
  unfold ifx_mps_set_mps1rdy_proc. rewrite Hword. cbn [mbind option_bind]. rewrite Hsep.
  rewrite (proj2 (Z.ltb_ge (Z.of_nat (length seps)) 0)) by lia. rewrite Hnum. cbn [mbind option_bind].
  rewrite strtoul_number. fold n. destruct (strstr w (text "SET_BIT")), (strstr w (text "CLR_BIT")); cbn [Z.eqb Pos.eqb]; try done;
    by destruct (n >=? 16).
Qed.

(** The column of bit [i] in the file. *)
Definition column (i : Z) : nat := 66 + 2 * Z.to_nat (15 - i) + 1.

(** C37: What is written to the ready file is what is read from it.  A text of a
    word with [SET_BIT], or with [CLR_BIT] and not that, then separators, then
    another word and a separator names the bit [n]: the number its leading digits
    write, modulo 65536, and 0 where it starts with no digit.  Below 16 the text is
    accepted, and afterwards the file shows a 1 (a 0) for that bit and the same as
    before for every other; from 16 on it gives -EFAULT and changes nothing.  So 65541
    is taken for 5, and a word that is no number for 0. *)
Theorem ready_file_roundtrip user w seps ds c count d (set : bool) i :
  at_user user 0 (w ++ seps ++ ds ++ [c]) ->
  Forall (fun c => is_sep c = false /\ c <> 0) w -> Z.of_nat (length w) < BUF_SIZE ->
  (exists s seps', seps = s :: seps' /\ is_sep s = true) -> Forall (fun c => is_trail c = true) seps ->
  Z.of_nat (length seps) < BUF_SIZE ->
  Forall (fun c => is_sep c = false /\ c <> 0) ds -> (exists e ds', ds = e :: ds' /\ is_trail e = false) ->
  Z.of_nat (length ds) < BUF_SIZE ->
  is_sep c = true ->
  strstr w (text "SET_BIT") = set -> (set = false -> strstr w (text "CLR_BIT") = true) ->
  0 <= i < 16 ->
  let n := number ds mod 65536 in
  let shown d := nth (column i) (ifx_mps_get_mps1rdy_proc d) 0 in
  if n <? 16 then
    exists d', ifx_mps_set_mps1rdy_proc user count d = Some (count, d') /\
      shown d' = if i =? n then (if set then 49 else 48) else shown d
  else ifx_mps_set_mps1rdy_proc user count d = Some (- EFAULT, d).
Proof.
  intros Ha Hw Hlw Hsep Hseps Hls Hds Hne Hld Hc Hset Hclr Hi n shown.
  pose proof (set_proc_spec user w seps ds c count d Ha Hw Hlw Hsep Hseps Hls Hds Hne Hld Hc) as E.
  cbv zeta in E. fold n in E. rewrite Hset in E.
  assert (Hn0 : 0 <= n) by (apply Z.mod_pos_bound; lia).
  assert (Hb : forall b, 0 <= n < 16 -> shown (ifx_mpsdrv_ctrl_mps1_apps_ready_bit b n d) =
    if i =? n then (if negb (b =? 0) then 49 else 48) else shown d).
  { intros b Hn. unfold shown, column. rewrite !shown_bit by done.
    rewrite apps_ready_bit_update by lia. by destruct (i =? n). }
  destruct (n <? 16) eqn:En; bool_prop.
  - rewrite Z.geb_leb, (proj2 (Z.leb_gt _ _)) in E by lia. destruct set.
    + eexists. split; [exact E|]. by apply Hb.
    + rewrite Hclr in E by done. eexists. split; [exact E|]. by apply Hb.
  - rewrite Z.geb_leb, (proj2 (Z.leb_le _ _)) in E by lia.
    destruct set; [done|]. by rewrite Hclr in E.
Qed.

(** A word that fills the buffer: the end mark goes behind it. *)
Theorem long_word_overruns user w count d :
  at_user user 0 w -> Forall (fun c => is_sep c = false) w -> Z.of_nat (length w) = BUF_SIZE ->
  ifx_mps_set_mps1rdy_proc user count d = None.
Proof.
  intros Ha Hw Hl. unfold ifx_mps_set_mps1rdy_proc, read_word.
  assert (Hs : forall n l i, length l = n -> at_user user i l -> Forall (fun c => is_sep c = false) l ->
    scan is_sep user 0 n i = i + Z.of_nat n).
  { induction n as [|n IH]; intros l i El Hal Hfl; [cbn; lia|]. destruct l as [|x l]; [done|].
    cbn [scan]. pose proof (Hal O x eq_refl) as Hx. rewrite Z.add_0_r in Hx. rewrite Z.add_0_l, Hx.
    inversion_clear Hfl as [|?? Hf Hfl']. rewrite Hf. rewrite (IH l).
    - lia.
    - by injection El.
    - intros k y Hk. rewrite <- (Hal (S k) y Hk). f_equal. lia.
    - done. }
  unfold strn_len. rewrite (Hs _ w) by (try done; unfold BUF_SIZE in *; lia).
  change (0 + Z.of_nat (Z.to_nat BUF_SIZE)) with BUF_SIZE. rewrite <- Hl.
  rewrite (proj2 (Z.ltb_ge _ _)) by lia. rewrite copy_spec by done. unfold terminate.
  by rewrite Hl, Z.ltb_irrefl.
Qed.

(** ** The theorems apply *)

(** User memory that holds a text. *)
Definition user_text (l : list Z) (a : Z) : option Z := if a <? 0 then None else l !! Z.to_nat a.

Lemma user_text_at l : at_user (user_text l) 0 l.
Proof.
  intros i c Hi. unfold user_text. rewrite (proj2 (Z.ltb_ge _ _)) by lia.
  by rewrite Z.add_0_l, Nat2Z.id.
Qed.

Lemma ready_file_roundtrip_witness :
  let d := sample_dev 1 sample_fifo sample_queue [] (fun _ => 0) in
  let user := user_text (text "SET_BIT" ++ text " = " ++ text "05" ++ [10]) in
  exists d', ifx_mps_set_mps1rdy_proc user 13 d = Some (13, d') /\
    nth (column 5) (ifx_mps_get_mps1rdy_proc d') 0 = 49.
Proof.
  intros d user.
  destruct (ready_file_roundtrip user (text "SET_BIT") (text " = ") (text "05") 10 13 d true 5)
    as (d' & H1 & H2).
  - apply user_text_at.
  - cbn. repeat constructor; discriminate.
  - reflexivity.
  - exists 32, [61; 32]. split; reflexivity.
  - cbn. repeat constructor.
  - reflexivity.
  - cbn. repeat constructor; discriminate.
  - exists 48, [53]. split; reflexivity.
  - reflexivity.
  - reflexivity.
  - reflexivity.
  - discriminate.
  - lia.
  - exists d'. split; [exact H1|exact H2].
Defined.
