(* ===== verification/MpsRemote.v ===== *)
(** * Commands between the two CPUs ([mps_tpe_linux.c])

    The composition of [MpsRpc] over the mailboxes of [MpsDevice]: CPU1 sends a
    request, the interrupt and the command tasklet of CPU0 carry it out and send
    the response, the interrupt and the tasklet of CPU1 store it and wake the
    caller.  The file shows that commands carried out remotely have the results
    they would have had on CPU0, and what becomes of the callers when one of them
    was woken by a signal. *)

From S2P Require Import Prelude MpsFifo MpsQueue MpsPool Icu MpsDevice MpsRpc.
Open Scope Z_scope.

(** ** A FIFO at rest *)

Definition idle (f : mps_fifo) : Prop := fifo_inv f [] /\ pread_off f = pwrite_off f.

(** An idle FIFO takes any message of less than half its size. *)
Lemma idle_accepts f m w1 :
  idle f -> sendable m -> m !! 1%nat = Some w1 ->
  2 * (Z.of_nat (length m) + 2) <= f_words f ->
  ifx_mpsdrv_fifo_mem_request f (MPS_MSGHDR_LEN + msg_len w1) = true /\
  exists f', ifx_mpsdrv_fifo_write f m (MPS_MSGHDR_LEN + msg_len w1) = Some (OK, f').
Proof.
  intros [Hi Hrw] Hm Hw1 Hfit. pose proof Hi as ((Hs0 & Hs1) & _ & Hlap).
  pose proof (sendable_bytes m w1 Hm Hw1) as Hsb. pose proof (f_words_size f) as Hfw.
  pose proof (sendable_length _ Hm) as Hml.
  split.
  { unfold ifx_mpsdrv_fifo_mem_request, ifx_mpsdrv_fifo_mem_available. rewrite Hrw, Z.sub_diag, Z.gtb_ltb, Z.ltb_irrefl.
    change (w32 (0 .<< 2)) with 0. rewrite Z.sub_0_r, w32_id by (unfold is_u32; lia).
    rewrite Z.geb_leb. apply Z.leb_le. lia. }
  destruct (write_spec f [] m w1 Hi Hm Hw1) as (ret & f' & E & _).
  rewrite (write_resolved f [] m w1 Hi Hm Hw1), (length_guard f m w1) in E by (done || lia). cbv zeta in E.
  rewrite (write_resolved f [] m w1 Hi Hm Hw1), (length_guard f m w1) by (done || lia). cbv zeta.
  destruct Hlap as [(Hr & HwN & _ & Hnr & _ & H0)|(ms1 & ms2 & e & Hnil & _ & _ & _ & _ & _ & _ & Hd)].
  2:{ symmetry in Hnil. apply app_eq_nil in Hnil as [-> _]. destruct Hd as [(_ & _ & ?)|(? & _)]; [done|lia]. }
  rewrite Hnr, (proj2 (Z.ltb_ge _ _)) in * by lia. rewrite Z.geb_leb in *.
  destruct (f_words f <=? _) eqn:Ew; bool_prop.
  - assert (H1 : msg_ready (f_mem (wrapped f) 1) = false).
    { cbn. rewrite upd_ne by lia. destruct H0 as [H0|[_ H0]]; [lia|done]. }
    rewrite H1, Z.gtb_ltb, (proj2 (Z.ltb_ge _ _)) in * by lia.
    unfold put_ok in *. destruct (fifo_put (wrapped f) m) as [f1|]; [by exists f1|done].
  - unfold put_ok in *. destruct (fifo_put f m) as [f1|]; [by exists f1|done].
Qed.

(** The reader has followed a wrap mark. *)
Definition at_head (f : mps_fifo) : Prop :=
  pread_off f = 0 \/ msg_next_wrapped (f_mem f (pread_off f + 1)) = false.

Lemma not_empty_at_head f b f' : ifx_mpsdrv_fifo_not_empty f = Some (b, f') -> at_head f'.
Proof.
  unfold ifx_mpsdrv_fifo_not_empty, ld. destruct (in_fifo f _); [|done]. bind.
  destruct (msg_next_wrapped _) eqn:E; destruct (in_fifo _ _); try done; bind; intros [= <- <-]; [by left|by right].
Qed.

Lemma read_at_head f p f' : ifx_mpsdrv_fifo_read f = Some (p, f') -> at_head f'.
Proof.
  unfold ifx_mpsdrv_fifo_read, ld. destruct (in_fifo f _); [|done]. bind.
  destruct (msg_next_wrapped _) eqn:E; destruct (in_fifo _ _); try done; bind;
    destruct (negb _); intros [= <- <-]; (by left) || (by right).
Qed.

Lemma drained_idle f : fifo_inv f [] -> at_head f -> idle f.
Proof.
  intros Hi Hh. split; [done|].
  destruct Hi as (_ & _ & [(_ & _ & Hc & _)|(ms1 & ms2 & e & Hnil & _ & _ & Hc1 & Hmk & _ & Hc2 & _)]); [done|].
  symmetry in Hnil. apply app_eq_nil in Hnil as [-> ->]. cbn in Hc1, Hc2. subst e.
  destruct Hh as [Hh|Hh]; [lia|]. by rewrite Hmk in Hh.
Qed.

(** ** Reading: what the reader never touches, on every path *)

Lemma fifo_reads_size f :
  (forall b f', ifx_mpsdrv_fifo_not_empty f = Some (b, f') -> f_size f' = f_size f) /\
  (forall p f', ifx_mpsdrv_fifo_read f = Some (p, f') -> f_size f' = f_size f) /\
  (forall n f', ifx_mpsdrv_fifo_read_ptr_inc f n = Some f' -> f_size f' = f_size f).
Proof.
  unfold ifx_mpsdrv_fifo_not_empty, ifx_mpsdrv_fifo_read, ifx_mpsdrv_fifo_read_ptr_inc, ld, st.
  split_and!.
  - intros b f'. destruct (in_fifo f _); [|done]. bind. destruct (msg_next_wrapped _), (in_fifo _ _); try done;
      bind; by intros [= _ <-].
  - intros p f'. destruct (in_fifo f _); [|done]. bind. destruct (msg_next_wrapped _), (in_fifo _ _); try done;
      bind; destruct (negb _); by intros [= _ <-].
  - intros n f'. destruct (n >? f_size f); [by intros [= <-]|]. destruct (in_fifo f _); [|done]. bind.
    by intros [= <-].
Qed.

Lemma enqueue_frame ts p x k d r d' :
  mps_datamsg_enqueue_tail ts p k d = Some (r, d') ->
  ebase_cpu_num d' = ebase_cpu_num d /\ regs d' = regs d /\ get_fifo x d' = get_fifo x d.
Proof.
  unfold mps_datamsg_enqueue_tail. destruct (MPS_DATAMSG_IS_Q_FULL _).
  - destruct (kmsgs d p !! 0%nat) as [w0|]; [|done]. bind. destruct (kmsgs d p !! 2%nat) as [w2|]; [|done].
    bind. unfold mps_dev_kfree_skb_any. destruct (on_cpu0 d); bind.
    + intros [= <- <-]. by destruct x.
    + destruct (ifx_mps_fast_free_mps_buf _ _ _ _ _) as [[r' m]|]; [|done]. bind. intros [= <- <-]. by destruct x.
  - destruct (MPS_DATAMSG_SET_Q_ITEM _ _) as [q|]; [|done]. bind. intros [= <- <-]. by destruct x, k.
Qed.

Lemma read_msgs_frame ts x k : forall fuel num d n d',
  read_msgs ts fuel x k num d = Some (n, d') ->
  ebase_cpu_num d' = ebase_cpu_num d /\ regs d' = regs d /\ at_head (get_fifo x d') /\
  f_size (get_fifo x d') = f_size (get_fifo x d).
Proof.
  assert (Hset : forall f d, ebase_cpu_num (set_fifo x f d) = ebase_cpu_num d /\
    regs (set_fifo x f d) = regs d) by (by destruct x).
  induction fuel as [|fuel IH]; intros num d n d'; cbn [read_msgs];
    destruct (ifx_mpsdrv_fifo_not_empty (get_fifo x d)) as [[some f]|] eqn:Ene; try done; bind;
    pose proof (proj1 (fifo_reads_size _) _ _ Ene) as Hsz;
    (destruct some; cbn [negb]; [|intros [= <- <-]; destruct (Hset f d) as [-> ->]; rewrite get_set_fifo;
      by apply not_empty_at_head in Ene]); [done|].
  destruct (ifx_mpsdrv_fifo_read f) as [[p f1]|] eqn:Er; [|done]. bind.
  pose proof (proj1 (proj2 (fifo_reads_size _)) _ _ Er) as Hsz1.
  destruct p as [off|]; [|done]. bind. destruct (ld f1 _) as [w1|]; [|done]. bind. rewrite set_set_fifo.
  destruct (alloc_fn _) as [q e].
  destruct (q =? 0).
  { intros [= <- <-]. destruct (Hset f1 d) as [E1 E2]. split_and!; try done.
    - apply read_at_head in Er. by destruct x.
    - rewrite <- Hsz, <- Hsz1. by destruct x. }
  match goal with |- context [mps_datamsg_enqueue_tail ts q k ?t] => set (d1 := t) end.
  destruct (mps_datamsg_enqueue_tail ts q k d1) as [[r d2]|] eqn:Eq; [|done]. bind.
  destruct (enqueue_frame ts q x k d1 r d2 Eq) as (B2 & R2 & F2).
  assert (F1 : get_fifo x d1 = f1) by (subst d1; by destruct x).
  destruct (ifx_mpsdrv_fifo_read_ptr_inc _ _) as [f2|] eqn:Ei; [|done]. bind.
  pose proof (proj2 (proj2 (fifo_reads_size _)) _ _ Ei) as Hsz2.
  intros H. apply IH in H as (B & R & Hh & Hs). destruct (Hset f2 d2) as [E1 E2].
  rewrite get_set_fifo in Hs. destruct (Hset f1 d) as [E3 E4]. split_and!; try done.
  - rewrite B, E1, B2. exact E3.
  - rewrite R, E2, R2. exact E4.
  - rewrite Hs, Hsz2, F2, F1, Hsz1. done.
Qed.

(** ** Sending on an idle FIFO *)

Lemma write_take f data len :
  (Z.to_nat (bytes_to_words len) <= length data)%nat -> 0 <= bytes_to_words len ->
  ifx_mpsdrv_fifo_write f (take (Z.to_nat (bytes_to_words len)) data) len = ifx_mpsdrv_fifo_write f data len.
Proof.
  intros Hl H0. unfold ifx_mpsdrv_fifo_write.
  replace (source_words (take _ data) (bytes_to_words len)) with (source_words data (bytes_to_words len)); [done|].
  unfold source_words. rewrite length_take, take_take, Nat.min_id, Nat.min_l by done.
  rewrite !(proj2 (Z.ltb_ge _ _)) by lia. done.
Qed.

Lemma take_mark_ready n m : (2 <= n)%nat -> take n (mark_ready m) = mark_ready (take n m).
Proof.
  intros Hn. apply list_eq. intros i. unfold mark_ready. destruct (decide (i < n)%nat).
  - rewrite lookup_take_lt by done. destruct (decide (i = 1%nat)) as [->|].
    + rewrite !list_lookup_alter_eq. by rewrite lookup_take_lt.
    + rewrite !list_lookup_alter_ne by done. by rewrite lookup_take_lt.
  - rewrite lookup_take_ge by lia. symmetry. apply lookup_ge_None.
    rewrite length_alter, length_take. lia.
Qed.

(** A message of a command class whose first [n] words the driver sends. *)
Record command_words (m : list Z) (n : nat) : Prop := {
  cw_class : exists w0, m !! 0%nat = Some w0 /\ msg_class (msg_type w0) = Some false;
  cw_len : exists w1, m !! 1%nat = Some w1 /\ is_u32 w1 /\ msg_next_wrapped w1 = false /\
    msg_4bytes w1 = Z.of_nat n;
  cw_size : (n <= 6)%nat /\ (n <= length m)%nat
}.

Lemma send_idle m n d :
  command_words m n ->
  let x := rx_mbx (negb (on_cpu0 d)) false in
  idle (get_fifo x d) -> f_size (get_fifo x d) = 64 ->
  exists f, ifx_mpsdrv_mbx_send m d = Some (OK, mark_ready m, doorbell (on_cpu0 d) false (set_fifo x f d)) /\
    fifo_inv f [mark_ready (take n m)] /\ f_size f = 64.
Proof.
  intros [(w0 & H0 & Hcls) (w1 & H1 & Hu & Hnw & Hn4) [Hn6 Hnl]] x Hid Hsz.
  pose proof (msg_4bytes_bounds w1) as H4. assert (Hn2 : (2 <= n)%nat) by lia.
  assert (Hm : sendable (take n m)).
  { exists w1. split_and!; try done; [by rewrite lookup_take_lt by lia|]. rewrite length_take. lia. }
  assert (Hm1 : take n m !! 1%nat = Some w1) by (by rewrite lookup_take_lt by lia).
  assert (Hf : f_words (get_fifo x d) = 16) by (unfold f_words; by rewrite Hsz).
  assert (Hlen : Z.of_nat (length (take n m)) = Z.of_nat n) by (rewrite length_take; lia).
  pose proof (mark_ready_stored _ Hm) as [Hms _].
  pose proof (lookup_mark_ready _ _ Hm1) as Hms1.
  destruct (idle_accepts _ _ _ Hid Hms Hms1) as [Hreq (f & Hw)].
  { rewrite length_mark_ready, Hlen, Hf. lia. }
  rewrite msg_len_lor in Hreq, Hw.
  destruct (send_write_spec _ _ _ _ (proj1 Hid) Hm Hm1) as (ret & f' & E & _ & Hsz' & Hp).
  rewrite E in Hw. injection Hw as -> ->. destruct Hp as [[_ Hp]|[? _]]; [|done].
  assert (Hwr : ifx_mpsdrv_fifo_write (get_fifo x d) (mark_ready m) (MPS_MSGHDR_LEN + msg_len w1) = Some (OK, f)).
  { rewrite <- E, <- take_mark_ready by done.
    assert (En : Z.to_nat (bytes_to_words (MPS_MSGHDR_LEN + msg_len w1)) = n).
    { change (bytes_to_words _) with (msg_4bytes w1). lia. }
    rewrite <- En at 1. rewrite write_take; [done|rewrite length_mark_ready; lia|].
    change (bytes_to_words _) with (msg_4bytes w1). lia. }
  unfold ifx_mpsdrv_mbx_send. rewrite H0, H1. bind.
  pose proof (send_route_class (on_cpu0 d) (msg_type w0)) as Hc. rewrite Hcls in Hc.
  destruct Hc as (r & v & -> & Hbell). cbn zeta. fold x. rewrite Hreq. cbn [negb]. rewrite Hwr. bind.
  change (negb (OK =? 0)) with false. cbn iota.
  set (f' := if min_space f <? ifx_mpsdrv_fifo_mem_available f
             then set_min_space (ifx_mpsdrv_fifo_mem_available f) f else f).
  exists f'. split_and!.
  - rewrite <- Hbell by (by rewrite on_cpu0_fifo). unfold f'.
    destruct (_ <? _); [|done]. by rewrite set_fifo_wr, set_set_fifo.
  - unfold f'. by destruct (_ <? _).
  - unfold f'. destruct (_ <? _); cbn; by rewrite Hsz', Hsz.
Qed.

(** ** One CPU's turn

    [ts], [ws] and [w0] are the parameters of the handlers in [MpsDevice]. *)

Section Remote.
Context {K : Type} (ops : kernel_ops K) (cmd_cb data_cb : Z) (Hcb : cmd_cb <> 0).
Context (ts : Z -> Z) (ws : bool -> Z -> Z) (w0 : Z).
#[local] Abbreviation state := (mps_state K).

(** The command FIFO a CPU sends on, the register in which it raises the other
    CPU's interrupt, with what it writes there, and the register in which the
    other sees it. *)
Definition tx_mbx (cpu0 : bool) : mbx := rx_mbx (negb cpu0) false.
Definition bell (cpu0 : bool) : Z := if cpu0 then DANUBE_MPS_CPU0_2_CPU1_IRR else DANUBE_MPS_SAD0SR.
Definition bell_value (cpu0 : bool) : Z := if cpu0 then 0x10 else 0x1.
Definition bell_seen (cpu0 : bool) : Z := if cpu0 then DANUBE_MPS_RAD0SR else DANUBE_MPS_CPU0_2_CPU1_IRDR.

(** The lines of the interrupts, and the handler of each CPU. *)
Definition IRQ0 : Z := INT_NUM_IM4_IRL0 + 18.
Definition IRQ1 : Z := INT_NUM_IM0_IRL0 + 4.
Definition cmd_handler (cpu0 : bool) : mps_comm_dev -> option mps_comm_dev :=
  if cpu0 then ifx_mpsdrv_cmd0_irq ts IRQ0 else ifx_mpsdrv_cmd1_irq ts ws w0 IRQ1.

(** A FIFO is shared memory: [to] sees it as [from] left it; only [min_space] is
    a CPU's own. *)
Definition share (x : mbx) (from to : mps_comm_dev) : mps_comm_dev :=
  set_fifo x (set_min_space (min_space (get_fifo x to)) (get_fifo x from)) to.

(** The turn of the CPU [to] after [from] has worked: when [from] has raised the
    interrupt, the handler and then the command tasklet run, and [from] sees what
    has been taken from the FIFO. *)
Definition turn (cpu0 : bool) (from to : state) : option (state * state) :=
  let x := tx_mbx (negb cpu0) in
  let rung := reg (dv from) (bell (negb cpu0)) in
  if rung =? 0 then Some (to, from) else
  d ← cmd_handler cpu0 (wr (bell_seen cpu0) rung (share x (dv from) (dv to)));
  to ← run_cmd_tasklet ops cmd_cb data_cb CmdQ (set_dv d to);
  Some (to, set_dv (wr (bell (negb cpu0)) 0 (share x (dv to) (dv from))) from).

(** A CPU with nothing to do. *)
Record ready (cpu0 : bool) (s : state) : Prop := {
  rd_cpu : on_cpu0 (dv s) = cpu0;
  rd_tx : idle (get_fifo (tx_mbx cpu0) (dv s));
  rd_size : f_size (get_fifo (tx_mbx cpu0) (dv s)) = 64;
  rd_wf : dq_wf (mps_rcvCmdMsgQ (dv s));
  rd_empty : dq_items (mps_rcvCmdMsgQ (dv s)) = [];
  rd_cb : callback_function (dv s) 0 = cmd_cb;
  rd_bell : reg (dv s) (bell cpu0) = 0;
  rd_mem : Forall (fun p => p <> 0) (to_alloc (kenv s))
}.

Lemma set_dv_id (s : state) : set_dv (dv s) s = s.
Proof. by destruct s. Qed.

Lemma mask_ack_other (cpu0 : bool) hw a :
  a = bell cpu0 -> mask_and_ack_danube_irq (if cpu0 then IRQ0 else IRQ1) hw a = hw a.
Proof.
  intros ->. by destruct cpu0.
Qed.

(** [d1] is [d0] after the message [m] has gone from the FIFO into block [p]. *)
Record taken (cpu0 : bool) (m : list Z) (p : Z) (rest : list Z) (d0 d1 : mps_comm_dev) : Prop := {
  tk_idle : idle (get_fifo (tx_mbx (negb cpu0)) d1);
  tk_size : f_size (get_fifo (tx_mbx (negb cpu0)) d1) = f_size (get_fifo (tx_mbx (negb cpu0)) d0);
  tk_tx : get_fifo (tx_mbx cpu0) d1 = get_fifo (tx_mbx cpu0) d0;
  tk_wf : dq_wf (mps_rcvCmdMsgQ d1);
  tk_items : dq_items (mps_rcvCmdMsgQ d1) = [p];
  tk_copy : is_copy m (kmsgs d1 p);
  tk_env : menv (bufmem d1) = mk_env rest (freed (menv (bufmem d0)));
  tk_cb : callback_function d1 = callback_function d0;
  tk_cpu : ebase_cpu_num d1 = ebase_cpu_num d0;
  tk_bell : reg d1 (bell cpu0) = reg d0 (bell cpu0)
}.

Lemma read_schedule_one (cpu0 : bool) d m p rest :
  let x := tx_mbx (negb cpu0) in
  fifo_inv (get_fifo x d) [m] -> dq_wf (mps_rcvCmdMsgQ d) -> dq_items (mps_rcvCmdMsgQ d) = [] ->
  to_alloc (menv (bufmem d)) = p :: rest -> p <> 0 ->
  exists d', read_and_schedule (read_mbx ts x) CmdQ d = Some d' /\ taken cpu0 m p rest d d'.
Proof.
  intros x Hi Hq He Ha Hp.
  assert (Hk : queue_of x = CmdQ) by (by destruct cpu0).
  destruct (read_schedule_moves ts x d [m] [p] rest) as (d' & Hr & Hm); rewrite ?Hk; try done.
  { split_and!; [done|by repeat constructor|repeat constructor; apply not_elem_of_nil|done]. }
  rewrite Hk in Hr. exists d'. split; [done|].
  destruct Hm as (Hf & Hqw & Hqi & Hcp & _ & Hme & Hcbs & _ & HF & _ & _). rewrite Hk in Hqw, Hqi.
  unfold read_and_schedule in Hr. rewrite read_mbx_eq, Hk in Hr.
  destruct (read_msgs ts _ x CmdQ 0 d) as [[n d2]|] eqn:E; [|done].
  destruct (read_msgs_frame _ _ _ _ _ _ _ _ E) as (B & R & Hh & Hs). cbn [mbind option_bind] in Hr.
  injection Hr as Hr.
  assert (Hsame : get_fifo x d' = get_fifo x d2 /\ regs d' = regs d2 /\ ebase_cpu_num d' = ebase_cpu_num d2).
  { rewrite <- Hr. destruct (n =? 0); cbn [negb]; [done|]. by destruct cpu0. }
  destruct Hsame as (HS & HR & HB). constructor; try done.
  - apply drained_idle; [done|]. unfold x in *. by rewrite HS.
  - unfold x in *. by rewrite HS.
  - apply HF. by destruct cpu0.
  - by inversion_clear Hcp.
  - by rewrite HB.
  - unfold reg. by rewrite HR, R.
Qed.

(** The handler, when only the command interrupt is raised. *)
Lemma handler_takes (cpu0 : bool) d m p rest :
  let x := tx_mbx (negb cpu0) in
  fifo_inv (get_fifo x d) [m] -> dq_wf (mps_rcvCmdMsgQ d) -> dq_items (mps_rcvCmdMsgQ d) = [] ->
  to_alloc (menv (bufmem d)) = p :: rest -> p <> 0 ->
  exists d', cmd_handler cpu0 (wr (bell_seen cpu0) (bell_value (negb cpu0)) d) = Some d' /\
    taken cpu0 m p rest d d'.
Proof.
  intros x Hi Hq He Ha Hp. destruct cpu0; cbn [cmd_handler negb bell_value bell_seen].
  - unfold ifx_mpsdrv_cmd0_irq. set (st := reg _ DANUBE_MPS_RAD0SR).
    assert (Hst : st = 1) by (unfold st, reg, wr; cbn [regs set_regs]; by rewrite upd_eq).
    rewrite Hst. change (Z.testbit 1 1) with false. change (Z.testbit 1 0) with true. bind.
    set (d0 := set_event _ _).
    destruct (read_schedule_one true d0 m p rest) as (d1 & Hr & [Hd1 Hd2 Hd3 Hd4 Hd5 Hd6 Hd7 Hd8 Hd9 Hd10]); try done.
    cbn [tx_mbx negb rx_mbx read_mbx] in Hr. rewrite Hr. bind. eexists. split; [done|].
    constructor; try done.
  - unfold ifx_mpsdrv_cmd1_irq. set (st := reg _ DANUBE_MPS_CPU0_2_CPU1_IRDR).
    assert (Hst : st = 0x10) by (unfold st, reg, wr; cbn [regs set_regs]; by rewrite upd_eq).
    rewrite Hst. change (negb (0x10 .& 0x10 =? 0)) with true. cbv iota.
    set (d0 := mask_and_ack _ _).
    assert (Hd0 : exists r, serve_stats ws w0 d0 = set_regs r d /\ r (bell false) = regs d (bell false)).
    { assert (Hb : regs d0 (bell false) = regs d (bell false)).
      { unfold d0, mask_and_ack. cbn [regs set_regs]. rewrite (mask_ack_other false) by done.
        unfold wr. cbn [regs set_regs]. by rewrite !upd_ne by (vm_compute; congruence). }
      unfold serve_stats. destruct (negb (reg d0 stats_word =? 0)); [|by exists (regs d0)].
      eexists. split; [done|]. cbn [regs set_regs wr]. by rewrite !upd_ne by (vm_compute; congruence). }
    destruct Hd0 as (r & -> & Hr0).
    destruct (read_schedule_one false (set_regs r d) m p rest) as (d1 & Hr & [Hd1 Hd2 Hd3 Hd4 Hd5 Hd6 Hd7 Hd8 Hd9 Hd10]); try done.
    cbn [tx_mbx negb rx_mbx read_mbx] in Hr. rewrite Hr. bind. eexists. split; [done|].
    constructor; try done.
    change (reg (count_irq d1) (bell false)) with (reg d1 (bell false)). by rewrite Hd10.
Qed.

Lemma on_cpu0_ebase d d' : ebase_cpu_num d' = ebase_cpu_num d -> on_cpu0 d' = on_cpu0 d.
Proof. unfold on_cpu0, ifx_mpsdrv_get_cpu_id. by intros ->. Qed.

Lemma set_dv_dv (s : state) d d' : set_dv d (set_dv d' s) = set_dv d s.
Proof. done. Qed.

(** A tasklet with one message in its queue. *)
Lemma tasklet_one s p w :
  dq_wf (mps_rcvCmdMsgQ (dv s)) -> dq_items (mps_rcvCmdMsgQ (dv s)) = [p] -> p <> 0 ->
  kmsgs (dv s) p !! 0%nat = Some w -> callback_function (dv s) (msg_seqno w) = cmd_cb ->
  exists d1, d1 = set_cmdq (dq_pop (mps_rcvCmdMsgQ (dv s))) (set_tasklets (data_tasklet (dv s)) false (dv s)) /\
    dq_wf (mps_rcvCmdMsgQ d1) /\ dq_items (mps_rcvCmdMsgQ d1) = [] /\
    forall s2, ifx_mps_cmd_rcv_callback ops (kmsgs (dv s) p) (set_dv d1 s) = Some s2 ->
      mps_rcvCmdMsgQ (dv s2) = mps_rcvCmdMsgQ d1 ->
      run_cmd_tasklet ops cmd_cb data_cb CmdQ s = Some (kfree p s2).
Proof.
  intros Hq Hit Hp Hw Hc. eexists. split; [done|]. cbn [mps_rcvCmdMsgQ set_cmdq].
  destruct (dq_pop_spec _ _ _ Hq Hit) as (Hq1 & Hi1 & _). split; [done|]. split; [done|].
  intros s2 Hs2 Hsame. unfold run_cmd_tasklet.
  assert (Hf : exists n, dispatch_fuel = S n).
  { exists (Z.to_nat MAX_MPS_DATAMSG_QLEN). unfold dispatch_fuel, MAX_MPS_DATAMSG_QLEN. lia. }
  destruct Hf as [n ->]. cbn [tasklet_msgs unschedule].
  change (dv (set_dv ?d s)) with d. rewrite dequeue_spec by done. cbn [get_rxq mps_rcvCmdMsgQ set_tasklets]. rewrite Hit. bind.
  cbn [set_rxq]. rewrite (proj2 (Z.eqb_neq p 0)) by done.
  cbn [kmsgs set_cmdq set_tasklets callback_function]. rewrite Hw. bind. rewrite Hc.
  unfold run_callback. rewrite (proj2 (Z.eqb_neq cmd_cb 0)), Z.eqb_refl by done.
  rewrite set_dv_dv, Hs2. bind.
  assert (Hk : mps_rcvCmdMsgQ (dv (kfree p s2)) = dq_pop (mps_rcvCmdMsgQ (dv s))).
  { unfold kfree. rewrite (proj2 (Z.eqb_neq p 0)) by done. exact Hsame. }
  assert (He : mps_datamsg_dequeue_head CmdQ (dv (kfree p s2)) = Some (0, dv (kfree p s2))).
  { rewrite dequeue_spec; cbn [get_rxq]; rewrite Hk; [|done]. by rewrite Hi1. }
  destruct n; cbn [tasklet_msgs]; rewrite He; bind; by rewrite set_dv_id.
Qed.

Lemma turn_takes (cpu0 : bool) from to m p rest :
  let x := tx_mbx (negb cpu0) in
  ready cpu0 to -> fifo_inv (get_fifo x (dv from)) [m] -> f_size (get_fifo x (dv from)) = 64 ->
  reg (dv from) (bell (negb cpu0)) = bell_value (negb cpu0) ->
  msg_seqno (nth 0 m 0) = 0 -> (1 <= length m)%nat -> to_alloc (kenv to) = p :: rest ->
  exists copy d1, is_copy m copy /\ ready cpu0 (set_dv d1 to) /\
    to_alloc (menv (bufmem d1)) = rest /\ idle (get_fifo x d1) /\ f_size (get_fifo x d1) = 64 /\
    forall to2, ifx_mps_cmd_rcv_callback ops copy (set_dv d1 to) = Some to2 ->
      mps_rcvCmdMsgQ (dv to2) = mps_rcvCmdMsgQ d1 ->
      turn cpu0 from to = Some (kfree p to2,
        set_dv (wr (bell (negb cpu0)) 0 (share x (dv (kfree p to2)) (dv from))) from).
Proof.
  intros x Hrd Hi Hsz Hbell Hseq Hlen Ha.
  pose proof (rd_mem _ _ Hrd) as Hmem. rewrite Ha in Hmem. inversion_clear Hmem as [|?? Hp Hrest].
  destruct Hrd as [Rcpu Rtx Rsz Rwf Rem Rcb Rbell _].
  set (d0 := share x (dv from) (dv to)).
  destruct (handler_takes cpu0 d0 m p rest) as (d & Hd & [Tid Tsz Ttx Twf Tit Tcp Ten Tcb Tcpu Tbell]).
  { unfold d0, share. fold x. rewrite get_set_fifo. exact Hi. }
  { by destruct cpu0. } { by destruct cpu0. } { by destruct cpu0. } { done. }
  assert (Hw : kmsgs d p !! 0%nat = Some (nth 0 m 0)).
  { rewrite (is_copy_word m) by (try done; unfold DATAMSG_WORDS; lia). apply msg_word. lia. }
  destruct (tasklet_one (set_dv d to) p (nth 0 m 0)) as (d1 & Ed1 & Hq1 & Hi1 & Hrun); try done.
  { cbn [dv set_dv]. rewrite Tcb, Hseq. unfold d0, share. by rewrite callbacks_fifo. }
  cbn [dv set_dv] in *.
  assert (Hfd : forall y, get_fifo y d1 = get_fifo y d) by (intros []; by rewrite Ed1).
  exists (kmsgs d p), d1. split; [done|]. split; [|split; [|split; [|split]]].
  - constructor; cbn [dv set_dv]; try done.
    + rewrite (on_cpu0_ebase (dv to) d1); [done|]. rewrite Ed1. cbn. rewrite Tcpu. by destruct cpu0.
    + rewrite Hfd, Ttx. unfold d0, share, x. by destruct cpu0.
    + rewrite Hfd, Ttx. unfold d0, share, x. by destruct cpu0.
    + rewrite Ed1. cbn. rewrite Tcb. unfold d0, share. by rewrite callbacks_fifo.
    + change (reg d1 (bell cpu0)) with (regs d1 (bell cpu0)). rewrite Ed1. cbn [regs set_cmdq set_tasklets].
      change (regs d (bell cpu0)) with (reg d (bell cpu0)). rewrite Tbell. unfold d0, share, reg.
      by destruct cpu0.
    + unfold kenv. cbn [dv set_dv]. rewrite Ed1. cbn [bufmem set_cmdq set_tasklets]. by rewrite Ten.
  - rewrite Ed1. cbn [bufmem set_cmdq set_tasklets]. by rewrite Ten.
  - by rewrite Hfd.
  - rewrite Hfd. unfold x. rewrite Tsz. unfold d0, share. fold x. by rewrite get_set_fifo.
  - intros to2 Hto2 Hsame. unfold turn. fold x. rewrite Hbell.
    replace (bell_value (negb cpu0) =? 0) with false by (by destruct cpu0).
    fold d0. rewrite Hd. bind. rewrite (Hrun to2) by done. done.
Qed.

(** ** A CPU that has sent a message *)

Record sent (cpu0 : bool) (m : list Z) (s : state) : Prop := {
  sn_cpu : on_cpu0 (dv s) = cpu0;
  sn_tx : fifo_inv (get_fifo (tx_mbx cpu0) (dv s)) [m];
  sn_size : f_size (get_fifo (tx_mbx cpu0) (dv s)) = 64;
  sn_wf : dq_wf (mps_rcvCmdMsgQ (dv s));
  sn_empty : dq_items (mps_rcvCmdMsgQ (dv s)) = [];
  sn_cb : callback_function (dv s) 0 = cmd_cb;
  sn_bell : reg (dv s) (bell cpu0) = bell_value cpu0;
  sn_mem : Forall (fun p => p <> 0) (to_alloc (kenv s))
}.

Lemma send_ready (cpu0 : bool) m n s :
  ready cpu0 s -> command_words m n ->
  exists d, send m s = Some (OK, set_dv d s) /\ mps_rcvCmdMsgQ d = mps_rcvCmdMsgQ (dv s) /\
    menv (bufmem d) = kenv s /\ (forall y, y <> tx_mbx cpu0 -> get_fifo y d = get_fifo y (dv s)) /\
    forall s', dv s' = d -> sent cpu0 (mark_ready (take n m)) s'.
Proof.
  intros [Rcpu Rtx Rsz Rwf Rem Rcb Rbell Rmem] Hm.
  pose proof (send_idle m n (dv s) Hm) as Hs. cbv zeta in Hs. rewrite Rcpu in Hs.
  fold (tx_mbx cpu0) in Hs. destruct (Hs Rtx Rsz) as (f & Hsend & Hf & Hsf).
  set (d := doorbell cpu0 false (set_fifo (tx_mbx cpu0) f (dv s))) in *.
  assert (Hfd : get_fifo (tx_mbx cpu0) d = f) by (subst d; by destruct cpu0).
  exists d. split; [unfold send; by rewrite Hsend|].
  split; [subst d; by destruct cpu0|]. split; [subst d; by destruct cpu0|].
  split; [intros y Hy; subst d; by destruct cpu0, y|].
  intros s' Es. constructor; unfold kenv; rewrite Es, ?Hfd; try done; subst d.
  1-4: by destruct cpu0.
  - unfold doorbell, reg, wr. destruct cpu0; cbn [regs set_regs bell bell_value]; by rewrite upd_eq.
  - by destruct cpu0.
Qed.

(** The sender after the other CPU's turn. *)
Lemma ready_after (cpu0 : bool) m s d :
  sent cpu0 m s -> idle (get_fifo (tx_mbx cpu0) d) -> f_size (get_fifo (tx_mbx cpu0) d) = 64 ->
  ready cpu0 (set_dv (wr (bell cpu0) 0 (share (tx_mbx cpu0) d (dv s))) s).
Proof.
  intros [Scpu Stx Ssz Swf Sem Scb Sbell Smem] [Hi1 Hi2] Hsz.
  assert (Hf : get_fifo (tx_mbx cpu0) (wr (bell cpu0) 0 (share (tx_mbx cpu0) d (dv s))) =
    set_min_space (min_space (get_fifo (tx_mbx cpu0) (dv s))) (get_fifo (tx_mbx cpu0) d))
    by (unfold share; by destruct cpu0).
  constructor; cbn [dv set_dv]; rewrite ?Hf; try done.
  - by destruct cpu0.
  - by destruct cpu0.
  - by destruct cpu0.
  - by destruct cpu0.
  - unfold reg, wr. cbn [regs set_regs]. by rewrite upd_eq.
  - unfold kenv. cbn [dv set_dv]. by destruct cpu0.
Qed.

Lemma kfree_ready (cpu0 : bool) p s : ready cpu0 s -> ready cpu0 (kfree p s).
Proof.
  intros [H1 H2 H3 H4 H5 H6 H7 H8]. unfold kfree. destruct (p =? 0); constructor; try done; by destruct cpu0.
Qed.
Lemma kfree_sent (cpu0 : bool) m p s : sent cpu0 m s -> sent cpu0 m (kfree p s).
Proof.
  intros [H1 H2 H3 H4 H5 H6 H7 H8]. unfold kfree. destruct (p =? 0); constructor; try done; by destruct cpu0.
Qed.
Lemma kfree_same p (s : state) :
  heap (kfree p s) = heap s /\ msg_data (kfree p s) = msg_data s /\
  cmd_callback_flag (kfree p s) = cmd_callback_flag s /\
  to_alloc (kenv (kfree p s)) = to_alloc (kenv s) /\
  (forall x, get_fifo x (dv (kfree p s)) = get_fifo x (dv s)).
Proof. unfold kfree. destruct (p =? 0); [done|]. split_and!; try done; by intros []. Qed.

(** ** Calls *)

Inductive rcall := RVersion | RAlloc (size : Z) | RFree (p : Z).

(** The function of the interface, the same on either CPU. *)
Definition start (c : rcall) (s : state) : option (call_status * state) :=
  match c with
  | RVersion => ifx_mps_get_version MPS_CPU_0_ID s
  | RAlloc n => ifx_mps_skbuff_alloc ops n s
  | RFree p => s ← ifx_mps_skbuff_free ops p s; Some (Returns 0, s)
  end.

(** What it is on CPU0: result and heap. *)
Definition local (c : rcall) (h : K) : Z * K :=
  match c with
  | RVersion => (MPSDRV_VERSION_NUM, h)
  | RAlloc n => alloc_skb ops n GFP_ATOMIC h
  | RFree p => (0, kfree_skb ops p h)
  end.
Definition answered (c : rcall) : bool := match c with RFree _ => false | _ => true end.

(** The request and the response to it as messages, with the number of words
    the driver sends, and what is then in the FIFO. *)
Definition request_words (c : rcall) : list Z * nat :=
  match c with
  | RVersion => ([0x03000216; 0; 0; 0; 0; 0], 2%nat)
  | RAlloc n => ([0x04000206; 4; n; 0; 0; 0], 3%nat)
  | RFree p => ([0x04000207; 4; p; 0; 0; 0], 3%nat)
  end.
Definition response_words (c : rcall) (r : Z) : list Z * nat :=
  match c with
  | RVersion => ([0x03001216; 4; r; 0; 0; 0], 3%nat)
  | RAlloc n => ([0x04001206; 8; r; n; 0; 0], 4%nat)
  | RFree _ => ([0x00001207; 0; 0; 0; 0; 0], 2%nat)
  end.
Definition in_fifo_as (w : list Z * nat) : list Z := mark_ready (take (snd w) (fst w)).
Definition request (c : rcall) : list Z := in_fifo_as (request_words c).
Definition response (c : rcall) (r : Z) : list Z := in_fifo_as (response_words c r).

Lemma request_holds c : command_words (fst (request_words c)) (snd (request_words c)).
Proof. destruct c; (constructor; [by eexists|by eexists|cbn; lia]). Qed.
Lemma response_holds c r : answered c = true ->
  command_words (fst (response_words c r)) (snd (response_words c r)).
Proof. destruct c; intros H; try done; (constructor; [by eexists|by eexists|cbn; lia]). Qed.

Lemma start_local c s : on_cpu0 (dv s) = true ->
  exists s', start c s = Some (Returns (fst (local c (heap s))), s') /\
    heap s' = snd (local c (heap s)) /\ dv s' = dv s.
Proof.
  intros H0. assert (Hid : ifx_cpu_id s = 0) by (unfold on_cpu0 in H0; by apply Z.eqb_eq in H0).
  destruct c; cbn [start local];
    unfold ifx_mps_get_version, ifx_mps_skbuff_alloc, ifx_mps_skbuff_free; rewrite Hid.
  - by exists s.
  - unfold ifx_mps_cpu0_skbuff_alloc. destruct (alloc_skb ops _ _ _) as [p h]. by eexists.
  - by eexists.
Qed.

Definition clear_data (c : rcall) (s : state) : list Z :=
  if answered c then repeat 0 DATAMSG_WORDS else msg_data s.

Lemma start_remote c s : ready false s ->
  exists s', start c s = Some (if answered c then Sleeps else Returns 0, s') /\ sent false (request c) s' /\
    msg_data s' = clear_data c s /\ cmd_callback_flag s' = cmd_callback_flag s /\
    to_alloc (kenv s') = to_alloc (kenv s).
Proof.
  intros Hr. pose proof (rd_cpu _ _ Hr) as H1.
  assert (Hid : ifx_cpu_id s = 1).
  { unfold on_cpu0, ifx_mpsdrv_get_cpu_id in H1. unfold ifx_cpu_id, ifx_mpsdrv_get_cpu_id.
    by destruct (_ =? 0). }
  assert (Hready : forall m f b, ready false (set_control m f b s)) by (intros; by destruct Hr).
  destruct c; cbn [start answered clear_data];
    unfold ifx_mps_get_version, ifx_mps_skbuff_alloc, ifx_mps_skbuff_free, remote_call, ifx_cmd_process;
    change (ifx_cpu_id (set_control ?a ?b ?c s)) with (ifx_cpu_id s); rewrite Hid; cbn [Z.eqb].
  - change (ifx_cmd_message 1 MPS_CMD_CPU1_GET_REMOTE_VER 0 no_params) with
      (Some (Some (fst (request_words RVersion)))). bind.
    destruct (send_ready false _ _ _ (Hready (repeat 0 DATAMSG_WORDS) (cmd_callback_flag s)
      (cmd_wakeuplist_balance s)) (request_holds RVersion)) as (d & -> & _ & He & _ & Hs).
    bind. eexists. split; [done|]. split; [by apply Hs|]. split_and!; try done. unfold kenv. cbn. by rewrite He.
  - change (ifx_cmd_message 1 MPS_CMD_CPU1_SKB_ALLOC size no_params) with
      (Some (Some (fst (request_words (RAlloc size))))). bind.
    destruct (send_ready false _ _ _ (Hready (repeat 0 DATAMSG_WORDS) (cmd_callback_flag s)
      (cmd_wakeuplist_balance s)) (request_holds (RAlloc size))) as (d & -> & _ & He & _ & Hs).
    bind. eexists. split; [done|]. split; [by apply Hs|]. split_and!; try done. unfold kenv. cbn. by rewrite He.
  - change (ifx_cmd_message 1 MPS_CMD_CPU1_SKB_FREE p no_params) with
      (Some (Some (fst (request_words (RFree p))))). bind.
    destruct (send_ready false _ _ _ Hr (request_holds (RFree p))) as (d & -> & _ & He & _ & Hs).
    bind. eexists. split; [done|]. split; [by apply Hs|]. split_and!; try done. unfold kenv. cbn. by rewrite He.
Qed.

(** ** The two callbacks *)

Lemma copy_words_of w copy i :
  is_copy (in_fifo_as w) copy -> (i < snd w)%nat -> (i < length (fst w))%nat -> (i < 6)%nat -> i <> 1%nat ->
  word copy i = nth i (fst w) 0.
Proof.
  intros Hc H1 H2 H3 Hi. unfold in_fifo_as in Hc.
  assert (Hl : (i < length (mark_ready (take (snd w) (fst w))))%nat).
  { rewrite length_mark_ready, length_take. lia. }
  pose proof (is_copy_word _ _ i Hc Hl H3) as E. unfold word.
  assert (E2 : mark_ready (take (snd w) (fst w)) !! i = Some (nth i (fst w) 0)).
  { unfold mark_ready. rewrite list_lookup_alter_ne by done. rewrite lookup_take_lt by done.
    apply msg_word. done. }
  rewrite E2 in E. by apply nth_lookup_Some.
Qed.

(** CPU0 carries out a request: the result is that of its own call, and the
    response is on its way when there is one. *)
Lemma serve_callback c copy s :
  is_copy (request c) copy -> ready true s ->
  exists s', ifx_mps_cmd_rcv_callback ops copy s = Some s' /\
    heap s' = snd (local c (heap s)) /\ mps_rcvCmdMsgQ (dv s') = mps_rcvCmdMsgQ (dv s) /\
    kenv s' = kenv s /\ get_fifo UpCmd (dv s') = get_fifo UpCmd (dv s) /\
    if answered c then sent true (response c (fst (local c (heap s)))) s' else ready true s'.
Proof.
  intros Hc Hr.
  assert (H0 : word copy 0 = nth 0 (fst (request_words c)) 0).
  { apply (copy_words_of _ _ 0 Hc); destruct c; cbn; lia. }
  assert (H2 : c <> RVersion -> word copy 2 = nth 2 (fst (request_words c)) 0).
  { intros Hv. apply (copy_words_of _ _ 2 Hc); destruct c; try done; cbn; lia. }
  unfold ifx_mps_cmd_rcv_callback, serve_request, payload. rewrite H0.
  destruct c as [|n|p]; cbn [request_words fst nth answered local snd] in *.
  - change (msg_cmd 0x03000216) with 0x216. change (0x216 >? 0x1000) with false. cbv iota.
    change (serve_basic ops 0x216 (word copy 2) s) with (Some (Some (3, 4, [MPSDRV_VERSION_NUM]), s)). bind.
    change (data_message _ _ _ _ _) with (fst (response_words RVersion MPSDRV_VERSION_NUM)).
    destruct (send_ready true _ _ s Hr (response_holds RVersion MPSDRV_VERSION_NUM eq_refl))
      as (d & Hs & Hq & He & HF & Hsn).
    rewrite Hs. bind. eexists. split; [done|]. split_and!; try done; [by apply HF|by apply Hsn].
  - change (msg_cmd 0x04000206) with 0x206. change (0x206 >? 0x1000) with false. cbv iota.
    rewrite H2 by done.
    assert (Eb : serve_basic ops 0x206 n s = let '(q, h) := alloc_skb ops n GFP_ATOMIC (heap s) in
      Some (Some (DOWN, 8, [q; n]), set_heap h s)).
    { change (serve_basic ops 0x206 n s) with
        (let '(q, s) := ifx_mps_cpu0_skbuff_alloc ops n s in Some (Some (DOWN, 8, [q; n]), s)).
      unfold ifx_mps_cpu0_skbuff_alloc. by destruct (alloc_skb ops n GFP_ATOMIC (heap s)). }
    rewrite Eb. destruct (alloc_skb ops n GFP_ATOMIC (heap s)) as [q h]. bind. cbn [fst snd].
    change (data_message _ _ _ _ _) with (fst (response_words (RAlloc n) q)).
    assert (Hrh : ready true (set_heap h s)) by (by destruct Hr).
    destruct (send_ready true _ _ (set_heap h s) Hrh (response_holds (RAlloc n) q eq_refl)) as (d & Hs & Hq & He & HF & Hsn).
    rewrite Hs. bind. eexists. split; [done|]. split_and!; try done; [by apply HF|by apply Hsn].
  - change (msg_cmd 0x04000207) with 0x207. change (0x207 >? 0x1000) with false. cbv iota.
    rewrite H2 by done.
    change (serve_basic ops 0x207 p s) with (Some (Some (0, 0, [] : list Z), set_heap (kfree_skb ops p (heap s)) s)).
    bind. change (data_message _ _ _ _ _) with (fst (response_words (RFree p) 0)).
    assert (Es : send (fst (response_words (RFree p) 0)) (set_heap (kfree_skb ops p (heap s)) s) =
      Some (- ENOMSG, set_heap (kfree_skb ops p (heap s)) s)) by (unfold send, ifx_mpsdrv_mbx_send; by destruct s).
    rewrite Es. bind. eexists. split; [done|]. split_and!; try done. by destruct Hr.
Qed.

(** CPU1 stores a response and wakes the caller. *)
Lemma wake_callback c r copy s :
  answered c = true -> is_copy (response c r) copy ->
  ifx_mps_cmd_rcv_callback ops copy s =
    Some (set_control copy 1 (w32 (cmd_wakeuplist_balance s - 1)) s) /\ payload copy = r.
Proof.
  intros Ha Hc.
  assert (H0 : word copy 0 = nth 0 (fst (response_words c r)) 0).
  { apply (copy_words_of _ _ 0 Hc); destruct c; cbn; lia. }
  assert (H2 : word copy 2 = nth 2 (fst (response_words c r)) 0).
  { apply (copy_words_of _ _ 2 Hc); destruct c; try done; cbn; lia. }
  unfold ifx_mps_cmd_rcv_callback, accept_response, payload. rewrite H0, H2.
  by destruct c.
Qed.

(** ** CPU0's turn, then CPU1's *)

Definition both_turns (s0 s1 : state) : option (state * state) :=
  '(s0, s1) ← turn true s1 s0;
  '(s1, s0) ← turn false s0 s1;
  Some (s0, s1).

Lemma serve_spec c s0 s1 :
  ready true s0 -> sent false (request c) s1 ->
  to_alloc (kenv s0) <> [] -> to_alloc (kenv s1) <> [] ->
  exists s0' s1', both_turns s0 s1 = Some (s0', s1') /\ ready true s0' /\ ready false s1' /\
    heap s0' = snd (local c (heap s0)) /\
    to_alloc (kenv s0') = tail (to_alloc (kenv s0)) /\
    (length (to_alloc (kenv s1)) <= S (length (to_alloc (kenv s1'))))%nat /\
    if answered c then payload (msg_data s1') = fst (local c (heap s0)) /\ cmd_callback_flag s1' = 1
    else msg_data s1' = msg_data s1 /\ cmd_callback_flag s1' = cmd_callback_flag s1.
Proof.
  intros Hr0 Hs1 Ha0 Ha1. destruct (to_alloc (kenv s0)) as [|p rest] eqn:E0; [done|].
  destruct (turn_takes true s1 s0 (request c) p rest Hr0 (sn_tx _ _ _ Hs1) (sn_size _ _ _ Hs1)
    (sn_bell _ _ _ Hs1)) as (copy & d1 & Hcp & Hrd & Hre & Hid & Hsz & Hturn); try (by destruct c); try done.
  { destruct c; cbn; lia. }
  destruct (serve_callback c copy _ Hcp Hrd) as (s0a & Hcall & Hh & Hq & He & Hf & Hout).
  specialize (Hturn s0a Hcall Hq). cbn [negb] in Hturn.
  destruct (kfree_same p s0a) as (Kh & _ & _ & Ke & Kf). set (s0b := kfree p s0a) in *.
  set (s1a := set_dv _ s1) in Hturn.
  assert (Hr1 : ready false s1a).
  { apply (ready_after false (request c)); [done|..].
    - change (tx_mbx false) with UpCmd. rewrite Kf, Hf. exact Hid.
    - change (tx_mbx false) with UpCmd. rewrite Kf, Hf. exact Hsz. }
  assert (Heap : heap s0b = snd (local c (heap s0))) by (rewrite Kh, Hh; done).
  assert (Hal : to_alloc (kenv s0b) = rest) by (rewrite Ke, He; exact Hre).
  assert (Hal1 : to_alloc (kenv s1a) = to_alloc (kenv s1)) by done.
  unfold both_turns. rewrite Hturn. bind. destruct (answered c) eqn:Eans.
  - apply (kfree_sent _ _ p) in Hout. fold s0b in Hout.
    destruct (to_alloc (kenv s1)) as [|q rest1] eqn:E1; [done|].
    destruct (turn_takes false s0b s1a (response c (fst (local c (heap s0)))) q rest1 Hr1
      (sn_tx _ _ _ Hout) (sn_size _ _ _ Hout) (sn_bell _ _ _ Hout))
      as (copy1 & d2 & Hcp1 & Hrd1 & Hre1 & Hid1 & Hsz1 & Hturn1); try (by destruct c); try done.
    { destruct c; cbn; lia. }
    destruct (wake_callback c _ copy1 (set_dv d2 s1a) Eans Hcp1) as [Hwake Hpay].
    specialize (Hturn1 _ Hwake eq_refl). rewrite Hturn1. bind.
    set (s1b := set_control copy1 1 _ (set_dv d2 s1a)) in *.
    destruct (kfree_same q s1b) as (_ & Km & Kg & Ke1 & Kf1).
    eexists _, _. split; [done|]. split.
    { apply (ready_after true (response c (fst (local c (heap s0))))); [done|..];
        change (tx_mbx true) with DnCmd; rewrite Kf1; done. }
    split; [apply kfree_ready; by destruct Hrd1|]. split; [done|]. split; [done|].
    split; [rewrite Ke1; change (to_alloc (kenv s1b)) with (to_alloc (menv (bufmem d2))); rewrite Hre1; done|].
    rewrite Km, Kg. done.
  - apply (kfree_ready _ p) in Hout. fold s0b in Hout.
    assert (Ht : turn false s0b s1a = Some (s1a, s0b)).
    { unfold turn. cbn [negb]. by rewrite (rd_bell _ _ Hout). }
    rewrite Ht. bind. exists s0b, s1a. split_and!; try done. rewrite Hal1. lia.
Qed.

(** ** Remote calls *)

(** A caller that is not disturbed: it sends, sleeps if it must, and goes on when
    the flag is set. *)
Definition remote (c : rcall) (s0 s1 : state) : option (Z * (state * state)) :=
  '(st, s1) ← start c s1;
  '(s0, s1) ← both_turns s0 s1;
  match st with
  | Returns r => Some (r, (s0, s1))
  | Sleeps => '(r, s1) ← wait_done false s1; Some (r, (s0, s1))
  end.

Fixpoint remote_calls (cs : list rcall) (s0 s1 : state) : option (list Z * (state * state)) :=
  match cs with
  | [] => Some ([], (s0, s1))
  | c :: cs => '(r, (s0, s1)) ← remote c s0 s1; '(rs, p) ← remote_calls cs s0 s1; Some (r :: rs, p)
  end.

(** The same calls made on CPU0, where none sleeps. *)
Fixpoint local_calls (cs : list rcall) (s : state) : option (list Z * state) :=
  match cs with
  | [] => Some ([], s)
  | c :: cs =>
      '(st, s) ← start c s;
      match st with
      | Returns r => '(rs, s) ← local_calls cs s; Some (r :: rs, s)
      | Sleeps => None
      end
  end.

Lemma remote_one c s0 s1 :
  ready true s0 -> ready false s1 -> cmd_callback_flag s1 = 0 ->
  to_alloc (kenv s0) <> [] -> to_alloc (kenv s1) <> [] ->
  exists s0' s1', remote c s0 s1 = Some (fst (local c (heap s0)), (s0', s1')) /\
    ready true s0' /\ ready false s1' /\ cmd_callback_flag s1' = 0 /\
    heap s0' = snd (local c (heap s0)) /\
    to_alloc (kenv s0') = tail (to_alloc (kenv s0)) /\
    (length (to_alloc (kenv s1)) <= S (length (to_alloc (kenv s1'))))%nat.
Proof.
  intros Hr0 Hr1 Hfl Ha0 Ha1.
  destruct (start_remote c s1 Hr1) as (s1a & Hst & Hsent & _ & Hfl1 & Hal1).
  destruct (serve_spec c s0 s1a Hr0 Hsent Ha0) as (s0' & s1' & Hsv & Hr0' & Hr1' & Hh & He0 & He1 & Hout);
    [by rewrite Hal1|].
  unfold remote. rewrite Hst. bind. rewrite Hsv. bind. rewrite Hal1 in He1. destruct (answered c) eqn:Eans.
  - destruct Hout as [Hp Hf]. unfold wait_done. rewrite Hf. cbn [negb andb Z.eqb]. bind. rewrite Hp.
    eexists _, _. split; [done|]. split_and!; try done. by destruct Hr1'.
  - destruct Hout as [_ Hf]. destruct c; try done. exists s0', s1'. split_and!; try done. by rewrite Hf, Hfl1.
Qed.

Lemma remote_calls_spec cs : forall s0 s1 sl,
  ready true s0 -> ready false s1 -> cmd_callback_flag s1 = 0 ->
  (length cs <= length (to_alloc (kenv s0)))%nat -> (length cs <= length (to_alloc (kenv s1)))%nat ->
  on_cpu0 (dv sl) = true -> heap sl = heap s0 ->
  exists rs s0' s1' sl', remote_calls cs s0 s1 = Some (rs, (s0', s1')) /\
    local_calls cs sl = Some (rs, sl') /\ heap s0' = heap sl' /\
    ready true s0' /\ ready false s1' /\ cmd_callback_flag s1' = 0.
Proof.
  induction cs as [|c cs IH]; intros s0 s1 sl Hr0 Hr1 Hfl Hn0 Hn1 Hsl Hheap.
  { by exists [], s0, s1, sl. }
  cbn [length] in Hn0, Hn1.
  destruct (remote_one c s0 s1 Hr0 Hr1 Hfl) as (s0a & s1a & Hrun & Hr0a & Hr1a & Hfla & Hh & He0 & He1);
    [by intros E; rewrite E in Hn0; cbn in Hn0; lia|by intros E; rewrite E in Hn1; cbn in Hn1; lia|].
  destruct (start_local c sl Hsl) as (sla & Hst & Hhl & Hdv).
  destruct (IH s0a s1a sla) as (rs & s0' & s1' & sl' & Hr & Hl & Hrest); try done.
  { rewrite He0. destruct (to_alloc (kenv s0)); cbn in *; lia. }
  { lia. }
  { by rewrite Hdv. }
  { by rewrite Hhl, Hh, Hheap. }
  exists (fst (local c (heap s0)) :: rs), s0', s1', sl'. cbn [remote_calls local_calls].
  rewrite Hrun. bind. rewrite Hr, Hst. bind. rewrite Hl, Hheap. by bind.
Qed.

(** C4: A command that CPU1 has CPU0 carry out behaves as the same call made on
    CPU0.  For any sequence of version queries, allocations and releases of socket
    buffers, with both CPUs at rest and a block to be had for every message, each
    call sends its request, CPU0's interrupt, tasklet and callback serve it, the
    response wakes the caller, and it returns; the results are those the calls
    have on CPU0 and they leave CPU0's heap the same.  Afterwards both CPUs are at
    rest again, so no call ever waits for good. *)
Theorem remote_calls_refine_local cs s0 s1 :
  ready true s0 -> ready false s1 -> cmd_callback_flag s1 = 0 ->
  (length cs <= length (to_alloc (kenv s0)))%nat -> (length cs <= length (to_alloc (kenv s1)))%nat ->
  exists rs s0' s1' sl, remote_calls cs s0 s1 = Some (rs, (s0', s1')) /\
    local_calls cs s0 = Some (rs, sl) /\ heap s0' = heap sl /\
    ready true s0' /\ ready false s1' /\ cmd_callback_flag s1' = 0.
Proof. intros Hr0 Hr1 Hfl Hn0 Hn1. by apply remote_calls_spec; try done; apply rd_cpu. Qed.

(** ** A caller woken by a signal *)

(** A caller that goes on before CPU0 has answered: because of a signal, or since
    it finds the flag set already. *)
Definition hasty (signalled : bool) (n : Z) (s0 s1 : state) : option (Z * (state * state)) :=
  '(_, s1) ← start (RAlloc n) s1;
  '(r, s1) ← wait_done signalled s1;
  '(s0, s1) ← both_turns s0 s1;
  Some (r, (s0, s1)).

Fixpoint hasty_calls (ns : list Z) (s0 s1 : state) : option (list Z * (state * state)) :=
  match ns with
  | [] => Some ([], (s0, s1))
  | n :: ns => '(r, (s0, s1)) ← hasty false n s0 s1; '(rs, p) ← hasty_calls ns s0 s1; Some (r :: rs, p)
  end.

Definition allocated (ns : list Z) (h : K) : K :=
  fold_left (fun h n => snd (alloc_skb ops n GFP_ATOMIC h)) ns h.

Lemma hasty_one signalled n s0 s1 :
  ready true s0 -> ready false s1 -> signalled = true \/ cmd_callback_flag s1 = 1 ->
  to_alloc (kenv s0) <> [] -> to_alloc (kenv s1) <> [] ->
  exists s0' s1', hasty signalled n s0 s1 = Some (0, (s0', s1')) /\
    ready true s0' /\ ready false s1' /\ cmd_callback_flag s1' = 1 /\
    heap s0' = allocated [n] (heap s0) /\
    to_alloc (kenv s0') = tail (to_alloc (kenv s0)) /\
    (length (to_alloc (kenv s1)) <= S (length (to_alloc (kenv s1'))))%nat.
Proof.
  intros Hr0 Hr1 Hfl Ha0 Ha1.
  destruct (start_remote (RAlloc n) s1 Hr1) as (s1a & Hst & Hsent & Hmd & Hfl1 & Hal1).
  set (s1b := set_control (msg_data s1a) 0 (cmd_wakeuplist_balance s1a) s1a).
  assert (Hw : wait_done signalled s1a = Some (0, s1b)).
  { unfold wait_done, s1b. rewrite Hfl1, Hmd. by destruct Hfl as [->| ->]; [|destruct signalled]. }
  assert (Hsent' : sent false (request (RAlloc n)) s1b) by (by destruct Hsent).
  destruct (serve_spec (RAlloc n) s0 s1b Hr0 Hsent' Ha0) as (s0' & s1' & Hsv & Hr0' & Hr1' & Hh & He0 & He1 & Hout).
  { change (kenv s1b) with (kenv s1a). by rewrite Hal1. }
  change (kenv s1b) with (kenv s1a) in He1. rewrite Hal1 in He1. destruct Hout as [_ Hf].
  unfold hasty. rewrite Hst. bind. rewrite Hw. bind. rewrite Hsv. bind. eexists _, _. by split_and!.
Qed.

Lemma hasty_calls_spec ns : forall s0 s1,
  ready true s0 -> ready false s1 -> cmd_callback_flag s1 = 1 ->
  (length ns <= length (to_alloc (kenv s0)))%nat -> (length ns <= length (to_alloc (kenv s1)))%nat ->
  exists s0' s1', hasty_calls ns s0 s1 = Some (map (fun _ => 0) ns, (s0', s1')) /\
    heap s0' = allocated ns (heap s0) /\ ready true s0' /\ ready false s1' /\ cmd_callback_flag s1' = 1.
Proof.
  induction ns as [|n ns IH]; intros s0 s1 Hr0 Hr1 Hfl Hn0 Hn1; [by exists s0, s1|].
  cbn [length] in Hn0, Hn1.
  destruct (hasty_one false n s0 s1 Hr0 Hr1 (or_intror Hfl)) as (s0a & s1a & Hrun & Hr0a & Hr1a & Hfla & Hh & He0 & He1);
    [by intros E; rewrite E in Hn0; cbn in Hn0; lia|by intros E; rewrite E in Hn1; cbn in Hn1; lia|].
  destruct (IH s0a s1a Hr0a Hr1a Hfla) as (s0' & s1' & Hr & Hhp & Hrt0 & Hrt1 & Hft).
  { rewrite He0. destruct (to_alloc (kenv s0)); cbn in *; lia. } { lia. }
  exists s0', s1'. cbn [hasty_calls map]. rewrite Hrun. bind. rewrite Hr. bind.
  rewrite Hhp, Hh. by split_and!.
Qed.

(** C15: One caller woken by a signal costs all later callers their answers.  The
    caller of an allocation that is signalled while it sleeps gets NULL; CPU0
    still allocates, and its answer raises the flag that nobody waits for.  The
    next caller clears the message, sends its request, finds the flag set and
    returns NULL as well, before its own answer comes and raises the flag again:
    any number of allocations in a row can all fail this way, while CPU0 allocates
    a buffer for each of them that nobody ever sees. *)
Theorem signalled_call_starves n ns s0 s1 :
  ready true s0 -> ready false s1 -> cmd_callback_flag s1 = 0 ->
  (length ns < length (to_alloc (kenv s0)))%nat -> (length ns < length (to_alloc (kenv s1)))%nat ->
  exists s0a s1a s0' s1',
    hasty true n s0 s1 = Some (0, (s0a, s1a)) /\
    hasty_calls ns s0a s1a = Some (map (fun _ => 0) ns, (s0', s1')) /\
    heap s0' = allocated (n :: ns) (heap s0) /\
    ready true s0' /\ ready false s1' /\ cmd_callback_flag s1' = 1.
Proof.
  intros Hr0 Hr1 Hfl Hn0 Hn1.
  destruct (hasty_one true n s0 s1 Hr0 Hr1 (or_introl eq_refl)) as (s0a & s1a & Hrun & Hr0a & Hr1a & Hfla & Hh & He0 & He1);
    [by intros E; rewrite E in Hn0; cbn in Hn0; lia|by intros E; rewrite E in Hn1; cbn in Hn1; lia|].
  destruct (hasty_calls_spec ns s0a s1a Hr0a Hr1a Hfla) as (s0' & s1' & Hr & Hhp & Hrt0 & Hrt1 & Hft).
  { rewrite He0. destruct (to_alloc (kenv s0)); cbn in *; lia. } { lia. }
  exists s0a, s1a, s0', s1'. rewrite Hhp, Hh. by split_and!.
Qed.

End Remote.

(** ** The theorems apply *)

Lemma sample_ready (cpu : Z) (cpu0 : bool) allocs :
  on_cpu0 (dv (sample_state cpu allocs (fun _ => 0))) = cpu0 ->
  Forall (fun p => p <> 0) allocs -> ready 0x700 cpu0 (sample_state cpu allocs (fun _ => 0)).
Proof.
  intros H0 Ha. assert (Hi : idle (fresh_fifo 64)) by (split; [by apply (fresh_inv 64)|done]).
  constructor; try done; try (by destruct cpu0); apply sample_queue_wf.
Qed.

Lemma remote_calls_refine_local_witness :
  let s0 := sample_state 0 [0x900; 0x910] (fun _ => 0) in
  let s1 := sample_state 1 [0x920; 0x930] (fun _ => 0) in
  exists s0' s1', remote_calls counter_ops 0x700 0x710 (fun _ => 0) (fun _ _ => 0) 0 [RAlloc 60; RFree 0x9000] s0 s1 =
    Some ([0x9000; 0], (s0', s1')) /\ heap s0' = 0x9100.
Proof.
  intros s0 s1.
  destruct (remote_calls_refine_local counter_ops 0x700 0x710 ltac:(discriminate) (fun _ => 0) (fun _ _ => 0) 0
    [RAlloc 60; RFree 0x9000] s0 s1) as (rs & s0' & s1' & sl & H1 & H2 & H3 & _).
  - apply (sample_ready 0 true); [reflexivity|repeat constructor; discriminate].
  - apply (sample_ready 1 false); [reflexivity|repeat constructor; discriminate].
  - reflexivity.
  - apply le_n.
  - apply le_n.
  - exists s0', s1'. injection H2 as H2 H4. rewrite H1, <- H2, H3, <- H4. split; reflexivity.
Defined.

Lemma signalled_call_starves_witness :
  let s0 := sample_state 0 [0x900; 0x910; 0x920] (fun _ => 0) in
  let s1 := sample_state 1 [0x930; 0x940; 0x950] (fun _ => 0) in
  exists s0a s1a s0' s1',
    hasty counter_ops 0x700 0x710 (fun _ => 0) (fun _ _ => 0) 0 true 60 s0 s1 = Some (0, (s0a, s1a)) /\
    hasty_calls counter_ops 0x700 0x710 (fun _ => 0) (fun _ _ => 0) 0 [60; 60] s0a s1a = Some ([0; 0], (s0', s1')) /\
    heap s0' = 0x9300.
Proof.
  intros s0 s1.
  destruct (signalled_call_starves counter_ops 0x700 0x710 ltac:(discriminate) (fun _ => 0) (fun _ _ => 0) 0
    60 [60; 60] s0 s1) as (s0a & s1a & s0' & s1' & H1 & H2 & H3 & _).
  - apply (sample_ready 0 true); [reflexivity|repeat constructor; discriminate].
  - apply (sample_ready 1 false); [reflexivity|repeat constructor; discriminate].
  - reflexivity.
  - apply le_n.
  - apply le_n.
  - exists s0a, s1a, s0', s1'. split; [exact H1|]. split; [exact H2|]. rewrite H3. reflexivity.
Defined.
