(* ===== verification/Port.v ===== *)
(** * GPIO port driver ([arch/mips/infineon/danube/port/port.c])

    The pin-ownership table, the reservation protocol, the fourteen
    single-bit register accessors, the input read, the ioctl entry point, the
    proc file and the initialisation.

    An operation is a function from the driver state to [option (result *
    state)]; [None] is an access outside [danube_port_pin_usage] or
    [danube_port_bases], for which C gives no meaning.  The table is the flat
    array the compiler lays out: element [port][pin] is word
    [port * 16 + pin]. *)

From Stdlib Require Import String Ascii.
From S2P Require Import Prelude.
Open Scope Z_scope.

(** ** Constants of [port.c], [port_defs.h], [port.h] *)

Definition MAX_PORTS : Z := 2.
Definition PINS_PER_PORT : Z := 16.

Definition DANUBE_GPIO : Z := 0xBE100B00.
Definition danube_port_bases : list Z := [DANUBE_GPIO; DANUBE_GPIO + 0x30].

Definition DANUBE_PORT_OUT_REG : Z := 0x10.
Definition DANUBE_PORT_IN_REG : Z := 0x14.
Definition DANUBE_PORT_DIR_REG : Z := 0x18.
Definition DANUBE_PORT_ALTSEL0_REG : Z := 0x1C.
Definition DANUBE_PORT_ALTSEL1_REG : Z := 0x20.
Definition DANUBE_PORT_OD_REG : Z := 0x24.
Definition DANUBE_PORT_STOFF_REG : Z := 0x28.
Definition DANUBE_PORT_PUDSEL_REG : Z := 0x2C.
Definition DANUBE_PORT_PUDEN_REG : Z := 0x30.

Definition PORT_MODULE_ID : Z := 0xff.

(** ** State *)

Record port_state := mk_port {
  port_major : Z;
  danube_port_pin_usage : list Z;   (* MAX_PORTS * PINS_PER_PORT owners *)
  port_sem : Z;                     (* count of the driver semaphore *)
  port_hw : Z -> Z                  (* the GPIO registers, by address *)
}.

Definition set_usage (u : list Z) (s : port_state) : port_state :=
  mk_port (port_major s) u (port_sem s) (port_hw s).
Definition set_sem (n : Z) (s : port_state) : port_state :=
  mk_port (port_major s) (danube_port_pin_usage s) n (port_hw s).
Definition set_hw (h : Z -> Z) (s : port_state) : port_state :=
  mk_port (port_major s) (danube_port_pin_usage s) (port_sem s) h.

(** [danube_port_pin_usage[port][pin]], read and written. *)
Definition usage_index (port pin : Z) : nat := Z.to_nat (port * PINS_PER_PORT + pin).
Definition usage_get (s : port_state) (port pin : Z) : option Z :=
  danube_port_pin_usage s !! usage_index port pin.
Definition usage_set (s : port_state) (port pin v : Z) : port_state :=
  set_usage (<[usage_index port pin := v]> (danube_port_pin_usage s)) s.

(** The two argument checks every operation starts with. *)
Definition args_negative (port pin : Z) : bool := (port <? 0) || (pin <? 0).
Definition args_beyond (port pin : Z) : bool :=
  (port >? MAX_PORTS) || (pin >? PINS_PER_PORT).

(** ** Reservation *)

Definition danube_port_reserve_pin (port pin module_id : Z) (s : port_state)
  : option (Z * port_state) :=
  if args_negative port pin then Some (- EINVAL, s) else
  if args_beyond port pin then Some (- EINVAL, s) else
  owner ← usage_get s port pin;
  if owner =? 0 then Some (OK, usage_set s port pin module_id)
  else Some (- EBUSY, s).

Definition danube_port_free_pin (port pin module_id : Z) (s : port_state)
  : option (Z * port_state) :=
  if args_negative port pin then Some (- EINVAL, s) else
  if args_beyond port pin then Some (- EINVAL, s) else
  owner ← usage_get s port pin;
  if negb (owner =? module_id) then Some (- EBUSY, s)
  else Some (OK, usage_set s port pin 0).

(** ** Register accessors

    [port_rmw off f] is the body the accessors share: the checks, then
    [PORT_READ_REG], the update [f reg pin] and [PORT_WRITE_REG] on register
    [off] of the port. *)

Definition port_rmw (off : Z) (f : Z -> Z -> Z) (port pin module_id : Z)
    (s : port_state) : option (Z * port_state) :=
  if args_negative port pin then Some (- EINVAL, s) else
  if args_beyond port pin then Some (- EINVAL, s) else
  owner ← usage_get s port pin;
  if negb (owner =? module_id) then Some (- EBUSY, s) else
  base ← danube_port_bases !! Z.to_nat port;
  let reg := f (port_hw s (base + off)) pin in
  Some (OK, set_hw (upd (port_hw s) (base + off) reg) s).

Definition danube_port_set_open_drain := port_rmw DANUBE_PORT_OD_REG bit_set.
Definition danube_port_clear_open_drain := port_rmw DANUBE_PORT_OD_REG bit_clr.
Definition danube_port_set_pudsel := port_rmw DANUBE_PORT_PUDSEL_REG bit_set.
Definition danube_port_clear_pudsel := port_rmw DANUBE_PORT_PUDSEL_REG bit_clr.
Definition danube_port_set_puden := port_rmw DANUBE_PORT_PUDEN_REG bit_set.
Definition danube_port_clear_puden := port_rmw DANUBE_PORT_PUDEN_REG bit_clr.
Definition danube_port_set_stoff := port_rmw DANUBE_PORT_STOFF_REG bit_set.
Definition danube_port_clear_stoff := port_rmw DANUBE_PORT_STOFF_REG bit_clr.
Definition danube_port_set_dir_out := port_rmw DANUBE_PORT_DIR_REG bit_set.
Definition danube_port_set_dir_in := port_rmw DANUBE_PORT_DIR_REG bit_clr.
Definition danube_port_set_output := port_rmw DANUBE_PORT_OUT_REG bit_set.
Definition danube_port_clear_output := port_rmw DANUBE_PORT_OUT_REG bit_clr.
Definition danube_port_set_altsel0 := port_rmw DANUBE_PORT_ALTSEL0_REG bit_set.
Definition danube_port_clear_altsel0 := port_rmw DANUBE_PORT_ALTSEL0_REG bit_clr.
Definition danube_port_set_altsel1 := port_rmw DANUBE_PORT_ALTSEL1_REG bit_set.
Definition danube_port_clear_altsel1 := port_rmw DANUBE_PORT_ALTSEL1_REG bit_clr.

Definition danube_port_get_input (port pin module_id : Z) (s : port_state)
  : option (Z * port_state) :=
  if args_negative port pin then Some (- EINVAL, s) else
  if args_beyond port pin then Some (- EINVAL, s) else
  owner ← usage_get s port pin;
  if negb (owner =? module_id) then Some (- EBUSY, s) else
  base ← danube_port_bases !! Z.to_nat port;
  let reg := port_hw s (base + DANUBE_PORT_IN_REG) .& (1 .<< pin) in
  if reg =? 0 then Some (0, s) else Some (1, s).

(** ** The ioctl entry point *)

(** [struct danube_port_ioctl_parm]. *)
Record danube_port_ioctl_parm := mk_parm {
  parm_port : Z; parm_pin : Z; parm_value : Z
}.

(** The caller's buffer: whether [access_ok] grants reading and writing it,
    and its contents. *)
Record user_arg := mk_user {
  user_readable : bool; user_writable : bool; user_parm : danube_port_ioctl_parm
}.

Definition DANUBE_PORT_IOC_MAGIC : Z := 0xbf.
Definition PORT_IOW (nr : Z) : Z := IOC IOC_WRITE DANUBE_PORT_IOC_MAGIC nr 12.
Definition DANUBE_PORT_IOCOD : Z := PORT_IOW 0.
Definition DANUBE_PORT_IOCPUDSEL : Z := PORT_IOW 1.
Definition DANUBE_PORT_IOCPUDEN : Z := PORT_IOW 2.
Definition DANUBE_PORT_IOCSTOFF : Z := PORT_IOW 3.
Definition DANUBE_PORT_IOCDIR : Z := PORT_IOW 4.
Definition DANUBE_PORT_IOCOUTPUT : Z := PORT_IOW 5.
Definition DANUBE_PORT_IOCINPUT : Z :=
  IOC (IOC_READ .| IOC_WRITE) DANUBE_PORT_IOC_MAGIC 6 12.
Definition DANUBE_PORT_IOCALTSEL0 : Z := PORT_IOW 7.
Definition DANUBE_PORT_IOCALTSEL1 : Z := PORT_IOW 8.

Definition port_fn := Z -> Z -> Z -> port_state -> option (Z * port_state).

(** [PORT_IOC_CALL(ret, port, pin, func)]. *)
Definition PORT_IOC_CALL (port pin : Z) (func : port_fn) (s : port_state)
  : option (Z * port_state) :=
  '(ret, s) ← danube_port_reserve_pin port pin PORT_MODULE_ID s;
  '(ret, s) ← (if ret =? 0 then func port pin PORT_MODULE_ID s else Some (ret, s));
  (if ret =? 0 then danube_port_free_pin port pin PORT_MODULE_ID s else Some (ret, s)).

(** One [case] of the switch on a write command: value 0 selects [f0]. *)
Definition port_ioc_switch (p : danube_port_ioctl_parm) (f0 f1 : port_fn)
  : port_state -> option (Z * port_state) :=
  if parm_value p =? 0 then PORT_IOC_CALL (parm_port p) (parm_pin p) f0
  else PORT_IOC_CALL (parm_port p) (parm_pin p) f1.

(** [case DANUBE_PORT_IOCINPUT]: returns the buffer as [copy_to_user] leaves it. *)
Definition port_ioc_input (p : danube_port_ioctl_parm) (s : port_state)
  : option (Z * danube_port_ioctl_parm * port_state) :=
  '(ret, s) ← danube_port_reserve_pin (parm_port p) (parm_pin p) PORT_MODULE_ID s;
  '(p, s) ← (if ret =? 0 then
               '(v, s) ← danube_port_get_input (parm_port p) (parm_pin p) PORT_MODULE_ID s;
               Some (mk_parm (parm_port p) (parm_pin p) v, s)
             else Some (p, s));
  '(ret, s) ← danube_port_free_pin (parm_port p) (parm_pin p) PORT_MODULE_ID s;
  Some (ret, p, s).

(** The body between [down_trylock] and [up]. *)
Definition port_ioctl_cmd (cmd : Z) (p : danube_port_ioctl_parm) (s : port_state)
  : option (Z * danube_port_ioctl_parm * port_state) :=
  let keep r := '(ret, s) ← r; Some (ret, p, s) in
  if cmd =? DANUBE_PORT_IOCOD then
    keep (port_ioc_switch p danube_port_clear_open_drain danube_port_set_open_drain s)
  else if cmd =? DANUBE_PORT_IOCPUDSEL then
    keep (port_ioc_switch p danube_port_clear_pudsel danube_port_set_pudsel s)
  else if cmd =? DANUBE_PORT_IOCPUDEN then
    keep (port_ioc_switch p danube_port_clear_puden danube_port_set_puden s)
  else if cmd =? DANUBE_PORT_IOCSTOFF then
    keep (port_ioc_switch p danube_port_clear_stoff danube_port_set_stoff s)
  else if cmd =? DANUBE_PORT_IOCDIR then
    keep (port_ioc_switch p danube_port_set_dir_in danube_port_set_dir_out s)
  else if cmd =? DANUBE_PORT_IOCOUTPUT then
    keep (port_ioc_switch p danube_port_clear_output danube_port_set_output s)
  else if cmd =? DANUBE_PORT_IOCALTSEL0 then
    keep (port_ioc_switch p danube_port_clear_altsel0 danube_port_set_altsel0 s)
  else if cmd =? DANUBE_PORT_IOCALTSEL1 then
    keep (port_ioc_switch p danube_port_clear_altsel1 danube_port_set_altsel1 s)
  else if cmd =? DANUBE_PORT_IOCINPUT then port_ioc_input p s
  else Some (- EINVAL, p, s).

Definition danube_port_ioctl (cmd : Z) (arg : user_arg) (s : port_state)
  : option (Z * user_arg * port_state) :=
  if negb (IOC_TYPE cmd =? DANUBE_PORT_IOC_MAGIC) then Some (- EINVAL, arg, s) else
  if negb (IOC_DIR cmd .& IOC_WRITE =? 0) && negb (user_readable arg)
  then Some (- EFAULT, arg, s) else
  if negb (IOC_DIR cmd .& IOC_READ =? 0) && negb (user_writable arg)
  then Some (- EFAULT, arg, s) else
  if port_sem s <=? 0 then Some (- EBUSY, arg, s) else
  '(ret, p, s') ← port_ioctl_cmd cmd (user_parm arg) (set_sem (port_sem s - 1) s);
  Some (ret, mk_user (user_readable arg) (user_writable arg) p,
        set_sem (port_sem s' + 1) s').

Definition danube_port_open (s : port_state) : Z * port_state := (OK, s).
Definition danube_port_release (s : port_state) : Z * port_state := (OK, s).

(** ** Initialisation: [err] is the result of [register_chrdev] *)

Definition danube_port_init (err : Z) (s : port_state) : Z * port_state :=
  let usage := replicate (Z.to_nat (MAX_PORTS * PINS_PER_PORT)) 0 in
  if err >? 0 then (OK, mk_port err usage 1 (port_hw s))
  else (err, mk_port (port_major s) usage 1 (port_hw s)).

(** ** The proc file *)

Definition nl : string := String "010" EmptyString.

(** [for (t = 0; t < 32; t++)]: one column per bit, from [bit] downwards. *)
Fixpoint bit_row (n : nat) (bit reg : Z) : string :=
  match n with
  | O => EmptyString
  | S n => String (if reg .& bit >? 0 then "X" else " ")%char
                  (bit_row n (bit .>> 1) reg)
  end.

Definition proc_title : string :=
  (nl ++ "Danube Port Settings" ++ nl
   ++ "         3         2         1         0" ++ nl
   ++ "        10987654321098765432109876543210" ++ nl
   ++ "----------------------------------------" ++ nl)%string.

(** The rows in the order the function prints them: label and register. *)
Definition proc_rows : list (string * Z) :=
  [("P0-OUT: ", 0x10); ("P1-OUT: ", 0x40); ("P0-IN:  ", 0x14); ("P1-IN:  ", 0x44);
   ("P0-DIR: ", 0x18); ("P1-DIR: ", 0x48); ("P0-STO: ", 0x28); ("P1-STO: ", 0x58);
   ("P0-PUDE:", 0x30); ("P1-PUDE:", 0x60); ("P0-OD:  ", 0x24); ("P1-OD:  ", 0x54);
   ("P0-PUDS:", 0x2C); ("P1-PUDS:", 0x5C); ("P0_ALT0:", 0x1C); ("P0_ALT1:", 0x20);
   ("P1_ALT0:", 0x4C); ("P1_ALT1:", 0x50)]%string.

Definition proc_row (hw : Z -> Z) (row : string * Z) : string :=
  (nl ++ fst row ++ bit_row 32 0x80000000 (hw (DANUBE_GPIO + snd row)))%string.

Fixpoint proc_body (hw : Z -> Z) (rows : list (string * Z)) : string :=
  match rows with
  | nil => (nl ++ nl)%string
  | row :: rows => (proc_row hw row ++ proc_body hw rows)%string
  end.

(** The text left in [buf] and the returned length. *)
Definition danube_port_read_procmem (s : port_state) : string * Z :=
  let buf := (proc_title ++ proc_body (port_hw s) proc_rows)%string in
  (buf, Z.of_nat (String.length buf)).

(** ** Steps and reachable states

    A step is a call of one exported operation by some module, or an ioctl;
    the environment may change the input registers at any time. *)

Inductive port_attr :=
  AOpenDrain | APudsel | APuden | AStoff | ADir | AOutput | AAltsel0 | AAltsel1.

Definition attr_reg (a : port_attr) : Z :=
  match a with
  | AOpenDrain => DANUBE_PORT_OD_REG | APudsel => DANUBE_PORT_PUDSEL_REG
  | APuden => DANUBE_PORT_PUDEN_REG | AStoff => DANUBE_PORT_STOFF_REG
  | ADir => DANUBE_PORT_DIR_REG | AOutput => DANUBE_PORT_OUT_REG
  | AAltsel0 => DANUBE_PORT_ALTSEL0_REG | AAltsel1 => DANUBE_PORT_ALTSEL1_REG
  end.

(** The exported function that gives attribute [a] the value [b]. *)
Definition attr_fn (a : port_attr) (b : bool) : port_fn :=
  match a, b with
  | AOpenDrain, true => danube_port_set_open_drain
  | AOpenDrain, false => danube_port_clear_open_drain
  | APudsel, true => danube_port_set_pudsel
  | APudsel, false => danube_port_clear_pudsel
  | APuden, true => danube_port_set_puden
  | APuden, false => danube_port_clear_puden
  | AStoff, true => danube_port_set_stoff
  | AStoff, false => danube_port_clear_stoff
  | ADir, true => danube_port_set_dir_out
  | ADir, false => danube_port_set_dir_in
  | AOutput, true => danube_port_set_output
  | AOutput, false => danube_port_clear_output
  | AAltsel0, true => danube_port_set_altsel0
  | AAltsel0, false => danube_port_clear_altsel0
  | AAltsel1, true => danube_port_set_altsel1
  | AAltsel1, false => danube_port_clear_altsel1
  end.

(** A pin that exists: the documented argument range. *)
Definition real_pin (port pin : Z) : Prop :=
  0 <= port < MAX_PORTS /\ 0 <= pin < PINS_PER_PORT.

(** Representation invariant: the table has its declared size. *)
Definition port_wf (s : port_state) : Prop :=
  length (danube_port_pin_usage s) = 32%nat.

Definition owner_of (s : port_state) (port pin : Z) : Z :=
  default 0 (usage_get s port pin).

Definition port_base (port : Z) : Z := DANUBE_GPIO + 0x30 * port.

Inductive port_step (s : port_state) : port_state -> Prop :=
  | step_reserve port pin mid r s' : real_pin port pin ->
      danube_port_reserve_pin port pin mid s = Some (r, s') -> port_step s s'
  | step_attr a b port pin mid r s' : real_pin port pin ->
      attr_fn a b port pin mid s = Some (r, s') -> port_step s s'
  | step_ioctl cmd arg r arg' s' :
      real_pin (parm_port (user_parm arg)) (parm_pin (user_parm arg)) ->
      danube_port_ioctl cmd arg s = Some (r, arg', s') -> port_step s s'
  | step_input h : port_step s (set_hw h s).

(** ** Lemmas *)

Lemma args_ok port pin :
  real_pin port pin -> args_negative port pin = false /\ args_beyond port pin = false.
Proof.
  unfold real_pin, args_negative, args_beyond, MAX_PORTS, PINS_PER_PORT.
  intros [??]. rewrite !orb_false_iff, !Z.gtb_ltb, !Z.ltb_ge. lia.
Qed.

Lemma usage_index_lt port pin : real_pin port pin -> (usage_index port pin < 32)%nat.
Proof. unfold real_pin, usage_index, MAX_PORTS, PINS_PER_PORT. lia. Qed.

Lemma usage_index_inj p1 n1 p2 n2 :
  real_pin p1 n1 -> real_pin p2 n2 ->
  usage_index p1 n1 = usage_index p2 n2 -> p1 = p2 /\ n1 = n2.
Proof. unfold real_pin, usage_index, MAX_PORTS, PINS_PER_PORT. lia. Qed.

Lemma usage_get_real s port pin :
  port_wf s -> real_pin port pin -> usage_get s port pin = Some (owner_of s port pin).
Proof.
  intros Hwf Hr. unfold owner_of. destruct (usage_get s port pin) eqn:E; [done|].
  unfold usage_get in E. apply lookup_ge_None in E. rewrite Hwf in E.
  pose proof (usage_index_lt _ _ Hr). lia.
Qed.

Lemma base_real port : 0 <= port < MAX_PORTS ->
  danube_port_bases !! Z.to_nat port = Some (port_base port).
Proof.
  unfold MAX_PORTS, port_base. intros H.
  assert (port = 0 \/ port = 1) as [-> | ->] by lia; reflexivity.
Qed.

Lemma owner_of_set s port pin v :
  port_wf s -> real_pin port pin -> owner_of (usage_set s port pin v) port pin = v.
Proof.
  intros Hwf Hr. unfold owner_of, usage_get, usage_set. cbn.
  rewrite list_lookup_insert_eq; [done|]. rewrite Hwf. by apply usage_index_lt.
Qed.

Lemma owner_of_set_ne s port pin v port' pin' :
  real_pin port pin -> real_pin port' pin' -> (port', pin') <> (port, pin) ->
  owner_of (usage_set s port pin v) port' pin' = owner_of s port' pin'.
Proof.
  intros Hr Hr' Hne. unfold owner_of, usage_get, usage_set. cbn.
  rewrite list_lookup_insert_ne; [done|]. intros Heq. apply Hne.
  destruct (usage_index_inj _ _ _ _ Hr Hr' Heq) as [-> ->]. done.
Qed.

Lemma usage_set_wf s port pin v : port_wf s -> port_wf (usage_set s port pin v).
Proof. unfold port_wf, usage_set. cbn. by rewrite length_insert. Qed.
#[export] Hint Resolve usage_set_wf : core.

(** [port_go]: run an operation on a pin that exists. *)
Ltac port_go :=
  repeat match goal with
  | H : real_pin ?p ?n |- context [args_negative ?p ?n] =>
      rewrite (proj1 (args_ok p n H)), (proj2 (args_ok p n H))
  | Hw : port_wf ?s, H : real_pin ?p ?n |- context [usage_get ?s ?p ?n] =>
      rewrite (usage_get_real s p n Hw H)
  | H : real_pin ?p _ |- context [danube_port_bases !! Z.to_nat ?p] =>
      rewrite (base_real p (proj1 H))
  | _ => progress cbn [mbind option_bind]
  end.

Lemma reserve_eq s port pin mid : port_wf s -> real_pin port pin ->
  danube_port_reserve_pin port pin mid s =
  if owner_of s port pin =? 0 then Some (OK, usage_set s port pin mid)
  else Some (- EBUSY, s).
Proof. intros. unfold danube_port_reserve_pin. by port_go. Qed.

Lemma free_eq s port pin mid : port_wf s -> real_pin port pin ->
  danube_port_free_pin port pin mid s =
  if owner_of s port pin =? mid then Some (OK, usage_set s port pin 0)
  else Some (- EBUSY, s).
Proof. intros. unfold danube_port_free_pin. port_go. by destruct (_ =? mid). Qed.

Lemma rmw_eq off f s port pin mid : port_wf s -> real_pin port pin ->
  port_rmw off f port pin mid s =
  if owner_of s port pin =? mid then
    let a := port_base port + off in
    Some (OK, set_hw (upd (port_hw s) a (f (port_hw s a) pin)) s)
  else Some (- EBUSY, s).
Proof. intros. unfold port_rmw. port_go. destruct (_ =? mid); [by port_go|done]. Qed.

Lemma get_input_eq s port pin mid : port_wf s -> real_pin port pin ->
  danube_port_get_input port pin mid s =
  if owner_of s port pin =? mid then
    Some (Z.b2z (Z.testbit (port_hw s (port_base port + DANUBE_PORT_IN_REG)) pin), s)
  else Some (- EBUSY, s).
Proof.
  intros Hw Hr. unfold danube_port_get_input. port_go.
  destruct (_ =? mid); cbn [negb]; [|done]. port_go.
  rewrite land_bit_eqb0 by (destruct Hr; lia). by destruct (Z.testbit _ pin).
Qed.

Lemma attr_fn_rmw a b :
  attr_fn a b = port_rmw (attr_reg a) (if b then bit_set else bit_clr).
Proof. by destruct a, b. Qed.

Lemma usage_set_undo s port pin v :
  port_wf s -> real_pin port pin -> owner_of s port pin = 0 ->
  danube_port_pin_usage (usage_set (usage_set s port pin v) port pin 0)
  = danube_port_pin_usage s.
Proof.
  intros Hwf Hr Ho. cbn. rewrite list_insert_insert_eq. apply list_insert_id.
  pose proof (usage_get_real s port pin Hwf Hr) as E. rewrite Ho in E. exact E.
Qed.

Lemma IOC_CALL_eq s port pin f :
  port_wf s -> real_pin port pin -> owner_of s port pin <> PORT_MODULE_ID ->
  (forall s0, port_wf s0 -> owner_of s0 port pin = PORT_MODULE_ID ->
     exists h, f port pin PORT_MODULE_ID s0 = Some (OK, set_hw h s0)) ->
  exists r h, PORT_IOC_CALL port pin f s = Some (r, set_hw h s).
Proof.
  intros Hwf Hr Hown Hf. unfold PORT_IOC_CALL. rewrite reserve_eq by done.
  destruct (owner_of s port pin =? 0) eqn:E; bool_prop; cbn.
  - destruct (Hf (usage_set s port pin PORT_MODULE_ID)) as [h ->];
      [auto|by apply owner_of_set|]. cbn.
    set (s1 := set_hw h (usage_set s port pin PORT_MODULE_ID)).
    assert (Hw1 : port_wf s1) by (unfold s1, port_wf; cbn; by rewrite length_insert).
    assert (Ho1 : owner_of s1 port pin = PORT_MODULE_ID) by (by apply owner_of_set).
    rewrite free_eq by done. rewrite Ho1, Z.eqb_refl. eexists _, h.
    pose proof (usage_set_undo s port pin PORT_MODULE_ID Hwf Hr E) as Hu. cbn in Hu.
    unfold usage_set, set_usage, set_hw. cbn. by rewrite Hu.
  - eexists _, (port_hw s). by destruct s.
Qed.

Lemma rmw_owned off f s port pin :
  port_wf s -> real_pin port pin -> owner_of s port pin = PORT_MODULE_ID ->
  exists h, port_rmw off f port pin PORT_MODULE_ID s = Some (OK, set_hw h s).
Proof. intros Hwf Hr Ho. rewrite rmw_eq, Ho, Z.eqb_refl by done. by eexists. Qed.

Lemma ioc_switch_eq s p a b c d :
  port_wf s -> real_pin (parm_port p) (parm_pin p) ->
  owner_of s (parm_port p) (parm_pin p) <> PORT_MODULE_ID ->
  exists r h, port_ioc_switch p (port_rmw a b) (port_rmw c d) s = Some (r, set_hw h s).
Proof.
  intros Hwf Hr Ho. unfold port_ioc_switch.
  destruct (parm_value p =? 0); apply IOC_CALL_eq; try done;
    intros; by apply rmw_owned.
Qed.

Lemma ioc_input_eq s p :
  port_wf s -> real_pin (parm_port p) (parm_pin p) ->
  owner_of s (parm_port p) (parm_pin p) <> PORT_MODULE_ID ->
  exists r p', port_ioc_input p s = Some (r, p', s).
Proof.
  intros Hwf Hr Ho. unfold port_ioc_input. rewrite reserve_eq by done.
  destruct (owner_of s _ _ =? 0) eqn:E; bool_prop; cbn.
  - rewrite get_input_eq, owner_of_set, Z.eqb_refl by auto. cbn.
    rewrite free_eq, owner_of_set, Z.eqb_refl by auto. cbn.
    pose proof (usage_set_undo s (parm_port p) (parm_pin p) PORT_MODULE_ID Hwf Hr E) as Hu.
    cbn in Hu. eexists _, _. unfold usage_set, set_usage. cbn. rewrite Hu.
    by destruct s.
  - ret_simpl. rewrite free_eq by done. destruct (_ =? PORT_MODULE_ID) eqn:E1; bool_prop; [done|].
    cbn. eauto.
Qed.

Lemma ioctl_cmd_eq cmd s p :
  port_wf s -> real_pin (parm_port p) (parm_pin p) ->
  owner_of s (parm_port p) (parm_pin p) <> PORT_MODULE_ID ->
  exists r p' h, port_ioctl_cmd cmd p s = Some (r, p', set_hw h s).
Proof.
  intros Hwf Hr Ho.
  assert (Hkeep : forall a b c d, exists r p' h,
    ('(ret, s) ← port_ioc_switch p (port_rmw a b) (port_rmw c d) s; Some (ret, p, s))
    = Some (r, p', set_hw h s)).
  { intros a b c d. destruct (ioc_switch_eq s p a b c d) as (r & h & ->); [done..|].
    cbn. eauto. }
  unfold port_ioctl_cmd. repeat (split_if; [apply Hkeep|]).
  split_if.
  - destruct (ioc_input_eq s p) as (r & p' & ->); [done..|].
    eexists _, _, (port_hw s). by destruct s.
  - eexists _, _, (port_hw s). by destruct s.
Qed.

Lemma ioctl_eq cmd arg s :
  port_wf s -> real_pin (parm_port (user_parm arg)) (parm_pin (user_parm arg)) ->
  owner_of s (parm_port (user_parm arg)) (parm_pin (user_parm arg)) <> PORT_MODULE_ID ->
  exists r arg' h, danube_port_ioctl cmd arg s = Some (r, arg', set_hw h s).
Proof.
  intros Hwf Hr Ho. unfold danube_port_ioctl.
  do 4 (split_if; [eexists _, _, (port_hw s); by destruct s|]).
  destruct (ioctl_cmd_eq cmd (set_sem (port_sem s - 1) s) (user_parm arg))
    as (r & p' & h & ->); [done..|].
  eexists _, _, h. cbn. do 2 f_equal. unfold set_sem, set_hw. cbn. f_equal. lia.
Qed.

Lemma bit_row_get n reg : is_u32 reg ->
  forall k, (n <= 32)%nat -> (k < n)%nat ->
  String.get k (bit_row n (2 ^ (Z.of_nat n - 1)) reg)
  = Some (if Z.testbit reg (Z.of_nat n - 1 - Z.of_nat k) then "X" else " ")%char.
Proof.
  intros Hreg. induction n as [|n IH]; intros k Hn Hk; [lia|].
  assert (E : 2 ^ (Z.of_nat (S n) - 1) = 1 .<< (Z.of_nat n))
    by (rewrite Z.shiftl_1_l; f_equal; lia).
  destruct k as [|k]; cbn [bit_row String.get].
  - rewrite E. replace (Z.of_nat (S n) - 1 - Z.of_nat 0) with (Z.of_nat n) by lia.
    pose proof (land_bit_eqb0 reg (Z.of_nat n) ltac:(lia)) as Hb.
    assert (0 <= reg .& 1 .<< Z.of_nat n)
      by (apply Z.land_nonneg; left; unfold is_u32 in Hreg; lia).
    destruct (Z.testbit reg (Z.of_nat n)) eqn:Ht; cbn in Hb; bool_prop;
      destruct (_ >? 0) eqn:E0; bool_prop; try done; lia.
  - rewrite E. destruct n as [|n]; [lia|].
    assert (E2 : (1 .<< Z.of_nat (S n)) .>> 1 = 2 ^ (Z.of_nat (S n) - 1)).
    { rewrite Z.shiftr_shiftl_l, Z.shiftl_1_l by lia. f_equal. }
    rewrite E2, IH by lia.
    by replace (Z.of_nat (S (S n)) - 1 - Z.of_nat (S k)) with
      (Z.of_nat (S n) - 1 - Z.of_nat k) by lia.
Qed.

Lemma bit_row_length n : forall bit reg, String.length (bit_row n bit reg) = n.
Proof. induction n; intros; cbn; auto. Qed.

Lemma append_length a b : String.length (a ++ b)%string = (String.length a + String.length b)%nat.
Proof. induction a; cbn; auto. Qed.

(** ** Properties *)

(** giving an attribute a value succeeds for the owner of the pin and
    then changes exactly the bit of that pin in the attribute's register of
    that port; for any other module it is refused and changes nothing. *)
Theorem port_attr_isolated a b port pin mid s :
  port_wf s -> real_pin port pin ->
  (owner_of s port pin <> mid -> attr_fn a b port pin mid s = Some (- EBUSY, s)) /\
  (owner_of s port pin = mid ->
   exists s', attr_fn a b port pin mid s = Some (OK, s') /\
     danube_port_pin_usage s' = danube_port_pin_usage s /\ port_sem s' = port_sem s /\
     forall addr i, 0 <= i ->
       Z.testbit (port_hw s' addr) i =
       if (addr =? port_base port + attr_reg a) && (i =? pin) then b
       else Z.testbit (port_hw s addr) i).
Proof.
  intros Hwf Hr. rewrite attr_fn_rmw, rmw_eq by done. split.
  { intros Hne. by destruct (_ =? mid) eqn:E; bool_prop. }
  intros ->. rewrite Z.eqb_refl. eexists. split_and!; [done..|].
  intros addr i Hi. cbn. unfold upd. destruct (addr =? _) eqn:E; bool_prop; [|done].
  subst. destruct Hr as [_ Hpin]. cbn [andb].
  destruct b; rewrite ?testbit_bit_set, ?testbit_bit_clr by lia;
    destruct (i =? pin) eqn:E; bool_prop; subst;
    rewrite ?bool_decide_true, ?bool_decide_false by done;
    by rewrite ?orb_true_r, ?orb_false_r, ?andb_false_r, ?andb_true_r.
Qed.

(** C40: reservation grants a free pin to the module and refuses a taken one;
    while a module holds a pin no other module can reserve, free, drive or
    sample it, and its own release makes the pin free again. *)
Theorem port_reserve_exclusive port pin m1 m2 s :
  port_wf s -> real_pin port pin -> m1 <> 0 -> m2 <> m1 ->
  owner_of s port pin = 0 ->
  exists s1, danube_port_reserve_pin port pin m1 s = Some (OK, s1) /\
    danube_port_reserve_pin port pin m2 s1 = Some (- EBUSY, s1) /\
    danube_port_free_pin port pin m2 s1 = Some (- EBUSY, s1) /\
    danube_port_get_input port pin m2 s1 = Some (- EBUSY, s1) /\
    (forall a b, attr_fn a b port pin m2 s1 = Some (- EBUSY, s1)) /\
    exists s2, danube_port_free_pin port pin m1 s1 = Some (OK, s2) /\
      danube_port_pin_usage s2 = danube_port_pin_usage s.
Proof.
  intros Hwf Hr H1 H2 Ho. exists (usage_set s port pin m1).
  rewrite !reserve_eq, !free_eq, get_input_eq by auto.
  rewrite Ho, owner_of_set, Z.eqb_refl by done.
  rewrite (proj2 (Z.eqb_neq m1 0)), (proj2 (Z.eqb_neq m1 m2)) by done.
  split_and!; try done.
  - intros a b. rewrite attr_fn_rmw, rmw_eq, owner_of_set by auto.
    by rewrite (proj2 (Z.eqb_neq m1 m2)).
  - rewrite Z.eqb_refl. eexists. split; [done|]. by apply usage_set_undo.
Qed.

(** every ioctl command, whatever its value and buffer, returns, and
    leaves the ownership table and the driver semaphore as it found them:
    the pin it borrows under [PORT_MODULE_ID] is always given back. *)
Theorem port_ioctl_returns_pin cmd arg s :
  port_wf s -> real_pin (parm_port (user_parm arg)) (parm_pin (user_parm arg)) ->
  owner_of s (parm_port (user_parm arg)) (parm_pin (user_parm arg)) <> PORT_MODULE_ID ->
  exists r arg' s', danube_port_ioctl cmd arg s = Some (r, arg', s') /\
    danube_port_pin_usage s' = danube_port_pin_usage s /\ port_sem s' = port_sem s.
Proof.
  intros Hwf Hr Ho. destruct (ioctl_eq cmd arg s) as (r & arg' & h & ->); [done..|].
  by eexists _, _, _.
Qed.

Lemma step_keeps_wf_owner s s' port pin m :
  port_step s s' -> port_wf s -> real_pin port pin ->
  owner_of s port pin = m -> m <> 0 -> m <> PORT_MODULE_ID ->
  (forall q n, real_pin q n -> owner_of s q n <> PORT_MODULE_ID) ->
  port_wf s' /\ owner_of s' port pin = m.
Proof.
  intros Hstep Hwf Hr Ho Hm0 Hmp Hnp. destruct Hstep as
    [port' pin' mid r s' Hr' E|a b port' pin' mid r s' Hr' E|cmd arg r arg' s' Hr' E|h].
  - rewrite reserve_eq in E by done. destruct (_ =? 0) eqn:E0; bool_prop; simplify_eq; [|done].
    split; [auto|].
    destruct (decide ((port, pin) = (port', pin'))) as [[= -> ->]|Hne]; [congruence|].
    by rewrite owner_of_set_ne.
  - rewrite attr_fn_rmw, rmw_eq in E by done.
    destruct (owner_of s port' pin' =? mid); cbn in E; injection E as <- <-;
      (split; [exact Hwf|reflexivity || exact Ho]).
  - destruct (ioctl_eq cmd arg s) as (r1 & arg1 & h & E'); [done..|auto|].
    rewrite E in E'. by simplify_eq.
  - done.
Qed.

(** [no_port_id s]: no module reserves pins under the driver's own id. *)
Definition no_port_id (s : port_state) : Prop :=
  forall q n, real_pin q n -> owner_of s q n <> PORT_MODULE_ID.

(** The steps of a system whose modules respect that convention. *)
Definition polite_step (s s' : port_state) : Prop :=
  port_step s s' /\ no_port_id s'.

(** in every state reachable by reservations, register operations, ioctls
    and input changes, a pin stays with the module that holds it: only that
    module's own release can take it away. *)
Theorem port_ownership_stable s s' port pin :
  rtc polite_step s s' -> port_wf s -> no_port_id s -> real_pin port pin ->
  owner_of s port pin <> 0 ->
  port_wf s' /\ owner_of s' port pin = owner_of s port pin.
Proof.
  intros Hs Hwf Hn Hr Ho. induction Hs as [s|s s1 s2 [Hstep Hn1] _ IH]; [done|].
  destruct (step_keeps_wf_owner s s1 port pin (owner_of s port pin)) as [Hw1 Ho1];
    try done; [by apply Hn|].
  rewrite <- Ho1. apply IH; [done..|congruence].
Qed.

(** the argument checks admit pin 16 and port 2, which do not exist: on
    port 0 pin 16 is the table entry of port 1 pin 0, which it reserves in its
    place, and beyond the last row the table is overrun. *)
Theorem port_range_check_overruns s mid :
  port_wf s -> owner_of s 1 0 = 0 ->
  (exists s', danube_port_reserve_pin 0 PINS_PER_PORT mid s = Some (OK, s') /\
     owner_of s' 1 0 = mid) /\
  danube_port_reserve_pin 1 PINS_PER_PORT mid s = None /\
  (forall pin, 0 <= pin <= PINS_PER_PORT -> danube_port_reserve_pin MAX_PORTS pin mid s = None).
Proof.
  intros Hwf Ho. assert (Hr : real_pin 1 0) by (unfold real_pin, MAX_PORTS, PINS_PER_PORT; lia).
  assert (Hout : forall port pin, 32 <= port * 16 + pin -> usage_get s port pin = None).
  { intros port pin H. unfold usage_get, usage_index, PINS_PER_PORT.
    apply lookup_ge_None. unfold port_wf in Hwf. lia. }
  split_and!.
  - exists (usage_set s 1 0 mid). split; [|by apply owner_of_set].
    transitivity (danube_port_reserve_pin 1 0 mid s); [done|].
    by rewrite reserve_eq, Ho.
  - unfold danube_port_reserve_pin. cbn. by rewrite Hout.
  - intros pin [H0 H1]. unfold danube_port_reserve_pin.
    destruct (args_negative MAX_PORTS pin) eqn:E1;
      [unfold args_negative, MAX_PORTS in E1; bool_prop; destruct E1; bool_prop; lia|].
    destruct (args_beyond MAX_PORTS pin) eqn:E2;
      [unfold args_beyond, MAX_PORTS in E2; bool_prop; destruct E2; bool_prop; lia|].
    by rewrite Hout by (unfold MAX_PORTS; lia).
Qed.

(** the proc file prints, whatever the registers hold, the same number of
    characters, well within the page the kernel passes; and each of its bit
    rows shows an X in column [k] exactly for bit [31 - k] of its register. *)
Theorem port_proc_output s reg k :
  is_u32 reg -> (k < 32)%nat ->
  snd (danube_port_read_procmem s) = 885 /\
  String.get k (bit_row 32 0x80000000 reg)
  = Some (if Z.testbit reg (31 - Z.of_nat k) then "X" else " ")%char.
Proof.
  intros Hreg Hk. split; [|apply (bit_row_get 32 reg Hreg k); lia].
  unfold danube_port_read_procmem. cbn [snd].
  unfold proc_rows. cbn [proc_body]. unfold proc_row.
  rewrite !append_length, !bit_row_length. reflexivity.
Qed.

Lemma ioc_input_held s p :
  port_wf s -> real_pin (parm_port p) (parm_pin p) ->
  owner_of s (parm_port p) (parm_pin p) = PORT_MODULE_ID ->
  port_ioc_input p s = Some (OK, p, usage_set s (parm_port p) (parm_pin p) 0).
Proof.
  intros Hwf Hr Ho. unfold port_ioc_input. rewrite reserve_eq, Ho by done.
  change (PORT_MODULE_ID =? 0) with false. ret_simpl.
  by rewrite free_eq, Ho, Z.eqb_refl by done.
Qed.

(** the input ioctl ignores that its reservation failed and releases the
    pin all the same, so a pin held under [PORT_MODULE_ID] is lost. *)
Theorem port_input_ioctl_releases s port pin value :
  port_wf s -> real_pin port pin -> owner_of s port pin = PORT_MODULE_ID ->
  port_sem s = 1 ->
  exists s',
    danube_port_ioctl DANUBE_PORT_IOCINPUT (mk_user true true (mk_parm port pin value)) s
      = Some (OK, mk_user true true (mk_parm port pin value), s') /\
    owner_of s' port pin = 0.
Proof.
  intros Hwf Hr Ho Hsem. unfold danube_port_ioctl. rewrite Hsem.
  change (port_ioctl_cmd DANUBE_PORT_IOCINPUT) with port_ioc_input. cbn -[port_ioc_input].
  rewrite ioc_input_held by done. cbn -[usage_set]. eexists. split; [done|].
  by apply (owner_of_set (set_sem 0 s)).
Qed.

(** ** Witnesses *)

Definition port_s0 : port_state := snd (danube_port_init 254 (mk_port 0 [] 0 (fun _ => 0))).

Lemma port_attr_isolated_witness :
  attr_fn AOutput true 1 4 7 (usage_set port_s0 1 4 7) <> None /\
  attr_fn AOutput true 1 4 9 (usage_set port_s0 1 4 7)
  = Some (- EBUSY, usage_set port_s0 1 4 7).
Proof.
  split; [discriminate|].
  apply (port_attr_isolated AOutput true 1 4 9 (usage_set port_s0 1 4 7));
    [reflexivity|split; split; vm_compute; congruence|discriminate].
Defined.

Lemma port_reserve_exclusive_witness :
  exists s1, danube_port_reserve_pin 0 5 3 port_s0 = Some (OK, s1) /\
    danube_port_free_pin 0 5 4 s1 = Some (- EBUSY, s1).
Proof.
  destruct (port_reserve_exclusive 0 5 3 4 port_s0) as (s1 & H & _ & H2 & _);
    [reflexivity|split; split; vm_compute; congruence|lia|lia|reflexivity|].
  exists s1. split; assumption.
Defined.

Lemma port_ioctl_returns_pin_witness :
  exists r arg' s',
    danube_port_ioctl DANUBE_PORT_IOCOUTPUT (mk_user true true (mk_parm 1 2 1)) port_s0
      = Some (r, arg', s') /\
    danube_port_pin_usage s' = danube_port_pin_usage port_s0 /\
    port_sem s' = port_sem port_s0.
Proof.
  apply (port_ioctl_returns_pin DANUBE_PORT_IOCOUTPUT
           (mk_user true true (mk_parm 1 2 1)) port_s0);
    [reflexivity|split; split; vm_compute; congruence|vm_compute; congruence].
Defined.

Lemma port_range_check_overruns_witness :
  danube_port_reserve_pin 1 PINS_PER_PORT 7 port_s0 = None.
Proof.
  destruct (port_range_check_overruns port_s0 7) as (_ & H & _); [reflexivity..|exact H].
Defined.

Lemma port_proc_output_witness :
  String.get 31 (bit_row 32 0x80000000 1) = Some "X"%char.
Proof.
  destruct (port_proc_output port_s0 1 31) as [_ H]; [split; lia|lia|exact H].
Defined.

Lemma port_input_ioctl_releases_witness :
  exists s', danube_port_ioctl DANUBE_PORT_IOCINPUT
      (mk_user true true (mk_parm 0 3 0)) (usage_set port_s0 0 3 PORT_MODULE_ID)
      = Some (OK, mk_user true true (mk_parm 0 3 0), s') /\ owner_of s' 0 3 = 0.
Proof.
  apply (port_input_ioctl_releases (usage_set port_s0 0 3 PORT_MODULE_ID) 0 3 0);
    [reflexivity|split; split; vm_compute; congruence|reflexivity..].
Defined.

Lemma port_ownership_stable_witness :
  owner_of (set_hw (fun _ => 5) (usage_set port_s0 1 4 7)) 1 4
  = owner_of (usage_set port_s0 1 4 7) 1 4.
Proof.
  assert (Hn : no_port_id (usage_set port_s0 1 4 7)).
  { intros q n [Hq Hn]. unfold MAX_PORTS, PINS_PER_PORT in *.
    unfold owner_of, usage_get, usage_index.
    destruct (danube_port_pin_usage (usage_set port_s0 1 4 7)
                !! Z.to_nat (q * PINS_PER_PORT + n)) as [v|] eqn:E; [|discriminate].
    apply (proj1 (Forall_lookup (fun v => v <> PORT_MODULE_ID)
      (danube_port_pin_usage (usage_set port_s0 1 4 7)))) in E; [exact E|].
    repeat constructor; discriminate. }
  apply (port_ownership_stable (usage_set port_s0 1 4 7)
           (set_hw (fun _ => 5) (usage_set port_s0 1 4 7)) 1 4).
  - apply rtc_once. split; [apply step_input|exact Hn].
  - reflexivity.
  - exact Hn.
  - split; split; vm_compute; congruence.
  - discriminate.
Defined.
