(* ===== verification/Arith64.v ===== *)
(** * 64-bit arithmetic on pairs of words

    [uint64_multiply] and [uint64_divide], of which [drivers/char/danube_gptu.c]
    and [drivers/char/danube_cgu.c] each have a copy, and the bit-field macro
    of the two drivers, with the operands for which they are exact. *)

From S2P Require Import Prelude.
Open Scope Z_scope.

Definition GET_BITS (x msb lsb : Z) : Z := (x .& (1 .<< (msb + 1) - 1)) .>> lsb.

(** ** 64-bit arithmetic *)

(** The pair (high word, low word). *)
Definition uint64_multiply (u32Multiplier1 u32Multiplier2 : Z) : Z * Z :=
  let u32Multiplier1LowWord := u32Multiplier1 .& 0xFFFF in
  let u32Multiplier1HighWord := u32Multiplier1 .>> 16 in
  let u32Multiplier2LowWord := u32Multiplier2 .& 0xFFFF in
  let u32Multiplier2HighWord := u32Multiplier2 .>> 16 in
  let u32Combo1 := w32 (u32Multiplier1LowWord * u32Multiplier2LowWord) in
  let u32Combo2 := w32 (u32Multiplier1HighWord * u32Multiplier2LowWord) in
  let u32Combo3 := w32 (u32Multiplier1LowWord * u32Multiplier2HighWord) in
  let u32Combo4 := w32 (u32Multiplier1HighWord * u32Multiplier2HighWord) in
  let u32Word1 := u32Combo1 .& 0xFFFF in
  let u32Word2 := w32 ((u32Combo1 .>> 16) + (u32Combo2 .& 0xFFFF) + (u32Combo3 .& 0xFFFF)) in
  let u32Word3 := w32 ((u32Combo2 .>> 16) + (u32Combo3 .>> 16) + (u32Combo4 .& 0xFFFF)
                       + (u32Word2 .>> 16)) in
  let u32Word4 := w32 ((u32Combo4 .>> 16) + (u32Word3 .>> 16)) in
  (w32 (u32Word4 .<< 16) .| u32Word3, w32 (u32Word2 .<< 16) .| u32Word1).

(** One turn of the division loop on (DWord3, DWord2, DWord1, Quotient). *)
Definition divide_step (u32Denominator : Z) (s : Z * Z * Z * Z) : Z * Z * Z * Z :=
  let '(w3, w2, w1, q) := s in
  let w3 := w32 (w3 .<< 1) .| (w2 .>> 31) in
  let w2 := w32 (w2 .<< 1) .| (w1 .>> 31) in
  let w1 := w32 (w1 .<< 1) in
  let q := w32 (q .<< 1) in
  if w3 >=? u32Denominator then (w3 - u32Denominator, w2, w1, q .| 1) else (w3, w2, w1, q).

(** The pair (quotient, residue). *)
Definition uint64_divide (u32Numerator : Z * Z) (u32Denominator : Z) : Z * Z :=
  let '(w3, _, _, q) :=
    Nat.iter 64 (divide_step u32Denominator) (0, fst u32Numerator, snd u32Numerator, 0) in
  (q, w3).

(** A field of [msb - lsb + 1] bits. *)
Lemma GET_BITS_range x msb lsb : 0 <= lsb <= msb -> 0 <= GET_BITS x msb lsb < 2 ^ (msb + 1 - lsb).
Proof.
  intros H. unfold GET_BITS. rewrite Z.shiftl_1_l.
  replace (2 ^ (msb + 1) - 1) with (Z.ones (msb + 1)) by (rewrite Z.ones_equiv; lia).
  rewrite Z.land_ones, Z.shiftr_div_pow2 by lia.
  pose proof (Z.mod_pos_bound x (2 ^ (msb + 1)) ltac:(apply Z.pow_pos_nonneg; lia)).
  assert (0 < 2 ^ lsb) by (apply Z.pow_pos_nonneg; lia).
  split; [apply Z.div_pos; lia|]. apply Z.div_lt_upper_bound; [lia|].
  rewrite <- Z.pow_add_r by lia. replace (lsb + (msb + 1 - lsb)) with (msb + 1) by lia. lia.
Qed.

(** ** Arithmetic *)

Lemma u16_split x : is_u32 x ->
  x = (x .>> 16) * 2 ^ 16 + (x .& 0xFFFF) /\ 0 <= x .& 0xFFFF < 2 ^ 16 /\ 0 <= x .>> 16 < 2 ^ 16.
Proof.
  intros [H0 H1]. change 0xFFFF with (Z.ones 16). rewrite Z.land_ones, Z.shiftr_div_pow2 by lia.
  pose proof (Z.div_mod x (2 ^ 16) ltac:(lia)). pose proof (Z.mod_pos_bound x (2 ^ 16) ltac:(lia)).
  split_and!; [lia|lia|lia|apply Z.div_pos; lia|apply Z.div_lt_upper_bound; lia].
Qed.

Lemma shiftl16_lor a b : 0 <= b < 2 ^ 16 -> (a .<< 16) .| b = a * 2 ^ 16 + b.
Proof. apply lor_shiftl_add. lia. Qed.

Lemma w32_shiftl16 x : is_u32 x -> w32 (x .<< 16) = (x .& 0xFFFF) .<< 16.
Proof.
  intros Hx. destruct (u16_split x Hx) as (E & A & B). unfold w32. rewrite !Z.shiftl_mul_pow2 by lia.
  rewrite E at 1. replace ((x .>> 16 * 2 ^ 16 + x .& 0xFFFF) * 2 ^ 16)
    with (x .& 0xFFFF * 2 ^ 16 + x .>> 16 * 2 ^ 32) by lia.
  rewrite Z.mod_add, Z.mod_small by lia. done.
Qed.

Lemma uint64_multiply_exact x y :
  is_u32 x -> is_u32 y -> x * y < 2 ^ 48 ->
  let '(hi, lo) := uint64_multiply x y in is_u32 hi /\ is_u32 lo /\ hi * 2 ^ 32 + lo = x * y.
Proof.
  intros Hx Hy Hxy. unfold uint64_multiply.
  destruct (u16_split x Hx) as (Ex & Hxl & Hxh). destruct (u16_split y Hy) as (Ey & Hyl & Hyh).
  set (xl := x .& 0xFFFF) in *. set (xh := x .>> 16) in *.
  set (yl := y .& 0xFFFF) in *. set (yh := y .>> 16) in *. clearbody xl xh yl yh. subst x y.
  assert (H1 : is_u32 (xl * yl)) by (unfold is_u32; nia).
  assert (H2 : is_u32 (xh * yl)) by (unfold is_u32; nia).
  assert (H3 : is_u32 (xl * yh)) by (unfold is_u32; nia).
  assert (H4 : is_u32 (xh * yh)) by (unfold is_u32; nia).
  rewrite !(w32_id (_ * _)) by done.
  destruct (u16_split _ H1) as (E1 & A1 & B1). destruct (u16_split _ H2) as (E2 & A2 & B2).
  destruct (u16_split _ H3) as (E3 & A3 & B3). destruct (u16_split _ H4) as (E4 & A4 & B4).
  assert (Es : (xh * 2 ^ 16 + xl) * (yh * 2 ^ 16 + yl) =
    xl * yl + (xh * yl) * 2 ^ 16 + (xl * yh) * 2 ^ 16 + (xh * yh) * 2 ^ 32) by lia.
  rewrite Es in Hxy |- *. clear Es.
  generalize dependent (xl * yl). generalize dependent (xh * yl).
  generalize dependent (xl * yh). generalize dependent (xh * yh).
  intros p4 H4 E4 A4 B4 p3 H3 E3 A3 B3 p2 H2 E2 A2 B2 p1 Hxy H1 E1 A1 B1.
  set (w2 := p1 .>> 16 + p2 .& 0xFFFF + p3 .& 0xFFFF).
  assert (Hw2 : is_u32 w2) by (unfold is_u32, w2; lia).
  rewrite (w32_id w2) by done. destruct (u16_split _ Hw2) as (E5 & A5 & B5).
  set (w3 := p2 .>> 16 + p3 .>> 16 + p4 .& 0xFFFF + w2 .>> 16).
  assert (Hw3 : 0 <= w3 < 2 ^ 16 /\ p4 .>> 16 = 0) by (unfold w3, w2 in *; lia).
  destruct Hw3 as [Hw3 ->]. rewrite (w32_id w3) by (unfold is_u32; lia).
  replace (w3 .>> 16) with 0 by (rewrite Z.shiftr_div_pow2, Z.div_small by lia; done).
  change (w32 (w32 (0 + 0) .<< 16)) with 0. rewrite Z.lor_0_l.
  rewrite w32_shiftl16, shiftl16_lor by done. unfold is_u32, w3, w2 in *. lia.
Qed.

Lemma uint64_multiply_small x y :
  is_u32 x -> 0 <= y < 2 ^ 16 ->
  let '(hi, lo) := uint64_multiply x y in is_u32 hi /\ is_u32 lo /\ hi * 2 ^ 32 + lo = x * y.
Proof. intros Hx Hy. apply uint64_multiply_exact; unfold is_u32 in *; nia. Qed.

Lemma shiftl1_lor a b : 0 <= b < 2 -> (a .<< 1) .| b = 2 * a + b.
Proof. intros Hb. rewrite lor_shiftl_add by lia. lia. Qed.

Lemma shiftr31 x : is_u32 x -> 0 <= x .>> 31 < 2 /\ w32 (x .<< 1) = 2 * x - (x .>> 31) * 2 ^ 32.
Proof.
  intros [H0 H1]. rewrite Z.shiftr_div_pow2, Z.shiftl_mul_pow2 by lia. change (2 ^ 1) with 2.
  assert (Hd : 0 <= x / 2 ^ 31 < 2) by (split; [apply Z.div_pos; lia|apply Z.div_lt_upper_bound; lia]).
  pose proof (Z.div_mod x (2 ^ 31) ltac:(lia)). pose proof (Z.mod_pos_bound x (2 ^ 31) ltac:(lia)).
  split; [done|]. unfold w32.
  replace (x * 2) with (2 * x - x / 2 ^ 31 * 2 ^ 32 + x / 2 ^ 31 * 2 ^ 32) by lia.
  rewrite Z.mod_add by lia. apply Z.mod_small. lia.
Qed.

(** The state of the division of [N] by [den] after [k] turns. *)
Definition div_state (N den : Z) (k : nat) (s : Z * Z * Z * Z) : Prop :=
  let '(w3, w2, w1, q) := s in
  is_u32 w2 /\ is_u32 w1 /\
  exists Q, 0 <= Q /\ 0 <= w3 < den /\ q = Q mod 2 ^ 32 /\
    N * 2 ^ Z.of_nat k = (Q * den + w3) * 2 ^ 64 + (w2 * 2 ^ 32 + w1).

Lemma divide_step_state N den k s :
  0 < den <= 2 ^ 31 -> div_state N den k s -> div_state N den (S k) (divide_step den s).
Proof.
  intros Hd. destruct s as [[[w3 w2] w1] q]. intros (H2 & H1 & Q & HQ & H3 & -> & E).
  unfold divide_step. destruct (shiftr31 w2 H2) as [B2 S2]. destruct (shiftr31 w1 H1) as [B1 S1].
  assert (E3 : w32 (w3 .<< 1) .| w2 .>> 31 = 2 * w3 + w2 .>> 31).
  { rewrite w32_id by (unfold is_u32; rewrite Z.shiftl_mul_pow2 by lia; lia).
    by apply shiftl1_lor. }
  assert (E2 : w32 (w2 .<< 1) .| w1 .>> 31 = 2 * w2 - (w2 .>> 31) * 2 ^ 32 + w1 .>> 31).
  { rewrite S2. replace (2 * w2 - w2 .>> 31 * 2 ^ 32) with (2 * (w2 - w2 .>> 31 * 2 ^ 31)) by lia.
    by rewrite <- shiftl1_lor by done. }
  rewrite E3, E2, S1.
  assert (U1 : is_u32 (2 * w1 - w1 .>> 31 * 2 ^ 32)) by (rewrite <- S1; apply w32_range).
  assert (U2 : is_u32 (2 * w2 - w2 .>> 31 * 2 ^ 32 + w1 .>> 31)).
  { pose proof (w32_range (w2 .<< 1)) as U. rewrite S2 in U. unfold is_u32 in *. lia. }
  assert (Eq : w32 ((Q mod 2 ^ 32) .<< 1) = (2 * Q) mod 2 ^ 32).
  { unfold w32. rewrite Z.shiftl_mul_pow2 by lia. change (2 ^ 1) with 2.
    rewrite Z.mul_mod_idemp_l by lia. by rewrite Z.mul_comm. }
  assert (Ep : 2 ^ Z.of_nat (S k) = 2 * 2 ^ Z.of_nat k)
    by (rewrite Nat2Z.inj_succ; apply Z.pow_succ_r; lia).
  rewrite Eq. destruct (2 * w3 + w2 .>> 31 >=? den) eqn:Ec; rewrite Z.geb_leb in Ec; bool_prop;
    (split; [done|]); (split; [done|]); rewrite Ep.
  - exists (2 * Q + 1). split_and!; [lia|lia|lia| |nia].
    rewrite <- (Z.add_mod_idemp_l (2 * Q)) by lia.
    pose proof (Z.mod_pos_bound Q (2 ^ 31) ltac:(lia)) as Hq.
    assert (Ev : (2 * Q) mod 2 ^ 32 = 2 * (Q mod 2 ^ 31)).
    { change (2 ^ 32) with (2 * 2 ^ 31). by rewrite Z.mul_mod_distr_l by lia. }
    rewrite Ev, (Z.mod_small (2 * (Q mod 2 ^ 31) + 1)) by lia.
    replace (2 * (Q mod 2 ^ 31)) with ((Q mod 2 ^ 31) .<< 1) by (rewrite Z.shiftl_mul_pow2 by lia; lia).
    rewrite shiftl1_lor by lia. rewrite Z.shiftl_mul_pow2 by lia. lia.
  - exists (2 * Q). split_and!; [lia|lia|lia|done|nia].
Qed.

Lemma uint64_divide_exact hi lo den :
  is_u32 hi -> is_u32 lo -> 0 < den <= 2 ^ 31 ->
  let N := hi * 2 ^ 32 + lo in
  uint64_divide (hi, lo) den = ((N / den) mod 2 ^ 32, N mod den).
Proof.
  intros Hh Hl Hd N. unfold uint64_divide. cbn [fst snd].
  assert (H : forall k, div_state N den k (Nat.iter k (divide_step den) (0, hi, lo, 0))).
  { induction k as [|k IH]; [|by apply divide_step_state].
    cbn. split_and!; [done..|]. exists 0. unfold N. split_and!; try done; lia. }
  specialize (H 64%nat). destruct (Nat.iter 64 _ _) as [[[w3 w2] w1] q].
  destruct H as (H2 & H1 & Q & HQ & H3 & -> & E).
  change (2 ^ Z.of_nat 64) with (2 ^ 64) in E. unfold is_u32 in *.
  assert (EN : N = Q * den + w3) by lia.
  assert (Q = N / den /\ w3 = N mod den) as [-> ->]; [|done].
  split; [apply Z.div_unique with w3; lia|apply Z.mod_unique with Q; lia].
Qed.

(** The high word of a general product can be wrong: a carry is or-ed in where
    it was already added. *)
Lemma uint64_multiply_wrong : exists x y, is_u32 x /\ is_u32 y /\
  let '(h, l) := uint64_multiply x y in h * 2 ^ 32 + l <> x * y.
Proof. exists 18053649, 93677235. unfold is_u32. split_and!; [lia..|vm_compute; congruence]. Qed.
