(* ===== verification/Cgu.v ===== *)
(** * Clock generation unit ([drivers/char/danube_cgu.c])

    The driver computes every clock of the chip from the registers of the
    clock generation unit: three phase-locked loops, the dividers and
    multiplexers behind them, and the ioctl that reports fifteen rates.

    The registers are a store [hw] from addresses to words, which the driver
    only reads.  A rate is an [option]: [None] is the indeterminate value of a
    function that ends without a return, which [cgu_get_pll0_fosc] and
    [cgu_get_pll1_fosc] do when their loop is bypassed.

    The C functions pass the number of the loop down to [get_input_clock], and
    the input of loop 2 can be the output of loop 0; here [cal_dsm] and its
    callers take the input clock itself, so that the definitions are in the
    order the values depend on each other. *)

From S2P Require Import Prelude Arith64.
Open Scope Z_scope.

(** ** Constants and register fields *)

Definition BASIC_INPUT_CLOCK_FREQUENCY_1 : Z := 35328000.
Definition BASIC_INPUT_CLOCK_FREQUENCY_2 : Z := 36000000.
Definition BASIS_INPUT_CRYSTAL_USB : Z := 12000000.

Definition DANUBE_CGU : Z := 0xBF103000.
Definition DANUBE_CGU_PLL0_CFG : Z := DANUBE_CGU + 0x0004.
Definition DANUBE_CGU_PLL1_CFG : Z := DANUBE_CGU + 0x0008.
Definition DANUBE_CGU_PLL2_CFG : Z := DANUBE_CGU + 0x000C.
Definition DANUBE_CGU_SYS : Z := DANUBE_CGU + 0x0010.
Definition DANUBE_CGU_IF_CLK : Z := DANUBE_CGU + 0x0018.

(** [reg & (1 << n)] as a condition. *)
Definition bit_on (reg n : Z) : bool := negb (reg .& 1 .<< n =? 0).

Section cgu.
Context (hw : Z -> Z).

Definition CGU_PLL0_PHASE_DIVIDER_ENABLE : bool := bit_on (hw DANUBE_CGU_PLL0_CFG) 31.
Definition CGU_PLL0_BYPASS : bool := bit_on (hw DANUBE_CGU_PLL0_CFG) 30.
Definition CGU_PLL0_SRC : bool := bit_on (hw DANUBE_CGU_PLL0_CFG) 29.
Definition CGU_PLL0_CFG_DSMSEL : bool := bit_on (hw DANUBE_CGU_PLL0_CFG) 28.
Definition CGU_PLL0_CFG_FRAC_EN : bool := bit_on (hw DANUBE_CGU_PLL0_CFG) 27.
Definition CGU_PLL0_CFG_PLLK : Z := GET_BITS (hw DANUBE_CGU_PLL0_CFG) 26 17.
Definition CGU_PLL0_CFG_PLLN : Z := GET_BITS (hw DANUBE_CGU_PLL0_CFG) 12 6.
Definition CGU_PLL0_CFG_PLLM : Z := GET_BITS (hw DANUBE_CGU_PLL0_CFG) 5 2.

Definition CGU_PLL1_SRC : bool := bit_on (hw DANUBE_CGU_PLL1_CFG) 31.
Definition CGU_PLL1_BYPASS : bool := bit_on (hw DANUBE_CGU_PLL1_CFG) 30.
Definition CGU_PLL1_CFG_DSMSEL : bool := bit_on (hw DANUBE_CGU_PLL1_CFG) 28.
Definition CGU_PLL1_CFG_FRAC_EN : bool := bit_on (hw DANUBE_CGU_PLL1_CFG) 27.
Definition CGU_PLL1_CFG_PLLK : Z := GET_BITS (hw DANUBE_CGU_PLL1_CFG) 26 17.
Definition CGU_PLL1_CFG_PLLN : Z := GET_BITS (hw DANUBE_CGU_PLL1_CFG) 12 6.
Definition CGU_PLL1_CFG_PLLM : Z := GET_BITS (hw DANUBE_CGU_PLL1_CFG) 5 2.

Definition CGU_PLL2_PHASE_DIVIDER_ENABLE : bool := bit_on (hw DANUBE_CGU_PLL2_CFG) 20.
Definition CGU_PLL2_BYPASS : bool := bit_on (hw DANUBE_CGU_PLL2_CFG) 19.
Definition CGU_PLL2_SRC : Z := GET_BITS (hw DANUBE_CGU_PLL2_CFG) 18 17.
Definition CGU_PLL2_CFG_INPUT_DIV : Z := GET_BITS (hw DANUBE_CGU_PLL2_CFG) 16 13.
Definition CGU_PLL2_CFG_PLLN : Z := GET_BITS (hw DANUBE_CGU_PLL2_CFG) 12 6.
Definition CGU_PLL2_CFG_PLLM : Z := GET_BITS (hw DANUBE_CGU_PLL2_CFG) 5 2.

Definition CGU_SYS_PPESEL : Z := GET_BITS (hw DANUBE_CGU_SYS) 8 7.
Definition CGU_SYS_FPI_SEL : bool := bit_on (hw DANUBE_CGU_SYS) 6.
Definition CGU_SYS_CPU1SEL : Z := GET_BITS (hw DANUBE_CGU_SYS) 5 4.
Definition CGU_SYS_CPU0SEL : Z := GET_BITS (hw DANUBE_CGU_SYS) 3 2.
Definition CGU_SYS_DDR_SEL : Z := GET_BITS (hw DANUBE_CGU_SYS) 1 0.
Definition CGU_IF_CLK_PCI_CLK : Z := GET_BITS (hw DANUBE_CGU_IF_CLK) 23 20.
Definition CGU_IF_CLK_USBSEL : Z := GET_BITS (hw DANUBE_CGU_IF_CLK) 5 4.
Definition CGU_IF_CLK_MIISEL : Z := GET_BITS (hw DANUBE_CGU_IF_CLK) 1 0.

(** ** The phase-locked loops *)

(** [num/den] of the input clock, rounded. *)
Definition cal_dsm (input num den : Z) : Z :=
  let temp := uint64_multiply num input in
  let '(ret, residue) := uint64_divide temp den in
  if w32 (residue .<< 1) >=? den then w32 (ret + 1) else ret.

Definition mash_dsm (input M N K : Z) : Z :=
  let num := w32 (((N + 1) .<< 10) + K) in
  let den := w32 ((M + 1) .<< 10) in
  cal_dsm input num den.

Definition ssff_dsm_1 (input M N K : Z) : Z :=
  let num := w32 (((N + 1) .<< 11) + K + 512) in
  let den := w32 ((M + 1) .<< 11) in
  cal_dsm input num den.

Definition ssff_dsm_2 (input M N K : Z) : Z :=
  let num := if K >=? 512 then w32 (((N + 1) .<< 12) + K - 512)
             else w32 (((N + 1) .<< 12) + K + 3584) in
  let den := w32 ((M + 1) .<< 12) in
  cal_dsm input num den.

Definition dsm (input M N K : Z) (dsmsel phase_div_en : bool) : Z :=
  if negb dsmsel then mash_dsm input M N K
  else if negb phase_div_en then ssff_dsm_1 input M N K
  else ssff_dsm_2 input M N K.

(** [get_input_clock(0)]. *)
Definition get_input_clock0 : Z :=
  if CGU_PLL0_SRC then BASIS_INPUT_CRYSTAL_USB
  else if CGU_PLL0_PHASE_DIVIDER_ENABLE then BASIC_INPUT_CLOCK_FREQUENCY_1
  else BASIC_INPUT_CLOCK_FREQUENCY_2.

Definition cgu_get_pll0_fosc : option Z :=
  if CGU_PLL0_BYPASS then None
  else Some
    (if negb CGU_PLL0_CFG_FRAC_EN
     then dsm get_input_clock0 CGU_PLL0_CFG_PLLM CGU_PLL0_CFG_PLLN 0 CGU_PLL0_CFG_DSMSEL CGU_PLL0_PHASE_DIVIDER_ENABLE
     else dsm get_input_clock0 CGU_PLL0_CFG_PLLM CGU_PLL0_CFG_PLLN CGU_PLL0_CFG_PLLK CGU_PLL0_CFG_DSMSEL CGU_PLL0_PHASE_DIVIDER_ENABLE).

Definition cgu_get_pll0_fps (phase : Z) : option Z :=
  fps ← cgu_get_pll0_fosc;
  Some (if phase =? 1 then w32 (w32 (fps .<< 2) + 2) / 5
        else if phase =? 2 then w32 (w32 (fps .<< 1) + 1) / 3
        else fps).

Definition cgu_get_pll0_fdiv : option Z :=
  let div := CGU_PLL2_CFG_INPUT_DIV + 1 in
  fosc ← cgu_get_pll0_fosc;
  Some (w32 (fosc + (div .>> 1)) / div).

(** [get_input_clock]: the input of the loop [pll]. *)
Definition get_input_clock (pll : Z) : option Z :=
  if pll =? 0 then Some get_input_clock0
  else if pll =? 1 then
    Some (if CGU_PLL1_SRC then BASIS_INPUT_CRYSTAL_USB
          else if CGU_PLL0_PHASE_DIVIDER_ENABLE then BASIC_INPUT_CLOCK_FREQUENCY_1
          else BASIC_INPUT_CLOCK_FREQUENCY_2)
  else if pll =? 2 then
    if CGU_PLL2_SRC =? 0 then cgu_get_pll0_fdiv
    else if CGU_PLL2_SRC =? 1 then
      Some (if CGU_PLL2_PHASE_DIVIDER_ENABLE then BASIC_INPUT_CLOCK_FREQUENCY_1
            else BASIC_INPUT_CLOCK_FREQUENCY_2)
    else if CGU_PLL2_SRC =? 2 then Some BASIS_INPUT_CRYSTAL_USB
    else Some 0
  else Some 0.

Definition cgu_get_pll1_fosc : option Z :=
  if CGU_PLL1_BYPASS then None
  else
    input ← get_input_clock 1;
    Some (if negb CGU_PLL1_CFG_FRAC_EN
          then dsm input CGU_PLL1_CFG_PLLM CGU_PLL1_CFG_PLLN 0 CGU_PLL1_CFG_DSMSEL false
          else dsm input CGU_PLL1_CFG_PLLM CGU_PLL1_CFG_PLLN CGU_PLL1_CFG_PLLK CGU_PLL1_CFG_DSMSEL false).

Definition cgu_get_pll1_fps : option Z :=
  fps ← cgu_get_pll1_fosc; Some (w32 (w32 (fps .<< 1) + 1) / 3).

Definition cgu_get_pll1_fdiv : option Z := cgu_get_pll1_fosc.

Definition cgu_get_pll2_fosc : option Z :=
  if CGU_PLL2_BYPASS then get_input_clock 2
  else
    input ← get_input_clock 2;
    let temp := uint64_multiply (CGU_PLL2_CFG_PLLN + 1) input in
    let '(ret, residue) := uint64_divide temp (CGU_PLL2_CFG_PLLM + 1) in
    Some (if w32 (residue .<< 1) >? CGU_PLL2_CFG_PLLM then w32 (ret + 1) else ret).

Definition cgu_get_pll2_fps (phase : Z) : option Z :=
  fps ← cgu_get_pll2_fosc;
  Some (if phase =? 1 then w32 (w32 (fps .<< 2) + 2) / 5
        else if phase =? 2 then w32 (w32 (fps .<< 3) + 4) / 9
        else fps).

Definition cgu_get_pll2_fdiv : option Z :=
  let div := CGU_IF_CLK_PCI_CLK + 1 in
  fosc ← cgu_get_pll2_fosc;
  Some (w32 (fosc + (div .>> 1)) / div).

(** ** The clocks *)

(** The divider behind loop 0 that [CGU_SYS_DDR_SEL] selects. *)
Definition ddr_divide (ret : Z) : Z :=
  if CGU_SYS_DDR_SEL =? 1 then w32 (ret * 2 + 2) / 5
  else if CGU_SYS_DDR_SEL =? 2 then w32 (ret + 1) / 3
  else if CGU_SYS_DDR_SEL =? 3 then w32 (ret + 2) / 4
  else w32 (ret + 1) / 2.

Definition cgu_get_mips_clock (cpu : Z) : option Z :=
  ret ← cgu_get_pll0_fosc;
  let cpusel := if cpu =? 0 then CGU_SYS_CPU0SEL else CGU_SYS_CPU1SEL in
  if cpusel =? 0 then Some ret
  else
    let ret := if cpusel =? 2 then w32 (ret .<< 1) else ret in
    Some (ddr_divide ret).

Definition cgu_get_cpu_clock : option Z := cgu_get_mips_clock 0.

Definition cgu_get_io_region_clock : option Z :=
  ret ← cgu_get_pll0_fosc; Some (ddr_divide ret).

Definition cgu_get_fpi_bus_clock (fpi : Z) : option Z :=
  ret ← cgu_get_io_region_clock;
  Some (if (fpi =? 2) && CGU_SYS_FPI_SEL then ret .>> 1 else ret).

Definition cgu_get_pp32_clock : option Z :=
  if CGU_SYS_PPESEL =? 1 then cgu_get_pll2_fps 2
  else if CGU_SYS_PPESEL =? 2 then f ← cgu_get_pll2_fps 1; Some (w32 (f + 1) .>> 1)
  else if CGU_SYS_PPESEL =? 3 then f ← cgu_get_pll2_fps 2; Some (w32 (f + 1) .>> 1)
  else cgu_get_pll2_fps 1.

Definition cgu_get_pci_clock : option Z := cgu_get_pll2_fdiv.

Definition cgu_get_ethernet_clock (mii : Z) : option Z :=
  if CGU_IF_CLK_MIISEL =? 0 then f ← cgu_get_pll2_fosc; Some (w32 (f + 3) / 12)
  else if CGU_IF_CLK_MIISEL =? 1 then f ← cgu_get_pll2_fosc; Some (w32 (f + 3) / 6)
  else if CGU_IF_CLK_MIISEL =? 2 then Some 50000000
  else if CGU_IF_CLK_MIISEL =? 3 then Some 25000000
  else Some 0.

Definition cgu_get_usb_clock : option Z :=
  if CGU_IF_CLK_USBSEL =? 0 then f ← cgu_get_pll2_fosc; Some (w32 (f + 12) / 25)
  else if CGU_IF_CLK_USBSEL =? 1 then Some 12000000
  else if CGU_IF_CLK_USBSEL =? 2 then Some (12000000 / 4)
  else if CGU_IF_CLK_USBSEL =? 3 then Some 12000000
  else Some 0.

(** [cgu_get_clockout]: the two loops are read before the pin is checked. *)
Definition cgu_get_clockout (clkout : Z) : option Z :=
  fosc1 ← cgu_get_pll1_fosc;
  fosc2 ← cgu_get_pll2_fosc;
  if (clkout >? 3) || (clkout <? 0) then Some 0 else
  let sel := (clkout .<< 2) .| GET_BITS (hw DANUBE_CGU_IF_CLK) (15 - clkout * 2) (14 - clkout * 2) in
  match sel with
  | 0 | 15 => Some (w32 (fosc1 + 6000) / 12000)
  | 1 => Some (w32 (fosc1 + 128) / 256)
  | 2 => Some (w32 (fosc2 + 60) / 120)
  | 3 | 5 | 12 => Some (w32 (fosc2 + 12) / 25)
  | 4 => f ← cgu_get_pll2_fps 2; Some (w32 (f + 3) / 6)
  | 6 => f ← cgu_get_pll2_fps 2; Some (w32 (f + 5) / 10)
  | 7 => f ← cgu_get_pll2_fps 2; Some (w32 (f + 2) / 5)
  | 8 | 14 => Some (w32 (fosc2 + 6) / 12)
  | 9 | 13 => Some (w32 (fosc2 + 3) / 6)
  | 10 => Some (w32 (fosc2 + 5) / 10)
  | 11 => Some (w32 (fosc2 + 2) / 5)
  | _ => Some 0
  end.
End cgu.

(** ** The ioctl *)

Definition CGU_IOC_MAGIC : Z := 0x75.
Definition CGU_GET_CLOCK_RATES : Z := IOC IOC_READ CGU_IOC_MAGIC 0 60.
Definition CGU_IOC_MAXNR : Z := 1.

Record cgu_clock_rates := mk_rates {
  mips0 : Z; mips1 : Z; cpu : Z; io_region : Z; fpi_bus1 : Z; fpi_bus2 : Z; pp32 : Z; pci : Z;
  mii0 : Z; mii1 : Z; usb : Z; clockout0 : Z; clockout1 : Z; clockout2 : Z; clockout3 : Z
}.

Definition clock_rates (hw : Z -> Z) : option cgu_clock_rates :=
  mips0 ← cgu_get_mips_clock hw 0;
  mips1 ← cgu_get_mips_clock hw 1;
  cpu ← cgu_get_cpu_clock hw;
  io_region ← cgu_get_io_region_clock hw;
  fpi_bus1 ← cgu_get_fpi_bus_clock hw 1;
  fpi_bus2 ← cgu_get_fpi_bus_clock hw 2;
  pp32 ← cgu_get_pp32_clock hw;
  pci ← cgu_get_pci_clock hw;
  mii0 ← cgu_get_ethernet_clock hw 0;
  mii1 ← cgu_get_ethernet_clock hw 1;
  usb ← cgu_get_usb_clock hw;
  clockout0 ← cgu_get_clockout hw 0;
  clockout1 ← cgu_get_clockout hw 1;
  clockout2 ← cgu_get_clockout hw 2;
  clockout3 ← cgu_get_clockout hw 3;
  Some (mk_rates mips0 mips1 cpu io_region fpi_bus1 fpi_bus2 pp32 pci mii0 mii1 usb
          clockout0 clockout1 clockout2 clockout3).

(** The result and what is copied to the user.  [rok] and [wok]: the user's
    buffer can be read, and written. *)
Definition cgu_ioctl (hw : Z -> Z) (cmd : Z) (rok wok : bool) : option (Z * option cgu_clock_rates) :=
  if negb (IOC_TYPE cmd =? CGU_IOC_MAGIC) || (IOC_NR cmd >=? CGU_IOC_MAXNR) then Some (- ENOTTY, None)
  else
    let bad := if negb (IOC_DIR cmd .& IOC_READ =? 0) then negb wok
               else if negb (IOC_DIR cmd .& IOC_WRITE =? 0) then negb rok else false in
    if bad then Some (- EFAULT, None)
    else if cmd =? CGU_GET_CLOCK_RATES then r ← clock_rates hw; Some (0, Some r)
    else Some (- ENOTTY, None).

(** ** Rounding *)

(** The integer nearest to [a/b], halves up. *)
Definition nearest (a b : Z) : Z := (2 * a + b) / (2 * b).

Lemma nearest_of_division a b q r :
  0 <= r < b -> a = q * b + r -> nearest a b = if 2 * r >=? b then q + 1 else q.
Proof.
  intros Hr ->. unfold nearest. rewrite Z.geb_leb. destruct (b <=? 2 * r) eqn:E; bool_prop; symmetry.
  - apply Z.div_unique with (2 * r - b); lia.
  - apply Z.div_unique with (2 * r + b); lia.
Qed.

Lemma w32_succ_mod q : w32 (q mod 2 ^ 32 + 1) = w32 (q + 1).
Proof. unfold w32. by rewrite Z.add_mod_idemp_l by lia. Qed.

(** A product below 2^48 divided by at most 2^31: the rounding the drivers do. *)
Lemma multiply_divide_nearest x y den (ge : Z -> Z -> bool) :
  is_u32 x -> is_u32 y -> x * y < 2 ^ 48 -> 0 < den <= 2 ^ 31 ->
  (forall r, ge r den = (r >=? den)) ->
  (let '(ret, residue) := uint64_divide (uint64_multiply x y) den in
   if ge (w32 (residue .<< 1)) den then w32 (ret + 1) else ret) = w32 (nearest (x * y) den).
Proof.
  intros Hx Hy Hxy Hd Hge. pose proof (uint64_multiply_exact x y Hx Hy Hxy) as H.
  destruct (uint64_multiply x y) as [hi lo]. destruct H as (Hh & Hl & E).
  rewrite uint64_divide_exact by done. rewrite E, Hge.
  pose proof (Z.mod_pos_bound (x * y) den ltac:(lia)) as Hr.
  rewrite (w32_id ((_ mod den) .<< 1)) by (unfold is_u32; rewrite Z.shiftl_mul_pow2 by lia; lia).
  rewrite (nearest_of_division (x * y) den (x * y / den) ((x * y) mod den) Hr)
    by (pose proof (Z.div_mod (x * y) den); lia).
  rewrite Z.shiftl_mul_pow2 by lia. change (2 ^ 1) with 2. rewrite (Z.mul_comm _ 2).
  destruct (_ >=? den); [apply w32_succ_mod|done].
Qed.

(** ** The loops *)

(** The fraction of its input a loop puts out. *)
Definition pll_fraction (M N K : Z) (dsmsel phase_div_en : bool) : Z * Z :=
  if negb dsmsel then ((N + 1) * 1024 + K, (M + 1) * 1024)
  else if negb phase_div_en then ((N + 1) * 2048 + K + 512, (M + 1) * 2048)
  else ((N + 1) * 4096 + (if K >=? 512 then K - 512 else K + 3584), (M + 1) * 4096).

Lemma dsm_nearest input M N K sel ph :
  0 <= input < 2 ^ 26 -> 0 <= M < 16 -> 0 <= N < 128 -> 0 <= K < 1024 ->
  dsm input M N K sel ph =
  let '(num, den) := pll_fraction M N K sel ph in w32 (nearest (num * input) den).
Proof.
  intros Hi HM HN HK.
  assert (Hc : forall num den, 0 <= num < 2 ^ 20 -> 0 < den <= 2 ^ 16 ->
    cal_dsm input num den = w32 (nearest (num * input) den)).
  { intros num den Hnum Hden. unfold cal_dsm.
    apply (multiply_divide_nearest num input den Z.geb); unfold is_u32; try lia; nia. }
  unfold dsm, pll_fraction, mash_dsm, ssff_dsm_1, ssff_dsm_2.
  rewrite !Z.shiftl_mul_pow2 by lia. change (2 ^ 10) with 1024. change (2 ^ 11) with 2048.
  change (2 ^ 12) with 4096.
  destruct (negb sel); [|destruct (negb ph); [|destruct (K >=? 512) eqn:E; rewrite Z.geb_leb in E; bool_prop]].
  all: rewrite (w32_id ((M + 1) * _)) by (unfold is_u32; lia).
  all: rewrite w32_id by (unfold is_u32; lia); rewrite Hc by lia; do 3 f_equal; lia.
Qed.

Section clocks.
Context (hw : Z -> Z).

Lemma input0_range : 12000000 <= get_input_clock0 hw <= 36000000.
Proof.
  unfold get_input_clock0, BASIS_INPUT_CRYSTAL_USB, BASIC_INPUT_CLOCK_FREQUENCY_1,
    BASIC_INPUT_CLOCK_FREQUENCY_2. repeat split_if; lia.
Qed.

Lemma input1_range : exists input, get_input_clock hw 1 = Some input /\ 12000000 <= input <= 36000000.
Proof.
  cbn -[CGU_PLL1_SRC CGU_PLL0_PHASE_DIVIDER_ENABLE].
  unfold BASIS_INPUT_CRYSTAL_USB, BASIC_INPUT_CLOCK_FREQUENCY_1, BASIC_INPUT_CLOCK_FREQUENCY_2.
  eexists. split; [done|]. repeat split_if; lia.
Qed.

(** The fractions the registers of loops 0 and 1 hold. *)
Definition pll0_fraction : Z * Z :=
  pll_fraction (CGU_PLL0_CFG_PLLM hw) (CGU_PLL0_CFG_PLLN hw)
    (if CGU_PLL0_CFG_FRAC_EN hw then CGU_PLL0_CFG_PLLK hw else 0)
    (CGU_PLL0_CFG_DSMSEL hw) (CGU_PLL0_PHASE_DIVIDER_ENABLE hw).
Definition pll1_fraction : Z * Z :=
  pll_fraction (CGU_PLL1_CFG_PLLM hw) (CGU_PLL1_CFG_PLLN hw)
    (if CGU_PLL1_CFG_FRAC_EN hw then CGU_PLL1_CFG_PLLK hw else 0)
    (CGU_PLL1_CFG_DSMSEL hw) false.

Lemma pll0_fosc_eq : CGU_PLL0_BYPASS hw = false ->
  cgu_get_pll0_fosc hw =
  Some (let '(num, den) := pll0_fraction in w32 (nearest (num * get_input_clock0 hw) den)).
Proof.
  intros Hb. unfold cgu_get_pll0_fosc, pll0_fraction. rewrite Hb. f_equal.
  pose proof input0_range. pose proof (GET_BITS_range (hw DANUBE_CGU_PLL0_CFG) 5 2 ltac:(lia)).
  pose proof (GET_BITS_range (hw DANUBE_CGU_PLL0_CFG) 12 6 ltac:(lia)).
  pose proof (GET_BITS_range (hw DANUBE_CGU_PLL0_CFG) 26 17 ltac:(lia)).
  destruct (CGU_PLL0_CFG_FRAC_EN hw); cbn [negb]; apply dsm_nearest;
    unfold CGU_PLL0_CFG_PLLM, CGU_PLL0_CFG_PLLN, CGU_PLL0_CFG_PLLK; lia.
Qed.

Lemma pll1_fosc_eq input : CGU_PLL1_BYPASS hw = false -> get_input_clock hw 1 = Some input ->
  cgu_get_pll1_fosc hw =
  Some (let '(num, den) := pll1_fraction in w32 (nearest (num * input) den)).
Proof.
  intros Hb Hi. unfold cgu_get_pll1_fosc, pll1_fraction. rewrite Hb, Hi. cbn [mbind option_bind]. f_equal.
  destruct input1_range as (input' & Hi' & Hr). rewrite Hi in Hi'. simplify_eq.
  pose proof (GET_BITS_range (hw DANUBE_CGU_PLL1_CFG) 5 2 ltac:(lia)).
  pose proof (GET_BITS_range (hw DANUBE_CGU_PLL1_CFG) 12 6 ltac:(lia)).
  pose proof (GET_BITS_range (hw DANUBE_CGU_PLL1_CFG) 26 17 ltac:(lia)).
  destruct (CGU_PLL1_CFG_FRAC_EN hw); cbn [negb]; apply dsm_nearest;
    unfold CGU_PLL1_CFG_PLLM, CGU_PLL1_CFG_PLLN, CGU_PLL1_CFG_PLLK; lia.
Qed.

Lemma div_u32 x d : is_u32 x -> 1 <= d -> is_u32 (x / d).
Proof.
  unfold is_u32. intros Hx Hd. split; [apply Z.div_pos; lia|].
  apply Z.div_lt_upper_bound; [lia|]. nia.
Qed.

Lemma pll0_fosc_u32 f : cgu_get_pll0_fosc hw = Some f -> is_u32 f.
Proof.
  intros H. destruct (CGU_PLL0_BYPASS hw) eqn:Hb.
  - unfold cgu_get_pll0_fosc in H. by rewrite Hb in H.
  - rewrite pll0_fosc_eq in H by done. destruct pll0_fraction. simplify_eq. apply w32_range.
Qed.

Lemma input2_u32 input : get_input_clock hw 2 = Some input -> is_u32 input.
Proof.
  unfold get_input_clock, BASIS_INPUT_CRYSTAL_USB, BASIC_INPUT_CLOCK_FREQUENCY_1,
    BASIC_INPUT_CLOCK_FREQUENCY_2. change (2 =? 0) with false. change (2 =? 1) with false.
  change (2 =? 2) with true. cbn [andb].
  destruct (CGU_PLL2_SRC hw =? 0).
  { unfold cgu_get_pll0_fdiv. destruct (cgu_get_pll0_fosc hw); cbn [mbind option_bind]; [|done].
    intros [= <-]. apply div_u32; [apply w32_range|].
    pose proof (GET_BITS_range (hw DANUBE_CGU_PLL2_CFG) 16 13 ltac:(lia)).
    unfold CGU_PLL2_CFG_INPUT_DIV. lia. }
  unfold is_u32. repeat split_if; intros [= <-]; lia.
Qed.

Lemma pll2_fosc_eq input : CGU_PLL2_BYPASS hw = false -> get_input_clock hw 2 = Some input ->
  cgu_get_pll2_fosc hw =
  Some (w32 (nearest ((CGU_PLL2_CFG_PLLN hw + 1) * input) (CGU_PLL2_CFG_PLLM hw + 1))).
Proof.
  intros Hb Hi. unfold cgu_get_pll2_fosc. rewrite Hb, Hi. cbn [mbind option_bind].
  pose proof (input2_u32 input Hi) as Hu.
  pose proof (GET_BITS_range (hw DANUBE_CGU_PLL2_CFG) 5 2 ltac:(lia)) as HM.
  pose proof (GET_BITS_range (hw DANUBE_CGU_PLL2_CFG) 12 6 ltac:(lia)) as HN.
  change (GET_BITS _ 5 2) with (CGU_PLL2_CFG_PLLM hw) in HM.
  change (GET_BITS _ 12 6) with (CGU_PLL2_CFG_PLLN hw) in HN.
  set (M := CGU_PLL2_CFG_PLLM hw) in *. set (N := CGU_PLL2_CFG_PLLN hw) in *.
  pose proof (multiply_divide_nearest (N + 1) input (M + 1) (fun r den => r >? den - 1)) as H.
  destruct (uint64_divide _ (M + 1)) as [ret residue]. rewrite Z.add_simpl_r in H.
  rewrite <- H; unfold is_u32 in *; [done|lia|lia|nia|lia|].
  intros r. rewrite Z.gtb_ltb, Z.geb_leb. apply eq_true_iff_eq. rewrite Z.ltb_lt, Z.leb_le. lia.
Qed.
End clocks.

(** C38: Each loop's rate is its input times the fraction its registers hold
    (integer, third-order or second-order fractional modes), rounded to the
    nearest hertz and taken modulo 2^32, for every register content; loop 2
    also passes its input through when bypassed. *)
Theorem pll_outputs_nearest hw :
  (CGU_PLL0_BYPASS hw = false ->
   cgu_get_pll0_fosc hw =
     let '(num, den) := pll0_fraction hw in Some (w32 (nearest (num * get_input_clock0 hw) den))) /\
  (CGU_PLL1_BYPASS hw = false -> exists input, get_input_clock hw 1 = Some input /\
   cgu_get_pll1_fosc hw =
     let '(num, den) := pll1_fraction hw in Some (w32 (nearest (num * input) den))) /\
  (forall input, get_input_clock hw 2 = Some input ->
   cgu_get_pll2_fosc hw = Some
     (if CGU_PLL2_BYPASS hw then input
      else w32 (nearest ((CGU_PLL2_CFG_PLLN hw + 1) * input) (CGU_PLL2_CFG_PLLM hw + 1)))).
Proof.
  split_and!.
  - intros H. rewrite pll0_fosc_eq by done. by destruct (pll0_fraction hw).
  - intros H. destruct (input1_range hw) as (input & Hi & _). exists input. split; [done|].
    rewrite (pll1_fosc_eq hw input) by done. by destruct (pll1_fraction hw).
  - intros input Hi. destruct (CGU_PLL2_BYPASS hw) eqn:E.
    + unfold cgu_get_pll2_fosc. by rewrite E.
    + by apply pll2_fosc_eq.
Qed.

(** The ratio between loop 0 and the bus that [DDR_SEL] selects. *)
Definition ddr_ratio (hw : Z -> Z) : Z * Z :=
  if CGU_SYS_DDR_SEL hw =? 1 then (2, 5) else if CGU_SYS_DDR_SEL hw =? 2 then (1, 3)
  else if CGU_SYS_DDR_SEL hw =? 3 then (1, 4) else (1, 2).

Lemma ddr_divide_nearest hw f : 0 <= f < 2 ^ 31 - 1 ->
  ddr_divide hw f = let '(a, b) := ddr_ratio hw in nearest (a * f) b.
Proof.
  intros Hf. unfold ddr_divide, ddr_ratio.
  repeat match goal with |- context [if ?b then _ else _] => destruct b end;
    rewrite w32_id by (unfold is_u32; lia);
    match goal with |- ?x / ?d = nearest ?a ?b =>
      rewrite (nearest_of_division a b (a / b) (a mod b));
        [|apply Z.mod_pos_bound; lia|pose proof (Z.div_mod a b ltac:(lia)); lia] end;
    match goal with |- context [?a mod ?b] =>
      pose proof (Z.mod_pos_bound a b ltac:(lia)); pose proof (Z.div_mod a b ltac:(lia));
      rewrite Z.geb_leb; destruct (b <=? 2 * (a mod b)) eqn:E; bool_prop end;
    symmetry.
  all: match goal with |- ?q = ?x / ?d => apply Z.div_unique with (x - d * q) end; lia.
Qed.

Lemma nearest_mono a a' b : 0 < b -> a <= a' -> nearest a b <= nearest a' b.
Proof. intros Hb H. unfold nearest. apply Z.div_le_mono; lia. Qed.

Lemma nearest_ratio_le f a b : 0 <= f -> 0 < a -> a <= b -> nearest (a * f) b <= f.
Proof.
  intros Hf Ha Hb. unfold nearest. apply Z.lt_succ_r, Z.div_lt_upper_bound; [lia|]. nia.
Qed.

Lemma ddr_ratio_range hw : let '(a, b) := ddr_ratio hw in 0 < a /\ 0 < b /\ 2 * a <= b.
Proof. unfold ddr_ratio. repeat match goal with |- context [if ?b then _ else _] => destruct b end; lia. Qed.

Lemma fpi_bus_u32 hw n f : cgu_get_fpi_bus_clock hw n = Some f -> is_u32 f.
Proof.
  unfold cgu_get_fpi_bus_clock, cgu_get_io_region_clock.
  destruct (cgu_get_pll0_fosc hw) as [g|]; cbn [mbind option_bind]; [|done].
  assert (Hd : is_u32 (ddr_divide hw g)).
  { unfold ddr_divide. repeat split_if; apply div_u32; (lia || apply w32_range). }
  intros [= <-]. destruct (_ && _); auto with u32.
Qed.

(** Below 2^30 Hz of loop 0 no clock of the processor tree overflows: the
    memory and first FPI clocks are the loop's rate times the selected ratio,
    rounded to nearest, the second FPI clock is that or half of it, and the
    processor clocks are the loop's rate itself, or the memory clock, or the
    rounded double of it; so each clock is at most the one it is derived from. *)
Theorem clock_tree hw f :
  cgu_get_pll0_fosc hw = Some f -> f < 2 ^ 30 ->
  let '(a, b) := ddr_ratio hw in
  let io := nearest (a * f) b in
  cgu_get_io_region_clock hw = Some io /\ cgu_get_fpi_bus_clock hw 1 = Some io /\
  cgu_get_fpi_bus_clock hw 2 = Some (if CGU_SYS_FPI_SEL hw then io / 2 else io) /\
  io <= f /\
  forall cpu, exists c, cgu_get_mips_clock hw cpu = Some c /\ io <= c /\
    (c = f \/ c = io \/ c = nearest (a * (2 * f)) b).
Proof.
  intros Hf Hlt. pose proof (pll0_fosc_u32 hw f Hf) as [H0 _].
  pose proof (ddr_divide_nearest hw f ltac:(lia)) as Hd.
  pose proof (ddr_divide_nearest hw (2 * f) ltac:(lia)) as Hd2.
  pose proof (ddr_ratio_range hw) as Hr. destruct (ddr_ratio hw) as [a b]. destruct Hr as (Ha & Hb & Hab).
  cbv zeta. unfold cgu_get_fpi_bus_clock, cgu_get_io_region_clock, cgu_get_mips_clock. rewrite Hf.
  cbn [mbind option_bind]. rewrite Hd. change (1 =? 2) with false. change (2 =? 2) with true. cbn [andb].
  assert (Hle : nearest (a * f) b <= f) by (apply nearest_ratio_le; lia).
  split_and!; try done.
  - rewrite Z.shiftr_div_pow2 by lia. done.
  - intros cpu. set (sel := if cpu =? 0 then _ else _).
    destruct (sel =? 0); [exists f; auto|]. eexists. split; [done|].
    destruct (sel =? 2); [|rewrite Hd; split; [lia|auto]].
    rewrite Z.shiftl_mul_pow2 by lia. change (2 ^ 1) with 2.
    rewrite w32_id by (unfold is_u32; lia). rewrite (Z.mul_comm f 2), Hd2.
    split; [apply nearest_mono; nia|auto].
Qed.

(** With loop 2 at its nominal 300 MHz the sixteen clock-out selections
    give the rates the code's comments announce, except the three taken from
    the phase shifter: 40, 24 and 48 MHz come out as 44.4, 26.7 and 53.3 MHz,
    because [cgu_get_pll2_fps] divides by 1.25 where its comment says 1.125
    and by 1.125 where it says 1.25. *)
Theorem clockout_rates hw f1 clkout sel :
  cgu_get_pll1_fosc hw = Some f1 -> cgu_get_pll2_fosc hw = Some 300000000 ->
  0 <= clkout <= 3 ->
  GET_BITS (hw DANUBE_CGU_IF_CLK) (15 - clkout * 2) (14 - clkout * 2) = sel ->
  cgu_get_pll2_fps hw 1 = Some (300000000 * 4 / 5) /\
  cgu_get_pll2_fps hw 2 = Some 266666667 /\
  cgu_get_clockout hw clkout = Some
    match 4 * clkout + sel with
    | 0 | 15 => w32 (f1 + 6000) / 12000
    | 1 => w32 (f1 + 128) / 256
    | 2 => 2500000
    | 3 | 5 | 12 => 12000000
    | 4 => 44444445
    | 6 => 26666667
    | 7 => 53333333
    | 8 | 14 => 25000000
    | 9 | 13 => 50000000
    | 10 => 30000000
    | _ => 60000000
    end.
Proof.
  intros H1 H2 Hc Hs. unfold cgu_get_clockout, cgu_get_pll2_fps. rewrite H1, H2.
  cbn [mbind option_bind]. split; [done|]. split; [done|].
  pose proof (GET_BITS_range (hw DANUBE_CGU_IF_CLK) (15 - clkout * 2) (14 - clkout * 2) ltac:(lia)) as Hr.
  rewrite Hs in *. replace (15 - clkout * 2 + 1 - (14 - clkout * 2)) with 2 in Hr by lia.
  rewrite Z.gtb_ltb, (proj2 (Z.ltb_ge 3 clkout)), (proj2 (Z.ltb_ge clkout 0)) by lia. cbn [orb].
  assert (clkout = 0 \/ clkout = 1 \/ clkout = 2 \/ clkout = 3) as [-> | [-> | [-> | ->]]] by lia;
    (assert (sel = 0 \/ sel = 1 \/ sel = 2 \/ sel = 3) as [-> | [-> | [-> | ->]]] by lia);
    cbn -[w32]; try done.
Qed.

Lemma pll0_none hw : cgu_get_pll0_fosc hw = None <-> CGU_PLL0_BYPASS hw = true.
Proof. unfold cgu_get_pll0_fosc. by destruct (CGU_PLL0_BYPASS hw). Qed.

Lemma pll1_none hw : cgu_get_pll1_fosc hw = None <-> CGU_PLL1_BYPASS hw = true.
Proof.
  unfold cgu_get_pll1_fosc. destruct (CGU_PLL1_BYPASS hw); [done|].
  destruct (input1_range hw) as (i & -> & _). by cbn [mbind option_bind].
Qed.

Lemma pll2_some hw f : cgu_get_pll0_fosc hw = Some f -> exists g, cgu_get_pll2_fosc hw = Some g.
Proof.
  intros Hf. assert (exists i, get_input_clock hw 2 = Some i) as [i Hi].
  { unfold get_input_clock. change (2 =? 0) with false. change (2 =? 1) with false.
    change (2 =? 2) with true. unfold cgu_get_pll0_fdiv. rewrite Hf. cbn [mbind option_bind].
    repeat match goal with |- context [if ?b then _ else _] => destruct b end; eauto. }
  destruct (CGU_PLL2_BYPASS hw) eqn:E.
  - exists i. unfold cgu_get_pll2_fosc. by rewrite E.
  - eexists. by apply pll2_fosc_eq.
Qed.

Lemma clockout_some hw f1 f2 n :
  cgu_get_pll1_fosc hw = Some f1 -> cgu_get_pll2_fosc hw = Some f2 ->
  exists c, cgu_get_clockout hw n = Some c.
Proof.
  intros H1 H2. unfold cgu_get_clockout, cgu_get_pll2_fps. rewrite H1, H2. cbn [mbind option_bind].
  destruct (_ || _); [eauto|].
  repeat match goal with |- context [match ?x with _ => _ end] => destruct x end; eauto.
Qed.

Lemma clock_rates_some hw f0 f1 :
  cgu_get_pll0_fosc hw = Some f0 -> cgu_get_pll1_fosc hw = Some f1 ->
  exists r, clock_rates hw = Some r.
Proof.
  intros H0 H1. destruct (pll2_some hw f0 H0) as [f2 H2].
  pose proof (clockout_some hw f1 f2) as Ho. unfold clock_rates.
  destruct (Ho 0 H1 H2) as [c0 ->], (Ho 1 H1 H2) as [c1 ->], (Ho 2 H1 H2) as [c2 ->], (Ho 3 H1 H2) as [c3 ->].
  unfold cgu_get_cpu_clock, cgu_get_fpi_bus_clock, cgu_get_io_region_clock, cgu_get_mips_clock,
    cgu_get_pci_clock, cgu_get_pll2_fdiv, cgu_get_pp32_clock, cgu_get_pll2_fps, cgu_get_ethernet_clock,
    cgu_get_usb_clock.
  rewrite H0, H2. cbn [mbind option_bind].
  repeat (match goal with |- context [if ?b then _ else _] => destruct b end; cbn [mbind option_bind]); eauto.
Qed.

(** The ioctl answers ENOTTY to every command but its own, EFAULT when the
    user's buffer cannot be written, and otherwise the rates, each that of the
    function named after it; the rates are determined exactly when neither
    loop 0 nor loop 1 is bypassed, since then two functions end without
    returning a value. *)
Theorem cgu_ioctl_outcomes hw cmd rok wok :
  cgu_ioctl hw CGU_GET_CLOCK_RATES rok wok =
    (if wok then r ← clock_rates hw; Some (0, Some r) else Some (- EFAULT, None)) /\
  (cmd <> CGU_GET_CLOCK_RATES ->
   cgu_ioctl hw cmd rok wok = Some (- ENOTTY, None) \/ cgu_ioctl hw cmd rok wok = Some (- EFAULT, None)) /\
  (clock_rates hw = None <-> CGU_PLL0_BYPASS hw = true \/ CGU_PLL1_BYPASS hw = true).
Proof.
  split_and!.
  - unfold cgu_ioctl. by destruct wok.
  - intros E. unfold cgu_ioctl. rewrite (proj2 (Z.eqb_neq cmd CGU_GET_CLOCK_RATES)) by done.
    destruct (_ || _); [auto|]. destruct (if negb _ then _ else _); auto.
  - split.
    + intros H. rewrite <- pll0_none, <- pll1_none.
      destruct (cgu_get_pll0_fosc hw) as [f0|] eqn:E0; [|by left].
      destruct (cgu_get_pll1_fosc hw) as [f1|] eqn:E1; [|by right].
      destruct (clock_rates_some hw f0 f1 E0 E1) as [r Hr]. congruence.
    + rewrite <- pll0_none, <- pll1_none. unfold clock_rates. intros [H|H].
      * unfold cgu_get_mips_clock. by rewrite H.
      * unfold cgu_get_clockout. rewrite H. cbn [mbind option_bind].
        repeat (match goal with |- context [option_bind _ _ _ ?x] => destruct x
                | |- context [mbind _ ?x] => destruct x end; cbn [mbind option_bind]; try done).
Qed.

(** ** Witnesses *)

(** Loop 0 at 333 MHz, loop 2 at 300 MHz, both from the 36 MHz input. *)
Definition nominal_hw : Z -> Z :=
  upd (upd (fun _ => 0) DANUBE_CGU_PLL0_CFG (36 .<< 6 .| 3 .<< 2))
    DANUBE_CGU_PLL2_CFG (1 .<< 17 .| 24 .<< 6 .| 2 .<< 2).

Lemma pll_outputs_nearest_witness :
  cgu_get_pll0_fosc nominal_hw = Some 333000000 /\ cgu_get_pll2_fosc nominal_hw = Some 300000000.
Proof.
  destruct (pll_outputs_nearest nominal_hw) as (H0 & _ & H2). split.
  - rewrite H0; vm_compute; reflexivity.
  - rewrite (H2 36000000); vm_compute; reflexivity.
Defined.

Lemma clock_tree_witness :
  cgu_get_fpi_bus_clock nominal_hw 2 = Some 166500000.
Proof.
  exact (proj1 (proj2 (proj2 (clock_tree nominal_hw 333000000 ltac:(vm_compute; reflexivity) ltac:(lia))))).
Defined.

Lemma clockout_rates_witness : cgu_get_clockout nominal_hw 2 = Some 25000000.
Proof.
  refine (proj2 (proj2 (clockout_rates nominal_hw 36000000 2 0 _ _ _ _))); first [lia | vm_compute; reflexivity].
Defined.

Lemma cgu_ioctl_outcomes_witness :
  cgu_ioctl nominal_hw 0 true true = Some (- ENOTTY, None) \/
  cgu_ioctl nominal_hw 0 true true = Some (- EFAULT, None).
Proof. apply (proj1 (proj2 (cgu_ioctl_outcomes nominal_hw 0 true true))). vm_compute. congruence. Defined.
