(* ===== verification/Wdt.v ===== *)
(** * Watchdog ([drivers/char/danube_wdt.c])

    The watchdog's control register takes a new value only in a second write
    that carries the second password, after a first write with the first one.
    The file models every operation of the driver: the four register routines,
    enabling with the reload value computed from the processor clock, the
    ioctl with its remembered timeout, open, release and start-up.

    The state keeps the registers as a store and, to speak about the password
    protocol, the list of the values written to the control register, oldest
    first.  A result is [None] where the processor clock is indeterminate (see
    [Cgu]).  Between the two writes some routines read the control register
    back; the model reads the value last written, but they clear every bit of
    it, so what the hardware returns there makes no difference. *)

From S2P Require Import Prelude Arith64 Cgu.
Open Scope Z_scope.

(** ** Registers *)

Definition DANUBE_BIU_WDT : Z := 0xBF880000.
Definition DANUBE_BIU_WDT_CR : Z := DANUBE_BIU_WDT + 0x03F0.
Definition DANUBE_BIU_WDT_SR : Z := DANUBE_BIU_WDT + 0x03F8.
Definition DANUBE_BIU_WDT_CR_GEN : Z := 1 .<< 31.
Definition DANUBE_BIU_WDT_CR_DSEN : Z := 1 .<< 30.
Definition DANUBE_BIU_WDT_CR_LPEN : Z := 1 .<< 29.
Definition DANUBE_BIU_WDT_CR_PWL_GET (value : Z) : Z := (value .>> 26) .& (1 .<< 2 - 1).
Definition DANUBE_BIU_WDT_CR_PWL_SET (value : Z) : Z := ((1 .<< 2 - 1) .& value) .<< 26.
Definition DANUBE_BIU_WDT_CR_CLKDIV_GET (value : Z) : Z := (value .>> 24) .& (1 .<< 2 - 1).
Definition DANUBE_BIU_WDT_CR_CLKDIV_SET (value : Z) : Z := ((1 .<< 2 - 1) .& value) .<< 24.
Definition DANUBE_BIU_WDT_CR_PW_SET (value : Z) : Z := ((1 .<< 8 - 1) .& value) .<< 16.
Definition DANUBE_BIU_WDT_CR_RELOAD_SET (value : Z) : Z := ((1 .<< 16 - 1) .& value) .<< 0.
Definition DANUBE_WDT_PW1 : Z := 0xBE.
Definition DANUBE_WDT_PW2 : Z := 0xDC.

(** C's logical negation, as an integer. *)
Definition lnot_c (x : Z) : Z := if x =? 0 then 1 else 0.

(** ** State *)

Record wdt_state := mk_wdt {
  whw : Z -> Z;            (* the registers *)
  cr_writes : list Z;      (* values written to the control register *)
  timeout : Z;             (* the static variable of wdt_ioctl *)
  occupied : Z
}.

Definition set_timeout (t : Z) (s : wdt_state) : wdt_state :=
  mk_wdt (whw s) (cr_writes s) t (occupied s).
Definition set_occupied (o : Z) (s : wdt_state) : wdt_state :=
  mk_wdt (whw s) (cr_writes s) (timeout s) o.
Definition read_cr (s : wdt_state) : Z := whw s DANUBE_BIU_WDT_CR.
Definition write_cr (v : Z) (s : wdt_state) : wdt_state :=
  mk_wdt (upd (whw s) DANUBE_BIU_WDT_CR v) (cr_writes s ++ [v]) (timeout s) (occupied s).

(** ** The register routines *)

Definition clkdiv_value (clkdiv : Z) : Z :=
  if clkdiv =? 0 then 1 else if clkdiv =? 1 then 64 else if clkdiv =? 2 then 4096 else 262144.
Definition pwl_value (pwl : Z) : Z :=
  if pwl =? 0 then 0x8000 else if pwl =? 1 then 0x4000 else if pwl =? 2 then 0x2000 else 0x1000.

Definition wdt_enable (timeout : Z) (s : wdt_state) : option (Z * wdt_state) :=
  let clkdiv := DANUBE_BIU_WDT_CR_CLKDIV_GET (read_cr s) in
  let wdt_clkdiv := clkdiv_value clkdiv in
  let pwl := DANUBE_BIU_WDT_CR_PWL_GET (read_cr s) in
  let wdt_pwl := pwl_value pwl in
  ffpi ← cgu_get_cpu_clock (whw s);
  let wdt_reload := w32 (w32 (w32 timeout * (ffpi / wdt_clkdiv)) + wdt_pwl) in
  if wdt_reload >? 0xFFFF then Some (- EINVAL, s)
  else
    let s := write_cr (DANUBE_BIU_WDT_CR_PW_SET DANUBE_WDT_PW1) s in
    let wdt_cr := read_cr s in
    let wdt_cr := wdt_cr .& (lnot_c (DANUBE_BIU_WDT_CR_PW_SET 0xff)
                             .& lnot_c (DANUBE_BIU_WDT_CR_PWL_SET 0x3)
                             .& lnot_c (DANUBE_BIU_WDT_CR_CLKDIV_SET 0x3)
                             .& lnot_c (DANUBE_BIU_WDT_CR_RELOAD_SET 0xffff)) in
    let wdt_cr := wdt_cr .| (DANUBE_BIU_WDT_CR_PW_SET DANUBE_WDT_PW2
                             .| DANUBE_BIU_WDT_CR_PWL_SET pwl
                             .| DANUBE_BIU_WDT_CR_CLKDIV_SET clkdiv
                             .| DANUBE_BIU_WDT_CR_RELOAD_SET wdt_reload
                             .| DANUBE_BIU_WDT_CR_GEN) in
    Some (0, write_cr wdt_cr s).

Definition wdt_disable (s : wdt_state) : wdt_state :=
  let s := write_cr (DANUBE_BIU_WDT_CR_PW_SET DANUBE_WDT_PW1) s in
  write_cr (DANUBE_BIU_WDT_CR_PW_SET DANUBE_WDT_PW2) s.

Definition wdt_low_power (en : Z) (s : wdt_state) : wdt_state :=
  let s := write_cr (DANUBE_BIU_WDT_CR_PW_SET DANUBE_WDT_PW1) s in
  let wdt_cr := read_cr s in
  let wdt_cr :=
    if negb (en =? 0) then
      (wdt_cr .& lnot_c (DANUBE_BIU_WDT_CR_PW_SET 0xff))
      .| (DANUBE_BIU_WDT_CR_PW_SET DANUBE_WDT_PW2 .| DANUBE_BIU_WDT_CR_LPEN)
    else
      (wdt_cr .& (lnot_c (DANUBE_BIU_WDT_CR_PW_SET 0xff) .& lnot_c DANUBE_BIU_WDT_CR_LPEN))
      .| DANUBE_BIU_WDT_CR_PW_SET DANUBE_WDT_PW2 in
  write_cr wdt_cr s.

Definition wdt_debug_suspend (en : Z) (s : wdt_state) : wdt_state :=
  let s := write_cr (DANUBE_BIU_WDT_CR_PW_SET DANUBE_WDT_PW1) s in
  let wdt_cr := read_cr s in
  let wdt_cr :=
    if negb (en =? 0) then
      (wdt_cr .& lnot_c (DANUBE_BIU_WDT_CR_PW_SET 0xff))
      .| (DANUBE_BIU_WDT_CR_PW_SET DANUBE_WDT_PW2 .| DANUBE_BIU_WDT_CR_DSEN)
    else
      (wdt_cr .& (lnot_c (DANUBE_BIU_WDT_CR_PW_SET 0xff) .& lnot_c DANUBE_BIU_WDT_CR_DSEN))
      .| DANUBE_BIU_WDT_CR_PW_SET DANUBE_WDT_PW2 in
  write_cr wdt_cr s.

Definition wdt_prewarning_limit (pwl : Z) (s : wdt_state) : wdt_state :=
  let wdt_cr := read_cr s in
  let s := write_cr (DANUBE_BIU_WDT_CR_PW_SET DANUBE_WDT_PW1) s in
  let wdt_cr := wdt_cr .& 0xff00ffff in
  let wdt_cr := wdt_cr .& 0xf3ffffff in
  let wdt_cr := wdt_cr .| (DANUBE_BIU_WDT_CR_PW_SET DANUBE_WDT_PW2 .| DANUBE_BIU_WDT_CR_PWL_SET pwl) in
  write_cr wdt_cr s.

Definition wdt_set_clkdiv (clkdiv : Z) (s : wdt_state) : wdt_state :=
  let wdt_cr := read_cr s in
  let s := write_cr (DANUBE_BIU_WDT_CR_PW_SET DANUBE_WDT_PW1) s in
  let wdt_cr := wdt_cr .& 0xff00ffff in
  let wdt_cr := wdt_cr .& 0xfcffffff in
  let wdt_cr := wdt_cr .| (DANUBE_BIU_WDT_CR_PW_SET DANUBE_WDT_PW2 .| DANUBE_BIU_WDT_CR_CLKDIV_SET clkdiv) in
  write_cr wdt_cr s.

(** ** The ioctl *)

Definition DANUBE_WDT_IOC_MAGIC : Z := 0xc0.
Definition DANUBE_WDT_IOC_START : Z := IOC IOC_WRITE DANUBE_WDT_IOC_MAGIC 0 4.
Definition DANUBE_WDT_IOC_STOP : Z := IOC IOC_NONE DANUBE_WDT_IOC_MAGIC 1 0.
Definition DANUBE_WDT_IOC_PING : Z := IOC IOC_NONE DANUBE_WDT_IOC_MAGIC 2 0.
Definition DANUBE_WDT_IOC_SET_PWL : Z := IOC IOC_WRITE DANUBE_WDT_IOC_MAGIC 3 4.
Definition DANUBE_WDT_IOC_SET_DSEN : Z := IOC IOC_WRITE DANUBE_WDT_IOC_MAGIC 4 4.
Definition DANUBE_WDT_IOC_SET_LPEN : Z := IOC IOC_WRITE DANUBE_WDT_IOC_MAGIC 5 4.
Definition DANUBE_WDT_IOC_GET_STATUS : Z := IOC IOC_READ DANUBE_WDT_IOC_MAGIC 6 4.
Definition DANUBE_WDT_IOC_SET_CLKDIV : Z := IOC IOC_WRITE DANUBE_WDT_IOC_MAGIC 7 4.

(** [copied]: [copy_from_user] succeeded; [v]: what its destination then
    holds, also when it failed.  The second result is the value copied to the
    user, if any. *)
Definition wdt_ioctl (cmd : Z) (copied : bool) (v : Z) (s : wdt_state)
  : option (Z * option Z * wdt_state) :=
  let fault := if copied then 0 else - EINVAL in
  if cmd =? DANUBE_WDT_IOC_START then
    let s := set_timeout v s in
    if negb copied then Some (- EINVAL, None, s)
    else
      '(result, s) ← wdt_enable v s;
      Some (result, None, if result <? 0 then set_timeout (- 1) s else s)
  else if cmd =? DANUBE_WDT_IOC_STOP then Some (0, None, wdt_disable (set_timeout (- 1) s))
  else if cmd =? DANUBE_WDT_IOC_PING then
    if timeout s <? 0 then Some (- EIO, None, s)
    else '(result, s) ← wdt_enable (timeout s) s; Some (result, None, s)
  else if cmd =? DANUBE_WDT_IOC_SET_PWL then Some (fault, None, wdt_prewarning_limit v s)
  else if cmd =? DANUBE_WDT_IOC_SET_DSEN then Some (fault, None, wdt_debug_suspend v s)
  else if cmd =? DANUBE_WDT_IOC_SET_LPEN then Some (fault, None, wdt_low_power v s)
  else if cmd =? DANUBE_WDT_IOC_SET_CLKDIV then Some (fault, None, wdt_set_clkdiv v s)
  else if cmd =? DANUBE_WDT_IOC_GET_STATUS then Some (0, Some (whw s DANUBE_BIU_WDT_SR), s)
  else Some (0, None, s).

Definition wdt_open (s : wdt_state) : Z * wdt_state :=
  if occupied s =? 1 then (- EBUSY, s) else (0, set_occupied 1 s).
Definition wdt_release (s : wdt_state) : Z * wdt_state := (0, set_occupied 0 s).

(** Start-up: [alloc] tells whether the device structure was allocated,
    [registered] is the answer of [register_chrdev].  The result and, while the
    module is loaded, the major number kept in the structure. *)
Definition danube_wdt_init_module (alloc : bool) (registered : Z) : Z * option Z :=
  if negb alloc then (- ENOMEM, None)
  else if registered <? 0 then (- EINVAL, None)
  else (0, Some registered).
Definition danube_wdt_cleanup_module (major : option Z) : option Z := None.

(** ** The control register after each routine *)

Definition PW1_WORD : Z := 0xBE .<< 16.

(** The second write of a pair, and what the rest of the state becomes. *)
Definition commit (v : Z) (s : wdt_state) : wdt_state := write_cr v (write_cr PW1_WORD s).

Lemma wdt_disable_eq s : wdt_disable s = commit (0xDC .<< 16) s.
Proof. done. Qed.

Lemma wdt_low_power_eq en s :
  wdt_low_power en s = commit (0xDC .<< 16 .| if en =? 0 then 0 else DANUBE_BIU_WDT_CR_LPEN) s.
Proof.
  unfold wdt_low_power, commit. f_equal. change (lnot_c (DANUBE_BIU_WDT_CR_PW_SET 0xff)) with 0.
  change (0 .& lnot_c DANUBE_BIU_WDT_CR_LPEN) with 0. rewrite Z.land_0_r. by destruct (en =? 0).
Qed.

Lemma wdt_debug_suspend_eq en s :
  wdt_debug_suspend en s = commit (0xDC .<< 16 .| if en =? 0 then 0 else DANUBE_BIU_WDT_CR_DSEN) s.
Proof.
  unfold wdt_debug_suspend, commit. f_equal. change (lnot_c (DANUBE_BIU_WDT_CR_PW_SET 0xff)) with 0.
  change (0 .& lnot_c DANUBE_BIU_WDT_CR_DSEN) with 0. rewrite Z.land_0_r. by destruct (en =? 0).
Qed.

(** The word [wdt_enable] commits. *)
Definition enable_word (cr reload : Z) : Z :=
  0xDC .<< 16 .| DANUBE_BIU_WDT_CR_PWL_SET (DANUBE_BIU_WDT_CR_PWL_GET cr)
  .| DANUBE_BIU_WDT_CR_CLKDIV_SET (DANUBE_BIU_WDT_CR_CLKDIV_GET cr)
  .| DANUBE_BIU_WDT_CR_RELOAD_SET reload .| DANUBE_BIU_WDT_CR_GEN.

(** Ticks of the watchdog per unit of the timeout. *)
Definition ticks (c cr : Z) : Z := c / clkdiv_value (DANUBE_BIU_WDT_CR_CLKDIV_GET cr).
Definition prewarning (cr : Z) : Z := pwl_value (DANUBE_BIU_WDT_CR_PWL_GET cr).
Definition reload_of (timeout c cr : Z) : Z := w32 (timeout * ticks c cr + prewarning cr).

Lemma wdt_enable_eq timeout c s :
  cgu_get_cpu_clock (whw s) = Some c ->
  wdt_enable timeout s = Some
    (let n := reload_of timeout c (read_cr s) in
     if n >? 0xFFFF then (- EINVAL, s) else (0, commit (enable_word (read_cr s) n) s)).
Proof.
  intros Hc. unfold wdt_enable. rewrite Hc. cbn [mbind option_bind].
  fold (ticks c (read_cr s)). fold (prewarning (read_cr s)).
  assert (E : w32 (w32 (w32 timeout * ticks c (read_cr s)) + prewarning (read_cr s))
            = reload_of timeout c (read_cr s)).
  { unfold reload_of, w32. rewrite Z.add_mod_idemp_l by lia.
    rewrite <- (Z.add_mod_idemp_l (_ mod _ * _)) by lia. rewrite Z.mul_mod_idemp_l by lia.
    by rewrite Z.add_mod_idemp_l by lia. }
  rewrite E. set (n := reload_of timeout c (read_cr s)). cbv zeta.
  destruct (n >? 0xFFFF); [done|]. reflexivity.
Qed.

(** ** Bits of the words *)

Lemma ones_bit (w x i : Z) : 0 <= w -> 0 <= i ->
  Z.testbit ((1 .<< w - 1) .& x) i = bool_decide (i < w) && Z.testbit x i.
Proof.
  intros Hw Hi. rewrite Z.shiftl_1_l.
  replace (2 ^ w - 1) with (Z.ones w) by (rewrite Z.ones_equiv; lia).
  rewrite Z.land_spec, Z.testbit_ones_nonneg by done. f_equal.
  case_bool_decide; [by apply Z.ltb_lt|by apply Z.ltb_ge, Z.nlt_ge].
Qed.

Lemma field_bit (w x sh i : Z) : 0 <= w -> 0 <= sh -> 0 <= i ->
  Z.testbit (((1 .<< w - 1) .& x) .<< sh) i =
  bool_decide (sh <= i < sh + w) && Z.testbit x (i - sh).
Proof.
  intros Hw Hs Hi. rewrite Z.shiftl_spec by done. destruct (Z.lt_ge_cases i sh).
  - rewrite Z.testbit_neg_r by lia. by rewrite bool_decide_false by lia.
  - rewrite ones_bit by lia. f_equal. apply bool_decide_ext. lia.
Qed.

Lemma get_bit (w x sh i : Z) : 0 <= w -> 0 <= sh -> 0 <= i ->
  Z.testbit ((x .>> sh) .& (1 .<< w - 1)) i = bool_decide (i < w) && Z.testbit x (i + sh).
Proof. intros Hw Hs Hi. by rewrite Z.land_comm, ones_bit, Z.shiftr_spec by done. Qed.

Lemma enable_word_bits cr n i : 0 <= i < 32 ->
  Z.testbit (enable_word cr n) i =
  (if i <? 16 then Z.testbit n i
   else if i <? 24 then Z.testbit 0xDC (i - 16)
   else if i <? 28 then Z.testbit cr i
   else i =? 31).
Proof.
  intros Hi. unfold enable_word, DANUBE_BIU_WDT_CR_PWL_SET, DANUBE_BIU_WDT_CR_CLKDIV_SET,
    DANUBE_BIU_WDT_CR_RELOAD_SET, DANUBE_BIU_WDT_CR_GEN.
  rewrite !Z.lor_spec, !field_bit, testbit_1_shiftl by lia.
  unfold DANUBE_BIU_WDT_CR_PWL_GET, DANUBE_BIU_WDT_CR_CLKDIV_GET.
  assert (Epw : Z.testbit (0xDC .<< 16) i = bool_decide (16 <= i < 24) && Z.testbit 0xDC (i - 16)).
  { change 0xDC with ((1 .<< 8 - 1) .& 0xDC) at 1. by rewrite field_bit by lia. }
  rewrite Epw. rewrite Z.sub_0_r.
  destruct (i <? 16) eqn:E1; [|destruct (i <? 24) eqn:E2; [|destruct (i <? 28) eqn:E3]]; bool_prop.
  - rewrite !(bool_decide_false (_ <= i < _ + 2)), (bool_decide_false (16 <= i < 24)),
      (bool_decide_true (0 <= i < 0 + 16)), bool_decide_false by lia. cbn. by rewrite orb_false_r.
  - rewrite !(bool_decide_false (_ <= i < _ + 2)), (bool_decide_true (16 <= i < 24)),
      (bool_decide_false (0 <= i < 0 + 16)), bool_decide_false by lia. cbn. by rewrite !orb_false_r.
  - rewrite (bool_decide_false (16 <= i < 24)), (bool_decide_false (0 <= i < 0 + 16)),
      (bool_decide_false (i = 31)) by lia. cbn [andb orb]. rewrite !orb_false_r.
    destruct (Z.lt_ge_cases i 26).
    + rewrite (bool_decide_false (26 <= i < 26 + 2)), (bool_decide_true (24 <= i < 24 + 2)) by lia.
      cbn [andb orb]. rewrite get_bit by lia. rewrite bool_decide_true by lia. cbn [andb]. f_equal. lia.
    + rewrite (bool_decide_true (26 <= i < 26 + 2)), (bool_decide_false (24 <= i < 24 + 2)) by lia.
      cbn [andb orb]. rewrite get_bit by lia. rewrite bool_decide_true by lia. cbn [andb].
      rewrite orb_false_r. f_equal. lia.
  - rewrite !(bool_decide_false (_ <= i < _ + 2)), (bool_decide_false (16 <= i < 24)),
      (bool_decide_false (0 <= i < 0 + 16)) by lia. cbn [andb orb]. clear Epw.
    case_bool_decide; symmetry; [by apply Z.eqb_eq|by apply Z.eqb_neq].
Qed.

(** A routine that replaces the field of [w] bits at [sh], for either field. *)
Definition replaced (cr v w sh : Z) : Z -> bool := fun i =>
  if (sh <=? i) && (i <? sh + w) then Z.testbit v (i - sh)
  else if (16 <=? i) && (i <? 24) then Z.testbit 0xDC (i - 16)
  else Z.testbit cr i.

(** A boolean statement about the 32 bit positions is checked on each. *)
Lemma bits32 (P : Z -> bool) :
  forallb P (map Z.of_nat (seq 0 32)) = true -> forall i, 0 <= i < 32 -> P i = true.
Proof.
  intros H i Hi. apply (proj1 (forallb_forall P _) H).
  apply in_map_iff. exists (Z.to_nat i). split; [lia|]. apply in_seq. lia.
Qed.

Lemma mask_pwl_bits i : 0 <= i < 32 ->
  Z.testbit (0xff00ffff .& 0xf3ffffff) i = negb (((16 <=? i) && (i <? 24)) || ((26 <=? i) && (i <? 28))).
Proof.
  intros Hi. apply eqb_prop. revert i Hi.
  apply (bits32 (fun i => eqb _ (negb (((16 <=? i) && (i <? 24)) || ((26 <=? i) && (i <? 28)))))).
  vm_compute. reflexivity.
Qed.

Lemma mask_clkdiv_bits i : 0 <= i < 32 ->
  Z.testbit (0xff00ffff .& 0xfcffffff) i = negb (((16 <=? i) && (i <? 24)) || ((24 <=? i) && (i <? 26))).
Proof.
  intros Hi. apply eqb_prop. revert i Hi.
  apply (bits32 (fun i => eqb _ (negb (((16 <=? i) && (i <? 24)) || ((24 <=? i) && (i <? 26)))))).
  vm_compute. reflexivity.
Qed.

(** The word either field routine commits. *)
Definition field_word (cr mask v sh : Z) : Z :=
  (cr .& (0xff00ffff .& mask)) .| (0xDC .<< 16 .| ((1 .<< 2 - 1) .& v) .<< sh).

Lemma wdt_prewarning_limit_eq pwl s :
  wdt_prewarning_limit pwl s = commit (field_word (read_cr s) 0xf3ffffff pwl 26) s.
Proof. unfold wdt_prewarning_limit, commit, field_word. by rewrite Z.land_assoc. Qed.

Lemma wdt_set_clkdiv_eq clkdiv s :
  wdt_set_clkdiv clkdiv s = commit (field_word (read_cr s) 0xfcffffff clkdiv 24) s.
Proof. unfold wdt_set_clkdiv, commit, field_word. by rewrite Z.land_assoc. Qed.

Lemma field_word_bits cr mask v sh i :
  0 <= i < 32 -> 24 <= sh <= 30 ->
  Z.testbit (0xff00ffff .& mask) i = negb (((16 <=? i) && (i <? 24)) || ((sh <=? i) && (i <? sh + 2))) ->
  Z.testbit (field_word cr mask v sh) i = replaced cr v 2 sh i.
Proof.
  intros Hi Hs Hm. unfold field_word, replaced. rewrite !Z.lor_spec, Z.land_spec, Hm, field_bit by lia.
  assert (Epw : Z.testbit (0xDC .<< 16) i = bool_decide (16 <= i < 24) && Z.testbit 0xDC (i - 16)).
  { change 0xDC with ((1 .<< 8 - 1) .& 0xDC) at 1. by rewrite field_bit by lia. }
  rewrite Epw. clear Epw Hm.
  destruct ((sh <=? i) && (i <? sh + 2)) eqn:E1.
  - bool_prop. rewrite (bool_decide_true (sh <= i < sh + 2)), (bool_decide_false (16 <= i < 24)) by lia.
    cbn [andb orb]. by rewrite orb_true_r, andb_false_r.
  - rewrite (bool_decide_false (sh <= i < sh + 2)) by (apply andb_false_iff in E1; lia).
    cbn [andb]. destruct ((16 <=? i) && (i <? 24)) eqn:E2.
    + bool_prop. rewrite bool_decide_true by lia. cbn [andb orb negb]. by rewrite andb_false_r, orb_false_r.
    + rewrite bool_decide_false by (apply andb_false_iff in E2; lia). cbn [andb orb negb].
      by rewrite andb_true_r, !orb_false_r.
Qed.

(** ** Properties *)

Lemma commit_facts v s :
  read_cr (commit v s) = v /\ cr_writes (commit v s) = cr_writes s ++ [PW1_WORD; v] /\
  timeout (commit v s) = timeout s /\ occupied (commit v s) = occupied s /\
  forall a, a <> DANUBE_BIU_WDT_CR -> whw (commit v s) a = whw s a.
Proof.
  unfold commit, write_cr, read_cr. cbn [whw cr_writes timeout occupied].
  split_and!; [by rewrite upd_eq|by rewrite <- app_assoc|done|done|].
  intros a Ha. by rewrite !upd_ne.
Qed.

(** The word [v] is the enabling word for the reload value [n] and the
    divider and prewarning fields of [cr]; suspend and low-power are off. *)
Definition enabling (cr n v : Z) : Prop :=
  forall i, 0 <= i < 32 -> Z.testbit v i =
    if i <? 16 then Z.testbit n i else if i <? 24 then Z.testbit 0xDC (i - 16)
    else if i <? 28 then Z.testbit cr i else i =? 31.

(** Enabling commits, under both passwords, a word that starts the
    watchdog with the divider and the prewarning limit it had, or refuses and
    changes nothing.  A timeout whose ticks and prewarning limit fit 16 bits
    is accepted with exactly their sum as reload value; a larger one is
    refused while the sum is below 2^32; but a negative one whose ticks are at
    most the prewarning limit is accepted, with a reload value below the limit. *)
Theorem wdt_enable_outcomes t c s :
  cgu_get_cpu_clock (whw s) = Some c -> 0 <= c ->
  let d := ticks c (read_cr s) in
  let p := prewarning (read_cr s) in
  let started n := exists v s', wdt_enable t s = Some (0, s') /\
    cr_writes s' = cr_writes s ++ [PW1_WORD; v] /\ read_cr s' = v /\ enabling (read_cr s) n v in
  (0 <= t -> t * d + p <= 0xFFFF -> started (t * d + p)) /\
  (0 <= t -> 0xFFFF < t * d + p < 2 ^ 32 -> wdt_enable t s = Some (- EINVAL, s)) /\
  (t < 0 -> - t * d <= p -> started (p - - t * d)).
Proof.
  intros Hc H0 d p started.
  assert (Hp : 0x1000 <= p <= 0x8000).
  { unfold p, prewarning, pwl_value. repeat split_if; lia. }
  assert (Hd : 0 <= d).
  { unfold d, ticks. apply Z.div_pos; [done|]. unfold clkdiv_value. repeat split_if; lia. }
  assert (Hs : forall n, t * d + p = n -> 0 <= n <= 0xFFFF -> started n).
  { intros n En Hn. unfold started. rewrite (wdt_enable_eq t c s Hc). cbv zeta.
    assert (Er : reload_of t c (read_cr s) = n).
    { unfold reload_of. fold d p. rewrite En. apply w32_id. unfold is_u32. lia. }
    rewrite Er, Z.gtb_ltb, (proj2 (Z.ltb_ge _ _)) by lia.
    destruct (commit_facts (enable_word (read_cr s) n) s) as (F1 & F2 & _).
    exists (enable_word (read_cr s) n), (commit (enable_word (read_cr s) n) s).
    split_and!; try done. intros i Hi. by apply enable_word_bits. }
  split_and!.
  - intros Ht Hle. apply Hs; [done|nia].
  - intros Ht Hgt. rewrite (wdt_enable_eq t c s Hc). cbv zeta.
    assert (Er : reload_of t c (read_cr s) = t * d + p).
    { unfold reload_of. fold d p. apply w32_id. unfold is_u32. nia. }
    by rewrite Er, Z.gtb_ltb, (proj2 (Z.ltb_lt _ _)) by lia.
  - intros Ht Hle. apply Hs; [lia|nia].
Qed.

(** Switching the low-power or the suspend mode, on or off, stops the
    watchdog: the committed word has the enable bit clear and no reload value,
    whatever the control register held, because the masks are built with a
    logical instead of a bitwise negation. *)
Theorem wdt_modes_stop en s :
  let stopped s' := Z.testbit (read_cr s') 31 = false /\
    (forall i, 0 <= i < 16 -> Z.testbit (read_cr s') i = false) in
  stopped (wdt_low_power en s) /\ stopped (wdt_debug_suspend en s).
Proof.
  intros stopped. rewrite wdt_low_power_eq, wdt_debug_suspend_eq.
  assert (H : forall v, (v = 0xDC .<< 16 \/ v = 0xDC .<< 16 .| DANUBE_BIU_WDT_CR_LPEN
      \/ v = 0xDC .<< 16 .| DANUBE_BIU_WDT_CR_DSEN) -> stopped (commit v s)).
  { intros v Hv. unfold stopped. destruct (commit_facts v s) as (-> & _). split.
    - destruct Hv as [-> | [-> | ->]]; done.
    - intros i Hi. apply negb_true_iff. assert (Hi' : 0 <= i < 32) by lia.
      cut (negb ((i <? 16) && Z.testbit v i) = true).
      { rewrite (proj2 (Z.ltb_lt i 16)) by lia. done. }
      clear Hi. revert i Hi'. apply (bits32 (fun i => negb ((i <? 16) && Z.testbit v i))).
      destruct Hv as [-> | [-> | ->]]; vm_compute; reflexivity. }
  split; apply H; destruct (en =? 0); auto.
Qed.

(** Setting the prewarning limit or the clock divider commits a word that
    differs from the control register in that field and the password only, the
    field being the low two bits of the argument. *)
Theorem wdt_field_routines v s :
  (forall i, 0 <= i < 32 ->
     Z.testbit (read_cr (wdt_prewarning_limit v s)) i = replaced (read_cr s) v 2 26 i) /\
  (forall i, 0 <= i < 32 ->
     Z.testbit (read_cr (wdt_set_clkdiv v s)) i = replaced (read_cr s) v 2 24 i) /\
  DANUBE_BIU_WDT_CR_PWL_GET (read_cr (wdt_prewarning_limit v s)) = v .& 3 /\
  DANUBE_BIU_WDT_CR_CLKDIV_GET (read_cr (wdt_set_clkdiv v s)) = v .& 3.
Proof.
  rewrite wdt_prewarning_limit_eq, wdt_set_clkdiv_eq.
  destruct (commit_facts (field_word (read_cr s) 0xf3ffffff v 26) s) as (-> & _).
  destruct (commit_facts (field_word (read_cr s) 0xfcffffff v 24) s) as (-> & _).
  assert (HP : forall i, 0 <= i < 32 ->
    Z.testbit (field_word (read_cr s) 0xf3ffffff v 26) i = replaced (read_cr s) v 2 26 i).
  { intros i Hi. apply field_word_bits; [done|lia|by apply mask_pwl_bits]. }
  assert (HC : forall i, 0 <= i < 32 ->
    Z.testbit (field_word (read_cr s) 0xfcffffff v 24) i = replaced (read_cr s) v 2 24 i).
  { intros i Hi. apply field_word_bits; [done|lia|by apply mask_clkdiv_bits]. }
  assert (HG : forall x sh, 24 <= sh <= 30 ->
    (forall i, 0 <= i < 32 -> Z.testbit x i = replaced (read_cr s) v 2 sh i) ->
    (x .>> sh) .& (1 .<< 2 - 1) = v .& 3).
  { intros x sh Hsh Hx. change 3 with (1 .<< 2 - 1). rewrite (Z.land_comm v).
    apply Z.bits_inj'. intros i Hi. rewrite get_bit, ones_bit by lia.
    case_bool_decide; [|done]. cbn [andb]. rewrite Hx by lia. unfold replaced.
    rewrite (proj2 (Z.leb_le sh (i + sh))), (proj2 (Z.ltb_lt (i + sh) (sh + 2))) by lia.
    cbn [andb]. f_equal. lia. }
  split_and!; [done|done|by apply HG|by apply HG].
Qed.

(** ** Sequences of calls *)

(** One call of a client: an ioctl, an open or a release. *)
Inductive wdt_step (allowed : Z -> bool) : wdt_state -> wdt_state -> Prop :=
  | step_wdt_ioctl cmd copied v s r o s' : allowed cmd = true ->
      wdt_ioctl cmd copied v s = Some (r, o, s') -> wdt_step allowed s s'
  | step_wdt_open s : wdt_step allowed s (snd (wdt_open s))
  | step_wdt_release s : wdt_step allowed s (snd (wdt_release s)).

(** The second password is in its place. *)
Definition has_password (v : Z) : Prop :=
  forall i, 16 <= i < 24 -> Z.testbit v i = Z.testbit 0xDC (i - 16).

(** [s'] is [s] after one committed word, or with its registers as they were. *)
Inductive wdt_change (s s' : wdt_state) : Prop :=
  | wdt_same : whw s' = whw s -> cr_writes s' = cr_writes s -> wdt_change s s'
  | wdt_commit v : has_password v -> whw s' = whw (commit v s) ->
      cr_writes s' = cr_writes s ++ [PW1_WORD; v] -> wdt_change s s'.

Lemma const_password v :
  forallb (fun i => negb ((16 <=? i) && (i <? 24)) || eqb (Z.testbit v i) (Z.testbit 0xDC (i - 16)))
    (map Z.of_nat (seq 0 32)) = true -> has_password v.
Proof.
  intros H i Hi. pose proof (bits32 _ H i ltac:(lia)) as Hb. cbv beta in Hb.
  rewrite (proj2 (Z.leb_le 16 i)), (proj2 (Z.ltb_lt i 24)) in Hb by lia. by apply eqb_prop.
Qed.

Lemma enable_password cr n : has_password (enable_word cr n).
Proof.
  intros i Hi. rewrite enable_word_bits by lia.
  by rewrite (proj2 (Z.ltb_ge i 16)), (proj2 (Z.ltb_lt i 24)) by lia.
Qed.

Lemma field_password cr mask v sh :
  24 <= sh <= 30 ->
  (forall i, 0 <= i < 32 ->
   Z.testbit (0xff00ffff .& mask) i = negb (((16 <=? i) && (i <? 24)) || ((sh <=? i) && (i <? sh + 2)))) ->
  has_password (field_word cr mask v sh).
Proof.
  intros Hs Hm i Hi. rewrite field_word_bits by (lia || apply Hm; lia). unfold replaced.
  rewrite (proj2 (Z.leb_gt sh i)) by lia. cbn [andb].
  by rewrite (proj2 (Z.leb_le 16 i)), (proj2 (Z.ltb_lt i 24)) by lia.
Qed.

Lemma commit_change v s t : has_password v -> wdt_change s (set_timeout t (commit v s)).
Proof.
  intros H. apply (wdt_commit _ _ v); [done|done|]. cbn. by rewrite <- app_assoc.
Qed.

Lemma set_timeout_id s : set_timeout (timeout s) s = s.
Proof. by destruct s. Qed.

Lemma commit_timeout v t s : commit v (set_timeout t s) = set_timeout t (commit v s).
Proof. done. Qed.

Lemma commit_change' v s : has_password v -> wdt_change s (commit v s).
Proof. intros H. rewrite <- (set_timeout_id (commit v s)). by apply commit_change. Qed.

Lemma mode_password en w : (w = DANUBE_BIU_WDT_CR_LPEN \/ w = DANUBE_BIU_WDT_CR_DSEN) ->
  has_password (0xDC .<< 16 .| if (en : Z) =? 0 then 0 else w).
Proof. intros [-> | ->]; destruct (en =? 0); apply const_password; vm_compute; reflexivity. Qed.

Lemma enable_change t s t' r s' :
  wdt_enable t s = Some (r, s') -> wdt_change s (set_timeout t' s').
Proof.
  intros H. destruct (cgu_get_cpu_clock (whw s)) as [c|] eqn:E;
    [|unfold wdt_enable in H; by rewrite E in H].
  rewrite (wdt_enable_eq t c s E) in H. cbv zeta in H. destruct (_ >? _); simplify_eq.
  - by apply wdt_same.
  - apply commit_change, enable_password.
Qed.

Lemma ioctl_change cmd copied v s r o s' :
  wdt_ioctl cmd copied v s = Some (r, o, s') -> wdt_change s s'.
Proof.
  unfold wdt_ioctl.
  destruct (cmd =? DANUBE_WDT_IOC_START).
  { destruct (negb copied); [intros [= _ _ <-]; by apply wdt_same|].
    destruct (wdt_enable v (set_timeout v s)) as [[x s1]|] eqn:E; cbn [mbind option_bind]; [|done].
    assert (H : wdt_change s (set_timeout (if x <? 0 then - 1 else timeout s1) s1)).
    { destruct (enable_change v (set_timeout v s) (if x <? 0 then - 1 else timeout s1) x s1 E) as [H1 H2|w Hw H1 H2].
      - by apply wdt_same.
      - by apply (wdt_commit _ _ w). }
    destruct (x <? 0); intros [= _ _ <-]; [done|]. by rewrite set_timeout_id in H. }
  destruct (cmd =? DANUBE_WDT_IOC_STOP).
  { intros [= _ _ <-]. rewrite wdt_disable_eq, commit_timeout. apply commit_change, const_password.
    vm_compute. reflexivity. }
  destruct (cmd =? DANUBE_WDT_IOC_PING).
  { destruct (timeout s <? 0); [intros [= _ _ <-]; by apply wdt_same|].
    destruct (wdt_enable _ s) as [[x s1]|] eqn:E; cbn [mbind option_bind]; [|done].
    intros [= _ _ <-]. rewrite <- (set_timeout_id s1). by eapply enable_change. }
  destruct (cmd =? DANUBE_WDT_IOC_SET_PWL).
  { intros [= _ _ <-]. rewrite wdt_prewarning_limit_eq. apply commit_change', field_password; [lia|].
    apply mask_pwl_bits. }
  destruct (cmd =? DANUBE_WDT_IOC_SET_DSEN).
  { intros [= _ _ <-]. rewrite wdt_debug_suspend_eq. apply commit_change', mode_password. by right. }
  destruct (cmd =? DANUBE_WDT_IOC_SET_LPEN).
  { intros [= _ _ <-]. rewrite wdt_low_power_eq. apply commit_change', mode_password. by left. }
  destruct (cmd =? DANUBE_WDT_IOC_SET_CLKDIV).
  { intros [= _ _ <-]. rewrite wdt_set_clkdiv_eq. apply commit_change', field_password; [lia|].
    apply mask_clkdiv_bits. }
  destruct (cmd =? DANUBE_WDT_IOC_GET_STATUS); intros [= _ _ <-]; by apply wdt_same.
Qed.

(** [l] is a sequence of password pairs. *)
Definition paired (l : list Z) : Prop :=
  exists vs, l = flat_map (fun v => [PW1_WORD; v]) vs /\ Forall has_password vs.

Lemma paired_snoc l v : paired l -> has_password v -> paired (l ++ [PW1_WORD; v]).
Proof.
  intros (vs & -> & Hf) Hv. exists (vs ++ [v]). split.
  - by rewrite flat_map_app.
  - apply Forall_app. by split; [|constructor].
Qed.

(** C39: Whatever the clients call, the writes to the control register are
    complete pairs: a word with the first password, then a word with the
    second; no call leaves the register half-way through the protocol. *)
Theorem wdt_password_pairs allowed s s' :
  rtc (wdt_step allowed) s s' -> paired (cr_writes s) -> paired (cr_writes s').
Proof.
  intros Hs. induction Hs as [|x y z Hxy _ IH]; [done|]. intros Hp. apply IH.
  destruct Hxy as [cmd copied v s r o s' _ E|s|s].
  - destruct (ioctl_change _ _ _ _ _ _ _ E) as [_ H|w Hw _ H]; rewrite H; [done|by apply paired_snoc].
  - unfold wdt_open. by destruct (occupied s =? 1).
  - done.
Qed.

(** No start: every command but [DANUBE_WDT_IOC_START]. *)
Definition no_start (cmd : Z) : bool := negb (cmd =? DANUBE_WDT_IOC_START).

(** Stopped: pings are refused and the enable bit is clear. *)
Definition wdt_stopped (s : wdt_state) : Prop :=
  timeout s < 0 /\ Z.testbit (read_cr s) 31 = false.

Lemma ioctl_stopped cmd copied v s r o s' :
  no_start cmd = true -> wdt_ioctl cmd copied v s = Some (r, o, s') -> wdt_stopped s -> wdt_stopped s'.
Proof.
  intros Hn. unfold wdt_ioctl. unfold no_start in Hn. apply negb_true_iff in Hn. rewrite Hn.
  assert (Hc : forall w t, Z.testbit w 31 = false -> t < 0 -> wdt_stopped (set_timeout t (commit w s))).
  { intros w t Hw Ht. split; [done|]. change (read_cr (set_timeout t (commit w s))) with (read_cr (commit w s)).
    by destruct (commit_facts w s) as (-> & _). }
  assert (Hm : forall en w, Z.testbit w 31 = false -> timeout s < 0 ->
    wdt_stopped (commit (0xDC .<< 16 .| if (en : Z) =? 0 then 0 else w) s)).
  { intros en w Hw Ht. rewrite <- (set_timeout_id (commit _ s)). apply Hc; [|done].
    rewrite Z.lor_spec. by destruct (en =? 0). }
  intros E [Ht Hb]. revert E. destruct (cmd =? DANUBE_WDT_IOC_STOP).
  { intros [= _ _ <-]. rewrite wdt_disable_eq, commit_timeout. by apply Hc. }
  destruct (cmd =? DANUBE_WDT_IOC_PING).
  { rewrite (proj2 (Z.ltb_lt (timeout s) 0)) by done. by intros [= _ _ <-]. }
  destruct (cmd =? DANUBE_WDT_IOC_SET_PWL).
  { intros [= _ _ <-]. rewrite wdt_prewarning_limit_eq, <- (set_timeout_id (commit _ s)).
    apply Hc; [|done]. rewrite field_word_bits; [exact Hb|lia|lia|by apply mask_pwl_bits]. }
  destruct (cmd =? DANUBE_WDT_IOC_SET_DSEN).
  { intros [= _ _ <-]. rewrite wdt_debug_suspend_eq. by apply Hm. }
  destruct (cmd =? DANUBE_WDT_IOC_SET_LPEN).
  { intros [= _ _ <-]. rewrite wdt_low_power_eq. by apply Hm. }
  destruct (cmd =? DANUBE_WDT_IOC_SET_CLKDIV).
  { intros [= _ _ <-]. rewrite wdt_set_clkdiv_eq, <- (set_timeout_id (commit _ s)).
    apply Hc; [|done]. rewrite field_word_bits; [exact Hb|lia|lia|by apply mask_clkdiv_bits]. }
  destruct (cmd =? DANUBE_WDT_IOC_GET_STATUS); intros [= _ _ <-]; by split.
Qed.

(** Once stopped, the watchdog stays stopped until a start: over any
    sequence of other calls, pings included, the enable bit stays clear and
    every ping is answered with EIO and touches no register. *)
Theorem wdt_stopped_stays s s' copied v :
  wdt_stopped s -> rtc (wdt_step no_start) s s' ->
  wdt_stopped s' /\ wdt_ioctl DANUBE_WDT_IOC_PING copied v s' = Some (- EIO, None, s').
Proof.
  intros H Hs. assert (H' : wdt_stopped s').
  { induction Hs as [|x y z Hxy _ IH]; [done|]. apply IH.
    destruct Hxy as [cmd cp w s r o s' Ha E|s|s]; [by eapply ioctl_stopped| |done].
    unfold wdt_open. by destruct (occupied s =? 1). }
  split; [done|]. destruct H' as [Ht _]. unfold wdt_ioctl.
  change (DANUBE_WDT_IOC_PING =? DANUBE_WDT_IOC_START) with false.
  change (DANUBE_WDT_IOC_PING =? DANUBE_WDT_IOC_STOP) with false.
  change (DANUBE_WDT_IOC_PING =? DANUBE_WDT_IOC_PING) with true. cbv iota.
  by rewrite (proj2 (Z.ltb_lt (timeout s') 0)) by done.
Qed.

(** ** Witnesses *)

(** 333 MHz processor clock, divider 262144, watchdog stopped. *)
Definition sample_wdt : wdt_state :=
  mk_wdt (upd nominal_hw DANUBE_BIU_WDT_CR (3 .<< 24)) [] (-1) 0.

Lemma sample_clock : cgu_get_cpu_clock (whw sample_wdt) = Some 333000000.
Proof. vm_compute. reflexivity. Qed.

Lemma wdt_enable_outcomes_witness :
  wdt_enable 100 sample_wdt = Some (- EINVAL, sample_wdt) /\
  exists s', wdt_enable (-1) sample_wdt = Some (0, s').
Proof.
  destruct (wdt_enable_outcomes 100 333000000 sample_wdt sample_clock ltac:(lia)) as (_ & H & _).
  destruct (wdt_enable_outcomes (-1) 333000000 sample_wdt sample_clock ltac:(lia)) as (_ & _ & H').
  split; [apply H; [lia|vm_compute; split; reflexivity]|].
  destruct (H' ltac:(lia) ltac:(vm_compute; congruence)) as (v & s' & E & _). by exists s'.
Defined.

Lemma wdt_field_routines_witness :
  DANUBE_BIU_WDT_CR_PWL_GET (read_cr (wdt_prewarning_limit 2 sample_wdt)) = 2.
Proof. exact (proj1 (proj2 (proj2 (wdt_field_routines 2 sample_wdt)))). Defined.

Lemma wdt_modes_stop_witness : Z.testbit (read_cr (wdt_low_power 1 sample_wdt)) 31 = false.
Proof. exact (proj1 (proj1 (wdt_modes_stop 1 sample_wdt))). Defined.

Lemma sample_step : rtc (wdt_step no_start) sample_wdt (wdt_set_clkdiv 1 sample_wdt).
Proof. eapply rtc_once, (step_wdt_ioctl _ DANUBE_WDT_IOC_SET_CLKDIV true 1); done. Qed.

Lemma wdt_password_pairs_witness : paired (cr_writes (wdt_set_clkdiv 1 sample_wdt)).
Proof.
  apply (wdt_password_pairs no_start sample_wdt); [apply sample_step|]. by exists [].
Defined.

Lemma wdt_stopped_stays_witness :
  wdt_ioctl DANUBE_WDT_IOC_PING true 0 (wdt_set_clkdiv 1 sample_wdt)
  = Some (- EIO, None, wdt_set_clkdiv 1 sample_wdt).
Proof.
  refine (proj2 (wdt_stopped_stays sample_wdt _ true 0 _ sample_step)).
  split; [done|vm_compute; reflexivity].
Defined.
