(* ===== verification/Gptu.v ===== *)
(** * General purpose timer unit ([drivers/char/danube_gptu.c])

    The driver shares up to twelve 16-bit timers among its clients; two
    neighbouring ones make a 32-bit timer.  It keeps a bit set of occupied
    timers, the flags each was requested with, and the interrupt line of each.
    The file models every operation of the driver, its divider computation, the
    interrupt handler, the ioctl and start-up, and proves that occupation,
    flags, power state and interrupt enables stay consistent, that no timer is
    given to two clients, and what the divider computation yields.

    Registers are a store from addresses to words.  A value of type [option]
    is [None] where the code does not return: it panics, blocks on a semaphore
    it holds itself, or leaves the timer table. *)

From Stdlib Require Import FunctionalExtensionality.
From S2P Require Import Prelude Icu Arith64 Cgu.
Open Scope Z_scope.

(** ** Constants *)

Definition MAX_NUM_OF_32BIT_TIMER_BLOCKS : Z := 6.
Definition TIMER (n X : Z) : Z := n * 2 + (if X =? 0 then 0 else 1).
Definition TIMER1A : Z := TIMER 1 0.
Definition TIMER1B : Z := TIMER 1 1.
Definition FIRST_TIMER : Z := TIMER1A.
Definition TIMER_INTERRUPT : Z := INT_NUM_IM3_IRL0 + 22.

Definition SET_BITS (x msb lsb value : Z) : Z :=
  (x .& .~ ((1 .<< (msb + 1) - 1) .^ (1 .<< lsb - 1))) .|
  ((value .& (1 .<< (1 + msb - lsb) - 1)) .<< lsb).

Definition DANUBE_GPTU : Z := 0xBE100A00.
Definition DANUBE_GPTU_CLC : Z := DANUBE_GPTU + 0x0000.
Definition DANUBE_GPTU_ID : Z := DANUBE_GPTU + 0x0008.
Definition DANUBE_GPTU_CON (n X : Z) : Z := DANUBE_GPTU + 0x0010 + X * 4 + (n - 1) * 0x0020.
Definition DANUBE_GPTU_RUN (n X : Z) : Z := DANUBE_GPTU + 0x0018 + X * 4 + (n - 1) * 0x0020.
Definition DANUBE_GPTU_RELOAD (n X : Z) : Z := DANUBE_GPTU + 0x0020 + X * 4 + (n - 1) * 0x0020.
Definition DANUBE_GPTU_COUNT (n X : Z) : Z := DANUBE_GPTU + 0x0028 + X * 4 + (n - 1) * 0x0020.
Definition DANUBE_GPTU_IRNEN : Z := DANUBE_GPTU + 0x00F4.
Definition DANUBE_GPTU_IRNCR : Z := DANUBE_GPTU + 0x00FC.
Definition PMU_CR : Z := 0xBF10201C.
Definition PMU_SR : Z := 0xBF102020.

Definition GPTU_ID_CFG (hw : Z -> Z) : Z := GET_BITS (hw DANUBE_GPTU_ID) 7 5.
Definition GPTU_CON_EN (hw : Z -> Z) (n X : Z) : Z := hw (DANUBE_GPTU_CON n X) .& 1 .<< 0.

Definition GPTU_CLC_SMC_SET (v : Z) : Z := SET_BITS 0 23 16 v.
Definition GPTU_CLC_RMC_SET (v : Z) : Z := SET_BITS 0 15 8 v.
Definition flag_bit (b : bool) (n : Z) : Z := if b then 1 .<< n else 0.
Definition GPTU_CLC_FSOE_SET (b : bool) : Z := flag_bit b 5.
Definition GPTU_CLC_SBWE_SET (b : bool) : Z := flag_bit b 4.
Definition GPTU_CLC_EDIS_SET (b : bool) : Z := flag_bit b 3.
Definition GPTU_CLC_SPEN_SET (b : bool) : Z := flag_bit b 2.
Definition GPTU_CLC_DISR_SET (b : bool) : Z := flag_bit b 0.
Definition GPTU_CON_SRC_EG_SET (b : bool) : Z := if b then 0 else 1 .<< 10.
Definition GPTU_CON_SRC_EXT_SET (b : bool) : Z := flag_bit b 9.
Definition GPTU_CON_SYNC_SET (b : bool) : Z := flag_bit b 8.
Definition GPTU_CON_EDGE_SET (v : Z) : Z := SET_BITS 0 7 6 v.
Definition GPTU_CON_INV_SET (b : bool) : Z := flag_bit b 5.
Definition GPTU_CON_EXT_SET (b : bool) : Z := flag_bit b 4.
Definition GPTU_CON_STP_SET (b : bool) : Z := flag_bit b 3.
Definition GPTU_CON_CNT_SET (b : bool) : Z := flag_bit b 2.
Definition GPTU_CON_DIR_SET (b : bool) : Z := flag_bit b 1.
Definition GPTU_RUN_RL_SET (b : bool) : Z := flag_bit b 2.
Definition GPTU_RUN_CEN_SET (b : bool) : Z := flag_bit b 1.
Definition GPTU_RUN_SEN_SET (b : bool) : Z := flag_bit b 0.
Definition GPTU_IRNEN_TC_SET (n X : Z) (b : bool) : Z := flag_bit b ((n - 1) * 2 + X).
Definition GPTU_IRNCR_TC_SET (n X : Z) (b : bool) : Z := flag_bit b ((n - 1) * 2 + X).

Definition TIMER_FLAG_16BIT : Z := 0x0000.
Definition TIMER_FLAG_32BIT : Z := 0x0001.
Definition TIMER_FLAG_TIMER : Z := 0x0000.
Definition TIMER_FLAG_COUNTER : Z := 0x0002.
Definition TIMER_FLAG_ONCE : Z := 0x0000.
Definition TIMER_FLAG_CYCLIC : Z := 0x0004.
Definition TIMER_FLAG_UP : Z := 0x0000.
Definition TIMER_FLAG_DOWN : Z := 0x0008.
Definition TIMER_FLAG_RISE_EDGE : Z := 0x0010.
Definition TIMER_FLAG_FALL_EDGE : Z := 0x0020.
Definition TIMER_FLAG_ANY_EDGE : Z := 0x0030.
Definition TIMER_FLAG_UNSYNC : Z := 0x0000.
Definition TIMER_FLAG_SYNC : Z := 0x0080.
Definition TIMER_FLAG_NO_HANDLE : Z := 0x0000.
Definition TIMER_FLAG_CALLBACK_IN_IRQ : Z := 0x0100.
Definition TIMER_FLAG_CALLBACK_IN_HB : Z := 0x0200.
Definition TIMER_FLAG_SIGNAL : Z := 0x0300.
Definition TIMER_FLAG_INT_SRC : Z := 0x0000.
Definition TIMER_FLAG_EXT_SRC : Z := 0x1000.
Definition TIMER_FLAG_REAL : Z := 0x0000.

Definition TIMER_FLAG_MASK_SIZE (x : Z) : Z := x .& 0x0001.
Definition TIMER_FLAG_MASK_TYPE (x : Z) : Z := x .& 0x0002.
Definition TIMER_FLAG_MASK_STOP (x : Z) : Z := x .& 0x0004.
Definition TIMER_FLAG_MASK_DIR (x : Z) : Z := x .& 0x0008.
Definition TIMER_FLAG_MASK_EDGE (x : Z) : Z := x .& 0x0030.
Definition TIMER_FLAG_MASK_INVERT (x : Z) : Z := x .& 0x0040.
Definition TIMER_FLAG_MASK_TRIGGER (x : Z) : Z := x .& 0x0070.
Definition TIMER_FLAG_MASK_SYNC (x : Z) : Z := x .& 0x0080.
Definition TIMER_FLAG_MASK_HANDLE (x : Z) : Z := x .& 0x0300.
Definition TIMER_FLAG_MASK_SRC (x : Z) : Z := x .& 0x1000.

Definition is_16bit (flag : Z) : bool := TIMER_FLAG_MASK_SIZE flag =? TIMER_FLAG_16BIT.

(** ** State *)

Record timer_dev_timer := mk_timer {
  f_irq_on : bool; irq : Z; flag : Z; arg1 : Z; arg2 : Z
}.

(** What the interrupt handler does to its clients, and the interrupt lines
    and the device the driver takes and gives back. *)
Inductive timer_event :=
  | Callback (f arg : Z) | SendSig (sig task : Z)
  | RequestIrq (n : Z) | FreeIrq (n : Z) | MiscRegister | MiscDeregister.

Record timer_dev := mk_tdev {
  tsem : Z;                        (* count of the semaphore *)
  number_of_timers : Z;
  occupation : Z;
  f_gptu_on : bool;
  timer : Z -> timer_dev_timer;    (* MAX_NUM_OF_32BIT_TIMER_BLOCKS * 2 entries *)
  thw : Z -> Z;                    (* registers *)
  irq_depth : Z -> Z;              (* disable_irq less enable_irq, per line *)
  events : list timer_event
}.

Definition set_tsem (n : Z) (d : timer_dev) : timer_dev :=
  mk_tdev n (number_of_timers d) (occupation d) (f_gptu_on d) (timer d) (thw d) (irq_depth d) (events d).
Definition set_number (n : Z) (d : timer_dev) : timer_dev :=
  mk_tdev (tsem d) n (occupation d) (f_gptu_on d) (timer d) (thw d) (irq_depth d) (events d).
Definition set_occupation (o : Z) (d : timer_dev) : timer_dev :=
  mk_tdev (tsem d) (number_of_timers d) o (f_gptu_on d) (timer d) (thw d) (irq_depth d) (events d).
Definition set_gptu_on (b : bool) (d : timer_dev) : timer_dev :=
  mk_tdev (tsem d) (number_of_timers d) (occupation d) b (timer d) (thw d) (irq_depth d) (events d).
Definition set_timers (f : Z -> timer_dev_timer) (d : timer_dev) : timer_dev :=
  mk_tdev (tsem d) (number_of_timers d) (occupation d) (f_gptu_on d) f (thw d) (irq_depth d) (events d).
Definition set_thw (h : Z -> Z) (d : timer_dev) : timer_dev :=
  mk_tdev (tsem d) (number_of_timers d) (occupation d) (f_gptu_on d) (timer d) h (irq_depth d) (events d).
Definition set_depth (f : Z -> Z) (d : timer_dev) : timer_dev :=
  mk_tdev (tsem d) (number_of_timers d) (occupation d) (f_gptu_on d) (timer d) (thw d) f (events d).
Definition set_events (l : list timer_event) (d : timer_dev) : timer_dev :=
  mk_tdev (tsem d) (number_of_timers d) (occupation d) (f_gptu_on d) (timer d) (thw d) (irq_depth d) l.

Definition wreg (a v : Z) (d : timer_dev) : timer_dev := set_thw (upd (thw d) a v) d.
Definition put_timer (i : Z) (t : timer_dev_timer) (d : timer_dev) : option timer_dev :=
  if (0 <=? i) && (i <? MAX_NUM_OF_32BIT_TIMER_BLOCKS * 2)
  then Some (set_timers (fun j => if j =? i then t else timer d j) d) else None.
Definition get_timer (i : Z) (d : timer_dev) : option timer_dev_timer :=
  if (0 <=? i) && (i <? MAX_NUM_OF_32BIT_TIMER_BLOCKS * 2) then Some (timer d i) else None.

Definition down (d : timer_dev) : option timer_dev :=
  if tsem d <=? 0 then None else Some (set_tsem (tsem d - 1) d).
Definition up (d : timer_dev) : timer_dev := set_tsem (tsem d + 1) d.

Definition enable_irq (n : Z) (d : timer_dev) : timer_dev :=
  set_depth (upd (irq_depth d) n (irq_depth d n - 1)) d.
Definition disable_irq (n : Z) (d : timer_dev) : timer_dev :=
  set_depth (upd (irq_depth d) n (irq_depth d n + 1)) d.

Definition emit (e : timer_event) (d : timer_dev) : timer_dev := set_events (events d ++ [e]) d.

(** ** Power *)

(** The PMU reports the module busy as long as [pmu_busy]; the argument is the
    loop counter at the poll.  [fuel] bounds the iterations. *)
Fixpoint pmu_wait (fuel : nat) (pmu_busy : Z -> bool) (i : Z) : option Z :=
  match fuel with
  | O => None
  | S fuel =>
      let i := i - 1 in
      if negb (i =? 0) && pmu_busy i then pmu_wait fuel pmu_busy i else Some i
  end.
Definition PMU_POLLS : Z := 1000000.

Definition enable_gptu (pmu_busy : Z -> bool) (d : timer_dev) : option timer_dev :=
  let d := wreg PMU_CR (thw d PMU_CR .& .~ (1 .<< 12)) d in
  i ← pmu_wait (Z.to_nat PMU_POLLS) pmu_busy PMU_POLLS;
  if i =? 0 then None (* panic *) else
  Some (wreg DANUBE_GPTU_CLC
    (GPTU_CLC_SMC_SET 0x00 .| GPTU_CLC_RMC_SET 0x01 .| GPTU_CLC_FSOE_SET false
     .| GPTU_CLC_SBWE_SET true .| GPTU_CLC_EDIS_SET false .| GPTU_CLC_SPEN_SET false
     .| GPTU_CLC_DISR_SET false) d).

Definition disable_gptu (d : timer_dev) : timer_dev :=
  let d := wreg DANUBE_GPTU_IRNEN 0x0000 d in
  let d := wreg DANUBE_GPTU_IRNCR 0x0FFF d in
  let d := wreg DANUBE_GPTU_CLC
    (GPTU_CLC_SMC_SET 0x00 .| GPTU_CLC_RMC_SET 0x00 .| GPTU_CLC_FSOE_SET false
     .| GPTU_CLC_SBWE_SET false .| GPTU_CLC_EDIS_SET false .| GPTU_CLC_SPEN_SET false
     .| GPTU_CLC_DISR_SET true) d in
  wreg PMU_CR (thw d PMU_CR .| 1 .<< 12) d.

(** ** Requesting a timer *)

(** The loop that looks for a free timer: [n] is enough for its iterations. *)
Fixpoint pick_timer (n : nat) (timer mask shift : Z) (number occupation : Z) : Z * Z :=
  match n with
  | O => (timer, occupation)
  | S n =>
      if timer <? FIRST_TIMER + number then
        if occupation .& mask =? 0 then (timer, occupation .| mask)
        else pick_timer n (timer + shift) (w32 (mask .<< shift)) shift number occupation
      else (timer, occupation)
  end.

(** The occupied timer, the value to return and the new occupation, or an error. *)
Definition allocate_timer (timer flag : Z) (d : timer_dev) : Z + (Z * Z * Z) :=
  if timer <? FIRST_TIMER then
    let '(mask, shift) := if is_16bit flag then (1 .<< FIRST_TIMER, 1) else (3 .<< FIRST_TIMER, 2) in
    let '(timer, occ) :=
      pick_timer (Z.to_nat (number_of_timers d)) FIRST_TIMER mask shift
        (number_of_timers d) (occupation d) in
    if timer >=? FIRST_TIMER + number_of_timers d then inl (- EBUSY) else inr (timer, timer, occ)
  else
    let mask := w32 ((if is_16bit flag then 1 else 3) .<< timer) in
    if negb (occupation d .& mask =? 0) then inl (- EBUSY)
    else inr (timer, 0, occupation d .| mask).

Definition con_of_flag (flag : Z) : Z :=
  let edge := TIMER_FLAG_MASK_EDGE flag in
  let con_reg :=
    if edge =? TIMER_FLAG_RISE_EDGE then GPTU_CON_EDGE_SET 0x01
    else if edge =? TIMER_FLAG_FALL_EDGE then GPTU_CON_EDGE_SET 0x02
    else if edge =? TIMER_FLAG_ANY_EDGE then GPTU_CON_EDGE_SET 0x03
    else GPTU_CON_EDGE_SET 0x00 in
  let ext := TIMER_FLAG_MASK_SRC flag =? TIMER_FLAG_EXT_SRC in
  let con_reg := con_reg .| (if TIMER_FLAG_MASK_TYPE flag =? TIMER_FLAG_TIMER
                             then GPTU_CON_SRC_EXT_SET ext else GPTU_CON_SRC_EG_SET ext) in
  let con_reg := con_reg .| GPTU_CON_SYNC_SET (negb (TIMER_FLAG_MASK_SYNC flag =? TIMER_FLAG_UNSYNC)) in
  let con_reg := con_reg .| GPTU_CON_INV_SET (negb (TIMER_FLAG_MASK_INVERT flag =? TIMER_FLAG_REAL)) in
  let con_reg := con_reg .| GPTU_CON_EXT_SET (negb (is_16bit flag)) in
  let con_reg := con_reg .| GPTU_CON_STP_SET (TIMER_FLAG_MASK_STOP flag =? TIMER_FLAG_ONCE) in
  let con_reg := con_reg .| GPTU_CON_CNT_SET (negb (TIMER_FLAG_MASK_TYPE flag =? TIMER_FLAG_TIMER)) in
  con_reg .| GPTU_CON_DIR_SET (TIMER_FLAG_MASK_DIR flag =? TIMER_FLAG_UP).

(** [find_task_by_pid] is the kernel's, [pmu_busy] the hardware's answer. *)
Section request.
Context (find_task_by_pid : Z -> Z) (pmu_busy : Z -> bool).

(** The running data and the interrupt of the timer with index [t]. *)
Definition fill_timer (t flag arg1 arg2 : Z) (d : timer_dev) : option timer_dev :=
  x ← get_timer t d;
  d ← put_timer t (mk_timer (f_irq_on x) (irq x) flag arg1 arg2) d;
  if is_16bit flag then Some d else
  y ← get_timer (t + 1) d;
  put_timer (t + 1) (mk_timer (f_irq_on y) (irq y) flag (Gptu.arg1 y) (Gptu.arg2 y)) d.

Definition request_irq_part (t flag a1 : Z) (d : timer_dev) : option (Z * timer_dev) :=
  let handle := TIMER_FLAG_MASK_HANDLE flag in
  if handle =? TIMER_FLAG_NO_HANDLE then Some (0, d) else
  x ← get_timer t d;
  let x := if handle =? TIMER_FLAG_SIGNAL
           then mk_timer (f_irq_on x) (irq x) (Gptu.flag x) (find_task_by_pid (s32 a1)) (Gptu.arg2 x)
           else x in
  d ← put_timer t x d;
  if (handle =? TIMER_FLAG_SIGNAL) ||
     (handle =? TIMER_FLAG_CALLBACK_IN_IRQ) && negb (Gptu.arg1 x =? 0)
  then
    d ← put_timer t (mk_timer true (irq x) (Gptu.flag x) (Gptu.arg1 x) (Gptu.arg2 x))
          (enable_irq (irq x) d);
    Some (1 .<< t, d)
  else Some (1 .<< t, d).

Definition request_timer (timer flag value arg1 arg2 : Z) (d : timer_dev) : option (Z * timer_dev) :=
  if timer >=? FIRST_TIMER + number_of_timers d then Some (- EINVAL, d) else
  let value := if is_16bit flag then value .& 0xFFFF else value in
  let timer := if is_16bit flag then timer else timer .& .~ 0x01 in
  d ← down d;
  match allocate_timer timer flag d with
  | inl err => Some (err, up d)
  | inr (timer, ret, occ) =>
      let con_reg := con_of_flag flag in
      d ← fill_timer (timer - FIRST_TIMER) flag arg1 arg2 (set_occupation occ d);
      d ← (if f_gptu_on d then Some d
           else d ← enable_gptu pmu_busy d; Some (set_gptu_on true d));
      '(irnen_reg, d) ← request_irq_part (timer - FIRST_TIMER) flag arg1 d;
      let n := timer .>> 1 in
      let X := timer .& 0x01 in
      let d := wreg (DANUBE_GPTU_CON n X) con_reg d in
      let d := wreg (DANUBE_GPTU_RELOAD n X) value d in
      let d := wreg DANUBE_GPTU_IRNEN (thw d DANUBE_GPTU_IRNEN .| irnen_reg) d in
      Some (ret, up d)
  end.
End request.

(** ** Using a timer *)

(** The common beginning of the four functions below: an error, or the first
    timer of the pair, its mask and the semaphore taken. *)
Definition claim_timer (timer : Z) (d : timer_dev) : option (Z * timer_dev + Z * Z * timer_dev) :=
  if negb (f_gptu_on d) then Some (inl (- EINVAL, d)) else
  if (timer <? FIRST_TIMER) || (timer >=? FIRST_TIMER + number_of_timers d)
  then Some (inl (- EINVAL, d)) else
  d ← down d;
  x ← get_timer (timer - FIRST_TIMER) d;
  let timer := if is_16bit (flag x) then timer else timer .& .~ 0x01 in
  let mask := w32 ((if is_16bit (flag x) then 1 else 3) .<< timer) in
  if negb ((occupation d .& mask) .^ mask =? 0) then Some (inl (- EINVAL, up d))
  else Some (inr (timer, mask, d)).

Definition free_timer (timer : Z) (d : timer_dev) : option (Z * timer_dev) :=
  c ← claim_timer timer d;
  match c with
  | inl r => Some r
  | inr (timer, mask, d) =>
      let n := timer .>> 1 in
      let X := timer .& 0x01 in
      let d := if negb (GPTU_CON_EN (thw d) n X =? 0)
               then wreg (DANUBE_GPTU_RUN n X) (GPTU_RUN_CEN_SET true) d else d in
      let d := wreg DANUBE_GPTU_IRNEN (thw d DANUBE_GPTU_IRNEN .& .~ (GPTU_IRNEN_TC_SET n X true)) d in
      let d := wreg DANUBE_GPTU_IRNCR (thw d DANUBE_GPTU_IRNCR .| GPTU_IRNCR_TC_SET n X true) d in
      x ← get_timer (timer - FIRST_TIMER) d;
      d ← (if f_irq_on x
           then put_timer (timer - FIRST_TIMER)
                  (mk_timer false (irq x) (flag x) (arg1 x) (arg2 x)) (disable_irq (irq x) d)
           else Some d);
      let d := set_occupation (occupation d .& .~ mask) d in
      let d := if (occupation d =? 0) && f_gptu_on d then set_gptu_on false (disable_gptu d) else d in
      Some (0, up d)
  end.

Definition start_timer (timer is_resume : Z) (d : timer_dev) : option (Z * timer_dev) :=
  c ← claim_timer timer d;
  match c with
  | inl r => Some r
  | inr (timer, _, d) =>
      Some (0, up (wreg (DANUBE_GPTU_RUN (timer .>> 1) (timer .& 0x01))
                     (GPTU_RUN_RL_SET (is_resume =? 0) .| GPTU_RUN_SEN_SET true) d))
  end.

Definition stop_timer (timer : Z) (d : timer_dev) : option (Z * timer_dev) :=
  c ← claim_timer timer d;
  match c with
  | inl r => Some r
  | inr (timer, _, d) =>
      Some (0, up (wreg (DANUBE_GPTU_RUN (timer .>> 1) (timer .& 0x01)) (GPTU_RUN_CEN_SET true) d))
  end.

(** The second component is the value stored, if one is. *)
Definition get_count_value (timer : Z) (d : timer_dev) : option (Z * option Z * timer_dev) :=
  c ← claim_timer timer d;
  match c with
  | inl (r, d) => Some (r, None, d)
  | inr (timer, _, d) =>
      Some (0, Some (thw d (DANUBE_GPTU_COUNT (timer .>> 1) (timer .& 0x01))), up d)
  end.

(** [timer] is the line's number less the first; [dev_timer] the index of the
    entry the line was registered with. *)
Definition timer_irq_handler (irq dev_timer : Z) (d : timer_dev) : timer_dev :=
  let timer := w32 (irq - TIMER_INTERRUPT) in
  if (timer <? number_of_timers d) && (dev_timer =? timer) then
    let d := wreg DANUBE_GPTU_IRNCR (1 .<< timer) d in
    let x := Gptu.timer d dev_timer in
    if (timer .& 0x01 =? 0) || is_16bit (flag x) then
      let handle := TIMER_FLAG_MASK_HANDLE (flag x) in
      if (handle =? TIMER_FLAG_CALLBACK_IN_IRQ) || (handle =? TIMER_FLAG_CALLBACK_IN_HB) then
        if negb (arg1 x =? 0) then emit (Callback (arg1 x) (arg2 x)) d else d
      else if handle =? TIMER_FLAG_SIGNAL then
        emit (SendSig (s32 (arg2 x)) (arg1 x)) d
      else d
    else d
  else d.

(** ** Frequencies *)

(** [fpi] is [cgu_get_fpi_bus_clock(2)]. *)
Definition cal_divider (fpi freq : Z) : Z :=
  let clock_divider := 1 in
  let module_freq := uint64_multiply fpi 1000 in
  let '(ret, residue) := uint64_divide module_freq (w32 (clock_divider * freq)) in
  if (w32 (residue .<< 1) <? w32 (clock_divider * freq)) && (ret >? 0) then ret - 1 else ret.

Section set.
Context (find_task_by_pid : Z -> Z) (pmu_busy : Z -> bool) (fpi : Z).

Definition set_timer (timer freq is_cyclic is_ext_src handle_flag arg1 arg2 : Z) (d : timer_dev)
  : option (Z * timer_dev) :=
  let divider := cal_divider fpi freq in
  if divider =? 0 then Some (- EINVAL, d) else
  let flag :=
    (if negb (divider .& w32 (.~ 0xFFFF) =? 0) then TIMER_FLAG_32BIT else TIMER_FLAG_16BIT)
    .| (if negb (is_cyclic =? 0) then TIMER_FLAG_CYCLIC else TIMER_FLAG_ONCE)
    .| (if negb (is_ext_src =? 0) then TIMER_FLAG_EXT_SRC else TIMER_FLAG_INT_SRC)
    .| TIMER_FLAG_TIMER .| TIMER_FLAG_DOWN .| TIMER_FLAG_MASK_HANDLE handle_flag in
  request_timer find_task_by_pid pmu_busy timer flag divider arg1 arg2 d.

Definition counter_flag (timer is_32bit is_sync trigger_flag handle_flag : Z) : Z :=
  let common :=
    (if negb (is_sync =? 0) then TIMER_FLAG_SYNC else TIMER_FLAG_UNSYNC)
    .| (if negb (is_32bit =? 0) then TIMER_FLAG_32BIT else TIMER_FLAG_16BIT) in
  let tail := TIMER_FLAG_NO_HANDLE .| TIMER_FLAG_MASK_TRIGGER trigger_flag
              .| TIMER_FLAG_MASK_HANDLE handle_flag in
  if timer =? TIMER1B
  then common .| TIMER_FLAG_CYCLIC .| TIMER_FLAG_COUNTER .| TIMER_FLAG_DOWN .| tail
  else common .| TIMER_FLAG_ONCE .| TIMER_FLAG_COUNTER .| TIMER_FLAG_UP .| tail.

Definition set_counter (timer is_32bit is_sync is_ext_src trigger_flag handle_flag arg1 arg2 : Z)
    (d : timer_dev) : option (Z * timer_dev) :=
  request_timer find_task_by_pid pmu_busy timer
    (counter_flag timer is_32bit is_sync trigger_flag handle_flag) 1 arg1 arg2 d.

(** ** The ioctl *)

Definition GPTU_REQUEST_TIMER : Z := 0x01.
Definition GPTU_FREE_TIMER : Z := 0x02.
Definition GPTU_START_TIMER : Z := 0x03.
Definition GPTU_STOP_TIMER : Z := 0x04.
Definition GPTU_GET_COUNT_VALUE : Z := 0x05.
Definition GPTU_CALCULATE_DIVIDER : Z := 0x06.
Definition GPTU_SET_TIMER : Z := 0x07.
Definition GPTU_SET_COUNTER : Z := 0x08.

Record gptu_ioctl_param := mk_param {
  p_timer : Z; p_flag : Z; p_value : Z; p_pid : Z; p_sig : Z
}.
Definition set_p_timer (v : Z) (p : gptu_ioctl_param) : gptu_ioctl_param :=
  mk_param v (p_flag p) (p_value p) (p_pid p) (p_sig p).
Definition set_p_value (v : Z) (p : gptu_ioctl_param) : gptu_ioctl_param :=
  mk_param (p_timer p) (p_flag p) v (p_pid p) (p_sig p).

(** A positive result is stored in the [timer] member and 0 returned. *)
Definition store_timer (p : gptu_ioctl_param) (r : Z * timer_dev) : Z * gptu_ioctl_param * timer_dev :=
  let '(ret, d) := r in if ret >? 0 then (0, set_p_timer ret p, d) else (ret, p, d).

(** [rok] and [wok]: the user's structure can be read, and written. *)
Definition gptu_ioctl (cmd : Z) (rok wok : bool) (p : gptu_ioctl_param) (d : timer_dev)
  : option (Z * gptu_ioctl_param * timer_dev) :=
  if negb rok then Some (- EFAULT, p, d) else
  if (((cmd =? GPTU_REQUEST_TIMER) || (cmd =? GPTU_SET_TIMER) || negb (GPTU_SET_COUNTER =? 0))
        && (p_timer p <? 2)
      || (cmd =? GPTU_GET_COUNT_VALUE) || (cmd =? GPTU_CALCULATE_DIVIDER)) && negb wok
  then Some (- EFAULT, p, d) else
  let flag := p_flag p in
  let b (c : bool) : Z := if c then 1 else 0 in
  if cmd =? GPTU_REQUEST_TIMER then
    r ← request_timer find_task_by_pid pmu_busy (p_timer p) flag (p_value p) (w32 (p_pid p))
          (w32 (p_sig p)) d;
    Some (store_timer p r)
  else if cmd =? GPTU_FREE_TIMER then
    '(ret, d) ← free_timer (p_timer p) d; Some (ret, p, d)
  else if cmd =? GPTU_START_TIMER then
    '(ret, d) ← start_timer (p_timer p) (s32 flag) d; Some (ret, p, d)
  else if cmd =? GPTU_STOP_TIMER then
    '(ret, d) ← stop_timer (p_timer p) d; Some (ret, p, d)
  else if cmd =? GPTU_GET_COUNT_VALUE then
    '(ret, v, d) ← get_count_value (p_timer p) d;
    Some (ret, match v with Some v => set_p_value v p | None => p end, d)
  else if cmd =? GPTU_CALCULATE_DIVIDER then
    let v := cal_divider fpi (p_value p) in
    if v =? 0 then Some (- EINVAL, p, d) else Some (0, set_p_value v p, d)
  else if cmd =? GPTU_SET_TIMER then
    r ← set_timer (p_timer p) (p_value p)
          (b (negb (TIMER_FLAG_MASK_STOP flag =? TIMER_FLAG_ONCE)))
          (b (TIMER_FLAG_MASK_SRC flag =? TIMER_FLAG_EXT_SRC))
          (if TIMER_FLAG_MASK_HANDLE flag =? TIMER_FLAG_SIGNAL then TIMER_FLAG_SIGNAL
           else TIMER_FLAG_NO_HANDLE)
          (w32 (p_pid p)) (w32 (p_sig p)) d;
    Some (store_timer p r)
  else if cmd =? GPTU_SET_COUNTER then
    r ← set_counter (p_timer p)
          (b (negb (TIMER_FLAG_MASK_SIZE flag =? TIMER_FLAG_16BIT)))
          (b (negb (TIMER_FLAG_MASK_SYNC flag =? TIMER_FLAG_UNSYNC)))
          (b (TIMER_FLAG_MASK_SRC flag =? TIMER_FLAG_EXT_SRC))
          (TIMER_FLAG_MASK_TRIGGER flag) TIMER_FLAG_NO_HANDLE 0 0 d;
    Some (store_timer p r)
  else Some (- ENOTTY, p, d).
End set.

(** ** Start and end of the module *)

(** [for ( ; i >= 0; i-- ) free_irq(...)] with the unsigned counter [i]. *)
Fixpoint free_irq_down (fuel : nat) (i : Z) (d : timer_dev) : option timer_dev :=
  match fuel with
  | O => None
  | S fuel =>
      if i >=? 0
      then free_irq_down fuel (w32 (i - 1)) (emit (FreeIrq (w32 (TIMER_INTERRUPT + i))) d)
      else Some d
  end.

Definition blank_timer : timer_dev_timer := mk_timer false 0 0 0 0.

(** [request_irq], [misc_register] and [pmu_busy] are what the kernel and the
    hardware answer; a granted line starts enabled. *)
Section init.
Context (pmu_busy : Z -> bool) (misc_register : Z) (request_irq : Z -> Z) (fuel : nat).

(** The loop from [i], with [n] iterations left. *)
Fixpoint request_irqs (n : nat) (i : Z) (d : timer_dev) : option (Z * timer_dev) :=
  match n with
  | O => Some (0, up d)
  | S n =>
      let ret := request_irq (TIMER_INTERRUPT + i) in
      if negb (ret =? 0) then
        d ← free_irq_down fuel i d;
        Some (ret, emit MiscDeregister d)
      else
        let d := set_depth (upd (irq_depth d) (TIMER_INTERRUPT + i) 0)
                   (emit (RequestIrq (TIMER_INTERRUPT + i)) d) in
        x ← get_timer i d;
        d ← put_timer i (mk_timer (f_irq_on x) (TIMER_INTERRUPT + i) (flag x) (arg1 x) (arg2 x)) d;
        request_irqs n (i + 1) (disable_irq (TIMER_INTERRUPT + i) d)
  end.

Definition danube_gptu_init (d : timer_dev) : option (Z * timer_dev) :=
  let d := wreg DANUBE_GPTU_IRNEN 0x0000 d in
  let d := wreg DANUBE_GPTU_IRNCR 0x0FFF d in
  let d := mk_tdev 0 0 0 false (fun _ => blank_timer) (thw d) (irq_depth d) (events d) in
  d ← enable_gptu pmu_busy d;
  let d := set_number (GPTU_ID_CFG (thw d) * 2) d in
  let d := disable_gptu d in
  let d := if number_of_timers d >? MAX_NUM_OF_32BIT_TIMER_BLOCKS * 2
           then set_number (MAX_NUM_OF_32BIT_TIMER_BLOCKS * 2) d else d in
  if negb (misc_register =? 0) then Some (misc_register, d)
  else request_irqs (Z.to_nat (number_of_timers d)) 0 (emit MiscRegister d).
End init.

(** The loop from [i], with [n] iterations left. *)
Fixpoint free_irqs (n : nat) (i : Z) (d : timer_dev) : option timer_dev :=
  match n with
  | O => Some d
  | S n =>
      x ← get_timer i d;
      let d := if f_irq_on x then disable_irq (irq x) d else d in
      free_irqs n (i + 1) (emit (FreeIrq (irq x)) d)
  end.

Definition danube_gptu_exit (d : timer_dev) : option timer_dev :=
  d ← free_irqs (Z.to_nat (number_of_timers d)) 0 d;
  Some (emit MiscDeregister (disable_gptu d)).

(** ** Sets of timers as bits *)

(** [owned sz t i]: the timers of a client that got timer [t], of 16 bits iff [sz]. *)
Definition owned (sz : bool) (t i : Z) : bool := (i =? t) || (negb sz && (i =? t + 1)).

Lemma testbit_mask (sz : bool) t i :
  0 <= t -> 0 <= i -> Z.testbit ((if sz then 1 else 3) .<< t) i = owned sz t i.
Proof.
  intros Ht Hi. unfold owned. destruct sz; cbn [negb andb].
  - rewrite testbit_1_shiftl by done. rewrite orb_false_r.
    case_bool_decide; symmetry; [by apply Z.eqb_eq|by apply Z.eqb_neq].
  - change 3 with (1 .| 1 .<< 1). rewrite Z.shiftl_lor, Z.lor_spec, Z.shiftl_shiftl by lia.
    rewrite !testbit_1_shiftl by lia. rewrite (Z.add_comm 1 t).
    f_equal; case_bool_decide; symmetry; (apply Z.eqb_eq || apply Z.eqb_neq); done.
Qed.

Lemma w32_mask (sz : bool) t : 0 <= t <= 30 -> w32 ((if sz then 1 else 3) .<< t) = (if sz then 1 else 3) .<< t.
Proof.
  intros Ht. apply w32_id. unfold is_u32. rewrite Z.shiftl_mul_pow2 by lia.
  assert (2 ^ t <= 2 ^ 30) by (apply Z.pow_le_mono_r; lia).
  assert (0 < 2 ^ t) by (apply Z.pow_pos_nonneg; lia).
  destruct sz; lia.
Qed.

Lemma mask_free occ (sz : bool) t :
  0 <= t -> (occ .& (if sz then 1 else 3) .<< t =? 0) = true <->
  forall i, owned sz t i = true -> Z.testbit occ i = false.
Proof.
  intros Ht. rewrite Z.eqb_eq. split.
  - intros H i Hi.
    assert (0 <= i) by (unfold owned in Hi; bool_prop; destruct Hi; bool_prop; lia).
    assert (Hb : Z.testbit (occ .& (if sz then 1 else 3) .<< t) i = false)
      by (rewrite H; apply Z.bits_0).
    by rewrite Z.land_spec, testbit_mask, Hi, andb_true_r in Hb.
  - intros H. apply Z.bits_inj'. intros i Hi.
    rewrite Z.land_spec, testbit_mask, Z.bits_0 by done.
    destruct (owned sz t i) eqn:E; [rewrite H by done; done|apply andb_false_r].
Qed.

Lemma mask_held occ (sz : bool) t :
  0 <= t ->
  ((occ .& (if sz then 1 else 3) .<< t) .^ (if sz then 1 else 3) .<< t =? 0) = true <->
  forall i, owned sz t i = true -> Z.testbit occ i = true.
Proof.
  intros Ht. rewrite Z.eqb_eq, Z.lxor_eq_0_iff. split.
  - intros H i Hi.
    assert (0 <= i) by (unfold owned in Hi; bool_prop; destruct Hi; bool_prop; lia).
    assert (Hb : Z.testbit (occ .& (if sz then 1 else 3) .<< t) i = true)
      by (rewrite H; by rewrite testbit_mask).
    rewrite Z.land_spec in Hb. by apply andb_prop in Hb as [? _].
  - intros H. apply Z.bits_inj'. intros i Hi.
    rewrite Z.land_spec, testbit_mask by done.
    destruct (owned sz t i) eqn:E; [rewrite H by done; done|apply andb_false_r].
Qed.

(** ** Allocation *)

(** [free_at occ sz t]: a client of [t] owns no timer that is occupied. *)
Definition free_at (occ : Z) (sz : bool) (t : Z) : Prop :=
  forall i, owned sz t i = true -> Z.testbit occ i = false.

Lemma pick_timer_spec sz number occ n : forall t,
  2 <= t -> 0 <= number <= 12 -> 2 + number - t <= Z.of_nat n ->
  let step := if sz : bool then 1 else 2 in
  let '(t', occ') := pick_timer n t ((if sz then 1 else 3) .<< t) step number occ in
  (exists k, 0 <= k /\ t' = t + step * k /\
     forall j, 0 <= j < k -> ~ free_at occ sz (t + step * j)) /\
  (2 + number <= t' /\ occ' = occ \/
   t' < 2 + number /\ free_at occ sz t' /\ occ' = occ .| (if sz then 1 else 3) .<< t').
Proof.
  unfold free_at. change 2 with FIRST_TIMER.
  induction n as [|n IH]; intros t Ht Hn Hf; cbn [pick_timer].
  { split; [exists 0; split_and!; [lia|lia|intros j Hj; lia]|left; lia]. }
  destruct (t <? FIRST_TIMER + number) eqn:E; bool_prop.
  2: { split; [exists 0; split_and!; [lia|lia|intros j Hj; lia]|left; lia]. }
  change FIRST_TIMER with 2 in *.
  destruct (occ .& (if sz then 1 else 3) .<< t =? 0) eqn:F.
  { split; [exists 0; split_and!; [lia|lia|intros j Hj; lia]|right].
    split_and!; [lia| |done]. apply mask_free; [lia|done]. }
  set (step := if sz then 1 else 2) in *.
  assert (Hs : 1 <= step <= 2) by (unfold step; destruct sz; lia).
  rewrite Z.shiftl_shiftl by lia. rewrite w32_mask by lia.
  specialize (IH (t + step) ltac:(lia) Hn ltac:(lia)). cbn zeta in IH.
  destruct (pick_timer n (t + step) _ step number occ) as [t' occ'].
  destruct IH as [(k & Hk & -> & Hj) IH]. split; [|done].
  exists (k + 1). split_and!; [lia|lia|]. intros j Hjk.
  destruct (Z.eq_dec j 0) as [->|].
  - rewrite Z.mul_0_r, Z.add_0_r, <- mask_free by lia. by rewrite F.
  - specialize (Hj (j - 1) ltac:(lia)).
    by replace (t + step * j) with (t + step + step * (j - 1)) by lia.
Qed.

(** A place for a client: a timer of the device, even for a pair. *)
Definition slot (number : Z) (sz : bool) (t : Z) : Prop :=
  2 <= t < 2 + number /\ (sz = false -> Z.even t = true).

Lemma allocate_auto d timer flag :
  (exists k, 0 <= k <= 6 /\ number_of_timers d = 2 * k) -> timer < 2 ->
  let sz := is_16bit flag in
  match allocate_timer timer flag d with
  | inl e => e = - EBUSY /\ forall t, slot (number_of_timers d) sz t -> ~ free_at (occupation d) sz t
  | inr (t, ret, occ) =>
      ret = t /\ slot (number_of_timers d) sz t /\ free_at (occupation d) sz t /\
      occ = occupation d .| (if sz then 1 else 3) .<< t /\
      forall t', slot (number_of_timers d) sz t' -> t' < t -> ~ free_at (occupation d) sz t'
  end.
Proof.
  intros (m & Hm & Hn) Ht sz. unfold allocate_timer.
  rewrite (proj2 (Z.ltb_lt timer FIRST_TIMER)) by (change FIRST_TIMER with 2; lia).
  fold sz. set (mask := if sz then _ else _).
  assert (Hmask : mask = ((if sz then 1 else 3) .<< 2, if sz then 1 else 2)) by (unfold mask; by destruct sz).
  rewrite Hmask.
  pose proof (pick_timer_spec sz (number_of_timers d) (occupation d)
    (Z.to_nat (number_of_timers d)) 2 ltac:(lia) ltac:(lia) ltac:(lia)) as H.
  cbn zeta in H. change FIRST_TIMER with 2.
  destruct (pick_timer _ 2 _ _ _ _) as [t' occ'].
  destruct H as [(k & Hk & Ek & Hj) H].
  assert (Hlow : forall t, slot (number_of_timers d) sz t -> t < t' -> ~ free_at (occupation d) sz t).
  { intros t [[Ha Hb] He] Hlt.
    assert (exists j, 0 <= j /\ t = 2 + (if sz then 1 else 2) * j) as (j & Hj0 & ->).
    { destruct sz; [exists (t - 2); lia|].
      specialize (He eq_refl). apply Z.even_spec in He as [x ->]. exists (x - 1). lia. }
    apply Hj. destruct sz; lia. }
  destruct H as [[Hge ->]|(Hlt & Hfree & ->)].
  - rewrite Z.geb_leb, (proj2 (Z.leb_le _ _)) by lia.
    split; [done|]. intros t Hs. apply Hlow; [done|]. destruct Hs; lia.
  - rewrite Z.geb_leb, (proj2 (Z.leb_gt _ _)) by lia. split_and!; try done.
    split; [destruct sz; lia|]. intros Es. rewrite Es in Ek. rewrite Ek, Z.even_add_mul_2. done.
Qed.

Lemma allocate_given d timer flag :
  2 <= timer < 2 + number_of_timers d -> number_of_timers d <= 12 ->
  let sz := is_16bit flag in
  match allocate_timer timer flag d with
  | inl e => e = - EBUSY /\ ~ free_at (occupation d) sz timer
  | inr (t, ret, occ) =>
      t = timer /\ ret = 0 /\ free_at (occupation d) sz timer /\
      occ = occupation d .| (if sz then 1 else 3) .<< timer
  end.
Proof.
  intros Ht Hn sz. unfold allocate_timer. change FIRST_TIMER with 2.
  rewrite (proj2 (Z.ltb_ge timer 2)) by lia. fold sz. cbn zeta.
  rewrite w32_mask by lia.
  destruct (occupation d .& (if sz then 1 else 3) .<< timer =? 0) eqn:E; cbn [negb].
  - split_and!; try done. unfold free_at. apply mask_free; [lia|done].
  - split; [done|]. unfold free_at. rewrite <- mask_free by lia. by rewrite E.
Qed.

(** ** Power and the effect of a request *)

(** The PMU answers within the polls. *)
Definition pmu_wakes (pmu_busy : Z -> bool) : bool :=
  match pmu_wait (Z.to_nat PMU_POLLS) pmu_busy PMU_POLLS with
  | Some i => negb (i =? 0)
  | None => false
  end.

Lemma pmu_wait_returns busy n : forall i,
  0 < i <= Z.of_nat n ->
  exists j, pmu_wait n busy i = Some j /\ 0 <= j < i /\ (j = 0 \/ busy j = false) /\
    forall k, j < k < i -> busy k = true.
Proof.
  induction n as [|n IH]; intros i Hi; [lia|]. cbn [pmu_wait].
  destruct (i - 1 =? 0) eqn:E0; cbn [negb andb]; bool_prop.
  { exists (i - 1). split_and!; [done|lia..|]. intros k Hk. lia. }
  destruct (busy (i - 1)) eqn:Eb.
  - destruct (IH (i - 1) ltac:(lia)) as (j & -> & Hj & Hz & Hk).
    exists j. split_and!; [done|lia|lia|done|]. intros k Hlt.
    destruct (Z.eq_dec k (i - 1)) as [->|]; [done|]. apply Hk. lia.
  - exists (i - 1). split_and!; [done|lia|lia|by right|]. intros k Hk. lia.
Qed.

Lemma pmu_wakes_iff busy :
  pmu_wakes busy = true <-> exists k, 0 < k < 1000000 /\ busy k = false.
Proof.
  unfold pmu_wakes.
  destruct (pmu_wait_returns busy (Z.to_nat PMU_POLLS) PMU_POLLS) as (j & -> & Hj & Hz & Hk).
  { rewrite Z2Nat.id; unfold PMU_POLLS; lia. }
  unfold PMU_POLLS in *. split.
  - intros H. bool_prop. exists j. destruct Hz; [done|]. split; [lia|done].
  - intros (k & Hr & Hb). apply negb_true_iff, Z.eqb_neq. intros ->.
    rewrite Hk in Hb by lia. done.
Qed.

Definition CLC_ON : Z := 0x110.

Lemma enable_gptu_eq busy d :
  enable_gptu busy d =
  if pmu_wakes busy
  then Some (wreg DANUBE_GPTU_CLC CLC_ON (wreg PMU_CR (thw d PMU_CR .& .~ (1 .<< 12)) d))
  else None.
Proof.
  unfold enable_gptu, pmu_wakes. destruct (pmu_wait _ _ _) as [i|]; cbn [mbind option_bind]; [|done].
  by destruct (i =? 0).
Qed.

Section granted.
Context (find_task_by_pid : Z -> Z) (pmu_busy : Z -> bool).

(** The request enables the timer's interrupt line. *)
Definition fires (flag a1 : Z) : bool :=
  (TIMER_FLAG_MASK_HANDLE flag =? TIMER_FLAG_SIGNAL)
  || (TIMER_FLAG_MASK_HANDLE flag =? TIMER_FLAG_CALLBACK_IN_IRQ) && negb (a1 =? 0).

(** The device after timer [t] was granted, [occ] being the new occupation. *)
Definition grant (t occ flag value a1 a2 : Z) (d : timer_dev) : timer_dev :=
  let sz := is_16bit flag in
  let i := t - 2 in
  let h := if f_gptu_on d then thw d
           else upd (upd (thw d) PMU_CR (thw d PMU_CR .& .~ (1 .<< 12))) DANUBE_GPTU_CLC CLC_ON in
  let h := upd (upd h (DANUBE_GPTU_CON (t .>> 1) (t .& 1)) (con_of_flag flag))
             (DANUBE_GPTU_RELOAD (t .>> 1) (t .& 1)) value in
  mk_tdev (tsem d) (number_of_timers d) occ true
    (fun j =>
       let x := timer d j in
       if j =? i then
         mk_timer (fires flag a1 || f_irq_on x) (irq x) flag
           (if TIMER_FLAG_MASK_HANDLE flag =? TIMER_FLAG_SIGNAL then find_task_by_pid (s32 a1) else a1) a2
       else if negb sz && (j =? i + 1) then mk_timer (f_irq_on x) (irq x) flag (arg1 x) (arg2 x)
       else x)
    (upd h DANUBE_GPTU_IRNEN
       (h DANUBE_GPTU_IRNEN .|
        (if TIMER_FLAG_MASK_HANDLE flag =? TIMER_FLAG_NO_HANDLE then 0 else 1 .<< i)))
    (if fires flag a1 then upd (irq_depth d) (irq (timer d i)) (irq_depth d (irq (timer d i)) - 1)
     else irq_depth d)
    (events d).

Lemma get_timer_in i d : 0 <= i < 12 -> get_timer i d = Some (timer d i).
Proof.
  intros H. unfold get_timer, MAX_NUM_OF_32BIT_TIMER_BLOCKS.
  by rewrite (proj2 (Z.leb_le 0 i)), (proj2 (Z.ltb_lt i _)) by lia.
Qed.

Lemma put_timer_in i x d :
  0 <= i < 12 -> put_timer i x d = Some (set_timers (fun j => if j =? i then x else timer d j) d).
Proof.
  intros H. unfold put_timer, MAX_NUM_OF_32BIT_TIMER_BLOCKS.
  by rewrite (proj2 (Z.leb_le 0 i)), (proj2 (Z.ltb_lt i _)) by lia.
Qed.

Lemma fill_timer_eq i flag a1 a2 d :
  0 <= i < 12 -> (is_16bit flag = false -> i < 11) ->
  fill_timer i flag a1 a2 d = Some (set_timers (fun j =>
    let x := timer d j in
    if j =? i then mk_timer (f_irq_on x) (irq x) flag a1 a2
    else if negb (is_16bit flag) && (j =? i + 1)
    then mk_timer (f_irq_on x) (irq x) flag (arg1 x) (arg2 x) else x) d).
Proof.
  intros Hi H32. unfold fill_timer. rewrite get_timer_in by done. cbn [mbind option_bind].
  rewrite put_timer_in by done. cbn [mbind option_bind].
  destruct (is_16bit flag) eqn:E; cbn [negb andb].
  - do 2 f_equal. extensionality j. destruct (j =? i) eqn:Ej; bool_prop; by subst.
  - specialize (H32 eq_refl). rewrite get_timer_in by lia. cbn [mbind option_bind].
    rewrite put_timer_in by lia. f_equal. unfold set_timers. cbn. f_equal. extensionality j.
    rewrite (proj2 (Z.eqb_neq (i + 1) i)) by lia.
    destruct (j =? i + 1) eqn:Ej, (j =? i) eqn:Ei; bool_prop; subst; try done; lia.
Qed.

Lemma request_irq_part_eq i flag a1 d :
  0 <= i < 12 -> Gptu.arg1 (timer d i) = a1 ->
  request_irq_part find_task_by_pid i flag a1 d = Some
    ((if TIMER_FLAG_MASK_HANDLE flag =? TIMER_FLAG_NO_HANDLE then 0 else 1 .<< i),
     mk_tdev (tsem d) (number_of_timers d) (occupation d) (f_gptu_on d)
       (fun j => let x := timer d j in
          if j =? i then mk_timer (fires flag a1 || f_irq_on x) (irq x) (Gptu.flag x)
            (if TIMER_FLAG_MASK_HANDLE flag =? TIMER_FLAG_SIGNAL then find_task_by_pid (s32 a1) else a1)
            (arg2 x) else x)
       (thw d)
       (if fires flag a1 then upd (irq_depth d) (irq (timer d i)) (irq_depth d (irq (timer d i)) - 1)
        else irq_depth d)
       (events d)).
Proof.
  intros Hi Ha. unfold request_irq_part, fires.
  destruct (TIMER_FLAG_MASK_HANDLE flag =? TIMER_FLAG_NO_HANDLE) eqn:E0.
  { bool_prop. rewrite E0. cbn. destruct d as [s n o g tm h q e]. do 3 f_equal. cbn in *.
    extensionality j. destruct (j =? i) eqn:Ej; bool_prop; [|done]. subst. by destruct (tm i). }
  rewrite get_timer_in by done. cbn [mbind option_bind].
  rewrite put_timer_in by done. cbn [mbind option_bind].
  destruct (TIMER_FLAG_MASK_HANDLE flag =? TIMER_FLAG_SIGNAL) eqn:Es; cbn [orb andb negb].
  - rewrite put_timer_in by done. cbn [mbind option_bind]. do 2 f_equal.
    unfold enable_irq, set_timers, set_depth. cbn. f_equal.
    extensionality j. destruct (j =? i) eqn:Ej; bool_prop; by subst.
  - rewrite Ha. destruct ((TIMER_FLAG_MASK_HANDLE flag =? TIMER_FLAG_CALLBACK_IN_IRQ) && negb (a1 =? 0)).
    + rewrite put_timer_in by done. cbn [mbind option_bind]. do 2 f_equal.
      unfold enable_irq, set_timers, set_depth. cbn. rewrite <- Ha. f_equal.
      extensionality j. destruct (j =? i) eqn:Ej; bool_prop; by subst.
    + do 2 f_equal. unfold set_timers. f_equal. extensionality j.
      destruct (j =? i) eqn:Ej; bool_prop; [|done]. subst. cbn. by destruct (timer d i).
Qed.

Lemma up_down_id d : tsem d = 1 -> up (set_tsem (tsem d - 1) d) = d.
Proof. intros H. destruct d. cbn in *. unfold up, set_tsem. cbn. f_equal. lia. Qed.

Lemma down_some d : tsem d = 1 -> down d = Some (set_tsem (tsem d - 1) d).
Proof. intros H. unfold down. by rewrite H. Qed.

Lemma wreg_mk a v s n o g tm h q e :
  wreg a v (mk_tdev s n o g tm h q e) = mk_tdev s n o g tm (upd h a v) q e.
Proof. done. Qed.

Lemma up_mk s n o g tm h q e : up (mk_tdev s n o g tm h q e) = mk_tdev (s + 1) n o g tm h q e.
Proof. done. Qed.

Lemma request_granted t occ flag value a1 a2 d :
  tsem d = 1 -> 0 <= t - 2 < 12 -> (is_16bit flag = false -> t - 2 < 11) ->
  (d' ← fill_timer (t - FIRST_TIMER) flag a1 a2 (set_occupation occ (set_tsem (tsem d - 1) d));
   d' ← (if f_gptu_on d' then Some d'
         else d' ← enable_gptu pmu_busy d'; Some (set_gptu_on true d'));
   '(irnen_reg, d') ← request_irq_part find_task_by_pid (t - FIRST_TIMER) flag a1 d';
   let n := t .>> 1 in
   let X := t .& 0x01 in
   let d' := wreg (DANUBE_GPTU_CON n X) (con_of_flag flag) d' in
   let d' := wreg (DANUBE_GPTU_RELOAD n X) value d' in
   Some (up (wreg DANUBE_GPTU_IRNEN (thw d' DANUBE_GPTU_IRNEN .| irnen_reg) d'))) =
  if f_gptu_on d || pmu_wakes pmu_busy then Some (grant t occ flag value a1 a2 d) else None.
Proof.
  intros Hs Ht H32. change FIRST_TIMER with 2. destruct d as [s n o g tm h q e].
  unfold set_occupation, set_tsem. cbn [tsem number_of_timers occupation f_gptu_on timer thw irq_depth events] in *.
  rewrite fill_timer_eq by done. cbn [mbind option_bind]. unfold set_timers.
  cbn [tsem number_of_timers occupation f_gptu_on timer thw irq_depth events].
  unfold grant. cbn [tsem number_of_timers occupation f_gptu_on timer thw irq_depth events].
  destruct g; cbn [orb]; [|rewrite enable_gptu_eq, !wreg_mk;
    destruct (pmu_wakes pmu_busy); cbn [mbind option_bind]; [unfold set_gptu_on|done]];
    cbn [mbind option_bind];
    (rewrite request_irq_part_eq; [|done|cbn; by rewrite Z.eqb_refl]);
    cbn [mbind option_bind tsem number_of_timers occupation f_gptu_on timer thw irq_depth events];
    rewrite !wreg_mk, up_mk; cbn [thw]; rewrite !Z.eqb_refl; cbn [irq];
    f_equal; f_equal; [lia| |lia| ];
    extensionality j; by destruct (j =? t - 2).
Qed.

Lemma clear_bit0 t : t .& .~ 1 = 2 * (t / 2).
Proof.
  rewrite <- Z.ldiff_land. change 1 with (Z.ones 1). rewrite Z.ldiff_ones_r by lia.
  rewrite Z.shiftl_mul_pow2, Z.shiftr_div_pow2 by lia. change (2 ^ 1) with 2. lia.
Qed.

(** The timer a request is about: a pair is named by its first timer. *)
Definition asked_timer (timer flag : Z) : Z := if is_16bit flag then timer else timer .& .~ 1.

Lemma asked_timer_facts timer flag b :
  0 <= timer < b ->
  0 <= asked_timer timer flag < b /\ (is_16bit flag = false -> Z.even (asked_timer timer flag) = true).
Proof.
  intros Ht. unfold asked_timer. destruct (is_16bit flag); [split; [lia|done]|]. rewrite clear_bit0.
  pose proof (Z.mul_div_le timer 2 ltac:(lia)). pose proof (Z.div_pos timer 2 ltac:(lia) ltac:(lia)).
  rewrite Z.even_mul. split; [lia|done].
Qed.

(** ** The invariant *)

Definition partner (i : Z) : Z := if Z.even i then i + 1 else i - 1.

(** Timer [i] is occupied and the first of its client. *)
Definition drives (d : timer_dev) (i : Z) : Prop :=
  Z.testbit (occupation d) (i + 2) = true /\
  (is_16bit (flag (timer d i)) = false -> Z.even i = true).

(** The client asked to be told in some way, and the unit's enable is set. *)
Definition reports (flag : Z) : bool := negb (TIMER_FLAG_MASK_HANDLE flag =? TIMER_FLAG_NO_HANDLE).

Record gptu_ok (d : timer_dev) : Prop := {
  ok_sem : tsem d = 1;
  ok_num : exists k, 0 <= k <= 6 /\ number_of_timers d = 2 * k;
  ok_occ : 0 <= occupation d /\
    forall i, Z.testbit (occupation d) i = true -> 2 <= i < 2 + number_of_timers d;
  ok_on : f_gptu_on d = negb (occupation d =? 0);
  ok_pair : forall i, Z.testbit (occupation d) i = true ->
    is_16bit (flag (timer d (i - 2))) = false ->
    Z.testbit (occupation d) (partner i) = true /\
    flag (timer d (partner i - 2)) = flag (timer d (i - 2));
  ok_line : forall i, 0 <= i < number_of_timers d ->
    irq (timer d i) = TIMER_INTERRUPT + i /\
    irq_depth d (TIMER_INTERRUPT + i) = (if f_irq_on (timer d i) then 0 else 1) /\
    (f_irq_on (timer d i) = true <-> drives d i /\ fires (flag (timer d i)) (arg1 (timer d i)) = true);
  ok_irnen : forall i, 0 <= i ->
    Z.testbit (thw d DANUBE_GPTU_IRNEN) i = true <-> drives d i /\ reports (flag (timer d i)) = true
}.

(** What a successful allocation promises. *)
Definition allocated (number occ : Z) (sz : bool) (t occ' : Z) : Prop :=
  slot number sz t /\ free_at occ sz t /\ occ' = occ .| (if sz then 1 else 3) .<< t.

Lemma allocate_ok timer flag d :
  gptu_ok d -> 0 <= timer < 2 + number_of_timers d -> (is_16bit flag = false -> Z.even timer = true) ->
  match allocate_timer timer flag d with
  | inl e => e = - EBUSY
  | inr (t, ret, occ) =>
      allocated (number_of_timers d) (occupation d) (is_16bit flag) t occ /\
      ret = (if timer <? 2 then t else 0) /\ (2 <= timer -> t = timer)
  end.
Proof.
  intros Hok Ht He. destruct (ok_num _ Hok) as (k & Hk & Hn). unfold allocated.
  destruct (timer <? 2) eqn:E; bool_prop.
  - pose proof (allocate_auto d timer flag (ok_num _ Hok) E) as H. cbn zeta in H.
    destruct (allocate_timer timer flag d) as [e|[[t r] o]]; [by destruct H|].
    destruct H as (-> & Hs & Hf & -> & _). split_and!; try done; lia.
  - pose proof (allocate_given d timer flag ltac:(lia) ltac:(lia)) as H. cbn zeta in H.
    destruct (allocate_timer timer flag d) as [e|[[t r] o]]; [by destruct H|].
    destruct H as (-> & -> & Hf & ->). split_and!; try done; [split; [lia|done]].
Qed.

Lemma request_timer_eq timer flag value a1 a2 d :
  gptu_ok d -> 0 <= timer ->
  request_timer find_task_by_pid pmu_busy timer flag value a1 a2 d =
  if timer >=? 2 + number_of_timers d then Some (- EINVAL, d) else
  match allocate_timer (if is_16bit flag then timer else timer .& .~ 1) flag d with
  | inl e => Some (e, d)
  | inr (t, ret, occ) =>
      if f_gptu_on d || pmu_wakes pmu_busy
      then Some (ret, grant t occ flag (if is_16bit flag then value .& 0xFFFF else value) a1 a2 d)
      else None
  end.
Proof.
  intros Hok Ht. unfold request_timer. change FIRST_TIMER with 2 at 1.
  destruct (timer >=? 2 + number_of_timers d) eqn:E; [done|].
  destruct (ok_num _ Hok) as (k & Hk & Hn). rewrite Z.geb_leb in E. bool_prop.
  set (tm := if is_16bit flag then timer else _).
  set (v := if is_16bit flag then value .& _ else _).
  pose proof (asked_timer_facts timer flag (2 + number_of_timers d) ltac:(lia)) as Htm.
  change (asked_timer timer flag) with tm in Htm.
  rewrite down_some by apply Hok. cbn [mbind option_bind].
  change (allocate_timer tm flag (set_tsem (tsem d - 1) d)) with (allocate_timer tm flag d).
  pose proof (allocate_ok tm flag d Hok (proj1 Htm) (proj2 Htm)) as Ha.
  destruct (allocate_timer tm flag d) as [e|[[t ret] occ]]; [by rewrite up_down_id by apply Hok|].
  destruct Ha as [[[Hs He] _] _].
  assert (Hg := request_granted t occ flag v a1 a2 d (ok_sem _ Hok) ltac:(lia)).
  specialize (Hg ltac:(intros H; specialize (He H); apply Z.even_spec in He as [x ->]; lia)).
  destruct (fill_timer _ _ _ _ _) as [d1|]; cbn [mbind option_bind] in *;
    [|by destruct (f_gptu_on d || _)].
  destruct (if f_gptu_on d1 then _ else _) as [d2|]; cbn [mbind option_bind] in *;
    [|by destruct (f_gptu_on d || _)].
  destruct (request_irq_part _ _ _ _ d2) as [[r d3]|]; cbn [mbind option_bind] in *;
    destruct (f_gptu_on d || _); simplify_eq; try done; by rewrite Hg.
Qed.

Lemma u16_flags_pair t : Z.even t = true -> partner t = t + 1 /\ partner (t + 1) = t.
Proof.
  intros H. unfold partner. rewrite H. split; [done|].
  replace (Z.even (t + 1)) with false; [lia|]. rewrite Z.even_add, H. done.
Qed.

(** The addresses of the registers of one timer are its own. *)
Lemma timer_reg_ne t a : 2 <= t < 14 ->
  a = DANUBE_GPTU_IRNEN \/ a = DANUBE_GPTU_IRNCR \/ a = DANUBE_GPTU_CLC \/ a = PMU_CR ->
  a <> DANUBE_GPTU_CON (t .>> 1) (t .& 1) /\ a <> DANUBE_GPTU_RELOAD (t .>> 1) (t .& 1) /\
  a <> DANUBE_GPTU_RUN (t .>> 1) (t .& 1).
Proof.
  intros Ht Ha. change (t .& 1) with (t .& Z.ones 1). rewrite Z.land_ones, Z.shiftr_div_pow2 by lia.
  change (2 ^ 1) with 2. unfold DANUBE_GPTU_CON, DANUBE_GPTU_RELOAD, DANUBE_GPTU_RUN.
  unfold DANUBE_GPTU_IRNEN, DANUBE_GPTU_IRNCR, DANUBE_GPTU_CLC, PMU_CR, DANUBE_GPTU in *.
  assert (0 <= t mod 2 < 2) by (apply Z.mod_pos_bound; lia).
  assert (1 <= t / 2 < 7) by (split; [apply Z.div_le_lower_bound|apply Z.div_lt_upper_bound]; lia).
  lia.
Qed.

Lemma testbit_occ occ sz t i : 0 <= t -> 0 <= i ->
  Z.testbit (occ .| (if sz : bool then 1 else 3) .<< t) i = Z.testbit occ i || owned sz t i.
Proof. intros. by rewrite Z.lor_spec, testbit_mask. Qed.

Section grant_facts.
Context (t occ flag value a1 a2 : Z) (d : timer_dev).
#[local] Abbreviation d' := (grant t occ flag value a1 a2 d).

Lemma grant_irq i : irq (timer d' i) = irq (timer d i).
Proof. cbn. by repeat split_if. Qed.

Lemma grant_irq_on i :
  f_irq_on (timer d' i) = (fires flag a1 && (i =? t - 2)) || f_irq_on (timer d i).
Proof.
  cbn. destruct (i =? t - 2) eqn:E; [by rewrite andb_true_r|]. rewrite andb_false_r.
  by split_if.
Qed.

Lemma grant_flag i :
  Gptu.flag (timer d' i) = if owned (is_16bit flag) t (i + 2) then flag else Gptu.flag (timer d i).
Proof.
  unfold owned. replace (i + 2 =? t) with (i =? t - 2) by (apply eq_true_iff_eq; rewrite !Z.eqb_eq; lia).
  replace (i + 2 =? t + 1) with (i =? t - 2 + 1) by (apply eq_true_iff_eq; rewrite !Z.eqb_eq; lia).
  cbn. destruct (i =? t - 2); [done|]. cbn. by split_if.
Qed.

Lemma grant_irnen : 2 <= t < 14 ->
  thw d' DANUBE_GPTU_IRNEN = thw d DANUBE_GPTU_IRNEN .|
    (if TIMER_FLAG_MASK_HANDLE flag =? TIMER_FLAG_NO_HANDLE then 0 else 1 .<< (t - 2)).
Proof.
  intros Ht. destruct (timer_reg_ne t DANUBE_GPTU_IRNEN Ht) as (? & ? & ?); [by left|].
  cbn [grant thw]. rewrite upd_eq, !(upd_ne _ (DANUBE_GPTU_RELOAD _ _)), !(upd_ne _ (DANUBE_GPTU_CON _ _)) by done.
  by destruct (f_gptu_on d).
Qed.

Lemma grant_fires :
  fires (Gptu.flag (timer d' (t - 2))) (arg1 (timer d' (t - 2))) = fires flag a1.
Proof.
  cbn. rewrite Z.eqb_refl. cbn. unfold fires. by destruct (TIMER_FLAG_MASK_HANDLE flag =? TIMER_FLAG_SIGNAL).
Qed.

(** The timer granted drives; for the others nothing changes. *)
Lemma grant_drives : gptu_ok d -> allocated (number_of_timers d) (occupation d) (is_16bit flag) t occ ->
  drives d' (t - 2) /\ f_irq_on (timer d (t - 2)) = false /\ ~ drives d (t - 2) /\
  forall i, 0 <= i -> i <> t - 2 -> (drives d' i <-> drives d i) /\ (drives d i -> timer d' i = timer d i).
Proof.
  intros Hok [[Hr He] [Hf Eo]]. set (sz := is_16bit flag) in *.
  destruct (ok_num _ Hok) as (k & Hk & Hn). destruct (ok_line _ Hok (t - 2) ltac:(lia)) as (_ & _ & Ho).
  assert (Hown : owned sz t t = true) by (unfold owned; by rewrite Z.eqb_refl).
  assert (Hbit : forall i, 0 <= i -> Z.testbit occ i = Z.testbit (occupation d) i || owned sz t i)
    by (intros; subst occ; apply testbit_occ; lia).
  assert (N : ~ drives d (t - 2)) by (intros [Hx _]; rewrite Z.sub_add, Hf in Hx; done).
  split; [|split; [|split; [done|]]].
  - unfold drives. rewrite grant_flag. cbn [grant occupation]. fold sz.
    rewrite Z.sub_add, Hbit, Hown, orb_true_r by lia. split; [done|]. intros Hx. by rewrite Z.even_sub, (He Hx).
  - destruct (f_irq_on _); [|done]. by destruct (proj1 Ho eq_refl) as [Hx _].
  - intros i Hi Hne. destruct (owned sz t (i + 2)) eqn:E.
    + assert (sz = false /\ i = t - 1) as [Esz ->] by (unfold owned in E; bool_prop; destruct E; bool_prop; lia || (split; [done|lia])).
      assert (N1 : ~ drives d (t - 1)) by (intros [Hx _]; rewrite Hf in Hx; done).
      split; [|done]. split; [|done]. intros [_ Hx]. rewrite grant_flag in Hx. fold sz in Hx. rewrite E in Hx.
      specialize (Hx Esz). by rewrite Z.even_sub, (He Esz) in Hx.
    + unfold drives. rewrite grant_flag. cbn [grant occupation]. fold sz. rewrite E, Hbit, E, orb_false_r by lia.
      split; [done|]. intros _. unfold owned in E. bool_prop. cbn [grant timer]. fold sz.
      rewrite (proj2 (Z.eqb_neq i (t - 2))) by lia. destruct (negb sz); cbn [andb] in *; [|done]. bool_prop.
      by rewrite (proj2 (Z.eqb_neq i (t - 2 + 1))) by lia.
Qed.

Lemma grant_line i : gptu_ok d -> allocated (number_of_timers d) (occupation d) (is_16bit flag) t occ ->
  0 <= i < number_of_timers d ->
  irq (timer d' i) = TIMER_INTERRUPT + i /\
  irq_depth d' (TIMER_INTERRUPT + i) = (if f_irq_on (timer d' i) then 0 else 1) /\
  (f_irq_on (timer d' i) = true <-> drives d' i /\ fires (Gptu.flag (timer d' i)) (arg1 (timer d' i)) = true).
Proof.
  intros Hok Hal Hi. destruct (grant_drives Hok Hal) as (Hnew & Hoff & _ & Hrest). destruct Hal as [[Hr _] _].
  destruct (ok_num _ Hok) as (k & Hk & Hn). rewrite grant_irq, grant_irq_on.
  destruct (ok_line _ Hok i Hi) as (Hq & Hd & Hb). destruct (ok_line _ Hok (t - 2) ltac:(lia)) as (Hqt & Hdt & _).
  split; [done|]. destruct (Z.eqb_spec i (t - 2)) as [->|Hne].
  - rewrite grant_fires, Hoff, andb_true_r, orb_false_r. split; [|by intuition]. cbn [grant irq_depth].
    rewrite Hqt. destruct (fires flag a1); [|by rewrite Hdt, Hoff]. rewrite upd_eq, Hdt, Hoff. lia.
  - rewrite andb_false_r. cbn [orb]. destruct (Hrest i ltac:(lia) Hne) as [Hdr Hsame]. split.
    + cbn [grant irq_depth]. rewrite Hqt. destruct (fires flag a1); [|done]. by rewrite upd_ne by lia.
    + rewrite Hdr, Hb. split; intros [H1 H2]; (split; [done|]); by rewrite Hsame in * by done.
Qed.

Lemma grant_enables i : gptu_ok d -> allocated (number_of_timers d) (occupation d) (is_16bit flag) t occ -> 0 <= i ->
  Z.testbit (thw d' DANUBE_GPTU_IRNEN) i = true <-> drives d' i /\ reports (Gptu.flag (timer d' i)) = true.
Proof.
  intros Hok Hal Hi. destruct (grant_drives Hok Hal) as (Hnew & _ & Hnot & Hrest). destruct Hal as [[Hr _] _].
  destruct (ok_num _ Hok) as (k & Hk & Hn). rewrite grant_irnen, Z.lor_spec by lia. rewrite orb_true_iff, (ok_irnen _ Hok i Hi).
  assert (Hx : Z.testbit (if TIMER_FLAG_MASK_HANDLE flag =? TIMER_FLAG_NO_HANDLE then 0 else 1 .<< (t - 2)) i =
    reports flag && (i =? t - 2)).
  { unfold reports. destruct (_ =? TIMER_FLAG_NO_HANDLE); [apply Z.bits_0|]. rewrite testbit_1_shiftl by lia.
    destruct (Z.eqb_spec i (t - 2)); [by rewrite bool_decide_true|by rewrite bool_decide_false]. }
  rewrite Hx, andb_true_iff, Z.eqb_eq. destruct (Z.eq_dec i (t - 2)) as [->|Hne].
  - rewrite grant_flag, Z.sub_add. replace (owned (is_16bit flag) t t) with true by (unfold owned; by rewrite Z.eqb_refl). by intuition.
  - destruct (Hrest i Hi Hne) as [Hdr Hsame]. rewrite Hdr. split.
    + intros [[H1 H2]|[_ ?]]; [|done]. split; [done|]. by rewrite Hsame.
    + intros [H1 H2]. left. split; [done|]. by rewrite Hsame in H2.
Qed.

Lemma grant_ok :
  gptu_ok d -> allocated (number_of_timers d) (occupation d) (is_16bit flag) t occ -> gptu_ok d'.
Proof.
  intros Hok Hal. pose proof Hal as [[Hr He] [Hf Eo]].
  set (sz := is_16bit flag) in *.
  destruct (ok_num _ Hok) as (k & Hk & Hn). destruct (ok_occ _ Hok) as [Hpos Hocc].
  assert (Hbit : forall i, 0 <= i -> Z.testbit occ i = Z.testbit (occupation d) i || owned sz t i)
    by (intros; subst occ; apply testbit_occ; lia).
  assert (Hown : owned sz t t = true) by (unfold owned; by rewrite Z.eqb_refl).
  assert (Hrng : forall i, owned sz t i = true -> 2 <= i < 2 + number_of_timers d).
  { intros i H. unfold owned in H. bool_prop. destruct H; bool_prop; [lia|].
    specialize (He H). apply Z.even_spec in He as [x ->]. lia. }
  assert (Hold : forall i, Z.testbit (occupation d) i = true -> owned sz t i = false).
  { intros i H. destruct (owned sz t i) eqn:E; [|done]. apply Hf in E. congruence. }
  constructor.
  - apply Hok.
  - apply Hok.
  - cbn [grant occupation number_of_timers]. split.
    + subst occ. apply Z.lor_nonneg. split; [done|]. apply Z.shiftl_nonneg. by destruct sz.
    + intros i H. destruct (Z.lt_ge_cases i 0); [by rewrite Z.testbit_neg_r in H|].
      rewrite Hbit in H by done. bool_prop. destruct H; auto.
  - cbn [grant occupation f_gptu_on]. symmetry. apply negb_true_iff, Z.eqb_neq. intros E0.
    specialize (Hbit t ltac:(lia)). by rewrite E0, Z.bits_0, Hown, orb_true_r in Hbit.
  - intros i H. cbn [grant occupation] in H |- *. rewrite !grant_flag. fold sz.
    destruct (Z.lt_ge_cases i 0); [by rewrite Z.testbit_neg_r in H|].
    rewrite Hbit in H by done. rewrite !Z.sub_add.
    destruct (Z.testbit (occupation d) i) eqn:Eb; cbn [orb] in H.
    + rewrite (Hold _ Eb). intros Hsz. destruct (ok_pair _ Hok _ Eb Hsz) as [Hp Hfl].
      rewrite (Hold _ Hp). split; [|done]. rewrite Hbit, Hp; [done|].
      apply Hocc in Hp. lia.
    + rewrite H. fold sz. intros Esz. destruct (u16_flags_pair t (He Esz)) as [P1 P2].
      assert (Hp : owned sz t (partner i) = true).
      { unfold owned in H |- *. rewrite Esz in *. cbn [negb andb] in *. bool_prop.
        destruct H; bool_prop; subst; rewrite ?P1, ?P2, !Z.eqb_refl; [by rewrite orb_true_r|done]. }
      rewrite Hp. split; [|done]. rewrite Hbit, Hp; [by rewrite orb_true_r|]. apply Hrng in Hp. lia.
  - intros i Hi. by apply grant_line.
  - intros i Hi. by apply grant_enables.
Qed.
End grant_facts.
End granted.

(** ** Using and freeing a timer *)

(** The timer the driver works on when a client names [timer]. *)
Definition head_timer (timer : Z) (d : timer_dev) : Z :=
  if is_16bit (flag (Gptu.timer d (timer - 2))) then timer else timer .& .~ 1.

Lemma head_timer_facts timer d :
  gptu_ok d -> Z.testbit (occupation d) timer = true ->
  let t := head_timer timer d in
  let sz := is_16bit (flag (Gptu.timer d (timer - 2))) in
  slot (number_of_timers d) sz t /\ flag (Gptu.timer d (t - 2)) = flag (Gptu.timer d (timer - 2)) /\
  owned sz t timer = true /\ forall i, owned sz t i = true -> Z.testbit (occupation d) i = true.
Proof.
  intros Hok Hb t sz. destruct (ok_occ _ Hok) as [_ Hocc]. pose proof (Hocc _ Hb) as Hr.
  unfold t, head_timer. fold sz. unfold slot, owned. destruct sz eqn:Esz; cbn [negb andb].
  - split_and!; try done; [lia|lia| |].
    + by rewrite Z.eqb_refl.
    + intros i H. rewrite orb_false_r in H. bool_prop. by subst.
  - destruct (ok_pair _ Hok _ Hb Esz) as [Hp Hf]. pose proof (Hocc _ Hp) as Hrp.
    rewrite clear_bit0. unfold partner in *. destruct (Z.even timer) eqn:Ee.
    + apply Z.even_spec in Ee as [x Ex]. replace (timer / 2) with x in *
        by (rewrite Ex, Z.mul_comm, Z.div_mul; lia). rewrite <- Ex.
      split_and!; [lia|lia|intros _; apply Z.even_spec; by exists x|done|by rewrite Z.eqb_refl|].
      intros i H. bool_prop. by destruct H; bool_prop; subst i.
    + rewrite <- Z.negb_odd in Ee. apply negb_false_iff, Z.odd_spec in Ee as [x Ex].
      replace (timer / 2) with x in * by (rewrite Ex, Z.add_comm, Z.mul_comm, Z.div_add by lia; done).
      replace (2 * x) with (timer - 1) by lia.
      split_and!; [lia|lia|intros _; apply Z.even_spec; exists x; lia|done|
                   by rewrite Z.sub_add, Z.eqb_refl, orb_true_r|].
      intros i H. bool_prop. destruct H; bool_prop; subst i; [done|by rewrite Z.sub_add].
Qed.

Lemma claim_timer_eq timer d :
  gptu_ok d -> 0 <= timer ->
  claim_timer timer d =
  if Z.testbit (occupation d) timer then
    let t := head_timer timer d in
    Some (inr (t, (if is_16bit (flag (Gptu.timer d (timer - 2))) then 1 else 3) .<< t,
               set_tsem (tsem d - 1) d))
  else Some (inl (- EINVAL, d)).
Proof.
  intros Hok Ht. destruct (ok_occ _ Hok) as [Hpos Hocc]. destruct (ok_num _ Hok) as (k & Hk & Hn).
  unfold claim_timer. change FIRST_TIMER with 2.
  destruct (Z.testbit (occupation d) timer) eqn:Hb.
  - pose proof (Hocc _ Hb) as Hr.
    destruct (head_timer_facts timer d Hok Hb) as ([Hs _] & _ & _ & Hall).
    assert (Hon : f_gptu_on d = true).
    { rewrite (ok_on _ Hok). apply negb_true_iff, Z.eqb_neq. intros E. by rewrite E, Z.bits_0 in Hb. }
    rewrite Hon. cbn [negb]. rewrite (proj2 (Z.ltb_ge _ _)), Z.geb_leb, (proj2 (Z.leb_gt _ _)) by lia.
    cbn [orb]. rewrite down_some by apply Hok. cbn [mbind option_bind].
    rewrite get_timer_in by lia. cbn [mbind option_bind].
    change (Gptu.timer (set_tsem (tsem d - 1) d)) with (Gptu.timer d).
    change (occupation (set_tsem (tsem d - 1) d)) with (occupation d).
    fold (head_timer timer d). rewrite w32_mask by lia.
    assert (Hh : 0 <= head_timer timer d) by lia.
    by rewrite (proj2 (mask_held _ _ _ Hh) Hall).
  - destruct (f_gptu_on d); cbn [negb]; [|done].
    destruct ((timer <? 2) || (timer >=? 2 + number_of_timers d)) eqn:Er; [done|].
    rewrite Z.geb_leb in Er. bool_prop. rewrite down_some by apply Hok. cbn [mbind option_bind].
    rewrite get_timer_in by lia. cbn [mbind option_bind].
    change (Gptu.timer (set_tsem (tsem d - 1) d)) with (Gptu.timer d).
    change (occupation (set_tsem (tsem d - 1) d)) with (occupation d).
    set (sz := is_16bit (flag (Gptu.timer d (timer - 2)))).
    set (t := if sz then timer else _).
    assert (Hown : owned sz t timer = true /\ 0 <= t <= 30).
    { unfold t, owned. destruct sz; cbn [negb andb]; [rewrite Z.eqb_refl; split; [done|lia]|].
      change 0x01 with 1. rewrite clear_bit0. pose proof (Z.div_mod timer 2 ltac:(lia)) as Hdm.
      pose proof (Z.mod_pos_bound timer 2 ltac:(lia)). split; [|lia].
      apply orb_true_iff. rewrite !Z.eqb_eq. lia. }
    destruct Hown as [Hown Hrt]. rewrite w32_mask by lia.
    destruct ((_ .^ _) =? 0) eqn:E; cbn [negb]; [|by rewrite up_down_id by apply Hok].
    rewrite (proj1 (mask_held _ _ _ (proj1 Hrt)) E timer Hown) in Hb. done.
Qed.

Lemma tc_bit t b : 2 <= t -> GPTU_IRNEN_TC_SET (t .>> 1) (t .& 1) b = flag_bit b (t - 2).
Proof.
  intros Ht. unfold GPTU_IRNEN_TC_SET. f_equal. change (t .& 1) with (t .& Z.ones 1).
  rewrite Z.land_ones, Z.shiftr_div_pow2 by lia. change (2 ^ 1) with 2.
  pose proof (Z.div_mod t 2 ltac:(lia)). lia.
Qed.

Definition CLC_OFF : Z := 1.
Definition gptu_off (h : Z -> Z) : Z -> Z :=
  let h := upd (upd (upd h DANUBE_GPTU_IRNEN 0) DANUBE_GPTU_IRNCR 0xFFF) DANUBE_GPTU_CLC CLC_OFF in
  upd h PMU_CR (h PMU_CR .| 1 .<< 12).

Lemma disable_gptu_mk s n o g tm h q e :
  disable_gptu (mk_tdev s n o g tm h q e) = mk_tdev s n o g tm (gptu_off h) q e.
Proof. done. Qed.

(** The registers after the timer [t] was stopped and its interrupt masked. *)
Definition quiet (t : Z) (h : Z -> Z) : Z -> Z :=
  let h := if negb (GPTU_CON_EN h (t .>> 1) (t .& 1) =? 0)
           then upd h (DANUBE_GPTU_RUN (t .>> 1) (t .& 1)) (GPTU_RUN_CEN_SET true) else h in
  let h := upd h DANUBE_GPTU_IRNEN (bit_clr (h DANUBE_GPTU_IRNEN) (t - 2)) in
  upd h DANUBE_GPTU_IRNCR (bit_set (h DANUBE_GPTU_IRNCR) (t - 2)).

(** The device after the client of [t] gave it back. *)
Definition release (sz : bool) (t : Z) (d : timer_dev) : timer_dev :=
  let i := t - 2 in
  let occ := occupation d .& .~ ((if sz then 1 else 3) .<< t) in
  let on := f_irq_on (timer d i) in
  let h := quiet t (thw d) in
  mk_tdev (tsem d) (number_of_timers d) occ (negb (occ =? 0))
    (fun j => let x := timer d j in
       if j =? i then mk_timer false (irq x) (flag x) (arg1 x) (arg2 x) else x)
    (if occ =? 0 then gptu_off h else h)
    (if on then upd (irq_depth d) (irq (timer d i)) (irq_depth d (irq (timer d i)) + 1) else irq_depth d)
    (events d).

Lemma free_timer_eq timer d :
  gptu_ok d -> 0 <= timer ->
  free_timer timer d = Some
    (if Z.testbit (occupation d) timer
     then (0, release (is_16bit (flag (Gptu.timer d (timer - 2)))) (head_timer timer d) d)
     else (- EINVAL, d)).
Proof.
  intros Hok Ht. unfold free_timer. rewrite claim_timer_eq by done.
  destruct (Z.testbit (occupation d) timer) eqn:Hb; cbn [mbind option_bind]; [|done].
  destruct (head_timer_facts timer d Hok Hb) as ([Hs _] & _ & _ & _).
  destruct (ok_num _ Hok) as (k & Hk & Hn). set (sz := is_16bit _). set (t := head_timer timer d) in *.
  assert (Hon : f_gptu_on d = true).
  { rewrite (ok_on _ Hok). apply negb_true_iff, Z.eqb_neq. intros E. by rewrite E, Z.bits_0 in Hb. }
  pose proof (ok_sem _ Hok) as Hsem. clearbody t sz. clear Hok Hb.
  destruct d as [s n o g tm h q e]. cbn in Hon, Hsem, Hs, Hn. subst g.
  unfold set_tsem. cbn [tsem number_of_timers occupation f_gptu_on Gptu.timer thw irq_depth events].
  change FIRST_TIMER with 2. change 0x01 with 1.
  change (GPTU_IRNCR_TC_SET (t .>> 1) (t .& 1) true) with (GPTU_IRNEN_TC_SET (t .>> 1) (t .& 1) true).
  rewrite tc_bit by lia. unfold release, quiet.
  cbn [tsem number_of_timers occupation f_gptu_on Gptu.timer thw irq_depth events].
  change (flag_bit true (t - 2)) with (1 .<< (t - 2)). unfold bit_clr, bit_set.
  rewrite wreg_mk.
  set (b := negb (GPTU_CON_EN h (t .>> 1) (t .& 1) =? 0)).
  set (h1 := if b then upd h _ _ else h).
  replace (if b then mk_tdev (s - 1) n o true tm _ q e else _)
    with (mk_tdev (s - 1) n o true tm h1 q e) by (unfold h1; by destruct b).
  rewrite wreg_mk. cbn [thw]. rewrite wreg_mk. cbn [thw].
  rewrite get_timer_in by lia. cbn [mbind option_bind Gptu.timer].
  set (h3 := upd _ DANUBE_GPTU_IRNCR _).
  destruct (f_irq_on (tm (t - 2))) eqn:Ei.
  - rewrite put_timer_in by lia. cbn [mbind option_bind].
    unfold set_timers, disable_irq, set_depth, set_occupation, up, set_tsem.
    cbn [tsem number_of_timers occupation f_gptu_on Gptu.timer thw irq_depth events].
    rewrite andb_true_r. set (o' := o .& _). rewrite disable_gptu_mk.
    unfold set_gptu_on.
    destruct (o' =? 0);
      cbn [negb tsem number_of_timers occupation f_gptu_on Gptu.timer thw irq_depth events];
      do 3 f_equal; try lia; extensionality j;
      (destruct (j =? t - 2) eqn:Ej; bool_prop; [by subst|done]).
  - cbn [mbind option_bind]. unfold set_occupation, up, set_tsem.
    cbn [tsem number_of_timers occupation f_gptu_on Gptu.timer thw irq_depth events].
    rewrite andb_true_r. set (o' := o .& _). rewrite disable_gptu_mk.
    unfold set_gptu_on.
    destruct (o' =? 0);
      cbn [negb tsem number_of_timers occupation f_gptu_on Gptu.timer thw irq_depth events];
      do 3 f_equal; try lia; extensionality j;
      (destruct (j =? t - 2) eqn:Ej; bool_prop; [subst; by destruct (tm (t - 2)); cbn in *; subst|done]).
Qed.

Lemma partner_involutive i : partner (partner i) = i.
Proof.
  unfold partner. destruct (Z.even i) eqn:E; rewrite ?Z.even_add, ?Z.even_sub, E; cbn; lia.
Qed.

Lemma owned_partner t i : Z.even t = true -> owned false t (partner i) = owned false t i.
Proof.
  intros He. destruct (u16_flags_pair t He) as [P1 P2].
  pose proof (partner_involutive i) as Pi. unfold owned. apply eq_true_iff_eq. cbn [negb andb].
  rewrite !orb_true_iff, !Z.eqb_eq. split; intros [E|E]; subst; rewrite ?P1, ?P2 in *;
    try (rewrite E in Pi; rewrite ?P1, ?P2 in Pi); lia.
Qed.

Lemma quiet_irnen t h : 2 <= t < 14 ->
  quiet t h DANUBE_GPTU_IRNEN = bit_clr (h DANUBE_GPTU_IRNEN) (t - 2).
Proof.
  intros Ht. destruct (timer_reg_ne t DANUBE_GPTU_IRNEN Ht) as (_ & _ & Hn); [by left|].
  unfold quiet. rewrite upd_ne by done. rewrite upd_eq.
  destruct (negb _); [by rewrite upd_ne by done|done].
Qed.

(** The other timers that drive still do, without the pair or timer [t]. *)
Lemma release_keeps d t i : let sz := is_16bit (flag (Gptu.timer d (t - 2))) in
  gptu_ok d -> slot 12 sz t -> Z.testbit (occupation d) t = true -> 0 <= i -> i <> t - 2 ->
  drives d i <-> (Z.testbit (occupation d) (i + 2) && negb (owned sz t (i + 2)) = true) /\
    (is_16bit (flag (Gptu.timer d i)) = false -> Z.even i = true).
Proof.
  intros sz Hok [Hs He] Ht1 Hi Hne. rewrite andb_true_iff, negb_true_iff. split; [|by intros [[H1 _] H2]].
  intros [H1 H2]. split; [|done]. split; [done|].
  destruct (owned sz t (i + 2)) eqn:E; [|done]. unfold owned in E. bool_prop.
  destruct E as [E|E]; bool_prop; [lia|]. specialize (He H).
  destruct (ok_pair _ Hok t Ht1 H) as [_ Hf]. rewrite (proj1 (u16_flags_pair t He)) in Hf.
  replace (t + 1 - 2) with i in Hf by lia. rewrite Hf in H2. fold sz in H2.
  specialize (H2 H). replace i with (t - 1) in H2 by lia. by rewrite Z.even_sub, He in H2.
Qed.

Lemma release_ok d timer :
  gptu_ok d -> Z.testbit (occupation d) timer = true ->
  gptu_ok (release (is_16bit (flag (Gptu.timer d (timer - 2)))) (head_timer timer d) d).
Proof.
  intros Hok Hb. destruct (head_timer_facts timer d Hok Hb) as ([Hs He] & Hfl & _ & Hall).
  destruct (ok_num _ Hok) as (k & Hk & Hn). destruct (ok_occ _ Hok) as [Hpos Hocc].
  rewrite <- Hfl in *. set (t := head_timer timer d) in *. set (sz := is_16bit _) in *.
  clearbody t. clear Hb Hfl timer.
  set (occ := occupation d .& .~ ((if sz then 1 else 3) .<< t)).
  assert (Hbit : forall i, 0 <= i -> Z.testbit occ i = Z.testbit (occupation d) i && negb (owned sz t i)).
  { intros i Hi. unfold occ. by rewrite Z.land_spec, Z.lnot_spec, testbit_mask by lia. }
  assert (Hkeep : forall i, 0 <= i -> i <> t - 2 -> drives d i <-> Z.testbit occ (i + 2) = true /\
            (is_16bit (flag (Gptu.timer d i)) = false -> Z.even i = true)).
  { intros i Hi Hne. rewrite Hbit by lia. apply release_keeps; try done; [split; [lia|done]|].
    apply Hall. unfold owned. by rewrite Z.eqb_refl. }
  assert (Hgone : Z.testbit occ t = false).
  { rewrite Hbit by lia. unfold owned. rewrite Z.eqb_refl. apply andb_false_r. }
  assert (Harg : forall i, arg1 (Gptu.timer (release sz t d) i) = arg1 (Gptu.timer d i)).
  { intros i. cbn. by destruct (i =? t - 2). }
  assert (Hflag : forall i, flag (Gptu.timer (release sz t d) i) = flag (Gptu.timer d i)).
  { intros i. cbn. by destruct (i =? t - 2). }
  assert (Hocc' : occupation (release sz t d) = occ) by done.
  constructor; unfold drives; repeat setoid_rewrite Hflag; repeat setoid_rewrite Harg; rewrite ?Hocc'.
  - apply Hok.
  - apply Hok.
  - split; [apply Z.land_nonneg; by left|]. intros i H.
    destruct (Z.lt_ge_cases i 0); [by rewrite Z.testbit_neg_r in H|].
    rewrite Hbit in H by done. bool_prop. by apply Hocc.
  - done.
  - intros i H H32. destruct (Z.lt_ge_cases i 0); [by rewrite Z.testbit_neg_r in H|].
    rewrite Hbit in H by done. apply andb_true_iff in H as [H1 H2]. apply negb_true_iff in H2.
    destruct (ok_pair _ Hok i H1 H32) as [Hp Hf]. split; [|done].
    rewrite Hbit, Hp by (apply Hocc in Hp; lia). apply negb_true_iff.
    destruct sz eqn:Esz; [|by rewrite owned_partner by auto].
    destruct (owned true t (partner i)) eqn:E; [|done]. unfold owned in E. rewrite orb_false_r in E.
    bool_prop. unfold sz in Esz. rewrite <- E, Hf in Esz. congruence.
  - cbn [release number_of_timers]. intros i Hi. destruct (ok_line _ Hok i Hi) as (Hq & Hd & Hx).
    destruct (ok_line _ Hok (t - 2) ltac:(lia)) as (Hqt & Hdt & _).
    cbn [release Gptu.timer irq_depth]. rewrite Hqt. destruct (i =? t - 2) eqn:E; bool_prop.
    + subst i. rewrite Z.sub_add, Hgone. split_and!; [done| |by split; [|intros [[? _] _]]]. cbn.
      destruct (f_irq_on (Gptu.timer d (t - 2))); [|done]. by rewrite upd_eq, Hdt.
    + split_and!; [done| |].
      * destruct (f_irq_on (Gptu.timer d (t - 2))); [|done]. by rewrite upd_ne by lia.
      * by rewrite <- (Hkeep i) by lia.
  - intros i Hi. cbn [release thw]. fold occ. destruct (occ =? 0) eqn:E0.
    + unfold gptu_off. cbv zeta. rewrite !(upd_ne _ PMU_CR), !(upd_ne _ DANUBE_GPTU_CLC),
        !(upd_ne _ DANUBE_GPTU_IRNCR), upd_eq by done. bool_prop. rewrite E0, !Z.bits_0. by split; [|intros [[? _] _]].
    + rewrite quiet_irnen, testbit_bit_clr by lia. rewrite andb_true_iff, (ok_irnen _ Hok i Hi).
      case_bool_decide as Ei; [|by rewrite <- (Hkeep i) by done; intuition].
      subst i. rewrite Z.sub_add, Hgone. by split; [intros [_ ?]|intros [[? _] _]].
Qed.

(** ** The other calls *)

Lemma held_head_range timer d :
  gptu_ok d -> Z.testbit (occupation d) timer = true -> 2 <= head_timer timer d < 14.
Proof.
  intros Hok Hb. destruct (head_timer_facts timer d Hok Hb) as ([Hs _] & _).
  destruct (ok_num _ Hok) as (k & Hk & Hn). lia.
Qed.

Lemma up_wreg_down a v d :
  tsem d = 1 -> up (wreg a v (set_tsem (tsem d - 1) d)) = wreg a v d.
Proof. intros H. destruct d. cbn in *. unfold up, wreg, set_thw, set_tsem. cbn. f_equal. lia. Qed.

Lemma start_timer_eq timer is_resume d :
  gptu_ok d -> 0 <= timer ->
  start_timer timer is_resume d = Some
    (if Z.testbit (occupation d) timer
     then let t := head_timer timer d in
       (0, wreg (DANUBE_GPTU_RUN (t .>> 1) (t .& 1)) (if is_resume =? 0 then 5 else 1) d)
     else (- EINVAL, d)).
Proof.
  intros Hok Ht. unfold start_timer. rewrite claim_timer_eq by done.
  destruct (Z.testbit _ _); cbn [mbind option_bind]; [|done].
  rewrite up_wreg_down by apply Hok. by destruct (is_resume =? 0).
Qed.

Lemma stop_timer_eq timer d :
  gptu_ok d -> 0 <= timer ->
  stop_timer timer d = Some
    (if Z.testbit (occupation d) timer
     then let t := head_timer timer d in (0, wreg (DANUBE_GPTU_RUN (t .>> 1) (t .& 1)) 2 d)
     else (- EINVAL, d)).
Proof.
  intros Hok Ht. unfold stop_timer. rewrite claim_timer_eq by done.
  destruct (Z.testbit _ _); cbn [mbind option_bind]; [|done].
  by rewrite up_wreg_down by apply Hok.
Qed.

Lemma get_count_value_eq timer d :
  gptu_ok d -> 0 <= timer ->
  get_count_value timer d = Some
    (if Z.testbit (occupation d) timer
     then let t := head_timer timer d in
       (0, Some (thw d (DANUBE_GPTU_COUNT (t .>> 1) (t .& 1))), d)
     else (- EINVAL, None, d)).
Proof.
  intros Hok Ht. unfold get_count_value. rewrite claim_timer_eq by done.
  destruct (Z.testbit _ _); cbn [mbind option_bind]; [|done].
  by rewrite up_down_id by apply Hok.
Qed.

(** Nothing but registers other than the interrupt enables, and what was sent
    to clients, changes. *)
Lemma ok_registers h e d :
  gptu_ok d -> h DANUBE_GPTU_IRNEN = thw d DANUBE_GPTU_IRNEN ->
  gptu_ok (set_events e (set_thw h d)).
Proof.
  intros Hok Hh. destruct Hok as [H1 H2 H3 H4 H5 H6 H7].
  constructor; cbn [set_events set_thw tsem number_of_timers occupation f_gptu_on timer thw irq_depth];
    try done. by rewrite Hh.
Qed.

Lemma ok_wreg a v d : gptu_ok d -> a <> DANUBE_GPTU_IRNEN -> gptu_ok (wreg a v d).
Proof.
  intros Hok Ha. apply (ok_registers (upd (thw d) a v) (events d) d Hok). by rewrite upd_ne.
Qed.

Lemma ok_run timer d v :
  gptu_ok d -> Z.testbit (occupation d) timer = true ->
  let t := head_timer timer d in gptu_ok (wreg (DANUBE_GPTU_RUN (t .>> 1) (t .& 1)) v d).
Proof.
  intros Hok Hb t. pose proof (held_head_range timer d Hok Hb) as Hr. apply ok_wreg; [done|].
  destruct (timer_reg_ne t DANUBE_GPTU_IRNEN Hr) as (_ & _ & Hn); [by left|]. congruence.
Qed.

Lemma request_ok find busy timer flag value a1 a2 d r d' :
  gptu_ok d -> 0 <= timer ->
  request_timer find busy timer flag value a1 a2 d = Some (r, d') -> gptu_ok d'.
Proof.
  intros Hok Ht. rewrite request_timer_eq by done.
  destruct (timer >=? 2 + number_of_timers d) eqn:E; [by intros [= _ <-]|].
  rewrite Z.geb_leb in E. bool_prop.
  set (tm := if is_16bit flag then timer else _).
  pose proof (asked_timer_facts timer flag (2 + number_of_timers d) ltac:(lia)) as Htm.
  change (asked_timer timer flag) with tm in Htm.
  pose proof (allocate_ok tm flag d Hok (proj1 Htm) (proj2 Htm)) as Ha.
  destruct (allocate_timer tm flag d) as [e|[[t ret] occ]]; [by intros [= _ <-]|].
  destruct Ha as [Ha _]. destruct (f_gptu_on d || _); [|done]. intros [= _ <-]. by apply grant_ok.
Qed.

Lemma free_ok timer d r d' :
  gptu_ok d -> 0 <= timer -> free_timer timer d = Some (r, d') -> gptu_ok d'.
Proof.
  intros Hok Ht. rewrite free_timer_eq by done.
  destruct (Z.testbit (occupation d) timer) eqn:Hb; intros [= _ <-]; [by apply release_ok|done].
Qed.

Lemma start_ok timer is_resume d r d' :
  gptu_ok d -> 0 <= timer -> start_timer timer is_resume d = Some (r, d') -> gptu_ok d'.
Proof.
  intros Hok Ht. rewrite start_timer_eq by done.
  destruct (Z.testbit (occupation d) timer) eqn:Hb; intros [= _ <-]; [by apply ok_run|done].
Qed.

Lemma stop_ok timer d r d' :
  gptu_ok d -> 0 <= timer -> stop_timer timer d = Some (r, d') -> gptu_ok d'.
Proof.
  intros Hok Ht. rewrite stop_timer_eq by done.
  destruct (Z.testbit (occupation d) timer) eqn:Hb; intros [= _ <-]; [by apply ok_run|done].
Qed.

Lemma get_count_same timer d r v d' :
  gptu_ok d -> 0 <= timer -> get_count_value timer d = Some (r, v, d') -> d' = d.
Proof.
  intros Hok Ht. rewrite get_count_value_eq by done.
  by destruct (Z.testbit (occupation d) timer); intros [= _ _ <-].
Qed.

Lemma irq_ok irq dev d : gptu_ok d -> gptu_ok (timer_irq_handler irq dev d).
Proof.
  intros Hok. unfold timer_irq_handler. split_if; [|done].
  set (d1 := wreg _ _ d). assert (Hok1 : gptu_ok d1) by (by apply ok_wreg).
  assert (He : forall e, gptu_ok (emit e d1)).
  { intros e. apply (ok_registers (thw d1) _ d1 Hok1). done. }
  repeat split_if; auto.
Qed.

Lemma set_timer_ok find busy fpi timer freq c x h a1 a2 d r d' :
  gptu_ok d -> 0 <= timer ->
  set_timer find busy fpi timer freq c x h a1 a2 d = Some (r, d') -> gptu_ok d'.
Proof.
  intros Hok Ht. unfold set_timer. split_if; [by intros [= _ <-]|]. by apply request_ok.
Qed.

Lemma set_counter_ok find busy timer w s x tr h a1 a2 d r d' :
  gptu_ok d -> 0 <= timer ->
  set_counter find busy timer w s x tr h a1 a2 d = Some (r, d') -> gptu_ok d'.
Proof. unfold set_counter. apply request_ok. Qed.

Section steps.
Context (find_task_by_pid : Z -> Z) (pmu_busy : Z -> bool) (fpi : Z).

(** One call of a client, one interrupt, or a change the hardware makes to
    its registers; it does not change the interrupt enables. *)
Inductive gptu_step : timer_dev -> timer_dev -> Prop :=
  | step_request timer flag value a1 a2 d r d' : 0 <= timer ->
      request_timer find_task_by_pid pmu_busy timer flag value a1 a2 d = Some (r, d') -> gptu_step d d'
  | step_free timer d r d' : 0 <= timer -> free_timer timer d = Some (r, d') -> gptu_step d d'
  | step_start timer is_resume d r d' : 0 <= timer ->
      start_timer timer is_resume d = Some (r, d') -> gptu_step d d'
  | step_stop timer d r d' : 0 <= timer -> stop_timer timer d = Some (r, d') -> gptu_step d d'
  | step_get timer d r v d' : 0 <= timer ->
      get_count_value timer d = Some (r, v, d') -> gptu_step d d'
  | step_set_timer timer freq c x h a1 a2 d r d' : 0 <= timer ->
      set_timer find_task_by_pid pmu_busy fpi timer freq c x h a1 a2 d = Some (r, d') -> gptu_step d d'
  | step_set_counter timer w s x tr h a1 a2 d r d' : 0 <= timer ->
      set_counter find_task_by_pid pmu_busy timer w s x tr h a1 a2 d = Some (r, d') -> gptu_step d d'
  | step_ioctl cmd rok wok p d r p' d' : 0 <= p_timer p ->
      gptu_ioctl find_task_by_pid pmu_busy fpi cmd rok wok p d = Some (r, p', d') -> gptu_step d d'
  | step_irq irq dev d : gptu_step d (timer_irq_handler irq dev d)
  | step_hw h d : h DANUBE_GPTU_IRNEN = thw d DANUBE_GPTU_IRNEN -> gptu_step d (set_thw h d).

Lemma store_timer_state p ret d r p' d' : store_timer p (ret, d) = (r, p', d') -> d' = d.
Proof. unfold store_timer. split_if; by intros [= _ _ <-]. Qed.

Lemma ioctl_ok cmd rok wok p d r p' d' :
  gptu_ok d -> 0 <= p_timer p ->
  gptu_ioctl find_task_by_pid pmu_busy fpi cmd rok wok p d = Some (r, p', d') -> gptu_ok d'.
Proof.
  intros Hok Hp. unfold gptu_ioctl.
  destruct (negb rok); [by intros [= _ _ <-]|].
  destruct (_ && negb wok); [by intros [= _ _ <-]|].
  destruct (cmd =? GPTU_REQUEST_TIMER).
  { destruct (request_timer _ _ _ _ _ _ _ d) as [[x d1]|] eqn:E; cbn [mbind option_bind]; [|done].
    intros [= H]. apply store_timer_state in H as ->. by eapply request_ok. }
  destruct (cmd =? GPTU_FREE_TIMER).
  { destruct (free_timer _ d) as [[x d1]|] eqn:E; cbn [mbind option_bind]; [|done].
    intros [= _ _ <-]. by eapply free_ok. }
  destruct (cmd =? GPTU_START_TIMER).
  { destruct (start_timer _ _ d) as [[x d1]|] eqn:E; cbn [mbind option_bind]; [|done].
    intros [= _ _ <-]. by eapply start_ok. }
  destruct (cmd =? GPTU_STOP_TIMER).
  { destruct (stop_timer _ d) as [[x d1]|] eqn:E; cbn [mbind option_bind]; [|done].
    intros [= _ _ <-]. by eapply stop_ok. }
  destruct (cmd =? GPTU_GET_COUNT_VALUE).
  { destruct (get_count_value _ d) as [[[x v] d1]|] eqn:E; cbn [mbind option_bind]; [|done].
    intros [= _ _ <-]. by rewrite (get_count_same _ _ _ _ _ Hok Hp E). }
  destruct (cmd =? GPTU_CALCULATE_DIVIDER); [split_if; by intros [= _ _ <-]|].
  destruct (cmd =? GPTU_SET_TIMER).
  { destruct (set_timer _ _ _ _ _ _ _ _ _ _ d) as [[x d1]|] eqn:E; cbn [mbind option_bind]; [|done].
    intros [= H]. apply store_timer_state in H as ->. by eapply set_timer_ok. }
  destruct (cmd =? GPTU_SET_COUNTER); [|by intros [= _ _ <-]].
  destruct (set_counter _ _ _ _ _ _ _ _ _ _ d) as [[x d1]|] eqn:E; cbn [mbind option_bind]; [|done].
  intros [= H]. apply store_timer_state in H as ->. by eapply set_counter_ok.
Qed.

Lemma gptu_step_ok d d' : gptu_step d d' -> gptu_ok d -> gptu_ok d'.
Proof.
  intros Hs Hok. destruct Hs.
  - by eapply request_ok.
  - by eapply free_ok.
  - by eapply start_ok.
  - by eapply stop_ok.
  - by rewrite (get_count_same _ _ _ _ _ Hok H H0).
  - by eapply set_timer_ok.
  - by eapply set_counter_ok.
  - by eapply ioctl_ok.
  - by apply irq_ok.
  - by apply (ok_registers h (events d) d).
Qed.
End steps.

(** ** Start-up *)

Lemma free_irq_down_never fuel : forall i d, 0 <= i -> free_irq_down fuel i d = None.
Proof.
  induction fuel as [|fuel IH]; intros i d Hi; [done|]. cbn [free_irq_down].
  rewrite Z.geb_leb, (proj2 (Z.leb_le 0 i)) by done. apply IH. apply w32_range.
Qed.

Section init_facts.
Context (request_irq : Z -> Z) (fuel : nat).

Lemma request_irqs_refused n : forall i d,
  0 <= i -> i + Z.of_nat n <= 12 ->
  (exists j, i <= j < i + Z.of_nat n /\ request_irq (TIMER_INTERRUPT + j) <> 0) ->
  request_irqs request_irq fuel n i d = None.
Proof.
  induction n as [|n IH]; intros i d Hi Hn (j & Hj & Hr); [lia|]. cbn [request_irqs].
  destruct (request_irq (TIMER_INTERRUPT + i) =? 0) eqn:E; cbn [negb]; bool_prop.
  2: by rewrite free_irq_down_never.
  rewrite get_timer_in by lia. cbn [mbind option_bind].
  rewrite put_timer_in by lia. cbn [mbind option_bind].
  apply IH; [lia|lia|]. exists j. split; [|done].
  destruct (Z.eq_dec j i) as [->|]; [done|lia].
Qed.

Lemma request_irqs_granted n : forall i d,
  0 <= i -> i + Z.of_nat n <= 12 ->
  (forall j, i <= j < i + Z.of_nat n -> request_irq (TIMER_INTERRUPT + j) = 0) ->
  exists d', request_irqs request_irq fuel n i d = Some (0, d') /\
    tsem d' = tsem d + 1 /\ number_of_timers d' = number_of_timers d /\
    occupation d' = occupation d /\ f_gptu_on d' = f_gptu_on d /\ thw d' = thw d /\
    (forall j, f_irq_on (timer d' j) = f_irq_on (timer d j)) /\
    (forall j, i <= j < i + Z.of_nat n ->
       irq (timer d' j) = TIMER_INTERRUPT + j /\ irq_depth d' (TIMER_INTERRUPT + j) = 1) /\
    (forall j, j < i -> irq (timer d' j) = irq (timer d j) /\
       irq_depth d' (TIMER_INTERRUPT + j) = irq_depth d (TIMER_INTERRUPT + j)).
Proof.
  induction n as [|n IH]; intros i d Hi Hn Hr; cbn [request_irqs].
  { exists (up d). split_and!; try done. lia. }
  rewrite (Hr i) by lia. cbn [negb Z.eqb].
  rewrite get_timer_in by lia. cbn [mbind option_bind].
  rewrite put_timer_in by lia. cbn [mbind option_bind].
  match goal with |- context [request_irqs _ _ n (i + 1) ?x] => set (d1 := x) end.
  destruct (IH (i + 1) d1) as (d' & -> & H1 & H2 & H3 & H4 & H5 & H6 & H7 & H8);
    [lia|lia|intros j Hj; apply Hr; lia|].
  exists d'. split_and!; try done.
  - intros j. rewrite H6. cbn. destruct (j =? i) eqn:E; bool_prop; by subst.
  - intros j Hj. destruct (Z.eq_dec j i) as [->|]; [|apply H7; lia].
    destruct (H8 i ltac:(lia)) as [-> ->]. cbn. by rewrite Z.eqb_refl, !upd_eq.
  - intros j Hj. destruct (H8 j ltac:(lia)) as [-> ->]. cbn.
    rewrite (proj2 (Z.eqb_neq j i)) by lia. split; [done|]. by rewrite !upd_ne by lia.
Qed.
End init_facts.

(** The number of timers the module identifies itself with. *)
Definition timers_reported (d : timer_dev) : Z := Z.min 12 (2 * GPTU_ID_CFG (thw d)).

Lemma cfg_range h : 0 <= GPTU_ID_CFG h < 8.
Proof. apply (GET_BITS_range _ 7 5). lia. Qed.

Lemma danube_gptu_init_eq busy misc req fuel d :
  exists h,
    (forall a, a <> DANUBE_GPTU_IRNEN -> a <> DANUBE_GPTU_IRNCR -> a <> DANUBE_GPTU_CLC -> a <> PMU_CR ->
       h a = thw d a) /\ h DANUBE_GPTU_IRNEN = 0 /\
  danube_gptu_init busy misc req fuel d =
  if pmu_wakes busy then
    let d1 := mk_tdev 0 (timers_reported d) 0 false (fun _ => blank_timer) h (irq_depth d) (events d) in
    if negb (misc =? 0) then Some (misc, d1)
    else request_irqs req fuel (Z.to_nat (timers_reported d)) 0 (emit MiscRegister d1)
  else None.
Proof.
  eexists (gptu_off _). split_and!.
  3: { unfold danube_gptu_init. rewrite enable_gptu_eq. destruct (pmu_wakes busy); [|done].
    cbn [mbind option_bind]. rewrite !wreg_mk. unfold set_number.
    cbn [tsem number_of_timers occupation f_gptu_on timer thw irq_depth events].
    rewrite disable_gptu_mk. cbn [number_of_timers].
    cbn [tsem number_of_timers occupation f_gptu_on timer thw irq_depth events].
    match goal with |- context [GPTU_ID_CFG ?h] => assert (E : GPTU_ID_CFG h = GPTU_ID_CFG (thw d)) end.
    { unfold GPTU_ID_CFG. by f_equal. }
    rewrite E. unfold timers_reported, MAX_NUM_OF_32BIT_TIMER_BLOCKS.
    pose proof (cfg_range (thw d)).
    destruct (GPTU_ID_CFG (thw d) * 2 >? 6 * 2) eqn:En; bool_prop.
    - rewrite Z.min_l by lia. reflexivity.
    - rewrite Z.min_r, (Z.mul_comm 2) by lia. reflexivity. }
  - intros a H1 H2 H3 H4. unfold gptu_off. cbv zeta. cbn [thw wreg set_thw]. by rewrite !upd_ne by done.
  - unfold gptu_off. cbv zeta. by rewrite !(upd_ne _ PMU_CR), !(upd_ne _ DANUBE_GPTU_CLC),
      !(upd_ne _ DANUBE_GPTU_IRNCR), upd_eq by done.
Qed.

(** The lines of the reported timers are free. *)
Definition lines_granted (req : Z -> Z) (d : timer_dev) : Prop :=
  forall j, 0 <= j < timers_reported d -> req (TIMER_INTERRUPT + j) = 0.

Lemma timers_reported_range d :
  0 <= timers_reported d <= 12 /\ exists k, 0 <= k <= 6 /\ timers_reported d = 2 * k.
Proof.
  unfold timers_reported. pose proof (cfg_range (thw d)). split; [lia|].
  exists (Z.min 6 (GPTU_ID_CFG (thw d))). lia.
Qed.

Lemma init_granted busy req fuel d :
  pmu_wakes busy = true -> lines_granted req d ->
  exists d', danube_gptu_init busy 0 req fuel d = Some (0, d') /\ gptu_ok d' /\
    number_of_timers d' = timers_reported d /\ occupation d' = 0.
Proof.
  intros Hw Hl. destruct (danube_gptu_init_eq busy 0 req fuel d) as (h & _ & Hh & ->).
  rewrite Hw. cbn [negb Z.eqb]. destruct (timers_reported_range d) as [Hr He].
  set (d1 := emit _ _).
  destruct (request_irqs_granted req fuel (Z.to_nat (timers_reported d)) 0 d1)
    as (d' & E & H1 & H2 & H3 & H4 & H5 & H6 & H7 & _); [lia|lia|intros j Hj; apply Hl; lia|].
  cbv zeta. fold d1. exists d'. rewrite E. split_and!; try done.
  constructor; unfold drives; rewrite ?H1, ?H2, ?H3, ?H4, ?H5; cbn [d1 emit set_events tsem number_of_timers occupation f_gptu_on thw].
  - done.
  - done.
  - split; [done|]. intros i. by rewrite Z.bits_0.
  - done.
  - intros i. by rewrite Z.bits_0.
  - intros i Hi. destruct (H7 i ltac:(lia)) as [Hq Hd]. rewrite H6, Hq, Hd, !Z.bits_0. split_and!; [done..|].
    by split; [|intros [[? _] _]].
  - intros i Hi. rewrite Hh, !Z.bits_0. by split; [|intros [[? _] _]].
Qed.

(** The divider of [fpi] Hz for [freq] mHz: the nearest count, less one. *)
Definition nearest_divider (fpi freq : Z) : Z := Z.max 0 ((2 * (1000 * fpi) + freq) / (2 * freq) - 1).

Lemma cal_divider_nearest fpi freq :
  is_u32 fpi -> 0 < freq < 2 ^ 31 -> 1000 * fpi < 2 ^ 32 * freq ->
  cal_divider fpi freq = nearest_divider fpi freq.
Proof.
  intros Hf Hq Hb. unfold cal_divider. rewrite Z.mul_1_l, (w32_id freq) by (unfold is_u32; lia).
  pose proof (uint64_multiply_small fpi 1000 Hf ltac:(lia)) as Hm.
  destruct (uint64_multiply fpi 1000) as [hi lo]. destruct Hm as (Hhi & Hlo & E).
  rewrite uint64_divide_exact by (done || lia). rewrite E. rewrite (Z.mul_comm fpi).
  set (N := 1000 * fpi) in *. unfold is_u32 in *.
  pose proof (Z.div_mod N freq ltac:(lia)) as Hdm. pose proof (Z.mod_pos_bound N freq ltac:(lia)) as Hr.
  set (r := N mod freq) in *. set (q := N / freq) in *.
  assert (Hq0 : 0 <= q) by (apply Z.div_pos; lia).
  rewrite (Z.mod_small q) by nia. rewrite w32_id by (unfold is_u32; rewrite Z.shiftl_mul_pow2 by lia; lia).
  rewrite Z.shiftl_mul_pow2 by lia. change (2 ^ 1) with 2. unfold nearest_divider. fold N.
  destruct (r * 2 <? freq) eqn:Er; bool_prop.
  - replace ((2 * N + freq) / (2 * freq)) with q
      by (apply Z.div_unique with (2 * r + freq); lia).
    cbn [andb]. destruct (q >? 0) eqn:E0; bool_prop; lia.
  - replace ((2 * N + freq) / (2 * freq)) with (q + 1)
      by (apply Z.div_unique with (2 * r - freq); lia).
    cbn [andb]. lia.
Qed.

(** ** Properties *)

(** A successful request leaves an occupied timer, and nobody else's. *)
Lemma request_grants find busy timer flag value a1 a2 d r d' :
  gptu_ok d -> 0 <= timer ->
  request_timer find busy timer flag value a1 a2 d = Some (r, d') -> 0 <= r ->
  exists t occ, allocated (number_of_timers d) (occupation d) (is_16bit flag) t occ /\
    r = (if asked_timer timer flag <? 2 then t else 0) /\
    (2 <= asked_timer timer flag -> t = asked_timer timer flag) /\
    (asked_timer timer flag < 2 -> forall t', slot (number_of_timers d) (is_16bit flag) t' ->
       t' < t -> ~ free_at (occupation d) (is_16bit flag) t') /\
    d' = grant find t occ flag (if is_16bit flag then value .& 0xFFFF else value) a1 a2 d.
Proof.
  intros Hok Ht. rewrite request_timer_eq by done.
  destruct (timer >=? 2 + number_of_timers d) eqn:E; [by intros [= <- _]|].
  rewrite Z.geb_leb in E. bool_prop. change (if is_16bit flag then timer else timer .& .~ 1) with (asked_timer timer flag).
  destruct (asked_timer_facts timer flag (2 + number_of_timers d) ltac:(lia)) as [Hr He].
  pose proof (allocate_ok _ flag d Hok Hr He) as Ha.
  pose proof (allocate_auto d (asked_timer timer flag) flag (ok_num _ Hok)) as Hauto.
  destruct (allocate_timer _ flag d) as [e|[[t ret] occ]]; [subst e; by intros [= <- _]|].
  destruct Ha as (Ha & -> & Hg). destruct (f_gptu_on d || _); [|done]. intros [= <- <-] _.
  exists t, occ. split_and!; try done. intros Hlt. by apply Hauto.
Qed.

Lemma request_refused find busy timer flag value a1 a2 d r d' :
  gptu_ok d -> 0 <= timer ->
  request_timer find busy timer flag value a1 a2 d = Some (r, d') -> r < 0 ->
  d' = d /\
  (r = - EINVAL /\ 2 + number_of_timers d <= timer \/
   r = - EBUSY /\ timer < 2 + number_of_timers d /\
   (2 <= asked_timer timer flag -> ~ free_at (occupation d) (is_16bit flag) (asked_timer timer flag)) /\
   (asked_timer timer flag < 2 -> forall t, slot (number_of_timers d) (is_16bit flag) t ->
      ~ free_at (occupation d) (is_16bit flag) t)).
Proof.
  intros Hok Ht. rewrite request_timer_eq by done.
  destruct (timer >=? 2 + number_of_timers d) eqn:E; rewrite Z.geb_leb in E; bool_prop.
  { intros [= <- <-] _. split; [done|by left]. }
  change (if is_16bit flag then timer else timer .& .~ 1) with (asked_timer timer flag).
  destruct (asked_timer_facts timer flag (2 + number_of_timers d) ltac:(lia)) as [Hr He].
  destruct (ok_num _ Hok) as (k & Hk & Hn).
  pose proof (allocate_ok _ flag d Hok Hr He) as Ha.
  pose proof (allocate_auto d (asked_timer timer flag) flag (ok_num _ Hok)) as Hauto.
  pose proof (fun H => allocate_given d (asked_timer timer flag) flag (conj H (proj2 Hr)) ltac:(lia)) as Hgiv.
  destruct (allocate_timer _ flag d) as [e|[[t ret] occ]].
  - subst e. intros [= <- <-] _. split; [done|]. right. split_and!; try done.
    + intros H. by apply Hgiv.
    + intros H. by apply Hauto.
  - destruct Ha as ([[Hs _] _] & -> & _). destruct (f_gptu_on d || _); [|done].
    intros [= <- <-]. destruct (asked_timer timer flag <? 2); lia.
Qed.

Lemma owned_head sz t n : slot 12 sz t -> owned sz t n = true -> (if sz : bool then n else n .& .~ 1) = t.
Proof.
  intros [Hs He] H. unfold owned in H. destruct sz; cbn [negb andb] in H.
  { rewrite orb_false_r in H. by bool_prop. }
  rewrite clear_bit0. specialize (He eq_refl). apply Z.even_spec in He as [x ->].
  rewrite orb_true_iff, !Z.eqb_eq in H. destruct H as [-> | ->].
  - rewrite (Z.mul_comm 2 x), Z.div_mul by lia. lia.
  - rewrite (Z.add_comm (2 * x)), (Z.mul_comm 2 x), Z.div_add by lia. change (1 / 2) with 0. lia.
Qed.

Lemma asked_owned timer flag :
  0 <= timer -> owned (is_16bit flag) (asked_timer timer flag) timer = true.
Proof.
  intros Ht. unfold owned, asked_timer. destruct (is_16bit flag); cbn [negb andb]; [by rewrite Z.eqb_refl|].
  rewrite clear_bit0. pose proof (Z.div_mod timer 2 ltac:(lia)).
  pose proof (Z.mod_pos_bound timer 2 ltac:(lia)). apply orb_true_iff. rewrite !Z.eqb_eq. lia.
Qed.

Lemma irnen_idle d : gptu_ok d -> is_u32 (thw d DANUBE_GPTU_IRNEN) -> occupation d = 0 ->
  thw d DANUBE_GPTU_IRNEN = 0.
Proof.
  intros Hok Hu H0. apply Z.bits_inj'. intros i Hi. rewrite Z.bits_0.
  destruct (Z.testbit _ i) eqn:E; [|done]. destruct (proj1 (ok_irnen _ Hok i Hi) E) as [[H _] _].
  by rewrite H0, Z.bits_0 in H.
Qed.

Section roundtrip.
Context (find : Z -> Z) (t occ flag value a1 a2 : Z) (d : timer_dev).
Hypothesis Hok : gptu_ok d.
Hypothesis Hal : allocated (number_of_timers d) (occupation d) (is_16bit flag) t occ.
#[local] Abbreviation d1 := (grant find t occ flag value a1 a2 d).

Lemma grant_slot : slot 12 (is_16bit flag) t.
Proof.
  destruct Hal as ([Hs He] & _). destruct (ok_num _ Hok) as (k & Hk & Hn).
  split; [lia|done].
Qed.

Lemma grant_holds n : owned (is_16bit flag) t n = true -> 0 <= n ->
  Z.testbit (occupation d1) n = true.
Proof.
  intros Hn H0. destruct grant_slot as [Hs _]. destruct Hal as (_ & _ & ->).
  cbn [grant occupation]. rewrite testbit_occ, Hn by lia. apply orb_true_r.
Qed.

Lemma grant_head n : owned (is_16bit flag) t n = true ->
  is_16bit (Gptu.flag (timer d1 (n - 2))) = is_16bit flag /\ head_timer n d1 = t.
Proof.
  intros Hn. unfold head_timer. rewrite grant_flag, Z.sub_add, Hn. split; [done|].
  apply (owned_head _ _ _ grant_slot Hn).
Qed.

Lemma release_grant_occ :
  occupation d1 .& .~ ((if is_16bit flag then 1 else 3) .<< t) = occupation d.
Proof.
  destruct grant_slot as [Hs _]. destruct Hal as (_ & Hf & ->).
  apply Z.bits_inj'. intros i Hi. cbn [grant occupation].
  rewrite Z.land_spec, Z.lnot_spec, testbit_occ, testbit_mask by lia.
  destruct (owned (is_16bit flag) t i) eqn:E; [by rewrite (Hf i E)|].
  by rewrite orb_false_r, andb_true_r.
Qed.

Lemma grant_was_off : f_irq_on (timer d (t - 2)) = false.
Proof.
  destruct Hal as ([Hs _] & Hf & _). destruct (ok_line _ Hok (t - 2) ltac:(lia)) as (_ & _ & H).
  destruct (f_irq_on _); [|done]. destruct (proj1 H eq_refl) as [[Hx _] _]. rewrite Z.sub_add in Hx.
  rewrite Hf in Hx; [done|]. unfold owned. by rewrite Z.eqb_refl.
Qed.

Lemma release_grant :
  is_u32 (thw d DANUBE_GPTU_IRNEN) ->
  let d2 := release (is_16bit flag) t d1 in
  tsem d2 = tsem d /\ number_of_timers d2 = number_of_timers d /\
  occupation d2 = occupation d /\ f_gptu_on d2 = f_gptu_on d /\
  (forall i, f_irq_on (timer d2 i) = f_irq_on (timer d i)) /\
  (forall n, irq_depth d2 n = irq_depth d n) /\
  thw d2 DANUBE_GPTU_IRNEN = thw d DANUBE_GPTU_IRNEN.
Proof.
  intros Hu d2. pose proof grant_was_off as Hoff.
  assert (Eocc : occupation d2 = occupation d) by apply release_grant_occ.
  split_and!; try done.
  - unfold d2. cbn [release f_gptu_on]. rewrite release_grant_occ. symmetry. apply Hok.
  - intros i. unfold d2. cbn [release timer]. destruct (i =? t - 2) eqn:E; bool_prop.
    + subst. by rewrite Hoff.
    + rewrite grant_irq_on, (proj2 (Z.eqb_neq _ _)) by done. by rewrite andb_false_r.
  - intros n. unfold d2. cbn [release irq_depth].
    rewrite grant_irq, grant_irq_on, Hoff, Z.eqb_refl, andb_true_r, orb_false_r.
    cbn [grant irq_depth]. destruct (fires flag a1); [|done].
    destruct (Z.eq_dec n (irq (timer d (t - 2)))) as [->|]; [|by rewrite !upd_ne].
    rewrite !upd_eq. lia.
  - unfold d2. cbn [release thw]. rewrite release_grant_occ.
    destruct grant_slot as [Hs _].
    destruct (occupation d =? 0) eqn:E; bool_prop.
    { rewrite (irnen_idle d Hok Hu E). unfold gptu_off. cbv zeta.
      by rewrite !(upd_ne _ PMU_CR), !(upd_ne _ DANUBE_GPTU_CLC), !(upd_ne _ DANUBE_GPTU_IRNCR), upd_eq by done. }
    rewrite quiet_irnen, grant_irnen by lia. apply Z.bits_inj'. intros i Hi.
    rewrite testbit_bit_clr, Z.lor_spec by lia.
    case_bool_decide as Ei.
    + subst i. rewrite andb_false_r. symmetry.
      destruct (Z.testbit (thw d DANUBE_GPTU_IRNEN) (t - 2)) eqn:Eb; [|done].
      destruct (proj1 (ok_irnen _ Hok _ Hi) Eb) as [[Hx _] _]. rewrite Z.sub_add in Hx.
      destruct Hal as (_ & Hf & _). rewrite Hf in Hx; [done|]. unfold owned. by rewrite Z.eqb_refl.
    + rewrite andb_true_r. destruct (TIMER_FLAG_MASK_HANDLE flag =? _); [by rewrite Z.bits_0, orb_false_r|].
      by rewrite testbit_1_shiftl, bool_decide_false, orb_false_r by (done || lia).
Qed.
End roundtrip.

Section theorems.
Context (find_task_by_pid : Z -> Z) (pmu_busy : Z -> bool) (fpi : Z).

Lemma reachable_ok d0 d1 d2 req fuel :
  danube_gptu_init pmu_busy 0 req fuel d0 = Some (0, d1) ->
  lines_granted req d0 ->
  rtc (gptu_step find_task_by_pid pmu_busy fpi) d1 d2 -> gptu_ok d2.
Proof.
  intros Hi Hl Hs. destruct (pmu_wakes pmu_busy) eqn:Hw.
  - destruct (init_granted pmu_busy req fuel d0 Hw Hl) as (d' & E & Hok & _).
    rewrite E in Hi. simplify_eq. clear E Hl.
    induction Hs as [|x y z Hxy _ IH]; [done|]. apply IH. by eapply gptu_step_ok.
  - destruct (danube_gptu_init_eq pmu_busy 0 req fuel d0) as (h & _ & _ & E).
    rewrite Hw in E. congruence.
Qed.

Lemma init_success_lines d0 d1 req fuel :
  danube_gptu_init pmu_busy 0 req fuel d0 = Some (0, d1) -> lines_granted req d0.
Proof.
  intros Hi j Hj. destruct (Z.eq_dec (req (TIMER_INTERRUPT + j)) 0) as [|Hne]; [done|exfalso].
  destruct (danube_gptu_init_eq pmu_busy 0 req fuel d0) as (h & _ & _ & E).
  destruct (timers_reported_range d0) as [Hr _].
  destruct (pmu_wakes pmu_busy); [|congruence]. cbn [negb Z.eqb] in E. cbv zeta in E.
  rewrite request_irqs_refused in E; [congruence|lia|lia|]. exists j. split; [lia|done].
Qed.

(** C17: After a successful start of the module, every sequence of client calls,
    ioctls, timer interrupts and hardware changes keeps the driver consistent:
    the semaphore is free again, the unit is powered exactly while a timer is
    occupied, both halves of a 32-bit timer are occupied together with the
    same flags.  The interrupt line of a timer is enabled exactly when it is the
    timer, or the first of the pair, of a client that asked for a signal or gave a
    function to call ([fires]), and its bit in the unit's interrupt enables is set
    exactly when that client did not ask to be left alone ([reports]). *)
Theorem gptu_reachable_consistent d0 d1 d2 req fuel :
  danube_gptu_init pmu_busy 0 req fuel d0 = Some (0, d1) ->
  rtc (gptu_step find_task_by_pid pmu_busy fpi) d1 d2 -> gptu_ok d2.
Proof. intros Hi. apply (reachable_ok d0 d1 d2 req fuel Hi), (init_success_lines _ _ _ _ Hi). Qed.

(** In a consistent state no call of the driver blocks on its semaphore
    or leaves the timer table: every ioctl returns, whatever its command and
    parameters, when the power management unit answers. *)
Theorem gptu_ioctl_returns cmd rok wok p d :
  gptu_ok d -> pmu_wakes pmu_busy = true -> 0 <= p_timer p ->
  exists r p' d', gptu_ioctl find_task_by_pid pmu_busy fpi cmd rok wok p d = Some (r, p', d').
Proof.
  intros Hok Hw Hp.
  assert (Hreq : forall flag v a1 a2, exists x,
    request_timer find_task_by_pid pmu_busy (p_timer p) flag v a1 a2 d = Some x).
  { intros flag v a1 a2. rewrite request_timer_eq by done.
    destruct (_ >=? _); [by eexists|]. destruct (allocate_timer _ _ _) as [e|[[t r] o]]; [by eexists|].
    rewrite Hw, orb_true_r. by eexists. }
  assert (Hst : forall x, exists r p' d', Some (store_timer p x) = Some (r, p', d')).
  { intros x. destruct (store_timer p x) as [[r p'] d'] eqn:E. eauto. }
  unfold gptu_ioctl, set_timer, set_counter.
  rewrite free_timer_eq, start_timer_eq, stop_timer_eq, get_count_value_eq by done.
  destruct (negb rok); [eauto|]. destruct (_ && negb wok); [eauto|].
  destruct (cmd =? GPTU_REQUEST_TIMER).
  { edestruct Hreq as [x ->]. apply Hst. }
  destruct (cmd =? GPTU_FREE_TIMER); [destruct (Z.testbit _ _); cbn; eauto|].
  destruct (cmd =? GPTU_START_TIMER); [destruct (Z.testbit _ _); cbn; eauto|].
  destruct (cmd =? GPTU_STOP_TIMER); [destruct (Z.testbit _ _); cbn; eauto|].
  destruct (cmd =? GPTU_GET_COUNT_VALUE); [destruct (Z.testbit _ _); cbn; eauto|].
  destruct (cmd =? GPTU_CALCULATE_DIVIDER); [destruct (_ =? 0); eauto|].
  destruct (cmd =? GPTU_SET_TIMER).
  { destruct (cal_divider _ _ =? 0); cbn [mbind option_bind]; [apply Hst|].
    edestruct Hreq as [x ->]. apply Hst. }
  destruct (cmd =? GPTU_SET_COUNTER); [|eauto].
  edestruct Hreq as [x ->]. apply Hst.
Qed.

(** C34: A request, when it returns, has not taken a timer another client holds.  With
    no timer named (a number below 2) it takes the lowest free timer, or the lowest free aligned
    pair, and returns its number; with one named it takes that timer, or the pair
    around it, and returns 0; every other timer is as free as before.  It fails with EINVAL beyond the last timer and with
    EBUSY only when what was asked for is not free, and then changes nothing. *)
Theorem request_timer_allocates timer flag value a1 a2 d r d' :
  gptu_ok d -> 0 <= timer ->
  request_timer find_task_by_pid pmu_busy timer flag value a1 a2 d = Some (r, d') ->
  let sz := is_16bit flag in
  let n := number_of_timers d in
  let t0 := asked_timer timer flag in
  (0 <= r /\ exists t,
     slot n sz t /\ free_at (occupation d) sz t /\
     (forall i, 0 <= i -> Z.testbit (occupation d') i = Z.testbit (occupation d) i || owned sz t i) /\
     (if t0 <? 2 then r = t /\ forall t', slot n sz t' -> t' < t -> ~ free_at (occupation d) sz t'
      else r = 0 /\ t = t0)) \/
  (r < 0 /\ d' = d /\
   (r = - EINVAL /\ 2 + n <= timer \/
    r = - EBUSY /\ timer < 2 + n /\
    if t0 <? 2 then forall t, slot n sz t -> ~ free_at (occupation d) sz t
    else ~ free_at (occupation d) sz t0)).
Proof.
  intros Hok Ht E. cbv zeta. destruct (Z.lt_ge_cases r 0) as [Hr|Hr].
  - right. destruct (request_refused _ _ _ _ _ _ _ _ _ _ Hok Ht E Hr) as [-> H].
    split_and!; [done|done|]. destruct H as [[-> H]|(-> & H1 & H2 & H3)]; [by left|right].
    split_and!; [done|done|]. destruct (asked_timer timer flag <? 2) eqn:Ea; bool_prop; auto.
  - left. split; [done|].
    destruct (request_grants _ _ _ _ _ _ _ _ _ _ Hok Ht E Hr) as (t & occ & Ha & -> & Hg & Hl & ->).
    destruct Ha as (Hs & Hf & ->). exists t. split_and!; [done|done| |].
    + intros i Hi. apply testbit_occ; [destruct Hs; lia|done].
    + destruct (asked_timer timer flag <? 2) eqn:Ea; bool_prop; auto.
Qed.

(** Giving back the timer just requested, by the number the client named
    or was told, succeeds and undoes the request: the occupation, the power
    state, the depth of every interrupt line and the interrupt enables of the
    unit are those before it. *)
Theorem request_free_roundtrip timer flag value a1 a2 d r d1 :
  gptu_ok d -> 0 <= timer -> is_u32 (thw d DANUBE_GPTU_IRNEN) ->
  request_timer find_task_by_pid pmu_busy timer flag value a1 a2 d = Some (r, d1) -> 0 <= r ->
  exists d2, free_timer (if r =? 0 then timer else r) d1 = Some (0, d2) /\
    occupation d2 = occupation d /\ f_gptu_on d2 = f_gptu_on d /\
    (forall n, irq_depth d2 n = irq_depth d n) /\
    (forall i, f_irq_on (Gptu.timer d2 i) = f_irq_on (Gptu.timer d i)) /\
    thw d2 DANUBE_GPTU_IRNEN = thw d DANUBE_GPTU_IRNEN.
Proof.
  intros Hok Ht Hu E Hr. pose proof (request_ok _ _ _ _ _ _ _ _ _ _ Hok Ht E) as Hok1.
  destruct (request_grants _ _ _ _ _ _ _ _ _ _ Hok Ht E Hr) as (t & occ & Ha & Er & Hg & _ & ->).
  set (v := if is_16bit flag then _ else _) in *.
  pose proof (grant_slot t occ flag d Hok Ha) as [Hs _].
  assert (Hn : owned (is_16bit flag) t (if r =? 0 then timer else r) = true /\ 0 <= (if r =? 0 then timer else r)).
  { destruct (asked_timer timer flag <? 2) eqn:Ea; bool_prop; subst r.
    - rewrite (proj2 (Z.eqb_neq t 0)) by lia. split; [|lia]. unfold owned. by rewrite Z.eqb_refl.
    - cbn [Z.eqb]. rewrite (Hg Ea). split; [by apply asked_owned|done]. }
  destruct Hn as [Hn H0]. set (n := if r =? 0 then timer else r) in *.
  rewrite free_timer_eq by done.
  rewrite (grant_holds find_task_by_pid t occ flag v a1 a2 d Hok Ha n Hn H0).
  destruct (grant_head find_task_by_pid t occ flag v a1 a2 d Hok Ha n Hn) as [-> ->].
  eexists. split; [done|].
  destruct (release_grant find_task_by_pid t occ flag v a1 a2 d Hok Ha Hu) as (_ & _ & H1 & H2 & H3 & H4 & H5).
  done.
Qed.
End theorems.

(** ** What a request programs *)

(** The control register [con] says what the request's [flag] asked for. *)
Definition con_fields (flag con : Z) : Prop :=
  GET_BITS con 7 6 = GET_BITS flag 5 4 /\
  Z.testbit con 1 = negb (Z.testbit flag 3) /\ (* count up *)
  Z.testbit con 2 = Z.testbit flag 1 /\        (* counter *)
  Z.testbit con 3 = negb (Z.testbit flag 2) /\ (* stop at the end *)
  Z.testbit con 4 = Z.testbit flag 0 /\        (* 32 bits *)
  Z.testbit con 5 = Z.testbit flag 6 /\        (* inverted *)
  Z.testbit con 8 = Z.testbit flag 7 /\        (* synchronized *)
  (if Z.testbit flag 1
   then Z.testbit con 9 = false /\ Z.testbit con 10 = negb (Z.testbit flag 12)
   else Z.testbit con 9 = Z.testbit flag 12 /\ Z.testbit con 10 = false).

Lemma edge_bits flag :
  TIMER_FLAG_MASK_EDGE flag = Z.b2z (Z.testbit flag 4) * 16 + Z.b2z (Z.testbit flag 5) * 32 /\
  GET_BITS flag 5 4 = Z.b2z (Z.testbit flag 4) + Z.b2z (Z.testbit flag 5) * 2.
Proof.
  unfold TIMER_FLAG_MASK_EDGE, GET_BITS.
  assert (E : flag .& 0x30 = ((flag .& (1 .<< (5 + 1) - 1)) .>> 4) .<< 4).
  { change (1 .<< (5 + 1) - 1) with (Z.ones 6). change 0x30 with (Z.ones 2 .<< 4).
    apply Z.bits_inj'. intros i Hi. rewrite Z.land_spec.
    destruct (Z.lt_ge_cases i 4).
    - rewrite !Z.shiftl_spec_low by lia. apply andb_false_r.
    - rewrite !Z.shiftl_spec by lia. rewrite Z.shiftr_spec, Z.land_spec by lia.
      replace (i - 4 + 4) with i by lia. f_equal.
      rewrite !Z.testbit_ones_nonneg by lia. apply eq_true_iff_eq. rewrite !Z.ltb_lt. lia. }
  rewrite E. set (x := (flag .& _) .>> 4).
  assert (Ex : x = Z.b2z (Z.testbit flag 4) + Z.b2z (Z.testbit flag 5) * 2).
  { unfold x. change (1 .<< (5 + 1) - 1) with (Z.ones 6).
    apply Z.bits_inj'. intros i Hi. rewrite Z.shiftr_spec, Z.land_spec, Z.testbit_ones_nonneg by lia.
    replace (Z.b2z (Z.testbit flag 4) + Z.b2z (Z.testbit flag 5) * 2)
      with (2 * Z.b2z (Z.testbit flag 5) + Z.b2z (Z.testbit flag 4)) by lia.
    destruct (Z.eq_dec i 0) as [->|]; [by rewrite Z.testbit_0_r, andb_true_r|].
    replace i with (Z.succ (i - 1)) at 3 by lia. rewrite Z.testbit_succ_r by lia.
    destruct (Z.eq_dec i 1) as [->|]; [cbn -[Z.testbit]; by rewrite andb_true_r, Z.b2z_bit0|].
    rewrite (proj2 (Z.ltb_ge (i + 4) 6)), andb_false_r by lia. symmetry.
    destruct (Z.testbit flag 5); [|apply Z.bits_0].
    apply Z.bits_above_log2; [done|]. cbn. lia. }
  split; [|done]. rewrite Z.shiftl_mul_pow2, Ex by lia. lia.
Qed.

Lemma mask_bit x k : 0 <= k -> (x .& 1 .<< k =? 0) = negb (Z.testbit x k) /\
  (x .& 1 .<< k =? 1 .<< k) = Z.testbit x k.
Proof.
  intros Hk. split; [by apply land_bit_eqb0|].
  pose proof (land_bit_eqb0 x k Hk) as H. destruct (Z.testbit x k) eqn:E; cbn [negb] in H.
  - apply Z.eqb_eq, Z.bits_inj'. intros i Hi. rewrite Z.land_spec, testbit_1_shiftl by done.
    case_bool_decide; [subst; by rewrite E|apply andb_false_r].
  - bool_prop. rewrite H. apply Z.eqb_neq. rewrite Z.shiftl_1_l.
    pose proof (Z.pow_pos_nonneg 2 k). lia.
Qed.

Lemma con_of_flag_fields flag : con_fields flag (con_of_flag flag).
Proof.
  unfold con_fields, con_of_flag, is_16bit, TIMER_FLAG_16BIT, TIMER_FLAG_TIMER, TIMER_FLAG_ONCE,
    TIMER_FLAG_UP, TIMER_FLAG_UNSYNC, TIMER_FLAG_REAL, TIMER_FLAG_EXT_SRC, TIMER_FLAG_MASK_SIZE,
    TIMER_FLAG_MASK_TYPE, TIMER_FLAG_MASK_STOP, TIMER_FLAG_MASK_DIR, TIMER_FLAG_MASK_SYNC,
    TIMER_FLAG_MASK_INVERT, TIMER_FLAG_MASK_SRC.
  destruct (edge_bits flag) as [-> ->].
  assert (E12 : (flag .& 0x1000 =? 0x1000) = Z.testbit flag 12) by (apply (mask_bit flag 12); lia).
  assert (E0 : (flag .& 0x1 =? 0) = negb (Z.testbit flag 0)) by (apply (mask_bit flag 0); lia).
  assert (E1 : (flag .& 0x2 =? 0) = negb (Z.testbit flag 1)) by (apply (mask_bit flag 1); lia).
  assert (E2 : (flag .& 0x4 =? 0) = negb (Z.testbit flag 2)) by (apply (mask_bit flag 2); lia).
  assert (E3 : (flag .& 0x8 =? 0) = negb (Z.testbit flag 3)) by (apply (mask_bit flag 3); lia).
  assert (E6 : (flag .& 0x40 =? 0) = negb (Z.testbit flag 6)) by (apply (mask_bit flag 6); lia).
  assert (E7 : (flag .& 0x80 =? 0) = negb (Z.testbit flag 7)) by (apply (mask_bit flag 7); lia).
  rewrite E12, E0, E1, E2, E3, E6, E7. clear.
  generalize (Z.testbit flag 0) (Z.testbit flag 1) (Z.testbit flag 2) (Z.testbit flag 3)
    (Z.testbit flag 4) (Z.testbit flag 5) (Z.testbit flag 6) (Z.testbit flag 7) (Z.testbit flag 12).
  intros [] [] [] [] [] [] [] [] []; vm_compute; auto 10.
Qed.

Lemma grant_regs find t occ flag value a1 a2 d a : 2 <= t < 14 ->
  thw (grant find t occ flag value a1 a2 d) a =
  if a =? DANUBE_GPTU_IRNEN then thw d DANUBE_GPTU_IRNEN .|
    (if TIMER_FLAG_MASK_HANDLE flag =? TIMER_FLAG_NO_HANDLE then 0 else 1 .<< (t - 2))
  else if a =? DANUBE_GPTU_RELOAD (t .>> 1) (t .& 1) then value
  else if a =? DANUBE_GPTU_CON (t .>> 1) (t .& 1) then con_of_flag flag
  else if negb (f_gptu_on d) && (a =? DANUBE_GPTU_CLC) then CLC_ON
  else if negb (f_gptu_on d) && (a =? PMU_CR) then bit_clr (thw d PMU_CR) 12
  else thw d a.
Proof.
  intros Ht. destruct (a =? DANUBE_GPTU_IRNEN) eqn:E; bool_prop; [subst; by apply grant_irnen|].
  cbn [grant thw]. rewrite upd_ne by done. unfold upd at 1.
  destruct (a =? DANUBE_GPTU_RELOAD _ _); [done|]. unfold upd at 1.
  destruct (a =? DANUBE_GPTU_CON _ _); [done|]. by destruct (f_gptu_on d).
Qed.

(** A granted request programs its timer and nothing else: the control
    register holds exactly the mode the flags ask for, the reload register the
    value (cut to 16 bits for a 16-bit timer), the interrupt enable of the unit
    is set when the client wants to be told, the unit is powered up when it was
    off; every other register, and the entry of every other timer, keeps its
    value. *)
Theorem request_timer_programs find_task_by_pid pmu_busy timer flag value a1 a2 d r d' :
  gptu_ok d -> 0 <= timer ->
  request_timer find_task_by_pid pmu_busy timer flag value a1 a2 d = Some (r, d') -> 0 <= r ->
  exists t con, slot (number_of_timers d) (is_16bit flag) t /\ con_fields flag con /\
    f_gptu_on d' = true /\
    (forall a, thw d' a =
      if a =? DANUBE_GPTU_IRNEN then thw d DANUBE_GPTU_IRNEN .|
        (if TIMER_FLAG_MASK_HANDLE flag =? TIMER_FLAG_NO_HANDLE then 0 else 1 .<< (t - 2))
      else if a =? DANUBE_GPTU_RELOAD (t .>> 1) (t .& 1)
        then (if is_16bit flag then value .& 0xFFFF else value)
      else if a =? DANUBE_GPTU_CON (t .>> 1) (t .& 1) then con
      else if negb (f_gptu_on d) && (a =? DANUBE_GPTU_CLC) then CLC_ON
      else if negb (f_gptu_on d) && (a =? PMU_CR) then bit_clr (thw d PMU_CR) 12
      else thw d a) /\
    forall i, owned (is_16bit flag) t (i + 2) = false -> Gptu.timer d' i = Gptu.timer d i.
Proof.
  intros Hok Ht E Hr.
  destruct (request_grants _ _ _ _ _ _ _ _ _ _ Hok Ht E Hr) as (t & occ & Ha & _ & _ & _ & ->).
  destruct (grant_slot t occ flag d Hok Ha) as [Hs _].
  exists t, (con_of_flag flag). split_and!; [apply Ha|apply con_of_flag_fields|done| |].
  - intros a. apply grant_regs. lia.
  - intros i Hi. cbn [grant Gptu.timer]. unfold owned in Hi. bool_prop.
    rewrite (proj2 (Z.eqb_neq i (t - 2))) by lia.
    destruct (negb (is_16bit flag)); cbn [andb] in *; [|done]. bool_prop.
    by rewrite (proj2 (Z.eqb_neq i (t - 2 + 1))) by lia.
Qed.

(** Only the holder of a timer can use it: on a number whose timer is free,
    or is none, freeing, starting, stopping and reading all answer EINVAL and
    change nothing.  On a held one, either number of a pair stands for the
    pair; starting and stopping write the run register of its first timer and
    no other register, and reading returns its count register. *)
Theorem timer_calls_need_owner timer is_resume d :
  gptu_ok d -> 0 <= timer ->
  if Z.testbit (occupation d) timer then
    let t := head_timer timer d in
    let run := DANUBE_GPTU_RUN (t .>> 1) (t .& 1) in
    Z.testbit (occupation d) t = true /\ flag (Gptu.timer d (t - 2)) = flag (Gptu.timer d (timer - 2)) /\
    start_timer timer is_resume d = Some (0, wreg run (if is_resume =? 0 then 5 else 1) d) /\
    stop_timer timer d = Some (0, wreg run 2 d) /\
    get_count_value timer d = Some (0, Some (thw d (DANUBE_GPTU_COUNT (t .>> 1) (t .& 1))), d)
  else
    free_timer timer d = Some (- EINVAL, d) /\ start_timer timer is_resume d = Some (- EINVAL, d) /\
    stop_timer timer d = Some (- EINVAL, d) /\ get_count_value timer d = Some (- EINVAL, None, d).
Proof.
  intros Hok Ht. rewrite free_timer_eq, start_timer_eq, stop_timer_eq, get_count_value_eq by done.
  destruct (Z.testbit (occupation d) timer) eqn:E; [|done].
  destruct (head_timer_facts timer d Hok E) as (_ & Hf & _ & Ha). split_and!; try done.
  apply Ha. unfold owned. by rewrite Z.eqb_refl.
Qed.

(** The 64-bit helpers compute exactly what they stand for on the driver's
    operands: the product of a 32-bit word and a factor below 2^16, and the
    quotient (modulo 2^32) and remainder by a divisor up to 2^31.  So the
    divider computed from the bus clock is the nearest count, less one, when
    the frequency is below 2^31 mHz and the count fits 32 bits. *)
Theorem divider_arithmetic fpi freq factor hi lo den :
  is_u32 fpi -> 0 <= factor < 2 ^ 16 -> is_u32 hi -> is_u32 lo -> 0 < den <= 2 ^ 31 ->
  0 < freq < 2 ^ 31 -> 1000 * fpi < 2 ^ 32 * freq ->
  (let '(h, l) := uint64_multiply fpi factor in is_u32 h /\ is_u32 l /\ h * 2 ^ 32 + l = fpi * factor) /\
  (let N := hi * 2 ^ 32 + lo in uint64_divide (hi, lo) den = ((N / den) mod 2 ^ 32, N mod den)) /\
  cal_divider fpi freq = Z.max 0 ((2 * (1000 * fpi) + freq) / (2 * freq) - 1).
Proof.
  intros. split_and!; [by apply uint64_multiply_small|by apply uint64_divide_exact|].
  by apply cal_divider_nearest.
Qed.

(** ** From the clock registers to the timer's period *)

Lemma low_half x : is_u32 x -> (x .& w32 (.~ 0xFFFF) =? 0) = true -> x .& 0xFFFF = x.
Proof.
  intros Hx H. apply Z.eqb_eq in H. apply Z.bits_inj'. intros i Hi. rewrite Z.land_spec.
  destruct (Z.testbit x i) eqn:E; [|done]. cbn [andb].
  destruct (Z.lt_ge_cases i 32); [|by rewrite testbit_u32_high in E].
  assert (Hb : Z.testbit (x .& w32 (.~ 0xFFFF)) i = false) by (rewrite H; apply Z.bits_0).
  rewrite Z.land_spec, E, testbit_w32, Z.lnot_spec, bool_decide_true, andb_true_r in Hb by done.
  by apply negb_false_iff in Hb.
Qed.

Lemma set_timer_flag_size divider c x h :
  is_16bit ((if negb (divider .& w32 (.~ 0xFFFF) =? 0) then TIMER_FLAG_32BIT else TIMER_FLAG_16BIT)
    .| (if (c : bool) then TIMER_FLAG_CYCLIC else TIMER_FLAG_ONCE)
    .| (if (x : bool) then TIMER_FLAG_EXT_SRC else TIMER_FLAG_INT_SRC)
    .| TIMER_FLAG_TIMER .| TIMER_FLAG_DOWN .| TIMER_FLAG_MASK_HANDLE h)
  = (divider .& w32 (.~ 0xFFFF) =? 0).
Proof.
  unfold is_16bit, TIMER_FLAG_MASK_SIZE, TIMER_FLAG_16BIT. change 0x0001 with (1 .<< 0).
  rewrite land_bit_eqb0 by lia. unfold TIMER_FLAG_MASK_HANDLE.
  rewrite !Z.lor_spec, Z.land_spec. change (Z.testbit 0x0300 0) with false. rewrite andb_false_r.
  by destruct (divider .& _ =? 0), c, x.
Qed.

(** Whatever the count is, the divider is it, less one, in 32 bits. *)
Lemma cal_divider_count fpi freq : is_u32 fpi -> 0 < freq < 2 ^ 31 -> cal_divider fpi freq <> 0 ->
  let n := cal_divider fpi freq in 0 < n < 2 ^ 32 /\
  exists k, 0 <= k /\ (k = 0 <-> 1000 * fpi < 2 ^ 32 * freq) /\
    2 * Z.abs ((n + 1 + 2 ^ 32 * k) * freq - 1000 * fpi) <= freq.
Proof.
  intros Hf Hq. unfold cal_divider. rewrite Z.mul_1_l, (w32_id freq) by (unfold is_u32; lia).
  pose proof (uint64_multiply_small fpi 1000 Hf ltac:(lia)) as Hm.
  destruct (uint64_multiply fpi 1000) as [hi lo]. destruct Hm as (Hhi & Hlo & E).
  rewrite uint64_divide_exact by (done || lia). rewrite E, (Z.mul_comm fpi).
  set (N := 1000 * fpi) in *. unfold is_u32 in *.
  pose proof (Z.div_mod N freq ltac:(lia)) as Hdm. pose proof (Z.mod_pos_bound N freq ltac:(lia)) as Hr.
  set (r := N mod freq) in *. set (q := N / freq) in *. assert (Hq0 : 0 <= q) by (apply Z.div_pos; lia).
  pose proof (Z.div_mod q (2 ^ 32) ltac:(lia)) as Hqm. pose proof (Z.mod_pos_bound q (2 ^ 32) ltac:(lia)) as Hw.
  set (k := q / 2 ^ 32) in *. set (m := q mod 2 ^ 32) in *.
  assert (Hk : 0 <= k /\ (k = 0 <-> N < 2 ^ 32 * freq)).
  { split; [apply Z.div_pos; lia|]. split; intros H; [nia|]. apply Z.div_small. nia. }
  clearbody q r m k. rewrite w32_id by (unfold is_u32; rewrite Z.shiftl_mul_pow2 by lia; lia).
  rewrite Z.shiftl_mul_pow2 by lia. change (2 ^ 1) with 2.
  destruct (r * 2 <? freq) eqn:Er, (m >? 0) eqn:E0; bool_prop; cbn [andb]; intros Hn; (split; [lia|]);
    exists k; (split; [apply Hk|]); (split; [apply Hk|]); [|lia|..];
    match goal with |- 2 * Z.abs ((?c + _) * _ - _) <= _ => idtac end; rewrite Hdm, Hqm; lia || nia.
Qed.

(** [set_timer] with the bus clock it reads from the clock unit. *)
Definition set_timer_call (find_task_by_pid : Z -> Z) (pmu_busy : Z -> bool)
    (timer freq is_cyclic is_ext_src handle_flag arg1 arg2 : Z) (d : timer_dev) : option (Z * timer_dev) :=
  fpi ← cgu_get_fpi_bus_clock (thw d) 2;
  set_timer find_task_by_pid pmu_busy fpi timer freq is_cyclic is_ext_src handle_flag arg1 arg2 d.

(** C18: A granted [set_timer] gives the timer asked for, if its count fits.  For a
    frequency below 2^31 thousandths of a hertz, with the second FPI clock that the
    clock unit's registers determine, the reload register of the timer granted
    holds a count whose period, one clock more than the count, is within half a
    clock of the period asked for, less [k] times 2^32 clocks; and the timer is 32
    bits wide only when the count needs it.  [k] is 0 exactly when the period
    is shorter than 2^32 clocks: a longer one is not refused, but its count is cut
    to 32 bits, and the timer runs out early. *)
Theorem set_timer_period find_task_by_pid pmu_busy timer freq is_cyclic is_ext_src h a1 a2 d r d' :
  gptu_ok d -> 0 <= timer -> 0 < freq < 2 ^ 31 ->
  set_timer_call find_task_by_pid pmu_busy timer freq is_cyclic is_ext_src h a1 a2 d = Some (r, d') ->
  0 <= r ->
  exists fpi k t n, cgu_get_fpi_bus_clock (thw d) 2 = Some fpi /\
    0 <= k /\ (k = 0 <-> 1000 * fpi < 2 ^ 32 * freq) /\
    2 <= t < 2 + number_of_timers d /\
    thw d' (DANUBE_GPTU_RELOAD (t .>> 1) (t .& 1)) = n /\ 0 < n < 2 ^ 32 /\
    2 * Z.abs ((n + 1 + 2 ^ 32 * k) * freq - 1000 * fpi) <= freq /\
    is_16bit (flag (Gptu.timer d' (t - 2))) = (n .& w32 (.~ 0xFFFF) =? 0).
Proof.
  intros Hok Ht Hq E Hr. unfold set_timer_call in E.
  destruct (cgu_get_fpi_bus_clock (thw d) 2) as [fpi|] eqn:Ef; cbn [mbind option_bind] in E; [|done].
  pose proof (fpi_bus_u32 _ _ _ Ef) as Hu. unfold set_timer in E.
  pose proof (cal_divider_count fpi freq Hu Hq) as Hn. set (n := cal_divider fpi freq) in *.
  destruct (n =? 0) eqn:E0; bool_prop; [injection E as <- _; by apply Z.opp_nonneg_nonpos in Hr|].
  destruct (Hn E0) as (Hw & k & Hk & Hk0 & He).
  match type of E with request_timer _ _ _ ?f _ _ _ _ = _ => set (fl := f) in * end.
  assert (Hsz : is_16bit fl = (n .& w32 (.~ 0xFFFF) =? 0)) by apply set_timer_flag_size.
  destruct (request_grants _ _ _ _ _ _ _ _ _ _ Hok Ht E Hr) as (t & occ & Ha & _ & _ & _ & ->).
  destruct (grant_slot t occ fl d Hok Ha) as [Hs _].
  destruct (timer_reg_ne t DANUBE_GPTU_IRNEN Hs) as (_ & Hne & _); [by left|].
  exists fpi, k, t, n. split_and!; try done; try lia; [apply Ha..| |].
  - rewrite grant_regs by lia. rewrite (proj2 (Z.eqb_neq _ _)) by congruence. rewrite Z.eqb_refl.
    destruct (is_16bit fl); [|done]. apply low_half; [unfold is_u32; lia|by rewrite <- Hsz].
  - rewrite grant_flag, Z.sub_add. unfold owned. by rewrite Z.eqb_refl.
Qed.

Lemma cal_divider_zero : cal_divider 133333333 0 = 0xFFFFFFFF.
Proof. vm_compute. reflexivity. Qed.

(** Start-up has four outcomes.  It panics when the power management unit
    never answers; it returns the error of the device registration, leaving
    the semaphore taken; it never returns, whatever the time given, when an
    interrupt line is refused, since the loop that gives the lines back counts
    an unsigned index down past zero; otherwise it succeeds with a consistent
    driver that owns as many timers as the module reports, at most twelve. *)
Theorem gptu_init_outcomes pmu_busy misc_register request_irq fuel d :
  let r := danube_gptu_init pmu_busy misc_register request_irq fuel d in
  (pmu_wakes pmu_busy = false -> r = None) /\
  (pmu_wakes pmu_busy = true -> misc_register <> 0 ->
   exists d', r = Some (misc_register, d') /\ tsem d' = 0) /\
  (pmu_wakes pmu_busy = true -> misc_register = 0 ->
   (exists j, 0 <= j < timers_reported d /\ request_irq (TIMER_INTERRUPT + j) <> 0) -> r = None) /\
  (pmu_wakes pmu_busy = true -> misc_register = 0 -> lines_granted request_irq d ->
   exists d', r = Some (0, d') /\ gptu_ok d' /\ number_of_timers d' = timers_reported d /\
     occupation d' = 0).
Proof.
  intros r. destruct (danube_gptu_init_eq pmu_busy misc_register request_irq fuel d) as (h & _ & _ & E).
  fold r in E. destruct (timers_reported_range d) as [Hr _].
  split_and!; intros Hw; rewrite Hw in E.
  - done.
  - intros Hm. rewrite (proj2 (Z.eqb_neq _ _) Hm) in E. eexists. split; [exact E|done].
  - intros -> (j & Hj & Hne). cbn [negb Z.eqb] in E. cbv zeta in E.
    rewrite E. apply request_irqs_refused; [lia|lia|]. exists j. split; [lia|done].
  - intros -> Hl. by apply init_granted.
Qed.

(** ** Witnesses *)

(** A module that reports six timers, powered off. *)
Definition idle_device : timer_dev :=
  mk_tdev 1 6 0 false (fun j => mk_timer false (TIMER_INTERRUPT + j) 0 0 0)
    (upd (fun _ => 0) DANUBE_GPTU_ID 0x5960) (fun _ => 1) [].

Lemma idle_ok : gptu_ok idle_device.
Proof.
  constructor; unfold drives; cbn -[Z.testbit].
  - done.
  - by exists 3.
  - split; [done|]. intros i. by rewrite Z.bits_0.
  - done.
  - intros i. by rewrite Z.bits_0.
  - intros i Hi. rewrite !Z.bits_0. split_and!; [done..|]. by split; [|intros [[? _] _]].
  - intros i. rewrite !Z.bits_0. by split; [|intros [[? _] _]].
Qed.

Lemma pmu_ready_wakes : pmu_wakes (fun _ => false) = true.
Proof. apply pmu_wakes_iff. by exists 1. Qed.

(** A 32-bit cyclic timer with a signal, and the state it leaves. *)
Definition pair_flag : Z := 0x305.
Definition pair_device : timer_dev :=
  grant (fun pid => pid) 2 12 pair_flag 70000 1 2 idle_device.

Lemma pair_request :
  request_timer (fun pid => pid) (fun _ => false) 0 pair_flag 70000 1 2 idle_device = Some (2, pair_device).
Proof.
  rewrite request_timer_eq by (apply idle_ok || done). cbn -[grant pmu_wakes]. by rewrite pmu_ready_wakes.
Qed.

Lemma pair_ok : gptu_ok pair_device.
Proof. exact (request_ok _ _ _ _ _ _ _ _ _ _ idle_ok (Z.le_refl 0) pair_request). Qed.

Lemma gptu_reachable_consistent_witness :
  exists d1 r d2,
    danube_gptu_init (fun _ => false) 0 (fun _ => 0) 0 idle_device = Some (0, d1) /\
    request_timer (fun pid => pid) (fun _ => false) 0 pair_flag 70000 1 2 d1 = Some (r, d2) /\
    gptu_ok (timer_irq_handler TIMER_INTERRUPT 0 d2).
Proof.
  destruct (init_granted (fun _ => false) (fun _ => 0) 0 idle_device pmu_ready_wakes (fun _ _ => eq_refl))
    as (d1 & E & Hok & _).
  assert (Hr : exists r d2, request_timer (fun pid => pid) (fun _ => false) 0 pair_flag 70000 1 2 d1 = Some (r, d2)).
  { rewrite request_timer_eq by done. rewrite pmu_ready_wakes, orb_true_r.
    destruct (_ >=? _); [by eexists _, _|]. destruct (allocate_timer _ _ _) as [e|[[t r] o]]; by eexists _, _. }
  destruct Hr as (r & d2 & Er). exists d1, r, d2. split; [exact E|split; [exact Er|]].
  apply (gptu_reachable_consistent (fun pid => pid) (fun _ => false) 100000000 idle_device d1 _ (fun _ => 0) 0%nat E).
  eapply rtc_l; [exact (step_request _ _ _ _ _ _ _ _ _ _ _ (Z.le_refl 0) Er)|]. apply rtc_once, step_irq.
Defined.

Lemma gptu_ioctl_returns_witness :
  exists r p' d', gptu_ioctl (fun pid => pid) (fun _ => false) 100000000 GPTU_SET_TIMER true true
    (mk_param 0 TIMER_FLAG_CYCLIC 1000 7 10) idle_device = Some (r, p', d').
Proof. apply gptu_ioctl_returns; [exact idle_ok|exact pmu_ready_wakes|done]. Defined.

Lemma request_timer_allocates_witness :
  Z.testbit (occupation pair_device) 2 = true /\ Z.testbit (occupation pair_device) 3 = true.
Proof.
  destruct (request_timer_allocates (fun pid => pid) (fun _ => false) 0 pair_flag 70000 1 2 idle_device 2
    pair_device idle_ok (Z.le_refl 0) pair_request) as [(_ & t & _ & _ & Hb & Hr & _)|[H _]]; [|done].
  subst t. split; by rewrite Hb.
Defined.

Lemma request_free_roundtrip_witness :
  exists d2, free_timer 2 pair_device = Some (0, d2) /\ occupation d2 = 0 /\ f_gptu_on d2 = false.
Proof.
  destruct (request_free_roundtrip (fun pid => pid) (fun _ => false) 0 pair_flag 70000 1 2 idle_device 2
    pair_device idle_ok (Z.le_refl 0) ltac:(change (is_u32 0); unfold is_u32; lia) pair_request ltac:(done))
    as (d2 & E & Ho & Hg & _). by exists d2.
Defined.

Lemma request_timer_programs_witness :
  exists con, con_fields pair_flag con /\ f_gptu_on pair_device = true.
Proof.
  destruct (request_timer_programs (fun pid => pid) (fun _ => false) 0 pair_flag 70000 1 2 idle_device 2
    pair_device idle_ok (Z.le_refl 0) pair_request ltac:(done)) as (t & con & _ & H1 & H2 & _).
  by exists con.
Defined.

Lemma timer_calls_need_owner_witness :
  stop_timer 3 pair_device = Some (0, wreg (DANUBE_GPTU_RUN 1 0) 2 pair_device) /\
  stop_timer 4 pair_device = Some (- EINVAL, pair_device).
Proof.
  split.
  - exact (proj1 (proj2 (proj2 (proj2 (timer_calls_need_owner 3 0 pair_device pair_ok ltac:(done)))))).
  - exact (proj1 (proj2 (proj2 (timer_calls_need_owner 4 0 pair_device pair_ok ltac:(done))))).
Defined.

Lemma divider_arithmetic_witness : cal_divider 133333333 1000 = 133333332.
Proof.
  destruct (divider_arithmetic 133333333 1000 1000 31 196999752 1000) as (_ & _ & ->);
    unfold is_u32; try lia. reflexivity.
Defined.

Lemma gptu_init_outcomes_witness :
  exists d', danube_gptu_init (fun _ => false) 0 (fun _ => 0) 0 idle_device = Some (0, d') /\
    number_of_timers d' = 6.
Proof.
  destruct (gptu_init_outcomes (fun _ => false) 0 (fun _ => 0) 0 idle_device) as (_ & _ & _ & H).
  destruct (H pmu_ready_wakes eq_refl (fun _ _ => eq_refl)) as (d' & E & _ & Hn & _).
  exists d'. split; [exact E|]. rewrite Hn. vm_compute. reflexivity.
Defined.

Lemma set_timer_period_witness :
  exists fpi t n, 2 * Z.abs ((n + 1) * 1000 - 1000 * fpi) <= 1000 /\ 2 <= t < 8.
Proof.
  set (d := set_thw (upd nominal_hw DANUBE_GPTU_ID 0x5960) idle_device).
  assert (Hok : gptu_ok d)
    by exact (ok_registers (upd nominal_hw DANUBE_GPTU_ID 0x5960) [] idle_device idle_ok eq_refl).
  assert (Hf : cgu_get_fpi_bus_clock (thw d) 2 = Some 166500000) by (vm_compute; reflexivity).
  assert (E : exists d', set_timer_call (fun pid => pid) (fun _ => false) 0 1000 1 0 0 0 0 d = Some (2, d')).
  { unfold set_timer_call. rewrite Hf. cbn [mbind option_bind]. unfold set_timer.
    change (cal_divider 166500000 1000) with 166499999. cbn [Z.eqb].
    rewrite request_timer_eq by done. change (0 >=? 2 + number_of_timers d) with false. cbv iota.
    match goal with |- context [allocate_timer ?x ?y d] =>
      replace (allocate_timer x y d) with (inr (A := Z) (2, 2, 12)) by (vm_compute; reflexivity) end.
    rewrite pmu_ready_wakes, orb_true_r. by eexists. }
  destruct E as [d' E].
  destruct (set_timer_period (fun pid => pid) (fun _ => false) 0 1000 1 0 0 0 0 d 2 d' Hok
    ltac:(lia) ltac:(lia) E ltac:(lia)) as (fpi & k & t & n & Hf' & _ & Hk & Hr & _ & _ & He & _).
  rewrite Hf in Hf'. injection Hf' as <-. assert (k = 0) as -> by (apply Hk; reflexivity).
  exists 166500000, t, n. rewrite Z.mul_0_r, Z.add_0_r in He. split; [exact He|exact Hr].
Defined.
