(* ===== verification/Led.v ===== *)
(** * LED controller driver ([drivers/char/danube_led.c])

    The controller shifts up to 24 LED states out over three pins, or gives two
    of the pins to the ADSL module.  The driver is a client of the port driver
    ([Port]), whose pins it reserves, and of the timer unit ([Gptu]), whose timer
    2B can be the clock of the LED updates; the rate of the timer comes from the
    clock unit ([Cgu]).  The file models every operation of the driver over the
    states of those two, and proves that power, pins and the driver's own flags
    stay consistent and every call returns, what a configuration call writes,
    and what becomes of the timer.

    The registers of the controller and of the power management unit are in the
    store of the timer unit, those of the ports in the port driver's.  [None] is
    a call that does not return: it blocks on a semaphore or panics. *)

From Stdlib Require Import FunctionalExtensionality.
From S2P Require Import Prelude Icu Arith64 Cgu Port Gptu.
Open Scope Z_scope.

(** ** Constants *)

Definition LED_SH_PORT : Z := 0.
Definition LED_SH_PIN : Z := 4.
Definition LED_D_PORT : Z := 0.
Definition LED_D_PIN : Z := 5.
Definition LED_ST_PORT : Z := 0.
Definition LED_ST_PIN : Z := 6.
Definition LED_ADSL0_PORT : Z := 0.
Definition LED_ADSL0_PIN : Z := 4.
Definition LED_ADSL1_PORT : Z := 0.
Definition LED_ADSL1_PIN : Z := 5.
Definition LED_MINOR : Z := 151.
Definition MISC_MAJOR : Z := 10.
Definition MISC_DYNAMIC_MINOR : Z := 255.

Definition DANUBE_LED : Z := 0xBE100BB0.
Definition DANUBE_LED_CON0 : Z := DANUBE_LED + 0x0000.
Definition DANUBE_LED_CON1 : Z := DANUBE_LED + 0x0004.
Definition DANUBE_LED_CPU0 : Z := DANUBE_LED + 0x0008.
Definition DANUBE_LED_CPU1 : Z := DANUBE_LED + 0x000C.
Definition DANUBE_LED_AR : Z := DANUBE_LED + 0x0010.

Definition FALLING_EDGE : Z := 1.
Definition LED_CON0_DEFAULT_VALUE : Z := 0x80000000 .| FALLING_EDGE .<< 26.
Definition LED_CON1_DEFAULT_VALUE : Z := 0.
Definition LED_LED_CPU0_DEFAULT_VALUE : Z := 0.
Definition LED_LED_CPU1_DEFAULT_VALUE : Z := 0.
Definition LED_AR_DEFAULT_VALUE : Z := 0.

Definition LED_CONFIG : Z := 0x01.
Definition CONFIG_OPERATION_UPDATE_SOURCE : Z := 0x0001.
Definition CONFIG_OPERATION_BLINK : Z := 0x0002.
Definition CONFIG_OPERATION_UPDATE_CLOCK : Z := 0x0004.
Definition CONFIG_OPERATION_STORE_MODE : Z := 0x0008.
Definition CONFIG_OPERATION_SHIFT_CLOCK : Z := 0x0010.
Definition CONFIG_OPERATION_DATA_OFFSET : Z := 0x0020.
Definition CONFIG_OPERATION_NUMBER_OF_LED : Z := 0x0040.
Definition CONFIG_OPERATION_DATA : Z := 0x0080.
Definition CONFIG_OPERATION_MIPS0_ACCESS : Z := 0x0100.
Definition CONFIG_DATA_CLOCK_EDGE : Z := 0x0200.

Record led_config_param := mk_lparam {
  operation_mask : Z;
  led : Z; source : Z;
  blink_mask : Z; blink : Z;
  update_clock : Z; fpid : Z;
  store_mode : Z;
  fpis : Z;
  data_offset : Z;
  number_of_enabled_led : Z;
  data_mask : Z; data : Z;
  mips0_access_mask : Z; mips0_access : Z;
  f_data_clock_on_rising : Z
}.

(** ** State *)

Record led_state := mk_led {
  led_sem : Z;
  gpt_on : Z; gpt_freq : Z;
  adsl_on : Z; f_led_on : Z;
  module_id : Z;
  pins : port_state;
  gptu : timer_dev
}.

Definition set_led_sem (n : Z) (s : led_state) : led_state :=
  mk_led n (gpt_on s) (gpt_freq s) (adsl_on s) (f_led_on s) (module_id s) (pins s) (gptu s).
Definition set_gpt_on (v : Z) (s : led_state) : led_state :=
  mk_led (led_sem s) v (gpt_freq s) (adsl_on s) (f_led_on s) (module_id s) (pins s) (gptu s).
Definition set_on (adsl on : Z) (s : led_state) : led_state :=
  mk_led (led_sem s) (gpt_on s) (gpt_freq s) adsl on (module_id s) (pins s) (gptu s).
Definition set_module_id (v : Z) (s : led_state) : led_state :=
  mk_led (led_sem s) (gpt_on s) (gpt_freq s) (adsl_on s) (f_led_on s) v (pins s) (gptu s).
Definition set_pins (p : port_state) (s : led_state) : led_state :=
  mk_led (led_sem s) (gpt_on s) (gpt_freq s) (adsl_on s) (f_led_on s) (module_id s) p (gptu s).
Definition set_gptu (d : timer_dev) (s : led_state) : led_state :=
  mk_led (led_sem s) (gpt_on s) (gpt_freq s) (adsl_on s) (f_led_on s) (module_id s) (pins s) d.

Definition lreg (a : Z) (s : led_state) : Z := thw (gptu s) a.
Definition wled (a v : Z) (s : led_state) : led_state := set_gptu (wreg a v (gptu s)) s.

Definition led_down (s : led_state) : option led_state :=
  if led_sem s <=? 0 then None else Some (set_led_sem (led_sem s - 1) s).
Definition led_up (s : led_state) : led_state := set_led_sem (led_sem s + 1) s.

(** ** Fields of the registers *)

Definition set_update_source (reg led source : Z) : Z :=
  (reg .& .~ ((led .& 0x03) .<< 24)) .| ((source .& 0x03) .<< 24).
Definition set_blink_in_batch (reg mask blink : Z) : Z :=
  (reg .& .~ ((mask .& 0x00FFFFFF) .| 0x87000000)) .| (blink .& 0x00FFFFFF).
Definition set_data_clock_edge (reg f_on_rising_edge : Z) : Z :=
  if negb (f_on_rising_edge =? 0) then bit_clr reg 26 else bit_set reg 26.
Definition set_update_clock (reg clock fpid : Z) : Z :=
  if clock =? 0 then reg .& .~ 0xC0000000
  else if clock =? 1 then (reg .& .~ 0xC0000000) .| 0x40000000
  else if clock =? 2 then (reg .& .~ 0xCF800000) .| 0x80000000 .| ((fpid .& 0x1F) .<< 23)
  else reg.
Definition set_store_mode (reg mode : Z) : Z :=
  if negb (mode =? 0) then bit_set reg 28 else bit_clr reg 28.
Definition set_shift_clock (reg fpis : Z) : Z := SET_BITS reg 21 20 fpis.
Definition set_data_offset (reg offset : Z) : Z := SET_BITS reg 19 18 offset.
Definition set_number_of_enabled_led (reg number : Z) : Z :=
  let bit_mask := if number >? 16 then 0x07 else if number >? 8 then 0x03
                  else if negb (number =? 0) then 0x01 else 0x00 in
  (reg .& .~ 0x07) .| bit_mask.
Definition set_data_in_batch (reg mask data : Z) : Z :=
  (reg .& .~ (mask .& 0x00FFFFFF)) .| (data .& 0x00FFFFFF).
Definition set_access_right (reg mask ar : Z) : Z :=
  (reg .& .~ (mask .& 0x00FFFFFF)) .| (.~ ar .& mask).

Definition LED_CON0_SWU (s : led_state) : bool := bit_on (lreg DANUBE_LED_CON0 s) 31.
Definition LED_CON0_AD1 (s : led_state) : bool := bit_on (lreg DANUBE_LED_CON0 s) 25.
Definition LED_CON0_AD0 (s : led_state) : bool := bit_on (lreg DANUBE_LED_CON0 s) 24.
Definition LED_CON1_US (s : led_state) : Z := lreg DANUBE_LED_CON1 s .>> 30.

(** ** Operations

    [find_task_by_pid] is the kernel's.  Of the hardware, [pmu_busy] and
    [led_busy] are the answers of the power management unit for the timer unit
    and the controller at each poll, and [swu_done i]: the controller has
    finished its update before the poll at counter [i]. *)
Section led.
Context (find_task_by_pid : Z -> Z) (pmu_busy led_busy swu_done : Z -> bool).

(** *** Software update *)

Definition swu_tick (i : Z) (s : led_state) : led_state :=
  if swu_done i then wled DANUBE_LED_CON0 (bit_clr (lreg DANUBE_LED_CON0 s) 31) s else s.

(** The inner loop leaves [j] at 16000, so a turn takes 1000 off [i]. *)
Fixpoint update_poll (fuel : nat) (i : Z) (s : led_state) : option (Z * led_state) :=
  match fuel with
  | O => None
  | S fuel =>
      if i =? 0 then Some (- EBUSY, s) else
      s ← led_down s;
      let s := swu_tick i s in
      if negb (LED_CON0_SWU s)
      then Some (0, led_up (wled DANUBE_LED_CON0 (bit_set (lreg DANUBE_LED_CON0 s) 31) s))
      else update_poll fuel (i - 16000 / 16) (led_up s)
  end.
Definition update_fuel : nat := 101.
Definition update_led (s : led_state) : option (Z * led_state) :=
  if negb (LED_CON1_US s =? 0) then Some (0, s) else update_poll update_fuel 100000 s.

(** *** Power *)

Definition enable_led (s : led_state) : option led_state :=
  let s := wled PMU_CR (bit_clr (lreg PMU_CR s) 11) s in
  i ← pmu_wait (Z.to_nat PMU_POLLS) led_busy PMU_POLLS;
  if i =? 0 then None (* panic *) else Some s.
Definition disable_led (s : led_state) : led_state := wled PMU_CR (bit_set (lreg PMU_CR s) 11) s.

(** *** Pins *)

Definition on_pins (f : port_fn) (port pin : Z) (s : led_state) : option (Z * led_state) :=
  '(r, p) ← f port pin (module_id s) (pins s); Some (r, set_pins p s).

(** Calls whose results are or-ed together, or dropped. *)
Fixpoint pin_calls (l : list (port_fn * Z * Z)) (ret : Z) (s : led_state) : option (Z * led_state) :=
  match l with
  | [] => Some (ret, s)
  | (f, port, pin) :: l => '(r, s) ← on_pins f port pin s; pin_calls l (ret .| r) s
  end.

Definition pin_setup (alt0 alt1 : port_fn) (port pin : Z) : list (port_fn * Z * Z) :=
  [(alt0, port, pin); (alt1, port, pin);
   (danube_port_set_dir_out, port, pin); (danube_port_set_open_drain, port, pin)].

Definition release_gpio_port (adsl : Z) (s : led_state) : option led_state :=
  '(_, s) ← pin_calls
    (if negb (adsl =? 0)
     then [(danube_port_free_pin, LED_ADSL0_PORT, LED_ADSL0_PIN);
           (danube_port_free_pin, LED_ADSL1_PORT, LED_ADSL1_PIN)]
     else [(danube_port_free_pin, LED_ST_PORT, LED_ST_PIN);
           (danube_port_free_pin, LED_D_PORT, LED_D_PIN);
           (danube_port_free_pin, LED_SH_PORT, LED_SH_PIN)]) 0 s;
  Some s.

Definition setup_gpio_port (adsl : Z) (s : led_state) : option (Z * led_state) :=
  '(ret, s) ← pin_calls
    (if negb (adsl =? 0)
     then [(danube_port_reserve_pin, LED_ADSL0_PORT, LED_ADSL0_PIN);
           (danube_port_reserve_pin, LED_ADSL1_PORT, LED_ADSL1_PIN)]
     else [(danube_port_reserve_pin, LED_ST_PORT, LED_ST_PIN);
           (danube_port_reserve_pin, LED_D_PORT, LED_D_PIN);
           (danube_port_reserve_pin, LED_SH_PORT, LED_SH_PIN)]) 0 s;
  if negb (ret =? 0) then s ← release_gpio_port adsl s; Some (ret, s) else
  '(_, s) ← pin_calls
    (if negb (adsl =? 0)
     then pin_setup danube_port_clear_altsel0 danube_port_set_altsel1 LED_ADSL0_PORT LED_ADSL0_PIN
          ++ pin_setup danube_port_set_altsel0 danube_port_set_altsel1 LED_ADSL1_PORT LED_ADSL1_PIN
     else pin_setup danube_port_set_altsel0 danube_port_clear_altsel1 LED_ST_PORT LED_ST_PIN
          ++ pin_setup danube_port_set_altsel0 danube_port_clear_altsel1 LED_D_PORT LED_D_PIN
          ++ pin_setup danube_port_set_altsel0 danube_port_clear_altsel1 LED_SH_PORT LED_SH_PIN) 0 s;
  Some (0, s).

Definition turn_on_led (adsl : Z) (s : led_state) : option (Z * led_state) :=
  '(ret, s) ← setup_gpio_port adsl s;
  if negb (ret =? 0) then Some (ret, s) else
  s ← enable_led s; Some (0, s).
Definition turn_off_led (adsl : Z) (s : led_state) : option led_state :=
  s ← release_gpio_port adsl s; Some (disable_led s).

(** *** The timer *)

Definition setup_gpt (timer freq : Z) (s : led_state) : option (Z * led_state) :=
  let timer := TIMER timer 1 in
  '(ret, d) ← set_timer_call find_task_by_pid pmu_busy timer freq 1 0 TIMER_FLAG_NO_HANDLE 0 0 (gptu s);
  if negb (ret =? 0) then Some (ret, set_gptu d s) else
  '(ret, d) ← start_timer timer 0 d;
  if negb (ret =? 0) then '(_, d) ← free_timer timer d; Some (ret, set_gptu d s)
  else Some (ret, set_gptu d s).

Definition release_gpt (timer : Z) (s : led_state) : option led_state :=
  let timer := TIMER timer 0 in
  '(_, d) ← stop_timer timer (gptu s);
  '(_, d) ← free_timer timer d;
  Some (set_gptu d s).

(** *** Single LEDs *)

Definition danube_led_set_blink (led blink : Z) (s : led_state) : option (Z * led_state) :=
  if led >? 23 then Some (- EINVAL, s) else
  s ← led_down s;
  let con0 := lreg DANUBE_LED_CON0 s in
  let s := wled DANUBE_LED_CON0 (if negb (blink =? 0) then bit_set con0 led else bit_clr con0 led) s in
  let s := led_up s in
  Some (if (led =? 0) && LED_CON0_AD0 s || (led =? 1) && LED_CON0_AD1 s then - EINVAL else 0, s).

Definition danube_led_set_data (led data : Z) (s : led_state) : option (Z * led_state) :=
  if led >? 23 then Some (- EINVAL, s) else
  s ← led_down s;
  let cpu0 := lreg DANUBE_LED_CPU0 s in
  let s := wled DANUBE_LED_CPU0 (if negb (data =? 0) then bit_set cpu0 led else bit_clr cpu0 led) s in
  let f_update := negb (bit_on (lreg DANUBE_LED_AR s) led) in
  let s := led_up s in
  if f_update then update_led s else Some (0, s).

(** *** Configuration *)

(** The local copies of the registers that a configuration call prepares, which
    of them are unchanged ([clean_...]), and the new switches. *)
Record led_update := mk_upd {
  reg_con0 : Z; reg_con1 : Z; reg_cpu0 : Z; reg_ar : Z;
  clean_reg_con0 : bool; clean_reg_con1 : bool; clean_reg_cpu0 : bool; clean_reg_ar : bool;
  f_setup_gpt2 : bool; f_software_update : bool;
  new_led_on : Z; new_adsl_on : Z
}.

Definition put_con0 (v : Z) (u : led_update) : led_update :=
  mk_upd v (reg_con1 u) (reg_cpu0 u) (reg_ar u) false (clean_reg_con1 u) (clean_reg_cpu0 u)
    (clean_reg_ar u) (f_setup_gpt2 u) (f_software_update u) (new_led_on u) (new_adsl_on u).
Definition put_con1 (v : Z) (u : led_update) : led_update :=
  mk_upd (reg_con0 u) v (reg_cpu0 u) (reg_ar u) (clean_reg_con0 u) false (clean_reg_cpu0 u)
    (clean_reg_ar u) (f_setup_gpt2 u) (f_software_update u) (new_led_on u) (new_adsl_on u).
Definition put_cpu0 (v : Z) (u : led_update) : led_update :=
  mk_upd (reg_con0 u) (reg_con1 u) v (reg_ar u) (clean_reg_con0 u) (clean_reg_con1 u) false
    (clean_reg_ar u) (f_setup_gpt2 u) (f_software_update u) (new_led_on u) (new_adsl_on u).
Definition put_ar (v : Z) (u : led_update) : led_update :=
  mk_upd (reg_con0 u) (reg_con1 u) (reg_cpu0 u) v (clean_reg_con0 u) (clean_reg_con1 u)
    (clean_reg_cpu0 u) false (f_setup_gpt2 u) (f_software_update u) (new_led_on u) (new_adsl_on u).
Definition put_clock (gpt2 soft : bool) (u : led_update) : led_update :=
  mk_upd (reg_con0 u) (reg_con1 u) (reg_cpu0 u) (reg_ar u) (clean_reg_con0 u) (clean_reg_con1 u)
    (clean_reg_cpu0 u) (clean_reg_ar u) gpt2 soft (new_led_on u) (new_adsl_on u).
Definition put_new (led adsl : Z) (u : led_update) : led_update :=
  mk_upd (reg_con0 u) (reg_con1 u) (reg_cpu0 u) (reg_ar u) (clean_reg_con0 u) (clean_reg_con1 u)
    (clean_reg_cpu0 u) (clean_reg_ar u) (f_setup_gpt2 u) (f_software_update u) led adsl.

Definition fresh_update (s : led_state) : led_update :=
  mk_upd (lreg DANUBE_LED_CON0 s) (lreg DANUBE_LED_CON1 s) (lreg DANUBE_LED_CPU0 s)
    (lreg DANUBE_LED_AR s) true true true true false (negb (LED_CON0_SWU s))
    (f_led_on s) (adsl_on s).

(** One part of the parameter: done when its bit of the mask is set; [None] is
    the jump to [INVALID_PARAM]. *)
Definition operation := led_config_param -> led_update -> option led_update.
Definition when (op : Z) (f : operation) : operation := fun p u =>
  if negb (operation_mask p .& op =? 0) then f p u else Some u.

Definition config_update_source : operation := fun p u =>
  if (led p >? 0x03) || (source p >? 0x03) then None else
  Some (put_new (new_led_on u) (source p)
          (put_con0 (set_update_source (reg_con0 u) (led p) (source p)) u)).
Definition config_blink : operation := fun p u =>
  if negb (blink_mask p .& 0xFF000000 =? 0) || negb (blink p .& 0xFF000000 =? 0) then None else
  Some (put_con0 (set_blink_in_batch (reg_con0 u) (blink_mask p) (blink p)) u).
Definition config_clock_edge : operation := fun p u =>
  Some (put_con0 (set_data_clock_edge (reg_con0 u) (f_data_clock_on_rising p)) u).
Definition config_update_clock : operation := fun p u =>
  if (update_clock p >? 0x02) || (update_clock p =? 0x02) && (fpid p >? 0x3) then None else
  let u := put_clock (if update_clock p =? 0x01 then true else f_setup_gpt2 u)
             (update_clock p =? 0) u in
  Some (put_con1 (set_update_clock (reg_con1 u) (update_clock p) (fpid p)) u).
Definition config_store_mode : operation := fun p u =>
  Some (put_con1 (set_store_mode (reg_con1 u) (store_mode p)) u).
Definition config_shift_clock : operation := fun p u =>
  if fpis p >? 0x03 then None else Some (put_con1 (set_shift_clock (reg_con1 u) (fpis p)) u).
Definition config_data_offset : operation := fun p u =>
  if data_offset p >? 0x03 then None
  else Some (put_con1 (set_data_offset (reg_con1 u) (data_offset p)) u).
Definition config_number_of_led : operation := fun p u =>
  if number_of_enabled_led p >? 0x24 then None else
  let u := put_new (if negb (number_of_enabled_led p =? 0) then 1 else 0) (new_adsl_on u) u in
  Some (put_con1 (set_number_of_enabled_led (reg_con1 u) (number_of_enabled_led p)) u).
Definition config_data : operation := fun p u =>
  if negb (data_mask p .& 0xFF000000 =? 0) || negb (data p .& 0xFF000000 =? 0) then None else
  let u := put_cpu0 (set_data_in_batch (reg_cpu0 u) (data_mask p) (data p)) u in
  Some (if f_software_update u then put_con0 (reg_con0 u .| 0x80000000) u else u).
Definition config_access : operation := fun p u =>
  if negb (mips0_access_mask p .& 0xFF000000 =? 0) || negb (mips0_access p .& 0xFF000000 =? 0)
  then None else
  Some (put_ar (set_access_right (reg_ar u) (mips0_access_mask p) (mips0_access p)) u).

Definition config_operations : list operation :=
  [ when CONFIG_OPERATION_UPDATE_SOURCE config_update_source;
    when CONFIG_OPERATION_BLINK config_blink;
    when CONFIG_DATA_CLOCK_EDGE config_clock_edge;
    when CONFIG_OPERATION_UPDATE_CLOCK config_update_clock;
    when CONFIG_OPERATION_STORE_MODE config_store_mode;
    when CONFIG_OPERATION_SHIFT_CLOCK config_shift_clock;
    when CONFIG_OPERATION_DATA_OFFSET config_data_offset;
    when CONFIG_OPERATION_NUMBER_OF_LED config_number_of_led;
    when CONFIG_OPERATION_DATA config_data;
    when CONFIG_OPERATION_MIPS0_ACCESS config_access ].

Fixpoint run_operations (l : list operation) (p : led_config_param) (u : led_update) : option led_update :=
  match l with
  | [] => Some u
  | f :: l => u ← f p u; run_operations l p u
  end.

(** The timer; a result other than 0 is the jump to [SETUP_GPT_ERROR]. *)
Definition config_gpt (p : led_config_param) (u : led_update) (s : led_state) : option (Z * led_state) :=
  if f_setup_gpt2 u && (new_adsl_on u =? 0) then
    '(ret, s) ←
      (if negb (gpt_on s =? 0) then
         if negb (gpt_freq s =? fpid p) then
           s ← release_gpt 2 s; setup_gpt 2 (fpid p) (set_gpt_on 0 s)
         else Some (0, s)
       else setup_gpt 2 (fpid p) s);
    Some (ret, if negb (ret =? 0) then s else set_gpt_on 1 s)
  else if negb (gpt_on s =? 0) then s ← release_gpt 2 s; Some (0, set_gpt_on 0 s)
  else Some (0, s).

(** Pins and power; a result other than 0 is the jump to [SETUP_GPIO_ERROR]. *)
Definition config_leds (u : led_update) (s : led_state) : option (Z * led_state) :=
  let new_led_on := if negb (new_adsl_on u =? 0) then 1 else new_led_on u in
  s ← (if (new_led_on =? 0) || negb (adsl_on s =? new_adsl_on u)
       then s ← turn_off_led (adsl_on s) s; Some (set_on 0 0 s) else Some s);
  if (f_led_on s =? 0) && negb (new_led_on =? 0) then
    '(ret, s) ← turn_on_led (new_adsl_on u) s;
    if negb (ret =? 0) then Some (ret, s) else Some (0, set_on (new_adsl_on u) 1 s)
  else Some (0, s).

Definition write_registers (u : led_update) (s : led_state) : led_state :=
  let s := if clean_reg_ar u then s else wled DANUBE_LED_AR (reg_ar u) s in
  let s := if clean_reg_cpu0 u then s else wled DANUBE_LED_CPU0 (reg_cpu0 u) s in
  let s := if clean_reg_con1 u then s else wled DANUBE_LED_CON1 (reg_con1 u) s in
  if clean_reg_con0 u then s else wled DANUBE_LED_CON0 (reg_con0 u) s.

Definition config_write (u : led_update) (s : led_state) : option led_state :=
  s ← (if f_led_on s =? 0 then enable_led s else Some s);
  let s := write_registers u s in
  Some (if f_led_on s =? 0 then disable_led s else s).

(** [None] as the parameter is the null pointer. *)
Definition danube_led_config (param : option led_config_param) (s : led_state) : option (Z * led_state) :=
  match param with
  | None => Some (- EINVAL, s)
  | Some p =>
      s ← led_down s;
      match run_operations config_operations p (fresh_update s) with
      | None => Some (- EINVAL, led_up s)
      | Some u =>
          '(ret, s) ← config_gpt p u s;
          if negb (ret =? 0) then Some (ret, led_up s) else
          '(ret, s) ← config_leds u s;
          if negb (ret =? 0)
          then s ← release_gpt 2 s; Some (ret, led_up (set_gpt_on 0 s)) else
          s ← config_write u s;
          Some (0, led_up s)
      end
  end.

(** [param] is what [copy_from_user], whose result is not looked at, left. *)
Definition led_ioctl (cmd : Z) (param : led_config_param) (s : led_state) : option (Z * led_state) :=
  if cmd =? LED_CONFIG then danube_led_config (Some param) s else Some (- EINVAL, s).
Definition led_open (s : led_state) : Z * led_state := (0, s).
Definition led_release (s : led_state) : Z * led_state := (0, s).

(** *** Start and end of the module *)

Definition zero_param (operation number mask value : Z) : led_config_param :=
  mk_lparam operation 0 0 0 0 0 0 0 0 0 number mask value 0 0 0.

(** [misc_register] answers with the result and the minor number the device
    gets when it is registered under the one given; [this_module] is the address
    of the module, 0 when the driver is part of the kernel. *)
Definition danube_led_init (misc_register : Z -> Z * Z) (this_module : Z) (s : led_state)
  : option (Z * led_state) :=
  s ← enable_led s;
  let s := wled DANUBE_LED_AR LED_AR_DEFAULT_VALUE s in
  let s := wled DANUBE_LED_CPU0 LED_LED_CPU0_DEFAULT_VALUE s in
  let s := wled DANUBE_LED_CPU1 LED_LED_CPU1_DEFAULT_VALUE s in
  let s := wled DANUBE_LED_CON1 LED_CON1_DEFAULT_VALUE s in
  let s := wled DANUBE_LED_CON0 LED_CON0_DEFAULT_VALUE s in
  let s := disable_led s in
  let s := set_led_sem 0 s in
  let '(ret, minor) :=
    let '(ret, minor) := misc_register LED_MINOR in
    if ret =? - EBUSY then misc_register MISC_DYNAMIC_MINOR else (ret, minor) in
  if negb (ret =? 0) then Some (ret, s) else
  let s := set_module_id (if negb (this_module =? 0) then this_module
                          else (MISC_MAJOR .<< 8) .| minor) s in
  let s := led_up s in
  '(_, s) ← danube_led_config (Some (zero_param CONFIG_OPERATION_NUMBER_OF_LED 16 0 0)) s;
  '(_, s) ← danube_led_config (Some (zero_param CONFIG_OPERATION_DATA 16 (1 .<< 4) (1 .<< 4))) s;
  Some (0, s).

(** The result of [misc_deregister] is only printed. *)
Definition danube_led_exit (s : led_state) : led_state := s.
End led.

(** ** What the timer unit leaves alone *)

Definition gptu_reg (a : Z) : Prop := DANUBE_GPTU <= a < DANUBE_GPTU + 0x100.

(** Registers that are not the unit's are unchanged, but for the unit's own bit
    of the power management unit. *)
Definition gptu_frame (h h' : Z -> Z) : Prop :=
  (forall a, ~ gptu_reg a -> a <> PMU_CR -> h' a = h a) /\
  (forall i, 0 <= i -> i <> 12 -> Z.testbit (h' PMU_CR) i = Z.testbit (h PMU_CR) i).

Lemma frame_refl h : gptu_frame h h.
Proof. done. Qed.

Lemma frame_trans h1 h2 h3 : gptu_frame h1 h2 -> gptu_frame h2 h3 -> gptu_frame h1 h3.
Proof.
  intros [H1 H1'] [H2 H2']. split.
  - intros a Ha Hp. by rewrite H2, H1.
  - intros i Hi Hn. by rewrite H2', H1'.
Qed.

Lemma frame_upd h a v : gptu_reg a -> gptu_frame h (upd h a v).
Proof.
  intros Ha. split.
  - intros b Hb _. rewrite upd_ne; [done|]. by intros ->.
  - intros i _ _. rewrite upd_ne; [done|].
    unfold gptu_reg, DANUBE_GPTU, PMU_CR in *. lia.
Qed.

Lemma frame_pmu h v :
  (forall i, 0 <= i -> i <> 12 -> Z.testbit v i = Z.testbit (h PMU_CR) i) -> gptu_frame h (upd h PMU_CR v).
Proof.
  intros Hv. split.
  - intros b _ Hb. by rewrite upd_ne.
  - by rewrite upd_eq.
Qed.

Lemma timer_regs t : 2 <= t < 14 ->
  gptu_reg (DANUBE_GPTU_CON (t .>> 1) (t .& 1)) /\ gptu_reg (DANUBE_GPTU_RELOAD (t .>> 1) (t .& 1)) /\
  gptu_reg (DANUBE_GPTU_RUN (t .>> 1) (t .& 1)).
Proof.
  intros Ht. change (t .& 1) with (t .& Z.ones 1). rewrite Z.land_ones, Z.shiftr_div_pow2 by lia.
  change (2 ^ 1) with 2. unfold gptu_reg, DANUBE_GPTU_CON, DANUBE_GPTU_RELOAD, DANUBE_GPTU_RUN.
  assert (0 <= t mod 2 < 2) by (apply Z.mod_pos_bound; lia).
  assert (1 <= t / 2 < 7) by (split; [apply Z.div_le_lower_bound|apply Z.div_lt_upper_bound]; lia).
  lia.
Qed.

Lemma grant_frame find t occ flag value a1 a2 d : 2 <= t < 14 ->
  gptu_frame (thw d) (thw (grant find t occ flag value a1 a2 d)).
Proof.
  intros Ht. destruct (timer_regs t Ht) as (H1 & H2 & _). cbn [grant thw].
  refine (frame_trans _ _ _ _ (frame_upd _ _ _ _)); [|by unfold gptu_reg].
  refine (frame_trans _ _ _ _ (frame_upd _ _ _ H2)). refine (frame_trans _ _ _ _ (frame_upd _ _ _ H1)).
  destruct (f_gptu_on d); [done|].
  refine (frame_trans _ _ _ _ (frame_upd _ _ _ _)); [|by unfold gptu_reg].
  apply frame_pmu. intros i Hi Hn. change (thw d PMU_CR .& .~ (1 .<< 12)) with (bit_clr (thw d PMU_CR) 12).
  autorewrite with bits. by rewrite bool_decide_false, andb_true_r.
Qed.

Lemma release_frame sz t d : 2 <= t < 14 -> gptu_frame (thw d) (thw (release sz t d)).
Proof.
  intros Ht. destruct (timer_regs t Ht) as (_ & _ & Hr).
  assert (Hq : gptu_frame (thw d) (quiet t (thw d))).
  { unfold quiet. refine (frame_trans _ _ _ _ (frame_upd _ _ _ _)); [|by unfold gptu_reg].
    refine (frame_trans _ _ _ _ (frame_upd _ _ _ _)); [|by unfold gptu_reg].
    destruct (negb _); [by apply frame_upd|done]. }
  cbn [release thw]. split_if; [|done]. apply (frame_trans _ _ _ Hq). unfold gptu_off.
  set (h := upd (upd (upd _ DANUBE_GPTU_IRNEN 0) _ _) DANUBE_GPTU_CLC _).
  apply frame_trans with h.
  - do 2 (refine (frame_trans _ _ _ _ (frame_upd _ _ _ _)); [|by unfold gptu_reg]).
    apply frame_upd. by unfold gptu_reg.
  - apply frame_pmu. intros i Hi Hn. change (h PMU_CR .| 1 .<< 12) with (bit_set (h PMU_CR) 12).
    autorewrite with bits. by rewrite bool_decide_false, orb_false_r.
Qed.

(** [d'] is a consistent unit after calls of clients. *)
Definition gptu_moves (d d' : timer_dev) : Prop :=
  gptu_ok d' /\ gptu_frame (thw d) (thw d') /\ number_of_timers d' = number_of_timers d.

Lemma moves_trans d1 d2 d3 : gptu_moves d1 d2 -> gptu_moves d2 d3 -> gptu_moves d1 d3.
Proof.
  intros (_ & F1 & N1) (Hok & F2 & N2). split_and!; [done|by apply (frame_trans _ _ _ F1)|by rewrite N2].
Qed.

Lemma free_moves timer d : gptu_ok d -> 0 <= timer ->
  exists r d', free_timer timer d = Some (r, d') /\ gptu_moves d d'.
Proof.
  intros Hok Ht. pose proof (free_timer_eq timer d Hok Ht) as E.
  destruct (Z.testbit (occupation d) timer) eqn:Hb; eexists _, _; (split; [exact E|]).
  - split_and!; [by apply release_ok|apply release_frame; by apply held_head_range|done].
  - split_and!; done.
Qed.

Lemma run_moves timer v d : gptu_ok d -> Z.testbit (occupation d) timer = true ->
  let t := head_timer timer d in gptu_moves d (wreg (DANUBE_GPTU_RUN (t .>> 1) (t .& 1)) v d).
Proof.
  intros Hok Hb t. split_and!; [by apply ok_run| |done].
  apply frame_upd. by apply timer_regs, held_head_range.
Qed.

Lemma stop_moves timer d : gptu_ok d -> 0 <= timer ->
  exists r d', stop_timer timer d = Some (r, d') /\ gptu_moves d d'.
Proof.
  intros Hok Ht. pose proof (stop_timer_eq timer d Hok Ht) as E.
  destruct (Z.testbit (occupation d) timer) eqn:Hb; eexists _, _; (split; [exact E|]).
  - by apply run_moves.
  - split_and!; done.
Qed.

Lemma start_moves timer is_resume d : gptu_ok d -> 0 <= timer ->
  exists r d', start_timer timer is_resume d = Some (r, d') /\ gptu_moves d d'.
Proof.
  intros Hok Ht. pose proof (start_timer_eq timer is_resume d Hok Ht) as E.
  destruct (Z.testbit (occupation d) timer) eqn:Hb; eexists _, _; (split; [exact E|]).
  - by apply run_moves.
  - split_and!; done.
Qed.

Lemma request_moves find busy timer flag value a1 a2 d :
  gptu_ok d -> 0 <= timer -> pmu_wakes busy = true ->
  exists r d', request_timer find busy timer flag value a1 a2 d = Some (r, d') /\ gptu_moves d d'.
Proof.
  intros Hok Ht Hw.
  assert (Hs : exists r d', request_timer find busy timer flag value a1 a2 d = Some (r, d')).
  { rewrite request_timer_eq by done. rewrite Hw, orb_true_r.
    destruct (timer >=? _); [eauto|]. destruct (allocate_timer _ _ _) as [|[[??]?]]; eauto. }
  destruct Hs as (r & d' & E). exists r, d'. split; [done|].
  destruct (Z.lt_ge_cases r 0) as [Hr|Hr].
  - destruct (request_refused _ _ _ _ _ _ _ _ _ _ Hok Ht E Hr) as [-> _]. split_and!; done.
  - pose proof (request_ok _ _ _ _ _ _ _ _ _ _ Hok Ht E) as Hok'.
    destruct (request_grants _ _ _ _ _ _ _ _ _ _ Hok Ht E Hr) as (t & occ & Ha & _ & _ & _ & ->).
    destruct (grant_slot t occ flag d Hok Ha) as [Hs _]. split_and!; [done|apply grant_frame; lia|done].
Qed.

Lemma fpi_known h : CGU_PLL0_BYPASS h = false -> exists f, cgu_get_fpi_bus_clock h 2 = Some f.
Proof.
  intros Hb. unfold cgu_get_fpi_bus_clock, cgu_get_io_region_clock, cgu_get_pll0_fosc.
  rewrite Hb. cbn [mbind option_bind]. eauto.
Qed.

Lemma set_timer_moves find busy timer freq c x h a1 a2 d :
  gptu_ok d -> 0 <= timer -> pmu_wakes busy = true -> CGU_PLL0_BYPASS (thw d) = false ->
  exists r d', set_timer_call find busy timer freq c x h a1 a2 d = Some (r, d') /\ gptu_moves d d'.
Proof.
  intros Hok Ht Hw Hb. unfold set_timer_call. destruct (fpi_known _ Hb) as [f ->].
  cbn [mbind option_bind]. unfold set_timer. split_if; [|by apply request_moves].
  eexists _, _. split; [done|]. split_and!; done.
Qed.

Lemma frame_bypass h h' : gptu_frame h h' -> CGU_PLL0_BYPASS h' = CGU_PLL0_BYPASS h.
Proof.
  intros [H _]. unfold CGU_PLL0_BYPASS. rewrite H; [done| |]; unfold gptu_reg,
    DANUBE_GPTU, DANUBE_CGU_PLL0_CFG, DANUBE_CGU, PMU_CR; lia.
Qed.

Lemma bypass_ext h h' : h DANUBE_CGU_PLL0_CFG = h' DANUBE_CGU_PLL0_CFG -> CGU_PLL0_BYPASS h = CGU_PLL0_BYPASS h'.
Proof. unfold CGU_PLL0_BYPASS. by intros ->. Qed.

(** [led_regs_ne]: two registers named by constants are different. *)
Ltac led_regs_ne := unfold gptu_reg, DANUBE_GPTU, PMU_CR, DANUBE_CGU_PLL0_CFG, DANUBE_CGU,
  DANUBE_LED_CON0, DANUBE_LED_CON1, DANUBE_LED_CPU0, DANUBE_LED_CPU1, DANUBE_LED_AR, DANUBE_LED,
  DANUBE_GPTU_IRNEN, DANUBE_GPTU in *; lia.

Definition led_register (a : Z) : Prop := DANUBE_LED <= a < DANUBE_LED + 0x14.
Lemma frame_led h h' a : gptu_frame h h' -> led_register a -> h' a = h a.
Proof. intros [H _] Ha. unfold led_register in Ha. apply H; led_regs_ne. Qed.
Lemma frame_bit11 h h' : gptu_frame h h' -> Z.testbit (h' PMU_CR) 11 = Z.testbit (h PMU_CR) 11.
Proof. intros [_ H]. by apply H. Qed.

(** ** The pins *)

Definition led_pins (adsl : Z) : list (Z * Z) :=
  if negb (adsl =? 0) then [(LED_ADSL0_PORT, LED_ADSL0_PIN); (LED_ADSL1_PORT, LED_ADSL1_PIN)]
  else [(LED_ST_PORT, LED_ST_PIN); (LED_D_PORT, LED_D_PIN); (LED_SH_PORT, LED_SH_PIN)].

Definition calls_of (f : port_fn) (l : list (Z * Z)) : list (port_fn * Z * Z) :=
  map (fun x => (f, fst x, snd x)) l.
Definition real_pins (l : list (Z * Z)) : Prop := Forall (fun x => real_pin (fst x) (snd x)) l.

Lemma led_pins_real adsl : real_pins (led_pins adsl) /\ NoDup (led_pins adsl).
Proof.
  unfold led_pins, real_pins. split.
  - destruct (negb _); repeat (apply Forall_cons_2; [vm_compute; intuition congruence|]); apply Forall_nil_2.
  - destruct (negb _); by refine (bool_decide_eq_true_1 _ _).
Qed.

(** Freeing pins: each that is the module's becomes free. *)
Lemma free_calls l ret s : real_pins l -> port_wf (pins s) ->
  exists r p, pin_calls (calls_of danube_port_free_pin l) ret s = Some (r, set_pins p s) /\ port_wf p /\
    forall port pin, real_pin port pin ->
      owner_of p port pin = if bool_decide ((port, pin) ∈ l) && (owner_of (pins s) port pin =? module_id s)
                            then 0 else owner_of (pins s) port pin.
Proof.
  intros Hl. revert ret s. induction Hl as [|[po pi] l Hr Hl IH]; intros ret s Hw; cbn [calls_of map pin_calls].
  - exists ret, (pins s). split_and!; [by destruct s|done|]. intros port pin _.
    rewrite bool_decide_false by set_solver. done.
  - cbn [fst snd] in *. unfold on_pins. rewrite free_eq by done.
    set (p1 := if owner_of (pins s) po pi =? module_id s then usage_set (pins s) po pi 0 else pins s).
    assert (Hp1 : port_wf p1) by (unfold p1; split_if; auto).
    destruct (IH (ret .| (if owner_of (pins s) po pi =? module_id s then OK else - EBUSY)) (set_pins p1 s) Hp1)
      as (r & p & E & Hp & Ho).
    exists r, p. split_and!; [|done|].
    + etransitivity; [|exact E]. unfold p1. by destruct (owner_of (pins s) po pi =? module_id s).
    + intros port pin Hreal. rewrite Ho by done. cbn [set_pins pins module_id].
      destruct (decide ((port, pin) = (po, pi))) as [[= -> ->]|Hne].
      * unfold p1. rewrite (bool_decide_true ((po, pi) ∈ (po, pi) :: l)) by set_solver. cbn [andb].
        destruct (owner_of (pins s) po pi =? module_id s) eqn:Eo; [|by rewrite Eo, andb_false_r].
        rewrite owner_of_set by done. by destruct (_ && _).
      * assert (owner_of p1 port pin = owner_of (pins s) port pin) as ->.
        { unfold p1. split_if; [by apply owner_of_set_ne|done]. }
        erewrite bool_decide_ext; [done|]. set_solver.
Qed.

(** Reserving pins: each that is free becomes the module's. *)
Lemma reserve_calls l ret s : real_pins l -> NoDup l -> port_wf (pins s) -> module_id s <> 0 ->
  exists p, pin_calls (calls_of danube_port_reserve_pin l) ret s =
      Some (ret .| (if forallb (fun x => owner_of (pins s) (fst x) (snd x) =? 0) l then 0 else - EBUSY),
            set_pins p s) /\ port_wf p /\
    forall port pin, real_pin port pin ->
      owner_of p port pin = if bool_decide ((port, pin) ∈ l) && (owner_of (pins s) port pin =? 0)
                            then module_id s else owner_of (pins s) port pin.
Proof.
  intros Hl Hd Hw Hid. revert ret s Hw Hid.
  induction Hl as [|[po pi] l Hr Hl IH]; intros ret s Hw Hid; cbn [calls_of map pin_calls forallb].
  - exists (pins s). rewrite Z.lor_0_r. split_and!; [by destruct s|done|]. intros port pin _.
    rewrite bool_decide_false by set_solver. done.
  - cbn [fst snd] in *. apply NoDup_cons in Hd as [Hni Hd]. specialize (IH Hd).
    unfold on_pins. rewrite reserve_eq by done.
    set (o := owner_of (pins s) po pi =? 0).
    set (p1 := if o then usage_set (pins s) po pi (module_id s) else pins s).
    assert (Hp1 : port_wf p1) by (unfold p1; destruct o; auto).
    assert (Hne : forall port pin, real_pin port pin -> (port, pin) <> (po, pi) ->
                  owner_of p1 port pin = owner_of (pins s) port pin).
    { intros port pin Hreal Hn. unfold p1. destruct o; [by apply owner_of_set_ne|done]. }
    destruct (IH (ret .| (if o then OK else - EBUSY)) (set_pins p1 s) Hp1 Hid) as (p & E & Hp & Ho).
    exists p. split_and!; [|done|].
    + replace (forallb _ l) with (forallb (fun x => owner_of p1 (fst x) (snd x) =? 0) l).
      2: { clear -Hl Hni Hne. induction Hl as [|[a b] l Hr Hl IH]; [done|]. cbn [forallb fst snd] in *.
           rewrite Hne, IH; [done|set_solver|done|]. intros [= -> ->]. set_solver. }
      etransitivity; [etransitivity; [|exact E]|].
      * unfold p1, o. by destruct (owner_of (pins s) po pi =? 0).
      * cbn [set_pins pins]. do 2 f_equal. rewrite <- Z.lor_assoc. f_equal.
        by destruct o, (forallb _ l).
    + intros port pin Hreal. rewrite Ho by done. cbn [set_pins pins module_id].
      destruct (decide ((port, pin) = (po, pi))) as [[= -> ->]|Hn].
      * rewrite (bool_decide_true ((po, pi) ∈ (po, pi) :: l)), (bool_decide_false ((po, pi) ∈ l))
          by set_solver.
        cbn [andb]. unfold p1, o. split_if; [by apply owner_of_set|done].
      * rewrite Hne by done. erewrite bool_decide_ext; [done|]. set_solver.
Qed.

(** Setting up pins changes no owner. *)
Definition sets_bits (c : port_fn * Z * Z) : Prop :=
  real_pin (snd (fst c)) (snd c) /\ exists off f, fst (fst c) = port_rmw off f.

Lemma setup_calls l ret s : Forall sets_bits l -> port_wf (pins s) ->
  exists r h, pin_calls l ret s = Some (r, set_pins (set_hw h (pins s)) s).
Proof.
  intros Hl. revert ret s. induction Hl as [|[[f po] pi] l [Hr (off & g & Hf)] Hl IH]; intros ret s Hw.
  - exists ret, (port_hw (pins s)). cbn. by destruct s as [? ? ? ? ? ? [] ?].
  - cbn [fst snd] in *. subst f. cbn [pin_calls]. unfold on_pins. rewrite rmw_eq by done. cbn zeta.
    set (h := upd (port_hw (pins s)) _ _). destruct (owner_of (pins s) po pi =? module_id s);
      cbn [mbind option_bind].
    + destruct (IH (ret .| OK) (set_pins (set_hw h (pins s)) s) Hw) as (r & h' & E). exists r, h'. exact E.
    + destruct (IH (ret .| - EBUSY) (set_pins (pins s) s) Hw) as (r & h' & E). exists r, h'. exact E.
Qed.

Lemma pin_setup_sets alt0 alt1 port pin : real_pin port pin ->
  (exists o f, alt0 = port_rmw o f) -> (exists o f, alt1 = port_rmw o f) ->
  Forall sets_bits (pin_setup alt0 alt1 port pin).
Proof.
  intros Hr H0 H1. unfold pin_setup. repeat apply Forall_cons_2; try apply Forall_nil_2;
    (split; [done|]; eauto; eexists _, _; reflexivity).
Qed.

Lemma release_pins adsl s : port_wf (pins s) ->
  exists p, release_gpio_port adsl s = Some (set_pins p s) /\ port_wf p /\
    forall port pin, real_pin port pin ->
      owner_of p port pin = if bool_decide ((port, pin) ∈ led_pins adsl) && (owner_of (pins s) port pin =? module_id s)
                            then 0 else owner_of (pins s) port pin.
Proof.
  intros Hw. destruct (free_calls (led_pins adsl) 0 s (proj1 (led_pins_real adsl)) Hw) as (r & p & E & Hp & Ho).
  exists p. split_and!; [|done|done]. unfold release_gpio_port.
  assert (Hc : calls_of danube_port_free_pin (led_pins adsl) =
    if negb (adsl =? 0)
     then [(danube_port_free_pin, LED_ADSL0_PORT, LED_ADSL0_PIN);
           (danube_port_free_pin, LED_ADSL1_PORT, LED_ADSL1_PIN)]
     else [(danube_port_free_pin, LED_ST_PORT, LED_ST_PIN);
           (danube_port_free_pin, LED_D_PORT, LED_D_PIN);
           (danube_port_free_pin, LED_SH_PORT, LED_SH_PIN)]).
  { unfold led_pins. by destruct (negb (adsl =? 0)). }
  by rewrite <- Hc, E.
Qed.

(** Either all pins were free and are now the module's, or one was not, the
    error is returned and no pin is the module's. *)
Lemma setup_pins adsl s : port_wf (pins s) -> module_id s <> 0 ->
  exists r p, setup_gpio_port adsl s = Some (r, set_pins p s) /\ port_wf p /\
    (r = 0 /\ (forall port pin, (port, pin) ∈ led_pins adsl -> owner_of (pins s) port pin = 0) \/
     r = - EBUSY /\ exists port pin, (port, pin) ∈ led_pins adsl /\ owner_of (pins s) port pin <> 0) /\
    forall port pin, real_pin port pin ->
      owner_of p port pin = if bool_decide ((port, pin) ∈ led_pins adsl)
        then if r =? 0 then module_id s
             else if owner_of (pins s) port pin =? module_id s then 0 else owner_of (pins s) port pin
        else owner_of (pins s) port pin.
Proof.
  intros Hw Hid. destruct (led_pins_real adsl) as [Hreal Hnd].
  destruct (reserve_calls (led_pins adsl) 0 s Hreal Hnd Hw Hid) as (p & E & Hp & Ho).
  set (all := forallb _ _) in *. rewrite Z.lor_0_l in E.
  assert (Hc : calls_of danube_port_reserve_pin (led_pins adsl) =
    if negb (adsl =? 0)
     then [(danube_port_reserve_pin, LED_ADSL0_PORT, LED_ADSL0_PIN);
           (danube_port_reserve_pin, LED_ADSL1_PORT, LED_ADSL1_PIN)]
     else [(danube_port_reserve_pin, LED_ST_PORT, LED_ST_PIN);
           (danube_port_reserve_pin, LED_D_PORT, LED_D_PIN);
           (danube_port_reserve_pin, LED_SH_PORT, LED_SH_PIN)]).
  { unfold led_pins. by destruct (negb (adsl =? 0)). }
  unfold setup_gpio_port. rewrite <- Hc, E. cbn [mbind option_bind].
  assert (Hall : all = true -> forall port pin, (port, pin) ∈ led_pins adsl -> owner_of (pins s) port pin = 0).
  { intros Ha port pin Hin. apply list_elem_of_In in Hin. pose proof (proj1 (forallb_forall _ _) Ha _ Hin) as H.
    cbn [fst snd] in H. by bool_prop. }
  destruct all eqn:Ea; cbn [negb Z.eqb].
  - set (l := if negb (adsl =? 0) then _ else _).
    assert (Hl : Forall sets_bits l).
    { unfold l. destruct (negb _); repeat apply Forall_app_2; apply pin_setup_sets;
        try (eexists _, _; reflexivity); vm_compute; intuition congruence. }
    destruct (setup_calls l 0 (set_pins p s) Hl Hp) as (r & h & ->). cbn [mbind option_bind].
    exists 0, (set_hw h p). split_and!; [done|done| |].
    + left. split; [done|by apply Hall].
    + intros port pin Hr. change (owner_of (set_hw h p) port pin) with (owner_of p port pin).
      rewrite Ho by done. cbn [Z.eqb]. case_bool_decide as Hin; cbn [andb]; [|done].
      by rewrite (Hall eq_refl _ _ Hin).
  - destruct (release_pins adsl (set_pins p s) Hp) as (p' & E' & Hp' & Ho').
    rewrite E'. cbn [mbind option_bind]. exists (- EBUSY), p'. split_and!; [done|done| |].
    + right. split; [done|]. unfold all in Ea.
      assert (Hx : existsb (fun x => negb (owner_of (pins s) (fst x) (snd x) =? 0)) (led_pins adsl) = true).
      { clear -Ea. induction (led_pins adsl) as [|x l IH]; [done|]. cbn in *.
        destruct (owner_of _ _ _ =? 0); cbn in *; auto. }
      apply existsb_exists in Hx as ([po pi] & Hin & Hx). exists po, pi. cbn [fst snd] in Hx. bool_prop.
      split; [by apply list_elem_of_In|done].
    + intros port pin Hr. rewrite Ho' by done. cbn [set_pins pins module_id]. rewrite Ho by done.
      change (- EBUSY =? 0) with false. case_bool_decide; cbn [andb]; [|done].
      destruct (owner_of (pins s) port pin =? 0) eqn:E0; bool_prop; [|done].
      rewrite E0, Z.eqb_refl. split_if; [done|done].
Qed.

(** ** Consistency *)

(** All but the semaphore: the controller is powered and the pins of its mode
    are the module's exactly when the LEDs are on, and the frequency of the timer
    is never noted. *)
Record led_core (s : led_state) : Prop := {
  lo_gptu : gptu_ok (gptu s);
  lo_clock : CGU_PLL0_BYPASS (thw (gptu s)) = false;
  lo_ports : port_wf (pins s);
  lo_id : module_id s <> 0;
  lo_freq : gpt_freq s = 0;
  lo_on : f_led_on s = 0 /\ adsl_on s = 0 \/ f_led_on s = 1;
  lo_power : Z.testbit (lreg PMU_CR s) 11 = (f_led_on s =? 0);
  lo_pins : forall port pin, real_pin port pin ->
    owner_of (pins s) port pin = module_id s <-> f_led_on s = 1 /\ (port, pin) ∈ led_pins (adsl_on s)
}.
Definition led_ok (s : led_state) : Prop := led_sem s = 1 /\ led_core s.

Lemma core_sem n s : led_core s -> led_core (set_led_sem n s).
Proof. intros []. by constructor. Qed.

Lemma core_gpt_on v s : led_core s -> led_core (set_gpt_on v s).
Proof. intros []. by constructor. Qed.

Lemma core_gptu d s : led_core s -> gptu_moves (gptu s) d -> led_core (set_gptu d s).
Proof.
  intros [] (Hok & F & _). constructor; try done.
  - cbn [set_gptu gptu]. by rewrite (frame_bypass _ _ F).
  - unfold lreg. cbn [set_gptu gptu f_led_on]. by rewrite (frame_bit11 _ _ F).
Qed.

(** [regs_like s h]: the store [h] differs from that of [s] in registers of the
    controller and, but for the controller's own bit, not in PMU_CR. *)
Definition regs_like (s : led_state) (h : Z -> Z) : Prop :=
  forall a, ~ led_register a -> a <> PMU_CR -> h a = lreg a s.

Lemma core_regs h s : led_core s -> regs_like s h ->
  Z.testbit (h PMU_CR) 11 = Z.testbit (lreg PMU_CR s) 11 ->
  led_core (set_gptu (set_thw h (gptu s)) s).
Proof.
  intros [] Hh Hp. constructor; try done.
  - cbn [set_gptu gptu]. apply (ok_registers h (events (gptu s))); [done|]. apply Hh; unfold led_register; led_regs_ne.
  - etransitivity; [|exact lo_clock0]. apply bypass_ext, Hh; unfold led_register; led_regs_ne.
  - unfold lreg in *. cbn [set_gptu gptu set_thw thw f_led_on]. by rewrite Hp.
Qed.

Section calls.
Context (find_task_by_pid : Z -> Z) (pmu_busy led_busy : Z -> bool).
Context (Hgptu : pmu_wakes pmu_busy = true) (Hled : pmu_wakes led_busy = true).

Lemma enable_led_eq s : enable_led led_busy s = Some (wled PMU_CR (bit_clr (lreg PMU_CR s) 11) s).
Proof.
  unfold enable_led. unfold pmu_wakes in Hled.
  destruct (pmu_wait _ led_busy _) as [i|]; [|done]. cbn [mbind option_bind]. by destruct (i =? 0).
Qed.

(** *** The timer *)

Lemma setup_gpt_moves timer freq s : led_core s -> 0 <= timer ->
  exists r d, setup_gpt find_task_by_pid pmu_busy timer freq s = Some (r, set_gptu d s) /\
    gptu_moves (gptu s) d.
Proof.
  intros [Hok Hb _ _ _ _ _ _] Ht. unfold setup_gpt, TIMER. cbn [Z.eqb].
  set (t := timer * 2 + 1). assert (H0 : 0 <= t) by lia.
  destruct (set_timer_moves find_task_by_pid pmu_busy t freq 1 0 TIMER_FLAG_NO_HANDLE 0 0 _ Hok H0 Hgptu Hb)
    as (r & d & -> & Hd). cbn [mbind option_bind].
  destruct (negb (r =? 0)); [by eauto|].
  destruct (start_moves t 0 d (proj1 Hd) H0) as (r1 & d1 & -> & Hd1). cbn [mbind option_bind].
  pose proof (moves_trans _ _ _ Hd Hd1) as H1. destruct (negb (r1 =? 0)); [|by eauto].
  destruct (free_moves t d1 (proj1 Hd1) H0) as (r2 & d2 & -> & Hd2). cbn [mbind option_bind].
  eexists _, _. split; [done|]. by apply (moves_trans _ _ _ H1).
Qed.

Lemma release_gpt_moves timer s : gptu_ok (gptu s) -> 0 <= timer ->
  exists d, release_gpt timer s = Some (set_gptu d s) /\ gptu_moves (gptu s) d.
Proof.
  intros Hok Ht. unfold release_gpt, TIMER. cbn [Z.eqb]. set (t := timer * 2 + 0).
  assert (H0 : 0 <= t) by lia.
  destruct (stop_moves t _ Hok H0) as (r & d & -> & Hd). cbn [mbind option_bind].
  destruct (free_moves t d (proj1 Hd) H0) as (r1 & d1 & -> & Hd1). cbn [mbind option_bind].
  eexists. split; [done|]. by apply (moves_trans _ _ _ Hd).
Qed.

Lemma config_gpt_moves p u s : led_core s ->
  exists r g d, config_gpt find_task_by_pid pmu_busy p u s = Some (r, set_gpt_on g (set_gptu d s)) /\
    gptu_moves (gptu s) d.
Proof.
  intros Hc. unfold config_gpt.
  assert (Hrel : exists d, release_gpt 2 s = Some (set_gptu d s) /\ gptu_moves (gptu s) d)
    by (apply release_gpt_moves; [apply Hc|lia]).
  assert (Hid : gptu_moves (gptu s) (gptu s)) by (split_and!; try done; apply Hc).
  assert (Hnew : forall g d, gptu_moves (gptu s) d ->
    exists r d', setup_gpt find_task_by_pid pmu_busy 2 (fpid p) (set_gpt_on g (set_gptu d s))
                 = Some (r, set_gpt_on g (set_gptu d' s)) /\ gptu_moves (gptu s) d').
  { intros g d Hd. destruct (setup_gpt_moves 2 (fpid p) (set_gpt_on g (set_gptu d s))) as (r & d' & E & Hd').
    { by apply core_gpt_on, core_gptu. } { lia. }
    exists r, d'. split; [exact E|]. by apply (moves_trans _ _ _ Hd). }
  destruct (f_setup_gpt2 u && (new_adsl_on u =? 0)).
  - destruct (negb (gpt_on s =? 0)) eqn:Eg.
    + destruct (negb (gpt_freq s =? fpid p)).
      * destruct Hrel as (d & -> & Hd). cbn [mbind option_bind].
        destruct (Hnew 0 d Hd) as (r & d' & -> & Hd'). cbn [mbind option_bind].
        destruct (negb (r =? 0)); eexists _, _, _; (split; [reflexivity|done]).
      * cbn [mbind option_bind Z.eqb negb]. exists 0, 1, (gptu s). split; [by destruct s|done].
    + destruct (Hnew (gpt_on s) (gptu s) Hid) as (r & d & E & Hd).
      replace (set_gpt_on (gpt_on s) (set_gptu (gptu s) s)) with s in E by (by destruct s).
      rewrite E. cbn [mbind option_bind].
      destruct (negb (r =? 0)); eexists _, _, _; (split; [reflexivity|done]).
  - destruct (negb (gpt_on s =? 0)).
    + destruct Hrel as (d & -> & Hd). cbn [mbind option_bind].
      eexists _, _, _; (split; [reflexivity|done]).
    + exists 0, (gpt_on s), (gptu s). split; [by destruct s|done].
Qed.

(** *** Pins and power *)

Lemma turn_off_core s : led_core s ->
  exists s1, turn_off_led (adsl_on s) s = Some s1 /\ led_core (set_on 0 0 s1) /\
    gpt_on s1 = gpt_on s /\ led_sem s1 = led_sem s /\
    gptu s1 = wreg PMU_CR (bit_set (lreg PMU_CR s) 11) (gptu s).
Proof.
  intros Hc. pose proof Hc as [Hok Hb Hw Hid Hf _ _ Hp].
  destruct (release_pins (adsl_on s) s Hw) as (p & E & Hwp & Ho).
  unfold turn_off_led. rewrite E. cbn [mbind option_bind].
  eexists. split; [reflexivity|]. split; [|done].
  constructor; cbn [set_on disable_led wled set_gptu set_pins gptu pins module_id gpt_freq f_led_on adsl_on lreg].
  - apply ok_wreg; [done|]. led_regs_ne.
  - etransitivity; [|exact Hb]. apply bypass_ext, upd_ne. led_regs_ne.
  - done.
  - done.
  - done.
  - by left.
  - unfold lreg. cbn [set_on disable_led wled set_gptu set_pins gptu wreg set_thw thw]. rewrite upd_eq.
    by rewrite testbit_bit_set, bool_decide_true, orb_true_r by lia.
  - intros port pin Hr. rewrite Ho by done. split; [|by intros [? _]].
    intros H. exfalso. case_bool_decide as Hin; cbn [andb] in H.
    + destruct (owner_of (pins s) port pin =? module_id s) eqn:Eo; bool_prop; congruence.
    + by apply Hin, Hp.
Qed.

Lemma turn_on_core adsl s : led_core s -> f_led_on s = 0 ->
  exists r s1, turn_on_led led_busy adsl s = Some (r, s1) /\ (r = 0 \/ r = - EBUSY) /\
    gpt_on s1 = gpt_on s /\ led_sem s1 = led_sem s /\
    (r <> 0 -> led_core s1 /\ f_led_on s1 = 0 /\ gptu s1 = gptu s) /\
    (r = 0 -> led_core (set_on adsl 1 s1) /\ gptu s1 = wreg PMU_CR (bit_clr (lreg PMU_CR s) 11) (gptu s)).
Proof.
  intros [Hok Hb Hw Hid Hf Hon Hpw Hp] H0.
  assert (Hno : forall port pin, real_pin port pin -> owner_of (pins s) port pin <> module_id s).
  { intros port pin Hr H. apply Hp in H as [H1 _]; [congruence|done]. }
  destruct (setup_pins adsl s Hw Hid) as (r & p & E & Hwp & Hout & Ho).
  unfold turn_on_led. rewrite E. cbn [mbind option_bind].
  assert (Hreal : forall port pin, (port, pin) ∈ led_pins adsl -> real_pin port pin).
  { intros port pin Hin. destruct (led_pins_real adsl) as [Hall _].
    by apply (proj1 (Forall_forall _ _) Hall) in Hin. }
  destruct Hout as [[-> Hfree]|[-> _]]; cbn [Z.eqb negb].
  - rewrite enable_led_eq. cbn [mbind option_bind]. eexists _, _. split_and!; [done|by left|done|done|done|].
    intros _. split; [|done].
    constructor; cbn [set_on wled set_gptu set_pins gptu pins module_id gpt_freq f_led_on adsl_on].
    + apply ok_wreg; [done|]. led_regs_ne.
    + etransitivity; [|exact Hb]. apply bypass_ext, upd_ne. led_regs_ne.
    + done.
    + done.
    + done.
    + by right.
    + unfold lreg. cbn [set_on wled set_gptu set_pins gptu wreg set_thw thw]. rewrite upd_eq.
      by rewrite testbit_bit_clr, bool_decide_true, andb_false_r by lia.
    + intros port pin Hr. rewrite Ho by done. cbn [Z.eqb].
      case_bool_decide; split; try done; [by intros ?%Hno|by intros [_ ?]].
  - eexists _, _. split_and!; [done|by right|done|done| |done]. intros _. split_and!; [|done|done].
    constructor; try done. intros port pin Hr. cbn [set_pins pins module_id]. rewrite Ho by done.
    change (- EBUSY =? 0) with false. change (f_led_on (set_pins p s)) with (f_led_on s). rewrite H0.
    pose proof (Hno port pin Hr). case_bool_decide; (split; [|by intros [? _]]).
    + rewrite (proj2 (Z.eqb_neq _ _)) by done. done.
    + done.
Qed.

(** The mode that is asked for, and whether the LEDs are to be on. *)
Definition wanted_on (u : led_update) : Z := if negb (new_adsl_on u =? 0) then 1 else new_led_on u.

Lemma config_leds_core u s : led_core s ->
  exists r s1, config_leds led_busy u s = Some (r, s1) /\ (r = 0 \/ r = - EBUSY) /\ led_core s1 /\
    gpt_on s1 = gpt_on s /\ led_sem s1 = led_sem s /\
    (exists v, gptu s1 = wreg PMU_CR v (gptu s)) /\
    (r = 0 -> f_led_on s1 = (if wanted_on u =? 0 then 0 else 1) /\ adsl_on s1 = new_adsl_on u) /\
    (r <> 0 -> f_led_on s1 = 0).
Proof.
  intros Hc. unfold config_leds. fold (wanted_on u).
  assert (Hw : wanted_on u = 0 -> new_adsl_on u = 0).
  { unfold wanted_on. by destruct (new_adsl_on u =? 0) eqn:E; cbn [negb]; bool_prop. }
  set (off := (wanted_on u =? 0) || negb (adsl_on s =? new_adsl_on u)).
  assert (Hs1 : exists s1, (if off then s ← turn_off_led (adsl_on s) s; Some (set_on 0 0 s) else Some s) = Some s1 /\
    led_core s1 /\ gpt_on s1 = gpt_on s /\ led_sem s1 = led_sem s /\
    (exists v, gptu s1 = wreg PMU_CR v (gptu s)) /\
    (off = true -> f_led_on s1 = 0) /\ (off = false -> s1 = s)).
  { destruct off.
    - destruct (turn_off_core s Hc) as (s1 & -> & Hc1 & Hg & Hm & Ht). cbn [mbind option_bind].
      exists (set_on 0 0 s1). split_and!; try done. by eexists.
    - exists s. split_and!; try done. exists (lreg PMU_CR s). unfold wreg, lreg.
      destruct (gptu s) as [a b c d e h g l]. unfold set_thw. cbn. f_equal.
      apply functional_extensionality. intros x. unfold upd. destruct (x =? PMU_CR) eqn:E; bool_prop; by subst. }
  destruct Hs1 as (s1 & -> & Hc1 & Hg & Hm & [v Hv] & Hoff & Hstay). cbn [mbind option_bind].
  destruct (f_led_on s1 =? 0) eqn:E1; cbn [andb]; [destruct (wanted_on u =? 0) eqn:E2; cbn [negb]|].
  - bool_prop. exists 0, s1. split_and!; try done; [by left|by exists v|].
    intros _. split; [done|]. rewrite (Hw E2). by destruct (lo_on _ Hc1) as [[_ ?]|?]; [|congruence].
  - bool_prop. destruct (turn_on_core (new_adsl_on u) s1 Hc1 E1)
      as (r & s2 & -> & Hr & Hg2 & Hm2 & Hbad & Hgood). cbn [mbind option_bind].
    destruct (r =? 0) eqn:Er; bool_prop; cbn [negb].
    + destruct (Hgood Er) as [Hc2 Hv2]. exists 0, (set_on (new_adsl_on u) 1 s2).
      split_and!; try done; [by left|cbn; congruence|cbn; congruence|].
      eexists. cbn [set_on gptu]. rewrite Hv2, Hv. unfold wreg, set_thw.
      cbn [tsem number_of_timers occupation f_gptu_on timer thw irq_depth events]. f_equal.
      apply functional_extensionality. intros x. unfold upd at 1 2 3. by destruct (x =? PMU_CR).
    + destruct (Hbad Er) as (Hc2 & H0 & Hv2). exists r, s2.
      split_and!; try done; [congruence|congruence|exists v; congruence].
  - bool_prop. assert (Ho : off = false) by (destruct off; [by rewrite Hoff in E1|done]).
    rewrite (Hstay Ho) in *. exists 0, s. split_and!; try done; [by left|by exists v|].
    intros _. unfold off in Ho. apply orb_false_iff in Ho as [-> H2]. bool_prop.
    split; [|done]. by destruct (lo_on _ Hc) as [[? _]|?].
Qed.

(** *** The registers *)

Definition kept (clean : bool) (old new : Z) : Z := if clean then old else new.

Definition written (u : led_update) (h : Z -> Z) : Z -> Z :=
  let h := if clean_reg_ar u then h else upd h DANUBE_LED_AR (reg_ar u) in
  let h := if clean_reg_cpu0 u then h else upd h DANUBE_LED_CPU0 (reg_cpu0 u) in
  let h := if clean_reg_con1 u then h else upd h DANUBE_LED_CON1 (reg_con1 u) in
  if clean_reg_con0 u then h else upd h DANUBE_LED_CON0 (reg_con0 u).

Lemma write_registers_eq u s :
  write_registers u s = set_gptu (set_thw (written u (thw (gptu s))) (gptu s)) s.
Proof.
  unfold write_registers, written. destruct s as [? ? ? ? ? ? ? []].
  by destruct (clean_reg_con0 u), (clean_reg_con1 u), (clean_reg_cpu0 u), (clean_reg_ar u).
Qed.

Lemma written_registers u h :
  written u h DANUBE_LED_CON0 = kept (clean_reg_con0 u) (h DANUBE_LED_CON0) (reg_con0 u) /\
  written u h DANUBE_LED_CON1 = kept (clean_reg_con1 u) (h DANUBE_LED_CON1) (reg_con1 u) /\
  written u h DANUBE_LED_CPU0 = kept (clean_reg_cpu0 u) (h DANUBE_LED_CPU0) (reg_cpu0 u) /\
  written u h DANUBE_LED_AR = kept (clean_reg_ar u) (h DANUBE_LED_AR) (reg_ar u) /\
  written u h DANUBE_LED_CPU1 = h DANUBE_LED_CPU1 /\
  forall a, ~ led_register a -> written u h a = h a.
Proof.
  unfold written, kept. destruct (clean_reg_con0 u), (clean_reg_con1 u), (clean_reg_cpu0 u), (clean_reg_ar u);
    split_and!; try done; intros a Ha; unfold led_register in Ha; repeat rewrite upd_ne by led_regs_ne; done.
Qed.

Lemma written_ext u h h' a : h a = h' a -> written u h a = written u h' a.
Proof.
  intros H. unfold written, upd.
  destruct (clean_reg_ar u), (clean_reg_cpu0 u), (clean_reg_con1 u), (clean_reg_con0 u); by rewrite H.
Qed.

Lemma config_write_core u s : led_core s ->
  exists h, config_write led_busy u s = Some (set_gptu (set_thw h (gptu s)) s) /\
    led_core (set_gptu (set_thw h (gptu s)) s) /\
    forall a, led_register a -> h a = written u (thw (gptu s)) a.
Proof.
  intros Hc. unfold config_write. rewrite enable_led_eq.
  destruct (written_registers u (thw (gptu s))) as (_ & _ & _ & _ & _ & Hother).
  pose proof (lo_power _ Hc) as Hpw. destruct (f_led_on s =? 0) eqn:Ef; cbn [mbind option_bind].
  - rewrite write_registers_eq. cbn [wled set_gptu gptu f_led_on]. rewrite Ef.
    set (h0 := upd (thw (gptu s)) PMU_CR (bit_clr (lreg PMU_CR s) 11)).
    destruct (written_registers u h0) as (_ & _ & _ & _ & _ & Ho0).
    exists (upd (written u h0) PMU_CR (bit_set (written u h0 PMU_CR) 11)). split_and!; [done| |].
    + apply core_regs; [done| |].
      * intros a Hl Hp. rewrite upd_ne, Ho0 by done. unfold h0. by rewrite upd_ne.
      * by rewrite upd_eq, testbit_bit_set, bool_decide_true, orb_true_r by lia.
    + intros a Ha. unfold led_register in Ha. rewrite upd_ne by led_regs_ne.
      apply written_ext. unfold h0. rewrite upd_ne; [done|]. led_regs_ne.
  - rewrite write_registers_eq. cbn [set_gptu gptu f_led_on]. rewrite Ef.
    exists (written u (thw (gptu s))). split_and!; [done| |done].
    apply core_regs; [done| |].
    + intros a Hl Hp. by apply Hother.
    + rewrite Hother; [done|]. unfold led_register. led_regs_ne.
Qed.

(** *** Calls *)

Lemma led_down_ok s : led_ok s -> led_down s = Some (set_led_sem 0 s).
Proof. intros [H _]. unfold led_down. by rewrite H. Qed.

Lemma led_up_sem s : led_sem s = 1 -> led_up (set_led_sem 0 s) = s.
Proof. intros H. destruct s. cbn in *. by subst. Qed.

Definition valid_operations (p : led_config_param) (s : led_state) : option led_update :=
  run_operations config_operations p (fresh_update s).

(** A configuration call returns, keeps the state consistent, changes nothing
    when a parameter is invalid, and writes the registers only when it succeeds. *)
Lemma config_spec p s : led_ok s ->
  exists r s', danube_led_config find_task_by_pid pmu_busy led_busy (Some p) s = Some (r, s') /\ led_ok s' /\
    match valid_operations p s with
    | None => r = - EINVAL /\ s' = s
    | Some u =>
        (forall a, led_register a -> lreg a s' = if r =? 0 then written u (thw (gptu s)) a else lreg a s) /\
        (r = 0 -> f_led_on s' = (if wanted_on u =? 0 then 0 else 1) /\ adsl_on s' = new_adsl_on u)
    end.
Proof.
  intros Hok. pose proof Hok as [Hs Hc]. unfold danube_led_config. rewrite led_down_ok by done.
  cbn [mbind option_bind]. change (fresh_update (set_led_sem 0 s)) with (fresh_update s).
  fold (valid_operations p s). destruct (valid_operations p s) as [u|].
  2: { eexists _, _. split; [done|]. rewrite led_up_sem by done. done. }
  assert (Hc0 : led_core (set_led_sem 0 s)) by (by apply core_sem).
  destruct (config_gpt_moves p u _ Hc0) as (r & g & d & -> & Hd). cbn [mbind option_bind].
  set (s1 := set_gpt_on g (set_gptu d (set_led_sem 0 s))).
  assert (Hc1 : led_core s1) by (by apply core_gpt_on, core_gptu).
  assert (Hl1 : forall a, led_register a -> thw d a = lreg a s).
  { intros a Ha. destruct Hd as (_ & F & _). exact (frame_led _ _ a F Ha). }
  destruct (r =? 0) eqn:Er; cbn [negb].
  2: { eexists _, _. split; [done|]. rewrite Er. bool_prop. split; [split; [done|by apply core_sem]|].
       split; [|done]. intros a Ha. by apply Hl1. }
  destruct (config_leds_core u s1 Hc1) as (r2 & s2 & -> & Hr2 & Hc2 & Hg2 & Hm2 & [v Hv] & Hgood & Hbad).
  cbn [mbind option_bind].
  assert (Hl2 : forall a, led_register a -> lreg a s2 = lreg a s).
  { intros a Ha. unfold lreg at 1. rewrite Hv. cbn [wreg set_thw thw]. rewrite upd_ne; [by apply Hl1|].
    unfold led_register in Ha. led_regs_ne. }
  destruct (r2 =? 0) eqn:Er2; cbn [negb]; bool_prop.
  - destruct (config_write_core u s2 Hc2) as (h & -> & Hc3 & Hh). cbn [mbind option_bind].
    eexists _, _. split; [done|]. split; [split|split].
    + unfold led_up. cbn [set_led_sem led_sem set_gptu]. by rewrite Hm2.
    + by apply core_sem.
    + intros a Ha. cbn [Z.eqb]. change (lreg a _) with (h a). rewrite Hh by done.
      apply written_ext. by apply Hl2.
    + intros _. by apply Hgood.
  - destruct (release_gpt_moves 2 s2 (lo_gptu _ Hc2)) as (d3 & -> & Hd3); [lia|]. cbn [mbind option_bind].
    eexists _, _. split; [done|]. rewrite (proj2 (Z.eqb_neq r2 0)) by done. split; [split|split].
    + unfold led_up. cbn [set_led_sem led_sem set_gpt_on set_gptu]. by rewrite Hm2.
    + by apply core_sem, core_gpt_on, core_gptu.
    + intros a Ha. destruct Hd3 as (_ & F & _).
      etransitivity; [exact (frame_led _ _ a F Ha)|]. by apply Hl2.
    + done.
Qed.
End calls.

Section single.
Context (swu_done : Z -> bool).

(** Only bit 31 of CON0 can differ. *)
Definition swu_only (con0 v : Z) : Prop :=
  forall j, 0 <= j -> j <> 31 -> Z.testbit v j = Z.testbit con0 j.

Lemma set_lreg s : wled DANUBE_LED_CON0 (lreg DANUBE_LED_CON0 s) s = s.
Proof.
  destruct s as [a b c d e f g [t1 t2 t3 t4 t5 t6 t7 t8]]. unfold wled, lreg, wreg, set_gptu, set_thw. cbn.
  do 2 f_equal. apply functional_extensionality. intros x. unfold upd.
  destruct (x =? DANUBE_LED_CON0) eqn:E; bool_prop; by subst.
Qed.

Lemma wled_twice v w s : wled DANUBE_LED_CON0 v (wled DANUBE_LED_CON0 w s) = wled DANUBE_LED_CON0 v s.
Proof.
  unfold wled, wreg, set_gptu, set_thw. cbn. do 2 f_equal. apply functional_extensionality. intros x.
  unfold upd. by destruct (x =? DANUBE_LED_CON0).
Qed.

(** The polls at counters 1000 [n], ..., 1000 find the controller busy. *)
Definition stays_busy (n : nat) (con0 : Z) : bool :=
  Z.testbit con0 31 && forallb (fun k => negb (swu_done (1000 * Z.of_nat k))) (seq 1 n).

Lemma update_poll_spec n : forall s, led_sem s = 1 ->
  let c := lreg DANUBE_LED_CON0 s in
  (n = 0%nat -> Z.testbit c 31 = true) ->
  exists v, update_poll swu_done (S n) (1000 * Z.of_nat n) s =
      Some (if stays_busy n c then - EBUSY else 0, wled DANUBE_LED_CON0 v s) /\
    swu_only c v /\ Z.testbit v 31 = true.
Proof.
  induction n as [|n IH]; intros s Hs c H0.
  { exists c. unfold c. rewrite set_lreg. unfold stays_busy. fold c. rewrite H0 by done. split_and!; done. }
  set (m := S n). cbn [update_poll]. rewrite (proj2 (Z.eqb_neq _ _)) by lia.
  assert (Hd : led_down s = Some (set_led_sem 0 s)) by (unfold led_down; by rewrite Hs).
  rewrite Hd. cbn [mbind option_bind].
  set (c1 := if swu_done (1000 * Z.of_nat m) then bit_clr c 31 else c).
  assert (Ht : swu_tick swu_done (1000 * Z.of_nat m) (set_led_sem 0 s) = wled DANUBE_LED_CON0 c1 (set_led_sem 0 s)).
  { unfold swu_tick, c1. destruct (swu_done _); [done|]. symmetry. apply (set_lreg (set_led_sem 0 s)). }
  assert (Hread : forall v t, lreg DANUBE_LED_CON0 (wled DANUBE_LED_CON0 v t) = v).
  { intros v t. unfold lreg. cbn [wled set_gptu gptu wreg set_thw thw]. apply upd_eq. }
  rewrite Ht. unfold LED_CON0_SWU. rewrite Hread.
  assert (Hc1 : swu_only c c1).
  { intros j Hj Hn. unfold c1. destruct (swu_done _); [|done]. autorewrite with bits.
    by rewrite bool_decide_false, andb_true_r. }
  assert (Hb : stays_busy m c = Z.testbit c1 31 && stays_busy n c1).
  { unfold stays_busy, c1, m. rewrite seq_S, forallb_app. cbn [forallb]. rewrite andb_true_r.
    change (1 + n)%nat with (S n). destruct (swu_done (1000 * Z.of_nat (S n))); cbn [negb].
    - rewrite testbit_bit_clr by lia. rewrite bool_decide_true by done. cbn. by rewrite !andb_false_r.
    - rewrite andb_true_r. by destruct (Z.testbit c 31). }
  rewrite Hb. unfold bit_on. rewrite land_bit_eqb0 by lia. rewrite negb_involutive.
  destruct (Z.testbit c1 31) eqn:E1; cbn [negb andb].
  - replace (1000 * Z.of_nat m - 16000 / 16) with (1000 * Z.of_nat n) by (change (16000 / 16) with 1000; lia).
    set (s1 := led_up (wled DANUBE_LED_CON0 c1 (set_led_sem 0 s))).
    assert (Hs1 : lreg DANUBE_LED_CON0 s1 = c1) by apply (Hread c1 (set_led_sem 0 s)).
    destruct (IH s1 eq_refl) as (v & E & Hv & H31); rewrite Hs1 in *; [done|].
    exists v. unfold m. rewrite E. split_and!; [|by intros j Hj Hn; rewrite Hv, Hc1 by done|done].
    do 2 f_equal. replace s1 with (wled DANUBE_LED_CON0 c1 s); [by rewrite wled_twice|].
    destruct s. cbn in Hs. by subst.
  - exists (bit_set c1 31). split_and!.
    + do 2 f_equal. rewrite wled_twice. destruct s. cbn in Hs. by subst.
    + intros j Hj Hn. autorewrite with bits. rewrite bool_decide_false, orb_false_r by done. by apply Hc1.
    + by rewrite testbit_bit_set, bool_decide_true, orb_true_r by lia.
Qed.

(** Without the hardware's update clock, an update is requested, or refused
    when the last one does not finish within a hundred polls. *)
Lemma update_led_spec s : led_sem s = 1 ->
  let c := lreg DANUBE_LED_CON0 s in
  exists v, update_led swu_done s =
      Some (if (LED_CON1_US s =? 0) && stays_busy 100 c then - EBUSY else 0, wled DANUBE_LED_CON0 v s) /\
    swu_only c v /\ (LED_CON1_US s = 0 -> Z.testbit v 31 = true) /\ (LED_CON1_US s <> 0 -> v = c).
Proof.
  intros Hs c. unfold update_led. destruct (LED_CON1_US s =? 0) eqn:E; bool_prop; cbn [negb andb].
  - destruct (update_poll_spec 100 s Hs) as (v & Ev & Hv & H31); [done|]. exists v. split_and!; try done.
  - exists c. unfold c. rewrite set_lreg. split_and!; done.
Qed.
End single.

Lemma ok_wled a v s : led_ok s -> led_register a -> led_ok (wled a v s).
Proof.
  intros [Hs Hc] Ha. split; [done|]. apply core_regs; [done| |].
  - intros b Hb _. apply upd_ne. by intros ->.
  - rewrite upd_ne; [done|]. unfold led_register in Ha. led_regs_ne.
Qed.

Lemma led_registers : led_register DANUBE_LED_CON0 /\ led_register DANUBE_LED_CON1 /\
  led_register DANUBE_LED_CPU0 /\ led_register DANUBE_LED_CPU1 /\ led_register DANUBE_LED_AR.
Proof. unfold led_register. split_and!; led_regs_ne. Qed.

Lemma ok_up_down s a v : led_ok s -> led_up (wled a v (set_led_sem 0 s)) = wled a v s.
Proof. intros [Hs _]. destruct s. cbn in Hs. by subst. Qed.

Lemma set_blink_spec n blink s : led_ok s ->
  exists r v, danube_led_set_blink n blink s = Some (r, wled DANUBE_LED_CON0 v s).
Proof.
  intros Hok. unfold danube_led_set_blink. destruct (n >? 23).
  { exists (- EINVAL), (lreg DANUBE_LED_CON0 s). by rewrite set_lreg. }
  rewrite led_down_ok by done. cbn [mbind option_bind]. rewrite ok_up_down by done. eauto.
Qed.

Lemma set_data_eq swu_done n data s : led_ok s -> n <= 23 ->
  let cpu0 := lreg DANUBE_LED_CPU0 s in
  let s1 := wled DANUBE_LED_CPU0 (if negb (data =? 0) then bit_set cpu0 n else bit_clr cpu0 n) s in
  danube_led_set_data swu_done n data s =
  if negb (bit_on (lreg DANUBE_LED_AR s) n) then update_led swu_done s1 else Some (0, s1).
Proof.
  intros Hok Hn cpu0 s1. unfold danube_led_set_data. rewrite Z.gtb_ltb, (proj2 (Z.ltb_ge _ _)) by done.
  rewrite led_down_ok by done. cbn [mbind option_bind]. rewrite ok_up_down by done. done.
Qed.

Lemma set_data_spec swu_done n data s : led_ok s ->
  exists r s', danube_led_set_data swu_done n data s = Some (r, s') /\ led_ok s'.
Proof.
  intros Hok. destruct (Z.lt_ge_cases 23 n) as [Hn|Hn].
  { unfold danube_led_set_data. rewrite Z.gtb_ltb, (proj2 (Z.ltb_lt _ _)) by done. eauto. }
  rewrite set_data_eq by done. set (s1 := wled _ _ s).
  assert (H1 : led_ok s1) by (apply ok_wled; [done|apply led_registers]). clearbody s1.
  destruct (negb _); [|eauto].
  destruct (update_led_spec swu_done s1 (proj1 H1)) as (v & -> & _). eexists _, _. split; [done|].
  apply ok_wled; [done|apply led_registers].
Qed.

(** ** Reachable states *)

Section steps.
Context (find_task_by_pid : Z -> Z) (pmu_busy led_busy swu_done : Z -> bool).

(** What the rest of the system may do between two calls: it keeps its hands
    off the module's pins, keeps the timer unit consistent, and changes neither
    the power of the controller nor the clocks. *)
Definition led_others (s s' : led_state) : Prop :=
  exists p d, s' = set_gptu d (set_pins p s) /\ port_wf p /\ gptu_ok d /\
    (forall port pin, real_pin port pin ->
       owner_of p port pin = module_id s <-> owner_of (pins s) port pin = module_id s) /\
    CGU_PLL0_BYPASS (thw d) = false /\
    Z.testbit (thw d PMU_CR) 11 = Z.testbit (lreg PMU_CR s) 11.

Inductive led_step (s : led_state) : led_state -> Prop :=
  | step_set_blink n blink r s' : danube_led_set_blink n blink s = Some (r, s') -> led_step s s'
  | step_set_data n data r s' : danube_led_set_data swu_done n data s = Some (r, s') -> led_step s s'
  | step_config param r s' :
      danube_led_config find_task_by_pid pmu_busy led_busy param s = Some (r, s') -> led_step s s'
  | step_led_ioctl cmd param r s' :
      led_ioctl find_task_by_pid pmu_busy led_busy cmd param s = Some (r, s') -> led_step s s'
  | step_others s' : led_others s s' -> led_step s s'.

Context (Hgptu : pmu_wakes pmu_busy = true) (Hled : pmu_wakes led_busy = true).

Lemma config_returns param s : led_ok s ->
  exists r s', danube_led_config find_task_by_pid pmu_busy led_busy param s = Some (r, s') /\ led_ok s'.
Proof.
  intros Hok. destruct param as [p|]; [|cbn; eauto].
  destruct (config_spec find_task_by_pid pmu_busy led_busy Hgptu Hled p s Hok) as (r & s' & E & H & _). eauto.
Qed.

Lemma led_step_ok s s' : led_step s s' -> led_ok s -> led_ok s'.
Proof.
  intros Hst Hok. destruct Hst as [n b r s' E|n v r s' E|param r s' E|cmd param r s' E|s' H].
  - destruct (set_blink_spec n b s Hok) as (r1 & v & E1). rewrite E1 in E. injection E as _ <-.
    apply ok_wled; [done|apply led_registers].
  - destruct (set_data_spec swu_done n v s Hok) as (r1 & s1 & E1 & H1). by simplify_eq.
  - destruct (config_returns param s Hok) as (r1 & s1 & E1 & H1). by simplify_eq.
  - unfold led_ioctl in E. destruct (cmd =? LED_CONFIG); [|by simplify_eq].
    destruct (config_returns (Some param) s Hok) as (r1 & s1 & E1 & H1). by simplify_eq.
  - destruct H as (p & d & -> & Hp & Hd & Ho & Hb & H11). destruct Hok as [Hs []]. split; [done|].
    constructor; try done.
    + etransitivity; [exact H11|exact lo_power0].
    + intros port pin Hr. rewrite <- lo_pins0 by done. by apply Ho.
Qed.

(** ** Start-up *)

(** The identity the module gets, if it can be registered. *)
Definition registered (misc_register : Z -> Z * Z) : Z * Z :=
  let '(ret, minor) := misc_register LED_MINOR in
  if ret =? - EBUSY then misc_register MISC_DYNAMIC_MINOR else (ret, minor).
Definition identity (misc_register : Z -> Z * Z) (this_module : Z) : Z :=
  if negb (this_module =? 0) then this_module
  else (MISC_MAJOR .<< 8) .| snd (registered misc_register).

(** The driver as it is loaded, on a board where nobody has its identity. *)
Record loaded (id : Z) (s : led_state) : Prop := {
  ld_vars : gpt_freq s = 0 /\ adsl_on s = 0 /\ f_led_on s = 0;
  ld_gptu : gptu_ok (gptu s);
  ld_clock : CGU_PLL0_BYPASS (thw (gptu s)) = false;
  ld_ports : port_wf (pins s);
  ld_id : id <> 0;
  ld_pins : forall port pin, real_pin port pin -> owner_of (pins s) port pin <> id
}.

Definition reset_registers (h : Z -> Z) : Z -> Z :=
  let h := upd h PMU_CR (bit_clr (h PMU_CR) 11) in
  let h := upd (upd (upd h DANUBE_LED_AR 0) DANUBE_LED_CPU0 0) DANUBE_LED_CPU1 0 in
  let h := upd (upd h DANUBE_LED_CON1 0) DANUBE_LED_CON0 0x84000000 in
  upd h PMU_CR (bit_set (h PMU_CR) 11).

Lemma init_eq misc_register this_module s :
  danube_led_init find_task_by_pid pmu_busy led_busy misc_register this_module s =
  let s1 := set_led_sem 0 (set_gptu (set_thw (reset_registers (thw (gptu s))) (gptu s)) s) in
  if negb (fst (registered misc_register) =? 0) then Some (fst (registered misc_register), s1) else
  let s2 := led_up (set_module_id (identity misc_register this_module) s1) in
  '(_, s3) ← danube_led_config find_task_by_pid pmu_busy led_busy
               (Some (zero_param CONFIG_OPERATION_NUMBER_OF_LED 16 0 0)) s2;
  '(_, s4) ← danube_led_config find_task_by_pid pmu_busy led_busy
               (Some (zero_param CONFIG_OPERATION_DATA 16 (1 .<< 4) (1 .<< 4))) s3;
  Some (0, s4).
Proof.
  unfold danube_led_init. rewrite (enable_led_eq led_busy Hled). cbn [mbind option_bind].
  unfold identity, registered. destruct (misc_register LED_MINOR) as [ret minor].
  destruct (if ret =? - EBUSY then _ else _) as [r m]. reflexivity.
Qed.

Lemma reset_like h a : ~ led_register a -> a <> PMU_CR -> reset_registers h a = h a.
Proof.
  intros Hl Hp. unfold led_register in Hl. unfold reset_registers.
  repeat rewrite upd_ne by led_regs_ne. done.
Qed.

Lemma reset_core id s : loaded id s ->
  led_ok (led_up (set_module_id id (set_led_sem 0
    (set_gptu (set_thw (reset_registers (thw (gptu s))) (gptu s)) s)))).
Proof.
  intros [(Hf & Ha & Hl) Hg Hb Hp Hid Hno]. split; [done|].
  constructor; cbn [led_up set_led_sem set_module_id set_gptu gptu pins module_id gpt_freq f_led_on adsl_on];
    try done.
  - apply (ok_registers (reset_registers (thw (gptu s))) (events (gptu s))); [done|].
    apply reset_like; unfold led_register; led_regs_ne.
  - by left.
  - unfold lreg. cbn [led_up set_led_sem set_module_id set_gptu gptu set_thw thw]. unfold reset_registers.
    rewrite upd_eq, testbit_bit_set, bool_decide_true, orb_true_r by lia. by rewrite Hl.
  - intros port pin Hr. rewrite Hl. split; [by intros ?%Hno|by intros [? _]].
Qed.

Lemma init_ok misc_register this_module s s1 :
  loaded (identity misc_register this_module) s ->
  danube_led_init find_task_by_pid pmu_busy led_busy misc_register this_module s = Some (0, s1) -> led_ok s1.
Proof.
  intros Hld. rewrite init_eq. cbn zeta. pose proof (reset_core _ _ Hld) as Hok.
  set (s2 := led_up _) in *. destruct (negb _) eqn:E; [intros [= H _]; by rewrite H in E|].
  destruct (config_returns (Some (zero_param CONFIG_OPERATION_NUMBER_OF_LED 16 0 0)) s2 Hok) as (r3 & s3 & -> & H3).
  cbn [mbind option_bind].
  destruct (config_returns (Some (zero_param CONFIG_OPERATION_DATA 16 (1 .<< 4) (1 .<< 4))) s3 H3) as (r4 & s4 & -> & H4).
  cbn [mbind option_bind]. by intros [= <-].
Qed.
End steps.

(** ** Theorems *)

(** The calls of the driver that its users make. *)
Definition call_returns (find_task_by_pid : Z -> Z) (pmu_busy led_busy swu_done : Z -> bool) (s : led_state) : Prop :=
  (forall n blink, exists r s', danube_led_set_blink n blink s = Some (r, s')) /\
  (forall n data, exists r s', danube_led_set_data swu_done n data s = Some (r, s')) /\
  (forall param, exists r s', danube_led_config find_task_by_pid pmu_busy led_busy param s = Some (r, s')) /\
  (forall cmd param, exists r s', led_ioctl find_task_by_pid pmu_busy led_busy cmd param s = Some (r, s')).

(** C20: From a successful start every sequence of calls of the driver, mixed
    with what the other users of the ports and of the timer unit do, keeps the
    driver consistent: the semaphore is free, the controller has power and the
    driver holds exactly the pins of its mode when the LEDs are on, and has no
    power and holds no pin when they are off; and every further call returns. *)
Theorem led_reachable_consistent find_task_by_pid pmu_busy led_busy swu_done misc_register this_module s0 s1 s2 :
  pmu_wakes pmu_busy = true -> pmu_wakes led_busy = true ->
  loaded (identity misc_register this_module) s0 ->
  danube_led_init find_task_by_pid pmu_busy led_busy misc_register this_module s0 = Some (0, s1) ->
  rtc (led_step find_task_by_pid pmu_busy led_busy swu_done) s1 s2 ->
  led_ok s2 /\ call_returns find_task_by_pid pmu_busy led_busy swu_done s2.
Proof.
  intros Hg Hl Hld E Hs.
  assert (Hok : led_ok s2).
  { pose proof (init_ok find_task_by_pid pmu_busy led_busy Hg Hl _ _ _ _ Hld E) as H1.
    clear E Hld. induction Hs as [s|s s' s'' Hst _ IH]; [done|]. apply IH.
    by apply (led_step_ok find_task_by_pid pmu_busy led_busy swu_done Hg Hl s). }
  split; [done|]. split_and!.
  - intros n b. destruct (set_blink_spec n b s2 Hok) as (r & v & E1). eauto.
  - intros n v. destruct (set_data_spec swu_done n v s2 Hok) as (r & s' & E1 & _). eauto.
  - intros param. destruct (config_returns find_task_by_pid pmu_busy led_busy Hg Hl param s2 Hok)
      as (r & s' & E1 & _). eauto.
  - intros cmd p. unfold led_ioctl. destruct (cmd =? LED_CONFIG); [|eauto].
    destruct (config_returns find_task_by_pid pmu_busy led_busy Hg Hl (Some p) s2 Hok) as (r & s' & E1 & _). eauto.
Qed.

(** ** What a configuration writes *)

Definition asked (p : led_config_param) (op : Z) : bool := negb (operation_mask p .& op =? 0).

(** The copy of a register that is marked unchanged is the register. *)
Definition clean_ok (s : led_state) (u : led_update) : Prop :=
  (clean_reg_con0 u = true -> reg_con0 u = lreg DANUBE_LED_CON0 s) /\
  (clean_reg_con1 u = true -> reg_con1 u = lreg DANUBE_LED_CON1 s) /\
  (clean_reg_cpu0 u = true -> reg_cpu0 u = lreg DANUBE_LED_CPU0 s) /\
  (clean_reg_ar u = true -> reg_ar u = lreg DANUBE_LED_AR s).

(** An operation succeeds iff [ok], and then acts on the copies by [g0], [g1],
    [gd] and [ga], the first given the software update flag, on the flag by [gs],
    on the wish for the timer by [gt] and on the new mode by [gm]. *)
Definition acts (p : led_config_param) (f : operation) (ok : bool)
    (g0 : bool -> Z -> Z) (g1 gd ga : Z -> Z) (gs gt : bool -> bool) (gm : Z -> Z) : Prop :=
  forall u, if ok then exists u1, f p u = Some u1 /\
      reg_con0 u1 = g0 (f_software_update u) (reg_con0 u) /\ reg_con1 u1 = g1 (reg_con1 u) /\
      reg_cpu0 u1 = gd (reg_cpu0 u) /\ reg_ar u1 = ga (reg_ar u) /\
      f_software_update u1 = gs (f_software_update u) /\
      f_setup_gpt2 u1 = gt (f_setup_gpt2 u) /\ new_adsl_on u1 = gm (new_adsl_on u) /\
      forall s, clean_ok s u -> clean_ok s u1
  else f p u = None.

Definition no_high (x : Z) : bool := x .& 0xFF000000 =? 0.
Definition source_ok (p : led_config_param) : bool :=
  negb (asked p CONFIG_OPERATION_UPDATE_SOURCE) || (led p <=? 3) && (source p <=? 3).
Definition blink_ok (p : led_config_param) : bool :=
  negb (asked p CONFIG_OPERATION_BLINK) || no_high (blink_mask p) && no_high (blink p).
Definition clock_ok (p : led_config_param) : bool :=
  negb (asked p CONFIG_OPERATION_UPDATE_CLOCK)
  || (update_clock p <=? 2) && (negb (update_clock p =? 2) || (fpid p <=? 3)).
Definition shift_ok (p : led_config_param) : bool :=
  negb (asked p CONFIG_OPERATION_SHIFT_CLOCK) || (fpis p <=? 3).
Definition offset_ok (p : led_config_param) : bool :=
  negb (asked p CONFIG_OPERATION_DATA_OFFSET) || (data_offset p <=? 3).
Definition number_ok (p : led_config_param) : bool :=
  negb (asked p CONFIG_OPERATION_NUMBER_OF_LED) || (number_of_enabled_led p <=? 0x24).
Definition data_ok (p : led_config_param) : bool :=
  negb (asked p CONFIG_OPERATION_DATA) || no_high (data_mask p) && no_high (data p).
Definition access_ok (p : led_config_param) : bool :=
  negb (asked p CONFIG_OPERATION_MIPS0_ACCESS) || no_high (mips0_access_mask p) && no_high (mips0_access p).
Definition valid_param (p : led_config_param) : bool :=
  source_ok p && blink_ok p && clock_ok p && shift_ok p && offset_ok p && number_ok p && data_ok p && access_ok p.

Definition on {A} (b : bool) (f : A -> A) (x : A) : A := if b then f x else x.

(** [acts_tac]: one stage, by the cases of its guards. *)
Ltac acts_tac op :=
  intros u; unfold when, acts, on;
  match goal with p : led_config_param |- _ =>
    change (negb (operation_mask p .& op =? 0)) with (asked p op); destruct (asked p op)
  end; cbn [negb orb andb];
  try (eexists; split_and!; done);
  rewrite ?Z.gtb_ltb; rewrite ?Z.leb_antisym;
  repeat match goal with |- context [negb ?b] => destruct b; cbn [negb orb andb] end;
  try done; cbn [put_cpu0 f_software_update]; try (destruct (f_software_update u) eqn:?);
  eexists; split_and!; try done; intros s (H1 & H2 & H3 & H4); unfold clean_ok; cbn; split_and!; done.

Lemma acts_source p :
  acts p (when CONFIG_OPERATION_UPDATE_SOURCE config_update_source) (source_ok p)
    (fun _ => on (asked p CONFIG_OPERATION_UPDATE_SOURCE) (fun r => set_update_source r (led p) (source p)))
    id id id id id (on (asked p CONFIG_OPERATION_UPDATE_SOURCE) (fun _ => source p)).
Proof. unfold source_ok, config_update_source. acts_tac CONFIG_OPERATION_UPDATE_SOURCE. Qed.

Lemma acts_blink p :
  acts p (when CONFIG_OPERATION_BLINK config_blink) (blink_ok p)
    (fun _ => on (asked p CONFIG_OPERATION_BLINK) (fun r => set_blink_in_batch r (blink_mask p) (blink p)))
    id id id id id id.
Proof. unfold blink_ok, config_blink, no_high. acts_tac CONFIG_OPERATION_BLINK. Qed.

Lemma acts_edge p :
  acts p (when CONFIG_DATA_CLOCK_EDGE config_clock_edge) true
    (fun _ => on (asked p CONFIG_DATA_CLOCK_EDGE) (fun r => set_data_clock_edge r (f_data_clock_on_rising p)))
    id id id id id id.
Proof. unfold config_clock_edge. acts_tac CONFIG_DATA_CLOCK_EDGE. Qed.

Lemma acts_clock p :
  acts p (when CONFIG_OPERATION_UPDATE_CLOCK config_update_clock) (clock_ok p) (fun _ => id)
    (on (asked p CONFIG_OPERATION_UPDATE_CLOCK) (fun r => set_update_clock r (update_clock p) (fpid p)))
    id id (on (asked p CONFIG_OPERATION_UPDATE_CLOCK) (fun _ => update_clock p =? 0))
    (on (asked p CONFIG_OPERATION_UPDATE_CLOCK) (fun b => (update_clock p =? 1) || b)) id.
Proof. unfold clock_ok, config_update_clock. acts_tac CONFIG_OPERATION_UPDATE_CLOCK. Qed.

Lemma acts_store p :
  acts p (when CONFIG_OPERATION_STORE_MODE config_store_mode) true (fun _ => id)
    (on (asked p CONFIG_OPERATION_STORE_MODE) (fun r => set_store_mode r (store_mode p))) id id id id id.
Proof. unfold config_store_mode. acts_tac CONFIG_OPERATION_STORE_MODE. Qed.

Lemma acts_shift p :
  acts p (when CONFIG_OPERATION_SHIFT_CLOCK config_shift_clock) (shift_ok p) (fun _ => id)
    (on (asked p CONFIG_OPERATION_SHIFT_CLOCK) (fun r => set_shift_clock r (fpis p))) id id id id id.
Proof. unfold shift_ok, config_shift_clock. acts_tac CONFIG_OPERATION_SHIFT_CLOCK. Qed.

Lemma acts_offset p :
  acts p (when CONFIG_OPERATION_DATA_OFFSET config_data_offset) (offset_ok p) (fun _ => id)
    (on (asked p CONFIG_OPERATION_DATA_OFFSET) (fun r => set_data_offset r (data_offset p))) id id id id id.
Proof. unfold offset_ok, config_data_offset. acts_tac CONFIG_OPERATION_DATA_OFFSET. Qed.

Lemma acts_number p :
  acts p (when CONFIG_OPERATION_NUMBER_OF_LED config_number_of_led) (number_ok p) (fun _ => id)
    (on (asked p CONFIG_OPERATION_NUMBER_OF_LED) (fun r => set_number_of_enabled_led r (number_of_enabled_led p)))
    id id id id id.
Proof. unfold number_ok, config_number_of_led. acts_tac CONFIG_OPERATION_NUMBER_OF_LED. Qed.

Lemma acts_data p :
  acts p (when CONFIG_OPERATION_DATA config_data) (data_ok p)
    (fun soft => on (asked p CONFIG_OPERATION_DATA && soft) (fun r => r .| 0x80000000)) id
    (on (asked p CONFIG_OPERATION_DATA) (fun r => set_data_in_batch r (data_mask p) (data p))) id id id id.
Proof.
  unfold data_ok, config_data, no_high. acts_tac CONFIG_OPERATION_DATA.
Qed.

Lemma acts_access p :
  acts p (when CONFIG_OPERATION_MIPS0_ACCESS config_access) (access_ok p) (fun _ => id) id id
    (on (asked p CONFIG_OPERATION_MIPS0_ACCESS)
       (fun r => set_access_right r (mips0_access_mask p) (mips0_access p))) id id id.
Proof. unfold access_ok, config_access, no_high. acts_tac CONFIG_OPERATION_MIPS0_ACCESS. Qed.

(** The four registers after the operations, from the old ones. *)
Definition next_con1 (p : led_config_param) (r : Z) : Z :=
  on (asked p CONFIG_OPERATION_NUMBER_OF_LED) (fun r => set_number_of_enabled_led r (number_of_enabled_led p))
  (on (asked p CONFIG_OPERATION_DATA_OFFSET) (fun r => set_data_offset r (data_offset p))
  (on (asked p CONFIG_OPERATION_SHIFT_CLOCK) (fun r => set_shift_clock r (fpis p))
  (on (asked p CONFIG_OPERATION_STORE_MODE) (fun r => set_store_mode r (store_mode p))
  (on (asked p CONFIG_OPERATION_UPDATE_CLOCK) (fun r => set_update_clock r (update_clock p) (fpid p)) r)))).
Definition next_soft (p : led_config_param) (con0 : Z) : bool :=
  if asked p CONFIG_OPERATION_UPDATE_CLOCK then update_clock p =? 0 else negb (bit_on con0 31).
Definition next_con0 (p : led_config_param) (r : Z) : Z :=
  on (asked p CONFIG_OPERATION_DATA && next_soft p r) (fun r => r .| 0x80000000)
  (on (asked p CONFIG_DATA_CLOCK_EDGE) (fun r => set_data_clock_edge r (f_data_clock_on_rising p))
  (on (asked p CONFIG_OPERATION_BLINK) (fun r => set_blink_in_batch r (blink_mask p) (blink p))
  (on (asked p CONFIG_OPERATION_UPDATE_SOURCE) (fun r => set_update_source r (led p) (source p)) r))).
Definition next_cpu0 (p : led_config_param) (r : Z) : Z :=
  on (asked p CONFIG_OPERATION_DATA) (fun r => set_data_in_batch r (data_mask p) (data p)) r.
Definition next_ar (p : led_config_param) (r : Z) : Z :=
  on (asked p CONFIG_OPERATION_MIPS0_ACCESS)
    (fun r => set_access_right r (mips0_access_mask p) (mips0_access p)) r.

(** [stage H]: run the first operation of the list, whose lemma is [H]. *)
Ltac stage H :=
  cbn [run_operations]; let Hact := fresh in
  match goal with |- context [?f ?p ?u ≫= _] => pose proof (H p u) as Hact end;
  match type of Hact with
  | (if true then _ else _) => destruct Hact as (? & -> & ? & ? & ? & ? & ? & ? & ? & ?)
  | (if ?ok then _ else _) =>
      destruct ok; cbn [andb];
      [destruct Hact as (? & -> & ? & ? & ? & ? & ? & ? & ? & ?)|by rewrite Hact]
  end; cbn [mbind option_bind].

Lemma valid_operations_spec p s :
  if valid_param p then exists u, valid_operations p s = Some u /\ clean_ok s u /\
    reg_con0 u = next_con0 p (lreg DANUBE_LED_CON0 s) /\ reg_con1 u = next_con1 p (lreg DANUBE_LED_CON1 s) /\
    reg_cpu0 u = next_cpu0 p (lreg DANUBE_LED_CPU0 s) /\ reg_ar u = next_ar p (lreg DANUBE_LED_AR s) /\
    f_setup_gpt2 u = asked p CONFIG_OPERATION_UPDATE_CLOCK && (update_clock p =? 1) /\
    new_adsl_on u = (if asked p CONFIG_OPERATION_UPDATE_SOURCE then source p else adsl_on s)
  else valid_operations p s = None.
Proof.
  unfold valid_operations, config_operations, valid_param.
  assert (Hc : clean_ok s (fresh_update s)) by done.
  stage acts_source. stage acts_blink. stage acts_edge. stage acts_clock. stage acts_store.
  stage acts_shift. stage acts_offset. stage acts_number. stage acts_data. stage acts_access.
  eexists. split; [reflexivity|]. split; [auto 20|].
  repeat match goal with H : ?x = _ |- context [?x] => rewrite H; clear H end.
  split_and!; try done. cbn. unfold on, id. rewrite orb_false_r. by destruct (asked p _).
Qed.

(** *** Bits *)

(** [each_bit i]: one case per bit number below 32. *)
Ltac each_bit i :=
  let H := fresh in
  assert (H : In i (below 32)) by (apply in_below; lia); vm_compute in H;
  repeat (destruct H as [<-|H]; [|]); [..|done].

(** [bit_cases]: the value of a bit whose number is known. *)
Ltac bit_cases :=
  repeat (rewrite ?Z.lor_spec, ?Z.land_spec, ?Z.lnot_spec by lia;
          rewrite ?Z.shiftl_spec by lia);
  repeat match goal with
  | |- context [Z.testbit (Zpos ?p) ?i] =>
      let b := eval vm_compute in (Z.testbit (Zpos p) i) in change (Z.testbit (Zpos p) i) with b
  | |- context [Z.testbit ?x (?a - ?b)] =>
      let c := eval vm_compute in (a - b) in
      lazymatch c with
      | Zneg _ => rewrite (Z.testbit_neg_r x (a - b)) by lia
      | _ => change (Z.testbit x (a - b)) with (Z.testbit x c)
      end
  | |- context [if ?b then _ else _] =>
      lazymatch b with (?x <=? ?y) => let c := eval vm_compute in b in
        lazymatch c with true => idtac | false => idtac end; change b with c; cbn [andb orb] end
  end;
  do 2 (rewrite ?andb_true_r, ?andb_false_r, ?orb_false_r; cbn [negb andb orb Z.eqb Pos.eqb]).

Lemma number_bits r n i : 0 <= i < 32 -> 0 <= n ->
  Z.testbit (set_number_of_enabled_led r n) i = if i <=? 2 then n >? 8 * i else Z.testbit r i.
Proof.
  intros Hi Hn. unfold set_number_of_enabled_led. rewrite !Z.gtb_ltb.
  destruct (16 <? n) eqn:E1, (8 <? n) eqn:E2, (n =? 0) eqn:E3; bool_prop; try lia; each_bit i; bit_cases;
    try done; symmetry; first [apply Z.ltb_lt; lia|apply Z.ltb_ge; lia].
Qed.

Lemma set_bits_bits r v msb lsb i : 0 <= lsb <= msb -> 0 <= i ->
  Z.testbit (SET_BITS r msb lsb v) i =
  if (lsb <=? i) && (i <=? msb) then Z.testbit v (i - lsb) else Z.testbit r i.
Proof.
  intros Hm Hi. unfold SET_BITS.
  assert (Hones : forall n, 0 <= n -> 1 .<< n - 1 = Z.ones n).
  { intros n Hn. rewrite Z.shiftl_1_l, Z.ones_equiv. lia. }
  rewrite !Hones by lia. rewrite Z.lor_spec, Z.land_spec, Z.lnot_spec, Z.lxor_spec, Z.shiftl_spec, Z.land_spec by lia.
  rewrite !Z.testbit_ones by lia.
  destruct (lsb <=? i) eqn:E1, (i <=? msb) eqn:E2; bool_prop; cbn [andb].
  - rewrite (proj2 (Z.leb_le 0 i)), (proj2 (Z.ltb_lt i (msb + 1))), (proj2 (Z.ltb_ge i lsb)),
      (proj2 (Z.leb_le 0 (i - lsb))), (proj2 (Z.ltb_lt (i - lsb) _)) by lia.
    cbn. by rewrite andb_false_r, andb_true_r.
  - rewrite (proj2 (Z.leb_le 0 i)), (proj2 (Z.ltb_ge i (msb + 1))), (proj2 (Z.ltb_ge i lsb)),
      (proj2 (Z.ltb_ge (i - lsb) _)) by lia.
    cbn. by rewrite !andb_false_r, andb_true_r, orb_false_r.
  - rewrite (proj2 (Z.leb_le 0 i)), (proj2 (Z.ltb_lt i (msb + 1))), (proj2 (Z.ltb_lt i lsb)),
      (Z.testbit_neg_r v (i - lsb)) by lia. cbn. by rewrite andb_true_r, orb_false_r.
  - lia.
Qed.

Lemma clock_bits r c f i : 0 <= i < 32 -> 0 <= c <= 2 ->
  Z.testbit (set_update_clock r c f) i =
  if 30 <=? i then Z.testbit c (i - 30)
  else if (23 <=? i) && (i <=? 27) && (c =? 2) then Z.testbit f (i - 23) else Z.testbit r i.
Proof.
  intros Hi Hc. unfold set_update_clock.
  assert (c = 0 \/ c = 1 \/ c = 2) as [-> | [-> | ->]] by lia; cbn [Z.eqb Pos.eqb]; each_bit i; bit_cases; try done.
Qed.

Lemma source_bits r l v i : 0 <= i < 32 -> 
  Z.testbit (set_update_source r l v) i =
  if (24 <=? i) && (i <=? 25)
  then Z.testbit r i && negb (Z.testbit l (i - 24)) || Z.testbit v (i - 24) else Z.testbit r i.
Proof. intros Hi. unfold set_update_source. each_bit i; bit_cases; done. Qed.

Lemma blink_bits r m v i : 0 <= i < 32 ->
  Z.testbit (set_blink_in_batch r m v) i =
  if i <? 24 then Z.testbit r i && negb (Z.testbit m i) || Z.testbit v i
  else if (i <=? 26) || (i =? 31) then false else Z.testbit r i.
Proof. intros Hi. unfold set_blink_in_batch. each_bit i; bit_cases; done. Qed.

Lemma data_bits r m v i : 0 <= i < 32 ->
  Z.testbit (set_data_in_batch r m v) i =
  if i <? 24 then Z.testbit r i && negb (Z.testbit m i) || Z.testbit v i else Z.testbit r i.
Proof. intros Hi. unfold set_data_in_batch. each_bit i; bit_cases; done. Qed.

Lemma access_bits r m v i : 0 <= i < 32 -> no_high m = true ->
  Z.testbit (set_access_right r m v) i = if Z.testbit m i then negb (Z.testbit v i) else Z.testbit r i.
Proof.
  intros Hi Hm. unfold set_access_right.
  assert (Hz : 24 <= i -> Z.testbit m i = false).
  { intros Hge. unfold no_high in Hm. bool_prop.
    assert (Hb : Z.testbit (m .& 0xFF000000) i = false) by (rewrite Hm; apply Z.bits_0).
    rewrite Z.land_spec in Hb. revert Hge Hb. each_bit i; try lia; bit_cases; done. }
  revert Hz. each_bit i; intros Hz; bit_cases; try (rewrite Hz by lia);
    repeat match goal with |- context [Z.testbit ?x ?k] => destruct (Z.testbit x k) end; done.
Qed.

Definition led_addresses : list Z :=
  [DANUBE_LED_CON0; DANUBE_LED_CON1; DANUBE_LED_CPU0; DANUBE_LED_CPU1; DANUBE_LED_AR].

(** The bits of the registers after a configuration that succeeds. *)
Definition con1_bit (p : led_config_param) (r i : Z) : bool :=
  if i <=? 2 then if asked p CONFIG_OPERATION_NUMBER_OF_LED then number_of_enabled_led p >? 8 * i
                  else Z.testbit r i
  else if (18 <=? i) && (i <=? 19) then
    if asked p CONFIG_OPERATION_DATA_OFFSET then Z.testbit (data_offset p) (i - 18) else Z.testbit r i
  else if (20 <=? i) && (i <=? 21) then
    if asked p CONFIG_OPERATION_SHIFT_CLOCK then Z.testbit (fpis p) (i - 20) else Z.testbit r i
  else if i =? 28 then
    if asked p CONFIG_OPERATION_STORE_MODE then negb (store_mode p =? 0) else Z.testbit r i
  else if 30 <=? i then
    if asked p CONFIG_OPERATION_UPDATE_CLOCK then Z.testbit (update_clock p) (i - 30) else Z.testbit r i
  else if (23 <=? i) && (i <=? 27) && asked p CONFIG_OPERATION_UPDATE_CLOCK && (update_clock p =? 2)
  then Z.testbit (fpid p) (i - 23) else Z.testbit r i.

Definition con0_bit (p : led_config_param) (r i : Z) : bool :=
  let blinks := asked p CONFIG_OPERATION_BLINK in
  if i <=? 23 then
    if blinks then Z.testbit r i && negb (Z.testbit (blink_mask p) i) || Z.testbit (blink p) i
    else Z.testbit r i
  else if i <=? 25 then
    negb blinks &&
    (if asked p CONFIG_OPERATION_UPDATE_SOURCE
     then Z.testbit r i && negb (Z.testbit (led p) (i - 24)) || Z.testbit (source p) (i - 24)
     else Z.testbit r i)
  else if i =? 26 then
    if asked p CONFIG_DATA_CLOCK_EDGE then f_data_clock_on_rising p =? 0 else negb blinks && Z.testbit r i
  else if i =? 31 then
    asked p CONFIG_OPERATION_DATA && next_soft p r || negb blinks && Z.testbit r i
  else Z.testbit r i.

Definition cpu0_bit (p : led_config_param) (r i : Z) : bool :=
  if asked p CONFIG_OPERATION_DATA && (i <? 24)
  then Z.testbit r i && negb (Z.testbit (data_mask p) i) || Z.testbit (data p) i else Z.testbit r i.

Definition ar_bit (p : led_config_param) (r i : Z) : bool :=
  if asked p CONFIG_OPERATION_MIPS0_ACCESS && Z.testbit (mips0_access_mask p) i
  then negb (Z.testbit (mips0_access p) i) else Z.testbit r i.

(** A field operation that may be left out: [inside] says where it acts. *)
Lemma on_bits (f : Z -> Z) (inside new : bool) b r i :
  Z.testbit (f r) i = (if inside then new else Z.testbit r i) ->
  Z.testbit (on b f r) i = if inside && b then new else Z.testbit r i.
Proof. intros H. unfold on. destruct b; [by rewrite H, andb_true_r|by rewrite andb_false_r]. Qed.

Lemma one_bits (c : bool) r n i : 0 <= n -> 0 <= i ->
  Z.testbit (if c then bit_set r n else bit_clr r n) i = if i =? n then c else Z.testbit r i.
Proof.
  intros Hn Hi. destruct c; autorewrite with bits; destruct (i =? n) eqn:E; bool_prop;
    rewrite ?bool_decide_true, ?bool_decide_false by done; cbn [negb];
    rewrite ?orb_true_r, ?orb_false_r, ?andb_true_r, ?andb_false_r; done.
Qed.

Lemma next_con1_bits p r i : 0 <= i < 32 -> valid_param p = true ->
  0 <= update_clock p -> 0 <= number_of_enabled_led p ->
  Z.testbit (next_con1 p r) i = con1_bit p r i.
Proof.
  intros Hi Hv Hc Hn. unfold valid_param, clock_ok in Hv.
  assert (Hu : asked p CONFIG_OPERATION_UPDATE_CLOCK = true -> 0 <= update_clock p <= 2).
  { intros E. rewrite E in Hv. cbn [negb orb] in Hv. bool_prop. lia. }
  clear Hv. unfold next_con1, con1_bit.
  rewrite (on_bits _ (i <=? 2) (number_of_enabled_led p >? 8 * i)) by (by apply number_bits).
  rewrite (on_bits _ ((18 <=? i) && (i <=? 19)) (Z.testbit (data_offset p) (i - 18)))
    by (apply set_bits_bits; lia).
  rewrite (on_bits _ ((20 <=? i) && (i <=? 21)) (Z.testbit (fpis p) (i - 20)))
    by (apply set_bits_bits; lia).
  rewrite (on_bits _ (i =? 28) (negb (store_mode p =? 0))) by (apply one_bits; lia).
  set (clock := Z.testbit (on (asked p CONFIG_OPERATION_UPDATE_CLOCK) _ r) i).
  assert (Hclock : clock = if asked p CONFIG_OPERATION_UPDATE_CLOCK
    then if 30 <=? i then Z.testbit (update_clock p) (i - 30)
         else if (23 <=? i) && (i <=? 27) && (update_clock p =? 2) then Z.testbit (fpid p) (i - 23)
         else Z.testbit r i
    else Z.testbit r i).
  { unfold clock, on. destruct (asked p CONFIG_OPERATION_UPDATE_CLOCK); [|done]. apply clock_bits; auto. }
  rewrite Hclock. clearbody clock. clear Hclock Hu Hc Hn.
  each_bit i; cbn -[Z.testbit asked Z.mul]; try done;
    destruct (asked p CONFIG_OPERATION_UPDATE_CLOCK); cbn [andb]; done.
Qed.

Lemma con1_clock_bits p r i : 30 <= i < 32 ->
  con1_bit p r i = if asked p CONFIG_OPERATION_UPDATE_CLOCK then Z.testbit (update_clock p) (i - 30)
                   else Z.testbit r i.
Proof. intros Hi. assert (i = 30 \/ i = 31) as [-> | ->] by lia; done. Qed.

Lemma next_con0_bits p r i : 0 <= i < 32 -> Z.testbit (next_con0 p r) i = con0_bit p r i.
Proof.
  intros Hi. unfold next_con0, con0_bit. set (soft := next_soft p r). clearbody soft.
  rewrite (on_bits _ (i =? 31) true)
    by (change 0x80000000 with (1 .<< 31); apply (one_bits true); lia).
  rewrite (on_bits _ (i =? 26) (f_data_clock_on_rising p =? 0)).
  2: { unfold set_data_clock_edge. rewrite <- (one_bits _ _ 26) by lia. by destruct (f_data_clock_on_rising p =? 0). }
  set (v := Z.testbit (on (asked p CONFIG_OPERATION_BLINK) _ _) i).
  assert (Hv : v = if asked p CONFIG_OPERATION_BLINK
    then if i <? 24 then Z.testbit r i && negb (Z.testbit (blink_mask p) i) || Z.testbit (blink p) i
         else if (i <=? 26) || (i =? 31) then false else Z.testbit r i
    else if (24 <=? i) && (i <=? 25) && asked p CONFIG_OPERATION_UPDATE_SOURCE
         then Z.testbit r i && negb (Z.testbit (led p) (i - 24)) || Z.testbit (source p) (i - 24)
         else Z.testbit r i).
  { unfold v. rewrite <- (on_bits (fun r => set_update_source r (led p) (source p))) by (by apply source_bits).
    unfold on at 1. destruct (asked p CONFIG_OPERATION_BLINK); [|done]. rewrite blink_bits by done.
    rewrite (on_bits _ ((24 <=? i) && (i <=? 25)) (Z.testbit r i && negb (Z.testbit (led p) (i - 24)) || Z.testbit (source p) (i - 24)))
      by (by apply source_bits).
    clear v. each_bit i; done. }
  rewrite Hv. clearbody v. clear Hv.
  each_bit i; cbn -[Z.testbit asked]; try done;
    destruct (asked p CONFIG_OPERATION_BLINK), (asked p CONFIG_OPERATION_DATA && soft); cbn; try done.
Qed.

Lemma next_cpu0_bits p r i : 0 <= i < 32 -> Z.testbit (next_cpu0 p r) i = cpu0_bit p r i.
Proof.
  intros Hi. unfold next_cpu0, cpu0_bit. rewrite (andb_comm (asked _ _)).
  apply on_bits. by apply data_bits.
Qed.

Lemma next_ar_bits p r i : 0 <= i < 32 -> valid_param p = true -> Z.testbit (next_ar p r) i = ar_bit p r i.
Proof.
  intros Hi Hv. unfold next_ar, ar_bit, on. unfold valid_param, access_ok in Hv.
  destruct (asked p CONFIG_OPERATION_MIPS0_ACCESS); [|done]. cbn [negb orb andb] in *. bool_prop.
  by apply access_bits.
Qed.

(** The registers after a call with valid parameters. *)
Lemma config_next find_task_by_pid pmu_busy led_busy p s r s' :
  pmu_wakes pmu_busy = true -> pmu_wakes led_busy = true -> led_ok s -> valid_param p = true ->
  danube_led_config find_task_by_pid pmu_busy led_busy (Some p) s = Some (r, s') ->
  let next (f : led_config_param -> Z -> Z) a := lreg a s' = if r =? 0 then f p (lreg a s) else lreg a s in
  next next_con0 DANUBE_LED_CON0 /\ next next_con1 DANUBE_LED_CON1 /\ next next_cpu0 DANUBE_LED_CPU0 /\
  next next_ar DANUBE_LED_AR /\ lreg DANUBE_LED_CPU1 s' = lreg DANUBE_LED_CPU1 s.
Proof.
  intros Hg Hl Hok Hv E next. pose proof (valid_operations_spec p s) as Hu. rewrite Hv in Hu.
  destruct (config_spec find_task_by_pid pmu_busy led_busy Hg Hl p s Hok) as (r1 & s1 & E1 & _ & Hw).
  rewrite E1 in E. injection E as -> ->.
  destruct Hu as (u & Hu & (K0 & K1 & K2 & K3) & H0 & H1 & H2 & H3 & _). rewrite Hu in Hw.
  destruct Hw as [Hw _]. unfold next. clear next. destruct led_registers as (L0 & L1 & L2 & L3 & L4).
  rewrite !Hw by done. destruct (r =? 0); [|done].
  destruct (written_registers u (thw (gptu s))) as (W0 & W1 & W2 & W3 & W4 & _).
  rewrite W0, W1, W2, W3, W4. unfold lreg in *.
  assert (Hkept : forall clean old new v, (clean = true -> new = old) -> new = v -> kept clean old new = v).
  { intros [] old new v Ho Hn; cbn; [rewrite <- Ho|]; done. }
  split_and!; try done; by apply Hkept.
Qed.

(** A configuration call is all or nothing on the controller's registers:
    with a parameter out of range it returns EINVAL and changes nothing at all;
    with any other error it leaves the registers alone; when it succeeds each bit
    of CON0, CON1, CPU0 and AR is the one the operations ask for or the old one.
    The value bits of LEDs outside the mask are or-ed in, and a blink operation
    also clears the update sources, the clock edge and the update request. *)
Theorem led_config_registers find_task_by_pid pmu_busy led_busy p s r s' :
  pmu_wakes pmu_busy = true -> pmu_wakes led_busy = true -> led_ok s ->
  0 <= update_clock p -> 0 <= number_of_enabled_led p ->
  danube_led_config find_task_by_pid pmu_busy led_busy (Some p) s = Some (r, s') ->
  (valid_param p = false -> r = - EINVAL /\ s' = s) /\
  (r <> 0 -> forall a, In a led_addresses -> lreg a s' = lreg a s) /\
  (r = 0 -> lreg DANUBE_LED_CPU1 s' = lreg DANUBE_LED_CPU1 s /\ forall i, 0 <= i < 32 ->
    Z.testbit (lreg DANUBE_LED_CON0 s') i = con0_bit p (lreg DANUBE_LED_CON0 s) i /\
    Z.testbit (lreg DANUBE_LED_CON1 s') i = con1_bit p (lreg DANUBE_LED_CON1 s) i /\
    Z.testbit (lreg DANUBE_LED_CPU0 s') i = cpu0_bit p (lreg DANUBE_LED_CPU0 s) i /\
    Z.testbit (lreg DANUBE_LED_AR s') i = ar_bit p (lreg DANUBE_LED_AR s) i).
Proof.
  intros Hg Hl Hok Hc Hn E. destruct (valid_param p) eqn:Ev.
  2: { destruct (config_spec find_task_by_pid pmu_busy led_busy Hg Hl p s Hok) as (r1 & s1 & E1 & _ & Hw).
       pose proof (valid_operations_spec p s) as Hv. rewrite Ev in Hv. rewrite Hv in Hw.
       destruct Hw as [-> ->]. rewrite E1 in E. injection E as <- <-. split_and!; done. }
  destruct (config_next _ _ _ p s r s' Hg Hl Hok Ev E) as (H0 & H1 & H2 & H3 & H4). split_and!; [done| |].
  - intros Hr a Ha. rewrite (proj2 (Z.eqb_neq r 0)) in * by done.
    by destruct Ha as [<-|[<-|[<-|[<-|[<-|[]]]]]].
  - intros ->. cbn [Z.eqb] in *. split; [done|]. intros i Hi. rewrite H0, H1, H2, H3.
    split_and!; [by apply next_con0_bits|by apply next_con1_bits|by apply next_cpu0_bits|by apply next_ar_bits].
Qed.

(** ** The timer of the update clock *)

(** The same timers are occupied, by the same clients. *)
Definition same_unit (d d' : timer_dev) : Prop := occupation d' = occupation d /\ timer d' = timer d.

Section update_timer.
Context (find_task_by_pid : Z -> Z) (pmu_busy led_busy : Z -> bool).
Context (Hgptu : pmu_wakes pmu_busy = true) (Hled : pmu_wakes led_busy = true).

(** Giving timer 2 back gives 2A back, whoever has it, and 2B only as the other
    half of a pair. *)
Lemma release_gpt_timers s : gptu_ok (gptu s) ->
  exists d, release_gpt 2 s = Some (set_gptu d s) /\ gptu_moves (gptu s) d /\
    (forall j, flag (timer d j) = flag (timer (gptu s) j)) /\
    forall i, 0 <= i -> Z.testbit (occupation d) i = Z.testbit (occupation (gptu s)) i &&
      negb (Z.testbit (occupation (gptu s)) 4 && owned (is_16bit (flag (timer (gptu s) 2))) 4 i).
Proof.
  intros Hok. destruct (release_gpt_moves 2 s Hok) as (d & E & Hd); [lia|].
  exists d. split_and!; [done|done| |];
    revert E; unfold release_gpt; change (TIMER 2 0) with 4; rewrite stop_timer_eq by (done || lia);
    destruct (Z.testbit (occupation (gptu s)) 4) eqn:E4; cbn [mbind option_bind].
  - rewrite free_timer_eq by (try lia; by apply (run_moves 4)). cbn [wreg set_thw occupation].
    rewrite E4. cbn [mbind option_bind]. intros [= <-] j. cbn [release timer wreg set_thw].
    by destruct (j =? _).
  - rewrite free_timer_eq by (done || lia). rewrite E4. cbn [mbind option_bind]. by intros [= <-].
  - rewrite free_timer_eq by (try lia; by apply (run_moves 4)). cbn [wreg set_thw occupation].
    rewrite E4. cbn [mbind option_bind]. intros [= <-] i Hi.
    unfold head_timer. cbn [release occupation timer wreg set_thw andb]. change (4 - 2) with 2.
    set (sz := is_16bit _). replace (if sz then 4 else 4 .& .~ 1) with 4 by (by destruct sz).
    by rewrite Z.land_spec, Z.lnot_spec, testbit_mask by lia.
  - rewrite free_timer_eq by (done || lia). rewrite E4. cbn [mbind option_bind]. intros [= <-] i Hi.
    by rewrite andb_true_r.
Qed.

Lemma setup_gpt_takes freq s s1 : led_core s ->
  setup_gpt find_task_by_pid pmu_busy 2 freq s = Some (0, s1) ->
  Z.testbit (occupation (gptu s1)) 5 = true.
Proof.
  intros [Hok Hb _ _ _ _ _ _]. unfold setup_gpt. change (TIMER 2 1) with 5.
  destruct (set_timer_moves find_task_by_pid pmu_busy 5 freq 1 0 TIMER_FLAG_NO_HANDLE 0 0 _ Hok)
    as (r & d & -> & Hd); [lia|done..|]. cbn [mbind option_bind].
  destruct (negb (r =? 0)) eqn:Er; [intros [= -> _]; done|].
  rewrite start_timer_eq by (lia || apply Hd).
  destruct (Z.testbit (occupation d) 5) eqn:E5; cbn [mbind option_bind Z.eqb negb]; [by intros [= <-]|].
  change (- EINVAL =? 0) with false. cbn [negb].
  destruct (free_moves 5 d (proj1 Hd)) as (r2 & d2 & -> & _); [lia|]. by cbn [mbind option_bind].
Qed.

Lemma setup_gpt_refused freq s : led_core s -> Z.testbit (occupation (gptu s)) 5 = true ->
  exists r s1, setup_gpt find_task_by_pid pmu_busy 2 freq s = Some (r, s1) /\ r <> 0.
Proof.
  intros [Hok Hb _ _ _ _ _ _] H5. unfold setup_gpt. change (TIMER 2 1) with 5.
  destruct (set_timer_moves find_task_by_pid pmu_busy 5 freq 1 0 TIMER_FLAG_NO_HANDLE 0 0 _ Hok)
    as (r & d & E & Hd); [lia|done..|]. rewrite E. cbn [mbind option_bind].
  assert (Hr : r <> 0).
  { intros ->. revert E. unfold set_timer_call. destruct (fpi_known _ Hb) as [f ->]. cbn [mbind option_bind].
    unfold set_timer. split_if; [done|]. intros E.
    destruct (request_grants find_task_by_pid pmu_busy 5 _ _ _ _ _ _ _ Hok ltac:(lia) E (Z.le_refl 0))
      as (t & occ & Ha & _ & Ht & _).
    assert (Hask : forall fl, 2 <= asked_timer 5 fl) by (intros fl; unfold asked_timer; by destruct (is_16bit fl)).
    specialize (Ht (Hask _)). destruct Ha as (_ & Hfree & _). rewrite Ht in Hfree.
    by rewrite (Hfree 5) in H5 by (by apply asked_owned). }
  rewrite (proj2 (Z.eqb_neq r 0)) by done. eauto.
Qed.

(** What a valid configuration does to the timer unit: first what [config_gpt]
    does; then, if that went well, nothing, or another release when the pins
    cannot be had. *)
Lemma config_timer p s r s' : led_ok s -> valid_param p = true ->
  danube_led_config find_task_by_pid pmu_busy led_busy (Some p) s = Some (r, s') ->
  exists u r1 s1, valid_operations p s = Some u /\
    config_gpt find_task_by_pid pmu_busy p u (set_led_sem 0 s) = Some (r1, s1) /\ led_core s1 /\
    (r1 <> 0 -> r = r1) /\
    (r1 = 0 -> exists s2, same_unit (gptu s1) (gptu s2) /\ gptu_ok (gptu s2) /\
       (r = 0 /\ same_unit (gptu s2) (gptu s') /\ gpt_on s' = gpt_on s1 \/
        r <> 0 /\ gpt_on s' = 0 /\ release_gpt 2 s2 = Some (set_gptu (gptu s') s2))).
Proof.
  intros Hok Hv. pose proof (valid_operations_spec p s) as Hu. rewrite Hv in Hu.
  destruct Hu as (u & Hu & _). pose proof Hok as [Hs Hc]. unfold danube_led_config. rewrite led_down_ok by done.
  cbn [mbind option_bind]. change (fresh_update (set_led_sem 0 s)) with (fresh_update s).
  fold (valid_operations p s). rewrite Hu. intros E. exists u.
  destruct (config_gpt_moves find_task_by_pid pmu_busy Hgptu p u _ (core_sem 0 s Hc)) as (r1 & g & d & Eg & Hd).
  rewrite Eg in E. cbn [mbind option_bind] in E. set (s1 := set_gpt_on g _) in *.
  assert (Hc1 : led_core s1) by (by apply core_gpt_on, core_gptu; [apply core_sem|]).
  exists r1, s1. split_and!; try done.
  { intros Hr. rewrite (proj2 (Z.eqb_neq r1 0)) in E by done. by injection E. }
  intros ->. cbn [Z.eqb negb] in E.
  destruct (config_leds_core led_busy Hled u s1 Hc1) as (r2 & s2 & E2 & _ & Hc2 & Hg2 & _ & [v Hv2] & _).
  rewrite E2 in E. cbn [mbind option_bind] in E. exists s2.
  split_and!; [by rewrite Hv2|apply Hc2|]. destruct (r2 =? 0) eqn:Er2; cbn [negb] in E.
  - left. destruct (config_write_core led_busy Hled u s2 Hc2) as (h & Eh & _). rewrite Eh in E.
    cbn [mbind option_bind] in E. injection E as <- <-. done.
  - right. bool_prop. destruct (release_gpt_timers s2 (lo_gptu _ Hc2)) as (d3 & E3 & _). rewrite E3 in E.
    cbn [mbind option_bind] in E. injection E as <- <-. done.
Qed.

(** The configuration asks for the timer as the clock of the LEDs' updates. *)
Definition asks_timer (p : led_config_param) (s : led_state) : Prop :=
  valid_param p = true /\ asked p CONFIG_OPERATION_UPDATE_CLOCK = true /\ update_clock p = 1 /\
  asked p CONFIG_OPERATION_UPDATE_SOURCE = false /\ adsl_on s = 0.

Lemma asks_timer_setup p s u s1 r1 : led_ok s -> gpt_on s = 0 -> asks_timer p s ->
  valid_operations p s = Some u ->
  config_gpt find_task_by_pid pmu_busy p u (set_led_sem 0 s) = Some (r1, s1) ->
  exists s0, setup_gpt find_task_by_pid pmu_busy 2 (fpid p) (set_led_sem 0 s) = Some (r1, s0) /\
    gptu s1 = gptu s0 /\ (r1 = 0 -> gpt_on s1 = 1).
Proof.
  intros Hok Hg (Hv & Hcl & Hck & Hsrc & Ha) Hu. pose proof (valid_operations_spec p s) as Hu1.
  rewrite Hv in Hu1. destruct Hu1 as (u' & Hu' & _ & _ & _ & _ & _ & Hf & Hm).
  rewrite Hu in Hu'. injection Hu' as <-. unfold config_gpt.
  rewrite Hf, Hm, Hcl, Hck, Hsrc, Ha. cbn [andb Z.eqb Pos.eqb].
  change (gpt_on (set_led_sem 0 s)) with (gpt_on s). rewrite Hg. cbn [Z.eqb negb].
  destruct (setup_gpt _ _ _ _ _) as [[r0 s0]|]; cbn [mbind option_bind]; [|done].
  intros [= <- <-]. exists s0. split; [done|].
  destruct (r0 =? 0) eqn:E; cbn [negb]; bool_prop; split; done.
Qed.

Lemma timer_taken p s s1 : led_ok s -> gpt_on s = 0 -> asks_timer p s ->
  danube_led_config find_task_by_pid pmu_busy led_busy (Some p) s = Some (0, s1) ->
  gpt_on s1 = 1 /\ Z.testbit (occupation (gptu s1)) 5 = true.
Proof.
  intros Hok Hg Hask E. destruct (config_timer p s 0 s1 Hok (proj1 Hask) E)
    as (u & r1 & t1 & Hu & Eg & _ & Hbad & Hgood).
  destruct (asks_timer_setup p s u t1 r1 Hok Hg Hask Hu Eg) as (s0 & Es & Hs0 & Hg1).
  destruct (Z.eq_dec r1 0) as [->|Hr]; [|by specialize (Hbad Hr)].
  destruct (Hgood eq_refl) as (t2 & [Ho2 _] & _ & [(_ & [Ho _] & Hgs)|[? _]]); [|done].
  pose proof (setup_gpt_takes _ _ _ (core_sem 0 s (proj2 Hok)) Es) as H5.
  rewrite Ho, Ho2, Hs0. split; [|done]. rewrite Hgs. by apply Hg1.
Qed.

Lemma timer_refused p s r s1 : led_ok s -> gpt_on s = 0 -> asks_timer p s ->
  Z.testbit (occupation (gptu s)) 5 = true ->
  danube_led_config find_task_by_pid pmu_busy led_busy (Some p) s = Some (r, s1) -> r <> 0.
Proof.
  intros Hok Hg Hask H5 E. destruct (config_timer p s r s1 Hok (proj1 Hask) E)
    as (u & r1 & t1 & Hu & Eg & _ & Hbad & _).
  destruct (asks_timer_setup p s u t1 r1 Hok Hg Hask Hu Eg) as (s0 & Es & _).
  destruct (setup_gpt_refused (fpid p) _ (core_sem 0 s (proj2 Hok)) H5) as (r0 & s0' & Es' & Hr).
  rewrite Es' in Es. injection Es as -> _. by rewrite (Hbad Hr).
Qed.

(** Timer 2A, when 2B is a timer of its own, is too. *)
Lemma neighbour_narrow d : gptu_ok d -> Z.testbit (occupation d) 5 = true ->
  Z.testbit (occupation d) 4 = negb (is_16bit (flag (timer d 3))) || Z.testbit (occupation d) 4 /\
  (Z.testbit (occupation d) 4 = true -> is_16bit (flag (timer d 2)) = is_16bit (flag (timer d 3))).
Proof.
  intros Hok H5. pose proof (ok_pair _ Hok 5 H5) as P5. pose proof (ok_pair _ Hok 4) as P4.
  change (5 - 2) with 3 in *. change (4 - 2) with 2 in *. change (partner 5) with 4 in *.
  change (partner 4) with 5 in *. change (5 - 2) with 3 in *. change (4 - 2) with 2 in *.
  destruct (is_16bit (flag (timer d 3))) eqn:E3; cbn [negb orb].
  - split; [done|]. intros H4. destruct (is_16bit (flag (timer d 2))) eqn:E2; [done|].
    destruct (P4 H4 eq_refl) as [_ Hf]. congruence.
  - destruct (P5 eq_refl) as [-> Hf]. split; [done|]. intros _. congruence.
Qed.

Lemma timer_released p s r s2 : led_ok s -> gpt_on s = 1 ->
  Z.testbit (occupation (gptu s)) 5 = true -> valid_param p = true ->
  asked p CONFIG_OPERATION_UPDATE_CLOCK = false ->
  danube_led_config find_task_by_pid pmu_busy led_busy (Some p) s = Some (r, s2) ->
  gpt_on s2 = 0 /\ Z.testbit (occupation (gptu s2)) 4 = false /\
  Z.testbit (occupation (gptu s2)) 5 = is_16bit (flag (timer (gptu s) 3)).
Proof.
  intros Hok Hg H5 Hv Hcl E. destruct (config_timer p s r s2 Hok Hv E)
    as (u & r1 & t1 & Hu & Eg & Ht1 & _ & Hgood).
  pose proof (valid_operations_spec p s) as Hu1. rewrite Hv in Hu1.
  destruct Hu1 as (u' & Hu' & _ & _ & _ & _ & _ & Hf & _). rewrite Hu in Hu'. injection Hu' as <-.
  rewrite Hcl in Hf. unfold config_gpt in Eg. rewrite Hf in Eg.
  change (gpt_on (set_led_sem 0 s)) with (gpt_on s) in Eg. rewrite Hg in Eg. cbn [andb Z.eqb Pos.eqb negb] in Eg.
  destruct (release_gpt_timers (set_led_sem 0 s) (lo_gptu _ (proj2 Hok))) as (d & Ed & Hd & Hfl & Hocc).
  rewrite Ed in Eg. cbn [mbind option_bind] in Eg. injection Eg as <- <-.
  change (gptu (set_led_sem 0 s)) with (gptu s) in *.
  destruct (neighbour_narrow _ (lo_gptu _ (proj2 Hok)) H5) as [H4 Hsame].
  assert (Hd4 : Z.testbit (occupation d) 4 = false).
  { rewrite Hocc by lia. destruct (Z.testbit (occupation (gptu s)) 4); [|done]. unfold owned. done. }
  assert (Hd5 : Z.testbit (occupation d) 5 = is_16bit (flag (timer (gptu s) 3))).
  { rewrite Hocc, H5 by lia. cbn [andb]. destruct (Z.testbit (occupation (gptu s)) 4) eqn:E4; cbn [andb].
    - rewrite Hsame by done. by destruct (is_16bit (flag (timer (gptu s) 3))).
    - rewrite orb_false_r in H4. cbn [negb]. by destruct (is_16bit (flag (timer (gptu s) 3))). }
  destruct (Hgood eq_refl) as (t2 & [Ho2 _] & Hok2 & [(_ & [Ho _] & Hgs)|(_ & Hgs & Er)]); cbn in Ho2.
  - rewrite Ho, Ho2, Hgs. done.
  - destruct (release_gpt_timers t2 Hok2) as (d2 & E2 & _ & _ & Hocc2). rewrite E2 in Er.
    assert (gptu s2 = d2) as -> by (injection Er; congruence).
    rewrite !Hocc2, Ho2, Hd4, Hd5 by lia. cbn [andb negb]. by rewrite andb_true_r.
Qed.
End update_timer.

(** The update clock is lost.  After a configuration took timer 2B as the
    clock of the LED updates, any later configuration that does not name the
    clock again gives up the timer, although the controller goes on waiting for
    it.  What it gives back is timer 2A, with 2B as its other half when the rate
    needed 32 bits; otherwise 2A is taken from whoever has it, 2B stays occupied
    and no configuration can have it as its clock again. *)
Theorem led_update_clock_lost find_task_by_pid pmu_busy led_busy p p' s s1 r s2 :
  pmu_wakes pmu_busy = true -> pmu_wakes led_busy = true ->
  led_ok s -> gpt_on s = 0 -> asks_timer p s -> 0 <= number_of_enabled_led p ->
  danube_led_config find_task_by_pid pmu_busy led_busy (Some p) s = Some (0, s1) ->
  valid_param p' = true -> 0 <= update_clock p' -> 0 <= number_of_enabled_led p' ->
  asked p' CONFIG_OPERATION_UPDATE_CLOCK = false ->
  danube_led_config find_task_by_pid pmu_busy led_busy (Some p') s1 = Some (r, s2) ->
  let narrow := is_16bit (flag (timer (gptu s1) 3)) in
  (gpt_on s1 = 1 /\ Z.testbit (occupation (gptu s1)) 5 = true) /\
  (gpt_on s2 = 0 /\ Z.testbit (lreg DANUBE_LED_CON1 s2) 30 = true /\ Z.testbit (lreg DANUBE_LED_CON1 s2) 31 = false) /\
  (Z.testbit (occupation (gptu s2)) 4 = false /\ Z.testbit (occupation (gptu s2)) 5 = narrow) /\
  (narrow = true -> forall q r3 s3, asks_timer q s2 ->
     danube_led_config find_task_by_pid pmu_busy led_busy (Some q) s2 = Some (r3, s3) -> r3 <> 0).
Proof.
  intros Hg Hl Hok Hg0 Hask Hn E Hv' Hc' Hn' Hcl' E' narrow. pose proof Hask as (Hv & Hcl & Hck & _).
  assert (Hstep : forall p s r s', led_ok s ->
    danube_led_config find_task_by_pid pmu_busy led_busy (Some p) s = Some (r, s') -> led_ok s').
  { intros p0 t r0 t' Ht E0.
    destruct (config_spec find_task_by_pid pmu_busy led_busy Hg Hl p0 t Ht) as (? & ? & E1 & H1 & _). by simplify_eq. }
  pose proof (Hstep _ _ _ _ Hok E) as Hok1. pose proof (Hstep _ _ _ _ Hok1 E') as Hok2.
  destruct (timer_taken _ _ _ Hg Hl p s s1 Hok Hg0 Hask E) as [Hg1 H5].
  destruct (timer_released _ _ _ Hg Hl p' s1 r s2 Hok1 Hg1 H5 Hv' Hcl' E') as (Hg2 & H4 & H52).
  assert (Hbit : forall i, 30 <= i < 32 ->
    Z.testbit (lreg DANUBE_LED_CON1 s2) i = Z.testbit 1 (i - 30)).
  { intros i Hi. assert (Hold : Z.testbit (lreg DANUBE_LED_CON1 s1) i = Z.testbit 1 (i - 30)).
    { destruct (config_next _ _ _ p s 0 s1 Hg Hl Hok Hv E) as (_ & -> & _). cbn [Z.eqb].
      rewrite next_con1_bits by (done || lia). by rewrite con1_clock_bits, Hcl, Hck. }
    destruct (config_next _ _ _ p' s1 r s2 Hg Hl Hok1 Hv' E') as (_ & -> & _).
    destruct (r =? 0); [|done]. rewrite next_con1_bits by (done || lia). rewrite <- Hold.
    rewrite con1_clock_bits by done. by rewrite Hcl'. }
  split_and!; try done; [apply (Hbit 30); lia|apply (Hbit 31); lia|].
  intros Hnar q r3 s3 Hq E3. 
  refine (timer_refused find_task_by_pid pmu_busy led_busy Hg Hl q s2 r3 s3 Hok2 Hg2 Hq _ E3). by rewrite H52.
Qed.

Lemma some_pair {A B} (a c : A) (b d : B) : Some (a, b) = Some (c, d) -> a = c /\ b = d.
Proof. by intros [= -> ->]. Qed.

(** Setting one LED returns; it changes that LED's bit of the data register
    and, of the other registers, at most the update request.  The request is
    made when this core may drive the LED and software triggers the updates; if
    the last update stays unfinished for a hundred polls the call reports EBUSY,
    with the data already changed. *)
Theorem led_set_data_outcomes swu_done n data s :
  led_ok s -> 0 <= n ->
  let c := lreg DANUBE_LED_CON0 s in
  let ours := negb (Z.testbit (lreg DANUBE_LED_AR s) n) in
  let software := LED_CON1_US s =? 0 in
  exists r s', danube_led_set_data swu_done n data s = Some (r, s') /\ led_ok s' /\
    (23 < n -> r = - EINVAL /\ s' = s) /\
    (n <= 23 ->
      r = (if ours && software && stays_busy swu_done 100 c then - EBUSY else 0) /\
      (forall i, 0 <= i -> Z.testbit (lreg DANUBE_LED_CPU0 s') i =
                           if i =? n then negb (data =? 0) else Z.testbit (lreg DANUBE_LED_CPU0 s) i) /\
      (forall a, a <> DANUBE_LED_CPU0 -> a <> DANUBE_LED_CON0 -> lreg a s' = lreg a s) /\
      (forall i, 0 <= i -> Z.testbit (lreg DANUBE_LED_CON0 s') i =
                           if i =? 31 then ours && software || Z.testbit c 31 else Z.testbit c i)).
Proof.
  intros Hok Hn c ours software.
  destruct (set_data_spec swu_done n data s Hok) as (r & s' & E & Hok'). exists r, s'.
  split_and!; [done|done| |].
  { intros Hlt. revert E. unfold danube_led_set_data. rewrite Z.gtb_ltb, (proj2 (Z.ltb_lt _ _)) by done.
    by intros [= <- <-]. }
  intros Hle. rewrite set_data_eq in E by done. unfold bit_on in E. rewrite land_bit_eqb0, negb_involutive in E by done.
  fold ours in E. set (v := if negb (data =? 0) then _ else _) in E. set (s1 := wled DANUBE_LED_CPU0 v s) in E.
  assert (Hv : forall i, 0 <= i -> Z.testbit v i =
    if i =? n then negb (data =? 0) else Z.testbit (lreg DANUBE_LED_CPU0 s) i) by (intros; by apply one_bits).
  assert (H1 : lreg DANUBE_LED_CPU0 s1 = v) by apply upd_eq.
  assert (H2 : forall a, a <> DANUBE_LED_CPU0 -> lreg a s1 = lreg a s) by (intros; by apply upd_ne).
  clearbody v. destruct ours; cbn [andb].
  - destruct (update_led_spec swu_done s1 (proj1 Hok)) as (w & Ew & Hw & Hon & Hoff).
    assert (Hc0 : lreg DANUBE_LED_CON0 s1 = c) by (by apply H2).
    assert (Hus : LED_CON1_US s1 = LED_CON1_US s) by (unfold LED_CON1_US; by rewrite H2).
    rewrite Hc0, Hus in Ew. rewrite Hc0 in Hw, Hoff. rewrite Hus in Hon, Hoff.
    set (busy := stays_busy swu_done 100 c) in *. clearbody busy.
    rewrite Ew in E. apply some_pair in E as [<- <-]. fold software. split_and!; [done|..].
    + intros i Hi. rewrite <- Hv, <- H1 by done. unfold lreg. cbn [wled set_gptu gptu wreg set_thw thw].
      by rewrite upd_ne.
    + intros a Ha Hb. rewrite <- H2 by done. apply upd_ne. done.
    + intros i Hi. transitivity (Z.testbit w i); [unfold lreg; cbn [wled set_gptu gptu wreg set_thw thw]; by rewrite upd_eq|].
      unfold software. destruct (i =? 31) eqn:E31; bool_prop; [|by apply Hw]. subst i.
      destruct (LED_CON1_US s =? 0) eqn:Eu; bool_prop; [by apply Hon|by rewrite Hoff].
  - injection E as <- <-. split_and!; [done|by rewrite H1|intros; by apply H2|]. intros i Hi. rewrite H2 by done. fold c.
    destruct (i =? 31) eqn:E31; bool_prop; [by subst i|done].
Qed.

(** ** Witnesses *)

(** A board whose six timers and pins are free, with an idle power management
    unit, and the LED driver as it is loaded and started. *)
Definition led_board : led_state := mk_led 0 0 0 0 0 0 (mk_port 0 (repeat 0 32) 1 (fun _ => 0)) idle_device.
Definition always_ready : Z -> bool := fun _ => false.
#[local] Abbreviation start_board :=
  (danube_led_init (fun p => p) always_ready always_ready (fun minor => (0, minor)) 0 led_board).
Definition state_of (o : option (Z * led_state)) : led_state := snd (default (0, led_board) o).

Lemma result_state o r : fst <$> o = Some r -> o = Some (r, state_of o).
Proof. destruct o as [[? ?]|]; [|done]. by intros [= ->]. Qed.

Definition led_started : led_state := state_of start_board.

Lemma led_board_loaded : loaded (identity (fun minor => (0, minor)) 0) led_board.
Proof.
  constructor; try done; [apply idle_ok|]. intros port pin [Hp Hq]. unfold MAX_PORTS, PINS_PER_PORT in *.
  assert (port = 0 \/ port = 1) as [-> | ->] by lia;
    (assert (H : In pin (below 16)) by (apply in_below; lia); vm_compute in H;
     repeat (destruct H as [<-|H]; [vm_compute; discriminate|]); done).
Qed.

Lemma always_wakes : pmu_wakes always_ready = true.
Proof. unfold always_ready. exact pmu_ready_wakes. Qed.

Lemma led_started_returns : start_board = Some (0, led_started).
Proof. apply result_state. vm_compute. reflexivity. Qed.

Lemma led_started_ok : led_ok led_started.
Proof.
  pose proof (init_ok (fun p => p) always_ready always_ready always_wakes always_wakes
    (fun minor => (0, minor)) 0 led_board) as H.
  apply (fun s => H s led_board_loaded). exact led_started_returns.
Qed.

Lemma led_reachable_consistent_witness :
  led_ok led_started /\
  call_returns (fun p => p) always_ready always_ready always_ready led_started.
Proof.
  apply (led_reachable_consistent (fun p => p) always_ready always_ready always_ready (fun minor => (0, minor)) 0
           led_board led_started led_started).
  - exact always_wakes.
  - exact always_wakes.
  - exact led_board_loaded.
  - exact led_started_returns.
  - apply rtc_refl.
Defined.

(** A configuration that lets LED 3 blink at 4 kHz, and one that lights it. *)
Definition blink_param : led_config_param :=
  mk_lparam (CONFIG_OPERATION_BLINK .| CONFIG_OPERATION_UPDATE_CLOCK) 0 0 8 8 1 4000000 0 0 0 0 0 0 0 0 0.
Definition light_param : led_config_param := zero_param CONFIG_OPERATION_DATA 0 8 8.
#[local] Abbreviation run_config p s := (danube_led_config (fun x => x) always_ready always_ready (Some p) s).
Definition led_blinking : led_state := state_of (run_config blink_param led_started).
Definition led_lit : led_state := state_of (run_config light_param led_blinking).

Lemma led_config_registers_witness :
  Z.testbit (lreg DANUBE_LED_CON0 led_started) 26 = true /\
  Z.testbit (lreg DANUBE_LED_CON0 led_blinking) 26 = con0_bit blink_param (lreg DANUBE_LED_CON0 led_started) 26 /\
  con0_bit blink_param (lreg DANUBE_LED_CON0 led_started) 26 = false.
Proof.
  split_and!; [vm_compute; reflexivity| |vm_compute; reflexivity].
  assert (E : run_config blink_param led_started = Some (0, led_blinking))
    by (apply result_state; vm_compute; reflexivity).
  destruct (led_config_registers (fun p => p) always_ready always_ready blink_param led_started 0 led_blinking
              always_wakes always_wakes led_started_ok ltac:(vm_compute; discriminate)
              ltac:(vm_compute; discriminate) E) as (_ & _ & H).
  destruct (H eq_refl) as [_ Hb]. destruct (Hb 26) as [Hb0 _]; [lia|exact Hb0].
Defined.

Lemma led_update_clock_lost_witness :
  is_16bit (flag (timer (gptu led_blinking) 3)) = true /\
  gpt_on led_lit = 0 /\ Z.testbit (occupation (gptu led_lit)) 5 = true.
Proof.
  assert (E : run_config blink_param led_started = Some (0, led_blinking))
    by (apply result_state; vm_compute; reflexivity).
  assert (E' : run_config light_param led_blinking = Some (0, led_lit))
    by (apply result_state; vm_compute; reflexivity).
  assert (Hn : is_16bit (flag (timer (gptu led_blinking) 3)) = true) by (vm_compute; reflexivity).
  assert (G : gpt_on led_started = 0) by (vm_compute; reflexivity).
  assert (A : asks_timer blink_param led_started)
    by (split_and!; vm_compute; reflexivity).
  assert (V : valid_param light_param = true) by (vm_compute; reflexivity).
  assert (C : asked light_param CONFIG_OPERATION_UPDATE_CLOCK = false) by (vm_compute; reflexivity).
  destruct (led_update_clock_lost (fun x => x) always_ready always_ready blink_param light_param
              led_started led_blinking 0 led_lit always_wakes always_wakes led_started_ok G A
              (Z.le_refl 0) E V (Z.le_refl 0) (Z.le_refl 0) C E') as (_ & (H1 & _) & (_ & H2) & _).
  split_and!; [exact Hn|exact H1|rewrite H2; exact Hn].
Defined.

Lemma led_set_data_outcomes_witness :
  exists r s', danube_led_set_data always_ready 5 1 led_started = Some (r, s') /\ r = - EBUSY.
Proof.
  destruct (led_set_data_outcomes always_ready 5 1 led_started led_started_ok) as (r & s' & E & _ & _ & H).
  { lia. }
  exists r, s'. split; [exact E|]. destruct (H ltac:(lia)) as [-> _]. vm_compute. reflexivity.
Defined.
