(* ===== verification/DmaCore.v ===== *)
(** * Central DMA driver, data and operations ([arch/mips/infineon/danube/basic/dma-core.c])

    Twenty channels move packets between rings of descriptors in memory and six
    devices.  A channel's interrupt marks the channel pending and schedules a
    tasklet, which serves the pending channels in the order of their weights
    through the device's handler; the device's driver reads and writes the rings
    with [dma_device_read] and [dma_device_write].

    This file holds the state and every operation; [DmaRing] the theorems on the
    rings, [DmaTasklet] those on interrupts and the tasklet, [DmaSetup] those on
    start-up, reservation and registration.  The configuration
    is the one without the second Ethernet driver ([ENABLE_DANUBE_ETHERNET_D2]
    and [ENABLE_RX_DPLUS_PATH] are 0).

    Registers are memory; the channel registers exist once per channel and are
    reached through the channel selected in DANUBE_DMA_CS, the port registers
    through DANUBE_DMA_PS.  A result is [None] where the code follows a null
    pointer, divides by zero or does not return.  Sections with the interrupts
    disabled are atomic, so the interrupt flag itself is not in the state. *)

From Stdlib Require Import String.
From S2P Require Import Prelude Icu.
Open Scope Z_scope.

(** ** Constants *)

Definition INT_NUM_IM2 (n : Z) : Z := INT_NUM_IM2_IRL0 + n.
Definition DANUBE_DMA_CH_INT : list Z :=
  map INT_NUM_IM2 [0; 1; 2; 3; 4; 5; 6; 7; 8; 9; 10; 11; 25; 26; 27; 28; 29]
  ++ [INT_NUM_IM1_IRL0 + 30] ++ map INT_NUM_IM2 [16; 21].

Definition DANUBE_DMA : Z := 0xBE104100.
Definition DANUBE_DMA_CTRL : Z := DANUBE_DMA + 0x10.
Definition DANUBE_DMA_CPOLL : Z := DANUBE_DMA + 0x14.
Definition DANUBE_DMA_CS : Z := DANUBE_DMA + 0x18.
Definition DANUBE_DMA_CCTRL : Z := DANUBE_DMA + 0x1C.
Definition DANUBE_DMA_CDBA : Z := DANUBE_DMA + 0x20.
Definition DANUBE_DMA_CDLEN : Z := DANUBE_DMA + 0x24.
Definition DANUBE_DMA_CIS : Z := DANUBE_DMA + 0x28.
Definition DANUBE_DMA_CIE : Z := DANUBE_DMA + 0x2C.
Definition DANUBE_DMA_PS : Z := DANUBE_DMA + 0x40.
Definition DANUBE_DMA_PCTRL : Z := DANUBE_DMA + 0x44.
Definition DANUBE_DMA_IRNEN : Z := DANUBE_DMA + 0xf4.
Definition DANUBE_PMU_PWDCR : Z := 0xBF102000 + 0x001C.
Definition DANUBE_PMU_DMA_SHIFT : Z := 5.

Definition IFX_SUCCESS : Z := 1.
Definition DANUBE_DMA_DESCRIPTOR_OFFSET : Z := 25.
Definition MAX_DMA_DEVICE_NUM : Z := 6.
Definition MAX_DMA_CHANNEL_NUM : Z := 20.
Definition DMA_INT_BUDGET : Z := 100.
Definition DMA_OWN : Z := 1.
Definition CPU_OWN : Z := 0.
Definition DMA_DESC_SOP_SET : Z := 0x20000000.
Definition DMA_DESC_EOP_SET : Z := 0x10000000.
Definition DANUBE_DMA_RX : Z := -1.
Definition DANUBE_DMA_TX : Z := 1.
Definition RCV_INT : Z := 1.
Definition TX_BUF_FULL_INT : Z := 2.
Definition TRANSMIT_CPT_INT : Z := 4.
Definition DANUBE_DMA_CH_ON : Z := 1.
Definition DANUBE_DMA_CH_OFF : Z := 0.
Definition DANUBE_DMA_CH_DEFAULT_WEIGHT : Z := 100.

(** The cached kernel alias of a physical address. *)
Definition va (x : Z) : Z := w32 (x + 0x80000000).

(** ** Data *)

(** A descriptor: the status word and the buffer's physical address. *)
Record desc := mk_desc { d_word : Z; Data_Pointer : Z }.

(** A function pointer of a device: null, this file's own routine, or one the
    device's driver installed. *)
Inductive fn_ptr := Null | Common | Client.

(** Channels and devices are array elements; a pointer to one is its index. *)
Record dma_channel_info := mk_ch {
  rel_chan_no : Z;
  pri : Z;
  byte_offset : Z;
  dir : Z;  (* DANUBE_DMA_RX or DANUBE_DMA_TX *)
  irq : Z;
  desc_base : Z;  (* address of the first descriptor *)
  desc_len : Z;
  curr_desc : Z;
  prev_desc : Z;
  weight : Z;
  default_weight : Z;
  packet_size : Z;
  burst_len : Z;
  control : Z;
  opt : Z -> Z;  (* per descriptor, for the device *)
  dma_dev : option Z;  (* the device that uses the channel *)
  ch_ops : bool  (* open, close, reset, enable_irq, disable_irq are set *)
}.

Record dma_device_info := mk_dev {
  device_name : string;
  reserved : Z;
  tx_burst_len : Z;
  rx_burst_len : Z;
  dev_default_weight : Z;
  current_tx_chan : Z;
  current_rx_chan : Z;
  num_tx_chan : Z;
  num_rx_chan : Z;
  max_rx_chan_num : Z;
  max_tx_chan_num : Z;
  tx_chan : Z -> option Z;
  rx_chan : Z -> option Z;
  buffer_alloc : fn_ptr;
  buffer_free : fn_ptr;
  intr_handler : fn_ptr
}.

(** Calls out of the file, oldest first. *)
Inductive dma_event :=
  | Kmalloc (len buf : Z) | Kfree (ptr : Z)
  | BufAlloc (dev len buf : Z) | BufFree (dev ptr o : Z) | Upcall (dev status : Z)
  | CacheInv (addr len : Z) | CacheWback (addr len : Z)
  | RequestIrq (irq chan : Z) | FreeIrq (irq : Z)
  | RegisterChrdev | UnregisterChrdev | GetPage (page : Z) | FreePage (page : Z)
  | ProcCreate (name : string) | ProcRemove (name : string).

Record dma_state := mk_dma {
  dhw : Z -> Z;  (* registers that are not banked; the ICU *)
  bank : Z -> Z -> Z;  (* channel registers, by channel *)
  pbank : Z -> Z -> Z;  (* port registers, by port *)
  dma_chan : Z -> dma_channel_info;
  dma_devs : Z -> dma_device_info;
  descs : Z -> desc;  (* descriptors, by address *)
  int_status : Z;  (* g_danube_dma_int_status *)
  in_process : Z;  (* g_danube_dma_in_process *)
  scheduled : bool;  (* dma_tasklet is scheduled *)
  g_desc_list : Z;
  mod_use : Z;  (* use count of the module *)
  client_mem : Z -> Z;  (* variables of the drivers of the devices *)
  devents : list dma_event
}.

Definition set_weight (x : Z) (c : dma_channel_info) : dma_channel_info :=
  mk_ch (rel_chan_no c) (pri c) (byte_offset c) (dir c) (irq c) (desc_base c) (desc_len c)
    (curr_desc c) (prev_desc c) x (default_weight c) (packet_size c) (burst_len c) (control c)
    (opt c) (dma_dev c) (ch_ops c).
Definition set_curr_desc (x : Z) (c : dma_channel_info) : dma_channel_info :=
  mk_ch (rel_chan_no c) (pri c) (byte_offset c) (dir c) (irq c) (desc_base c) (desc_len c) x
    (prev_desc c) (weight c) (default_weight c) (packet_size c) (burst_len c) (control c)
    (opt c) (dma_dev c) (ch_ops c).
Definition set_prev_desc (x : Z) (c : dma_channel_info) : dma_channel_info :=
  mk_ch (rel_chan_no c) (pri c) (byte_offset c) (dir c) (irq c) (desc_base c) (desc_len c)
    (curr_desc c) x (weight c) (default_weight c) (packet_size c) (burst_len c) (control c)
    (opt c) (dma_dev c) (ch_ops c).
Definition set_control (x : Z) (c : dma_channel_info) : dma_channel_info :=
  mk_ch (rel_chan_no c) (pri c) (byte_offset c) (dir c) (irq c) (desc_base c) (desc_len c)
    (curr_desc c) (prev_desc c) (weight c) (default_weight c) (packet_size c) (burst_len c) x
    (opt c) (dma_dev c) (ch_ops c).
Definition set_opt (x : Z -> Z) (c : dma_channel_info) : dma_channel_info :=
  mk_ch (rel_chan_no c) (pri c) (byte_offset c) (dir c) (irq c) (desc_base c) (desc_len c)
    (curr_desc c) (prev_desc c) (weight c) (default_weight c) (packet_size c) (burst_len c)
    (control c) x (dma_dev c) (ch_ops c).
Definition set_desc_base (x : Z) (c : dma_channel_info) : dma_channel_info :=
  mk_ch (rel_chan_no c) (pri c) (byte_offset c) (dir c) (irq c) x (desc_len c) (curr_desc c)
    (prev_desc c) (weight c) (default_weight c) (packet_size c) (burst_len c) (control c)
    (opt c) (dma_dev c) (ch_ops c).
Definition set_desc_len (x : Z) (c : dma_channel_info) : dma_channel_info :=
  mk_ch (rel_chan_no c) (pri c) (byte_offset c) (dir c) (irq c) (desc_base c) x (curr_desc c)
    (prev_desc c) (weight c) (default_weight c) (packet_size c) (burst_len c) (control c)
    (opt c) (dma_dev c) (ch_ops c).
Definition set_irq (x : Z) (c : dma_channel_info) : dma_channel_info :=
  mk_ch (rel_chan_no c) (pri c) (byte_offset c) (dir c) x (desc_base c) (desc_len c)
    (curr_desc c) (prev_desc c) (weight c) (default_weight c) (packet_size c) (burst_len c)
    (control c) (opt c) (dma_dev c) (ch_ops c).

Definition set_device_name (x : string) (d : dma_device_info) : dma_device_info :=
  mk_dev x (reserved d) (tx_burst_len d) (rx_burst_len d) (dev_default_weight d)
    (current_tx_chan d) (current_rx_chan d) (num_tx_chan d) (num_rx_chan d) (max_rx_chan_num d)
    (max_tx_chan_num d) (tx_chan d) (rx_chan d) (buffer_alloc d) (buffer_free d)
    (intr_handler d).
Definition set_reserved (x : Z) (d : dma_device_info) : dma_device_info :=
  mk_dev (device_name d) x (tx_burst_len d) (rx_burst_len d) (dev_default_weight d)
    (current_tx_chan d) (current_rx_chan d) (num_tx_chan d) (num_rx_chan d) (max_rx_chan_num d)
    (max_tx_chan_num d) (tx_chan d) (rx_chan d) (buffer_alloc d) (buffer_free d)
    (intr_handler d).
Definition set_current_tx_chan (x : Z) (d : dma_device_info) : dma_device_info :=
  mk_dev (device_name d) (reserved d) (tx_burst_len d) (rx_burst_len d) (dev_default_weight d) x
    (current_rx_chan d) (num_tx_chan d) (num_rx_chan d) (max_rx_chan_num d) (max_tx_chan_num d)
    (tx_chan d) (rx_chan d) (buffer_alloc d) (buffer_free d) (intr_handler d).
Definition set_current_rx_chan (x : Z) (d : dma_device_info) : dma_device_info :=
  mk_dev (device_name d) (reserved d) (tx_burst_len d) (rx_burst_len d) (dev_default_weight d)
    (current_tx_chan d) x (num_tx_chan d) (num_rx_chan d) (max_rx_chan_num d)
    (max_tx_chan_num d) (tx_chan d) (rx_chan d) (buffer_alloc d) (buffer_free d)
    (intr_handler d).

Definition set_dhw (x : Z -> Z) (s : dma_state) : dma_state :=
  mk_dma x (bank s) (pbank s) (dma_chan s) (dma_devs s) (descs s) (int_status s) (in_process s)
    (scheduled s) (g_desc_list s) (mod_use s) (client_mem s) (devents s).
Definition set_bank (x : Z -> Z -> Z) (s : dma_state) : dma_state :=
  mk_dma (dhw s) x (pbank s) (dma_chan s) (dma_devs s) (descs s) (int_status s) (in_process s)
    (scheduled s) (g_desc_list s) (mod_use s) (client_mem s) (devents s).
Definition set_pbank (x : Z -> Z -> Z) (s : dma_state) : dma_state :=
  mk_dma (dhw s) (bank s) x (dma_chan s) (dma_devs s) (descs s) (int_status s) (in_process s)
    (scheduled s) (g_desc_list s) (mod_use s) (client_mem s) (devents s).
Definition set_dma_chan (x : Z -> dma_channel_info) (s : dma_state) : dma_state :=
  mk_dma (dhw s) (bank s) (pbank s) x (dma_devs s) (descs s) (int_status s) (in_process s)
    (scheduled s) (g_desc_list s) (mod_use s) (client_mem s) (devents s).
Definition set_dma_devs (x : Z -> dma_device_info) (s : dma_state) : dma_state :=
  mk_dma (dhw s) (bank s) (pbank s) (dma_chan s) x (descs s) (int_status s) (in_process s)
    (scheduled s) (g_desc_list s) (mod_use s) (client_mem s) (devents s).
Definition set_descs (x : Z -> desc) (s : dma_state) : dma_state :=
  mk_dma (dhw s) (bank s) (pbank s) (dma_chan s) (dma_devs s) x (int_status s) (in_process s)
    (scheduled s) (g_desc_list s) (mod_use s) (client_mem s) (devents s).
Definition set_int_status (x : Z) (s : dma_state) : dma_state :=
  mk_dma (dhw s) (bank s) (pbank s) (dma_chan s) (dma_devs s) (descs s) x (in_process s)
    (scheduled s) (g_desc_list s) (mod_use s) (client_mem s) (devents s).
Definition set_in_process (x : Z) (s : dma_state) : dma_state :=
  mk_dma (dhw s) (bank s) (pbank s) (dma_chan s) (dma_devs s) (descs s) (int_status s) x
    (scheduled s) (g_desc_list s) (mod_use s) (client_mem s) (devents s).
Definition set_scheduled (x : bool) (s : dma_state) : dma_state :=
  mk_dma (dhw s) (bank s) (pbank s) (dma_chan s) (dma_devs s) (descs s) (int_status s)
    (in_process s) x (g_desc_list s) (mod_use s) (client_mem s) (devents s).
Definition set_g_desc_list (x : Z) (s : dma_state) : dma_state :=
  mk_dma (dhw s) (bank s) (pbank s) (dma_chan s) (dma_devs s) (descs s) (int_status s)
    (in_process s) (scheduled s) x (mod_use s) (client_mem s) (devents s).
Definition set_mod_use (x : Z) (s : dma_state) : dma_state :=
  mk_dma (dhw s) (bank s) (pbank s) (dma_chan s) (dma_devs s) (descs s) (int_status s)
    (in_process s) (scheduled s) (g_desc_list s) x (client_mem s) (devents s).
Definition set_client_mem (x : Z -> Z) (s : dma_state) : dma_state :=
  mk_dma (dhw s) (bank s) (pbank s) (dma_chan s) (dma_devs s) (descs s) (int_status s)
    (in_process s) (scheduled s) (g_desc_list s) (mod_use s) x (devents s).
Definition set_devents (x : list dma_event) (s : dma_state) : dma_state :=
  mk_dma (dhw s) (bank s) (pbank s) (dma_chan s) (dma_devs s) (descs s) (int_status s)
    (in_process s) (scheduled s) (g_desc_list s) (mod_use s) (client_mem s) x.

(** ** Updates of one element *)

Definition gupd {A} (f : Z -> A) (i : Z) (x : A) : Z -> A := fun j => if j =? i then x else f j.
Definition upd_chan (n : Z) (f : dma_channel_info -> dma_channel_info) (s : dma_state) : dma_state :=
  set_dma_chan (gupd (dma_chan s) n (f (dma_chan s n))) s.
Definition upd_dev (n : Z) (f : dma_device_info -> dma_device_info) (s : dma_state) : dma_state :=
  set_dma_devs (gupd (dma_devs s) n (f (dma_devs s n))) s.
Definition upd_desc (a : Z) (d : desc) (s : dma_state) : dma_state := set_descs (gupd (descs s) a d) s.
Definition log (e : dma_event) (s : dma_state) : dma_state := set_devents (devents s ++ [e]) s.

(** Global registers, and those of the selected channel and port. *)
Definition rd (r : Z) (s : dma_state) : Z := dhw s r.
Definition wr (r v : Z) (s : dma_state) : dma_state := set_dhw (upd (dhw s) r v) s.
Definition crd (r : Z) (s : dma_state) : Z := bank s (rd DANUBE_DMA_CS s) r.
Definition cwr (r v : Z) (s : dma_state) : dma_state :=
  let ch := rd DANUBE_DMA_CS s in set_bank (gupd (bank s) ch (upd (bank s ch) r v)) s.
Definition prd (r : Z) (s : dma_state) : Z := pbank s (rd DANUBE_DMA_PS s) r.
Definition pwr (r v : Z) (s : dma_state) : dma_state :=
  let p := rd DANUBE_DMA_PS s in set_pbank (gupd (pbank s) p (upd (pbank s p) r v)) s.
Definition icu (f : (Z -> Z) -> Z -> Z) (s : dma_state) : dma_state := set_dhw (f (dhw s)) s.

(** ** Descriptor fields *)

Definition OWN (d : desc) : Z := (d_word d .>> 31) .& 1.
Definition C (d : desc) : Z := (d_word d .>> 30) .& 1.
Definition data_length (d : desc) : Z := d_word d .& 0xffff.
Definition zero_desc : desc := mk_desc 0 0.
(** The descriptor [j] of a channel. *)
Definition desc_at (c : dma_channel_info) (j : Z) : Z := w32 (desc_base c + 8 * j).
Definition get_desc (s : dma_state) (c : dma_channel_info) (j : Z) : desc := descs s (desc_at c j).
(** Given back by the hardware with its work done. *)
Definition complete (d : desc) : bool := (OWN d =? CPU_OWN) && negb (C d =? 0).

(** ** The channel table *)

Record dma_chan_map := mk_map {
  dev_name : string; map_dir : Z; map_pri : Z; map_irq : Z; map_rel_chan_no : Z
}.

Definition global_device_name : list string :=
  ["PPE"; "DEU"; "SPI"; "SDIO"; "MCTRL0"; "MCTRL1"]%string.

Definition ch_int (n : nat) : Z := nth n DANUBE_DMA_CH_INT 0.
Definition default_dma_map : list dma_chan_map :=
  [ mk_map "PPE" DANUBE_DMA_RX 0 (ch_int 0) 0; mk_map "PPE" DANUBE_DMA_TX 0 (ch_int 1) 0;
    mk_map "PPE" DANUBE_DMA_RX 1 (ch_int 2) 1; mk_map "PPE" DANUBE_DMA_TX 1 (ch_int 3) 1;
    mk_map "PPE" DANUBE_DMA_RX 2 (ch_int 4) 2; mk_map "PPE" DANUBE_DMA_TX 2 (ch_int 5) 2;
    mk_map "PPE" DANUBE_DMA_RX 3 (ch_int 6) 3; mk_map "PPE" DANUBE_DMA_TX 3 (ch_int 7) 3;
    mk_map "DEU" DANUBE_DMA_RX 0 (ch_int 8) 0; mk_map "DEU" DANUBE_DMA_TX 0 (ch_int 9) 0;
    mk_map "DEU" DANUBE_DMA_RX 1 (ch_int 10) 1; mk_map "DEU" DANUBE_DMA_TX 1 (ch_int 11) 1;
    mk_map "SPI" DANUBE_DMA_RX 0 (ch_int 12) 0; mk_map "SPI" DANUBE_DMA_TX 0 (ch_int 13) 0;
    mk_map "SDIO" DANUBE_DMA_RX 0 (ch_int 14) 0; mk_map "SDIO" DANUBE_DMA_TX 0 (ch_int 15) 0;
    mk_map "MCTRL0" DANUBE_DMA_RX 0 (ch_int 16) 0; mk_map "MCTRL0" DANUBE_DMA_TX 0 (ch_int 17) 0;
    mk_map "MCTRL1" DANUBE_DMA_RX 1 (ch_int 18) 1; mk_map "MCTRL1" DANUBE_DMA_TX 1 (ch_int 19) 1
  ]%string.
Definition no_map : dma_chan_map := mk_map "" 0 0 0 0.
(** [chan_map], which nothing reassigns. *)
Definition chan_map (n : Z) : dma_chan_map := nth (Z.to_nat n) default_dma_map no_map.

(** A loop whose body may fail to return. *)
Fixpoint for_each {A} (l : list Z) (body : Z -> A -> option A) (a : A) : option A :=
  match l with [] => Some a | i :: l => a ← body i a; for_each l body a end.

(** ** Channel operations *)

Definition select_chan (chan_num : Z) (s : dma_state) : Z * dma_state :=
  (IFX_SUCCESS, wr DANUBE_DMA_CS chan_num s).

Definition enable_chan (chan_num : Z) (s : dma_state) : Z * dma_state :=
  let s := wr DANUBE_DMA_CS chan_num s in
  (IFX_SUCCESS, cwr DANUBE_DMA_CCTRL (crd DANUBE_DMA_CCTRL s .| 1) s).

Definition disable_chan (chan_num : Z) (s : dma_state) : Z * dma_state :=
  let s := wr DANUBE_DMA_CS chan_num s in
  (IFX_SUCCESS, cwr DANUBE_DMA_CCTRL (crd DANUBE_DMA_CCTRL s .& .~ 1) s).

Definition enable_ch_irq (n : Z) (s : dma_state) : Z * dma_state :=
  let s := wr DANUBE_DMA_CS n s in
  let s := cwr DANUBE_DMA_CIE 0x4a s in
  let s := wr DANUBE_DMA_IRNEN (bit_set (rd DANUBE_DMA_IRNEN s) n) s in
  (IFX_SUCCESS, icu (enable_danube_irq (irq (dma_chan s n))) s).

Definition disable_ch_irq (n : Z) (s : dma_state) : Z * dma_state :=
  let s := set_int_status (bit_clr (int_status s) n) s in
  let s := wr DANUBE_DMA_CS n s in
  let s := cwr DANUBE_DMA_CIE 0 s in
  let s := wr DANUBE_DMA_IRNEN (bit_clr (rd DANUBE_DMA_IRNEN s) n) s in
  (IFX_SUCCESS, icu (mask_and_ack_danube_irq (irq (dma_chan s n))) s).

Definition open_chan (n : Z) (s : dma_state) : Z * dma_state :=
  let s := wr DANUBE_DMA_CS n s in
  let s := cwr DANUBE_DMA_CCTRL (crd DANUBE_DMA_CCTRL s .| 1) s in
  (IFX_SUCCESS, if dir (dma_chan s n) =? DANUBE_DMA_RX then snd (enable_ch_irq n s) else s).

Definition close_chan (n : Z) (s : dma_state) : Z * dma_state :=
  let s := wr DANUBE_DMA_CS n s in
  let s := cwr DANUBE_DMA_CCTRL (crd DANUBE_DMA_CCTRL s .& .~ 1) s in
  (IFX_SUCCESS, snd (disable_ch_irq n s)).

Definition reset_chan (n : Z) (s : dma_state) : Z * dma_state :=
  let s := wr DANUBE_DMA_CS n s in
  (IFX_SUCCESS, cwr DANUBE_DMA_CCTRL (crd DANUBE_DMA_CCTRL s .| 2) s).

(** ** The operations that call out of the file *)

Section Dma.

(** The kernel's allocator and interrupt table; the routines a device's driver
    installs: [client_alloc], given the device, the length, the drivers'
    variables and what was called before, yields the buffer, the byte offset,
    what it stores through [opt], if anything, and the variables;
    [client_handler] is the driver's handler for a status.  [settles n b]: the
    hardware clears bit [b] of channel [n]'s CCTRL after the driver asks. *)
Variable kmalloc : Z -> list dma_event -> Z.
Variable client_alloc : Z -> Z -> (Z -> Z) -> list dma_event -> Z * Z * option Z * (Z -> Z).
Variable client_handler : Z -> Z -> dma_state -> option dma_state.
Variable request_irq : Z -> Z.
Variable settles : Z -> Z -> bool.

Definition common_buffer_alloc (len : Z) (s : dma_state) : Z * Z * dma_state :=
  let buffer := kmalloc len (devents s) in (buffer, 0, log (Kmalloc len buffer) s).

Definition common_buffer_free (dataptr o : Z) (s : dma_state) : dma_state :=
  if negb (dataptr =? 0) then log (Kfree dataptr) s else s.

(** A call through a device's pointers. *)
Definition call_buffer_alloc (dev len : Z) (s : dma_state) : option (Z * Z * option Z * dma_state) :=
  match buffer_alloc (dma_devs s dev) with
  | Null => None
  | Common => let '(buf, off, s) := common_buffer_alloc len s in Some (buf, off, None, s)
  | Client =>
      let '(buf, off, o, m) := client_alloc dev len (client_mem s) (devents s) in
      Some (buf, off, o, log (BufAlloc dev len buf) (set_client_mem m s))
  end.

Definition call_buffer_free (dev ptr o : Z) (s : dma_state) : option dma_state :=
  match buffer_free (dma_devs s dev) with
  | Null => None
  | Common => Some (common_buffer_free ptr o s)
  | Client => Some (log (BufFree dev ptr o) s)
  end.

(** No handler of this file's own exists. *)
Definition call_intr_handler (dev status : Z) (s : dma_state) : option dma_state :=
  match intr_handler (dma_devs s dev) with
  | Null => None
  | _ => client_handler dev status (log (Upcall dev status) s)
  end.

Definition has_handler (dev : Z) (s : dma_state) : bool :=
  match intr_handler (dma_devs s dev) with Null => false | _ => true end.

(** The loops that wait for a bit of DANUBE_DMA_CCTRL to clear. *)
Definition poll (b : Z) (s : dma_state) : option dma_state :=
  if settles (rd DANUBE_DMA_CS s) b then
    Some (cwr DANUBE_DMA_CCTRL (bit_clr (crd DANUBE_DMA_CCTRL s) b) s)
  else None.

(** *** Interrupts and the tasklet *)

Definition tasklet_schedule (s : dma_state) : dma_state := set_scheduled true s.

(** Clear a channel's status bits, leaving the selected channel as it was. *)
Definition ack_channel (chan_no : Z) (s : dma_state) : dma_state :=
  let tmp := rd DANUBE_DMA_CS s in
  let s := wr DANUBE_DMA_CS chan_no s in
  let s := cwr DANUBE_DMA_CIS (crd DANUBE_DMA_CIS s .| 0x7e) s in
  wr DANUBE_DMA_CS tmp s.

Definition rx_chan_intr_handler (chan_no : Z) (s : dma_state) : option dma_state :=
  let pCh := dma_chan s chan_no in
  let rx_desc_p := desc_at pCh (curr_desc pCh) in
  let d := descs s rx_desc_p in
  if (OWN d =? CPU_OWN) && negb (C d =? 0) && (data_length d <? 1536) then
    pDev ← dma_dev pCh;
    let s := upd_dev pDev (set_current_rx_chan (rel_chan_no pCh)) s in
    s ← (if has_handler pDev s then call_intr_handler pDev RCV_INT s else Some s);
    Some (upd_chan chan_no (fun c => set_weight (weight c - 1) c) s)
  else
    let s := ack_channel chan_no s in
    let s := icu (enable_danube_irq (irq (dma_chan s chan_no))) s in
    Some (if negb (OWN (descs s rx_desc_p) =? CPU_OWN)
          then set_int_status (bit_clr (int_status s) chan_no) s else s).

Definition tx_chan_intr_handler (chan_no : Z) (s : dma_state) : option dma_state :=
  let s := ack_channel chan_no s in
  let s := set_int_status (bit_clr (int_status s) chan_no) s in
  pDev ← dma_dev (dma_chan s chan_no);
  let s := upd_dev pDev (set_current_tx_chan (rel_chan_no (dma_chan s chan_no))) s in
  if has_handler pDev s then call_intr_handler pDev TRANSMIT_CPT_INT s else Some s.

(** One turn of the selection loop: the channel found so far and its weight. *)
Definition wfq_step (s : dma_state) (acc : Z * Z) (i : Z) : Z * Z :=
  let '(chan_no, w) := acc in
  if negb (int_status s .& 1 .<< i =? 0) && (weight (dma_chan s i) >? 0) then
    if weight (dma_chan s i) >? w then (i, weight (dma_chan s i)) else (chan_no, w)
  else (chan_no, w).
Definition wfq_select (s : dma_state) : Z :=
  fst (fold_left (wfq_step s) (below MAX_DMA_CHANNEL_NUM) (-1, 0)).

Definition reset_weights (s : dma_state) : dma_state :=
  fold_left (fun s i => upd_chan i (fun c => set_weight (default_weight c) c) s)
    (below MAX_DMA_CHANNEL_NUM) s.

(** What a pass does once the channel is selected. *)
Definition serve (chan_no : Z) (s : dma_state) : option dma_state :=
  if chan_no >=? 0 then
    if map_dir (chan_map chan_no) =? DANUBE_DMA_RX then rx_chan_intr_handler chan_no s
    else tx_chan_intr_handler chan_no s
  else Some (reset_weights s).

Definition tasklet_end (s : dma_state) : dma_state :=
  let s := set_in_process 0 s in
  if negb (int_status s =? 0) then tasklet_schedule (set_in_process 1 s) else s.

Fixpoint tasklet_loop (fuel : nat) (budget : Z) (s : dma_state) : option dma_state :=
  match fuel with
  | O => None
  | S fuel =>
      if int_status s =? 0 then Some (tasklet_end s)
      else if budget <? 0 then Some (tasklet_schedule s)
      else s ← serve (wfq_select s) s; tasklet_loop fuel (budget - 1) s
  end.

(** The budget allows 101 passes. *)
Definition tasklet_fuel : nat := 102.
Definition do_dma_tasklet (s : dma_state) : option dma_state :=
  tasklet_loop tasklet_fuel DMA_INT_BUDGET s.

(** The kernel clears the scheduled flag, then calls the tasklet. *)
Definition run_tasklet (s : dma_state) : option dma_state := do_dma_tasklet (set_scheduled false s).

(** [chan_num] is the channel given to [request_irq]. *)
Definition dma_interrupt (irq chan_num : Z) (s : dma_state) : dma_state :=
  let tmp := rd DANUBE_DMA_IRNEN s in
  let s := wr DANUBE_DMA_IRNEN 0 s in
  let s := set_int_status (bit_set (int_status s) chan_num) s in
  let s := wr DANUBE_DMA_IRNEN tmp s in
  let s := icu (mask_and_ack_danube_irq irq) s in
  if in_process s =? 0 then tasklet_schedule (set_in_process 1 s) else s.

(** *** Devices *)

(** Null, or a pointer to an element of [dma_devs]. *)
Fixpoint reserve_loop (fuel : nat) (i : Z) (name : string) (s : dma_state) : option Z * dma_state :=
  match fuel with
  | O => (Some i, s)
  | S fuel =>
      if (name =? device_name (dma_devs s i))%string then
        if negb (reserved (dma_devs s i) =? 0) then (None, s)
        else (Some i, upd_dev i (set_reserved 1) s)
      else reserve_loop fuel (i + 1) name s
  end.
Definition dma_device_reserve (name : string) (s : dma_state) : option Z * dma_state :=
  reserve_loop (Z.to_nat MAX_DMA_DEVICE_NUM) 0 name s.

Definition dma_device_release (dev : Z) (s : dma_state) : Z * dma_state :=
  (IFX_SUCCESS, upd_dev dev (set_reserved 0) s).

(** Reset a channel's engine and give it its control word. *)
Definition restart_channel (n cctrl : Z) (rx : bool) (s : dma_state) : option dma_state :=
  let s := wr DANUBE_DMA_CS n s in
  let len := w32 (desc_len (dma_chan s n)) in
  let s := if negb (crd DANUBE_DMA_CDLEN s =? len) then cwr DANUBE_DMA_CDLEN len s else s in
  let s := cwr DANUBE_DMA_CCTRL (crd DANUBE_DMA_CCTRL s .& .~ 1) s in
  let s := cwr DANUBE_DMA_CCTRL (crd DANUBE_DMA_CCTRL s .| 2) s in
  s ← poll 1 s;
  let s := if rx then cwr DANUBE_DMA_CIE 0x0A s else s in
  let s := wr DANUBE_DMA_IRNEN (bit_set (rd DANUBE_DMA_IRNEN s) n) s in
  Some (cwr DANUBE_DMA_CCTRL cctrl s).

Definition register_tx (dev i : Z) (s : dma_state) : option dma_state :=
  n ← tx_chan (dma_devs s dev) i;
  if control (dma_chan s n) =? DANUBE_DMA_CH_ON then
    let s := fold_left (fun s j => upd_desc (desc_at (dma_chan s n) j) zero_desc s)
               (below (desc_len (dma_chan s n))) s in
    restart_channel n 0x30100 false s
  else Some s.

(** The status word of a fresh receive descriptor, set field by field. *)
Definition rx_fresh_word (byte_offset len : Z) : Z :=
  ((byte_offset .& 3) .<< 23) .| (DMA_OWN .<< 31) .| (len .& 0xffff).

(** Fill the ring from descriptor [j] on, up to the first failed allocation. *)
Fixpoint fill_ring (fuel : nat) (j n : Z) (s : dma_state) : option dma_state :=
  match fuel with
  | O => Some s
  | S fuel =>
      let pCh := dma_chan s n in
      pDev ← dma_dev pCh;
      '(buffer, byte_offset, o, s) ← call_buffer_alloc pDev (packet_size pCh) s;
      let s := match o with
               | Some v => upd_chan n (fun c => set_opt (gupd (opt c) j v) c) s
               | None => s
               end in
      if buffer =? 0 then Some s
      else
        let s := log (CacheInv buffer (packet_size pCh)) s in
        let s := upd_desc (desc_at pCh j)
                   (mk_desc (rx_fresh_word byte_offset (packet_size pCh)) (CPHYSADDR buffer)) s in
        fill_ring fuel (j + 1) n s
  end.

Definition register_rx (dev i : Z) (s : dma_state) : option dma_state :=
  n ← rx_chan (dma_devs s dev) i;
  if control (dma_chan s n) =? DANUBE_DMA_CH_ON then
    s ← fill_ring (Z.to_nat (desc_len (dma_chan s n))) 0 n s;
    s ← restart_channel n 0x30000 true s;
    Some (icu (enable_danube_irq (irq (dma_chan s n))) s)
  else Some s.

Definition dma_device_register (dev : Z) (s : dma_state) : option (Z * dma_state) :=
  s ← for_each (below (max_tx_chan_num (dma_devs s dev))) (register_tx dev) s;
  s ← for_each (below (max_rx_chan_num (dma_devs s dev))) (register_rx dev) s;
  Some (IFX_SUCCESS, s).

(** A buffer still hangs on the descriptor. *)
Definition holds_buffer (d : desc) : bool :=
  (OWN d =? CPU_OWN) && negb (C d =? 0) || (OWN d =? DMA_OWN) && (data_length d >? 0).

Definition stop_channel (n : Z) (s : dma_state) : option dma_state :=
  let s := cwr DANUBE_DMA_CIE 0 s in
  let s := wr DANUBE_DMA_IRNEN (bit_clr (rd DANUBE_DMA_IRNEN s) n) s in
  let s := cwr DANUBE_DMA_CCTRL (crd DANUBE_DMA_CCTRL s .& .~ 1) s in
  poll 0 s.

Definition rewind_channel (n : Z) (s : dma_state) : dma_state :=
  upd_chan n (fun c => set_control DANUBE_DMA_CH_OFF (set_prev_desc 0 (set_curr_desc 0 c))) s.

Definition free_desc (dev n j : Z) (s : dma_state) : option dma_state :=
  let pCh := dma_chan s n in
  let d := get_desc s pCh j in
  if holds_buffer d then call_buffer_free dev (va (Data_Pointer d)) (opt pCh j) s else Some s.

Definition unregister_tx (dev i : Z) (s : dma_state) : option dma_state :=
  n ← tx_chan (dma_devs s dev) i;
  if control (dma_chan s n) =? DANUBE_DMA_CH_ON then
    let s := rewind_channel n (wr DANUBE_DMA_CS n s) in
    s ← stop_channel n s;
    for_each (below (desc_len (dma_chan s n))) (fun j s =>
      s ← free_desc dev n j s;
      Some (upd_desc (desc_at (dma_chan s n) j) zero_desc s)) s
  else Some s.

Definition unregister_rx (dev i : Z) (s : dma_state) : option dma_state :=
  n ← rx_chan (dma_devs s dev) i;
  let s := icu (disable_danube_irq (irq (dma_chan s n))) s in
  let s := set_int_status (bit_clr (int_status s) n) s in
  let s := wr DANUBE_DMA_CS n (rewind_channel n s) in
  s ← stop_channel n s;
  for_each (below (desc_len (dma_chan s n))) (free_desc dev n) s.

Definition dma_device_unregister (dev : Z) (s : dma_state) : option (Z * dma_state) :=
  s ← for_each (below (max_tx_chan_num (dma_devs s dev))) (unregister_tx dev) s;
  s ← for_each (below (max_rx_chan_num (dma_devs s dev))) (unregister_rx dev) s;
  Some (IFX_SUCCESS, s).

(** *** Reading and writing the rings *)

(** The length, what is stored through [dataptr] and through [opt] (given when
    [want_opt]), if anything is, and the state. *)
Definition dma_device_read (dev : Z) (want_opt : bool) (s : dma_state)
  : option (Z * option Z * option Z * dma_state) :=
  n ← rx_chan (dma_devs s dev) (current_rx_chan (dma_devs s dev));
  let pCh := dma_chan s n in
  let cur := curr_desc pCh in
  let rx_desc_p := desc_at pCh cur in
  let d := descs s rx_desc_p in
  if negb (complete d) then Some (0, None, None, s)
  else
    let data := va (Data_Pointer d) in
    let len := data_length d in
    let o := if want_opt then Some (opt pCh cur) else None in
    '(buf, byte_offset, p, s) ← call_buffer_alloc dev (packet_size pCh) s;
    let '(len, data, o, s) :=
      if negb (buf =? 0) then
        let s := log (CacheInv buf (packet_size pCh)) s in
        let s := upd_chan n (fun c => set_opt (gupd (opt c) cur (default 0 p)) c) s in
        let s := upd_desc rx_desc_p
                   (mk_desc (w32 ((DMA_OWN .<< 31) .| (byte_offset .<< 23) .| packet_size pCh))
                            (CPHYSADDR buf)) s in
        (len, data, o, s)
      else (0, 0, (if want_opt then Some 0 else None), s) in
    let s := upd_chan n (fun c => set_curr_desc (curr_desc c + 1) c) s in
    let s := if curr_desc (dma_chan s n) =? desc_len (dma_chan s n)
             then upd_chan n (set_curr_desc 0) s else s in
    Some (len, Some data, o, s).

(** Free the buffers the hardware has sent, from [prev_desc] on. *)
Fixpoint reclaim (fuel : nat) (dev n : Z) (s : dma_state) : option dma_state :=
  match fuel with
  | O => None
  | S fuel =>
      let pCh := dma_chan s n in
      let prev := prev_desc pCh in
      let d := get_desc s pCh prev in
      if complete d then
        s ← call_buffer_free dev (va (Data_Pointer d)) (opt pCh prev) s;
        let s := upd_desc (desc_at pCh prev) zero_desc s in
        if desc_len pCh =? 0 then None
        else reclaim fuel dev n
               (upd_chan n (fun c => set_prev_desc (Z.rem (prev_desc c + 1) (desc_len c)) c) s)
      else Some s
  end.

(** Each turn empties a descriptor, so one turn per descriptor and the test that
    ends the loop are enough. *)
Definition reclaim_fuel (s : dma_state) (n : Z) : nat := S (Z.to_nat (desc_len (dma_chan s n))).

(** Put a buffer in the free descriptor at [curr_desc] and start the engine. *)
Definition enqueue (dev n dataptr len o : Z) (s : dma_state) : option (Z * dma_state) :=
  let pCh := dma_chan s n in
  let cur := curr_desc pCh in
  let s := upd_chan n (fun c => set_opt (gupd (opt c) cur o) c) s in
  let burst := w32 (tx_burst_len (dma_devs s dev) * 4) in
  if burst =? 0 then None
  else
    let byte_offset := CPHYSADDR dataptr mod burst in
    let s := log (CacheWback dataptr len) s in
    let s := upd_desc (desc_at pCh cur)
               (mk_desc (w32 ((DMA_OWN .<< 31) .| DMA_DESC_SOP_SET .| DMA_DESC_EOP_SET
                              .| (byte_offset .<< 23) .| len))
                        (w32 (CPHYSADDR dataptr - byte_offset))) s in
    let s := upd_chan n (fun c => set_curr_desc (curr_desc c + 1) c) s in
    let s := if curr_desc (dma_chan s n) =? desc_len (dma_chan s n)
             then upd_chan n (set_curr_desc 0) s else s in
    s ← (if OWN (get_desc s (dma_chan s n) (curr_desc (dma_chan s n))) =? DMA_OWN
         then call_intr_handler dev TX_BUF_FULL_INT s else Some s);
    let s := wr DANUBE_DMA_CS n s in
    let tmp := crd DANUBE_DMA_CCTRL s in
    if tmp .& 1 =? 0 then
      if ch_ops (dma_chan s n) then Some (len, snd (open_chan n s)) else None
    else Some (len, s).

Definition dma_device_write (dev dataptr len o : Z) (s : dma_state) : option (Z * dma_state) :=
  n ← tx_chan (dma_devs s dev) (current_tx_chan (dma_devs s dev));
  s ← reclaim (reclaim_fuel s n) dev n s;
  let d := get_desc s (dma_chan s n) (curr_desc (dma_chan s n)) in
  if (OWN d =? DMA_OWN) || negb (C d =? 0) then
    s ← call_intr_handler dev TX_BUF_FULL_INT s;
    Some (0, s)
  else enqueue dev n dataptr len o s.

(** *** Start-up *)

Fixpoint request_dma_irqs (l : list dma_chan_map) (i : Z) (s : dma_state) : bool * dma_state :=
  match l with
  | [] => (true, s)
  | x :: l =>
      let s := upd_chan i (set_irq (map_irq x)) s in
      let s := log (RequestIrq (map_irq x) i) s in
      if negb (request_irq (map_irq x) =? 0) then (false, log (FreeIrq (map_irq x)) s)
      else request_dma_irqs l (i + 1) s
  end.

Definition init_device (i : Z) (s : dma_state) : dma_state :=
  let s := upd_dev i (fun d =>
    mk_dev (device_name d) (reserved d) 4 4 (dev_default_weight d) (current_tx_chan d)
      (current_rx_chan d) 0 0 0 0 (tx_chan d) (rx_chan d) Common Common Null) s in
  let s := if i =? 0 then
             let s := wr DANUBE_DMA_PS 0 s in
             pwr DANUBE_DMA_PCTRL (prd DANUBE_DMA_PCTRL s .| ((0xf .<< 8) .| (1 .<< 6))) s
           else s in
  if i =? 1 then pwr DANUBE_DMA_PCTRL 0x14 (wr DANUBE_DMA_PS 1 s) else s.

Definition init_channel (m : list dma_chan_map) (s : dma_state) (j : Z) : dma_state :=
  upd_chan j (fun c =>
    mk_ch (map_rel_chan_no (nth (Z.to_nat j) m no_map)) (pri c) 0 (dir c) (irq c)
      (desc_base c) (desc_len c) 0 0 DANUBE_DMA_CH_DEFAULT_WEIGHT DANUBE_DMA_CH_DEFAULT_WEIGHT
      (packet_size c) (burst_len c) DANUBE_DMA_CH_OFF (opt c) (dma_dev c) true) s.

(** Channel [j] becomes the next receive or transmit channel of device [i]. *)
Definition attach (rx : bool) (i j p : Z) (s : dma_state) : dma_state :=
  let s := upd_chan j (fun c =>
    mk_ch (rel_chan_no c) p (byte_offset c) (if rx then DANUBE_DMA_RX else DANUBE_DMA_TX) (irq c)
      (desc_base c) (desc_len c) (curr_desc c) (prev_desc c) (weight c) (default_weight c)
      (packet_size c) (burst_len c) (control c) (opt c) (Some i) (ch_ops c)) s in
  upd_dev i (fun d =>
    let nrx := max_rx_chan_num d + (if rx then 1 else 0) in
    let ntx := max_tx_chan_num d + (if rx then 0 else 1) in
    mk_dev (device_name d) (reserved d) (tx_burst_len d) (rx_burst_len d) (dev_default_weight d)
      (current_tx_chan d) (current_rx_chan d) (num_tx_chan d) (num_rx_chan d) nrx ntx
      (if rx then tx_chan d else gupd (tx_chan d) (ntx - 1) (Some j))
      (if rx then gupd (rx_chan d) (nrx - 1) (Some j) else rx_chan d)
      (buffer_alloc d) (buffer_free d) (intr_handler d)) s.

Definition attach_channel (m : list dma_chan_map) (i : Z) (s : dma_state) (j : Z) : dma_state :=
  let x := nth (Z.to_nat j) m no_map in
  if (device_name (dma_devs s i) =? dev_name x)%string then
    if map_dir x =? DANUBE_DMA_RX then attach true i j (map_pri x) s
    else if map_dir x =? DANUBE_DMA_TX then attach false i j (map_pri x) s
    else s
  else s.

Definition map_device (m : list dma_chan_map) (s : dma_state) (i : Z) : dma_state :=
  let s := init_device i s in
  let s := fold_left (init_channel m) (below MAX_DMA_CHANNEL_NUM) s in
  fold_left (attach_channel m i) (below MAX_DMA_CHANNEL_NUM) s.

Definition map_dma_chan (m : list dma_chan_map) (s : dma_state) : Z * dma_state :=
  let s := fold_left (fun s i =>
    upd_dev i (set_device_name (nth (Z.to_nat i) global_device_name EmptyString)) s)
    (below MAX_DMA_DEVICE_NUM) s in
  let '(ok, s) := request_dma_irqs (firstn (Z.to_nat MAX_DMA_CHANNEL_NUM) m) 0 s in
  if negb ok then (- EFAULT, s)
  else (IFX_SUCCESS, fold_left (map_device m) (below MAX_DMA_DEVICE_NUM) s).

Definition chip_channel (s : dma_state) (i : Z) : dma_state :=
  let s := wr DANUBE_DMA_CS i s in
  let s := cwr DANUBE_DMA_CCTRL 0x2 s in
  let s := cwr DANUBE_DMA_CPOLL 0x80000040 s in
  let s := if (i =? 8) || (i =? 9)
           then cwr DANUBE_DMA_CCTRL (crd DANUBE_DMA_CCTRL s .& .~ (3 .<< 9)) s else s in
  let s := if (i =? 10) || (i =? 11)
           then cwr DANUBE_DMA_CCTRL (crd DANUBE_DMA_CCTRL s .& .~ (3 .<< 9) .| (1 .<< 9)) s else s in
  let s := if (i =? 16) || (i =? 17)
           then cwr DANUBE_DMA_CCTRL (crd DANUBE_DMA_CCTRL s .| (3 .<< 9)) s else s in
  if (i =? 18) || (i =? 19)
  then cwr DANUBE_DMA_CCTRL (crd DANUBE_DMA_CCTRL s .& .~ (3 .<< 9) .| (1 .<< 9)) s else s.

Definition dma_chip_init (s : dma_state) : Z * dma_state :=
  let s := wr DANUBE_PMU_PWDCR (bit_clr (rd DANUBE_PMU_PWDCR s) DANUBE_PMU_DMA_SHIFT) s in
  let s := wr DANUBE_DMA_CTRL (rd DANUBE_DMA_CTRL s .| 1) s in
  let s := wr DANUBE_DMA_IRNEN 0 s in
  let s := fold_left chip_channel (below MAX_DMA_CHANNEL_NUM) s in
  (IFX_SUCCESS, fold_left (fun s i => snd (disable_chan i s)) (below MAX_DMA_CHANNEL_NUM) s).

Definition init_ring (s : dma_state) (i : Z) : dma_state :=
  let base := s32 (w32 (g_desc_list s + i * DANUBE_DMA_DESCRIPTOR_OFFSET * 8)) in
  let s := upd_chan i (fun c =>
    set_desc_len DANUBE_DMA_DESCRIPTOR_OFFSET (set_curr_desc 0 (set_desc_base base c))) s in
  let s := snd (select_chan i s) in
  let s := cwr DANUBE_DMA_CDBA (CPHYSADDR (desc_base (dma_chan s i))) s in
  cwr DANUBE_DMA_CDLEN (desc_len (dma_chan s i)) s.

(** The page cleared through its uncached alias, and the rings placed in it. *)
Definition init_desc_list (page : Z) (s : dma_state) : dma_state :=
  let s := log (CacheInv page 4096) s in
  let s := set_g_desc_list (KSEG1ADDR page) s in
  let s := set_descs (fun a =>
    if (KSEG1ADDR page <=? a) && (a <? KSEG1ADDR page + 4096) then zero_desc else descs s a) s in
  fold_left init_ring (below MAX_DMA_CHANNEL_NUM) s.

Definition init_proc (s : dma_state) : dma_state :=
  let s := log (ProcCreate "danube_dma") s in
  let s := log (ProcCreate "dma_register") s in
  let s := log (ProcCreate "g_desc_list") s in
  log (ProcCreate "channel_weight") s.

(** [registered]: the answer of [register_chrdev]; [sem]: the semaphore's
    memory; [page]: the page for the descriptors (0 when there is none). *)
Definition danube_dma_init (registered sem page : Z) (s : dma_state) : option (Z * dma_state) :=
  let s := log RegisterChrdev s in
  if negb (registered =? 0) then Some (registered, s)
  else if sem =? 0 then None
  else
    let s := snd (dma_chip_init s) in
    let s := snd (map_dma_chan default_dma_map s) in
    let s := set_g_desc_list page (log (GetPage page) s) in
    if page =? 0 then Some (- ENOMEM, s)
    else Some (0, init_proc (init_desc_list page s)).

Definition dma_cleanup (s : dma_state) : dma_state :=
  let s := log UnregisterChrdev s in
  let s := log (FreePage (KSEG0ADDR (g_desc_list s))) s in
  let s := log (ProcRemove "channel_weight") s in
  let s := log (ProcRemove "dma_list") s in
  let s := log (ProcRemove "dma_register") s in
  let s := log (ProcRemove "danube_dma") s in
  fold_left (fun s i => log (FreeIrq (irq (dma_chan s i))) s) (below MAX_DMA_CHANNEL_NUM) s.

(** The character device. *)
Definition dma_open (s : dma_state) : Z * dma_state := (0, set_mod_use (mod_use s + 1) s).
Definition dma_release (s : dma_state) : Z * dma_state := (0, set_mod_use (mod_use s - 1) s).
Definition dma_ioctl (cmd arg : Z) (s : dma_state) : Z * dma_state := (0, s).

End Dma.
