(* ===== verification/DmaRing.v ===== *)
(** * Descriptor rings of the DMA driver

    The rings of [DmaCore] against queues: a transmit ring is the queue of the
    buffers handed to the hardware and not yet given back, a receive ring yields
    its packets in the order of the descriptors. *)

From Stdlib Require String.
From S2P Require Import Prelude Icu DmaCore.
Open Scope Z_scope.

(** ** Updates *)

Lemma gupd_eq {A} (f : Z -> A) i x : gupd f i x i = x.
Proof. unfold gupd. by rewrite Z.eqb_refl. Qed.

Lemma gupd_ne {A} (f : Z -> A) i j x : j <> i -> gupd f i x j = f j.
Proof. intros H. unfold gupd. by rewrite (proj2 (Z.eqb_neq j i)). Qed.

#[export] Hint Rewrite @gupd_eq : upd.
#[export] Hint Rewrite @gupd_ne using (first [assumption | congruence | lia]) : upd.

(** [dproj]: the fields of an updated state, channel, device or descriptor. *)
Ltac dproj :=
  cbn [dhw bank pbank dma_chan dma_devs descs int_status in_process scheduled g_desc_list mod_use
    client_mem devents set_client_mem set_dhw set_bank set_pbank set_dma_chan set_dma_devs set_descs set_int_status
    set_in_process set_scheduled set_g_desc_list set_mod_use set_devents upd_chan upd_dev upd_desc
    log wr pwr icu
    rel_chan_no pri byte_offset dir irq desc_base desc_len curr_desc prev_desc weight
    default_weight packet_size burst_len control opt dma_dev ch_ops
    set_weight set_curr_desc set_prev_desc set_control set_opt set_desc_base set_desc_len set_irq
    device_name reserved tx_burst_len rx_burst_len dev_default_weight current_tx_chan
    current_rx_chan num_tx_chan num_rx_chan max_rx_chan_num max_tx_chan_num tx_chan rx_chan
    buffer_alloc buffer_free intr_handler set_device_name set_reserved set_current_tx_chan
    set_current_rx_chan d_word Data_Pointer fst snd mbind option_bind].
Tactic Notation "dproj" "in" hyp(H) :=
  revert H; dproj; intros H.

Lemma desc_at_inj c j k :
  0 <= j < 2 ^ 28 -> 0 <= k < 2 ^ 28 -> desc_at c j = desc_at c k -> j = k.
Proof.
  unfold desc_at, w32. intros Hj Hk E.
  assert (Hd : (8 * j - 8 * k) mod 2 ^ 32 = 0).
  { replace (8 * j - 8 * k) with ((desc_base c + 8 * j) - (desc_base c + 8 * k)) by lia.
    rewrite Zminus_mod, E, Z.sub_diag. reflexivity. }
  apply Z.mod_divide in Hd; [|lia]. destruct Hd as [z Hz]. nia.
Qed.

(** ** Descriptor words *)

Lemma testbit_land_1 x i : 0 <= i -> (x .>> i) .& 1 = Z.b2z (Z.testbit x i).
Proof.
  intros Hi. rewrite Z.land_comm. change 1 with (Z.ones 1). rewrite Z.land_comm, Z.land_ones by lia.
  change (2 ^ 1) with 2. rewrite <- Z.bit0_mod, Z.shiftr_spec by lia. by rewrite Z.add_0_l.
Qed.

Lemma OWN_eq d : OWN d = Z.b2z (Z.testbit (d_word d) 31).
Proof. apply testbit_land_1. lia. Qed.

Lemma C_eq d : C d = Z.b2z (Z.testbit (d_word d) 30).
Proof. apply testbit_land_1. lia. Qed.

Lemma complete_eq d :
  complete d = negb (Z.testbit (d_word d) 31) && Z.testbit (d_word d) 30.
Proof.
  unfold complete, CPU_OWN. rewrite OWN_eq, C_eq.
  by destruct (Z.testbit (d_word d) 31), (Z.testbit (d_word d) 30).
Qed.

(** With the hardware, or given back and not yet reclaimed. *)
Definition busy (d : desc) : bool := (OWN d =? DMA_OWN) || negb (C d =? 0).

Lemma busy_eq d : busy d = Z.testbit (d_word d) 31 || Z.testbit (d_word d) 30.
Proof.
  unfold busy, DMA_OWN. rewrite OWN_eq, C_eq.
  by destruct (Z.testbit (d_word d) 31), (Z.testbit (d_word d) 30).
Qed.

Lemma busy_not_complete d : busy d = true -> complete d = false -> OWN d = DMA_OWN.
Proof.
  rewrite busy_eq, complete_eq, OWN_eq.
  by destruct (Z.testbit (d_word d) 31), (Z.testbit (d_word d) 30).
Qed.

Lemma OWN_DMA_testbit d : (OWN d =? DMA_OWN) = Z.testbit (d_word d) 31.
Proof. rewrite OWN_eq. by destruct (Z.testbit (d_word d) 31). Qed.

(** ** A transmit ring as a queue *)

(** The [k]-th descriptor from the oldest one. *)
Definition slot (c : dma_channel_info) (k : nat) : Z :=
  (prev_desc c + Z.of_nat k) mod desc_len c.

(** A descriptor in use and what the device attached to it. *)
Definition entry : Type := desc * Z.

Definition slot_holds (s : dma_state) (n j : Z) (oe : option entry) : Prop :=
  match oe with
  | Some (d, o) => get_desc s (dma_chan s n) j = d /\ opt (dma_chan s n) j = o
  | None => get_desc s (dma_chan s n) j = zero_desc
  end.

(** Channel [n]'s ring holds the entries [q], oldest first, and nothing else. *)
Record tx_ring (s : dma_state) (n : Z) (q : list entry) : Prop := {
  ring_len : 0 < desc_len (dma_chan s n) < 2 ^ 28;
  ring_prev : 0 <= prev_desc (dma_chan s n) < desc_len (dma_chan s n);
  ring_curr : curr_desc (dma_chan s n) = slot (dma_chan s n) (length q);
  ring_fits : Z.of_nat (length q) <= desc_len (dma_chan s n);
  ring_busy : Forall (fun e => busy (fst e) = true) q;
  ring_slots k : Z.of_nat k < desc_len (dma_chan s n) ->
    slot_holds s n (slot (dma_chan s n) k) (q !! k)
}.

(** The entries the hardware has finished with at the head, and the rest. *)
Fixpoint sent (q : list entry) : list entry :=
  match q with e :: q => if complete (fst e) then e :: sent q else [] | [] => [] end.
Fixpoint unsent (q : list entry) : list entry :=
  match q with e :: q' => if complete (fst e) then unsent q' else q | [] => [] end.

Lemma sent_unsent q : sent q ++ unsent q = q.
Proof. induction q as [|e q IH]; [done|]. cbn. destruct (complete (fst e)); [cbn; by f_equal|done]. Qed.

(** The event a buffer's return leaves, by the device's [buffer_free]. *)
Definition free_events (f : fn_ptr) (dev : Z) (e : entry) : list dma_event :=
  let ptr := va (Data_Pointer (fst e)) in
  match f with
  | Common => if ptr =? 0 then [] else [Kfree ptr]
  | _ => [BufFree dev ptr (snd e)]
  end.

Section Slots.
Context (c : dma_channel_info).
Context (Hlen : 0 < desc_len c < 2 ^ 28).

Lemma slot_range k : 0 <= slot c k < desc_len c.
Proof. apply Z.mod_pos_bound. lia. Qed.

Lemma slot_inj k k' :
  Z.of_nat k < desc_len c -> Z.of_nat k' < desc_len c -> slot c k = slot c k' -> k = k'.
Proof.
  unfold slot. intros Hk Hk' E.
  pose proof (Z.div_mod (prev_desc c + Z.of_nat k) (desc_len c) ltac:(lia)) as D1.
  pose proof (Z.div_mod (prev_desc c + Z.of_nat k') (desc_len c) ltac:(lia)) as D2.
  rewrite E in D1. revert D1 D2.
  generalize ((prev_desc c + Z.of_nat k) / desc_len c) ((prev_desc c + Z.of_nat k') / desc_len c).
  intros a b D1 D2. assert (Hd : Z.of_nat k - Z.of_nat k' = desc_len c * (a - b)) by lia.
  assert (a - b = 0) by nia. nia.
Qed.

Lemma slot_0 : 0 <= prev_desc c < desc_len c -> slot c 0 = prev_desc c.
Proof. intros H. unfold slot. rewrite Z.add_0_r. by apply Z.mod_small. Qed.

Lemma slot_wrap k : slot c (k + Z.to_nat (desc_len c)) = slot c k.
Proof.
  unfold slot. replace (prev_desc c + Z.of_nat (k + Z.to_nat (desc_len c)))
    with (prev_desc c + Z.of_nat k + 1 * desc_len c) by lia.
  apply Z.mod_add. lia.
Qed.

Lemma slot_next k :
  (if slot c k + 1 =? desc_len c then 0 else slot c k + 1) = slot c (S k).
Proof.
  pose proof (slot_range k) as Hr. unfold slot in *.
  replace (prev_desc c + Z.of_nat (S k)) with (prev_desc c + Z.of_nat k + 1) by lia.
  rewrite <- (Z.add_mod_idemp_l (_ + Z.of_nat k)) by lia. set (x := (_ + Z.of_nat k) mod _) in *.
  destruct (_ =? _) eqn:E; bool_prop.
  - rewrite E. by rewrite Z.mod_same by lia.
  - symmetry. apply Z.mod_small. lia.
Qed.
End Slots.

(** ** Reclaiming *)

(** Nothing but channel [n], its descriptors and the history differ. *)
Definition same_devices (s s' : dma_state) : Prop :=
  dma_devs s' = dma_devs s /\ dhw s' = dhw s /\ bank s' = bank s /\ pbank s' = pbank s /\
  int_status s' = int_status s /\ in_process s' = in_process s /\ scheduled s' = scheduled s.

Lemma get_desc_upd s n c a d j :
  get_desc (set_descs (gupd (descs s) (desc_at c a) d) s) (dma_chan s n) j =
  if desc_at (dma_chan s n) j =? desc_at c a then d else get_desc s (dma_chan s n) j.
Proof. reflexivity. Qed.

(** Emptying the oldest descriptor and advancing [prev_desc] dequeues. *)
Lemma tx_ring_pop s n e q :
  tx_ring s n (e :: q) ->
  tx_ring (upd_chan n (fun c => set_prev_desc (Z.rem (prev_desc c + 1) (desc_len c)) c)
    (upd_desc (desc_at (dma_chan s n) (prev_desc (dma_chan s n))) zero_desc s)) n q.
Proof.
  intros [Hlen Hprev Hcurr Hfits Hbusy Hslots].
  set (c := dma_chan s n) in *. cbn [length] in Hcurr, Hfits.
  assert (Hrem : Z.rem (prev_desc c + 1) (desc_len c) = slot c 1).
  { unfold slot. rewrite Z.rem_mod_nonneg by lia. f_equal. }
  set (s' := upd_chan _ _ _).
  assert (Ec : dma_chan s' n = set_prev_desc (slot c 1) c).
  { subst s'. dproj. rewrite gupd_eq. fold c. by rewrite Hrem. }
  assert (Eslot : forall k, slot (dma_chan s' n) k = slot c (S k)).
  { intros k. rewrite Ec. unfold slot. dproj. rewrite Z.add_mod_idemp_l by lia. f_equal. lia. }
  assert (Edesc : forall j, 0 <= j < desc_len c ->
    get_desc s' (dma_chan s' n) j = if j =? prev_desc c then zero_desc else get_desc s c j).
  { intros j Hj. rewrite Ec. unfold get_desc. subst s'. dproj. unfold gupd.
    change (desc_at (set_prev_desc (slot c 1) c) j) with (desc_at c j).
    destruct (j =? prev_desc c) eqn:E; bool_prop.
    - subst j. by rewrite Z.eqb_refl.
    - rewrite (proj2 (Z.eqb_neq _ _)); [done|]. intros E'.
      apply desc_at_inj in E'; lia. }
  constructor.
  - rewrite Ec. dproj. done.
  - rewrite Ec. dproj. by apply slot_range.
  - rewrite Eslot. rewrite Ec. dproj. done.
  - rewrite Ec. dproj. lia.
  - by apply Forall_inv_tail in Hbusy.
  - intros k Hk. rewrite Ec in Hk. dproj in Hk. rewrite Eslot.
    pose proof (slot_range c Hlen (S k)) as Hr.
    destruct (decide (Z.of_nat (S k) < desc_len c)) as [Hlt|Hge].
    + specialize (Hslots (S k) Hlt). cbn [lookup list_lookup] in Hslots.
      assert (Hne : slot c (S k) <> prev_desc c).
      { rewrite <- (slot_0 c Hprev). intros E. apply slot_inj in E; lia. }
      unfold slot_holds in *. rewrite Edesc by done. rewrite (proj2 (Z.eqb_neq _ _) Hne).
      change (list_lookup k q) with (q !! k) in Hslots.
      destruct (q !! k) as [[d o]|]; [|done]. rewrite Ec. dproj. done.
    + assert (E : S k = (0 + Z.to_nat (desc_len c))%nat) by lia.
      rewrite E, slot_wrap, slot_0 by done.
      rewrite lookup_ge_None_2 by lia. unfold slot_holds. rewrite Edesc by done.
      by rewrite Z.eqb_refl.
Qed.

Lemma tx_ring_ext s s' n q :
  dma_chan s' = dma_chan s -> descs s' = descs s -> tx_ring s n q -> tx_ring s' n q.
Proof.
  intros E1 E2 [??????]. constructor; rewrite ?E1; try done.
  intros k Hk. specialize (ring_slots0 k Hk). unfold slot_holds, get_desc in *. by rewrite E1, E2.
Qed.

Lemma call_buffer_free_eq dev d o s :
  buffer_free (dma_devs s dev) <> Null ->
  call_buffer_free dev (va (Data_Pointer d)) o s =
    Some (set_devents (devents s ++ free_events (buffer_free (dma_devs s dev)) dev (d, o)) s).
Proof.
  intros Hf. unfold call_buffer_free, free_events, common_buffer_free, log. dproj.
  destruct (buffer_free _); [done| |done]. destruct (va (Data_Pointer d) =? 0); cbn [negb]; [|done].
  rewrite app_nil_r. by destruct s.
Qed.

(** Only channel [n]'s position, its descriptors and the history differ. *)
Record only_ring (n : Z) (s s' : dma_state) : Prop := {
  only_dev : same_devices s s';
  only_chan : exists p, dma_chan s' n = set_prev_desc p (dma_chan s n);
  only_others m : m <> n -> dma_chan s' m = dma_chan s m;
  only_descs a : (forall j, 0 <= j < desc_len (dma_chan s n) -> a <> desc_at (dma_chan s n) j) ->
    descs s' a = descs s a
}.

Lemma only_ring_refl n s : only_ring n s s.
Proof. constructor; [done| |done|done]. exists (prev_desc (dma_chan s n)). by destruct (dma_chan s n). Qed.

Lemma only_ring_trans n s1 s2 s3 : only_ring n s1 s2 -> only_ring n s2 s3 -> only_ring n s1 s3.
Proof.
  intros [D1 [p1 C1] O1 A1] [D2 [p2 C2] O2 A2]. constructor.
  - unfold same_devices in *. intuition congruence.
  - exists p2. rewrite C2, C1. done.
  - intros m Hm. rewrite O2, O1; done.
  - intros a Ha. rewrite A2; [by apply A1|]. rewrite C1. exact Ha.
Qed.

Section Reclaim.
Context (dev n : Z).

Lemma reclaim_spec q : forall fuel s,
  tx_ring s n q -> buffer_free (dma_devs s dev) <> Null -> (length (sent q) < fuel)%nat ->
  exists s', reclaim fuel dev n s = Some s' /\ tx_ring s' n (unsent q) /\ only_ring n s s' /\
    devents s' = devents s ++ concat (map (free_events (buffer_free (dma_devs s dev)) dev) (sent q)).
Proof.
  induction q as [|[d o] q IH]; intros [|fuel] s R Hf Hfuel; try lia.
  - pose proof (ring_slots _ _ _ R 0 ltac:(destruct R; lia)) as H0.
    cbn [reclaim]. rewrite slot_0 in H0 by (by destruct R). unfold slot_holds in H0. cbn in H0.
    rewrite H0. cbn. exists s. rewrite app_nil_r. auto using only_ring_refl.
  - pose proof (ring_slots _ _ _ R 0 ltac:(destruct R; lia)) as H0.
    rewrite slot_0 in H0 by (by destruct R). cbn in H0. destruct H0 as [Hd Ho].
    cbn [reclaim sent unsent fst] in *. rewrite Hd. destruct (complete d) eqn:Ecomp.
    2:{ exists s. cbn. rewrite app_nil_r. auto using only_ring_refl. }
    rewrite Ho, call_buffer_free_eq by done. cbn [mbind option_bind].
    rewrite (proj2 (Z.eqb_neq _ _)) by (destruct R; lia).
    set (s1 := set_devents _ s).
    assert (R1 : tx_ring s1 n ((d, o) :: q)) by by apply (tx_ring_ext s).
    pose proof (tx_ring_pop _ _ _ _ R1) as R2.
    change (dma_chan s n) with (dma_chan s1 n).
    set (s2 := upd_chan _ _ _) in *. cbn [length] in Hfuel.
    destruct (IH fuel s2 R2) as (s' & E' & R' & F' & H'); [done|lia|].
    exists s'. split_and!; [done|done| |].
    + eapply only_ring_trans; [|exact F']. constructor.
      * done.
      * eexists. subst s2 s1. dproj. by rewrite gupd_eq.
      * intros m Hm. subst s2 s1. dproj. by rewrite gupd_ne.
      * intros a Ha. subst s2 s1. dproj. rewrite gupd_ne; [done|].
        apply Ha. destruct R; lia.
    + rewrite H'. subst s2 s1. dproj. cbn [map concat]. by rewrite app_assoc.
Qed.
End Reclaim.

(** ** Enqueueing *)

Lemma tx_ring_push s s' n q d o :
  tx_ring s n q -> Z.of_nat (length q) < desc_len (dma_chan s n) -> busy d = true ->
  (forall j, desc_at (dma_chan s' n) j = desc_at (dma_chan s n) j) ->
  desc_len (dma_chan s' n) = desc_len (dma_chan s n) ->
  prev_desc (dma_chan s' n) = prev_desc (dma_chan s n) ->
  curr_desc (dma_chan s' n) = slot (dma_chan s n) (S (length q)) ->
  opt (dma_chan s' n) = gupd (opt (dma_chan s n)) (slot (dma_chan s n) (length q)) o ->
  descs s' = gupd (descs s) (desc_at (dma_chan s n) (slot (dma_chan s n) (length q))) d ->
  tx_ring s' n (q ++ [(d, o)]).
Proof.
  intros [Hlen Hprev Hcurr Hfits Hbusy Hslots] Hroom Hd Ea El Ep Ec Eo Ed.
  assert (Es : forall k, slot (dma_chan s' n) k = slot (dma_chan s n) k)
    by (intros; unfold slot; by rewrite El, Ep).
  constructor; rewrite ?El, ?Ep; try done.
  - by rewrite Es, Ec, length_app, Nat.add_1_r.
  - rewrite length_app, Nat.add_1_r. lia.
  - apply Forall_app. split; [done|]. by constructor.
  - intros k Hk. specialize (Hslots k Hk). rewrite Es.
    assert (Hg : get_desc s' (dma_chan s' n) (slot (dma_chan s n) k) =
      if decide (k = length q) then d else get_desc s (dma_chan s n) (slot (dma_chan s n) k)).
    { unfold get_desc. rewrite Ed, Ea. destruct (decide _) as [->|Hne]; [by rewrite gupd_eq|].
      rewrite gupd_ne; [done|]. intros E. apply desc_at_inj in E.
      - by apply slot_inj in E.
      - pose proof (slot_range _ Hlen k). lia.
      - pose proof (slot_range _ Hlen (length q)). lia. }
    unfold slot_holds. rewrite Hg, Eo. destruct (decide (k = length q)) as [->|Hne].
    + rewrite list_lookup_middle by done. by rewrite gupd_eq.
    + rewrite gupd_ne by (intros E; apply slot_inj in E; lia).
      destruct (decide (k < length q)%nat).
      * by rewrite lookup_app_l.
      * rewrite (lookup_ge_None_2 (q ++ _)) by (rewrite length_app; cbn; lia).
        by rewrite (lookup_ge_None_2 q) in Hslots by lia.
Qed.

(** The descriptor [dma_device_write] makes. *)
Definition tx_offset (burst_len dataptr : Z) : Z := CPHYSADDR dataptr mod w32 (burst_len * 4).
Definition tx_word (off len : Z) : Z :=
  w32 ((DMA_OWN .<< 31) .| DMA_DESC_SOP_SET .| DMA_DESC_EOP_SET .| (off .<< 23) .| len).
Definition tx_desc (burst_len dataptr len : Z) : desc :=
  let off := tx_offset burst_len dataptr in
  mk_desc (tx_word off len) (w32 (CPHYSADDR dataptr - off)).

Lemma tx_word_bit31 off len : Z.testbit (tx_word off len) 31 = true.
Proof.
  unfold tx_word. rewrite testbit_w32, !Z.lor_spec by lia.
  by replace (Z.testbit (DMA_OWN .<< 31) 31) with true by reflexivity.
Qed.

Lemma tx_desc_busy b p len : busy (tx_desc b p len) = true.
Proof. rewrite busy_eq. cbn [tx_desc d_word]. by rewrite tx_word_bit31. Qed.

Lemma tx_desc_OWN b p len : (OWN (tx_desc b p len) =? DMA_OWN) = true.
Proof. rewrite OWN_DMA_testbit. apply tx_word_bit31. Qed.

(** The descriptor after the last entry: empty, or the oldest when all are in use. *)
Lemma next_desc_owned s n q :
  tx_ring s n q -> (forall e q', q = e :: q' -> complete (fst e) = false) ->
  (OWN (get_desc s (dma_chan s n) (curr_desc (dma_chan s n))) =? DMA_OWN) =
    (Z.of_nat (length q) =? desc_len (dma_chan s n)) /\
  ((OWN (get_desc s (dma_chan s n) (curr_desc (dma_chan s n))) =? DMA_OWN)
   || negb (C (get_desc s (dma_chan s n) (curr_desc (dma_chan s n))) =? 0)) =
    (Z.of_nat (length q) =? desc_len (dma_chan s n)).
Proof.
  intros [Hlen Hprev Hcurr Hfits Hbusy Hslots] Hhead. rewrite Hcurr.
  destruct (Z.eqb_spec (Z.of_nat (length q)) (desc_len (dma_chan s n))) as [E|E].
  - replace (length q) with (0 + Z.to_nat (desc_len (dma_chan s n)))%nat by lia.
    rewrite slot_wrap by done. specialize (Hslots 0%nat ltac:(lia)).
    destruct q as [|[d o] q]; [cbn in E; lia|]. cbn in Hslots. destruct Hslots as [-> _].
    apply Forall_inv in Hbusy. specialize (Hhead _ _ eq_refl). cbn [fst] in *.
    by rewrite (busy_not_complete d Hbusy Hhead).
  - specialize (Hslots (length q) ltac:(lia)). rewrite (lookup_ge_None_2 q) in Hslots by lia.
    cbn in Hslots. by rewrite Hslots.
Qed.

Lemma unsent_head q e q' : unsent q = e :: q' -> complete (fst e) = false.
Proof.
  induction q as [|x q IH]; cbn; [done|]. destruct (complete (fst x)) eqn:E; [done|].
  by intros [= <- _].
Qed.

Lemma length_sent q : (length (sent q) <= length q)%nat.
Proof. rewrite <- (sent_unsent q) at 2. rewrite length_app. lia. Qed.

(** The handler told that the ring is full returns and leaves the rings alone. *)
Definition full_quiet (client_handler : Z -> Z -> dma_state -> option dma_state) (dev : Z) : Prop :=
  forall t, exists t', client_handler dev TX_BUF_FULL_INT t = Some t' /\ dma_chan t' = dma_chan t /\
    descs t' = descs t /\ dma_devs t' = dma_devs t /\ devents t' = devents t.

Section Write.
Context (client_handler : Z -> Z -> dma_state -> option dma_state) (dev n : Z).
Context (Hquiet : full_quiet client_handler dev).

Lemma call_full s :
  intr_handler (dma_devs s dev) <> Null ->
  exists t, call_intr_handler client_handler dev TX_BUF_FULL_INT s = Some t /\
    dma_chan t = dma_chan s /\ descs t = descs s /\ dma_devs t = dma_devs s /\
    devents t = devents s ++ [Upcall dev TX_BUF_FULL_INT].
Proof.
  intros Hh. unfold call_intr_handler.
  destruct (Hquiet (log (Upcall dev TX_BUF_FULL_INT) s)) as (t & -> & H). exists t.
  destruct (intr_handler _); [done| |]; auto.
Qed.

(** The device may transmit on channel [n]. *)
Record tx_ready (s : dma_state) : Prop := {
  ready_chan : tx_chan (dma_devs s dev) (current_tx_chan (dma_devs s dev)) = Some n;
  ready_free : buffer_free (dma_devs s dev) <> Null;
  ready_handler : intr_handler (dma_devs s dev) <> Null;
  ready_burst : 0 < tx_burst_len (dma_devs s dev) <= 8;
  ready_ops : ch_ops (dma_chan s n) = true
}.

Lemma open_chan_keeps m s :
  dma_chan (snd (open_chan m s)) = dma_chan s /\ descs (snd (open_chan m s)) = descs s /\
  dma_devs (snd (open_chan m s)) = dma_devs s /\ devents (snd (open_chan m s)) = devents s /\
  Z.testbit (bank (snd (open_chan m s)) m DANUBE_DMA_CCTRL) 0 = true.
Proof.
  unfold open_chan. cbn [snd].
  assert (E : forall t, dma_chan (snd (enable_ch_irq m t)) = dma_chan t /\
    descs (snd (enable_ch_irq m t)) = descs t /\ dma_devs (snd (enable_ch_irq m t)) = dma_devs t /\
    devents (snd (enable_ch_irq m t)) = devents t /\
    bank (snd (enable_ch_irq m t)) m DANUBE_DMA_CCTRL = bank t m DANUBE_DMA_CCTRL).
  { intros t. split_and!; try done. unfold enable_ch_irq, icu, cwr, rd. dproj.
    rewrite upd_eq, gupd_eq. by rewrite upd_ne. }
  set (t := cwr _ _ _).
  assert (Et : dma_chan t = dma_chan s /\ descs t = descs s /\ dma_devs t = dma_devs s /\
    devents t = devents s /\ Z.testbit (bank t m DANUBE_DMA_CCTRL) 0 = true).
  { split_and!; try done. subst t. unfold cwr, crd, rd. dproj.
    rewrite upd_eq, gupd_eq, upd_eq, Z.lor_spec. apply orb_true_r. }
  change (dma_chan (wr DANUBE_DMA_CS m s) m) with (dma_chan s m).
  destruct (E t) as (E1 & E2 & E3 & E4 & E5). destruct Et as (F1 & F2 & F3 & F4 & F5).
  destruct (_ =? DANUBE_DMA_RX); [|by auto]. rewrite E1, E2, E3, E4, E5. auto.
Qed.

(** The last part of a write: the engine is started when it stands still. *)
Lemma write_start m s (r : Z) :
  ch_ops (dma_chan s m) = true ->
  exists s', (let s := wr DANUBE_DMA_CS m s in
    if crd DANUBE_DMA_CCTRL s .& 1 =? 0 then
      if ch_ops (dma_chan s m) then Some (r, snd (open_chan m s)) else None
    else Some (r, s)) = Some (r, s') /\
    dma_chan s' = dma_chan s /\ descs s' = descs s /\ dma_devs s' = dma_devs s /\
    devents s' = devents s /\ Z.testbit (bank s' m DANUBE_DMA_CCTRL) 0 = true.
Proof.
  intros Hops. cbv zeta. set (t := wr DANUBE_DMA_CS m s).
  assert (Hc : crd DANUBE_DMA_CCTRL t = bank t m DANUBE_DMA_CCTRL).
  { unfold crd. subst t. unfold rd. dproj. by rewrite upd_eq. }
  rewrite Hc. change (ch_ops (dma_chan t m)) with (ch_ops (dma_chan s m)). rewrite Hops.
  destruct (_ =? 0) eqn:E.
  - eexists. split; [reflexivity|]. apply (open_chan_keeps m t).
  - exists t. split_and!; try done. pose proof (land_bit_eqb0 (bank t m DANUBE_DMA_CCTRL) 0) as H.
    change (1 .<< 0) with 1 in H. rewrite E in H by lia. specialize (H ltac:(lia)).
    by destruct (Z.testbit _ 0).
Qed.

Lemma tx_enqueue_ring s q dataptr len o :
  tx_ring s n q -> Z.of_nat (length q) < desc_len (dma_chan s n) ->
  let cur := curr_desc (dma_chan s n) in
  let d := tx_desc (tx_burst_len (dma_devs s dev)) dataptr len in
  let s1 := upd_chan n (fun c => set_opt (gupd (opt c) cur o) c) s in
  let s2 := upd_desc (desc_at (dma_chan s n) cur) d (log (CacheWback dataptr len) s1) in
  let s3 := upd_chan n (fun c => set_curr_desc (curr_desc c + 1) c) s2 in
  let s4 := if curr_desc (dma_chan s3 n) =? desc_len (dma_chan s3 n)
            then upd_chan n (set_curr_desc 0) s3 else s3 in
  tx_ring s4 n (q ++ [(d, o)]) /\ dma_devs s4 = dma_devs s /\
  devents s4 = devents s ++ [CacheWback dataptr len] /\ ch_ops (dma_chan s4 n) = ch_ops (dma_chan s n) /\
  desc_len (dma_chan s4 n) = desc_len (dma_chan s n).
Proof.
  intros R Hroom cur d s1 s2 s3 s4.
  assert (Ec : dma_chan s4 n =
    set_curr_desc (if cur + 1 =? desc_len (dma_chan s n) then 0 else cur + 1)
      (set_opt (gupd (opt (dma_chan s n)) cur o) (dma_chan s n))).
  { assert (E3 : dma_chan s3 n =
      set_curr_desc (cur + 1) (set_opt (gupd (opt (dma_chan s n)) cur o) (dma_chan s n)))
      by (subst s3 s2 s1; dproj; rewrite !gupd_eq; by dproj).
    subst s4. rewrite E3. change (curr_desc (set_curr_desc (cur + 1) _)) with (cur + 1).
    change (desc_len (set_curr_desc _ _)) with (desc_len (dma_chan s n)).
    destruct (_ =? _); [|done]. dproj. by rewrite gupd_eq, E3. }
  assert (Eo : descs s4 = gupd (descs s) (desc_at (dma_chan s n) cur) d)
    by (subst s4; by destruct (_ =? _)).
  split_and!.
  - apply (tx_ring_push s); rewrite ?Ec; dproj; try done.
    + apply tx_desc_busy.
    + subst cur. rewrite (ring_curr _ _ _ R). apply slot_next; by destruct R.
    + subst cur. by rewrite (ring_curr _ _ _ R).
    + rewrite Eo. subst cur. by rewrite (ring_curr _ _ _ R).
  - subst s4. by destruct (_ =? _).
  - subst s4. by destruct (_ =? _).
  - by rewrite Ec.
  - by rewrite Ec.
Qed.

Lemma enqueue_outcome s q dataptr len o :
  tx_ready s -> tx_ring s n q -> Z.of_nat (length q) < desc_len (dma_chan s n) ->
  (forall e q', q = e :: q' -> complete (fst e) = false) ->
  exists s', enqueue client_handler dev n dataptr len o s = Some (len, s') /\
    dma_devs s' = dma_devs s /\ tx_ready s' /\
    tx_ring s' n (q ++ [(tx_desc (tx_burst_len (dma_devs s dev)) dataptr len, o)]) /\
    Z.testbit (bank s' n DANUBE_DMA_CCTRL) 0 = true /\
    devents s' = devents s ++ [CacheWback dataptr len] ++
      (if Z.of_nat (length q) + 1 =? desc_len (dma_chan s n) then [Upcall dev TX_BUF_FULL_INT] else []).
Proof.
  intros [Hch Hfree Hh Hb Hops] R Hroom Hhead. unfold enqueue.
  change (dma_devs (upd_chan n ?f s)) with (dma_devs s).
  assert (Hbz : w32 (tx_burst_len (dma_devs s dev) * 4) = tx_burst_len (dma_devs s dev) * 4)
    by (apply w32_id; unfold is_u32; lia).
  rewrite (proj2 (Z.eqb_neq (w32 (tx_burst_len (dma_devs s dev) * 4)) 0)) by lia.
  pose proof (tx_enqueue_ring s q dataptr len o R Hroom) as Hpush. cbv zeta in Hpush |- *.
  change (mk_desc _ _) with (tx_desc (tx_burst_len (dma_devs s dev)) dataptr len).
  set (d := tx_desc _ _ _) in *.
  set (s4 := if _ =? _ then upd_chan n (set_curr_desc 0) _ else _) in *.
  destruct Hpush as (R4 & V4 & E4 & O4 & L4).
  assert (Hq4 : forall e q', q ++ [(d, o)] = e :: q' -> complete (fst e) = false).
  { intros e q' E. destruct q as [|x u]; cbn in E; injection E as <- _; [|by eapply Hhead].
    cbn [fst]. rewrite complete_eq. cbn [d tx_desc d_word]. by rewrite tx_word_bit31. }
  destruct (next_desc_owned s4 n _ R4 Hq4) as [-> _].
  rewrite L4, length_app, Nat2Z.inj_add. change (Z.of_nat (length [(d, o)])) with 1.
  set (full := Z.of_nat (length q) + 1 =? desc_len (dma_chan s n)).
  assert (Hcall : exists t, (if full then call_intr_handler client_handler dev TX_BUF_FULL_INT s4 else Some s4) = Some t /\
    dma_chan t = dma_chan s4 /\ descs t = descs s4 /\ dma_devs t = dma_devs s4 /\
    devents t = devents s4 ++ (if full then [Upcall dev TX_BUF_FULL_INT] else [])).
  { destruct full; [apply call_full; by rewrite V4|].
    exists s4. split_and!; try done. by rewrite app_nil_r. }
  destruct Hcall as (t & -> & C5 & D5 & V5 & E5). cbn [mbind option_bind].
  destruct (write_start n t len) as (s' & Hs' & C6 & D6 & V6 & E6 & B6); [by rewrite C5, O4|].
  exists s'. split; [exact Hs'|]. rewrite V6, V5, V4. split_and!; try done.
  - constructor; rewrite ?V6, ?V5, ?V4, ?C6, ?C5, ?O4; done.
  - apply (tx_ring_ext t); [done..|]. by apply (tx_ring_ext s4).
  - by rewrite E6, E5, E4, <- !app_assoc.
Qed.

Lemma write_outcome s q dataptr len o :
  tx_ready s -> tx_ring s n q ->
  let frees := concat (map (free_events (buffer_free (dma_devs s dev)) dev) (sent q)) in
  let L := desc_len (dma_chan s n) in
  let d := tx_desc (tx_burst_len (dma_devs s dev)) dataptr len in
  exists r s', dma_device_write client_handler dev dataptr len o s = Some (r, s') /\
    dma_devs s' = dma_devs s /\ tx_ready s' /\
    if Z.of_nat (length (unsent q)) =? L then
      r = 0 /\ tx_ring s' n (unsent q) /\
      devents s' = devents s ++ frees ++ [Upcall dev TX_BUF_FULL_INT]
    else
      r = len /\ tx_ring s' n (unsent q ++ [(d, o)]) /\
      Z.testbit (bank s' n DANUBE_DMA_CCTRL) 0 = true /\
      devents s' = devents s ++ frees ++ [CacheWback dataptr len] ++
        (if Z.of_nat (length (unsent q)) + 1 =? L then [Upcall dev TX_BUF_FULL_INT] else []).
Proof.
  intros Hready R frees L d. pose proof Hready as [Hch Hfree Hh Hb Hops].
  unfold dma_device_write. rewrite Hch. cbn [mbind option_bind].
  destruct (reclaim_spec dev n q (reclaim_fuel s n) s R Hfree) as (t & -> & Rt & [Dt [p Ct] _ _] & Vt).
  { unfold reclaim_fuel. pose proof (length_sent q). pose proof (ring_fits _ _ _ R). lia. }
  assert (Edev : dma_devs t = dma_devs s) by apply Dt.
  assert (El : desc_len (dma_chan t n) = L) by by rewrite Ct.
  assert (Ht : tx_ready t) by (constructor; rewrite ?Edev, ?Ct; done).
  cbn [mbind option_bind].
  assert (Hhead : forall e q', unsent q = e :: q' -> complete (fst e) = false) by (intros; by eapply unsent_head).
  destruct (next_desc_owned t n (unsent q) Rt Hhead) as [_ ->]. rewrite El.
  destruct (Z.of_nat (length (unsent q)) =? L) eqn:Efull; bool_prop.
  - destruct (call_full t) as (t' & -> & C1 & D1 & V1 & E1); [apply Ht|].
    cbn [mbind option_bind]. exists 0, t'. rewrite V1, Edev. split_and!; try done.
    + constructor; rewrite ?V1, ?Edev, ?C1; try done. apply Ht.
    + by apply (tx_ring_ext t).
    + by rewrite E1, Vt, <- app_assoc.
  - destruct (enqueue_outcome t (unsent q) dataptr len o Ht Rt) as (s' & E' & V' & Ht' & R' & B' & H');
      [pose proof (ring_fits _ _ _ Rt); lia|done|].
    rewrite Edev in *. exists len, s'. split_and!; try done. by rewrite H', Vt, El, <- !app_assoc.
Qed.
End Write.

(** A write leaves the drivers' variables to the handler. *)
Lemma write_client client_handler dev dataptr len o s r s' :
  (forall t t', client_handler dev TX_BUF_FULL_INT t = Some t' -> client_mem t' = client_mem t) ->
  dma_device_write client_handler dev dataptr len o s = Some (r, s') -> client_mem s' = client_mem s.
Proof.
  intros Hh. unfold dma_device_write. destruct (tx_chan _ _) as [n|]; [|done]. cbn [mbind option_bind].
  assert (Hcall : forall t t', call_intr_handler client_handler dev TX_BUF_FULL_INT t = Some t' ->
    client_mem t' = client_mem t).
  { intros t t'. unfold call_intr_handler. destruct (intr_handler _); [done|intros E; by rewrite (Hh _ _ E)..]. }
  assert (Hrec : forall fuel t t', reclaim fuel dev n t = Some t' -> client_mem t' = client_mem t).
  { induction fuel as [|fuel IH]; intros t t'; [done|]. cbn [reclaim]. destruct (complete _); [|by intros [= <-]].
    destruct (call_buffer_free _ _ _ _) as [u|] eqn:Eu; [|done]. cbn [mbind option_bind].
    destruct (_ =? 0); [done|]. intros E. rewrite (IH _ _ E). change (client_mem u = client_mem t).
    unfold call_buffer_free, common_buffer_free in Eu.
    destruct (buffer_free _); [done| |]; injection Eu as <-; [by destruct (negb _)|done]. }
  destruct (reclaim _ _ _ _) as [t|] eqn:Et; [|done]. cbn [mbind option_bind]. apply Hrec in Et. rewrite <- Et.
  destruct (_ || _).
  - destruct (call_intr_handler _ _ _ _) as [u|] eqn:Eu; [|done]. intros [= <- <-]. by apply Hcall.
  - unfold enqueue. destruct (_ =? 0); [done|]. set (s4 := if _ =? _ then upd_chan n (set_curr_desc 0) _ else _).
    assert (E4 : client_mem s4 = client_mem t) by (subst s4; by destruct (_ =? _)).
    destruct (if _ =? DMA_OWN then _ else _) as [u|] eqn:Eu; [|done]. cbn [mbind option_bind]. rewrite <- E4.
    assert (E5 : client_mem u = client_mem s4)
      by (destruct (_ =? DMA_OWN); [by apply Hcall|by injection Eu as <-]).
    rewrite <- E5. destruct (_ =? 0); [|by intros [= <- <-]]. destruct (ch_ops _); [|done]. intros [= <- <-].
    unfold open_chan. cbn [snd]. by destruct (_ =? DANUBE_DMA_RX).
Qed.

(** ** Every buffer comes back once *)

(** The buffers given back to device [dev], in order. *)
Fixpoint given_back (dev : Z) (l : list dma_event) : list (Z * Z) :=
  match l with
  | BufFree d ptr o :: l => if d =? dev then (ptr, o) :: given_back dev l else given_back dev l
  | _ :: l => given_back dev l
  | [] => []
  end.

(** What the ring holds, as it will be given back. *)
Definition outstanding (q : list entry) : list (Z * Z) :=
  map (fun e => (va (Data_Pointer (fst e)), snd e)) q.

Lemma given_back_app dev l1 l2 : given_back dev (l1 ++ l2) = given_back dev l1 ++ given_back dev l2.
Proof.
  induction l1 as [|e l1 IH]; [done|]. destruct e; cbn; rewrite ?IH; try done.
  by destruct (_ =? _).
Qed.

Lemma given_back_frees dev q :
  given_back dev (concat (map (free_events Client dev) q)) = outstanding q.
Proof. induction q as [|e q IH]; [done|]. cbn. rewrite Z.eqb_refl. by f_equal. Qed.

(** The hardware has sent descriptor [j] and replaces its status word. *)
Definition hw_sent (n j w : Z) (s : dma_state) : dma_state :=
  upd_desc (desc_at (dma_chan s n) j) (mk_desc w (Data_Pointer (get_desc s (dma_chan s n) j))) s.

Lemma hw_sent_ring s n q j w :
  tx_ring s n q -> 0 <= j < desc_len (dma_chan s n) ->
  OWN (get_desc s (dma_chan s n) j) = DMA_OWN -> complete (mk_desc w 0) = true ->
  exists q', tx_ring (hw_sent n j w s) n q' /\ outstanding q' = outstanding q.
Proof.
  intros R Hj Hown Hw. pose proof R as [Hlen Hprev Hcurr Hfits Hbusy Hslots].
  set (c := dma_chan s n) in *.
  set (k := Z.to_nat ((j - prev_desc c) mod desc_len c)).
  pose proof (Z.mod_pos_bound (j - prev_desc c) (desc_len c) ltac:(lia)) as Hk.
  assert (Hslot : slot c k = j).
  { unfold slot, k. rewrite Z2Nat.id by lia. rewrite Z.add_mod_idemp_r by lia.
    replace (prev_desc c + (j - prev_desc c)) with j by lia. by apply Z.mod_small. }
  pose proof (Hslots k ltac:(lia)) as Hh. rewrite Hslot in Hh.
  destruct (q !! k) as [[d o]|] eqn:Eq; cbn in Hh; fold c in Hh; [|by rewrite Hh in Hown].
  destruct Hh as [Hd Ho]. unfold get_desc in Hd. exists (<[k := (mk_desc w (Data_Pointer d), o)]> q). split.
  - constructor; try (rewrite ?length_insert; done).
    + apply Forall_insert; [done|]. cbn. rewrite busy_eq. rewrite complete_eq in Hw. cbn in Hw |- *.
      apply andb_true_iff in Hw as [_ ->]. apply orb_true_r.
    + intros i Hi. change (dma_chan (hw_sent n j w s) n) with c in *. specialize (Hslots i Hi).
      assert (Hg : get_desc (hw_sent n j w s) c (slot c i) =
        if decide (i = k) then mk_desc w (Data_Pointer d) else get_desc s c (slot c i)).
      { unfold hw_sent, get_desc. dproj. fold c. rewrite Hd. destruct (decide _) as [->|Hne].
        - by rewrite Hslot, gupd_eq.
        - rewrite gupd_ne; [done|]. intros E. apply desc_at_inj in E; [|pose proof (slot_range c Hlen i); lia|lia].
          rewrite <- Hslot in E. apply slot_inj in E; lia. }
      unfold slot_holds. change (dma_chan (hw_sent n j w s) n) with c. rewrite Hg.
      destruct (decide (i = k)) as [->|Hne].
      * rewrite list_lookup_insert_eq by (apply lookup_lt_Some in Eq; lia). rewrite Hslot. done.
      * rewrite list_lookup_insert_ne by done. exact Hslots.
  - unfold outstanding. change (map ?f ?l) with (f <$> l). rewrite list_fmap_insert.
    apply list_insert_id. rewrite list_lookup_fmap. unfold entry in Eq. by rewrite Eq.
Qed.

Section Conservation.
Context (client_handler : Z -> Z -> dma_state -> option dma_state) (dev n : Z).
Context (Hquiet : full_quiet client_handler dev).

(** The device's driver writes, the hardware sends; the list keeps the buffers
    the writes accepted, as they will be given back. *)
Inductive tx_step : dma_state * list (Z * Z) -> dma_state * list (Z * Z) -> Prop :=
  | tx_write s acc dataptr len o r s' :
      0 < len -> dma_device_write client_handler dev dataptr len o s = Some (r, s') ->
      tx_step (s, acc) (s', if r =? 0 then acc else
        acc ++ [(va (w32 (CPHYSADDR dataptr - tx_offset (tx_burst_len (dma_devs s dev)) dataptr)), o)])
  | tx_sent s acc j w :
      0 <= j < desc_len (dma_chan s n) -> OWN (get_desc s (dma_chan s n) j) = DMA_OWN ->
      complete (mk_desc w 0) = true ->
      tx_step (s, acc) (hw_sent n j w s, acc).

Definition tx_inv (x : dma_state * list (Z * Z)) : Prop :=
  tx_ready dev n (fst x) /\ buffer_free (dma_devs (fst x) dev) = Client /\
  exists q, tx_ring (fst x) n q /\ given_back dev (devents (fst x)) ++ outstanding q = snd x.

Lemma tx_step_inv x y : tx_step x y -> tx_inv x -> tx_inv y.
Proof.
  intros [s acc dataptr len o r s' Hlen Hw|s acc j w Hj Hown Hw] (Hready & Hc & q & R & Hacc);
    cbn [fst snd] in *.
  - destruct (write_outcome client_handler dev n Hquiet s q dataptr len o Hready R)
      as (r' & t & Hw' & V & Hready' & Hout). rewrite Hw in Hw'. injection Hw' as <- <-.
    unfold tx_inv. cbn [fst snd]. rewrite V. split_and!; [done..|].
    assert (Hsplit : outstanding q = outstanding (sent q) ++ outstanding (unsent q))
      by (rewrite <- (sent_unsent q) at 1; apply map_app).
    rewrite Hc in Hout. destruct (_ =? desc_len _).
    + destruct Hout as (-> & R' & E'). exists (unsent q). split; [done|].
      by rewrite E', !given_back_app, given_back_frees, <- Hacc, Hsplit, app_nil_r, <- app_assoc.
    + destruct Hout as (-> & R' & _ & E'). rewrite (proj2 (Z.eqb_neq len 0)) by lia.
      eexists. split; [exact R'|]. rewrite E', !given_back_app, given_back_frees, <- Hacc, Hsplit.
      assert (En : given_back dev (if Z.of_nat (length (unsent q)) + 1 =? desc_len (dma_chan s n)
        then [Upcall dev TX_BUF_FULL_INT] else []) = []) by by destruct (_ =? _).
      rewrite En. unfold outstanding at 2. rewrite map_app. cbn. by rewrite <- !app_assoc.
  - destruct (hw_sent_ring s n q j w R Hj Hown Hw) as (q' & R' & E').
    unfold tx_inv. cbn [fst snd]. split_and!; [by destruct Hready|done|].
    exists q'. split; [done|]. by rewrite E'.
Qed.

Lemma tx_steps_inv x y : rtc tx_step x y -> tx_inv x -> tx_inv y.
Proof. induction 1; eauto using tx_step_inv. Qed.
End Conservation.

(** ** A receive ring *)

(** The [k]-th descriptor from the one to be read next. *)
Definition rx_slot (c : dma_channel_info) (k : nat) : Z := (curr_desc c + Z.of_nat k) mod desc_len c.

(** A receive ring in order: its length and position. *)
Definition rx_ok (c : dma_channel_info) : Prop :=
  0 < desc_len c < 2 ^ 28 /\ 0 <= curr_desc c < desc_len c.

(** [rx_slot] is [slot] counted from the other index. *)
Lemma rx_slot_slot c k : rx_slot c k = slot (set_prev_desc (curr_desc c) c) k.
Proof. reflexivity. Qed.

Lemma rx_slot_0 c : rx_ok c -> rx_slot c 0 = curr_desc c.
Proof. intros [Hl Hc]. rewrite rx_slot_slot. by apply (slot_0 (set_prev_desc (curr_desc c) c)). Qed.

Lemma rx_slot_inj c k k' : rx_ok c ->
  Z.of_nat k < desc_len c -> Z.of_nat k' < desc_len c -> rx_slot c k = rx_slot c k' -> k = k'.
Proof. intros [Hl Hc]. rewrite !rx_slot_slot. apply (slot_inj (set_prev_desc (curr_desc c) c) Hl). Qed.

Lemma rx_slot_range c k : rx_ok c -> 0 <= rx_slot c k < desc_len c.
Proof. intros [Hl Hc]. apply Z.mod_pos_bound. lia. Qed.

Definition rx_next (c : dma_channel_info) : dma_channel_info :=
  set_curr_desc (if curr_desc c + 1 =? desc_len c then 0 else curr_desc c + 1) c.

Lemma rx_next_slot c k : rx_ok c -> rx_ok (rx_next c) /\ rx_slot (rx_next c) k = rx_slot c (S k).
Proof.
  intros H. pose proof H as [Hl Hc]. unfold rx_next.
  pose proof (slot_next (set_prev_desc (curr_desc c) c) Hl 0) as E.
  rewrite slot_0 in E by done. dproj in E.
  pose proof (slot_range (set_prev_desc (curr_desc c) c) Hl 1) as Hr. dproj in Hr.
  split; [split; dproj; [done|by rewrite E]|].
  unfold rx_slot. dproj. rewrite E. unfold slot. dproj.
  rewrite Z.add_mod_idemp_l by lia. f_equal. lia.
Qed.

(** The descriptor a read leaves behind. *)
Definition rx_refilled (byte_offset len buf : Z) : desc :=
  mk_desc (w32 ((DMA_OWN .<< 31) .| (byte_offset .<< 23) .| len)) (CPHYSADDR buf).

Lemma rx_refilled_OWN off len buf : complete (rx_refilled off len buf) = false /\ OWN (rx_refilled off len buf) = DMA_OWN.
Proof.
  assert (E : Z.testbit (d_word (rx_refilled off len buf)) 31 = true).
  { cbn [rx_refilled d_word]. rewrite testbit_w32, !Z.lor_spec by lia.
    by replace (Z.testbit (DMA_OWN .<< 31) 31) with true by reflexivity. }
  by rewrite complete_eq, OWN_eq, E.
Qed.

Section Read.
Context (kmalloc : Z -> list dma_event -> Z).
Context (client_alloc : Z -> Z -> (Z -> Z) -> list dma_event -> Z * Z * option Z * (Z -> Z)).
Context (dev n : Z).

(** The device receives on channel [n]. *)
Definition rx_ready (s : dma_state) : Prop :=
  rx_chan (dma_devs s dev) (current_rx_chan (dma_devs s dev)) = Some n /\ rx_ok (dma_chan s n).

Lemma alloc_answer_keeps s len buf off o t :
  call_buffer_alloc kmalloc client_alloc dev len s = Some (buf, off, o, t) ->
  exists e m, t = log e (set_client_mem m s) /\ forall p, e <> Kfree p.
Proof.
  unfold call_buffer_alloc, common_buffer_alloc. destruct (buffer_alloc _); [done| |].
  - intros [= <- <- <- <-]. exists (Kmalloc len (kmalloc len (devents s))), (client_mem s).
    split; [by destruct s|done].
  - destruct (client_alloc _ _ _ _) as [[[??]?]?]. intros [= <- <- <- <-]. eexists _, _. by split.
Qed.

(** Descriptors, devices and registers after a read. *)
Record read_step (s s' : dma_state) (d : desc) : Prop := {
  rs_descs a : descs s' a = gupd (descs s) (desc_at (dma_chan s n) (curr_desc (dma_chan s n))) d a;
  rs_chan : exists f, dma_chan s' n = rx_next (set_opt f (dma_chan s n)) /\
    forall j, j <> curr_desc (dma_chan s n) -> f j = opt (dma_chan s n) j;
  rs_others m : m <> n -> dma_chan s' m = dma_chan s m;
  rs_devs : dma_devs s' = dma_devs s;
  rs_regs : dhw s' = dhw s /\ bank s' = bank s;
  rs_flags : int_status s' = int_status s /\ in_process s' = in_process s /\ scheduled s' = scheduled s
}.

Lemma curr_advance s m c :
  dma_chan s m = c ->
  let s1 := upd_chan m (fun c => set_curr_desc (curr_desc c + 1) c) s in
  let s2 := if curr_desc (dma_chan s1 m) =? desc_len (dma_chan s1 m)
            then upd_chan m (set_curr_desc 0) s1 else s1 in
  dma_chan s2 m = rx_next c /\ (forall k, k <> m -> dma_chan s2 k = dma_chan s k) /\
  descs s2 = descs s /\ dma_devs s2 = dma_devs s /\ dhw s2 = dhw s /\ bank s2 = bank s /\
  int_status s2 = int_status s /\ in_process s2 = in_process s /\ scheduled s2 = scheduled s /\
  devents s2 = devents s.
Proof.
  intros Hc s1 s2.
  assert (E1 : dma_chan s1 m = set_curr_desc (curr_desc c + 1) c)
    by (subst s1; dproj; by rewrite gupd_eq, Hc).
  split.
  - subst s2. rewrite E1. unfold rx_next.
    change (curr_desc (set_curr_desc (curr_desc c + 1) c)) with (curr_desc c + 1).
    change (desc_len (set_curr_desc _ c)) with (desc_len c).
    destruct (_ =? _); [|done]. dproj. by rewrite gupd_eq, E1.
  - split_and!; try (subst s2; by destruct (_ =? _)).
    intros k Hk. subst s2 s1. destruct (_ =? _); dproj; by rewrite ?gupd_ne.
Qed.

Lemma read_incomplete s w :
  rx_ready s -> complete (get_desc s (dma_chan s n) (curr_desc (dma_chan s n))) = false ->
  dma_device_read kmalloc client_alloc dev w s = Some (0, None, None, s).
Proof.
  intros [Hch _] Hc. unfold dma_device_read. rewrite Hch. cbn [mbind option_bind].
  unfold get_desc in Hc. by rewrite Hc.
Qed.

Lemma read_success s w buf off p t :
  let c := dma_chan s n in let d := get_desc s c (curr_desc c) in
  rx_ready s -> complete d = true ->
  call_buffer_alloc kmalloc client_alloc dev (packet_size c) s = Some (buf, off, p, t) -> buf <> 0 ->
  exists s', dma_device_read kmalloc client_alloc dev w s =
      Some (data_length d, Some (va (Data_Pointer d)), (if w then Some (opt c (curr_desc c)) else None), s') /\
    read_step s s' (rx_refilled off (packet_size c) buf) /\
    opt (dma_chan s' n) (curr_desc c) = default 0 p /\
    devents s' = devents t ++ [CacheInv buf (packet_size c)].
Proof.
  intros c d [Hch Hok] Hc Ha Hbuf. unfold dma_device_read. rewrite Hch. cbn [mbind option_bind].
  change (descs s (desc_at (dma_chan s n) (curr_desc (dma_chan s n)))) with d. rewrite Hc. cbn [negb].
  fold c. rewrite Ha. cbn [mbind option_bind].
  rewrite (proj2 (Z.eqb_neq buf 0) Hbuf). cbn [negb].
  apply alloc_answer_keeps in Ha as (e & m & -> & _). fold (rx_refilled off (packet_size c) buf).
  set (s1 := upd_desc _ _ _).
  assert (Ec : dma_chan s1 n = set_opt (gupd (opt c) (curr_desc c) (default 0 p)) c)
    by (subst s1; dproj; by rewrite gupd_eq).
  destruct (curr_advance s1 n _ Ec) as (E1 & E2 & E3 & E4 & E5 & E6 & E7 & E8 & E9 & E10).
  cbv zeta in *. set (s2 := if _ =? _ then _ else _) in *. exists s2. split_and!.
  - done.
  - constructor; [by intros a; rewrite E3| | |by rewrite E4|by rewrite E5, E6|by rewrite E7, E8, E9].
    + eexists. split; [exact E1|]. intros j Hj. by rewrite gupd_ne.
    + intros j Hj. rewrite E2 by done. subst s1. dproj. by rewrite gupd_ne.
  - rewrite E1. unfold rx_next. dproj. by rewrite gupd_eq.
  - by rewrite E10.
Qed.

Lemma read_failure s w off p t :
  let c := dma_chan s n in
  rx_ready s -> complete (get_desc s c (curr_desc c)) = true ->
  call_buffer_alloc kmalloc client_alloc dev (packet_size c) s = Some (0, off, p, t) ->
  exists s', dma_device_read kmalloc client_alloc dev w s =
      Some (0, Some 0, (if w then Some 0 else None), s') /\
    read_step s s' (get_desc s c (curr_desc c)) /\
    opt (dma_chan s' n) = opt c /\ devents s' = devents t.
Proof.
  intros c [Hch Hok] Hc Ha. unfold dma_device_read. rewrite Hch. cbn [mbind option_bind].
  unfold get_desc in Hc |- *. fold c. rewrite Hc. cbn [negb]. rewrite Ha. cbn [mbind option_bind].
  change (0 =? 0) with true. cbn [negb].
  apply alloc_answer_keeps in Ha as (e & m & -> & _). set (s1 := log e (set_client_mem m s)).
  destruct (curr_advance s1 n c eq_refl) as (E1 & E2 & E3 & E4 & E5 & E6 & E7 & E8 & E9 & E10).
  cbv zeta in *. set (s2 := if _ =? _ then _ else _) in *. exists s2. split_and!.
  - done.
  - constructor; [|exists (opt c)|by intros j Hj; rewrite E2|by rewrite E4|by rewrite E5, E6|by rewrite E7, E8, E9].
    + intros a. rewrite E3. subst s1. dproj. unfold gupd. by destruct (a =? _) eqn:E; bool_prop; [subst|].
    + split; [|done]. rewrite E1. fold c. by destruct c.
  - by rewrite E1.
  - by rewrite E10.
Qed.

Lemma read_step_next s s' d : rx_ready s -> read_step s s' d ->
  rx_ready s' /\ (forall k, rx_slot (dma_chan s' n) k = rx_slot (dma_chan s n) (S k)) /\
  desc_len (dma_chan s' n) = desc_len (dma_chan s n) /\
  (forall j, desc_at (dma_chan s' n) j = desc_at (dma_chan s n) j) /\
  packet_size (dma_chan s' n) = packet_size (dma_chan s n).
Proof.
  intros [Hch Hok] [_ [f [Ec _]] _ Ev _ _]. rewrite Ec.
  assert (Hok' : rx_ok (set_opt f (dma_chan s n))) by done.
  split; [split; [by rewrite Ev|rewrite Ec; by apply (rx_next_slot _ 0)]|].
  split_and!; try done. intros k. by destruct (rx_next_slot _ k Hok') as [_ ->].
Qed.

(** The descriptors in the order of reading, after a read: one step on, with the
    one just read at the end. *)
Lemma read_step_slot s s' d k : rx_ready s -> read_step s s' d ->
  Z.of_nat k < desc_len (dma_chan s n) ->
  get_desc s' (dma_chan s' n) (rx_slot (dma_chan s' n) k) =
  if Z.of_nat k + 1 =? desc_len (dma_chan s n) then d
  else get_desc s (dma_chan s n) (rx_slot (dma_chan s n) (S k)).
Proof.
  intros Hr Hs Hk. destruct (read_step_next _ _ _ Hr Hs) as (_ & Es & _ & Ea & _).
  destruct Hr as [_ Hok]. pose proof Hok as [Hl Hc].
  unfold get_desc. rewrite Es, Ea, (rs_descs _ _ _ Hs).
  destruct (_ =? _) eqn:E; bool_prop.
  - replace (rx_slot (dma_chan s n) (S k)) with (curr_desc (dma_chan s n)); [by rewrite gupd_eq|].
    rewrite <- (rx_slot_0 _ Hok). replace (S k) with (0 + Z.to_nat (desc_len (dma_chan s n)))%nat by lia.
    rewrite !rx_slot_slot. symmetry. by apply (slot_wrap (set_prev_desc _ (dma_chan s n))).
  - rewrite gupd_ne; [done|]. intros E'. apply desc_at_inj in E'; [|pose proof (rx_slot_range _ (S k) Hok); lia|lia].
    rewrite <- (rx_slot_0 _ Hok) in E'. apply rx_slot_inj in E'; [lia|done|lia|lia].
Qed.

(** The driver's allocator always has a buffer. *)
Definition alloc_succeeds (f : fn_ptr) : Prop :=
  match f with
  | Null => False
  | Common => forall len h, kmalloc len h <> 0
  | Client => forall len m h, fst (fst (fst (client_alloc dev len m h))) <> 0
  end.

Lemma alloc_succeeds_call s len :
  alloc_succeeds (buffer_alloc (dma_devs s dev)) ->
  exists buf off p t, call_buffer_alloc kmalloc client_alloc dev len s = Some (buf, off, p, t) /\ buf <> 0.
Proof.
  unfold alloc_succeeds, call_buffer_alloc, common_buffer_alloc. destruct (buffer_alloc _); intros H.
  - done.
  - eauto 10.
  - specialize (H len (client_mem s) (devents s)). destruct (client_alloc _ _ _ _) as [[[??]?]?]. eauto 10.
Qed.

(** [k] reads in a row: the length and buffer each yields. *)
Fixpoint read_n (k : nat) (s : dma_state) : option (list (Z * Z) * dma_state) :=
  match k with
  | O => Some ([], s)
  | S k =>
      '(len, data, _, s) ← dma_device_read kmalloc client_alloc dev false s;
      '(l, s) ← read_n k s;
      Some ((len, default 0 data) :: l, s)
  end.

Definition packet (d : desc) : Z * Z := (data_length d, va (Data_Pointer d)).
(** The [k]-th descriptor to be read. *)
Definition rx_desc (s : dma_state) (k : nat) : desc :=
  get_desc s (dma_chan s n) (rx_slot (dma_chan s n) k).

Lemma read_n_in_order k : forall s,
  rx_ready s -> alloc_succeeds (buffer_alloc (dma_devs s dev)) ->
  Z.of_nat k <= desc_len (dma_chan s n) ->
  (forall i, (i < k)%nat -> complete (rx_desc s i) = true) ->
  exists s', read_n k s = Some (map (fun i => packet (rx_desc s i)) (seq 0 k), s') /\
    rx_ready s' /\ dma_devs s' = dma_devs s /\
    desc_len (dma_chan s' n) = desc_len (dma_chan s n) /\
    (forall j, Z.of_nat (k + j) < desc_len (dma_chan s n) -> rx_desc s' j = rx_desc s (k + j)) /\
    (forall j, desc_len (dma_chan s n) <= Z.of_nat (k + j) -> Z.of_nat j < desc_len (dma_chan s n) ->
       OWN (rx_desc s' j) = DMA_OWN).
Proof.
  induction k as [|k IH]; intros s Hr Ha Hk Hc.
  - exists s. split_and!; try done. lia.
  - destruct (alloc_succeeds_call s (packet_size (dma_chan s n)) Ha) as (buf & off & p & t & Hcall & Hbuf).
    assert (H0 : get_desc s (dma_chan s n) (curr_desc (dma_chan s n)) = rx_desc s 0)
      by (unfold rx_desc; rewrite rx_slot_0; [done|apply Hr]).
    destruct (read_success s false buf off p t Hr) as (s1 & E1 & S1 & _); [|done..|].
    { rewrite H0. apply Hc. lia. }
    rewrite H0 in E1. cbn [read_n]. rewrite E1. cbn [mbind option_bind].
    destruct (read_step_next _ _ _ Hr S1) as (Hr1 & _ & El & _ & _).
    pose proof (rs_devs _ _ _ S1) as Ev.
    assert (Hslot : forall i, Z.of_nat i < desc_len (dma_chan s n) -> rx_desc s1 i =
      if Z.of_nat i + 1 =? desc_len (dma_chan s n) then rx_refilled off (packet_size (dma_chan s n)) buf
      else rx_desc s (S i)) by (intros i Hi; by apply read_step_slot).
    destruct (IH s1) as (s' & E' & Hr' & Ev' & El' & Hlow & Hhigh); [done|by rewrite Ev|lia| |].
    { intros i Hi. rewrite Hslot, (proj2 (Z.eqb_neq _ _)) by lia. apply Hc. lia. }
    rewrite E'. cbn [mbind option_bind]. exists s'.
    rewrite Ev', El', El in *. split_and!; try done.
    + f_equal. f_equal. cbn [seq map]. f_equal. rewrite <- seq_shift, map_map.
      apply map_ext_in. intros i Hi. apply in_seq in Hi. f_equal.
      by rewrite Hslot, (proj2 (Z.eqb_neq _ _)) by lia.
    + intros j Hj. rewrite Hlow, Hslot, (proj2 (Z.eqb_neq _ _)) by lia. f_equal.
    + intros j Hj1 Hj2. destruct (Z.le_gt_cases (desc_len (dma_chan s n)) (Z.of_nat (k + j))).
      * by apply Hhigh.
      * rewrite Hlow, Hslot, (proj2 (Z.eqb_eq _ _)) by lia. apply rx_refilled_OWN.
Qed.
End Read.

(** ** A started driver, for examples *)

Definition no_channel : dma_channel_info :=
  mk_ch 0 0 0 0 0 0 0 0 0 0 0 0 0 0 (fun _ => 0) None false.
Definition no_device : dma_device_info :=
  mk_dev String.EmptyString 0 0 0 0 0 0 0 0 0 0 (fun _ => None) (fun _ => None) Null Null Null.
Definition cleared : dma_state :=
  mk_dma (fun _ => 0) (fun _ _ => 0) (fun _ _ => 0) (fun _ => no_channel) (fun _ => no_device)
    (fun _ => zero_desc) 0 0 false 0 0 (fun _ => 0) [].

(** The driver started with a descriptor page, and device [dev] with the
    functions of its own driver, its channels on and packets of [size] bytes. *)
Definition booted : dma_state :=
  match danube_dma_init (fun _ => 0) 0 0x80500000 0x80600000 cleared with
  | Some (_, s) => s
  | None => cleared
  end.
Definition client_device (dev size : Z) (s : dma_state) : dma_state :=
  let s := upd_dev dev (fun d =>
    mk_dev (device_name d) 1 (tx_burst_len d) (rx_burst_len d) (dev_default_weight d)
      (current_tx_chan d) (current_rx_chan d) (num_tx_chan d) (num_rx_chan d) (max_rx_chan_num d)
      (max_tx_chan_num d) (tx_chan d) (rx_chan d) Client Client Client) s in
  set_dma_chan (fun m => match dma_dev (dma_chan s m) with
    | Some d => if d =? dev
      then let c := dma_chan s m in
           mk_ch (rel_chan_no c) (pri c) (byte_offset c) (dir c) (irq c) (desc_base c) (desc_len c)
             (curr_desc c) (prev_desc c) (weight c) (default_weight c) size (burst_len c)
             DANUBE_DMA_CH_ON (opt c) (dma_dev c) (ch_ops c)
      else dma_chan s m
    | None => dma_chan s m end) s.
Definition ppe : dma_state := client_device 0 1536 booted.

Lemma desc_zero d : d_word d = 0 -> Data_Pointer d = 0 -> d = zero_desc.
Proof. destruct d. cbn. by intros -> ->. Qed.

(** An empty ring, checked descriptor by descriptor. *)
Lemma tx_ring_empty s n :
  0 < desc_len (dma_chan s n) < 2 ^ 28 -> 0 <= prev_desc (dma_chan s n) < desc_len (dma_chan s n) ->
  curr_desc (dma_chan s n) = prev_desc (dma_chan s n) ->
  forallb (fun j => let d := get_desc s (dma_chan s n) j in (d_word d =? 0) && (Data_Pointer d =? 0))
    (below (desc_len (dma_chan s n))) = true ->
  tx_ring s n [].
Proof.
  intros Hl Hp Hc Hz. constructor; try done.
  - rewrite Hc. cbn [length]. by rewrite slot_0.
  - cbn. lia.
  - intros k Hk. cbn. pose proof (slot_range (dma_chan s n) Hl k) as Hr.
    apply (proj1 (forallb_forall _ _)) with (x := slot (dma_chan s n) k) in Hz.
    + apply andb_true_iff in Hz as [H1 H2]. bool_prop. by apply desc_zero.
    + apply in_map_iff. exists (Z.to_nat (slot (dma_chan s n) k)). split; [lia|]. apply in_seq. lia.
Qed.

Lemma ppe_ready : tx_ready 0 1 ppe /\ tx_ring ppe 1 [].
Proof.
  split; [constructor|apply tx_ring_empty]; vm_compute; intuition discriminate.
Qed.
Definition quiet_handler : Z -> Z -> dma_state -> option dma_state := fun _ _ s => Some s.
Lemma quiet_handler_quiet dev : full_quiet quiet_handler dev.
Proof. intros t. by exists t. Qed.

(** ** Properties *)

Lemma tx_word_value off len :
  0 <= off < 2 ^ 5 -> 0 <= len < 2 ^ 16 -> tx_word off len = 0xB0000000 + off * 2 ^ 23 + len.
Proof.
  intros Ho Hl. unfold tx_word.
  change ((DMA_OWN .<< 31) .| DMA_DESC_SOP_SET .| DMA_DESC_EOP_SET) with (0xB .<< 28).
  rewrite <- Z.lor_assoc, (lor_shiftl_add off), lor_shiftl_add by lia.
  rewrite w32_id by (unfold is_u32; lia). lia.
Qed.

(** The descriptor [dma_device_write] makes for a buffer of fewer than 65536
    bytes says, read back through its bit fields, what was asked for: owned by
    the hardware, a whole packet, the length, and a pointer to a burst boundary
    which with the byte offset gives the buffer's physical address.  The burst
    length must be at most 8 words, or the offset does not fit its field. *)
Theorem tx_descriptor_roundtrip burst dataptr len :
  0 < burst <= 8 -> 0 <= len < 2 ^ 16 ->
  let d := tx_desc burst dataptr len in
  let byte_offset := (d_word d .>> 23) .& 31 in
  OWN d = DMA_OWN /\ C d = 0 /\ data_length d = len /\
  d_word d .& DMA_DESC_SOP_SET = DMA_DESC_SOP_SET /\ d_word d .& DMA_DESC_EOP_SET = DMA_DESC_EOP_SET /\
  Data_Pointer d + byte_offset = CPHYSADDR dataptr /\ Data_Pointer d mod (4 * burst) = 0.
Proof.
  intros Hb Hl d byte_offset.
  assert (Eb : w32 (burst * 4) = burst * 4) by (apply w32_id; unfold is_u32; lia).
  assert (Ho : 0 <= tx_offset burst dataptr < 2 ^ 5).
  { unfold tx_offset. rewrite Eb. pose proof (Z.mod_pos_bound (CPHYSADDR dataptr) (burst * 4)). lia. }
  assert (Hp : 0 <= CPHYSADDR dataptr < 2 ^ 29).
  { unfold CPHYSADDR. change 0x1fffffff with (Z.ones 29). rewrite Z.land_ones by lia. apply Z.mod_pos_bound. lia. }
  set (off := tx_offset burst dataptr) in *.
  assert (Ew : d_word d = (0xB * 2 ^ 5 + off) * 2 ^ 23 + len).
  { change (d_word d) with (tx_word off len). rewrite tx_word_value by done. lia. }
  assert (Eoff : byte_offset = off).
  { subst byte_offset. rewrite Ew, Z.shiftr_div_pow2, Z.div_add_l by lia. change 31 with (Z.ones 5).
    rewrite Z.land_ones, (Z.div_small len) by lia.
    rewrite Z.add_0_r, Z.add_comm, Z.mod_add by lia. apply Z.mod_small. lia. }
  assert (Etop : forall i, 0 <= i < 4 -> Z.testbit (d_word d) (28 + i) = Z.testbit 0xB i).
  { intros i Hi. rewrite Z.add_comm, <- Z.shiftr_spec by lia. f_equal.
    rewrite Ew, Z.shiftr_div_pow2 by lia. symmetry. apply (Z.div_unique_pos _ _ _ (off * 2 ^ 23 + len)); lia. }
  assert (Elow : CPHYSADDR dataptr = (burst * 4) * (CPHYSADDR dataptr / (burst * 4)) + off).
  { subst off. unfold tx_offset. rewrite Eb. apply Z.div_mod. lia. }
  assert (Eptr : Data_Pointer d = CPHYSADDR dataptr - off).
  { apply w32_id. unfold is_u32. pose proof (Z.div_pos (CPHYSADDR dataptr) (burst * 4)). nia. }
  assert (Hbit : forall i, 0 <= i < 4 -> Z.testbit 0xB i = true -> d_word d .& (1 .<< (28 + i)) = 1 .<< (28 + i)).
  { intros i Hi H. apply Z.bits_inj'. intros j Hj. rewrite Z.land_spec, testbit_1_shiftl by lia.
    case_bool_decide as E; [|apply andb_false_r]. subst j. by rewrite Etop, H by done. }
  split_and!.
  - rewrite OWN_eq. pose proof (Etop 3 ltac:(lia)) as E3. change (28 + 3) with 31 in E3. by rewrite E3.
  - rewrite C_eq. pose proof (Etop 2 ltac:(lia)) as E2. change (28 + 2) with 30 in E2. by rewrite E2.
  - unfold data_length. rewrite Ew. change 0xffff with (Z.ones 16). rewrite Z.land_ones by lia.
    replace ((11 * 2 ^ 5 + off) * 2 ^ 23 + len) with (len + ((11 * 2 ^ 5 + off) * 2 ^ 7) * 2 ^ 16) by lia.
    rewrite Z.mod_add by lia. by apply Z.mod_small.
  - by apply (Hbit 1).
  - by apply (Hbit 0).
  - rewrite Eptr, Eoff. lia.
  - rewrite Eptr, Elow. replace (_ + off - off) with ((CPHYSADDR dataptr / (burst * 4)) * (4 * burst)) by lia.
    apply Z.mod_mul. lia.
Qed.

Lemma tx_descriptor_roundtrip_witness :
  let d := tx_desc 4 0x8012345a 1514 in
  data_length d = 1514 /\ Data_Pointer d = 0x123450 /\ (d_word d .>> 23) .& 31 = 10 /\ OWN d = DMA_OWN.
Proof.
  destruct (tx_descriptor_roundtrip 4 0x8012345a 1514) as (H1 & _ & H2 & _); [lia|lia|].
  cbv zeta. split; [exact H2|]. split; [vm_compute; reflexivity|]. split; [vm_compute; reflexivity|exact H1].
Defined.

(** C7: [dma_device_write] implements the queue: it always returns (the loop that
    reclaims sent buffers ends), gives back exactly the sent buffers at the head
    of the queue, in order, each with what the device attached to it, and
    appends the new buffer exactly when a descriptor is then free, with the
    engine running.  Otherwise it returns 0 and keeps nothing.  The device is
    told that the ring is full when it was and when this buffer filled it. *)
Theorem tx_write_refines client_handler dev n (Hquiet : full_quiet client_handler dev) s q dataptr len o :
  tx_ready dev n s -> tx_ring s n q ->
  let frees := concat (map (free_events (buffer_free (dma_devs s dev)) dev) (sent q)) in
  let L := desc_len (dma_chan s n) in
  let d := tx_desc (tx_burst_len (dma_devs s dev)) dataptr len in
  exists r s', dma_device_write client_handler dev dataptr len o s = Some (r, s') /\
    tx_ready dev n s' /\
    if Z.of_nat (length (unsent q)) =? L then
      r = 0 /\ tx_ring s' n (unsent q) /\
      devents s' = devents s ++ frees ++ [Upcall dev TX_BUF_FULL_INT]
    else
      r = len /\ tx_ring s' n (unsent q ++ [(d, o)]) /\
      Z.testbit (bank s' n DANUBE_DMA_CCTRL) 0 = true /\
      devents s' = devents s ++ frees ++ [CacheWback dataptr len] ++
        (if Z.of_nat (length (unsent q)) + 1 =? L then [Upcall dev TX_BUF_FULL_INT] else []).
Proof.
  intros Hready R frees L d.
  destruct (write_outcome client_handler dev n Hquiet s q dataptr len o Hready R)
    as (r & s' & E & _ & H). by exists r, s'.
Qed.

(** The first packet written to the Ethernet device's first channel. *)
Lemma tx_write_refines_witness :
  exists r s', dma_device_write quiet_handler 0 0x80700000 60 7 ppe = Some (r, s') /\ r = 60 /\
    tx_ring s' 1 [(tx_desc 4 0x80700000 60, 7)].
Proof.
  destruct (tx_write_refines quiet_handler 0 1 (quiet_handler_quiet 0) ppe [] 0x80700000 60 7
    (proj1 ppe_ready) (proj2 ppe_ready)) as (r & s' & E & _ & H).
  exists r, s'. split; [exact E|].
  change (Z.of_nat (length (unsent [])) =? desc_len (dma_chan ppe 1)) with false in H.
  change (tx_burst_len (dma_devs ppe 0)) with 4 in H.
  destruct H as (H1 & H2 & _). split; [exact H1|exact H2].
Defined.

(** C16: No transmit buffer is lost, given back twice or out of order: from an
    empty ring, after any sequence of writes and of descriptors finished by the
    hardware, the buffers given back followed by those in the ring are the
    accepted ones, and the ring holds no more than its length. *)
Theorem tx_buffers_conserved client_handler dev n (Hquiet : full_quiet client_handler dev) s s' acc :
  tx_ready dev n s -> buffer_free (dma_devs s dev) = Client -> tx_ring s n [] ->
  given_back dev (devents s) = [] -> rtc (tx_step client_handler dev n) (s, []) (s', acc) ->
  exists q, tx_ring s' n q /\ given_back dev (devents s') ++ outstanding q = acc /\
    Z.of_nat (length q) <= desc_len (dma_chan s' n).
Proof.
  intros Hready Hc R H0 Hsteps.
  assert (Hinv : tx_inv dev n (s', acc)).
  { apply (tx_steps_inv client_handler dev n Hquiet _ _ Hsteps). split_and!; [done..|].
    exists []. split; [done|]. cbn. by rewrite app_nil_r. }
  destruct Hinv as (_ & _ & q & Rq & E). exists q. split_and!; [done|done|by destruct Rq].
Qed.

(** Two writes, the first descriptor sent between them. *)
Definition after_write (x : option (Z * dma_state)) : dma_state :=
  match x with Some (_, s) => s | None => cleared end.
Definition tx_demo1 : dma_state := after_write (dma_device_write quiet_handler 0 0x80700000 60 7 ppe).
Definition tx_demo2 : dma_state := hw_sent 1 0 0x70000000 tx_demo1.
Definition tx_demo3 : dma_state := after_write (dma_device_write quiet_handler 0 0x80701000 90 8 tx_demo2).

(** The list after an accepted write. *)
Definition tx_accept (s : dma_state) (acc : list (Z * Z)) (dataptr o : Z) : list (Z * Z) :=
  acc ++ [(va (w32 (CPHYSADDR dataptr - tx_offset (tx_burst_len (dma_devs s 0)) dataptr)), o)].
Definition tx_acc1 : list (Z * Z) := tx_accept ppe [] 0x80700000 7.
Definition tx_acc3 : list (Z * Z) := tx_accept tx_demo2 tx_acc1 0x80701000 8.

Lemma after_write_step s acc dataptr len o :
  0 < len -> option_map fst (dma_device_write quiet_handler 0 dataptr len o s) = Some len ->
  tx_step quiet_handler 0 1 (s, acc)
    (after_write (dma_device_write quiet_handler 0 dataptr len o s), tx_accept s acc dataptr o).
Proof.
  intros Hl H. destruct (dma_device_write _ _ _ _ _ _) as [[r t]|] eqn:E; [|done].
  injection H as ->. pose proof (tx_write quiet_handler 0 1 s acc dataptr len o len t Hl E) as S.
  by rewrite (proj2 (Z.eqb_neq len 0)) in S by lia.
Qed.

Lemma tx_demo_steps : rtc (tx_step quiet_handler 0 1) (ppe, []) (tx_demo3, tx_acc3).
Proof.
  apply rtc_l with (tx_demo1, tx_acc1). { apply after_write_step; [lia|by vm_compute]. }
  apply rtc_l with (tx_demo2, tx_acc1).
  { apply tx_sent; vm_compute; intuition discriminate. }
  apply rtc_l with (tx_demo3, tx_acc3). { apply after_write_step; [lia|by vm_compute]. }
  apply rtc_refl.
Qed.

Lemma tx_buffers_conserved_witness :
  exists q, tx_ring tx_demo3 1 q /\ given_back 0 (devents tx_demo3) ++ outstanding q = tx_acc3 /\
    tx_acc3 = [(0x80700000, 7); (0x80701000, 8)] /\
    given_back 0 (devents tx_demo3) = [(0x80700000, 7)].
Proof.
  destruct (tx_buffers_conserved quiet_handler 0 1 (quiet_handler_quiet 0) ppe tx_demo3
    tx_acc3 (proj1 ppe_ready) eq_refl (proj2 ppe_ready) eq_refl tx_demo_steps)
    as (q & R & E & _).
  exists q. split; [exact R|]. split; [exact E|]. split; vm_compute; reflexivity.
Defined.

(** C25: Packets are delivered in the order of the ring, each once: when the
    allocator always has a buffer and the next [k] descriptors are complete and
    the one after is not, [k] reads yield exactly their lengths and buffers in
    order and hand the descriptors back to the hardware with new buffers, the
    other descriptors keep their place, and the next read yields nothing and
    changes nothing. *)
Theorem rx_read_in_order kmalloc client_alloc dev n k s :
  rx_ready dev n s -> alloc_succeeds kmalloc client_alloc dev (buffer_alloc (dma_devs s dev)) ->
  Z.of_nat k <= desc_len (dma_chan s n) ->
  (forall i, (i < k)%nat -> complete (rx_desc n s i) = true) ->
  (Z.of_nat k < desc_len (dma_chan s n) -> complete (rx_desc n s k) = false) ->
  exists s', read_n kmalloc client_alloc dev k s =
      Some (map (fun i => packet (rx_desc n s i)) (seq 0 k), s') /\
    dma_device_read kmalloc client_alloc dev true s' = Some (0, None, None, s') /\
    (forall j, Z.of_nat (k + j) < desc_len (dma_chan s n) -> rx_desc n s' j = rx_desc n s (k + j)) /\
    (forall j, desc_len (dma_chan s n) <= Z.of_nat (k + j) -> Z.of_nat j < desc_len (dma_chan s n) ->
       OWN (rx_desc n s' j) = DMA_OWN).
Proof.
  intros Hr Ha Hk Hc Hlast.
  destruct (read_n_in_order kmalloc client_alloc dev n k s Hr Ha Hk Hc)
    as (s' & E & Hr' & _ & El & Hlow & Hhigh).
  exists s'. split_and!; try done. apply (read_incomplete _ _ dev n s' true); [done|].
  rewrite <- (rx_slot_0 _ (proj2 Hr')). change (complete (rx_desc n s' 0) = false).
  destruct (Z.lt_ge_cases (Z.of_nat k) (desc_len (dma_chan s n))) as [Hlt|Hge].
  - rewrite Hlow, Nat.add_0_r by lia. by apply Hlast.
  - assert (H : OWN (rx_desc n s' 0) = DMA_OWN).
    { apply Hhigh; [lia|]. destruct Hr as [_ [Hl _]]. lia. }
    rewrite complete_eq. rewrite OWN_eq in H. by destruct (Z.testbit (d_word (rx_desc n s' 0)) 31).
Qed.

(** The Ethernet device's first receive ring, filled by its driver's allocator;
    the hardware has received into the descriptors of [l]. *)
Definition demo_alloc : Z -> Z -> (Z -> Z) -> list dma_event -> Z * Z * option Z * (Z -> Z) :=
  fun _ _ m h => (0x80800000 + 0x800 * Z.of_nat (length h), 2, Some 5, m).
Definition no_alloc : Z -> Z -> (Z -> Z) -> list dma_event -> Z * Z * option Z * (Z -> Z) := fun _ _ m _ => (0, 0, None, m).
Definition no_kmalloc : Z -> list dma_event -> Z := fun _ _ => 0.
Definition rx_demo (l : list Z) : dma_state :=
  fold_left (fun s j => hw_sent 0 j (0x70000000 + 60 + j) s) l
    (after_write (dma_device_register no_kmalloc demo_alloc (fun _ _ => true) 0 ppe)).

Lemma rx_demo_ready : rx_ready 0 0 (rx_demo [0; 1]) /\ rx_ready 0 0 (rx_demo (below 25)).
Proof. split; (split; [by vm_compute|vm_compute; intuition discriminate]). Qed.

Lemma demo_alloc_succeeds : alloc_succeeds no_kmalloc demo_alloc 0 Client.
Proof. intros len m h. cbn. lia. Qed.

Lemma rx_read_in_order_witness :
  exists s', read_n no_kmalloc demo_alloc 0 2 (rx_demo [0; 1]) =
      Some ([(60, 0x8080d800); (61, 0x8080e800)], s') /\
    dma_device_read no_kmalloc demo_alloc 0 true s' = Some (0, None, None, s').
Proof.
  destruct (rx_read_in_order no_kmalloc demo_alloc 0 0 2 (rx_demo [0; 1]) (proj1 rx_demo_ready)
    demo_alloc_succeeds) as (s' & E & E' & _).
  - vm_compute. discriminate.
  - intros [|[|i]] Hi; [vm_compute; reflexivity..|lia].
  - intros _. vm_compute. reflexivity.
  - exists s'. split; [exact E|exact E'].
Defined.

(** When the allocator has no buffer, [dma_device_read] reports nothing (0 and
    a null buffer) but moves on and leaves the packet in its descriptor.  With
    a full ring and buffers available again, the packet comes out a turn later,
    behind the packets received after it. *)
Theorem rx_failed_packet_redelivered kmalloc client_alloc dev n s off p t :
  rx_ready dev n s ->
  (forall i, Z.of_nat i < desc_len (dma_chan s n) -> complete (rx_desc n s i) = true) ->
  call_buffer_alloc kmalloc client_alloc dev (packet_size (dma_chan s n)) s = Some (0, off, p, t) ->
  exists s1, dma_device_read kmalloc client_alloc dev true s = Some (0, Some 0, Some 0, s1) /\
    forall kmalloc' client_alloc', alloc_succeeds kmalloc' client_alloc' dev (buffer_alloc (dma_devs s dev)) ->
    let L := Z.to_nat (desc_len (dma_chan s n)) in
    exists s2, read_n kmalloc' client_alloc' dev L s1 =
      Some (map (fun i => packet (rx_desc n s (S i))) (seq 0 (L - 1)) ++ [packet (rx_desc n s 0)], s2).
Proof.
  intros Hr Hc Ha. pose proof Hr as [_ [Hl Hcur]].
  assert (H0 : get_desc s (dma_chan s n) (curr_desc (dma_chan s n)) = rx_desc n s 0)
    by (unfold rx_desc; rewrite rx_slot_0; [done|apply Hr]).
  destruct (read_failure kmalloc client_alloc dev n s true off p t Hr) as (s1 & E1 & S1 & _); [|done|].
  { rewrite H0. apply Hc. lia. }
  rewrite H0 in S1. exists s1. split; [exact E1|]. intros km ca Hok L.
  destruct (read_step_next dev n _ _ _ Hr S1) as (Hr1 & _ & El & _ & _).
  pose proof (rs_devs _ _ _ _ S1) as Ev.
  assert (Hslot : forall i, Z.of_nat i < desc_len (dma_chan s n) -> rx_desc n s1 i =
    if Z.of_nat i + 1 =? desc_len (dma_chan s n) then rx_desc n s 0 else rx_desc n s (S i))
    by (intros i Hi; by apply (read_step_slot dev)).
  destruct (read_n_in_order km ca dev n L s1 Hr1) as (s2 & E2 & _); [by rewrite Ev|rewrite El; lia| |].
  - intros i Hi. rewrite Hslot by lia. destruct (_ =? _) eqn:E; bool_prop; apply Hc; lia.
  - exists s2. rewrite E2. f_equal. f_equal. replace L with (L - 1 + 1)%nat at 1 by lia.
    rewrite seq_app, map_app. f_equal.
    + apply map_ext_in. intros i Hi. apply in_seq in Hi.
      by rewrite Hslot, (proj2 (Z.eqb_neq _ _)) by lia.
    + cbn [seq map]. by rewrite Hslot, (proj2 (Z.eqb_eq _ _)) by lia.
Qed.

Lemma rx_demo_full i : Z.of_nat i < 25 -> complete (rx_desc 0 (rx_demo (below 25)) i) = true.
Proof.
  intros Hi.
  assert (H : forallb (fun i => complete (rx_desc 0 (rx_demo (below 25)) i)) (seq 0 25) = true)
    by (vm_compute; reflexivity).
  apply (proj1 (forallb_forall _ _) H). apply in_seq. lia.
Qed.

Lemma no_alloc_call s len : buffer_alloc (dma_devs s 0) = Client ->
  call_buffer_alloc no_kmalloc no_alloc 0 len s = Some (0, 0, None, log (BufAlloc 0 len 0) (set_client_mem (client_mem s) s)).
Proof. unfold call_buffer_alloc. by intros ->. Qed.

Lemma rx_failed_packet_redelivered_witness :
  exists s1, dma_device_read no_kmalloc no_alloc 0 true (rx_demo (below 25)) = Some (0, Some 0, Some 0, s1) /\
    exists s2 l, read_n no_kmalloc demo_alloc 0 25 s1 = Some (l ++ [(60, 0x8080d800)], s2).
Proof.
  destruct (rx_failed_packet_redelivered no_kmalloc no_alloc 0 0 (rx_demo (below 25)) 0 None
    (log (BufAlloc 0 (packet_size (dma_chan (rx_demo (below 25)) 0)) 0)
       (set_client_mem (client_mem (rx_demo (below 25))) (rx_demo (below 25))))
    (proj2 rx_demo_ready)) as (s1 & E1 & H).
  - intros i Hi. apply rx_demo_full. exact Hi.
  - apply no_alloc_call. vm_compute. reflexivity.
  - exists s1. split; [exact E1|].
    destruct (H no_kmalloc demo_alloc demo_alloc_succeeds) as (s2 & E2).
    exists s2. eexists. exact E2.
Defined.
