(* ===== verification/DmaTasklet.v ===== *)
(** * Interrupts and the tasklet of the DMA driver

    The selection of the next channel, the termination of the tasklet, the
    interleaving of interrupts, hardware and tasklet as a step relation in which
    no interrupt is lost, the delivery of the packets a channel has received, and
    the packets that keep the tasklet running without end. *)

From S2P Require Import Prelude Icu DmaCore DmaRing.
Open Scope Z_scope.

(** ** The selection *)

(** A channel that may be selected: pending, with weight left. *)
Definition eligible (s : dma_state) (i : Z) : Prop :=
  Z.testbit (int_status s) i = true /\ 0 < weight (dma_chan s i).
#[export] Instance eligible_dec s i : Decision (eligible s i).
Proof. unfold eligible. apply _. Defined.

Lemma wfq_step_eq s c w i : 0 <= i ->
  wfq_step s (c, w) i =
    if decide (eligible s i) then
      if weight (dma_chan s i) >? w then (i, weight (dma_chan s i)) else (c, w)
    else (c, w).
Proof.
  intros Hi. unfold wfq_step. rewrite land_bit_eqb0, negb_involutive by done.
  destruct (decide (eligible s i)) as [[-> H]|H].
  - by rewrite (proj2 (Z.gtb_lt _ _) H).
  - destruct (Z.testbit (int_status s) i) eqn:E; [|done]. cbn [andb].
    destruct (_ >? 0) eqn:E'; [|done]. exfalso. apply H. split; [done|]. by apply Z.gtb_lt in E'.
Qed.

(** What the loop has found after the channels below [k]. *)
Definition found (s : dma_state) (k : Z) (acc : Z * Z) : Prop :=
  let '(c, w) := acc in
  (c = -1 /\ w = 0 /\ forall j, 0 <= j < k -> ~ eligible s j) \/
  (0 <= c < k /\ eligible s c /\ w = weight (dma_chan s c) /\
   (forall j, 0 <= j < k -> eligible s j -> weight (dma_chan s j) <= w) /\
   (forall j, 0 <= j < c -> eligible s j -> weight (dma_chan s j) < w)).

Lemma wfq_step_found s k acc : 0 <= k -> found s k acc -> found s (k + 1) (wfq_step s acc k).
Proof.
  intros Hk. destruct acc as [c w]. rewrite wfq_step_eq by done. unfold found.
  intros [(-> & -> & Hnone)|(Hc & Hec & -> & Hmax & Hfirst)].
  - destruct (decide (eligible s k)) as [He|He].
    + rewrite (proj2 (Z.gtb_lt _ _)) by apply He. right. split_and!; try done; try lia.
      * intros j Hj Hej. destruct (decide (j = k)) as [->|]; [lia|]. exfalso. apply (Hnone j); [lia|done].
      * intros j Hj Hej. exfalso. by apply (Hnone j).
    + left. split_and!; try done. intros j Hj. destruct (decide (j = k)) as [->|]; [done|apply Hnone; lia].
  - destruct (decide (eligible s k)) as [He|He].
    + destruct (_ >? _) eqn:E; rewrite Z.gtb_ltb in E; bool_prop.
      * right. split_and!; try done; try lia.
        -- intros j Hj Hej. destruct (decide (j = k)) as [->|]; [lia|]. specialize (Hmax j ltac:(lia) Hej). lia.
        -- intros j Hj Hej. specialize (Hmax j Hj Hej). lia.
      * right. split_and!; try done; try lia. intros j Hj Hej.
        destruct (decide (j = k)) as [->|]; [lia|]. apply Hmax; [lia|done].
    + right. split_and!; try done; try lia. intros j Hj Hej.
      destruct (decide (j = k)) as [->|]; [done|]. apply Hmax; [lia|done].
Qed.

Lemma fold_below {A} (f : A -> Z -> A) (P : Z -> A -> Prop) n a :
  0 <= n -> P 0 a -> (forall i x, 0 <= i < n -> P i x -> P (i + 1) (f x i)) ->
  P n (fold_left f (below n) a).
Proof.
  intros Hn H0 Hs. rewrite <- (Z2Nat.id n) at 1 by done. unfold below.
  assert (Hk : forall k, (k <= Z.to_nat n)%nat -> P (Z.of_nat k) (fold_left f (map Z.of_nat (seq 0 k)) a)).
  { induction k as [|k IH]; intros Hk; [done|].
    rewrite seq_S, map_app, fold_left_app. cbn [map fold_left].
    replace (Z.of_nat (S k)) with (Z.of_nat k + 1) by lia. apply Hs; [lia|]. apply IH. lia. }
  by apply Hk.
Qed.

Lemma wfq_found s :
  exists w, found s MAX_DMA_CHANNEL_NUM (wfq_select s, w).
Proof.
  pose proof (fold_below (wfq_step s) (found s) MAX_DMA_CHANNEL_NUM (-1, 0)) as H.
  unfold wfq_select. destruct (fold_left _ _ _) as [c w]. exists w. apply H.
  - done.
  - left. split_and!; try done. lia.
  - intros i x Hi. apply wfq_step_found. lia.
Qed.

(** C36: The selection loop yields the channel to serve: -1 exactly when no channel
    is pending with weight left, else a pending channel of the greatest weight
    among those, the one of lowest number when several have it. *)
Theorem wfq_select_spec s :
  let c := wfq_select s in
  (c = -1 /\ forall j, 0 <= j < MAX_DMA_CHANNEL_NUM -> ~ eligible s j) \/
  (0 <= c < MAX_DMA_CHANNEL_NUM /\ eligible s c /\
   (forall j, 0 <= j < MAX_DMA_CHANNEL_NUM -> eligible s j ->
      weight (dma_chan s j) <= weight (dma_chan s c)) /\
   (forall j, 0 <= j < c -> eligible s j -> weight (dma_chan s j) < weight (dma_chan s c))).
Proof.
  cbv zeta. destruct (wfq_found s) as [w [(E & _ & H)|(Hc & He & -> & H)]]; [left|right]; auto.
Qed.

(** ** The tasklet returns *)

(** Every channel belongs to a device. *)
Definition attached (s : dma_state) : Prop :=
  forall n, 0 <= n < MAX_DMA_CHANNEL_NUM -> is_Some (dma_dev (dma_chan s n)).
Definition same_flags (s s' : dma_state) : Prop :=
  in_process s' = in_process s /\ scheduled s' = scheduled s.

Lemma upd_weight_keeps n f s m :
  let s' := upd_chan n (fun c => set_weight (f c) c) s in
  dma_dev (dma_chan s' m) = dma_dev (dma_chan s m) /\ irq (dma_chan s' m) = irq (dma_chan s m).
Proof. cbv zeta. dproj. unfold gupd. destruct (m =? n) eqn:E; bool_prop; by subst. Qed.

Lemma reset_weights_keeps s :
  let s' := reset_weights s in
  (forall m, dma_dev (dma_chan s' m) = dma_dev (dma_chan s m) /\ irq (dma_chan s' m) = irq (dma_chan s m)) /\
  same_flags s s' /\ int_status s' = int_status s /\ dhw s' = dhw s.
Proof.
  cbv zeta. unfold reset_weights. generalize (below MAX_DMA_CHANNEL_NUM). intros l. revert s.
  induction l as [|i l IH]; intros s; [done|]. cbn [fold_left].
  destruct (IH (upd_chan i (fun c => set_weight (default_weight c) c) s)) as (H1 & H2 & H3 & H4).
  split_and!; [|done|done|done]. intros m. destruct (H1 m) as [-> ->]. apply upd_weight_keeps.
Qed.

Section Tasklet.
Context (client_handler : Z -> Z -> dma_state -> option dma_state).

(** The handlers return, keep the channels with their devices, and leave the
    tasklet's own flags alone. *)
Definition handler_returns : Prop :=
  forall dev st s, attached s -> exists s', client_handler dev st s = Some s' /\ attached s' /\ same_flags s s'.

Lemma call_handler_returns dev st s :
  handler_returns -> attached s ->
  exists s', (if has_handler dev s then call_intr_handler client_handler dev st s else Some s) = Some s' /\
    attached s' /\ same_flags s s'.
Proof.
  intros Hh Ha. unfold has_handler, call_intr_handler.
  destruct (intr_handler _); [by exists s|exact (Hh dev st (log (Upcall dev st) s) Ha)..].
Qed.

Lemma serve_returns c s :
  handler_returns -> attached s -> c < MAX_DMA_CHANNEL_NUM ->
  exists s', serve client_handler c s = Some s' /\ attached s' /\ same_flags s s'.
Proof.
  intros Hh Ha Hc. unfold serve. destruct (c >=? 0) eqn:E.
  2:{ destruct (reset_weights_keeps s) as (H1 & H2 & _). eexists. split; [done|]. split; [|done].
      intros n Hn. destruct (H1 n) as [-> _]. by apply Ha. }
  apply Z.geb_le in E. destruct (Ha c) as [dev Hdev]; [lia|]. destruct (_ =? DANUBE_DMA_RX).
  - unfold rx_chan_intr_handler. destruct (_ && _); cbn [andb].
    + rewrite Hdev. cbn [mbind option_bind].
      destruct (call_handler_returns dev RCV_INT
        (upd_dev dev (set_current_rx_chan (rel_chan_no (dma_chan s c))) s) Hh Ha) as (t & -> & Ha' & Hf).
      eexists. split; [reflexivity|]. split; [|done]. intros n Hn.
      destruct (upd_weight_keeps c (fun c => weight c - 1) t n) as [-> _]. by apply Ha'.
    + eexists. split; [reflexivity|]. split; [|by destruct (negb _)].
      intros n Hn. destruct (negb _); by apply Ha.
  - unfold tx_chan_intr_handler. change (dma_dev _) with (dma_dev (dma_chan s c)).
    rewrite Hdev. cbn [mbind option_bind]. set (t := upd_dev _ _ _).
    assert (Ha' : attached t) by exact Ha.
    destruct (call_handler_returns dev TRANSMIT_CPT_INT t Hh Ha') as (s' & E' & H). by exists s'.
Qed.

Lemma tasklet_loop_returns : handler_returns -> forall fuel b s,
  attached s -> -1 <= b -> b + 2 <= Z.of_nat fuel ->
  exists s', tasklet_loop client_handler fuel b s = Some s' /\
    ((int_status s' = 0 /\ in_process s' = 0 /\ scheduled s' = scheduled s) \/
     (int_status s' <> 0 /\ in_process s' = in_process s /\ scheduled s' = true)).
Proof.
  intros Hh. induction fuel as [|fuel IH]; intros b s Ha Hb Hf; [lia|]. cbn [tasklet_loop].
  destruct (int_status s =? 0) eqn:E0; bool_prop.
  - exists (tasklet_end s). split; [done|]. left. unfold tasklet_end. dproj. by rewrite E0.
  - destruct (b <? 0) eqn:Eb; bool_prop.
    + eexists. split; [done|]. by right.
    + destruct (wfq_found s) as [w Hw].
      destruct (serve_returns (wfq_select s) s Hh Ha) as (t & -> & Ha' & [F1 F2]).
      { destruct Hw as [(-> & _)|[? _]]; [done|lia]. }
      cbn [mbind option_bind]. destruct (IH (b - 1) t Ha') as (s' & Hs' & H); [lia|lia|].
      exists s'. split; [done|]. by rewrite F1, F2 in H.
Qed.
End Tasklet.

(** C26: The tasklet always returns, after at most 101 passes, whatever the
    channels and the drivers' handlers do (provided a handler called returns).
    Then either nothing is pending and the tasklet is idle, or something is, and
    the tasklet is scheduled again and still marked in process. *)
Theorem tasklet_returns client_handler s :
  handler_returns client_handler -> attached s ->
  exists s', run_tasklet client_handler s = Some s' /\
    ((int_status s' = 0 /\ in_process s' = 0 /\ scheduled s' = false) \/
     (int_status s' <> 0 /\ in_process s' = in_process s /\ scheduled s' = true)).
Proof.
  intros Hh Ha. assert (Ha' : attached (set_scheduled false s)) by exact Ha.
  apply (tasklet_loop_returns client_handler Hh tasklet_fuel DMA_INT_BUDGET _ Ha');
    unfold tasklet_fuel, DMA_INT_BUDGET; lia.
Qed.

(** The Ethernet device with two packets received and its interrupt taken. *)
Definition rx_interrupted (l : list Z) : dma_state := dma_interrupt 64 0 (rx_demo l).

Lemma tasklet_returns_witness :
  exists s', run_tasklet quiet_handler (rx_interrupted [0; 1]) = Some s' /\
    ((int_status s' = 0 /\ in_process s' = 0 /\ scheduled s' = false) \/
     (int_status s' <> 0 /\ in_process s' = 1 /\ scheduled s' = true)).
Proof.
  destruct (tasklet_returns quiet_handler (rx_interrupted [0; 1])) as (s' & E & H).
  - intros dev st s Ha. exists s. split; [reflexivity|]. split; [exact Ha|]. split; reflexivity.
  - intros n Hn.
    assert (H : forallb (fun n => match dma_dev (dma_chan (rx_interrupted [0; 1]) n) with Some _ => true | None => false end)
      (below 20) = true) by (vm_compute; reflexivity).
    apply (proj1 (forallb_forall _ _)) with (x := n) in H; [|by apply in_below].
    destruct (dma_dev _); [by eexists|discriminate].
  - exists s'. split; [exact E|]. exact H.
Defined.

(** ** Interrupts, hardware and tasklet interleaved *)

(** Where the tasklet is: not running, at the loop's test, in the selection, about
    to serve, past the loop. *)
Inductive tpc :=
  | Idle
  | Test (budget : Z)
  | Select (budget i : Z) (acc : Z * Z)
  | Serve (budget chan_no : Z)
  | End_.

Section Steps.
Context (client_handler : Z -> Z -> dma_state -> option dma_state).

(** The volatile status word is read once per test and once per turn of the
    selection; interrupts of enabled lines and the hardware come in between. *)
Inductive tstep : tpc * dma_state -> tpc * dma_state -> Prop :=
  | t_start s : scheduled s = true -> tstep (Idle, s) (Test DMA_INT_BUDGET, set_scheduled false s)
  | t_none b s : int_status s = 0 -> tstep (Test b, s) (End_, s)
  | t_budget b s : int_status s <> 0 -> b < 0 -> tstep (Test b, s) (Idle, tasklet_schedule s)
  | t_pass b s : int_status s <> 0 -> 0 <= b -> tstep (Test b, s) (Select (b - 1) 0 (-1, 0), s)
  | t_select b i acc s : i < MAX_DMA_CHANNEL_NUM ->
      tstep (Select b i acc, s) (Select b (i + 1) (wfq_step s acc i), s)
  | t_selected b acc s : tstep (Select b MAX_DMA_CHANNEL_NUM acc, s) (Serve b (fst acc), s)
  | t_serve b c s s' : serve client_handler c s = Some s' -> tstep (Serve b c, s) (Test b, s')
  | t_end s : tstep (End_, s) (Idle, tasklet_end s)
  | t_irq pc s n : 0 <= n < MAX_DMA_CHANNEL_NUM ->
      line_enabled (dhw s) (irq (dma_chan s n)) = true ->
      tstep (pc, s) (pc, dma_interrupt (irq (dma_chan s n)) n s)
  | t_hw pc s a d : tstep (pc, s) (pc, upd_desc a d s).

(** The executable tasklet is the run of these steps that nothing interrupts. *)
Lemma select_steps b s : rtc tstep (Select b 0 (-1, 0), s) (Serve b (wfq_select s), s).
Proof.
  pose proof (fold_below (wfq_step s) (fun k acc => rtc tstep (Select b 0 (-1, 0), s) (Select b k acc, s))
    MAX_DMA_CHANNEL_NUM (-1, 0)) as H. cbv beta in H.
  apply rtc_r with (Select b MAX_DMA_CHANNEL_NUM (fold_left (wfq_step s) (below MAX_DMA_CHANNEL_NUM) (-1, 0)), s).
  - apply H; [done|apply rtc_refl|]. intros i x Hi Hx. eapply rtc_r; [exact Hx|]. apply t_select. lia.
  - apply t_selected.
Qed.

Lemma tasklet_loop_steps fuel : forall b s s',
  tasklet_loop client_handler fuel b s = Some s' -> rtc tstep (Test b, s) (Idle, s').
Proof.
  induction fuel as [|fuel IH]; intros b s s' E; [done|]. cbn [tasklet_loop] in E.
  destruct (int_status s =? 0) eqn:E0; bool_prop.
  - injection E as <-. eapply rtc_l; [by apply t_none|]. apply rtc_once, t_end.
  - destruct (b <? 0) eqn:Eb; bool_prop.
    + injection E as <-. by apply rtc_once, t_budget.
    + destruct (serve client_handler (wfq_select s) s) as [t|] eqn:Et; [|done]. cbn [mbind option_bind] in E.
      eapply rtc_l; [by apply t_pass|]. etransitivity; [apply select_steps|].
      eapply rtc_l; [by apply t_serve|]. by apply IH.
Qed.

Lemma run_tasklet_steps s s' :
  scheduled s = true -> run_tasklet client_handler s = Some s' -> rtc tstep (Idle, s) (Idle, s').
Proof. intros Hs E. eapply rtc_l; [by apply t_start|]. by apply (tasklet_loop_steps tasklet_fuel). Qed.

(** *** Lines *)

Definition chan_irq (n : Z) : Z := map_irq (chan_map n).
Definition mapped (s : dma_state) : Prop :=
  forall n, 0 <= n < MAX_DMA_CHANNEL_NUM -> irq (dma_chan s n) = chan_irq n.

Lemma chan_irq_line n : 0 <= n < MAX_DMA_CHANNEL_NUM -> is_line (chan_irq n).
Proof.
  intros Hn. apply in_below in Hn.
  assert (H : forallb (fun n => (0 <=? chan_irq n) && (chan_irq n <=? INT_NUM_IM4_IRL31))
    (below MAX_DMA_CHANNEL_NUM) = true) by (vm_compute; reflexivity).
  apply (proj1 (forallb_forall _ _) H) in Hn. bool_prop. split; lia.
Qed.

Lemma chan_irq_inj n m : 0 <= n < MAX_DMA_CHANNEL_NUM -> 0 <= m < MAX_DMA_CHANNEL_NUM ->
  chan_irq n = chan_irq m -> n = m.
Proof.
  intros Hn Hm E. apply in_below in Hn. apply in_below in Hm.
  assert (H : forallb (fun n => forallb (fun m => (n =? m) || negb (chan_irq n =? chan_irq m))
    (below MAX_DMA_CHANNEL_NUM)) (below MAX_DMA_CHANNEL_NUM) = true) by (vm_compute; reflexivity).
  apply (proj1 (forallb_forall _ _) H) in Hn. apply (proj1 (forallb_forall _ _) Hn) in Hm.
  rewrite E, Z.eqb_refl in Hm. cbn in Hm. rewrite orb_false_r in Hm. by apply Z.eqb_eq.
Qed.

(** A DMA register is none of the interrupt unit's. *)
Lemma line_enabled_dma hw r v j :
  is_line j -> DANUBE_DMA <= r < DANUBE_DMA + 0x100 ->
  line_enabled (upd hw r v) j = line_enabled hw j.
Proof.
  intros Hj Hr. destruct (line_split j Hj) as (_ & Hk & _). unfold line_enabled.
  rewrite upd_ne; [done|]. unfold ier, DANUBE_ICU, DANUBE_DMA in *. lia.
Qed.

(** The channel's line can interrupt, or its interrupt is waiting to be served. *)
Definition armed (s : dma_state) (n : Z) : bool :=
  line_enabled (dhw s) (chan_irq n) || Z.testbit (int_status s) n.

Lemma ack_channel_lines n s j : is_line j -> line_enabled (dhw (ack_channel n s)) j = line_enabled (dhw s) j.
Proof.
  intros Hj. unfold ack_channel, cwr. dproj.
  by rewrite !line_enabled_dma by (done || (unfold DANUBE_DMA_CS, DANUBE_DMA; lia)).
Qed.

Lemma dma_interrupt_lines s n j :
  0 <= n < MAX_DMA_CHANNEL_NUM -> mapped s -> is_line j ->
  line_enabled (dhw (dma_interrupt (irq (dma_chan s n)) n s)) j =
    line_enabled (dhw s) j && negb (bool_decide (j = chan_irq n)).
Proof.
  intros Hn Hm Hj. rewrite (Hm n Hn). pose proof (chan_irq_line n Hn) as Hl.
  unfold dma_interrupt. set (s1 := icu _ _).
  assert (E : line_enabled (dhw s1) j = line_enabled (dhw s) j && negb (bool_decide (j = chan_irq n))).
  { subst s1. dproj. rewrite mask_ack_eq, isr_line, reg_clr_line by done. f_equal.
    by rewrite !line_enabled_dma by (done || (unfold DANUBE_DMA_IRNEN, DANUBE_DMA; lia)). }
  by destruct (_ =? 0).
Qed.

Lemma dma_interrupt_flags q n s :
  let s' := dma_interrupt q n s in
  int_status s' = bit_set (int_status s) n /\ dma_chan s' = dma_chan s /\
  in_process s' = (if in_process s =? 0 then 1 else in_process s) /\
  scheduled s' = (if in_process s =? 0 then true else scheduled s).
Proof.
  cbv zeta. unfold dma_interrupt. dproj. destruct (in_process s =? 0) eqn:E; dproj; by rewrite ?E.
Qed.

Lemma dma_interrupt_armed s n m :
  0 <= n < MAX_DMA_CHANNEL_NUM -> 0 <= m < MAX_DMA_CHANNEL_NUM -> mapped s ->
  armed s m = true -> armed (dma_interrupt (irq (dma_chan s n)) n s) m = true.
Proof.
  intros Hn Hm Hmap. unfold armed. rewrite dma_interrupt_lines by (done || by apply chan_irq_line).
  destruct (dma_interrupt_flags (irq (dma_chan s n)) n s) as (-> & _).
  rewrite testbit_bit_set by lia. destruct (decide (m = n)) as [->|Hne].
  - intros _. by rewrite (bool_decide_true (n = n)), !orb_true_r.
  - rewrite (bool_decide_false (chan_irq m = chan_irq n)) by (intros E; apply Hne; by apply chan_irq_inj).
    rewrite (bool_decide_false (m = n)) by done. by rewrite andb_true_r, orb_false_r.
Qed.

(** *** The invariant *)

(** The receive channels their devices have opened. *)
Context (opened : Z -> Prop).
Context (Hopened : forall n, opened n -> 0 <= n < MAX_DMA_CHANNEL_NUM /\ map_dir (chan_map n) = DANUBE_DMA_RX).

(** The lines' assignment and the flags are the same, and what was armed still is. *)
Record keeps (s s' : dma_state) : Prop := {
  keeps_mapped : mapped s';
  keeps_flags : same_flags s s';
  keeps_armed n : opened n -> armed s n = true -> armed s' n = true
}.

(** The handlers leave the flags and the lines' assignment alone and close no
    channel. *)
Definition handler_keeps : Prop :=
  forall dev st s s', client_handler dev st s = Some s' -> mapped s -> keeps s s'.

Lemma reset_weights_keeps_armed s : mapped s -> keeps s (reset_weights s).
Proof.
  intros Hm. destruct (reset_weights_keeps s) as (H1 & H2 & H3 & H4). constructor; [|done|].
  - intros n Hn. destruct (H1 n) as [_ ->]. by apply Hm.
  - intros n _. unfold armed. by rewrite H3, H4.
Qed.

Lemma handler_call_keeps dev st s s' :
  handler_keeps -> mapped s ->
  (if has_handler dev s then call_intr_handler client_handler dev st s else Some s) = Some s' -> keeps s s'.
Proof.
  intros Hh Hm. unfold has_handler, call_intr_handler.
  assert (Hc : client_handler dev st (log (Upcall dev st) s) = Some s' -> keeps s s').
  { intros E. destruct (Hh _ _ _ _ E Hm) as [M F A]. constructor; [done|done|]. exact A. }
  destruct (intr_handler _); [|done..]. intros [= <-]. by constructor.
Qed.

Lemma rx_handler_keeps c s s' :
  handler_keeps -> 0 <= c < MAX_DMA_CHANNEL_NUM -> mapped s ->
  rx_chan_intr_handler client_handler c s = Some s' -> keeps s s'.
Proof.
  intros Hh Hc Hm. unfold rx_chan_intr_handler. destruct (_ && _); cbn [andb].
  - destruct (dma_dev _) as [dev|]; [|done]. cbn [mbind option_bind].
    set (s1 := upd_dev _ _ _). destruct (if has_handler dev s1 then _ else _) as [t|] eqn:Et; [|done].
    intros <-%(inj Some). destruct (handler_call_keeps dev RCV_INT s1 t Hh Hm Et) as [M F A].
    constructor; [|done|exact A].
    intros n Hn. destruct (upd_weight_keeps c (fun c => weight c - 1) t n) as [_ ->]. by apply M.
  - intros <-%(inj Some). set (s1 := ack_channel c s). set (s2 := icu _ s1).
    pose proof (chan_irq_line c Hc) as Hl.
    assert (L : forall j, is_line j ->
      line_enabled (dhw s2) j = line_enabled (dhw s) j || bool_decide (j = chan_irq c)).
    { intros j Hj. subst s2. dproj. change (irq (dma_chan s1 c)) with (irq (dma_chan s c)).
      rewrite Hm, enable_eq, reg_set_line by (done || lia). f_equal. by apply ack_channel_lines. }
    constructor; [by destruct (negb _)|by destruct (negb _)|].
    intros n Hn. destruct (Hopened n Hn) as [Hr _]. unfold armed. pose proof (chan_irq_line n Hr).
    destruct (decide (n = c)) as [->|Hne].
    + intros _. destruct (negb _); dproj; rewrite L by done;
        by rewrite (bool_decide_true (chan_irq c = _)), orb_true_r.
    + destruct (negb _); dproj; rewrite L by done; rewrite ?testbit_bit_clr by lia;
        rewrite ?(bool_decide_false (n = c)) by done; cbn [negb]; rewrite ?andb_true_r;
        change (int_status s2) with (int_status s); change (int_status s1) with (int_status s);
        (intros [-> | ->]%orb_true_iff; by rewrite ?orb_true_r).
Qed.

Lemma tx_handler_keeps c s s' :
  handler_keeps -> 0 <= c < MAX_DMA_CHANNEL_NUM -> mapped s -> map_dir (chan_map c) <> DANUBE_DMA_RX ->
  tx_chan_intr_handler client_handler c s = Some s' -> keeps s s'.
Proof.
  intros Hh Hc Hm Hdir. unfold tx_chan_intr_handler. set (s1 := set_int_status _ _).
  destruct (dma_dev _) as [dev|]; [|done]. cbn [mbind option_bind]. set (s2 := upd_dev _ _ _). intros E.
  destruct (handler_call_keeps dev TRANSMIT_CPT_INT s2 s' Hh Hm E) as [M F A].
  constructor; [done|done|]. intros n Hn H. apply A; [done|]. revert H.
  destruct (Hopened n Hn) as [Hr Hd]. unfold armed. subst s2 s1. dproj.
  rewrite ack_channel_lines by by apply chan_irq_line. rewrite testbit_bit_clr by lia.
  rewrite (bool_decide_false (n = c)) by (intros ->; congruence). by rewrite andb_true_r.
Qed.

Lemma serve_keeps c s s' :
  handler_keeps -> c < MAX_DMA_CHANNEL_NUM -> mapped s -> serve client_handler c s = Some s' -> keeps s s'.
Proof.
  intros Hh Hc Hm. unfold serve. destruct (c >=? 0) eqn:E.
  - apply Z.geb_le in E. destruct (_ =? DANUBE_DMA_RX) eqn:Edir; bool_prop.
    + by apply rx_handler_keeps.
    + by apply tx_handler_keeps.
  - intros [= <-]. by apply reset_weights_keeps_armed.
Qed.

(** Either the flag is set and the tasklet is running or scheduled, not both; or it
    is clear, the tasklet is neither, and nothing is pending. *)
Definition flags_ok (pc : tpc) (s : dma_state) : Prop :=
  (in_process s = 1 /\ (pc = Idle <-> scheduled s = true)) \/
  (in_process s = 0 /\ int_status s = 0 /\ pc = Idle /\ scheduled s = false).

Record dma_inv (x : tpc * dma_state) : Prop := {
  inv_mapped : mapped (snd x);
  inv_flags : flags_ok (fst x) (snd x);
  inv_chan : match fst x with
    | Select _ i (c, _) => 0 <= i /\ c < i <= MAX_DMA_CHANNEL_NUM
    | Serve _ c => c < MAX_DMA_CHANNEL_NUM
    | _ => True end;
  inv_armed n : opened n -> armed (snd x) n = true
}.

Lemma flags_running pc s : pc <> Idle -> flags_ok pc s -> in_process s = 1 /\ scheduled s = false.
Proof.
  intros Hp [[-> H]|(_ & _ & -> & _)]; [|done]. split; [done|].
  destruct (scheduled s); [|done]. exfalso. by apply Hp, H.
Qed.

Lemma running_flags pc s : pc <> Idle -> in_process s = 1 -> scheduled s = false -> flags_ok pc s.
Proof. intros Hp H1 H2. left. split; [done|]. rewrite H2. by split. Qed.

Lemma wfq_step_below s c w i : 0 <= i -> c < i -> fst (wfq_step s (c, w) i) < i + 1.
Proof.
  intros Hi Hc. rewrite wfq_step_eq by done. destruct (decide _); [|cbn; lia].
  destruct (_ >? _); cbn; lia.
Qed.

Lemma irq_inv pc s n :
  0 <= n < MAX_DMA_CHANNEL_NUM -> dma_inv (pc, s) -> dma_inv (pc, dma_interrupt (irq (dma_chan s n)) n s).
Proof.
  intros Hn [Hm Hf Hc Ha]. cbn [fst snd] in *.
  destruct (dma_interrupt_flags (irq (dma_chan s n)) n s) as (E1 & E2 & E3 & E4).
  constructor; cbn [fst snd]; [| |done|].
  - intros m Hmr. rewrite E2. by apply Hm.
  - left. rewrite E3, E4. destruct Hf as [[-> H]|(-> & _ & -> & _)]; done.
  - intros m Hmo. apply dma_interrupt_armed; [done|by apply Hopened|done|by apply Ha].
Qed.

Lemma tstep_inv x y : handler_keeps -> tstep x y -> dma_inv x -> dma_inv y.
Proof.
  intros Hh Hs Hinv. pose proof Hinv as [Hm Hf Hc Ha]. destruct Hs; cbn [fst snd] in *.
  - constructor; try done. apply running_flags; [done| |done].
    destruct Hf as [[? _]|(_ & _ & _ & ?)]; [done|congruence].
  - constructor; try done. apply running_flags; [done|by apply (flags_running (Test b))..].
  - constructor; try done. left. split; [by apply (flags_running (Test b) s)|done].
  - constructor; try done.
    apply running_flags; [done|by apply (flags_running (Test b))..].
  - constructor; try done.
    + apply running_flags; [done|by apply (flags_running (Select b i acc))..].
    + cbn [fst]. destruct acc as [c w]. pose proof (wfq_step_below s c w i).
      destruct (wfq_step _ _ _). cbn [fst] in *. lia.
  - constructor; try done.
    + apply running_flags; [done|by apply (flags_running (Select b MAX_DMA_CHANNEL_NUM acc))..].
    + cbn [fst]. destruct acc. cbn [fst]. lia.
  - destruct (serve_keeps c s s' Hh Hc Hm H) as [M [F1 F2] A]. constructor; try done.
    + destruct (flags_running (Serve b c) s) as [? ?]; [done|done|].
      apply running_flags; [done|cbn; congruence..].
    + intros n Hn. apply A; [done|]. by apply Ha.
  - destruct (flags_running End_ s) as [E1 E2]; [done|done|].
    constructor; cbn [fst snd]; unfold tasklet_end; dproj; try done.
    + by destruct (negb _).
    + destruct (int_status s =? 0) eqn:E; bool_prop; cbn [negb]; [right|left]; dproj; done.
    + intros n Hn. specialize (Ha n Hn). by destruct (negb _).
  - by apply irq_inv.
  - by constructor.
Qed.

Lemma tsteps_inv x y : handler_keeps -> rtc tstep x y -> dma_inv x -> dma_inv y.
Proof. intros Hh. induction 1; eauto using tstep_inv. Qed.
End Steps.

(** C6: No interrupt is lost, however interrupts of the channels and changes of the
    descriptors by the hardware fall between the tasklet's steps.  In every state
    reached from an idle one, when a channel is pending the tasklet is running or
    scheduled (and never both); and every receive channel its device has opened
    either can interrupt or is pending, so that when the tasklet is at rest its
    line is enabled.  The drivers' handlers must leave the flags alone and close
    no channel. *)
Theorem no_lost_interrupt client_handler (opened : Z -> Prop)
    (Hopened : forall n, opened n -> 0 <= n < MAX_DMA_CHANNEL_NUM /\ map_dir (chan_map n) = DANUBE_DMA_RX)
    (Hhandler : handler_keeps client_handler opened) s pc s' :
  mapped s -> int_status s = 0 -> in_process s = 0 -> scheduled s = false ->
  (forall n, opened n -> line_enabled (dhw s) (chan_irq n) = true) ->
  rtc (tstep client_handler) (Idle, s) (pc, s') ->
  (int_status s' <> 0 -> pc = Idle <-> scheduled s' = true) /\
  (forall n, opened n ->
     (line_enabled (dhw s') (chan_irq n) = true \/ Z.testbit (int_status s') n = true) /\
     (pc = Idle -> scheduled s' = false -> line_enabled (dhw s') (chan_irq n) = true)).
Proof.
  intros Hm H0 Hp Hs Hl Hsteps.
  assert (Hinv : dma_inv opened (Idle, s)).
  { constructor; cbn [fst snd]; [done|by right|done|]. intros n Hn. unfold armed. by rewrite Hl. }
  destruct (tsteps_inv client_handler opened Hopened _ _ Hhandler Hsteps Hinv) as [_ Hf _ Ha].
  cbn [fst snd] in *. split.
  - intros Hne. destruct Hf as [[_ H]|(_ & E & _)]; [done|congruence].
  - intros n Hn. specialize (Ha n Hn). unfold armed in Ha. apply orb_true_iff in Ha. split; [done|].
    intros -> Hns. destruct Hf as [[_ H]|(_ & E & _)]; [rewrite Hns in H; discriminate (proj1 H eq_refl)|].
    destruct Ha as [|Hb]; [done|]. by rewrite E, Z.bits_0 in Hb.
Qed.

(** The first Ethernet channel interrupts while the tasklet is idle, and again
    cannot before it has been served. *)
Lemma quiet_handler_keeps opened : handler_keeps quiet_handler opened.
Proof. intros dev st s s' [= <-] Hm. by constructor. Qed.

Lemma rx_demo_mapped l : l = [0; 1] -> mapped (rx_demo l).
Proof.
  intros ->. intros n Hn.
  assert (H : forallb (fun n => irq (dma_chan (rx_demo [0; 1]) n) =? chan_irq n) (below MAX_DMA_CHANNEL_NUM) = true)
    by (vm_compute; reflexivity).
  apply (proj1 (forallb_forall _ _)) with (x := n) in H; [|by apply in_below]. by apply Z.eqb_eq.
Qed.

Lemma no_lost_interrupt_witness :
  let s' := dma_interrupt (irq (dma_chan (rx_demo [0; 1]) 0)) 0 (rx_demo [0; 1]) in
  int_status s' = 1 /\ scheduled s' = true /\
  (line_enabled (dhw s') (chan_irq 0) = true \/ Z.testbit (int_status s') 0 = true).
Proof.
  cbv zeta. split; [vm_compute; reflexivity|]. split; [vm_compute; reflexivity|].
  refine (proj1 (proj2 (no_lost_interrupt quiet_handler (fun n => n = 0) _ (quiet_handler_keeps _)
    (rx_demo [0; 1]) Idle _ (rx_demo_mapped _ eq_refl) _ _ _ _ _) 0 eq_refl)).
  - intros n ->. split; [unfold MAX_DMA_CHANNEL_NUM; lia|reflexivity].
  - vm_compute. reflexivity.
  - vm_compute. reflexivity.
  - vm_compute. reflexivity.
  - intros n ->. vm_compute. reflexivity.
  - apply rtc_once, t_irq; [unfold MAX_DMA_CHANNEL_NUM; lia|vm_compute; reflexivity].
Defined.

(** ** Received packets reach the device *)

(** The buffers freed so far. *)
Fixpoint consumed (l : list dma_event) : list Z :=
  match l with Kfree p :: l => p :: consumed l | _ :: l => consumed l | [] => [] end.

Lemma consumed_app l1 l2 : consumed (l1 ++ l2) = consumed l1 ++ consumed l2.
Proof. induction l1 as [|[] l1 IH]; cbn; rewrite ?IH; done. Qed.

(** Complete, and short enough for the tasklet. *)
Definition deliverable (d : desc) : bool := complete d && (data_length d <? 1536).

Lemma reset_weights_chan s m : 0 <= m < MAX_DMA_CHANNEL_NUM ->
  dma_chan (reset_weights s) m = set_weight (default_weight (dma_chan s m)) (dma_chan s m).
Proof.
  intros Hm. unfold reset_weights.
  pose proof (fold_below (fun s i => upd_chan i (fun c => set_weight (default_weight c) c) s)
    (fun k t => forall j, 0 <= j -> dma_chan t j =
       if j <? k then set_weight (default_weight (dma_chan s j)) (dma_chan s j) else dma_chan s j)
    MAX_DMA_CHANNEL_NUM s) as H.
  cbv beta in H. rewrite H; [|done| | |lia].
  - by rewrite (proj2 (Z.ltb_lt _ _)) by lia.
  - intros j Hj. by rewrite (proj2 (Z.ltb_ge _ _)).
  - intros i x Hi IH j Hj. dproj. unfold gupd. destruct (j =? i) eqn:E; bool_prop.
    + subst j. rewrite IH by lia. rewrite (proj2 (Z.ltb_ge i i)), (proj2 (Z.ltb_lt i (i + 1))) by lia. done.
    + rewrite IH by done. destruct (j <? i) eqn:E1, (j <? i + 1) eqn:E2; bool_prop; lia || done.
Qed.

Section Drain.
Context (kmalloc : Z -> list dma_event -> Z).
Context (client_alloc : Z -> Z -> (Z -> Z) -> list dma_event -> Z * Z * option Z * (Z -> Z)).

(** A driver that reads one packet each time it is told of one, and frees it. *)
Definition reading_handler (dev st : Z) (s : dma_state) : option dma_state :=
  if st =? RCV_INT then
    '(_, data, _, s) ← dma_device_read kmalloc client_alloc dev false s;
    Some (log (Kfree (default 0 data)) s)
  else Some s.

(** Channel [n] of device [dev] alone is pending, with [k] packets to read and
    then a descriptor that is the hardware's. *)
Record drain (dev n : Z) (k : nat) (s : dma_state) : Prop := {
  dr_chan : 0 <= n < MAX_DMA_CHANNEL_NUM /\ map_dir (chan_map n) = DANUBE_DMA_RX;
  dr_status : int_status s = 1 .<< n;
  dr_dev : dma_dev (dma_chan s n) = Some dev;
  dr_rx : rx_chan (dma_devs s dev) (rel_chan_no (dma_chan s n)) = Some n;
  dr_handler : has_handler dev s = true;
  dr_alloc : alloc_succeeds kmalloc client_alloc dev (buffer_alloc (dma_devs s dev));
  dr_line : is_line (irq (dma_chan s n));
  dr_ok : rx_ok (dma_chan s n);
  dr_len : Z.of_nat k <= desc_len (dma_chan s n);
  dr_packets i : (i < k)%nat -> deliverable (rx_desc n s i) = true;
  dr_end : Z.of_nat k < desc_len (dma_chan s n) -> OWN (rx_desc n s k) = DMA_OWN;
  dr_weight : Z.of_nat k < default_weight (dma_chan s n)
}.

Lemma drain_select dev n k s : drain dev n k s ->
  wfq_select s = if weight (dma_chan s n) >? 0 then n else -1.
Proof.
  intros D. destruct D as [[Hn _] Hs _ _ _ _ _ _ _ _ _ _].
  assert (He : forall j, 0 <= j -> eligible s j <-> j = n /\ 0 < weight (dma_chan s n)).
  { intros j Hj. unfold eligible. rewrite Hs, testbit_1_shiftl by lia. split.
    - intros [->%bool_decide_eq_true H]. done.
    - intros [-> H]. by rewrite bool_decide_true. }
  destruct (wfq_found s) as [w [(-> & _ & H)|(Hc & Hec & _)]].
  - destruct (_ >? 0) eqn:E; [|done]. apply Z.gtb_lt in E. exfalso. apply (H n Hn). apply He; [lia|done].
  - apply He in Hec as [-> Hw]; [|lia]. by rewrite (proj2 (Z.gtb_lt _ _) Hw).
Qed.

Lemma drain_packet dev n k s : drain dev n (S k) s ->
  exists s', rx_chan_intr_handler reading_handler n s = Some s' /\ drain dev n k s' /\
    weight (dma_chan s' n) = weight (dma_chan s n) - 1 /\ irq (dma_chan s' n) = irq (dma_chan s n) /\
    same_flags s s' /\ (forall i, (i < k)%nat -> rx_desc n s' i = rx_desc n s (S i)) /\
    consumed (devents s') = consumed (devents s) ++ [va (Data_Pointer (rx_desc n s 0))].
Proof.
  intros D. pose proof D as [Hn Hs Hdev Hrx Hh Ha Hline Hok Hlen Hp He Hw].
  assert (H0 : get_desc s (dma_chan s n) (curr_desc (dma_chan s n)) = rx_desc n s 0)
    by (unfold rx_desc; by rewrite rx_slot_0).
  unfold rx_chan_intr_handler. change (descs s _) with (get_desc s (dma_chan s n) (curr_desc (dma_chan s n))).
  rewrite H0. pose proof (Hp 0%nat ltac:(lia)) as Hd.
  change ((OWN (rx_desc n s 0) =? CPU_OWN) && negb (C (rx_desc n s 0) =? 0)) with (complete (rx_desc n s 0)).
  change (complete (rx_desc n s 0) && (data_length (rx_desc n s 0) <? 1536)) with (deliverable (rx_desc n s 0)).
  rewrite Hd, Hdev. cbn [mbind option_bind]. set (s1 := upd_dev _ _ _).
  assert (Ed : dma_devs s1 dev = set_current_rx_chan (rel_chan_no (dma_chan s n)) (dma_devs s dev))
    by (subst s1; dproj; by rewrite gupd_eq).
  set (s2 := log (Upcall dev RCV_INT) s1).
  assert (Hcall : (if has_handler dev s1 then call_intr_handler reading_handler dev RCV_INT s1 else Some s1) =
    reading_handler dev RCV_INT s2).
  { unfold has_handler, call_intr_handler in *. rewrite Ed in *. cbn [set_current_rx_chan intr_handler] in *.
    by destruct (intr_handler (dma_devs s dev)). }
  rewrite Hcall. unfold reading_handler. change (RCV_INT =? RCV_INT) with true. cbv iota.
  assert (Hr : rx_ready dev n s2) by (split; [change (dma_devs s2) with (dma_devs s1); by rewrite Ed|exact Hok]).
  destruct (alloc_succeeds_call kmalloc client_alloc dev s2 (packet_size (dma_chan s2 n)))
    as (buf & off & p & t & Hb & Hbuf); [change (dma_devs s2) with (dma_devs s1); by rewrite Ed|].
  assert (Hc0 : complete (rx_desc n s 0) = true) by by apply andb_true_iff in Hd as [? _].
  destruct (read_success kmalloc client_alloc dev n s2 false buf off p t Hr) as (s3 & -> & S3 & _ & E3); [|done|done|].
  { change (complete (get_desc s (dma_chan s n) (curr_desc (dma_chan s n))) = true). by rewrite H0. }
  cbn [mbind option_bind default]. eexists. split; [reflexivity|].
  destruct (read_step_next dev n s2 s3 _ Hr S3) as (Hr3 & _ & El & _ & _).
  destruct (rs_chan _ _ _ _ S3) as (f & Ec & _). pose proof (rs_devs _ _ _ _ S3) as Ev.
  destruct (rs_flags _ _ _ _ S3) as (F1 & F2 & F3).
  apply alloc_answer_keeps in Hb as (e & m & -> & Hne).
  assert (Hslot : forall i, Z.of_nat i < desc_len (dma_chan s n) -> rx_desc n s3 i =
    if Z.of_nat i + 1 =? desc_len (dma_chan s n) then rx_refilled off (packet_size (dma_chan s2 n)) buf
    else rx_desc n s (S i)) by (intros i Hi; by apply (read_step_slot dev n s2)).
  set (s' := upd_chan _ _ _).
  assert (Ec' : dma_chan s' n = set_weight (weight (dma_chan s n) - 1) (rx_next (set_opt f (dma_chan s n))))
    by (subst s'; dproj; by rewrite gupd_eq, Ec).
  assert (Erx : forall i, rx_desc n s' i = rx_desc n s3 i).
  { intros i. unfold rx_desc, get_desc. rewrite Ec', Ec. done. }
  assert (Ev' : dma_devs s' dev = set_current_rx_chan (rel_chan_no (dma_chan s n)) (dma_devs s dev)).
  { change (dma_devs s') with (dma_devs s3). rewrite Ev. exact Ed. }
  split_and!.
  - constructor; unfold has_handler; rewrite ?Ec', ?Ev'; try done.
    + change (int_status s') with (int_status s3). by rewrite F1.
    + change (rx_ok (rx_next (set_opt f (dma_chan s n)))). by apply (rx_next_slot _ 0).
    + change (Z.of_nat k <= desc_len (dma_chan s n)). lia.
    + intros i Hi. rewrite Erx, Hslot, (proj2 (Z.eqb_neq _ _)) by lia. apply Hp. lia.
    + intros Hk. change (Z.of_nat k < desc_len (dma_chan s n)) in Hk. rewrite Erx, Hslot by done.
      destruct (_ =? _) eqn:E; bool_prop; [apply rx_refilled_OWN|apply He; lia].
    + change (Z.of_nat k < default_weight (dma_chan s n)). lia.
  - by rewrite Ec'.
  - by rewrite Ec'.
  - split; [change (in_process s') with (in_process s3); by rewrite F2|].
    change (scheduled s') with (scheduled s3). by rewrite F3.
  - intros i Hi. by rewrite Erx, Hslot, (proj2 (Z.eqb_neq _ _)) by lia.
  - change (devents s') with (devents s3 ++ [Kfree (va (Data_Pointer
      (get_desc s (dma_chan s n) (curr_desc (dma_chan s n)))))]).
    rewrite E3, H0. change (devents (log e (set_client_mem m s2))) with ((devents s ++ [Upcall dev RCV_INT]) ++ [e]).
    rewrite !consumed_app. cbn [consumed]. rewrite !app_nil_r.
    destruct e; cbn [consumed]; rewrite ?app_nil_r; try done. by destruct (Hne ptr).
Qed.

Lemma drain_reset dev n k s : drain dev n k s ->
  drain dev n k (reset_weights s) /\ same_flags s (reset_weights s) /\
  weight (dma_chan (reset_weights s) n) = default_weight (dma_chan s n) /\
  irq (dma_chan (reset_weights s) n) = irq (dma_chan s n) /\
  (forall i, rx_desc n (reset_weights s) i = rx_desc n s i) /\
  devents (reset_weights s) = devents s.
Proof.
  intros D. pose proof D as [[Hn Hd] Hs Hdev Hrx Hh Ha Hline Hok Hlen Hp He Hw].
  pose proof (reset_weights_chan s n Hn) as Ec.
  assert (E : descs (reset_weights s) = descs s /\ dma_devs (reset_weights s) = dma_devs s /\
    int_status (reset_weights s) = int_status s /\ devents (reset_weights s) = devents s).
  { unfold reset_weights. generalize (below MAX_DMA_CHANNEL_NUM). intros l. clear. revert s.
    induction l as [|i l IH]; intros s; [done|]. cbn [fold_left]. apply (IH (upd_chan i _ s)). }
  destruct E as (E1 & E2 & E3 & E4).
  assert (Erx : forall i, rx_desc n (reset_weights s) i = rx_desc n s i)
    by (intros i; unfold rx_desc, get_desc; by rewrite Ec, E1).
  destruct (reset_weights_keeps s) as (_ & F & _).
  refine (conj _ (conj F (conj _ (conj _ (conj Erx E4))))); [|by rewrite Ec..].
  constructor; unfold has_handler; rewrite ?Ec, ?E2, ?E3; try done.
  - intros i Hi. rewrite Erx. by apply Hp.
  - intros Hk. rewrite Erx. by apply He.
Qed.

Lemma drain_done dev n s : drain dev n 0 s ->
  exists s', rx_chan_intr_handler reading_handler n s = Some s' /\ int_status s' = 0 /\
    line_enabled (dhw s') (irq (dma_chan s n)) = true /\ same_flags s s' /\ devents s' = devents s.
Proof.
  intros D. pose proof D as [[Hn _] Hs _ _ _ _ Hline Hok Hlen _ He _].
  assert (H0 : get_desc s (dma_chan s n) (curr_desc (dma_chan s n)) = rx_desc n s 0)
    by (unfold rx_desc; by rewrite rx_slot_0).
  pose proof Hok as [Hl _]. specialize (He ltac:(lia)). rewrite <- H0 in He.
  unfold rx_chan_intr_handler. change (descs s _) with (get_desc s (dma_chan s n) (curr_desc (dma_chan s n))).
  rewrite He. cbn [andb]. change (DMA_OWN =? CPU_OWN) with false. cbn [andb].
  set (s1 := ack_channel n s). set (s2 := icu _ s1).
  change (descs s2 _) with (get_desc s (dma_chan s n) (curr_desc (dma_chan s n))). rewrite He.
  change (negb (DMA_OWN =? CPU_OWN)) with true. cbv iota. eexists. split; [reflexivity|].
  split_and!; try done.
  - change (bit_clr (int_status s) n = 0). rewrite Hs. apply Z.bits_inj'. intros i Hi.
    rewrite testbit_bit_clr, testbit_1_shiftl, Z.bits_0 by lia. by destruct (bool_decide _).
  - dproj. subst s2. dproj. change (irq (dma_chan s1 n)) with (irq (dma_chan s n)).
    rewrite enable_eq, reg_set_line by done. by rewrite bool_decide_true, orb_true_r.
Qed.

Lemma drain_loop dev n : forall fuel b k s,
  drain dev n k s ->
  let extra := if weight (dma_chan s n) >? Z.of_nat k then 0 else 1 in
  Z.of_nat k + extra <= b -> Z.of_nat k + 2 + extra <= Z.of_nat fuel ->
  exists s', tasklet_loop reading_handler fuel b s = Some s' /\
    int_status s' = 0 /\ in_process s' = 0 /\ scheduled s' = scheduled s /\
    line_enabled (dhw s') (irq (dma_chan s n)) = true /\
    consumed (devents s') =
      consumed (devents s) ++ map (fun i => va (Data_Pointer (rx_desc n s i))) (seq 0 k).
Proof.
  induction fuel as [|fuel IH]; intros b k s D extra Hb Hf.
  { exfalso. subst extra. destruct (_ >? _); lia. }
  pose proof (dr_status _ _ _ _ D) as Hs. pose proof (dr_chan _ _ _ _ D) as [Hn Hd].
  assert (H0 : int_status s <> 0) by (rewrite Hs, Z.shiftl_1_l; pose proof (Z.pow_pos_nonneg 2 n); lia).
  cbn [tasklet_loop]. rewrite (proj2 (Z.eqb_neq _ _) H0), (drain_select _ _ _ _ D).
  assert (Hb0 : 0 <= b) by (subst extra; destruct (_ >? _); lia).
  rewrite (proj2 (Z.ltb_ge b 0) Hb0). unfold serve.
  destruct (weight (dma_chan s n) >? 0) eqn:Ew; rewrite Z.gtb_ltb in Ew; bool_prop.
  - rewrite (proj2 (Z.geb_le n 0)) by lia. rewrite Hd. change (DANUBE_DMA_RX =? DANUBE_DMA_RX) with true. cbv iota.
    destruct k as [|k].
    + destruct (drain_done _ _ _ D) as (t & -> & Ht & Hl & [F1 F2] & E). cbn [mbind option_bind].
      exists (tasklet_end t). destruct fuel as [|fuel]; [subst extra; destruct (_ >? _); lia|].
      cbn [tasklet_loop]. rewrite Ht. change (0 =? 0) with true. split; [done|].
      unfold tasklet_end. dproj. rewrite Ht. change (negb (0 =? 0)) with false. cbv iota. dproj.
      split_and!; try done. by rewrite E, app_nil_r.
    + destruct (drain_packet _ _ _ _ D) as (t & -> & Dt & Hw & Hi & [F1 F2] & Erx & E). cbn [mbind option_bind].
      assert (Ex : (weight (dma_chan t n) >? Z.of_nat k) = (weight (dma_chan s n) >? Z.of_nat (S k))).
      { rewrite Hw, !Z.gtb_ltb. apply eq_true_iff_eq. rewrite !Z.ltb_lt. lia. }
      destruct (IH (b - 1) k t Dt) as (s' & E' & P1 & P2 & P3 & P4 & P5); [rewrite Ex; fold extra; lia..|].
      exists s'. split_and!; [done|done|done|congruence|by rewrite <- Hi|].
      rewrite P5, E, <- app_assoc. f_equal. cbn [seq map app]. f_equal. rewrite <- seq_shift, map_map.
      apply map_ext_in. intros i Hin. apply in_seq in Hin. by rewrite Erx by lia.
  - change (-1 >=? 0) with false. cbv iota. cbn [mbind option_bind].
    destruct (drain_reset _ _ _ _ D) as (Dt & [F1 F2] & Hw & Hi & Erx & E).
    set (t := reset_weights s) in *.
    assert (E1 : extra = 1) by (subst extra; rewrite Z.gtb_ltb, (proj2 (Z.ltb_ge _ _)); [done|lia]).
    assert (E2 : (weight (dma_chan t n) >? Z.of_nat k) = true).
    { rewrite Hw. apply Z.gtb_lt. apply (dr_weight _ _ _ _ D). }
    destruct (IH (b - 1) k t Dt) as (s' & E' & P1 & P2 & P3 & P4 & P5); [rewrite E2; lia..|].
    exists s'. split_and!; [done|done|done|congruence|by rewrite <- Hi|].
    rewrite P5, E. f_equal. apply map_ext. intros i. by rewrite Erx.
Qed.
End Drain.

(** C9: Composition of interrupt, tasklet and ring: when a receive channel alone is
    pending, with [k] packets in its ring shorter than 1536 bytes followed by a
    descriptor the hardware owns, one run of the tasklet hands the driver
    exactly these packets in order, clears the channel, enables its line again
    and leaves the tasklet idle.  [k] is at most the ring's length and below
    100, so the budget of 101 passes is enough, a reset of the weights included. *)
Theorem tasklet_delivers kmalloc client_alloc dev n k s :
  drain kmalloc client_alloc dev n k s -> Z.of_nat k < DMA_INT_BUDGET ->
  exists s', run_tasklet (reading_handler kmalloc client_alloc) s = Some s' /\
    int_status s' = 0 /\ in_process s' = 0 /\ scheduled s' = false /\
    line_enabled (dhw s') (irq (dma_chan s n)) = true /\
    consumed (devents s') =
      consumed (devents s) ++ map (fun i => va (Data_Pointer (rx_desc n s i))) (seq 0 k).
Proof.
  intros D Hk. assert (D' : drain kmalloc client_alloc dev n k (set_scheduled false s)) by by destruct D.
  unfold DMA_INT_BUDGET in Hk. unfold run_tasklet, do_dma_tasklet.
  apply (drain_loop kmalloc client_alloc dev n tasklet_fuel DMA_INT_BUDGET k _ D');
    unfold tasklet_fuel, DMA_INT_BUDGET; destruct (_ >? _); lia.
Qed.

Lemma rx_demo_drain : drain no_kmalloc demo_alloc 0 0 2 (rx_interrupted [0; 1]).
Proof.
  constructor.
  6: apply demo_alloc_succeeds.
  9: { intros [|[|i]] Hi; [vm_compute; reflexivity..|lia]. }
  9: { intros _. vm_compute. reflexivity. }
  all: vm_compute; intuition discriminate.
Qed.

Lemma tasklet_delivers_witness :
  exists s', run_tasklet (reading_handler no_kmalloc demo_alloc) (rx_interrupted [0; 1]) = Some s' /\
    int_status s' = 0 /\ consumed (devents s') = [0x8080d800; 0x8080e800].
Proof.
  destruct (tasklet_delivers no_kmalloc demo_alloc 0 0 2 (rx_interrupted [0; 1]) rx_demo_drain)
    as (s' & E & H0 & _ & _ & _ & H); [reflexivity|].
  exists s'. split; [exact E|]. split; [exact H0|]. rewrite H. vm_compute. reflexivity.
Defined.

(** ** A packet that keeps the tasklet running *)

(** The descriptor to be read is the driver's, but the tasklet does not deliver
    it: not complete, or of 1536 bytes or more. *)
Definition undeliverable (s : dma_state) (n : Z) : Prop :=
  let d := get_desc s (dma_chan s n) (curr_desc (dma_chan s n)) in
  OWN d = CPU_OWN /\ (C d = 0 \/ 1536 <= data_length d).

Record stuck (n : Z) (s : dma_state) : Prop := {
  st_chan : 0 <= n < MAX_DMA_CHANNEL_NUM /\ map_dir (chan_map n) = DANUBE_DMA_RX;
  st_status : int_status s = 1 .<< n;
  st_weight : 0 < weight (dma_chan s n);
  st_desc : undeliverable s n
}.

Section Stuck.
Context (client_handler : Z -> Z -> dma_state -> option dma_state).

Lemma stuck_select n s : stuck n s -> wfq_select s = n.
Proof.
  intros [[Hn _] Hs Hw _].
  assert (He : forall j, 0 <= j -> eligible s j -> j = n).
  { intros j Hj [Hb _]. rewrite Hs, testbit_1_shiftl in Hb by lia. by apply bool_decide_eq_true in Hb. }
  destruct (wfq_found s) as [w [(_ & _ & H)|(Hc & Hec & _)]].
  - exfalso. apply (H n Hn). split; [rewrite Hs, testbit_1_shiftl by lia; by apply bool_decide_true|done].
  - apply He; [lia|done].
Qed.

Lemma stuck_pass n s : stuck n s ->
  exists s', rx_chan_intr_handler client_handler n s = Some s' /\ stuck n s' /\ same_flags s s' /\
    devents s' = devents s.
Proof.
  intros S. pose proof S as [Hn Hs Hw [Ho Hd]]. unfold rx_chan_intr_handler.
  set (a := desc_at _ _). change (descs s a) with (get_desc s (dma_chan s n) (curr_desc (dma_chan s n))).
  assert (E : (OWN (get_desc s (dma_chan s n) (curr_desc (dma_chan s n))) =? CPU_OWN) &&
    negb (C (get_desc s (dma_chan s n) (curr_desc (dma_chan s n))) =? 0) &&
    (data_length (get_desc s (dma_chan s n) (curr_desc (dma_chan s n))) <? 1536) = false).
  { destruct Hd as [-> | Hd]; [by rewrite andb_false_r|].
    rewrite (proj2 (Z.ltb_ge _ _) Hd). apply andb_false_r. }
  rewrite E. set (s2 := icu _ _).
  change (descs s2 a) with (get_desc s (dma_chan s n) (curr_desc (dma_chan s n))).
  rewrite Ho. change (negb (CPU_OWN =? CPU_OWN)) with false. cbv iota.
  eexists. split; [reflexivity|]. split; [|done]. constructor; [done|exact Hs|exact Hw|]. by split.
Qed.

Lemma stuck_loop n : forall fuel b s, stuck n s -> -1 <= b -> b + 2 <= Z.of_nat fuel ->
  exists s', tasklet_loop client_handler fuel b s = Some s' /\ stuck n s' /\ scheduled s' = true /\
    in_process s' = in_process s /\ devents s' = devents s.
Proof.
  induction fuel as [|fuel IH]; intros b s S Hb Hf; [lia|]. cbn [tasklet_loop].
  pose proof (st_status _ _ S) as Hs. pose proof (st_chan _ _ S) as [Hn Hd].
  assert (H0 : int_status s <> 0) by (rewrite Hs, Z.shiftl_1_l; pose proof (Z.pow_pos_nonneg 2 n); lia).
  rewrite (proj2 (Z.eqb_neq _ _) H0). destruct (b <? 0) eqn:Eb; bool_prop.
  - eexists. split; [reflexivity|]. by destruct S.
  - rewrite (stuck_select n s S). unfold serve.
    rewrite (proj2 (Z.geb_le n 0)), Hd by lia. change (DANUBE_DMA_RX =? DANUBE_DMA_RX) with true. cbv iota.
    destruct (stuck_pass n s S) as (t & -> & S' & [F1 F2] & E). cbn [mbind option_bind].
    destruct (IH (b - 1) t S') as (s' & E' & S'' & H1 & H2 & H3); [lia..|].
    exists s'. rewrite H2, H3, F1, E. done.
Qed.

(** The tasklet run again and again. *)
Fixpoint run_tasklets (m : nat) (s : dma_state) : option dma_state :=
  match m with O => Some s | S m => s ← run_tasklet client_handler s; run_tasklets m s end.

Lemma stuck_runs n m : forall s, stuck n s -> scheduled s = true ->
  exists s', run_tasklets m s = Some s' /\ stuck n s' /\ scheduled s' = true /\
    in_process s' = in_process s /\ devents s' = devents s.
Proof.
  induction m as [|m IH]; intros s S Hsch; [by exists s|]. cbn [run_tasklets].
  assert (S0 : stuck n (set_scheduled false s)) by by destruct S.
  destruct (stuck_loop n tasklet_fuel DMA_INT_BUDGET _ S0) as (t & E & St & H1 & H2 & H3);
    [unfold tasklet_fuel, DMA_INT_BUDGET; lia..|].
  unfold run_tasklet, do_dma_tasklet. rewrite E. cbn [mbind option_bind].
  destruct (IH t St H1) as (s' & E' & S' & P1 & P2 & P3). exists s'.
  change (in_process (set_scheduled false s)) with (in_process s) in H2.
  change (devents (set_scheduled false s)) with (devents s) in H3. split_and!; congruence || done.
Qed.
End Stuck.

(** C27: A received packet of 1536 bytes or more, or a descriptor given back
    without the completion bit, stops a receive channel for good: when the
    channel alone is pending, the handler re-enables the line but neither clears
    the pending bit nor spends weight, so each of any number of runs of the
    tasklet uses up its budget and schedules the next, the device is never told,
    and the descriptor stays where it is. *)
Theorem undeliverable_never_ends client_handler n s m :
  stuck n s -> scheduled s = true ->
  exists s', run_tasklets client_handler m s = Some s' /\ scheduled s' = true /\
    in_process s' = in_process s /\ Z.testbit (int_status s') n = true /\
    undeliverable s' n /\ devents s' = devents s.
Proof.
  intros S Hs. destruct (stuck_runs client_handler n m s S Hs) as (s' & E & [Hn Hst _ Hd] & P1 & P2 & P3).
  exists s'. split_and!; try done. rewrite Hst, testbit_1_shiftl by lia. by apply bool_decide_true.
Qed.

(** A frame of 1540 bytes in the first Ethernet channel. *)
Definition rx_long : dma_state :=
  dma_interrupt 64 0 (hw_sent 0 0 (0x70000000 + 1540) (rx_demo [])).

Lemma undeliverable_never_ends_witness :
  exists s', run_tasklets quiet_handler 3 rx_long = Some s' /\ scheduled s' = true /\
    Z.testbit (int_status s') 0 = true.
Proof.
  destruct (undeliverable_never_ends quiet_handler 0 rx_long 3) as (s' & E & H1 & _ & H2 & _).
  - constructor; vm_compute; intuition discriminate.
  - vm_compute. reflexivity.
  - exists s'. split; [exact E|]. split; [exact H1|exact H2].
Defined.
