(* ===== verification/DmaSetup.v ===== *)
(** * Start-up and configuration of the DMA driver

    The state [danube_dma_init] leaves, the layout of the descriptor rings, the
    reservation of devices, and the buffers a receive channel takes when its
    device is registered and gives back when it is unregistered. *)

From Stdlib Require Import String.
From Stdlib Require Import List.
From S2P Require Import Prelude Icu DmaCore DmaRing DmaTasklet.
Open Scope Z_scope.

(** ** The channel table *)

(** Device [dev] has [nrx] receive and [ntx] transmit channels; each knows its
    device and direction, and number [k] of them is the one of index [k]. *)
Definition device_mapped (s : dma_state) (dev nrx ntx : Z) : bool :=
  let d := dma_devs s dev in
  let own dirn (tbl : Z -> option Z) k :=
    match tbl k with
    | Some n => (0 <=? n) && (n <? MAX_DMA_CHANNEL_NUM) && (dir (dma_chan s n) =? dirn)
                && match dma_dev (dma_chan s n) with Some x => x =? dev | None => false end
    | None => false
    end in
  (max_rx_chan_num d =? nrx) && (max_tx_chan_num d =? ntx)
  && forallb (own DANUBE_DMA_RX (rx_chan d)) (below nrx)
  && forallb (own DANUBE_DMA_TX (tx_chan d)) (below ntx).

(** The index a channel reports is its index in its device's table. *)
Definition index_reported (s : dma_state) (n : Z) : bool :=
  match dma_dev (dma_chan s n) with
  | Some dev =>
      let d := dma_devs s dev in
      match (if dir (dma_chan s n) =? DANUBE_DMA_RX then rx_chan d else tx_chan d) (rel_chan_no (dma_chan s n)) with
      | Some m => m =? n
      | None => false
      end
  | None => false
  end.

Definition granted : Z -> Z := fun _ => 0.


Lemma request_dma_irqs_granted request_irq l : (forall q, request_irq q = 0) ->
  forall i s, request_dma_irqs request_irq l i s = request_dma_irqs granted l i s.
Proof. intros H. induction l as [|x l IH]; intros i s; [done|]. cbn. by rewrite H, IH. Qed.

Lemma map_granted request_irq m s : (forall q, request_irq q = 0) ->
  map_dma_chan request_irq m s = map_dma_chan granted m s.
Proof. intros H. unfold map_dma_chan. by rewrite (request_dma_irqs_granted request_irq). Qed.

(** From any state, when the kernel grants every interrupt line,
    [map_dma_chan] gives each of the six devices its channels (four of each
    direction to PPE, two to DEU, one to the others), each of which knows its
    device and direction, is off, and has its own line.  A channel reports its
    index in its device's table, but for the two of MCTRL1: these report 1 and
    are entry 0, and entry 1 is whatever it was before. *)
Theorem map_dma_chan_mapped request_irq s :
  (forall q, request_irq q = 0) ->
  exists s', map_dma_chan request_irq default_dma_map s = (IFX_SUCCESS, s') /\
    device_mapped s' 0 4 4 = true /\ device_mapped s' 1 2 2 = true /\ device_mapped s' 2 1 1 = true /\
    device_mapped s' 3 1 1 = true /\ device_mapped s' 4 1 1 = true /\ device_mapped s' 5 1 1 = true /\
    (forall n, 0 <= n < MAX_DMA_CHANNEL_NUM ->
       control (dma_chan s' n) = DANUBE_DMA_CH_OFF /\ irq (dma_chan s' n) = chan_irq n /\
       weight (dma_chan s' n) = 100) /\
    (forall n, 0 <= n < 18 -> index_reported s' n = true) /\
    rel_chan_no (dma_chan s' 18) = 1 /\ rx_chan (dma_devs s' 5) 0 = Some 18 /\
    rx_chan (dma_devs s' 5) 1 = rx_chan (dma_devs s 5) 1 /\
    rel_chan_no (dma_chan s' 19) = 1 /\ tx_chan (dma_devs s' 5) 0 = Some 19 /\
    tx_chan (dma_devs s' 5) 1 = tx_chan (dma_devs s 5) 1.
Proof.
  intros H. rewrite (map_granted request_irq) by done. exists (snd (map_dma_chan granted default_dma_map s)).
  split; [vm_compute; reflexivity|]. do 6 (split; [vm_compute; reflexivity|]). split; [|split].
  - intros n Hn.
    assert (E : forallb (fun n => let c := dma_chan (snd (map_dma_chan granted default_dma_map s)) n in
      (control c =? DANUBE_DMA_CH_OFF) && (irq c =? chan_irq n) && (weight c =? 100))
      (below MAX_DMA_CHANNEL_NUM) = true) by (vm_compute; reflexivity).
    apply (below_forall _ _ E) in Hn. cbv beta zeta in Hn.
    apply andb_true_iff in Hn as [[H1 H2]%andb_true_iff H3].
    apply Z.eqb_eq in H1, H2, H3. exact (conj H1 (conj H2 H3)).
  - apply below_forall. vm_compute. reflexivity.
  - split_and!; vm_compute; reflexivity.
Qed.

Lemma map_dma_chan_mapped_witness :
  exists s', map_dma_chan granted default_dma_map cleared = (IFX_SUCCESS, s') /\
    device_mapped s' 0 4 4 = true /\ rx_chan (dma_devs s' 5) 1 = None.
Proof.
  destruct (map_dma_chan_mapped granted cleared) as (s' & E & H0 & _ & _ & _ & _ & _ & _ & _ & _ & _ & H & _);
    [reflexivity|].
  exists s'. split; [exact E|]. split; [exact H0|exact H].
Defined.

(** ** Reserving a device *)

Lemma reserve_loop_spec name fuel : forall i s,
  (exists j, i <= j < i + Z.of_nat fuel /\ name = device_name (dma_devs s j) /\
     (forall k, i <= k < j -> name <> device_name (dma_devs s k)) /\
     reserve_loop fuel i name s =
       if reserved (dma_devs s j) =? 0 then (Some j, upd_dev j (set_reserved 1) s) else (None, s)) \/
  ((forall k, i <= k < i + Z.of_nat fuel -> name <> device_name (dma_devs s k)) /\
   reserve_loop fuel i name s = (Some (i + Z.of_nat fuel), s)).
Proof.
  induction fuel as [|fuel IH]; intros i s.
  - right. split; [lia|]. cbn. by rewrite Z.add_0_r.
  - cbn [reserve_loop]. destruct (String.eqb_spec name (device_name (dma_devs s i))) as [E|E].
    + left. exists i. split_and!; [lia|lia|done|lia|]. by destruct (_ =? 0).
    + destruct (IH (i + 1) s) as [(j & Hj & En & Hlt & Er)|[Hall Er]].
      * left. exists j. split_and!; [lia|lia|done| |done]. intros k Hk.
        destruct (decide (k = i)) as [->|]; [done|]. apply Hlt. lia.
      * right. rewrite Er. split; [|f_equal; f_equal; lia]. intros k Hk.
        destruct (decide (k = i)) as [->|]; [done|]. apply Hall. lia.
Qed.

(** [dma_device_reserve] finds the first device of the name: it is refused when
    reserved, else it becomes the caller's alone until [dma_device_release], so
    that until then the name is refused.  For a name no device has the result is
    not null but a pointer to the element past the six devices, and nothing is
    reserved. *)
Theorem reserve_outcomes name s :
  (exists dev, 0 <= dev < MAX_DMA_DEVICE_NUM /\ name = device_name (dma_devs s dev) /\
     (forall k, 0 <= k < dev -> name <> device_name (dma_devs s k)) /\
     if reserved (dma_devs s dev) =? 0 then
       exists s', dma_device_reserve name s = (Some dev, s') /\
         dma_device_reserve name s' = (None, s') /\
         fst (dma_device_reserve name (snd (dma_device_release dev s'))) = Some dev
     else dma_device_reserve name s = (None, s)) \/
  ((forall k, 0 <= k < MAX_DMA_DEVICE_NUM -> name <> device_name (dma_devs s k)) /\
   dma_device_reserve name s = (Some MAX_DMA_DEVICE_NUM, s)).
Proof.
  unfold dma_device_reserve.
  destruct (reserve_loop_spec name (Z.to_nat MAX_DMA_DEVICE_NUM) 0 s) as [(j & Hj & En & Hlt & Er)|[Hall Er]];
    [left|right; by split].
  exists j. split_and!; [apply Hj|apply Hj|done|done|].
  destruct (reserved (dma_devs s j) =? 0) eqn:E; [|done]. eexists. split; [exact Er|].
  set (s1 := upd_dev j (set_reserved 1) s). set (s2 := snd (dma_device_release j s1)).
  assert (Hname : forall k, device_name (dma_devs s1 k) = device_name (dma_devs s k) /\
    device_name (dma_devs s2 k) = device_name (dma_devs s k)).
  { intros k. subst s2 s1. unfold dma_device_release. dproj. unfold gupd.
    destruct (k =? j) eqn:Ek; [|done]. apply Z.eqb_eq in Ek as ->. by rewrite Z.eqb_refl. }
  assert (Hres : reserved (dma_devs s1 j) = 1 /\ reserved (dma_devs s2 j) = 0).
  { subst s2 s1. unfold dma_device_release. dproj. by rewrite !gupd_eq. }
  assert (Hfind : forall t, (forall k, device_name (dma_devs t k) = device_name (dma_devs s k)) ->
    reserve_loop (Z.to_nat MAX_DMA_DEVICE_NUM) 0 name t =
      if reserved (dma_devs t j) =? 0 then (Some j, upd_dev j (set_reserved 1) t) else (None, t)).
  { intros t Ht. destruct (reserve_loop_spec name (Z.to_nat MAX_DMA_DEVICE_NUM) 0 t)
      as [(j' & Hj' & En' & Hlt' & ->)|[Hall _]].
    - rewrite Ht in En'. assert (j' = j) as ->; [|done].
      destruct (Z.lt_trichotomy j' j) as [Hl|[Hl|Hl]]; [|done|].
      + exfalso. by apply (Hlt j'); [lia|].
      + exfalso. apply (Hlt' j); [lia|]. by rewrite Ht.
    - exfalso. apply (Hall j); [lia|]. by rewrite Ht. }
  rewrite !Hfind by apply Hname. destruct Hres as [-> ->]. done.
Qed.

(** ** The rings in the descriptor page *)

Definition ring_base (page n : Z) : Z := KSEG1ADDR page + n * 200.

Lemma KSEG1ADDR_range page : 0xa0000000 <= KSEG1ADDR page < 0xc0000000.
Proof.
  assert (E : KSEG1ADDR page = 5 * 2 ^ 29 + page mod 2 ^ 29).
  { unfold KSEG1ADDR, CPHYSADDR. change 0x1fffffff with (Z.ones 29). rewrite Z.land_ones, Z.lor_comm by lia.
    apply (lor_shiftl_add 5 _ 29); [lia|]. apply Z.mod_pos_bound. lia. }
  rewrite E. pose proof (Z.mod_pos_bound page (2 ^ 29) ltac:(lia)). lia.
Qed.

Lemma w32_s32_add x y : w32 (s32 x + y) = w32 (x + y).
Proof.
  unfold w32, s32.
  replace ((x + 2 ^ 31) mod 2 ^ 32 - 2 ^ 31 + y) with ((x + 2 ^ 31) mod 2 ^ 32 + (y - 2 ^ 31)) by lia.
  rewrite Z.add_mod_idemp_l by lia. f_equal. lia.
Qed.

Lemma init_rings page s :
  g_desc_list s = KSEG1ADDR page ->
  let s' := fold_left init_ring (below MAX_DMA_CHANNEL_NUM) s in
  g_desc_list s' = KSEG1ADDR page /\ descs s' = descs s /\
  forall n, 0 <= n < MAX_DMA_CHANNEL_NUM ->
    desc_base (dma_chan s' n) = s32 (ring_base page n) /\ desc_len (dma_chan s' n) = 25 /\
    curr_desc (dma_chan s' n) = 0 /\ bank s' n DANUBE_DMA_CDLEN = 25 /\
    bank s' n DANUBE_DMA_CDBA = CPHYSADDR (s32 (ring_base page n)).
Proof.
  intros Hs s'.
  pose proof (fold_below init_ring (fun k t => g_desc_list t = KSEG1ADDR page /\ descs t = descs s /\
    forall n, 0 <= n < k ->
      desc_base (dma_chan t n) = s32 (ring_base page n) /\ desc_len (dma_chan t n) = 25 /\
      curr_desc (dma_chan t n) = 0 /\ bank t n DANUBE_DMA_CDLEN = 25 /\
      bank t n DANUBE_DMA_CDBA = CPHYSADDR (s32 (ring_base page n))) MAX_DMA_CHANNEL_NUM s) as H.
  cbv beta in H. apply H; [done|split_and!; [done|done|lia]|]. clear H s'.
  intros i t Hi (Hg & Hd & IH).
  assert (Eb : s32 (w32 (g_desc_list t + i * DANUBE_DMA_DESCRIPTOR_OFFSET * 8)) = s32 (ring_base page i)).
  { rewrite Hg. unfold DANUBE_DMA_DESCRIPTOR_OFFSET, ring_base. unfold s32, w32.
    rewrite <- (Z.add_mod_idemp_l (_ mod _)), Z.mod_mod, Z.add_mod_idemp_l by lia. do 3 f_equal. lia. }
  split; [done|]. split; [done|]. intros n Hn. unfold init_ring, select_chan, cwr, rd. rewrite Eb.
  destruct (decide (n = i)) as [->|Hne].
  - dproj. rewrite !upd_eq, !gupd_eq. dproj. rewrite ?gupd_eq. by split_and!.
  - specialize (IH n ltac:(lia)). dproj. rewrite !upd_eq, !gupd_ne by done. exact IH.
Qed.

Lemma init_desc_list_rings page s :
  let s' := init_desc_list page s in
  (forall a, descs s' a = if (KSEG1ADDR page <=? a) && (a <? KSEG1ADDR page + 4096) then zero_desc else descs s a) /\
  forall n, 0 <= n < MAX_DMA_CHANNEL_NUM ->
    desc_base (dma_chan s' n) = s32 (ring_base page n) /\ desc_len (dma_chan s' n) = 25 /\
    curr_desc (dma_chan s' n) = 0 /\ bank s' n DANUBE_DMA_CDLEN = 25 /\
    bank s' n DANUBE_DMA_CDBA = CPHYSADDR (s32 (ring_base page n)).
Proof.
  unfold init_desc_list. set (s1 := set_descs _ _).
  destruct (init_rings page s1 eq_refl) as (_ & Hd & Hr). split; [|exact Hr].
  intros a. by rewrite Hd.
Qed.

Lemma init_proc_chan s : dma_chan (init_proc s) = dma_chan s. Proof. reflexivity. Qed.
Lemma init_proc_bank s : bank (init_proc s) = bank s. Proof. reflexivity. Qed.
Lemma init_proc_descs s : descs (init_proc s) = descs s. Proof. reflexivity. Qed.

(** Start-up with a page for the descriptors places the twenty rings of 25
    descriptors in it: every descriptor lies inside the page, no two share an
    address, all are cleared, and each channel's hardware is told the physical
    address and length of its ring.  Without the page start-up fails with
    ENOMEM, without the character device with what its registration says.  That
    some interrupt line was refused is not noticed: then, too, the result is 0. *)
Theorem dma_init_rings request_irq registered sem page s :
  sem <> 0 ->
  exists r s', danube_dma_init request_irq registered sem page s = Some (r, s') /\
    r = (if registered =? 0 then if page =? 0 then - ENOMEM else 0 else registered) /\
    (registered = 0 -> page <> 0 -> forall n j,
       0 <= n < MAX_DMA_CHANNEL_NUM -> 0 <= j < DANUBE_DMA_DESCRIPTOR_OFFSET ->
       let a := desc_at (dma_chan s' n) j in
       KSEG1ADDR page <= a /\ a + 8 <= KSEG1ADDR page + 4096 /\ descs s' a = zero_desc /\
       (forall n' j', 0 <= n' < MAX_DMA_CHANNEL_NUM -> 0 <= j' < DANUBE_DMA_DESCRIPTOR_OFFSET ->
          desc_at (dma_chan s' n') j' = a -> n' = n /\ j' = j) /\
       bank s' n DANUBE_DMA_CDBA = CPHYSADDR (desc_base (dma_chan s' n)) /\
       bank s' n DANUBE_DMA_CDLEN = desc_len (dma_chan s' n)).
Proof.
  intros Hsem. unfold danube_dma_init. destruct (registered =? 0) eqn:Er; cbn [negb].
  2:{ do 2 eexists. split; [reflexivity|]. split; [done|]. intros ->. by cbn in Er. }
  rewrite (proj2 (Z.eqb_neq _ _) Hsem). destruct (page =? 0) eqn:Ep.
  { do 2 eexists. split; [reflexivity|]. split; [done|]. intros _ Hp. by apply Z.eqb_eq in Ep. }
  do 2 eexists. split; [reflexivity|]. split; [done|]. intros _ _ n j Hn Hj.
  rewrite init_proc_descs, init_proc_bank, init_proc_chan. set (s0 := set_g_desc_list page _). clearbody s0.
  destruct (init_desc_list_rings page s0) as [Hd Hr]. set (s2 := init_desc_list page s0) in *.
  pose proof (KSEG1ADDR_range page) as Hk.
  unfold MAX_DMA_CHANNEL_NUM, DANUBE_DMA_DESCRIPTOR_OFFSET in *.
  assert (Ha : forall m k, 0 <= m < 20 -> 0 <= k < 25 -> desc_at (dma_chan s2 m) k = KSEG1ADDR page + m * 200 + 8 * k).
  { intros m k Hm Hk'. destruct (Hr m Hm) as (Eb & _). unfold desc_at. rewrite Eb, w32_s32_add.
    unfold ring_base. apply w32_id. unfold is_u32. lia. }
  cbv zeta. rewrite (Ha n j Hn Hj). destruct (Hr n Hn) as (Eb & El & _ & E1 & E2).
  split_and!; [lia|lia| |intros n' j' Hn' Hj'; rewrite (Ha n' j' Hn' Hj'); lia|by rewrite E2, Eb|by rewrite E1, El].
  rewrite Hd, (proj2 (Z.leb_le _ _)), (proj2 (Z.ltb_lt _ _)) by lia. done.
Qed.

Lemma dma_init_rings_witness :
  exists s', danube_dma_init (fun _ => 1) 0 0x80500000 0x80600000 cleared = Some (0, s') /\
    desc_at (dma_chan s' 3) 4 = 0xa0600278 /\ max_rx_chan_num (dma_devs s' 0) = 0 /\
    descs s' (desc_at (dma_chan s' 3) 4) = zero_desc.
Proof.
  destruct (dma_init_rings (fun _ => 1) 0 0x80500000 0x80600000 cleared) as (r & s' & E & Hr & H); [discriminate|].
  cbn in Hr. subst r. exists s'. split; [exact E|].
  destruct (H eq_refl ltac:(discriminate) 3 4) as (_ & _ & H1 & _); [unfold MAX_DMA_CHANNEL_NUM; lia|
    unfold DANUBE_DMA_DESCRIPTOR_OFFSET; lia|].
  assert (Es : s' = snd (default (0, cleared) (danube_dma_init (fun _ => 1) 0 0x80500000 0x80600000 cleared)))
    by (rewrite E; reflexivity).
  split; [rewrite Es; vm_compute; reflexivity|]. split; [rewrite Es; vm_compute; reflexivity|exact H1].
Defined.

(** ** The buffers of a receive channel *)

(** The buffers a device's allocator has handed out. *)
Fixpoint taken (dev : Z) (l : list dma_event) : list Z :=
  match l with
  | BufAlloc d _ buf :: l => if (d =? dev) && negb (buf =? 0) then buf :: taken dev l else taken dev l
  | _ :: l => taken dev l
  | [] => []
  end.

Lemma taken_app dev l1 l2 : taken dev (l1 ++ l2) = taken dev l1 ++ taken dev l2.
Proof.
  induction l1 as [|e l1 IH]; [done|]. destruct e; cbn; rewrite ?IH; try done.
  by destruct (_ && _).
Qed.

Definition kseg0 (a : Z) : Prop := 0x80000000 <= a < 0xa0000000.

Lemma va_CPHYSADDR a : kseg0 a -> va (CPHYSADDR a) = a.
Proof.
  unfold kseg0, va, CPHYSADDR. intros H. change 0x1fffffff with (Z.ones 29). rewrite Z.land_ones by lia.
  assert (E : a mod 2 ^ 29 = a - 0x80000000) by (symmetry; apply (Z.mod_unique_pos _ _ 4); lia).
  rewrite E, w32_id; unfold is_u32; lia.
Qed.

Lemma rx_fresh_holds off len p : 0 < len < 2 ^ 16 -> holds_buffer (mk_desc (rx_fresh_word off len) p) = true.
Proof.
  intros Hl. unfold holds_buffer.
  assert (E : rx_fresh_word off len = ((off .& 3) .| (DMA_OWN .<< 8)) * 2 ^ 23 + len).
  { unfold rx_fresh_word. change (DMA_OWN .<< 31) with ((DMA_OWN .<< 8) .<< 23).
    rewrite <- Z.shiftl_lor, lor_shiftl_add; change 0xffff with (Z.ones 16); rewrite ?Z.land_ones by lia.
    - by rewrite (Z.mod_small len) by lia.
    - lia.
    - pose proof (Z.mod_pos_bound len (2 ^ 16)). lia. }
  assert (El : data_length (mk_desc (rx_fresh_word off len) p) = len).
  { unfold data_length. cbn [d_word]. rewrite E. change 0xffff with (Z.ones 16). rewrite Z.land_ones by lia.
    set (x := (off .& 3) .| _). replace (x * 2 ^ 23 + len) with (len + (x * 2 ^ 7) * 2 ^ 16) by lia.
    rewrite Z.mod_add by lia. apply Z.mod_small. lia. }
  assert (Eo : OWN (mk_desc (rx_fresh_word off len) p) = DMA_OWN).
  { rewrite OWN_eq. cbn [d_word]. unfold rx_fresh_word. rewrite !Z.lor_spec.
    replace (Z.testbit (DMA_OWN .<< 31) 31) with true by reflexivity. by rewrite orb_true_r. }
  rewrite El, Eo, (proj2 (Z.gtb_lt _ _)) by lia. by rewrite orb_true_r.
Qed.

(** ** Restarting and stopping a channel *)

(** Only registers differ. *)
Definition only_regs (s s' : dma_state) : Prop :=
  dma_chan s' = dma_chan s /\ descs s' = descs s /\ dma_devs s' = dma_devs s /\ devents s' = devents s /\
  client_mem s' = client_mem s.

Section Engine.
Context (settles : Z -> Z -> bool) (n : Z).

Lemma poll_ok b s : settles (rd DANUBE_DMA_CS s) b = true -> exists s', poll settles b s = Some s' /\ only_regs s s'.
Proof. intros H. unfold poll. rewrite H. by eexists. Qed.

Lemma restart_ok c rx s : settles n 1 = true ->
  exists s', restart_channel settles n c rx s = Some s' /\ only_regs s s'.
Proof.
  intros H. unfold restart_channel. set (s1 := if negb _ then _ else _).
  assert (E1 : only_regs s s1 /\ rd DANUBE_DMA_CS s1 = n).
  { subst s1. destruct (negb _); (split; [done|]); unfold rd, cwr; dproj; by rewrite upd_eq. }
  destruct E1 as [Q1 Ecs]. set (s2 := cwr DANUBE_DMA_CCTRL (crd DANUBE_DMA_CCTRL _ .| 2) _).
  destruct (poll_ok 1 s2) as (s3 & -> & Q3); [change (rd DANUBE_DMA_CS s2) with (rd DANUBE_DMA_CS s1); by rewrite Ecs|].
  cbn [mbind option_bind]. eexists. split; [reflexivity|]. unfold only_regs in *.
  change (dma_chan s2) with (dma_chan s1) in Q3. change (descs s2) with (descs s1) in Q3.
  change (dma_devs s2) with (dma_devs s1) in Q3. change (devents s2) with (devents s1) in Q3.
  change (client_mem s2) with (client_mem s1) in Q3.
  destruct rx; intuition (etransitivity; eassumption).
Qed.

Lemma stop_channel_ok s : rd DANUBE_DMA_CS s = n -> settles n 0 = true ->
  exists s', stop_channel settles n s = Some s' /\ only_regs s s'.
Proof.
  intros Ecs H. unfold stop_channel. set (s1 := cwr _ (_ .& _) _).
  destruct (poll_ok 0 s1) as (s2 & E & Q).
  - assert (E : rd DANUBE_DMA_CS s1 = n) by exact Ecs. by rewrite E.
  - exists s2. split; [done|]. exact Q.
Qed.
End Engine.

Section RxBuffers.
Context (kmalloc : Z -> list dma_event -> Z).
Context (client_alloc : Z -> Z -> (Z -> Z) -> list dma_event -> Z * Z * option Z * (Z -> Z)).
Context (settles : Z -> Z -> bool).
Context (dev n : Z).
(** The device's allocator always has a buffer in the cached kernel segment. *)
Context (Halloc : forall len m h, kseg0 (fst (fst (fst (client_alloc dev len m h))))).

(** The state is that of [s] but for channel [n]'s [opt] entries. *)
Definition same_but_opt (s s' : dma_state) : Prop :=
  dma_devs s' = dma_devs s /\ exists f, dma_chan s' n = set_opt f (dma_chan s n).

Lemma same_but_opt_refl s : same_but_opt s s.
Proof. split; [done|]. exists (opt (dma_chan s n)). by destruct (dma_chan s n). Qed.

Lemma fill_ring_spec fuel : forall j s,
  dma_dev (dma_chan s n) = Some dev -> buffer_alloc (dma_devs s dev) = Client ->
  0 <= j -> j + Z.of_nat fuel < 2 ^ 28 ->
  exists s' bufs, fill_ring kmalloc client_alloc fuel j n s = Some s' /\ length bufs = fuel /\
    same_but_opt s s' /\
    (forall i b, bufs !! i = Some b -> kseg0 b /\
       exists off, get_desc s' (dma_chan s n) (j + Z.of_nat i) =
         mk_desc (rx_fresh_word off (packet_size (dma_chan s n))) (CPHYSADDR b)) /\
    (forall k, 0 <= k < j -> get_desc s' (dma_chan s n) k = get_desc s (dma_chan s n) k) /\
    taken dev (devents s') = taken dev (devents s) ++ bufs /\
    given_back dev (devents s') = given_back dev (devents s).
Proof.
  induction fuel as [|fuel IH]; intros j s Hdev Hc Hj Hf.
  - exists s, []. split_and!; try done; [apply same_but_opt_refl|by rewrite app_nil_r].
  - cbn [fill_ring]. rewrite Hdev. cbn [mbind option_bind]. unfold call_buffer_alloc. rewrite Hc.
    pose proof (Halloc (packet_size (dma_chan s n)) (client_mem s) (devents s)) as Hb.
    destruct (client_alloc _ _ _ _) as [[[buf off] o] mem]. cbn [fst] in Hb. cbn [mbind option_bind].
    set (s1 := match o with Some v => _ | None => _ end).
    assert (E1 : same_but_opt s s1 /\ descs s1 = descs s /\
      devents s1 = devents s ++ [BufAlloc dev (packet_size (dma_chan s n)) buf]).
    { subst s1. destruct o as [v|]; [|destruct (same_but_opt_refl s); by repeat split].
      split_and!; try done. split; [done|]. eexists. dproj. by rewrite gupd_eq. }
    destruct E1 as ([Ev [f Ef]] & Ed & Ee). rewrite (proj2 (Z.eqb_neq buf 0)) by (unfold kseg0 in Hb; lia).
    assert (Ea : forall k, desc_at (dma_chan s1 n) k = desc_at (dma_chan s n) k) by by rewrite Ef.
    assert (Ep : packet_size (dma_chan s1 n) = packet_size (dma_chan s n)) by by rewrite Ef.
    set (s2 := upd_desc _ _ _).
    destruct (IH (j + 1) s2) as (s' & bufs & E' & Hlen & [Ev' [g Eg]] & Hnew & Hold & Ht & Hg);
      [change (dma_dev (dma_chan s1 n) = Some dev); by rewrite Ef|change (dma_devs s2) with (dma_devs s1); by rewrite Ev|lia|lia|].
    change (dma_chan s2 n) with (dma_chan s1 n) in *.
    assert (Eget : forall t k, get_desc t (dma_chan s1 n) k = get_desc t (dma_chan s n) k)
      by (intros; unfold get_desc; by rewrite Ea).
    exists s', (buf :: bufs). rewrite E'. split_and!; [done|cbn; by rewrite Hlen| | | | |].
    + split; [by rewrite Ev'|]. exists g. rewrite Eg, Ef. done.
    + intros [|i] b Hi.
      * injection Hi as <-. split; [done|]. exists off. rewrite Z.add_0_r, <- Eget, Hold by lia.
        unfold get_desc. subst s2. dproj. by rewrite Ea, gupd_eq.
      * cbn in Hi. destruct (Hnew i b Hi) as [Hk [off' Ho]]. split; [done|]. exists off'.
        rewrite Eget, Ep in Ho. by replace (j + Z.of_nat (S i)) with (j + 1 + Z.of_nat i) by lia.
    + intros k Hk. rewrite <- Eget, Hold by lia. rewrite Eget. unfold get_desc. subst s2. dproj.
      rewrite gupd_ne by (intros E; apply desc_at_inj in E; lia). by rewrite Ed.
    + rewrite Ht. change (devents s2) with (devents s1 ++ [CacheInv buf (packet_size (dma_chan s n))]).
      rewrite Ee, !taken_app. cbn [taken]. rewrite Z.eqb_refl, (proj2 (Z.eqb_neq buf 0)) by (unfold kseg0 in Hb; lia).
      cbn [andb negb]. by rewrite app_nil_r, <- app_assoc.
    + rewrite Hg. change (devents s2) with (devents s1 ++ [CacheInv buf (packet_size (dma_chan s n))]).
      rewrite Ee, !given_back_app. cbn [given_back]. by rewrite !app_nil_r.
Qed.

Lemma register_rx_spec i s :
  rx_chan (dma_devs s dev) i = Some n -> dma_dev (dma_chan s n) = Some dev ->
  buffer_alloc (dma_devs s dev) = Client -> control (dma_chan s n) = DANUBE_DMA_CH_ON ->
  0 < desc_len (dma_chan s n) < 2 ^ 28 -> settles n 1 = true ->
  exists s' bufs, register_rx kmalloc client_alloc settles dev i s = Some s' /\
    Z.of_nat (length bufs) = desc_len (dma_chan s n) /\ same_but_opt s s' /\
    (forall k b, bufs !! k = Some b -> kseg0 b /\
       exists off, get_desc s' (dma_chan s n) (Z.of_nat k) =
         mk_desc (rx_fresh_word off (packet_size (dma_chan s n))) (CPHYSADDR b)) /\
    taken dev (devents s') = taken dev (devents s) ++ bufs /\
    given_back dev (devents s') = given_back dev (devents s).
Proof.
  intros Hrx Hdev Hc Hon Hlen Hset. unfold register_rx. rewrite Hrx. cbn [mbind option_bind].
  rewrite Hon. change (DANUBE_DMA_CH_ON =? DANUBE_DMA_CH_ON) with true. cbv iota.
  destruct (fill_ring_spec (Z.to_nat (desc_len (dma_chan s n))) 0 s Hdev Hc) as
    (s1 & bufs & -> & Hl & [Ev [f Ec]] & Hnew & _ & Ht & Hg); [lia|lia|]. cbn [mbind option_bind].
  destruct (restart_ok settles n 0x30000 true s1 Hset) as (s2 & -> & Qc & Qd & Qv & Qe & _). cbn [mbind option_bind].
  eexists. exists bufs. split; [reflexivity|]. split; [lia|]. split; [split|split; [|split]].
  - change (dma_devs s2 = dma_devs s). congruence.
  - exists f. change (dma_chan s2 n = set_opt f (dma_chan s n)). by rewrite Qc.
  - intros k b Hk. destruct (Hnew k b Hk) as [Hb [off Ho]]. split; [done|]. exists off.
    rewrite <- Ho. change (descs s2 (desc_at (dma_chan s n) (Z.of_nat k)) = get_desc s1 (dma_chan s n) (Z.of_nat k)).
    by rewrite Qd.
  - change (taken dev (devents s2) = taken dev (devents s) ++ bufs). by rewrite Qe.
  - change (given_back dev (devents s2) = given_back dev (devents s)). by rewrite Qe.
Qed.

Lemma free_desc_holds j s :
  buffer_free (dma_devs s dev) = Client -> holds_buffer (get_desc s (dma_chan s n) j) = true ->
  free_desc dev n j s =
    Some (log (BufFree dev (va (Data_Pointer (get_desc s (dma_chan s n) j))) (opt (dma_chan s n) j)) s).
Proof. intros Hf Hh. unfold free_desc. rewrite Hh. unfold call_buffer_free. by rewrite Hf. Qed.

Lemma free_all l : forall s,
  buffer_free (dma_devs s dev) = Client ->
  (forall j, In j l -> holds_buffer (get_desc s (dma_chan s n) j) = true) ->
  exists s', for_each l (free_desc dev n) s = Some s' /\ dma_chan s' = dma_chan s /\ descs s' = descs s /\
    dma_devs s' = dma_devs s /\
    map fst (given_back dev (devents s')) = map fst (given_back dev (devents s)) ++
      map (fun j => va (Data_Pointer (get_desc s (dma_chan s n) j))) l.
Proof.
  induction l as [|j l IH]; intros s Hf Hh.
  - exists s. split_and!; try done. cbn. by rewrite app_nil_r.
  - cbn [for_each]. rewrite free_desc_holds by (done || (apply Hh; by left)).
    cbn [mbind option_bind]. set (s1 := log _ s).
    destruct (IH s1) as (s' & E & E1 & E2 & E3 & E4); [done|intros k Hk; apply Hh; by right|].
    exists s'. split_and!; [done|done|done|done|]. rewrite E4. subst s1. cbn [log devents set_devents].
    rewrite given_back_app, map_app, <- app_assoc. f_equal. cbn [given_back map]. by rewrite Z.eqb_refl.
Qed.

Lemma unregister_rx_spec i s :
  rx_chan (dma_devs s dev) i = Some n -> buffer_free (dma_devs s dev) = Client ->
  (forall j, 0 <= j < desc_len (dma_chan s n) -> holds_buffer (get_desc s (dma_chan s n) j) = true) ->
  settles n 0 = true ->
  exists s', unregister_rx settles dev i s = Some s' /\ dma_devs s' = dma_devs s /\ descs s' = descs s /\
    (forall j, desc_at (dma_chan s' n) j = desc_at (dma_chan s n) j) /\
    desc_len (dma_chan s' n) = desc_len (dma_chan s n) /\
    map fst (given_back dev (devents s')) = map fst (given_back dev (devents s)) ++
      map (fun j => va (Data_Pointer (get_desc s (dma_chan s n) j))) (below (desc_len (dma_chan s n))).
Proof.
  intros Hrx Hf Hh Hset. unfold unregister_rx. rewrite Hrx. cbn [mbind option_bind].
  set (s1 := wr DANUBE_DMA_CS n _).
  assert (Ecs : rd DANUBE_DMA_CS s1 = n) by (subst s1; unfold rd; dproj; by rewrite upd_eq).
  assert (Ec : dma_chan s1 n = set_control DANUBE_DMA_CH_OFF (set_prev_desc 0 (set_curr_desc 0 (dma_chan s n))))
    by (subst s1; unfold rewind_channel; dproj; by rewrite gupd_eq).
  destruct (stop_channel_ok settles n s1 Ecs Hset) as (s2 & -> & Qc & Qd & Qv & Qe & _). cbn [mbind option_bind].
  assert (Ec2 : dma_chan s2 n = dma_chan s1 n) by by rewrite Qc.
  assert (Eg : forall j, get_desc s2 (dma_chan s2 n) j = get_desc s (dma_chan s n) j).
  { intros j. unfold get_desc. by rewrite Ec2, Ec, Qd. }
  rewrite Ec2, Ec. change (desc_len (set_control _ _)) with (desc_len (dma_chan s n)).
  destruct (free_all (below (desc_len (dma_chan s n))) s2) as (s' & -> & E1 & E2 & E3 & E4).
  - rewrite Qv. exact Hf.
  - intros j Hj%in_below. rewrite Eg. by apply Hh.
  - exists s'. rewrite E1, E2, E3, E4, Qv, Qd, Qe, (map_ext _ _ (fun j => f_equal (fun d => va (Data_Pointer d)) (Eg j))).
    rewrite Ec2, Ec. done.
Qed.
End RxBuffers.

(** C35: Registering a receive channel and unregistering it returns every buffer:
    with an allocator that always has one, registering takes one buffer per
    descriptor, and unregistering, nothing having been received, gives back
    exactly these, in order.  But unregistering leaves the descriptors as they
    are and does not ask whether the channel is on: done twice, it gives every
    buffer back twice. *)
Theorem rx_buffers_returned kmalloc client_alloc settles dev n i s :
  (forall len m h, kseg0 (fst (fst (fst (client_alloc dev len m h))))) ->
  rx_chan (dma_devs s dev) i = Some n -> dma_dev (dma_chan s n) = Some dev ->
  buffer_alloc (dma_devs s dev) = Client -> buffer_free (dma_devs s dev) = Client ->
  control (dma_chan s n) = DANUBE_DMA_CH_ON -> 0 < desc_len (dma_chan s n) < 2 ^ 28 ->
  0 < packet_size (dma_chan s n) < 2 ^ 16 -> settles n 0 = true -> settles n 1 = true ->
  exists s1 s2 s3 bufs,
    register_rx kmalloc client_alloc settles dev i s = Some s1 /\
    unregister_rx settles dev i s1 = Some s2 /\ unregister_rx settles dev i s2 = Some s3 /\
    Z.of_nat (length bufs) = desc_len (dma_chan s n) /\
    taken dev (devents s1) = taken dev (devents s) ++ bufs /\
    map fst (given_back dev (devents s2)) = map fst (given_back dev (devents s)) ++ bufs /\
    map fst (given_back dev (devents s3)) = map fst (given_back dev (devents s)) ++ bufs ++ bufs.
Proof.
  intros Ha Hrx Hdev Hca Hcf Hon Hlen Hps H0 H1.
  destruct (register_rx_spec kmalloc client_alloc settles dev n Ha i s Hrx Hdev Hca Hon Hlen H1)
    as (s1 & bufs & E1 & Hl & [Ev1 [f Ec1]] & Hnew & Ht & Hg).
  assert (Hget : forall j, get_desc s1 (dma_chan s1 n) j = get_desc s1 (dma_chan s n) j)
    by (intros j; unfold get_desc; by rewrite Ec1).
  assert (Hslot : forall j, 0 <= j < desc_len (dma_chan s n) ->
    exists b, bufs !! Z.to_nat j = Some b /\ holds_buffer (get_desc s1 (dma_chan s1 n) j) = true /\
      va (Data_Pointer (get_desc s1 (dma_chan s1 n) j)) = b).
  { intros j Hj. destruct (lookup_lt_is_Some_2 bufs (Z.to_nat j)) as [b Hb]; [lia|]. exists b.
    destruct (Hnew _ _ Hb) as [Hk [off Ho]]. rewrite Z2Nat.id in Ho by lia. rewrite Hget, Ho.
    split_and!; [done|by apply rx_fresh_holds|by apply va_CPHYSADDR]. }
  assert (El1 : desc_len (dma_chan s1 n) = desc_len (dma_chan s n)) by by rewrite Ec1.
  assert (Hbufs : map (fun j => va (Data_Pointer (get_desc s1 (dma_chan s1 n) j))) (below (desc_len (dma_chan s1 n))) = bufs).
  { rewrite El1. apply list_eq. intros k. unfold below. rewrite map_map.
    change (map ?g ?l) with (g <$> l). rewrite list_lookup_fmap.
    destruct (decide (k < Z.to_nat (desc_len (dma_chan s n)))%nat) as [Hk|Hk].
    - rewrite lookup_seq_lt by done. cbn. destruct (Hslot (Z.of_nat k) ltac:(lia)) as (b & Hb & _ & ->).
      by rewrite Nat2Z.id in Hb.
    - rewrite lookup_seq_ge by lia. cbn. symmetry. apply lookup_ge_None_2. lia. }
  destruct (unregister_rx_spec settles dev n i s1) as (s2 & E2 & Ev2 & Ed2 & Ea2 & El2 & G2);
    [by rewrite Ev1..| |done|].
  { intros j Hj. rewrite El1 in Hj. by destruct (Hslot j Hj) as (b & _ & Hh & _). }
  assert (Hget2 : forall j, get_desc s2 (dma_chan s2 n) j = get_desc s1 (dma_chan s1 n) j)
    by (intros j; unfold get_desc; by rewrite Ed2, Ea2).
  destruct (unregister_rx_spec settles dev n i s2) as (s3 & E3 & _ & _ & _ & _ & G3);
    [by rewrite Ev2, Ev1..| |done|].
  { intros j Hj. rewrite El2, El1 in Hj. rewrite Hget2. by destruct (Hslot j Hj) as (b & _ & Hh & _). }
  exists s1, s2, s3, bufs. split_and!; [done..|by rewrite G2, Hg, Hbufs|].
  rewrite G3, (map_ext _ _ (fun j => f_equal (fun d => va (Data_Pointer d)) (Hget2 j))), El2, Hbufs, G2, Hg, Hbufs.
  by rewrite <- app_assoc.
Qed.

Definition kseg0_alloc : Z -> Z -> (Z -> Z) -> list dma_event -> Z * Z * option Z * (Z -> Z) :=
  fun _ _ m h => (0x80800000 + 0x800 * (Z.of_nat (length h) mod 1000), 2, None, m).

Lemma rx_buffers_returned_witness :
  exists s1 s2 s3 bufs,
    register_rx no_kmalloc kseg0_alloc (fun _ _ => true) 0 0 ppe = Some s1 /\
    unregister_rx (fun _ _ => true) 0 0 s1 = Some s2 /\
    unregister_rx (fun _ _ => true) 0 0 s2 = Some s3 /\
    Z.of_nat (length bufs) = 25 /\ map fst (given_back 0 (devents s3)) = bufs ++ bufs.
Proof.
  destruct (rx_buffers_returned no_kmalloc kseg0_alloc (fun _ _ => true) 0 0 0 ppe)
    as (s1 & s2 & s3 & bufs & E1 & E2 & E3 & Hl & _ & _ & H);
    [|vm_compute; intuition discriminate..|].
  - intros len m h. unfold kseg0, kseg0_alloc. cbn [fst].
    pose proof (Z.mod_pos_bound (Z.of_nat (length h)) 1000 ltac:(lia)). lia.
  - exists s1, s2, s3, bufs. split; [exact E1|]. split; [exact E2|]. split; [exact E3|].
    split; [exact Hl|exact H].
Defined.
