(* ===== verification/MemCopy.v ===== *)
(** * Memory copy over DMA ([drivers/char/memcopy.c])

    The two "MCTRL" devices of the DMA driver copy memory: a write to the
    transmit channel comes back on the receive channel into the buffers the
    driver's allocator names.  The file models every operation of the driver as a
    client of [DmaCore], its variables kept in [client_mem], and proves what a
    copy reports.  [schedule] is what the rest of the system does while the
    caller waits.  The bytes themselves, and so the copies from and to the user,
    are not in the model. *)

From Stdlib Require Import String.
From Stdlib Require Import List.
From stdpp Require Import pretty.
From S2P Require Import Prelude Icu DmaCore DmaRing DmaTasklet DmaSetup.
Open Scope Z_scope.

(** ** Variables *)

Definition MAX_BLOCK_SIZE : Z := 65535.
Definition MEMCOPY : Z := 0.

(** The fields of [danube_memcopy[i]]; a pointer to a DMA device is its index
    plus 1, and null is 0.  Cells past the two elements are whatever follows the
    table in memory. *)
Inductive danube_memcopy_device :=
  | dma_device | dst | src | len | dst_count | src_count | recv_count | mc_packet_size.
#[export] Instance danube_memcopy_device_eq_dec : EqDecision danube_memcopy_device.
Proof. solve_decision. Defined.

Definition field (f : danube_memcopy_device) : Z :=
  match f with
  | dma_device => 0 | dst => 1 | src => 2 | len => 3
  | dst_count => 4 | src_count => 5 | recv_count => 6 | mc_packet_size => 7
  end.
Definition cell (i : Z) (f : danube_memcopy_device) : Z := 8 * i + field f.
Definition get (i : Z) (f : danube_memcopy_device) (m : Z -> Z) : Z := m (cell i f).
Definition put (i : Z) (f : danube_memcopy_device) (v : Z) (m : Z -> Z) : Z -> Z := upd m (cell i f) v.
Definition on_mem (f : (Z -> Z) -> Z -> Z) (s : dma_state) : dma_state := set_client_mem (f (client_mem s)) s.

(** The pages [g_src] and [g_dst]. *)
Definition g_src : Z := -1.
Definition g_dst : Z := -2.

Section MemCopy.

(** As in [DmaCore]; [offset1]: what the caller's uninitialised byte offset holds;
    the routines of the drivers of the other devices. *)
Variable kmalloc : Z -> list dma_event -> Z.
Variable settles : Z -> Z -> bool.
Variable offset1 : Z.
Variable other_alloc : Z -> Z -> (Z -> Z) -> list dma_event -> Z * Z * option Z * (Z -> Z).
Variable other_handler : Z -> Z -> dma_state -> option dma_state.
Variable schedule : dma_state -> option dma_state.

(** ** The functions installed in the DMA devices *)

Definition buffer_alloc_of (i byte_offset n : Z) (m : Z -> Z) : Z * Z * option Z * (Z -> Z) :=
  if s32 (get i len m - get i dst_count m) >? 0 then
    let addr := w32 (get i dst m + get i dst_count m) in
    (addr, byte_offset, None, put i dst_count (s32 (get i dst_count m + n)) m)
  else (0, byte_offset, None, m).
Definition memcopy_dma_buffer_alloc0 (n : Z) (m : Z -> Z) := buffer_alloc_of 0 0 n m.
Definition memcopy_dma_buffer_alloc1 (n : Z) (m : Z -> Z) := buffer_alloc_of 1 offset1 n m.

(** "MCTRL0" and "MCTRL1" in the table of the DMA driver. *)
Definition MCTRL0 : Z := 4.
Definition MCTRL1 : Z := 5.

Definition alloc (dev n : Z) (m : Z -> Z) (h : list dma_event) : Z * Z * option Z * (Z -> Z) :=
  if dev =? MCTRL0 then memcopy_dma_buffer_alloc0 n m
  else if dev =? MCTRL1 then memcopy_dma_buffer_alloc1 n m
  else other_alloc dev n m h.

Definition memcopy_dma_buffer_free (dataptr o : Z) : Z := 1.

(** A pointer read from the variables, to be followed. *)
Definition deref (p : Z) : option Z := if p =? 0 then None else Some (p - 1).

Definition memcopy_receive (i : Z) (s : dma_state) : option dma_state :=
  dev ← deref (get i dma_device (client_mem s));
  '(n, _, _, s) ← dma_device_read kmalloc alloc dev false s;
  let s := on_mem (fun m => put i recv_count (s32 (get i recv_count m + n)) m) s in
  if get i recv_count (client_mem s) =? get i len (client_mem s) then
    dev ← deref (get i dma_device (client_mem s));
    '(_, s) ← dma_device_unregister settles dev s;
    let s := snd (dma_device_release dev s) in
    Some (on_mem (put i dma_device 0) s)
  else Some s.

Definition memcopy_dma_intr_handler (dev status : Z) (s : dma_state) : option dma_state :=
  let i := if dev + 1 =? get 0 dma_device (client_mem s) then 0 else 1 in
  if status =? RCV_INT then memcopy_receive i s else Some s.

Definition handler (dev status : Z) (s : dma_state) : option dma_state :=
  if (dev =? MCTRL0) || (dev =? MCTRL1) then memcopy_dma_intr_handler dev status s
  else other_handler dev status s.

(** ** A copy *)

(** At least a byte goes out per turn, so one turn per byte is enough as long as
    the count stays below 2^31.  [p] is the device pointer read before the loop. *)
Fixpoint transmit_loop (fuel : nat) (i p : Z) (s : dma_state) : option dma_state :=
  match fuel with
  | O => None
  | S fuel =>
      let m := client_mem s in
      if get i src_count m <? get i len m then
        let n := if get i len m >? MAX_BLOCK_SIZE then MAX_BLOCK_SIZE else get i len m in
        dev ← deref p;
        '(_, s) ← dma_device_write handler dev (w32 (get i src m + get i src_count m)) n 0 s;
        transmit_loop fuel i p (on_mem (fun m => put i src_count (s32 (get i src_count m + n)) m) s)
      else Some s
  end.
Definition transmit_data (i : Z) (s : dma_state) : option (Z * dma_state) :=
  s ← transmit_loop (S (Z.to_nat (get i len (client_mem s)))) i (get i dma_device (client_mem s)) s;
  Some (get i len (client_mem s), s).

(** One channel in each direction, on, for packets of [n] bytes. *)
Definition configure (dev n : Z) (s : dma_state) : option dma_state :=
  let s := upd_dev dev (fun d =>
    mk_dev (device_name d) (reserved d) (tx_burst_len d) (rx_burst_len d) (dev_default_weight d)
      (current_tx_chan d) (current_rx_chan d) 1 1 (max_rx_chan_num d) (max_tx_chan_num d)
      (tx_chan d) (rx_chan d) (buffer_alloc d) (buffer_free d) (intr_handler d)) s in
  r ← rx_chan (dma_devs s dev) 0;
  let s := upd_chan r (fun c =>
    mk_ch (rel_chan_no c) (pri c) (byte_offset c) (dir c) (irq c) (desc_base c) (desc_len c)
      (curr_desc c) (prev_desc c) (weight c) (default_weight c) n (burst_len c)
      DANUBE_DMA_CH_ON (opt c) (dma_dev c) (ch_ops c)) s in
  t ← tx_chan (dma_devs s dev) 0;
  let s := upd_chan t (set_control DANUBE_DMA_CH_ON) s in
  Some (upd_dev dev (fun d =>
    mk_dev (device_name d) (reserved d) (tx_burst_len d) (rx_burst_len d) (dev_default_weight d)
      (current_tx_chan d) (current_rx_chan d) (num_tx_chan d) (num_rx_chan d) (max_rx_chan_num d)
      (max_tx_chan_num d) (tx_chan d) (rx_chan d) Client Client Client) s).

Definition open_rx (dev k : Z) (s : dma_state) : option dma_state :=
  n ← rx_chan (dma_devs s dev) k;
  if control (dma_chan s n) =? DANUBE_DMA_CH_ON then
    if ch_ops (dma_chan s n) then Some (snd (open_chan n s)) else None
  else Some s.

(** The caller looks 100 times, letting others run in between. *)
Fixpoint wait_loop (turns : nat) (i : Z) (s : dma_state) : option dma_state :=
  match turns with
  | O => Some s
  | S turns =>
      if get i recv_count (client_mem s) =? get i len (client_mem s) then Some s
      else s ← schedule s; wait_loop turns i s
  end.

Definition start_copy (i d sr n : Z) (m : Z -> Z) : Z -> Z :=
  put i mc_packet_size (if n >? MAX_BLOCK_SIZE then MAX_BLOCK_SIZE else n)
    (put i recv_count 0 (put i dst_count 0 (put i src_count 0
      (put i len n (put i dst d (put i src sr m)))))).

Definition danube_dma_memcopy (i d sr n : Z) (s : dma_state) : option (Z * dma_state) :=
  let s := on_mem (start_copy i d sr n) s in
  dev ← deref (get i dma_device (client_mem s));
  s ← configure dev (get i mc_packet_size (client_mem s)) s;
  '(_, s) ← dma_device_register kmalloc alloc settles dev s;
  s ← for_each (below (max_rx_chan_num (dma_devs s dev))) (open_rx dev) s;
  '(_, s) ← transmit_data i s;
  s ← wait_loop 99 i s;
  Some (if get i recv_count (client_mem s) =? get i len (client_mem s) then 1 else 0, s).

(** ** The character device *)

Definition mctrl_name (num : Z) : string := ("MCTRL" ++ pretty num)%string.

(** [from_kernel]: called with 0 or 1 for the inode.  The result, the element kept
    in [private_data], and the state. *)
Definition memcopy_open (from_kernel : bool) (num : Z) (s : dma_state) : Z * option Z * dma_state :=
  let '(r, s) := dma_device_reserve (mctrl_name num) s in
  match r with
  | None => (-1, None, s)
  | Some dev =>
      let s := on_mem (put num dma_device (dev + 1)) s in
      let s := set_mod_use (mod_use s + 1) s in
      if from_kernel then (num, None, s) else (1, Some num, s)
  end.

Definition memcopy_release (private_data : option Z) (s : dma_state) : option (Z * dma_state) :=
  i ← private_data;
  let p := get i dma_device (client_mem s) in
  let s := if negb (p =? 0) then snd (dma_device_release (p - 1) s) else s in
  Some (0, set_mod_use (mod_use s - 1) s).

Definition memcopy_write (count : Z) : Z := count.
Definition memcopy_read (count : Z) : Z := 0.

(** [req_len]: the length in the request copied from the user. *)
Definition memcopy_ioctl (cmd req_len : Z) (private_data : option Z) (s : dma_state)
  : option (Z * dma_state) :=
  if cmd =? MEMCOPY then
    i ← private_data;
    '(result, s) ← danube_dma_memcopy i (client_mem s g_dst) (client_mem s g_src) req_len s;
    let p := get i dma_device (client_mem s) in
    if negb (p =? 0) then '(_, s) ← dma_device_unregister settles (p - 1) s; Some (result, s)
    else Some (result, s)
  else Some (0, s).

(** [registered]: the answer of [register_chrdev]; [page1], [page2]: the pages. *)
Definition memcopy_init (registered page1 page2 : Z) (s : dma_state) : Z * dma_state :=
  if registered <? 0 then (registered, s)
  else (0, on_mem (fun m => upd (upd m g_src (KSEG1ADDR page1)) g_dst (KSEG1ADDR page2)) s).
Definition memcopy_cleanup (s : dma_state) : dma_state :=
  log (FreePage (client_mem s g_dst)) (log (FreePage (client_mem s g_src)) (log UnregisterChrdev s)).

End MemCopy.

(** ** A copy in progress *)

Lemma cell_inj i j f g : cell i f = cell j g -> i = j /\ f = g.
Proof. unfold cell. destruct f, g; cbn [field]; intros E; split; (lia || reflexivity || (exfalso; lia)). Qed.

Lemma get_put i j f g v m :
  get i f (put j g v m) = if decide (i = j /\ f = g) then v else get i f m.
Proof.
  unfold get, put, upd. destruct (decide (i = j /\ f = g)) as [[-> ->]|H]; [by rewrite Z.eqb_refl|].
  destruct (_ =? _) eqn:E; [|done]. exfalso. apply H, cell_inj. by apply Z.eqb_eq.
Qed.

(** [put_simpl]: read a field after others were stored. *)
Ltac put_simpl :=
  rewrite ?get_put;
  repeat first [rewrite decide_True by done
               | rewrite decide_False by (intros [? ?]; discriminate)].

(** The first device copies [n] bytes for which its allocator has handed out all
    the memory, and nothing has been counted as received.  The other memory copy
    device has no handler. *)
Record copying (n : Z) (s : dma_state) : Prop := {
  cp_dev : get 0 dma_device (client_mem s) = MCTRL0 + 1;
  cp_len : get 0 len (client_mem s) = n;
  cp_recv : get 0 recv_count (client_mem s) = 0;
  cp_count : n <= get 0 dst_count (client_mem s) <= MAX_BLOCK_SIZE;
  cp_alloc : buffer_alloc (dma_devs s MCTRL0) = Client;
  cp_other : intr_handler (dma_devs s MCTRL1) = Null
}.

Lemma copying_ext n s s' :
  client_mem s' = client_mem s -> buffer_alloc (dma_devs s' MCTRL0) = buffer_alloc (dma_devs s MCTRL0) ->
  intr_handler (dma_devs s' MCTRL1) = intr_handler (dma_devs s MCTRL1) -> copying n s -> copying n s'.
Proof. intros E1 E2 E3 []. constructor; congruence. Qed.

Lemma copying_current n s dev f :
  (forall d, buffer_alloc (f d) = buffer_alloc d /\ intr_handler (f d) = intr_handler d) ->
  copying n s -> copying n (upd_dev dev f s).
Proof.
  intros Hf. apply copying_ext; [done|..]; dproj; unfold gupd; destruct (_ =? dev) eqn:E; try done;
    apply Z.eqb_eq in E; subst dev; apply Hf.
Qed.

Section Copy.
Context (kmalloc : Z -> list dma_event -> Z) (settles : Z -> Z -> bool) (offset1 : Z).
Context (other_alloc : Z -> Z -> (Z -> Z) -> list dma_event -> Z * Z * option Z * (Z -> Z)).
Context (other_handler : Z -> Z -> dma_state -> option dma_state).

#[local] Abbreviation alloc := (alloc offset1 other_alloc).
#[local] Abbreviation handler := (handler kmalloc settles offset1 other_alloc other_handler).

Lemma copying_no_buffer n len s : 0 < n -> copying n s ->
  call_buffer_alloc kmalloc alloc MCTRL0 len s =
    Some (0, 0, None, log (BufAlloc MCTRL0 len 0) (set_client_mem (client_mem s) s)).
Proof.
  intros Hn [_ Hl _ Hc Ha _]. unfold call_buffer_alloc. rewrite Ha. unfold MemCopy.alloc.
  change (MCTRL0 =? MCTRL0) with true. unfold memcopy_dma_buffer_alloc0, buffer_alloc_of. rewrite Hl.
  unfold MAX_BLOCK_SIZE in *. destruct (_ >? 0) eqn:E; [|done]. apply Z.gtb_lt in E.
  unfold s32 in E. rewrite Z.mod_small in E by lia. lia.
Qed.

(** A packet that has arrived is not counted: no buffer can replace its own. *)
Lemma copying_read n s r d o s' : 0 < n -> copying n s ->
  dma_device_read kmalloc alloc MCTRL0 false s = Some (r, d, o, s') -> r = 0 /\ copying n s'.
Proof.
  intros Hn Hcp. unfold dma_device_read. destruct (rx_chan _ _) as [c|]; [|done]. cbn [mbind option_bind].
  destruct (negb _); [by intros [= <- _ _ <-]|]. rewrite (copying_no_buffer n) by done. cbn [mbind option_bind].
  change (negb (0 =? 0)) with false. cbv iota. intros [= <- _ _ <-]. split; [done|].
  eapply copying_ext; [| | |exact Hcp]; by destruct (_ =? _).
Qed.

Context (n : Z) (Hn : 0 < n).
(** The drivers of the other devices leave this one alone. *)
Context (Hother : forall dev st s s', dev <> MCTRL0 -> other_handler dev st s = Some s' ->
  copying n s -> copying n s').

Lemma copying_handler dev st s s' : dev <> MCTRL1 ->
  handler dev st s = Some s' -> copying n s -> copying n s'.
Proof.
  intros Hdev. unfold MemCopy.handler. rewrite (proj2 (Z.eqb_neq dev MCTRL1) Hdev), orb_false_r.
  destruct (dev =? MCTRL0) eqn:E; bool_prop; [|intros Eh; by apply (Hother _ _ _ _ E Eh)].
  subst dev. intros Eh Hcp. unfold memcopy_dma_intr_handler in Eh. rewrite (cp_dev _ _ Hcp) in Eh.
  change (MCTRL0 + 1 =? MCTRL0 + 1) with true in Eh. cbv iota in Eh.
  destruct (_ =? RCV_INT); [|by injection Eh as <-].
  unfold memcopy_receive in Eh. rewrite (cp_dev _ _ Hcp) in Eh. change (deref (MCTRL0 + 1)) with (Some MCTRL0) in Eh.
  cbn [mbind option_bind] in Eh.
  destruct (dma_device_read _ _ _ _ _) as [[[[r d] o] t]|] eqn:Er; [|done]. cbn [mbind option_bind] in Eh.
  destruct (copying_read _ _ _ _ _ _ Hn Hcp Er) as [-> Ht]. pose proof Ht as [Hd Hl Hr Hc Ha Ho].
  unfold on_mem in Eh. cbn [client_mem set_client_mem] in Eh. rewrite Hr in Eh.
  change (s32 (0 + 0)) with 0 in Eh. revert Eh. put_simpl. rewrite Hl.
  rewrite (proj2 (Z.eqb_neq 0 n)) by lia. intros [= <-].
  constructor; cbn [client_mem set_client_mem]; put_simpl; done.
Qed.

Lemma copying_call dev st s s' :
  (if has_handler dev s then call_intr_handler handler dev st s else Some s) = Some s' ->
  copying n s -> copying n s'.
Proof.
  intros E Hcp. unfold has_handler, call_intr_handler in E.
  assert (Hdev : dev = MCTRL1 -> intr_handler (dma_devs s dev) = Null) by (intros ->; apply Hcp).
  destruct (decide (dev = MCTRL1)) as [Ed|Ed]; [rewrite Hdev in E by done; by injection E as <-|].
  destruct (intr_handler _); [by injection E as <-|..];
    (apply (copying_handler _ _ _ _ Ed E); by apply (copying_ext n s)).
Qed.

Lemma copying_serve c s s' : serve handler c s = Some s' -> copying n s -> copying n s'.
Proof.
  unfold serve. intros E Hcp.
  assert (Hcur : forall dev f, (forall d, buffer_alloc (f d) = buffer_alloc d /\ intr_handler (f d) = intr_handler d) ->
    copying n (upd_dev dev f s)) by (intros; by apply copying_current).
  destruct (c >=? 0).
  - destruct (_ =? DANUBE_DMA_RX).
    + unfold rx_chan_intr_handler in E. destruct (_ && _); cbn [andb] in E.
      * destruct (dma_dev _) as [dev|]; [|done]. cbn [mbind option_bind] in E.
        destruct (if has_handler _ _ then _ else _) as [t|] eqn:Et; [|done]. apply (inj Some) in E as <-.
        apply (copying_ext n t); [done..|]. eapply copying_call; [exact Et|]. by apply Hcur.
      * apply (inj Some) in E as <-. destruct (negb _); by apply (copying_ext n s).
    + unfold tx_chan_intr_handler in E. destruct (dma_dev _) as [dev|]; [|done]. cbn [mbind option_bind] in E.
      eapply copying_call; [exact E|]. apply copying_current; [done|]. by apply (copying_ext n s).
  - injection E as <-. unfold reset_weights. generalize (below MAX_DMA_CHANNEL_NUM). intros l. revert s Hcp Hcur.
    induction l as [|i l IH]; intros s Hcp _; [done|]. cbn [fold_left]. apply IH; [by apply (copying_ext n s)|].
    intros; apply copying_current; [done|]. by apply (copying_ext n s).
Qed.

Lemma copying_step x y : tstep handler x y -> copying n (snd x) -> copying n (snd y).
Proof.
  intros Hs Hcp. destruct Hs; cbn [snd] in *; try (by apply (copying_ext n s)).
  - by eapply copying_serve.
  - unfold tasklet_end. destruct (negb _); by apply (copying_ext n s).
  - unfold dma_interrupt. destruct (_ =? 0); by apply (copying_ext n s).
Qed.

Lemma copying_steps x y : rtc (tstep handler) x y -> copying n (snd x) -> copying n (snd y).
Proof. induction 1; eauto using copying_step. Qed.
End Copy.

(** ** What a copy reports *)

(** The first device opened, with its channels as start-up leaves them. *)
Record mc_ready (s : dma_state) : Prop := {
  mr_dev : get 0 dma_device (client_mem s) = MCTRL0 + 1;
  mr_tx : tx_chan (dma_devs s MCTRL0) 0 = Some 17 /\ max_tx_chan_num (dma_devs s MCTRL0) = 1 /\
    current_tx_chan (dma_devs s MCTRL0) = 0 /\ 0 < tx_burst_len (dma_devs s MCTRL0) <= 8;
  mr_rx : rx_chan (dma_devs s MCTRL0) 0 = Some 16 /\ max_rx_chan_num (dma_devs s MCTRL0) = 1;
  mr_16 : dma_dev (dma_chan s 16) = Some MCTRL0 /\ desc_len (dma_chan s 16) = 25 /\ ch_ops (dma_chan s 16) = true;
  mr_17 : desc_len (dma_chan s 17) = 25 /\ curr_desc (dma_chan s 17) = 0 /\ prev_desc (dma_chan s 17) = 0 /\
    ch_ops (dma_chan s 17) = true;
  mr_rings : forall j, 0 <= j < 25 -> desc_at (dma_chan s 17) j <> desc_at (dma_chan s 16) 0;
  mr_other : intr_handler (dma_devs s MCTRL1) = Null
}.

Section Report.
Context (kmalloc : Z -> list dma_event -> Z) (settles : Z -> Z -> bool) (offset1 : Z).
Context (other_alloc : Z -> Z -> (Z -> Z) -> list dma_event -> Z * Z * option Z * (Z -> Z)).
Context (other_handler : Z -> Z -> dma_state -> option dma_state).
Context (Hsettles : forall m b, settles m b = true).

#[local] Abbreviation alloc := (alloc offset1 other_alloc).
#[local] Abbreviation handler := (handler kmalloc settles offset1 other_alloc other_handler).

(** The state once the channels are configured for [n] bytes. *)
Record configured (n : Z) (s : dma_state) : Prop := {
  cf_ready : mc_ready s;
  cf_16 : control (dma_chan s 16) = DANUBE_DMA_CH_ON /\ packet_size (dma_chan s 16) = n;
  cf_17 : control (dma_chan s 17) = DANUBE_DMA_CH_ON;
  cf_fns : buffer_alloc (dma_devs s MCTRL0) = Client /\ buffer_free (dma_devs s MCTRL0) = Client /\
    intr_handler (dma_devs s MCTRL0) = Client
}.

Lemma configure_ready n s : mc_ready s ->
  exists s', configure MCTRL0 n s = Some s' /\ configured n s' /\ client_mem s' = client_mem s.
Proof.
  intros [Hd (Ht1 & Ht2 & Ht3 & Ht4) [Hr1 Hr2] (H161 & H162 & H163) (H171 & H172 & H173 & H174) Hring Ho].
  unfold configure. dproj. rewrite !gupd_eq. dproj. rewrite Hr1. dproj. rewrite Ht1. dproj.
  eexists. split; [reflexivity|]. split; [|reflexivity].
  constructor; [constructor|..]; dproj; rewrite ?gupd_eq; dproj; try done.
Qed.

Lemma configured_ext n s s' :
  dma_chan s' = dma_chan s -> dma_devs s' = dma_devs s ->
  get 0 dma_device (client_mem s') = get 0 dma_device (client_mem s) -> configured n s -> configured n s'.
Proof. intros E1 E2 E3 [[] ???]. constructor; [constructor|..]; rewrite ?E1, ?E2, ?E3; done. Qed.

(** Clearing the transmit ring. *)
Lemma clear_ring k l : forall s,
  let s' := fold_left (fun s j => upd_desc (desc_at (dma_chan s k) j) zero_desc s) l s in
  dma_chan s' = dma_chan s /\ dma_devs s' = dma_devs s /\ client_mem s' = client_mem s /\
  (forall j, get_desc s (dma_chan s k) j = zero_desc \/ In j l -> get_desc s' (dma_chan s k) j = zero_desc).
Proof.
  induction l as [|i l IH]; intros s; [by split_and!; intuition|]. cbn [fold_left].
  destruct (IH (upd_desc (desc_at (dma_chan s k) i) zero_desc s)) as (Q1 & Q2 & Q3 & Hz). split_and!; [done..|].
  intros j Hj. apply Hz. unfold get_desc. dproj. unfold gupd. destruct (_ =? _) eqn:E; [by left|].
  destruct Hj as [Hj|[->|Hj]]; [by left|by rewrite Z.eqb_refl in E|by right].
Qed.

(** The transmit ring is empty. *)
Definition tx_cleared (s : dma_state) : Prop :=
  forall j, 0 <= j < 25 -> get_desc s (dma_chan s 17) j = zero_desc.

Lemma register_tx_restart n s : configured n s ->
  exists s1, register_tx settles MCTRL0 0 s = restart_channel settles 17 0x30100 false s1 /\
    dma_chan s1 = dma_chan s /\ dma_devs s1 = dma_devs s /\ client_mem s1 = client_mem s /\
    tx_cleared s1.
Proof.
  intros [[_ (Ht & _) _ _ (Hl & _) _ _] _ Hon _]. pose proof (clear_ring 17 (below 25) s) as Q. cbv zeta in Q.
  destruct Q as (Q1 & Q2 & Q3 & Hz). eexists. split; [|split; [exact Q1|split; [exact Q2|split; [exact Q3|]]]].
  - unfold register_tx. rewrite Ht. cbn [mbind option_bind]. rewrite Hon, Hl. reflexivity.
  - intros j Hj. rewrite Q1. apply Hz. right. by apply in_below.
Qed.

Lemma register_tx_ready n s : configured n s ->
  exists s', register_tx settles MCTRL0 0 s = Some s' /\ configured n s' /\ tx_cleared s' /\
    client_mem s' = client_mem s.
Proof.
  intros Hc. destruct (register_tx_restart n s Hc) as (s1 & -> & Q1 & Q2 & Q3 & Hz).
  destruct (restart_ok settles 17 0x30100 false s1) as (s2 & E & P1 & P2 & P3 & _ & P5); [done|].
  exists s2. split; [exact E|]. split; [apply (configured_ext n s); [congruence..|done]|]. split; [|congruence].
  intros j Hj. unfold get_desc. rewrite P1, P2. by apply Hz.
Qed.

(** The allocator names the caller's buffer once, then no other. *)
Lemma first_buffer n d l m :
  0 < n <= MAX_BLOCK_SIZE -> get 0 len m = n -> get 0 dst_count m = 0 -> get 0 dst m = d -> 0 < d < 2 ^ 32 ->
  alloc MCTRL0 n m l = (d, 0, None, put 0 dst_count n m) /\
  alloc MCTRL0 n (put 0 dst_count n m) l = (0, 0, None, put 0 dst_count n m).
Proof.
  intros Hn Hl Hc Hd Hr. unfold MAX_BLOCK_SIZE in Hn. unfold MemCopy.alloc.
  change (MCTRL0 =? MCTRL0) with true. unfold memcopy_dma_buffer_alloc0, buffer_alloc_of. put_simpl.
  rewrite Hl, Hc, Hd, Z.sub_diag, Z.sub_0_r, Z.add_0_r, Z.add_0_l, (w32_id d) by (unfold is_u32; lia).
  assert (E : s32 n = n) by (unfold s32; rewrite Z.mod_small by lia; lia).
  rewrite E, (proj2 (Z.gtb_lt _ _)) by lia. done.
Qed.

Lemma call_client_alloc dev len s b off o m :
  buffer_alloc (dma_devs s dev) = Client -> alloc dev len (client_mem s) (devents s) = (b, off, o, m) ->
  call_buffer_alloc kmalloc alloc dev len s = Some (b, off, o, log (BufAlloc dev len b) (set_client_mem m s)).
Proof. intros H E. unfold call_buffer_alloc. by rewrite H, E. Qed.

Lemma fill_ring_once n d s fuel :
  0 < n <= MAX_BLOCK_SIZE -> configured n s ->
  get 0 len (client_mem s) = n -> get 0 dst_count (client_mem s) = 0 ->
  get 0 dst (client_mem s) = d -> 0 < d < 2 ^ 32 ->
  exists s' w, fill_ring kmalloc alloc (S (S fuel)) 0 16 s = Some s' /\
    dma_chan s' = dma_chan s /\ dma_devs s' = dma_devs s /\
    descs s' = gupd (descs s) (desc_at (dma_chan s 16) 0) w /\
    client_mem s' = put 0 dst_count n (client_mem s).
Proof.
  intros Hn [[_ _ _ (Hdev & _) _ _ _] (_ & Hps) _ (Hal & _)] Hl Hc Hd Hr.
  pose proof (fun l => proj1 (first_buffer n d l (client_mem s) Hn Hl Hc Hd Hr)) as H1.
  pose proof (fun l => proj2 (first_buffer n d l (client_mem s) Hn Hl Hc Hd Hr)) as H2.
  cbn [fill_ring]. rewrite Hdev. cbn [mbind option_bind].
  rewrite Hps, (call_client_alloc _ _ _ _ _ _ _ Hal (H1 _)). cbn [mbind option_bind].
  rewrite (proj2 (Z.eqb_neq d 0)) by lia. set (s2 := upd_desc _ _ _).
  change (dma_dev (dma_chan s2 16)) with (dma_dev (dma_chan s 16)). rewrite Hdev. cbn [mbind option_bind].
  change (packet_size (dma_chan s2 16)) with (packet_size (dma_chan s 16)).
  rewrite Hps, (call_client_alloc _ _ s2 _ _ _ _ Hal (H2 _)). cbn [mbind option_bind].
  change (0 =? 0) with true. cbv iota. do 2 eexists. split; [reflexivity|]. done.
Qed.

(** After the receive channel is registered the allocator is exhausted. *)
Lemma register_rx_ready n d s :
  0 < n <= MAX_BLOCK_SIZE -> configured n s -> tx_cleared s ->
  get 0 len (client_mem s) = n -> get 0 dst_count (client_mem s) = 0 ->
  get 0 dst (client_mem s) = d -> 0 < d < 2 ^ 32 ->
  exists s', register_rx kmalloc alloc settles MCTRL0 0 s = Some s' /\ configured n s' /\ tx_cleared s' /\
    client_mem s' = put 0 dst_count n (client_mem s).
Proof.
  intros Hn Hc Hclr Hlen Hcount Hdst Hd.
  pose proof Hc as [[Hme _ (Hr & _) (_ & Hl & _) _ Hring _] (Hon & _) _ _].
  unfold register_rx. rewrite Hr. cbn [mbind option_bind]. rewrite Hon.
  change (DANUBE_DMA_CH_ON =? DANUBE_DMA_CH_ON) with true. cbv iota. rewrite Hl.
  change (Z.to_nat 25) with (S (S 23)).
  destruct (fill_ring_once n d s 23 Hn Hc Hlen Hcount Hdst Hd) as (s1 & w & -> & Q1 & Q2 & Q3 & Q4).
  cbn [mbind option_bind].
  destruct (restart_ok settles 16 0x30000 true s1) as (s2 & -> & P1 & P2 & P3 & _ & P5); [done|].
  cbn [mbind option_bind]. eexists. split; [reflexivity|]. dproj. split; [|split; [|congruence]].
  - apply (configured_ext n s); [dproj; congruence..| |done]. dproj. rewrite P5, Q4. by put_simpl.
  - intros j Hj. unfold get_desc. dproj. rewrite P1, P2, Q1, Q3, gupd_ne by (by apply Hring). by apply Hclr.
Qed.

(** The transmit ring of a configured device is the empty queue. *)
Lemma configured_tx n s : configured n s -> tx_cleared s -> tx_ready MCTRL0 17 s /\ tx_ring s 17 [].
Proof.
  intros [[_ (Ht1 & _ & Ht3 & Ht4) _ _ (Hl & Hcu & Hpr & Hops) _ _] _ _ (_ & Hf & Hh)] Hclr. split.
  - constructor; rewrite ?Hf, ?Hh, ?Ht3; done.
  - constructor; rewrite ?Hl, ?Hpr; try done; try lia.
    + by rewrite Hcu, slot_0 by (rewrite Hl, Hpr; lia).
    + intros k Hk. apply Hclr. pose proof (slot_range (dma_chan s 17)) as H. rewrite Hl in H. apply H. lia.
Qed.

Lemma handler_full_quiet t : handler MCTRL0 TX_BUF_FULL_INT t = Some t.
Proof. reflexivity. Qed.

(** One block goes out, and the loop ends. *)
Lemma transmit_once n s :
  0 < n <= MAX_BLOCK_SIZE -> configured n s -> tx_cleared s -> copying n s ->
  get 0 src_count (client_mem s) = 0 ->
  exists s', transmit_data kmalloc settles offset1 other_alloc other_handler 0 s = Some (n, s') /\ copying n s'.
Proof.
  intros Hn Hc Hclr Hcp Hsc. pose proof Hcp as [Hme Hlen _ _ _ _]. unfold transmit_data.
  rewrite Hme, Hlen. destruct (Z.to_nat n) as [|fuel] eqn:Ef; [lia|]. cbn [transmit_loop]. rewrite Hsc, Hlen.
  rewrite (proj2 (Z.ltb_lt 0 n)) by lia. change (deref (MCTRL0 + 1)) with (Some MCTRL0). cbn [mbind option_bind].
  rewrite Z.gtb_ltb, (proj2 (Z.ltb_ge _ _)) by lia.
  destruct (configured_tx n s Hc Hclr) as [Hready Hring].
  destruct (write_outcome handler MCTRL0 17) with (s := s) (q := @nil entry)
    (dataptr := w32 (get 0 src (client_mem s) + 0)) (len := n) (o := 0) as (r & t & Ew & Hv & _); [|done..|].
  { intros t. exists t. by rewrite handler_full_quiet. }
  assert (Em : client_mem t = client_mem s).
  { eapply write_client; [|exact Ew]. intros u u' Eu. rewrite handler_full_quiet in Eu. by injection Eu as <-. }
  rewrite Ew. cbn [mbind option_bind]. set (s2 := on_mem _ t).
  assert (E2 : client_mem s2 = put 0 src_count n (client_mem s)).
  { subst s2. unfold on_mem. dproj. rewrite Em, Hsc, Z.add_0_l. unfold MAX_BLOCK_SIZE in Hn.
    f_equal. unfold s32. rewrite Z.mod_small by lia. lia. }
  assert (Hcp2 : copying n s2).
  { destruct Hcp as [H1 H2 H3 H4 H5 H6]. constructor; rewrite ?E2; put_simpl; try done;
      change (dma_devs s2) with (dma_devs t); by rewrite Hv. }
  rewrite E2. put_simpl. rewrite Hlen, Z.ltb_irrefl. cbn [mbind option_bind]. exists s2. by rewrite E2; put_simpl; rewrite Hlen.
Qed.
Lemma open_rx_ready n s : configured n s -> 
  exists s', open_rx MCTRL0 0 s = Some s' /\ configured n s' /\ (tx_cleared s -> tx_cleared s') /\
    client_mem s' = client_mem s.
Proof.
  intros Hc. pose proof Hc as [[_ _ (Hr & _) (_ & _ & Hops) _ _ _] (Hon & _) _ _].
  unfold open_rx. rewrite Hr. cbn [mbind option_bind]. rewrite Hon, Hops.
  change (DANUBE_DMA_CH_ON =? DANUBE_DMA_CH_ON) with true. cbv iota.
  destruct (open_chan_keeps 16 s) as (Q1 & Q2 & Q3 & _).
  assert (Q4 : client_mem (snd (open_chan 16 s)) = client_mem s)
    by (unfold open_chan; cbn [snd]; by destruct (_ =? DANUBE_DMA_RX)).
  eexists. split; [reflexivity|]. split; [apply (configured_ext n s); [congruence..|done]|]. split; [|done].
  intros Hclr j Hj. unfold get_desc. rewrite Q1, Q2. by apply Hclr.
Qed.

Lemma register_ready n d s :
  0 < n <= MAX_BLOCK_SIZE -> configured n s ->
  get 0 len (client_mem s) = n -> get 0 dst_count (client_mem s) = 0 ->
  get 0 dst (client_mem s) = d -> 0 < d < 2 ^ 32 ->
  exists s', dma_device_register kmalloc alloc settles MCTRL0 s = Some (IFX_SUCCESS, s') /\
    configured n s' /\ tx_cleared s' /\ client_mem s' = put 0 dst_count n (client_mem s).
Proof.
  intros Hn Hc Hlen Hcount Hdst Hd. unfold dma_device_register.
  pose proof Hc as [[_ (_ & -> & _) _ _ _ _ _] _ _ _]. change (below 1) with [0]. cbn [for_each].
  destruct (register_tx_ready n s Hc) as (s1 & -> & Hc1 & Hclr & E1). cbn [mbind option_bind].
  pose proof Hc1 as [[_ _ (_ & ->) _ _ _ _] _ _ _]. change (below 1) with [0]. cbn [for_each]. rewrite <- E1 in *.
  destruct (register_rx_ready n d s1 Hn Hc1 Hclr Hlen Hcount Hdst Hd) as (s2 & -> & H). cbn [mbind option_bind].
  by exists s2.
Qed.

Context (schedule : dma_state -> option dma_state) (n : Z) (Hn : 0 < n <= MAX_BLOCK_SIZE).
Context (Hother : forall dev st s s', dev <> MCTRL0 -> other_handler dev st s = Some s' ->
  copying n s -> copying n s').
Context (Hsched : forall s, copying n s ->
  exists s', schedule s = Some s' /\ rtc (tstep handler) (Idle, s) (Idle, s')).

Lemma wait_copying turns : forall s, copying n s ->
  exists s', wait_loop schedule turns 0 s = Some s' /\ copying n s'.
Proof.
  induction turns as [|turns IH]; intros s Hcp; [by exists s|]. cbn [wait_loop].
  rewrite (cp_recv _ _ Hcp), (cp_len _ _ Hcp), (proj2 (Z.eqb_neq 0 n)) by lia.
  destruct (Hsched s Hcp) as (t & -> & Hst). cbn [mbind option_bind]. apply IH.
  change (copying n (snd (Idle, t))). eapply copying_steps; [| |exact Hst|exact Hcp]; [lia|exact Hother].
Qed.

Lemma memcopy_fails d sr s : mc_ready s -> 0 < d < 2 ^ 32 ->
  exists s', danube_dma_memcopy kmalloc settles offset1 other_alloc other_handler schedule 0 d sr n s =
    Some (0, s') /\ copying n s'.
Proof.
  intros Hr Hd. unfold danube_dma_memcopy. set (s0 := on_mem _ s).
  assert (E0 : get 0 dma_device (client_mem s0) = MCTRL0 + 1 /\ get 0 len (client_mem s0) = n /\
    get 0 dst (client_mem s0) = d /\ get 0 dst_count (client_mem s0) = 0 /\
    get 0 src_count (client_mem s0) = 0 /\ get 0 recv_count (client_mem s0) = 0 /\
    get 0 mc_packet_size (client_mem s0) = n).
  { subst s0. unfold on_mem, start_copy. dproj. rewrite Z.gtb_ltb, (proj2 (Z.ltb_ge _ _)) by lia.
    put_simpl. split_and!; try done. apply Hr. }
  destruct E0 as (E1 & E2 & E3 & E4 & E5 & E6 & E7).
  assert (Hr0 : mc_ready s0) by by destruct Hr; constructor.
  rewrite E1, E7. change (deref (MCTRL0 + 1)) with (Some MCTRL0). cbn [mbind option_bind].
  destruct (configure_ready n s0 Hr0) as (s1 & -> & Hc1 & M1). cbn [mbind option_bind]. rewrite <- M1 in *.
  destruct (register_ready n d s1 Hn Hc1 E2 E4 E3 Hd) as (s2 & -> & Hc2 & Hclr2 & M2). cbn [mbind option_bind].
  pose proof Hc2 as [[_ _ (_ & ->) _ _ _ _] _ _ _]. change (below 1) with [0]. cbn [for_each].
  destruct (open_rx_ready n s2 Hc2) as (s3 & -> & Hc3 & Hclr3 & M3). cbn [mbind option_bind].
  assert (Hcp : copying n s3 /\ get 0 src_count (client_mem s3) = 0).
  { rewrite M3, M2. put_simpl. split; [|done]. pose proof Hc3 as [[] ? ? (F1 & _)].
    constructor; rewrite ?M3, ?M2; put_simpl; try done; lia. }
  destruct Hcp as [Hcp Hsc]. destruct (transmit_once n s3 Hn Hc3 (Hclr3 Hclr2) Hcp Hsc) as (s4 & -> & Hcp4).
  cbn [mbind option_bind]. destruct (wait_copying 99 s4 Hcp4) as (s5 & -> & Hcp5). cbn [mbind option_bind].
  exists s5. split; [|done]. rewrite (cp_recv _ _ Hcp5), (cp_len _ _ Hcp5), (proj2 (Z.eqb_neq 0 n)) by lia. done.
Qed.
End Report.

(** C28: A copy of up to 65535 bytes on the first device never reports success,
    whatever interrupts, the hardware and the tasklet do while the caller waits:
    [dma_device_register] takes the whole destination as its first receive
    buffer, so when the data has arrived there is no buffer to put in its place,
    [dma_device_read] calls that packet lost, and the count of received bytes
    stays 0.  The copy ends after 99 waits with the answer 0.  The drivers of the
    other devices are assumed to leave this one's variables alone. *)
Theorem memcopy_never_succeeds kmalloc settles offset1 other_alloc other_handler schedule n dest source s :
  0 < n <= MAX_BLOCK_SIZE -> 0 < dest < 2 ^ 32 -> mc_ready s -> (forall m b, settles m b = true) ->
  (forall dev st t t', dev <> MCTRL0 -> other_handler dev st t = Some t' -> copying n t -> copying n t') ->
  (forall t, copying n t -> exists t', schedule t = Some t' /\
     rtc (tstep (handler kmalloc settles offset1 other_alloc other_handler)) (Idle, t) (Idle, t')) ->
  exists s', danube_dma_memcopy kmalloc settles offset1 other_alloc other_handler schedule 0 dest source n s =
    Some (0, s') /\ get 0 recv_count (client_mem s') = 0 /\ get 0 dma_device (client_mem s') = MCTRL0 + 1.
Proof.
  intros Hn Hd Hr Hset Hoth Hsched.
  destruct (memcopy_fails kmalloc settles offset1 other_alloc other_handler Hset schedule n Hn Hoth Hsched
    dest source s Hr Hd) as (s' & E & []). by exists s'.
Qed.

(** The device opened; a schedule in which the hardware fills the first receive
    descriptor, interrupts, and the tasklet runs. *)
Definition mc_opened : dma_state := snd (memcopy_open false 0 booted).
Definition mc_handler := handler no_kmalloc (fun _ _ => true) 0 no_alloc quiet_handler.
Definition mc_arrival (n : Z) (s : dma_state) : option dma_state :=
  let a := desc_at (dma_chan s 16) 0 in
  let s := upd_desc a (mk_desc (0x70000000 + n) (Data_Pointer (descs s a))) s in
  let s := if line_enabled (dhw s) (irq (dma_chan s 16)) then dma_interrupt (irq (dma_chan s 16)) 16 s else s in
  Some (if scheduled s then default s (run_tasklet mc_handler s) else s).

Lemma mc_arrival_steps n s :
  exists s', mc_arrival n s = Some s' /\ rtc (tstep mc_handler) (Idle, s) (Idle, s').
Proof.
  unfold mc_arrival. set (s1 := upd_desc _ _ s). set (s2 := if line_enabled _ _ then _ else s1).
  eexists. split; [reflexivity|]. apply (rtc_l _ _ (Idle, s1)); [apply t_hw|].
  assert (E : rtc (tstep mc_handler) (Idle, s1) (Idle, s2)).
  { subst s2. destruct (line_enabled _ _) eqn:El; [|done]. apply rtc_once, t_irq; [unfold MAX_DMA_CHANNEL_NUM; lia|exact El]. }
  etransitivity; [exact E|]. destruct (scheduled s2) eqn:Es; [|done].
  destruct (run_tasklet mc_handler s2) as [t|] eqn:Et; [|done]. by apply run_tasklet_steps.
Qed.

Lemma mc_opened_ready : mc_ready mc_opened.
Proof.
  constructor.
  6: { intros j Hj E. revert E. apply (fun H => proj1 (Z.eqb_neq _ _) (proj1 (negb_true_iff _) H)). revert j Hj.
       apply below_forall. vm_compute. reflexivity. }
  all: vm_compute; intuition discriminate.
Qed.

Lemma memcopy_never_succeeds_witness :
  exists s', danube_dma_memcopy no_kmalloc (fun _ _ => true) 0 no_alloc quiet_handler (mc_arrival 64) 0
      0xa0700000 0xa0701000 64 mc_opened = Some (0, s') /\
    curr_desc (dma_chan s' 16) = 1.
Proof.
  destruct (memcopy_never_succeeds no_kmalloc (fun _ _ => true) 0 no_alloc quiet_handler (mc_arrival 64) 64
    0xa0700000 0xa0701000 mc_opened) as (s' & E & _).
  - split; reflexivity || discriminate.
  - split; reflexivity.
  - exact mc_opened_ready.
  - reflexivity.
  - intros dev st t t' _ Et Hcp. injection Et as <-. exact Hcp.
  - intros t _. apply mc_arrival_steps.
  - exists s'. split; [exact E|].
    assert (Es : match danube_dma_memcopy no_kmalloc (fun _ _ => true) 0 no_alloc quiet_handler (mc_arrival 64) 0
      0xa0700000 0xa0701000 64 mc_opened with Some (_, t) => curr_desc (dma_chan t 16) | None => 0 end = 1)
      by (vm_compute; reflexivity).
    rewrite E in Es. exact Es.
Defined.
