(* ===== verification/Irq.v ===== *)
(** * The kernel's interrupt lines ([arch/mips/kernel/irq.c])

    Linux keeps a descriptor per line: its status, how many times it is disabled,
    and the actions that drivers have registered.  It masks and unmasks lines
    through the operations of [Icu].  The file models requesting, freeing,
    enabling and disabling a line and [do_IRQ], and proves that the enable
    registers follow the descriptors, whatever drivers and handlers do.

    [H] is the type of handlers.  [do_IRQ] runs over the state of a driver that
    holds the descriptors ([HasIrqs]).  [disable_irq] is [None] where it waits for
    ever. *)

From Stdlib Require Import FunctionalExtensionality.
From S2P Require Import Prelude Icu.
Open Scope Z_scope.

Definition IRQ_INPROGRESS : Z := 1.
Definition IRQ_DISABLED : Z := 2.
Definition IRQ_PENDING : Z := 4.
Definition IRQ_REPLAY : Z := 8.
Definition IRQ_AUTODETECT : Z := 16.
Definition IRQ_WAITING : Z := 32.
Definition NR_IRQS : Z := 161.
Definition SA_SHIRQ : Z := 0x02000000.

Record irqaction (H : Type) := mk_action { handler : H; aflags : Z; dev_id : Z }.
Arguments mk_action {H}.
Arguments handler {H}.
Arguments aflags {H}.
Arguments dev_id {H}.

Record irq_desc_t (H : Type) := mk_desc { status : Z; action : list (irqaction H); depth : Z }.
Arguments mk_desc {H}.
Arguments status {H}.
Arguments action {H}.
Arguments depth {H}.

(** The table of descriptors, and the memory with the registers. *)
Record irqs (H : Type) := mk_irqs { irq_desc : Z -> irq_desc_t H; mem : Z -> Z }.
Arguments mk_irqs {H}.
Arguments irq_desc {H}.
Arguments mem {H}.

(** A state with the lines in it. *)
Class HasIrqs (H S : Type) := { get_irqs : S -> irqs H; put_irqs : irqs H -> S -> S }.

Section irq.
Context {H : Type}.
Implicit Types (t : irqs H) (d : irq_desc_t H).

Definition put_desc (irq : Z) d t : irqs H :=
  mk_irqs (fun j => if j =? irq then d else irq_desc t j) (mem t).
Definition put_mem (m : Z -> Z) t : irqs H := mk_irqs (irq_desc t) m.
Definition put_status (irq v : Z) t : irqs H :=
  put_desc irq (mk_desc v (action (irq_desc t irq)) (depth (irq_desc t irq))) t.
Definition put_depth (irq v : Z) t : irqs H :=
  put_desc irq (mk_desc (status (irq_desc t irq)) (action (irq_desc t irq)) v) t.
Definition put_action (irq : Z) (l : list (irqaction H)) t : irqs H :=
  put_desc irq (mk_desc (status (irq_desc t irq)) l (depth (irq_desc t irq))) t.
Definition chip (f : (Z -> Z) -> Z -> Z) t : irqs H := put_mem (f (mem t)) t.

(** ** Enabling and disabling *)

Definition disable_irq_nosync (irq : Z) t : irqs H :=
  let n := depth (irq_desc t irq) in
  let t := put_depth irq (w32 (n + 1)) t in
  if n =? 0 then
    chip (disable_danube_irq irq) (put_status irq (status (irq_desc t irq) .| IRQ_DISABLED) t)
  else t.

(** [in_irq]: called by a handler. *)
Definition disable_irq (in_irq : bool) (irq : Z) t : option (irqs H) :=
  let t := disable_irq_nosync irq t in
  if in_irq then Some t
  else if status (irq_desc t irq) .& IRQ_INPROGRESS =? 0 then Some t else None.

(** [hw_resend_irq] does nothing on this machine. *)
Definition enable_irq (irq : Z) t : irqs H :=
  let n := depth (irq_desc t irq) in
  if n =? 1 then
    let v := status (irq_desc t irq) .& .~ IRQ_DISABLED in
    let v := if v .& (IRQ_PENDING .| IRQ_REPLAY) =? IRQ_PENDING then v .| IRQ_REPLAY else v in
    let t := chip (enable_danube_irq irq) (put_status irq v t) in
    put_depth irq (n - 1) t
  else if n =? 0 then t
  else put_depth irq (n - 1) t.

(** ** Requesting and freeing *)

Definition setup_irq (irq : Z) (new : irqaction H) t : Z * irqs H :=
  match action (irq_desc t irq) with
  | old :: _ as l =>
      if aflags old .& aflags new .& SA_SHIRQ =? 0 then (- EBUSY, t)
      else (0, put_action irq (l ++ [new]) t)
  | [] =>
      let t := put_action irq [new] t in
      let t := put_depth irq 0 t in
      let t := put_status irq (status (irq_desc t irq)
                 .& .~ (IRQ_DISABLED .| IRQ_AUTODETECT .| IRQ_WAITING .| IRQ_INPROGRESS)) t in
      (0, chip (fun m => snd (startup_danube_irq irq m)) t)
  end.

(** [kmalloc]: there is memory for the action. *)
Definition request_irq (kmalloc : bool) (irq : Z) (h : H) (flags dev : Z) t : Z * irqs H :=
  if irq >=? NR_IRQS then (- EINVAL, t) else
  if negb kmalloc then (- ENOMEM, t) else setup_irq irq (mk_action h flags dev) t.

(** The first action of the device, taken out of the list. *)
Fixpoint remove_action (dev : Z) (l : list (irqaction H)) : option (list (irqaction H)) :=
  match l with
  | [] => None
  | a :: l => if dev_id a =? dev then Some l else l ← remove_action dev l; Some (a :: l)
  end.

Definition free_irq (irq dev : Z) t : irqs H :=
  if irq >=? NR_IRQS then t else
  match remove_action dev (action (irq_desc t irq)) with
  | None => t
  | Some l =>
      let t := put_action irq l t in
      match l with
      | [] => chip (disable_danube_irq irq) (put_status irq (status (irq_desc t irq) .| IRQ_DISABLED) t)
      | _ => t
      end
  end.

(** ** An interrupt *)

(** Up to the handlers: those to run. *)
Definition irq_begin (irq : Z) t : list (irqaction H) * irqs H :=
  let t := chip (mask_and_ack_danube_irq irq) t in
  let v := status (irq_desc t irq) .& .~ (IRQ_REPLAY .| IRQ_WAITING) in
  let v := v .| IRQ_PENDING in
  if v .& (IRQ_DISABLED .| IRQ_INPROGRESS) =? 0
  then (action (irq_desc t irq), put_status irq (v .& .~ IRQ_PENDING .| IRQ_INPROGRESS) t)
  else ([], put_status irq v t).

Definition irq_end (irq : Z) t : irqs H :=
  chip (end_danube_irq (negb (status (irq_desc t irq) .& (IRQ_DISABLED .| IRQ_INPROGRESS) =? 0)) irq) t.

(** The test at the bottom of the loop of [do_IRQ]: once more?, and the state
    after it. *)
Definition irq_again (irq : Z) t : bool * irqs H :=
  let v := status (irq_desc t irq) in
  if v .& IRQ_PENDING =? 0 then (false, put_status irq (v .& .~ IRQ_INPROGRESS) t)
  else (true, put_status irq (v .& .~ IRQ_PENDING) t).
End irq.

Section do_irq.
Context {H St : Type} `{HasIrqs H St} (run : irqaction H -> St -> option St).

Definition with_irqs (f : irqs H -> irqs H) (s : St) : St := put_irqs (f (get_irqs s)) s.

Fixpoint handle_IRQ_event (l : list (irqaction H)) (s : St) : option St :=
  match l with [] => Some s | a :: l => s ← run a s; handle_IRQ_event l s end.

(** [fuel]: turns of the loop; there is a second one only when the line
    interrupts again while its handlers run. *)
Fixpoint irq_loop (fuel : nat) (irq : Z) (l : list (irqaction H)) (s : St) : option St :=
  match fuel with
  | O => None
  | S fuel =>
      s ← handle_IRQ_event l s;
      let '(again, t) := irq_again irq (get_irqs s) in
      let s := put_irqs t s in
      if again then irq_loop fuel irq l s else Some s
  end.

Definition do_IRQ (fuel : nat) (irq : Z) (s : St) : option St :=
  let '(l, t) := irq_begin irq (get_irqs s) in
  let s := put_irqs t s in
  s ← (match l with [] => Some s | _ => irq_loop fuel irq l s end);
  Some (with_irqs (irq_end irq) s).
End do_irq.

(** The lines after [init_IRQ], the masked registers of [Icu] included. *)
Definition init_irqs {H} (t : irqs H) : irqs H :=
  mk_irqs (fun j => if (0 <=? j) && (j <=? INT_NUM_IM4_IRL31) then mk_desc IRQ_DISABLED [] 1 else irq_desc t j)
    (init_IRQ (mem t)).

(** ** Status bits *)

Section facts.
Context {H : Type}.
Implicit Types (t : irqs H).

Definition disabled (irq : Z) t : bool := Z.testbit (status (irq_desc t irq)) 1.
Definition in_progress (irq : Z) t : bool := Z.testbit (status (irq_desc t irq)) 0.
Definition enabled (irq : Z) t : bool := line_enabled (mem t) irq.

Lemma land2_eqb v : (v .& (IRQ_DISABLED .| IRQ_INPROGRESS) =? 0) = negb (Z.testbit v 1 || Z.testbit v 0).
Proof.
  apply Bool.eq_iff_eq_true. rewrite Z.eqb_eq, negb_true_iff, orb_false_iff. split.
  - intros E. split; [pose proof (Z.land_spec v 3 1) as B | pose proof (Z.land_spec v 3 0) as B];
      change 3 with (IRQ_DISABLED .| IRQ_INPROGRESS) in B at 1; rewrite E, Z.bits_0 in B;
      symmetry in B; cbn in B; by rewrite andb_true_r in B.
  - intros [E1 E0]. apply Z.bits_inj'. intros i Hi. rewrite Z.land_spec, Z.bits_0.
    destruct (decide (i = 0)) as [->|]; [by rewrite E0|].
    destruct (decide (i = 1)) as [->|]; [by rewrite E1|].
    apply andb_false_iff. right. apply Z.bits_above_log2; [done|]. change (Z.log2 _) with 1. lia.
Qed.

Lemma put_desc_same irq d t : irq_desc (put_desc irq d t) irq = d.
Proof. cbn. by rewrite Z.eqb_refl. Qed.
Lemma put_desc_other irq d t j : j <> irq -> irq_desc (put_desc irq d t) j = irq_desc t j.
Proof. intros E%Z.eqb_neq. cbn. by rewrite E. Qed.

(** What the lines of [t] promise: no disabled line is enabled in its register,
    every other one is unless its handler runs, and a line with an action is
    disabled exactly when its depth says so. *)
Record line_ok (irq : Z) t : Prop := {
  ok_disabled : disabled irq t = true -> enabled irq t = false;
  ok_enabled : disabled irq t = false -> in_progress irq t = false -> enabled irq t = true;
  ok_depth : 0 < depth (irq_desc t irq) -> disabled irq t = true;
  ok_action : action (irq_desc t irq) <> [] -> depth (irq_desc t irq) = 0 -> disabled irq t = false;
  ok_range : 0 <= depth (irq_desc t irq) < 2 ^ 32
}.

(** A line is untouched when its descriptor and its enable bit are. *)
Lemma line_ok_frame irq t t' :
  irq_desc t' irq = irq_desc t irq -> enabled irq t' = enabled irq t -> line_ok irq t -> line_ok irq t'.
Proof.
  intros Ed Ee [? ? ? ? ?]. split; unfold disabled, in_progress in *; rewrite ?Ed, ?Ee; auto.
Qed.

Lemma line_enabled_ops i j m : is_line i -> is_line j ->
  line_enabled (enable_danube_irq i m) j = line_enabled m j || bool_decide (j = i) /\
  line_enabled (disable_danube_irq i m) j = line_enabled m j && negb (bool_decide (j = i)) /\
  line_enabled (mask_and_ack_danube_irq i m) j = line_enabled m j && negb (bool_decide (j = i)).
Proof.
  intros Hi Hj. rewrite enable_eq, disable_eq, mask_ack_eq by done.
  by rewrite isr_line, reg_set_line, reg_clr_line.
Qed.
End facts.

#[global] Arguments disabled {H} irq t : simpl never.
#[global] Arguments in_progress {H} irq t : simpl never.
#[global] Arguments enabled {H} irq t : simpl never.

Ltac const_bits :=
  repeat match goal with
  | |- context [Z.testbit ?c ?i] =>
      let v := eval vm_compute in (Z.testbit c i) in
      match v with
      | true => change (Z.testbit c i) with true
      | false => change (Z.testbit c i) with false
      end
  end.
Ltac status_bits :=
  repeat first [rewrite Z.land_spec | rewrite Z.lor_spec | rewrite Z.lnot_spec by lia];
  const_bits; cbn [negb]; rewrite ?andb_true_r, ?andb_false_r, ?orb_true_r, ?orb_false_r.

(** ** Every operation keeps the promise of every line *)

Section ops.
Context {H : Type}.
Implicit Types (t : irqs H).

Definition lines_ok t : Prop := forall j, is_line j -> line_ok j t.

(** The operations change the descriptor of line [irq] to [d] and, with [e], its
    enable bit. *)
Definition moved (irq : Z) (d : irq_desc_t H) (e : bool) t t' : Prop :=
  irq_desc t' irq = d /\ (forall j, j <> irq -> irq_desc t' j = irq_desc t j) /\
  forall j, is_line j -> enabled j t' = if decide (j = irq) then e else enabled j t.

Lemma moved_ok irq d e t t' :
  moved irq d e t t' ->
  (forall s, status d = s ->
     (Z.testbit s 1 = true -> e = false) /\
     (Z.testbit s 1 = false -> Z.testbit s 0 = false -> e = true) /\
     (0 < depth d -> Z.testbit s 1 = true) /\
     (action d <> [] -> depth d = 0 -> Z.testbit s 1 = false) /\ 0 <= depth d < 2 ^ 32) ->
  lines_ok t -> lines_ok t'.
Proof.
  intros (Ed & Eo & Ee) Hd Ht j Hj. specialize (Ee j Hj). destruct (decide (j = irq)) as [->|Hne].
  - specialize (Hd _ eq_refl) as (? & ? & ? & ? & ?).
    split; unfold disabled, in_progress; rewrite ?Ed, ?Ee; auto.
  - eapply line_ok_frame; [by apply Eo|done|by apply Ht].
Qed.

Lemma moved_desc irq d t : moved irq d (enabled irq t) t (put_desc irq d t).
Proof.
  split_and!; [apply put_desc_same|intros; by apply put_desc_other|].
  intros j _. unfold enabled. cbn. by destruct (decide (j = irq)) as [->|].
Qed.

Lemma moved_trans irq d1 e1 d2 e2 t1 t2 t3 :
  moved irq d1 e1 t1 t2 -> moved irq d2 e2 t2 t3 -> moved irq d2 e2 t1 t3.
Proof.
  intros (_ & A & B) (C & D & E). split_and!; [done|intros j Hj; rewrite D by done; by apply A|].
  intros j Hj. rewrite E, B by done. by destruct (decide _).
Qed.

Lemma moved_chip irq t f e :
  is_line irq ->
  (forall j m, is_line j -> line_enabled (f m) j =
     if decide (j = irq) then e else line_enabled m j) ->
  moved irq (irq_desc t irq) e t (chip f t).
Proof. intros Hi Hf. split_and!; [done..|]. intros j Hj. unfold enabled. cbn. by rewrite Hf. Qed.

Lemma moved_on irq t : is_line irq ->
  moved irq (irq_desc t irq) true t (chip (enable_danube_irq irq) t).
Proof.
  intros Hi. apply moved_chip; [done|]. intros j m Hj.
  rewrite (proj1 (line_enabled_ops irq j m Hi Hj)).
  destruct (decide (j = irq)); [rewrite bool_decide_true by done; by rewrite orb_true_r|
    rewrite bool_decide_false by done; by rewrite orb_false_r].
Qed.

Lemma moved_off irq t : is_line irq ->
  moved irq (irq_desc t irq) false t (chip (disable_danube_irq irq) t) /\
  moved irq (irq_desc t irq) false t (chip (mask_and_ack_danube_irq irq) t).
Proof.
  intros Hi. split; (apply moved_chip; [done|]); intros j m Hj;
    destruct (line_enabled_ops irq j m Hi Hj) as (_ & E2 & E3); rewrite ?E2, ?E3;
    (destruct (decide (j = irq)); [rewrite bool_decide_true by done; by rewrite andb_false_r|
     rewrite bool_decide_false by done; by rewrite andb_true_r]).
Qed.

Lemma moved_then irq d1 d e t1 t2 :
  is_line irq -> moved irq d1 e t1 t2 -> moved irq d e t1 (put_desc irq d t2).
Proof.
  intros Hi M. eapply moved_trans; [exact M|]. pose proof (moved_desc irq d t2) as (A & B & C).
  split_and!; [done..|]. intros j Hj. rewrite C by done. destruct (decide (j = irq)); [|done].
  destruct M as (_ & _ & M). rewrite M by done. by rewrite decide_True.
Qed.

Ltac move_by L :=
  eapply moved_ok; [L| |eassumption];
  unfold put_status, put_depth, put_action; rewrite ?put_desc_same; cbn [status action depth];
  intros s <-.

Lemma disable_ok irq t :
  is_line irq -> depth (irq_desc t irq) + 1 < 2 ^ 32 -> lines_ok t -> lines_ok (disable_irq_nosync irq t).
Proof.
  intros Hi Hn Ht. pose proof (Ht _ Hi) as [K1 K2 K3 K4 K5]. unfold disabled, in_progress in *.
  assert (Hw : w32 (depth (irq_desc t irq) + 1) = depth (irq_desc t irq) + 1)
    by (apply w32_id; unfold is_u32; lia).
  unfold disable_irq_nosync. destruct (Z.eqb_spec (depth (irq_desc t irq)) 0) as [E|E].
  - move_by ltac:(eapply moved_trans; [|apply (proj1 (moved_off irq _ Hi))];
      eapply moved_trans; [apply moved_desc|apply moved_desc]).
    rewrite Hw. status_bits. split_and!; try done; lia.
  - move_by ltac:(apply moved_desc). rewrite Hw.
    assert (Z.testbit (status (irq_desc t irq)) 1 = true) by (apply K3; lia).
    split_and!; try done; try congruence; lia.
Qed.

Lemma enable_ok irq t : is_line irq -> lines_ok t -> lines_ok (enable_irq irq t).
Proof.
  intros Hi Ht. pose proof (Ht _ Hi) as [K1 K2 K3 K4 K5]. unfold disabled, in_progress in *.
  unfold enable_irq. destruct (Z.eqb_spec (depth (irq_desc t irq)) 1) as [E|E].
  - move_by ltac:(eapply moved_then; [done|];
      eapply moved_trans; [apply moved_desc|apply (moved_on irq _ Hi)]).
    cbn [chip put_mem irq_desc]. rewrite put_desc_same. cbn [status action]. rewrite E.
    match goal with |- context [if ?b then _ else _] => destruct b end; status_bits;
      split_and!; try done; intros; try congruence; lia.
  - destruct (Z.eqb_spec (depth (irq_desc t irq)) 0) as [E0|E0]; [done|].
    move_by ltac:(apply moved_desc).
    assert (Z.testbit (status (irq_desc t irq)) 1 = true) by (apply K3; lia).
    split_and!; try done; try congruence; lia.
Qed.

Lemma request_irq_ok kmalloc irq h flags dev t :
  is_line irq -> lines_ok t -> lines_ok (snd (request_irq kmalloc irq h flags dev t)).
Proof.
  intros Hi Ht. pose proof (Ht _ Hi) as [K1 K2 K3 K4 K5]. unfold disabled, in_progress in *.
  unfold request_irq. destruct (irq >=? NR_IRQS); [done|]. destruct kmalloc; [|done]. cbn [negb].
  unfold setup_irq. destruct (action (irq_desc t irq)) as [|old l] eqn:Ea.
  - cbn [snd]. move_by ltac:(eapply moved_trans; [|apply (moved_on irq _ Hi)];
      eapply moved_trans; [|apply moved_desc];
      eapply moved_trans; [apply moved_desc|apply moved_desc]).
    status_bits. split_and!; try done; lia.
  - destruct (_ =? 0); [done|]. cbn [snd].
    move_by ltac:(apply moved_desc). split_and!; try done; try lia. intros _. by apply K4.
Qed.

Lemma remove_action_all dev (l : list (irqaction H)) l' : remove_action dev l = Some l' -> l <> [].
Proof. by destruct l. Qed.

Lemma free_irq_ok irq dev t : is_line irq -> lines_ok t -> lines_ok (free_irq irq dev t).
Proof.
  intros Hi Ht. pose proof (Ht _ Hi) as [K1 K2 K3 K4 K5]. unfold disabled, in_progress in *.
  unfold free_irq. destruct (irq >=? NR_IRQS); [done|].
  destruct (remove_action _ _) as [l|] eqn:Er; [|done].
  apply remove_action_all in Er. destruct l as [|a l].
  - move_by ltac:(eapply moved_trans; [|apply (proj1 (moved_off irq _ Hi))];
      eapply moved_trans; [apply moved_desc|apply moved_desc]).
    status_bits. split_and!; try done; lia.
  - move_by ltac:(apply moved_desc). split_and!; try done; try lia. intros _. by apply K4.
Qed.

Lemma begin_ok irq t : is_line irq -> lines_ok t -> lines_ok (snd (irq_begin irq t)).
Proof.
  intros Hi Ht. pose proof (Ht _ Hi) as [K1 K2 K3 K4 K5]. unfold disabled, in_progress in *.
  unfold irq_begin. rewrite land2_eqb.
  match goal with |- context [if ?b then _ else _] => destruct b eqn:Eb end;
    rewrite ?negb_true_iff, ?negb_false_iff in Eb; revert Eb; status_bits; intros Eb; cbn [snd];
    move_by ltac:(eapply moved_then; [done|apply (proj2 (moved_off irq _ Hi))]);
    status_bits; cbn [chip put_mem irq_desc] in *.
  - apply orb_false_iff in Eb as [Eb _]. split_and!; try done; try lia; intros; try congruence.
  - split_and!; try done; try lia. intros A B. by rewrite A, B in Eb.
Qed.

Lemma end_moved irq d t : is_line irq ->
  moved irq d (enabled irq t) t (put_desc irq d t) ->
  let s := status d in
  moved irq d (if Z.testbit s 1 || Z.testbit s 0 then enabled irq t else true) t
    (irq_end irq (put_desc irq d t)).
Proof.
  intros Hi M s. unfold irq_end, end_danube_irq. rewrite put_desc_same. fold s. rewrite land2_eqb.
  destruct (Z.testbit s 1 || Z.testbit s 0) eqn:E; cbn [negb].
  - destruct M as (A & B & C). split_and!; [done..|]. intros j Hj. rewrite <- C by done. done.
  - eapply moved_trans; [exact M|]. pose proof (moved_on irq (put_desc irq d t) Hi) as M'.
    rewrite put_desc_same in M'. exact M'.
Qed.

Lemma end_ok irq t : is_line irq -> lines_ok t -> lines_ok (irq_end irq t).
Proof.
  intros Hi Ht. pose proof (Ht _ Hi) as [K1 K2 K3 K4 K5]. unfold disabled, in_progress in *.
  unfold irq_end, end_danube_irq. rewrite land2_eqb.
  destruct (Z.testbit (status (irq_desc t irq)) 1 || Z.testbit (status (irq_desc t irq)) 0) eqn:E; cbn [negb].
  - intros j Hj. eapply line_ok_frame; [..|by apply Ht]; done.
  - apply orb_false_iff in E as [E1 E0].
    eapply moved_ok; [apply (moved_on irq _ Hi)| |exact Ht]. intros s <-. split_and!; try done; try lia;
      intros; congruence.
Qed.

Lemma again_ok irq t :
  is_line irq -> lines_ok t ->
  let '(again, t') := irq_again irq t in lines_ok (if again then t' else irq_end irq t').
Proof.
  intros Hi Ht. pose proof (Ht _ Hi) as [K1 K2 K3 K4 K5]. unfold disabled, in_progress in *.
  unfold irq_again. destruct (_ =? 0).
  - move_by ltac:(apply end_moved; [done|apply moved_desc]). status_bits.
    split_and!; try done; try lia.
    + intros A. by rewrite A; apply K1.
    + intros A. by rewrite A.
  - move_by ltac:(apply moved_desc). status_bits. split_and!; try done; lia.
Qed.
End ops.

(** ** Runs *)

(** The calls of drivers, and the three points of an interrupt. *)
Inductive irq_step {H} : irqs H -> irqs H -> Prop :=
  | step_request kmalloc irq h flags dev t : is_line irq ->
      irq_step t (snd (request_irq kmalloc irq h flags dev t))
  | step_free irq dev t : is_line irq -> irq_step t (free_irq irq dev t)
  | step_enable irq t : is_line irq -> irq_step t (enable_irq irq t)
  | step_disable irq t : is_line irq -> depth (irq_desc t irq) + 1 < 2 ^ 32 ->
      irq_step t (disable_irq_nosync irq t)
  | step_begin irq t : is_line irq -> irq_step t (snd (irq_begin irq t))
  | step_again irq t t' : is_line irq -> irq_again irq t = (true, t') -> irq_step t t'
  | step_done irq t t' : is_line irq -> irq_again irq t = (false, t') -> irq_step t (irq_end irq t')
  | step_spurious irq t : is_line irq -> irq_step t (irq_end irq t).

Lemma step_lines_ok {H} (t t' : irqs H) : irq_step t t' -> lines_ok t -> lines_ok t'.
Proof.
  intros [] Ht; auto using request_irq_ok, free_irq_ok, enable_ok, disable_ok, begin_ok, end_ok;
    match goal with A : irq_again ?i ?t = _, B : is_line ?i |- _ => pose proof (again_ok i t B Ht) as P; by rewrite A in P end.
Qed.

Lemma init_lines_ok {H} (t : irqs H) : lines_ok (init_irqs t).
Proof.
  intros j Hj. destruct (line_split j Hj) as (_ & Hk & _).
  assert (Hd : irq_desc (init_irqs t) j = mk_desc IRQ_DISABLED [] 1).
  { cbn. unfold is_line in Hj. destruct (Z.leb_spec 0 j); [|lia].
    destruct (Z.leb_spec j INT_NUM_IM4_IRL31); [done|lia]. }
  assert (He : enabled j (init_irqs t) = false).
  { unfold enabled, line_enabled. cbn [mem init_irqs]. revert Hk. generalize (j / 32). intros k Hk.
    assert (k = 0 \/ k = 1 \/ k = 2 \/ k = 3 \/ k = 4) as E by lia.
    replace (init_IRQ (mem t) (ier k)) with 0 by (destruct E as [->|[->|[->|[->| ->]]]]; reflexivity).
    apply Z.bits_0. }
  split; unfold disabled, in_progress; rewrite ?Hd; cbn [status action depth]; try done; lia.
Qed.

Lemma run_lines_ok {H} (t t' : irqs H) : rtc irq_step t t' -> lines_ok t -> lines_ok t'.
Proof. induction 1; eauto using step_lines_ok. Qed.

Section runs.
Context {H St : Type} {L : HasIrqs H St} (run : irqaction H -> St -> option St).
Context (get_put : forall t s, get_irqs (put_irqs t s) = t).
Context (run_steps : forall a s s', run a s = Some s' -> rtc irq_step (get_irqs s) (get_irqs s')).

Lemma handle_steps l : forall s s', handle_IRQ_event run l s = Some s' ->
  rtc irq_step (get_irqs s) (get_irqs s').
Proof.
  induction l as [|a l IH]; cbn; intros s s' E; [by simplify_eq|].
  destruct (run a s) as [s1|] eqn:E1; [|done]. cbn in E.
  etrans; [by eapply run_steps|by apply IH].
Qed.

Lemma loop_steps irq l fuel : forall s s', is_line irq ->
  irq_loop run fuel irq l s = Some s' ->
  rtc irq_step (get_irqs s) (irq_end irq (get_irqs s')).
Proof.
  induction fuel as [|fuel IH]; cbn; intros s s' Hi E; [done|].
  destruct (handle_IRQ_event run l s) as [s1|] eqn:E1; [|done]. cbn in E.
  etrans; [by eapply handle_steps|].
  destruct (irq_again irq (get_irqs s1)) as [[] t] eqn:Ea.
  - eapply rtc_l; [by eapply step_again|]. rewrite <- (get_put t s1) at 1. by apply IH.
  - simplify_eq. rewrite get_put. apply rtc_once. by apply step_done.
Qed.

Lemma do_IRQ_steps fuel irq s s' :
  is_line irq -> do_IRQ run fuel irq s = Some s' -> rtc irq_step (get_irqs s) (get_irqs s').
Proof.
  intros Hi E. unfold do_IRQ in E. destruct (irq_begin irq (get_irqs s)) as [l t] eqn:Eb.
  assert (Hb : irq_step (get_irqs s) t) by (replace t with (snd (irq_begin irq (get_irqs s)));
    [by constructor|by rewrite Eb]).
  eapply rtc_l; [exact Hb|]. destruct l as [|a l].
  - cbn in E. simplify_eq. unfold with_irqs. rewrite !get_put. apply rtc_once. by constructor.
  - destruct (irq_loop _ _ _ _ _) as [s1|] eqn:E1; [|done]. cbn in E. simplify_eq.
    apply loop_steps in E1; [|done]. unfold with_irqs. by rewrite get_put in *.
Qed.
End runs.

(** C11: The enable registers follow the descriptors.  From start-up, whatever
    drivers request, free, enable and disable, within interrupts or not: a line
    that is disabled is masked in its register, and a line with a handler that is
    not running is unmasked exactly when every disabling of it has been undone.
    An interrupt, with handlers that make such calls, is one of these runs. *)
Theorem irq_lines_agree {H} (t t' : irqs H) (Hr : rtc irq_step (init_irqs t) t') :
  (forall irq, is_line irq ->
     (disabled irq t' = true -> enabled irq t' = false) /\
     (in_progress irq t' = false -> action (irq_desc t' irq) <> [] ->
        (enabled irq t' = true <-> depth (irq_desc t' irq) = 0))) /\
  (forall (St : Type) (L : HasIrqs H St) run fuel irq (s s' : St), is_line irq ->
     (forall u s, get_irqs (put_irqs u s) = u) ->
     (forall a s s', run a s = Some s' -> rtc irq_step (get_irqs s) (get_irqs s')) ->
     get_irqs s = t' -> do_IRQ run fuel irq s = Some s' -> rtc irq_step (init_irqs t) (get_irqs s')).
Proof.
  assert (Hok : lines_ok t').
  { by eapply run_lines_ok, init_lines_ok. }
  split.
  - intros irq Hi. destruct (Hok irq Hi) as [K1 K2 K3 K4 K5]. split; [done|]. intros Hp Ha. split.
    + intros He. destruct (decide (depth (irq_desc t' irq) = 0)); [done|].
      rewrite K1 in He; [done|]. apply K3. lia.
    + intros Hd. apply K2; [|done]. by apply K4.
  - intros St L run fuel irq s s' Hi Hl Hs <- E. etrans; [exact Hr|]. by eapply do_IRQ_steps.
Qed.

(** The timer's line 118 requested, then disabled twice and enabled once. *)
Definition sample_irqs : irqs nat :=
  enable_irq 118 (disable_irq_nosync 118 (disable_irq_nosync 118
    (snd (request_irq true 118 7%nat 0 1 (init_irqs (mk_irqs (fun _ => mk_desc 0 [] 0) (fun _ => 0))))))).

Lemma sample_run : rtc irq_step (init_irqs (mk_irqs (fun _ => mk_desc 0 [] 0) (fun _ => 0))) sample_irqs.
Proof.
  assert (is_line 118) by (unfold is_line, INT_NUM_IM4_IRL31; lia).
  eapply rtc_l; [by apply step_request with (kmalloc := true) (irq := 118) (h := 7%nat) (flags := 0) (dev := 1)|].
  eapply rtc_l; [apply step_disable with (irq := 118); [done|by vm_compute]|].
  eapply rtc_l; [apply step_disable with (irq := 118); [done|by vm_compute]|].
  apply rtc_once. by apply step_enable.
Qed.

Lemma irq_lines_agree_witness :
  enabled 118 sample_irqs = false /\ depth (irq_desc sample_irqs 118) = 1 /\
  (enabled 118 sample_irqs = true <-> depth (irq_desc sample_irqs 118) = 0).
Proof.
  split; [by vm_compute|]. split; [by vm_compute|].
  refine (proj2 (proj1 (irq_lines_agree _ _ sample_run) 118 _) _ _); [|by vm_compute|by vm_compute].
  unfold is_line, INT_NUM_IM4_IRL31. lia.
Defined.
