(* ===== verification/SerialCore.v ===== *)
(** * The serial core ([linux-2.4.31/drivers/char/serial_core.c])

    What stands between a terminal and the driver of a serial port: the ring of
    characters to send, flow control, speed, start and stop of the port, and the
    parser of console options; and the flip buffer of the terminal
    ([tty_io.c], [tty_flip.h]) that receives characters.  The driver is a record
    of operations, [UartOps], over its own data of type [D]; [Asc] has its
    instance.

    A result [None] is a wait of the driver that does not end, a write outside an
    array, a division by zero or an access to a terminal that is gone.  Locks and power management have no effect here. *)

From S2P Require Import Prelude MpsProc.
Open Scope Z_scope.

(** ** Constants ([serial_core.h], [serial.h], [tty.h], [termbits.h]) *)

Definition UART_XMIT_SIZE : Z := 1024.
Definition WAKEUP_CHARS : Z := 256.
Definition EVT_WRITE_WAKEUP : Z := 0.
Definition PORT_UNKNOWN : Z := 0.
Definition TTY_FLIPBUF_SIZE : Z := 512.
Definition TTY_NORMAL : Z := 0.
Definition TTY_FRAME : Z := 2.
Definition TTY_PARITY : Z := 3.
Definition TTY_OVERRUN : Z := 4.
Definition TTY_THROTTLED : Z := 0.
Definition TTY_IO_ERROR : Z := 1.
Definition TTY_DO_WRITE_WAKEUP : Z := 5.
Definition TTY_DONT_FLIP : Z := 8.
Definition TTY_LDISC : Z := 9.
Definition HZ : Z := 100.
Definition TIOCM_DTR : Z := 0x002.
Definition TIOCM_RTS : Z := 0x004.
Definition TIOCM_CAR : Z := 0x100.
Definition TIOCSER_TEMT : Z := 0x01.
Definition UART_CONFIG_TYPE : Z := 1 .<< 0.
Definition ASYNC_SPD_MASK : Z := 0x1030.
Definition ASYNC_SPD_HI : Z := 0x0010.
Definition ASYNC_SPD_VHI : Z := 0x0020.
Definition ASYNC_SPD_CUST : Z := 0x0030.
Definition ASYNC_SPD_SHI : Z := 0x1000.
Definition ASYNC_SPD_WARP : Z := 0x1010.
Definition ASYNC_INITIALIZED : Z := 0x80000000.
Definition ASYNC_CALLOUT_ACTIVE : Z := 0x40000000.
Definition ASYNC_NORMAL_ACTIVE : Z := 0x20000000.
Definition ASYNC_CLOSING : Z := 0x08000000.
Definition ASYNC_CTS_FLOW : Z := 0x04000000.
Definition ASYNC_CHECK_CD : Z := 0x02000000.
Definition IGNBRK : Z := 0x0001.
Definition BRKINT : Z := 0x0002.
Definition IGNPAR : Z := 0x0004.
Definition PARMRK : Z := 0x0008.
Definition INPCK : Z := 0x0010.
Definition IXOFF : Z := 0x1000.
Definition CBAUD : Z := 0x100f.
Definition CBAUDEX : Z := 0x1000.
Definition B300 : Z := 0x0007.
Definition B1200 : Z := 0x0009.
Definition B2400 : Z := 0x000b.
Definition B4800 : Z := 0x000c.
Definition B9600 : Z := 0x000d.
Definition B19200 : Z := 0x000e.
Definition B38400 : Z := 0x000f.
Definition B57600 : Z := 0x1001.
Definition B115200 : Z := 0x1002.
Definition B230400 : Z := 0x1003.
Definition B460800 : Z := 0x1004.
Definition CSIZE : Z := 0x0030.
Definition CS5 : Z := 0x0000.
Definition CS6 : Z := 0x0010.
Definition CS7 : Z := 0x0020.
Definition CS8 : Z := 0x0030.
Definition CSTOPB : Z := 0x0040.
Definition CREAD : Z := 0x0080.
Definition PARENB : Z := 0x0100.
Definition PARODD : Z := 0x0200.
Definition HUPCL : Z := 0x0400.
Definition CLOCAL : Z := 0x0800.
Definition CRTSCTS : Z := 0x80000000.

(** The value of a signed char. *)
Definition s8 (ch : Z) : Z := (ch + 128) mod 256 - 128.

(** ** Rings ([circ_buf.h]) *)

Definition CIRC_CNT (head tail size : Z) : Z := (head - tail) .& (size - 1).
Definition CIRC_SPACE (head tail size : Z) : Z := CIRC_CNT tail (head + 1) size.
Definition CIRC_SPACE_TO_END (head tail size : Z) : Z :=
  let e := size - 1 - head in
  let n := (e + tail) .& (size - 1) in
  if n <=? e then n else e + 1.

(** ** Data *)

(** [present]: [buf] is not null. *)
Record circ_buf := mk_circ { present : bool; buf : Z -> Z; head : Z; tail : Z }.

Record uart_icount := mk_icount { n_rx : Z; n_tx : Z; n_frame : Z; n_overrun : Z; n_parity : Z }.

Record uart_port := mk_port {
  iobase : Z; membase : Z; uartclk : Z; fifosize : Z; x_char : Z;
  read_status_mask : Z; ignore_status_mask : Z; ptype : Z; icount : uart_icount; line : Z
}.

(** [tlet]: the tasklet is scheduled; [has_tty]: [tty] is not null. *)
Record uart_info := mk_info {
  has_tty : bool; xmit : circ_buf; iflags : Z; event : Z; timeout : Z; mctrl : Z; tlet : bool
}.

(** The two pointers into the arrays of twice [TTY_FLIPBUF_SIZE] are indices;
    [tqueue]: the task that flushes the buffer is queued. *)
Record tty_flip_buffer := mk_flip {
  tqueue : bool; char_buf_ptr : Z; flag_buf_ptr : Z; count : Z; buf_num : Z;
  char_buf : Z -> Z; flag_buf : Z -> Z
}.

(** [received]: what [receive_buf] of the line discipline was called with;
    [wakeups]: how often writers were woken up. *)
Record tty_struct := mk_tty {
  c_iflag : Z; c_cflag : Z; stop_char : Z; start_char : Z; tflags : Z; alt_speed : Z;
  stopped : bool; hw_stopped : bool; flow_stopped : bool; low_latency : bool;
  flip : tty_flip_buffer; received : list (list (Z * Z)); wakeups : Z
}.

Record uart (D : Type) := mk_uart { port : uart_port; info : uart_info; tty : tty_struct; drv : D }.
Arguments mk_uart {D}.
Arguments port {D}.
Arguments info {D}.
Arguments tty {D}.
Arguments drv {D}.

Definition set_x_char (v : Z) (p : uart_port) : uart_port :=
  mk_port (iobase p) (membase p) (uartclk p) (fifosize p) v (read_status_mask p)
    (ignore_status_mask p) (ptype p) (icount p) (line p).
Definition set_uartclk (v : Z) (p : uart_port) : uart_port :=
  mk_port (iobase p) (membase p) v (fifosize p) (x_char p) (read_status_mask p)
    (ignore_status_mask p) (ptype p) (icount p) (line p).
Definition set_masks (r i : Z) (p : uart_port) : uart_port :=
  mk_port (iobase p) (membase p) (uartclk p) (fifosize p) (x_char p) r i (ptype p) (icount p) (line p).
Definition set_ptype (v : Z) (p : uart_port) : uart_port :=
  mk_port (iobase p) (membase p) (uartclk p) (fifosize p) (x_char p) (read_status_mask p)
    (ignore_status_mask p) v (icount p) (line p).
Definition set_icount (c : uart_icount) (p : uart_port) : uart_port :=
  mk_port (iobase p) (membase p) (uartclk p) (fifosize p) (x_char p) (read_status_mask p)
    (ignore_status_mask p) (ptype p) c (line p).

Definition set_has_tty (b : bool) (i : uart_info) : uart_info :=
  mk_info b (xmit i) (iflags i) (event i) (timeout i) (mctrl i) (tlet i).
Definition set_xmit (x : circ_buf) (i : uart_info) : uart_info :=
  mk_info (has_tty i) x (iflags i) (event i) (timeout i) (mctrl i) (tlet i).
Definition set_iflags (v : Z) (i : uart_info) : uart_info :=
  mk_info (has_tty i) (xmit i) v (event i) (timeout i) (mctrl i) (tlet i).
Definition set_event (v : Z) (b : bool) (i : uart_info) : uart_info :=
  mk_info (has_tty i) (xmit i) (iflags i) v (timeout i) (mctrl i) b.
Definition set_timeout (v : Z) (i : uart_info) : uart_info :=
  mk_info (has_tty i) (xmit i) (iflags i) (event i) v (mctrl i) (tlet i).
Definition set_mctrl (v : Z) (i : uart_info) : uart_info :=
  mk_info (has_tty i) (xmit i) (iflags i) (event i) (timeout i) v (tlet i).

Definition set_tflags (v : Z) (t : tty_struct) : tty_struct :=
  mk_tty (c_iflag t) (c_cflag t) (stop_char t) (start_char t) v (alt_speed t) (stopped t)
    (hw_stopped t) (flow_stopped t) (low_latency t) (flip t) (received t) (wakeups t).
Definition set_c_cflag (v : Z) (t : tty_struct) : tty_struct :=
  mk_tty (c_iflag t) v (stop_char t) (start_char t) (tflags t) (alt_speed t) (stopped t)
    (hw_stopped t) (flow_stopped t) (low_latency t) (flip t) (received t) (wakeups t).
Definition set_alt_speed (v : Z) (t : tty_struct) : tty_struct :=
  mk_tty (c_iflag t) (c_cflag t) (stop_char t) (start_char t) (tflags t) v (stopped t)
    (hw_stopped t) (flow_stopped t) (low_latency t) (flip t) (received t) (wakeups t).
Definition set_stopped (b : bool) (t : tty_struct) : tty_struct :=
  mk_tty (c_iflag t) (c_cflag t) (stop_char t) (start_char t) (tflags t) (alt_speed t) b
    (hw_stopped t) (flow_stopped t) (low_latency t) (flip t) (received t) (wakeups t).
Definition set_hw_stopped (b : bool) (t : tty_struct) : tty_struct :=
  mk_tty (c_iflag t) (c_cflag t) (stop_char t) (start_char t) (tflags t) (alt_speed t) (stopped t)
    b (flow_stopped t) (low_latency t) (flip t) (received t) (wakeups t).
Definition set_flip (f : tty_flip_buffer) (t : tty_struct) : tty_struct :=
  mk_tty (c_iflag t) (c_cflag t) (stop_char t) (start_char t) (tflags t) (alt_speed t) (stopped t)
    (hw_stopped t) (flow_stopped t) (low_latency t) f (received t) (wakeups t).
Definition set_received (l : list (list (Z * Z))) (t : tty_struct) : tty_struct :=
  mk_tty (c_iflag t) (c_cflag t) (stop_char t) (start_char t) (tflags t) (alt_speed t) (stopped t)
    (hw_stopped t) (flow_stopped t) (low_latency t) (flip t) l (wakeups t).
Definition wake_up (t : tty_struct) : tty_struct :=
  mk_tty (c_iflag t) (c_cflag t) (stop_char t) (start_char t) (tflags t) (alt_speed t) (stopped t)
    (hw_stopped t) (flow_stopped t) (low_latency t) (flip t) (received t) (wakeups t + 1).

Definition set_queued (b : bool) (f : tty_flip_buffer) : tty_flip_buffer :=
  mk_flip b (char_buf_ptr f) (flag_buf_ptr f) (count f) (buf_num f) (char_buf f) (flag_buf f).
Definition set_count (n : Z) (f : tty_flip_buffer) : tty_flip_buffer :=
  mk_flip (tqueue f) (char_buf_ptr f) (flag_buf_ptr f) n (buf_num f) (char_buf f) (flag_buf f).
Definition set_ptrs (c g : Z) (f : tty_flip_buffer) : tty_flip_buffer :=
  mk_flip (tqueue f) c g (count f) (buf_num f) (char_buf f) (flag_buf f).
Definition set_buf_num (n : Z) (f : tty_flip_buffer) : tty_flip_buffer :=
  mk_flip (tqueue f) (char_buf_ptr f) (flag_buf_ptr f) (count f) n (char_buf f) (flag_buf f).
Definition set_bufs (c g : Z -> Z) (f : tty_flip_buffer) : tty_flip_buffer :=
  mk_flip (tqueue f) (char_buf_ptr f) (flag_buf_ptr f) (count f) (buf_num f) c g.

Definition test_bit (n v : Z) : bool := Z.testbit v n.

Section access.
Context {D : Type}.
Implicit Types u : uart D.
Definition on_port (f : uart_port -> uart_port) u : uart D := mk_uart (f (port u)) (info u) (tty u) (drv u).
Definition on_info (f : uart_info -> uart_info) u : uart D := mk_uart (port u) (f (info u)) (tty u) (drv u).
Definition on_tty (f : tty_struct -> tty_struct) u : uart D := mk_uart (port u) (info u) (f (tty u)) (drv u).
Definition on_drv (f : D -> D) u : uart D := mk_uart (port u) (info u) (tty u) (f (drv u)).
End access.

(** ** What a driver provides ([struct uart_ops]) *)

(** [tx_empty k]: the answer when it is asked after [k] pauses. *)
Class UartOps (D : Type) := {
  tx_empty : nat -> uart_port -> D -> Z;
  op_get_mctrl : uart_port -> D -> Z;
  op_set_mctrl : uart_port -> Z -> D -> D;
  stop_tx : uart D -> option (uart D);
  start_tx : uart D -> option (uart D);
  stop_rx : uart_port -> D -> D;
  startup : uart_port -> D -> option (Z * uart_port * D);
  shutdown : uart_port -> D -> option D;
  change_speed : Z -> Z -> Z -> uart_port -> D -> option (uart_port * D)
}.

(** ** The flip buffer *)

(** A store through one of the pointers: inside its array, or a fault. *)
Definition flip_put (ptr v : Z) (m : Z -> Z) : option (Z -> Z) :=
  if (0 <=? ptr) && (ptr <? 2 * TTY_FLIPBUF_SIZE) then Some (upd m ptr v) else None.

(** [n] characters with their flags from index [a] on: what [receive_buf] gets. *)
Definition flip_take (f : tty_flip_buffer) (a n : Z) : list (Z * Z) :=
  map (fun i => (char_buf f (a + i), flag_buf f (a + i))) (below n).

(** What the line discipline does with the characters (echo, stopping output) are
    calls of the operations below. *)
Definition flush_to_ldisc (t : tty_struct) : tty_struct :=
  if negb (test_bit TTY_LDISC (tflags t)) then t else
  if test_bit TTY_DONT_FLIP (tflags t) then set_flip (set_queued true (flip t)) t else
  let f := flip t in
  let '(a, f) :=
    if negb (buf_num f =? 0)
    then (TTY_FLIPBUF_SIZE, set_ptrs 0 0 (set_buf_num 0 f))
    else (0, set_ptrs TTY_FLIPBUF_SIZE TTY_FLIPBUF_SIZE (set_buf_num 1 f)) in
  let n := count f in
  let f := set_count 0 f in
  set_received (received t ++ [flip_take f a n]) (set_flip f t).

Definition tty_flip_buffer_push (t : tty_struct) : tty_struct :=
  if low_latency t then flush_to_ldisc t else set_flip (set_queued true (flip t)) t.

(** The timer's task queue runs the task. *)
Definition run_tqueue (t : tty_struct) : tty_struct :=
  if tqueue (flip t) then flush_to_ldisc (set_flip (set_queued false (flip t)) t) else t.

(** ** Speed of a terminal *)

Definition baud_table : list Z :=
  [0; 50; 75; 110; 134; 150; 200; 300; 600; 1200; 1800; 2400; 4800;
   9600; 19200; 38400; 57600; 115200; 230400; 460800;
   500000; 576000; 921600; 1000000; 1152000; 1500000; 2000000;
   2500000; 3000000; 3500000; 4000000].
Definition n_baud_table : Z := 31.

Definition tty_get_baud_rate (t : tty_struct) : option (Z * tty_struct) :=
  let cflag := c_cflag t in
  let i := cflag .& CBAUD in
  let '(i, t) :=
    if negb (i .& CBAUDEX =? 0) then
      let i := i .& .~ CBAUDEX in
      if (i <? 1) || (i + 15 >=? n_baud_table) then (i, set_c_cflag (c_cflag t .& .~ CBAUDEX) t)
      else (i + 15, t)
    else (i, t) in
  if (i =? 15) && negb (alt_speed t =? 0) then Some (alt_speed t, t)
  else b ← baud_table !! Z.to_nat i; Some (b, t).

Section core.
Context {D : Type} `{UartOps D}.
Implicit Types (u : uart D).

(** ** Events, starting and stopping *)

Definition uart_event (e : Z) u : uart D := on_info (fun i => set_event (event i .| 1 .<< e) true i) u.

Definition uart_stop u : option (uart D) := stop_tx u.

Definition __uart_start u : option (uart D) :=
  let x := xmit (info u) in
  if negb (head x =? tail x) && present x && negb (stopped (tty u)) && negb (hw_stopped (tty u))
  then start_tx u else Some u.
Definition uart_start u : option (uart D) := __uart_start u.

(** [ldisc]: the line discipline has [write_wakeup]. *)
Definition uart_tasklet_action (ldisc : bool) u : uart D :=
  let u := on_info (fun i => set_event (event i) false i) u in
  if negb (has_tty (info u)) || negb (test_bit EVT_WRITE_WAKEUP (event (info u))) then u else
  let u := on_info (fun i => set_event (event i .& .~ (1 .<< EVT_WRITE_WAKEUP)) (tlet i) i) u in
  let u := if test_bit TTY_DO_WRITE_WAKEUP (tflags (tty u)) && ldisc then on_tty wake_up u else u in
  on_tty wake_up u.

(** [tty_io.c]: the terminal is stopped and started. *)
Definition stop_tty u : option (uart D) :=
  if stopped (tty u) then Some u else uart_stop (on_tty (set_stopped true) u).
Definition start_tty u : option (uart D) :=
  if negb (stopped (tty u)) || flow_stopped (tty u) then Some u else
  u ← uart_start (on_tty (set_stopped false) u);
  Some (on_tty wake_up u).

(** ** Output *)

Definition uart_put_char (ch : Z) u : uart D :=
  let x := xmit (info u) in
  if negb (present x) then u else
  if negb (CIRC_SPACE (head x) (tail x) UART_XMIT_SIZE =? 0) then
    on_info (set_xmit (mk_circ (present x) (upd (buf x) (head x) ch)
                         ((head x + 1) .& (UART_XMIT_SIZE - 1)) (tail x))) u
  else u.

Definition uart_flush_chars u : option (uart D) := uart_start u.

(** [memcpy] to index [a]. *)
Fixpoint memcpy (m : Z -> Z) (a : Z) (l : list Z) : Z -> Z :=
  match l with [] => m | c :: l => memcpy (upd m a c) (a + 1) l end.

(** [c] bytes at the head; [None] past the end of the page. *)
Definition xmit_put (l : list Z) u : option (uart D) :=
  let x := xmit (info u) in
  let c := Z.of_nat (length l) in
  if head x + c <=? UART_XMIT_SIZE then
    Some (on_info (set_xmit (mk_circ (present x) (memcpy (buf x) (head x) l)
                               ((head x + c) .& (UART_XMIT_SIZE - 1)) (tail x))) u)
  else None.

Definition space_to_end u : Z :=
  CIRC_SPACE_TO_END (head (xmit (info u))) (tail (xmit (info u))) UART_XMIT_SIZE.

(** The loop for kernel memory; [fuel]: one turn per byte and one to stop. *)
Fixpoint write_kernel (fuel : nat) (l : list Z) (ret : Z) u : option (Z * uart D) :=
  match fuel with
  | O => None
  | S fuel =>
      let c := space_to_end u in
      let c := if Z.of_nat (length l) <? c then Z.of_nat (length l) else c in
      if c <=? 0 then Some (ret, u) else
      u ← xmit_put (take (Z.to_nat c) l) u;
      write_kernel fuel (drop (Z.to_nat c) l) (ret + c) u
  end.

(** The loop for user memory.  [uncopied off n]: how many of [n] bytes at [off]
    [copy_from_user] cannot read; [preempt]: what interrupts do between the
    two looks at the ring. *)
Fixpoint write_user (uncopied : Z -> Z -> Z) (preempt : nat -> uart D -> option (uart D))
    (fuel : nat) (l : list Z) (ret : Z) u : option (Z * uart D) :=
  match fuel with
  | O => None
  | S fuel =>
      let c := space_to_end u in
      let c := if Z.of_nat (length l) <? c then Z.of_nat (length l) else c in
      if c <=? 0 then Some (ret, u) else
      let c := c - uncopied ret c in
      if c =? 0 then Some (if ret =? 0 then - EFAULT else ret, u) else
      u ← preempt fuel u;
      let c1 := space_to_end u in
      let c := if c1 <? c then c1 else c in
      u ← xmit_put (take (Z.to_nat c) l) u;
      write_user uncopied preempt fuel (drop (Z.to_nat c) l) (ret + c) u
  end.

(** [tmp_buf]: the page for user data is there. *)
Definition uart_write (tmp_buf from_user : bool) uncopied preempt (l : list Z) u : option (Z * uart D) :=
  if negb (present (xmit (info u))) || negb tmp_buf then Some (0, u) else
  '(ret, u) ← (if from_user then write_user uncopied preempt (S (length l)) l 0 u
               else write_kernel (S (length l)) l 0 u);
  u ← uart_start u;
  Some (ret, u).

Definition uart_write_room u : Z :=
  CIRC_SPACE (head (xmit (info u))) (tail (xmit (info u))) UART_XMIT_SIZE.
Definition uart_chars_in_buffer u : Z :=
  CIRC_CNT (head (xmit (info u))) (tail (xmit (info u))) UART_XMIT_SIZE.

Definition uart_flush_buffer (ldisc : bool) u : uart D :=
  let u := on_info (fun i => set_xmit (mk_circ (present (xmit i)) (buf (xmit i)) 0 0) i) u in
  let u := on_tty wake_up u in
  if test_bit TTY_DO_WRITE_WAKEUP (tflags (tty u)) && ldisc then on_tty wake_up u else u.

(** ** Flow control *)

Definition uart_send_xchar (ch : Z) u : option (uart D) :=
  let u := on_port (set_x_char (ch mod 256)) u in
  if negb (ch =? 0) then start_tx u else Some u.

Definition uart_set_mctrl (v : Z) u : uart D :=
  let u := on_info (set_mctrl v) u in on_drv (op_set_mctrl (port u) v) u.

Definition uart_throttle u : option (uart D) :=
  u ← (if negb (c_iflag (tty u) .& IXOFF =? 0) then uart_send_xchar (stop_char (tty u)) u else Some u);
  if negb (c_cflag (tty u) .& CRTSCTS =? 0)
  then Some (uart_set_mctrl (mctrl (info u) .& .~ TIOCM_RTS) u) else Some u.

Definition uart_unthrottle u : option (uart D) :=
  u ← (if negb (c_iflag (tty u) .& IXOFF =? 0) then
         if negb (x_char (port u) =? 0) then Some (on_port (set_x_char 0) u)
         else uart_send_xchar (start_char (tty u)) u
       else Some u);
  if negb (c_cflag (tty u) .& CRTSCTS =? 0)
  then Some (uart_set_mctrl (mctrl (info u) .| TIOCM_RTS) u) else Some u.

(** ** Speed *)

Definition uart_update_altspeed u : uart D :=
  let m := iflags (info u) .& ASYNC_SPD_MASK in
  let u := if m =? ASYNC_SPD_HI then on_tty (set_alt_speed 57600) u else u in
  let u := if m =? ASYNC_SPD_VHI then on_tty (set_alt_speed 115200) u else u in
  let u := if m =? ASYNC_SPD_SHI then on_tty (set_alt_speed 230400) u else u in
  if m =? ASYNC_SPD_WARP then on_tty (set_alt_speed 460800) u else u.

(** [custom_divisor] is of the port's persistent state. *)
Definition uart_calculate_quot (custom_divisor baud : Z) u : Z :=
  let baud := if baud =? 0 then 9600 else baud in
  if (baud =? 38400) && (iflags (info u) .& ASYNC_SPD_MASK =? ASYNC_SPD_CUST) then custom_divisor
  else uartclk (port u) / w32 (16 * baud).

(** The two attempts; [old] is the speed to go back to. *)
Fixpoint quot_loop (try : nat) (custom_divisor : Z) (old : option Z) (quot : Z) u : option (Z * uart D) :=
  match try with
  | O => Some (quot, u)
  | S try =>
      '(baud, t) ← tty_get_baud_rate (tty u);
      let u := on_tty (fun _ => t) u in
      let quot := uart_calculate_quot custom_divisor baud u in
      if negb (quot =? 0) then Some (quot, u) else
      let u := on_tty (fun t => set_c_cflag (c_cflag t .& .~ CBAUD) t) u in
      match old with
      | Some old => quot_loop try custom_divisor None quot
                      (on_tty (fun t => set_c_cflag (c_cflag t .| (old .& CBAUD)) t) u)
      | None => quot_loop try custom_divisor None quot
                  (on_tty (fun t => set_c_cflag (c_cflag t .| B9600) t) u)
      end
  end.

(** Bits of a character on the line. *)
Definition char_bits (cflag : Z) : Z :=
  let bits := if cflag .& CSIZE =? CS5 then 7 else if cflag .& CSIZE =? CS6 then 8
              else if cflag .& CSIZE =? CS7 then 9 else 10 in
  let bits := if negb (cflag .& CSTOPB =? 0) then bits + 1 else bits in
  if negb (cflag .& PARENB =? 0) then bits + 1 else bits.

(** [old]: the control flags of the old settings, if there are any; a clock below
    16 Hz divides by zero. *)
Definition uart_change_speed (custom_divisor : Z) (old : option Z) u : option (uart D) :=
  if negb (has_tty (info u)) || (ptype (port u) =? PORT_UNKNOWN) then Some u else
  let cflag := c_cflag (tty u) in
  let bits := char_bits cflag in
  '(quot, u) ← quot_loop 2 custom_divisor old 0 u;
  if uartclk (port u) / 16 =? 0 then None else
  let tmo := w32 (w32 (fifosize (port u) * HZ * bits * quot) / (uartclk (port u) / 16) + HZ / 50) in
  let u := on_info (set_timeout tmo) u in
  let u := on_info (fun i => set_iflags (if negb (cflag .& CRTSCTS =? 0) then iflags i .| ASYNC_CTS_FLOW
                                         else iflags i .& .~ ASYNC_CTS_FLOW) i) u in
  let u := on_info (fun i => set_iflags (if negb (cflag .& CLOCAL =? 0) then iflags i .& .~ ASYNC_CHECK_CD
                                         else iflags i .| ASYNC_CHECK_CD) i) u in
  '(p, d) ← change_speed cflag (c_iflag (tty u)) quot (port u) (drv u);
  Some (mk_uart p (info u) (tty u) d).

Definition RELEVENT_IFLAG (iflag : Z) : Z := iflag .& (IGNBRK .| BRKINT .| IGNPAR .| PARMRK .| INPCK).

Definition uart_set_termios (custom_divisor old_cflag old_iflag : Z) u : option (uart D) :=
  let cflag := c_cflag (tty u) in
  if (cflag .^ old_cflag =? 0) && (RELEVENT_IFLAG (c_iflag (tty u) .^ old_iflag) =? 0) then Some u else
  u ← uart_change_speed custom_divisor (Some old_cflag) u;
  let u := if negb (old_cflag .& CBAUD =? 0) && (cflag .& CBAUD =? 0)
           then uart_set_mctrl (mctrl (info u) .& .~ (TIOCM_RTS .| TIOCM_DTR)) u else u in
  let u := if (old_cflag .& CBAUD =? 0) && negb (cflag .& CBAUD =? 0) then
             let m := mctrl (info u) .| TIOCM_DTR in
             uart_set_mctrl (if (cflag .& CRTSCTS =? 0) || negb (test_bit TTY_THROTTLED (tflags (tty u)))
                             then m .| TIOCM_RTS else m) u
           else u in
  if negb (old_cflag .& CRTSCTS =? 0) && (cflag .& CRTSCTS =? 0)
  then __uart_start (on_tty (set_hw_stopped false) u) else Some u.

(** ** Opening and closing *)

(** [page]: there is memory for the ring; [capable]: the caller may set up a
    port that does not work. *)
Definition uart_startup (page capable : bool) (custom_divisor : Z) u : option (Z * uart D) :=
  let io_error u := if has_tty (info u) then on_tty (fun t => set_tflags (tflags t .| 1 .<< TTY_IO_ERROR) t) u else u in
  if negb page then Some (- ENOMEM, u) else
  if negb (iflags (info u) .& ASYNC_INITIALIZED =? 0) then Some (0, u) else
  if ptype (port u) =? PORT_UNKNOWN then Some (0, io_error u) else
  let x := xmit (info u) in
  let x := if present x then x else mk_circ true (fun _ => 0) (head x) (tail x) in
  let u := on_info (set_xmit x) u in
  let u := on_info (set_mctrl 0) u in
  let u := on_info (fun i => set_xmit (mk_circ (present x) (buf x) 0 0) i) u in
  '(retval, p, d) ← startup (port u) (drv u);
  let u := mk_uart p (info u) (tty u) d in
  if negb (retval =? 0) then Some (if capable then (0, io_error u) else (retval, u)) else
  let u := if has_tty (info u)
           then uart_update_altspeed (on_tty (fun t => set_tflags (tflags t .& .~ (1 .<< TTY_IO_ERROR)) t) u)
           else u in
  u ← uart_change_speed custom_divisor None u;
  if negb (has_tty (info u)) then None else
  let u := uart_set_mctrl
             (if negb (c_cflag (tty u) .& CBAUD =? 0)
              then mctrl (info u) .| (TIOCM_RTS .| TIOCM_DTR) else mctrl (info u)) u in
  Some (0, on_info (fun i => set_iflags (iflags i .| ASYNC_INITIALIZED) i) u).

Definition uart_shutdown u : option (uart D) :=
  if iflags (info u) .& ASYNC_INITIALIZED =? 0 then Some u else
  d ← shutdown (port u) (drv u);
  let u := on_drv (fun _ => d) u in
  let u := on_info (fun i => set_xmit (mk_circ false (buf (xmit i)) (head (xmit i)) (tail (xmit i))) i) u in
  let u := uart_set_mctrl
             (if negb (has_tty (info u)) || negb (c_cflag (tty u) .& HUPCL =? 0)
              then mctrl (info u) .& .~ (TIOCM_DTR .| TIOCM_RTS) else mctrl (info u)) u in
  let u := on_info (fun i => set_event (event i) false i) u in
  let u := if has_tty (info u) then on_tty (fun t => set_tflags (tflags t .| 1 .<< TTY_IO_ERROR) t) u else u in
  Some (on_info (fun i => set_iflags (iflags i .& .~ ASYNC_INITIALIZED) i) u).

Definition uart_hangup (ldisc : bool) u : option (uart D) :=
  let u := uart_flush_buffer ldisc u in
  if negb (iflags (info u) .& ASYNC_CLOSING =? 0) then Some u else
  u ← uart_shutdown u;
  let u := on_info (fun i => set_event 0 (tlet i) i) u in
  let u := on_info (fun i => set_iflags (iflags i .& .~ (ASYNC_NORMAL_ACTIVE .| ASYNC_CALLOUT_ACTIVE)) i) u in
  Some (on_info (set_has_tty false) u).

(** ** The console *)

(** Index of the port of a console; [ports] are the [nr] ports. *)
Definition uart_get_console (ports : list uart_port) (index : Z) : Z :=
  let empty p := (iobase p =? 0) && (membase p =? 0) in
  let nr := Z.of_nat (length ports) in
  let bad := (index <? 0) || (index >=? nr) ||
             match ports !! Z.to_nat index with Some p => empty p | None => true end in
  if bad then
    match list_find (fun p => empty p = false) ports with
    | Some (i, _) => Z.of_nat i
    | None => nr
    end
  else index.

Fixpoint skip_digits (s : list Z) : list Z :=
  match s with c :: s' => if isdigit c then skip_digits s' else s | [] => [] end.

(** Baud, parity, bits and flow of the options; the last three as before where
    the text ends early. *)
Definition uart_parse_options (s : list Z) (parity bits flow : Z) : Z * Z * Z * Z :=
  let baud := s32 (simple_strtoul s) in
  match skip_digits s with
  | [] => (baud, parity, bits, flow)
  | [p] => (baud, p, bits, flow)
  | [p; b] => (baud, p, b - 48, flow)
  | p :: b :: f :: _ => (baud, p, b - 48, f)
  end.

Definition baud_flag (baud : Z) : Z * Z :=
  if baud =? 300 then (B300, baud) else if baud =? 1200 then (B1200, baud)
  else if baud =? 2400 then (B2400, baud) else if baud =? 4800 then (B4800, baud)
  else if baud =? 9600 then (B9600, baud) else if baud =? 19200 then (B19200, baud)
  else if baud =? 57600 then (B57600, baud) else if baud =? 115200 then (B115200, baud)
  else if baud =? 230400 then (B230400, baud) else if baud =? 460800 then (B460800, baud)
  else (B38400, 38400).

(** The console's [cflag], and the port with its driver. *)
Definition uart_set_options (baud parity bits : Z) (p : uart_port) (d : D) : option (Z * uart_port * D) :=
  let cflag := CREAD .| HUPCL .| CLOCAL in
  let '(b, baud) := baud_flag baud in
  let cflag := cflag .| b in
  let cflag := cflag .| (if bits =? 7 then CS7 else CS8) in
  let odd := (parity =? 111) || (parity =? 79) in
  let even := (parity =? 101) || (parity =? 69) in
  let cflag := if odd then cflag .| PARODD .| PARENB else if even then cflag .| PARENB else cflag in
  '(p, d) ← change_speed cflag 0 (uartclk p / (16 * baud)) p d;
  Some (cflag, p, d).
End core.
