(* ===== verification/SerialTx.v ===== *)
(** * Sending characters ([serial_core.c] over any driver)

    The calls of the terminal that concern output, as [SerialCore] has them,
    implement a queue of at most 1023 characters with one character of high
    priority beside it, which starting, stopping and transmit interrupts empty.
    The driver is known only by the laws of the class [TxDriver]. *)

From S2P Require Import Prelude SerialCore.
Open Scope Z_scope.

(** ** The ring as a list *)

Definition ring_ok (x : circ_buf) : Prop :=
  present x = true /\ 0 <= head x < UART_XMIT_SIZE /\ 0 <= tail x < UART_XMIT_SIZE.

(** The characters in the ring, the oldest first. *)
Definition ring (x : circ_buf) : list Z :=
  map (fun i => buf x ((tail x + i) .& (UART_XMIT_SIZE - 1)))
    (below (CIRC_CNT (head x) (tail x) UART_XMIT_SIZE)).

Definition ring_push (c : Z) (x : circ_buf) : circ_buf :=
  mk_circ (present x) (upd (buf x) (head x) c) ((head x + 1) .& (UART_XMIT_SIZE - 1)) (tail x).
Definition ring_pop (x : circ_buf) : circ_buf :=
  mk_circ (present x) (buf x) (head x) ((tail x + 1) .& (UART_XMIT_SIZE - 1)).

Lemma land_size z : z .& (UART_XMIT_SIZE - 1) = z mod 1024.
Proof. change (UART_XMIT_SIZE - 1) with (Z.ones 10). by rewrite Z.land_ones. Qed.

(** The count of the ring, from its two indices. *)
Definition cnt (x : circ_buf) : Z := CIRC_CNT (head x) (tail x) UART_XMIT_SIZE.

Ltac ring_arith :=
  unfold ring_ok, cnt, CIRC_SPACE, CIRC_SPACE_TO_END, CIRC_CNT in *; rewrite ?land_size in *;
  unfold UART_XMIT_SIZE in *; Z.to_euclidean_division_equations; lia.

Lemma cnt_range x : 0 <= cnt x < 1024.
Proof. ring_arith. Qed.

Lemma ring_length x : Z.of_nat (length (ring x)) = cnt x.
Proof. pose proof (cnt_range x). unfold ring. rewrite length_map, length_below. fold (cnt x). lia. Qed.

Lemma ring_empty x : ring_ok x -> (head x =? tail x) = true <-> ring x = [].
Proof.
  intros Hx. rewrite Z.eqb_eq. split.
  - intros E. apply length_zero_iff_nil. pose proof (ring_length x). assert (cnt x = 0) by ring_arith. lia.
  - intros E. pose proof (ring_length x) as L. rewrite E in L. cbn in L. ring_arith.
Qed.

Lemma circ_space x : ring_ok x -> CIRC_SPACE (head x) (tail x) UART_XMIT_SIZE = 1023 - cnt x.
Proof. intros Hx. ring_arith. Qed.

Lemma circ_space_to_end x : ring_ok x ->
  CIRC_SPACE_TO_END (head x) (tail x) UART_XMIT_SIZE = Z.min (1023 - cnt x) (1024 - head x).
Proof.
  intros Hx. unfold CIRC_SPACE_TO_END. destruct (Z.leb_spec ((UART_XMIT_SIZE - 1 - head x + tail x) .& (UART_XMIT_SIZE - 1))
    (UART_XMIT_SIZE - 1 - head x)); ring_arith.
Qed.

Lemma push_ok c x : ring_ok x -> ring_ok (ring_push c x).
Proof. unfold ring_ok, ring_push. cbn. rewrite land_size. unfold UART_XMIT_SIZE. intros (? & ? & ?). split_and!; try done; Z.to_euclidean_division_equations; lia. Qed.
Lemma pop_ok x : ring_ok x -> ring_ok (ring_pop x).
Proof. unfold ring_ok, ring_pop. cbn. rewrite land_size. unfold UART_XMIT_SIZE. intros (? & ? & ?). split_and!; try done; Z.to_euclidean_division_equations; lia. Qed.

Lemma cnt_eq x : cnt x = (head x - tail x) mod 1024.
Proof. unfold cnt, CIRC_CNT. apply land_size. Qed.

Lemma push_cnt c x : ring_ok x -> cnt x < 1023 -> cnt (ring_push c x) = cnt x + 1.
Proof.
  rewrite !cnt_eq. unfold ring_ok, ring_push, UART_XMIT_SIZE. cbn [head tail]. rewrite land_size.
  intros (_ & ? & ?). rewrite Zminus_mod_idemp_l. Z.to_euclidean_division_equations; lia.
Qed.

Lemma pop_cnt x : ring_ok x -> 0 < cnt x -> cnt (ring_pop x) = cnt x - 1.
Proof.
  rewrite !cnt_eq. unfold ring_ok, ring_pop, UART_XMIT_SIZE. cbn [head tail]. rewrite land_size.
  intros (_ & ? & ?). rewrite Zminus_mod_idemp_r. Z.to_euclidean_division_equations; lia.
Qed.

Lemma below_snoc n : 0 <= n -> below (n + 1) = below n ++ [n].
Proof. intros Hn. rewrite below_add by lia. f_equal. change (below 1) with [0]. cbn [map]. f_equal. lia. Qed.

Lemma ring_push_spec c x : ring_ok x -> cnt x < 1023 -> ring (ring_push c x) = ring x ++ [c].
Proof.
  intros Hx Hc. pose proof (cnt_range x) as Hr. unfold ring. fold (cnt x) (cnt (ring_push c x)).
  rewrite push_cnt, below_snoc, map_app by (done || lia). f_equal.
  - apply map_ext_in. intros i Hi%in_below. cbn [buf tail ring_push]. apply upd_ne. rewrite land_size.
    ring_arith.
  - cbn [map buf tail ring_push]. f_equal. rewrite land_size. replace ((tail x + cnt x) mod 1024) with (head x).
    + apply upd_eq.
    + ring_arith.
Qed.

Lemma below_cons n : 0 < n -> below n = 0 :: map (Z.add 1) (below (n - 1)).
Proof. intros Hn. replace n with (1 + (n - 1)) at 1 by lia. by rewrite below_add by lia. Qed.

Lemma ring_pop_spec c r x : ring_ok x -> ring x = c :: r -> buf x (tail x) = c /\ ring (ring_pop x) = r.
Proof.
  intros Hx E. pose proof (ring_length x) as L. rewrite E in L. cbn [length] in L.
  pose proof (pop_cnt x Hx ltac:(lia)) as Hp.
  unfold ring in E. fold (cnt x) in E. rewrite below_cons in E by lia. cbn [map] in E. simplify_eq. split.
  - f_equal. rewrite Z.add_0_r, land_size. ring_arith.
  - unfold ring. fold (cnt (ring_pop x)). rewrite Hp, map_map. apply map_ext_in. intros i _.
    cbn [buf tail ring_pop]. rewrite !land_size. f_equal. rewrite Zplus_mod_idemp_l. f_equal. lia.
Qed.

(** ** The queue the calls implement *)

(** [q]: characters to send; [xc]: the one of high priority, or 0; [halted]: the
    terminal is stopped; [on]: transmit interrupts are enabled; [sent]: what the
    transmitter was given, the characters of high priority marked. *)
Record tx_spec := mk_spec { q : list Z; xc : Z; halted : bool; on : bool; sent : list (bool * Z) }.

Definition set_q (l : list Z) (s : tx_spec) : tx_spec := mk_spec l (xc s) (halted s) (on s) (sent s).
Definition set_xc (c : Z) (s : tx_spec) : tx_spec := mk_spec (q s) c (halted s) (on s) (sent s).
Definition set_halted (b : bool) (s : tx_spec) : tx_spec := mk_spec (q s) (xc s) b (on s) (sent s).
Definition set_on (b : bool) (s : tx_spec) : tx_spec := mk_spec (q s) (xc s) (halted s) b (sent s).
Definition push (l : list Z) (s : tx_spec) : tx_spec := set_q (q s ++ l) s.

(** What does not change: [hw]: [hw_stopped]; [fs]: [flow_stopped]; [xoff]: the
    characters that stop and start the other side, if they are in use; [ln]: the
    line. *)
Record tx_config := mk_config { hw : bool; fs : bool; xoff : option (Z * Z); ln : Z }.

Inductive tx_op :=
  | Write (from_user : bool) (uncopied : Z -> Z -> Z) (irqs : nat -> nat) (l : list Z)
  | PutChar (c : Z) | FlushChars | FlushBuffer (ldisc : bool) | SendX (c : Z)
  | Throttle | Unthrottle | StopTty | StartTty | TxIrq | WriteRoom | CharsInBuffer.

Section spec.
Context (g : tx_config).

(** One transmission: nothing is due, or the character of high priority, or the
    oldest of the queue. *)
Definition send (s : tx_spec) : tx_spec :=
  if halted s || hw g then set_on false s else
  match q s with
  | [] => set_on false s
  | c :: r =>
      if negb (xc s =? 0) then mk_spec (q s) 0 (halted s) (on s) (sent s ++ [(true, xc s)])
      else mk_spec r (xc s) (halted s) (on s && negb (bool_decide (r = []))) (sent s ++ [(false, c)])
  end.
Definition irq (s : tx_spec) : tx_spec := if on s then send s else s.
Definition kick (s : tx_spec) : tx_spec :=
  if bool_decide (q s = []) || halted s || hw g then s else send (set_on true s).
Definition send_x (c : Z) (s : tx_spec) : tx_spec :=
  let s := set_xc (c mod 256) s in if negb (c =? 0) then send (set_on true s) else s.

(** [l] enters the queue piece by piece, with interrupts in between. *)
Inductive copied : list Z -> tx_spec -> tx_spec -> Prop :=
  | copied_nil s : copied [] s s
  | copied_push l l' s s' :
      Z.of_nat (length (q s) + length l) <= 1023 -> copied l' (push l s) s' -> copied (l ++ l') s s'
  | copied_irq l s s' : copied l (irq s) s' -> copied l s s'.

(** What call [o] may do: its result and the state after it. *)
Definition spec_step (o : tx_op) (s : tx_spec) (r : Z) (s' : tx_spec) : Prop :=
  match o with
  | Write false _ _ l =>
      let k := Nat.min (length l) (1023 - length (q s)) in
      r = Z.of_nat k /\ s' = kick (push (take k l) s)
  | Write true uncopied _ l =>
      exists l1 l2 s1, l = l1 ++ l2 /\ copied l1 s s1 /\ s' = kick s1 /\
        (r = Z.of_nat (length l1) \/ r = - EFAULT /\ l1 = []) /\
        ((forall off n, uncopied off n = 0) -> r = Z.of_nat (length l1) /\ (l2 = [] \/ length (q s1) = 1023%nat))
  | PutChar c => r = 0 /\ s' = if (length (q s) <? 1023)%nat then push [c] s else s
  | FlushChars => r = 0 /\ s' = kick s
  | FlushBuffer _ => r = 0 /\ s' = set_q [] s
  | SendX c => r = 0 /\ s' = send_x c s
  | Throttle => r = 0 /\ s' = match xoff g with Some (stop, _) => send_x stop s | None => s end
  | Unthrottle => r = 0 /\ s' =
      match xoff g with
      | Some (_, start) => if negb (xc s =? 0) then set_xc 0 s else send_x start s
      | None => s
      end
  | StopTty => r = 0 /\ s' = if halted s then s else set_on false (set_halted true s)
  | StartTty => r = 0 /\ s' = if negb (halted s) || fs g then s else kick (set_halted false s)
  | TxIrq => r = 0 /\ s' = irq s
  | WriteRoom => r = 1023 - Z.of_nat (length (q s)) /\ s' = s
  | CharsInBuffer => r = Z.of_nat (length (q s)) /\ s' = s
  end.

Inductive spec_run : list tx_op -> tx_spec -> list Z -> tx_spec -> Prop :=
  | run_nil s : spec_run [] s [] s
  | run_cons o ops s r s1 rs s' :
      spec_step o s r s1 -> spec_run ops s1 rs s' -> spec_run (o :: ops) s (r :: rs) s'.
End spec.

(** ** What a driver promises *)

(** [tx_on]: it has transmit interrupts enabled; [wire]: the bytes it has given to
    the hardware; [drv_ok]: its data for a line are in order; [tx_int]: the
    interrupt. *)
Class TxView (D : Type) := {
  tx_on : D -> bool; wire : D -> list Z; drv_ok : Z -> D -> Prop; tx_int : uart D -> option (uart D)
}.

Definition config_of {D} (u : uart D) : tx_config :=
  let t := tty u in
  mk_config (hw_stopped t) (flow_stopped t)
    (if negb (c_iflag t .& IXOFF =? 0) then Some (stop_char t, start_char t) else None) (line (port u)).

(** The state [u] has the output [s]. *)
Record tx_rel {D} `{TxView D} (g : tx_config) (u : uart D) (s : tx_spec) : Prop := {
  rel_tty : has_tty (info u) = true;
  rel_ok : ring_ok (xmit (info u));
  rel_q : ring (xmit (info u)) = q s;
  rel_x : x_char (port u) = xc s;
  rel_halted : stopped (tty u) = halted s;
  rel_config : config_of u = g;
  rel_on : tx_on (drv u) = on s;
  rel_wire : wire (drv u) = map (fun c => snd c mod 256) (sent s);
  rel_drv : drv_ok (line (port u)) (drv u)
}.

Class TxDriver (D : Type) `{UartOps D, TxView D} := {
  start_tx_law g u s : tx_rel g u s ->
    exists u', start_tx u = Some u' /\ tx_rel g u' (send g (set_on true s));
  stop_tx_law g u s : tx_rel g u s ->
    exists u', stop_tx u = Some u' /\ tx_rel g u' (set_on false s);
  tx_int_law g u s : tx_rel g u s -> on s = true ->
    exists u', tx_int u = Some u' /\ tx_rel g u' (send g s);
  set_mctrl_law g (u : uart D) s v : tx_rel g u s -> tx_rel g (on_drv (op_set_mctrl (port u) v) u) s
}.

(** ** The calls refine the queue *)

Section refinement.
Context {D : Type} `{HD : TxDriver D}.
Implicit Types (u : uart D) (s : tx_spec).

Definition tx_irq u : option (uart D) := if tx_on (drv u) then tx_int u else Some u.
Fixpoint tx_irqs (n : nat) u : option (uart D) :=
  match n with O => Some u | S n => u ← tx_irq u; tx_irqs n u end.

Definition tx_call (o : tx_op) u : option (Z * uart D) :=
  let unit (m : option (uart D)) := u ← m; Some (0, u) in
  match o with
  | Write user uncopied irqs l => uart_write true user uncopied (fun i => tx_irqs (irqs i)) l u
  | PutChar c => Some (0, uart_put_char c u)
  | FlushChars => unit (uart_flush_chars u)
  | FlushBuffer ldisc => Some (0, uart_flush_buffer ldisc u)
  | SendX c => unit (uart_send_xchar c u)
  | Throttle => unit (uart_throttle u)
  | Unthrottle => unit (uart_unthrottle u)
  | StopTty => unit (stop_tty u)
  | StartTty => unit (start_tty u)
  | TxIrq => unit (tx_irq u)
  | WriteRoom => Some (uart_write_room u, u)
  | CharsInBuffer => Some (uart_chars_in_buffer u, u)
  end.

Fixpoint tx_calls (l : list tx_op) u : option (list Z * uart D) :=
  match l with
  | [] => Some ([], u)
  | o :: l => '(r, u) ← tx_call o u; '(rs, u) ← tx_calls l u; Some (r :: rs, u)
  end.

(** [copy_from_user] leaves between none and all of the bytes uncopied. *)
Definition op_ok (o : tx_op) : Prop :=
  match o with Write _ uncopied _ _ => forall off n, 0 <= n -> 0 <= uncopied off n <= n | _ => True end.

Variable g : tx_config.
Abbreviation rel := (tx_rel g).

(** A change of the ring, or of what the queue does not have. *)
Lemma rel_ring x u s :
  rel u s -> ring_ok x -> rel (on_info (set_xmit x) u) (set_q (ring x) s).
Proof. intros [] Hx. by split. Qed.

Lemma rel_frame u u' s :
  rel u s -> has_tty (info u') = has_tty (info u) -> xmit (info u') = xmit (info u) ->
  port u' = port u -> stopped (tty u') = stopped (tty u) -> config_of u' = config_of u ->
  drv u' = drv u -> rel u' s.
Proof. intros [] E1 E2 E3 E4 E5 E6. split; by rewrite ?E1, ?E2, ?E3, ?E4, ?E5, ?E6. Qed.

Lemma set_q_id s : set_q (q s) s = s.
Proof. by destruct s. Qed.

Lemma rel_cnt u s : rel u s -> cnt (xmit (info u)) = Z.of_nat (length (q s)).
Proof. intros R. by rewrite <- ring_length, (rel_q _ _ _ R). Qed.

Lemma rel_space u s : rel u s ->
  space_to_end u = Z.min (1023 - Z.of_nat (length (q s))) (1024 - head (xmit (info u))).
Proof. intros R. unfold space_to_end. by rewrite circ_space_to_end, (rel_cnt u s) by (done || apply R). Qed.

(** The ring after [memcpy] is the one after pushing byte by byte. *)
Lemma memcpy_ring l : forall x, ring_ok x ->
  Z.of_nat (length l) <= Z.min (1023 - cnt x) (1024 - head x) ->
  let x' := mk_circ (present x) (memcpy (buf x) (head x) l)
              ((head x + Z.of_nat (length l)) .& (UART_XMIT_SIZE - 1)) (tail x) in
  ring_ok x' /\ ring x' = ring x ++ l.
Proof.
  induction l as [|c l IH]; intros x Hx Hl x'.
  - assert (x' = x) as ->.
    { subst x'. cbn [length memcpy]. rewrite land_size, Z.add_0_r, Z.mod_small by (destruct Hx as (_ & ? & _);
        unfold UART_XMIT_SIZE in *; lia). by destruct x. }
    by rewrite app_nil_r.
  - cbn [length] in Hl. pose proof (cnt_range x) as Hr.
    assert (Hh : l <> [] -> head (ring_push c x) = head x + 1).
    { intros Hne. cbn [ring_push head]. rewrite land_size. apply Z.mod_small.
      destruct l; [done|]. cbn [length] in Hl. destruct Hx as (_ & ? & _). lia. }
    assert (E : x' = mk_circ (present (ring_push c x)) (memcpy (buf (ring_push c x)) (head x + 1) l)
              ((head x + 1 + Z.of_nat (length l)) .& (UART_XMIT_SIZE - 1)) (tail (ring_push c x))).
    { subst x'. cbn [ring_push present buf tail memcpy length]. do 2 f_equal. lia. }
    rewrite E. clear E x'. destruct l as [|c' l].
    + cbn [memcpy length Z.of_nat] in *. rewrite Z.add_0_r.
      split; [exact (push_ok c x Hx)|apply (ring_push_spec c x Hx); lia].
    + rewrite <- Hh by done. change (ring x ++ c :: c' :: l) with (ring x ++ ([c] ++ c' :: l)).
      rewrite app_assoc, <- ring_push_spec by (lia || done). apply IH; [by apply push_ok|].
      rewrite push_cnt, Hh by (lia || done). lia.
Qed.

Lemma xmit_put_spec l u s :
  rel u s -> Z.of_nat (length l) <= space_to_end u ->
  exists u', xmit_put l u = Some u' /\ rel u' (push l s).
Proof.
  intros R Hl. rewrite (rel_space u s R) in Hl. unfold xmit_put.
  destruct (memcpy_ring l (xmit (info u))) as [Hx Ex]; [apply R|rewrite (rel_cnt u s R); lia|].
  unfold UART_XMIT_SIZE at 1. destruct (Z.leb_spec (head (xmit (info u)) + Z.of_nat (length l)) 1024); [|lia].
  eexists. split; [done|]. unfold push. rewrite <- (rel_q _ _ _ R), <- Ex. by apply rel_ring.
Qed.

Lemma put_char_spec c u s : rel u s ->
  rel (uart_put_char c u) (if (length (q s) <? 1023)%nat then push [c] s else s).
Proof.
  intros R. unfold uart_put_char. pose proof (proj1 (rel_ok _ _ _ R)) as Hp.
  rewrite Hp. cbn [negb]. rewrite circ_space, (rel_cnt u s R) by apply R.
  destruct (Nat.ltb_spec (length (q s)) 1023).
  - destruct (Z.eqb_spec (1023 - Z.of_nat (length (q s))) 0); [lia|]. cbn [negb].
    unfold push. rewrite <- (rel_q _ _ _ R). rewrite <- (ring_push_spec c) by (apply R || rewrite (rel_cnt u s R); lia).
    apply (rel_ring (ring_push c (xmit (info u)))) in R; [|by apply push_ok, R].
    unfold ring_push in R at 1. by rewrite Hp in R.
  - destruct (Z.eqb_spec (1023 - Z.of_nat (length (q s))) 0) as [|N]; [done|].
    exfalso. apply N. pose proof (cnt_range (xmit (info u))) as Hr. rewrite (rel_cnt u s R) in Hr. lia.
Qed.

Lemma start_spec u s : rel u s -> exists u', uart_start u = Some u' /\ rel u' (kick g s).
Proof.
  intros R. unfold uart_start, __uart_start, kick.
  pose proof (ring_empty _ (rel_ok _ _ _ R)) as He. rewrite (rel_q _ _ _ R) in He.
  rewrite (proj1 (rel_ok _ _ _ R)), (rel_halted _ _ _ R), andb_true_r.
  replace (hw_stopped (tty u)) with (hw g) by (by rewrite <- (rel_config _ _ _ R)).
  case_bool_decide as Hq; destruct (head _ =? tail _) eqn:E; cbn [negb andb orb].
  - eauto.
  - by apply He in Hq.
  - by destruct Hq; apply He.
  - destruct (halted s), (hw g); cbn [negb andb orb]; eauto. by apply start_tx_law.
Qed.

Lemma irq_spec u s : rel u s -> exists u', tx_irq u = Some u' /\ rel u' (irq g s).
Proof.
  intros R. unfold tx_irq, irq. rewrite (rel_on _ _ _ R). destruct (on s) eqn:E; [|eauto]. by apply tx_int_law.
Qed.

Lemma irqs_spec n : forall u s, rel u s -> exists u', tx_irqs n u = Some u' /\ rel u' (Nat.iter n (irq g) s).
Proof.
  induction n as [|n IH]; intros u s R; cbn [tx_irqs]; [eauto|].
  destruct (irq_spec u s R) as (u1 & -> & R1). cbn. destruct (IH _ _ R1) as (u2 & -> & R2).
  rewrite <- Nat.iter_succ_r in R2. eauto.
Qed.
Lemma write_kernel_spec : forall fuel l ret u s, rel u s -> (length l < fuel)%nat ->
  let k := Nat.min (length l) (1023 - length (q s)) in
  exists u', write_kernel fuel l ret u = Some (ret + Z.of_nat k, u') /\ rel u' (push (take k l) s).
Proof.
  induction fuel as [|fuel IH]; [lia|]. intros l ret u s R Hf k.
  pose proof (rel_space u s R) as Es. pose proof (cnt_range (xmit (info u))) as Hr.
  rewrite (rel_cnt u s R) in Hr. destruct (rel_ok _ _ _ R) as (_ & Hh & _). unfold UART_XMIT_SIZE in Hh.
  cbn [write_kernel]. set (c := if _ <? _ then _ else _).
  assert (Hc : c = Z.min (Z.of_nat (length l)) (space_to_end u)) by (subst c; destruct (Z.ltb_spec (Z.of_nat (length l)) (space_to_end u)); lia).
  clearbody c. destruct (Z.leb_spec c 0).
  - assert (k = 0%nat) as -> by lia. rewrite Z.add_0_r. eexists. split; [done|].
    unfold push. by rewrite app_nil_r, set_q_id.
  - destruct (xmit_put_spec (take (Z.to_nat c) l) u s R) as (u1 & -> & R1).
    { rewrite length_take. lia. }
    cbn. destruct (IH (drop (Z.to_nat c) l) (ret + c) u1 _ R1) as (u2 & -> & R2).
    { rewrite length_drop. lia. }
    cbn [push set_q q] in *. rewrite length_app, length_drop, length_take in *.
    eexists. split; [f_equal; f_equal; lia|]. unfold push, set_q in *. cbn [q xc halted on sent] in *.
    rewrite <- app_assoc in R2. replace (take k l) with
      (take (Z.to_nat c) l ++ take (Nat.min (length l - Z.to_nat c)
         (1023 - (length (q s) + Z.to_nat c `min` length l))) (drop (Z.to_nat c) l)); [done|].
    rewrite <- (take_drop (Z.to_nat c) (take k l)) at 1. f_equal.
    + rewrite take_take. f_equal. lia.
    + rewrite skipn_firstn_comm. f_equal. lia.
Qed.

Lemma copied_irqs n l : forall s s', copied g l (Nat.iter n (irq g) s) s' -> copied g l s s'.
Proof.
  induction n as [|n IH]; [done|]. intros s s' Hc. apply copied_irq, IH. by rewrite <- Nat.iter_succ_r.
Qed.

Lemma send_shorter s : (length (q (send g s)) <= length (q s))%nat.
Proof. unfold send. destruct (_ || _); [done|]. destruct (q s) eqn:E; [by cbn; rewrite E|]. destruct (_ =? 0); cbn; lia. Qed.
Lemma irqs_shorter n s : (length (q (Nat.iter n (irq g) s)) <= length (q s))%nat.
Proof.
  induction n as [|n IH]; [done|].
  change (Nat.iter (S n) (irq g) s) with (irq g (Nat.iter n (irq g) s)).
  etrans; [|exact IH]. generalize (Nat.iter n (irq g) s).
  intros s1. unfold irq. destruct (on s1); [apply send_shorter|done].
Qed.

Lemma write_user_spec uncopied irqs : (forall off n, 0 <= n -> 0 <= uncopied off n <= n) ->
  forall fuel l ret u s, rel u s -> (length l < fuel)%nat -> 0 <= ret ->
  exists r u' l1 l2 s1,
    write_user uncopied (fun i => tx_irqs (irqs i)) fuel l ret u = Some (r, u') /\
    rel u' s1 /\ l = l1 ++ l2 /\ copied g l1 s s1 /\
    (r = ret + Z.of_nat (length l1) \/ r = - EFAULT /\ l1 = [] /\ ret = 0) /\
    ((forall off n, uncopied off n = 0) ->
       r = ret + Z.of_nat (length l1) /\ (l2 = [] \/ length (q s1) = 1023%nat)).
Proof.
  intros Hu. induction fuel as [|fuel IH]; [lia|]. intros l ret u s R Hf Hret.
  pose proof (rel_space u s R) as Es. pose proof (cnt_range (xmit (info u))) as Hr.
  rewrite (rel_cnt u s R) in Hr. destruct (rel_ok _ _ _ R) as (_ & Hh & _). unfold UART_XMIT_SIZE in Hh.
  cbn [write_user]. set (c := if _ <? _ then _ else _).
  assert (Hc : c = Z.min (Z.of_nat (length l)) (space_to_end u)) by (subst c; destruct (Z.ltb_spec (Z.of_nat (length l)) (space_to_end u)); lia).
  clearbody c. destruct (Z.leb_spec c 0).
  - exists ret, u, [], l, s. cbn [length]. split_and!; try done; [constructor|left; lia|].
    intros _. split; [lia|]. destruct l; [by left|]. cbn [length] in *. right. lia.
  - pose proof (Hu ret c ltac:(lia)) as Hn. destruct (Z.eqb_spec (c - uncopied ret c) 0) as [E|E].
    + exists (if ret =? 0 then - EFAULT else ret), u, [], l, s. cbn [length].
      split_and!; try done; [constructor| |intros Hz; rewrite Hz in E; lia].
      destruct (Z.eqb_spec ret 0); [by right|left; lia].
    + destruct (irqs_spec (irqs fuel) u s R) as (u1 & -> & R1). cbn.
      set (c' := if _ <? _ then _ else _).
      assert (Hc' : c' = Z.min (c - uncopied ret c) (space_to_end u1)) by
        (subst c'; destruct (Z.ltb_spec (space_to_end u1) (c - uncopied ret c)); lia).
      clearbody c'. pose proof (rel_space u1 _ R1) as Es1. pose proof (cnt_range (xmit (info u1))) as Hr1.
      rewrite (rel_cnt u1 _ R1) in Hr1. destruct (rel_ok _ _ _ R1) as (_ & Hh1 & _). unfold UART_XMIT_SIZE in Hh1.
      destruct (xmit_put_spec (take (Z.to_nat c') l) u1 _ R1) as (u2 & -> & R2).
      { rewrite length_take. lia. }
      cbn. pose proof (irqs_shorter (irqs fuel) s) as Hsh.
      destruct (IH (drop (Z.to_nat c') l) (ret + c') u2 _ R2) as (r & u3 & l1 & l2 & s1 & -> & R3 & El & Hcp & Hres & Hz).
      { rewrite length_drop. lia. }
      { lia. }
      exists r, u3, (take (Z.to_nat c') l ++ l1), l2, s1. rewrite length_app, length_take.
      split_and!; try done.
      * by rewrite <- app_assoc, <- El, take_drop.
      * apply (copied_irqs (irqs fuel)), copied_push; [|done]. rewrite length_take. lia.
      * left. destruct Hres as [->|(_ & _ & ?)]; lia.
      * intros Hz0. destruct (Hz Hz0) as [-> Hfull]. split; [lia|done].
Qed.

Lemma send_x_spec c u s : rel u s -> exists u', uart_send_xchar c u = Some u' /\ rel u' (send_x g c s).
Proof.
  intros R. unfold uart_send_xchar, send_x.
  assert (R1 : rel (on_port (set_x_char (c mod 256)) u) (set_xc (c mod 256) s)) by (destruct R; by split).
  destruct (c =? 0); cbn [negb]; [eauto|by apply start_tx_law].
Qed.

Lemma mctrl_spec v u s : rel u s -> rel (uart_set_mctrl v u) s.
Proof.
  intros R. unfold uart_set_mctrl. apply (set_mctrl_law g (on_info (set_mctrl v) u)).
  by eapply rel_frame.
Qed.

Lemma rel_xoff u s : rel u s ->
  xoff g = if negb (c_iflag (tty u) .& IXOFF =? 0) then Some (stop_char (tty u), start_char (tty u)) else None.
Proof. intros R. by rewrite <- (rel_config _ _ _ R). Qed.

Lemma throttle_spec u s : rel u s ->
  exists u', uart_throttle u = Some u' /\
    rel u' (match xoff g with Some (c, _) => send_x g c s | None => s end).
Proof.
  intros R. unfold uart_throttle.
  assert (exists u1, (if negb (c_iflag (tty u) .& IXOFF =? 0) then uart_send_xchar (stop_char (tty u)) u else Some u)
    = Some u1 /\ rel u1 (match xoff g with Some (c, _) => send_x g c s | None => s end)) as (u1 & -> & R1).
  { rewrite (rel_xoff u s R). destruct (_ =? 0); cbn [negb]; [eauto|by apply send_x_spec]. }
  cbn. destruct (_ =? 0); cbn [negb]; eauto using mctrl_spec.
Qed.

Lemma unthrottle_spec u s : rel u s ->
  exists u', uart_unthrottle u = Some u' /\
    rel u' (match xoff g with
            | Some (_, c) => if negb (xc s =? 0) then set_xc 0 s else send_x g c s | None => s end).
Proof.
  intros R. unfold uart_unthrottle. rewrite (rel_x _ _ _ R).
  set (m := if negb (c_iflag _ .& _ =? 0) then _ else _).
  set (t := match xoff g with Some _ => _ | None => _ end).
  assert (exists u1, m = Some u1 /\ rel u1 t) as (u1 & -> & R1).
  { subst m t. rewrite (rel_xoff u s R).
    destruct (_ .& _ =? 0); cbn [negb]; [eauto|]. destruct (_ =? 0); cbn [negb].
    - by apply send_x_spec.
    - eexists. split; [done|]. destruct R. by split. }
  clearbody t. cbn. destruct (_ =? 0); cbn [negb]; eauto using mctrl_spec.
Qed.

Lemma stop_tty_spec u s : rel u s ->
  exists u', stop_tty u = Some u' /\ rel u' (if halted s then s else set_on false (set_halted true s)).
Proof.
  intros R. unfold stop_tty, uart_stop. rewrite (rel_halted _ _ _ R). destruct (halted s); [eauto|].
  apply stop_tx_law. destruct R. by split.
Qed.

Lemma start_tty_spec u s : rel u s ->
  exists u', start_tty u = Some u' /\ rel u' (if negb (halted s) || fs g then s else kick g (set_halted false s)).
Proof.
  intros R. unfold start_tty. rewrite (rel_halted _ _ _ R).
  replace (flow_stopped (tty u)) with (fs g) by (by rewrite <- (rel_config _ _ _ R)).
  destruct (halted s), (fs g); cbn [negb orb]; eauto.
  destruct (start_spec (on_tty (set_stopped false) u) (set_halted false s)) as (u1 & -> & R1);
    [destruct R; by split|].
  cbn. eexists. split; [done|]. by eapply rel_frame.
Qed.

Lemma call_spec o u s : rel u s -> op_ok o ->
  exists r u' s', tx_call o u = Some (r, u') /\ spec_step g o s r s' /\ rel u' s'.
Proof.
  intros R Ho. pose proof (proj1 (rel_ok _ _ _ R)) as Hp. destruct o; cbn [tx_call spec_step op_ok] in *;
    try (edestruct start_spec as (u' & E & R'); [exact R|unfold uart_flush_chars; rewrite E; cbn; eauto 9]; fail).
  - unfold uart_write. rewrite Hp. cbn [negb orb]. destruct from_user.
    + destruct (write_user_spec uncopied irqs Ho (S (length l)) l 0 u s R) as
        (r & u1 & l1 & l2 & s1 & -> & R1 & El & Hc & Hr & Hz); [lia..|]. cbn.
      destruct (start_spec u1 s1 R1) as (u2 & -> & R2). cbn. exists r, u2, (kick g s1). split_and!; try done.
      exists l1, l2, s1. rewrite Z.add_0_l in *. split_and!; try done.
      destruct Hr as [->|(-> & -> & _)]; auto.
    + destruct (write_kernel_spec (S (length l)) l 0 u s R) as (u1 & -> & R1); [lia|]. cbn [mbind option_bind].
      destruct (start_spec u1 _ R1) as (u2 & -> & R2). cbn [mbind option_bind]. eauto 9.
  - eexists _, _, _. split_and!; [done..|]. by apply put_char_spec.
  - eexists _, _, _. split_and!; [done..|]. unfold uart_flush_buffer.
    assert (R1 : rel (on_tty wake_up (on_info (fun i => set_xmit (mk_circ (present (xmit i)) (buf (xmit i)) 0 0) i) u)) (set_q [] s)).
    { eapply rel_frame; [apply (rel_ring (mk_circ (present (xmit (info u))) (buf (xmit (info u))) 0 0) _ _ R)|..]; done. }
    destruct (_ && _); [|done]. by eapply rel_frame.
  - destruct (send_x_spec c u s R) as (u' & -> & R'). cbn. eauto 9.
  - destruct (throttle_spec u s R) as (u' & -> & R'). cbn. eauto 9.
  - destruct (unthrottle_spec u s R) as (u' & -> & R'). cbn. eauto 9.
  - destruct (stop_tty_spec u s R) as (u' & -> & R'). cbn. eauto 9.
  - destruct (start_tty_spec u s R) as (u' & -> & R'). cbn. eauto 9.
  - destruct (irq_spec u s R) as (u' & -> & R'). cbn. eauto 9.
  - eexists _, _, _. split_and!; [done| |done|done]. unfold uart_write_room.
    by rewrite circ_space, (rel_cnt u s R) by apply R.
  - eexists _, _, _. split_and!; [done| |done|done]. exact (rel_cnt u s R).
Qed.

Lemma calls_spec ops : Forall op_ok ops -> forall u s, rel u s ->
  exists rs u' s', tx_calls ops u = Some (rs, u') /\ spec_run g ops s rs s' /\ rel u' s'.
Proof.
  induction 1 as [|o ops Ho _ IH]; intros u s R; cbn [tx_calls].
  - eexists _, _, _. split_and!; [done|constructor|done].
  - destruct (call_spec o u s R Ho) as (r & u1 & s1 & -> & St & R1). cbn.
    destruct (IH u1 s1 R1) as (rs & u2 & s2 & -> & Run & R2). cbn.
    eexists _, _, _. split_and!; [done|by econstructor|done].
Qed.
End refinement.

(** ** What the queue promises *)

Section promises.
Variable g : tx_config.
Implicit Types s : tx_spec.

(** The characters written that have been sent. *)
Definition data s : list Z := map snd (filter (fun p => p.1 = false) (sent s)).

Definition inputs (o : tx_op) : list Z :=
  match o with Write _ _ _ l => l | PutChar c => [c] | _ => [] end.
Definition flushes (o : tx_op) : bool := match o with FlushBuffer _ => true | _ => false end.

(** From [s] to [s'] only [acc] was added at the end. *)
Definition adds (acc : list Z) s s' : Prop := data s' ++ q s' = data s ++ q s ++ acc.

Lemma data_snoc b c l : map snd (filter (fun p : bool * Z => p.1 = false) (l ++ [(b, c)])) =
  map snd (filter (fun p : bool * Z => p.1 = false) l) ++ (if b : bool then [] else [c]).
Proof. rewrite filter_app, map_app. by destruct b. Qed.

Lemma send_adds s : adds [] s (send g s).
Proof.
  unfold adds, send, data. rewrite app_nil_r. destruct (_ || _); [done|]. destruct (q s) as [|c r] eqn:E; [by cbn; rewrite E|].
  destruct (_ =? 0); cbn [negb sent q]; by rewrite data_snoc, <- app_assoc.
Qed.

Lemma adds_trans a b s1 s2 s3 : adds a s1 s2 -> adds b s2 s3 -> adds (a ++ b) s1 s3.
Proof. unfold adds. intros A B. rewrite B, (app_assoc (data s2)), A. by rewrite <- !app_assoc. Qed.

Lemma irq_adds s : adds [] s (irq g s).
Proof. unfold irq. destruct (on s); [apply send_adds|]. unfold adds. by rewrite app_nil_r. Qed.

Lemma set_on_adds b s : adds [] s (set_on b s).
Proof. unfold adds. by rewrite app_nil_r. Qed.

Lemma kick_adds s : adds [] s (kick g s).
Proof.
  unfold kick. destruct (_ || _); [unfold adds; by rewrite app_nil_r|].
  apply (adds_trans [] [] _ (set_on true s)); [apply set_on_adds|apply send_adds].
Qed.

Lemma push_adds l s : adds l s (push l s).
Proof. done. Qed.

Lemma send_x_adds c s : adds [] s (send_x g c s).
Proof.
  unfold send_x. destruct (_ =? 0); cbn [negb]; [unfold adds; by rewrite app_nil_r|].
  apply (adds_trans [] [] _ (set_on true (set_xc (c mod 256) s))); [unfold adds; by rewrite app_nil_r|apply send_adds].
Qed.

Lemma copied_adds l s s' : copied g l s s' -> adds l s s'.
Proof.
  induction 1 as [|l l' s s' _ _ IH|l s s' _ IH].
  - unfold adds. by rewrite app_nil_r.
  - by eapply adds_trans; [apply push_adds|].
  - by apply (adds_trans [] l _ (irq g s)); [apply irq_adds|].
Qed.

Lemma copied_bound l s s' : copied g l s s' -> (length (q s) <= 1023)%nat -> (length (q s') <= 1023)%nat.
Proof.
  induction 1 as [|l l' s s' Hl _ IH|l s s' _ IH]; intros Hq; [done|apply IH; cbn; rewrite length_app; lia|].
  apply IH. etrans; [|exact Hq]. unfold irq. destruct (on s); [|done].
  unfold send. destruct (_ || _); [done|]. destruct (q s) eqn:E; [by cbn; rewrite E|]. destruct (_ =? 0); cbn; lia.
Qed.

Lemma step_adds o s r s' : spec_step g o s r s' -> flushes o = false ->
  exists acc, acc `prefix_of` inputs o /\ adds acc s s'.
Proof.
  assert (N : adds [] s s) by (unfold adds; by rewrite app_nil_r).
  destruct o; cbn [spec_step flushes inputs]; intros St Hf; try done.
  - destruct from_user.
    + destruct St as (l1 & l2 & s1 & -> & Hc & -> & _). exists l1. split; [by exists l2|].
      rewrite <- (app_nil_r l1). eapply adds_trans; [by apply copied_adds|apply kick_adds].
    + destruct St as [_ ->]. eexists. split; [apply prefix_take|].
      rewrite <- (app_nil_r (take _ l)). eapply adds_trans; [apply push_adds|apply kick_adds].
  - destruct St as [_ ->]. destruct (_ <? _)%nat; [exists [c]; split; [by exists []|apply push_adds]|
      exists []; split; [by apply prefix_nil|done]].
  - destruct St as [_ ->]. exists []. split; [by apply prefix_nil|apply kick_adds].
  - destruct St as [_ ->]. exists []. split; [by apply prefix_nil|apply send_x_adds].
  - destruct St as [_ ->]. exists []. split; [by apply prefix_nil|].
    destruct (xoff g) as [[]|]; [apply send_x_adds|done].
  - destruct St as [_ ->]. exists []. split; [by apply prefix_nil|].
    destruct (xoff g) as [[]|]; [|done]. destruct (_ =? 0); cbn [negb]; [apply send_x_adds|exact N].
  - destruct St as [_ ->]. exists []. split; [by apply prefix_nil|]. by destruct (halted s).
  - destruct St as [_ ->]. exists []. split; [by apply prefix_nil|].
    destruct (_ || _); [done|]. apply (adds_trans [] [] _ (set_halted false s)); [exact N|apply kick_adds].
  - destruct St as [_ ->]. exists []. split; [by apply prefix_nil|apply irq_adds].
  - destruct St as [_ ->]. exists []. by split; [apply prefix_nil|].
  - destruct St as [_ ->]. exists []. by split; [apply prefix_nil|].
Qed.

Lemma run_adds ops s rs s' : spec_run g ops s rs s' -> existsb flushes ops = false ->
  exists acc, acc `sublist_of` concat (map inputs ops) /\ adds acc s s'.
Proof.
  induction 1 as [|o ops s r s1 rs s' St _ IH]; cbn [existsb map concat]; intros Hf.
  - exists []. split; [done|]. unfold adds. by rewrite app_nil_r.
  - apply orb_false_iff in Hf as [Hf1 Hf2]. destruct (step_adds o s r s1 St Hf1) as (a & Ha & A).
    destruct (IH Hf2) as (b & Hb & B). exists (a ++ b). split; [|by eapply adds_trans].
    destruct Ha as [k ->]. apply sublist_app; [by apply sublist_inserts_r|done].
Qed.

(** ** Emptying the queue *)

(** What there is to send, in order. *)
Definition due s : list Z := (if xc s =? 0 then [] else [xc s]) ++ q s.

Definition flowing s : Prop := halted s = false /\ hw g = false /\ on s = true /\ q s <> [].
Definition idle s : Prop := on s = false /\ q s = [] /\ xc s = 0.

Lemma send_due s : flowing s ->
  exists c l, due s = c :: l /\ map snd (sent (send g s)) = map snd (sent s) ++ [c] /\
    match l with [] => idle (send g s) | _ => flowing (send g s) /\ due (send g s) = l end.
Proof.
  intros (Hh & Hw & Ho & Hq). unfold due, send, flowing, idle. rewrite Hh, Hw. cbn [orb].
  destruct (q s) as [|c r] eqn:E; [done|]. destruct (Z.eqb_spec (xc s) 0) as [Ex|Ex]; cbn [negb].
  - exists c, r. cbn [sent]. rewrite map_app. split_and!; [done..|]. cbn [on q xc halted]. rewrite Ho, Ex.
    by destruct r.
  - exists (xc s), (c :: r). cbn [sent]. rewrite map_app. split_and!; [done..|]. cbn. by rewrite ?Ho, ?Hh.
Qed.

Lemma irqs_due : forall n s, flowing s -> (n < length (due s))%nat ->
  let s' := Nat.iter n (irq g) (send g s) in
  map snd (sent s') = map snd (sent s) ++ take (S n) (due s) /\
  (if decide (S n = length (due s)) then idle s' else flowing s').
Proof.
  induction n as [|n IH]; intros s Hf Hn s'.
  - destruct (send_due s Hf) as (c & l & Ed & Es & El). subst s'. cbn [Nat.iter]. rewrite Ed. cbn [take length].
    split; [done|]. destruct l; [done|]. by destruct El.
  - destruct (send_due s Hf) as (c & l & Ed & Es & El). rewrite Ed in *. cbn [length] in *.
    destruct l as [|c' l]; [cbn in Hn; lia|]. destruct El as [Hf1 Ed1].
    specialize (IH (send g s) Hf1). rewrite Ed1 in IH. specialize (IH ltac:(lia)) as [I1 I2].
    subst s'. rewrite Nat.iter_succ_r. assert (irq g (send g s) = send g (send g s)) as ->
      by (unfold irq; by rewrite (proj1 (proj2 (proj2 Hf1)))). split.
    + rewrite I1, Es, <- app_assoc. done.
    + revert I2. cbn [length]. repeat destruct (decide _); try lia; done.
Qed.

(** ** Silence *)

Definition starts (o : tx_op) : bool := match o with StartTty => true | _ => false end.
Definition fills (o : tx_op) : bool := match o with Write _ _ _ _ | PutChar _ => true | _ => false end.

(** While the terminal is stopped, or nothing is written to it, nothing is sent. *)
Definition silent s : Prop := halted s = true \/ q s = [].

Lemma send_silent s : silent s ->
  sent (send g s) = sent s /\ halted (send g s) = halted s /\ q (send g s) = q s /\ on (send g s) = false.
Proof.
  unfold send. intros [E|E]; rewrite E; [done|]. by destruct (_ || _); cbn; rewrite ?E.
Qed.
Lemma irq_silent s : silent s -> sent (irq g s) = sent s /\ halted (irq g s) = halted s /\ q (irq g s) = q s.
Proof. unfold irq. destruct (on s); [|done]. intros Hs. by destruct (send_silent s Hs) as (? & ? & ? & _). Qed.
Lemma kick_silent s : silent s -> kick g s = s.
Proof. unfold kick. intros [E|E]; rewrite E; [by rewrite orb_true_r|by rewrite bool_decide_true]. Qed.
Lemma send_x_silent c s : silent s ->
  sent (send_x g c s) = sent s /\ halted (send_x g c s) = halted s /\ q (send_x g c s) = q s.
Proof.
  intros Hs. unfold send_x. destruct (_ =? 0); cbn [negb]; [done|].
  by destruct (send_silent (set_on true (set_xc (c mod 256) s)) Hs) as (? & ? & ? & _).
Qed.
Lemma copied_halted l s s' : copied g l s s' -> halted s = true -> sent s' = sent s /\ halted s' = true.
Proof.
  induction 1 as [|l l' s s' _ _ IH|l s s' _ IH]; intros Hs; [done|by apply IH|].
  destruct (irq_silent s (or_introl Hs)) as (E1 & E2 & _). rewrite <- E1. apply IH. by rewrite E2.
Qed.

Lemma step_silent (stopped : bool) o s r s' :
  spec_step g o s r s' -> (if stopped then starts o else fills o) = false ->
  (if stopped then halted s = true else q s = []) ->
  sent s' = sent s /\ (if stopped then halted s' = true else q s' = []).
Proof.
  intros St Ho Hs. assert (Hsil : silent s) by (destruct stopped; [by left|by right]).
  pose proof (irq_silent s Hsil) as (I1 & I2 & I3). pose proof (kick_silent s Hsil) as K.
  destruct o; cbn [spec_step starts fills] in *.
  - destruct stopped; [|done]. destruct from_user.
    + destruct St as (l1 & l2 & s1 & _ & Hc & -> & _). destruct (copied_halted _ _ _ Hc Hs) as [E1 E2].
      rewrite kick_silent by (by left). done.
    + destruct St as [_ ->]. rewrite kick_silent by (by left). done.
  - destruct stopped; [|done]. destruct St as [_ ->]. by destruct (_ <? _)%nat.
  - destruct St as [_ ->]. by rewrite K.
  - destruct St as [_ ->]. by destruct stopped.
  - destruct St as [_ ->]. destruct (send_x_silent c s Hsil) as (-> & -> & ->). by destruct stopped.
  - destruct St as [_ ->]. destruct (xoff g) as [[a b]|]; [|done].
    destruct (send_x_silent a s Hsil) as (-> & -> & ->). by destruct stopped.
  - destruct St as [_ ->]. destruct (xoff g) as [[a b]|]; [|done]. destruct (_ =? 0); cbn [negb]; [|done].
    destruct (send_x_silent b s Hsil) as (-> & -> & ->). by destruct stopped.
  - destruct St as [_ ->]. by destruct (halted s) eqn:E, stopped.
  - destruct stopped; [done|]. destruct St as [_ ->]. destruct (_ || _); [done|].
    rewrite kick_silent by (by right). done.
  - destruct St as [_ ->]. rewrite I1, I2, I3. by destruct stopped.
  - by destruct St as [_ ->].
  - by destruct St as [_ ->].
Qed.

Lemma run_silent (stopped : bool) ops s rs s' :
  spec_run g ops s rs s' -> existsb (if stopped then starts else fills) ops = false ->
  (if stopped then halted s = true else q s = []) -> sent s' = sent s.
Proof.
  induction 1 as [|o ops s r s1 rs s' St _ IH]; cbn [existsb]; intros Ho Hs; [done|].
  apply orb_false_iff in Ho as [Ho1 Ho2].
  destruct (step_silent stopped o s r s1 St) as [E Hs1]; [by destruct stopped|done|].
  rewrite <- E. by apply IH.
Qed.
End promises.
