(* ===== verification/SerialOpen.v ===== *)
(** * Opening, closing and hanging up a serial port ([serial_core.c], [tty_io.c])

    The life of a port, over the operations of [SerialCore]: files of its terminal
    are opened and released, the terminal is hung up, and the last close waits
    until the output is sent ([tty_ioctl.c]).  One port and its terminal, with the
    line discipline N_TTY; calls do not interleave, except that interrupts arrive
    while a call sleeps.

    [None] also stands for a sleep that does not end within [fuel] wake-ups, and
    for a file that there is not.  Wait queues, semaphores, sessions of processes,
    module counts and power management have no effect here. *)

From S2P Require Import Prelude MpsRpc SerialCore.
Open Scope Z_scope.

(** ** Constants ([serial.h], [tty.h], [errno.h], [sched.h]) *)

Definition ASYNC_HUP_NOTIFY : Z := 0x0001.
Definition ASYNC_SPLIT_TERMIOS : Z := 0x0008.
Definition ASYNC_SESSION_LOCKOUT : Z := 0x0100.
Definition ASYNC_PGRP_LOCKOUT : Z := 0x0200.
Definition ASYNC_LOW_LATENCY : Z := 0x2000.
Definition ASYNC_CLOSING_WAIT_NONE : Z := 65535.
Definition TTY_EXCLUSIVE : Z := 3.
Definition TTY_CLOSING : Z := 7.
Definition TTY_HUPPED : Z := 18.
Definition ERESTARTSYS : Z := 512.
Definition MAX_SCHEDULE_TIMEOUT : Z := 2 ^ 31 - 1.

(** ** Data *)

(** The settings of a terminal that [tty_struct] has. *)
Record termios := mk_termios { t_iflag : Z; t_cflag : Z; t_stop : Z; t_start : Z }.
Definition termios_of (t : tty_struct) : termios :=
  mk_termios (c_iflag t) (c_cflag t) (stop_char t) (start_char t).
Definition put_termios (x : termios) (t : tty_struct) : tty_struct :=
  mk_tty (t_iflag x) (t_cflag x) (t_stop x) (t_start x) (tflags t) (alt_speed t) (stopped t)
    (hw_stopped t) (flow_stopped t) (low_latency t) (flip t) (received t) (wakeups t).
Definition set_low_latency (b : bool) (t : tty_struct) : tty_struct :=
  mk_tty (c_iflag t) (c_cflag t) (stop_char t) (start_char t) (tflags t) (alt_speed t) (stopped t)
    (hw_stopped t) (flow_stopped t) b (flip t) (received t) (wakeups t).

(** [have_info]: [info] is not null. *)
Record uart_state := mk_state {
  have_info : bool; ucount : Z; normal_termios : termios; callout_termios : termios
}.

(** The rest of [uart_info]. *)
Record uart_openers := mk_openers { blocked_open : Z; session : Z; pgrp : Z }.

(** A file of the terminal.  [console]: it was opened through the device of the
    console; [hung]: its operations are those of a terminal that was hung up. *)
Record tty_file := mk_file { console : bool; hung : bool }.

(** The rest of [tty_struct].  [there]: the driver's table has the terminal;
    [callout]: it was last opened through the callout device. *)
Record tty_dev := mk_dev {
  there : bool; tcount : Z; driver_data : bool; callout : bool; closing : bool; files : list tty_file
}.

(** [su]: port, [uart_info], terminal and driver, of which [uart_info] means
    nothing until it is allocated, and the terminal only keeps its settings when
    it is not there.  [naps]: how often a call has slept. *)
Record serial (D : Type) := mk_serial {
  su : uart D; state : uart_state; openers : uart_openers; dev : tty_dev;
  cons_cflag : Z; tmp_buf : bool; naps : nat
}.
Arguments mk_serial {D}.
Arguments su {D}.
Arguments state {D}.
Arguments openers {D}.
Arguments dev {D}.
Arguments cons_cflag {D}.
Arguments tmp_buf {D}.
Arguments naps {D}.

(** What does not change: settings of the port, the line of the console and the
    number of ports. *)
Record port_conf := mk_conf {
  closing_wait : Z; close_delay : Z; custom_divisor : Z; port_flags : Z; cons_index : Z; nr : Z
}.

(** Who opens, and which allocations succeed: of the terminal, of [uart_info], of
    the page for user data and of the ring. *)
Record opener := mk_opener {
  o_callout : bool; o_console : bool; nonblock : bool; o_session : Z; o_pgrp : Z; capable : bool;
  mem_tty : bool; mem_info : bool; mem_tmp : bool; mem_ring : bool
}.

Definition set_have_info (b : bool) (x : uart_state) : uart_state :=
  mk_state b (ucount x) (normal_termios x) (callout_termios x).
Definition set_ucount (n : Z) (x : uart_state) : uart_state :=
  mk_state (have_info x) n (normal_termios x) (callout_termios x).
Definition set_normal (t : termios) (x : uart_state) : uart_state :=
  mk_state (have_info x) (ucount x) t (callout_termios x).
Definition set_callout_termios (t : termios) (x : uart_state) : uart_state :=
  mk_state (have_info x) (ucount x) (normal_termios x) t.
Definition set_there (b : bool) (x : tty_dev) : tty_dev :=
  mk_dev b (tcount x) (driver_data x) (callout x) (closing x) (files x).
Definition set_tcount (n : Z) (x : tty_dev) : tty_dev :=
  mk_dev (there x) n (driver_data x) (callout x) (closing x) (files x).
Definition set_driver_data (b : bool) (x : tty_dev) : tty_dev :=
  mk_dev (there x) (tcount x) b (callout x) (closing x) (files x).
Definition set_callout (b : bool) (x : tty_dev) : tty_dev :=
  mk_dev (there x) (tcount x) (driver_data x) b (closing x) (files x).
Definition set_closing (b : bool) (x : tty_dev) : tty_dev :=
  mk_dev (there x) (tcount x) (driver_data x) (callout x) b (files x).
Definition set_files (l : list tty_file) (x : tty_dev) : tty_dev :=
  mk_dev (there x) (tcount x) (driver_data x) (callout x) (closing x) l.

Section access.
Context {D : Type}.
Implicit Types s : serial D.
Definition on_su (f : uart D -> uart D) s : serial D :=
  mk_serial (f (su s)) (state s) (openers s) (dev s) (cons_cflag s) (tmp_buf s) (naps s).
Definition on_state (f : uart_state -> uart_state) s : serial D :=
  mk_serial (su s) (f (state s)) (openers s) (dev s) (cons_cflag s) (tmp_buf s) (naps s).
Definition put_openers (x : uart_openers) s : serial D :=
  mk_serial (su s) (state s) x (dev s) (cons_cflag s) (tmp_buf s) (naps s).
Definition on_dev (f : tty_dev -> tty_dev) s : serial D :=
  mk_serial (su s) (state s) (openers s) (f (dev s)) (cons_cflag s) (tmp_buf s) (naps s).
Definition set_cons_cflag (v : Z) s : serial D :=
  mk_serial (su s) (state s) (openers s) (dev s) v (tmp_buf s) (naps s).
Definition set_tmp_buf (b : bool) s : serial D :=
  mk_serial (su s) (state s) (openers s) (dev s) (cons_cflag s) b (naps s).
Definition nap s : serial D :=
  mk_serial (su s) (state s) (openers s) (dev s) (cons_cflag s) (tmp_buf s) (S (naps s)).

(** Flags of [uart_info]. *)
Definition has_flag (mask : Z) s : bool := negb (iflags (info (su s)) .& mask =? 0).
Definition add_flag (mask : Z) s : serial D := on_su (on_info (fun i => set_iflags (iflags i .| mask) i)) s.
Definition drop_flag (mask : Z) s : serial D := on_su (on_info (fun i => set_iflags (iflags i .& .~ mask) i)) s.
Definition tty_bit (n : Z) s : bool := test_bit n (tflags (tty (su s))).
Definition set_tty_bit (n : Z) s : serial D := on_su (on_tty (fun t => set_tflags (tflags t .| 1 .<< n) t)) s.
End access.

(** The line discipline is full, or has room again ([n_tty.c]). *)
Section ldisc.
Context {D : Type} `{UartOps D}.
Implicit Types (s : serial D).

Definition lift_su (f : uart D -> option (uart D)) s : option (serial D) :=
  u ← f (su s); Some (on_su (fun _ => u) s).

(** The end of [n_tty_receive_buf], when there is little room left. *)
Definition throttle_tty s : option (serial D) :=
  if tty_bit TTY_THROTTLED s then Some s else lift_su uart_throttle (set_tty_bit TTY_THROTTLED s).

Definition check_unthrottle s : option (serial D) :=
  if negb (tcount (dev s) =? 0) && tty_bit TTY_THROTTLED s then
    lift_su uart_unthrottle (on_su (on_tty (fun t => set_tflags (tflags t .& .~ (1 .<< TTY_THROTTLED)) t)) s)
  else Some s.
Definition n_tty_flush_buffer s : option (serial D) := check_unthrottle s.
End ldisc.

(** [jiffies n]: the clock after [n] sleeps; [irqs n]: what interrupts do during
    the next; [signal n]: a signal is pending then. *)
Section life.
Context {D : Type} `{UartOps D} (cfg : port_conf).
Context (jiffies : nat -> Z) (irqs : nat -> uart D -> option (uart D)) (signal : nat -> bool) (fuel : nat).
Implicit Types (s : serial D) (o : opener).

(** ** Sleeping ([timer.c]) *)

Definition schedule s : option (serial D) := u ← irqs (naps s) (su s); Some (nap (on_su (fun _ => u) s)).

Definition schedule_timeout (timeout : Z) s : option (Z * serial D) :=
  if timeout =? MAX_SCHEDULE_TIMEOUT then s ← schedule s; Some (timeout, s) else
  if timeout <? 0 then Some (0, s) else
  let expire := w32 (timeout + jiffies (naps s)) in
  s ← schedule s;
  let timeout := s32 (expire - jiffies (naps s)) in
  Some (if timeout <? 0 then 0 else timeout, s).

Definition time_after (a b : Z) : bool := s32 (b - a) <? 0.

(** ** Waiting until the output is sent *)

Fixpoint sent_loop (n k : nat) (char_time timeout expire : Z) s : option (serial D) :=
  match n with
  | O => None
  | S n =>
      if negb (tx_empty k (port (su s)) (drv (su s)) =? 0) then Some s else
      '(_, s) ← schedule_timeout (s32 char_time) s;
      if signal (naps s) then Some s else
      if negb (timeout =? 0) && time_after (jiffies (naps s)) expire then Some s
      else sent_loop n (S k) char_time timeout expire s
  end.

Definition uart_wait_until_sent (tmo : Z) s : option (serial D) :=
  let p := port (su s) in
  if (ptype p =? PORT_UNKNOWN) || (fifosize p =? 0) then Some s else
  let itimeout := timeout (info (su s)) in
  let char_time := w32 (itimeout - HZ / 50) / fifosize p in
  let char_time := char_time / 5 in
  let char_time := if char_time =? 0 then 1 else char_time in
  let char_time := if negb (tmo =? 0) && (w32 tmo <? char_time) then w32 tmo else char_time in
  let tmo := if (tmo =? 0) || (w32 tmo >? w32 (2 * itimeout)) then s32 (w32 (2 * itimeout)) else tmo in
  let expire := w32 (jiffies (naps s) + tmo) in
  sent_loop fuel 0 char_time tmo expire s.

(** The time that is left, or nothing after a signal. *)
Fixpoint drain_loop (n : nat) (tmo : Z) s : option (option Z * serial D) :=
  match n with
  | O => None
  | S n =>
      if signal (naps s) then Some (None, s) else
      if uart_chars_in_buffer (su s) =? 0 then Some (Some tmo, s) else
      '(tmo, s) ← schedule_timeout tmo s;
      if tmo =? 0 then Some (Some tmo, s) else drain_loop n tmo s
  end.

Definition tty_wait_until_sent (tmo : Z) s : option (serial D) :=
  let tmo := if tmo =? 0 then MAX_SCHEDULE_TIMEOUT else tmo in
  '(r, s) ← drain_loop fuel tmo s;
  match r with Some tmo => uart_wait_until_sent tmo s | None => Some s end.

(** ** Closing *)

(** The part after the count has become zero. *)
Definition close_last s : option (serial D) :=
  let s := add_flag ASYNC_CLOSING s in
  let t := termios_of (tty (su s)) in
  let s := if has_flag ASYNC_NORMAL_ACTIVE s then on_state (set_normal t) s else s in
  let s := if has_flag ASYNC_CALLOUT_ACTIVE s then on_state (set_callout_termios t) s else s in
  let s := on_dev (set_closing true) s in
  s ← (if negb (closing_wait cfg =? ASYNC_CLOSING_WAIT_NONE)
       then tty_wait_until_sent (closing_wait cfg) s else Some s);
  s ← (if has_flag ASYNC_INITIALIZED s
       then let s := on_su (fun u => on_drv (stop_rx (port u)) u) s in
            uart_wait_until_sent (s32 (timeout (info (su s)))) s
       else Some s);
  s ← lift_su uart_shutdown s;
  let s := on_su (uart_flush_buffer true) s in
  s ← n_tty_flush_buffer s;
  let s := on_dev (set_closing false) s in
  let s := on_su (on_info (fun i => set_event 0 (tlet i) i)) s in
  let s := on_su (on_info (set_has_tty false)) s in
  s ← (if negb (blocked_open (openers s) =? 0) && negb (close_delay cfg =? 0)
       then '(_, s) ← schedule_timeout (close_delay cfg) s; Some s else Some s);
  Some (drop_flag (ASYNC_NORMAL_ACTIVE .| ASYNC_CALLOUT_ACTIVE .| ASYNC_CLOSING) s).

(** [hung_up]: the file was hung up. *)
Definition uart_close (hung_up : bool) s : option (serial D) :=
  if negb (driver_data (dev s)) then Some s else
  if hung_up then Some s else
  let n := ucount (state s) in
  let n := if (tcount (dev s) =? 1) && negb (n =? 1) then 1 else n in
  let n := n - 1 in
  let n := if n <? 0 then 0 else n in
  let s := on_state (set_ucount n) s in
  if negb (n =? 0) then Some s else close_last s.

(** [uart_hangup] also resets the count. *)
Definition hangup_port s : option (serial D) :=
  if negb (driver_data (dev s)) then None else
  s' ← lift_su (uart_hangup true) s;
  Some (if has_flag ASYNC_CLOSING s then s' else on_state (set_ucount 0) s').

(** ** Opening *)

(** [uart_info] when it is allocated. *)
Definition new_info (i : uart_info) : uart_info :=
  mk_info false (mk_circ false (fun _ => 0) 0 0) (port_flags cfg) 0 0 0 false.

Definition uart_get (mem : bool) s : bool * serial D :=
  let s := on_state (fun x => set_ucount (ucount x + 1) x) s in
  if have_info (state s) then (true, s) else
  if mem then
    (true, on_state (set_have_info true) (put_openers (mk_openers 0 0 0) (on_su (on_info new_info) s)))
  else (false, s).

Definition uart_alloc_tmpbuf (mem : bool) s : Z * serial D :=
  if tmp_buf s then (0, s) else if mem then (0, set_tmp_buf true s) else (- ENOMEM, s).

Definition on_blocked (f : Z -> Z) s : serial D :=
  put_openers (mk_openers (f (blocked_open (openers s))) (session (openers s)) (pgrp (openers s))) s.

(** The answer to an open that has to be repeated. *)
Definition again s : Z := if has_flag ASYNC_HUP_NOTIFY s then - EAGAIN else - ERESTARTSYS.

Definition wait_closing s : option (Z * serial D) :=
  s ← (if has_flag ASYNC_CLOSING s then schedule s else Some s); Some (again s, s).

Fixpoint block_loop (n : nat) (hung_up do_clocal : bool) s : option (Z * serial D) :=
  match n with
  | O => None
  | S n =>
      let s := if negb (has_flag ASYNC_CALLOUT_ACTIVE s) && negb (c_cflag (tty (su s)) .& CBAUD =? 0)
               then on_su (fun u => uart_set_mctrl (mctrl (info u) .| (TIOCM_DTR .| TIOCM_RTS)) u) s else s in
      if hung_up || negb (has_flag ASYNC_INITIALIZED s) then Some (again s, s) else
      if negb (has_flag ASYNC_CALLOUT_ACTIVE s) && negb (has_flag ASYNC_CLOSING s) &&
         (do_clocal || negb (op_get_mctrl (port (su s)) (drv (su s)) .& TIOCM_CAR =? 0)) then Some (0, s) else
      if signal (naps s) then Some (- ERESTARTSYS, s) else
      s ← schedule s; block_loop n hung_up do_clocal s
  end.

Definition uart_block_til_ready o (hung_up : bool) s : option (Z * serial D) :=
  if hung_up || has_flag ASYNC_CLOSING s then wait_closing s else
  if callout (dev s) then
    if has_flag ASYNC_NORMAL_ACTIVE s then Some (- EBUSY, s) else
    if has_flag ASYNC_CALLOUT_ACTIVE s && has_flag ASYNC_SESSION_LOCKOUT s &&
       negb (session (openers s) =? o_session o) then Some (- EBUSY, s) else
    if has_flag ASYNC_CALLOUT_ACTIVE s && has_flag ASYNC_PGRP_LOCKOUT s &&
       negb (pgrp (openers s) =? o_pgrp o) then Some (- EBUSY, s) else
    Some (0, add_flag ASYNC_CALLOUT_ACTIVE s)
  else
  if nonblock o || o_console o || tty_bit TTY_IO_ERROR s then
    if has_flag ASYNC_CALLOUT_ACTIVE s then Some (- EBUSY, s)
    else Some (0, add_flag ASYNC_NORMAL_ACTIVE s)
  else
  let do_clocal := if has_flag ASYNC_CALLOUT_ACTIVE s
                   then negb (t_cflag (normal_termios (state s)) .& CLOCAL =? 0)
                   else negb (c_cflag (tty (su s)) .& CLOCAL =? 0) in
  let s := if hung_up then s else on_state (fun x => set_ucount (ucount x - 1) x) s in
  let s := on_blocked (fun n => n + 1) s in
  '(retval, s) ← block_loop fuel hung_up do_clocal s;
  let s := if hung_up then s else on_state (fun x => set_ucount (ucount x + 1) x) s in
  let s := on_blocked (fun n => n - 1) s in
  if negb (retval =? 0) then Some (retval, s) else Some (0, add_flag ASYNC_NORMAL_ACTIVE s).

(** The settings of the first opener. *)
Definition first_open s : option (serial D) :=
  let split := has_flag ASYNC_SPLIT_TERMIOS s in
  let t := if callout (dev s) then callout_termios (state s) else normal_termios (state s) in
  let s := if split then on_su (on_tty (put_termios t)) s else s in
  let cons := negb (cons_cflag s =? 0) && (cons_index cfg =? line (port (su s))) in
  let s := if cons then set_cons_cflag 0 (on_su (on_tty (set_c_cflag (cons_cflag s))) s) else s in
  if split || cons then lift_su (uart_change_speed (custom_divisor cfg) None) s else Some s.

Definition uart_open o (hung_up : bool) s : option (Z * serial D) :=
  if line (port (su s)) >=? nr cfg then Some (- ENODEV, s) else
  let '(ok, s) := uart_get (mem_info o) s in
  if negb ok then Some (- ENOMEM, s) else
  let s := on_dev (set_driver_data true) s in
  let s := on_su (on_info (set_has_tty true)) s in
  let s := on_su (on_tty (set_low_latency (has_flag ASYNC_LOW_LATENCY s))) s in
  let '(retval, s) := uart_alloc_tmpbuf (mem_tmp o) s in
  if negb (retval =? 0) then Some (- ENOMEM, s) else
  if hung_up || has_flag ASYNC_CLOSING s then wait_closing s else
  '(retval, u) ← uart_startup (mem_ring o) (capable o) (custom_divisor cfg) (su s);
  let s := on_su (fun _ => u) s in
  if negb (retval =? 0) then Some (retval, s) else
  '(retval, s) ← uart_block_til_ready o hung_up s;
  if negb (retval =? 0) then Some (retval, s) else
  s ← (if ucount (state s) =? 1 then first_open s else Some s);
  Some (0, put_openers (mk_openers (blocked_open (openers s)) (o_session o) (o_pgrp o)) s).

(** ** The terminal ([tty_io.c]) *)

(** A new terminal, with the settings that the driver keeps; N_TTY is attached. *)
Definition new_tty (t : termios) : tty_struct :=
  mk_tty (t_iflag t) (t_cflag t) (t_stop t) (t_start t) (1 .<< TTY_LDISC) 0 false false false false
    (mk_flip false 0 0 0 0 (fun _ => 0) (fun _ => 0)) [] 0.

(** There is no other side, as pseudo terminals have; [mem_tty] covers the page of
    N_TTY too. *)
Definition init_dev o s : Z * serial D :=
  if there (dev s) then
    if tty_bit TTY_CLOSING s then (- EIO, s)
    else (0, on_dev (fun x => set_callout (o_callout o) (set_tcount (tcount x + 1) x)) s)
  else if mem_tty o then
    (0, on_su (on_tty (fun t => new_tty (termios_of t)))
          (on_dev (fun _ => mk_dev true 1 false (o_callout o) false []) s))
  else (- ENOMEM, s).

(** The [i]-th file is closed for good; nobody waits for the terminal, and there is
    no other side. *)
Definition release_dev (i : nat) s : option (serial D) :=
  f ← files (dev s) !! i;
  s ← uart_close (hung f) s;
  let last := tcount (dev s) <=? 1 in
  let n := tcount (dev s) - 1 in
  let s := on_dev (set_tcount (if n <? 0 then 0 else n)) s in
  let s := on_dev (fun x => set_files (delete i (files x)) x) s in
  if negb last then Some s else
  let s := set_tty_bit TTY_CLOSING s in
  let s := on_su (on_tty (fun t => set_tflags (tflags t .& .~ (1 .<< TTY_LDISC)) t)) s in
  let s := on_su (on_tty (fun t => set_tflags (tflags t .& .~ (1 .<< TTY_DONT_FLIP)) t)) s in
  let s := on_su (on_tty run_tqueue) s in
  s ← n_tty_flush_buffer s;
  Some (on_dev (set_there false) s).

(** From the device on, and up to the controlling terminal of the process.
    [tries]: how often an open that has to be repeated is repeated. *)
Fixpoint tty_open (tries : nat) o s : option (Z * serial D) :=
  match tries with
  | O => None
  | S tries =>
      let '(retval, s) := init_dev o s in
      if negb (retval =? 0) then Some (retval, s) else
      let i := length (files (dev s)) in
      let s := on_dev (fun x => set_files (files x ++ [mk_file (o_console o) false]) x) s in
      '(retval, s) ← uart_open o false s;
      let retval := if (retval =? 0) && tty_bit TTY_EXCLUSIVE s && negb (capable o) then - EBUSY else retval in
      if retval =? 0 then Some (0, s) else
      s ← release_dev i s;
      if negb (retval =? - ERESTARTSYS) || signal (naps s) then Some (retval, s) else
      s ← schedule s; tty_open tries o s
  end.

(** [n] closes of a file of the console, which is not hung up. *)
Fixpoint close_times (n : nat) s : option (serial D) :=
  match n with O => Some s | S n => s ← uart_close false s; close_times n s end.

(** The processes of the session, which get a signal, are left out. *)
Definition do_tty_hangup s : option (serial D) :=
  if negb (there (dev s)) then Some s else
  let l := files (dev s) in
  let cons := existsb console l in
  let closecount := length (filter (fun f => negb (console f) && negb (hung f)) l) in
  let s := on_dev (set_files (map (fun f => if console f then f else mk_file false true) l)) s in
  let ld := tty_bit TTY_LDISC s in
  s ← (if ld then
         s ← n_tty_flush_buffer s;
         let s := on_su (uart_flush_buffer true) s in
         Some (if tty_bit TTY_DO_WRITE_WAKEUP s then on_su (on_tty wake_up) s else s)
       else Some s);
  let s := on_su (on_tty wake_up) s in
  let s := on_su (on_tty (set_tflags 0)) s in
  s ← (if cons then close_times closecount s else hangup_port s);
  let s := set_tty_bit TTY_HUPPED s in
  Some (if ld then set_tty_bit TTY_LDISC s else s).

(** The calls TIOCEXCL and TIOCNXCL. *)
Definition tty_exclusive (b : bool) s : serial D :=
  if b then set_tty_bit TTY_EXCLUSIVE s
  else on_su (on_tty (fun t => set_tflags (tflags t .& .~ (1 .<< TTY_EXCLUSIVE)) t)) s.
End life.
