(* ===== verification/SerialIoctl.v ===== *)
(** * Settings of a terminal and its serial port ([tty_ioctl.c], [serial_core.c])

    What an open terminal is told by ioctl: its settings, flow control and flushing
    (of [n_tty_ioctl]), and the modem lines and the configuration of its port (of
    [uart_ioctl]).

    User memory is an argument: [None], or [false], where it cannot be read or
    written.  The process is not in the background; the settings of [termio], those
    of the line discipline alone, and packet mode are left out.  [None] is as in
    [SerialOpen]. *)

From S2P Require Import Prelude MpsRpc Irq SerialCore SerialOpen.
Open Scope Z_scope.

(** ** Constants ([serial.h], [serial_core.h], [termbits.h], [ioctls.h]) *)

Definition ASYNC_AUTO_IRQ : Z := 0x0080.
Definition ASYNC_FLAGS : Z := 0x7FFF.
Definition ASYNC_USR_MASK : Z := 0x3430.
Definition ASYNC_INTERNAL_FLAGS : Z := 0xFFC00000.
Definition UART_CONFIG_IRQ : Z := 1 .<< 1.
Definition TIOCM_OUT1 : Z := 0x2000.
Definition TIOCM_OUT2 : Z := 0x4000.
Definition __DISABLED_CHAR : Z := 0.
Definition TCOOFF : Z := 0.
Definition TCOON : Z := 1.
Definition TCIOFF : Z := 2.
Definition TCION : Z := 3.
Definition TCIFLUSH : Z := 0.
Definition TCOFLUSH : Z := 1.
Definition TCIOFLUSH : Z := 2.
Definition TIOCMSET : Z := 0x741a.
Definition TIOCMBIS : Z := 0x741b.
Definition TIOCMBIC : Z := 0x741c.
Definition TIOCSERGSTRUCT : Z := 0x548d.
Definition EPERM : Z := 1.
Definition EINTR : Z := 4.

(** ** Data *)

(** The rest of [uart_port]; its [flags] are in [port_conf]. *)
Record port_res := mk_res { p_irq : Z; regshift : Z; iotype : Z; hub6 : Z; mapbase : Z }.

(** What a user reads and writes: ints, but [ss_close_delay], [ss_closing_wait] and
    [ss_regshift] of 16 bits and [ss_io_type] of 8; the field for the high half of
    a port's address has no use here. *)
Record serial_struct := mk_ss {
  ss_type : Z; ss_line : Z; ss_port : Z; ss_irq : Z; ss_flags : Z; ss_xmit_fifo_size : Z;
  ss_custom_divisor : Z; ss_baud_base : Z; ss_close_delay : Z; ss_io_type : Z; ss_hub6 : Z;
  ss_closing_wait : Z; ss_iomem_base : Z; ss_regshift : Z
}.

(** A port with all that can be set. *)
Record serial_line (D : Type) := mk_line { conf : port_conf; res : port_res; ser : serial D }.
Arguments mk_line {D}.
Arguments conf {D}.
Arguments res {D}.
Arguments ser {D}.

Definition set_flow_stopped (b : bool) (t : tty_struct) : tty_struct :=
  mk_tty (c_iflag t) (c_cflag t) (stop_char t) (start_char t) (tflags t) (alt_speed t) (stopped t)
    (hw_stopped t) b (low_latency t) (flip t) (received t) (wakeups t).
Definition set_iobase (v : Z) (p : uart_port) : uart_port :=
  mk_port v (membase p) (uartclk p) (fifosize p) (x_char p) (read_status_mask p)
    (ignore_status_mask p) (ptype p) (icount p) (line p).
Definition set_fifosize (v : Z) (p : uart_port) : uart_port :=
  mk_port (iobase p) (membase p) (uartclk p) v (x_char p) (read_status_mask p)
    (ignore_status_mask p) (ptype p) (icount p) (line p).
Definition set_conf_flags (f d : Z) (c : port_conf) : port_conf :=
  mk_conf (closing_wait c) (close_delay c) d f (cons_index c) (nr c).
Definition set_waits (wait delay : Z) (c : port_conf) : port_conf :=
  mk_conf wait delay (custom_divisor c) (port_flags c) (cons_index c) (nr c).
Definition set_p_irq (v : Z) (r : port_res) : port_res :=
  mk_res v (regshift r) (iotype r) (hub6 r) (mapbase r).

(** ** The terminal ([tty_ioctl.c]) *)

Section terminal.
Context {D : Type} `{UartOps D} (cfg : port_conf).
Implicit Types (s : serial D).

Definition NOSET_MASK (x y z : Z) : Z := (x .& .~ z) .| (y .& z).
Definition unset_locked_termios (new old locked : termios) : termios :=
  mk_termios (NOSET_MASK (t_iflag new) (t_iflag old) (t_iflag locked))
    (NOSET_MASK (t_cflag new) (t_cflag old) (t_cflag locked))
    (if negb (t_stop locked =? 0) then t_stop old else t_stop new)
    (if negb (t_start locked =? 0) then t_start old else t_start new).

Definition change_termios (locked new : termios) s : option (serial D) :=
  let old := termios_of (tty (su s)) in
  let s := on_su (on_tty (put_termios (unset_locked_termios new old locked))) s in
  lift_su (uart_set_termios (custom_divisor cfg) (t_cflag old) (t_iflag old)) s.

(** [flush] and [wait]: the bits of [opt]. *)
Definition set_termios jiffies irqs signal (fuel : nat) (flush wait : bool) (locked : termios)
    (arg : option termios) s : option (Z * serial D) :=
  match arg with
  | None => Some (- EFAULT, s)
  | Some tmp =>
      s ← (if flush then n_tty_flush_buffer s else Some s);
      s ← (if wait then tty_wait_until_sent jiffies irqs signal fuel 0 s else Some s);
      if wait && signal (naps s) then Some (- EINTR, s) else
      s ← change_termios locked tmp s;
      Some (0, s)
  end.

(** The driver of the port has [send_xchar]. *)
Definition send_prio_char (ch : Z) s : option (serial D) := lift_su (uart_send_xchar ch) s.

(** TCXONC. *)
Definition tcxonc (arg : Z) s : option (Z * serial D) :=
  let done (m : option (serial D)) := s ← m; Some (0, s) in
  let t := tty (su s) in
  if arg =? TCOOFF then
    done (if negb (flow_stopped t) then lift_su stop_tty (on_su (on_tty (set_flow_stopped true)) s) else Some s)
  else if arg =? TCOON then
    done (if flow_stopped t then lift_su start_tty (on_su (on_tty (set_flow_stopped false)) s) else Some s)
  else if arg =? TCIOFF then
    done (if negb (stop_char t =? __DISABLED_CHAR) then send_prio_char (stop_char t) s else Some s)
  else if arg =? TCION then
    done (if negb (start_char t =? __DISABLED_CHAR) then send_prio_char (start_char t) s else Some s)
  else Some (- EINVAL, s).

(** TCFLSH. *)
Definition tcflsh (arg : Z) s : option (Z * serial D) :=
  if arg =? TCIFLUSH then s ← n_tty_flush_buffer s; Some (0, s)
  else if arg =? TCIOFLUSH then s ← n_tty_flush_buffer s; Some (0, on_su (uart_flush_buffer true) s)
  else if arg =? TCOFLUSH then Some (0, on_su (uart_flush_buffer true) s)
  else Some (- EINVAL, s).

(** TIOCSSOFTCAR: without a call to the driver. *)
Definition tiocssoftcar (arg : option Z) s : Z * serial D :=
  match arg with
  | None => (- EFAULT, s)
  | Some arg => (0, on_su (on_tty (fun t =>
      set_c_cflag ((c_cflag t .& .~ CLOCAL) .| (if arg =? 0 then 0 else CLOCAL)) t)) s)
  end.

(** ** Modem lines ([serial_core.c]) *)

Definition uart_get_modem_info s : Z :=
  let u := su s in
  (mctrl (info u) .& (TIOCM_DTR .| TIOCM_RTS .| TIOCM_OUT1 .| TIOCM_OUT2)) .| op_get_mctrl (port u) (drv u).

Definition uart_set_modem_info (cmd : Z) (value : option Z) s : Z * serial D :=
  match value with
  | None => (- EFAULT, s)
  | Some arg =>
      let old := mctrl (info (su s)) in
      let '(ret, new) :=
        if cmd =? TIOCMBIS then (0, old .| arg)
        else if cmd =? TIOCMBIC then (0, old .& .~ arg)
        else if cmd =? TIOCMSET then (0, arg)
        else (- EINVAL, old) in
      (ret, if negb (old =? new) then on_su (uart_set_mctrl new) s else s)
  end.

Definition uart_get_lsr_info s : Z :=
  let u := su s in
  let result := tx_empty 0 (port u) (drv u) in
  if negb (x_char (port u) =? 0) ||
     (CIRC_CNT (head (xmit (info u))) (tail (xmit (info u))) UART_XMIT_SIZE >? 0) &&
     negb (stopped (tty u)) && negb (hw_stopped (tty u))
  then result .& .~ TIOCSER_TEMT else result.
End terminal.

(** ** The configuration of the port *)

(** What the driver of a port says of it. *)
Class PortOps := {
  verify_port : serial_struct -> Z;
  request_port : uart_port -> Z;
  release_port : uart_port -> uart_port;
  config_port : Z -> uart_port -> uart_port
}.

Section line.
Context {D : Type} `{UartOps D} `{PortOps}.
Implicit Types (x : serial_line D) (n : serial_struct).

Definition on_ser (f : serial D -> serial D) x : serial_line D := mk_line (conf x) (res x) (f (ser x)).
Definition on_conf (f : port_conf -> port_conf) x : serial_line D := mk_line (f (conf x)) (res x) (ser x).
Definition on_res (f : port_res -> port_res) x : serial_line D := mk_line (conf x) (f (res x)) (ser x).

Definition uart_get_info x : serial_struct :=
  let p := port (su (ser x)) in
  mk_ss (s32 (ptype p)) (s32 (line p)) (iobase p) (s32 (p_irq (res x))) (s32 (port_flags (conf x)))
    (fifosize p) (s32 (custom_divisor (conf x))) (s32 (uartclk p / 16)) (close_delay (conf x) mod 2 ^ 16)
    (s8 (iotype (res x))) (hub6 (res x)) (closing_wait (conf x) mod 2 ^ 16) (mapbase (res x)) (regshift (res x)).

(** The comparisons; an int and an unsigned int compare as the latter. *)
Definition change_irq n x : bool := negb (w32 (ss_irq n) =? p_irq (res x)).
Definition change_port n x : bool :=
  let p := port (su (ser x)) in
  negb (ss_port n =? iobase p) || negb (ss_iomem_base n =? mapbase (res x)) || negb (ss_hub6 n =? hub6 (res x)) ||
  negb (ss_io_type n =? iotype (res x)) || negb (ss_regshift n =? regshift (res x)) || negb (w32 (ss_type n) =? ptype p).

(** An unprivileged user may not change this. *)
Definition not_allowed n x : bool :=
  change_irq n x || change_port n x ||
  negb (w32 (ss_baud_base n) =? uartclk (port (su (ser x))) / 16) ||
  negb (ss_close_delay n =? close_delay (conf x)) ||
  negb (ss_closing_wait n =? closing_wait (conf x)) ||
  negb (ss_xmit_fifo_size n =? fifosize (port (su (ser x)))) ||
  negb (w32 (ss_flags n) .& .~ ASYNC_USR_MASK =? port_flags (conf x) .& .~ ASYNC_USR_MASK).

Definition user_flags (f new : Z) : Z := (f .& .~ ASYNC_USR_MASK) .| (new .& ASYNC_USR_MASK).

Definition put_res n x : serial_line D :=
  on_ser (on_su (on_port (fun p => set_iobase (ss_port n) (set_ptype (w32 (ss_type n)) p))))
    (on_res (fun r => mk_res (p_irq r) (ss_regshift n mod 256) (ss_io_type n mod 256) (ss_hub6 n mod 256)
                        (ss_iomem_base n)) x).

(** The old resources are given back and the new ones claimed; if that fails the old
    ones are claimed again. *)
Definition move_port n x : Z * serial_line D :=
  let p := port (su (ser x)) in
  let r := res x in
  let rel x := on_ser (on_su (on_port release_port)) x in
  let x := if negb (ptype p =? PORT_UNKNOWN) then rel x else x in
  let x := put_res n x in
  let retval := if negb (ptype (port (su (ser x))) =? PORT_UNKNOWN) then request_port (port (su (ser x))) else 0 in
  if negb (retval =? 0) && negb (ptype p =? PORT_UNKNOWN) then
    let x := on_ser (on_su (on_port (fun q => set_iobase (iobase p) (set_ptype (ptype p) q))))
               (on_res (fun q => mk_res (p_irq q) (regshift r) (iotype r) (hub6 r) (mapbase r)) x) in
    let retval := request_port (port (su (ser x))) in
    let x := if negb (retval =? 0) then on_ser (on_su (on_port (set_ptype PORT_UNKNOWN))) x else x in
    (- EBUSY, x)
  else (retval, x).

(** The fields that are simply taken over; the result of [move_port] is forgotten. *)
Definition put_settings n x : serial_line D :=
  let x := on_res (set_p_irq (w32 (ss_irq n))) x in
  let x := on_ser (on_su (on_port (set_uartclk (w32 (ss_baud_base n * 16))))) x in
  let f := (port_flags (conf x) .& .~ ASYNC_FLAGS) .| (w32 (ss_flags n) .& ASYNC_FLAGS) in
  let x := on_conf (set_conf_flags f (w32 (ss_custom_divisor n))) x in
  let x := on_ser (on_su (on_info (fun i =>
             set_iflags ((f .& .~ ASYNC_INTERNAL_FLAGS) .| (iflags i .& ASYNC_INTERNAL_FLAGS)) i))) x in
  let x := on_conf (set_waits (ss_closing_wait n * HZ / 100) (ss_close_delay n * HZ / 100)) x in
  let x := on_ser (fun s => on_su (on_tty (set_low_latency (has_flag ASYNC_LOW_LATENCY s))) s) x in
  on_ser (on_su (on_port (set_fifosize (ss_xmit_fifo_size n mod 256)))) x.

Definition lift_ser (f : serial D -> option (Z * serial D)) x : option (Z * serial_line D) :=
  '(r, s) ← f (ser x); Some (r, mk_line (conf x) (res x) s).

(** [page] and [capable] as for [uart_startup]. *)
Definition restart (page capable : bool) x : option (Z * serial_line D) :=
  lift_ser (fun s => '(r, u) ← uart_startup page capable (custom_divisor (conf x)) (su s);
                     Some (r, on_su (fun _ => u) s)) x.

(** The end: a port that works gets its new speed, another is started. *)
Definition check_and_exit (page capable : bool) (old_flags old_custom_divisor : Z) x : option (Z * serial_line D) :=
  let s := ser x in
  if ptype (port (su s)) =? PORT_UNKNOWN then Some (0, x) else
  if has_flag ASYNC_INITIALIZED s then
    if negb ((old_flags .& iflags (info (su s))) .& ASYNC_SPD_MASK =? 0) ||
       negb (old_custom_divisor =? custom_divisor (conf x))
    then
      s ← lift_su (fun u => uart_change_speed (custom_divisor (conf x)) None (uart_update_altspeed u)) s;
      Some (0, mk_line (conf x) (res x) s)
    else Some (0, x)
  else restart page capable x.

Definition uart_set_info (page capable : bool) (newinfo : option serial_struct) x : option (Z * serial_line D) :=
  match newinfo with
  | None => Some (- EFAULT, x)
  | Some n =>
      let old_flags := port_flags (conf x) in
      let old_custom_divisor := custom_divisor (conf x) in
      if negb capable then
        if not_allowed n x then Some (- EPERM, x) else
        let x := on_conf (set_conf_flags (user_flags (port_flags (conf x)) (w32 (ss_flags n)))
                            (w32 (ss_custom_divisor n))) x in
        let x := on_ser (on_su (on_info (fun i => set_iflags (user_flags (iflags i) (w32 (ss_flags n))) i))) x in
        check_and_exit page capable old_flags old_custom_divisor x
      else
      let retval := verify_port n in
      let retval := if (ss_irq n >=? NR_IRQS) || (ss_irq n <? 0) || (ss_baud_base n <? 9600)
                    then - EINVAL else retval in
      if negb (retval =? 0) then Some (retval, x) else
      let change := change_port n x || change_irq n x in
      if change && (ucount (state (ser x)) >? 1) then Some (- EBUSY, x) else
      s ← (if change then lift_su uart_shutdown (ser x) else Some (ser x));
      let x' := mk_line (conf x) (res x) s in
      let x' := if change_port n x then snd (move_port n x') else x' in
      if negb (has_tty (info (su (ser x')))) then None else
      check_and_exit page capable old_flags old_custom_divisor (put_settings n x')
  end.

Definition uart_do_autoconfig (page capable : bool) x : option (Z * serial_line D) :=
  if negb capable then Some (- EPERM, x) else
  if negb (ucount (state (ser x)) =? 1) then Some (- EBUSY, x) else
  s ← lift_su uart_shutdown (ser x);
  let x := mk_line (conf x) (res x) s in
  let x := if negb (ptype (port (su (ser x))) =? PORT_UNKNOWN) then on_ser (on_su (on_port release_port)) x else x in
  let flags := if negb (port_flags (conf x) .& ASYNC_AUTO_IRQ =? 0)
               then UART_CONFIG_TYPE .| UART_CONFIG_IRQ else UART_CONFIG_TYPE in
  let x := on_ser (on_su (on_port (config_port flags))) x in
  restart page capable x.

(** ** The dispatcher *)

(** A command with what it finds in user memory. *)
Inductive uart_cmd :=
  | Tiocmget | Tiocm (cmd : Z) (value : option Z) | Tiocgserial | Tiocsserial (n : option serial_struct)
  | Tiocserconfig | Tiocsergetlsr | Tiocmiwait (mask : Z) | Tiocgicount | Tiocsergwild | Other (cmd : Z).

(** What is written back. *)
Inductive uart_reply := Nothing | Word (v : Z) | Info (n : serial_struct) | Counts (c : uart_icount).

(** [writable]: the reply can be written.  TIOCMIWAIT: the counts of the modem lines
    never change, as no driver here counts them; the driver has no ioctls. *)
Definition uart_ioctl (irqs : nat -> uart D -> option (uart D)) (signal : nat -> bool)
    (page capable writable : bool) (c : uart_cmd) x : option (Z * uart_reply * serial_line D) :=
  let answer r := Some (if writable then (0, r, x) else (- EFAULT, Nothing, x)) in
  let always := match c with
    | Tiocgserial | Tiocsserial _ | Tiocserconfig | Tiocmiwait _ | Tiocgicount => true
    | Other cmd => cmd =? TIOCSERGSTRUCT | _ => false end in
  if negb always && tty_bit TTY_IO_ERROR (ser x) then Some (- EIO, Nothing, x) else
  match c with
  | Tiocmget => answer (Word (uart_get_modem_info (ser x)))
  | Tiocm cmd value =>
      let '(r, s) := uart_set_modem_info cmd value (ser x) in
      Some (r, Nothing, mk_line (conf x) (res x) s)
  | Tiocgserial => answer (Info (uart_get_info x))
  | Tiocsserial n => '(r, x) ← uart_set_info page capable n x; Some (r, Nothing, x)
  | Tiocserconfig => '(r, x) ← uart_do_autoconfig page capable x; Some (r, Nothing, x)
  | Tiocsergetlsr => answer (Word (uart_get_lsr_info (ser x)))
  | Tiocmiwait _ =>
      s ← schedule irqs (ser x);
      Some (if signal (naps s) then - ERESTARTSYS else - EIO, Nothing, mk_line (conf x) (res x) s)
  | Tiocgicount => answer (Counts (icount (port (su (ser x)))))
  | Tiocsergwild => Some (0, Nothing, x)
  | Other _ => Some (- ENOIOCTLCMD, Nothing, x)
  end.
End line.
