(* ===== verification/Asc.v ===== *)
(** * Serial port driver ([drivers/char/ifx_asc.c], [ifx_serial.h])

    The driver of the two asynchronous serial controllers; this core uses the
    second one, for its console and a terminal.  The file models its operations,
    interrupt handlers, console and start-up, over [SerialCore] (whose interface
    they are an instance of) and the interrupt lines of [Irq]; [AscTx], [AscRx]
    and [AscSetup] have the theorems.

    One memory holds the registers of the controllers, the interrupt unit and the
    clock unit.  What the hardware changes by itself comes from parameters:
    [fstat n k] is what register FSTAT reads at the [k]-th time after [n]
    characters were sent, [rx i] the character and the status word of the
    [i]-th reading.  A wait is [None] when it is not over after [polls] readings.
    [kmalloc] says for which lines an action can be allocated. *)

From S2P Require Import Prelude Icu Irq Cgu SerialCore SerialTx.
Open Scope Z_scope.

(** ** Registers and fields *)

Definition asc_clc : Z := 0x00.
Definition asc_mcon : Z := 0x10.
Definition asc_state : Z := 0x14.
Definition asc_whbstate : Z := 0x18.
Definition asc_tbuf : Z := 0x20.
Definition asc_rbuf : Z := 0x24.
Definition asc_rxfcon : Z := 0x40.
Definition asc_txfcon : Z := 0x44.
Definition asc_fstat : Z := 0x48.
Definition asc_bg : Z := 0x50.
Definition asc_fdv : Z := 0x58.
Definition asc_irnen : Z := 0xF4.

Definition ASCMCON_MODEMASK : Z := 0x0000000f.
Definition ASCMCON_M_8ASYNC : Z := 0x0.
Definition ASCMCON_M_7ASYNC : Z := 0x2.
Definition ASCMCON_PEN : Z := 0x00000010.
Definition ASCMCON_ODD : Z := 0x00000020.
Definition ASCMCON_STP : Z := 0x00000080.
Definition ASCMCON_BRS : Z := 0x00000100.
Definition ASCMCON_FDE : Z := 0x00000200.
Definition ASCMCON_R : Z := 0x00008000.
Definition ASCMCON_PAL : Z := 0x00010000.
Definition ASCMCON_FEN : Z := 0x00020000.
Definition ASCMCON_ROEN : Z := 0x00080000.
Definition ASCSTATE_PE : Z := 0x00010000.
Definition ASCSTATE_FE : Z := 0x00020000.
Definition ASCSTATE_ROE : Z := 0x00080000.
Definition ASCSTATE_ANY : Z := ASCSTATE_PE .| ASCSTATE_FE .| ASCSTATE_ROE.
Definition ASCWHBSTATE_CLRREN : Z := 0x00000001.
Definition ASCWHBSTATE_SETREN : Z := 0x00000002.
Definition ASCWHBSTATE_CLRPE : Z := 0x00000004.
Definition ASCWHBSTATE_CLRFE : Z := 0x00000008.
Definition ASCWHBSTATE_CLRROE : Z := 0x00000020.
Definition ASCTXFCON_TXFEN : Z := 0x0001.
Definition ASCTXFCON_TXFFLU : Z := 0x0002.
Definition ASCRXFCON_RXFEN : Z := 0x0001.
Definition ASCRXFCON_RXFFLU : Z := 0x0002.
Definition ASCFSTAT_RXFFLMASK : Z := 0x003F.
Definition ASCFSTAT_TXFFLMASK : Z := 0x3F00.
Definition ASCFSTAT_TXFREEMASK : Z := 0x3F000000.
Definition ASCFSTAT_TXFREEOFF : Z := 24.

Definition UART_DUMMY_UER_RX : Z := 1.
Definition PORT_IFX_ASC : Z := 43.
Definition TIOCM_CTS : Z := 0x040.
Definition TIOCM_DSR : Z := 0x400.
Definition SERIAL_IFX_ASC_PORT_COUNT : Z := 2.
Definition IFX_ASC_CONSOLE_INDEX : Z := 1.
Definition CONFIG_IFX_ASC_DEFAULT_BAUDRATE : Z := 115200.
Definition DANUBE_ASC0 : Z := 0xBE100400.
Definition DANUBE_ASC1 : Z := 0xBE100C00.

Record ifx_asc_port_priv_t := mk_priv {
  base : Z; portwidth : Z; tir : Z; tbir : Z; rir : Z; eir : Z
}.

(** The table of the two ports. *)
Definition ifx_asc_port_priv (line : Z) : ifx_asc_port_priv_t :=
  if line =? 0
  then mk_priv DANUBE_ASC0 32 INT_NUM_IM0_IRL0 (INT_NUM_IM0_IRL0 + 1) (INT_NUM_IM0_IRL0 + 2) (INT_NUM_IM0_IRL0 + 3)
  else mk_priv DANUBE_ASC1 8 INT_NUM_IM1_IRL0 (INT_NUM_IM1_IRL0 + 1) (INT_NUM_IM1_IRL0 + 2) (INT_NUM_IM1_IRL0 + 3).

(** The fractional divider and the reload value for each clock; the last row has
    [419.36] for [419,36]. *)
Definition g_danube_asc_baud (ddr_sel fpi_sel : Z) : Z * Z :=
  match ddr_sel, fpi_sel with
  | 0, 0 => (436, 76) | 0, _ => (419, 36)
  | 1, 0 => (453, 63) | 1, _ => (453, 31)
  | 2, 0 => (501, 58) | 2, _ => (510, 29)
  | _, 0 => (419, 0)  | _, _ => (453, 19)
  end.

(** ** Clocks ([basic/setup.c]) *)

Definition danube_get_ddr_hz (m : Z -> Z) : Z :=
  let sel := m DANUBE_CGU_SYS .& 0x3 in
  if sel =? 0 then 166500000 else if sel =? 1 then 133333333 else if sel =? 2 then 111111111 else 83333333.
Definition danube_get_fpi_hz (m : Z -> Z) : Z :=
  if negb (m DANUBE_CGU_SYS .& 0x40 =? 0) then danube_get_ddr_hz m .>> 1 else danube_get_ddr_hz m.

(** ** Data *)

Inductive asc_handler := RxInt | TxInt | ErInt.

Record asc_counts := mk_counts {
  rx_bytes_count : Z; tx_bytes_count : Z; rx_parity_error_count : Z; rx_frame_error_count : Z;
  rx_overrun_error_count : Z
}.

(** [irqt]: the lines and the memory; [info_set]: [ifx_asc_info] is set;
    [out]: the words written to register TBUF; [clk]: [uartclk]; [in_irq]: an
    interrupt handler is running. *)
Record asc_drv := mk_drv {
  irqt : irqs asc_handler; info_set : bool; asc_tx_irq_on : Z; out : list Z; clk : Z;
  counts : asc_counts; in_irq : bool
}.

Definition set_irqt (t : irqs asc_handler) (d : asc_drv) : asc_drv :=
  mk_drv t (info_set d) (asc_tx_irq_on d) (out d) (clk d) (counts d) (in_irq d).
Definition set_info_set (b : bool) (d : asc_drv) : asc_drv :=
  mk_drv (irqt d) b (asc_tx_irq_on d) (out d) (clk d) (counts d) (in_irq d).
Definition set_tx_irq_on (n : Z) (d : asc_drv) : asc_drv :=
  mk_drv (irqt d) (info_set d) n (out d) (clk d) (counts d) (in_irq d).
Definition set_out (l : list Z) (d : asc_drv) : asc_drv :=
  mk_drv (irqt d) (info_set d) (asc_tx_irq_on d) l (clk d) (counts d) (in_irq d).
Definition set_clk (n : Z) (d : asc_drv) : asc_drv :=
  mk_drv (irqt d) (info_set d) (asc_tx_irq_on d) (out d) n (counts d) (in_irq d).
Definition set_counts (c : asc_counts) (d : asc_drv) : asc_drv :=
  mk_drv (irqt d) (info_set d) (asc_tx_irq_on d) (out d) (clk d) c (in_irq d).
Definition set_in_irq (b : bool) (d : asc_drv) : asc_drv :=
  mk_drv (irqt d) (info_set d) (asc_tx_irq_on d) (out d) (clk d) (counts d) b.

Definition rd (p : uart_port) (reg : Z) (d : asc_drv) : Z :=
  mem (irqt d) (base (ifx_asc_port_priv (line p)) + reg).
Definition wr (p : uart_port) (reg v : Z) (d : asc_drv) : asc_drv :=
  set_irqt (put_mem (upd (mem (irqt d)) (base (ifx_asc_port_priv (line p)) + reg) v) (irqt d)) d.
Definition SET_BIT (p : uart_port) (reg mask : Z) (d : asc_drv) : asc_drv := wr p reg (rd p reg d .| mask) d.
Definition CLEAR_BIT (p : uart_port) (reg mask : Z) (d : asc_drv) : asc_drv := wr p reg (rd p reg d .& .~ mask) d.

#[export] Instance asc_irqs : HasIrqs asc_handler (uart asc_drv) :=
  {| get_irqs u := irqt (drv u); put_irqs t u := on_drv (set_irqt t) u |}.

Section asc.
Context (fstat : nat -> nat -> Z) (polls : nat) (kmalloc : Z -> bool).
Implicit Types (p : uart_port) (d : asc_drv) (u : uart asc_drv).

(** ** Transmitting *)

(** A wait until [FSTAT] is as [ready] says; the register is read from the [k]-th
    time on. *)
Fixpoint wait_fstat (ready : Z -> bool) (sent : nat) (n k : nat) : option unit :=
  match n with
  | O => None
  | S n => if ready (fstat sent k) then Some tt else wait_fstat ready sent n (S k)
  end.

Definition tx_free (v : Z) : bool := negb ((v .& ASCFSTAT_TXFREEMASK) .>> ASCFSTAT_TXFREEOFF =? 0).
Definition tx_drained (v : Z) : bool := negb (v .& ASCFSTAT_TXFFLMASK >? 0).

(** A [char] has eight bits and a sign; the wide port takes a byte. *)
Definition tbuf_word (width ch : Z) : Z := if width =? 8 then w32 (s8 ch) else ch mod 256.

Definition ifx_asc_serial_out p (ch : Z) d : option asc_drv :=
  _ ← wait_fstat tx_free (length (out d)) polls 0;
  Some (set_out (out d ++ [tbuf_word (portwidth (ifx_asc_port_priv (line p))) ch]) d).

Definition ifx_asc_stop_tx u : option (uart asc_drv) :=
  let d := drv u in
  if negb (asc_tx_irq_on d =? 0) then
    t ← disable_irq (in_irq d) (tir (ifx_asc_port_priv (line (port u)))) (irqt d);
    Some (on_drv (fun d => set_tx_irq_on 0 (set_irqt t d)) u)
  else Some u.

Definition count_tx u : uart asc_drv :=
  let c := icount (port u) in
  let u := on_port (set_icount (mk_icount (n_rx c) (w32 (n_tx c + 1)) (n_frame c) (n_overrun c) (n_parity c))) u in
  on_drv (fun d => let c := counts d in
    set_counts (mk_counts (rx_bytes_count c) (s32 (tx_bytes_count c + 1)) (rx_parity_error_count c)
                  (rx_frame_error_count c) (rx_overrun_error_count c)) d) u.

Definition ifx_asc_tx_chars u : option (uart asc_drv) :=
  let x := xmit (info u) in
  let stop := if head x =? tail x then Some true
              else if has_tty (info u) then Some (stopped (tty u) || hw_stopped (tty u)) else None in
  stop ← stop;
  if stop : bool then ifx_asc_stop_tx u else
  if negb (x_char (port u) =? 0) then
    d ← ifx_asc_serial_out (port u) (x_char (port u)) (drv u);
    let u := on_drv (fun _ => d) u in
    Some (count_tx (on_port (set_x_char 0) u))
  else
    d ← ifx_asc_serial_out (port u) (buf x (tail x)) (drv u);
    let u := on_drv (fun _ => d) u in
    let x := mk_circ (present x) (buf x) (head x) ((tail x + 1) .& (UART_XMIT_SIZE - 1)) in
    let u := count_tx (on_info (set_xmit x) u) in
    let u := if CIRC_CNT (head x) (tail x) UART_XMIT_SIZE <? WAKEUP_CHARS
             then uart_event EVT_WRITE_WAKEUP u else u in
    if head x =? tail x then ifx_asc_stop_tx u else Some u.

Definition ifx_asc_start_tx u : option (uart asc_drv) :=
  let u := if asc_tx_irq_on (drv u) =? 0
           then on_drv (fun d => set_tx_irq_on (asc_tx_irq_on d + 1)
                  (set_irqt (enable_irq (tir (ifx_asc_port_priv (line (port u)))) (irqt d)) d)) u
           else u in
  if info_set (drv u) then ifx_asc_tx_chars u else Some u.

Definition ifx_asc_stop_rx p d : asc_drv := wr p asc_whbstate ASCWHBSTATE_CLRREN d.

Definition ifx_asc_tx_empty (k : nat) p d : Z :=
  if fstat (length (out d)) k .& ASCFSTAT_TXFFLMASK =? 0 then TIOCSER_TEMT else 0.

(** No modem signals: these are always set. *)
Definition ifx_asc_get_mctrl p d : Z := TIOCM_CTS .| TIOCM_CAR .| TIOCM_DSR.
Definition ifx_asc_set_mctrl p (mctrl : Z) d : asc_drv := d.

(** ** Receiving *)

(** What a reading adds to the counts, by the bits of [rsr]. *)
Definition count_rx (rsr : Z) u : uart asc_drv :=
  let pe := negb (rsr .& ASCSTATE_PE =? 0) in
  let fe := negb pe && negb (rsr .& ASCSTATE_FE =? 0) in
  let roe := negb (rsr .& ASCSTATE_ROE =? 0) in
  let one (b : bool) := if b then 1 else 0 in
  let c := icount (port u) in
  let u := on_port (set_icount (mk_icount (w32 (n_rx c + 1)) (n_tx c) (w32 (n_frame c + one fe))
                      (w32 (n_overrun c + one roe)) (w32 (n_parity c + one pe)))) u in
  let u := on_drv (fun d => let c := counts d in
    set_counts (mk_counts (s32 (rx_bytes_count c + 1)) (tx_bytes_count c) (s32 (rx_parity_error_count c + one pe))
                  (s32 (rx_frame_error_count c + one fe)) (s32 (rx_overrun_error_count c + one roe))) d) u in
  let clr (b : bool) mask u := if b then on_drv (SET_BIT (port u) asc_whbstate mask) u else u in
  clr roe ASCWHBSTATE_CLRROE (clr fe ASCWHBSTATE_CLRFE (clr pe ASCWHBSTATE_CLRPE u)).

(** [rsr] after the errors the terminal does not ask for are dropped; the
    condition of the [if] is the same. *)
Definition masked_rsr p (rsr : Z) : Z :=
  if negb (rsr .& ASCSTATE_ANY =? 0) then rsr .& read_status_mask p else rsr.
Definition rx_flag p (rsr : Z) : Z :=
  if rsr .& ASCSTATE_ANY =? 0 then TTY_NORMAL else
  let rsr := rsr .& read_status_mask p in
  if negb (rsr .& ASCSTATE_PE =? 0) then TTY_PARITY
  else if negb (rsr .& ASCSTATE_FE =? 0) then TTY_FRAME else TTY_NORMAL.

(** A character and its flag go where the pointers of the flip buffer are. *)
Definition flip_store (c f : Z) (b : tty_flip_buffer) : option tty_flip_buffer :=
  cs ← flip_put (char_buf_ptr b) (c mod 256) (char_buf b);
  fs ← flip_put (flag_buf_ptr b) f (flag_buf b);
  Some (set_bufs cs fs b).
Definition flip_advance (b : tty_flip_buffer) : tty_flip_buffer :=
  set_count (count b + 1) (set_ptrs (char_buf_ptr b + 1) (flag_buf_ptr b + 1) b).

(** Room in the flip buffer, flushed if that is necessary: none is left when the
    terminal does not let it be flushed. *)
Definition rx_room u : option (uart asc_drv) :=
  if count (flip (tty u)) >=? TTY_FLIPBUF_SIZE then
    let u := on_tty flush_to_ldisc u in
    if count (flip (tty u)) >=? TTY_FLIPBUF_SIZE then None else Some u
  else Some u.

(** The body of the loop after that. *)
Definition rx_store (ch rsr : Z) u : option (uart asc_drv) :=
  b ← flip_store ch (rx_flag (port u) rsr) (flip (tty u));
  let u := count_rx rsr (on_tty (set_flip b) u) in
  let rsr := masked_rsr (port u) rsr in
  let b := if rsr .& ignore_status_mask (port u) =? 0 then flip_advance b else b in
  b ← (if negb (rsr .& ASCSTATE_ROE =? 0) && (count b <? TTY_FLIPBUF_SIZE)
       then b ← flip_store 0 TTY_OVERRUN b; Some (flip_advance b)
       else Some b);
  Some (on_tty (set_flip b) u).

(** [ch]: the last character read; the result says whether the loop came to its
    end. *)
Fixpoint rx_loop (rx : nat -> Z * Z) (n i : nat) (ch : Z) u : option (bool * Z * uart asc_drv) :=
  match n with
  | O => Some (true, ch, u)
  | S n =>
      let '(ch, state) := rx i in
      let rsr := (state .& ASCSTATE_ANY) .| UART_DUMMY_UER_RX in
      match rx_room u with
      | None => Some (false, ch, on_tty flush_to_ldisc u)
      | Some u => u ← rx_store ch rsr u; rx_loop rx n (S i) ch u
      end
  end.

(** [fs]: what [FSTAT] reads; a null terminal is a fault. *)
Definition ifx_asc_rx_chars (fs : Z) (rx : nat -> Z * Z) u : option (uart asc_drv) :=
  let fifocnt := fs .& ASCFSTAT_RXFFLMASK in
  if negb (has_tty (info u)) then (if fifocnt =? 0 then Some u else None) else
  '(finished, ch, u) ← rx_loop rx (Z.to_nat fifocnt) 0 0 u;
  Some (if (finished : bool) && negb (ch =? 0) then on_tty tty_flip_buffer_push u else u).

(** ** Interrupt handlers *)

Definition ifx_asc_tx_int u : option (uart asc_drv) := ifx_asc_tx_chars u.
Definition ifx_asc_rx_int (fs : Z) (rx : nat -> Z * Z) u : option (uart asc_drv) := ifx_asc_rx_chars fs rx u.
Definition ifx_asc_er_int u : uart asc_drv :=
  let set mask u := on_drv (SET_BIT (port u) asc_whbstate mask) u in
  set ASCWHBSTATE_CLRROE (set ASCWHBSTATE_CLRFE (set ASCWHBSTATE_CLRPE u)).

(** The kernel runs the handler of an action; [fs] and [rx] as above. *)
Definition asc_run (fs : Z) (rx : nat -> Z * Z) (a : irqaction asc_handler) u : option (uart asc_drv) :=
  let u := on_drv (set_in_irq true) u in
  u ← match handler a with
      | RxInt => ifx_asc_rx_int fs rx u
      | TxInt => ifx_asc_tx_int u
      | ErInt => Some (ifx_asc_er_int u)
      end;
  Some (on_drv (set_in_irq false) u).

(** ** Start-up and shutdown *)

Definition req (irq : Z) (h : asc_handler) p d : Z * asc_drv :=
  let '(r, t) := request_irq (kmalloc irq) irq h 0 (line p) (irqt d) in (r, set_irqt t d).
Definition free (irq : Z) p d : asc_drv := set_irqt (free_irq irq (line p) (irqt d)) d.

Definition ifx_asc_startup p d : option (Z * uart_port * asc_drv) :=
  let d := if clk d =? 0 then set_clk (danube_get_fpi_hz (mem (irqt d)) / 2) d else d in
  let p := set_uartclk (clk d) p in
  let d := set_info_set true d in
  let d := wr p asc_rxfcon 0x00000102 d in
  let d := wr p asc_txfcon 0x00000102 d in
  let d := SET_BIT p asc_rxfcon ASCRXFCON_RXFEN d in
  let d := SET_BIT p asc_txfcon ASCTXFCON_TXFEN d in
  let d := SET_BIT p asc_whbstate ASCWHBSTATE_SETREN d in
  let d := wr p asc_irnen 0x00000007 d in
  let v := ifx_asc_port_priv (line p) in
  let '(retval, d) := req (rir v) RxInt p d in
  if negb (retval =? 0) then Some (retval, p, d) else
  let '(retval, d) := req (tir v) TxInt p d in
  if negb (retval =? 0) then Some (retval, p, free (rir v) p d) else
  t ← disable_irq (in_irq d) (tir v) (irqt d);
  let d := set_tx_irq_on 0 (set_irqt t d) in
  let '(retval, d) := req (eir v) ErInt p d in
  if negb (retval =? 0) then Some (retval, p, free (tir v) p (free (rir v) p d)) else
  Some (0, p, d).

Definition ifx_asc_shutdown p d : option asc_drv :=
  let d := wr p asc_irnen 0x00000000 d in
  let v := ifx_asc_port_priv (line p) in
  t ← disable_irq (in_irq d) (rir v) (irqt d);
  t ← disable_irq (in_irq d) (tir v) t;
  t ← disable_irq (in_irq d) (eir v) t;
  let d := set_irqt t d in
  let d := free (eir v) p (free (tir v) p (free (rir v) p d)) in
  let d := SET_BIT p asc_rxfcon ASCRXFCON_RXFFLU d in
  let d := CLEAR_BIT p asc_rxfcon ASCRXFCON_RXFEN d in
  let d := SET_BIT p asc_txfcon ASCTXFCON_TXFFLU d in
  Some (CLEAR_BIT p asc_txfcon ASCTXFCON_TXFEN d).

(** ** Speed and format *)

(** The value of register MCON without its bit R. *)
Definition speed_con (cflag : Z) : Z :=
  let con := if cflag .& CSIZE =? CS7 then ASCMCON_M_7ASYNC .| ASCMCON_PEN
             else if negb (cflag .& PARENB =? 0) then ASCMCON_M_8ASYNC .| ASCMCON_PEN
             else ASCMCON_M_8ASYNC in
  let con := if negb (cflag .& CSTOPB =? 0) then con .| ASCMCON_STP else con in
  let con := if negb (cflag .& PARENB =? 0) then
               if cflag .& PARODD =? 0 then con .& .~ ASCMCON_ODD else con .| ASCMCON_ODD
             else con in
  con .| ASCMCON_FEN.

Definition speed_masks (cflag iflag : Z) p : uart_port :=
  let r := ASCMCON_ROEN in
  let r := if negb (iflag .& INPCK =? 0) then r .| (ASCMCON_FEN .| ASCMCON_PAL) else r in
  let i := 0 in
  let i := if negb (iflag .& IGNPAR =? 0) then i .| (ASCMCON_FEN .| ASCMCON_PAL) else i in
  let i := if negb (iflag .& IGNBRK =? 0) && negb (iflag .& IGNPAR =? 0) then i .| ASCMCON_ROEN else i in
  let i := if cflag .& CREAD =? 0 then i .| UART_DUMMY_UER_RX else i in
  set_masks r i p.

Definition speed_bg (quot fdv : Z) : Z :=
  if fdv =? 0 then w32 (quot / 2 - 1) else w32 (w32 (quot * fdv + 256) / 512 - 1).

Definition ifx_asc_change_speed (cflag iflag quot : Z) p d : option (uart_port * asc_drv) :=
  _ ← wait_fstat tx_drained (length (out d)) polls 0;
  let con := speed_con cflag in
  let p := speed_masks cflag iflag p in
  let d := CLEAR_BIT p asc_mcon ASCMCON_R d in
  let con := con .| 0x00000200 in
  let d := wr p asc_mcon con d in
  let fdv := rd p asc_fdv d in
  let bg := speed_bg quot fdv in
  let d := wr p asc_bg bg d in
  let d := SET_BIT p asc_mcon ASCMCON_R d in
  Some (p, SET_BIT p asc_whbstate ASCWHBSTATE_SETREN d).

Definition ifx_asc_config_port (flags : Z) p : uart_port :=
  if negb (flags .& UART_CONFIG_TYPE =? 0) then set_ptype PORT_IFX_ASC p else p.

Definition ifx_asc_verify_port (type irq baud_base : Z) : Z :=
  let ret := 0 in
  let ret := if negb (type =? PORT_UNKNOWN) && negb (type =? PORT_IFX_ASC) then - EINVAL else ret in
  let ret := if (irq <? 0) || (irq >=? NR_IRQS) then - EINVAL else ret in
  if baud_base <? 9600 then - EINVAL else ret.

#[export] Instance ifx_asc_pops : UartOps asc_drv := {|
  tx_empty := ifx_asc_tx_empty; op_get_mctrl := ifx_asc_get_mctrl; op_set_mctrl := ifx_asc_set_mctrl;
  stop_tx := ifx_asc_stop_tx; start_tx := ifx_asc_start_tx; stop_rx := ifx_asc_stop_rx;
  startup := ifx_asc_startup; shutdown := ifx_asc_shutdown; change_speed := ifx_asc_change_speed
|}.

(** ** The console *)

(** The two ports and the driver. *)
Definition board : Type := list uart_port * asc_drv.

(** Carriage return before each newline. *)
Fixpoint console_chars p (s : list Z) d : option asc_drv :=
  match s with
  | [] => Some d
  | c :: s =>
      d ← (if c =? 10 then ifx_asc_serial_out p 13 d else Some d);
      d ← ifx_asc_serial_out p c d;
      console_chars p s d
  end.
Definition ifx_asc_console_write (s : list Z) (b : board) : option board :=
  let '(ports, d) := b in
  p ← ports !! Z.to_nat IFX_ASC_CONSOLE_INDEX;
  d ← console_chars p s d;
  Some (ports, d).

Definition round_baud (baud : Z) : Z :=
  let step lo hi v b := if (b >? lo) && (b <? hi) then v else b in
  step 115200 230400 115200 (step 57600 115200 57600 (step 38400 57600 38400
    (step 19000 38400 19200 (step 9500 19200 9600 (step 4700 9600 4800
    (step 2300 4800 2400 (step 1100 2400 1200 baud))))))).

(** Baud, parity and bits the hardware is set to, or the ones given when it is
    off; [None] divides by zero. *)
Definition ifx_asc_console_get_options p d (baud parity bits : Z) : option (Z * Z * Z) :=
  let lcr_h := rd p asc_mcon d in
  if lcr_h .& ASCMCON_R =? 0 then Some (baud, parity, bits) else
  let mode := lcr_h .& ASCMCON_MODEMASK in
  let parity :=
    if (mode =? ASCMCON_M_7ASYNC .| ASCMCON_PEN) || (mode =? ASCMCON_M_8ASYNC .| ASCMCON_PEN)
    then (if negb (lcr_h .& ASCMCON_ODD =? 0) then 111 else 101) else 110 in
  let bits := if mode =? ASCMCON_M_7ASYNC .| ASCMCON_PEN then 7 else 8 in
  let quot := w32 (rd p asc_bg d + 1) in
  let fde := negb (lcr_h .& ASCMCON_FDE =? 0) in
  let div := if fde then 1 else if negb (lcr_h .& ASCMCON_BRS =? 0) then 3 else 2 in
  let frac := if fde then 512 else 1 in
  let divisor := w32 (div * 512 * 16 * quot) in
  if divisor =? 0 then None else
  Some (round_baud (s32 (w32 (frac * (uartclk p / divisor)))), parity, bits).

(** [options]: the text behind [console=ttyS1,], if there is one.  The result is
    the index of the port and its [cflag]; [None] as well when there is no such
    port. *)
Definition ifx_asc_console_setup (index : Z) (options : option (list Z)) (b : board) : option (Z * Z * board) :=
  let '(ports, d) := b in
  let d := if clk d =? 0 then set_clk (danube_get_fpi_hz (mem (irqt d))) d else d in
  let ports := map (fun p => set_ptype PORT_IFX_ASC (set_uartclk (clk d) p)) ports in
  let idx := uart_get_console ports index in
  p ← ports !! Z.to_nat idx;
  '(baud, parity, bits) ←
    match options with
    | Some s => let '(baud, parity, bits, _) := uart_parse_options s 110 8 110 in Some (baud, parity, bits)
    | None => ifx_asc_console_get_options p d CONFIG_IFX_ASC_DEFAULT_BAUDRATE 110 8
    end;
  '(cflag, p, d) ← uart_set_options baud parity bits p d;
  Some (idx, cflag, (<[Z.to_nat idx := p]> ports, d)).

(** ** Start-up *)

(** For this core only the second controller is set up. *)
Definition ifx_asc_init_hardware (ports : list uart_port) d : option asc_drv :=
  let sys := mem (irqt d) DANUBE_CGU_SYS in
  let ddr_sel := sys .& 0x3 in
  let fpi_sel := if negb (sys .& 0x40 =? 0) then 1 else 0 in
  let '(fdv, reload) := g_danube_asc_baud ddr_sel fpi_sel in
  p ← ports !! 1%nat;
  let d := wr p asc_clc 0x00000100 d in
  let d := wr p asc_mcon (ASCMCON_M_8ASYNC .| 0x00c00000) d in
  let d := SET_BIT p asc_txfcon (ASCTXFCON_TXFEN .| 0x00000001) d in
  let d := SET_BIT p asc_rxfcon 0x00000001 d in
  let d := SET_BIT p asc_mcon ASCMCON_FEN d in
  let d := wr p asc_whbstate 0x000000fd d in
  let d := SET_BIT p asc_mcon (ASCMCON_FDE .| ASCMCON_BRS) d in
  let d := wr p asc_fdv fdv d in
  let d := wr p asc_bg reload d in
  let d := SET_BIT p asc_mcon ASCMCON_R d in
  Some (SET_BIT p asc_whbstate ASCWHBSTATE_SETREN d).

Definition ifx_asc_init_structs : list uart_port :=
  map (fun t => mk_port 0 (base (ifx_asc_port_priv t)) 0 16 0 0 0 PORT_IFX_ASC (mk_icount 0 0 0 0 0) t)
    (below SERIAL_IFX_ASC_PORT_COUNT).

(** Up to the registration of the console, which calls its [setup]. *)
Definition ifx_asc_console_init (index : Z) (options : option (list Z)) d : option (Z * Z * board) :=
  d ← ifx_asc_init_hardware ifx_asc_init_structs d;
  ifx_asc_console_setup index options (ifx_asc_init_structs, d).

(** A transmit interrupt, through the kernel: no second turn of its loop. *)
Definition asc_tx_interrupt u : option (uart asc_drv) :=
  do_IRQ (asc_run 0 (fun _ => (0, 0))) 1 (tir (ifx_asc_port_priv (line (port u)))) u.
End asc.
