(* ===== verification/AscTx.v ===== *)
(** * The serial driver sends in order and does not stall ([ifx_asc.c])

    The driver of [Asc] keeps the laws of [SerialTx]: what a terminal writes leaves
    in order, and while there is something to send and the terminal is not stopped
    the transmit line is enabled, down to the register of the interrupt unit.  A
    character of flow control waits for both. *)

From S2P Require Import Prelude Icu Irq SerialCore SerialTx Asc.
Open Scope Z_scope.

(** ** The lines, under the calls of this driver *)

Section lines.
Context {H : Type}.
Implicit Types (t : irqs H) (i : Z).

Definition pending (i : Z) t : bool := Z.testbit (status (irq_desc t i)) 2.

Lemma status_bit n i t : 0 <= n < 32 ->
  (status (irq_desc t i) .& 1 .<< n =? 0) = negb (Z.testbit (status (irq_desc t i)) n).
Proof. intros Hn. rewrite land_bit_eqb0 by lia. done. Qed.

(** The other lines are left alone. *)
Lemma disable_other i j t : j <> i -> irq_desc (disable_irq_nosync i t) j = irq_desc t j.
Proof.
  intros Hj. unfold disable_irq_nosync. destruct (_ =? 0); cbn [chip put_mem irq_desc];
    unfold put_status, put_depth; by rewrite !put_desc_other.
Qed.
Lemma enable_other i j t : j <> i -> irq_desc (enable_irq i t) j = irq_desc t j.
Proof.
  intros Hj. unfold enable_irq. destruct (_ =? 1); [|destruct (_ =? 0); [done|]]; cbn [chip put_mem irq_desc];
    unfold put_status, put_depth; rewrite ?put_desc_other by done; cbn [chip put_mem irq_desc];
    by rewrite ?put_desc_other.
Qed.

(** Disabling a line that is not disabled, and enabling one that is disabled once. *)
Lemma disable_once i t :
  depth (irq_desc t i) = 0 ->
  let t' := disable_irq_nosync i t in
  depth (irq_desc t' i) = 1 /\ action (irq_desc t' i) = action (irq_desc t i) /\
  in_progress i t' = in_progress i t /\ pending i t' = pending i t.
Proof.
  intros E. unfold disable_irq_nosync. rewrite E. cbn [Z.eqb]. unfold in_progress, pending, chip, put_mem, put_status, put_depth.
  cbn [irq_desc]. rewrite !put_desc_same. cbn [status action depth]. status_bits. done.
Qed.

Lemma enable_once i t :
  depth (irq_desc t i) = 1 ->
  let t' := enable_irq i t in
  depth (irq_desc t' i) = 0 /\ action (irq_desc t' i) = action (irq_desc t i) /\
  in_progress i t' = in_progress i t /\ pending i t' = pending i t.
Proof.
  intros E. unfold enable_irq. rewrite E. change (1 =? 1) with true. cbv zeta iota.
  unfold in_progress, pending, put_depth. rewrite put_desc_same.
  cbn [status action depth chip put_mem irq_desc]. unfold put_status. rewrite put_desc_same. cbn [status action].
  split_and!; try done; destruct (_ =? _); by status_bits.
Qed.

(** The start of an interrupt on an idle line that is not disabled, and its end. *)
Lemma begin_idle i t :
  disabled i t = false -> in_progress i t = false ->
  exists t', irq_begin i t = (action (irq_desc t i), t') /\ action (irq_desc t' i) = action (irq_desc t i) /\
    depth (irq_desc t' i) = depth (irq_desc t i) /\ in_progress i t' = true /\ pending i t' = false /\
    forall j, j <> i -> irq_desc t' j = irq_desc t j.
Proof.
  unfold disabled, in_progress, pending. intros Ed Ep. unfold irq_begin. rewrite land2_eqb.
  assert (forall v, v = status (irq_desc t i) .& .~ (IRQ_REPLAY .| IRQ_WAITING) .| IRQ_PENDING ->
    Z.testbit v 1 || Z.testbit v 0 = false) as E.
  { intros v ->. status_bits. by rewrite Ed, Ep. }
  rewrite E by done. cbn [negb]. eexists. split; [done|].
  unfold put_status. rewrite put_desc_same. cbn [action depth status]. status_bits. split_and!; try done.
  intros j Hj. by rewrite put_desc_other.
Qed.

Lemma done_idle i t :
  in_progress i t = true -> pending i t = false ->
  exists t', irq_again i t = (false, t') /\ action (irq_desc (irq_end i t') i) = action (irq_desc t i) /\
    depth (irq_desc (irq_end i t') i) = depth (irq_desc t i) /\ in_progress i (irq_end i t') = false /\
    forall j, j <> i -> irq_desc (irq_end i t') j = irq_desc t j.
Proof.
  unfold in_progress, pending. intros Ep Eq. unfold irq_again. change IRQ_PENDING with (1 .<< 2).
  rewrite status_bit, Eq by lia. cbn [negb]. eexists. split; [done|].
  unfold irq_end, chip, put_mem, put_status. cbn [irq_desc]. rewrite put_desc_same. cbn [action depth status].
  status_bits. split_and!; try done. intros j Hj. by rewrite put_desc_other.
Qed.

(** A request that does not share the line: refused, or the first action. *)
Lemma request_cases km i (h : H) dv t : is_line i ->
  let '(r, t') := request_irq km i h 0 dv t in
  (forall j, j <> i -> irq_desc t' j = irq_desc t j) /\
  (if r =? 0 then action (irq_desc t' i) = [mk_action h 0 dv] /\ depth (irq_desc t' i) = 0 /\ in_progress i t' = false
   else t' = t /\ (action (irq_desc t i) = [] -> r = - ENOMEM)).
Proof.
  unfold is_line, INT_NUM_IM4_IRL31, request_irq. intros Hi. rewrite Z.geb_leb. unfold NR_IRQS.
  destruct (Z.leb_spec 161 i); [lia|]. destruct km; [|split; [done|by split]]. cbn [negb]. unfold setup_irq.
  destruct (action (irq_desc t i)) as [|old l] eqn:Ea.
  - cbn [Z.eqb aflags]. unfold in_progress, chip, put_mem, put_status, put_depth, put_action. cbn [irq_desc].
    split; [intros j Hj; by rewrite !put_desc_other by done|].
    rewrite !put_desc_same. cbn [action depth status]. status_bits. done.
  - cbn [aflags]. rewrite Z.land_0_r, Z.land_0_l. split; [done|]. by split.
Qed.

(** The last action freed. *)
Definition free_line (t : irqs H) (i : Z) : Prop := action (irq_desc t i) = [] /\ disabled i t = true.

Lemma free_one i (h : H) dv t : is_line i -> action (irq_desc t i) = [mk_action h 0 dv] ->
  free_line (free_irq i dv t) i /\ forall j, j <> i -> irq_desc (free_irq i dv t) j = irq_desc t j.
Proof.
  unfold is_line, INT_NUM_IM4_IRL31, free_line, free_irq, disabled. intros Hi Ea. rewrite Z.geb_leb. unfold NR_IRQS.
  destruct (Z.leb_spec 161 i); [lia|]. rewrite Ea. cbn [remove_action dev_id]. rewrite Z.eqb_refl.
  cbn [chip put_mem irq_desc]. unfold put_status, put_action. rewrite !put_desc_same. cbn [action status].
  status_bits. split_and!; try done. intros j Hj. by rewrite !put_desc_other by done.
Qed.

Lemma free_line_frame i t t' : irq_desc t' i = irq_desc t i -> free_line t i -> free_line t' i.
Proof. unfold free_line, disabled. by intros ->. Qed.
End lines.
#[global] Arguments pending {H} i t : simpl never.

(** ** The driver's own registers are not the interrupt unit's *)

Definition same_lines (d d' : asc_drv) : Prop :=
  irq_desc (irqt d') = irq_desc (irqt d) /\ (lines_ok (irqt d) -> lines_ok (irqt d')) /\
  out d' = out d /\ in_irq d' = in_irq d /\ asc_tx_irq_on d' = asc_tx_irq_on d /\ info_set d' = info_set d.

Lemma same_trans d1 d2 d3 : same_lines d1 d2 -> same_lines d2 d3 -> same_lines d1 d3.
Proof. intros (? & ? & ? & ? & ? & ?) (? & ? & ? & ? & ? & ?). split_and!; try congruence; auto. Qed.

Lemma wr_same p reg v d : 0 <= reg < 0x100 -> same_lines d (wr p reg v d).
Proof.
  intros Hr. split_and!; try done. intros Hok j Hj. apply (line_ok_frame j (irqt d)); [done| |by apply Hok].
  unfold enabled, line_enabled. cbn [irqt wr set_irqt put_mem mem]. rewrite upd_ne; [done|].
  destruct (line_split j Hj) as (_ & Hk & _). unfold ier, ifx_asc_port_priv, DANUBE_ICU, DANUBE_ASC0, DANUBE_ASC1.
  destruct (line p =? 0); cbn [base]; lia.
Qed.

Ltac same_regs :=
  repeat first [eapply same_trans; [|apply wr_same; unfold asc_rxfcon, asc_txfcon, asc_whbstate, asc_irnen,
    asc_mcon, asc_bg; lia] | unfold SET_BIT, CLEAR_BIT]; try done.

(** ** The laws *)

Section tx.
Context (fstat : nat -> nat -> Z) (polls : nat) (kmalloc : Z -> bool).
Implicit Types (d : asc_drv) (u : uart asc_drv).

(** The hardware makes room for a character within the readings of a wait. *)
Hypothesis drains : forall n, exists k, (k < polls)%nat /\ tx_free (fstat n k) = true.

Definition tx_line (l : Z) : Z := tir (ifx_asc_port_priv l).

(** A line with its handler, which does not run, and not disabled. *)
Definition idle_line (h : asc_handler) (l i : Z) (t : irqs asc_handler) : Prop :=
  in_progress i t = false /\ action (irq_desc t i) = [mk_action h 0 l] /\ depth (irq_desc t i) = 0.
(** The two other lines of the port. *)
Definition others_idle (l : Z) (t : irqs asc_handler) : Prop :=
  idle_line RxInt l (rir (ifx_asc_port_priv l)) t /\ idle_line ErInt l (eir (ifx_asc_port_priv l)) t.

Lemma port_lines l : l = 0 \/ l = 1 ->
  is_line (rir (ifx_asc_port_priv l)) /\ is_line (eir (ifx_asc_port_priv l)) /\ is_line (tx_line l) /\
  rir (ifx_asc_port_priv l) <> tx_line l /\ eir (ifx_asc_port_priv l) <> tx_line l /\
  eir (ifx_asc_port_priv l) <> rir (ifx_asc_port_priv l).
Proof.
  unfold is_line, tx_line, INT_NUM_IM4_IRL31.
  intros [-> | ->]; cbn; unfold INT_NUM_IM0_IRL0, INT_NUM_IM1_IRL0; lia.
Qed.

Lemma idle_frame h l i t t' : irq_desc t' i = irq_desc t i -> idle_line h l i t -> idle_line h l i t'.
Proof. unfold idle_line, in_progress. by intros ->. Qed.

Lemma others_frame l t t' : l = 0 \/ l = 1 ->
  (forall j, j <> tx_line l -> irq_desc t' j = irq_desc t j) -> others_idle l t -> others_idle l t'.
Proof.
  intros Hl E [H1 H2]. destruct (port_lines l Hl) as (_ & _ & _ & N1 & N2 & _).
  split; apply (idle_frame _ _ _ t); auto.
Qed.

(** The data of the driver; [b]: within the handler of the transmit line. *)
Record drv_inv (b : bool) (l : Z) (d : asc_drv) : Prop := {
  inv_line : l = 0 \/ l = 1;
  inv_info : info_set d = true;
  inv_irq : in_irq d = b;
  inv_lines : lines_ok (irqt d);
  inv_prog : in_progress (tx_line l) (irqt d) = b;
  inv_action : action (irq_desc (irqt d) (tx_line l)) = [mk_action TxInt 0 l];
  inv_pending : b = true -> pending (tx_line l) (irqt d) = false;
  inv_depth : asc_tx_irq_on d = 0 /\ depth (irq_desc (irqt d) (tx_line l)) = 1 \/
              asc_tx_irq_on d = 1 /\ depth (irq_desc (irqt d) (tx_line l)) = 0;
  inv_others : others_idle l (irqt d)
}.

Definition asc_view (b : bool) : TxView asc_drv := {|
  tx_on d := negb (asc_tx_irq_on d =? 0); wire d := map (fun w => w mod 256) (out d);
  drv_ok := drv_inv b; tx_int := asc_tx_interrupt fstat polls
|}.
Abbreviation rel b := (@tx_rel asc_drv (asc_view b)).

Lemma tx_line_ok l : l = 0 \/ l = 1 -> is_line (tx_line l).
Proof. intros [->| ->]; unfold is_line, tx_line, INT_NUM_IM4_IRL31; cbn; unfold INT_NUM_IM0_IRL0, INT_NUM_IM1_IRL0; lia. Qed.

Lemma wait_ready ready sent : forall n k, (exists j, (k <= j < k + n)%nat /\ ready (fstat sent j) = true) ->
  wait_fstat fstat ready sent n k = Some tt.
Proof.
  induction n as [|n IH]; intros k (j & Hj & Hr); [lia|]. cbn.
  destruct (ready (fstat sent k)) eqn:E; [done|]. apply IH. exists j. split; [|done].
  assert (j <> k) by congruence. lia.
Qed.

Lemma tbuf_byte width ch : tbuf_word width ch mod 256 = ch mod 256.
Proof.
  unfold tbuf_word, w32, s8. destruct (_ =? 8); [|by rewrite Z.mod_mod].
  Z.to_euclidean_division_equations. lia.
Qed.

Lemma serial_out_spec p ch d :
  exists w, ifx_asc_serial_out fstat polls p ch d = Some (set_out (out d ++ [w]) d) /\ w mod 256 = ch mod 256.
Proof.
  destruct (drains (length (out d))) as (k & Hk & Hf). unfold ifx_asc_serial_out.
  rewrite wait_ready by (exists k; split; [lia|done]). cbn. eexists. split; [done|apply tbuf_byte].
Qed.

Lemma stop_tx_spec b g u s : rel b g u s ->
  exists u', ifx_asc_stop_tx u = Some u' /\ rel b g u' (set_on false s).
Proof.
  intros [R1 R2 R3 R4 R5 R6 R7 R8 R9]. cbn [tx_on wire drv_ok asc_view] in *. unfold ifx_asc_stop_tx.
  destruct (asc_tx_irq_on (drv u) =? 0) eqn:E; cbn [negb].
  - exists u. split; [done|]. split; try done. cbn. by rewrite E.
  - destruct R9 as [Hl Hi Hq Hok Hp Ha Hpe [[Ho _]|[Ho Hd]] Hr]; [by rewrite Ho in E|].
    destruct (disable_once _ _ Hd) as (D1 & D2 & D3 & D4). fold (tx_line (line (port u))).
    set (t' := disable_irq_nosync (tx_line (line (port u))) (irqt (drv u))) in *.
    assert (disable_irq (in_irq (drv u)) (tx_line (line (port u))) (irqt (drv u)) = Some t') as ->.
    { unfold disable_irq. fold t'. change IRQ_INPROGRESS with (1 .<< 0). rewrite status_bit by lia.
      fold (in_progress (tx_line (line (port u))) t'). rewrite D3, Hp, Hq. by destruct b. }
    cbn. eexists. split; [done|]. split; try done. split; try done; cbn.
    + apply disable_ok; [by apply tx_line_ok|lia|done].
    + by rewrite D3.
    + by rewrite D2.
    + by rewrite D4.
    + by left.
    + apply (others_frame _ (irqt (drv u))); [done| |done]. intros j Hj. by apply disable_other.
Qed.

Lemma count_tx_rel b g u s : rel b g u s -> rel b g (count_tx u) s.
Proof. intros [? ? ? ? ? ? ? ? []]. by split. Qed.

Lemma event_rel b g e u s : rel b g u s -> rel b g (uart_event e u) s.
Proof. intros [? ? ? ? ? ? ? ? []]. by split. Qed.

Lemma tx_chars_spec b g u s : rel b g u s ->
  exists u', ifx_asc_tx_chars fstat polls u = Some u' /\ rel b g u' (send g s).
Proof.
  intros R. pose proof (ring_empty _ (rel_ok _ _ _ R)) as He. rewrite (rel_q _ _ _ R) in He.
  unfold ifx_asc_tx_chars, send. rewrite (rel_tty _ _ _ R), (rel_halted _ _ _ R), (rel_x _ _ _ R).
  replace (hw_stopped (tty u)) with (hw g) by (by rewrite <- (rel_config _ _ _ R)).
  destruct (q s) as [|c r] eqn:Eq.
  { rewrite (proj2 He eq_refl). cbn. destruct (_ || _); by apply stop_tx_spec. }
  destruct (head (xmit (info u)) =? tail (xmit (info u))) eqn:E; [discriminate (proj1 He eq_refl)|].
  cbn [mbind option_bind]. destruct (halted s || hw g) eqn:Eh; [by apply stop_tx_spec|].
  destruct (xc s =? 0) eqn:Ex; cbn [negb].
  - destruct (serial_out_spec (port u) (buf (xmit (info u)) (tail (xmit (info u)))) (drv u)) as (w & -> & Hw).
    cbn [mbind option_bind]. destruct (ring_pop_spec c r (xmit (info u))) as [Hc Hr];
      [apply R|by rewrite (rel_q _ _ _ R)|]. rewrite Hc in Hw.
    set (s1 := mk_spec r (xc s) (halted s) (on s) (sent s ++ [(false, c)])).
    set (u1 := count_tx _).
    assert (R1 : rel b g u1 s1).
    { apply count_tx_rel. destruct R as [? Rk ? ? ? ? ? Rw []]. cbn [wire asc_view] in Rw. split; cbn; try done.
      - by apply pop_ok in Rk.
      - rewrite !map_app, Rw. cbn. by rewrite Hw. }
    set (u2 := if _ <? _ then _ else _).
    assert (R2 : rel b g u2 s1) by (subst u2; destruct (_ <? _); [by apply event_rel|done]).
    pose proof (ring_empty _ (pop_ok _ (rel_ok _ _ _ R))) as He2. rewrite Hr in He2.
    cbn [ring_pop head tail] in He2 |- *. case_bool_decide as Hnil.
    + rewrite (proj2 He2 Hnil). cbn [negb]. rewrite andb_false_r. destruct (stop_tx_spec b g u2 s1 R2) as (u3 & E3 & R3).
      exists u3. split; [exact E3|exact R3].
    + rewrite (not_true_is_false _ (fun E2 => Hnil (proj1 He2 E2))).
      cbn [negb]. rewrite andb_true_r. exists u2. split; [done|exact R2].
  - destruct (serial_out_spec (port u) (xc s) (drv u)) as (w & -> & Hw). cbn [mbind option_bind].
    eexists. split; [done|]. apply count_tx_rel.
    destruct R as [? ? ? ? ? ? ? Rw []]. cbn [wire asc_view] in Rw. split; cbn; try done; [congruence|].
    rewrite !map_app, Rw. cbn. by rewrite Hw.
Qed.

Lemma start_tx_spec g u s : rel false g u s ->
  exists u', ifx_asc_start_tx fstat polls u = Some u' /\ rel false g u' (send g (set_on true s)).
Proof.
  intros R. unfold ifx_asc_start_tx.
  set (u1 := if _ =? 0 then _ else _).
  assert (R1 : rel false g u1 (set_on true s)).
  { subst u1. destruct R as [R1 R2 R3 R4 R5 R6 R7 R8 [Hl Hi Hq Hok Hp Ha Hpe Hd Hr]]. cbn [tx_on wire asc_view] in *.
    destruct Hd as [[Ho Hd]|[Ho Hd]]; rewrite Ho; cbn [Z.eqb Z.add].
    - destruct (enable_once _ _ Hd) as (D1 & D2 & D3 & D4). fold (tx_line (line (port u))).
      split; try done; [by cbn; rewrite Ho|]. split; try done; cbn.
      + by apply enable_ok; [apply tx_line_ok|].
      + by rewrite D3.
      + by rewrite D2.
      + right. by rewrite Ho.
      + apply (others_frame _ (irqt (drv u))); [done| |done]. intros j Hj. by apply enable_other.
    - split; try done; [by cbn; rewrite Ho|]. split; try done. by right. }
  rewrite (inv_info _ _ _ (rel_drv _ _ _ R1)). by apply tx_chars_spec.
Qed.

(** A transmit interrupt, from the kernel's entry on. *)
Lemma tx_int_spec g u s : rel false g u s -> on s = true ->
  exists u', asc_tx_interrupt fstat polls u = Some u' /\ rel false g u' (send g s).
Proof.
  intros R Hon. destruct R as [R1 R2 R3 R4 R5 R6 R7 R8 [Hl Hi Hq Hok Hp Ha Hpe Hd Hoth]].
  cbn [tx_on wire asc_view] in *. rewrite Hon in R7.
  destruct Hd as [[Ho _]|[Ho Hd]]; [by rewrite Ho in R7|].
  set (l := line (port u)) in *. pose proof (tx_line_ok l Hl) as Hil.
  assert (Hdis : disabled (tx_line l) (irqt (drv u)) = false).
  { apply (Hok _ Hil); [by rewrite Ha|done]. }
  destruct (begin_idle _ _ Hdis Hp) as (t & Eb & Ba & Bd & Bp & Bq & Br).
  assert (Ht : lines_ok t) by (pose proof (begin_ok _ _ Hil Hok) as B; by rewrite Eb in B).
  unfold asc_tx_interrupt, do_IRQ. fold l (tx_line l). cbn [get_irqs put_irqs asc_irqs].
  rewrite Eb, Ha. cbn [irq_loop handle_IRQ_event].
  set (u1 := on_drv (set_in_irq true) (on_drv (set_irqt t) u)).
  assert (R' : rel true g u1 s).
  { split; try done; [by cbn; rewrite Ho|]. split; try done; cbn; fold l.
    - congruence.
    - right. by rewrite Bd.
    - by apply (others_frame _ (irqt (drv u))). }
  destruct (tx_chars_spec true g u1 s R') as (u2 & E2 & [S1 S2 S3 S4 S5 S6 S7 S8 [Tl Ti Tq Tok Tp Ta Tpe Td To]]).
  assert (Hln : line (port u2) = l) by (pose proof (f_equal ln (eq_trans S6 (eq_sym R6))) as E; exact E).
  unfold asc_run at 1. fold u1. cbn [handler]. unfold ifx_asc_tx_int. rewrite E2. cbn [mbind option_bind].
  cbn [get_irqs asc_irqs]. destruct (done_idle (tx_line l) (irqt (drv u2))) as (t3 & E3 & Da & Dd & Dp & Dr);
    [by rewrite <- Hln|by rewrite <- Hln; apply Tpe|].
  pose proof (again_ok (tx_line l) (irqt (drv u2)) Hil Tok) as A. rewrite E3 in A.
  change (irqt (drv (on_drv (set_in_irq false) u2))) with (irqt (drv u2)). rewrite E3. cbn [mbind option_bind].
  eexists. split; [done|]. split; try done. cbn in *. clearbody l. subst l.
  split; try done; cbn; try congruence. by apply (others_frame _ (irqt (drv u2))).
Qed.

(** No line of the port has a handler. *)
Definition port_free (l : Z) (t : irqs asc_handler) : Prop :=
  free_line t (rir (ifx_asc_port_priv l)) /\ free_line t (tx_line l) /\ free_line t (eir (ifx_asc_port_priv l)).

(** A start of the port: all three lines, or none. *)
Lemma startup_lines p d :
  line p = 0 \/ line p = 1 -> lines_ok (irqt d) -> in_irq d = false -> port_free (line p) (irqt d) ->
  info_set d = true ->
  let v := ifx_asc_port_priv (line p) in
  exists r d', (let '(retval, d) := req kmalloc (rir v) RxInt p d in
    if negb (retval =? 0) then Some (retval, p, d) else
    let '(retval, d) := req kmalloc (tir v) TxInt p d in
    if negb (retval =? 0) then Some (retval, p, free (rir v) p d) else
    t ← disable_irq (in_irq d) (tir v) (irqt d);
    let d := set_tx_irq_on 0 (set_irqt t d) in
    let '(retval, d) := req kmalloc (eir v) ErInt p d in
    if negb (retval =? 0) then Some (retval, p, free (tir v) p (free (rir v) p d)) else
    Some (0, p, d)) = Some (r, p, d') /\
    lines_ok (irqt d') /\ in_irq d' = false /\ out d' = out d /\ info_set d' = true /\ clk d' = clk d /\
    if r =? 0 then drv_inv false (line p) d' /\ asc_tx_irq_on d' = 0
    else port_free (line p) (irqt d') /\ r = - ENOMEM.
Proof.
  intros Hl Hok Hq (Fr & Ft & Fe) Hi v. destruct (port_lines _ Hl) as (Lr & Le & Lt & N1 & N2 & N3). fold v in Lr, Le, N1, N2, N3, Fr, Fe.
  change (tir v) with (tx_line (line p)). set (tl := tx_line (line p)) in *. unfold req, free.
  pose proof (request_cases (kmalloc (rir v)) (rir v) RxInt (line p) (irqt d) Lr) as C1.
  pose proof (request_irq_ok (kmalloc (rir v)) (rir v) RxInt 0 (line p) _ Lr Hok) as K1.
  destruct (request_irq _ (rir v) _ _ _ _) as [r1 t1]. cbn [snd] in K1. destruct C1 as [O1 C1].
  destruct (Z.eqb_spec r1 0) as [->|Z1]; cbn [negb].
  2: { destruct C1 as [-> C1]. exists r1, (set_irqt (irqt d) d). apply Z.eqb_neq in Z1. rewrite Z1. split_and!; try done. apply C1, Fr. }
  destruct C1 as (A1 & D1 & P1).
  pose proof (request_cases (kmalloc tl) tl TxInt (line p) t1 Lt) as C2.
  pose proof (request_irq_ok (kmalloc tl) tl TxInt 0 (line p) _ Lt K1) as K2. cbn [irqt set_irqt].
  destruct (request_irq _ tl _ _ _ _) as [r2 t2]. cbn [snd] in K2. destruct C2 as [O2 C2].
  destruct (Z.eqb_spec r2 0) as [->|Z2]; cbn [negb].
  2: { destruct C2 as [-> C2]. destruct (free_one _ _ _ _ Lr A1) as [F1 G1]. eexists r2, _. apply Z.eqb_neq in Z2. rewrite Z2.
    split; [done|]. cbn [irqt set_irqt in_irq out info_set clk]. unfold port_free. fold v tl.
    split_and!; try done; [by apply free_irq_ok| | |apply C2; rewrite O1 by done; apply Ft];
      (eapply free_line_frame; [|eassumption]); by rewrite G1, O1. }
  destruct C2 as (A2 & D2 & P2). cbn [irqt set_irqt in_irq]. unfold disable_irq.
  destruct (disable_once _ _ D2) as (B1 & B2 & B3 & _).
  set (t3 := disable_irq_nosync tl t2) in *.
  assert (O3 : forall j, j <> tl -> irq_desc t3 j = irq_desc t2 j) by (intros j Hj; by apply disable_other).
  assert (K3 : lines_ok t3) by (apply disable_ok; [done|lia|done]).
  change IRQ_INPROGRESS with (1 .<< 0). rewrite status_bit by lia. fold (in_progress tl t3). rewrite B3, P2, Hq.
  cbn [negb mbind option_bind irqt set_tx_irq_on set_irqt].
  pose proof (request_cases (kmalloc (eir v)) (eir v) ErInt (line p) t3 Le) as C4.
  pose proof (request_irq_ok (kmalloc (eir v)) (eir v) ErInt 0 (line p) _ Le K3) as K4.
  destruct (request_irq _ (eir v) _ _ _ _) as [r4 t4]. cbn [snd] in K4. destruct C4 as [O4 C4].
  destruct (Z.eqb_spec r4 0) as [->|Z4]; cbn [negb].
  - destruct C4 as (A4 & D4 & P4). eexists 0, _. split; [done|]. cbn [Z.eqb irqt set_irqt set_tx_irq_on in_irq out info_set clk].
    split_and!; try done. split; try done; fold tl; cbn [irqt set_irqt set_tx_irq_on asc_tx_irq_on].
    + unfold in_progress in *. by rewrite O4, B3, P2 by done.
    + by rewrite O4, B2, A2 by done.
    + left. split; [done|]. by rewrite O4, B1.
    + split; split_and!; fold v; unfold in_progress in *; rewrite ?O4, ?O3, ?O2 by done; done.
  - destruct C4 as [-> C4]. apply Z.eqb_neq in Z4. assert (Ar : action (irq_desc t3 (rir v)) = [mk_action RxInt 0 (line p)])
      by (by rewrite O3, O2 by done).
    destruct (free_one _ _ _ _ Lr Ar) as [F1 G1].
    assert (At : action (irq_desc (free_irq (rir v) (line p) t3) tl) = [mk_action TxInt 0 (line p)])
      by (by rewrite G1, B2, A2 by done).
    destruct (free_one _ _ _ _ Lt At) as [F2 G2]. eexists r4, _. rewrite Z4. split; [done|].
    cbn [irqt set_irqt in_irq out info_set clk set_tx_irq_on]. unfold port_free. fold v tl. split_and!; try done.
    + by apply free_irq_ok, free_irq_ok.
    + eapply free_line_frame; [by rewrite G2|done].
    + eapply free_line_frame; [|exact Fe]. by rewrite G2, G1, O3, O2, O1 by done.
    + apply C4. rewrite O3, O2, O1 by done. apply Fe.
Qed.

Lemma startup_spec p d :
  line p = 0 \/ line p = 1 -> lines_ok (irqt d) -> in_irq d = false -> port_free (line p) (irqt d) ->
  exists r p' d', ifx_asc_startup kmalloc p d = Some (r, p', d') /\
    lines_ok (irqt d') /\ in_irq d' = false /\ out d' = out d /\ p' = set_uartclk (clk d') p /\
    clk d' = (if clk d =? 0 then danube_get_fpi_hz (mem (irqt d)) / 2 else clk d) /\
    if r =? 0 then drv_inv false (line p) d' /\ asc_tx_irq_on d' = 0
    else port_free (line p) (irqt d') /\ r = - ENOMEM.
Proof.
  intros Hl Hok Hq Hf. unfold ifx_asc_startup.
  set (d1 := if clk d =? 0 then _ else _). set (q := set_uartclk (clk d1) p).
  assert (Hd1 : irqt d1 = irqt d /\ in_irq d1 = in_irq d /\ out d1 = out d /\
    clk d1 = (if clk d =? 0 then danube_get_fpi_hz (mem (irqt d)) / 2 else clk d))
    by (subst d1; by destruct (clk d =? 0)).
  destruct Hd1 as (A1 & A2 & A3 & A4).
  set (d2 := wr _ asc_irnen _ _).
  assert (S2 : same_lines (set_info_set true d1) d2 /\ clk d2 = clk d1) by (split; [subst d2; same_regs|done]).
  clearbody d2. destruct S2 as ((B1 & B2 & B3 & B4 & _ & B6) & B7). cbn in B1, B2, B3, B4, B6.
  assert (Hf2 : port_free (line q) (irqt d2)).
  { destruct Hf as (F1 & F2 & F3). split_and!; eapply free_line_frame; try eassumption; by rewrite B1, A1. }
  destruct (startup_lines q d2) as (r & d' & E & L1 & L2 & L3 & L4 & L5 & L6); [done| |congruence|done|done|].
  { apply B2. by rewrite A1. }
  exists r, q, d'. split; [exact E|]. change (line q) with (line p) in L6.
  split_and!; try done; try congruence. subst q. by rewrite L5, B7.
Qed.

(** ** Opening the port *)

(** Only the terminal's control flags, or what output does not depend on, differ. *)
Definition speed_only u u' : Prop :=
  port u' = port u /\ info u' = info u /\ drv u' = drv u /\ stopped (tty u') = stopped (tty u) /\
  hw_stopped (tty u') = hw_stopped (tty u) /\ flow_stopped (tty u') = flow_stopped (tty u) /\
  c_iflag (tty u') = c_iflag (tty u) /\ stop_char (tty u') = stop_char (tty u) /\
  start_char (tty u') = start_char (tty u) /\ tflags (tty u') = tflags (tty u).

Lemma speed_refl u : speed_only u u.
Proof. done. Qed.
Lemma speed_trans u1 u2 u3 : speed_only u1 u2 -> speed_only u2 u3 -> speed_only u1 u3.
Proof. unfold speed_only. intros. destruct_and!. split_and!; congruence. Qed.

Lemma baud_rate_only t b t' : tty_get_baud_rate t = Some (b, t') -> t' = set_c_cflag (c_cflag t') t.
Proof.
  unfold tty_get_baud_rate.
  set (p := if negb (_ =? 0) then _ else _). assert (snd p = set_c_cflag (c_cflag (snd p)) t) as Ep.
  { subst p. destruct t. destruct (_ =? 0); [done|]. cbn [negb]. by destruct (_ || _). }
  destruct p as [i t1]. cbn [snd] in Ep. intros E.
  destruct (_ && _); [by simplify_eq|]. destruct (baud_table !! _); by simplify_eq/=.
Qed.

Lemma quot_loop_only n : forall div old q u r u', quot_loop n div old q u = Some (r, u') -> speed_only u u'.
Proof.
  induction n as [|n IH]; intros div old q u r u' E; cbn [quot_loop] in E; [by simplify_eq|].
  destruct (tty_get_baud_rate (tty u)) as [[b t]|] eqn:Eb; [|done]. cbn [mbind option_bind] in E.
  apply baud_rate_only in Eb. rewrite Eb in E. clear Eb.
  destruct (negb _) in E; [by simplify_eq|]. destruct old; apply IH in E; exact E.
Qed.

Lemma altspeed_only u : speed_only u (uart_update_altspeed u).
Proof. unfold uart_update_altspeed. by repeat destruct (_ =? _). Qed.

Lemma change_speed_same c f q p d p' d' :
  ifx_asc_change_speed fstat polls c f q p d = Some (p', d') ->
  same_lines d d' /\ p' = set_masks (read_status_mask p') (ignore_status_mask p') p.
Proof.
  unfold ifx_asc_change_speed. destruct (wait_fstat _ _ _ _ _); [|done]. cbn [mbind option_bind]. intros E.
  simplify_eq. split; [same_regs|done].
Qed.

(** The driver of an initialised port, when its speed changes. *)
Lemma drv_inv_same l d d' : same_lines d d' -> drv_inv false l d -> drv_inv false l d'.
Proof.
  intros (A1 & A2 & _ & A4 & A5 & A6) [Hl Hi Hq Hok Hp Ha Hpe Hd Hr].
  split; unfold in_progress, pending in *; rewrite ?A1, ?A4, ?A5, ?A6; auto.
  apply (others_frame _ (irqt d)); [done| |done]. intros j _. by rewrite A1.
Qed.

Lemma change_speed_rel div old g u s u' :
  rel false g u s ->
  @uart_change_speed _ (ifx_asc_pops fstat polls kmalloc) div old u = Some u' ->
  rel false g u' s /\ tflags (tty u') = tflags (tty u).
Proof.
  intros R E. unfold uart_change_speed in E. destruct (_ || _); [by simplify_eq|].
  destruct (quot_loop 2 div old 0 u) as [[q u1]|] eqn:Eq; [|done]. cbn [mbind option_bind] in E.
  apply quot_loop_only in Eq. destruct (_ =? 0); [done|].
  destruct (change_speed _ _ _ _ _) as [[p d]|] eqn:Ec; [|done]. cbn [mbind option_bind] in E. simplify_eq.
  cbn in Ec. apply change_speed_same in Ec as [Hs Ep]. destruct Eq as (E1 & E2 & E3 & E4 & E5 & E6 & E7 & E8 & E9 & E10).
  destruct R as [R1 R2 R3 R4 R5 R6 R7 R8 R9]. cbn [tx_on wire drv_ok asc_view] in *.
  rewrite E1, E3 in *. assert (Hln : line p = line (port u)) by (by rewrite Ep).
  pose proof (drv_inv_same _ _ _ Hs R9) as R9'. destruct Hs as (A1 & A2 & A3 & A4 & A5 & A6).
  split; [|done]. split; cbn; rewrite ?E2; try congruence.
  - by rewrite Ep.
  - rewrite <- R6. unfold config_of. cbn. by rewrite E5, E6, E7, E8, E9, Hln.
Qed.

(** A port that can be opened: one of the two, with a terminal, and its lines have
    no handler yet. *)
Record startable u : Prop := {
  st_line : line (port u) = 0 \/ line (port u) = 1;
  st_lines : lines_ok (irqt (drv u));
  st_irq : in_irq (drv u) = false;
  st_free : port_free (line (port u)) (irqt (drv u));
  st_tty : has_tty (info u) = true;
  st_new : iflags (info u) .& ASYNC_INITIALIZED = 0;
  st_type : ptype (port u) <> PORT_UNKNOWN
}.

(** The queue of a port just opened. *)
Definition opened u : tx_spec :=
  mk_spec [] (x_char (port u)) (stopped (tty u)) false (map (pair false) (out (drv u))).

Abbreviation asc_startup := (@uart_startup _ (ifx_asc_pops fstat polls kmalloc)).

Lemma error_bit v : test_bit TTY_IO_ERROR (v .| 1 .<< TTY_IO_ERROR) = true.
Proof. unfold test_bit. rewrite Z.lor_spec, testbit_1_shiftl by (unfold TTY_IO_ERROR; lia). by rewrite orb_true_r. Qed.

Lemma startup_rel page capable div u u' :
  startable u -> asc_startup page capable div u = Some (0, u') ->
  test_bit TTY_IO_ERROR (tflags (tty u')) = false ->
  rel false (config_of u) u' (opened u).
Proof.
  intros [Hl Hok Hq Ha Ht Hn Hp] E Hio. unfold uart_startup in E. destruct page; [|done]. cbn [negb] in E.
  rewrite Hn in E. change (negb (0 =? 0)) with false in E. cbv iota in E.
  apply Z.eqb_neq in Hp. rewrite Hp in E. cbv iota in E.
  set (x := if present _ then _ else _) in E.
  assert (Hx : present x = true) by (subst x; by destruct (present (xmit (info u))) eqn:Ex). clearbody x.
  set (u1 := on_info _ (on_info _ (on_info _ u))) in E.
  destruct (startup (port u1) (drv u1)) as [[[r p] d]|] eqn:Es; [|done]. cbn [mbind option_bind] in E.
  set (u2 := mk_uart p (info u1) (tty u1) d) in E.
  destruct (Z.eqb_spec r 0) as [->|Nr]; cbn [negb] in E.
  - destruct (startup_spec (port u) (drv u) Hl Hok Hq Ha) as (r' & p' & d' & Es' & _ & _ & Eo & Ep & _ & Hr).
    cbn in Es. rewrite Es' in Es. injection Es as -> -> ->. destruct Hr as [Id Io].
    change (has_tty (info u2)) with (has_tty (info u)) in E. rewrite Ht in E.
    set (u3 := uart_update_altspeed _) in E.
    assert (R3 : rel false (config_of u) u3 (opened u)).
    { pose proof (altspeed_only (on_tty (fun t => set_tflags (tflags t .& .~ (1 .<< TTY_IO_ERROR)) t) u2)) as A.
      fold u3 in A. destruct A as (A1 & A2 & A3 & A4 & A5 & A6 & A7 & A8 & A9 & _).
      assert (Hlp : line p = line (port u)) by (by rewrite Ep). cbn in A1, A2, A3, A4, A5, A6, A7, A8, A9.
      split; cbn; rewrite ?A1, ?A2, ?A3, ?A4; cbn; try done.
      - by rewrite Ep.
      - unfold config_of. by rewrite A1, A5, A6, A7, A8, A9, Hlp.
      - by rewrite Io.
      - rewrite Eo, map_map. done.
      - by rewrite Hlp. }
    destruct (uart_change_speed div None u3) as [u4|] eqn:E4; [|done]. cbn [mbind option_bind] in E.
    destruct (change_speed_rel _ _ _ _ _ _ R3 E4) as [R4 _].
    rewrite (rel_tty _ _ _ R4) in E. cbn [negb] in E. simplify_eq.
    destruct R4 as [? ? ? ? ? ? ? ? []]. by split.
  - exfalso. destruct capable; simplify_eq. change (has_tty (info u2)) with (has_tty (info u)) in Hio.
    rewrite Ht in Hio. cbn [tty on_tty set_tflags tflags] in Hio. by rewrite error_bit in Hio.
Qed.

(** ** The driver as an instance *)

#[local] Instance asc_pops : UartOps asc_drv := ifx_asc_pops fstat polls kmalloc.
#[local] Hint Extern 0 (TxView asc_drv) => exact (asc_view false) : typeclass_instances.

#[local] Instance asc_tx_driver : TxDriver asc_drv.
Proof.
  split.
  - intros g u s R. by apply start_tx_spec.
  - intros g u s R. by apply stop_tx_spec.
  - intros g u s R Hon. by apply tx_int_spec.
  - intros g u s v []. by split.
Qed.

Lemma rel_line_enabled g u s : rel false g u s -> enabled (tx_line (line (port u))) (irqt (drv u)) = on s.
Proof.
  intros R. pose proof (rel_on _ _ _ R) as Ho. destruct (rel_drv _ _ _ R) as [Hl _ _ Hok Hp Ha _ Hd _].
  destruct (Hok _ (tx_line_ok _ Hl)) as [K1 K2 K3 K4 _]. cbn in Ho. rewrite <- Ho.
  destruct Hd as [[-> Hd]|[-> Hd]]; cbn.
  - apply K1, K3. by rewrite Hd.
  - apply K2; [|done]. apply K4; [by rewrite Ha|done].
Qed.

(** [u2] is what the calls [ops] make of a port [u] after it was opened. *)
Definition reached u (ops : list tx_op) (rs : list Z) u2 : Prop :=
  exists page capable div u1, startable u /\ asc_startup page capable div u = Some (0, u1) /\
    test_bit TTY_IO_ERROR (tflags (tty u1)) = false /\ Forall op_ok ops /\ tx_calls ops u1 = Some (rs, u2).

Lemma reached_rel u ops rs u2 : reached u ops rs u2 ->
  exists s, spec_run (config_of u) ops (opened u) rs s /\ rel false (config_of u) u2 s.
Proof.
  intros (page & capable & div & u1 & Hu & E & Hio & Hops & Ec).
  pose proof (startup_rel _ _ _ _ _ Hu E Hio) as R1.
  destruct (calls_spec (config_of u) ops Hops u1 _ R1) as (rs' & u2' & s & E2 & Run & R2).
  rewrite Ec in E2. simplify_eq. eauto.
Qed.

Lemma data_opened u : data (opened u) = out (drv u).
Proof.
  unfold data, opened. cbn [sent]. induction (out (drv u)) as [|w l IH]; [done|].
  cbn [map]. rewrite filter_cons_True by done. cbn [map]. f_equal. exact IH.
Qed.

(** What is to be sent, in order. *)
Definition due_of u : list Z :=
  (if x_char (port u) =? 0 then [] else [x_char (port u)]) ++ ring (xmit (info u)).
Definition bytes (l : list Z) : list Z := map (fun c => c mod 256) l.
Definition line_on u : bool := enabled (tx_line (line (port u))) (irqt (drv u)).

(** C8: The serial core with this driver is a queue.  Opened on either port, any
    sequence of writes from kernel or user memory (with faults, and interrupts in
    between), single characters, flushes, flow control, stops, starts and
    transmit interrupts returns, and does and answers what the calls do on a queue
    of at most 1023 characters: what it sends is what the queue sends, its ring
    holds what the queue holds, and the transmit line is enabled in the interrupt
    unit exactly when the queue wants interrupts.  Unless the buffer is flushed,
    the characters sent and still queued are those accepted, in their order. *)
Theorem asc_tx_refines page capable div u u1 (Hu : startable u)
    (E : asc_startup page capable div u = Some (0, u1))
    (Hio : test_bit TTY_IO_ERROR (tflags (tty u1)) = false) ops (Hops : Forall op_ok ops) :
  exists rs u2 s, tx_calls ops u1 = Some (rs, u2) /\ spec_run (config_of u) ops (opened u) rs s /\
    bytes (out (drv u2)) = map (fun c => snd c mod 256) (sent s) /\
    ring (xmit (info u2)) = q s /\ x_char (port u2) = xc s /\ line_on u2 = on s /\
    (existsb flushes ops = false ->
       exists acc, acc `sublist_of` concat (map inputs ops) /\ data s ++ q s = out (drv u) ++ acc).
Proof.
  pose proof (startup_rel _ _ _ _ _ Hu E Hio) as R1.
  destruct (calls_spec (config_of u) ops Hops u1 _ R1) as (rs & u2 & s & E2 & Run & R2).
  exists rs, u2, s. split_and!; try done.
  - apply (rel_wire _ _ _ R2).
  - apply R2.
  - apply R2.
  - by eapply rel_line_enabled.
  - intros Hf. destruct (run_adds _ _ _ _ _ Run Hf) as (acc & Ha & A). exists acc. split; [done|].
    unfold adds in A. rewrite A. f_equal. apply data_opened.
Qed.

(** C10: Nothing gets stuck.  In any state that the calls reach, if there are
    characters to send and the terminal is not stopped, starting output sends the
    first, and then one transmit interrupt per character sends the rest in order,
    a character of flow control before the others.  The line is enabled in the
    interrupt unit before each of these interrupts, and masked after the last. *)
Theorem asc_tx_drains u ops rs u2 (Hr : reached u ops rs u2)
    (Hrun : stopped (tty u2) = false /\ hw_stopped (tty u2) = false) (Hq : ring (xmit (info u2)) <> []) :
  exists u3, uart_start u2 = Some u3 /\
    forall n, (n < length (due_of u2))%nat ->
    exists u4, tx_irqs n u3 = Some u4 /\
      bytes (out (drv u4)) = bytes (out (drv u2)) ++ bytes (take (S n) (due_of u2)) /\
      (if decide (S n = length (due_of u2))
       then ring (xmit (info u4)) = [] /\ x_char (port u4) = 0 /\ line_on u4 = false
       else line_on u4 = true).
Proof.
  destruct (reached_rel _ _ _ _ Hr) as (s & _ & R). destruct Hrun as [H1 H2].
  assert (Hd : due_of u2 = due s) by (unfold due_of, due; by rewrite (rel_q _ _ _ R), (rel_x _ _ _ R)).
  rewrite Hd. rewrite (rel_q _ _ _ R) in Hq. rewrite (rel_halted _ _ _ R) in H1.
  assert (Hw : hw (config_of u) = false) by (by rewrite <- (rel_config _ _ _ R)).
  destruct (start_spec (config_of u) u2 s R) as (u3 & E3 & R3). exists u3. split; [done|]. intros n Hn.
  assert (Ek : kick (config_of u) s = send (config_of u) (set_on true s)).
  { unfold kick. rewrite bool_decide_false, H1, Hw by done. done. }
  rewrite Ek in R3. destruct (irqs_spec (config_of u) n u3 _ R3) as (u4 & E4 & R4). exists u4.
  split; [done|]. destruct (irqs_due (config_of u) n (set_on true s)) as [D1 D2]; [done|done|].
  change (due (set_on true s)) with (due s) in *. split.
  - pose proof (rel_wire _ _ _ R4) as W. pose proof (rel_wire _ _ _ R) as W0. cbn in W, W0. unfold bytes.
    rewrite W, W0, <- !(map_map snd (fun c => c mod 256)), D1, map_app. done.
  - unfold line_on. rewrite (rel_line_enabled _ _ _ R4), (rel_q _ _ _ R4), (rel_x _ _ _ R4).
    destruct (decide _); [destruct D2 as (? & ? & ?); done|apply D2].
Qed.

(** C31: A character of flow control waits for data.  When the terminal is stopped,
    or has nothing to send, sending XOFF or XON sends nothing: the character stays
    pending, the transmit line is masked, and no sequence of calls sends it
    before the terminal is started again, or, in the second case, before something
    is written.  A stopped terminal whose input fills up cannot stop the other
    side. *)
Theorem asc_xchar_waits (idle : bool) u ops rs u2 (Hr : reached u ops rs u2) c (Hc : c mod 256 <> 0)
    (Hs : if idle then ring (xmit (info u2)) = [] else stopped (tty u2) = true) :
  exists u3, uart_send_xchar c u2 = Some u3 /\
    bytes (out (drv u3)) = bytes (out (drv u2)) /\ x_char (port u3) = c mod 256 /\ line_on u3 = false /\
    forall ops', Forall op_ok ops' -> existsb (if idle then fills else starts) ops' = false ->
    exists rs' u4, tx_calls ops' u3 = Some (rs', u4) /\ bytes (out (drv u4)) = bytes (out (drv u2)).
Proof.
  destruct (reached_rel _ _ _ _ Hr) as (s & _ & R). set (g := config_of u) in *.
  assert (Hs' : if negb idle then halted s = true else q s = [])
    by (destruct idle; [by rewrite <- (rel_q _ _ _ R)|by rewrite <- (rel_halted _ _ _ R)]).
  destruct (send_x_spec g c u2 s R) as (u3 & E3 & R3). exists u3. split; [done|].
  assert (Hsil : silent s) by (destruct idle; [by right|by left]).
  assert (Hc0 : c <> 0) by (intros ->; done).
  destruct (send_silent g (set_on true (set_xc (c mod 256) s)) Hsil) as (S1 & S2 & S3 & S4).
  assert (Ex : send_x g c s = send g (set_on true (set_xc (c mod 256) s)))
    by (unfold send_x; by destruct (Z.eqb_spec c 0)).
  rewrite Ex in R3. set (s3 := send g _) in *.
  assert (W : forall u' s', rel false g u' s' -> sent s' = sent s -> bytes (out (drv u')) = bytes (out (drv u2))).
  { intros u' s' R' Es. pose proof (rel_wire _ _ _ R') as W1. pose proof (rel_wire _ _ _ R) as W2.
    cbn in W1, W2. unfold bytes. by rewrite W1, W2, Es. }
  split_and!.
  - by eapply W.
  - rewrite (rel_x _ _ _ R3). subst s3. unfold send. cbn [halted q set_on set_xc].
    destruct Hsil as [-> | ->]; [done|]. by destruct (_ || _).
  - unfold line_on. by rewrite (rel_line_enabled _ _ _ R3).
  - intros ops' Ho Hf. destruct (calls_spec g ops' Ho u3 s3 R3) as (rs' & u4 & s4 & E4 & Run & R4).
    exists rs', u4. split; [done|]. eapply W; [exact R4|].
    rewrite (run_silent g (negb idle) _ _ _ _ Run); [exact S1|by destruct idle|].
    destruct idle; cbn [negb] in *; [by rewrite S3|by rewrite S2].
Qed.
End tx.

(** ** Examples *)

(** A transmitter with room at every reading; the second port, closed. *)
Definition roomy (_ _ : nat) : Z := 0x10000000.
Definition closed_port : uart asc_drv :=
  mk_uart (mk_port 0 DANUBE_ASC1 0 16 0 0 0 PORT_IFX_ASC (mk_icount 0 0 0 0 0) 1)
    (mk_info true (mk_circ false (fun _ => 0) 0 0) 0 0 0 0 false)
    (mk_tty IXOFF (B115200 .| CS8 .| CREAD) 19 17 0 0 false false false false
       (mk_flip false 0 0 0 0 (fun _ => 0) (fun _ => 0)) [] 0)
    (mk_drv (init_irqs (mk_irqs (fun _ => mk_desc 0 [] 0) (fun _ => 0))) false 0 [] 0 (mk_counts 0 0 0 0 0) false).

Lemma roomy_drains n : exists k, (k < 1)%nat /\ tx_free (roomy n k) = true.
Proof. exists 0%nat. split; [lia|done]. Qed.

Lemma closed_startable : startable closed_port.
Proof. split; try done; [by right|apply init_lines_ok]. Qed.

Abbreviation sample_pops := (ifx_asc_pops roomy 1 (fun _ => true)).
Abbreviation sample_view := (asc_view roomy 1 false).
Definition sample_ops : list tx_op := [Write false (fun _ _ => 0) (fun _ => 0%nat) [104; 105]; StopTty].

Abbreviation sample_open := (@uart_startup _ sample_pops true false 0 closed_port).
Definition sample_calls : option (list Z * uart asc_drv) :=
  '(_, u) ← sample_open; @tx_calls _ sample_pops sample_view sample_ops u.

(** Two characters are accepted; the first is sent, the second waits. *)
Lemma sample_open_ok :
  option_map (fun '(r, u) => (r, test_bit TTY_IO_ERROR (tflags (tty u)))) sample_open = Some (0, false).
Proof. by vm_compute. Qed.
Lemma sample_calls_ok :
  option_map (fun '(rs, u) => (rs, (ring (xmit (info u)), stopped (tty u), out (drv u)))) sample_calls =
    Some ([2; 0], ([105], true, [104])).
Proof. by vm_compute. Qed.

(** A computed observation of a run gives its result and state. *)
Lemma observed {A B C} (f : A -> B -> C) (o : option (A * B)) (a : A) (c : C) :
  option_map (fun '(x, y) => (x, f x y)) o = Some (a, c) -> exists y, o = Some (a, y) /\ f a y = c.
Proof. destruct o as [[x y]|]; [|done]. cbn. intros E. inversion E. eauto. Qed.

Lemma sample_start : exists u1, sample_open = Some (0, u1) /\ test_bit TTY_IO_ERROR (tflags (tty u1)) = false.
Proof. apply (observed (fun _ u => test_bit TTY_IO_ERROR (tflags (tty u))) sample_open 0 false sample_open_ok). Qed.

Lemma sample_run_eq u1 :
  sample_open = Some (0, u1) -> sample_calls = @tx_calls _ sample_pops sample_view sample_ops u1.
Proof. unfold sample_calls. generalize sample_open. intros o ->. reflexivity. Qed.


Lemma sample_ops_ok : Forall op_ok sample_ops.
Proof. repeat constructor; cbn; intros; lia. Qed.

Lemma sample_reached : exists u2, reached roomy 1 (fun _ => true) closed_port sample_ops [2; 0] u2 /\
  ring (xmit (info u2)) = [105] /\ stopped (tty u2) = true /\ out (drv u2) = [104].
Proof.
  destruct sample_start as (u1 & E1 & F1). pose proof (sample_run_eq u1 E1) as Er.
  destruct (observed (fun _ u => (ring (xmit (info u)), stopped (tty u), out (drv u))) sample_calls _ _ sample_calls_ok)
    as (u2 & E2 & F2). exists u2. rewrite Er in E2.
  split; [|inversion F2; auto].
  exists true, false, 0, u1. split_and!; [apply closed_startable|exact E1|exact F1|apply sample_ops_ok|exact E2].
Qed.

Lemma asc_tx_refines_witness : exists u1 rs u2 s,
  sample_open = Some (0, u1) /\ @tx_calls _ sample_pops sample_view sample_ops u1 = Some (rs, u2) /\
  bytes (out (drv u2)) = map (fun c => snd c mod 256) (sent s) /\ line_on u2 = on s.
Proof.
  destruct sample_start as (u1 & E1 & F1).
  destruct (asc_tx_refines roomy 1 (fun _ => true) roomy_drains true false 0 closed_port u1
    closed_startable E1 F1 sample_ops sample_ops_ok) as (rs & u2 & s & Ec & _ & Eb & _ & _ & El & _).
  exists u1, rs, u2, s. split_and!; [exact E1|exact Ec|exact Eb|exact El].
Defined.

Lemma asc_xchar_waits_witness : exists u2 u3,
  @uart_send_xchar _ sample_pops 19 u2 = Some u3 /\ stopped (tty u2) = true /\
  bytes (out (drv u3)) = [104] /\ x_char (port u3) = 19 /\ line_on u3 = false.
Proof.
  destruct sample_reached as (u2 & Hr & _ & Hs & Ho).
  destruct (asc_xchar_waits roomy 1 (fun _ => true) roomy_drains false closed_port sample_ops [2; 0] u2 Hr 19
    ltac:(discriminate) Hs) as (u3 & E3 & Eb & Ex & El & _).
  exists u2, u3. split_and!; [exact E3|exact Hs| |exact Ex|exact El]. rewrite Eb, Ho. reflexivity.
Defined.

(** The terminal not stopped after all: three characters. *)
Definition flow_ops : list tx_op := [Write false (fun _ _ => 0) (fun _ => 0%nat) [104; 105; 33]].
Definition flow_calls : option (list Z * uart asc_drv) :=
  '(_, u) ← sample_open; @tx_calls _ sample_pops sample_view flow_ops u.
Lemma flow_calls_ok :
  option_map (fun '(rs, u) => (rs, (ring (xmit (info u)), stopped (tty u), hw_stopped (tty u), due_of u))) flow_calls =
    Some ([3], ([105; 33], false, false, [105; 33])).
Proof. by vm_compute. Qed.

Lemma flow_run_eq u1 :
  sample_open = Some (0, u1) -> flow_calls = @tx_calls _ sample_pops sample_view flow_ops u1.
Proof. unfold flow_calls. generalize sample_open. intros o ->. reflexivity. Qed.

Lemma flow_reached : exists u2, reached roomy 1 (fun _ => true) closed_port flow_ops [3] u2 /\
  ring (xmit (info u2)) = [105; 33] /\ stopped (tty u2) = false /\ hw_stopped (tty u2) = false /\
  due_of u2 = [105; 33].
Proof.
  destruct sample_start as (u1 & E1 & F1). pose proof (flow_run_eq u1 E1) as Er.
  destruct (observed (fun _ u => (ring (xmit (info u)), stopped (tty u), hw_stopped (tty u), due_of u)) flow_calls
    _ _ flow_calls_ok) as (u2 & E2 & F2). exists u2. rewrite Er in E2.
  split; [|inversion F2; auto].
  exists true, false, 0, u1.
  split_and!; [apply closed_startable|exact E1|exact F1|repeat constructor; cbn; intros; lia|exact E2].
Qed.

Lemma asc_tx_drains_witness : exists u2 u3 u4,
  @uart_start _ sample_pops u2 = Some u3 /\ @tx_irqs _ sample_view 1 u3 = Some u4 /\
  bytes (out (drv u4)) = bytes (out (drv u2)) ++ [105; 33] /\ ring (xmit (info u4)) = [] /\ line_on u4 = false.
Proof.
  destruct flow_reached as (u2 & Hr & Hq & Hs & Hw & Hd).
  destruct (asc_tx_drains roomy 1 (fun _ => true) roomy_drains closed_port flow_ops [3] u2 Hr (conj Hs Hw)
    ltac:(rewrite Hq; discriminate)) as (u3 & E3 & D).
  destruct (D 1%nat ltac:(rewrite Hd; cbn; lia)) as (u4 & E4 & Eb & Ee). rewrite Hd in Eb, Ee.
  destruct Ee as (Er & _ & El). exists u2, u3, u4. split_and!; [exact E3|exact E4|exact Eb|exact Er|exact El].
Defined.
