(* ===== verification/AscRx.v ===== *)
(** * The serial driver stores what it receives ([ifx_asc.c])

    The receive interrupt of [Asc] and the flip buffer of [SerialCore]: what is
    stored for a reading of the hardware, by the settings of the terminal, and
    that the buffer is filled in order, inside its bounds, and loses nothing while
    it can be handed on. *)

From S2P Require Import Prelude Irq SerialCore Asc.
Open Scope Z_scope.

(** ** The flip buffer as a list *)

Definition half (f : tty_flip_buffer) : Z := if buf_num f =? 0 then 0 else TTY_FLIPBUF_SIZE.

(** The half being filled, and the pointers behind its characters. *)
Definition flip_ok (f : tty_flip_buffer) : Prop :=
  0 <= count f <= TTY_FLIPBUF_SIZE /\ char_buf_ptr f = half f + count f /\ flag_buf_ptr f = half f + count f.

Definition content (f : tty_flip_buffer) : list (Z * Z) := flip_take f (half f) (count f).

(** The line discipline takes characters now. *)
Definition flippable (t : tty_struct) : bool := test_bit TTY_LDISC (tflags t) && negb (test_bit TTY_DONT_FLIP (tflags t)).

Lemma content_length f : flip_ok f -> Z.of_nat (length (content f)) = count f.
Proof. intros (H & _). unfold content, flip_take. rewrite length_map, length_below. lia. Qed.

Lemma half_range f : half f = 0 \/ half f = TTY_FLIPBUF_SIZE.
Proof. unfold half. destruct (_ =? 0); auto. Qed.

Lemma flip_store_spec c g f :
  flip_ok f -> count f < TTY_FLIPBUF_SIZE ->
  exists f1, flip_store c g f = Some f1 /\ flip_ok f1 /\ content f1 = content f /\ count f1 = count f /\
    tqueue f1 = tqueue f /\ flip_ok (flip_advance f1) /\ content (flip_advance f1) = content f ++ [(c mod 256, g)].
Proof.
  intros (Hc & Hp & Hg) Hlt. unfold flip_store, flip_put.
  pose proof (half_range f) as Hh. unfold TTY_FLIPBUF_SIZE in *.
  rewrite Hp, Hg. destruct (Z.leb_spec 0 (half f + count f)); [|lia].
  destruct (Z.ltb_spec (half f + count f) (2 * 512)); [|lia]. cbn [andb mbind option_bind].
  set (f1 := set_bufs _ _ f). exists f1. split; [done|].
  assert (E : forall i, 0 <= i < count f -> (char_buf f1 (half f + i), flag_buf f1 (half f + i)) =
    (char_buf f (half f + i), flag_buf f (half f + i))).
  { intros i Hi. cbn. by rewrite !upd_ne by lia. }
  assert (Ec : content f1 = content f).
  { unfold content, flip_take. apply map_ext_in. intros i Hi%in_below. by apply E. }
  split_and!; try done.
  - unfold flip_ok, TTY_FLIPBUF_SIZE. cbn. change (half (flip_advance f1)) with (half f). rewrite Hp, Hg. lia.
  - unfold content, flip_take. cbn [flip_advance count set_count set_ptrs].
    change (half (flip_advance f1)) with (half f). rewrite below_add by (cbn; lia).
    rewrite map_app. f_equal.
    + apply map_ext_in. intros i Hi%in_below. by apply E.
    + change (below 1) with [0]. cbn [map char_buf flag_buf flip_advance set_count set_ptrs].
      rewrite Z.add_0_r. cbn. by rewrite !upd_eq.
Qed.

(** The buffer is handed on, or stays. *)
Lemma flush_spec t : flip_ok (flip t) ->
  let t' := flush_to_ldisc t in
  flip_ok (flip t') /\
  (flippable t = true -> received t' = received t ++ [content (flip t)] /\ content (flip t') = [] /\
     tqueue (flip t') = tqueue (flip t) /\ count (flip t') = 0) /\
  (flippable t = false -> received t' = received t /\ content (flip t') = content (flip t) /\
     count (flip t') = count (flip t)) /\
  tflags t' = tflags t /\ low_latency t' = low_latency t.
Proof.
  intros (Hc & Hp & Hg) t'. subst t'. unfold flush_to_ldisc, flippable.
  destruct (test_bit TTY_LDISC (tflags t)) eqn:E1; cbn [negb andb]; [|by split_and!].
  destruct (test_bit TTY_DONT_FLIP (tflags t)) eqn:E2; cbn [negb andb].
  { by split_and!. }
  destruct (buf_num (flip t) =? 0) eqn:E; cbn [negb];
    split_and!; try done; intros _; cbn; split_and!; try done.
  - unfold content, half. by rewrite E.
  - unfold content, half. by rewrite E.
Qed.

(** ** What a reading amounts to *)

Definition has (v mask : Z) : bool := negb (v .& mask =? 0).

(** The character with its flag, unless the settings drop it: with an error, when
    the terminal ignores that error; without one, when it does not receive at
    all. *)
Definition rx_main (cflag iflag : Z) (x : Z * Z) : list (Z * Z) :=
  let '(ch, st) := x in
  let pe := Z.testbit st 16 in let fe := Z.testbit st 17 in let roe := Z.testbit st 19 in
  let pe' := pe && has iflag INPCK in let fe' := fe && has iflag INPCK in
  let drop := if pe || fe || roe
              then (pe' || fe') && has iflag IGNPAR || roe && has iflag IGNPAR && has iflag IGNBRK
              else negb (has cflag CREAD) in
  if drop then [] else [(ch mod 256, if pe' then TTY_PARITY else if fe' then TTY_FRAME else TTY_NORMAL)].

(** The mark of an overrun. *)
Definition rx_over (x : Z * Z) : list (Z * Z) := if Z.testbit x.2 19 then [(0, TTY_OVERRUN)] else [].

(** The masks of the port are those its settings ask for. *)
Definition masks_set (cflag iflag : Z) (p : uart_port) : Prop :=
  read_status_mask p = read_status_mask (speed_masks cflag iflag p) /\
  ignore_status_mask p = ignore_status_mask (speed_masks cflag iflag p).

Lemma land_pow2 st n : 0 <= n -> st .& 2 ^ n = if Z.testbit st n then 2 ^ n else 0.
Proof.
  intros Hn. apply Z.bits_inj'. intros i Hi. rewrite Z.land_spec, Z.pow2_bits_eqb by done.
  destruct (Z.eqb_spec n i) as [<-|N].
  - destruct (Z.testbit st n); [by rewrite Z.pow2_bits_true|by rewrite Z.bits_0].
  - rewrite andb_false_r. destruct (Z.testbit st n); [|by rewrite Z.bits_0].
    rewrite Z.pow2_bits_eqb by done. symmetry. by apply Z.eqb_neq.
Qed.

Lemma any_bits st : st .& ASCSTATE_ANY =
  (if Z.testbit st 16 then 2 ^ 16 else 0) .| (if Z.testbit st 17 then 2 ^ 17 else 0) .|
  (if Z.testbit st 19 then 2 ^ 19 else 0).
Proof.
  change ASCSTATE_ANY with (2 ^ 16 .| 2 ^ 17 .| 2 ^ 19).
  by rewrite !Z.land_lor_distr_r, !land_pow2 by lia.
Qed.

Definition rsr_of (st : Z) : Z := (st .& ASCSTATE_ANY) .| UART_DUMMY_UER_RX.

Lemma rx_bits cflag iflag p ch st : masks_set cflag iflag p ->
  let rsr := masked_rsr p (rsr_of st) in
  rx_main cflag iflag (ch, st) =
    (if rsr .& ignore_status_mask p =? 0 then [(ch mod 256, rx_flag p (rsr_of st))] else []) /\
  negb (rsr .& ASCSTATE_ROE =? 0) = Z.testbit st 19.
Proof.
  intros [Er Ei] rsr. subst rsr. unfold rx_main, masked_rsr, rx_flag, rsr_of. rewrite Er, Ei, (any_bits st).
  unfold speed_masks, has. cbn [read_status_mask ignore_status_mask set_masks].
  destruct (Z.testbit st 16), (Z.testbit st 17), (Z.testbit st 19), (iflag .& INPCK =? 0), (iflag .& IGNPAR =? 0),
    (iflag .& IGNBRK =? 0), (cflag .& CREAD =? 0); split; reflexivity.
Qed.

(** ** One reading, and all of them *)

Section rx.
Context (cflag iflag : Z).
Implicit Types (u : uart asc_drv).

(** What is stored for a reading: only the mark of an overrun may be missing. *)
Definition stored (x : Z * Z) (e : list (Z * Z)) : Prop :=
  e = rx_main cflag iflag x ++ rx_over x \/ e = rx_main cflag iflag x.

(** What receiving leaves alone. *)
Definition rx_frame u u' : Prop :=
  tflags (tty u') = tflags (tty u) /\ low_latency (tty u') = low_latency (tty u) /\
  read_status_mask (port u') = read_status_mask (port u) /\
  ignore_status_mask (port u') = ignore_status_mask (port u).

Lemma rx_frame_trans u1 u2 u3 : rx_frame u1 u2 -> rx_frame u2 u3 -> rx_frame u1 u3.
Proof. unfold rx_frame. intros. destruct_and!. split_and!; congruence. Qed.

Lemma frame_flippable u u' : rx_frame u u' -> flippable (tty u') = flippable (tty u).
Proof. intros (E & _). unfold flippable. by rewrite E. Qed.

Lemma frame_masks u u' : rx_frame u u' -> masks_set cflag iflag (port u) -> masks_set cflag iflag (port u').
Proof. intros (_ & _ & E1 & E2) [H1 H2]. split; [rewrite E1, H1|rewrite E2, H2]; done. Qed.

Lemma count_rx_frame rsr u : tty (count_rx rsr u) = tty u /\
  read_status_mask (port (count_rx rsr u)) = read_status_mask (port u) /\
  ignore_status_mask (port (count_rx rsr u)) = ignore_status_mask (port u).
Proof. unfold count_rx. by repeat destruct (negb (_ =? 0)); cbn [negb andb]. Qed.

(** [u'] is [u] with the characters [e] behind those in its buffer. *)
Definition rx_adds (e : list (Z * Z)) u u' : Prop :=
  flip_ok (flip (tty u')) /\ content (flip (tty u')) = content (flip (tty u)) ++ e /\
  received (tty u') = received (tty u) /\ tqueue (flip (tty u')) = tqueue (flip (tty u)) /\ rx_frame u u'.

Lemma rx_store_spec ch st u :
  flip_ok (flip (tty u)) -> masks_set cflag iflag (port u) -> count (flip (tty u)) < TTY_FLIPBUF_SIZE ->
  exists u' e, rx_store ch (rsr_of st) u = Some u' /\ stored (ch, st) e /\ rx_adds e u u'.
Proof.
  intros Hf Hm Hlt. unfold rx_store.
  destruct (flip_store_spec ch (rx_flag (port u) (rsr_of st)) _ Hf Hlt) as (f1 & -> & F1 & F2 & F3 & F4 & F5 & F6).
  cbn [mbind option_bind]. set (u1 := count_rx _ _).
  destruct (count_rx_frame (rsr_of st) (on_tty (set_flip f1) u)) as (C1 & C2 & C3). fold u1 in C1, C2, C3.
  cbn [port on_tty] in C2, C3. destruct (rx_bits cflag iflag (port u) ch st Hm) as [Em Eo].
  assert (Er : masked_rsr (port u1) (rsr_of st) = masked_rsr (port u) (rsr_of st)) by (unfold masked_rsr; by rewrite C2).
  rewrite Er, C3, Eo. set (f2 := if _ =? 0 then flip_advance f1 else f1).
  assert (Hf2 : flip_ok f2 /\ tqueue f2 = tqueue (flip (tty u)) /\
    content f2 = content (flip (tty u)) ++ rx_main cflag iflag (ch, st)).
  { rewrite Em. subst f2. destruct (_ =? 0); [by rewrite F6|]. by rewrite F2, app_nil_r. }
  clearbody f2. destruct Hf2 as (G1 & G2 & G3).
  assert (Hu : forall f, rx_frame u (on_tty (set_flip f) u1)).
  { intros f. unfold rx_frame, flippable. cbn [tty port on_tty set_flip tflags low_latency]. rewrite C1. done. }
  destruct (Z.testbit st 19) eqn:E19; cbn [andb].
  - destruct (Z.ltb_spec (count f2) TTY_FLIPBUF_SIZE) as [Hlt2|].
    + destruct (flip_store_spec 0 TTY_OVERRUN f2 G1 Hlt2) as (f3 & -> & _ & _ & _ & T3 & G4 & G5). cbn [mbind option_bind].
      eexists _, (rx_main cflag iflag (ch, st) ++ rx_over (ch, st)). split; [done|]. split; [by left|].
      split_and!; cbn [tty on_tty set_flip flip received]; try done.
      * rewrite G5, G3, <- app_assoc. f_equal. f_equal. unfold rx_over. cbn [snd]. by rewrite E19.
      * by rewrite C1.
      * change (tqueue (flip_advance f3)) with (tqueue f3). congruence.
    + cbn [mbind option_bind]. eexists _, (rx_main cflag iflag (ch, st)). split; [done|]. split; [by right|].
      split_and!; cbn [tty on_tty set_flip flip received]; try done. by rewrite C1.
  - cbn [mbind option_bind]. eexists _, (rx_main cflag iflag (ch, st)). split; [done|]. split; [by right|].
    split_and!; cbn [tty on_tty set_flip flip received]; try done. by rewrite C1.
Qed.

(** All that has been stored for the line discipline, handed on or not. *)
Definition given u : list (Z * Z) := concat (received (tty u)) ++ content (flip (tty u)).

Lemma given_adds e u u' : rx_adds e u u' -> given u' = given u ++ e.
Proof. intros (_ & E & Er & _). unfold given. by rewrite E, Er, app_assoc. Qed.

Lemma flush_given u : flip_ok (flip (tty u)) ->
  let u' := on_tty flush_to_ldisc u in
  flip_ok (flip (tty u')) /\ given u' = given u /\ rx_frame u u'.
Proof.
  intros Hf u'. destruct (flush_spec (tty u) Hf) as (H1 & H2 & H3 & H4 & H5). subst u'.
  unfold given, rx_frame. cbn [tty on_tty port]. split_and!; try done.
  destruct (flippable (tty u)) eqn:E.
  - destruct H2 as (-> & -> & _); [done|]. rewrite concat_app. cbn. by rewrite !app_nil_r.
  - by destruct H3 as (-> & -> & _).
Qed.

(** Room is made, unless the buffer is full and stays. *)
Lemma rx_room_spec u : flip_ok (flip (tty u)) ->
  match rx_room u with
  | Some u' => flip_ok (flip (tty u')) /\ given u' = given u /\ rx_frame u u' /\
      tqueue (flip (tty u')) = tqueue (flip (tty u)) /\ count (flip (tty u')) < TTY_FLIPBUF_SIZE
  | None => flippable (tty u) = false /\ count (flip (tty u)) = TTY_FLIPBUF_SIZE
  end.
Proof.
  intros Hf. unfold rx_room. rewrite !Z.geb_leb. destruct (Z.leb_spec TTY_FLIPBUF_SIZE (count (flip (tty u)))) as [Hge|Hlt].
  - destruct (flush_given u Hf) as (F1 & F2 & F3), (flush_spec (tty u) Hf) as (_ & H2 & H3 & _).
    destruct (flippable (tty u)) eqn:E.
    + destruct H2 as (_ & _ & Ht & Hc); [done|]. cbn [tty on_tty]. rewrite Hc.
      change (TTY_FLIPBUF_SIZE <=? 0) with false. cbv iota. cbn [tty on_tty] in *. rewrite Hc. split_and!; done.
    + destruct H3 as (_ & _ & Hc); [done|]. cbn [tty on_tty]. rewrite Hc. destruct Hf as ((? & ?) & _).
      destruct (Z.leb_spec TTY_FLIPBUF_SIZE (count (flip (tty u)))); [|lia]. split; [done|lia].
  - split_and!; done.
Qed.

Definition last_char (ch : Z) (l : list (Z * Z)) : Z := fold_left (fun _ x => x.1) l ch.

(** The loop: every reading is stored, in order, or the buffer is full and the
    line discipline does not take it. *)
Lemma rx_loop_spec rx n : forall i ch u,
  flip_ok (flip (tty u)) -> masks_set cflag iflag (port u) ->
  let l := map rx (seq i n) in
  exists fin ch' u' k es,
    rx_loop rx n i ch u = Some (fin, ch', u') /\ flip_ok (flip (tty u')) /\ rx_frame u u' /\
    Forall2 stored (take k l) es /\ given u' = given u ++ concat es /\
    (if fin : bool then take k l = l /\ ch' = last_char ch l /\ tqueue (flip (tty u')) = tqueue (flip (tty u))
     else (k < n)%nat /\ flippable (tty u) = false /\ count (flip (tty u')) = TTY_FLIPBUF_SIZE).
Proof.
  induction n as [|n IH]; intros i ch u Hf Hm l; subst l; cbn [rx_loop seq map].
  { exists true, ch, u, O, []. cbn. rewrite app_nil_r. split_and!; done. }
  destruct (rx i) as [c st] eqn:Ex. pose proof (rx_room_spec u Hf) as Hroom.
  destruct (rx_room u) as [u1|].
  - destruct Hroom as (F1 & G1 & R1 & T1 & Hlt). fold (rsr_of st).
    destruct (rx_store_spec c st u1 F1 (frame_masks _ _ R1 Hm) Hlt) as (u2 & e & -> & He & Ha).
    cbn [mbind option_bind]. pose proof (given_adds _ _ _ Ha) as G2. destruct Ha as (F2 & _ & _ & T2 & R2).
    pose proof (rx_frame_trans _ _ _ R1 R2) as R12.
    destruct (IH (S i) c u2 F2 (frame_masks _ _ R12 Hm)) as (fin & ch' & u' & k & es & E & F3 & R3 & Hs & G3 & Hfin).
    exists fin, ch', u', (S k), (e :: es).
    split_and!; [exact E|exact F3|by eapply rx_frame_trans|by constructor| |].
    + cbn [concat]. by rewrite G3, G2, G1, <- !app_assoc.
    + destruct fin; [|destruct_and!; split_and!; [lia| |done]; by rewrite <- (frame_flippable _ _ R12)].
      destruct Hfin as (Hk & Hch & Ht). split_and!; [cbn [take]; by rewrite Hk|exact Hch|congruence].
  - destruct Hroom as [Hno Hc]. destruct (flush_given u Hf) as (F1 & G1 & R1).
    exists false, c, (on_tty flush_to_ldisc u), O, []. cbn [take concat]. rewrite app_nil_r.
    split_and!; [done|exact F1|exact R1|constructor|exact G1|lia|exact Hno|].
    destruct (flush_spec (tty u) Hf) as (_ & _ & H3 & _). cbn [tty on_tty]. by destruct (H3 Hno) as (_ & _ & ->).
Qed.

Lemma push_spec t : flip_ok (flip t) ->
  let t' := tty_flip_buffer_push t in
  flip_ok (flip t') /\ concat (received t') ++ content (flip t') = concat (received t) ++ content (flip t) /\
  (tqueue (flip t') = true \/ content (flip t') = [] \/ test_bit TTY_LDISC (tflags t) = false).
Proof.
  intros Hf t'. subst t'. unfold tty_flip_buffer_push. destruct (low_latency t).
  - destruct (flush_spec t Hf) as (H1 & H2 & H3 & _). split; [done|]. destruct (flippable t) eqn:E.
    + destruct H2 as (-> & -> & _); [done|]. rewrite concat_app. cbn. rewrite !app_nil_r. auto.
    + destruct H3 as (-> & -> & _); [done|]. split; [done|]. unfold flippable in E. unfold flush_to_ldisc.
      destruct (test_bit TTY_LDISC (tflags t)); [|by auto]. cbn [negb andb] in *.
      destruct (test_bit TTY_DONT_FLIP (tflags t)); [by left|done].
  - split_and!; [done|done|by left].
Qed.
End rx.

(** The masks the driver sets with the speed of the port. *)
Lemma speed_masks_set cflag iflag p : masks_set cflag iflag (speed_masks cflag iflag p).
Proof. split; reflexivity. Qed.

(** ** The receive interrupt *)

(** C19: the receive interrupt never writes outside the flip buffer: whatever [FSTAT]
    and the readings of the receive register are, from a buffer whose count and
    pointers agree it ends with one, at most [TTY_FLIPBUF_SIZE] characters in the
    half being filled.  What the line discipline has been given or still finds there
    grows at its end by the readings in their order, each with its error flag and
    what the settings of the terminal drop left out; only the mark of an overrun may
    be missing.  Readings are lost only when the line discipline cannot take
    characters and the buffer is full.  When all are stored and the last is not a
    NUL, they have been handed on, or the task that will is queued. *)
Theorem asc_rx_in_order cflag iflag fs rx (u : uart asc_drv) :
  has_tty (info u) = true -> flip_ok (flip (tty u)) -> masks_set cflag iflag (port u) ->
  let l := map rx (seq 0 (Z.to_nat (fs .& ASCFSTAT_RXFFLMASK))) in
  exists u' k es,
    ifx_asc_rx_chars fs rx u = Some u' /\ flip_ok (flip (tty u')) /\
    Forall2 (stored cflag iflag) (take k l) es /\ given u' = given u ++ concat es /\
    (take k l = l /\ (last_char 0 l <> 0 -> test_bit TTY_LDISC (tflags (tty u)) = true ->
        tqueue (flip (tty u')) = true \/ content (flip (tty u')) = []) \/
     (k < length l)%nat /\ flippable (tty u) = false /\ count (flip (tty u')) = TTY_FLIPBUF_SIZE).
Proof.
  intros Ht Hf Hm l. unfold ifx_asc_rx_chars. rewrite Ht. cbn [negb].
  set (n := Z.to_nat _) in *.
  destruct (rx_loop_spec cflag iflag rx n 0 0 u Hf Hm) as (fin & ch' & u1 & k & es & -> & F1 & R1 & Hs & G1 & Hfin).
  cbn [mbind option_bind]. fold l in Hs, Hfin.
  assert (Hl : length l = n) by (unfold l; by rewrite length_map, length_seq).
  destruct fin; cbn [andb].
  - destruct Hfin as (Hk & -> & Hq). destruct (Z.eqb_spec (last_char 0 l) 0) as [E0|N0]; cbn [negb].
    + exists u1, k, es. split_and!; try done. left. done.
    + destruct (push_spec (tty u1) F1) as (P1 & P2 & P3). exists (on_tty tty_flip_buffer_push u1), k, es.
      split_and!; try done; [unfold given in *; cbn [tty on_tty]; congruence|]. left. split; [done|]. intros _ Hld.
      cbn [tty on_tty]. destruct P3 as [|[|P3]]; [by left|by right|].
      destruct R1 as (Rf & _). congruence.
  - destruct Hfin as (Hk & Hno & Hc). exists u1, k, es. split_and!; try done. right. by rewrite Hl.
Qed.

(** ** Example *)

(** Three readings: a character, one with an overrun, one with a parity error; the
    terminal checks parity. *)
Definition sample_rx (i : nat) : Z * Z := nth i [(104, 0); (105, 2 ^ 19); (33, 2 ^ 16)] (0, 0).
Definition sample_uart : uart asc_drv :=
  mk_uart (speed_masks (CS8 .| CREAD) INPCK (mk_port 0 DANUBE_ASC1 0 16 0 0 0 PORT_IFX_ASC (mk_icount 0 0 0 0 0) 1))
    (mk_info true (mk_circ false (fun _ => 0) 0 0) 0 0 0 0 false)
    (mk_tty INPCK (CS8 .| CREAD) 19 17 (1 .<< TTY_LDISC) 0 false false false false
       (mk_flip false 0 0 0 0 (fun _ => 0) (fun _ => 0)) [] 0)
    (mk_drv (mk_irqs (fun _ => mk_desc 0 [] 0) (fun _ => 0)) true 0 [] 0 (mk_counts 0 0 0 0 0) false).

(** The mark of the overrun comes behind its character. *)
Example sample_rx_ok : option_map (fun u => (content (flip (tty u)), tqueue (flip (tty u)), n_overrun (icount (port u))))
    (ifx_asc_rx_chars 3 sample_rx sample_uart) =
  Some ([(104, TTY_NORMAL); (105, TTY_NORMAL); (0, TTY_OVERRUN); (33, TTY_PARITY)], true, 1).
Proof. by vm_compute. Qed.

Lemma asc_rx_in_order_witness : exists u' k es,
  ifx_asc_rx_chars 3 sample_rx sample_uart = Some u' /\ flip_ok (flip (tty u')) /\
  Forall2 (stored (CS8 .| CREAD) INPCK) (take k [(104, 0); (105, 2 ^ 19); (33, 2 ^ 16)]) es /\
  given u' = concat es.
Proof.
  destruct (asc_rx_in_order (CS8 .| CREAD) INPCK 3 sample_rx sample_uart) as (u' & k & es & E & F & S & G & _).
  - reflexivity.
  - unfold flip_ok. cbn. unfold TTY_FLIPBUF_SIZE. lia.
  - apply speed_masks_set.
  - exists u', k, es. split_and!; [exact E|exact F|exact S|exact G].
Defined.
