(* ===== verification/AscSetup.v ===== *)
(** * The serial driver sets the speed that was asked for ([ifx_asc.c])

    The divider [Asc] programs for a speed, with its bounds, and the registers of
    the console when the kernel starts, for each setting of the clock generation
    unit. *)

From S2P Require Import Prelude Icu Irq Cgu SerialCore SerialTx Asc AscTx.
Open Scope Z_scope.

(** ** Registers of one port *)

Lemma rd_wr p r r' v d : rd p r (wr p r' v d) = if r =? r' then v else rd p r d.
Proof.
  unfold rd, wr. cbn [irqt set_irqt put_mem mem]. destruct (Z.eqb_spec r r') as [->|N]; [by rewrite upd_eq|].
  rewrite upd_ne; [done|lia].
Qed.

Lemma rd_set p r r' v d : rd p r (SET_BIT p r' v d) = if r =? r' then rd p r d .| v else rd p r d.
Proof. unfold SET_BIT. rewrite rd_wr. by destruct (Z.eqb_spec r r') as [->|]. Qed.

Lemma rd_clear p r r' v d : rd p r (CLEAR_BIT p r' v d) = if r =? r' then rd p r d .& .~ v else rd p r d.
Proof. unfold CLEAR_BIT. rewrite rd_wr. by destruct (Z.eqb_spec r r') as [->|]. Qed.

(** A word that is no register of a serial port. *)
Lemma mem_wr p a r v d : a <> base (ifx_asc_port_priv (line p)) + r -> mem (irqt (wr p r v d)) a = mem (irqt d) a.
Proof. intros N. unfold wr. cbn [irqt set_irqt put_mem mem]. by rewrite upd_ne. Qed.

Ltac regs := repeat first [rewrite rd_set | rewrite rd_clear | rewrite rd_wr];
  unfold asc_clc, asc_mcon, asc_whbstate, asc_txfcon, asc_rxfcon, asc_fdv, asc_bg; cbn [Z.eqb Pos.eqb].

(** ** The divider *)

Section speed.
Context (fstat : nat -> nat -> Z) (polls : nat).

(** The transmit FIFO runs empty within the readings of a wait. *)
Definition runs_empty (d : asc_drv) : Prop :=
  exists k, (k < polls)%nat /\ tx_drained (fstat (length (out d)) k) = true.

Definition format (cflag : Z) : Z := (speed_con cflag .| 0x00000200) .| ASCMCON_R.

(** What setting the speed does to the registers. *)
Lemma change_speed_regs cflag iflag quot p d : runs_empty d ->
  exists d', ifx_asc_change_speed fstat polls cflag iflag quot p d = Some (speed_masks cflag iflag p, d') /\
    rd p asc_mcon d' = format cflag /\ rd p asc_fdv d' = rd p asc_fdv d /\
    rd p asc_bg d' = speed_bg quot (rd p asc_fdv d) /\
    out d' = out d /\ clk d' = clk d /\ same_lines d d'.
Proof.
  intros (k & Hk & Hd). unfold ifx_asc_change_speed.
  rewrite wait_ready by (exists k; split; [lia|done]). cbn [mbind option_bind].
  set (p' := speed_masks cflag iflag p).
  assert (El : forall r d, rd p' r d = rd p r d) by done.
  eexists. split; [done|]. rewrite <- !El. regs. split_and!; try done. same_regs.
Qed.

(** The value of BG has no other that comes closer. *)
Lemma speed_bg_nearest quot fdv :
  0 < fdv -> 256 <= quot * fdv -> quot * fdv + 256 < 2 ^ 32 ->
  let bg := speed_bg quot fdv in
  0 <= bg < 2 ^ 23 /\ 512 * (bg + 1) - 256 <= quot * fdv < 512 * (bg + 1) + 256.
Proof.
  intros Hf Hq Hw bg. subst bg. unfold speed_bg. destruct (Z.eqb_spec fdv 0); [lia|].
  unfold w32. rewrite (Z.mod_small (quot * fdv + 256)) by lia.
  assert (1 <= (quot * fdv + 256) / 512 < 2 ^ 23) by (Z.to_euclidean_division_equations; lia).
  rewrite Z.mod_small by lia. split; [lia|]. Z.to_euclidean_division_equations. lia.
Qed.

(** C22: setting a speed, when the transmit FIFO runs empty within the readings of the
    wait, sets the format of the frame, leaves the fractional divider, and writes the
    divider register.  With [fdv] the fractional divider and no wrap-around in
    [quot * fdv + 256], there are three cases.  If the quotient is at least half a
    step and fits the 13 bits that the reload value has, no other value brings the
    divided clock [512 * (bg + 1)] closer to [quot * fdv], and the rate that
    results differs from a rate [baud] with this [quot] by the two roundings at most.
    If it is larger, as for 300 and 600 baud with a fast clock, the value written has more than 13 bits: it is neither refused nor cut.  Below half a
    step it wraps to all ones. *)
Theorem change_speed_nearest cflag iflag quot p d :
  runs_empty d -> let fdv := rd p asc_fdv d in
  0 < fdv -> 0 <= quot -> quot * fdv + 256 < 2 ^ 32 ->
  exists d', ifx_asc_change_speed fstat polls cflag iflag quot p d = Some (speed_masks cflag iflag p, d') /\
    rd p asc_mcon d' = format cflag /\ rd p asc_fdv d' = fdv /\ let bg := rd p asc_bg d' in
    (256 <= quot * fdv < 2 ^ 22 + 256 ->
       0 <= bg < 2 ^ 13 /\ (forall b, Z.abs (512 * (bg + 1) - quot * fdv) <= Z.abs (512 * (b + 1) - quot * fdv)) /\
       forall clock baud, 0 < baud -> quot = clock / (16 * baud) ->
         - (4096 * baud) <= clock * fdv - baud * (512 * 16 * (bg + 1)) < 16 * baud * fdv + 4096 * baud) /\
    (2 ^ 22 + 256 <= quot * fdv -> 2 ^ 13 <= bg) /\
    (quot * fdv < 256 -> bg = 2 ^ 32 - 1).
Proof.
  intros He fdv Hf Hq Hw. destruct (change_speed_regs cflag iflag quot p d He) as (d' & E & Em & Ef & Eb & _).
  exists d'. split_and!; [exact E|exact Em|exact Ef|]. intros bg. subst bg. rewrite Eb. fold fdv. split; [|split].
  - intros [Hge Hle]. destruct (speed_bg_nearest quot fdv Hf Hge Hw) as (B1 & B2).
    set (bg := speed_bg quot fdv) in *. clearbody bg. split_and!; [lia|lia|intros; lia|].
    intros clock baud Hb ->. assert (Hm := Z.div_mod clock (16 * baud) ltac:(lia)).
    pose proof (Z.mod_pos_bound clock (16 * baud) ltac:(lia)). set (q := clock / (16 * baud)) in *. nia.
  - intros Hge. destruct (speed_bg_nearest quot fdv Hf ltac:(lia) Hw) as (B1 & B2). lia.
  - intros Hlt. unfold speed_bg. destruct (Z.eqb_spec fdv 0); [lia|]. unfold w32.
    rewrite (Z.mod_small (quot * fdv + 256)) by nia. rewrite Z.div_small by nia. reflexivity.
Qed.
End speed.

(** ** The console *)

(** What the kernel command line may give. *)
Definition opt_115200 : option (list Z) := Some [49; 49; 53; 50; 48; 48; 110; 56].

(** The second port. *)
Definition console_port : uart_port := mk_port 0 DANUBE_ASC1 0 16 0 0 0 PORT_IFX_ASC (mk_icount 0 0 0 0 0) 1.

Definition sys_of (d : asc_drv) : Z := mem (irqt d) DANUBE_CGU_SYS.
Definition fast (sys : Z) : bool := negb (sys .& 0x40 =? 0).
Definition fpi_of (sys : Z) : Z :=
  let ddr := match sys .& 0x3 with 0 => 166500000 | 1 => 133333333 | 2 => 111111111 | _ => 83333333 end in
  if fast sys then ddr .>> 1 else ddr.

Lemma fpi_hz d : danube_get_fpi_hz (mem (irqt d)) = fpi_of (sys_of d).
Proof.
  unfold danube_get_fpi_hz, danube_get_ddr_hz, fpi_of, fast, sys_of. set (s := mem (irqt d) DANUBE_CGU_SYS).
  pose proof (Z.land_ones s 2 ltac:(lia)) as E. change (Z.ones 2) with 3 in E.
  pose proof (Z.mod_pos_bound s (2 ^ 2) ltac:(lia)) as R. rewrite <- E in R. set (x := s .& 0x3) in *.
  assert (x = 0 \/ x = 1 \/ x = 2 \/ x = 3) as [-> |[-> |[-> | ->]]] by lia; reflexivity.
Qed.

(** The registers the start-up leaves. *)
Definition start_mcon : Z :=
  (((ASCMCON_M_8ASYNC .| 0x00c00000) .| ASCMCON_FEN) .| (ASCMCON_FDE .| ASCMCON_BRS)) .| ASCMCON_R.

Lemma init_hardware_regs d :
  let '(fdv, reload) := g_danube_asc_baud (sys_of d .& 0x3) (if fast (sys_of d) then 1 else 0) in
  exists d', ifx_asc_init_hardware ifx_asc_init_structs d = Some d' /\
    rd console_port asc_mcon d' = start_mcon /\ rd console_port asc_fdv d' = fdv /\
    rd console_port asc_bg d' = reload /\ out d' = out d /\ clk d' = clk d /\ sys_of d' = sys_of d.
Proof.
  unfold ifx_asc_init_hardware. fold (sys_of d). fold (fast (sys_of d)).
  destruct (g_danube_asc_baud _ _) as [fdv reload].
  change (ifx_asc_init_structs !! 1%nat) with (Some console_port). cbn [mbind option_bind].
  eexists. split; [done|]. split_and!; [by regs|by regs|by regs|done|done|].
  unfold sys_of, SET_BIT. rewrite !mem_wr by (vm_compute; discriminate). done.
Qed.

(** The speed, parity and bits the console asks for: those of the options, or what
    the registers say. *)
Definition asked (fpi : Z) (options : option (list Z)) (mcon bg : Z) : option (Z * Z * Z) :=
  match options with
  | Some s => let '(baud, parity, bits, _) := uart_parse_options s 110 8 110 in Some (baud, parity, bits)
  | None =>
      let frac := w32 (1 * 512 * 16 * w32 (bg + 1)) in
      if frac =? 0 then None else Some (round_baud (s32 (w32 (512 * (fpi / frac)))), 110, 8)
  end.

(** The flags of the terminal, with the speed they name. *)
Definition console_cflag (baud parity bits : Z) : Z * Z :=
  let '(b, baud) := baud_flag baud in
  let cflag := (CREAD .| HUPCL .| CLOCAL) .| b .| (if bits =? 7 then CS7 else CS8) in
  let odd := (parity =? 111) || (parity =? 79) in
  let even := (parity =? 101) || (parity =? 69) in
  (if odd then cflag .| PARODD .| PARENB else if even then cflag .| PARENB else cflag, baud).

(** ** What the console is set to *)

(** Its [cflag] and the registers FDV and BG. *)
Definition console_regs (sys : Z) (options : option (list Z)) : option (Z * Z * Z) :=
  let '(fdv, reload) := g_danube_asc_baud (sys .& 0x3) (if fast sys then 1 else 0) in
  '(baud, parity, bits) ← asked (fpi_of sys) options start_mcon reload;
  let '(cflag, baud) := console_cflag baud parity bits in
  Some (cflag, fdv, speed_bg (fpi_of sys / (16 * baud)) fdv).

(** Without options the registers are read back. *)
Lemma get_options_spec p d : rd p asc_mcon d = start_mcon ->
  ifx_asc_console_get_options p d CONFIG_IFX_ASC_DEFAULT_BAUDRATE 110 8 = asked (uartclk p) None start_mcon (rd p asc_bg d).
Proof. intros E. unfold ifx_asc_console_get_options. by rewrite E. Qed.

Section console.
Context (fstat : nat -> nat -> Z) (polls : nat) (kmalloc : Z -> bool).
Abbreviation console_init := (ifx_asc_console_init fstat polls kmalloc).

Lemma set_options_spec baud parity bits p d : runs_empty fstat polls d ->
  let '(cflag, rate) := console_cflag baud parity bits in
  exists p' d', @uart_set_options _ (ifx_asc_pops fstat polls kmalloc) baud parity bits p d = Some (cflag, p', d') /\
    rd p asc_mcon d' = format cflag /\ rd p asc_fdv d' = rd p asc_fdv d /\
    rd p asc_bg d' = speed_bg (uartclk p / (16 * rate)) (rd p asc_fdv d).
Proof.
  intros He. unfold console_cflag, uart_set_options. destruct (baud_flag baud) as [b rate].
  cbn [change_speed ifx_asc_pops]. match goal with |- context [ifx_asc_change_speed _ _ ?c] => set (cflag := c) end.
  destruct (change_speed_regs fstat polls cflag 0 (uartclk p / (16 * rate)) p d He) as (d' & -> & Em & Ef & Eb & _).
  cbn [mbind option_bind]. eexists _, d'. done.
Qed.

Lemma console_init_spec options d x :
  clk d = 0 -> runs_empty fstat polls d -> console_regs (sys_of d) options = Some x ->
  let '(cflag, fdv, bg) := x in
  exists ports d', console_init 1 options d = Some (1, cflag, (ports, d')) /\
    rd console_port asc_mcon d' = format cflag /\ rd console_port asc_fdv d' = fdv /\ rd console_port asc_bg d' = bg.
Proof.
  intros Hc He. unfold console_regs. pose proof (init_hardware_regs d) as Hi.
  destruct (g_danube_asc_baud _ _) as [fdv reload]. destruct Hi as (d1 & E1 & Em & Ef & Eb & Eo & Ec & Es).
  unfold ifx_asc_console_init. rewrite E1. cbn [mbind option_bind]. unfold ifx_asc_console_setup.
  rewrite Ec, Hc, Z.eqb_refl. rewrite fpi_hz, Es. set (fpi := fpi_of (sys_of d)).
  set (d2 := set_clk fpi d1). change (clk d2) with fpi.
  change (uart_get_console _ 1) with 1. change (Z.to_nat 1) with 1%nat.
  set (p1 := set_ptype PORT_IFX_ASC (set_uartclk fpi console_port)).
  change (map _ ifx_asc_init_structs !! 1%nat) with (Some p1). cbn [mbind option_bind].
  rewrite (get_options_spec p1 d2 Em). change (rd p1 asc_bg d2) with (rd console_port asc_bg d1). rewrite Eb.
  change (match options with
    | Some s => let '(baud, parity, bits, _) := uart_parse_options s 110 8 110 in Some (baud, parity, bits)
    | None => asked (uartclk p1) None start_mcon reload end) with (asked fpi options start_mcon reload).
  destruct (asked fpi options start_mcon reload) as [[[baud parity] bits]|]; [|done]. cbn [mbind option_bind].
  assert (He2 : runs_empty fstat polls d2) by (unfold runs_empty; cbn [out d2 set_clk]; by rewrite Eo).
  pose proof (set_options_spec baud parity bits p1 d2 He2) as Hs. destruct (console_cflag baud parity bits) as [cflag rate].
  destruct Hs as (p' & d' & -> & M1 & M2 & M3). cbn [mbind option_bind]. intros E. injection E as <-.
  change (rd p1 asc_fdv d2) with (rd console_port asc_fdv d1) in M2, M3. rewrite Ef in M2, M3.
  eexists _, d'. split_and!; [done|exact M1|exact M2|exact M3].
Qed.

(** The rate of the hardware, in bits per second, rounded down. *)
Definition rate (clock fdv bg : Z) : Z := clock * fdv / (512 * 16 * (bg + 1)).

Definition cflag_of (speed : Z) : Z := (CREAD .| HUPCL .| CLOCAL) .| speed .| CS8.

(** By the clock of the memory, and whether the bus runs at half of it. *)
Definition console_rate (ddr_sel : Z) (fast : bool) (options : option (list Z)) (cflag rate : Z) : Prop :=
  (ddr_sel <> 3 -> cflag = cflag_of B115200 /\ Z.abs (rate - 115200) <= 120) /\
  (ddr_sel = 3 -> fast = true -> cflag = cflag_of B115200 /\ rate = 121267) /\
  (ddr_sel = 3 -> fast = false -> if options is Some _ then cflag = cflag_of B115200 /\ rate = 115196
                                  else cflag = cflag_of B38400 /\ rate = 38748).

Lemma console_regs_rate sys options : options = None \/ options = opt_115200 ->
  exists cflag fdv bg, console_regs sys options = Some (cflag, fdv, bg) /\
    console_rate (sys .& 0x3) (fast sys) options cflag (rate (fpi_of sys) fdv bg).
Proof.
  unfold console_regs, fpi_of.
  pose proof (Z.land_ones sys 2 ltac:(lia)) as E. change (Z.ones 2) with 3 in E.
  pose proof (Z.mod_pos_bound sys (2 ^ 2) ltac:(lia)) as R. rewrite <- E in R. clear E.
  generalize dependent (sys .& 0x3). generalize (fast sys). intros f x Hx Ho.
  assert (x = 0 \/ x = 1 \/ x = 2 \/ x = 3) as [-> |[-> |[-> | ->]]] by lia; clear Hx;
    destruct f, Ho as [-> | ->]; eexists _, _, _; (split; [vm_compute; reflexivity|]);
    split_and!; intros; try done; split; vm_compute; done.
Qed.

(** C23: the kernel's console on the second port, opened at start with no options or
    with [115200n8], is set up for every setting of the clock generation unit: the
    start-up and the set-up of the console return, and the rate of the registers
    they leave is 115200 bits per second within 120, when the memory is not at its
    slowest clock.  At the slowest clock with the bus at half of it the rounded
    quotient makes the rate 121267, five per cent off; with the bus at the full clock
    the row of the table is wrong, so that without options the console reads a speed
    it does not know back from the registers and runs at 38748. *)
Theorem console_rates options d :
  clk d = 0 -> runs_empty fstat polls d -> options = None \/ options = opt_115200 ->
  let sys := mem (irqt d) DANUBE_CGU_SYS in
  exists cflag ports d',
    console_init 1 options d = Some (1, cflag, (ports, d')) /\
    rd console_port asc_mcon d' = format cflag /\
    console_rate (sys .& 0x3) (fast sys) options cflag
      (rate (fpi_of sys) (rd console_port asc_fdv d') (rd console_port asc_bg d')).
Proof.
  intros Hc He Ho sys. destruct (console_regs_rate sys options Ho) as (cflag & fdv & bg & E & Hr).
  destruct (console_init_spec options d _ Hc He E) as (ports & d' & Ei & Em & Ef & Eb).
  exists cflag, ports, d'. by rewrite Ef, Eb.
Qed.
End console.

(** ** Examples *)

(** The memory at its slowest clock, the bus at half of it; an empty FIFO. *)
Definition slow_board : asc_drv :=
  mk_drv (mk_irqs (fun _ => mk_desc 0 [] 0) (upd (fun _ => 0) DANUBE_CGU_SYS 0x43)) false 0 [] 0
    (mk_counts 0 0 0 0 0) false.
Definition idle_fifo (_ _ : nat) : Z := 0x10000000.

Lemma slow_empty : runs_empty idle_fifo 1 slow_board.
Proof. exists 0%nat. split; [lia|done]. Qed.

Lemma console_rates_witness : exists cflag ports d',
  ifx_asc_console_init idle_fifo 1 (fun _ => true) 1 None slow_board = Some (1, cflag, (ports, d')) /\
  cflag = cflag_of B115200 /\
  rate (fpi_of 0x43) (rd console_port asc_fdv d') (rd console_port asc_bg d') = 121267.
Proof.
  destruct (console_rates idle_fifo 1 (fun _ => true) None slow_board eq_refl slow_empty (or_introl eq_refl))
    as (cflag & ports & d' & E & _ & _ & H & _).
  destruct (H eq_refl eq_refl) as [H1 H2]. exists cflag, ports, d'. split_and!; [exact E|exact H1|exact H2].
Defined.

(** 9600 bits per second from 83.3 MHz with 453/512: the quotient is 542, the best
    divider 480. *)
Definition fast_board : asc_drv :=
  wr console_port asc_fdv 453 slow_board.
Lemma fast_empty : runs_empty idle_fifo 1 fast_board.
Proof. exists 0%nat. split; [lia|done]. Qed.

Lemma change_speed_nearest_witness : exists d',
  ifx_asc_change_speed idle_fifo 1 B9600 0 542 console_port fast_board =
    Some (speed_masks B9600 0 console_port, d') /\
  0 <= rd console_port asc_bg d' < 2 ^ 13 /\
  forall b, Z.abs (512 * (rd console_port asc_bg d' + 1) - 542 * 453) <= Z.abs (512 * (b + 1) - 542 * 453).
Proof.
  destruct (change_speed_nearest idle_fifo 1 B9600 0 542 console_port fast_board fast_empty) as (d' & E & _ & _ & H & _).
  - change (0 < 453). lia.
  - lia.
  - change (542 * 453 + 256 < 2 ^ 32). lia.
  - change (rd console_port asc_fdv fast_board) with 453 in H. destruct (H ltac:(lia)) as (H1 & H2 & _).
    exists d'. split_and!; [exact E|apply H1|apply H1|exact H2].
Defined.
