(* ===== verification/AscClose.v ===== *)
(** * Closing the serial port ([serial_core.c], [tty_ioctl.c], [ifx_asc.c])

    What calls on an open port keep; the interrupt lines of a port that is shut
    down; the waits of a close, which end; and the last close, after which the
    port has no interrupt line and nothing to send.  For [AscOpen]. *)

From S2P Require Import Prelude Icu Irq MpsRpc SerialCore SerialTx SerialOpen Asc AscTx.
Open Scope Z_scope.
#[local] Arguments Z.testbit : simpl never.
#[local] Arguments test_bit : simpl never.

(** ** What calls on an open port leave alone *)

Definition kept (u : uart asc_drv) : Z * Z * uart_port * Z * Z * bool :=
  (iflags (info u), timeout (info u),
   set_x_char 0 (set_icount (mk_icount 0 0 0 0 0) (port u)), clk (drv u), tflags (tty u), has_tty (info u)).

Section kept.
Context (fstat : nat -> nat -> Z) (polls : nat) (kmalloc : Z -> bool).
Implicit Types (u : uart asc_drv).
#[local] Hint Extern 0 (UartOps asc_drv) => exact (asc_pops fstat polls kmalloc) : typeclass_instances.
#[local] Hint Extern 0 (TxView asc_drv) => exact (asc_view fstat polls false) : typeclass_instances.

Lemma serial_out_kept p ch d d' : ifx_asc_serial_out fstat polls p ch d = Some d' -> clk d' = clk d.
Proof. unfold ifx_asc_serial_out. intros E. by simplify_option_eq. Qed.

Lemma stop_tx_kept u u' : ifx_asc_stop_tx u = Some u' -> kept u' = kept u.
Proof. unfold ifx_asc_stop_tx. intros E. by repeat (case_match || simplify_option_eq). Qed.

Lemma tx_chars_kept u u' : ifx_asc_tx_chars fstat polls u = Some u' -> kept u' = kept u.
Proof.
  unfold ifx_asc_tx_chars. intros E.
  destruct (if _ =? _ then _ else _) as [b|]; [|done]. cbn [mbind option_bind] in E.
  destruct b; [by apply stop_tx_kept|]. destruct (negb _) in E.
  - destruct (ifx_asc_serial_out _ _ _ _ _) as [d|] eqn:Eo; [|done]. apply serial_out_kept in Eo.
    cbn in E. simplify_eq. unfold kept. cbn. by rewrite Eo.
  - destruct (ifx_asc_serial_out _ _ _ _ _) as [d|] eqn:Eo; [|done]. apply serial_out_kept in Eo.
    cbn [mbind option_bind] in E. set (u2 := if _ <? _ then _ else _) in E.
    assert (K : kept u2 = kept u) by (subst u2; destruct (_ <? _); unfold kept; cbn; by rewrite Eo).
    rewrite <- K. destruct (_ =? _) in E; [by apply stop_tx_kept|by simplify_eq].
Qed.

Lemma start_tx_kept u u' : start_tx u = Some u' -> kept u' = kept u.
Proof.
  cbn. unfold ifx_asc_start_tx. set (u1 := if _ =? 0 then _ else _).
  assert (kept u1 = kept u) as <- by (subst u1; by destruct (_ =? 0)).
  destruct (info_set _); [apply tx_chars_kept|by intros [= ->]].
Qed.

Lemma run_kept a u u' : asc_run fstat polls 0 (fun _ => (0, 0)) a u = Some u' -> kept u' = kept u.
Proof.
  unfold asc_run. destruct (handler a).
  - unfold ifx_asc_rx_int, ifx_asc_rx_chars. cbn. intros E. by repeat (case_match || simplify_option_eq).
  - unfold ifx_asc_tx_int. intros E.
    destruct (ifx_asc_tx_chars _ _ _) as [u1|] eqn:E1; [|done]. apply tx_chars_kept in E1.
    cbn in E. injection E as <-. exact E1.
  - cbn. intros E. by simplify_eq.
Qed.

Lemma handle_kept l : forall u u',
  handle_IRQ_event (asc_run fstat polls 0 (fun _ => (0, 0))) l u = Some u' -> kept u' = kept u.
Proof.
  induction l as [|a l IH]; intros u u'; cbn [handle_IRQ_event]; [by intros [= ->]|].
  destruct (asc_run _ _ _ _ a u) as [u1|] eqn:E1; [|done]. cbn [mbind option_bind]. intros E%IH.
  apply run_kept in E1. congruence.
Qed.

Lemma tx_int_kept u u' : asc_tx_interrupt fstat polls u = Some u' -> kept u' = kept u.
Proof.
  unfold asc_tx_interrupt, do_IRQ. destruct (irq_begin _ _) as [l t].
  assert (L : forall u1, (match l with [] => Some (put_irqs t u)
    | _ => irq_loop (asc_run fstat polls 0 (fun _ => (0, 0))) 1 (tir (ifx_asc_port_priv (line (port u)))) l (put_irqs t u)
    end) = Some u1 -> kept u1 = kept u).
  { intros u1. destruct l as [|a l]; [by intros [= <-]|]. cbn [irq_loop].
    destruct (handle_IRQ_event _ _ _) as [u2|] eqn:E2; [|done]. apply handle_kept in E2. cbn [mbind option_bind].
    destruct (irq_again _ _) as [b t2]. destruct b; [done|]. intros [= <-]. exact E2. }
  destruct (match l with [] => _ | _ => _ end) as [u1|]; [|done]. cbn [mbind option_bind]. intros [= <-].
  exact (L u1 eq_refl).
Qed.

Lemma irqs_kept n : forall u u', tx_irqs n u = Some u' -> kept u' = kept u.
Proof.
  induction n as [|n IH]; intros u u'; cbn [tx_irqs]; [by intros [= ->]|].
  destruct (tx_irq u) as [u1|] eqn:E1; [|done]. cbn [mbind option_bind]. intros ->%IH.
  unfold tx_irq in E1. destruct (tx_on _); [by apply tx_int_kept|by injection E1 as <-].
Qed.

(** The calls. *)
Lemma uart_start_kept u u' : uart_start u = Some u' -> kept u' = kept u.
Proof. unfold uart_start, __uart_start. destruct (_ && _); [apply start_tx_kept|by intros [= <-]]. Qed.

Lemma send_x_kept c u u' : uart_send_xchar c u = Some u' -> kept u' = kept u.
Proof. unfold uart_send_xchar. destruct (negb _); [by intros ->%start_tx_kept|by intros [= <-]]. Qed.

Lemma xmit_put_kept l u u' : xmit_put l u = Some u' -> kept u' = kept u.
Proof. unfold xmit_put. destruct (_ <=? _); [by intros [= <-]|done]. Qed.

Lemma write_kernel_kept fuel : forall l ret u r u', write_kernel fuel l ret u = Some (r, u') -> kept u' = kept u.
Proof.
  induction fuel as [|fuel IH]; intros l ret u r u'; cbn [write_kernel]; [done|].
  destruct (_ <=? 0); [by intros [= _ <-]|]. destruct (xmit_put _ u) as [u1|] eqn:E1; [|done].
  cbn [mbind option_bind]. intros ->%IH. by apply xmit_put_kept in E1.
Qed.

Lemma write_user_kept uncopied (irqs : nat -> nat) fuel : forall l ret u r u',
  write_user uncopied (fun i => tx_irqs (irqs i)) fuel l ret u = Some (r, u') -> kept u' = kept u.
Proof.
  induction fuel as [|fuel IH]; intros l ret u r u'; cbn [write_user]; [done|].
  destruct (_ <=? 0); [by intros [= _ <-]|]. destruct (_ =? 0); [by intros [= _ <-]|].
  destruct (tx_irqs _ u) as [u1|] eqn:E1; [|done]. cbn [mbind option_bind].
  destruct (xmit_put _ u1) as [u2|] eqn:E2; [|done]. cbn [mbind option_bind]. intros ->%IH.
  apply xmit_put_kept in E2. apply irqs_kept in E1. congruence.
Qed.

Lemma throttle_kept u u' : uart_throttle u = Some u' -> kept u' = kept u.
Proof.
  unfold uart_throttle. match goal with |- mbind _ ?x = _ -> _ => set (m := x) end.
  assert (M : forall u1, m = Some u1 -> kept u1 = kept u).
  { subst m. destruct (negb _); intros u1; [apply send_x_kept|by intros [= <-]]. }
  destruct m as [u1|]; [|done]. cbn [mbind option_bind]. specialize (M u1 eq_refl).
  destruct (negb _); intros [= <-]; exact M.
Qed.

Lemma unthrottle_kept u u' : uart_unthrottle u = Some u' -> kept u' = kept u.
Proof.
  unfold uart_unthrottle. match goal with |- mbind _ ?x = _ -> _ => set (m := x) end.
  assert (M : forall u1, m = Some u1 -> kept u1 = kept u).
  { subst m. destruct (negb _); intros u1; [|by intros [= <-]].
    destruct (negb _); [by intros [= <-]|apply send_x_kept]. }
  destruct m as [u1|]; [|done]. cbn [mbind option_bind]. specialize (M u1 eq_refl).
  destruct (negb _); intros [= <-]; exact M.
Qed.

Lemma call_kept o u r u' : tx_call o u = Some (r, u') -> kept u' = kept u.
Proof.
  destruct o; cbn [tx_call].
  1: { unfold uart_write. destruct (_ || _); [by intros [= _ <-]|].
    match goal with |- mbind _ ?m = _ -> _ => destruct m as [[r1 u1]|] eqn:E1; [|done] end.
    cbn [mbind option_bind]. destruct (uart_start u1) as [u2|] eqn:E2; [|done]. intros [= _ <-].
    apply uart_start_kept in E2. rewrite E2.
    match type of E1 with (if ?b then _ else _) = _ => destruct b end;
      [by eapply write_user_kept|by eapply write_kernel_kept]. }
  all: try (by intros [= _ <-]).
  1: { unfold uart_put_char. destruct (negb _); [by intros [= _ <-]|]. destruct (negb _); by intros [= _ <-]. }
  2: { unfold uart_flush_buffer. destruct (_ && _); by intros [= _ <-]. }
  all: match goal with |- mbind _ ?m = _ -> _ => destruct m as [u1|] eqn:E1; [|done] end; intros [= _ <-].
  - by apply uart_start_kept.
  - by eapply send_x_kept.
  - by apply throttle_kept.
  - by apply unthrottle_kept.
  - unfold stop_tty, uart_stop in E1. destruct (stopped _); [by injection E1 as <-|]. by apply stop_tx_kept in E1.
  - unfold start_tty in E1. destruct (_ || _); [by injection E1 as <-|].
    destruct (uart_start _) as [u2|] eqn:E2; [|done]. injection E1 as <-. by apply uart_start_kept in E2.
  - unfold tx_irq in E1. destruct (tx_on _); [by apply tx_int_kept|by injection E1 as <-].
Qed.

Lemma calls_kept l : forall u rs u', tx_calls l u = Some (rs, u') -> kept u' = kept u.
Proof.
  induction l as [|o l IH]; intros u rs u'; cbn [tx_calls]; [by intros [= _ <-]|].
  destruct (tx_call o u) as [[r u1]|] eqn:E1; [|done]. cbn [mbind option_bind].
  destruct (tx_calls l u1) as [[rs1 u2]|] eqn:E2; [|done]. intros [= _ <-].
  apply IH in E2. apply call_kept in E1. congruence.
Qed.
End kept.

(** ** The lines of a port that is shut down *)

Section shut.
Context {H : Type}.
Implicit Types (t : irqs H).

(** Disabling a line whose handler does not run, however often it is disabled. *)
Lemma disable_step b i t :
  is_line i -> lines_ok t -> in_progress i t = false -> depth (irq_desc t i) + 1 < 2 ^ 32 ->
  exists t', disable_irq b i t = Some t' /\ lines_ok t' /\ depth (irq_desc t' i) = depth (irq_desc t i) + 1 /\
    action (irq_desc t' i) = action (irq_desc t i) /\ in_progress i t' = false /\ disabled i t' = true /\
    forall j, j <> i -> irq_desc t' j = irq_desc t j.
Proof.
  intros Hi Hok Hp Hd. exists (disable_irq_nosync i t). unfold disable_irq.
  pose proof (disable_ok i t Hi Hd Hok) as Hok'. pose proof (ok_range _ _ (Hok i Hi)) as Hr.
  assert (D : depth (irq_desc (disable_irq_nosync i t) i) = depth (irq_desc t i) + 1 /\
    action (irq_desc (disable_irq_nosync i t) i) = action (irq_desc t i) /\
    in_progress i (disable_irq_nosync i t) = in_progress i t).
  { unfold disable_irq_nosync, in_progress. destruct (_ =? 0); unfold chip, put_mem, put_status, put_depth;
      cbn [irq_desc]; rewrite !put_desc_same; cbn [status action depth];
      rewrite (w32_id (depth (irq_desc t i) + 1)) by (unfold is_u32; lia); status_bits; done. }
  destruct D as (D1 & D2 & D3). change IRQ_INPROGRESS with (1 .<< 0). rewrite status_bit by lia.
  fold (in_progress i (disable_irq_nosync i t)). rewrite D3, Hp. cbn [negb]. split_and!; try done.
  - by destruct b.
  - apply (ok_depth _ _ (Hok' i Hi)). lia.
  - intros j Hj. by apply disable_other.
Qed.

Lemma free_keeps i (h : H) dv t : is_line i -> action (irq_desc t i) = [mk_action h 0 dv] ->
  depth (irq_desc (free_irq i dv t) i) = depth (irq_desc t i) /\
  in_progress i (free_irq i dv t) = in_progress i t.
Proof.
  unfold is_line, INT_NUM_IM4_IRL31, free_irq, in_progress. intros Hi Ea. rewrite Z.geb_leb. unfold NR_IRQS.
  destruct (Z.leb_spec 161 i); [lia|]. rewrite Ea. cbn [remove_action dev_id]. rewrite Z.eqb_refl.
  cbn [chip put_mem irq_desc]. unfold put_status, put_action. rewrite !put_desc_same. cbn [depth status].
  by status_bits.
Qed.

(** A line that is disabled more than once stays disabled when it is enabled. *)
Lemma enable_deep i t : is_line i -> lines_ok t -> 1 < depth (irq_desc t i) ->
  let t' := enable_irq i t in
  lines_ok t' /\ depth (irq_desc t' i) = depth (irq_desc t i) - 1 /\
  action (irq_desc t' i) = action (irq_desc t i) /\ in_progress i t' = in_progress i t /\
  forall j, j <> i -> irq_desc t' j = irq_desc t j.
Proof.
  intros Hi Hok Hd t'. split; [by apply enable_ok|]. subst t'. unfold enable_irq, in_progress.
  destruct (Z.eqb_spec (depth (irq_desc t i)) 1); [lia|]. destruct (Z.eqb_spec (depth (irq_desc t i)) 0); [lia|].
  unfold put_depth. rewrite put_desc_same. split_and!; try done. intros j Hj. by apply put_desc_other.
Qed.

Lemma free_line_masked i t : is_line i -> lines_ok t -> free_line t i -> enabled i t = false.
Proof. intros Hi Hok [_ Hd]. by apply (Hok i Hi). Qed.
End shut.

(** ** Shutting the port down *)

Section close.
Context (fstat : nat -> nat -> Z) (polls : nat) (kmalloc : Z -> bool).
Implicit Types (d : asc_drv) (u : uart asc_drv).

(** A driver whose lines are free, but whose transmit line is still counted as
    before: [enable_irq] does not get it to depth zero. *)
Definition stuck (l : Z) d : Prop :=
  info_set d = true /\ in_progress (tx_line l) (irqt d) = false /\
  (asc_tx_irq_on d = 0 /\ depth (irq_desc (irqt d) (tx_line l)) = 2 \/
   asc_tx_irq_on d = 1 /\ depth (irq_desc (irqt d) (tx_line l)) = 1).

Record free_drv (l : Z) d : Prop := {
  fd_lines : lines_ok (irqt d);
  fd_irq : in_irq d = false;
  fd_free : port_free l (irqt d)
}.

Lemma stuck_same l d d' : same_lines d d' -> stuck l d -> stuck l d'.
Proof. intros (E & _ & _ & _ & Eo & Ei) (S1 & S2 & S3). unfold stuck, in_progress in *. by rewrite E, Eo, Ei. Qed.

Lemma free_drv_same l d d' : same_lines d d' -> free_drv l d -> free_drv l d'.
Proof.
  intros (E & L & _ & Eq & _) [H1 H2 (F1 & F2 & F3)]. split; [auto|congruence|].
  unfold port_free, free_line, disabled in *. by rewrite E.
Qed.

Lemma shutdown_spec p d : drv_inv false (line p) d ->
  exists d', ifx_asc_shutdown p d = Some d' /\ free_drv (line p) d' /\ stuck (line p) d' /\
    clk d' = clk d /\ out d' = out d.
Proof.
  intros I. set (l := line p) in *. set (v := ifx_asc_port_priv l). set (tl := tx_line l).
  assert (I1 : drv_inv false l (wr p asc_irnen 0 d)) by (eapply drv_inv_same; [|exact I]; same_regs).
  unfold ifx_asc_shutdown. fold l v. change (tir v) with tl. set (d1 := wr p asc_irnen 0 d) in *.
  destruct I1 as [Hl Hi Hq Hok Hp Ha _ Hd ((Pr & Ar & Dr) & (Pe & Ae & De))]. fold v in Pr, Ar, Dr, Pe, Ae, De.
  fold tl in Hp, Ha, Hd. destruct (port_lines l Hl) as (Lr & Le & Lt & N1 & N2 & N3). fold v tl in Lr, Le, Lt, N1, N2, N3.
  rewrite Hq.
  destruct (disable_step false _ _ Lr Hok Pr) as (t1 & -> & O1 & _ & A1 & _ & X1 & F1); [lia|]. cbn [mbind option_bind].
  destruct (disable_step false tl t1 Lt O1) as (t2 & -> & O2 & D2 & A2 & P2 & X2 & F2);
    [unfold in_progress in *; by rewrite F1|rewrite F1 by done; lia|]. cbn [mbind option_bind].
  destruct (disable_step false _ t2 Le O2) as (t3 & -> & O3 & _ & A3 & _ & X3 & F3);
    [unfold in_progress in *; by rewrite F2, F1 by done|rewrite F2, F1 by done; lia|]. cbn [mbind option_bind].
  unfold free. cbn [irqt set_irqt]. change (line p) with l.
  assert (R3 : action (irq_desc t3 (rir v)) = [mk_action RxInt 0 l]) by (by rewrite F3, F2, A1 by done).
  destruct (free_one _ _ _ _ Lr R3) as [G1 K1]. set (t4 := free_irq (rir v) l t3) in *.
  assert (R4 : action (irq_desc t4 tl) = [mk_action TxInt 0 l]) by (by rewrite K1, F3, A2, F1 by done).
  destruct (free_one _ _ _ _ Lt R4) as [G2 K2]. destruct (free_keeps _ _ _ _ Lt R4) as [M1 M2].
  set (t5 := free_irq tl l t4) in *.
  assert (R5 : action (irq_desc t5 (eir v)) = [mk_action ErInt 0 l]) by (by rewrite K2, K1, A3, F2, F1 by done).
  destruct (free_one _ _ _ _ Le R5) as [G3 K3]. set (t6 := free_irq (eir v) l t5) in *.
  set (d6 := set_irqt t6 _). set (d7 := CLEAR_BIT p asc_txfcon _ _).
  assert (S : same_lines d6 d7) by (subst d7; same_regs).
  exists d7. split; [done|].
  split_and!; [apply (free_drv_same l d6 d7 S)|apply (stuck_same l d6 d7 S)|done|done].
  - split; cbn [d6 irqt set_irqt in_irq].
    + by repeat apply free_irq_ok.
    + done.
    + split_and!; [eapply free_line_frame; [|exact G1]|eapply free_line_frame; [|exact G2]|exact G3];
        fold v tl; by rewrite ?K3, ?K2 by done.
  - split_and!; [exact Hi| |]; cbn [d6 irqt set_irqt asc_tx_irq_on]; fold tl.
    + unfold in_progress in *. rewrite K3, M2, K1, F3 by done. exact P2.
    + rewrite K3, M1, K1, F3, D2, F1 by done. lia.
Qed.

#[local] Hint Extern 0 (UartOps asc_drv) => exact (asc_pops fstat polls kmalloc) : typeclass_instances.

Definition ring_off u : Prop := head (xmit (info u)) = tail (xmit (info u)).
Abbreviation ln u := (line (port u)).

(** Starting output on such a port finds nothing to send, and masks the line again. *)
Lemma start_tx_stuck u : ln u = 0 \/ ln u = 1 -> free_drv (ln u) (drv u) -> stuck (ln u) (drv u) -> ring_off u ->
  exists u', start_tx u = Some u' /\ free_drv (ln u') (drv u') /\ ring_off u' /\ out (drv u') = out (drv u).
Proof.
  intros Hl [Hok Hq (Fr & Ft & Fe)] (Si & Sp & Sd) Hr. destruct (port_lines _ Hl) as (_ & _ & Lt & N1 & N2 & _).
  cbn. unfold ifx_asc_start_tx. fold (tx_line (ln u)). set (tl := tx_line (ln u)) in *.
  set (u1 := if _ =? 0 then _ else _).
  assert (U : exists t, u1 = on_drv (fun d => set_tx_irq_on 1 (set_irqt t d)) u /\ lines_ok t /\
    depth (irq_desc t tl) = 1 /\ action (irq_desc t tl) = [] /\ in_progress tl t = false /\
    forall j, j <> tl -> irq_desc t j = irq_desc (irqt (drv u)) j).
  { subst u1. destruct Sd as [[So Sd]|[So Sd]]; rewrite So; cbn [Z.eqb].
    - destruct (enable_deep tl (irqt (drv u)) Lt Hok) as (E1 & E2 & E3 & E4 & E5); [lia|].
      exists (enable_irq tl (irqt (drv u))). split_and!; try done.
      + unfold on_drv. by rewrite So.
      + rewrite E2. lia.
      + rewrite E3. apply Ft.
      + by rewrite E4.
    - exists (irqt (drv u)). split_and!; try done; [|apply Ft]. destruct u as [p i t d], d. by rewrite <- So. }
  clearbody u1. destruct U as (t & -> & T1 & T2 & T3 & T4 & T5). cbn [drv on_drv info_set set_tx_irq_on set_irqt].
  rewrite Si. unfold ifx_asc_tx_chars. cbn [info on_drv]. unfold ring_off in Hr. rewrite Hr, Z.eqb_refl.
  cbn [mbind option_bind]. unfold ifx_asc_stop_tx. cbn [drv on_drv asc_tx_irq_on set_tx_irq_on set_irqt Z.eqb negb irqt in_irq port].
  fold (tx_line (ln u)). fold tl. rewrite Hq.
  destruct (disable_step false tl t Lt T1 T4) as (t2 & -> & O2 & _ & A2 & _ & X2 & F2); [lia|]. cbn [mbind option_bind].
  eexists. split; [done|]. split; [|by split]. cbn. fold tl. split; cbn; [exact O2|exact Hq|].
  split; [|split].
  - eapply free_line_frame; [|exact Fr]. by rewrite F2, T5 by done.
  - fold tl. split; [by rewrite A2, T3|done].
  - eapply free_line_frame; [|exact Fe]. by rewrite F2, T5 by done.
Qed.

Lemma unthrottle_stuck u : ln u = 0 \/ ln u = 1 -> free_drv (ln u) (drv u) -> stuck (ln u) (drv u) -> ring_off u ->
  exists u', uart_unthrottle u = Some u' /\ free_drv (ln u') (drv u') /\ ring_off u' /\ out (drv u') = out (drv u).
Proof.
  intros Hl Hf Hs Hr. unfold uart_unthrottle.
  assert (U : exists u1, (if negb (c_iflag (tty u) .& IXOFF =? 0) then
      if negb (x_char (port u) =? 0) then Some (on_port (set_x_char 0) u) else uart_send_xchar (start_char (tty u)) u
    else Some u) = Some u1 /\ free_drv (ln u1) (drv u1) /\ ring_off u1 /\ out (drv u1) = out (drv u)).
  { destruct (negb (c_iflag _ .& _ =? 0)); [|by exists u]. destruct (negb _); [by eexists|].
    unfold uart_send_xchar. destruct (negb _); [|by eexists].
    by apply (start_tx_stuck (on_port (set_x_char (start_char (tty u) mod 256)) u)). }
  destruct U as (u1 & -> & F1 & R1 & O1). cbn [mbind option_bind]. destruct (negb _); by eexists.
Qed.
End close.

(** ** A port that works, and one that does not *)

(** Transmit interrupts while a call sleeps: they come when the line is enabled. *)
Section irqs.
Context (fstat : nat -> nat -> Z) (polls : nat).
Fixpoint line_irqs (n : nat) (u : uart asc_drv) : option (uart asc_drv) :=
  match n with
  | O => Some u
  | S n => u ← (if line_on u then asc_tx_interrupt fstat polls u else Some u); line_irqs n u
  end.
End irqs.

(** How many they are from the [n]-th sleep up to the [m]-th. *)
Definition during (irqs : nat -> nat) (n m : nat) : nat := sum_list_with irqs (seq n (m - n)).

Lemma during_app irqs n m k : (n <= m <= k)%nat -> during irqs n k = (during irqs m k + during irqs n m)%nat.
Proof.
  intros H. unfold during. replace (k - n)%nat with ((m - n) + (k - m))%nat by lia.
  rewrite seq_app, sum_list_with_app. replace (n + (m - n))%nat with m by lia. lia.
Qed.
Lemma during_one irqs n : during irqs n (S n) = irqs n.
Proof. unfold during. replace (S n - n)%nat with 1%nat by lia. cbn. lia. Qed.

(** What is known of the machine: the transmitter makes room, and gets empty, within
    [polls] readings; in [fuel] sleeps more than 2^29 ticks pass, but in none more
    than 2^30. *)
Record machine_ok (fstat : nat -> nat -> Z) (polls : nat) (jiffies : nat -> Z) (fuel : nat) : Prop := {
  ok_room : forall n, exists k, (k < polls)%nat /\ tx_free (fstat n k) = true;
  ok_empty : forall n, exists k, (k < polls)%nat /\ tx_drained (fstat n k) = true;
  ok_tick : forall n, 0 <= jiffies (S n) - jiffies n <= 2 ^ 30;
  ok_time : forall n, 2 ^ 29 <= jiffies (n + fuel)%nat - jiffies n;
  ok_fuel : (polls <= fuel)%nat
}.

Lemma s32_w32 a b : - 2 ^ 31 <= a - b < 2 ^ 31 -> s32 (w32 a - b) = a - b.
Proof. unfold s32, w32. intros H. Z.to_euclidean_division_equations. lia. Qed.

(** A flag of [uart_info], by its bit. *)
Definition flag (n : Z) (u : uart asc_drv) : bool := Z.testbit (iflags (info u)) n.

Lemma has_flag_bit n (s : serial asc_drv) : 0 <= n -> has_flag (1 .<< n) s = flag n (su s).
Proof. intros Hn. unfold has_flag, flag. rewrite land_bit_eqb0 by done. by rewrite negb_involutive. Qed.

Section life.
Context (fstat : nat -> nat -> Z) (polls : nat) (kmalloc : Z -> bool) (cfg : port_conf).
Context (jiffies : nat -> Z) (irqs : nat -> nat) (signal : nat -> bool) (fuel : nat).
Hypothesis M : machine_ok fstat polls jiffies fuel.
Implicit Types (u : uart asc_drv).

#[local] Hint Extern 0 (UartOps asc_drv) => exact (asc_pops fstat polls kmalloc) : typeclass_instances.
#[local] Hint Extern 0 (TxView asc_drv) => exact (asc_view fstat polls false) : typeclass_instances.
Abbreviation rel := (@tx_rel asc_drv (asc_view fstat polls false)).
Abbreviation ln u := (line (port u)).

(** The port works: output is as [AscTx] has it. *)
Record up u : Prop := {
  up_rel : exists g s, rel g u s;
  up_time : 2 <= timeout (info u) <= 2 ^ 27;
  up_clk : 1024 <= uartclk (port u);
  up_set : flag 31 u = true
}.

(** It does not: its lines are free, and there is nothing to send. *)
Record down u : Prop := {
  dn_drv : free_drv (ln u) (drv u);
  dn_ring : ring_off u;
  dn_set : flag 31 u = false;
  dn_thr : test_bit TTY_THROTTLED (tflags (tty u)) = false
}.

(** What every call keeps. *)
Record port_ok u : Prop := {
  po_line : ln u = 0 \/ ln u = 1;
  po_type : ptype (port u) <> PORT_UNKNOWN;
  po_fifo : 0 < fifosize (port u);
  po_clk : clk (drv u) = 0 \/ 1024 <= clk (drv u);
  po_closing : test_bit TTY_CLOSING (tflags (tty u)) = false
}.

Definition calm u : Prop := up u \/ down u.

Lemma kept_port u u' : kept u' = kept u -> port_ok u -> port_ok u'.
Proof. unfold kept, set_x_char, set_icount. intros E [? ? ? ? ?]. injection E; intros. split; congruence. Qed.

Lemma kept_up g u u' s : kept u' = kept u -> rel g u' s -> up u -> up u'.
Proof.
  unfold kept, set_x_char, set_icount. intros E R [_ ? ? Hf]. unfold flag in Hf. injection E; intros.
  split; [by exists g, s|congruence|congruence|unfold flag; congruence].
Qed.

Lemma kept_flag n u u' : kept u' = kept u -> flag n u' = flag n u.
Proof. unfold kept, flag. intros E. injection E; intros. congruence. Qed.

(** *** Sleeping *)


Abbreviation lirqs := (fun n => line_irqs fstat polls (irqs n)).

Lemma line_irqs_up n : forall g u s, rel g u s ->
  exists u', line_irqs fstat polls n u = Some u' /\ rel g u' (Nat.iter n (irq g) s) /\ kept u' = kept u.
Proof.
  induction n as [|n IH]; intros g u s R; cbn [line_irqs]; [by exists u|].
  assert (S : exists u1, (if line_on u then asc_tx_interrupt fstat polls u else Some u) = Some u1 /\
    rel g u1 (irq g s) /\ kept u1 = kept u).
  { unfold line_on, irq. rewrite (rel_line_enabled _ _ _ _ _ R). destruct (on s) eqn:Eo; [|by exists u].
    destruct (tx_int_spec fstat polls kmalloc (ok_room _ _ _ _ M) g u s R Eo) as (u1 & E1 & R1).
    exists u1. split_and!; [done|done|]. by eapply tx_int_kept. }
  destruct S as (u1 & -> & R1 & K1). cbn [mbind option_bind]. rewrite Nat.iter_succ_r.
  destruct (IH g u1 _ R1) as (u' & E & R' & K'). exists u'. split_and!; [done|done|congruence].
Qed.

Lemma line_irqs_down n u : port_ok u -> down u -> line_irqs fstat polls n u = Some u.
Proof.
  intros P [[Hok _ (_ & Ft & _)] _ _ _]. induction n as [|n IH]; [done|]. cbn [line_irqs].
  assert (line_on u = false) as ->
    by (apply free_line_masked; [apply tx_line_ok, P|done|done]). exact IH.
Qed.

Lemma down_rel g u x : down u -> rel g u x -> False.
Proof. intros [[_ _ (_ & [A _] & _)] _ _ _] R. by rewrite (inv_action _ _ _ (rel_drv _ _ _ R)) in A. Qed.

(** [s'] is [s] some sleeps later. *)
Record slept (s s' : serial asc_drv) : Prop := {
  sl_rest : exists n, s' = mk_serial (su s') (state s) (openers s) (dev s) (cons_cflag s) (tmp_buf s) n;
  sl_kept : kept (su s') = kept (su s);
  sl_up : up (su s) -> up (su s');
  sl_naps : (naps s <= naps s')%nat;
  sl_irqs : forall g x, rel g (su s) x -> rel g (su s') (Nat.iter (during irqs (naps s) (naps s')) (irq g) x);
  sl_down : down (su s) -> su s' = su s
}.

Lemma slept_refl s : slept s s.
Proof.
  split; try done; [exists (naps s); by destruct s|]. intros g x R. unfold during. by rewrite Nat.sub_diag.
Qed.
Lemma slept_trans s1 s2 s3 : slept s1 s2 -> slept s2 s3 -> slept s1 s3.
Proof.
  intros [(n & E) K1 U1 N1 I1 D1] [(m & F) K2 U2 N2 I2 D2]. split; [|congruence|auto|lia| |].
  - exists m. rewrite F, E. done.
  - intros g x R. rewrite (during_app _ _ (naps s2)), Nat.iter_add by lia. auto.
  - intros D. rewrite D2; [by apply D1|]. by rewrite D1.
Qed.
Lemma slept_calm s s' : slept s s' -> calm (su s) -> calm (su s').
Proof. intros [_ _ U _ _ D] [H|H]; [left; auto|right; by rewrite D]. Qed.

Abbreviation sched := (schedule lirqs).
Abbreviation sched_timeout := (schedule_timeout jiffies lirqs).
Implicit Types (s : serial asc_drv).


Lemma schedule_ok s : port_ok (su s) -> calm (su s) ->
  exists s', sched s = Some s' /\ slept s s' /\ naps s' = S (naps s).
Proof.
  intros P [U|D]; unfold schedule.
  - destruct (up_rel _ U) as (g & x & R).
    destruct (line_irqs_up (irqs (naps s)) g (su s) x R) as (u' & E & R' & K').
    cbv beta. rewrite E. cbn [mbind option_bind]. eexists. split; [done|]. split; [|done].
    split; cbn [su nap on_su naps]; [by eexists|done|intros _; by eapply kept_up|lia| |].
    + intros g' x1 R1. rewrite during_one. destruct (line_irqs_up (irqs (naps s)) g' (su s) x1 R1) as (u1 & E1 & R1' & _).
      rewrite E in E1. by injection E1 as <-.
    + intros D. by destruct (down_rel _ _ _ D R).
  - cbv beta. rewrite (line_irqs_down _ _ P D). cbn [mbind option_bind]. eexists. split; [done|]. split; [|done].
    split; cbn [su nap on_su naps]; [by eexists|done|done|lia| |done]. intros g x R. by destruct (down_rel _ _ _ D R).
Qed.

(** What is left of a timeout that is not too long. *)
Lemma timeout_ok t s : port_ok (su s) -> calm (su s) -> 0 <= t < MAX_SCHEDULE_TIMEOUT ->
  exists t' s', sched_timeout t s = Some (t', s') /\ slept s s' /\ naps s' = S (naps s) /\
    t' = Z.max 0 (t - (jiffies (S (naps s)) - jiffies (naps s))).
Proof.
  unfold MAX_SCHEDULE_TIMEOUT. intros P C Ht. unfold schedule_timeout, MAX_SCHEDULE_TIMEOUT.
  destruct (Z.eqb_spec t (2 ^ 31 - 1)); [lia|]. destruct (Z.ltb_spec t 0); [lia|].
  destruct (schedule_ok s P C) as (s' & -> & SL & N). cbn [mbind option_bind]. eexists _, s'.
  split_and!; [done|done|done|]. rewrite N. pose proof (ok_tick _ _ _ _ M (naps s)) as T.
  rewrite s32_w32 by lia. destruct (Z.ltb_spec (t + jiffies (naps s) - jiffies (S (naps s))) 0); lia.
Qed.

Abbreviation time n := (jiffies n).

Lemma time_mono n m : (n <= m)%nat -> time n <= time m.
Proof. induction 1 as [|m _ IH]; [done|]. pose proof (ok_tick _ _ _ _ M m). lia. Qed.

Definition unsignalled : Prop := forall n, signal n = false.

Lemma drain_ok n : forall t s, port_ok (su s) -> calm (su s) -> 0 < t < MAX_SCHEDULE_TIMEOUT ->
  t <= time (naps s + n)%nat - time (naps s) ->
  exists r s', drain_loop jiffies lirqs signal n t s = Some (r, s') /\ slept s s' /\
    (if r is Some t' then 0 <= t' <= t else True) /\
    (unsignalled -> uart_chars_in_buffer (su s') = 0 \/ t <= time (naps s') - time (naps s)).
Proof.
  induction n as [|n IH]; intros t s P C Ht Hn.
  { rewrite Nat.add_0_r in Hn. lia. }
  cbn [drain_loop]. destruct (signal _) eqn:Es.
  { eexists _, s. split_and!; [done|apply slept_refl|done|]. intros Hs. by rewrite Hs in Es. }
  destruct (Z.eqb_spec (uart_chars_in_buffer (su s)) 0); [eexists _, s; split_and!; [done|apply slept_refl|cbn; lia|by left]|].
  destruct (timeout_ok t s P C) as (t' & s1 & -> & SL & N & ->); [lia|]. cbn [mbind option_bind].
  pose proof (ok_tick _ _ _ _ M (naps s)) as T.
  destruct (Z.eqb_spec (Z.max 0 (t - (time (S (naps s)) - time (naps s)))) 0) as [E|E].
  { eexists _, s1. split_and!; [done|done|cbn; lia|]. intros _. right. rewrite N. lia. }
  replace (naps s + S n)%nat with (naps s1 + n)%nat in Hn by lia.
  destruct (IH (Z.max 0 (t - (time (S (naps s)) - time (naps s)))) s1) as (r & s2 & E2 & SL2 & Hr & Hd).
  - by eapply kept_port; [apply SL|].
  - by eapply slept_calm.
  - lia.
  - rewrite N in *. lia.
  - exists r, s2. split_and!; [done|by eapply slept_trans|destruct r; [lia|done]|].
    intros Hs. destruct (Hd Hs); [by left|right]. rewrite N in *. lia.
Qed.

Lemma time_after_ok a b : - 2 ^ 31 <= b - a < 2 ^ 31 -> time_after a (w32 b) = (b - a <? 0).
Proof. intros Hb. unfold time_after. by rewrite s32_w32. Qed.

(** The clock ends the wait. *)
Lemma sent_timed n : forall k ct T E s, port_ok (su s) -> calm (su s) -> 0 <= s32 ct < MAX_SCHEDULE_TIMEOUT ->
  0 < T -> 0 <= E - time (naps s) <= 2 ^ 28 -> E - time (naps s) < time (naps s + n)%nat - time (naps s) ->
  exists s', sent_loop jiffies lirqs signal n k ct T (w32 E) s = Some s' /\ slept s s'.
Proof.
  induction n as [|n IH]; intros k ct T E s P C Hct HT HE Hn.
  { rewrite Nat.add_0_r in Hn. lia. }
  cbn [sent_loop]. destruct (negb _); [exists s; split; [done|apply slept_refl]|].
  destruct (timeout_ok (s32 ct) s P C Hct) as (t' & s1 & -> & SL & N & _). cbn [mbind option_bind].
  destruct (signal _); [by exists s1|]. pose proof (ok_tick _ _ _ _ M (naps s)) as Ht.
  rewrite N, time_after_ok by lia. destruct (Z.eqb_spec T 0); [lia|]. cbn [negb andb].
  destruct (Z.ltb_spec (E - time (S (naps s))) 0); [by exists s1|].
  destruct (IH (S k) ct T E s1) as (s2 & E2 & SL2); try done.
  - by eapply kept_port; [apply SL|].
  - by eapply slept_calm.
  - rewrite N. lia.
  - replace (naps s1 + n)%nat with (naps s + S n)%nat by lia. rewrite N. lia.
  - exists s2. split; [done|by eapply slept_trans].
Qed.

(** On a port that does not work the transmitter gets empty. *)
Lemma sent_empty n : forall k ct T E s, port_ok (su s) -> down (su s) -> 0 <= s32 ct < MAX_SCHEDULE_TIMEOUT ->
  (exists j, (k <= j < k + n)%nat /\ tx_drained (fstat (length (out (drv (su s)))) j) = true) ->
  exists s', sent_loop jiffies lirqs signal n k ct T E s = Some s' /\ slept s s'.
Proof.
  induction n as [|n IH]; intros k ct T E s P Dn Hct (j & Hj & Ej); [lia|].
  cbn [sent_loop]. destruct (negb _) eqn:En; [exists s; split; [done|apply slept_refl]|].
  destruct (timeout_ok (s32 ct) s P) as (t' & s1 & -> & SL & N & _); [by right|done|]. cbn [mbind option_bind].
  destruct (signal _); [by exists s1|]. destruct (_ && _); [by exists s1|].
  pose proof (sl_down _ _ SL Dn) as Es.
  destruct (IH (S k) ct T E s1) as (s2 & E2 & SL2); try done; [by rewrite Es|by rewrite Es| |].
  - rewrite Es. exists j. split; [|done]. assert (j <> k); [|lia]. intros ->.
    apply negb_false_iff, Z.eqb_eq in En. cbn in En. unfold ifx_asc_tx_empty in En.
    unfold tx_drained in Ej. rewrite Z.gtb_ltb, negb_true_iff, Z.ltb_ge in Ej.
    assert (0 <= fstat (length (out (drv (su s)))) k .& ASCFSTAT_TXFFLMASK) by (apply Z.land_nonneg; by right).
    destruct (Z.eqb_spec (fstat (length (out (drv (su s)))) k .& ASCFSTAT_TXFFLMASK) 0); [done|lia].
  - exists s2. split; [done|by eapply slept_trans].
Qed.

(** The interval between two looks, whatever the port's timeout is. *)
Lemma interval_ok it f tmo : 0 < f -> 0 <= tmo < 2 ^ 31 ->
  let ct := w32 (it - HZ / 50) / f / 5 in
  let ct := if ct =? 0 then 1 else ct in
  let ct := if negb (tmo =? 0) && (w32 tmo <? ct) then w32 tmo else ct in
  0 <= s32 ct < MAX_SCHEDULE_TIMEOUT.
Proof.
  intros Hf Ht ct0 ct1 ct2. assert (B : 0 <= ct0 <= 2 ^ 30).
  { subst ct0. assert (0 <= w32 (it - HZ / 50) < 2 ^ 32) by apply Z.mod_pos_bound, eq_refl.
    split; [apply Z.div_pos; [apply Z.div_pos; lia|lia]|].
    apply Z.div_le_upper_bound; [lia|]. apply Z.div_le_upper_bound; [done|]. nia. }
  clearbody ct0. assert (B1 : 0 <= ct1 <= 2 ^ 30) by (subst ct1; destruct (ct0 =? 0); lia). clearbody ct1.
  assert (B2 : 0 <= ct2 <= 2 ^ 30).
  { subst ct2. rewrite (w32_id tmo) by (unfold is_u32; lia). destruct (Z.ltb_spec tmo ct1); [|by rewrite andb_false_r].
    destruct (negb _); cbn [andb]; lia. }
  clearbody ct2.
  unfold MAX_SCHEDULE_TIMEOUT. rewrite s32_id; lia.
Qed.

Lemma wait_ok tmo s : port_ok (su s) -> calm (su s) -> 0 <= tmo <= 2 ^ 27 ->
  exists s', uart_wait_until_sent jiffies lirqs signal fuel tmo s = Some s' /\ slept s s'.
Proof.
  intros P C Ht. unfold uart_wait_until_sent. destruct (_ || _); [exists s; split; [done|apply slept_refl]|].
  pose proof (interval_ok (timeout (info (su s))) _ tmo (po_fifo _ P)) as Hct. cbv zeta in Hct |- *.
  destruct C as [U|Dn].
  - destruct (up_time _ U) as [T1 T2]. rewrite (w32_id (2 * _)), (s32_id (2 * _)) by (unfold is_u32; lia).
    set (T := if (tmo =? 0) || _ then _ else tmo).
    assert (HT : 0 < T <= 2 ^ 28).
    { subst T. rewrite (w32_id tmo) by (unfold is_u32; lia). destruct (Z.eqb_spec tmo 0); cbn [orb]; [lia|].
      rewrite Z.gtb_ltb. destruct (Z.ltb_spec (2 * timeout (info (su s))) tmo); lia. }
    pose proof (ok_time _ _ _ _ M (naps s)) as Hf.
    apply sent_timed; [done|by left|apply Hct; lia|lia|lia|lia].
  - destruct (ok_empty _ _ _ _ M (length (out (drv (su s))))) as (j & Hj & Ej).
    pose proof (ok_fuel _ _ _ _ M) as Hf.
    apply sent_empty; [done|done|apply Hct; lia|]. exists j. split; [lia|done].
Qed.

(** By the [n]-th sleep the ring is empty, or the time [t] is over. *)
Definition emptied (t : Z) s (n : nat) : Prop := forall g x, rel g (su s) x -> unsignalled ->
  q (Nat.iter (during irqs (naps s) n) (irq g) x) = [] \/ t <= time n - time (naps s).

Lemma emptied_later t s n m : (naps s <= n <= m)%nat -> emptied t s n -> emptied t s m.
Proof.
  intros H E g x R Hs. destruct (E g x R Hs) as [Hq|Ht]; [left|right].
  - rewrite (during_app _ _ n), Nat.iter_add by done. apply nil_length_inv.
    pose proof (irqs_shorter g (during irqs n m) (Nat.iter (during irqs (naps s) n) (irq g) x)) as L.
    rewrite Hq in L. cbn in L. lia.
  - pose proof (time_mono n m). lia.
Qed.

Lemma tty_wait_ok tmo s : port_ok (su s) -> calm (su s) -> 0 < tmo <= 2 ^ 27 ->
  exists s', tty_wait_until_sent jiffies lirqs signal fuel tmo s = Some s' /\ slept s s' /\ emptied tmo s (naps s').
Proof.
  intros P C Ht. unfold tty_wait_until_sent. destruct (Z.eqb_spec tmo 0); [lia|].
  pose proof (ok_time _ _ _ _ M (naps s)) as Hf.
  destruct (drain_ok fuel tmo s P C) as (r & s1 & -> & SL & Hr & Hd); [unfold MAX_SCHEDULE_TIMEOUT; lia|lia|].
  assert (Em : emptied tmo s (naps s1)).
  { intros g x R Hs. destruct (Hd Hs) as [Hc|Ht1]; [left|by right]. apply nil_length_inv.
    pose proof (rel_cnt _ _ _ (sl_irqs _ _ SL _ _ R)) as Hq. unfold uart_chars_in_buffer in Hc.
    unfold cnt in Hq. lia. }
  cbn [mbind option_bind]. destruct r as [t|]; [|by exists s1].
  destruct (wait_ok t s1) as (s2 & E2 & SL2); [by eapply kept_port; [apply SL|]|by eapply slept_calm|lia|].
  exists s2. split_and!; [done|by eapply slept_trans|]. apply (emptied_later _ _ (naps s1)); [|done].
  split; [apply SL|apply SL2].
Qed.

(** *** The last close *)

Definition same_rest s s' : Prop :=
  openers s' = openers s /\ set_closing false (dev s') = set_closing false (dev s) /\
  ucount (state s') = ucount (state s) /\ have_info (state s') = have_info (state s).

Lemma same_rest_trans s1 s2 s3 : same_rest s1 s2 -> same_rest s2 s3 -> same_rest s1 s3.
Proof. unfold same_rest. intros (? & ? & ? & ?) (? & ? & ? & ?). split_and!; congruence. Qed.
Lemma slept_rest s s' : slept s s' -> same_rest s s'.
Proof. intros [(n & ->) _ _ _ _ _]. done. Qed.

Lemma up_flags v u : Z.testbit v 31 = flag 31 u -> up u -> up (on_info (set_iflags v) u).
Proof.
  intros E [(g & x & R) T K F]. split; [|done|done|change (Z.testbit v 31 = true); congruence].
  exists g, x. destruct R. by split.
Qed.
Lemma down_flags v u : Z.testbit v 31 = flag 31 u -> down u -> down (on_info (set_iflags v) u).
Proof. intros E [? ? F ?]. split; try done. change (Z.testbit v 31 = false). congruence. Qed.
Lemma calm_flags v u : Z.testbit v 31 = flag 31 u -> calm u -> calm (on_info (set_iflags v) u).
Proof. intros E [H|H]; [left; by apply up_flags|right; by apply down_flags]. Qed.

Lemma tty_bit_other n k v : 0 <= n -> 0 <= k -> n <> k ->
  test_bit n (v .| 1 .<< k) = test_bit n v /\ test_bit n (v .& .~ (1 .<< k)) = test_bit n v.
Proof.
  intros Hn Hk E. unfold test_bit. rewrite Z.lor_spec, Z.land_spec, Z.lnot_spec, !testbit_1_shiftl by done.
  rewrite !bool_decide_false by done. by rewrite orb_false_r, andb_true_r.
Qed.
Lemma tty_bit_clear n v : 0 <= n -> test_bit n (v .& .~ (1 .<< n)) = false.
Proof.
  intros Hn. unfold test_bit. rewrite Z.land_spec, Z.lnot_spec, testbit_1_shiftl by done.
  rewrite bool_decide_true by done. apply andb_false_r.
Qed.

(** Not working, but possibly with characters in its ring. *)
Record shut u : Prop := {
  sh_drv : free_drv (ln u) (drv u);
  sh_set : flag 31 u = false;
  sh_thr : stuck (ln u) (drv u) \/ test_bit TTY_THROTTLED (tflags (tty u)) = false
}.

Lemma shutdown_up u : port_ok u -> up u ->
  exists u', uart_shutdown u = Some u' /\ port_ok u' /\ shut u' /\ (ring_off u -> ring_off u') /\
    test_bit TTY_THROTTLED (tflags (tty u')) = test_bit TTY_THROTTLED (tflags (tty u)) /\
    flag 27 u' = flag 27 u /\ flag 30 u' = flag 30 u /\ out (drv u') = out (drv u).
Proof.
  intros P [(g & x & R) _ _ F]. unfold uart_shutdown. change ASYNC_INITIALIZED with (1 .<< 31).
  rewrite land_bit_eqb0 by lia. fold (flag 31 u). rewrite F. cbn [negb].
  destruct (shutdown_spec (port u) (drv u) (rel_drv _ _ _ R)) as (d & Es & Hf & Hs & Ec & Eo).
  cbn [shutdown asc_pops ifx_asc_pops]. rewrite Es. cbn [mbind option_bind].
  eexists. split; [done|]. set (u1 := if has_tty _ then _ else _).
  assert (U1 : port u1 = port u /\ drv u1 = d /\ iflags (info u1) = iflags (info u) /\ (ring_off u -> ring_off u1) /\
    test_bit TTY_CLOSING (tflags (tty u1)) = test_bit TTY_CLOSING (tflags (tty u)) /\
    test_bit TTY_THROTTLED (tflags (tty u1)) = test_bit TTY_THROTTLED (tflags (tty u))).
  { subst u1. match goal with |- context [if ?b then on_tty _ _ else _] => destruct b end; split_and!; try done.
    all: cbn; by apply tty_bit_other; unfold TTY_CLOSING, TTY_THROTTLED, TTY_IO_ERROR. }
  clearbody u1. destruct U1 as (A1 & A2 & A3 & A4 & A5 & A6). destruct P as [P1 P2 P3 P4 P5].
  split; [split; cbn; rewrite ?A1, ?A2, ?Ec, ?A5; done|].
  unfold flag, ASYNC_INITIALIZED. split_and!; [|done|done|..|cbn; by rewrite A2].
  2,3: cbn [info on_info iflags set_iflags]; rewrite A3; status_bits; done.
  split; cbn [port drv on_info tty]; rewrite ?A1, ?A2; [done| |by left].
  unfold flag. cbn [info on_info iflags set_iflags]. rewrite Z.land_spec, Z.lnot_spec by lia. apply andb_false_r.
Qed.

(** Flushing both buffers after that. *)
Lemma flush_shut s : port_ok (su s) -> shut (su s) -> tcount (dev s) <> 0 ->
  exists u, n_tty_flush_buffer (on_su (uart_flush_buffer true) s) = Some (on_su (fun _ => u) s) /\
    port_ok u /\ down u /\ has_tty (info u) = has_tty (info (su s)) /\ out (drv u) = out (drv (su s)).
Proof.
  intros P [Hd Hf Ht] Hc. unfold n_tty_flush_buffer, check_unthrottle.
  pose (u := uart_flush_buffer true (su s)). assert (Eu : uart_flush_buffer true (su s) = u) by done.
  assert (U : port u = port (su s) /\ drv u = drv (su s) /\ ring_off u /\ iflags (info u) = iflags (info (su s)) /\
    tflags (tty u) = tflags (tty (su s)) /\ has_tty (info u) = has_tty (info (su s))).
  { subst u. unfold uart_flush_buffer, ring_off. by destruct (_ && _). }
  change (su (on_su (uart_flush_buffer true) s)) with u. unfold tty_bit. cbn [su on_su dev]. clearbody u.
  destruct U as (U1 & U2 & U3 & U4 & U5 & U6).
  destruct P as [P1 P2 P3 P4 P5]. apply Z.eqb_neq in Hc. rewrite Hc, Eu, U5. cbn [negb andb].
  destruct (test_bit TTY_THROTTLED _) eqn:Et.
  - destruct Ht as [Ht|?]; [|done].
    set (u1 := on_tty (fun t => set_tflags (tflags t .& .~ (1 .<< TTY_THROTTLED)) t) u).
    destruct (unthrottle_stuck fstat polls kmalloc u1) as (u2 & E2 & F2 & R2 & O2); cbn; rewrite ?U1, ?U2; try done.
    unfold lift_su. cbn [su on_su]. rewrite Eu. fold u1. rewrite E2. cbn [mbind option_bind].
    pose proof (unthrottle_kept _ _ _ _ _ E2) as K. exists u2. split_and!; [done| | | |rewrite O2; cbn; by rewrite U2].
    + apply (kept_port _ _ K). split; cbn; rewrite ?U1, ?U2, ?U5; try done.
      rewrite <- P5. by apply tty_bit_other; unfold TTY_CLOSING, TTY_THROTTLED.
    + split; [done|done|rewrite (kept_flag _ _ _ K); unfold flag in *; cbn [info on_tty u1]; by rewrite U4|].
      replace (tflags (tty u2)) with (tflags (tty u1)) by (unfold kept in K; injection K; congruence).
      by apply tty_bit_clear.
    + replace (has_tty (info u2)) with (has_tty (info u1)) by (unfold kept in K; injection K; congruence).
      by cbn.
  - exists u. split_and!; [by rewrite <- Eu| | |done|by rewrite U2].
    + split; rewrite ?U1, ?U2, ?U5; done.
    + split; rewrite ?U1, ?U2, ?U5; try done. unfold flag in *. by rewrite U4.
Qed.

(** Calls on a port that works. *)
Lemma calls_up ops u : Forall op_ok ops -> up u ->
  exists rs u', tx_calls ops u = Some (rs, u') /\ up u' /\ kept u' = kept u.
Proof.
  intros Ho U. destruct (up_rel _ U) as (g & x & R).
  destruct (calls_spec (HD := asc_tx_driver fstat polls kmalloc (ok_room _ _ _ _ M)) g ops Ho u x R)
    as (rs & u' & x' & E & _ & R').
  pose proof (calls_kept _ _ _ _ _ _ _ E) as K. exists rs, u'. split_and!; [done| |done]. by eapply kept_up.
Qed.

Lemma flush_up u : up u -> up (uart_flush_buffer true u) /\ kept (uart_flush_buffer true u) = kept u.
Proof.
  intros U. destruct (calls_up [FlushBuffer true] u) as (rs & u' & E & U' & K); [by repeat constructor|done|].
  cbn [tx_calls tx_call mbind option_bind] in E. injection E as _ <-. done.
Qed.

(** What a last close leaves. *)
Definition closed s' : Prop := port_ok (su s') /\ down (su s') /\ flag 27 (su s') = false /\ flag 30 (su s') = false.

Lemma close_finish s : port_ok (su s) -> down (su s) -> blocked_open (openers s) = 0 ->
  exists s', (let s := on_dev (set_closing false) s in
    let s := on_su (on_info (fun i => set_event 0 (tlet i) i)) s in
    let s := on_su (on_info (set_has_tty false)) s in
    s ← (if negb (blocked_open (openers s) =? 0) && negb (close_delay cfg =? 0)
         then '(_, s) ← sched_timeout (close_delay cfg) s; Some s else Some s);
    Some (drop_flag (ASYNC_NORMAL_ACTIVE .| ASYNC_CALLOUT_ACTIVE .| ASYNC_CLOSING) s)) = Some s' /\
    closed s' /\ same_rest s s' /\ out (drv (su s')) = out (drv (su s)) /\ naps s' = naps s.
Proof.
  intros P D Hb. cbv zeta. cbn [openers on_su on_dev]. rewrite Hb. cbn [Z.eqb negb andb mbind option_bind].
  eexists. split; [done|]. split; [|done]. unfold closed, drop_flag. cbn [su on_su on_dev].
  split_and!.
  - destruct P. by split.
  - apply down_flags; [|by destruct D; split]. cbn [info on_info iflags set_has_tty set_event]. unfold flag.
    rewrite Z.land_spec, Z.lnot_spec by lia. apply andb_true_r.
  - unfold flag. cbn [info on_info iflags set_iflags]. rewrite Z.land_spec, Z.lnot_spec by lia. apply andb_false_r.
  - unfold flag. cbn [info on_info iflags set_iflags]. rewrite Z.land_spec, Z.lnot_spec by lia. apply andb_false_r.
Qed.

(** [s'] comes after [s]: what has been sent in between was sent by interrupts. *)
Definition later s s' : Prop := (naps s <= naps s')%nat /\
  forall g x, rel g (su s) x -> rel g (su s') (Nat.iter (during irqs (naps s) (naps s')) (irq g) x).

Lemma slept_later s s' : slept s s' -> later s s'.
Proof. intros SL. split; apply SL. Qed.
Lemma later_trans s1 s2 s3 : later s1 s2 -> later s2 s3 -> later s1 s3.
Proof.
  intros [N1 I1] [N2 I2]. split; [lia|]. intros g x R.
  rewrite (during_app _ _ (naps s2)), Nat.iter_add by lia. auto.
Qed.

(** A last close from [s] to [s'] sends what the interrupts during its sleeps
    send; without signals it waits until the ring is empty, as long as it may. *)
Definition sends s s' : Prop :=
  (forall g x, rel g (su s) x ->
     bytes (out (drv (su s'))) = map (fun c => snd c mod 256) (sent (Nat.iter (during irqs (naps s) (naps s')) (irq g) x))) /\
  (closing_wait cfg <> ASYNC_CLOSING_WAIT_NONE -> emptied (closing_wait cfg) s (naps s')).

(** The waits, with the receiver stopped in between. *)
Lemma close_waits s : port_ok (su s) -> calm (su s) -> 0 < closing_wait cfg < 65536 ->
  exists s', (s ← (if negb (closing_wait cfg =? ASYNC_CLOSING_WAIT_NONE)
                   then tty_wait_until_sent jiffies lirqs signal fuel (closing_wait cfg) s else Some s);
    if has_flag ASYNC_INITIALIZED s
    then let s := on_su (fun u => on_drv (stop_rx (port u)) u) s in
         uart_wait_until_sent jiffies lirqs signal fuel (s32 (timeout (info (su s)))) s
    else Some s) = Some s' /\ port_ok (su s') /\ calm (su s') /\ same_rest s s' /\
    later s s' /\ (closing_wait cfg <> ASYNC_CLOSING_WAIT_NONE -> emptied (closing_wait cfg) s (naps s')).
Proof.
  intros P C Hw.
  assert (W : exists s1, (if negb (closing_wait cfg =? ASYNC_CLOSING_WAIT_NONE)
    then tty_wait_until_sent jiffies lirqs signal fuel (closing_wait cfg) s else Some s) = Some s1 /\ slept s s1 /\
    (closing_wait cfg <> ASYNC_CLOSING_WAIT_NONE -> emptied (closing_wait cfg) s (naps s1))).
  { destruct (Z.eqb_spec (closing_wait cfg) ASYNC_CLOSING_WAIT_NONE); cbn [negb];
      [exists s; split_and!; [done|apply slept_refl|done]|].
    destruct (tty_wait_ok (closing_wait cfg) s P C) as (s1 & E1 & SL & Em); [lia|]. by exists s1. }
  destruct W as (s1 & -> & SL & Em). cbn [mbind option_bind]. pose proof (slept_calm _ _ SL C) as C1.
  pose proof (kept_port _ _ (sl_kept _ _ SL) P) as P1. pose proof (slept_later _ _ SL) as L1. apply slept_rest in SL.
  change ASYNC_INITIALIZED with (1 .<< 31). rewrite has_flag_bit by lia.
  destruct C1 as [U|D]; [|rewrite (dn_set _ D); exists s1; split_and!; [done|done|by right|exact SL|exact L1|done]].
  rewrite (up_set _ U). cbn zeta.
  set (s2 := on_su (fun u => on_drv (stop_rx (port u)) u) s1).
  assert (S2 : same_lines (drv (su s1)) (drv (su s2))) by (subst s2; cbn; unfold ifx_asc_stop_rx; same_regs).
  assert (L2 : later s1 s2).
  { split; [done|]. intros g x R. unfold during. rewrite Nat.sub_diag. cbn.
    destruct R as [? ? ? ? ? ? Ro Rw Rd]. split; try done. cbn [drv_ok asc_view]. by eapply drv_inv_same. }
  assert (U2 : up (su s2)).
  { destruct U as [(g & x & R) T K F]. split; [|done|done|done]. exists g. eexists. by apply L2. }
  assert (P2 : port_ok (su s2)) by (destruct P1; by split).
  destruct (up_time _ U2) as [T1 T2].
  destruct (wait_ok (s32 (timeout (info (su s2)))) s2 P2) as (s3 & -> & SL3); [by left|rewrite s32_id; lia|].
  pose proof (slept_later _ _ SL3) as L3. pose proof (later_trans _ _ _ L1 (later_trans _ _ _ L2 L3)) as L.
  exists s3. split_and!; [done|by eapply kept_port; [apply SL3|]|eapply slept_calm; [done|by left]| |exact L|].
  - exact (same_rest_trans s s2 s3 SL (slept_rest _ _ SL3)).
  - intros Hn. apply (emptied_later _ _ (naps s1)); [|by apply Em]. split; [apply L1|apply L3].
Qed.

Lemma close_last_ok s : port_ok (su s) -> calm (su s) -> 0 < closing_wait cfg < 65536 ->
  blocked_open (openers s) = 0 -> tcount (dev s) <> 0 ->
  exists s', close_last cfg jiffies lirqs signal fuel s = Some s' /\ closed s' /\ same_rest s s' /\ sends s s'.
Proof.
  intros P C Hw Hb Hc. unfold close_last.
  set (s1 := add_flag ASYNC_CLOSING s).
  set (s2 := if has_flag ASYNC_NORMAL_ACTIVE s1 then _ else s1).
  set (s3 := if has_flag ASYNC_CALLOUT_ACTIVE s2 then _ else s2).
  set (s4 := on_dev (set_closing true) s3).
  assert (H4 : su s4 = su s1 /\ same_rest s s4 /\ naps s4 = naps s).
  { subst s4 s3 s2 s1. unfold same_rest. by repeat case_match. }
  destruct H4 as (H4 & R4 & N4). assert (P4 : port_ok (su s4)) by (rewrite H4; destruct P; by split).
  assert (C4 : calm (su s4)).
  { rewrite H4. apply calm_flags; [|done]. unfold flag. rewrite Z.lor_spec. apply orb_false_r. }
  assert (L4 : forall g x, rel g (su s) x -> rel g (su s4) x) by (intros g x R; rewrite H4; destruct R; by split).
  clearbody s4. clear s1 s2 s3 H4. cbv zeta.
  destruct (close_waits s4 P4 C4 Hw) as (s5 & E5 & P5 & C5 & R5 & L5 & Em).
  destruct (if negb (closing_wait cfg =? ASYNC_CLOSING_WAIT_NONE) then _ else _) as [s4'|]; [|done].
  cbn [mbind option_bind] in E5 |- *. cbv zeta in E5. rewrite E5. cbn [mbind option_bind]. clear E5 s4'.
  assert (S6 : exists u, uart_shutdown (su s5) = Some u /\ port_ok u /\ shut u /\ out (drv u) = out (drv (su s5))).
  { destruct C5 as [U|D].
    - destruct (shutdown_up _ P5 U) as (u & E & Pu & Su & _ & _ & _ & _ & O). by exists u.
    - exists (su s5). unfold uart_shutdown. change ASYNC_INITIALIZED with (1 .<< 31).
      rewrite land_bit_eqb0 by lia. fold (flag 31 (su s5)). rewrite (dn_set _ D). split_and!; [done|done| |done].
      destruct D. split; [done|done|by right]. }
  destruct S6 as (u6 & E6 & P6 & S6 & O6). unfold lift_su at 1. rewrite E6. cbn [mbind option_bind].
  set (s6 := on_su (fun _ => u6) s5).
  pose proof (same_rest_trans _ _ _ R4 R5) as (R1 & R2 & R3 & R6).
  assert (Hc6 : tcount (dev s6) <> 0).
  { change (tcount (set_closing false (dev s5)) <> 0). by rewrite R2. }
  destruct (flush_shut s6 P6 S6 Hc6) as (u7 & -> & P7 & D7 & _ & O7). cbn [mbind option_bind].
  destruct (close_finish (on_su (fun _ => u7) s6) P7 D7) as (s8 & E8 & C8 & R8 & O8 & N8); [by cbn; rewrite R1|].
  cbv zeta in E8. exists s8. split; [exact E8|]. split; [done|]. destruct R8 as (Q1 & Q2 & Q3 & Q4). split.
  { unfold same_rest. split_and!; [by rewrite Q1, <- R1|by rewrite Q2, <- R2|by rewrite Q3, <- R3|by rewrite Q4, <- R6]. }
  change (naps s8 = naps s5) in N8. unfold sends. rewrite N8, O8. cbn [su on_su]. rewrite O7. change (su s6) with u6.
  rewrite O6, <- N4. split; [intros g x R; apply (rel_wire _ _ _ (proj2 L5 _ _ (L4 _ _ R)))|].
  intros Hn g x R. rewrite <- N4. by apply (Em Hn), L4.
Qed.
End life.
