(* ===== verification/AscOpen.v ===== *)
(** * Opening, releasing and hanging up the serial port ([serial_core.c], [tty_io.c], [ifx_asc.c])

    Every call returns and keeps [life_ok]: the counts are those of the open files,
    and the port works, or has nothing to send.  For [AscLife]. *)

From S2P Require Import Prelude Icu Irq MpsRpc SerialCore SerialTx SerialOpen Asc AscTx AscClose.
Open Scope Z_scope.
#[local] Arguments Z.testbit : simpl never.
#[local] Arguments test_bit : simpl never.

(** ** Speed *)

Lemma cbaud_low v : 0 <= (v .& CBAUD) .& .~ CBAUDEX < 16 /\
  ((v .& CBAUD) .& CBAUDEX = 0 -> v .& CBAUD = (v .& CBAUD) .& .~ CBAUDEX).
Proof.
  split.
  - rewrite <- Z.land_assoc. change (CBAUD .& .~ CBAUDEX) with (Z.ones 4). rewrite Z.land_ones by lia.
    by apply Z.mod_pos_bound.
  - intros E. transitivity ((v .& CBAUD) .& CBAUDEX .| (v .& CBAUD) .& .~ CBAUDEX); [|by rewrite E].
    apply Z.bits_inj'. intros i Hi. rewrite Z.lor_spec, !(Z.land_spec (v .& CBAUD)), Z.lnot_spec by done.
    by destruct (Z.testbit (v .& CBAUD) i), (Z.testbit CBAUDEX i).
Qed.

(** Every setting has a speed. *)
Lemma baud_total t : exists b t', tty_get_baud_rate t = Some (b, t').
Proof.
  unfold tty_get_baud_rate. destruct (cbaud_low (c_cflag t)) as [B E].
  set (i := c_cflag t .& CBAUD) in *. set (j := i .& .~ CBAUDEX) in *. clearbody j.
  assert (T : forall k t', 0 <= k < 31 -> exists b t'', (if (k =? 15) && negb (alt_speed t' =? 0)
    then Some (alt_speed t', t') else b ← baud_table !! Z.to_nat k; Some (b, t')) = Some (b, t'')).
  { intros k t' Hk. destruct (_ && _); [eauto|].
    destruct (lookup_lt_is_Some_2 baud_table (Z.to_nat k)) as [b ->]; [cbn; lia|]. cbn. eauto. }
  destruct (Z.eqb_spec (i .& CBAUDEX) 0) as [E0|E0]; cbn [negb].
  - apply T. rewrite (E E0). lia.
  - cbv zeta. destruct (_ || _) eqn:Eb; [apply T; lia|apply T].
    apply orb_false_iff in Eb as [_ Eb]. unfold n_baud_table in Eb. rewrite Z.geb_leb, Z.leb_gt in Eb. lia.
Qed.

Lemma quot_total n : forall div old q (u : uart asc_drv), exists r u', quot_loop n div old q u = Some (r, u').
Proof.
  induction n as [|n IH]; intros div old q u; cbn [quot_loop]; [eauto|].
  destruct (baud_total (tty u)) as (b & t & ->). cbn [mbind option_bind].
  destruct (negb _); [eauto|]. destruct old; apply IH.
Qed.

Section life.
Context (fstat : nat -> nat -> Z) (polls : nat) (kmalloc : Z -> bool) (cfg : port_conf).
Context (jiffies : nat -> Z) (irqs : nat -> nat) (signal : nat -> bool) (fuel : nat).
Hypothesis M : machine_ok fstat polls jiffies fuel.
Implicit Types (u : uart asc_drv) (s : serial asc_drv) (o : opener).

#[local] Hint Extern 0 (UartOps asc_drv) => exact (asc_pops fstat polls kmalloc) : typeclass_instances.
#[local] Hint Extern 0 (TxView asc_drv) => exact (asc_view fstat polls false) : typeclass_instances.
Abbreviation rel := (@tx_rel asc_drv (asc_view fstat polls false)).
Abbreviation up := (AscClose.up fstat polls).
Abbreviation calm := (AscClose.calm fstat polls).
Abbreviation sends := (AscClose.sends fstat polls cfg jiffies irqs signal).
Abbreviation ln u := (line (port u)).
Abbreviation lirqs := (fun n => line_irqs fstat polls (irqs n)).

(** The flags of a port that opening and closing look at. *)
Definition same_flags u u' : Prop := flag 27 u' = flag 27 u /\ flag 30 u' = flag 30 u.

Lemma speed_spec div old u : ptype (port u) <> PORT_UNKNOWN -> has_tty (info u) = true -> 1024 <= uartclk (port u) ->
  exists u', uart_change_speed div old u = Some u' /\ same_lines (drv u) (drv u') /\ clk (drv u') = clk (drv u) /\
    port u' = set_masks (read_status_mask (port u')) (ignore_status_mask (port u')) (port u) /\
    2 <= timeout (info u') <= 2 ^ 27 /\ same_flags u u' /\ flag 31 u' = flag 31 u /\
    xmit (info u') = xmit (info u) /\ has_tty (info u') = true /\ tflags (tty u') = tflags (tty u).
Proof.
  intros Hp Ht Hc. unfold uart_change_speed. rewrite Ht. apply Z.eqb_neq in Hp. rewrite Hp. cbn [negb orb].
  destruct (quot_total 2 div old 0 u) as (q & u1 & Eq). rewrite Eq. cbn [mbind option_bind].
  apply quot_loop_only in Eq. destruct Eq as (E1 & E2 & E3 & _ & _ & _ & _ & _ & _ & E10). rewrite E1.
  assert (64 <= uartclk (port u) / 16) by (apply Z.div_le_lower_bound; lia).
  destruct (Z.eqb_spec (uartclk (port u) / 16) 0); [lia|].
  set (tmo := w32 (w32 _ / _ + HZ / 50)).
  assert (Htmo : 2 <= tmo <= 2 ^ 27).
  { subst tmo. match goal with |- context [w32 ?x / _] => set (a := w32 x) end.
    assert (0 <= a < 2 ^ 32) by (apply Z.mod_pos_bound; lia).
    assert (0 <= a / (uartclk (port u) / 16) <= 2 ^ 26).
    { split; [apply Z.div_pos; lia|]. apply Z.div_le_upper_bound; [lia|]. nia. }
    change (HZ / 50) with 2. rewrite w32_id; unfold is_u32; lia. }
  clearbody tmo. cbn [change_speed asc_pops ifx_asc_pops].
  match goal with |- context [ifx_asc_change_speed _ _ ?c ?f ?qq ?p ?d] =>
    assert (W : exists p' d', ifx_asc_change_speed fstat polls c f qq p d = Some (p', d') /\ clk d' = clk d) end.
  { unfold ifx_asc_change_speed. cbn [drv on_info].
    destruct (ok_empty _ _ _ _ M (length (out (drv u1)))) as (j & Hj & Ej).
    rewrite wait_ready by (exists j; split; [lia|done]). cbn. eauto. }
  destruct W as (p & d & W & Ec). rewrite W. cbn [mbind option_bind]. apply change_speed_same in W as [W1 W2].
  eexists. split; [done|]. cbn [drv port info tty on_info] in *. rewrite E1 in W2. rewrite E3 in *. rewrite W2.
  unfold same_flags, flag. cbn [iflags info on_info set_iflags set_timeout timeout xmit has_tty]. rewrite E2, E10.
  split_and!; try done; try lia.
  all: unfold ASYNC_CTS_FLOW, ASYNC_CHECK_CD; repeat match goal with |- context [if ?b then _ else _] => destruct b end; status_bits; done.
Qed.

Lemma speed_calm div old u : port_ok u -> calm u -> has_tty (info u) = true -> 1024 <= uartclk (port u) ->
  exists u', uart_change_speed div old u = Some u' /\ port_ok u' /\ calm u' /\ has_tty (info u') = true /\
    flag 31 u' = flag 31 u /\ same_flags u u' /\ tflags (tty u') = tflags (tty u) /\
    uartclk (port u') = uartclk (port u).
Proof.
  intros P C Ht Hc.
  destruct (speed_spec div old u (po_type _ P) Ht Hc) as (u' & E & S & Ec & Ep & T & F & F31 & X & Ht' & Et).
  exists u'. split; [done|]. assert (El : ln u' = ln u) by (by rewrite Ep).
  split_and!; try done; try (by apply F); [| |by rewrite Ep].
  - destruct P. split; rewrite ?Et, ?Ec; try done; by rewrite Ep.
  - destruct C as [[(g & x & R) Tu Ku Fu]|[Du Ru Fu Hu]].
    + left. split; [|done|by rewrite Ep|by rewrite F31]. exists g, x.
      by destruct (change_speed_rel _ _ _ _ _ _ _ _ _ R E).
    + right. split; [|unfold ring_off in *; by rewrite X|by rewrite F31|by rewrite Et].
      rewrite El. by apply (free_drv_same _ _ _ S).
Qed.

(** ** Starting *)

Definition broken u : Prop := test_bit TTY_IO_ERROR (tflags (tty u)) = true.

Lemma fpi_half m : 1024 <= danube_get_fpi_hz m / 2.
Proof.
  unfold danube_get_fpi_hz, danube_get_ddr_hz.
  destruct (negb _); repeat match goal with |- context [if ?b then _ else _] => destruct b end; by vm_compute.
Qed.

Lemma flag_init u : (iflags (info u) .& ASYNC_INITIALIZED =? 0) = negb (flag 31 u).
Proof. change ASYNC_INITIALIZED with (1 .<< 31). by rewrite land_bit_eqb0. Qed.

(** The speed is set, and the error flag cleared, when the driver has started. *)
Lemma speed_set div u : port_ok u -> has_tty (info u) = true -> 1024 <= uartclk (port u) ->
  exists u', uart_change_speed div None
      (uart_update_altspeed (on_tty (fun t => set_tflags (tflags t .& .~ (1 .<< TTY_IO_ERROR)) t) u)) = Some u' /\
    port_ok u' /\ has_tty (info u') = true /\ same_flags u u' /\ 2 <= timeout (info u') <= 2 ^ 27 /\
    1024 <= uartclk (port u') /\ test_bit TTY_IO_ERROR (tflags (tty u')) = false.
Proof.
  intros P Ht Hk. set (u3 := uart_update_altspeed _).
  pose proof (altspeed_only (on_tty (fun t => set_tflags (tflags t .& .~ (1 .<< TTY_IO_ERROR)) t) u)) as A.
  fold u3 in A. destruct A as (A1 & A2 & A3 & _ & _ & _ & _ & _ & _ & A10). cbn in A1, A2, A3, A10. clearbody u3.
  destruct P as [Q1 Q2 Q3 Q4 Q5].
  destruct (speed_spec div None u3) as (u4 & E4 & _ & Ek & Ep4 & T4 & F4 & _ & _ & Ht4 & Et4); [by rewrite A1|by rewrite A2|by rewrite A1|].
  assert (Kc : port_ok u4).
  { split; rewrite ?Et4, ?Ek, ?A3, ?A10.
    1-3: rewrite Ep4; cbn; by rewrite A1.
    - exact Q4.
    - rewrite <- Q5. by apply tty_bit_other; unfold TTY_CLOSING, TTY_IO_ERROR. }
  exists u4. do 3 (split; [done|]). split; [unfold same_flags, flag in *; by rewrite A2 in F4|].
  do 2 (split; [done || (rewrite Ep4; cbn; by rewrite A1)|]). rewrite Et4, A10. by apply tty_bit_clear.
Qed.

(** A port that could not be started, with or without the error flag. *)
Lemma start_failed u u' : port_ok u -> down u -> has_tty (info u) = true ->
  u' = u \/ u' = on_tty (fun t => set_tflags (tflags t .| 1 .<< TTY_IO_ERROR) t) u ->
  port_ok u' /\ has_tty (info u') = true /\ same_flags u u' /\ down u' /\ uartclk (port u') = uartclk (port u).
Proof.
  intros P D Ht [-> | ->]; [done|]. split_and!; try done.
  - destruct P as [Q1 Q2 Q3 Q4 Q5]. split; try done. rewrite <- Q5. cbn.
    by apply tty_bit_other; unfold TTY_CLOSING, TTY_IO_ERROR.
  - destruct D as [? ? ? H4]. split; try done. rewrite <- H4. cbn.
    by apply tty_bit_other; unfold TTY_THROTTLED, TTY_IO_ERROR.
Qed.

(** A port that does not work, whatever its ring holds if there is memory for it. *)
Lemma startup_off page cap div u : port_ok u -> free_drv (ln u) (drv u) -> flag 31 u = false ->
  test_bit TTY_THROTTLED (tflags (tty u)) = false -> (page = false -> ring_off u) -> has_tty (info u) = true ->
  exists r u', uart_startup page cap div u = Some (r, u') /\ port_ok u' /\ has_tty (info u') = true /\
    same_flags u u' /\ (r = 0 \/ r = - ENOMEM) /\
    (down u' /\ (r = 0 -> broken u' /\ 1024 <= uartclk (port u')) \/ r = 0 /\ up u').
Proof.
  intros P D Hi Hthr Hpage Ht. assert (St : startable u).
  { destruct P, D as [Hok Hq Hf]. split; try done. apply Z.eqb_eq. by rewrite flag_init, Hi. }
  assert (T : exists r u', uart_startup page cap div u = Some (r, u') /\ port_ok u' /\ has_tty (info u') = true /\
    same_flags u u' /\ (r = 0 \/ r = - ENOMEM) /\ (down u' /\ (r = 0 -> broken u' /\ 1024 <= uartclk (port u')) \/
      r = 0 /\ test_bit TTY_IO_ERROR (tflags (tty u')) = false /\ 2 <= timeout (info u') <= 2 ^ 27 /\
      1024 <= uartclk (port u') /\ flag 31 u' = true)).
  2: { destruct T as (r & u' & E & P' & Ht' & F & Rr & [C|(-> & Io & T & K & F31)]).
    - exists r, u'. do 5 (split; [done|]). by left.
    - exists 0, u'. do 5 (split; [done|]). right. split; [done|]. split; [|done|done|done].
      eexists _, _. by apply (startup_rel _ _ _ _ _ _ _ _ St E Io). }
  unfold uart_startup. destruct page; cbn [negb].
  2: { exists (- ENOMEM), u. do 4 (split; [done|]). split; [by right|]. left. split; [split; auto|]. discriminate. }
  rewrite flag_init, Hi. cbn [negb].
  destruct (Z.eqb_spec (ptype (port u)) PORT_UNKNOWN) as [Z|_]; [by destruct (po_type _ P)|].
  set (x := if present _ then _ else _). set (u1 := on_info _ (on_info _ (on_info _ u))).
  destruct (startup_spec kmalloc (port u) (drv u)) as (r0 & p0 & d0 & Es & Lo & Qo & _ & Ep & Ec & Hr);
    [apply P|apply D|apply D|apply D|].
  change (startup (port u1) (drv u1)) with (ifx_asc_startup kmalloc (port u) (drv u)).
  rewrite Es. cbn [mbind option_bind]. set (u2 := mk_uart p0 (info u1) (tty u1) d0).
  assert (K : 1024 <= clk d0) by
    (rewrite Ec; destruct (Z.eqb_spec (clk (drv u)) 0); [apply fpi_half|destruct (po_clk _ P); [done|lia]]).
  assert (P2 : port_ok u2) by (destruct P; split; cbn; rewrite ?Ep; try done; by right).
  change (has_tty (info u2)) with (has_tty (info u)). rewrite Ht.
  destruct (Z.eqb_spec r0 0) as [->|Z]; cbn [negb].
  - destruct (speed_set div u2 P2 Ht) as (u4 & E4 & P4 & Ht4 & F4 & T4 & K4 & I4); [cbn; by rewrite Ep|].
    rewrite E4. cbn [mbind option_bind]. rewrite Ht4. cbn [negb]. eexists 0, _. split; [done|].
    split; [destruct P4; by split|]. split; [exact Ht4|]. unfold same_flags, flag, ASYNC_INITIALIZED in *.
    cbn [iflags info on_info set_iflags uart_set_mctrl on_drv set_mctrl] in *.
    split; [status_bits; exact F4|]. split; [by left|]. right. do 4 (split; [done|]). by status_bits.
  - assert (D2 : down u2) by (destruct D, Hr; split; try done; split; try done; cbn; by rewrite Ep).
    assert (C2 : 1024 <= uartclk (port u2)) by (cbn; by rewrite Ep).
    destruct Hr as [_ Hr]. destruct cap.
    + destruct (start_failed u2 _ P2 D2 Ht (or_intror eq_refl)) as (B1 & B2 & B3 & B4 & B5).
      eexists 0, _. split; [done|]. do 3 (split; [done|]). split; [by left|]. left. split; [done|].
      intros _. split; [|by rewrite B5]. unfold broken. cbn. apply error_bit.
    + exists r0, u2. split; [done|]. do 3 (split; [done|]). split; [by right|]. left. by split.
Qed.

Lemma startup_down page cap div u : port_ok u -> down u -> has_tty (info u) = true ->
  exists r u', uart_startup page cap div u = Some (r, u') /\ port_ok u' /\ has_tty (info u') = true /\
    same_flags u u' /\ (r = 0 \/ r = - ENOMEM) /\
    (down u' /\ (r = 0 -> broken u' /\ 1024 <= uartclk (port u')) \/ r = 0 /\ up u').
Proof. intros P [D1 D2 D3 D4]. by apply startup_off. Qed.

Lemma startup_calm page cap div u : port_ok u -> calm u -> has_tty (info u) = true ->
  exists r u', uart_startup page cap div u = Some (r, u') /\ port_ok u' /\ calm u' /\ has_tty (info u') = true /\
    same_flags u u' /\ (r = 0 \/ r = - ENOMEM) /\ (r = 0 -> 1024 <= uartclk (port u') /\ (up u' \/ broken u')).
Proof.
  intros P [U|D] Ht.
  - unfold uart_startup. destruct page; cbn [negb].
    + rewrite flag_init, (up_set _ _ _ U). exists 0, u. do 2 (split; [done|]). split; [by left|]. do 2 (split; [done|]). split; [by left|].
      intros _. split; [apply (up_clk _ _ _ U)|by left].
    + exists (- ENOMEM), u. do 2 (split; [done|]). split; [by left|]. do 2 (split; [done|]). split; [by right|discriminate].
  - destruct (startup_down page cap div u P D Ht) as (r & u' & E & P' & Ht' & F & Rr & [[D' H]|[-> U']]).
    + exists r, u'. do 2 (split; [done|]). split; [by right|]. do 3 (split; [done|]).
      intros Hr. destruct (H Hr) as [B K]. split; [done|by right].
    + exists 0, u'. do 2 (split; [done|]). split; [by left|]. do 3 (split; [done|]).
      intros _. split; [apply (up_clk _ _ _ U')|by left].
Qed.

(** ** The port, seen through its count *)

(** [n] files of the terminal count. *)
Record core (n : nat) s : Prop := {
  co_port : port_ok (su s);
  co_closing : flag 27 (su s) = false;
  co_callout : flag 30 (su s) = false;
  co_count : ucount (state s) = Z.of_nat n;
  co_blocked : blocked_open (openers s) = 0;
  co_state : match n with O => down (su s) | _ => has_tty (info (su s)) = true /\ calm (su s) end
}.

(** The terminal, but for its field [closing]. *)
Definition same_dev s s' : Prop :=
  set_closing false (dev s') = set_closing false (dev s) /\ have_info (state s') = have_info (state s).

Hypothesis Hwait : 0 < closing_wait cfg < 65536.

Lemma core_calm n s : core n s -> calm (su s).
Proof. intros [_ _ _ _ _ H]. destruct n; [by right|apply H]. Qed.

Lemma close_core n s : core (S n) s -> driver_data (dev s) = true -> tcount (dev s) <> 0 ->
  (tcount (dev s) = 1 -> n = 0%nat) ->
  exists s', uart_close cfg jiffies lirqs signal fuel false s = Some s' /\ core n s' /\ same_dev s s' /\
    (n = 0%nat -> sends s s').
Proof.
  intros C Hd Hc H1. pose proof (core_calm _ _ C) as Ca. destruct C as [P F1 F2 Hn Hb [Ht _]].
  unfold uart_close. rewrite Hd, Hn. cbn [negb].
  assert ((if (tcount (dev s) =? 1) && negb (Z.of_nat (S n) =? 1) then 1 else Z.of_nat (S n)) = Z.of_nat (S n)) as ->.
  { destruct (Z.eqb_spec (tcount (dev s)) 1) as [E|]; [|done]. by rewrite (H1 E). }
  replace (Z.of_nat (S n) - 1) with (Z.of_nat n) by lia.
  destruct (Z.ltb_spec (Z.of_nat n) 0); [lia|].
  destruct n as [|n]; cbn [Z.of_nat Z.eqb negb].
  - destruct (close_last_ok fstat polls kmalloc cfg jiffies irqs signal fuel M (on_state (set_ucount 0) s) P Ca
      Hwait Hb Hc) as (s' & E & (P' & D' & G1 & G2) & (R1 & R2 & R3 & R4) & Sn).
    exists s'. split; [exact E|]. split; [|by split].
    split; try done. by rewrite R1.
  - eexists. split; [done|]. split; [|done]. by split.
Qed.

Lemma flush_same u : let u' := uart_flush_buffer true u in
  port u' = port u /\ drv u' = drv u /\ ring_off u' /\ kept u' = kept u.
Proof. unfold uart_flush_buffer, ring_off. by destruct (_ && _). Qed.

Lemma flush_calm u : calm u -> calm (uart_flush_buffer true u) /\ (down u -> down (uart_flush_buffer true u)).
Proof.
  destruct (flush_same u) as (E1 & E2 & R & K).
  assert (Dn : down u -> down (uart_flush_buffer true u)).
  { intros [D1 D2 D3 D4]. pose proof (kept_flag 31 _ _ K) as K1. unfold kept in K. injection K. intros.
    split; [by rewrite E1, E2|done|congruence|congruence]. }
  intros [U|D]; (split; [|done]); [left|right; auto]. by apply (flush_up fstat polls kmalloc jiffies fuel M).
Qed.

Lemma hang_core n s : core n s -> driver_data (dev s) = true ->
  test_bit TTY_THROTTLED (tflags (tty (su s))) = false ->
  exists s', hangup_port s = Some s' /\ core 0 s' /\ same_dev s s'.
Proof.
  intros C Hd Hthr. pose proof (core_calm _ _ C) as Ca. destruct C as [P F1 F2 _ Hb _].
  unfold hangup_port. rewrite Hd. cbn [negb]. change ASYNC_CLOSING with (1 .<< 27). rewrite has_flag_bit, F1 by lia.
  assert (H : exists u, uart_hangup true (su s) = Some u /\ port_ok u /\ down u /\ flag 27 u = false /\ flag 30 u = false).
  { unfold uart_hangup. set (u := uart_flush_buffer true (su s)).
    destruct (flush_same (su s)) as (_ & _ & R & K). destruct (flush_calm _ Ca) as [Cu _]. fold u in R, K, Cu.
    pose proof (kept_port _ _ K P) as Pu.
    rewrite <- (kept_flag 27 _ _ K) in F1. rewrite <- (kept_flag 30 _ _ K) in F2.
    assert (Et : test_bit TTY_THROTTLED (tflags (tty u)) = false)
      by (replace (tflags (tty u)) with (tflags (tty (su s))) by (unfold kept in K; injection K; congruence); done).
    clearbody u. change ASYNC_CLOSING with (1 .<< 27). rewrite land_bit_eqb0 by lia. fold (flag 27 u). rewrite F1. cbn [negb].
    assert (S : exists u1, uart_shutdown u = Some u1 /\ port_ok u1 /\ down u1 /\ flag 27 u1 = false /\ flag 30 u1 = false).
    { destruct Cu as [U|D].
      - destruct (shutdown_up fstat polls kmalloc u Pu U) as (u1 & E & P1 & [S1 S2 _] & R1 & T1 & G1 & G2 & _).
        exists u1. rewrite G1, G2, F1, F2. do 2 (split; [done|]). split; [|done].
        split; [done|by apply R1|done|by rewrite T1].
      - exists u. unfold uart_shutdown. by rewrite flag_init, (dn_set _ D). }
    destruct S as (u1 & -> & P1 & D1 & G1 & G2). cbn [mbind option_bind]. eexists. split; [done|].
    unfold flag in *. cbn [info on_info iflags set_iflags set_event set_has_tty].
    split; [destruct P1; by split|]. split; [|unfold ASYNC_NORMAL_ACTIVE, ASYNC_CALLOUT_ACTIVE; status_bits; done].
    destruct D1 as [D1 D2 D3 D4]. split; try done. unfold flag in *.
    cbn [info on_info iflags set_iflags set_event set_has_tty]. unfold ASYNC_NORMAL_ACTIVE, ASYNC_CALLOUT_ACTIVE. status_bits. done. }
  destruct H as (u & Eu & Pu & Du & G1 & G2). unfold lift_su. rewrite Eu. cbn [mbind option_bind].
  eexists. split; [done|]. split; [|done]. by split.
Qed.

(** ** Opening *)

Hypothesis Hflags : Z.testbit (port_flags cfg) 27 = false /\ Z.testbit (port_flags cfg) 30 = false /\
  Z.testbit (port_flags cfg) 31 = false.

(** A change of the terminal that does not concern output or its flags. *)
Lemma tty_calm f u : (forall t, stopped (f t) = stopped t /\ tflags (f t) = tflags t) -> calm u -> calm (on_tty f u).
Proof.
  intros Hf [[(g & x & R) T K F]|[D1 D2 D3 D4]]; destruct (Hf (tty u)) as [H1 H2].
  - left. split; try done. exists (config_of (on_tty f u)), x. destruct R. split; try done. cbn. congruence.
  - right. split; try done. cbn. by rewrite H2.
Qed.
Lemma tty_port f u : (forall t, tflags (f t) = tflags t) -> port_ok u -> port_ok (on_tty f u).
Proof. intros Hf [P1 P2 P3 P4 P5]. split; try done. cbn. by rewrite Hf. Qed.

Lemma mctrl_calm v u : calm u -> calm (uart_set_mctrl v u).
Proof.
  intros [[(g & x & R) T K F]|[D1 D2 D3 D4]]; [left|right]; split; try done.
  exists g, x. destruct R. by split.
Qed.
Lemma info_calm f u :
  (forall i, xmit (f i) = xmit i /\ iflags (f i) = iflags i /\ timeout (f i) = timeout i /\ (has_tty i = true -> has_tty (f i) = true)) ->
  calm u -> calm (on_info f u).
Proof.
  intros Hf C. destruct (Hf (info u)) as (H1 & H2 & H3 & H4).
  destruct C as [[(g & x & R) T K F]|[[Q1 Q2 Q3] D2 D3 D4]]; [left|right].
  - split; unfold flag in *; cbn [info on_info port]; rewrite ?H2, ?H3; try done.
    exists g, x. destruct R. split; cbn [info on_info port tty drv]; rewrite ?H1; auto.
  - split; unfold flag, ring_off in *; cbn [info on_info port]; rewrite ?H1, ?H2; try done.
Qed.

(** What an open needs of the port, and keeps. *)
Record opening (n : nat) s : Prop := {
  og_port : port_ok (su s);
  og_calm : calm (su s);
  og_tty : has_tty (info (su s)) = true;
  og_closing : flag 27 (su s) = false;
  og_callout : flag 30 (su s) = false;
  og_count : ucount (state s) = Z.of_nat (S n);
  og_blocked : blocked_open (openers s) = 0
}.

Lemma opening_core n s : opening n s -> core (S n) s.
Proof. intros [? ? ? ? ? ? ?]. by split. Qed.

Lemma opening_set n u s : opening n s -> port_ok u -> calm u -> has_tty (info u) = true -> same_flags (su s) u ->
  opening n (on_su (fun _ => u) s).
Proof. intros [? ? ? Fc Fo ? ?] P C Ht [F1 F2]. rewrite Fc in F1. rewrite Fo in F2. by split. Qed.

Lemma opening_active n s : opening n s -> opening n (add_flag ASYNC_NORMAL_ACTIVE s).
Proof.
  intros [P C T F1 F2 ? ?]. split; try done; [destruct P; by split| | |].
  - apply calm_flags; [|done]. unfold flag, ASYNC_NORMAL_ACTIVE. by status_bits.
  - unfold flag, add_flag, ASYNC_NORMAL_ACTIVE in *. cbn [su on_su info on_info iflags set_iflags]. by status_bits.
  - unfold flag, add_flag, ASYNC_NORMAL_ACTIVE in *. cbn [su on_su info on_info iflags set_iflags]. by status_bits.
Qed.

(** This hardware always has a carrier: an open never waits. *)
Lemma block_ok o n s : opening n s -> callout (dev s) = false -> up (su s) \/ broken (su s) ->
  exists s', uart_block_til_ready lirqs signal fuel o false s = Some (0, s') /\ opening n s' /\
    dev s' = dev s /\ state s' = state s /\ uartclk (port (su s')) = uartclk (port (su s)).
Proof.
  intros G Hd Hub. pose proof G as [P C T F1 F2 Hn Hb]. unfold uart_block_til_ready. cbn [orb].
  change ASYNC_CLOSING with (1 .<< 27). change ASYNC_CALLOUT_ACTIVE with (1 .<< 30).
  rewrite !has_flag_bit, F1, F2, Hd by lia.
  destruct (nonblock o || o_console o || tty_bit TTY_IO_ERROR s) eqn:En.
  { eexists. split; [done|]. by split; [apply opening_active|]. }
  destruct Hub as [U|B]; [|unfold tty_bit in En; unfold broken in B; by rewrite B, orb_true_r in En].
  set (clocal := negb (c_cflag _ .& CLOCAL =? 0)). cbv zeta.
  set (s1 := on_blocked (fun n => n + 1) (on_state (fun x => set_ucount (ucount x - 1) x) s)).
  assert (L : exists s2, block_loop lirqs signal fuel false clocal s1 = Some (0, s2) /\
    (s2 = s1 \/ exists v, s2 = on_su (uart_set_mctrl v) s1)).
  { pose proof (ok_fuel _ _ _ _ M) as Hf. destruct (ok_room _ _ _ _ M 0%nat) as (k & Hk & _).
    destruct fuel as [|fu]; [lia|]. cbn [block_loop].
    set (s2 := if negb _ && negb _ then _ else s1).
    assert (S2 : s2 = s1 \/ exists v, s2 = on_su (uart_set_mctrl v) s1).
    { subst s2. destruct (_ && _); [right|by left]. eexists. reflexivity. }
    exists s2. split; [|done].
    assert (X : flag 31 (su s2) = true /\ flag 30 (su s2) = false /\ flag 27 (su s2) = false)
      by (destruct S2 as [-> |[v ->]]; split_and!; try done; apply (up_set _ _ _ U)).
    clearbody s2. destruct X as (X1 & X2 & X3). change ASYNC_INITIALIZED with (1 .<< 31).
    change ASYNC_CLOSING with (1 .<< 27). change ASYNC_CALLOUT_ACTIVE with (1 .<< 30).
    rewrite !has_flag_bit, X1, X2, X3 by lia. cbn [negb orb andb]. by rewrite orb_true_r. }
  destruct L as (s2 & -> & S2). cbn [mbind option_bind Z.eqb negb].
  eexists. split; [done|].
  assert (G2 : opening n (on_blocked (fun n => n - 1) (on_state (fun x => set_ucount (ucount x + 1) x) s2)) /\
    dev s2 = dev s /\ uartclk (port (su s2)) = uartclk (port (su s)) /\ ucount (state s2) = ucount (state s) - 1 /\
    set_ucount 0 (state s2) = set_ucount 0 (state s)).
  { destruct S2 as [-> |[v ->]].
    - split; [|done]. split; try done; cbn; lia.
    - split; [|done]. split; try done; [destruct P; by split|by apply mctrl_calm|cbn; lia|cbn; lia]. }
  destruct G2 as (G2 & A1 & A2 & A3 & A4). split; [by apply opening_active|]. split_and!; try done.
  cbn [state add_flag on_su on_blocked put_openers on_state]. rewrite A3. destruct (state s), (state s2). cbn in *.
  unfold set_ucount in *. cbn in *. simplify_eq. f_equal. lia.
Qed.

Lemma first_ok n s : opening n s -> 1024 <= uartclk (port (su s)) ->
  exists s', first_open cfg s = Some s' /\ opening n s' /\ dev s' = dev s /\ state s' = state s.
Proof.
  intros G K. unfold first_open.
  set (s1 := if has_flag ASYNC_SPLIT_TERMIOS s then _ else s).
  assert (S1 : opening n s1 /\ dev s1 = dev s /\ state s1 = state s /\ uartclk (port (su s1)) = uartclk (port (su s))).
  { subst s1. destruct (has_flag _ s); [|done]. split; [|done]. destruct G as [P C T F1 F2 ? ?]. split; try done.
    - by apply tty_port.
    - by apply tty_calm. }
  set (cons := negb _ && _). set (s2 := if cons then _ else s1).
  assert (S2 : opening n s2 /\ dev s2 = dev s /\ state s2 = state s /\ uartclk (port (su s2)) = uartclk (port (su s))).
  { destruct S1 as (G1 & ? & ? & ?). subst s2. destruct cons; [|done]. split; [|done].
    destruct G1 as [P C T F1 F2 ? ?]. split; try done.
    - by apply tty_port.
    - by apply tty_calm. }
  clearbody s2 cons. destruct S2 as (G2 & A1 & A2 & A3). clear s1 S1.
  destruct (_ || _); [|by exists s2].
  destruct (speed_calm (custom_divisor cfg) None (su s2)) as (u & E & P & C & T & _ & F & _ & _);
    [apply G2|apply G2|apply G2|by rewrite A3|].
  unfold lift_su. rewrite E. cbn [mbind option_bind]. eexists. split; [done|]. split; [|done].
  by apply opening_set.
Qed.

(** [uart_info] is there, or is allocated for a port that no file counts on. *)
Lemma get_ok o n s : core n s -> have_info (state s) = true \/ mem_info o = true /\ n = 0%nat ->
  exists s1, uart_get cfg (mem_info o) s = (true, s1) /\ port_ok (su s1) /\ calm (su s1) /\
    flag 27 (su s1) = false /\ flag 30 (su s1) = false /\ ucount (state s1) = Z.of_nat (S n) /\
    blocked_open (openers s1) = 0 /\ dev s1 = dev s /\ port (su s1) = port (su s) /\ have_info (state s1) = true.
Proof.
  intros C Hi. pose proof (core_calm _ _ C) as Ca. destruct C as [P F1 F2 Hn Hb Hs]. unfold uart_get.
  set (s0 := on_state _ s). change (have_info (state s0)) with (have_info (state s)).
  destruct (have_info (state s)) eqn:Eh.
  - exists s0. split_and!; try done. cbn. rewrite Hn. lia.
  - destruct Hi as [?|[-> ->]]; [done|]. eexists. split; [done|].
    destruct Hflags as (G1 & G2 & G3). split_and!; try done; [destruct P; by split| |cbn; by rewrite Hn].
    right. destruct Hs as [D1 D2 D3 D4]. by split.
Qed.

Lemma open_core o n s : core n s -> line (port (su s)) < nr cfg -> callout (dev s) = false ->
  have_info (state s) = true \/ mem_info o = true /\ n = 0%nat ->
  exists r s', uart_open cfg lirqs signal fuel o false s = Some (r, s') /\ (r = 0 \/ r = - ENOMEM) /\
    core (S n) s' /\ dev s' = set_driver_data true (dev s) /\ have_info (state s') = true.
Proof.
  intros C Hl Hd Hi. unfold uart_open. rewrite Z.geb_leb. destruct (Z.leb_spec (nr cfg) (line (port (su s)))); [lia|].
  destruct (get_ok o n s C Hi) as (s1 & -> & P1 & C1 & F1 & F2 & N1 & B1 & Dv & _ & I1). cbn [negb].
  set (s2 := on_su _ (on_su _ (on_dev _ s1))).
  assert (G2 : opening n s2 /\ dev s2 = set_driver_data true (dev s) /\ have_info (state s2) = true).
  { split; [|split; [cbn; by rewrite Dv|done]]. split; try done.
    - apply tty_port; [done|]. destruct P1. by split.
    - apply tty_calm; [done|]. by apply info_calm. }
  clearbody s2. destruct G2 as (G2 & D2 & I2). clear s1 P1 C1 F1 F2 N1 B1 Dv I1.
  assert (A : exists r s3, uart_alloc_tmpbuf (mem_tmp o) s2 = (r, s3) /\ opening n s3 /\
    dev s3 = set_driver_data true (dev s) /\ have_info (state s3) = true).
  { unfold uart_alloc_tmpbuf. destruct (tmp_buf s2); [by exists 0, s2|].
    destruct (mem_tmp o); [|by exists (- ENOMEM), s2]. eexists 0, _. split; [done|]. split; [|done]. destruct G2. by split. }
  destruct A as (r & s3 & -> & G3 & D3 & I3). clear s2 G2 D2 I2.
  destruct (negb (r =? 0)); [exists (- ENOMEM), s3; split; [done|split; [by right|by split; [apply opening_core|]]]|].
  cbn [orb]. change ASYNC_CLOSING with (1 .<< 27). rewrite has_flag_bit, (og_closing _ _ G3) by lia.
  destruct (startup_calm (mem_ring o) (capable o) (custom_divisor cfg) (su s3)) as (r3 & u & E & Pu & Cu & Tu & Fu & Rr & K);
    [apply G3..|]. rewrite E. cbn [mbind option_bind]. pose proof (opening_set n u s3 G3 Pu Cu Tu Fu) as G4.
  destruct (Z.eqb_spec r3 0) as [Er|Er]; cbn [negb];
    [|exists r3, (on_su (fun _ => u) s3); split; [done|split; [done|by split; [apply opening_core|]]]].
  destruct (K Er) as [Kc Kb]. destruct (block_ok o n (on_su (fun _ => u) s3) G4) as (s5 & E5 & G5 & D5 & S5 & K5);
    [cbn; rewrite D3; exact Hd|exact Kb|]. rewrite E5. cbn [mbind option_bind Z.eqb negb].
  assert (F : exists s6, (if ucount (state s5) =? 1 then first_open cfg s5 else Some s5) = Some s6 /\ opening n s6 /\
    dev s6 = dev s5 /\ state s6 = state s5).
  { destruct (_ =? 1); [|by exists s5]. apply first_ok; [done|]. rewrite K5. exact Kc. }
  destruct F as (s6 & -> & G6 & D6 & S6). cbn [mbind option_bind]. eexists 0, _. split; [done|].
  split; [by left|]. split; [|cbn; rewrite D6, D5, S6, S5; by split]. apply opening_core. destruct G6. by split.
Qed.

(** ** The terminal and its files *)

(** The files that are not hung up. *)
Definition live (l : list tty_file) : nat := length (filter (fun f => negb (hung f)) l).

Record life_ok s : Prop := {
  lf_core : core (live (files (dev s))) (if there (dev s) then s else on_su (on_tty (set_tflags 0)) s);
  lf_tcount : tcount (dev s) = Z.of_nat (length (files (dev s)));
  lf_there : there (dev s) = negb (bool_decide (files (dev s) = []));
  lf_data : files (dev s) <> [] -> driver_data (dev s) = true;
  lf_info : have_info (state s) = false -> files (dev s) = [];
  lf_console : Forall (fun f => console f = true -> hung f = false) (files (dev s))
}.

Lemma live_app l1 l2 : live (l1 ++ l2) = (live l1 + live l2)%nat.
Proof. unfold live. by rewrite filter_app, length_app. Qed.
Lemma live_cons f l : live (f :: l) = if hung f then live l else S (live l).
Proof. unfold live. rewrite filter_cons. by destruct (hung f). Qed.
Lemma live_le l : (live l <= length l)%nat.
Proof. apply length_filter. Qed.

Lemma live_delete l i f : l !! i = Some f ->
  live l = (if hung f then live (delete i l) else S (live (delete i l))) /\ length l = S (length (delete i l)).
Proof.
  intros E. rewrite delete_take_drop, live_app, length_app. pose proof (take_drop_middle _ _ _ E) as T.
  assert (live l = (live (take i l) + live (f :: drop (S i) l))%nat) as -> by (by rewrite <- live_app, T).
  assert (length l = (length (take i l) + length (f :: drop (S i) l))%nat) as -> by (by rewrite <- length_app, T).
  rewrite live_cons. cbn [length]. destruct (hung f); lia.
Qed.

(** The flags of the terminal that matter to the port. *)
Lemma core_tflags n v s : core n s -> test_bit TTY_THROTTLED v = test_bit TTY_THROTTLED (tflags (tty (su s))) \/
    test_bit TTY_THROTTLED v = false \/ flag 31 (su s) = true ->
  test_bit TTY_CLOSING v = false -> core n (on_su (on_tty (set_tflags v)) s).
Proof.
  intros [P F1 F2 Hn Hb H] Ht Hc.
  assert (C : forall x, x = on_tty (set_tflags v) (su s) -> port_ok x /\ (up (su s) -> up x) /\ (down (su s) -> down x)).
  { intros x ->. split_and!.
    - destruct P. by split.
    - intros [(g & y & R) T K F]. split; try done. exists g, y. destruct R. by split.
    - intros [D1 D2 D3 D4]. split; try done. cbn. destruct Ht as [-> |[?|?]]; [done|done|congruence]. }
  destruct (C _ eq_refl) as (P' & U' & D'). split; try done.
  destruct n; [by apply D'|]. destruct H as [H1 [H2|H2]]; (split; [done|]); [left; by apply U'|right; by apply D'].
Qed.

(** What happens to an open port. *)
Lemma core_call n u s : core (S n) s -> up u -> kept u = kept (su s) -> core (S n) (on_su (fun _ => u) s).
Proof.
  intros [P F1 F2 Hn Hb [Ht _]] U K. split; try done.
  - by eapply kept_port.
  - by rewrite <- F1; apply kept_flag.
  - by rewrite <- F2; apply kept_flag.
  - split; [|by left]. unfold kept in K. injection K. intros. cbn. congruence.
Qed.

Lemma core_up n s : core n s -> flag 31 (su s) = true -> up (su s) /\ exists m, n = S m.
Proof.
  intros C F. destruct n as [|n]; [by rewrite (dn_set _ (co_state _ _ C)) in F|]. split; [|eauto].
  destruct (core_calm _ _ C) as [U|D]; [done|by rewrite (dn_set _ D) in F].
Qed.

(** ** Releasing a file *)

Lemma release_dev_ok i f s : life_ok s -> files (dev s) !! i = Some f ->
  exists s', release_dev cfg jiffies lirqs signal fuel i s = Some s' /\ life_ok s' /\
    files (dev s') = delete i (files (dev s)) /\
    (hung f = false -> live (files (dev s)) = 1%nat -> sends s s' /\ ring_off (su s')).
Proof.
  intros [C Ht Hh Hd Hi Hc] E. unfold release_dev. rewrite E. cbn [mbind option_bind].
  destruct (live_delete _ _ _ E) as [L1 L2]. assert (N : files (dev s) <> []) by (intros N; by rewrite N in E).
  rewrite Hh, bool_decide_false in C by done. cbn [negb] in C. specialize (Hd N).
  assert (S1 : exists s1, uart_close cfg jiffies lirqs signal fuel (hung f) s = Some s1 /\
    core (live (delete i (files (dev s)))) s1 /\ same_dev s s1 /\
    (hung f = false -> live (files (dev s)) = 1%nat -> sends s s1 /\ ring_off (su s1))).
  { destruct (hung f) eqn:Ef.
    - exists s. unfold uart_close. rewrite Hd. cbn [negb]. split; [done|]. split; [by rewrite <- L1|done].
    - rewrite L1 in C. destruct (close_core _ s C Hd) as (s1 & E1 & C1 & D1 & Sn);
        [lia|pose proof (live_le (delete i (files (dev s)))); lia|]. exists s1. split_and!; [done..|].
      intros _ Hl. assert (live (delete i (files (dev s))) = 0%nat) as Z by lia. rewrite Z in *.
      split; [by apply Sn|apply (dn_ring _ (co_state _ _ C1))]. }
  destruct S1 as (s1 & -> & C1 & [D1 I1] & Sn). cbn [mbind option_bind].
  assert (A : tcount (dev s1) = tcount (dev s) /\ files (dev s1) = files (dev s) /\ there (dev s1) = there (dev s) /\
    driver_data (dev s1) = driver_data (dev s)) by (destruct (dev s), (dev s1); cbn in *; by simplify_eq).
  destruct A as (A1 & A2 & A3 & A4). rewrite A1, Ht.
  assert (Nd : (length (delete i (files (dev s))) <= 0)%nat <-> delete i (files (dev s)) = [])
    by (destruct (delete i (files (dev s))); cbn; split; [done|lia|lia|done]).
  assert (Hc' : Forall (fun f => console f = true -> hung f = false) (delete i (files (dev s))))
    by (by apply Forall_delete).
  replace (if Z.of_nat (length (files (dev s))) - 1 <? 0 then 0 else Z.of_nat (length (files (dev s))) - 1)
    with (Z.of_nat (length (delete i (files (dev s))))) by (destruct (Z.ltb_spec (Z.of_nat (length (files (dev s))) - 1) 0); lia).
  set (s2 := on_dev _ (on_dev _ s1)).
  destruct (Z.leb_spec (Z.of_nat (length (files (dev s)))) 1) as [Hl|Hl]; cbn [negb].
  - assert (Z : delete i (files (dev s)) = []) by (apply Nd; lia).
    rewrite Z in C1. unfold n_tty_flush_buffer, check_unthrottle.
    change (tcount (dev _)) with (Z.of_nat (length (delete i (files (dev s))))).
    rewrite Z. cbn [length Z.of_nat Z.eqb negb andb mbind option_bind]. eexists. split; [done|].
    subst s2. split; [|split; [cbn; by rewrite A2|exact Sn]].
    split; cbn [dev on_dev on_su set_tty_bit set_there there tcount files state set_files set_tcount];
      rewrite ?A2, ?Z; try done.
    pose proof (core_tflags 0 0 s1 C1 (or_intror (or_introl eq_refl)) eq_refl) as [P F1 F2 Hn Hb D].
    destruct P, D. by split.
  - assert (Z : delete i (files (dev s)) <> []) by (intros Z; apply Nd in Z; lia).
    exists s2. split; [done|]. split; [|split; [cbn; by rewrite A2|exact Sn]].
    split; cbn [s2 dev on_dev set_files set_tcount there tcount files state driver_data]; rewrite ?A2; try done.
    + rewrite A3, Hh, bool_decide_false by done. cbn [negb]. destruct C1. by split.
    + rewrite A3, Hh. by rewrite !bool_decide_false.
    + intros _. by rewrite A4.
    + rewrite I1. intros I. by destruct N; apply Hi.
Qed.

(** ** Hanging up *)

Definition hang_file (f : tty_file) : tty_file := if console f then f else mk_file false true.

Lemma hang_files l : Forall (fun f => console f = true -> hung f = false) l ->
  live l = (length (filter (fun f => negb (console f) && negb (hung f)) l) + live (map hang_file l))%nat /\
  (live (map hang_file l) = 0%nat <-> existsb console l = false) /\
  Forall (fun f => console f = true -> hung f = false) (map hang_file l).
Proof.
  induction 1 as [|f l Hf _ (IH1 & IH2 & IH3)]; [done|]. cbn [map existsb]. rewrite filter_cons, !live_cons.
  assert (E : hang_file f = if console f then f else mk_file false true) by done.
  destruct (console f) eqn:Ef; rewrite E; cbn [negb andb orb].
  - rewrite (Hf eq_refl). cbn [Is_true]. rewrite decide_False by tauto. split; [lia|split; [done|]].
    constructor; [by rewrite Ef|done].
  - cbn [hung console]. split; [|split; [done|by constructor]].
    destruct (hung f); cbn [negb Is_true]; [rewrite decide_False by tauto; done|].
    rewrite decide_True by done. cbn [length]. lia.
Qed.

Lemma tty_core n f s : (forall t, stopped (f t) = stopped t /\ tflags (f t) = tflags t) ->
  core n s -> core n (on_su (on_tty f) s).
Proof.
  intros Hf [P F1 F2 Hn Hb H]. split; try done; [apply tty_port; [apply Hf|done]|].
  destruct n.
  - destruct H as [D1 D2 D3 D4]. split; try done. cbn. by rewrite (proj2 (Hf (tty (su s)))).
  - destruct H. split; [done|]. by apply tty_calm.
Qed.

Lemma flush_core n s : core n s -> core n (on_su (uart_flush_buffer true) s).
Proof.
  intros [P F1 F2 Hn Hb H]. destruct (flush_same (su s)) as (_ & _ & _ & K).
  split; try done; cbn [su on_su]; [by apply (kept_port (su s))|by rewrite (kept_flag _ _ _ K)..|].
  destruct n.
  - apply flush_calm; [by right|done].
  - destruct H as [Ht C]. split; [|by apply flush_calm]. unfold kept in K. injection K. congruence.
Qed.

Lemma unthrottle_ok n s : core n s ->
  exists u, check_unthrottle s = Some (on_su (fun _ => u) s) /\ core n (on_su (fun _ => u) s) /\
    flag 31 u = flag 31 (su s).
Proof.
  intros C. unfold check_unthrottle, tty_bit. destruct (_ && _) eqn:E; [|exists (su s); by destruct s].
  apply andb_true_iff in E as [_ E].
  assert (F : flag 31 (su s) = true).
  { destruct n; [by rewrite (dn_thr _ (co_state _ _ C)) in E|].
    destruct (core_calm _ _ C) as [U|D]; [apply (up_set _ _ _ U)|by rewrite (dn_thr _ D) in E]. }
  destruct (core_up _ _ C F) as [_ [m ->]].
  set (v := tflags (tty (su s)) .& .~ (1 .<< TTY_THROTTLED)).
  assert (C1 : core (S m) (on_su (on_tty (set_tflags v)) s)).
  { apply core_tflags; [done|auto|]. subst v. destruct (tty_bit_other TTY_CLOSING TTY_THROTTLED (tflags (tty (su s)))) as [_ ->];
      [done..|]. apply (po_closing _ (co_port _ _ C)). }
  destruct (core_up _ _ C1 F) as [U1 _].
  destruct (calls_up fstat polls kmalloc jiffies fuel M [Unthrottle] _ ltac:(by repeat constructor) U1) as (rs & u & E2 & U2 & K2).
  cbn [tx_calls tx_call] in E2. exists u.
  destruct (uart_unthrottle _) as [u1|] eqn:E3 in E2; [|done]. cbn [mbind option_bind] in E2. injection E2 as _ ->.
  split; [|split; [apply (core_call m u _ C1 U2 K2)|exact (kept_flag 31 _ _ K2)]].
  unfold lift_su. match goal with |- mbind _ ?x = _ => rewrite (E3 : x = Some u) end. done.
Qed.

Lemma close_times_ok k : forall s m, core (k + S m) s -> driver_data (dev s) = true ->
  Z.of_nat (k + S m) <= tcount (dev s) ->
  exists s', close_times cfg jiffies lirqs signal fuel k s = Some s' /\ core (S m) s' /\ same_dev s s'.
Proof.
  induction k as [|k IH]; intros s m C Hd Hc; cbn [close_times]; [by exists s|].
  destruct (close_core (k + S m) s C Hd) as (s1 & -> & C1 & [D1 I1] & _); [lia|lia|]. cbn [mbind option_bind].
  assert (A : tcount (dev s1) = tcount (dev s) /\ driver_data (dev s1) = driver_data (dev s))
    by (destruct (dev s), (dev s1); cbn in *; by simplify_eq).
  destruct A as [A1 A2]. destruct (IH s1 m C1) as (s2 & -> & C2 & [D2 I2]); [by rewrite A2|rewrite A1; lia|].
  exists s2. split; [done|]. split; [done|]. split; congruence.
Qed.

Lemma set_bit_core n k s : 0 <= k -> k <> TTY_THROTTLED -> k <> TTY_CLOSING -> core n s -> core n (set_tty_bit k s).
Proof.
  intros Hk H1 H2 C. unfold TTY_THROTTLED, TTY_CLOSING in *. apply core_tflags; [done| |].
  - left. by apply tty_bit_other.
  - rewrite <- (po_closing _ (co_port _ _ C)). by apply tty_bit_other.
Qed.

Lemma dev_eq s s' : same_dev s s' -> tcount (dev s') = tcount (dev s) /\ files (dev s') = files (dev s) /\
  there (dev s') = there (dev s) /\ driver_data (dev s') = driver_data (dev s).
Proof. intros [D _]. destruct (dev s), (dev s'). cbn in *. by simplify_eq. Qed.

(** Both buffers are flushed, and the flags of the terminal are cleared. *)
Lemma hang_flush n s : core n s ->
  exists u, (s ← (if tty_bit TTY_LDISC s then
         s ← n_tty_flush_buffer s;
         let s := on_su (uart_flush_buffer true) s in
         Some (if tty_bit TTY_DO_WRITE_WAKEUP s then on_su (on_tty wake_up) s else s)
       else Some s); Some (on_su (on_tty (set_tflags 0)) (on_su (on_tty wake_up) s))) = Some (on_su (fun _ => u) s) /\
    core n (on_su (fun _ => u) s) /\ tflags (tty u) = 0.
Proof.
  intros C.
  assert (F : exists u1, (if tty_bit TTY_LDISC s then
         s ← n_tty_flush_buffer s;
         let s := on_su (uart_flush_buffer true) s in
         Some (if tty_bit TTY_DO_WRITE_WAKEUP s then on_su (on_tty wake_up) s else s)
       else Some s) = Some (on_su (fun _ => u1) s) /\ core n (on_su (fun _ => u1) s)).
  { destruct (tty_bit TTY_LDISC s); [|exists (su s); by destruct s].
    destruct (unthrottle_ok n s C) as (u & E & C1 & _). unfold n_tty_flush_buffer. rewrite E. cbn [mbind option_bind].
    apply flush_core in C1. cbv zeta.
    destruct (tty_bit TTY_DO_WRITE_WAKEUP _); eexists; (split; [reflexivity|]); [|done].
    by apply (tty_core n wake_up) in C1. }
  destruct F as (u1 & -> & C1). cbn [mbind option_bind]. eexists. split; [reflexivity|]. split; [|done].
  pose proof (tty_core n wake_up _ (fun _ => conj eq_refl eq_refl) C1) as C2. exact (core_tflags n 0 _ C2 (or_intror (or_introl eq_refl)) eq_refl).
Qed.

Lemma hangup_ok s : life_ok s ->
  exists s', do_tty_hangup cfg jiffies lirqs signal fuel s = Some s' /\ life_ok s' /\
    files (dev s') = map hang_file (files (dev s)).
Proof.
  intros [C Ht Hh Hd Hi Hc]. unfold do_tty_hangup.
  destruct (bool_decide (files (dev s) = [])) eqn:E; rewrite Hh in *; cbn [negb] in *.
  { apply bool_decide_eq_true in E. exists s. split; [done|]. rewrite E. split; [|done].
    split; rewrite ?Hh, ?E; try done; [by rewrite E in C|by rewrite Ht, E]. }
  apply bool_decide_eq_false in E. specialize (Hd E).
  set (l := files (dev s)) in *. set (s1 := on_dev (set_files (map _ l)) s).
  destruct (hang_files l Hc) as (L1 & L2 & L3).
  destruct (hang_flush (live l) s1) as (u & Eu & C1 & F1); [by destruct C|].
  change (tty_bit TTY_LDISC s) with (tty_bit TTY_LDISC s1) in *.
  destruct (if tty_bit TTY_LDISC s1 then _ else Some s1) as [s2|]; [|done]. cbn [mbind option_bind] in Eu |- *.
  apply (inj Some) in Eu. rewrite Eu. clear s2 Eu. set (s3 := on_su (fun _ => u) s1) in *.
  assert (S4 : exists s4, (if existsb console l
    then close_times cfg jiffies lirqs signal fuel (length (filter (fun f => negb (console f) && negb (hung f)) l)) s3
    else hangup_port s3) = Some s4 /\ core (live (map hang_file l)) s4 /\ same_dev s3 s4).
  { destruct (existsb console l) eqn:Ec.
    - assert (N : live (map hang_file l) <> 0%nat) by (intros N; by apply L2 in N).
      destruct (live (map hang_file l)) as [|m] eqn:El; [done|]. rewrite L1 in C1.
      apply close_times_ok; [done|exact Hd|]. change (tcount (dev s3)) with (tcount (dev s)). rewrite Ht, <- L1.
      pose proof (live_le l). lia.
    - rewrite (proj2 L2 eq_refl). apply (hang_core (live l)); [done|done|]. change (su s3) with u. by rewrite F1. }
  destruct S4 as (s4 & -> & C4 & D4). cbn [mbind option_bind].
  destruct (dev_eq _ _ D4) as (A1 & A2 & A3 & A4). destruct D4 as [_ I4].
  assert (C5 : core (live (map hang_file l)) (if tty_bit TTY_LDISC s1
    then set_tty_bit TTY_LDISC (set_tty_bit TTY_HUPPED s4) else set_tty_bit TTY_HUPPED s4)).
  { destruct (tty_bit TTY_LDISC s1); repeat apply set_bit_core; done. }
  eexists. split; [reflexivity|].
  set (s6 := if tty_bit TTY_LDISC s1 then _ else _) in *.
  assert (D6 : dev s6 = dev s4 /\ state s6 = state s4) by (subst s6; by destruct (tty_bit _ _)).
  clearbody s6. destruct D6 as [D6 S6].
  assert (Fl : files (dev s6) = map hang_file l) by (by rewrite D6, A2).
  assert (Nm : map hang_file l <> []) by (by destruct l).
  split; [|done]. split; rewrite ?Fl, ?D6, ?S6; try done.
  - rewrite A3. change (there (dev s3)) with (there (dev s)). by rewrite Hh.
  - rewrite A1, length_map. exact Ht.
  - rewrite A3. change (there (dev s3)) with (there (dev s)). by rewrite Hh, bool_decide_false.
  - intros _. by rewrite A4.
  - rewrite I4. intros I. destruct E. by apply Hi.
Qed.

(** ** Opening the terminal *)

Hypothesis Hnr : 1 < nr cfg.

Lemma init_dev_ok o s : life_ok s -> o_callout o = false -> tty_bit TTY_CLOSING s = false \/ there (dev s) = false ->
  (exists s1, init_dev o s = (0, s1) /\ core (live (files (dev s))) s1 /\ state s1 = state s /\
     files (dev s1) = files (dev s) /\ tcount (dev s1) = tcount (dev s) + 1 /\ there (dev s1) = true /\
     callout (dev s1) = false) \/
  init_dev o s = (- ENOMEM, s).
Proof.
  intros [C Ht Hh Hd Hi Hc] Ho Hcl. unfold init_dev. destruct (there (dev s)) eqn:Et.
  - destruct Hcl as [-> |?]; [|done]. left. eexists. split; [done|]. cbn. split_and!; try done. destruct C. by split.
  - destruct (mem_tty o); [left|by right]. eexists. split; [done|].
    assert (E : files (dev s) = []) by (destruct (bool_decide _) eqn:B in Hh; [by apply bool_decide_eq_true in B|done]).
    rewrite E in *. cbn. split_and!; try done; [|by rewrite Ht].
    destruct C as [P F1 F2 Hn Hb [D1 D2 D3 D4]], P. by split.
Qed.

Lemma life_closing s : life_ok s -> tty_bit TTY_CLOSING s = false \/ there (dev s) = false.
Proof.
  intros [C _ _ _ _ _]. destruct (there (dev s)); [left|by right]. apply (po_closing _ (co_port _ _ C)).
Qed.

(** Without memory for [uart_info] an open fails, but it has been counted. *)
Lemma open_no_info t o s : life_ok s -> have_info (state s) = false -> mem_tty o = true -> mem_info o = false ->
  exists s', tty_open cfg jiffies lirqs signal fuel (S t) o s = Some (- ENOMEM, s') /\
    files (dev s) = [] /\ files (dev s') = [] /\ ucount (state s') = ucount (state s) + 1.
Proof.
  intros [C Ht Hh Hd Hi Hc] Hn Hm Hf. specialize (Hi Hn). rewrite Hi in *. cbn [tty_open].
  unfold init_dev. rewrite Hh, bool_decide_true, Hm by done. cbn [negb Z.eqb].
  set (s1 := on_dev (fun x => set_files _ x) _). unfold uart_open.
  assert (El : (line (port (su s1)) >=? nr cfg) = false).
  { change (line (port (su s1))) with (ln (su s)). rewrite Hh, bool_decide_true in C by done. cbn [negb] in C.
    rewrite Z.geb_leb. apply Z.leb_gt. destruct (po_line _ (co_port _ _ C)) as [E|E]; cbn in E; rewrite E; lia. }
  rewrite El. unfold uart_get. change (have_info (state (on_state _ s1))) with (have_info (state s)). rewrite Hn, Hf.
  cbn [negb mbind option_bind]. change (- ENOMEM =? 0) with false. cbn [andb].
  unfold release_dev. cbn [s1 dev on_dev on_su on_state files set_files length lookup list_lookup app uart_close driver_data negb].
  eexists. split; [reflexivity|]. by split_and!.
Qed.

Lemma open_ok t o s : life_ok s -> o_callout o = false -> have_info (state s) = true \/ mem_info o = true ->
  exists r s', tty_open cfg jiffies lirqs signal fuel (S t) o s = Some (r, s') /\ life_ok s' /\
    (r = 0 /\ files (dev s') = files (dev s) ++ [mk_file (o_console o) false] \/
     (r = - ENOMEM \/ r = - EBUSY) /\ files (dev s') = files (dev s)).
Proof.
  intros L Ho Hmem. cbn [tty_open]. destruct (init_dev_ok o s L Ho (life_closing s L)) as [(s1 & E & C1 & S1 & D1 & D2 & D3 & D4)|E].
  2: { rewrite E. cbn [Z.eqb negb]. exists (- ENOMEM), s. split; [done|]. split; [done|]. right. by split; [left|]. }
  rewrite E. cbn [Z.eqb negb].
  destruct L as [C Ht Hh Hd Hi Hc]. set (l := files (dev s)) in *. rewrite D1.
  set (s2 := on_dev _ s1).
  assert (C2 : core (live l) s2) by (destruct C1; by split).
  destruct (open_core o (live l) s2 C2) as (r & s3 & E3 & Rr & C3 & D5 & I3).
  { change (ln (su s2)) with (ln (su s1)). destruct (po_line _ (co_port _ _ C1)) as [-> | ->]; lia. }
  { exact D4. }
  { change (state s2) with (state s1). rewrite S1. destruct (have_info (state s)) eqn:Eh; [by left|right].
    destruct Hmem as [?|?]; [done|]. split; [done|]. subst l. by rewrite (Hi eq_refl). }
  rewrite E3. cbn [mbind option_bind].
  assert (Fl : files (dev s3) = l ++ [mk_file (o_console o) false]) by (rewrite D5; cbn; by rewrite D1).
  assert (L3 : life_ok s3).
  { split; rewrite ?Fl, ?D5; cbn [dev on_dev s2 set_files set_driver_data files tcount there driver_data].
    - rewrite D3, live_app. replace (live l + live [mk_file (o_console o) false])%nat with (S (live l)); [done|].
      rewrite live_cons. cbn. lia.
    - rewrite D2, Ht, length_app. cbn. lia.
    - rewrite D3, bool_decide_false; [done|]. by destruct l.
    - done.
    - by rewrite I3.
    - apply Forall_app. split; [done|]. by constructor. }
  set (r' := if _ && _ then - EBUSY else r).
  assert (R' : r' = 0 \/ r' = - ENOMEM \/ r' = - EBUSY) by (subst r'; destruct (_ && _); tauto).
  clearbody r'. destruct (Z.eqb_spec r' 0) as [->|N]; [exists 0, s3; split; [done|]; split; [done|by left]|].
  destruct (release_dev_ok (length l) (mk_file (o_console o) false) s3 L3) as (s4 & E4 & L4 & F4 & _).
  { rewrite Fl, lookup_app_r by lia. by rewrite Nat.sub_diag. }
  rewrite E4. cbn [mbind option_bind]. exists r', s4.
  assert (negb (r' =? - ERESTARTSYS) = true) as -> by (destruct R' as [->|[-> | ->]]; done).
  cbn [orb]. split; [done|]. split; [done|]. right. split; [tauto|]. rewrite F4, Fl.
  rewrite delete_take_drop, take_app_length, drop_ge, app_nil_r; [done|]. rewrite length_app. cbn. lia.
Qed.
End life.
