(* ===== verification/AscIoctl.v ===== *)
(** * The settings of the serial port keep it in order ([tty_ioctl.c], [serial_core.c], [ifx_asc.c])

    What [SerialIoctl] does to an open port of the driver of [Asc]: every call
    returns, and the port is as the calls of [AscOpen] need it.  For [AscLife]. *)

From S2P Require Import Prelude Icu Irq MpsRpc SerialCore SerialTx SerialOpen SerialIoctl Asc AscTx AscClose AscOpen.
Open Scope Z_scope.
#[local] Arguments Z.testbit : simpl never.
#[local] Arguments test_bit : simpl never.

(** The driver has no resources to claim. *)
Definition ifx_asc_release_port (p : uart_port) : uart_port := p.
Definition ifx_asc_request_port (p : uart_port) : Z := 0.
#[export] Instance asc_port_ops : PortOps := {|
  verify_port n := ifx_asc_verify_port (ss_type n) (ss_irq n) (ss_baud_base n);
  request_port := ifx_asc_request_port; release_port := ifx_asc_release_port; config_port := ifx_asc_config_port
|}.

(** What does not change by itself, and what every setting keeps. *)
Record conf_ok (cfg : port_conf) : Prop := {
  cf_wait : 0 < closing_wait cfg < 65536;
  cf_flags : Z.testbit (port_flags cfg) 27 = false /\ Z.testbit (port_flags cfg) 30 = false /\
    Z.testbit (port_flags cfg) 31 = false;
  cf_nr : 1 < nr cfg
}.

Section ioctl.
Context (fstat : nat -> nat -> Z) (polls : nat) (kmalloc : Z -> bool) (cfg : port_conf).
Context (jiffies : nat -> Z) (irqs : nat -> nat) (signal : nat -> bool) (fuel : nat).
Hypothesis M : machine_ok fstat polls jiffies fuel.
Implicit Types (u : uart asc_drv) (s : serial asc_drv) (x : serial_line asc_drv) (n : serial_struct).

#[local] Hint Extern 0 (UartOps asc_drv) => exact (asc_pops fstat polls kmalloc) : typeclass_instances.
#[local] Hint Extern 0 (TxView asc_drv) => exact (asc_view fstat polls false) : typeclass_instances.
Abbreviation rel := (@tx_rel asc_drv (asc_view fstat polls false)).
Abbreviation up := (AscClose.up fstat polls).
Abbreviation calm := (AscClose.calm fstat polls).
Abbreviation core := (AscOpen.core fstat polls).
Abbreviation ln u := (line (port u)).
Abbreviation lirqs := (fun k => line_irqs fstat polls (irqs k)).

(** ** The terminal *)

Lemma core_set m u s : core (S m) s -> port_ok u -> calm u -> has_tty (info u) = true -> same_flags (su s) u ->
  core (S m) (on_su (fun _ => u) s).
Proof. intros [P F1 F2 Hn Hb _] P' C' Ht [E1 E2]. split; try done; cbn [su on_su]; congruence. Qed.

(** A call on a working port, after a change of its terminal. *)
Lemma core_op m o u s : core (S m) (on_su (fun _ => u) s) -> flag 31 u = true -> op_ok o ->
  exists r u', tx_call o u = Some (r, u') /\ core (S m) (on_su (fun _ => u') s).
Proof.
  intros C F Ho. destruct (core_up _ _ _ _ C F) as [U _].
  destruct (calls_up fstat polls kmalloc jiffies fuel M [o] u) as (rs & u' & E & U' & K); [by repeat constructor|done|].
  cbn [tx_calls] in E. destruct (tx_call o u) as [[r u1]|]; [|done]. cbn [mbind option_bind] in E.
  injection E as _ ->. exists r, u'. split; [done|]. exact (core_call _ _ _ _ _ C U' K).
Qed.

Lemma core_tty m f s : (forall t, stopped (f t) = stopped t /\ tflags (f t) = tflags t) ->
  core (S m) s -> core (S m) (on_su (fun _ => on_tty f (su s)) s).
Proof. intros Hf C. by apply (tty_core fstat polls (S m) f s Hf). Qed.

(** The end of [uart_set_termios]: modem lines and the end of flow control by them. *)
Lemma termios_end m b b1 v1 b2 v2 u s : core (S m) (on_su (fun _ => u) s) -> flag 31 u = true ->
  let u := if b1 : bool then uart_set_mctrl v1 u else u in
  let u := if b2 : bool then uart_set_mctrl (v2 u) u else u in
  exists u', (if b : bool then __uart_start (on_tty (set_hw_stopped false) u) else Some u) = Some u' /\
    core (S m) (on_su (fun _ => u') s).
Proof.
  assert (Mc : forall v w, core (S m) (on_su (fun _ => w) s) -> core (S m) (on_su (fun _ => uart_set_mctrl v w) s)).
  { intros v w C. pose proof C as [P _ _ _ _ [Ht Ca]].
    apply (core_set m (uart_set_mctrl v w) _ C); [destruct P; by split|by apply mctrl_calm|exact Ht|done]. }
  intros C F u1 u2.
  assert (C2 : core (S m) (on_su (fun _ => u2) s) /\ flag 31 u2 = true) by (subst u2 u1; destruct b1, b2; auto).
  clearbody u2. destruct C2 as [C2 F2]. destruct b; [|by exists u2].
  assert (C3 : core (S m) (on_su (fun _ => on_tty (set_hw_stopped false) u2) s)) by (by apply (core_tty m (set_hw_stopped false)) in C2).
  destruct (core_op m FlushChars _ s C3 F2) as (r & u' & E & C'); [done|]. exists u'. split; [|exact C'].
  cbn [tx_call] in E. unfold uart_flush_chars, uart_start in E.
  destruct (__uart_start _) as [u4|]; [|done]. cbn in E. by injection E as _ <-.
Qed.

Lemma termios_ok m locked new s : core (S m) s -> flag 31 (su s) = true ->
  exists u, change_termios cfg locked new s = Some (on_su (fun _ => u) s) /\ core (S m) (on_su (fun _ => u) s).
Proof.
  intros C F. unfold change_termios. set (t := unset_locked_termios _ _ _).
  assert (C1 : core (S m) (on_su (fun _ => on_tty (put_termios t) (su s)) s)) by (by apply core_tty).
  unfold lift_su. change (su (on_su (on_tty (put_termios t)) s)) with (on_tty (put_termios t) (su s)).
  set (u1 := on_tty (put_termios t) (su s)) in *. assert (F1 : flag 31 u1 = true) by done. clearbody u1.
  assert (T : exists u, uart_set_termios (custom_divisor cfg) (t_cflag (termios_of (tty (su s))))
    (t_iflag (termios_of (tty (su s)))) u1 = Some u /\ core (S m) (on_su (fun _ => u) s)).
  2: { destruct T as (u & -> & C'). cbn [mbind option_bind]. by exists u. }
  unfold uart_set_termios. destruct (_ && _); [by exists u1|].
  destruct (core_up _ _ _ _ C1 F1) as [U _]. pose proof C1 as [P _ _ _ _ [Ht Ca]].
  destruct (speed_calm fstat polls kmalloc jiffies fuel M (custom_divisor cfg) (Some (t_cflag (termios_of (tty (su s)))))
    u1 P Ca Ht (up_clk _ _ _ U)) as (u2 & -> & P2 & Ca2 & Ht2 & F2 & S2 & _ & _). cbn [mbind option_bind].
  rewrite F1 in F2. pose proof (core_set m u2 _ C1 P2 Ca2 Ht2 S2) as C2. 
  exact (termios_end m _ _ _ _ (fun u => if (c_cflag (tty u1) .& CRTSCTS =? 0) || negb (test_bit TTY_THROTTLED (tflags (tty u)))
    then (mctrl (info u) .| TIOCM_DTR) .| TIOCM_RTS else mctrl (info u) .| TIOCM_DTR) u2 s C2 F2).
Qed.

(** TCSETS and TCSETSF without the wait. *)
Lemma tcsets_ok m flush locked arg s : core (S m) s -> flag 31 (su s) = true ->
  exists r u, set_termios cfg jiffies lirqs signal fuel flush false locked arg s = Some (r, on_su (fun _ => u) s) /\
    core (S m) (on_su (fun _ => u) s).
Proof.
  intros C F. unfold set_termios. destruct arg as [t|]; [|exists (- EFAULT), (su s); by destruct s].
  assert (S1 : exists u, (if flush then n_tty_flush_buffer s else Some s) = Some (on_su (fun _ => u) s) /\
    core (S m) (on_su (fun _ => u) s) /\ flag 31 u = true).
  { destruct flush; [|exists (su s); by destruct s]. rewrite <- F.
    by apply (unthrottle_ok fstat polls kmalloc jiffies fuel M (S m) s C). }
  destruct S1 as (u & -> & C1 & F1). cbn [mbind option_bind andb].
  destruct (termios_ok m locked t _ C1 F1) as (u' & -> & C2). cbn [mbind option_bind]. by exists 0, u'.
Qed.

(** TCXONC, TCFLSH and TIOCSSOFTCAR. *)
Lemma tcxonc_ok m arg s : core (S m) s -> flag 31 (su s) = true ->
  exists r u, tcxonc arg s = Some (r, on_su (fun _ => u) s) /\ core (S m) (on_su (fun _ => u) s).
Proof.
  intros C F.
  assert (L : forall (f : uart asc_drv -> option (uart asc_drv)) o g,
    (forall t, stopped (g t) = stopped t /\ tflags (g t) = tflags t) -> op_ok o ->
    (forall u, tx_call o u = u ← f u; Some (0, u)) ->
    exists u, lift_su f (on_su (on_tty g) s) = Some (on_su (fun _ => u) s) /\ core (S m) (on_su (fun _ => u) s)).
  { intros f o g Hg Ho Hf. destruct (core_op m o (on_tty g (su s)) s) as (r & u & E & C'); [by apply core_tty|done|done|].
    rewrite Hf in E. unfold lift_su. cbn [su on_su]. destruct (f (on_tty g (su s))) as [u1|]; [|done].
    cbn [mbind option_bind] in *. injection E as _ ->. by exists u. }
  assert (K : exists u, Some s = Some (on_su (fun _ => u) s) /\ core (S m) (on_su (fun _ => u) s)) by (exists (su s); by destruct s).
  assert (X : forall c, exists u, send_prio_char c s = Some (on_su (fun _ => u) s) /\ core (S m) (on_su (fun _ => u) s)).
  { intros c. destruct (L (uart_send_xchar c) (SendX c) (fun t => t)) as (u & E & C'); [done..|].
    exists u. split; [|done]. rewrite <- E. unfold send_prio_char, lift_su. cbn [su on_su]. by destruct (su s), s. }
  assert (D : forall o, (exists u, o = Some (on_su (fun _ => u) s) /\ core (S m) (on_su (fun _ => u) s)) ->
    exists r u, (s ← o; Some (0, s)) = Some (r, on_su (fun _ => u) s) /\ core (S m) (on_su (fun _ => u) s)).
  { intros o (u & -> & C'). by exists 0, u. }
  unfold tcxonc. repeat match goal with |- context [if (arg =? ?k) then _ else _] => destruct (arg =? k) end.
  - apply D. destruct (negb _); [|done]. by apply (L _ StopTty).
  - apply D. destruct (flow_stopped _); [|done]. by apply (L _ StartTty).
  - apply D. destruct (negb _); [apply X|done].
  - apply D. destruct (negb _); [apply X|done].
  - destruct K as (u & E & C'). injection E as E. exists (- EINVAL), u. rewrite <- E at 1. split; [done|exact C'].
Qed.

Lemma tcflsh_ok m arg s : core (S m) s ->
  exists r u, tcflsh arg s = Some (r, on_su (fun _ => u) s) /\ core (S m) (on_su (fun _ => u) s).
Proof.
  intros C. unfold tcflsh, n_tty_flush_buffer.
  destruct (unthrottle_ok fstat polls kmalloc jiffies fuel M (S m) s C) as (u & E & C1 & _). rewrite E. cbn [mbind option_bind].
  destruct (arg =? _); [by exists 0, u|]. destruct (arg =? _).
  { exists 0, (uart_flush_buffer true u). split; [done|].
    by apply (flush_core fstat polls kmalloc jiffies fuel M) in C1. }
  destruct (arg =? _).
  - exists 0, (uart_flush_buffer true (su s)). split; [done|]. by apply (flush_core fstat polls kmalloc jiffies fuel M) in C.
  - exists (- EINVAL), (su s). by destruct s.
Qed.

Lemma softcar_ok m arg s : core (S m) s ->
  exists r u, tiocssoftcar arg s = (r, on_su (fun _ => u) s) /\ core (S m) (on_su (fun _ => u) s).
Proof.
  intros C. destruct arg as [a|]; [|exists (- EFAULT), (su s); by destruct s].
  eexists _, _. split; [reflexivity|]. by apply core_tty.
Qed.

Lemma modem_ok m cmd arg s : core (S m) s ->
  exists r u, uart_set_modem_info cmd arg s = (r, on_su (fun _ => u) s) /\ core (S m) (on_su (fun _ => u) s).
Proof.
  intros C. unfold uart_set_modem_info. destruct arg as [a|]; [|exists (- EFAULT), (su s); by destruct s].
  destruct (if cmd =? TIOCMBIS then _ else _) as [r v]. destruct (negb _); [|exists r, (su s); by destruct s].
  eexists r, _. split; [reflexivity|]. pose proof C as [P _ _ _ _ [Ht Ca]].
  apply core_set; [done|destruct P; by split|by apply mctrl_calm|exact Ht|done].
Qed.

(** ** The configuration of the port *)

(** It works, or it does not, whatever its ring holds. *)
Definition settled u : Prop :=
  up u \/ free_drv (ln u) (drv u) /\ flag 31 u = false /\ test_bit TTY_THROTTLED (tflags (tty u)) = false.

Record tuned (m : nat) s : Prop := {
  tn_port : port_ok (su s);
  tn_settled : settled (su s);
  tn_tty : has_tty (info (su s)) = true;
  tn_closing : flag 27 (su s) = false;
  tn_callout : flag 30 (su s) = false;
  tn_count : ucount (state s) = Z.of_nat (S m);
  tn_blocked : blocked_open (openers s) = 0
}.

Lemma calm_settled u : calm u -> settled u.
Proof. intros [U|[D1 D2 D3 D4]]; [by left|by right]. Qed.
Lemma core_tuned m s : core (S m) s -> tuned m s.
Proof. intros [P F1 F2 Hn Hb [Ht C]]. split; try done. by apply calm_settled. Qed.
Lemma tuned_core m u s : tuned m s -> port_ok u -> calm u -> has_tty (info u) = true -> same_flags (su s) u ->
  core (S m) (on_su (fun _ => u) s).
Proof. intros [P C Ht F1 F2 Hn Hb] P' C' Ht' [E1 E2]. split; try done; cbn [su on_su]; congruence. Qed.

(** Settings that are only stored. *)
Lemma tuned_set m u s : tuned m s ->
  has_tty (info u) = has_tty (info (su s)) -> xmit (info u) = xmit (info (su s)) ->
  timeout (info u) = timeout (info (su s)) ->
  flag 27 u = flag 27 (su s) /\ flag 30 u = flag 30 (su s) /\ flag 31 u = flag 31 (su s) ->
  x_char (port u) = x_char (port (su s)) -> ln u = ln (su s) ->
  (1024 <= uartclk (port (su s)) -> 1024 <= uartclk (port u)) -> 0 < fifosize (port u) -> ptype (port u) <> PORT_UNKNOWN ->
  (exists b, tty u = set_low_latency b (tty (su s))) -> drv u = drv (su s) -> tuned m (on_su (fun _ => u) s).
Proof.
  intros [P C Ht F1 F2 Hn Hb] E1 E2 E3 (E4 & E5 & E6) E7 E8 Hk Hf Hp (b & E9) E10.
  split; cbn [su on_su state openers]; rewrite ?E1, ?E4, ?E5; try done.
  - destruct P as [P1 P2 P3 P4 P5]. split; rewrite ?E8, ?E9, ?E10; done.
  - destruct C as [[(g & y & R) T K F]|(D1 & D2 & D3)].
    + left. split; [|by rewrite E3|auto|by rewrite E6]. exists g, y.
      destruct R as [R1 R2 R3 R4 R5 R6 R7 R8 R9]. split; rewrite ?E1, ?E2, ?E7, ?E8, ?E9, ?E10; try done.
      rewrite <- R6. unfold config_of. by rewrite E8, E9.
    + right. by rewrite E6, E8, E9, E10.
Qed.

(** The port is shut down for a change of its settings. *)
Lemma shutdown_tuned m s : tuned m s -> test_bit TTY_THROTTLED (tflags (tty (su s))) = false ->
  exists u, uart_shutdown (su s) = Some u /\ tuned m (on_su (fun _ => u) s).
Proof.
  intros T Hthr. pose proof T as [P C Ht F1 F2 Hn Hb].
  assert (N : flag 31 (su s) = false -> uart_shutdown (su s) = Some (su s)).
  { intros F. unfold uart_shutdown. by rewrite flag_init, F. }
  destruct C as [U|(D1 & D2 & D3)]; [|exists (su s); split; [auto|by destruct s]].
  destruct (shutdown_up fstat polls kmalloc (su s) P U) as (u & E & Pu & [S1 S2 S3] & _ & S4 & S5 & S6 & _).
  exists u. split; [done|]. split; cbn [su on_su]; try done; [|unfold uart_shutdown in E|congruence|congruence].
  - right. by rewrite S4.
  - rewrite flag_init, (up_set _ _ _ U) in E. cbn [negb] in E.
    destruct (shutdown _ _) as [d|]; [|done]. cbn [mbind option_bind] in E. injection E as <-.
    cbn [info on_info has_tty set_iflags]. by destruct (has_tty (info _)) eqn:Hx; cbn.
Qed.

(** Started again, with memory for the ring. *)
Lemma port_restart_ok m capable x : tuned m (ser x) ->
  exists r u, restart true capable x = Some (r, mk_line (conf x) (res x) (on_su (fun _ => u) (ser x))) /\
    core (S m) (on_su (fun _ => u) (ser x)).
Proof.
  intros T. pose proof T as [P C Ht F1 F2 Hn Hb]. unfold restart, lift_ser.
  assert (H : exists r u, uart_startup true capable (custom_divisor (conf x)) (su (ser x)) = Some (r, u) /\
    port_ok u /\ has_tty (info u) = true /\ same_flags (su (ser x)) u /\ calm u).
  { destruct C as [U|(D1 & D2 & D3)].
    - exists 0, (su (ser x)). unfold uart_startup. rewrite flag_init, (up_set _ _ _ U). cbn [negb].
      split_and!; try done. by left.
    - destruct (startup_off fstat polls kmalloc jiffies fuel M true capable (custom_divisor (conf x)) (su (ser x)) P D1 D2 D3)
        as (r & u & E & P' & Ht' & S & _ & K); [done|done|]. exists r, u. split_and!; try done; [apply S..|].
      destruct K as [[D _]|[_ U]]; [by right|by left]. }
  destruct H as (r & u & -> & P' & Ht' & S & Cu). cbn [mbind option_bind]. exists r, u. split; [done|].
  by apply tuned_core.
Qed.

Lemma altspeed_core m s : core (S m) s -> core (S m) (on_su (fun _ => uart_update_altspeed (su s)) s).
Proof.
  intros C. unfold uart_update_altspeed.
  assert (L : forall (b : bool) v u, core (S m) (on_su (fun _ => u) s) ->
    core (S m) (on_su (fun _ => if b then on_tty (set_alt_speed v) u else u) s)).
  { intros b v u Cu. destruct b; [|done]. by apply (core_tty m (set_alt_speed v)) in Cu. }
  repeat apply L. by destruct s.
Qed.

(** The new settings take effect. *)
Lemma exit_ok m capable ofl odv x : tuned m (ser x) ->
  exists r u, check_and_exit true capable ofl odv x = Some (r, mk_line (conf x) (res x) (on_su (fun _ => u) (ser x))) /\
    core (S m) (on_su (fun _ => u) (ser x)).
Proof.
  intros T. unfold check_and_exit. destruct (Z.eqb_spec (ptype (port (su (ser x)))) PORT_UNKNOWN) as [Z|_];
    [by destruct (po_type _ (tn_port _ _ T))|].
  change ASYNC_INITIALIZED with (1 .<< 31). rewrite has_flag_bit by lia.
  destruct (flag 31 (su (ser x))) eqn:F; [|by apply port_restart_ok].
  destruct (tn_settled _ _ T) as [U|(_ & F' & _)]; [|congruence].
  assert (C : core (S m) (ser x)).
  { destruct (ser x) as [u st op dv cc tb n] eqn:E. change (core (S m) (on_su (fun _ => u) (mk_serial u st op dv cc tb n))).
    apply tuned_core; [done|apply T|by left|apply T|done]. }
  destruct (_ || _); [|exists 0, (su (ser x)); destruct x as [c r [u st op dv cc tb n]]; by split].
  apply altspeed_core in C. unfold lift_su. set (u1 := uart_update_altspeed (su (ser x))) in *.
  destruct (core_up _ _ _ _ C) as [U1 _].
  { destruct (altspeed_only (su (ser x))) as (_ & E & _). unfold flag in *. subst u1. cbn [su on_su]. by rewrite E. }
  pose proof C as [P _ _ _ _ [Ht Ca]].
  destruct (speed_calm fstat polls kmalloc jiffies fuel M (custom_divisor (conf x)) None u1 P Ca Ht (up_clk _ _ _ U1))
    as (u2 & -> & P2 & C2 & Ht2 & _ & S2 & _ & _). cbn [mbind option_bind].
  exists 0, u2. split; [done|]. by apply (core_set m u2 _ C).
Qed.

(** What a privileged user may set: the known type, a FIFO, a closing time, and a
    clock of which 1024 Hz are left in 32 bits. *)
Record proper n : Prop := {
  pr_type : ss_type n <> 0;
  pr_fifo : 0 < ss_xmit_fifo_size n mod 256;
  pr_baud : 1024 <= w32 (ss_baud_base n * 16);
  pr_wait : 0 < ss_closing_wait n < 65536
}.

Definition tune (c v : Z) (b : bool) (f : Z) u : uart asc_drv :=
  on_port (set_fifosize f) (on_tty (set_low_latency b) (on_info (fun i => set_iflags v i) (on_port (set_uartclk c) u))).

Lemma tune_ok m c v b f s : tuned m s -> 1024 <= c -> 0 < f ->
  Z.testbit v 27 = flag 27 (su s) /\ Z.testbit v 30 = flag 30 (su s) /\ Z.testbit v 31 = flag 31 (su s) ->
  tuned m (on_su (fun _ => tune c v b f (su s)) s).
Proof. intros T Hc Hf Hv. apply tuned_set; try done; [apply T|by exists b]. Qed.

Lemma put_settings_ok m n x : tuned m (ser x) -> conf_ok (conf x) -> proper n ->
  exists u, ser (put_settings n x) = on_su (fun _ => u) (ser x) /\ tuned m (on_su (fun _ => u) (ser x)) /\
    conf_ok (conf (put_settings n x)).
Proof.
  intros T [W (G1 & G2 & G3) N] [R1 R2 R3 R4].
  exists (tune (w32 (ss_baud_base n * 16)) (iflags (info (su (ser (put_settings n x)))))
    (low_latency (tty (su (ser (put_settings n x))))) (ss_xmit_fifo_size n mod 256) (su (ser x))).
  split; [reflexivity|]. split.
  - apply tune_ok; [done|done|done|].
    unfold put_settings, flag, ASYNC_INTERNAL_FLAGS. cbn [ser conf on_ser on_conf on_res su on_su info on_info on_port on_tty iflags set_iflags].
    generalize (w32 (ss_flags n)). intros v. status_bits. done.
  - unfold put_settings. cbn [ser conf on_ser on_conf on_res set_conf_flags set_waits].
    split; cbn [closing_wait port_flags nr set_waits set_conf_flags]; [unfold HZ; rewrite Z.div_mul; lia| |done]. generalize (w32 (ss_flags n)). intros v.
    unfold ASYNC_FLAGS. status_bits. by rewrite G1, G2, G3.
Qed.

Lemma flags_tuned m v s : tuned m s ->
  Z.testbit v 27 = flag 27 (su s) /\ Z.testbit v 30 = flag 30 (su s) /\ Z.testbit v 31 = flag 31 (su s) ->
  tuned m (on_su (on_info (set_iflags v)) s).
Proof.
  intros T Hv. change (tuned m (on_su (fun _ => on_info (set_iflags v) (su s)) s)).
  apply tuned_set; try done; [apply T|apply T|]. exists (low_latency (tty (su s))). by destruct s as [[p i [] d]].
Qed.

(** The unprivileged part. *)
Lemma user_ok m v d x : tuned m (ser x) -> conf_ok (conf x) ->
  let x' := on_ser (on_su (on_info (fun i => set_iflags (user_flags (iflags i) v) i)))
              (on_conf (set_conf_flags (user_flags (port_flags (conf x)) v) d) x) in
  tuned m (ser x') /\ conf_ok (conf x').
Proof.
  intros T [W (G1 & G2 & G3) N] x'. split.
  - apply (flags_tuned m (user_flags (iflags (info (su (ser x)))) v)) in T; [exact T|].
    unfold flag, user_flags, ASYNC_USR_MASK. status_bits. done.
  - split; cbn [x' conf on_ser on_conf closing_wait port_flags nr set_conf_flags]; try done.
    unfold user_flags, ASYNC_USR_MASK. status_bits. done.
Qed.

(** The port is moved: the driver grants every request. *)
Lemma move_ok m n x : tuned m (ser x) -> w32 (ss_type n) <> PORT_UNKNOWN ->
  exists u, ser (snd (move_port n x)) = on_su (fun _ => u) (ser x) /\ tuned m (on_su (fun _ => u) (ser x)) /\
    conf (snd (move_port n x)) = conf x.
Proof.
  intros T Ht. set (u := on_port (fun p => set_iobase (ss_port n) (set_ptype (w32 (ss_type n)) p)) (su (ser x))).
  exists u. assert (E : ser (snd (move_port n x)) = on_su (fun _ => u) (ser x) /\ conf (snd (move_port n x)) = conf x).
  { unfold move_port. cbn [request_port asc_port_ops]. unfold ifx_asc_request_port.
    replace (if negb (ptype (port (su (ser (put_res n _)))) =? PORT_UNKNOWN) then 0 else 0) with 0 by (by destruct (negb _)).
    cbn [Z.eqb negb andb snd]. by destruct (negb _). }
  destruct E as [-> ->]. split; [done|]. split; [|done].
  apply tuned_set; try done; [apply T|]. exists (low_latency (tty (su (ser x)))). by destruct x as [c r [[p i [] d]]].
Qed.

Lemma verified n : let retval := verify_port n in
  (if (ss_irq n >=? NR_IRQS) || (ss_irq n <? 0) || (ss_baud_base n <? 9600) then - EINVAL else retval) = 0 ->
  ss_type n <> 0 -> w32 (ss_type n) <> PORT_UNKNOWN.
Proof.
  cbn [verify_port asc_port_ops]. unfold ifx_asc_verify_port. destruct (Z.ltb_spec (ss_baud_base n) 9600); [by rewrite !orb_true_r|].
  destruct (_ || _); [done|]. destruct (_ || _); [done|]. unfold PORT_UNKNOWN.
  destruct (Z.eqb_spec (ss_type n) 0); [done|]. destruct (Z.eqb_spec (ss_type n) PORT_IFX_ASC) as [->|]; [|done]. done.
Qed.

Definition keeps (m : nat) x x' : Prop :=
  (exists u, ser x' = on_su (fun _ => u) (ser x)) /\ core (S m) (ser x') /\ conf_ok (conf x').

Lemma keeps_refl m x : core (S m) (ser x) -> conf_ok (conf x) -> keeps m x x.
Proof. intros C K. split; [exists (su (ser x)); by destruct x as [c r []]|done]. Qed.

Lemma exit_keeps m capable ofl odv x x' u : ser x' = on_su (fun _ => u) (ser x) -> tuned m (ser x') -> conf_ok (conf x') ->
  exists r x2, check_and_exit true capable ofl odv x' = Some (r, x2) /\ keeps m x x2.
Proof.
  intros E T K. destruct (exit_ok m capable ofl odv x' T) as (r & u' & E' & C). eexists r, _. split; [exact E'|].
  split; [|by split]. exists u'. cbn [ser]. by rewrite E.
Qed.

(** TIOCSSERIAL. *)
Lemma set_info_ok m capable arg x : core (S m) (ser x) -> conf_ok (conf x) ->
  test_bit TTY_THROTTLED (tflags (tty (su (ser x)))) = false ->
  (forall n, arg = Some n -> capable = true -> proper n) ->
  exists r x', uart_set_info true capable arg x = Some (r, x') /\ keeps m x x'.
Proof.
  intros C K Hthr Hn. pose proof (core_tuned m _ C) as T. pose proof (keeps_refl m x C K) as Kr. unfold uart_set_info.
  destruct arg as [n|]; [|by exists (- EFAULT), x]. destruct capable; cbn [negb].
  2: { destruct (not_allowed n x); [by exists (- EPERM), x|].
    destruct (user_ok m (w32 (ss_flags n)) (w32 (ss_custom_divisor n)) x T K) as [T1 K1]. by eapply exit_keeps. }
  specialize (Hn n eq_refl eq_refl). pose proof (verified n) as V. cbv zeta in V |- *.
  match goal with |- context [negb (?r =? 0)] => destruct (Z.eqb_spec r 0) as [E|E] end; cbn [negb]; [|by eexists _, x].
  pose proof (V E (pr_type _ Hn)) as Vt. clear V E. destruct (_ && _); [by exists (- EBUSY), x|].
  assert (S1 : exists u, (if change_port n x || change_irq n x then lift_su uart_shutdown (ser x) else Some (ser x)) =
    Some (on_su (fun _ => u) (ser x)) /\ tuned m (on_su (fun _ => u) (ser x))).
  { destruct (_ || _); [|exists (su (ser x)); by destruct (ser x)].
    destruct (shutdown_tuned m (ser x) T Hthr) as (u & E & T1). exists u. unfold lift_su. by rewrite E. }
  destruct S1 as (u1 & -> & T1). cbn [mbind option_bind]. set (x1 := mk_line _ _ (on_su (fun _ => u1) (ser x))).
  assert (S2 : exists x2 u2, (if change_port n x then snd (move_port n x1) else x1) = x2 /\
    ser x2 = on_su (fun _ => u2) (ser x) /\ tuned m (ser x2) /\ conf x2 = conf x).
  { destruct (change_port n x); [|by exists x1, u1].
    destruct (move_ok m n x1 T1 Vt) as (u2 & E2 & T2 & C2). exists (snd (move_port n x1)), u2. by rewrite E2. }
  destruct S2 as (x2 & u2 & -> & E2 & T2 & C2). rewrite (tn_tty _ _ T2). cbn [negb].
  destruct (put_settings_ok m n x2 T2) as (u3 & E3 & T3 & K3); [by rewrite C2|done|].
  rewrite <- E3 in T3. apply (exit_keeps _ _ _ _ _ _ u3); [by rewrite E3, E2|done|done].
Qed.

(** TIOCSERCONFIG. *)
Lemma autoconfig_ok m capable x : core (S m) (ser x) -> conf_ok (conf x) ->
  test_bit TTY_THROTTLED (tflags (tty (su (ser x)))) = false ->
  exists r x', uart_do_autoconfig true capable x = Some (r, x') /\ keeps m x x'.
Proof.
  intros C K Hthr. pose proof (core_tuned m _ C) as T. pose proof (keeps_refl m x C K) as Kr. unfold uart_do_autoconfig.
  destruct (negb capable); [by exists (- EPERM), x|]. destruct (negb _); [by exists (- EBUSY), x|].
  destruct (shutdown_tuned m (ser x) T Hthr) as (u & E & T1). unfold lift_su. rewrite E. cbn [mbind option_bind].
  set (flags := if negb _ then _ else _).
  set (x2 := on_ser (on_su (on_port (config_port flags))) _).
  assert (T2 : tuned m (ser x2)).
  { assert (E2 : ser x2 = on_su (fun _ => on_port (ifx_asc_config_port flags) u) (ser x)) by (subst x2; by destruct (negb (ptype _ =? _))).
    rewrite E2. pose proof (tuned_set m (on_port (ifx_asc_config_port flags) u) _ T1) as G.
    assert (P : exists t, ifx_asc_config_port flags (port u) = set_ptype t (port u) /\ t <> PORT_UNKNOWN).
    { clearbody flags. unfold ifx_asc_config_port. destruct (flags .& _ =? 0); cbn [negb]; [|by exists PORT_IFX_ASC]. exists (ptype (port u)).
      split; [by destruct (port u)|apply (tn_port _ _ T1)]. }
    destruct P as (t & Ep & Ht). unfold on_port in G |- *. rewrite Ep in G |- *.
    apply G; try done; [apply (tn_port _ _ T1)|]. exists (low_latency (tty u)). by destruct u as [p i [] d]. }
  destruct (port_restart_ok m capable x2 T2) as (r & u3 & E3 & C3). exists r. eexists. split; [exact E3|].
  split; [exists u3; subst x2; by destruct (negb (ptype _ =? _))|]. split; [done|]. subst x2. by destruct (negb (ptype _ =? _)).
Qed.

(** ** Every call of [uart_ioctl] *)

(** The input is not throttled, and there is memory, when the port may be restarted. *)
Definition permitted (page capable : bool) (c : uart_cmd) x : Prop :=
  let calm_input := page = true /\ test_bit TTY_THROTTLED (tflags (tty (su (ser x)))) = false in
  match c with
  | Tiocsserial arg => calm_input /\ forall n, arg = Some n -> capable = true -> proper n
  | Tiocserconfig => calm_input
  | _ => True
  end.

Lemma core_slept m s s' : core (S m) s -> slept fstat polls irqs s s' -> core (S m) s'.
Proof.
  intros [P F1 F2 Hn Hb [Ht C]] SL. pose proof (slept_calm _ _ _ _ _ SL C) as C'.
  destruct SL as [(k & E) K _ _ _ _]. pose proof (kept_port _ _ K P) as P'.
  rewrite <- (kept_flag 27 _ _ K) in F1. rewrite <- (kept_flag 30 _ _ K) in F2.
  assert (Ht' : has_tty (info (su s')) = true) by (unfold kept in K; injection K; congruence).
  split; try done; by rewrite E.
Qed.

Lemma line_ioctl_ok m page capable writable c x : core (S m) (ser x) -> conf_ok (conf x) -> permitted page capable c x ->
  exists r y x', uart_ioctl lirqs signal page capable writable c x = Some (r, y, x') /\
    core (S m) (ser x') /\ conf_ok (conf x') /\ dev (ser x') = dev (ser x) /\ state (ser x') = state (ser x).
Proof.
  intros C K A.
  assert (R : forall (r : Z) (y : uart_reply), exists r' y' x', Some (r, y, x) = Some (r', y', x') /\
    core (S m) (ser x') /\ conf_ok (conf x') /\ dev (ser x') = dev (ser x) /\ state (ser x') = state (ser x))
    by (intros r y; by exists r, y, x).
  assert (Q : forall o : option (Z * serial_line asc_drv), (exists r x', o = Some (r, x') /\ keeps m x x') ->
    exists r y x', ('(r, x) ← o; Some (r, Nothing, x)) = Some (r, y, x') /\
    core (S m) (ser x') /\ conf_ok (conf x') /\ dev (ser x') = dev (ser x) /\ state (ser x') = state (ser x)).
  { intros o (r & x' & -> & (u & E) & C' & K'). exists r, Nothing, x'. cbn. rewrite E in *. by split_and!. }
  unfold uart_ioctl. destruct (negb _ && _); [apply R|]. destruct c; cbn [permitted] in A; try (destruct writable; apply R).
  - destruct (modem_ok m cmd value (ser x) C) as (r & u & -> & C'). by exists r, Nothing, (mk_line (conf x) (res x) (on_su (fun _ => u) (ser x))).
  - apply Q. destruct A as [[-> Ht] A]. by apply set_info_ok.
  - apply Q. destruct A as [-> Ht]. by apply autoconfig_ok.
  - destruct (schedule_ok fstat polls kmalloc jiffies irqs fuel M (ser x)) as (s' & -> & SL & _); [apply C|by apply (core_calm _ _ _ _ C)|].
    cbn [mbind option_bind]. eexists _, _, _. split; [done|]. cbn [ser conf]. split; [by eapply core_slept|].
    destruct SL as [(k & ->) _ _ _ _ _]. done.
Qed.
End ioctl.
