(* ===== verification/AscLife.v ===== *)
(** * The life of the serial port ([serial_core.c], [tty_io.c], [ifx_asc.c])

    However the terminal of a port is opened, used, set up, hung up and released,
    the counts of its files are right, and the driver has its interrupt lines
    exactly while the port works. *)

From S2P Require Import Prelude Icu Irq MpsRpc SerialCore SerialTx SerialOpen SerialIoctl Asc AscTx AscClose AscOpen AscIoctl.
Open Scope Z_scope.
#[local] Arguments Z.testbit : simpl never.
#[local] Arguments test_bit : simpl never.

Section life.
Context (fstat : nat -> nat -> Z) (polls : nat) (kmalloc : Z -> bool).
Context (jiffies : nat -> Z) (irqs : nat -> nat) (signal : nat -> bool) (fuel : nat).
Hypothesis M : machine_ok fstat polls jiffies fuel.
Implicit Types (u : uart asc_drv) (s : serial asc_drv) (o : opener) (x : serial_line asc_drv).

#[local] Hint Extern 0 (UartOps asc_drv) => exact (asc_pops fstat polls kmalloc) : typeclass_instances.
#[local] Hint Extern 0 (TxView asc_drv) => exact (asc_view fstat polls false) : typeclass_instances.
Abbreviation up := (AscClose.up fstat polls).
Abbreviation core := (AscOpen.core fstat polls).
Abbreviation life_ok := (AscOpen.life_ok fstat polls).
Abbreviation ln u := (line (port u)).
Abbreviation lirqs := (fun n => line_irqs fstat polls (irqs n)).

(** ** The calls *)

(** [Full] and [Emptied]: the line discipline gets full, and is read; [Io]: output,
    flow control and transmit interrupts; [Tcsets]: new settings of the terminal,
    without a wait for output; [Tcxonc], [Tcflsh], [Tiocssoftcar] and [Ioctl]: the
    ioctls of these names, and those of the port. *)
Inductive life_op :=
  | Open (o : opener) | Release (i : nat) | Hangup | Exclusive (b : bool) | Full | Emptied | Io (l : list tx_op)
  | Tcsets (flush : bool) (locked : termios) (arg : option termios)
  | Tcxonc (arg : Z) | Tcflsh (arg : Z) | Tiocssoftcar (arg : option Z)
  | Ioctl (page capable writable : bool) (c : uart_cmd).

Definition life_call (op : life_op) x : option (list Z * serial_line asc_drv) :=
  let s := ser x in
  let ret (m : option (list Z * serial asc_drv)) := '(l, s) ← m; Some (l, mk_line (conf x) (res x) s) in
  let unit (m : option (serial asc_drv)) := ret (s ← m; Some ([], s)) in
  let one (m : option (Z * serial asc_drv)) := ret ('(r, s) ← m; Some ([r], s)) in
  match op with
  | Open o => one (tty_open (conf x) jiffies lirqs signal fuel 1 o s)
  | Release i => unit (release_dev (conf x) jiffies lirqs signal fuel i s)
  | Hangup => unit (do_tty_hangup (conf x) jiffies lirqs signal fuel s)
  | Exclusive b => unit (Some (tty_exclusive b s))
  | Full => unit (throttle_tty s)
  | Emptied => unit (check_unthrottle s)
  | Io l => ret ('(rs, u) ← tx_calls l (su s); Some (rs, on_su (fun _ => u) s))
  | Tcsets flush locked arg => one (set_termios (conf x) jiffies lirqs signal fuel flush false locked arg s)
  | Tcxonc arg => one (tcxonc arg s)
  | Tcflsh arg => one (tcflsh arg s)
  | Tiocssoftcar arg => one (Some (tiocssoftcar arg s))
  | Ioctl page capable writable c =>
      '(r, _, x) ← uart_ioctl lirqs signal page capable writable c x; Some ([r], x)
  end.

(** What the theorem is about: opens of the normal device when there is memory for
    [uart_info]; releases of a file that there is; input, output and new settings of
    the terminal while the port works; ioctls of the port through a file that is
    not hung up, with what [permitted] says of those that may start the port again. *)
Definition allowed (op : life_op) x : Prop :=
  let s := ser x in
  match op with
  | Open o => o_callout o = false /\ (have_info (state s) = true \/ mem_info o = true)
  | Release i => (i < length (files (dev s)))%nat
  | Hangup => True
  | Exclusive _ => there (dev s) = true
  | Full | Emptied | Tcsets _ _ _ | Tcxonc _ | Tcflsh _ | Tiocssoftcar _ => flag 31 (su s) = true
  | Io l => flag 31 (su s) = true /\ Forall op_ok l
  | Ioctl page capable _ c => live (files (dev s)) <> 0%nat /\ permitted page capable c x
  end.

(** The port after registration. *)
Record fresh x : Prop := {
  fr_conf : conf_ok (conf x);
  fr_port : port_ok (on_tty (set_tflags 0) (su (ser x)));
  fr_drv : free_drv (ln (su (ser x))) (drv (su (ser x)));
  fr_info : info (su (ser x)) = mk_info false (mk_circ false (fun _ => 0) 0 0) 0 0 0 0 false;
  fr_state : have_info (state (ser x)) = false /\ ucount (state (ser x)) = 0;
  fr_openers : openers (ser x) = mk_openers 0 0 0;
  fr_dev : dev (ser x) = mk_dev false 0 false false false []
}.

Inductive reach : serial_line asc_drv -> Prop :=
  | reach_fresh x : fresh x -> reach x
  | reach_call x op rs x' : reach x -> allowed op x -> life_call op x = Some (rs, x') -> reach x'.

Lemma fresh_ok x : fresh x -> life_ok (ser x).
Proof.
  intros [_ P Q Ei [Es Ec] Eo Ed]. assert (C : core 0 (on_su (on_tty (set_tflags 0)) (ser x))).
  { split; unfold flag; cbn [su on_su info on_tty state openers]; rewrite ?Ei, ?Eo; try done.
    split; unfold flag, ring_off; cbn [info on_tty]; rewrite ?Ei; done. }
  split; rewrite ?Ed; done.
Qed.

(** ** Every call keeps the port in order *)

(** A change of an open port that keeps everything else. *)
Lemma life_core s s' : life_ok s -> core (live (files (dev s))) s' -> dev s' = dev s -> state s' = state s ->
  there (dev s) = true -> life_ok s'.
Proof. intros [C Ht Hh Hd Hi Hc] C' E1 E2 Et. split; rewrite ?E1, ?E2; try done. by rewrite Et. Qed.

Lemma life_live s : life_ok s -> live (files (dev s)) <> 0%nat ->
  core (live (files (dev s))) s /\ there (dev s) = true /\ exists m, live (files (dev s)) = S m.
Proof.
  intros [C Ht Hh Hd Hi Hc] N. destruct (there (dev s)).
  - destruct (live (files (dev s))) as [|m]; [done|]. by eauto.
  - exfalso. destruct (bool_decide _) eqn:B in Hh; [|done]. apply bool_decide_eq_true in B. by rewrite B in N.
Qed.

Lemma life_up s : life_ok s -> flag 31 (su s) = true -> core (live (files (dev s))) s /\ up (su s) /\
  there (dev s) = true /\ exists m, live (files (dev s)) = S m.
Proof.
  intros L F. assert (N : live (files (dev s)) <> 0%nat).
  { destruct L as [C _ _ _ _ _]. destruct (there (dev s)); destruct (core_up _ _ _ _ C F) as [_ (m & N)]; congruence. }
  destruct (life_live s L N) as (C & T & m & E). split; [done|]. split; [by destruct (core_up _ _ _ _ C F)|eauto].
Qed.

(** What a call does to the files, and that it keeps the port in order. *)
Definition did (op : life_op) x (rs : list Z) x' : Prop :=
  match op with
  | Open o => rs = [0] /\ files (dev (ser x')) = files (dev (ser x)) ++ [mk_file (o_console o) false] \/
              (rs = [- ENOMEM] \/ rs = [- EBUSY]) /\ files (dev (ser x')) = files (dev (ser x))
  | Release i => files (dev (ser x')) = delete i (files (dev (ser x)))
  | Hangup => files (dev (ser x')) = map hang_file (files (dev (ser x)))
  | _ => files (dev (ser x')) = files (dev (ser x))
  end.

Definition plain (op : life_op) : bool := match op with Open _ | Release _ | Hangup => false | _ => true end.

(** A call that changes the port alone. *)
Lemma did_plain op x rs s' : plain op = true -> life_ok (ser x) -> conf_ok (conf x) -> there (dev (ser x)) = true ->
  core (live (files (dev (ser x)))) s' -> dev s' = dev (ser x) -> state s' = state (ser x) ->
  exists rs' x', Some (rs, mk_line (conf x) (res x) s') = Some (rs', x') /\ life_ok (ser x') /\ conf_ok (conf x') /\
    did op x rs' x'.
Proof.
  intros Hp L K T C E1 E2. eexists rs, _. split; [done|]. cbn [ser conf]. split; [by apply (life_core (ser x))|].
  split; [done|]. destruct op; try done; cbn [did ser]; by rewrite E1.
Qed.

(** The same, for a call that only changes [su], by its own lemma. *)
Lemma did_one op x (f : serial asc_drv -> option (Z * serial asc_drv)) : plain op = true ->
  life_ok (ser x) -> conf_ok (conf x) -> flag 31 (su (ser x)) = true ->
  (forall m s, core (S m) s -> flag 31 (su s) = true ->
     exists r u, f s = Some (r, on_su (fun _ => u) s) /\ core (S m) (on_su (fun _ => u) s)) ->
  exists rs x', ('(l, s) ← ('(r, s) ← f (ser x); Some ([r], s)); Some (l, mk_line (conf x) (res x) s)) = Some (rs, x') /\
    life_ok (ser x') /\ conf_ok (conf x') /\ did op x rs x'.
Proof.
  intros Hp L K A Hf. destruct (life_up _ L A) as (C & U & T & m & Em). rewrite Em in C.
  destruct (Hf m _ C A) as (r & u & -> & C1). cbn [mbind option_bind]. apply did_plain; try done. by rewrite Em.
Qed.

Lemma throttle_ok m s : core (S m) s -> flag 31 (su s) = true ->
  exists u, throttle_tty s = Some (on_su (fun _ => u) s) /\ core (S m) (on_su (fun _ => u) s).
Proof.
  intros C A. unfold throttle_tty. destruct (tty_bit TTY_THROTTLED s); [exists (su s); by destruct s|].
  assert (C1 : core (S m) (set_tty_bit TTY_THROTTLED s)).
  { apply core_tflags; [done|by auto|]. rewrite <- (po_closing _ (co_port _ _ _ _ C)).
    by apply tty_bit_other; unfold TTY_CLOSING, TTY_THROTTLED. }
  destruct (core_op fstat polls kmalloc jiffies fuel M m Throttle _ _ C1 A) as (r & u & E & C2); [done|].
  cbn [tx_call] in E. unfold lift_su.
  destruct (uart_throttle _) as [u1|]; [|done]. cbn in E |- *. injection E as _ ->. by exists u.
Qed.

Lemma exclusive_ok n b s : core n s -> core n (tty_exclusive b s).
Proof.
  intros C. destruct b; [by apply set_bit_core|]. apply core_tflags; [done| |].
  - left. by apply tty_bit_other; unfold TTY_THROTTLED, TTY_EXCLUSIVE.
  - rewrite <- (po_closing _ (co_port _ _ _ _ C)). by apply tty_bit_other; unfold TTY_CLOSING, TTY_EXCLUSIVE.
Qed.

Lemma call_ok op x : life_ok (ser x) -> conf_ok (conf x) -> allowed op x ->
  exists rs x', life_call op x = Some (rs, x') /\ life_ok (ser x') /\ conf_ok (conf x') /\ did op x rs x'.
Proof.
  intros L K A. pose proof K as [Kw Kf Kn]. destruct op; cbn [allowed life_call] in *.
  - destruct A as [Ho Hm]. destruct (open_ok fstat polls kmalloc (conf x) jiffies irqs signal fuel M Kw Kf Kn 0 o (ser x) L Ho Hm)
      as (r & s' & -> & L' & R). cbn [mbind option_bind]. eexists [r], _. split; [done|]. do 2 (split; [done|]).
    destruct R as [[-> F]|[[-> | ->] F]]; cbn [did ser]; [by left|right; by auto..].
  - destruct (lookup_lt_is_Some_2 _ _ A) as [f Ef].
    destruct (release_dev_ok fstat polls kmalloc (conf x) jiffies irqs signal fuel M Kw i f (ser x) L Ef) as (s' & -> & L' & F & _).
    cbn [mbind option_bind]. by eexists _, _.
  - destruct (hangup_ok fstat polls kmalloc (conf x) jiffies irqs signal fuel M Kw Kf (ser x) L) as (s' & -> & L' & F).
    cbn [mbind option_bind]. by eexists _, _.
  - cbn [mbind option_bind]. apply did_plain; try done; [|by destruct b..]. pose proof (lf_core _ _ _ L) as C. rewrite A in C.
    by apply exclusive_ok.
  - destruct (life_up _ L A) as (C & U & T & m & Em). rewrite Em in C. destruct (throttle_ok m _ C A) as (u & -> & C1).
    cbn [mbind option_bind]. apply did_plain; try done. by rewrite Em.
  - destruct (life_up _ L A) as (C & U & T & m & Em).
    destruct (unthrottle_ok fstat polls kmalloc jiffies fuel M _ _ C) as (u & -> & C1 & _). cbn [mbind option_bind]. by apply did_plain.
  - destruct A as [A Ho]. destruct (life_up _ L A) as (C & U & T & m & Em).
    destruct (calls_up fstat polls kmalloc jiffies fuel M l _ Ho U) as (rs & u & -> & U' & Ku). cbn [mbind option_bind].
    apply did_plain; try done. rewrite Em in *. by apply core_call.
  - apply did_one; try done. intros m s C F. by apply tcsets_ok.
  - apply (did_one _ _ (tcxonc arg)); try done. intros m s C F. by apply (tcxonc_ok fstat polls kmalloc jiffies fuel M).
  - apply (did_one _ _ (tcflsh arg)); try done. intros m s C F. by apply (tcflsh_ok fstat polls kmalloc jiffies fuel M).
  - apply (did_one _ _ (fun s => Some (tiocssoftcar arg s))); try done. intros m s C F.
    destruct (softcar_ok fstat polls m arg s C) as (r & u & -> & C1). by exists r, u.
  - destruct A as [A Hp]. destruct (life_live _ L A) as (C & T & m & Em). rewrite Em in C.
    destruct (line_ioctl_ok fstat polls kmalloc jiffies irqs signal fuel M m page capable writable c x C K Hp)
      as (r & y & x' & -> & C' & K' & D & S). cbn [mbind option_bind]. exists [r], x'. split; [done|].
    split; [|split; [done|cbn [did]; by rewrite D]]. rewrite <- Em in C'. by apply (life_core (ser x)).
Qed.

Lemma reach_ok x : reach x -> life_ok (ser x) /\ conf_ok (conf x).
Proof.
  induction 1 as [x F|x op rs x' _ [L K] A E]; [split; [by apply fresh_ok|apply F]|].
  destruct (call_ok op x L K A) as (rs1 & x1 & E1 & L1 & K1 & _). rewrite E in E1. injection E1 as _ ->. done.
Qed.

(** The interrupt lines of a port with their handlers. *)
Definition port_irqs (l : Z) : list (Z * asc_handler) :=
  let v := ifx_asc_port_priv l in [(rir v, RxInt); (tir v, TxInt); (eir v, ErInt)].
Definition lines_held u : Prop :=
  Forall (fun '(i, h) => action (irq_desc (irqt (drv u)) i) = [mk_action h 0 (ln u)]) (port_irqs (ln u)).
Definition lines_free u : Prop :=
  Forall (fun '(i, _) => action (irq_desc (irqt (drv u)) i) = [] /\ enabled i (irqt (drv u)) = false) (port_irqs (ln u)).

Lemma up_held u : up u -> lines_held u.
Proof.
  intros [(g & x & R) _ _ _]. destruct (rel_drv _ _ _ R) as [_ _ _ _ _ Ha _ _ ((_ & Ar & _) & (_ & Ae & _))].
  by repeat constructor.
Qed.

Lemma down_free u : ln u = 0 \/ ln u = 1 -> down u -> lines_free u.
Proof.
  intros Hl [[Hok _ (Fr & Ft & Fe)] _ _ _]. destruct (port_lines _ Hl) as (Lr & Le & Lt & _).
  assert (F : forall i, is_line i -> free_line (irqt (drv u)) i ->
    action (irq_desc (irqt (drv u)) i) = [] /\ enabled i (irqt (drv u)) = false)
    by (intros i Hi H; split; [apply H|by apply free_line_masked]).
  repeat constructor; by apply F.
Qed.

Lemma life_lines s : life_ok s ->
  if flag 31 (su s) then live (files (dev s)) <> 0%nat /\ lines_held (su s) else lines_free (su s).
Proof.
  intros L. destruct (flag 31 (su s)) eqn:F.
  - destruct (life_up s L F) as (_ & U & _ & m & ->). split; [done|by apply up_held].
  - destruct L as [C _ _ _ _ _]. set (s1 := if there (dev s) then _ else _) in C.
    assert (E : su s1 = su s \/ su s1 = on_tty (set_tflags 0) (su s)) by (subst s1; destruct (there _); auto).
    assert (D : down (su s1)).
    { destruct (core_calm _ _ _ _ C) as [U|D]; [|done]. pose proof (up_set _ _ _ U) as G.
      destruct E as [E|E]; rewrite E in G; unfold flag in F, G; cbn [info on_tty] in G; congruence. }
    pose proof (down_free _ (po_line _ (co_port _ _ _ _ C)) D) as H. destruct E as [E|E]; rewrite E in H; exact H.
Qed.

(** C12: The port belongs to its open files.  Take any calls that [allowed] describes:
    opens of the normal device (the callout device is left out), releases and
    hangups; on a port that works, output, a line discipline that gets full and
    room again, flow control and new settings without a wait for output; and all
    ioctls of the port through a file that is not hung up, those that may start the
    port again while input is not throttled, with memory for the ring, and with a
    type, a FIFO, a closing time and a clock ([proper]).  Interrupt lines,
    the terminal, the page for user data and the ring of an opener may be
    refused, signals may come, and interrupts during the sleeps.  Then every call
    returns; an open that fails adds no file; the count of the port is the number of
    files that are not hung up, and that of the terminal the number of files; the
    driver has its three interrupt lines while the port works, which takes a file
    that is not hung up, and otherwise none of them has a handler and all are masked
    in the interrupt unit.  When [uart_info] itself cannot be allocated the open
    fails with -ENOMEM, but leaves the port's count one too high, with no file: that
    is where these runs end. *)
Theorem port_life x (Hr : reach x) :
  let s := ser x in
  ucount (state s) = Z.of_nat (live (files (dev s))) /\
  tcount (dev s) = Z.of_nat (length (files (dev s))) /\
  there (dev s) = negb (bool_decide (files (dev s) = [])) /\
  (if flag 31 (su s) then live (files (dev s)) <> 0%nat /\ lines_held (su s) else lines_free (su s)) /\
  (forall op, allowed op x -> exists rs x', life_call op x = Some (rs, x') /\ did op x rs x') /\
  forall o, have_info (state s) = false -> mem_tty o = true -> mem_info o = false ->
    exists x', life_call (Open o) x = Some ([- ENOMEM], x') /\
      files (dev s) = [] /\ files (dev (ser x')) = [] /\ ucount (state (ser x')) = 1.
Proof.
  intros s. destruct (reach_ok x Hr) as [L K].
  assert (Hc : ucount (state s) = Z.of_nat (live (files (dev s)))).
  { pose proof (co_count _ _ _ _ (lf_core _ _ _ L)) as C. subst s. by destruct (there (dev (ser x))). }
  split_and!; [done|apply L|apply L|by apply life_lines| |].
  - intros op A. destruct (call_ok op x L K A) as (rs & x' & E & _ & _ & F). eauto.
  - intros o Hi Ht Hm. destruct K as [_ _ Kn].
    destruct (open_no_info fstat polls kmalloc (conf x) jiffies irqs signal fuel Kn 0 o s L Hi Ht Hm) as (s' & E & F & F' & U).
    cbn [life_call]. fold s. rewrite E. cbn [mbind option_bind]. eexists. split; [done|]. cbn [ser].
    split; [done|]. split; [done|]. by rewrite U, Hc, F.
Qed.
End life.

(** ** Example *)

Definition sample_conf : port_conf := mk_conf 3000 50 0 0x10000000 (-1) 2.
Definition sample_clock (n : nat) : Z := 2 ^ 29 * Z.of_nat n.
Definition sample_serial : serial asc_drv :=
  mk_serial (on_tty (put_termios (mk_termios 0 (B115200 .| CS8 .| CREAD .| HUPCL .| CLOCAL) 19 17))
               (on_info (fun _ => mk_info false (mk_circ false (fun _ => 0) 0 0) 0 0 0 0 false) closed_port))
    (mk_state false 0 (mk_termios 0 0 0 0) (mk_termios 0 0 0 0)) (mk_openers 0 0 0)
    (mk_dev false 0 false false false []) 0 false 0.
Definition sample_line : serial_line asc_drv := mk_line sample_conf (mk_res 106 0 2 0 0) sample_serial.
Definition root_opener : opener := mk_opener false false false 1 1 true true true true true.

Lemma sample_machine : machine_ok roomy 1 sample_clock 1.
Proof. split; intros; unfold sample_clock; try lia; by exists 0%nat; split; [lia|]. Qed.

Abbreviation sample_call := (life_call roomy 1 (fun _ => true) sample_clock (fun _ => 1%nat) (fun _ => false) 1).
Abbreviation sample_reach := (reach roomy 1 (fun _ => true) sample_clock (fun _ => 1%nat) (fun _ => false) 1).

Lemma line_fresh : fresh sample_line.
Proof.
  split; try done.
  - split; try done; [by right|by left].
  - destruct closed_startable as [H1 H2 H3 H4 _ _ _]. by split.
Qed.

(** Two characters are written to the open port; it works, and one is still to be sent. *)
Definition sample_io : life_op := Io [Write false (fun _ _ => 0) (fun _ => 0%nat) [104; 105]].
Abbreviation sample_opened := (sample_call (Open root_opener) sample_line).
Definition sample_life : option (list Z * serial_line asc_drv) := '(_, s) ← sample_opened; sample_call sample_io s.

Lemma sample_opened_ok :
  option_map (fun '(rs, x) => (rs, flag 31 (su (ser x)))) sample_opened = Some ([0], true).
Proof. by vm_compute. Qed.
Lemma sample_life_ok :
  option_map (fun '(rs, x) => (rs, (flag 31 (su (ser x)), files (dev (ser x)), length (ring (xmit (info (su (ser x)))))))) sample_life =
    Some ([2], (true, [mk_file false false], 1%nat)).
Proof. by vm_compute. Qed.

Lemma sample_life_eq x1 : sample_opened = Some ([0], x1) -> sample_life = sample_call sample_io x1.
Proof. unfold sample_life. generalize sample_opened. intros o ->. reflexivity. Qed.

Lemma sample_reached_life : exists x, sample_reach x /\ flag 31 (su (ser x)) = true /\ files (dev (ser x)) = [mk_file false false].
Proof.
  destruct (observed (fun _ x => flag 31 (su (ser x))) sample_opened [0] true sample_opened_ok) as (x1 & E1 & F1).
  destruct (observed (fun _ x => (flag 31 (su (ser x)), files (dev (ser x)), length (ring (xmit (info (su (ser x))))))) sample_life _ _
    sample_life_ok) as (x2 & E2 & F2). rewrite (sample_life_eq x1 E1) in E2. injection F2 as H1 H2 _.
  exists x2. split; [|exact (conj H1 H2)].
  eapply (reach_call _ _ _ _ _ _ _ x1 sample_io [2] x2); [|split; [exact F1|repeat constructor; cbn; intros; lia]|exact E2].
  eapply (reach_call _ _ _ _ _ _ _ sample_line (Open root_opener) [0] x1);
    [apply reach_fresh, line_fresh|split; [done|by right]|exact E1].
Qed.

Lemma port_life_witness : exists x rs x',
  ucount (state (ser x)) = 1 /\ lines_held (su (ser x)) /\ sample_call (Release 0) x = Some (rs, x') /\
  files (dev (ser x')) = [].
Proof.
  destruct sample_reached_life as (x & R & F & L).
  destruct (port_life roomy 1 (fun _ => true) sample_clock (fun _ => 1%nat) (fun _ => false) 1 sample_machine x R)
    as (C & _ & _ & H & A & _).
  destruct (A (Release 0)) as (rs & x' & E & X); [cbn; rewrite L; cbn; lia|].
  rewrite F in H. exists x, rs, x'. split; [by rewrite C, L|]. split; [apply H|]. split; [exact E|].
  cbn [did] in X. by rewrite X, L.
Defined.
