(* ===== verification/AscDrain.v ===== *)
(** * The last close of the serial port sends what is queued ([serial_core.c], [ifx_asc.c])

    What goes on the wire between the release of the last file that counts and the
    shutdown of the port: what the transmit interrupts during the waits send, which
    is everything if they come before the closing time is over. *)

From S2P Require Import Prelude SerialCore SerialTx SerialOpen SerialIoctl Asc AscTx AscClose AscOpen AscIoctl AscLife.
Open Scope Z_scope.
#[local] Arguments Z.testbit : simpl never.
#[local] Arguments test_bit : simpl never.

(** ** What interrupts alone send *)

Section queue.
Variable g : tx_config.
Implicit Types x : tx_spec.

Definition moving x : bool :=
  negb (halted x) && negb (hw g) && on x && negb (bool_decide (q x = [])).
Definition pushed x : list Z := if moving x then due x else [].

Lemma moving_flowing x : moving x = true <-> flowing g x.
Proof.
  unfold moving, flowing. rewrite !andb_true_iff, !negb_true_iff, bool_decide_eq_false. tauto.
Qed.

Lemma irq_still x : moving x = false -> sent (irq g x) = sent x /\ moving (irq g x) = false.
Proof.
  unfold irq. destruct (on x) eqn:Eo; [|done]. unfold moving, send. rewrite Eo.
  destruct (halted x) eqn:Eh; cbn [negb orb andb]; [by cbn; rewrite Eh|].
  destruct (hw g); cbn [negb orb andb]; [by rewrite andb_false_r|].
  destruct (q x) eqn:Eq; [|done]. intros _. cbn. by rewrite Eh.
Qed.

Lemma irqs_still n x : moving x = false -> sent (Nat.iter n (irq g) x) = sent x.
Proof.
  revert x. induction n as [|n IH]; intros x Hm; [done|]. rewrite Nat.iter_succ_r.
  destruct (irq_still x Hm) as [E Hm']. rewrite <- E. by apply IH.
Qed.

(** One character for each interrupt; while some are left the queue is not empty. *)
Lemma irqs_sent n : forall x,
  map snd (sent (Nat.iter n (irq g) x)) = map snd (sent x) ++ take n (pushed x) /\
  ((n < length (pushed x))%nat -> q (Nat.iter n (irq g) x) <> []).
Proof.
  induction n as [|n IH]; intros x; unfold pushed; destruct (moving x) eqn:Em;
    try (rewrite irqs_still by done; rewrite take_nil, app_nil_r; split; [done|cbn; lia]).
  - apply moving_flowing in Em. cbn. rewrite app_nil_r. split; [done|]. intros _. apply Em.
  - apply moving_flowing in Em. destruct (send_due g x Em) as (c & l & -> & E & Hl).
    rewrite Nat.iter_succ_r. assert (irq g x = send g x) as -> by (unfold irq; by rewrite (proj1 (proj2 (proj2 Em)))).
    destruct (IH (send g x)) as [I1 I2]. rewrite I1, E, <- app_assoc. cbn [take app length].
    assert (P : pushed (send g x) = l).
    { unfold pushed. destruct l as [|c' l].
      - destruct Hl as [Ho _]. unfold moving. by rewrite Ho, andb_false_r.
      - destruct Hl as [Hf Hd]. by rewrite (proj2 (moving_flowing _) Hf). }
    rewrite P in *. split; [done|]. intros Hn. apply I2. lia.
Qed.
End queue.

(** ** The close *)

(** What interrupts alone will send of a port, in order: nothing while its terminal
    is stopped or its transmit line masked. *)
Definition outgoing (u : uart asc_drv) : list Z :=
  if negb (stopped (tty u)) && negb (hw_stopped (tty u)) && line_on u && negb (bool_decide (ring (xmit (info u)) = []))
  then due_of u else [].

Section close.
Context (fstat : nat -> nat -> Z) (polls : nat) (kmalloc : Z -> bool).
Context (jiffies : nat -> Z) (irqs : nat -> nat) (signal : nat -> bool) (fuel : nat).
Hypothesis M : machine_ok fstat polls jiffies fuel.
Implicit Types (x : serial_line asc_drv).
#[local] Hint Extern 0 (UartOps asc_drv) => exact (asc_pops fstat polls kmalloc) : typeclass_instances.
#[local] Hint Extern 0 (TxView asc_drv) => exact (asc_view fstat polls false) : typeclass_instances.
Abbreviation rel := (@tx_rel asc_drv (asc_view fstat polls false)).
Abbreviation reach := (AscLife.reach fstat polls kmalloc jiffies irqs signal fuel).
Abbreviation lirqs := (fun n => line_irqs fstat polls (irqs n)).

Lemma outgoing_pushed g u y : rel g u y -> outgoing u = pushed g y.
Proof.
  intros R. unfold outgoing, pushed, moving, line_on, due_of, due.
  rewrite (rel_line_enabled _ _ _ _ _ R), (rel_halted _ _ _ R), (rel_q _ _ _ R), (rel_x _ _ _ R).
  by replace (hw_stopped (tty u)) with (hw g) by (by rewrite <- (rel_config _ _ _ R)).
Qed.

Lemma during_mono n m k : (n <= m <= k)%nat -> (during irqs n m <= during irqs n k)%nat.
Proof. intros H. rewrite (during_app _ n m k) by done. lia. Qed.

Lemma ring_off_nil u : ring_off u -> ring (xmit (info u)) = [].
Proof.
  intros E. apply nil_length_inv. pose proof (ring_length (xmit (info u))) as L. unfold ring_off in E.
  rewrite cnt_eq, E, Z.sub_diag in L. change (0 mod 1024) with 0 in L. lia.
Qed.

(** C13: Closing a port that works sends what is queued.  When the last file that
    counts is released, by whatever way the port got to its state, the release
    returns with the ring empty, and on the wire is what was there before and one
    more character of the queue, in order, for each transmit interrupt during the
    sleeps of the close (none if the terminal is stopped or the line masked).
    Without signals, and with a closing time set, the close sleeps long enough:
    if interrupts for the whole queue come before that time is over, everything
    is sent. *)
Theorem close_sends x (Hr : reach x) i f (Hf : files (dev (ser x)) !! i = Some f)
    (Hl : hung f = false /\ live (files (dev (ser x))) = 1%nat) (Hup : flag 31 (su (ser x)) = true) :
  let s := ser x in
  exists s', release_dev (conf x) jiffies lirqs signal fuel i s = Some s' /\ ring (xmit (info (su s'))) = [] /\
    bytes (out (drv (su s'))) =
      bytes (out (drv (su s))) ++ bytes (take (during irqs (naps s) (naps s')) (outgoing (su s))) /\
    forall k, unsignalled signal -> closing_wait (conf x) <> ASYNC_CLOSING_WAIT_NONE ->
      jiffies (naps s + k)%nat - jiffies (naps s) < closing_wait (conf x) ->
      (length (outgoing (su s)) <= during irqs (naps s) (naps s + k))%nat ->
      bytes (out (drv (su s'))) = bytes (out (drv (su s))) ++ bytes (outgoing (su s)).
Proof.
  intros s. destruct (reach_ok _ _ _ _ _ _ _ M x Hr) as [L [Kw _ _]].
  destruct (life_up _ _ s L Hup) as (_ & U & _).
  destruct (up_rel _ _ _ U) as (g & y & R). rewrite (outgoing_pushed g _ y R).
  destruct (release_dev_ok fstat polls kmalloc (conf x) jiffies irqs signal fuel M Kw i f s L Hf) as (s' & E & _ & _ & S).
  destruct (S (proj1 Hl) (proj2 Hl)) as [[B Em] Ro]. specialize (B g y R).
  set (n := during irqs (naps s) (naps s')) in *. destruct (irqs_sent g n y) as [I1 I2].
  assert (B1 : bytes (out (drv (su s'))) = bytes (out (drv (su s))) ++ bytes (take n (pushed g y))).
  { pose proof (rel_wire _ _ _ R) as W. cbn in W. unfold bytes at 2. rewrite W, B.
    rewrite <- !(map_map snd (fun c => c mod 256)), I1, map_app. done. }
  exists s'. split; [done|]. split; [by apply ring_off_nil|]. split; [done|].
  intros k Hs Hc Ht Hk. rewrite B1, take_ge; [done|]. destruct (Em Hc g y R Hs) as [Hq|Hq].
  - destruct (Nat.le_gt_cases (length (pushed g y)) n) as [H|H]; [done|by destruct (I2 H)].
  - etrans; [exact Hk|]. apply during_mono. split; [lia|].
    destruct (Nat.le_gt_cases (naps s + k) (naps s')) as [H|H]; [done|].
    pose proof (time_mono fstat polls jiffies fuel M (naps s') (naps s + k)). lia.
Qed.
End close.

(** ** Example *)

(** A clock that stands still at first, so that a close has the time to sleep. *)
Definition drain_clock (n : nat) : Z := 2 ^ 29 * Z.of_nat (n - 2).

Lemma drain_machine : machine_ok roomy 1 drain_clock 3.
Proof.
  split; intros; unfold drain_clock; try lia; by exists 0%nat; split; [lia|].
Qed.

Abbreviation drain_call := (life_call roomy 1 (fun _ => true) drain_clock (fun _ => 2%nat) (fun _ => false) 3).
Abbreviation drain_reach := (reach roomy 1 (fun _ => true) drain_clock (fun _ => 2%nat) (fun _ => false) 3).

(** Three characters are written; two are still to be sent. *)
Definition drain_io : life_op := Io [Write false (fun _ _ => 0) (fun _ => 0%nat) [104; 105; 33]].
Abbreviation drain_opened := (drain_call (Open root_opener) sample_line).
Definition drain_life : option (list Z * serial_line asc_drv) := '(_, s) ← drain_opened; drain_call drain_io s.

Lemma drain_opened_ok :
  option_map (fun '(rs, x) => (rs, flag 31 (su (ser x)))) drain_opened = Some ([0], true).
Proof. by vm_compute. Qed.
Definition drain_view (x : serial_line asc_drv) :=
  let s := ser x in (flag 31 (su s), files (dev s), naps s, closing_wait (conf x), outgoing (su s), bytes (out (drv (su s)))).
Lemma drain_life_ok :
  option_map (fun '(rs, s) => (rs, drain_view s)) drain_life =
    Some ([3], (true, [mk_file false false], 0%nat, 3000, [105; 33], [104])).
Proof. by vm_compute. Qed.

Lemma drain_life_eq s1 : drain_opened = Some ([0], s1) -> drain_life = drain_call drain_io s1.
Proof. unfold drain_life. generalize drain_opened. intros o ->. reflexivity. Qed.

Lemma drain_reached : exists x, drain_reach x /\
  drain_view x = (true, [mk_file false false], 0%nat, 3000, [105; 33], [104]).
Proof.
  destruct (observed (fun _ x => flag 31 (su (ser x))) drain_opened [0] true drain_opened_ok) as (x1 & E1 & F1).
  destruct (observed (fun _ x => drain_view x) drain_life _ _ drain_life_ok) as (x2 & E2 & F2).
  rewrite (drain_life_eq x1 E1) in E2. exists x2. split; [|exact F2].
  eapply (reach_call _ _ _ _ _ _ _ x1 drain_io [3] x2); [|split; [exact F1|repeat constructor; cbn; intros; lia]|exact E2].
  eapply (reach_call _ _ _ _ _ _ _ sample_line (Open root_opener) [0] x1);
    [apply reach_fresh, line_fresh|split; [done|by right]|exact E1].
Qed.

Lemma close_sends_witness : exists x x',
  bytes (out (drv (su (ser x)))) = [104] /\ drain_call (Release 0) x = Some ([], x') /\
  bytes (out (drv (su (ser x')))) = [104; 105; 33].
Proof.
  destruct drain_reached as (x & R & V). unfold drain_view in V. injection V as F Fl N W Ou By.
  destruct (close_sends roomy 1 (fun _ => true) drain_clock (fun _ => 2%nat) (fun _ => false) 3 drain_machine
    x R 0 (mk_file false false) ltac:(by rewrite Fl) ltac:(by rewrite Fl) F) as (s' & E & _ & _ & A).
  specialize (A 1%nat ltac:(done) ltac:(by rewrite W)). rewrite N, W, Ou, By in A.
  exists x, (mk_line (conf x) (res x) s'). split; [exact By|].
  split; [unfold life_call; by rewrite E|]. cbn [ser]. rewrite A; [done|by vm_compute|by vm_compute].
Defined.
