(* ===== verification/AscInfo.v ===== *)
(** * Settings of the serial port are read back as they were written ([serial_core.c])

    TIOCGSERIAL after TIOCSSERIAL on a port that works, for a privileged user and
    for another; and when the driver is told of a new speed. *)

From S2P Require Import Prelude Irq MpsRpc SerialCore SerialTx SerialOpen SerialIoctl Asc AscTx AscClose AscOpen AscIoctl AscLife.
Open Scope Z_scope.
#[local] Arguments Z.testbit : simpl never.
#[local] Arguments test_bit : simpl never.

(** The fields have the types of [serial_struct]. *)
Definition is_s32 (v : Z) : Prop := - 2 ^ 31 <= v < 2 ^ 31.
Record typed (n : serial_struct) : Prop := {
  ty_type : is_s32 (ss_type n); ty_irq : is_s32 (ss_irq n); ty_flags : is_s32 (ss_flags n);
  ty_fifo : is_s32 (ss_xmit_fifo_size n); ty_divisor : is_s32 (ss_custom_divisor n);
  ty_baud : is_s32 (ss_baud_base n); ty_delay : 0 <= ss_close_delay n < 2 ^ 16;
  ty_io : - 128 <= ss_io_type n < 128; ty_wait : 0 <= ss_closing_wait n < 2 ^ 16
}.

Lemma s32_of_w32 v : is_s32 v -> s32 (w32 v) = v.
Proof. unfold is_s32, s32, w32. intros H. Z.to_euclidean_division_equations. lia. Qed.
Lemma s8_id v : - 128 <= v < 128 -> s8 v = v.
Proof. unfold s8. intros H. Z.to_euclidean_division_equations. lia. Qed.

(** Flags taken from [c] where [k] is set, seen through a mask within [k]. *)
Lemma merged_masked a b c k v : v .& k = v -> (a .& ((b .& .~ k) .| (c .& k))) .& v = (a .& c) .& v.
Proof.
  intros <-. apply Z.bits_inj'. intros i Hi. rewrite !Z.land_spec, !Z.lor_spec, !Z.land_spec, Z.lnot_spec by done.
  by destruct (Z.testbit a i), (Z.testbit b i), (Z.testbit c i), (Z.testbit k i), (Z.testbit v i).
Qed.
Lemma merged_other a b c k v : v .& k = 0 -> (a .& ((b .& .~ k) .| (c .& k))) .& v = (a .& b) .& v.
Proof.
  intros E. apply Z.bits_inj'. intros i Hi. apply (f_equal (fun w => Z.testbit w i)) in E.
  rewrite Z.land_spec, Z.bits_0 in E. rewrite !Z.land_spec, !Z.lor_spec, !Z.land_spec, Z.lnot_spec by done.
  by destruct (Z.testbit a i), (Z.testbit b i), (Z.testbit c i), (Z.testbit k i), (Z.testbit v i).
Qed.
Lemma merged_same b c k : c .& .~ k = b .& .~ k -> (b .& .~ k) .| (c .& k) = c.
Proof.
  intros <-. apply Z.bits_inj'. intros i Hi. rewrite !Z.lor_spec, !Z.land_spec, Z.lnot_spec by done.
  by destruct (Z.testbit c i), (Z.testbit k i).
Qed.

(** What TIOCGSERIAL shows of a port is of these. *)
Lemma info_port {D} (x x' : serial_line D) : conf x' = conf x -> res x' = res x ->
  (exists r i, port (su (ser x')) = set_masks r i (port (su (ser x)))) -> uart_get_info x' = uart_get_info x.
Proof. unfold uart_get_info. intros -> -> (r & i & ->). done. Qed.

Section info.
Context (fstat : nat -> nat -> Z) (polls : nat) (kmalloc : Z -> bool).
Context (jiffies : nat -> Z) (irqs : nat -> nat) (signal : nat -> bool) (fuel : nat).
Hypothesis M : machine_ok fstat polls jiffies fuel.
Implicit Types (x : serial_line asc_drv) (n : serial_struct).
#[local] Hint Extern 0 (UartOps asc_drv) => exact (asc_pops fstat polls kmalloc) : typeclass_instances.
Abbreviation reach := (AscLife.reach fstat polls kmalloc jiffies irqs signal fuel).

(** A clock below 16 Hz divides by zero. *)
Lemma speed_div div old (u : uart asc_drv) : ptype (port u) <> PORT_UNKNOWN -> has_tty (info u) = true ->
  if uartclk (port u) / 16 =? 0 then uart_change_speed div old u = None
  else exists u' r i, uart_change_speed div old u = Some u' /\ port u' = set_masks r i (port u).
Proof.
  intros Hp Ht. unfold uart_change_speed. rewrite Ht, (proj2 (Z.eqb_neq _ _) Hp). cbn [negb orb].
  destruct (quot_total 2 div old 0 u) as (q & u1 & Eq). rewrite Eq. cbn [mbind option_bind].
  apply quot_loop_only in Eq. destruct Eq as (E1 & _ & E3 & _). rewrite E1.
  destruct (uartclk (port u) / 16 =? 0); [done|]. cbn [change_speed asc_pops ifx_asc_pops].
  match goal with |- context [ifx_asc_change_speed _ _ ?c ?f ?qq ?p ?d] =>
    assert (W : exists p' d', ifx_asc_change_speed fstat polls c f qq p d = Some (p', d')) end.
  { unfold ifx_asc_change_speed. cbn [drv on_info].
    destruct (ok_empty _ _ _ _ M (length (out (drv u1)))) as (j & Hj & Ej).
    rewrite wait_ready by (exists j; split; [lia|done]). cbn. eauto. }
  destruct W as (p & d & W). rewrite W. cbn [mbind option_bind]. apply change_speed_same in W as [_ W].
  eexists _, _, _. split; [done|]. cbn [port on_info] in W |- *. rewrite E1 in W. exact W.
Qed.

(** On a working port nothing is started, and the speed is set only if it changes. *)
Lemma exit_port capable ofl odv x : ptype (port (su (ser x))) <> PORT_UNKNOWN -> has_tty (info (su (ser x))) = true ->
  flag 31 (su (ser x)) = true ->
  let told := negb ((ofl .& iflags (info (su (ser x)))) .& ASYNC_SPD_MASK =? 0) || negb (odv =? custom_divisor (conf x)) in
  if told && (uartclk (port (su (ser x))) / 16 =? 0) then check_and_exit true capable ofl odv x = None
  else exists x', check_and_exit true capable ofl odv x = Some (0, x') /\ uart_get_info x' = uart_get_info x /\
    (told = false -> x' = x).
Proof.
  intros Hp Ht F told. unfold check_and_exit. rewrite (proj2 (Z.eqb_neq _ _) Hp).
  change ASYNC_INITIALIZED with (1 .<< 31). rewrite has_flag_bit, F by lia. fold told.
  destruct told; cbn [andb]; [|by exists x].
  destruct (altspeed_only (su (ser x))) as (A1 & A2 & _).
  pose proof (speed_div (custom_divisor (conf x)) None (uart_update_altspeed (su (ser x)))) as S.
  rewrite A1, A2 in S. specialize (S Hp Ht). unfold lift_su.
  destruct (uartclk (port (su (ser x))) / 16 =? 0); [by rewrite S|].
  destruct S as (u & r & i & -> & Ep). cbn [mbind option_bind]. eexists. split; [done|]. split; [|done].
  apply info_port; [done|done|]. cbn [ser su on_su]. eauto.
Qed.

(** What is read back.  A privileged user sets all flags that there are, a FIFO of 8
    bits and a clock of 32, which is 16 times the base rate. *)
Definition stored (capable : bool) n x : serial_struct :=
  mk_ss (ss_type n) (s32 (line (port (su (ser x))))) (ss_port n) (ss_irq n)
    (if capable then s32 ((port_flags (conf x) .& .~ ASYNC_FLAGS) .| (w32 (ss_flags n) .& ASYNC_FLAGS)) else ss_flags n)
    (if capable then ss_xmit_fifo_size n mod 256 else ss_xmit_fifo_size n) (ss_custom_divisor n)
    (if capable then ss_baud_base n mod 2 ^ 28 else ss_baud_base n) (ss_close_delay n) (ss_io_type n) (ss_hub6 n)
    (ss_closing_wait n) (ss_iomem_base n) (ss_regshift n).

(** The part of an unprivileged user. *)
Lemma user_stored n x : typed n -> not_allowed n x = false ->
  let x' := on_ser (on_su (on_info (fun i => set_iflags (user_flags (iflags i) (w32 (ss_flags n))) i)))
              (on_conf (set_conf_flags (user_flags (port_flags (conf x)) (w32 (ss_flags n))) (w32 (ss_custom_divisor n))) x) in
  uart_get_info x' = stored false n x.
Proof.
  intros [T1 T2 T3 T4 T5 T6 T7 T8 T9] N. unfold not_allowed, change_irq, change_port in N.
  rewrite !orb_false_iff, !negb_false_iff, !Z.eqb_eq in N.
  destruct N as ((((((N1 & (((((P1 & P2) & P3) & P4) & P5) & P6)) & N2) & N3) & N4) & N5) & N6).
  unfold uart_get_info, stored. cbn [ser conf res on_ser on_conf su on_su on_info port port_flags custom_divisor
    close_delay closing_wait set_conf_flags]. unfold user_flags. rewrite merged_same by done.
  rewrite <- N1, <- N2, <- N3, <- N4, <- N5, <- P1, <- P2, <- P3, <- P4, <- P5, <- P6, !s32_of_w32, s8_id by done.
  by rewrite !Z.mod_small by lia.
Qed.

(** The part of a privileged user who leaves the port where it is. *)
Lemma wrapped_clock v : w32 (v * 16) / 16 = v mod 2 ^ 28.
Proof. unfold w32. Z.to_euclidean_division_equations. lia. Qed.

Lemma root_stored n x : typed n -> change_port n x = false -> change_irq n x = false ->
  uart_get_info (put_settings n x) = stored true n x.
Proof.
  intros [T1 T2 T3 T4 T5 T6 T7 T8 T9] N N1. unfold change_irq, change_port in N, N1.
  rewrite !orb_false_iff, !negb_false_iff, !Z.eqb_eq in N. rewrite negb_false_iff, Z.eqb_eq in N1.
  destruct N as (((((P1 & P2) & P3) & P4) & P5) & P6).
  unfold uart_get_info, stored, put_settings. cbn [ser conf res on_ser on_conf on_res su on_su on_info on_port on_tty port
    port_flags custom_divisor close_delay closing_wait set_conf_flags set_waits uartclk ptype line iobase fifosize set_uartclk
    set_fifosize p_irq set_p_irq iotype hub6 mapbase regshift].
  rewrite wrapped_clock, (s32_id (_ mod 2 ^ 28)) by (pose proof (Z.mod_pos_bound (ss_baud_base n) (2 ^ 28)); lia).
  unfold HZ. rewrite !Z.div_mul, !(Z.mod_small _ (2 ^ 16)) by lia.
  rewrite <- P1, <- P2, <- P3, <- P4, <- P5, <- P6, !s32_of_w32, s8_id by done. done.
Qed.

(** The speed has to be set: the old and the new speed flags have a bit in common,
    or the divisor changes. *)
Definition tells n x : bool :=
  negb ((port_flags (conf x) .& w32 (ss_flags n)) .& ASYNC_SPD_MASK =? 0) ||
  negb (custom_divisor (conf x) =? w32 (ss_custom_divisor n)).

(** What TIOCSSERIAL does, and what TIOCGSERIAL shows then. *)
Definition outcome (capable : bool) n x (r : option (Z * serial_line asc_drv)) : Prop :=
  if capable && tells n x && (ss_baud_base n mod 2 ^ 28 =? 0) then r = None
  else exists x', r = Some (0, x') /\ uart_get_info x' = stored capable n x /\
    (tells n x = false ->
     drv (su (ser x')) = drv (su (ser x)) /\ alt_speed (tty (su (ser x'))) = alt_speed (tty (su (ser x)))).

Lemma root_outcome n x m : tuned fstat polls m (ser x) -> flag 31 (su (ser x)) = true -> typed n ->
  verify_port n = 0 -> change_port n x = false -> change_irq n x = false ->
  outcome true n x (uart_set_info true true (Some n) x).
Proof.
  intros C Hup Hn Hv Hm Hi. pose proof (po_type _ (tn_port _ _ _ _ C)) as Pt. pose proof (tn_tty _ _ _ _ C) as Ht.
  unfold outcome, uart_set_info. cbn [negb andb]. rewrite Hv, Hm, Hi. cbn [orb andb].
  assert (V : (ss_irq n >=? NR_IRQS) || (ss_irq n <? 0) || (ss_baud_base n <? 9600) = false).
  { cbn [verify_port asc_port_ops] in Hv. unfold ifx_asc_verify_port in Hv.
    destruct (ss_baud_base n <? 9600); [done|]. destruct (ss_irq n <? 0), (ss_irq n >=? NR_IRQS); done. }
  rewrite V. cbn [Z.eqb negb mbind option_bind].
  replace (mk_line (conf x) (res x) (ser x)) with x by (by destruct x). rewrite Ht. cbn [negb].
  pose proof (exit_port true (port_flags (conf x)) (custom_divisor (conf x)) (put_settings n x)) as X.
  specialize (X Pt Ht). cbv zeta in X.
  change (uartclk (port (su (ser (put_settings n x))))) with (w32 (ss_baud_base n * 16)) in X. rewrite wrapped_clock in X.
  match type of X with _ -> if ?t && _ then _ else _ => assert (Et : t = tells n x) end.
  { change (iflags (info (su (ser (put_settings n x))))) with
    ((((port_flags (conf x) .& .~ ASYNC_FLAGS) .| (w32 (ss_flags n) .& ASYNC_FLAGS)) .& .~ ASYNC_INTERNAL_FLAGS) .|
     (iflags (info (su (ser x))) .& ASYNC_INTERNAL_FLAGS)).
    rewrite merged_other by done. by rewrite (merged_masked _ (port_flags (conf x)) _ ASYNC_FLAGS). }
  rewrite Et in X. pose proof (root_stored n x Hn Hm Hi) as Es.
  destruct (tells n x && _); [apply X|destruct X as (x' & -> & Ei & Ex)].
  3: { exists x'. split; [done|]. split; [by rewrite Ei|]. intros T. by rewrite (Ex T). }
  all: unfold put_settings, flag, ASYNC_INTERNAL_FLAGS in *; cbn [ser conf on_ser on_conf on_res su on_su info on_info on_port on_tty
      iflags set_iflags]; generalize (w32 (ss_flags n)); intros v; status_bits; exact Hup.
Qed.

Lemma user_outcome n x m : tuned fstat polls m (ser x) -> up fstat polls (su (ser x)) -> typed n -> not_allowed n x = false ->
  outcome false n x (uart_set_info true false (Some n) x).
Proof.
  intros C U Hn Ha. pose proof (po_type _ (tn_port _ _ _ _ C)) as Pt. pose proof (tn_tty _ _ _ _ C) as Ht.
  pose proof (up_set _ _ _ U) as Hup. unfold outcome, uart_set_info. cbn [negb andb].
  rewrite Ha. pose proof (user_stored n x Hn Ha) as Ei. set (x1 := on_ser _ (on_conf _ x)) in *.
  pose proof (exit_port false (port_flags (conf x)) (custom_divisor (conf x)) x1 Pt Ht) as X. cbv zeta in X.
  match type of X with _ -> if ?t && ?c then _ else _ => assert (Et : t = tells n x); [|assert (Ec : c = false)] end.
  { change (iflags (info (su (ser x1)))) with (user_flags (iflags (info (su (ser x)))) (w32 (ss_flags n))).
    unfold user_flags. by rewrite (merged_masked _ (iflags (info (su (ser x)))) _ ASYNC_USR_MASK). }
  { apply Z.eqb_neq. pose proof (up_clk _ _ _ U). change (port (su (ser x1))) with (port (su (ser x))).
    Z.to_euclidean_division_equations. lia. }
  rewrite Et, Ec, andb_false_r in X. destruct X as (x' & -> & Ei' & Ex).
  { subst x1. unfold flag, user_flags, ASYNC_USR_MASK in *. cbn [ser on_ser on_conf su on_su info on_info iflags set_iflags].
    generalize (w32 (ss_flags n)). intros v. status_bits. exact Hup. }
  exists x'. split; [done|]. split; [by rewrite Ei'|]. intros T. by rewrite (Ex T).
Qed.

(** C14: Settings are read back, as far as there is room for them.  On a port that
    works, with a file that is not hung up, TIOCSSERIAL by a privileged user who
    passes the checks and does not move the port, or by another who changes only
    what he may, succeeds, and TIOCGSERIAL then shows what was written, with
    these exceptions: the number of the port is its own; and for the privileged user
    the flags that do not exist are left out, the FIFO size is cut to 8 bits and the
    base rate to 28 bits, none of which is refused.  If nothing is left of the base rate and the speed has to be set, the call
    divides by zero.  The terminal and the driver are told nothing of new
    speed flags unless the old and the new ones have a bit in common, or the divisor
    changes: switching a speed on or off takes effect later. *)
Theorem settings_read_back capable n x (Hr : reach x) (Hf : live (files (dev (ser x))) <> 0%nat)
    (Hup : flag 31 (su (ser x)) = true) (Hn : typed n)
    (Ha : if capable : bool then verify_port n = 0 /\ change_port n x = false /\ change_irq n x = false
          else not_allowed n x = false) :
  if capable && tells n x && (ss_baud_base n mod 2 ^ 28 =? 0) then uart_set_info true capable (Some n) x = None
  else exists x', uart_set_info true capable (Some n) x = Some (0, x') /\ uart_get_info x' = stored capable n x /\
    (tells n x = false ->
     drv (su (ser x')) = drv (su (ser x)) /\ alt_speed (tty (su (ser x'))) = alt_speed (tty (su (ser x)))).
Proof.
  destruct (reach_ok _ _ _ _ _ _ _ M x Hr) as [L K].
  destruct (life_live _ _ _ L Hf) as (C & _ & m & Em). rewrite Em in C.
  destruct (core_up _ _ _ _ C Hup) as [U _]. apply core_tuned in C.
  destruct capable; [|by apply (user_outcome n x m)]. destruct Ha as (Hv & Hm & Hi). by apply (root_outcome n x m).
Qed.
End info.

(** ** Example *)

(** Another delay, the highest speed for the setting of 38400, and a FIFO size of which
    44 is left. *)
Definition sample_info : serial_struct := mk_ss 43 1 0 106 0x20 300 0 5203125 70 2 0 3000 0 0.
Definition sample_view (x : serial_line asc_drv) :=
  (flag 31 (su (ser x)), live (files (dev (ser x))), change_port sample_info x, change_irq sample_info x,
   port_flags (conf x), custom_divisor (conf x), line (port (su (ser x)))).
Lemma sample_view_ok :
  option_map (fun '(rs, x) => (rs, sample_view x)) sample_opened =
    Some ([0], (true, 1%nat, false, false, 0x10000000, 0, 1)).
Proof. by vm_compute. Qed.

Lemma settings_read_back_witness : exists x x',
  sample_reach x /\ uart_set_info (H := ifx_asc_pops roomy 1 (fun _ => true)) true true (Some sample_info) x = Some (0, x') /\
  uart_get_info x' = mk_ss 43 1 0 106 0x10000020 44 0 5203125 70 2 0 3000 0 0 /\
  alt_speed (tty (su (ser x'))) = alt_speed (tty (su (ser x))).
Proof.
  destruct (observed (fun _ x => sample_view x) sample_opened _ _ sample_view_ok) as (x & E & V).
  unfold sample_view in V. injection V as F Lv Cp Ci Pf Cd Ln.
  assert (R : sample_reach x).
  { eapply (reach_call _ _ _ _ _ _ _ sample_line (Open root_opener) [0] x);
      [apply reach_fresh, line_fresh|split; [done|by right]|exact E]. }
  assert (T : tells sample_info x = false) by (unfold tells; rewrite Pf, Cd; by vm_compute).
  pose proof (settings_read_back roomy 1 (fun _ => true) sample_clock (fun _ => 1%nat) (fun _ => false) 1 sample_machine
    true sample_info x R ltac:(rewrite Lv; discriminate) F) as W.
  rewrite T in W. destruct W as (x' & Ex & Ei & Es).
  - split; unfold is_s32; cbn; lia.
  - split; [reflexivity|]. by split.
  - exists x, x'. split; [exact R|]. split; [exact Ex|]. split.
    + rewrite Ei. unfold stored. rewrite Pf, Ln. by vm_compute.
    + by apply Es.
Defined.
